(* ===== verification/_CoqProject ===== *)
-Q . S2P
Prelude.v
GoStrings.v
Base64.v
Money.v
Json.v
Game.v
Schema.v
Store.v
Books.v
Custody.v
Wallet.v
Rebate.v
Draws.v
Settlement.v
BetBooks.v
Frames.v
Chain.v
Examples.v
RebateProofs.v
ChainProofs.v
Betting.v
Operations.v
Credit.v
Spin.v
Task.v
Lulu.v
Agent.v
Identity.v
Auth.v
Outbox.v
Leaderboard.v
Scheduler.v
AdminSecurity.v
Staff.v
Access.v
SettlementProofs.v
SchedulerProofs.v
BettingProofs.v
OperationsProofs.v
CreditProofs.v
SpinProofs.v
TaskProofs.v
RedPacket.v
RedPacketProofs.v
LuluProofs.v
LuluHistory.v
LuluConfig.v
LuluConfigProofs.v
AgentProofs.v
IdentityProofs.v
AuthProofs.v
AccessProofs.v
RegisterProofs.v
StaffProofs.v
NewAccounts.v
OutboxProofs.v
LeaderboardProofs.v
LuluDraw.v
ExternalDraw.v
LuluDrawProofs.v
ExternalDrawProofs.v
Nginx.v
Domains.v
DomainsJournal.v
DomainsProofs.v
Robot.v
RobotProofs.v
System.v
