(* ===== verification/Prelude.v ===== *)
(** * Block Beast platform: verification library

    The platform (Go, under [src/internal]) runs a betting game on rounds whose
    results come from public data: players hold wallets in several currencies,
    deposit and withdraw through a chain provider, bet, spin a wheel, send red
    packets, fulfil tasks; agents above them earn commissions.  All state is in
    one PostgreSQL database; each service method is one transaction on it, or a
    few transactions one after the other.  This library is a shallow embedding
    of those methods with the theorems that make them correct.

    ** How the program is modelled

    - A method that runs in one transaction is a term of the monad [Store.Tx],
      [DB -> res (A * DB)]: it commits a new database or fails with the error
      value the code returns, and a failure changes nothing (the deferred
      [tx.Rollback]).  A method that runs several transactions is a term of
      [Store.Svc].  The locks of the code ([FOR UPDATE], advisory locks) make
      conflicting transactions serial, so each one is an atomic step; where a
      method runs several, other transactions may come in between, and the
      step relations quantify over all of these orders.
    - The tables are records of [Schema], keyed by identifier; the primitives
      of [Store] carry what the migrations enforce: primary keys, UNIQUE and
      CHECK constraints, the BIGINT range, the keys of a wallet, and the two
      ledger triggers of migration 0045.
    - [int64] arithmetic is [Z] with its wrap-around written out (the scope
      [%i64] of this file); text is a byte string; JSON is [Json.json] and is
      decoded field by field as [encoding/json] does.
    - The clocks ([now()] of a transaction, [time.Now()] of the process), the
      random sources, [uuid.NewString] (no freshness is assumed: a repeated
      identifier is refused by the primary key), SHA-256, HMAC, the answers of
      the providers and [uuid.Parse] are arguments or classes.

    ** The files

    Shared:
    - [Prelude]: the error monad, [int64], lists and options, automation.
    - [GoStrings], [Base64], [Json]: the parts of the Go standard library the
      code calls ([strings], [strconv], [unicode/utf8], [encoding/base64],
      [encoding/json]).
    - [Schema], [Store]: the tables ([migrations/*.sql]) and the transactions.
    - [Books], [Custody], [BetBooks], [Frames]: the invariants that several
      components share, and the rules by which they follow from the text of a
      transaction.
    - [Examples]: small databases on which the witnesses run.

    Components, with the directory under [src/internal] each one models
    ([XProofs] holds what is proved of [X]):
    - [Money]: domain/wallet/amount.go, application/chain/amount.go.
    - [Wallet]: domain/wallet; the class [RepositoryLaws] is what its callers
      rely on, with an instance for memory.go and one for postgres.go.
    - [Game], [Scheduler]: domain/game; rounds, rules, plays, and the scheduler
      that prepares, opens and closes rounds.
    - [Draws], [Settlement]: application/settlement; draws, winning selections,
      settling and cancelling a round.
    - [Rebate]: application/rebate.
    - [Betting], [Operations]: application/betting, operations/bet_void.go.
    - [Chain]: application/chain, domain/chain; deposits and withdrawals.
    - [Credit], [Spin]: application/credit; point withdrawals, adjustments, the
      lucky wheel.
    - [Task]: application/task; the hook of settlement and the claims.
    - [RedPacket]: application/redpacket.
    - [Lulu] ([LuluProofs], [LuluHistory]), [LuluConfig] ([LuluConfigProofs]):
      application/lulu; orders, receipts and transfers of an external game, and
      the configuration of its channel with the credentials it seals.
    - [LuluDraw], [ExternalDraw]: platform/luludraw, platform/luluall,
      natsjs/draw_inbox.go, application/externaldraw; draws of upstream games.
    - [Agent] ([AgentProofs], [RegisterProofs]): application/agent.
    - [Identity], [Auth]: domain/identity, application/auth.
    - [AdminSecurity], [Staff], [Access] ([AccessProofs], [StaffProofs],
      [NewAccounts]): application/adminsecurity; roles.go, users.go,
      user_controls.go, user_virtual.go, account_creation.go and the virtual
      accounts of analytics.go of application/operations; the routes and guards
      of platform/httpapi.  [NewAccounts] follows the wallets that a new account
      opens and the balances a virtual one starts with.
    - [Outbox]: domain/events, application/outbox.
    - [Leaderboard]: application/leaderboard.
    - [Nginx], [Domains] ([DomainsJournal], [DomainsProofs]):
      platform/domainops; the managed domains of a host and the crash-safe
      engine that changes them.
    - [Robot]: application/virtualbot; the plans by which virtual players bet.
    - [System]: every transaction of the components above as one step relation
      on the database.

    Betting reserves a stake and hands it to Settlement, which pays, rebates
    through Rebate, and calls the hook of Task; Operations and the
    cancellation of a round resolve bets too, and [BetBooks] holds what all of
    them owe each other.  Chain, Credit and Lulu freeze money and share
    [Custody].  The draws of ExternalDraw and Scheduler supply the rounds.
    Auth issues the tokens that Access checks and Staff revokes.

    ** What the theorems show

    - The books ([System.platform_custody]): in every state reachable by the
      transactions of all components, every balance is the sum of its ledger
      deltas, within BIGINT and not negative; every frozen unit belongs to an
      open withdrawal; one wallet per user and currency.
    - Bets: placing charges exactly the stake, once per request, within the
      limits of the game; settling resolves every accepted bet of a round once,
      pays exactly what its odds say, and settling again changes nothing;
      cancelling and voiding give the stake back once, to the wallet that paid;
      rebates are exact.
    - Money in and out: a deposit is credited once; a withdrawal moves along
      its state machine within the policy; a point withdrawal is reviewed once;
      a receipt credits one order once, and an order is handed to the provider
      at most once, over every interleaving of collector, dispatcher and staff;
      and while an order is owed, the receiving account it names stays the
      configured one ([LuluConfigProofs]).
    - Rounds and draws: the rounds of a game stay in order, with one open at
      most; a known draw is final; what a feed can make the inbox accept is
      well-formed.
    - Rewards: red packets conserve money; the wheel, the tasks and the boards
      pay what is due, once; a refreshed board is ranked exactly.
    - Robots: a run of a plan has four outcomes, none of which moves money, and
      the rounds a robot bets in keep the distance its plan says.
    - Accounts: one active session per user; a refresh token serves once; the
      lockout of logins; tokens round-trip and expire; the tree of agents stays
      a forest; a request reaches an endpoint only through every guard of its
      route, and only while its user holds the role ([StaffProofs]; there, and
      only there, two calls are assumed to draw different identifiers).
    - Refinement and equivalence: both wallet repositories satisfy the laws of
      the interface ([Wallet]); both outboxes follow one meaning of their calls,
      differ in one answer that is named, and drain ([OutboxProofs]).
    - Operations of a host: a change of the managed domains is all or nothing,
      wherever it crashes and whatever fails up to its commit ([DomainsProofs]).
    - Text: amounts and tokens round-trip; parsers of amounts are exact.

    Where a theorem would fail, its hypotheses say what the code does not
    ensure: the journal of the managed domains, for one, is only safe while
    nothing fails after the commit, the outbox drains while the text of every
    refusal can be stored, and the inbox takes a draw while its closing time
    has a JSON form.

    ** Bounds and fuel

    Recursion that is not structural carries fuel, and the fuel is enough:
    - the loops of [GoStrings] and [Base64] (formatting, trimming, decoding of
      runes) take at most one round per digit or byte;
    - [Scheduler.fill_fuel]: a round is added at most until three are ahead;
      [SchedulerProofs.EnsureScheduledRounds_prepares] shows that it is reached;
    - walks up the tree of agents are bounded by the number of users or
      relations, which the forest invariant makes enough;
    - the draining loops of the outbox and of the settlement job take one round
      per event or per due round; [OutboxProofs.outbox_drains] shows that the
      queue empties;
    - [Nginx.tokens] and [Nginx.parse] take at least one byte or one token per
      round; [Domains.visit] opens another file at every level.

    ** Not modelled

    - The endpoints of platform/httpapi decode a body, call one service and
      write the answer; realtime sockets, NATS subjects, HTTP clients of the
      providers (pqpa, lulu, tron, okx) and object storage are input and output:
      what they answer is an argument of the services that use it.
    - cmd/* and internal/config wire the parts and read the environment.
    - Reads that change nothing and feed no decision: the listings of the
      staff, reports, analytics, user search, commission_details.go and the
      records of application/rebate.
    - Chat, uploads, phrases, content and game configuration: no
      money or authority passes through them; the tables they share with the
      components above are in [Schema].
    - usermessage (a dictionary of texts) and amountjson (rewriting the amounts
      of a JSON body; an argument of [Access]).
    - Identity.NewSessionToken, which nothing calls.
    - Times are nanoseconds.  A TIMESTAMPTZ keeps microseconds
      ([Store.timestamptz]): settlement and the outbox, which read back or
      compare the times they store, cut them; the other components keep the
      clock's value, so there a clock of whole microseconds is meant.
    - Within a component, its file says what is an argument of the model. *)

From stdpp Require Export base tactics option list strings gmap sorting.
From Stdlib Require Export ZArith Lia.

#[global] Open Scope Z_scope.

(** ** Machine integers: Go's [int64], carried by [Z] *)

Definition int64_min : Z := -9223372036854775808.

Definition int64_max : Z := 9223372036854775807.

(** Two's complement wrap-around of every [int64] operation. *)
Definition wrap64 (z : Z) : Z :=
  (z + 9223372036854775808) mod 18446744073709551616 - 9223372036854775808.

#[global] Arguments wrap64 : simpl never.

Definition in_int64 (z : Z) : Prop := int64_min <= z <= int64_max.

(** Each use of the scope wraps one operation; the operands are ordinary [Z]
    terms, so a nested operation that wraps carries its own [%i64]. *)
Declare Scope int64_scope.
Delimit Scope int64_scope with i64.

Notation "a + b" := (wrap64 (a + b)) : int64_scope.
Notation "a - b" := (wrap64 (a - b)) : int64_scope.
Notation "a * b" := (wrap64 (a * b)) : int64_scope.
Notation "- a" := (wrap64 (- a)) : int64_scope.

(** Go's division truncates towards zero. *)
Notation "a / b" := (wrap64 (Z.quot a b)) : int64_scope.
Notation "a 'rem' b" := (wrap64 (Z.rem a b))
  (at level 40, left associativity) : int64_scope.

Lemma wrap64_small (z : Z) : in_int64 z -> wrap64 z = z.
Proof.
  unfold in_int64, int64_min, int64_max, wrap64. intros H.
  rewrite Z.mod_small; lia.
Qed.

Lemma wrap64_range (z : Z) : in_int64 (wrap64 z).
Proof.
  unfold in_int64, int64_min, int64_max, wrap64.
  pose proof (Z.mod_pos_bound (z + 9223372036854775808) 18446744073709551616).
  lia.
Qed.

Lemma wrap64_wrap (a b : Z) : wrap64 (wrap64 a + b) = wrap64 (a + b).
Proof.
  unfold wrap64. set (M := 18446744073709551616). set (h := 9223372036854775808).
  f_equal. replace ((a + h) mod M - h + b + h) with ((a + h) mod M + b) by lia.
  rewrite Z.add_mod_idemp_l by done. f_equal. lia.
Qed.

(** A wrapped sum of two non-negative [int64] is exact or negative. *)
Lemma wrap64_add_nonneg (a b : Z) :
  0 <= a <= int64_max -> 0 <= b <= int64_max ->
  0 <= wrap64 (a + b) -> wrap64 (a + b) = a + b.
Proof.
  unfold int64_max. intros Ha Hb Hw.
  destruct (decide (a + b <= int64_max)) as [Hs|Hs]; unfold int64_max in Hs.
  - apply wrap64_small. unfold in_int64, int64_min, int64_max. lia.
  - exfalso. revert Hw. unfold wrap64.
    replace (a + b + 9223372036854775808)
      with (a + b - 9223372036854775808 + 1 * 18446744073709551616) by lia.
    rewrite Z.mod_add by lia. rewrite Z.mod_small by lia. lia.
Qed.

(** ** Errors and results *)

(** A sentinel is a package-level [errors.New] value, identified by its
    qualified Go name; the others are what the database driver reports. *)
Inductive error : Type :=
| Sentinel (name : string)
| ErrNoRows
| UniqueViolation (constraint : string)
| CheckViolation (constraint : string)
| ForeignKeyViolation (constraint : string)
| RangeViolation
| RaisedException (message : string)
| Detailed (name : string) (fields : list string).

#[export] Instance error_eq_dec : EqDecision error.
Proof. solve_decision. Defined.

Inductive res (A : Type) : Type :=
| Ok (a : A)
| Err (e : error).

Arguments Ok {A} a.
Arguments Err {A} e.

#[export] Instance res_eq_dec {A} `{EqDecision A} : EqDecision (res A).
Proof. solve_decision. Defined.

#[export] Instance res_ret : MRet res := fun A a => Ok a.
#[export] Instance res_bind : MBind res := fun A B f m =>
  match m with Ok a => f a | Err e => Err e end.

Definition is_Ok {A} (m : res A) : Prop := exists a, m = Ok a.

Definition of_option {A} (e : error) (o : option A) : res A :=
  match o with Some a => Ok a | None => Err e end.

(** An early return: fail with [e] when the condition holds. *)
Definition fail_if (b : bool) (e : error) : res () :=
  if b then Err e else Ok ().

Lemma res_bind_Ok {A B} (m : res A) (f : A -> res B) (b : B) :
  (m ≫= f) = Ok b <-> exists a, m = Ok a /\ f a = Ok b.
Proof.
  destruct m as [a|e]; cbn; split.
  - intros H. exists a. done.
  - intros (a' & [= ->] & H). done.
  - done.
  - intros (a' & H & _). done.
Qed.

Lemma fail_if_Ok (b : bool) (e : error) (u : ()) :
  fail_if b e = Ok u <-> b = false.
Proof. destruct b, u; cbn; split; done. Qed.

(** An early return that was not taken. *)
Lemma guard_Ok {A} (b : bool) (e : error) (k : res A) (a : A) :
  (fail_if b e;; k) = Ok a <-> b = false /\ k = Ok a.
Proof. destruct b; cbn; split; [done|intros [? ?]; done|done|by intros [_ ?]]. Qed.

Lemma of_option_Ok {A} (e : error) (o : option A) (a : A) :
  of_option e o = Ok a <-> o = Some a.
Proof. destruct o; cbn; split; congruence. Qed.

(** Evaluate a run to a boolean observation of its result. *)
Definition succeeds {A} (P : A -> bool) (m : res A) : bool :=
  match m with Ok a => P a | Err _ => false end.

Lemma succeeds_Ok {A} (P : A -> bool) (m : res A) :
  succeeds P m = true -> exists a, m = Ok a /\ P a = true.
Proof. destruct m as [a|]; [intros H; by exists a|done]. Qed.

(** ** Sums over lists *)

Definition sum_Z (l : list Z) : Z := foldr Z.add 0 l.

Lemma sum_Z_app (l k : list Z) : sum_Z (l ++ k) = sum_Z l + sum_Z k.
Proof. induction l as [|x l IH]; cbn in *; [done|]. unfold sum_Z in *. lia. Qed.

Lemma sum_Z_nonneg (l : list Z) : Forall (fun x => 0 <= x) l -> 0 <= sum_Z l.
Proof. induction 1; cbn; [lia|]. unfold sum_Z in *. lia. Qed.

Lemma rev_replicate {A} (n : nat) (x : A) : rev (replicate n x) = replicate n x.
Proof. rewrite rev_alt. apply reverse_replicate. Qed.

(** ** Sums over the rows of a table *)

Definition sum_map {R} (f : R -> Z) (t : gmap string R) : Z :=
  map_fold (fun _ r acc => f r + acc) 0 t.

Lemma sum_map_insert {R} (f : R -> Z) (t : gmap string R) i r :
  t !! i = None -> sum_map f (<[i := r]> t) = f r + sum_map f t.
Proof.
  intros Hi. unfold sum_map. rewrite map_fold_insert_L; [done| |done].
  intros; lia.
Qed.

Lemma sum_map_delete {R} (f : R -> Z) (t : gmap string R) i r :
  t !! i = Some r -> sum_map f t = f r + sum_map f (delete i t).
Proof.
  intros Hi. rewrite <- (insert_delete_id t i r Hi) at 1.
  apply sum_map_insert, lookup_delete_eq.
Qed.

Lemma sum_map_update {R} (f : R -> Z) (t : gmap string R) i r r' :
  t !! i = Some r -> sum_map f (<[i := r']> t) = sum_map f t - f r + f r'.
Proof.
  intros Hi. rewrite <- insert_delete_eq, sum_map_insert by apply lookup_delete_eq.
  rewrite (sum_map_delete f t i r Hi). lia.
Qed.

Lemma sum_map_nonneg {R} (f : R -> Z) (t : gmap string R) :
  (forall i r, t !! i = Some r -> 0 <= f r) -> 0 <= sum_map f t.
Proof.
  intros Hf. unfold sum_map. induction t as [|i r t Hi Hfst IH] using map_first_key_ind.
  - rewrite map_fold_empty. lia.
  - rewrite map_fold_insert_L by (done || intros; lia).
    assert (0 <= f r) by (apply (Hf i); by rewrite lookup_insert_eq).
    assert (0 <= map_fold (fun _ r acc => f r + acc) 0 t).
    { apply IH. intros j x Hj. apply (Hf j). rewrite lookup_insert_ne; [done|congruence]. }
    lia.
Qed.

(** One non-negative row is at most the whole sum. *)
Lemma sum_map_member {R} (f : R -> Z) (t : gmap string R) i r :
  (forall i r, t !! i = Some r -> 0 <= f r) -> t !! i = Some r -> f r <= sum_map f t.
Proof.
  intros Hf Hi. rewrite (sum_map_delete f t i r Hi).
  assert (0 <= sum_map f (delete i t)); [|lia].
  apply sum_map_nonneg. intros j x Hj. apply lookup_delete_Some in Hj as [_ Hj]. eauto.
Qed.

(** The sum of a filtered selection of rows is the sum of guarded rows. *)
Lemma sum_rows {R} (P : string -> R -> bool) (f : R -> Z) (t : gmap string R) :
  (forall k k' r, P k r = P k' r) ->
  sum_Z (map (fun x => f x.2) (List.filter (fun kv => P kv.1 kv.2) (map_to_list t)))
  = sum_map (fun r => if P "" r then f r else 0) t.
Proof.
  intros HP. unfold sum_map. rewrite map_fold_foldr.
  induction (map_to_list t) as [|[k r] l IH]; [done|]. cbn [List.filter foldr].
  rewrite <- IH. cbn [fst snd uncurry]. rewrite (HP k "" r). by destruct (P "" r).
Qed.

Lemma sum_map_le {R} (f g : R -> Z) (t : gmap string R) :
  (forall r, f r <= g r) -> sum_map f t <= sum_map g t.
Proof.
  intros Hfg. unfold sum_map. induction t as [|i r t Hi Hfst IH] using map_first_key_ind; [done|].
  rewrite !map_fold_insert_L by (done || intros; lia). specialize (Hfg r). lia.
Qed.

Lemma filter_keys_NoDup {K R} (f : K * R -> bool) l : NoDup l.*1 -> NoDup (map fst (List.filter f l)).
Proof.
  induction l as [|x l IH]; cbn; [constructor|]. intros [Hx Hl]%NoDup_cons.
  destruct (f x); cbn; [|by apply IH]. apply NoDup_cons. split; [|by apply IH].
  intros (y & Hy & Hin)%list_elem_of_fmap. apply Hx. rewrite Hy. apply list_elem_of_fmap_2.
  apply list_elem_of_In, List.filter_In in Hin as [Hin _]. by apply list_elem_of_In.
Qed.

Lemma sum_map_imap {R} (g : R -> Z) (f : string -> R -> R) (t : gmap string R) :
  (forall i r, t !! i = Some r -> g (f i r) = g r) ->
  sum_map g (map_imap (fun i r => Some (f i r)) t) = sum_map g t.
Proof.
  induction t as [|i r t Hi IH] using map_ind; intros Hg; [done|].
  rewrite (map_imap_insert_Some _ _ _ _ (f i r)) by done.
  rewrite !sum_map_insert; [|done|by rewrite map_lookup_imap, Hi].
  rewrite (Hg i r), IH; [done| |by rewrite lookup_insert_eq].
  intros j x Hj. apply Hg. rewrite lookup_insert_ne; [done|congruence].
Qed.

Lemma sum_map_ext {R} (f g : R -> Z) (t : gmap string R) :
  (forall i r, t !! i = Some r -> f r = g r) -> sum_map f t = sum_map g t.
Proof.
  intros Hfg. unfold sum_map. induction t as [|i r t Hi Hfst IH] using map_first_key_ind; [done|].
  rewrite !map_fold_insert_L by (done || intros; lia). rewrite (Hfg i r) by apply lookup_insert_eq.
  f_equal. apply IH. intros j x Hj. apply (Hfg j). rewrite lookup_insert_ne; [done|congruence].
Qed.

(** ** Automation *)

(** Case analysis on the boolean and option tests of an executable body. *)
Ltac case_match_hyp H :=
  match type of H with
  | context [match ?x with _ => _ end] =>
      let E := fresh "E" in destruct x eqn:E; try discriminate H
  end.

(** Turn boolean comparisons in the context and goal into propositions. *)
Ltac bool_to_prop :=
  repeat match goal with
  | H : (_ && _)%bool = true |- _ => apply andb_prop in H as [? ?]
  | H : (_ || _)%bool = false |- _ => apply orb_false_elim in H as [? ?]
  | H : (_ && _)%bool = false |- _ => apply andb_false_iff in H
  | H : (_ || _)%bool = true |- _ => apply orb_true_iff in H
  | H : negb _ = true |- _ => apply negb_true_iff in H
  | H : negb _ = false |- _ => apply negb_false_iff in H
  | H : (_ <? _) = true |- _ => apply Z.ltb_lt in H
  | H : (_ <? _) = false |- _ => apply Z.ltb_ge in H
  | H : (_ <=? _) = true |- _ => apply Z.leb_le in H
  | H : (_ <=? _) = false |- _ => apply Z.leb_gt in H
  | H : (_ =? _) = true |- _ => apply Z.eqb_eq in H
  | H : (_ =? _) = false |- _ => apply Z.eqb_neq in H
  | H : bool_decide _ = true |- _ => apply bool_decide_eq_true in H
  | H : bool_decide _ = false |- _ => apply bool_decide_eq_false in H
  end.

(** Split the successful run of a monadic [res] body into its steps. *)
Ltac res_steps :=
  repeat match goal with
  | H : (_ ≫= _) = Ok _ |- _ =>
      apply res_bind_Ok in H as (? & ? & H)
  | H : fail_if _ _ = Ok _ |- _ => apply fail_if_Ok in H
  | H : of_option _ _ = Ok _ |- _ => apply of_option_Ok in H
  | H : Ok _ = Ok _ |- _ => injection H as H
  | H : mret _ = Ok _ |- _ => unfold mret, res_ret in H
  end; bool_to_prop.

Create HintDb go discriminated.

#[export] Hint Resolve wrap64_range : go.
Create Rewrite HintDb go_rw.
