(* ===== verification/GoStrings.v ===== *)
(** * Go strings

    A Go string is a byte string, carried by [string]; the functions of the
    packages [strings] and [strconv] that the platform calls work on the list
    of its bytes. *)

From S2P Require Import Prelude.

(** ** Bytes *)

Abbreviation bytes := (list Ascii.ascii).

Definition s2b (s : string) : bytes := String.list_ascii_of_string s.
Definition b2s (b : bytes) : string := String.string_of_list_ascii b.

Definition code (c : Ascii.ascii) : Z := Z.of_nat (Ascii.nat_of_ascii c).

Definition byte_at (n : Z) : Ascii.ascii := Ascii.ascii_of_nat (Z.to_nat n).

Definition str_len (s : string) : Z := Z.of_nat (String.length s).

Lemma s2b_b2s (b : bytes) : s2b (b2s b) = b.
Proof. apply String.list_ascii_of_string_of_list_ascii. Qed.

Lemma b2s_s2b (s : string) : b2s (s2b s) = s.
Proof. apply String.string_of_list_ascii_of_string. Qed.

Lemma s2b_inj (s t : string) : s2b s = s2b t -> s = t.
Proof. intros H. by rewrite <- (b2s_s2b s), H, b2s_s2b. Qed.

Lemma b2s_inj (s t : bytes) : b2s s = b2s t -> s = t.
Proof. intros H. by rewrite <- (s2b_b2s s), H, s2b_b2s. Qed.

Lemma s2b_app (s t : string) : s2b (String.append s t) = s2b s ++ s2b t.
Proof. induction s as [|c s IH]; [done|]. exact (f_equal (cons c) IH). Qed.

Lemma code_range (c : Ascii.ascii) : 0 <= code c < 256.
Proof. unfold code. pose proof (Ascii.nat_ascii_bounded c). lia. Qed.

Lemma code_byte_at (n : Z) : 0 <= n < 256 -> code (byte_at n) = n.
Proof.
  intros H. unfold code, byte_at. rewrite Ascii.nat_ascii_embedding; lia.
Qed.

Lemma byte_at_code (c : Ascii.ascii) : byte_at (code c) = c.
Proof. unfold code, byte_at. by rewrite Nat2Z.id, Ascii.ascii_nat_embedding. Qed.

Lemma code_inj (c d : Ascii.ascii) : code c = code d -> c = d.
Proof. intros H. by rewrite <- (byte_at_code c), H, byte_at_code. Qed.

(** ** Decimal digits *)

Definition is_digit (c : Ascii.ascii) : bool := (48 <=? code c) && (code c <=? 57).

Definition digit_val (c : Ascii.ascii) : Z := code c - 48.

Definition digit_char (d : Z) : Ascii.ascii := byte_at (48 + d).

(** The number a list of digits denotes. *)
Definition value_of (l : bytes) : Z :=
  foldl (fun acc c => acc * 10 + digit_val c) 0 l.

Lemma digit_val_range (c : Ascii.ascii) : is_digit c = true -> 0 <= digit_val c <= 9.
Proof. unfold is_digit, digit_val. intros. bool_to_prop. lia. Qed.

Lemma digit_char_digit (d : Z) : 0 <= d <= 9 -> is_digit (digit_char d) = true.
Proof.
  intros H. unfold is_digit, digit_char. rewrite code_byte_at by lia.
  apply andb_true_iff. split; apply Z.leb_le; lia.
Qed.

Lemma digit_val_char (d : Z) : 0 <= d <= 9 -> digit_val (digit_char d) = d.
Proof. intros H. unfold digit_val, digit_char. rewrite code_byte_at; lia. Qed.

Lemma foldl_value (l : bytes) (a : Z) :
  foldl (fun acc c => acc * 10 + digit_val c) a l = a * 10 ^ Z.of_nat (length l) + value_of l.
Proof.
  unfold value_of. revert a. induction l as [|c l IH]; intros a; cbn [foldl length].
  - cbn. lia.
  - rewrite IH, (IH (0 * 10 + digit_val c)).
    rewrite Nat2Z.inj_succ, Z.pow_succ_r by lia. lia.
Qed.

Lemma value_of_cons (c : Ascii.ascii) (l : bytes) :
  value_of (c :: l) = digit_val c * 10 ^ Z.of_nat (length l) + value_of l.
Proof. unfold value_of at 1. cbn [foldl]. rewrite foldl_value. lia. Qed.

Lemma value_of_app (l k : bytes) :
  value_of (l ++ k) = value_of l * 10 ^ Z.of_nat (length k) + value_of k.
Proof. unfold value_of at 1. rewrite foldl_app. fold (value_of l). apply foldl_value. Qed.

Lemma value_of_bounds (l : bytes) :
  forallb is_digit l = true -> 0 <= value_of l < 10 ^ Z.of_nat (length l).
Proof.
  induction l as [|c l IH]; intros H.
  - cbn. lia.
  - cbn in H. apply andb_prop in H as [Hc Hl]. specialize (IH Hl).
    apply digit_val_range in Hc. rewrite value_of_cons. cbn [length].
    rewrite Nat2Z.inj_succ, Z.pow_succ_r by lia. nia.
Qed.

Lemma value_of_zeros (n : nat) : value_of (replicate n (digit_char 0)) = 0.
Proof.
  induction n as [|n IH]; [done|]. cbn [replicate]. rewrite value_of_cons, IH.
  change (digit_val (digit_char 0)) with 0. lia.
Qed.

Lemma zeros_digits (n : nat) : forallb is_digit (replicate n (digit_char 0)) = true.
Proof. induction n; cbn; [done|]. assumption. Qed.

(** ** strconv *)

(** [strconv.FormatInt(n, 10)]: an [int64] has at most 19 digits, so 20 rounds
    are enough ([value_of_format_nat]). *)
Fixpoint format_nat (fuel : nat) (n : Z) : bytes :=
  match fuel with
  | O => []
  | S fuel' =>
      if n <? 10 then [digit_char n]
      else format_nat fuel' (n / 10) ++ [digit_char (n mod 10)]
  end.

Definition format_int (n : Z) : bytes :=
  if n <? 0 then byte_at 45 :: format_nat 20 (- n) else format_nat 20 n.

Definition FormatInt (n : Z) : string := b2s (format_int n).

(** [strconv.ParseInt(s, 10, 64)]: [None] is any of its errors. *)
Definition parse_uint (l : bytes) : option Z :=
  match l with
  | [] => None
  | _ => if forallb is_digit l then Some (value_of l) else None
  end.

Definition parse_int (l : bytes) : option Z :=
  let signed := match l with
    | c :: r => if code c =? 45 then (-1, r) else if code c =? 43 then (1, r) else (1, l)
    | [] => (1, l)
    end in
  n ← parse_uint (snd signed);
  let v := fst signed * n in
  if (int64_min <=? v) && (v <=? int64_max) then Some v else None.

Definition ParseInt (s : string) : option Z := parse_int (s2b s).

Lemma format_nat_spec (fuel : nat) (n : Z) :
  0 <= n < 10 ^ Z.of_nat fuel -> (0 < fuel)%nat ->
  let l := format_nat fuel n in
  forallb is_digit l = true /\ value_of l = n /\
  (exists c r, l = c :: r /\ (0 < n -> 0 < digit_val c)) /\ (length l <= fuel)%nat.
Proof.
  revert n. induction fuel as [|fuel IH]; intros n Hn Hf; [lia|].
  cbn [format_nat]. destruct (n <? 10) eqn:E; bool_to_prop.
  - cbn. rewrite digit_char_digit by lia. repeat split; try lia.
    + unfold value_of. cbn. rewrite digit_val_char; lia.
    + exists (digit_char n), []. split; [done|]. rewrite digit_val_char; lia.
  - rewrite Nat2Z.inj_succ, Z.pow_succ_r in Hn by lia.
    destruct fuel as [|fuel'].
    { cbn in Hn. lia. }
    destruct (IH (n / 10)) as (Hd & Hv & (c & r & Hl & Hc) & Hlen).
    { split; [apply Z.div_pos; lia|apply Z.div_lt_upper_bound; lia]. }
    { lia. }
    pose proof (Z.mod_pos_bound n 10). cbv zeta. repeat split.
    + rewrite forallb_app, Hd. cbn [forallb]. rewrite digit_char_digit by lia. done.
    + rewrite value_of_app, Hv. unfold value_of. cbn [foldl length].
      rewrite digit_val_char by lia. change (10 ^ Z.of_nat 1) with 10.
      pose proof (Z.div_mod n 10). lia.
    + exists c, (r ++ [digit_char (n mod 10)]). rewrite Hl. split; [done|].
      intros _. apply Hc. apply Z.div_str_pos. lia.
    + rewrite length_app. cbn [length]. lia.
Qed.

(** ** Package strings *)

Fixpoint strip_prefix (p : list Z) (l : bytes) : option bytes :=
  match p, l with
  | [], _ => Some l
  | n :: p', c :: l' => if code c =? n then strip_prefix p' l' else None
  | _ :: _, [] => None
  end.

(** The UTF-8 encodings of the runes [unicode.IsSpace] accepts. *)
Definition space_runes : list (list Z) :=
  [ [9]; [10]; [11]; [12]; [13]; [32]; [194; 133]; [194; 160]; [225; 154; 128];
    [226; 128; 128]; [226; 128; 129]; [226; 128; 130]; [226; 128; 131];
    [226; 128; 132]; [226; 128; 133]; [226; 128; 134]; [226; 128; 135];
    [226; 128; 136]; [226; 128; 137]; [226; 128; 138]; [226; 128; 168];
    [226; 128; 169]; [226; 128; 175]; [226; 129; 159]; [227; 128; 128] ].

Fixpoint strip_any (ps : list (list Z)) (l : bytes) : option bytes :=
  match ps with
  | [] => None
  | p :: ps' =>
      match strip_prefix p l with Some r => Some r | None => strip_any ps' l end
  end.

(** Every round removes at least one byte, so [length l] rounds are enough
    ([trim_stop]). *)
Fixpoint trim_front (fuel : nat) (ps : list (list Z)) (l : bytes) : bytes :=
  match fuel with
  | O => l
  | S fuel' =>
      match strip_any ps l with Some r => trim_front fuel' ps r | None => l end
  end.

Definition trim_left_space (l : bytes) : bytes := trim_front (length l) space_runes l.

Definition trim_right_space (l : bytes) : bytes :=
  rev (trim_front (length l) (map (@rev Z) space_runes) (rev l)).

Definition trim_space (l : bytes) : bytes := trim_right_space (trim_left_space l).

Definition TrimSpace (s : string) : string := b2s (trim_space (s2b s)).

(** [strings.TrimLeft] and [strings.TrimRight] for a one-byte cutset. *)
Fixpoint trim_left (k : Z) (l : bytes) : bytes :=
  match l with
  | c :: r => if code c =? k then trim_left k r else l
  | [] => []
  end.

Definition trim_right (k : Z) (l : bytes) : bytes := rev (trim_left k (rev l)).

(** [strings.SplitN(s, sep, 2)] and [strings.Split(s, sep)], one-byte [sep]. *)
Fixpoint split_once (k : Z) (l : bytes) : bytes * option bytes :=
  match l with
  | [] => ([], None)
  | c :: r =>
      if code c =? k then ([], Some r)
      else let '(a, b) := split_once k r in (c :: a, b)
  end.

Fixpoint split_all (k : Z) (l : bytes) : list bytes :=
  match l with
  | [] => [[]]
  | c :: r =>
      match split_all k r with
      | p :: ps => if code c =? k then [] :: p :: ps else (c :: p) :: ps
      | [] => [[]]
      end
  end.

Definition upper_byte (c : Ascii.ascii) : Ascii.ascii :=
  if (97 <=? code c) && (code c <=? 122) then byte_at (code c - 32) else c.

Definition lower_byte (c : Ascii.ascii) : Ascii.ascii :=
  if (65 <=? code c) && (code c <=? 90) then byte_at (code c + 32) else c.

(** [strings.ToUpper] and [strings.ToLower].  Beyond ASCII, only the letters
    whose other case is an ASCII letter are mapped (dotless i and long s to
    [I], [S]; dotted I and the Kelvin sign to [i], [k]): no other rune can make
    the result equal to an ASCII text, and the platform only compares the
    result with ASCII codes. *)
Fixpoint to_upper (l : bytes) : bytes :=
  match l with
  | c :: ((d :: r) as l') =>
      if (code c =? 196) && (code d =? 177) then byte_at 73 :: to_upper r
      else if (code c =? 197) && (code d =? 191) then byte_at 83 :: to_upper r
      else upper_byte c :: to_upper l'
  | c :: r => upper_byte c :: to_upper r
  | [] => []
  end.

Fixpoint to_lower (l : bytes) : bytes :=
  match l with
  | c :: ((d :: ((e :: q) as r)) as l') =>
      if (code c =? 196) && (code d =? 176) then byte_at 105 :: to_lower r
      else if (code c =? 226) && (code d =? 132) && (code e =? 170)
      then byte_at 107 :: to_lower q
      else lower_byte c :: to_lower l'
  | c :: d :: [] =>
      if (code c =? 196) && (code d =? 176) then [byte_at 105]
      else [lower_byte c; lower_byte d]
  | c :: r => lower_byte c :: r
  | [] => []
  end.

Definition ToUpper (s : string) : string := b2s (to_upper (s2b s)).
Definition ToLower (s : string) : string := b2s (to_lower (s2b s)).

(** The width in bytes of the first rune, as [utf8.DecodeRune]: an invalid
    sequence is one byte. *)
Definition between (lo hi : Z) (c : Ascii.ascii) : bool := (lo <=? code c) && (code c <=? hi).

Definition cont (c : Ascii.ascii) : bool := between 128 191 c.

Definition rune_width (l : bytes) : nat :=
  match l with
  | c :: d :: e :: f :: _ =>
      if between 194 223 c && cont d then 2
      else if (between 224 224 c && between 160 191 d || between 225 236 c && cont d ||
               between 237 237 c && between 128 159 d || between 238 239 c && cont d) && cont e
      then 3
      else if (between 240 240 c && between 144 191 d || between 241 243 c && cont d ||
               between 244 244 c && between 128 143 d) && cont e && cont f
      then 4 else 1
  | c :: d :: e :: [] =>
      if between 194 223 c && cont d then 2
      else if (between 224 224 c && between 160 191 d || between 225 236 c && cont d ||
               between 237 237 c && between 128 159 d || between 238 239 c && cont d) && cont e
      then 3 else 1
  | c :: d :: [] => if between 194 223 c && cont d then 2 else 1
  | _ => 1
  end.

(** [len([]rune(s))]: at most one rune per byte. *)
Fixpoint rune_count (fuel : nat) (l : bytes) : Z :=
  match fuel, l with
  | O, _ | _, [] => 0
  | S fuel', _ => 1 + rune_count fuel' (drop (rune_width l) l)
  end.

Definition rune_len (s : string) : Z := rune_count (String.length s) (s2b s).

Definition HasPrefix (s p : string) : bool := String.prefix p s.

Definition TrimPrefix (s p : string) : string :=
  if HasPrefix s p then String.substring (String.length p) (String.length s - String.length p) s else s.

(** ** Lemmas *)

Lemma strip_prefix_length (p : list Z) (l r : bytes) :
  strip_prefix p l = Some r -> length l = (length p + length r)%nat.
Proof.
  revert l. induction p as [|n p IH]; intros l H; cbn in H; [by injection H as ->|].
  destruct l as [|c l]; [done|]. destruct (code c =? n); [|done].
  apply IH in H. cbn [length]. lia.
Qed.

Lemma strip_prefix_app (p : list Z) (l r k : bytes) :
  strip_prefix p l = Some r -> strip_prefix p (l ++ k) = Some (r ++ k).
Proof.
  revert l. induction p as [|n p IH]; intros l H; cbn in H; [by injection H as ->|].
  destruct l as [|c l]; [done|]. cbn. destruct (code c =? n); [|done]. auto.
Qed.

Lemma strip_any_app (ps : list (list Z)) (l k : bytes) :
  strip_any ps (l ++ k) = None -> strip_any ps l = None.
Proof.
  induction ps as [|p ps IH]; cbn; [done|].
  destruct (strip_prefix p l) as [r|] eqn:E.
  - by rewrite (strip_prefix_app p l r k E).
  - destruct (strip_prefix p (l ++ k)); [done|]. apply IH.
Qed.

Lemma strip_any_length (ps : list (list Z)) (l r : bytes) :
  Forall (fun p => p <> []) ps -> strip_any ps l = Some r -> (length r < length l)%nat.
Proof.
  induction 1 as [|p ps Hp Hps IH]; cbn; [done|].
  destruct (strip_prefix p l) eqn:E; [|done]. intros [= ->].
  apply strip_prefix_length in E. destruct p; cbn in *; [done|lia].
Qed.

Lemma strip_any_nil (ps : list (list Z)) :
  Forall (fun p => p <> []) ps -> strip_any ps [] = None.
Proof. induction 1 as [|p ps Hp Hps IH]; cbn; [done|]. by destruct p. Qed.

Lemma trim_stop (ps : list (list Z)) (fuel : nat) (l : bytes) :
  Forall (fun p => p <> []) ps -> (length l <= fuel)%nat ->
  strip_any ps (trim_front fuel ps l) = None.
Proof.
  intros Hps. revert l. induction fuel as [|fuel IH]; intros l Hl; cbn.
  - destruct l; cbn in *; [|lia]. by apply strip_any_nil.
  - destruct (strip_any ps l) as [r|] eqn:E; [|done].
    apply IH. apply strip_any_length in E; [lia|done].
Qed.

Lemma trim_front_id (ps : list (list Z)) (fuel : nat) (l : bytes) :
  strip_any ps l = None -> trim_front fuel ps l = l.
Proof. destruct fuel; cbn; [done|]. by intros ->. Qed.

Lemma trim_front_suffix (ps : list (list Z)) (fuel : nat) (l : bytes) :
  exists k, l = k ++ trim_front fuel ps l.
Proof.
  revert l. induction fuel as [|fuel IH]; intros l; cbn; [by exists []|].
  destruct (strip_any ps l) as [r|] eqn:E; [|by exists []].
  destruct (IH r) as [k Hk].
  assert (exists j, l = j ++ r) as [j Hj].
  { clear -E. induction ps as [|p ps IH]; cbn in E; [done|].
    destruct (strip_prefix p l) eqn:E'; [injection E as ->|auto]. clear IH.
    revert l E'. induction p as [|n p IH]; intros l E'.
    - injection E' as ->. by exists [].
    - destruct l as [|c l]; cbn in E'; [done|].
      destruct (code c =? n); [|done]. apply IH in E' as [j ->]. by exists (c :: j). }
  exists (j ++ k). rewrite <- app_assoc, <- Hk. exact Hj.
Qed.

Lemma space_runes_nonempty : Forall (fun p => p <> []) space_runes.
Proof. repeat constructor; discriminate. Qed.

Lemma rev_space_runes_nonempty : Forall (fun p => p <> []) (map (@rev Z) space_runes).
Proof. repeat constructor; discriminate. Qed.

(** A text whose two ends are not spaces is left alone. *)
Lemma trim_space_id (l : bytes) :
  strip_any space_runes l = None ->
  strip_any (map (@rev Z) space_runes) (rev l) = None -> trim_space l = l.
Proof.
  intros Hf Hb. unfold trim_space, trim_left_space. rewrite (trim_front_id _ _ _ Hf).
  unfold trim_right_space. rewrite (trim_front_id _ _ _ Hb). apply rev_involutive.
Qed.

Lemma trim_space_idemp (l : bytes) : trim_space (trim_space l) = trim_space l.
Proof.
  set (a := trim_left_space l).
  assert (Ha : strip_any space_runes a = None).
  { apply trim_stop; [apply space_runes_nonempty|done]. }
  assert (Hb : strip_any (map (@rev Z) space_runes) (rev (trim_space l)) = None).
  { unfold trim_space, trim_right_space. rewrite rev_involutive.
    apply trim_stop; [apply rev_space_runes_nonempty|]. by rewrite length_rev. }
  apply trim_space_id; [|exact Hb].
  unfold trim_space. fold a. unfold trim_right_space in *.
  destruct (trim_front_suffix (map (@rev Z) space_runes) (length a) (rev a)) as [k Hk].
  apply (strip_any_app _ _ (rev k)). rewrite <- rev_app_distr, <- Hk, rev_involutive. done.
Qed.

Lemma TrimSpace_idemp (s : string) : TrimSpace (TrimSpace s) = TrimSpace s.
Proof. unfold TrimSpace. by rewrite s2b_b2s, trim_space_idemp. Qed.

(** Visible ASCII: no space rune starts or ends with such a byte. *)
Definition plain_byte (c : Ascii.ascii) : bool :=
  (33 <=? code c) && (code c <=? 127).

Definition starts_odd (p : list Z) : bool :=
  match p with n :: _ => (n <=? 32) || (128 <=? n) | [] => false end.

Lemma strip_any_plain (ps : list (list Z)) (l : bytes) :
  forallb starts_odd ps = true -> forallb plain_byte l = true ->
  strip_any ps l = None.
Proof.
  intros Hps Hl. induction ps as [|p ps IH]; [done|].
  cbn in Hps. apply andb_prop in Hps as [Hp Hps]. cbn [strip_any].
  destruct p as [|n p]; [done|]. destruct l as [|c l]; cbn [strip_prefix]; [by apply IH|].
  destruct (code c =? n) eqn:E; [|by apply IH]. exfalso.
  cbn in Hl. apply andb_prop in Hl as [Hc _]. unfold plain_byte in Hc.
  cbn in Hp. apply orb_true_iff in Hp. bool_to_prop. destruct Hp; bool_to_prop; lia.
Qed.

(** Text whose bytes are all visible ASCII is its own trimming. *)
Lemma trim_space_plain (l : bytes) : forallb plain_byte l = true -> trim_space l = l.
Proof.
  intros Hl. apply trim_space_id; apply strip_any_plain; try reflexivity; [exact Hl|].
  rewrite forallb_forall in *. intros c Hc%in_rev. auto.
Qed.

Lemma split_once_none (k : Z) (l : bytes) :
  forallb (fun c => negb (code c =? k)) l = true -> split_once k l = (l, None).
Proof.
  induction l as [|c l IH]; cbn; [done|]. intros [Hc Hl]%andb_prop.
  bool_to_prop. rewrite (proj2 (Z.eqb_neq _ _)) by done. by rewrite IH.
Qed.

Lemma split_once_some (k : Z) (l r : bytes) (c : Ascii.ascii) :
  forallb (fun c => negb (code c =? k)) l = true -> code c = k ->
  split_once k (l ++ c :: r) = (l, Some r).
Proof.
  induction l as [|d l IH]; cbn; intros Hl Hc.
  - by rewrite (proj2 (Z.eqb_eq _ _)).
  - apply andb_prop in Hl as [Hd Hl]. bool_to_prop.
    rewrite (proj2 (Z.eqb_neq _ _)) by done. by rewrite IH.
Qed.

Lemma digits_no_dot (l : bytes) :
  forallb is_digit l = true -> forallb (fun c => negb (code c =? 46)) l = true.
Proof.
  rewrite !forallb_forall. intros H c Hc. specialize (H c Hc). unfold is_digit in H.
  bool_to_prop. apply negb_true_iff, Z.eqb_neq. lia.
Qed.

Lemma digits_plain (l : bytes) :
  forallb is_digit l = true -> forallb plain_byte l = true.
Proof.
  rewrite !forallb_forall. intros H c Hc. specialize (H c Hc).
  unfold is_digit, plain_byte in *. bool_to_prop.
  apply andb_true_iff. split; apply Z.leb_le; lia.
Qed.

(** Dropping leading zeros changes neither the value nor digit-ness. *)
Lemma trim_left_zeros (l : bytes) :
  forallb is_digit l = true ->
  value_of (trim_left 48 l) = value_of l /\ forallb is_digit (trim_left 48 l) = true /\
  (trim_left 48 l = [] -> value_of l = 0).
Proof.
  induction l as [|c l IH]; intros H; [done|]. pose proof H as H0.
  cbn in H. apply andb_prop in H as [Hc Hl]. cbn [trim_left].
  destruct (code c =? 48) eqn:E; [|done].
  bool_to_prop. destruct (IH Hl) as (Hv & Hd & Hn).
  rewrite value_of_cons. unfold digit_val. rewrite E.
  replace (48 - 48) with 0 by lia. rewrite Z.mul_0_l, Z.add_0_l. done.
Qed.

Lemma parse_int_digits (l : bytes) :
  forallb is_digit l = true -> l <> [] ->
  parse_int l = if value_of l <=? int64_max then Some (value_of l) else None.
Proof.
  intros Hd Hn. unfold parse_int. destruct l as [|c l]; [done|].
  pose proof Hd as Hd'. cbn in Hd'. apply andb_prop in Hd' as [Hc _].
  unfold is_digit in Hc. bool_to_prop.
  rewrite (proj2 (Z.eqb_neq (code c) 45)), (proj2 (Z.eqb_neq (code c) 43)) by lia.
  cbn [fst snd]. unfold parse_uint. rewrite Hd. cbn -[value_of int64_min int64_max].
  rewrite Z.mul_1_l. pose proof (value_of_bounds _ Hd).
  rewrite (proj2 (Z.leb_le int64_min _)); [done|]. unfold int64_min. lia.
Qed.

(** A number that is not negative reads back as it was printed. *)
Lemma ParseInt_FormatInt (n : Z) : 0 <= n <= int64_max -> ParseInt (FormatInt n) = Some n.
Proof.
  intros Hn. unfold ParseInt, FormatInt. rewrite s2b_b2s. unfold format_int.
  rewrite (proj2 (Z.ltb_ge n 0)) by lia.
  destruct (format_nat_spec 20 n) as (Hd & Hv & (c & r & Hl & _) & _).
  { unfold int64_max in Hn. change (10 ^ Z.of_nat 20) with 100000000000000000000. lia. }
  { lia. }
  rewrite parse_int_digits; [|done|by rewrite Hl]. rewrite Hv. by rewrite (proj2 (Z.leb_le _ _)) by lia.
Qed.

(** ** Splitting on every separator *)

Definition free_of (k : Z) (l : bytes) : bool := forallb (fun c => negb (code c =? k)) l.

Lemma split_all_free (k : Z) (l : bytes) : free_of k l = true -> split_all k l = [l].
Proof.
  induction l as [|c l IH]; [done|]. cbn. intros [Hc Hl]%andb_prop.
  rewrite (IH Hl). bool_to_prop. by rewrite (proj2 (Z.eqb_neq _ _)).
Qed.

Lemma split_all_sep (k : Z) (a r : bytes) (c : Ascii.ascii) :
  free_of k a = true -> code c = k -> split_all k (a ++ c :: r) = a :: split_all k r.
Proof.
  intros Ha Hc. assert (Hn : forall x, split_all k x <> []).
  { induction x as [|y x IH]; cbn; [done|]. destruct (split_all k x); [done|].
    by destruct (code y =? k). }
  induction a as [|d a IH]; cbn in *.
  - destruct (split_all k r) eqn:E; [by apply Hn in E|]. by rewrite (proj2 (Z.eqb_eq _ _)).
  - apply andb_prop in Ha as [Hd Ha]. rewrite (IH Ha). bool_to_prop.
    by rewrite (proj2 (Z.eqb_neq _ _)).
Qed.

Lemma free_or_split (k : Z) (l : bytes) :
  free_of k l = true \/
  exists a c r, l = a ++ c :: r /\ free_of k a = true /\ code c = k.
Proof.
  induction l as [|d l [IH|(a & c & r & -> & Ha & Hc)]]; [by left| |].
  - destruct (code d =? k) eqn:E; bool_to_prop.
    + right. by exists [], d, l.
    + left. cbn. rewrite (proj2 (Z.eqb_neq _ _)) by done. exact IH.
  - destruct (code d =? k) eqn:E; bool_to_prop.
    + right. by exists [], d, (a ++ c :: r).
    + right. exists (d :: a), c, r. split; [done|]. cbn.
      by rewrite (proj2 (Z.eqb_neq _ _)).
Qed.

Lemma split_all_three (k : Z) (l a b c : bytes) :
  split_all k l = [a; b; c] ->
  exists x y, l = a ++ x :: b ++ y :: c /\ code x = k /\ code y = k.
Proof.
  intros Hs. destruct (free_or_split k l) as [Hf|(a' & x & r & -> & Ha & Hx)]; [by rewrite split_all_free in Hs|].
  rewrite split_all_sep in Hs by done. injection Hs as -> Hs.
  destruct (free_or_split k r) as [Hf|(b' & y & r' & -> & Hb & Hy)]; [by rewrite split_all_free in Hs|].
  rewrite split_all_sep in Hs by done. injection Hs as -> Hs.
  destruct (free_or_split k r') as [Hf|(c' & z & r'' & -> & Hc & Hz)].
  - rewrite split_all_free in Hs by done. injection Hs as ->. by exists x, y.
  - rewrite split_all_sep in Hs by done. injection Hs as -> Hs.
    destruct (free_or_split k r'') as [Hf|(d' & w & r3 & -> & Hd & Hw)];
      [by rewrite split_all_free in Hs|by rewrite split_all_sep in Hs].
Qed.

(** At most two parts: the text, or two texts around one separator. *)
Lemma split_all_two (k : Z) (l : bytes) :
  (length (split_all k l) <= 2)%nat ->
  (split_all k l = [l] /\ free_of k l = true) \/
  exists a c r, l = a ++ c :: r /\ split_all k l = [a; r] /\ code c = k.
Proof.
  intros H. destruct (free_or_split k l) as [Hf|(a & c & r & -> & Ha & Hc)].
  - left. by rewrite split_all_free.
  - right. exists a, c, r. split; [done|split; [|done]].
    rewrite split_all_sep in * by done.
    destruct (free_or_split k r) as [Hr|(a' & c' & r' & -> & Ha' & Hc')].
    + by rewrite split_all_free.
    + exfalso. rewrite split_all_sep in H by done. cbn in H.
      destruct (split_all k r') as [|x y] eqn:E; [|cbn in H; lia].
      destruct r'; cbn in E; [done|]. destruct (split_all k r'); [done|].
      destruct (code a0 =? k); done.
Qed.

(** ** URLs *)

(** What [url.Parse] answers, [Hostname] and [Port] included. *)
Record url : Type := mk_url {
  url_Scheme : string;
  url_User : bool;
  url_Host : string;
  url_Hostname : string;
  url_Port : string;
  url_Path : string;
  url_RawQuery : string;
  url_ForceQuery : bool;
  url_Fragment : string
}.

(** ** Order

    UUIDs compare as their canonical text does. *)

Definition str_le (s t : string) : Prop := String.leb s t = true.

#[export] Instance str_le_dec s t : Decision (str_le s t) := bool_eq_dec _ _.
