(* ===== verification/Base64.v ===== *)
(** * Base64

    [encoding/base64]: the encodings without padding, [RawURLEncoding] and
    [RawStdEncoding], that access tokens, refresh tokens and password hashes
    use, and the decoding of keys with padding.  Decoding skips carriage
    returns and line feeds and, not being strict, ignores the unused low bits of
    the last character. *)

From S2P Require Import Prelude GoStrings.

Section base64.
Context (url : bool).

(** The alphabets differ in their last two characters. *)
Definition b64_char (n : Z) : Ascii.ascii :=
  if n <? 26 then byte_at (65 + n)
  else if n <? 52 then byte_at (71 + n)
  else if n <? 62 then byte_at (n - 4)
  else if n =? 62 then byte_at (if url then 45 else 43)
  else byte_at (if url then 95 else 47).

Definition b64_value (c : Ascii.ascii) : option Z :=
  let n := code c in
  if (65 <=? n) && (n <=? 90) then Some (n - 65)
  else if (97 <=? n) && (n <=? 122) then Some (n - 71)
  else if (48 <=? n) && (n <=? 57) then Some (n + 4)
  else if n =? (if url then 45 else 43) then Some 62
  else if n =? (if url then 95 else 47) then Some 63
  else None.

Fixpoint b64_encode (l : bytes) : bytes :=
  match l with
  | a :: b :: c :: rest =>
      let n := code a * 65536 + code b * 256 + code c in
      b64_char (n / 262144) :: b64_char (n / 4096 mod 64) :: b64_char (n / 64 mod 64) :: b64_char (n mod 64)
        :: b64_encode rest
  | [a; b] =>
      let n := code a * 1024 + code b * 4 in
      [b64_char (n / 4096); b64_char (n / 64 mod 64); b64_char (n mod 64)]
  | [a] => let n := code a * 16 in [b64_char (n / 64); b64_char (n mod 64)]
  | [] => []
  end.

Fixpoint b64_bytes (l : list Z) : option bytes :=
  match l with
  | a :: b :: c :: d :: rest =>
      let n := a * 262144 + b * 4096 + c * 64 + d in
      r ← b64_bytes rest;
      Some (byte_at (n / 65536) :: byte_at (n / 256 mod 256) :: byte_at (n mod 256) :: r)
  | [a; b; c] => let n := a * 4096 + b * 64 + c in Some [byte_at (n / 1024); byte_at (n / 4 mod 256)]
  | [a; b] => Some [byte_at ((a * 64 + b) / 16)]
  | [_] => None
  | [] => Some []
  end.

Definition line_break (c : Ascii.ascii) : bool := (code c =? 10) || (code c =? 13).

Definition b64_decode (l : bytes) : option bytes :=
  vs ← mapM b64_value (List.filter (fun c => negb (line_break c)) l);
  b64_bytes vs.

(** [StdEncoding] and [URLEncoding] are padded to whole quanta. *)
Definition unpad (l : bytes) : bytes :=
  match rev l with
  | c :: d :: rest =>
      if code c =? 61 then if code d =? 61 then rev rest else rev (d :: rest) else l
  | _ => l
  end.

Definition b64_decode_padded (l : bytes) : option bytes :=
  let l := List.filter (fun c => negb (line_break c)) l in
  if (length l mod 4 =? 0)%nat then b64_decode (unpad l) else None.

(** ** Decoding undoes encoding *)

Lemma b64_char_code (n : Z) : 0 <= n < 64 ->
  line_break (b64_char n) = false /\ b64_value (b64_char n) = Some n /\ code (b64_char n) <> 46.
Proof.
  intros Hn. unfold line_break, b64_value, b64_char.
  assert (Hc : forall k, 0 <= k < 256 -> code (byte_at k) = k) by (intros; by apply code_byte_at).
  repeat match goal with
  | |- context [if n <? ?k then _ else _] => destruct (Z.ltb_spec n k)
  | |- context [if n =? ?k then _ else _] => destruct (Z.eqb_spec n k)
  end; destruct url; rewrite ?Hc by lia;
  repeat match goal with
  | |- context [?a <=? ?b] => destruct (Z.leb_spec a b); try lia
  | |- context [?a =? ?b] => destruct (Z.eqb_spec a b); try lia
  end; cbn; repeat split; try lia; f_equal; lia.
Qed.

Lemma b64_mapM (l : list Z) : Forall (fun n => 0 <= n < 64) l ->
  mapM b64_value (List.filter (fun c => negb (line_break c)) (map b64_char l)) = Some l.
Proof.
  induction 1 as [|n l Hn _ IH]; [done|]. cbn. destruct (b64_char_code n Hn) as (-> & Hv & _). cbn. by rewrite Hv, IH.
Qed.

Fixpoint b64_digits (l : bytes) : list Z :=
  match l with
  | a :: b :: c :: rest =>
      let n := code a * 65536 + code b * 256 + code c in
      n / 262144 :: n / 4096 mod 64 :: n / 64 mod 64 :: n mod 64 :: b64_digits rest
  | [a; b] => let n := code a * 1024 + code b * 4 in [n / 4096; n / 64 mod 64; n mod 64]
  | [a] => let n := code a * 16 in [n / 64; n mod 64]
  | [] => []
  end.

(** Three bytes at a time. *)
Lemma triple_ind (P : bytes -> Prop) :
  P [] -> (forall a, P [a]) -> (forall a b, P [a; b]) -> (forall a b c r, P r -> P (a :: b :: c :: r)) -> forall l, P l.
Proof.
  intros H0 H1 H2 H3 l. assert (Hl : forall n l, (length l <= n)%nat -> P l); [|by apply (Hl (length l))].
  intros n. induction n as [|n IH]; intros [|a [|b [|c r]]] Hn; cbn in Hn; try lia; auto.
  apply H3, IH. lia.
Qed.

Lemma b64_encode_digits l : b64_encode l = map b64_char (b64_digits l).
Proof. induction l as [| | |a b c r IH] using triple_ind; [done..|]. cbn [b64_encode b64_digits map]. by rewrite IH. Qed.

Lemma b64_digits_range l : Forall (fun n => 0 <= n < 64) (b64_digits l).
Proof.
  induction l as [|a|a b|a b c r IH] using triple_ind; cbn [b64_digits]; repeat constructor; try done;
    try pose proof (code_range a); try pose proof (code_range b); try pose proof (code_range c);
    Z.to_euclidean_division_equations; lia.
Qed.

Lemma byte_at_is n c : n = code c -> byte_at n = c.
Proof. intros ->. apply byte_at_code. Qed.

Lemma b64_bytes_digits l : b64_bytes (b64_digits l) = Some l.
Proof.
  induction l as [|a|a b|a b c r IH] using triple_ind; [done|..].
  - pose proof (code_range a). cbn. do 2 f_equal. apply byte_at_is. Z.to_euclidean_division_equations; lia.
  - pose proof (code_range a). pose proof (code_range b). cbn. do 2 f_equal; [|f_equal];
      apply byte_at_is; Z.to_euclidean_division_equations; lia.
  - pose proof (code_range a). pose proof (code_range b). pose proof (code_range c). cbn [b64_digits b64_bytes].
    rewrite IH. cbn [mbind option_bind]. f_equal. f_equal; [|f_equal; [|f_equal]];
      apply byte_at_is; Z.to_euclidean_division_equations; lia.
Qed.

Lemma b64_roundtrip l : b64_decode (b64_encode l) = Some l.
Proof.
  unfold b64_decode. rewrite b64_encode_digits, b64_mapM by apply b64_digits_range. apply b64_bytes_digits.
Qed.

(** No character of an encoding is [k], for [k] outside the alphabet. *)
Lemma b64_encode_dotless l : Forall (fun c => code c <> 46) (b64_encode l).
Proof.
  rewrite b64_encode_digits. apply Forall_map. eapply Forall_impl; [apply b64_digits_range|].
  intros n Hn. by apply b64_char_code.
Qed.

End base64.
