(* ===== verification/Money.v ===== *)
(** * Amounts of money as decimal text

    Models [domain/wallet/amount.go] (the platform's display amounts) and
    [application/chain/amount.go] (amounts the chain provider sends).  An amount
    is an [int64] of minor units; a currency has 0 to 18 decimals.  The
    theorems: what each parser accepts and the exact number it returns (no
    rounding, no overflow), and that parsing a formatted amount gives it back. *)

From S2P Require Import Prelude GoStrings.

(** ** domain/wallet/amount.go *)

Definition ErrInvalidDisplayAmount : error := Sentinel "wallet.ErrInvalidDisplayAmount".

Fixpoint drop_digits (l : bytes) : bytes :=
  match l with
  | c :: r => if is_digit c then drop_digits r else l
  | [] => []
  end.

(** What follows the integer part of the pattern: [0], or a digit that is not
    [0] and then any digits. *)
Definition match_integer (l : bytes) : option bytes :=
  match l with
  | c :: r =>
      if code c =? 48 then Some r
      else if (49 <=? code c) && (code c <=? 57) then Some (drop_digits r) else None
  | [] => None
  end.

(** The whole pattern: an integer part, then nothing, or a point and 1 to 18
    digits. *)
Definition decimalPattern (l : bytes) : bool :=
  match match_integer l with
  | Some [] => true
  | Some (c :: f) =>
      (code c =? 46) && forallb is_digit f && (1 <=? length f)%nat && (length f <=? 18)%nat
  | None => false
  end.

Definition ValidDisplayAmount (value : string) : bool :=
  let value := s2b (TrimSpace value) in
  decimalPattern value && negb (forallb (fun c => (code c =? 48) || (code c =? 46)) value).

Definition FormatDisplayAmount (minor decimals : Z) : res string :=
  if (decimals <? 0) || (18 <? decimals) then Err ErrInvalidDisplayAmount
  else
    let digits := s2b (FormatInt minor) in
    let '(sign, digits) := match digits with
      | c :: r => if code c =? 45 then ([byte_at 45], r) else ([], digits)
      | [] => ([], digits)
      end in
    if decimals =? 0 then Ok (b2s (sign ++ digits))
    else
      let d := Z.to_nat decimals in
      let digits := if (length digits <=? d)%nat
        then replicate (d - length digits + 1) (byte_at 48) ++ digits else digits in
      let k := (length digits - d)%nat in
      Ok (b2s (sign ++ take k digits ++ [byte_at 46] ++ drop k digits)).

Definition decimalDigits (value : bytes) : bool :=
  match value with [] => false | _ => forallb is_digit value end.

Definition decimalDigitsOrEmpty (value : bytes) : bool :=
  match value with [] => true | _ => decimalDigits value end.

Definition ParseDisplayAmount (value : string) (decimals : Z) : res Z :=
  let value := TrimSpace value in
  if negb (ValidDisplayAmount value) || (decimals <? 0) || (18 <? decimals)
  then Err ErrInvalidDisplayAmount
  else
    let '(integer, rest) := split_once 46 (s2b value) in
    let fraction := default [] rest in
    let integer := match integer with [] => [byte_at 48] | _ => integer end in
    if negb (decimalDigits integer) || negb (decimalDigitsOrEmpty fraction)
       || (decimals <? Z.of_nat (length fraction))
    then Err ErrInvalidDisplayAmount
    else
      let zeros := replicate (Z.to_nat decimals - length fraction) (byte_at 48) in
      let digits := trim_left 48 (integer ++ fraction ++ zeros) in
      match digits with
      | [] => Err ErrInvalidDisplayAmount
      | _ =>
          match parse_int digits with
          | Some minor =>
              if minor <=? 0 then Err ErrInvalidDisplayAmount else Ok minor
          | None => Err ErrInvalidDisplayAmount
          end
      end.

(** ** application/chain/amount.go *)

Definition chain_ErrInvalidAmount : error := Sentinel "chain.ErrInvalidAmount".

Definition parsePlatformDeposit (value : string) (chainDecimals platformDecimals : Z) : res Z :=
  let value := TrimSpace value in
  if (chainDecimals <? 0) || (18 <? chainDecimals) || negb (ValidDisplayAmount value)
  then Err chain_ErrInvalidAmount
  else
    let '(_, rest) := split_once 46 (s2b value) in
    value ← match rest with
      | None => Ok value
      | Some f =>
          if chainDecimals <? Z.of_nat (length f) then Err chain_ErrInvalidAmount
          else Ok (b2s (trim_right 46 (trim_right 48 (s2b value))))
      end;
    match ParseDisplayAmount value platformDecimals with
    | Ok amount => Ok amount
    | Err _ => Err chain_ErrInvalidAmount
    end.

(** [scale := 1; for range decimals { scale *= 10 }]. *)
Fixpoint pow10_loop (n : nat) (scale : Z) : Z :=
  match n with
  | O => scale
  | S n' => pow10_loop n' (scale * 10)%i64
  end.

Definition parseDecimalMinor (value : string) (decimals : Z) : res Z :=
  if (decimals <? 0) || (18 <? decimals) then Err chain_ErrInvalidAmount
  else
    let parts := split_all 46 (s2b (TrimSpace value)) in
    if (2 <? length parts)%nat || (length parts =? 0)%nat
       || match parts with [] :: _ => true | _ => false end
    then Err chain_ErrInvalidAmount
    else
      let integer := default [] (parts !! 0%nat) in
      let fraction := default [] (parts !! 1%nat) in
      if decimals <? Z.of_nat (length fraction) then Err chain_ErrInvalidAmount
      else if negb (forallb (forallb is_digit) parts) then Err chain_ErrInvalidAmount
      else
        let scale := pow10_loop (Z.to_nat decimals) 1 in
        whole ← of_option chain_ErrInvalidAmount (parse_int integer);
        if (int64_max / scale)%i64 <? whole then Err chain_ErrInvalidAmount
        else
          let fraction := fraction
            ++ replicate (Z.to_nat decimals - length fraction) (byte_at 48) in
          tail ← match fraction with
            | [] => Ok 0
            | _ => of_option chain_ErrInvalidAmount (parse_int fraction)
            end;
          if (int64_max - tail)%i64 <? (whole * scale)%i64 then Err chain_ErrInvalidAmount
          else Ok ((whole * scale)%i64 + tail)%i64.

(** ** Specification: the number a decimal text denotes *)

(** No leading zero, as the platform's pattern asks. *)
Definition plain_integer (i : bytes) : Prop :=
  forallb is_digit i = true /\
  (i = [byte_at 48] \/ exists c r, i = c :: r /\ code c <> 48).

(** [t] is the text [i] or [i.f]. *)
Definition decimal_text (t i f : bytes) : Prop :=
  plain_integer i /\ forallb is_digit f = true /\ (length f <= 18)%nat /\
  t = i ++ match f with [] => [] | _ => byte_at 46 :: f end.

(** The digits of the text as one number: the value is [mantissa i f / 10^|f|]. *)
Definition mantissa (i f : bytes) : Z := value_of (i ++ f).

Definition pow10 (n : nat) : Z := 10 ^ Z.of_nat n.

(** ** Lemmas *)

Lemma pow10_pos (n : nat) : 0 < pow10 n.
Proof. unfold pow10. lia. Qed.

Lemma pow10_add (n m : nat) : pow10 (n + m) = pow10 n * pow10 m.
Proof. unfold pow10. rewrite Nat2Z.inj_add, Z.pow_add_r; lia. Qed.

Lemma mantissa_split (i f : bytes) :
  mantissa i f = value_of i * pow10 (length f) + value_of f.
Proof. apply value_of_app. Qed.

Lemma drop_digits_spec (l : bytes) :
  exists d, l = d ++ drop_digits l /\ forallb is_digit d = true.
Proof.
  induction l as [|c l (d & Hd & Hf)]; cbn; [by exists []|].
  destruct (is_digit c) eqn:E; [|by exists []].
  exists (c :: d). cbn. rewrite E, Hf. split; [by f_equal|done].
Qed.

Lemma drop_digits_app (d l : bytes) :
  forallb is_digit d = true ->
  match l with c :: _ => is_digit c = false | [] => True end ->
  drop_digits (d ++ l) = l.
Proof.
  intros Hd Hl. induction d as [|c d IH]; cbn in *.
  - destruct l as [|c l]; cbn; [done|]. by rewrite Hl.
  - apply andb_prop in Hd as [-> Hd]. auto.
Qed.

Lemma match_integer_sound (l r : bytes) :
  match_integer l = Some r -> exists i, l = i ++ r /\ plain_integer i.
Proof.
  destruct l as [|c l]; cbn; [done|].
  destruct (code c =? 48) eqn:E; bool_to_prop.
  - intros [= ->]. exists [c]. split; [done|].
    replace c with (byte_at 48) by (apply code_inj; rewrite E; done).
    split; [done|by left].
  - destruct ((49 <=? code c) && (code c <=? 57)) eqn:F; [|done]. intros [= <-].
    bool_to_prop. destruct (drop_digits_spec l) as (d & Hl & Hd).
    exists (c :: d). split; [cbn; by f_equal|]. split.
    + cbn. rewrite Hd, andb_true_r. unfold is_digit.
      apply andb_true_iff. split; apply Z.leb_le; lia.
    + right. exists c, d. split; [done|lia].
Qed.

Lemma match_integer_complete (i r : bytes) :
  plain_integer i -> match r with c :: _ => is_digit c = false | [] => True end ->
  match_integer (i ++ r) = Some r.
Proof.
  intros [Hd [->|(c & l & -> & Hc)]] Hr; [done|].
  cbn in *. apply andb_prop in Hd as [Hdc Hd]. unfold is_digit in Hdc. bool_to_prop.
  rewrite (proj2 (Z.eqb_neq _ _)) by done.
  rewrite (proj2 (Z.leb_le 49 _)) by lia. rewrite (proj2 (Z.leb_le _ 57)) by lia. cbn.
  by rewrite drop_digits_app.
Qed.

Lemma decimalPattern_iff (t : bytes) :
  decimalPattern t = true <-> exists i f, decimal_text t i f.
Proof.
  unfold decimalPattern, decimal_text. split.
  - destruct (match_integer t) as [r|] eqn:E; [|done].
    apply match_integer_sound in E as (i & -> & Hi). destruct r as [|c f].
    + intros _. exists i, []. cbn. repeat split; [apply Hi..|lia].
    + intros H. bool_to_prop. exists i, f. rewrite <- Nat.leb_le.
      repeat split; [apply Hi..|done|done|].
      f_equal. destruct f; [done|]. f_equal. apply code_inj. by rewrite code_byte_at.
  - intros (i & f & Hi & Hf & Hl & ->).
    rewrite match_integer_complete; [|done|destruct f; done].
    destruct f as [|c f]; [done|]. rewrite code_byte_at by lia. rewrite Hf.
    rewrite (proj2 (Nat.leb_le _ _)) by (cbn; lia).
    by rewrite (proj2 (Nat.leb_le _ _)) by done.
Qed.

(** A digit text is worth zero exactly when all its digits are [0]. *)
Lemma value_of_zero (l : bytes) :
  forallb is_digit l = true ->
  value_of l = 0 <-> forallb (fun c => code c =? 48) l = true.
Proof.
  induction l as [|c l IH]; cbn [forallb]; [done|]. intros [Hc Hl]%andb_prop.
  rewrite value_of_cons. pose proof (digit_val_range _ Hc). pose proof (value_of_bounds _ Hl).
  rewrite andb_true_iff, <- (IH Hl), Z.eqb_eq. unfold digit_val in *.
  pose proof (pow10_pos (length l)). unfold pow10 in *. split; [nia|].
  intros [-> ->]. lia.
Qed.

Lemma trim_all_zero (i f t : bytes) :
  decimal_text t i f ->
  forallb (fun c => (code c =? 48) || (code c =? 46)) t = false <-> 0 < mantissa i f.
Proof.
  intros ((Hi & _) & Hf & _ & ->).
  assert (Hd : forallb is_digit (i ++ f) = true) by (by rewrite forallb_app, Hi, Hf).
  pose proof (value_of_bounds _ Hd). fold (mantissa i f) in *.
  assert (Heq : forall l, forallb is_digit l = true ->
    forallb (fun c => (code c =? 48) || (code c =? 46)) l = forallb (fun c => code c =? 48) l).
  { intros l. rewrite forallb_forall. intros Hl. induction l as [|c l IH]; [done|]. cbn.
    rewrite IH by (intros; apply Hl; by right). f_equal.
    specialize (Hl c (or_introl eq_refl)). unfold is_digit in Hl. bool_to_prop.
    rewrite (proj2 (Z.eqb_neq (code c) 46)) by lia. apply orb_false_r. }
  assert (Hz := value_of_zero _ Hd). fold (mantissa i f) in Hz.
  transitivity (forallb (fun c => code c =? 48) (i ++ f) = false).
  - rewrite !forallb_app, (Heq i Hi).
    enough (forallb (fun c => (code c =? 48) || (code c =? 46))
      match f with [] => [] | _ => byte_at 46 :: f end
      = forallb (fun c => code c =? 48) f) as -> by done.
    destruct f as [|c f]; [done|]. rewrite <- (Heq _ Hf). done.
  - rewrite <- not_true_iff_false, <- Hz. lia.
Qed.

Lemma ValidDisplayAmount_iff (v : string) :
  ValidDisplayAmount v = true <->
  exists i f, decimal_text (s2b (TrimSpace v)) i f /\ 0 < mantissa i f.
Proof.
  unfold ValidDisplayAmount. rewrite andb_true_iff, negb_true_iff, decimalPattern_iff.
  split.
  - intros [(i & f & H) Hz]. exists i, f. split; [done|]. by apply (trim_all_zero i f) in Hz.
  - intros (i & f & H & Hp). split; [by exists i, f|]. by apply (trim_all_zero i f).
Qed.

Lemma decimal_text_split (t i f : bytes) :
  decimal_text t i f ->
  split_once 46 t = (i, match f with [] => None | _ => Some f end) /\ i <> [].
Proof.
  intros ((Hi & Hn) & Hf & _ & ->). split.
  - destruct f as [|c f].
    + rewrite app_nil_r. by apply split_once_none, digits_no_dot.
    + apply split_once_some; [by apply digits_no_dot|]. by rewrite code_byte_at.
  - destruct Hn as [->|(c & r & -> & _)]; done.
Qed.

Lemma decimal_text_inj (t i f i' f' : bytes) :
  decimal_text t i f -> decimal_text t i' f' -> i = i' /\ f = f'.
Proof.
  intros [H _]%decimal_text_split [H' _]%decimal_text_split. rewrite H in H'.
  destruct f, f'; by simplify_eq.
Qed.

(** The tail of [ParseDisplayAmount]: pad, drop leading zeros, read. *)
Lemma parse_padded (ds : bytes) (n : nat) (m : Z) :
  forallb is_digit ds = true ->
  match trim_left 48 (ds ++ replicate n (byte_at 48)) with
  | [] => Err ErrInvalidDisplayAmount
  | _ =>
      match parse_int (trim_left 48 (ds ++ replicate n (byte_at 48))) with
      | Some minor => if minor <=? 0 then Err ErrInvalidDisplayAmount else Ok minor
      | None => Err ErrInvalidDisplayAmount
      end
  end = Ok m <-> m = value_of ds * pow10 n /\ 0 < m <= int64_max.
Proof.
  intros Hd. set (l := ds ++ _).
  assert (Hl : forallb is_digit l = true)
    by (unfold l; rewrite forallb_app, Hd; apply zeros_digits).
  assert (Hv : value_of l = value_of ds * pow10 n).
  { unfold l. rewrite value_of_app. fold (digit_char 0).
    change (byte_at 48) with (digit_char 0). rewrite value_of_zeros, length_replicate.
    unfold pow10. lia. }
  destruct (trim_left_zeros l Hl) as (Htv & Htd & Htn). rewrite <- Hv, <- Htv.
  destruct (trim_left 48 l) as [|c r] eqn:E.
  - split; [done|]. intros [-> Hm]. rewrite Htv, Htn in Hm by done. lia.
  - rewrite parse_int_digits by done. destruct (value_of (c :: r) <=? int64_max) eqn:Hle; bool_to_prop.
    + destruct (value_of (c :: r) <=? 0) eqn:H0; bool_to_prop; split.
      * done.
      * intros [-> ?]. lia.
      * intros [= <-]. lia.
      * by intros [-> ?].
    + split; [done|]. intros [-> ?]. lia.
Qed.

Lemma ParseDisplayAmount_trimmed (v : string) (d m : Z) :
  ParseDisplayAmount v d = Ok m <->
  0 <= d <= 18 /\ exists i f, decimal_text (s2b (TrimSpace v)) i f /\
    Z.of_nat (length f) <= d /\
    m = mantissa i f * pow10 (Z.to_nat d - length f) /\ 0 < m <= int64_max.
Proof.
  unfold ParseDisplayAmount. set (t := TrimSpace v).
  assert (Ht : TrimSpace t = t) by apply TrimSpace_idemp.
  destruct (decide (0 <= d <= 18)) as [Hr|Hr].
  2:{ split; [|by intros [? _]]. intros H. exfalso. apply Hr.
      destruct (_ || _ || _) eqn:E in H; [done|]. bool_to_prop. lia. }
  rewrite (proj2 (Z.ltb_ge d 0)), (proj2 (Z.ltb_ge 18 d)), !orb_false_r by lia.
  destruct (ValidDisplayAmount t) eqn:Hvalid; cbn [negb].
  2:{ split; [done|]. intros (_ & i & f & Hdt & _ & -> & Hm). exfalso.
      rewrite <- not_true_iff_false, ValidDisplayAmount_iff in Hvalid. apply Hvalid.
      rewrite Ht. exists i, f. split; [done|]. pose proof (pow10_pos (Z.to_nat d - length f)). nia. }
  apply ValidDisplayAmount_iff in Hvalid as (i & f & Hdt & Hpos). rewrite Ht in Hdt.
  destruct (decimal_text_split _ _ _ Hdt) as [-> Hne].
  replace (default [] match f with [] => None | _ => Some f end) with f by (by destruct f).
  pose proof Hdt as ((Hi & _) & Hf & _). destruct i as [|c i]; [done|].
  replace (decimalDigits (c :: i)) with true by (symmetry; exact Hi).
  replace (decimalDigitsOrEmpty f) with true by (by destruct f).
  cbn [negb orb]. rewrite app_assoc.
  transitivity (Z.of_nat (length f) <= d /\
    m = mantissa (c :: i) f * pow10 (Z.to_nat d - length f) /\ 0 < m <= int64_max).
  - destruct (d <? Z.of_nat (length f)) eqn:E; bool_to_prop.
    + split; [done|]. lia.
    + rewrite parse_padded by (by rewrite forallb_app, Hi, Hf). unfold mantissa.
      split; [intros H; split; [lia|exact H]|by intros [_ H]].
  - split.
    + intros H. split; [done|]. by exists (c :: i), f.
    + intros (_ & i' & f' & Hdt' & H). destruct (decimal_text_inj _ _ _ _ _ Hdt Hdt') as [-> ->].
      exact H.
Qed.

(** Formatting, as text: an optional sign, the integer part, exactly
    [decimals] fraction digits. *)
Lemma format_int_abs (n : Z) :
  in_int64 n ->
  exists l, format_int n = (if n <? 0 then [byte_at 45] else []) ++ l /\
    forallb is_digit l = true /\ value_of l = Z.abs n /\
    exists c r, l = c :: r /\ (0 < Z.abs n -> 0 < digit_val c) /\ (n = 0 -> r = []).
Proof.
  unfold in_int64, int64_min, int64_max. intros Hn.
  destruct (format_nat_spec 20 (Z.abs n)) as (Hd & Hv & (c & r & Hl & Hc) & _); [lia|lia|].
  exists (format_nat 20 (Z.abs n)).
  split; [|split; [done|split; [done|]]].
  - unfold format_int. destruct (n <? 0) eqn:E; bool_to_prop; [|by rewrite Z.abs_eq by lia].
    by replace (Z.abs n) with (- n) by lia.
  - exists c, r. split; [done|split; [done|]]. intros ->. injection Hl as _ Hr. by rewrite <- Hr.
Qed.

Lemma plain_integer_pad (l : bytes) (d : nat) :
  forallb is_digit l = true ->
  (exists c r, l = c :: r /\ (0 < value_of l -> 0 < digit_val c) /\ (value_of l = 0 -> r = [])) ->
  let l' := if (length l <=? d)%nat
    then replicate (d - length l + 1) (byte_at 48) ++ l else l in
  let k := (length l' - d)%nat in
  plain_integer (take k l') /\ forallb is_digit (drop k l') = true /\
  length (drop k l') = d /\ mantissa (take k l') (drop k l') = value_of l.
Proof.
  intros Hd (c & r & Hl & Hc & Hz) l' k.
  assert (Hd' : forallb is_digit l' = true).
  { unfold l'. destruct (_ <=? _)%nat; [|done]. rewrite forallb_app, Hd.
    rewrite andb_true_r. apply zeros_digits. }
  assert (Hv : value_of l' = value_of l).
  { unfold l'. destruct (_ <=? _)%nat; [|done]. rewrite value_of_app.
    change (byte_at 48) with (digit_char 0). rewrite value_of_zeros. lia. }
  assert (Hlen : (d < length l')%nat).
  { unfold l'. destruct (length l <=? d)%nat eqn:E.
    - apply Nat.leb_le in E. rewrite length_app, length_replicate. lia.
    - apply Nat.leb_gt in E. lia. }
  rewrite <- (take_drop k l'), forallb_app in Hd'. apply andb_prop in Hd' as [Ht Hdr].
  split; [|split; [done|split]].
  - split; [done|]. destruct (length l <=? d)%nat eqn:E.
    + left. apply Nat.leb_le in E.
      unfold k, l'. rewrite length_app, length_replicate.
      replace (d - length l + 1 + length l - d)%nat with 1%nat by lia.
      replace (d - length l + 1)%nat with (S (d - length l)) by lia. done.
    + assert (Hl' : l' = l) by reflexivity.
      assert (Hk : (0 < k)%nat) by (unfold k; lia). clearbody k l'. subst l' l.
      destruct k as [|k']; [lia|].
      destruct (decide (value_of (c :: r) = 0)) as [H0|H0].
      * specialize (Hz H0). subst r.
        left. cbn in Hd. rewrite andb_true_r in Hd. cbn. destruct k'; cbn; f_equal.
        all: apply code_inj; rewrite code_byte_at by lia.
        all: unfold value_of in H0; cbn in H0; unfold digit_val in H0; lia.
      * right. exists c, (take k' r). split; [done|]. pose proof (value_of_bounds _ Hd).
        assert (Hp : 0 < digit_val c) by (apply Hc; lia). unfold digit_val in Hp. lia.
  - rewrite length_drop. lia.
  - unfold mantissa. by rewrite take_drop.
Qed.

Lemma FormatDisplayAmount_text (minor decimals : Z) :
  in_int64 minor -> 0 <= decimals <= 18 ->
  exists i f,
    FormatDisplayAmount minor decimals =
      Ok (b2s ((if minor <? 0 then [byte_at 45] else [])
               ++ i ++ match f with [] => [] | _ => byte_at 46 :: f end)) /\
    plain_integer i /\ forallb is_digit f = true /\
    Z.of_nat (length f) = decimals /\ mantissa i f = Z.abs minor.
Proof.
  intros Hm Hd. destruct (format_int_abs minor Hm) as (l & Hf & Hdg & Hv & Hne).
  unfold FormatDisplayAmount, FormatInt. rewrite s2b_b2s, Hf.
  rewrite (proj2 (Z.ltb_ge decimals 0)), (proj2 (Z.ltb_ge 18 decimals)) by lia. cbn [orb].
  set (sgn := if minor <? 0 then [byte_at 45] else []).
  assert (Hs : (match sgn ++ l with
      | c :: r => if code c =? 45 then ([byte_at 45], r) else ([], sgn ++ l)
      | [] => ([], sgn ++ l) end) = (sgn, l)).
  { unfold sgn. destruct (minor <? 0); cbn [app]; [done|].
    destruct Hne as (c & r & -> & _). cbn in Hdg. apply andb_prop in Hdg as [Hc _].
    unfold is_digit in Hc. bool_to_prop. by rewrite (proj2 (Z.eqb_neq _ _)) by lia. }
  rewrite Hs. assert (Hne' : exists c r, l = c :: r /\
    (0 < value_of l -> 0 < digit_val c) /\ (value_of l = 0 -> r = [])).
  { destruct Hne as (c & r & Hl & Hc & Hr). exists c, r. rewrite Hv.
    split; [done|split; [done|]]. intros. apply Hr. lia. }
  pose proof (plain_integer_pad l (Z.to_nat decimals) Hdg Hne') as Hp. cbv zeta in Hp.
  destruct (decimals =? 0) eqn:E; bool_to_prop.
  - subst decimals. exists l, []. rewrite app_nil_r. split; [done|].
    replace (length l <=? Z.to_nat 0)%nat with false in Hp
      by (symmetry; apply Nat.leb_gt; destruct Hne as (c & r & -> & _); cbn; lia).
    rewrite Nat.sub_0_r, take_ge in Hp by lia.
    split; [apply Hp|]. unfold mantissa. rewrite app_nil_r. done.
  - destruct Hp as (Hi & Hfr & Hlen & Hma). eexists _, _. split; [|split; [exact Hi|split;
      [exact Hfr|split; [rewrite Hlen; lia|by rewrite Hma, Hv]]]].
    do 2 f_equal. destruct (drop _ _) eqn:Edrop; [cbn in Hlen; lia|done].
Qed.

Lemma trim_decimal_text (t i f : bytes) : decimal_text t i f -> trim_space t = t.
Proof.
  intros ((Hi & _) & Hf & _ & ->). apply trim_space_plain.
  rewrite forallb_app, (digits_plain i Hi). destruct f; [done|].
  exact (digits_plain _ Hf).
Qed.

(** Cutting the trailing zeros of the fraction, then the point if bare. *)
Lemma trim_left_id (k : Z) (l : bytes) :
  match l with c :: _ => code c <> k | [] => True end -> trim_left k l = l.
Proof. destruct l as [|c l]; cbn; [done|]. intros H. by rewrite (proj2 (Z.eqb_neq _ _)). Qed.

Lemma trim_left_split (k : Z) (l : bytes) :
  exists n, l = replicate n (byte_at k) ++ trim_left k l /\
    match trim_left k l with c :: _ => code c <> k | [] => True end.
Proof.
  induction l as [|c l (n & Hl & Hh)]; cbn; [by exists 0%nat|].
  destruct (code c =? k) eqn:E; bool_to_prop.
  - exists (S n). cbn. split; [|done]. rewrite <- Hl. f_equal.
    by rewrite <- E, byte_at_code.
  - exists 0%nat. done.
Qed.

Lemma trim_fraction (i f : bytes) :
  plain_integer i -> forallb is_digit f = true -> f <> [] ->
  exists n g, f = g ++ replicate n (byte_at 48) /\
    (g = [] \/ exists h c, g = h ++ [c] /\ code c <> 48) /\
    trim_right 46 (trim_right 48 (i ++ byte_at 46 :: f)) =
      i ++ match g with [] => [] | _ => byte_at 46 :: g end.
Proof.
  intros [Hi Hne] Hf Hn.
  destruct (trim_left_split 48 (rev f)) as (n & Hrev & Hhd).
  set (g := rev (trim_left 48 (rev f))) in *.
  assert (Hfg : f = g ++ replicate n (byte_at 48)).
  { rewrite <- (rev_involutive f), Hrev, rev_app_distr. unfold g. f_equal.
    apply rev_replicate. }
  assert (Hg : g = [] \/ exists h c, g = h ++ [c] /\ code c <> 48).
  { unfold g. destruct (trim_left 48 (rev f)) as [|c h]; [by left|].
    right. exists (rev h), c. done. }
  exists n, g. split; [done|split; [done|]].
  assert (H48 : forall m x, trim_left 48 (replicate m (byte_at 48) ++ x) = trim_left 48 x).
  { intros m x. induction m; cbn; done. }
  assert (Hpre : trim_right 48 (i ++ byte_at 46 :: f) = i ++ byte_at 46 :: g).
  { unfold trim_right. rewrite Hfg, app_comm_cons, app_assoc, rev_app_distr.
    rewrite rev_replicate, H48, trim_left_id; [apply rev_involutive|].
    destruct Hg as [->|(h & c & -> & Hc)].
    - rewrite rev_app_distr. cbn. rewrite code_byte_at; lia.
    - rewrite rev_app_distr. cbn. rewrite rev_app_distr. cbn. done. }
  rewrite Hpre. unfold trim_right. destruct Hg as [->|(h & c & Hg & Hc)].
  - rewrite rev_app_distr. change (rev [byte_at 46] ++ rev i) with (byte_at 46 :: rev i).
    change (trim_left 46 (byte_at 46 :: rev i)) with (trim_left 46 (rev i)).
    rewrite trim_left_id; [by rewrite rev_involutive, app_nil_r|].
    destruct (rev i) as [|x y] eqn:E; [done|].
    assert (Hx : In x i) by (apply in_rev; rewrite E; by left).
    rewrite forallb_forall in Hi. specialize (Hi x Hx). unfold is_digit in Hi. bool_to_prop. lia.
  - assert (Hdc : is_digit c = true).
    { rewrite Hfg, Hg, !forallb_app in Hf. cbn in Hf. bool_to_prop. done. }
    rewrite trim_left_id.
    + rewrite rev_involutive. by destruct g; [destruct h|].
    + rewrite Hg, rev_app_distr. cbn. rewrite rev_app_distr. cbn.
      unfold is_digit in Hdc. bool_to_prop. lia.
Qed.

(** The value survives the cut: the deposit parser compares equal numbers. *)
Lemma mantissa_cut (i g : bytes) (n : nat) :
  mantissa i (g ++ replicate n (byte_at 48)) = mantissa i g * pow10 n.
Proof.
  unfold mantissa. rewrite app_assoc, value_of_app, length_replicate.
  change (byte_at 48) with (digit_char 0). rewrite value_of_zeros. unfold pow10. lia.
Qed.

(** A fraction that does not end in [0] needs all its digits. *)
Lemma cut_fraction_needed (i g : bytes) (d : nat) (m : Z) :
  forallb is_digit g = true ->
  (g = [] \/ exists h c, g = h ++ [c] /\ code c <> 48) ->
  m * pow10 (length g) = mantissa i g * pow10 d ->
  (length g <= d)%nat /\ m = mantissa i g * pow10 (d - length g).
Proof.
  intros Hg Hend Hm. pose proof (pow10_pos (length g)).
  assert (Hle : (length g <= d)%nat).
  { destruct Hend as [->|(h & c & -> & Hc)]; [cbn; lia|].
    rewrite forallb_app in Hg. cbn in Hg. bool_to_prop.
    assert (Hdc := digit_val_range c ltac:(assumption)).
    destruct (decide (length (h ++ [c]) <= d)%nat) as [|Hgt]; [done|]. exfalso.
    replace (length (h ++ [c])) with (S (length (h ++ [c]) - 1 - d) + d)%nat in Hm by lia.
    rewrite pow10_add in Hm. unfold mantissa in Hm.
    rewrite app_assoc, value_of_app in Hm. unfold value_of at 2 in Hm. cbn [foldl length] in Hm.
    replace (pow10 (S _)) with (10 * pow10 (length (h ++ [c]) - 1 - d)) in Hm
      by (unfold pow10; rewrite Nat2Z.inj_succ, Z.pow_succ_r by lia; lia).
    pose proof (pow10_pos d). change (10 ^ Z.of_nat 1) with 10 in Hm.
    set (p := pow10 (length (h ++ [c]) - 1 - d)) in *. set (v := value_of (i ++ h)) in *.
    assert (Heq : m * (10 * p) = v * 10 + digit_val c)
      by (apply (Z.mul_reg_r _ _ (pow10 d)); lia).
    unfold digit_val in *. assert (Hmod : (code c - 48) = 10 * (m * p - v)) by lia. lia. }
  split; [done|]. replace d with (length g + (d - length g))%nat in Hm at 1 by lia.
  rewrite pow10_add in Hm. apply (Z.mul_reg_r _ _ (pow10 (length g))); lia.
Qed.

Lemma parsePlatformDeposit_cut (v : string) (cd : Z) (i f : bytes) :
  0 <= cd <= 18 -> decimal_text (s2b (TrimSpace v)) i f -> 0 < mantissa i f ->
  Z.of_nat (length f) <= cd ->
  exists n g, f = g ++ replicate n (byte_at 48) /\
    (g = [] \/ exists h c, g = h ++ [c] /\ code c <> 48) /\
    decimal_text (i ++ match g with [] => [] | _ => byte_at 46 :: g end) i g /\
    forall pd, parsePlatformDeposit v cd pd =
      match ParseDisplayAmount
        (b2s (i ++ match g with [] => [] | _ => byte_at 46 :: g end)) pd with
      | Ok a => Ok a | Err _ => Err chain_ErrInvalidAmount end.
Proof.
  intros Hcd Hdt Hpos Hlen. pose proof Hdt as (Hi & Hf & H18 & Htext).
  assert (Hva : ValidDisplayAmount (TrimSpace v) = true).
  { apply ValidDisplayAmount_iff. rewrite TrimSpace_idemp. by exists i, f. }
  destruct (decide (f = [])) as [->|Hne].
  - exists 0%nat, []. split; [done|split; [by left|split]].
    + split; [done|split; [done|split; [cbn; lia|done]]].
    + intros pd. unfold parsePlatformDeposit. rewrite Hva.
      rewrite (proj2 (Z.ltb_ge cd 0)), (proj2 (Z.ltb_ge 18 cd)) by lia. cbn [negb orb].
      destruct (decimal_text_split _ _ _ Hdt) as [-> _]. cbn [mbind res_bind].
      by rewrite <- Htext, b2s_s2b.
  - destruct (trim_fraction i f Hi Hf Hne) as (n & g & Hfg & Hg & Hcut).
    exists n, g. split; [done|split; [done|split]].
    + rewrite Hfg, forallb_app in Hf. bool_to_prop. rewrite Hfg, length_app in H18.
      split; [done|split; [done|split; [lia|done]]].
    + intros pd. unfold parsePlatformDeposit. rewrite Hva.
      rewrite (proj2 (Z.ltb_ge cd 0)), (proj2 (Z.ltb_ge 18 cd)) by lia. cbn [negb orb].
      destruct (decimal_text_split _ _ _ Hdt) as [-> _].
      destruct f as [|c f]; [done|]. rewrite (proj2 (Z.ltb_ge cd _)) by lia.
      cbn [mbind res_bind]. by rewrite Htext, Hcut.
Qed.

(** The deposit parser accepts a text exactly when the number it denotes is a
    whole positive number of minor units that fits an [int64], written with at
    most [cd] fraction digits. *)
Lemma parsePlatformDeposit_iff (v : string) (cd pd m : Z) :
  parsePlatformDeposit v cd pd = Ok m <->
  0 <= cd <= 18 /\ 0 <= pd <= 18 /\ exists i f,
    decimal_text (s2b (TrimSpace v)) i f /\ Z.of_nat (length f) <= cd /\
    m * pow10 (length f) = mantissa i f * pow10 (Z.to_nat pd) /\ 0 < m <= int64_max.
Proof.
  assert (Hcase : forall n i g, forallb is_digit g = true ->
    (g = [] \/ exists h c, g = h ++ [c] /\ code c <> 48) -> 0 <= pd ->
    (Z.of_nat (length g) <= pd /\ m = mantissa i g * pow10 (Z.to_nat pd - length g)) <->
    m * pow10 (length (g ++ replicate n (byte_at 48)))
      = mantissa i (g ++ replicate n (byte_at 48)) * pow10 (Z.to_nat pd)).
  { intros n i g Hd Hg Hpd. rewrite mantissa_cut, length_app, length_replicate, pow10_add.
    pose proof (pow10_pos n). split.
    - intros [Hle ->]. replace (Z.to_nat pd) with (length g + (Z.to_nat pd - length g))%nat at 2 by lia.
      rewrite pow10_add. lia.
    - intros Hm. destruct (cut_fraction_needed i g (Z.to_nat pd) m Hd Hg) as [Hle Heq].
      { apply (Z.mul_reg_r _ _ (pow10 n)); lia. } split; [lia|done]. }
  split.
  - intros H. assert (Hcd : 0 <= cd <= 18 /\ ValidDisplayAmount (TrimSpace v) = true).
    { unfold parsePlatformDeposit in H. destruct (_ || _ || _) eqn:E in H; [done|].
      bool_to_prop. split; [lia|done]. }
    destruct Hcd as [Hcd Hva]. apply ValidDisplayAmount_iff in Hva as (i & f & Hdt & Hpos).
    rewrite TrimSpace_idemp in Hdt.
    assert (Hlen : Z.of_nat (length f) <= cd).
    { unfold parsePlatformDeposit in H. destruct (_ || _ || _) in H; [done|].
      destruct (decimal_text_split _ _ _ Hdt) as [Heq _]. rewrite Heq in H.
      destruct f as [|c f]; [cbn; lia|].
      destruct (cd <? Z.of_nat (length (c :: f))) eqn:E; [done|]. bool_to_prop. done. }
    destruct (parsePlatformDeposit_cut v cd i f Hcd Hdt Hpos Hlen) as (n & g & -> & Hg & Hdg & Heq).
    rewrite Heq in H. destruct (ParseDisplayAmount _ _) as [a|] eqn:Ep; [|done].
    injection H as ->. apply ParseDisplayAmount_trimmed in Ep as (Hpd & i' & g' & Hdt' & Hle & Hm & Hmb).
    unfold TrimSpace in Hdt'. rewrite !s2b_b2s, (trim_decimal_text _ _ _ Hdg) in Hdt'.
    destruct (decimal_text_inj _ _ _ _ _ Hdg Hdt') as [<- <-].
    split; [done|split; [done|]]. exists i, (g ++ replicate n (byte_at 48)).
    split; [done|split; [done|split; [|done]]]. apply Hcase; [apply Hdg|done|lia|done].
  - intros (Hcd & Hpd & i & f & Hdt & Hlen & Hm & Hmb).
    assert (Hpos : 0 < mantissa i f).
    { pose proof (pow10_pos (length f)). pose proof (pow10_pos (Z.to_nat pd)). nia. }
    destruct (parsePlatformDeposit_cut v cd i f Hcd Hdt Hpos Hlen) as (n & g & -> & Hg & Hdg & Heq).
    rewrite Heq. apply Hcase in Hm as [Hle Hm]; [|apply Hdg|done|lia].
    assert (ParseDisplayAmount (b2s (i ++ match g with [] => [] | _ => byte_at 46 :: g end)) pd = Ok m) as ->; [|done].
    apply ParseDisplayAmount_trimmed. split; [done|]. exists i, g.
    unfold TrimSpace. rewrite !s2b_b2s, (trim_decimal_text _ _ _ Hdg). done.
Qed.

Lemma pow10_loop_spec (n : nat) (s : Z) :
  0 < s -> s * pow10 n <= int64_max -> pow10_loop n s = s * pow10 n.
Proof.
  revert s. induction n as [|n IH]; intros s Hs Hle; cbn [pow10_loop].
  - unfold pow10. cbn. lia.
  - assert (Hp : pow10 (S n) = 10 * pow10 n)
      by (unfold pow10; rewrite Nat2Z.inj_succ, Z.pow_succ_r; lia).
    rewrite Hp in *. pose proof (pow10_pos n).
    rewrite wrap64_small by (unfold in_int64, int64_min, int64_max in *; nia).
    rewrite IH; [lia|lia|nia].
Qed.

Lemma pow10_bound (d : Z) : 0 <= d <= 18 -> pow10 (Z.to_nat d) <= 1000000000000000000.
Proof.
  intros H. unfold pow10. rewrite Z2Nat.id by lia.
  change 1000000000000000000 with (10 ^ 18). apply Z.pow_le_mono_r; lia.
Qed.

(** What [parseDecimalMinor] reads: digits, and optionally a point with any
    number of digits after it. *)
Definition loose_decimal (t i f : bytes) : Prop :=
  i <> [] /\ forallb is_digit i = true /\ forallb is_digit f = true /\
  ((t = i /\ f = []) \/ t = i ++ byte_at 46 :: f).

Lemma loose_decimal_parts (t i f : bytes) :
  loose_decimal t i f ->
  (split_all 46 t = [i] /\ f = []) \/ split_all 46 t = [i; f].
Proof.
  intros (_ & Hi & Hf & [[-> ->]| ->]).
  - left. split; [|done]. by apply split_all_free, digits_no_dot.
  - right. rewrite split_all_sep by (try apply digits_no_dot; try rewrite code_byte_at; done).
    by rewrite split_all_free by (by apply digits_no_dot).
Qed.

Lemma parts_loose_decimal (t : bytes) :
  let parts := split_all 46 t in
  (length parts <= 2)%nat -> match parts with [] :: _ => False | _ => True end ->
  forallb (forallb is_digit) parts = true ->
  exists i f, loose_decimal t i f /\ (length parts <> 0)%nat /\
    default [] (parts !! 0%nat) = i /\ default [] (parts !! 1%nat) = f.
Proof.
  intros parts Hlen Hne Hd.
  destruct (split_all_two 46 t Hlen) as [[He Hf]|(a & c & r & -> & He & Hc)];
    unfold parts in *; rewrite He in *; cbn in *; bool_to_prop.
  - exists t, []. split; [|done]. split; [by destruct t|]. split; [done|]. split; [done|]. by left.
  - exists a, r. split; [|done]. split; [by destruct a|]. split; [done|]. split; [done|]. right.
    do 2 f_equal. apply code_inj. by rewrite code_byte_at.
Qed.

(** The arithmetic tail of [parseDecimalMinor] never wraps. *)
Lemma minor_tail (w s t : Z) :
  0 < s <= 1000000000000000000 -> 0 <= t < s -> 0 <= w <= int64_max ->
  ((int64_max / s)%i64 <? w) = false /\ ((int64_max - t)%i64 <? (w * s)%i64) = false
    <-> w * s + t <= int64_max.
Proof.
  intros Hs Ht Hw. rewrite !Z.ltb_ge.
  assert (Hq : (int64_max / s)%i64 = Z.div int64_max s).
  { rewrite Z.quot_div_nonneg by (unfold int64_max; lia). apply wrap64_small.
    pose proof (Z.div_pos int64_max s). pose proof (Z.div_le_upper_bound int64_max s int64_max).
    unfold in_int64, int64_min, int64_max in *. nia. }
  rewrite Hq. rewrite (wrap64_small (int64_max - t))
    by (unfold in_int64, int64_min, int64_max in *; lia).
  pose proof (Z.mul_div_le int64_max s). pose proof (Z.mul_succ_div_gt int64_max s).
  split.
  - intros [Hle H2]. rewrite wrap64_small in H2
      by (unfold in_int64, int64_min, int64_max in *; nia). lia.
  - intros Hsum. rewrite wrap64_small by (unfold in_int64, int64_min, int64_max in *; nia).
    split; [apply Z.div_le_lower_bound; lia|lia].
Qed.

Lemma of_option_parse_int (l : bytes) (e : error) (n : Z) :
  forallb is_digit l = true -> l <> [] ->
  of_option e (parse_int l) = Ok n <-> n = value_of l /\ value_of l <= int64_max.
Proof.
  intros Hd Hn. rewrite of_option_Ok, parse_int_digits by done.
  destruct (_ <=? _) eqn:E; bool_to_prop; split.
  - by intros [= <-].
  - by intros [-> _].
  - done.
  - intros [_ ?]. lia.
Qed.

Lemma parse_tail (f : bytes) (k : nat) (t : Z) :
  forallb is_digit f = true -> (length f + k <= 18)%nat ->
  (match f ++ replicate k (byte_at 48) with
   | [] => Ok 0
   | _ => of_option chain_ErrInvalidAmount (parse_int (f ++ replicate k (byte_at 48)))
   end) = Ok t <-> t = value_of f * pow10 k.
Proof.
  intros Hf Hlen. set (l := f ++ _).
  assert (Hd : forallb is_digit l = true)
    by (unfold l; rewrite forallb_app, Hf; apply zeros_digits).
  assert (Hv : value_of l = value_of f * pow10 k).
  { unfold l. rewrite value_of_app. change (byte_at 48) with (digit_char 0).
    rewrite value_of_zeros, length_replicate. unfold pow10. lia. }
  assert (Hb : value_of l <= int64_max).
  { pose proof (value_of_bounds l Hd) as [_ Hb].
    assert (pow10 (length l) <= 1000000000000000000).
    { rewrite <- (Nat2Z.id (length l)). apply pow10_bound. unfold l.
      rewrite length_app, length_replicate. lia. }
    unfold pow10, int64_max in *. lia. }
  rewrite <- Hv. destruct l as [|c r] eqn:E.
  - change (value_of []) with 0. split; [by intros [= <-]|by intros ->].
  - rewrite of_option_parse_int by done. split; [by intros [? _]|]. done.
Qed.

Lemma parseDecimalMinor_iff (v : string) (d m : Z) :
  parseDecimalMinor v d = Ok m <->
  0 <= d <= 18 /\ exists i f, loose_decimal (s2b (TrimSpace v)) i f /\
    Z.of_nat (length f) <= d /\
    m = mantissa i f * pow10 (Z.to_nat d - length f) /\ m <= int64_max.
Proof.
  unfold parseDecimalMinor. set (t := s2b (TrimSpace v)).
  destruct (decide (0 <= d <= 18)) as [Hd|Hd].
  2:{ split; [|by intros [? _]]. destruct (_ || _) eqn:E; [done|]. bool_to_prop. lia. }
  rewrite (proj2 (Z.ltb_ge d 0)), (proj2 (Z.ltb_ge 18 d)) by lia. cbn [orb].
  pose proof (pow10_bound d Hd) as Hpb. pose proof (pow10_pos (Z.to_nat d)) as Hpp.
  rewrite (pow10_loop_spec (Z.to_nat d) 1) by (unfold int64_max; lia). rewrite Z.mul_1_l.
  (* the arithmetic, given the parts *)
  assert (Hcore : forall i f, loose_decimal t i f -> Z.of_nat (length f) <= d ->
    (whole ← of_option chain_ErrInvalidAmount (parse_int i);
     if (int64_max / pow10 (Z.to_nat d))%i64 <? whole then Err chain_ErrInvalidAmount
     else tail ← match f ++ replicate (Z.to_nat d - length f) (byte_at 48) with
            | [] => Ok 0
            | _ => of_option chain_ErrInvalidAmount
                     (parse_int (f ++ replicate (Z.to_nat d - length f) (byte_at 48)))
            end;
          if (int64_max - tail)%i64 <? (whole * pow10 (Z.to_nat d))%i64
          then Err chain_ErrInvalidAmount
          else Ok ((whole * pow10 (Z.to_nat d))%i64 + tail)%i64) = Ok m <->
    m = mantissa i f * pow10 (Z.to_nat d - length f) /\ m <= int64_max).
  { intros i f (Hne & Hi & Hf & _) Hlen. set (k := (Z.to_nat d - length f)%nat).
    assert (Hk : pow10 (Z.to_nat d) = pow10 (length f) * pow10 k)
      by (rewrite <- pow10_add; f_equal; unfold k; lia).
    pose proof (value_of_bounds f Hf) as Hvf. fold (pow10 (length f)) in Hvf.
    pose proof (pow10_pos k) as Hkp. pose proof (value_of_bounds i Hi) as Hvi.
    assert (Hm : mantissa i f * pow10 k = value_of i * pow10 (Z.to_nat d) + value_of f * pow10 k)
      by (rewrite mantissa_split, Hk; lia).
    rewrite Hm. clear Hm.
    assert (Ht : 0 <= value_of f * pow10 k < pow10 (Z.to_nat d)) by nia.
    rewrite res_bind_Ok. split.
    - intros (w & Hw & H). apply of_option_parse_int in Hw as [-> Hwb]; [|done..].
      destruct (_ <? _) eqn:E1 in H; [done|]. apply res_bind_Ok in H as (tl & Htl & H).
      apply parse_tail in Htl; [|done|unfold k; lia]. subst tl.
      destruct (_ <? _) eqn:E2 in H; [done|]. injection H as <-.
      assert (Hs := proj1 (minor_tail _ _ _ (conj Hpp Hpb) Ht (conj (proj1 Hvi) Hwb)) (conj E1 E2)).
      rewrite (wrap64_small (value_of i * _)) by (unfold in_int64, int64_min, int64_max in *; nia).
      rewrite wrap64_small; unfold in_int64, int64_min, int64_max in *; nia.
    - intros [-> Hs]. assert (Hwb : value_of i <= int64_max) by nia.
      exists (value_of i). split; [by apply of_option_parse_int|].
      destruct (proj2 (minor_tail _ _ _ (conj Hpp Hpb) Ht (conj (proj1 Hvi) Hwb)) Hs) as [-> E2].
      apply res_bind_Ok. exists (value_of f * pow10 k).
      split; [apply parse_tail; [done|unfold k; lia|done]|]. rewrite E2. f_equal.
      rewrite (wrap64_small (value_of i * _)) by (unfold in_int64, int64_min, int64_max in *; nia).
      rewrite wrap64_small; unfold in_int64, int64_min, int64_max in *; nia. }
  split.
  - destruct (_ || _) eqn:E1; [done|]. destruct (d <? _) eqn:E2; [done|].
    destruct (negb _) eqn:E3; [done|]. bool_to_prop. intros Hrun.
    destruct (parts_loose_decimal t) as (i & f & Hl & _ & Hi & Hf).
    + apply Nat.ltb_ge. done.
    + by destruct (split_all 46 t) as [|[] ?].
    + done.
    + rewrite Hi, Hf in Hrun. rewrite Hf in E2. split; [done|]. exists i, f.
      split; [done|split; [done|]]. by apply Hcore.
  - intros (_ & i & f & Hl & Hlen & H). apply Hcore in H; [|done..].
    pose proof Hl as (Hne & Hi & Hf & _).
    destruct (loose_decimal_parts t i f Hl) as [[-> ->]| ->]; cbn [lookup default list_lookup];
      destruct i; try done; cbn [length Nat.ltb Nat.leb Nat.eqb orb];
      rewrite (proj2 (Z.ltb_ge d _)) by exact Hlen;
      cbn [forallb]; cbn [forallb] in Hi; rewrite Hi, ?Hf; exact H.
Qed.

(** ** Properties *)

(** [ParseDisplayAmount] accepts exactly the plain decimal texts (after
    trimming) with at most [decimals] fraction digits whose value is a positive
    [int64] number of minor units, and returns that number: no rounding, no
    overflow, nothing else accepted. *)
Theorem ParseDisplayAmount_exact (v : string) (d m : Z) :
  ParseDisplayAmount v d = Ok m <->
  0 <= d <= 18 /\ exists i f, decimal_text (s2b (TrimSpace v)) i f /\
    Z.of_nat (length f) <= d /\
    m = mantissa i f * pow10 (Z.to_nat d - length f) /\ 0 < m <= int64_max.
Proof. apply ParseDisplayAmount_trimmed. Qed.

(** C39: a positive amount survives formatting and parsing, at every precision. *)
Theorem format_parse_roundtrip (m d : Z) :
  0 < m <= int64_max -> 0 <= d <= 18 ->
  (s ← FormatDisplayAmount m d; ParseDisplayAmount s d) = Ok m.
Proof.
  intros Hm Hd. destruct (FormatDisplayAmount_text m d) as (i & f & -> & Hi & Hf & Hl & Hma).
  { unfold in_int64, int64_min. lia. } { done. }
  rewrite (proj2 (Z.ltb_ge m 0)) by lia. cbn [mbind res_bind app].
  apply ParseDisplayAmount_trimmed. split; [done|]. exists i, f.
  assert (Hdt : decimal_text (i ++ match f with [] => [] | _ => byte_at 46 :: f end) i f)
    by (split; [done|split; [done|split; [lia|done]]]).
  unfold TrimSpace. rewrite !s2b_b2s, (trim_decimal_text _ _ _ Hdt).
  split; [done|split; [lia|split; [|done]]].
  replace (Z.to_nat d - length f)%nat with 0%nat by lia. unfold pow10. cbn. lia.
Qed.

(** The largest [int64] at the largest precision. *)
Lemma format_parse_roundtrip_witness :
  FormatDisplayAmount 9223372036854775807 18 = Ok "9.223372036854775807" /\
  (s ← FormatDisplayAmount 9223372036854775807 18; ParseDisplayAmount s 18)
    = Ok 9223372036854775807.
Proof.
  split; [vm_compute; reflexivity|].
  apply (format_parse_roundtrip 9223372036854775807 18); unfold int64_max; lia.
Defined.

(** Every [int64] amount, [MinInt64] included, is formatted as its exact
    value: an optional sign, an integer part without leading zeros and exactly
    [decimals] fraction digits. *)
Theorem FormatDisplayAmount_exact (minor decimals : Z) :
  in_int64 minor -> 0 <= decimals <= 18 ->
  exists i f,
    FormatDisplayAmount minor decimals =
      Ok (b2s ((if minor <? 0 then [byte_at 45] else [])
               ++ i ++ match f with [] => [] | _ => byte_at 46 :: f end)) /\
    plain_integer i /\ forallb is_digit f = true /\
    Z.of_nat (length f) = decimals /\ mantissa i f = Z.abs minor.
Proof. apply FormatDisplayAmount_text. Qed.

Lemma FormatDisplayAmount_exact_witness :
  FormatDisplayAmount int64_min 6 = Ok "-9223372036854.775808" /\
  exists i f,
    FormatDisplayAmount int64_min 6 =
      Ok (b2s ([byte_at 45] ++ i ++ match f with [] => [] | _ => byte_at 46 :: f end)) /\
    plain_integer i /\ forallb is_digit f = true /\
    Z.of_nat (length f) = 6 /\ mantissa i f = Z.abs int64_min.
Proof.
  split; [vm_compute; reflexivity|].
  apply (FormatDisplayAmount_exact int64_min 6); unfold in_int64, int64_min, int64_max; lia.
Defined.

(** C40: a deposit amount is credited only when it is exactly representable: the
    parser accepts a text with at most [chainDecimals] fraction digits precisely
    when the number it denotes is a whole positive [int64] number of platform
    minor units, and returns that number. *)
Theorem parsePlatformDeposit_exact (v : string) (cd pd m : Z) :
  parsePlatformDeposit v cd pd = Ok m <->
  0 <= cd <= 18 /\ 0 <= pd <= 18 /\ exists i f,
    decimal_text (s2b (TrimSpace v)) i f /\ Z.of_nat (length f) <= cd /\
    m * pow10 (length f) = mantissa i f * pow10 (Z.to_nat pd) /\ 0 < m <= int64_max.
Proof. apply parsePlatformDeposit_iff. Qed.

(** The provider fee parser returns the exact number of minor units or
    fails; the [int64] multiplication and addition it performs never wrap. *)
Theorem parseDecimalMinor_exact (v : string) (d m : Z) :
  parseDecimalMinor v d = Ok m <->
  0 <= d <= 18 /\ exists i f, loose_decimal (s2b (TrimSpace v)) i f /\
    Z.of_nat (length f) <= d /\
    m = mantissa i f * pow10 (Z.to_nat d - length f) /\ m <= int64_max.
Proof. apply parseDecimalMinor_iff. Qed.
