(* ===== verification/Json.v ===== *)
(** * JSON values

    What [encoding/json] and JSONB columns carry.  A number that is not an
    integer keeps its literal text. *)

From S2P Require Import Prelude GoStrings.

#[warnings="-register-all"]
Inductive json : Type :=
| JNull
| JBool (b : bool)
| JInt (n : Z)
| JDec (literal : string)
| JStr (s : string)
| JArr (l : list json)
| JObj (fields : list (string * json)).

(** Induction through the nested lists. *)
Section json_ind.
Context (P : json -> Prop).
Context (Hnull : P JNull) (Hbool : forall b, P (JBool b)) (Hint : forall n, P (JInt n)).
Context (Hdec : forall s, P (JDec s)) (Hstr : forall s, P (JStr s)).
Context (Harr : forall l, Forall P l -> P (JArr l)).
Context (Hobj : forall l, Forall (fun kv => P kv.2) l -> P (JObj l)).

Fixpoint json_nested_ind (j : json) : P j :=
  match j with
  | JNull => Hnull
  | JBool b => Hbool b
  | JInt n => Hint n
  | JDec s => Hdec s
  | JStr s => Hstr s
  | JArr l => Harr l ((fix go (l : list json) : Forall P l :=
      match l with
      | [] => Forall_nil_2 P
      | x :: r => Forall_cons_2 P x r (json_nested_ind x) (go r)
      end) l)
  | JObj l => Hobj l ((fix go (l : list (string * json)) : Forall (fun kv => P kv.2) l :=
      match l with
      | [] => Forall_nil_2 _
      | x :: r => Forall_cons_2 _ x r (json_nested_ind x.2) (go r)
      end) l)
  end.
End json_ind.

Fixpoint json_eqb (j k : json) : bool :=
  match j, k with
  | JNull, JNull => true
  | JBool a, JBool b => Bool.eqb a b
  | JInt a, JInt b => a =? b
  | JDec a, JDec b => String.eqb a b
  | JStr a, JStr b => String.eqb a b
  | JArr l, JArr m =>
      (fix go (l m : list json) : bool :=
         match l, m with
         | [], [] => true
         | x :: l', y :: m' => json_eqb x y && go l' m'
         | _, _ => false
         end) l m
  | JObj l, JObj m =>
      (fix go (l m : list (string * json)) : bool :=
         match l, m with
         | [], [] => true
         | x :: l', y :: m' => String.eqb x.1 y.1 && json_eqb x.2 y.2 && go l' m'
         | _, _ => false
         end) l m
  | _, _ => false
  end.

Lemma json_eqb_eq (j k : json) : json_eqb j k = true <-> j = k.
Proof.
  revert k. induction j as [|a|a|a|a|l IH|l IH] using json_nested_ind;
    intros [|b|b|b|b|m|m]; try done; cbn [json_eqb].
  - rewrite Bool.eqb_true_iff. split; congruence.
  - rewrite Z.eqb_eq. split; congruence.
  - rewrite String.eqb_eq. split; congruence.
  - rewrite String.eqb_eq. split; congruence.
  - revert m. induction IH as [|x l Hx _ IHl]; intros [|y m]; try done.
    rewrite andb_true_iff, Hx, IHl. split; [intros [-> [= ->]]; done|by intros [= -> ->]].
  - revert m. induction IH as [|[a x] l Hx _ IHl]; intros [|[b y] m]; try done.
    cbn [fst snd] in *. rewrite !andb_true_iff, Hx, IHl, String.eqb_eq.
    split; [intros [[-> ->] [= ->]]; done|by intros [= -> -> ->]].
Qed.

#[export] Instance json_eq_dec : EqDecision json.
Proof.
  intros j k. destruct (json_eqb j k) eqn:E.
  - left. by apply json_eqb_eq.
  - right. intros H%json_eqb_eq. congruence.
Defined.

(** The value of the first field named [k]. *)
Definition jfield (k : string) (j : json) : option json :=
  match j with
  | JObj l => option_map snd (find (fun kv => String.eqb kv.1 k) l)
  | _ => None
  end.

(** ** Decoding into a struct

    [json.Unmarshal]: a key selects the field whose name it equals up to case
    folding, unknown keys are skipped, a later key overwrites an earlier one,
    [null] leaves the field as it is, and a value of another kind is an error.
    Among non-ASCII runes only the Kelvin sign and the long s fold to ASCII. *)

Fixpoint fold_name (l : bytes) : bytes :=
  match l with
  | [] => []
  | c0 :: l0 =>
      match l0 with
      | c1 :: l1 =>
          if (code c0 =? 197) && (code c1 =? 191) then byte_at 83 :: fold_name l1
          else
            match l1 with
            | c2 :: l2 =>
                if (code c0 =? 226) && (code c1 =? 132) && (code c2 =? 170)
                then byte_at 75 :: fold_name l2 else upper_byte c0 :: fold_name l0
            | [] => upper_byte c0 :: fold_name l0
            end
      | [] => [upper_byte c0]
      end
  end.

Definition is_key (name key : string) : bool :=
  bool_decide (fold_name (s2b key) = fold_name (s2b name)).

(** A [json.RawMessage] or a byte slice handed to [Unmarshal]: [None] is text
    that is empty or not valid JSON. *)
Definition raw : Type := option json.

Definition dec_string (old : string) (j : json) : option string :=
  match j with JStr s => Some s | JNull => Some old | _ => None end.

Definition dec_bool (old : bool) (j : json) : option bool :=
  match j with JBool b => Some b | JNull => Some old | _ => None end.

Definition dec_int64 (old : Z) (j : json) : option Z :=
  match j with
  | JInt n => if (int64_min <=? n) && (n <=? int64_max) then Some n else None
  | JNull => Some old
  | _ => None
  end.

Definition dec_strings (old : list string) (j : json) : option (list string) :=
  match j with
  | JArr l => mapM (dec_string ""%string) l
  | JNull => Some []
  | _ => None
  end.

(** [map[string]T]: the entries are added to the map; null is the nil map. *)
Definition dec_map {T} (dec : json -> option T) (old : gmap string T) (j : json)
    : option (gmap string T) :=
  match j with
  | JObj l => foldl (fun m kv => m' ← m; v ← dec kv.2; Some (<[kv.1 := v]> m')) (Some old) l
  | JNull => Some ∅
  | _ => None
  end.

(** A struct, given what each key does to it. *)
Definition dec_struct {S} (set : string -> json -> S -> option S) (zero : S) (j : json) : option S :=
  match j with
  | JObj l => foldl (fun s kv => s' ← s; set kv.1 kv.2 s') (Some zero) l
  | JNull => Some zero
  | _ => None
  end.

(** One string field, the commonest anonymous struct of the code. *)
Definition dec_string_field (name : string) (data : raw) : option string :=
  j ← data; dec_struct (fun k v s => if is_key name k then dec_string s v else Some s) ""%string j.

Definition dec_bool_field (name : string) (data : raw) : option bool :=
  j ← data; dec_struct (fun k v b => if is_key name k then dec_bool b v else Some b) false j.

(** ** JSONB

    What [::jsonb] makes of a text: a repeated key keeps its last value, and
    the keys are ordered by length and then by bytes.  Two numbers are equal
    when their values are. *)

Definition key_before (x y : string * json) : Prop :=
  (str_len x.1 <? str_len y.1) ||
  (str_len x.1 =? str_len y.1) && String.leb x.1 y.1 = true.

#[export] Instance key_before_dec x y : Decision (key_before x y) := bool_eq_dec _ _.

(** Keep the last value of every key. *)
Fixpoint last_values (l : list (string * json)) : list (string * json) :=
  match l with
  | [] => []
  | x :: r =>
      if existsb (fun y => String.eqb y.1 x.1) r then last_values r else x :: last_values r
  end.

Fixpoint jsonb (j : json) : json :=
  match j with
  | JArr l => JArr (map jsonb l)
  | JObj l => JObj (merge_sort key_before (last_values (map (fun kv => (kv.1, jsonb kv.2)) l)))
  | _ => j
  end.

(** The value of a number literal: a mantissa and an exponent of ten. *)
Definition parse_signed (l : bytes) : option Z :=
  match l with
  | c :: r => if code c =? 43 then parse_uint r else if code c =? 45 then option_map Z.opp (parse_uint r)
              else parse_uint l
  | [] => None
  end.

Definition literal_value (s : string) : option (Z * Z) :=
  let '(negative, l) := match s2b s with
    | c :: r => if code c =? 45 then (true, r) else (false, c :: r)
    | [] => (false, []) end in
  let '(m, e) := match split_once 101 (to_lower l) with
    | (m, None) => (m, Some 0)
    | (m, Some e) => (m, parse_signed e) end in
  let '(i, f) := match split_once 46 m with
    | (i, None) => (i, [])
    | (i, Some f) => (i, f) end in
  n ← parse_uint (i ++ f); e' ← e;
  Some (if negative : bool then - n else n, e' - Z.of_nat (length f)).

Definition same_value (x y : Z * Z) : bool :=
  let e := Z.min x.2 y.2 in
  x.1 * 10 ^ (x.2 - e) =? y.1 * 10 ^ (y.2 - e).

Definition number_value (j : json) : option (Z * Z) :=
  match j with JInt n => Some (n, 0) | JDec s => literal_value s | _ => None end.

(** Equality of two values in JSONB form. *)
Fixpoint jsonb_equal (j k : json) : bool :=
  match j, k with
  | JArr l, JArr m =>
      (fix go (l m : list json) : bool :=
         match l, m with
         | [], [] => true
         | x :: l', y :: m' => jsonb_equal x y && go l' m'
         | _, _ => false
         end) l m
  | JObj l, JObj m =>
      (fix go (l m : list (string * json)) : bool :=
         match l, m with
         | [], [] => true
         | x :: l', y :: m' => String.eqb x.1 y.1 && jsonb_equal x.2 y.2 && go l' m'
         | _, _ => false
         end) l m
  | (JInt _ | JDec _), (JInt _ | JDec _) =>
      json_eqb j k ||
      match number_value j, number_value k with
      | Some x, Some y => same_value x y
      | _, _ => false
      end
  | _, _ => json_eqb j k
  end.

(** A text column or parameter compared with [=] after [::jsonb]. *)
Definition jsonb_eq (j k : json) : bool := jsonb_equal (jsonb j) (jsonb k).

(** [column ->> key] of a JSONB value: the text of a field, NULL when there is
    none.  The text of an array or object is left out: no pick is one. *)
Definition jtext (key : string) (j : json) : option string :=
  match jfield key j with
  | Some (JStr s) | Some (JDec s) => Some s
  | Some (JInt n) => Some (FormatInt n)
  | Some (JBool b) => Some (if b then "true" else "false")%string
  | _ => None
  end.

Lemma jsonb_equal_refl (j : json) : jsonb_equal j j = true.
Proof.
  induction j as [|a|a|a|a|l IH|l IH] using json_nested_ind; cbn [jsonb_equal];
    try (by apply json_eqb_eq).
  - apply orb_true_iff. left. by apply json_eqb_eq.
  - apply orb_true_iff. left. by apply json_eqb_eq.
  - induction IH as [|x l Hx _ IHl]; [done|]. by rewrite Hx, IHl.
  - induction IH as [|[k x] l Hx _ IHl]; [done|]. cbn [fst snd] in *.
    by rewrite String.eqb_refl, Hx, IHl.
Qed.

(** Equal values have equal fields; text is equal only to itself. *)
Lemma jsonb_equal_field k j j' v :
  jsonb_equal j j' = true -> jfield k j' = Some v ->
  exists u, jfield k j = Some u /\ jsonb_equal u v = true.
Proof.
  destruct j' as [| | | | | |m]; try done. destruct j as [| | | | | |l]; try done.
  unfold jfield. revert m. cbn [jsonb_equal]. induction l as [|[a x] l IH]; intros [|[b y] m]; try done.
  cbn [fst snd find option_map]. intros [[Hab Hxy]%andb_prop Hlm]%andb_prop. apply String.eqb_eq in Hab as ->.
  destruct (String.eqb b k); [|by apply IH]. cbn. intros [= <-]. by exists x.
Qed.

Lemma jsonb_equal_str j s : jsonb_equal j (JStr s) = true -> j = JStr s.
Proof. destruct j; try done. cbn. intros ->%String.eqb_eq. done. Qed.

(** A field of a value in JSONB form is a field of the text. *)
Lemma last_values_In x l : In x (last_values l) -> In x l.
Proof.
  induction l as [|y l IH]; [done|]. cbn [last_values]. destruct (existsb _ _); cbn; naive_solver.
Qed.

Lemma jsonb_field k j v :
  jfield k (jsonb j) = Some v ->
  exists l v0, j = JObj l /\ (k, v0) ∈ l /\ v = jsonb v0.
Proof.
  destruct j as [| | | | | |l]; try done. cbn [jsonb]. unfold jfield.
  destruct (find _ _) as [[a x]|] eqn:E; [|done]. cbn. intros [= <-].
  apply List.find_some in E as [Hin Ha]. apply String.eqb_eq in Ha. cbn in Ha. subst a.
  exists l. apply list_elem_of_In in Hin. rewrite merge_sort_Permutation in Hin.
  apply list_elem_of_In, last_values_In, list_elem_of_In, list_elem_of_fmap in Hin as ([a y] & [= -> ->] & Hin).
  by exists y.
Qed.

(** A struct that decodes: every key was accepted. *)
Lemma dec_struct_In {S} (set : string -> json -> S -> option S) zero l s k v :
  dec_struct set zero (JObj l) = Some s -> (k, v) ∈ l -> exists a b, set k v a = Some b.
Proof.
  unfold dec_struct. generalize (Some zero) as o. induction l as [|[k' v'] l IH]; intros o Hf Hin.
  { by apply elem_of_nil in Hin. }
  cbn [foldl fst snd] in Hf. apply elem_of_cons in Hin as [[= <- <-]|Hin]; [|by eapply IH].
  destruct o as [a|]; cbn in Hf; [destruct (set k v a) as [b|] eqn:E; [by exists a, b|]|].
  all: exfalso; clear -Hf; induction l; [done|auto].
Qed.

Lemma dec_string_field_In name l s v :
  dec_string_field name (Some (JObj l)) = Some s -> (name, v) ∈ l -> v = JNull \/ exists x, v = JStr x.
Proof.
  unfold dec_string_field. cbn [mbind option_bind]. intros Hd Hin. destruct (dec_struct_In _ _ _ _ _ _ Hd Hin) as (a & b & Hs).
  unfold is_key in Hs. rewrite bool_decide_true in Hs by done. destruct v; try done; [by left|right; by eexists].
Qed.

Lemma jsonb_eq_refl (j : json) : jsonb_eq j j = true.
Proof. apply jsonb_equal_refl. Qed.
