(* ===== verification/Game.v ===== *)
(** * Game rules and rounds

    [domain/game]: the life cycle of a round (round.go), the settlement
    contract of a game type (rules.go) and the plays of a shared external
    round (lulu_play.go). *)

From S2P Require Import Prelude GoStrings Json.

(** ** round.go *)

Inductive RoundStatus : Type :=
| RoundScheduled
| RoundOpen
| RoundClosed
| RoundSettling
| RoundSettled
| RoundCancelled.

#[export] Instance RoundStatus_eq_dec : EqDecision RoundStatus.
Proof. solve_decision. Defined.

Record Round : Type := mk_Round {
  r_RoundID : string;
  r_GameType : string;
  r_Sequence : Z;
  r_Status : RoundStatus;
  r_BetClosesAt : Z;
  r_ResultAt : Z;
  r_SettledAt : option Z;
  r_Outcome : list string
}.

Definition ErrInvalidTransition : error := Sentinel "game.ErrInvalidTransition".
Definition game_ErrRoundNotFound : error := Sentinel "game.ErrRoundNotFound".
Definition ErrBettingClosed : error := Sentinel "game.ErrBettingClosed".
Definition ErrInvalidStake : error := Sentinel "game.ErrInvalidStake".

Definition with_round_status (s : RoundStatus) (r : Round) : Round :=
  mk_Round (r_RoundID r) (r_GameType r) (r_Sequence r) s (r_BetClosesAt r) (r_ResultAt r)
    (r_SettledAt r) (r_Outcome r).

Definition Close (round : Round) (now : Z) : res Round :=
  fail_if (negb (bool_decide (r_Status round = RoundOpen)) || (now <? r_BetClosesAt round))
    ErrInvalidTransition;;
  Ok (with_round_status RoundClosed round).

Definition BeginSettlement (round : Round) : res Round :=
  fail_if (negb (bool_decide (r_Status round = RoundClosed))) ErrInvalidTransition;;
  Ok (with_round_status RoundSettling round).

Definition CompleteSettlement (round : Round) (outcome : list string) (settledAt : Z) : res Round :=
  fail_if (negb (bool_decide (r_Status round = RoundSettling)) || bool_decide (outcome = []))
    ErrInvalidTransition;;
  Ok (mk_Round (r_RoundID round) (r_GameType round) (r_Sequence round) RoundSettled
        (r_BetClosesAt round) (r_ResultAt round) (Some settledAt) outcome).

Definition CanAcceptBet (round : Round) (now : Z) : bool :=
  bool_decide (r_Status round = RoundOpen) && (now <? r_BetClosesAt round).

Definition ValidateBet (round : Round) (stakeMinor now : Z) : res () :=
  fail_if (stakeMinor <=? 0) ErrInvalidStake;;
  fail_if (negb (CanAcceptBet round now)) ErrBettingClosed.

(** ** rules.go *)

Definition ErrInvalidRules : error := Sentinel "game.ErrInvalidRules".

Record BetLimit : Type := mk_BetLimit {
  MinStakeMinor : Z;
  MaxStakeMinor : Z
}.

Record Rules : Type := mk_Rules {
  Outcomes : list string;
  PayoutMultiplier : Z;
  PayoutDivisor : Z;
  BetLimits : gmap string BetLimit;
  MatchField : string;
  ResultCount : Z;
  Source : string;
  Extras : raw;
  DodgeMode : bool
}.

Record luluExtras : Type := mk_luluExtras {
  ExternalGame : string;
  ResultMap : gmap string (list string);
  LuluShared : bool
}.

Definition dec_result_map : gmap string (list string) -> json -> option (gmap string (list string)) :=
  dec_map (dec_strings []).

Definition dec_luluExtras (data : raw) : option luluExtras :=
  j ← data; dec_struct (fun k v e =>
    let '(mk_luluExtras g m s) := e in
    if is_key "external_game" k then g' ← dec_string g v; Some (mk_luluExtras g' m s)
    else if is_key "result_map" k then m' ← dec_result_map m v; Some (mk_luluExtras g m' s)
    else if is_key "lulu_shared" k then s' ← dec_bool s v; Some (mk_luluExtras g m s')
    else Some e) (mk_luluExtras "" ∅ false) j.

Definition dec_BetLimit : json -> option BetLimit :=
  dec_struct (fun k v l =>
    let '(mk_BetLimit mn mx) := l in
    if is_key "min_stake_minor" k then mn' ← dec_int64 mn v; Some (mk_BetLimit mn' mx)
    else if is_key "max_stake_minor" k then mx' ← dec_int64 mx v; Some (mk_BetLimit mn mx')
    else Some l) (mk_BetLimit 0 0).

Definition set_rule (k : string) (v : json) (r : Rules) : option Rules :=
  let '(mk_Rules o m d l f c s e g) := r in
  if is_key "outcomes" k then x ← dec_strings o v; Some (mk_Rules x m d l f c s e g)
  else if is_key "payout_multiplier" k then x ← dec_int64 m v; Some (mk_Rules o x d l f c s e g)
  else if is_key "payout_divisor" k then x ← dec_int64 d v; Some (mk_Rules o m x l f c s e g)
  else if is_key "bet_limits" k then x ← dec_map dec_BetLimit l v; Some (mk_Rules o m d x f c s e g)
  else if is_key "match_field" k then x ← dec_string f v; Some (mk_Rules o m d l x c s e g)
  else if is_key "result_count" k then x ← dec_int64 c v; Some (mk_Rules o m d l f x s e g)
  else if is_key "source" k then x ← dec_string s v; Some (mk_Rules o m d l f c x e g)
  else if is_key "extras" k then Some (mk_Rules o m d l f c s (Some v) g)
  else if is_key "dodge_mode" k then x ← dec_bool g v; Some (mk_Rules o m d l f c s e x)
  else Some r.

Definition zero_rules : Rules := mk_Rules [] 0 0 ∅ "" 0 "" None false.

(** The outcomes of a loop that stops at the first empty or repeated value. *)
Fixpoint outcomes_ok (seen : list string) (l : list string) : bool :=
  match l with
  | [] => true
  | o :: l' => negb (bool_decide (o = ""%string)) && negb (bool_decide (o ∈ seen)) &&
               outcomes_ok (o :: seen) l'
  end.

Definition limit_ok (kv : string * BetLimit) : bool :=
  let '(currency, limit) := kv in
  negb (bool_decide (TrimSpace currency = ""%string) || (MinStakeMinor limit <? 0) ||
        (MaxStakeMinor limit <=? 0) || (MaxStakeMinor limit <? MinStakeMinor limit)).

Definition mapping_ok (outcomes : list string) (kv : string * list string) : bool :=
  negb (bool_decide (TrimSpace kv.1 = ""%string) || bool_decide (kv.2 = [])) &&
  forallb (fun o => bool_decide (o ∈ outcomes)) kv.2.

Definition validateLuluExtras (rules : Rules) : res () :=
  extras ← of_option ErrInvalidRules (dec_luluExtras (Extras rules));
  fail_if (negb (bool_decide (ExternalGame extras ∈ ["lh"; "xdy"; "race"]%string))) ErrInvalidRules;;
  if LuluShared extras then Ok ()
  else
    fail_if (bool_decide (ResultMap extras = ∅)) ErrInvalidRules;;
    fail_if (negb (forallb (mapping_ok (Outcomes rules)) (map_to_list (ResultMap extras))))
      ErrInvalidRules.

Definition Validate (rules : Rules) : res () :=
  fail_if (bool_decide (Outcomes rules = [])) ErrInvalidRules;;
  fail_if (negb (outcomes_ok [] (Outcomes rules))) ErrInvalidRules;;
  fail_if (PayoutMultiplier rules <=? 0) ErrInvalidRules;;
  fail_if (PayoutDivisor rules <? 0) ErrInvalidRules;;
  fail_if (negb (forallb limit_ok (map_to_list (BetLimits rules)))) ErrInvalidRules;;
  fail_if ((ResultCount rules <? 0) || (Z.of_nat (length (Outcomes rules)) <? ResultCount rules))
    ErrInvalidRules;;
  if bool_decide (Source rules = "lulu_ws"%string) then validateLuluExtras rules else Ok ().

Definition ParseRules (data : raw) : res Rules :=
  j ← of_option ErrInvalidRules data;
  rules ← of_option ErrInvalidRules (dec_struct set_rule zero_rules j);
  Validate rules;;
  Ok rules.

Definition PayoutScale (rules : Rules) : Z :=
  if PayoutDivisor rules <=? 0 then 1 else PayoutDivisor rules.

Definition DrawCount (rules : Rules) : Z :=
  if ResultCount rules <=? 0 then 1 else ResultCount rules.

(** A decoded object: for a repeated key the last value counts. *)
Fixpoint live (l : list (string * json)) : list bool :=
  match l with
  | [] => []
  | kv :: l' => negb (existsb (fun kv' => String.eqb kv'.1 kv.1) l') :: live l'
  end.

(** Go iterates over a map in an unspecified order; the fields are listed here
    in the order of the text. *)
Fixpoint collectAllStrings (value : json) : list string :=
  match value with
  | JStr s => [s]
  | JArr l => concat (map collectAllStrings l)
  | JObj l => concat (zip_with (fun (b : bool) (ss : list string) => if b then ss else [])
                (live l) (map (fun kv => collectAllStrings kv.2) l))
  | _ => []
  end.

Definition object_get (k : string) (l : list (string * json)) : json :=
  from_option snd JNull (List.find (fun kv => String.eqb kv.1 k) (rev l)).

Fixpoint collectFieldStrings (value : json) (path : list string) : list string :=
  match path with
  | [] => collectAllStrings value
  | k :: path' =>
      match value with
      | JObj l => collectFieldStrings (object_get k l) path'
      | _ => []
      end
  end.

Definition dodge (s : string) : string := String.append "dodge_" s.

Definition split_dots (s : string) : list string := map b2s (split_all 46 (s2b s)).

Definition selected (rules : Rules) (value : json) : list string :=
  if negb (bool_decide (MatchField rules = ""%string))
  then collectFieldStrings value (split_dots (MatchField rules))
  else collectAllStrings value.

Definition wins_with (rules : Rules) (values outcome : list string) : bool :=
  if DodgeMode rules then existsb (fun v => negb (bool_decide (dodge v ∈ outcome))) values
  else existsb (fun v => bool_decide (v ∈ outcome)) values.

Definition SelectionWins (rules : Rules) (selection : raw) (outcome : list string) : bool :=
  match selection with
  | None => false
  | Some value => wins_with rules (selected rules value) outcome
  end.

(** [struct { Pick string }], rejected when empty. *)
Definition pick_of (selection : raw) : option string :=
  p ← dec_string_field "pick" selection;
  if bool_decide (p = ""%string) then None else Some p.

Definition offers (outcomes : list string) (pick : string) : bool :=
  existsb (fun o => bool_decide (o = pick) || bool_decide (o = dodge pick)) outcomes.

Definition SelectionAllowed (rules : Rules) (selection : raw) : bool :=
  match pick_of selection with
  | None => false
  | Some pick => offers (Outcomes rules) pick
  end.

(** ** lulu_play.go *)

Record LuluPlay : Type := mk_LuluPlay {
  lp_Code : string;
  lp_Outcomes : list string;
  lp_ResultMap : gmap string (list string);
  lp_DodgeMode : bool
}.

Definition lulu_SelectionAllowed (play : LuluPlay) (selection : raw) : bool :=
  match pick_of selection with
  | None => false
  | Some pick => offers (lp_Outcomes play) pick
  end.

Definition lulu_winning (play : LuluPlay) (rawRooms : list string) : list string :=
  concat (map (fun room => default [] (lp_ResultMap play !! room)) rawRooms).

Definition lulu_SelectionWins (play : LuluPlay) (selection : raw) (rawRooms : list string) : bool :=
  match pick_of selection with
  | None => false
  | Some value =>
      let winning := lulu_winning play rawRooms in
      if lp_DodgeMode play then
        let pick := if HasPrefix value "dodge_" then value else dodge value in
        negb (bool_decide (pick ∈ winning))
      else bool_decide (value ∈ winning)
  end.

(** ** The life cycle of a round *)

Inductive round_step (r r' : Round) : Prop :=
| rs_close now : Close r now = Ok r' -> round_step r r'
| rs_begin : BeginSettlement r = Ok r' -> round_step r r'
| rs_complete outcome at' : CompleteSettlement r outcome at' = Ok r' -> round_step r r'.

Definition stage (s : RoundStatus) : Z :=
  match s with
  | RoundScheduled => 0
  | RoundOpen => 1
  | RoundClosed => 2
  | RoundSettling => 3
  | RoundSettled => 4
  | RoundCancelled => 4
  end.

Lemma round_step_stage r r' :
  round_step r r' -> stage (r_Status r') = stage (r_Status r) + 1 /\
  r_RoundID r' = r_RoundID r /\ r_Sequence r' = r_Sequence r /\ r_BetClosesAt r' = r_BetClosesAt r.
Proof.
  intros [now Hs|Hs|o ts Hs]; unfold Close, BeginSettlement, CompleteSettlement in Hs; res_steps; subst;
    (split; [|done]); cbn [r_Status with_round_status];
    repeat match goal with E : r_Status _ = _ |- _ => rewrite E; clear E end; done.
Qed.

(** ** Rules *)

Lemma outcomes_ok_iff seen l :
  outcomes_ok seen l = true <-> Forall (fun o => o <> ""%string) l /\ NoDup l /\ (forall o, o ∈ l -> o ∉ seen).
Proof.
  revert seen. induction l as [|o l IH]; intros seen; cbn [outcomes_ok].
  { split; [|done]. intros _. split; [done|split; [constructor|]]. by intros ? ?%elem_of_nil. }
  rewrite !andb_true_iff, !negb_true_iff, !bool_decide_eq_false, IH, Forall_cons, NoDup_cons. split.
  - intros [[Ho Hs] (Hf & Hn & Hd)]. split; [done|split; [split; [|done]|]].
    + intros Hin. by apply (Hd o Hin), list_elem_of_here.
    + intros x [->|Hx]%elem_of_cons; [done|]. intros Hxs. by apply (Hd x Hx), elem_of_cons; right.
  - intros ([Ho Hf] & [Hn Hnd] & Hd). split; [split; [done|by apply Hd, list_elem_of_here]|].
    split; [done|split; [done|]]. intros x Hx [->|Hxs]%elem_of_cons; [done|].
    by apply (Hd x); [apply elem_of_cons; right|].
Qed.

Definition limit_fits (currency : string) (l : BetLimit) : Prop :=
  TrimSpace currency <> ""%string /\ 0 <= MinStakeMinor l <= MaxStakeMinor l /\ 0 < MaxStakeMinor l.

(** What [Validate] promises. *)
Record rules_valid (r : Rules) : Prop := {
  rv_outcomes : Outcomes r <> [] /\ NoDup (Outcomes r) /\ ""%string ∉ Outcomes r;
  rv_payout : 0 < PayoutMultiplier r /\ 0 <= PayoutDivisor r;
  rv_limits : map_Forall limit_fits (BetLimits r);
  rv_count : 0 <= ResultCount r <= Z.of_nat (length (Outcomes r));
  rv_lulu : Source r = "lulu_ws"%string -> exists e, dec_luluExtras (Extras r) = Some e /\
    ExternalGame e ∈ ["lh"; "xdy"; "race"]%string /\
    (LuluShared e = false -> ResultMap e <> ∅ /\
       map_Forall (fun room mapped => TrimSpace room <> ""%string /\ mapped <> [] /\
         Forall (.∈ Outcomes r) mapped) (ResultMap e))
}.

Lemma fail_if_iff b e : fail_if b e = Ok () <-> b = false.
Proof. by destruct b. Qed.

Lemma forallb_map_to_list {A} (P : string * A -> bool) (m : gmap string A) (Q : string -> A -> Prop) :
  (forall k x, P (k, x) = true <-> Q k x) ->
  forallb P (map_to_list m) = true <-> map_Forall Q m.
Proof.
  intros HP. rewrite forallb_forall, map_Forall_to_list, Forall_forall. split.
  - intros H [k x] Hin. apply HP, H. by apply list_elem_of_In.
  - intros H [k x] Hin. apply HP. apply (H (k, x)). by apply list_elem_of_In.
Qed.

Lemma limit_ok_iff k l : limit_ok (k, l) = true <-> limit_fits k l.
Proof.
  unfold limit_ok, limit_fits. rewrite negb_true_iff, !orb_false_iff, bool_decide_eq_false, !Z.ltb_ge, Z.leb_gt.
  lia || (split; [intros [[[? ?] ?] ?]|intros (? & ? & ?)]; repeat split; (done || lia)).
Qed.

Lemma mapping_ok_iff o k l :
  mapping_ok o (k, l) = true <-> TrimSpace k <> ""%string /\ l <> [] /\ Forall (.∈ o) l.
Proof.
  unfold mapping_ok. cbn [fst snd].
  rewrite andb_true_iff, negb_true_iff, orb_false_iff, !bool_decide_eq_false, forallb_forall, Forall_forall.
  split.
  - intros [[Hk Hl] Ho]. split; [done|split; [done|]]. intros x Hx.
    apply (bool_decide_eq_true_1 (x ∈ o)), Ho. by apply list_elem_of_In.
  - intros (Hk & Hl & Ho). split; [done|]. intros x Hx.
    apply bool_decide_eq_true_2, Ho. by apply list_elem_of_In.
Qed.

Lemma validateLuluExtras_iff r :
  validateLuluExtras r = Ok () <-> exists e, dec_luluExtras (Extras r) = Some e /\
    ExternalGame e ∈ ["lh"; "xdy"; "race"]%string /\
    (LuluShared e = false -> ResultMap e <> ∅ /\
       map_Forall (fun room mapped => TrimSpace room <> ""%string /\ mapped <> [] /\
         Forall (.∈ Outcomes r) mapped) (ResultMap e)).
Proof.
  unfold validateLuluExtras. rewrite res_bind_Ok. setoid_rewrite of_option_Ok.
  apply exist_proper; intros e. split.
  - intros [He H]. split; [done|]. apply res_bind_Ok in H as ([] & Hg & H).
    apply fail_if_iff, negb_false_iff, bool_decide_eq_true in Hg. split; [done|]. intros Hs.
    rewrite Hs in H. apply res_bind_Ok in H as ([] & Hm & H).
    apply fail_if_iff, bool_decide_eq_false in Hm. split; [done|].
    apply fail_if_iff, negb_false_iff in H. by eapply forallb_map_to_list; [apply mapping_ok_iff|].
  - intros (He & Hg & Hm). split; [done|]. apply res_bind_Ok. exists (). split.
    { by apply fail_if_iff, negb_false_iff, bool_decide_eq_true. }
    destruct (LuluShared e); [done|]. destruct Hm as [Hne Hm]; [done|].
    apply res_bind_Ok. exists (). split; [by apply fail_if_iff, bool_decide_eq_false|].
    apply fail_if_iff, negb_false_iff. by eapply forallb_map_to_list; [apply mapping_ok_iff|].
Qed.

(** ** The order of a map *)

(** The same value with the fields of its objects listed in another order. *)
#[warnings="-register-all"]
Inductive reordered : json -> json -> Prop :=
| re_refl j : reordered j j
| re_arr l m : Forall2 reordered l m -> reordered (JArr l) (JArr m)
| re_obj l m k :
    NoDup (map fst l) -> Forall2 (fun a b => a.1 = b.1 /\ reordered a.2 b.2) l m -> m ≡ₚ k ->
    reordered (JObj l) (JObj k).

Lemma live_NoDup l : NoDup (map fst l) -> live l = replicate (length l) true.
Proof.
  induction l as [|[k v] l IH]; [done|]. cbn [map live replicate length fst].
  intros [Hk Hl]%NoDup_cons. rewrite IH by done. f_equal. apply negb_true_iff.
  apply not_true_iff_false. intros (x & Hx & Heq)%existsb_exists.
  apply String.eqb_eq in Heq. apply Hk, list_elem_of_In, in_map_iff. by exists x.
Qed.

Lemma collect_NoDup l :
  NoDup (map fst l) ->
  collectAllStrings (JObj l) = concat (map (fun kv => collectAllStrings kv.2) l).
Proof.
  intros Hl. cbn [collectAllStrings]. rewrite live_NoDup by done. f_equal.
  clear Hl. induction l as [|kv l IH]; [done|]. cbn. by rewrite IH.
Qed.

Lemma concat_Permutation (l m : list (list string)) :
  Forall2 (≡ₚ) l m -> concat l ≡ₚ concat m.
Proof. induction 1 as [|x y l m Hxy _ IH]; [done|]. cbn. by rewrite Hxy, IH. Qed.

Lemma reordered_keys l m :
  Forall2 (fun a b : string * json => a.1 = b.1 /\ reordered a.2 b.2) l m -> map fst l = map fst m.
Proof. induction 1 as [|a b l m [Hab _] _ IH]; [done|]. cbn. by rewrite Hab, IH. Qed.

Lemma reordered_collect j k : reordered j k -> collectAllStrings j ≡ₚ collectAllStrings k.
Proof.
  revert k. induction j as [| | | | |l IH|l IH] using json_nested_ind; intros k Hk;
    inversion Hk as [|l' m Hf|l' m k' Hd Hf Hp]; subst; try done.
  - cbn. apply concat_Permutation. clear Hk.
    induction Hf as [|x y l m Hxy _ IHf]; [constructor|]. inversion IH; subst.
    constructor; [auto|by apply IHf].
  - assert (Hdm : NoDup (map fst m)) by (by rewrite <- (reordered_keys l m)).
    assert (Hdk : NoDup (map fst k')) by (eapply NoDup_Permutation_proper; [|exact Hdm]; by rewrite Hp).
    rewrite !collect_NoDup by done. rewrite <- Hp. clear Hk Hd Hdm Hdk Hp.
    apply concat_Permutation.
    induction Hf as [|x y l m [_ Hxy] _ IHf]; [constructor|]. inversion IH; subst.
    constructor; [auto|by apply IHf].
Qed.

Lemma find_key_NoDup k (l : list (string * json)) v :
  NoDup (map fst l) -> (k, v) ∈ l ->
  List.find (fun kv => String.eqb kv.1 k) l = Some (k, v).
Proof.
  induction l as [|[a x] l IH]; [by intros _ ?%elem_of_nil|]. cbn [map fst List.find].
  intros [Ha Hl]%NoDup_cons [Heq|Hin]%elem_of_cons.
  - injection Heq as -> ->. by rewrite String.eqb_refl.
  - destruct (String.eqb_spec a k) as [->|]; [|by apply IH].
    exfalso. apply Ha, list_elem_of_In, in_map_iff. exists (k, v). split; [done|by apply list_elem_of_In].
Qed.

Lemma object_get_member k l v :
  NoDup (map fst l) -> (k, v) ∈ l -> object_get k l = v.
Proof.
  intros Hl Hin. unfold object_get. rewrite (find_key_NoDup k (rev l) v); [done|..].
  - rewrite map_rev. apply NoDup_ListNoDup, NoDup_rev. by apply NoDup_ListNoDup.
  - apply list_elem_of_In, in_rev. rewrite rev_involutive. by apply list_elem_of_In.
Qed.

Lemma object_get_missing k l : k ∉ map fst l -> object_get k l = JNull.
Proof.
  intros Hk. unfold object_get. destruct (List.find _ _) as [[a v]|] eqn:E; [|done].
  exfalso. apply find_some in E as [Hin Heq]. apply String.eqb_eq in Heq. cbn in Heq. subst a.
  apply Hk, list_elem_of_In, in_map_iff. exists (k, v). split; [done|].
  by apply in_rev.
Qed.

Lemma reordered_get k l m :
  NoDup (map fst l) -> reordered (JObj l) (JObj m) -> reordered (object_get k l) (object_get k m).
Proof.
  intros Hd Hr. inversion Hr as [|?|l' m' k' _ Hf Hp]; subst; [constructor|].
  assert (Hdm : NoDup (map fst m')) by (by rewrite <- (reordered_keys l m')).
  assert (Hdk : NoDup (map fst m)) by (eapply NoDup_Permutation_proper; [|exact Hdm]; by rewrite Hp).
  destruct (decide (k ∈ map fst l)) as [Hk|Hk].
  - apply list_elem_of_In, in_map_iff in Hk as ([a v] & Ha & Hin). cbn in Ha. subst a.
    apply list_elem_of_In in Hin. destruct (list_elem_of_lookup_1 _ _ Hin) as [i Hi].
    destruct (Forall2_lookup_l _ _ _ _ _ Hf Hi) as ([a w] & Hw & Haw & Hvw). cbn in Haw, Hvw. subst a.
    rewrite (object_get_member k l v), (object_get_member k m w); [done|done| |done|done].
    rewrite <- Hp. by eapply list_elem_of_lookup_2.
  - rewrite !object_get_missing; [constructor| |done].
    rewrite (reordered_keys _ _ Hf), Hp in Hk. done.
Qed.

Lemma reordered_field path : forall j k,
  reordered j k -> collectFieldStrings j path ≡ₚ collectFieldStrings k path.
Proof.
  induction path as [|key path IH]; intros j k Hr; [by apply reordered_collect|].
  inversion Hr as [|l m Hf|l m k' Hd Hf Hp]; subst; [done|done|].
  cbn. by apply IH, reordered_get.
Qed.

Lemma existsb_Permutation {A} (P Q : A -> bool) l m :
  l ≡ₚ m -> (forall x, P x = Q x) -> existsb P l = existsb Q m.
Proof.
  intros Hlm HPQ. apply eq_true_iff_eq. rewrite !existsb_exists.
  split; intros (x & Hx & HP); exists x.
  - rewrite <- HPQ. split; [|done]. by eapply Permutation_in.
  - rewrite HPQ. split; [|done]. by eapply Permutation_in; [symmetry|].
Qed.

(** ** Properties *)

(** A round only moves forward: every sequence of the three methods takes
    it through open, closed, settling and settled in that order, a settled or
    cancelled round never changes again, and its identity, height and closing
    time stay. *)
Theorem rounds_forward r r' :
  rtc round_step r r' ->
  (r' = r \/ stage (r_Status r) < stage (r_Status r')) /\
  (r_Status r ∈ [RoundSettled; RoundCancelled] -> r' = r) /\
  r_RoundID r' = r_RoundID r /\ r_Sequence r' = r_Sequence r /\ r_BetClosesAt r' = r_BetClosesAt r.
Proof.
  induction 1 as [|r1 r2 r3 Hst _ IH]; [split; [by left|done]|].
  destruct (round_step_stage _ _ Hst) as (Hs & Hid & Hseq & Hbc).
  destruct IH as (Hor & Hfin & Hid' & Hseq' & Hbc').
  split; [right; destruct Hor as [->|]; lia|]. split; [|by rewrite Hid', Hseq', Hbc'].
  intros Hend. exfalso. assert (Hmax : stage (r_Status r1) = 4).
  { by repeat (apply elem_of_cons in Hend as [->|Hend]; [done|]); apply elem_of_nil in Hend. }
  destruct (r_Status r2); cbn in Hs; lia.
Qed.

Lemma Validate_sound r : Validate r = Ok () -> rules_valid r.
Proof.
  unfold Validate. intros Hv. res_steps. repeat match goal with x : () |- _ => destruct x end.
  match goal with E : outcomes_ok _ _ = true |- _ => apply outcomes_ok_iff in E as (He & Hn & _) end.
  match goal with E : forallb _ _ = true |- _ =>
    apply (forallb_map_to_list _ _ _ limit_ok_iff) in E; rename E into Hl end.
  split; [|lia|done|lia|].
  - split; [done|split; [done|]]. intros Hin. by rewrite Forall_forall in He; apply (He _ Hin).
  - intros Hs. apply validateLuluExtras_iff. by rewrite bool_decide_true in Hv.
Qed.

(** Rules are accepted exactly when the pool is non-empty and without empty
    or repeated outcomes, the payout is positive, every limit is a range for a
    named currency, the draw fits the pool, and, for the external source, the
    extras name a known game with a mapping into the pool. *)
Theorem Validate_iff r : Validate r = Ok () <-> rules_valid r.
Proof.
  split; [apply Validate_sound|unfold Validate].
  intros [(Ho & Hn & He) [Hm Hd] Hl Hc Hx].
    assert (Hok : outcomes_ok [] (Outcomes r) = true).
    { apply outcomes_ok_iff. split; [|split; [done|by intros ? _ ?%elem_of_nil]].
      apply Forall_forall. by intros x Hin ->. }
    apply (forallb_map_to_list _ _ _ limit_ok_iff) in Hl.
    rewrite !guard_Ok, bool_decide_false, Hok, Hl by done. repeat split; try lia.
    case_bool_decide as Hs; [|done]. by apply validateLuluExtras_iff, Hx.
Qed.

(** Whether a selection wins does not depend on the order in which the
    fields of its objects are visited (Go's map order is unspecified), nor on
    the order or repetition of the drawn outcomes. *)
Theorem SelectionWins_order rules a b out out' :
  reordered a b -> (forall o, o ∈ out <-> o ∈ out') ->
  SelectionWins rules (Some a) out = SelectionWins rules (Some b) out'.
Proof.
  intros Hr Ho. unfold SelectionWins, wins_with.
  assert (Hv : selected rules a ≡ₚ selected rules b).
  { unfold selected. destruct (negb _); [by apply reordered_field|by apply reordered_collect]. }
  destruct (DodgeMode rules); apply existsb_Permutation; try done; intros x;
    by rewrite (bool_decide_ext _ _ (Ho _)).
Qed.

(** ** Witnesses *)

Definition example_round : Round := mk_Round "round-1" "hash" 100 RoundOpen 50 60 None [].

Lemma rounds_forward_witness :
  exists r2 r3 r4, Close example_round 50 = Ok r2 /\ BeginSettlement r2 = Ok r3 /\
    CompleteSettlement r3 ["7"%string] 61 = Ok r4 /\ r_RoundID r4 = "round-1"%string /\
    r_Sequence r4 = 100.
Proof.
  eexists _, _, _. split; [reflexivity|split; [reflexivity|split; [reflexivity|]]].
  match goal with |- r_RoundID ?r = _ /\ _ =>
    assert (Hrun : rtc round_step example_round r) end.
  { eapply rtc_l; [by apply (rs_close _ _ 50)|]. eapply rtc_l; [by apply rs_begin|].
    apply rtc_once. by apply (rs_complete _ _ ["7"%string] 61). }
  destruct (rounds_forward _ _ Hrun) as (_ & _ & Hid & Hseq & _). exact (conj Hid Hseq).
Defined.

Lemma SelectionWins_order_witness :
  let rules := mk_Rules ["big"; "small"]%string 2 0 ∅ "" 0 "" None false in
  let a := JObj [("note", JInt 1); ("pick", JStr "big")]%string in
  let b := JObj [("pick", JStr "big"); ("note", JInt 1)]%string in
  SelectionWins rules (Some a) ["odd"; "big"]%string = SelectionWins rules (Some b) ["big"; "odd"]%string /\
  SelectionWins rules (Some a) ["odd"; "big"]%string = true.
Proof.
  intros rules a b. split; [|vm_compute; reflexivity]. apply SelectionWins_order.
  - apply (re_obj _ [("note", JInt 1); ("pick", JStr "big")]%string).
    + apply NoDup_cons. split; [|apply NoDup_singleton]. intros Hin.
      apply list_elem_of_singleton in Hin. discriminate.
    + repeat constructor.
    + apply perm_swap.
  - intros o. rewrite !elem_of_cons, elem_of_nil. tauto.
Defined.
