(* ===== verification/Schema.v ===== *)
(** * The database as the migrations leave it

    The tables of [migrations/*.sql] that the modelled services touch, with the
    columns those services read or write.  A table keyed by one UUID is a
    [gmap] from the key to the row; [ledger_entries] is an append-only list,
    newest first; join tables are lists of pairs.  A TIMESTAMPTZ is a number of
    nanoseconds since 1970, a BIGINT a [Z] kept in range by the primitives of
    [Store]. *)

From S2P Require Import Prelude GoStrings Json Game.

(** ** The money: [wallets] and [ledger_entries] *)

Record wallet_row : Type := mk_wallet {
  w_user_id : string;
  w_currency : string;
  w_available : Z;
  w_frozen : Z;
  w_version : Z;
  w_updated_at : Z
}.

Record ledger_row : Type := mk_ledger {
  le_id : string;
  le_wallet_id : string;
  le_business_type : string;
  le_business_id : string;
  le_entry_type : string;
  le_amount : Z;
  le_balance_after : Z;
  le_available_delta : Z;
  le_frozen_delta : Z;
  le_frozen_after : Z;
  le_remark : string;
  le_operator_id : option string;
  le_bet_placement_id : option string;
  le_occurred_at : Z
}.

Record Money : Type := mk_Money {
  wallets : gmap string wallet_row;
  ledger : list ledger_row
}.

(** ** The other tables *)

Record outbox_row : Type := mk_outbox {
  ob_id : string;
  ob_aggregate_type : string;
  ob_aggregate_id : string;
  ob_event_type : string;
  ob_payload : json;
  ob_occurred_at : Z;
  ob_published_at : option Z;
  ob_attempts : Z;
  ob_failed_at : option Z;
  ob_failure_reason : option string
}.

Record audit_row : Type := mk_audit {
  au_actor : option string;
  au_action : string;
  au_target_type : string;
  au_target_id : string;
  au_request_id : option string;
  au_payload : json
}.


(** [users] *)
Record user_row : Type := mk_user_row {
  u_status : string;
  u_is_virtual : bool;
  u_display_name : string;
  u_public_id : Z;
  u_agent_level : option Z;
  u_avatar_url : option string;
  u_login_name : option string;
  u_secondary_password_hash : option string;
  u_created_at : Z
}.

(** [currencies] *)
Record currency_row : Type := mk_currency_row {
  cur_decimals : Z;
  cur_enabled : bool;
  cur_category : string;
  cur_create_on_registration : bool
}.

(** [chain_addresses] *)
Record address_row : Type := mk_address_row {
  ca_user_id : string;
  ca_chain_code : string;
  ca_token_code : string;
  ca_address : string;
  ca_provider_address_id : option string;
  ca_memo : option string
}.

(** [deposits] *)
Record deposit_row : Type := mk_deposit_row {
  dep_chain_address_id : string;
  dep_provider_event_id : string;
  dep_tx_hash : string;
  dep_amount_minor : Z;
  dep_status : string;
  dep_confirmed_at : option Z;
  dep_provider_amount : option string;
  dep_chain_decimals : option Z;
  dep_platform_decimals : option Z
}.

(** [assets] *)
Record asset_row : Type := mk_asset_row {
  as_provider : string;
  as_chain_code : string;
  as_token_code : string;
  as_decimals : Z;
  as_enabled : bool;
  as_chain_token_id : option Z;
  as_support_withdraw : bool;
  as_support_deposit : bool
}.

(** [withdrawals] *)
Record withdrawal_row : Type := mk_withdrawal_row {
  wd_user_id : string;
  wd_wallet_id : string;
  wd_client_request_id : string;
  wd_destination_address : string;
  wd_destination_memo : option string;
  wd_chain_code : option string;
  wd_token_code : option string;
  wd_provider_chain_token_id : option Z;
  wd_token_decimals : option Z;
  wd_platform_decimals : option Z;
  wd_amount_minor : Z;
  wd_status : string;
  wd_provider_order_id : option string;
  wd_tx_hash : option string;
  wd_provider_fee_minor : option Z;
  wd_reviewed_by : option string;
  wd_failure_reason : option string;
  wd_created_at : Z
}.

(** [webhook_events] *)
Record webhook_row : Type := mk_webhook_row {
  wh_provider : string;
  wh_provider_event_id : string;
  wh_event_type : string;
  wh_processed_at : option Z;
  wh_processing_error : option error
}.

(** [red_packets] *)
Record packet_row : Type := mk_packet_row {
  rp_room_id : string;
  rp_sender_user_id : string;
  rp_wallet_id : string;
  rp_client_request_id : string;
  rp_currency : string;
  rp_greeting : string;
  rp_total_minor : Z;
  rp_remaining_minor : Z;
  rp_packet_count : Z;
  rp_claimed_count : Z;
  rp_status : string;
  rp_expires_at : Z;
  rp_created_at : Z
}.

(** [claims] *)
Record claim_row : Type := mk_claim_row {
  rc_red_packet_id : string;
  rc_user_id : string;
  rc_wallet_id : string;
  rc_amount_minor : Z;
  rc_claimed_at : Z
}.

(** [chat_rooms] *)
Record chat_room_row : Type := mk_chat_room_row {
  cr_room_type : string;
  cr_customer_user_id : option string;
  cr_service_type : option string;
  cr_created_at : Z
}.

(** [point_withdrawals] *)
Record point_withdrawal_row : Type := mk_point_withdrawal_row {
  pw_user_id : string;
  pw_wallet_id : string;
  pw_client_request_id : string;
  pw_amount_minor : Z;
  pw_status : string;
  pw_remark : string;
  pw_reviewed_by : option string;
  pw_reviewed_at : option Z;
  pw_created_at : Z
}.

(** [adjustments] *)
Record adjustment_row : Type := mk_adjustment_row {
  ad_operator_id : string;
  ad_request_id : string;
  ad_user_id : string;
  ad_currency : string;
  ad_action : string;
  ad_amount_minor : Z;
  ad_remark : string;
  ad_result : json
}.

(** [game_types] *)
Record game_type_row : Type := mk_game_type_row {
  gt_code : string;
  gt_name : string;
  gt_enabled : bool;
  gt_rules : json;
  gt_block_interval : option Z;
  gt_close_before_seconds : Z;
  gt_room_id : option string
}.

(** [rounds] *)
Record round_row : Type := mk_round_row {
  rd_game_type_id : string;
  rd_sequence : Z;
  rd_status : RoundStatus;
  rd_bet_closes_at : Z;
  rd_result_at : Z;
  rd_outcome : option json;
  rd_settled_at : option Z;
  rd_version : Z
}.

(** [bets] *)
Record bet_row : Type := mk_bet_row {
  bt_client_request_id : string;
  bt_round_id : string;
  bt_user_id : string;
  bt_wallet_id : string;
  bt_game_room_id : option string;
  bt_play_mode : option string;
  bt_selection : json;
  bt_stake_minor : Z;
  bt_status : string;
  bt_payout_minor : Z;
  bt_payout_multiplier_snapshot : option Z;
  bt_payout_divisor_snapshot : option Z;
  bt_is_simulated : bool;
  bt_robot_plan_id : option string;
  bt_merge_enabled : bool;
  bt_placement_count : Z;
  bt_last_placed_at : option Z;
  bt_created_at : Z;
  bt_settled_at : option Z;
  bt_balance_after_settlement_minor : option Z;
  bt_rebate_version : Z
}.

(** [bet_placements] *)
Record placement_row : Type := mk_placement_row {
  bp_bet_id : string;
  bp_user_id : string;
  bp_round_id : string;
  bp_client_request_id : string;
  bp_currency : string;
  bp_game_room_id : option string;
  bp_play_mode : option string;
  bp_selection : json;
  bp_stake_minor : Z;
  bp_robot_plan_id : option string;
  bp_created_at : Z
}.

(** [commission_entries] *)
Record commission_row : Type := mk_commission_row {
  ce_source_bet_id : string;
  ce_beneficiary_user_id : string;
  ce_amount_minor : Z;
  ce_currency : string;
  ce_status : string;
  ce_created_at : option Z
}.

(** [rebate_allocations] *)
Record allocation_row : Type := mk_allocation_row {
  ra_bet_id : string;
  ra_beneficiary_user_id : string;
  ra_base_minor : Z;
  ra_agent_level : Z;
  ra_differential_per_mille : Z
}.

(** [bet_rebate_snapshots] *)
Record snapshot_row : Type := mk_snapshot_row {
  bs_room_config_id : option string;
  bs_config_version : option Z;
  bs_enabled : bool;
  bs_ancestors : json
}.

(** [room_rebate_configs] *)
Record rebate_config_row : Type := mk_rebate_config_row {
  rr_room_id : string;
  rr_enabled : bool;
  rr_version : Z;
  rr_rates : list Z;
  rr_updated_at : Z
}.

(** [agent_commission_rates] *)
Record agent_rate_row : Type := mk_agent_rate_row {
  ar_rate_basis_points : Z
}.

(** [agent_relations] *)
Record agent_relation_row : Type := mk_agent_relation_row {
  al_parent_user_id : option string;
  al_path : option (list string)
}.

(** [commission_adjustments] *)
Record commission_adjustment_row : Type := mk_commission_adjustment_row {
  cj_request_id : string;
  cj_agent_user_id : string;
  cj_currency : string;
  cj_amount_minor : Z;
  cj_remark : string;
  cj_operator_id : string
}.

(** [external_draw_rounds] *)
Record external_draw_row : Type := mk_external_draw_row {
  ed_source : string;
  ed_game : string;
  ed_external_round : Z;
  ed_close_at : option Z;
  ed_outcome : option json;
  ed_status : string;
  ed_conflict_outcome : option json;
  ed_result_received_at : option Z
}.

(** [game_rooms] *)
Record game_room_row : Type := mk_game_room_row {
  gr_code : string;
  gr_name : string;
  gr_enabled : bool;
  gr_game_kind : string
}.

(** [bet_voids] *)
Record bet_void_row : Type := mk_bet_void_row {
  bv_operator_id : string;
  bv_request_id : string;
  bv_bet_id : string;
  bv_user_id : string;
  bv_wallet_id : string;
  bv_round_id : string;
  bv_round_sequence : Z;
  bv_game_type : string;
  bv_currency : string;
  bv_stake_minor : Z;
  bv_refund_minor : Z;
  bv_is_simulated : bool;
  bv_reason : string;
  bv_result : json;
  bv_created_at : Z
}.

(** [bet_task_configs] *)
Record task_config_row : Type := mk_task_config_row {
  tc_accumulation_currency : string;
  tc_reward_currency : string;
  tc_threshold_minor : Z;
  tc_reward_minor : Z;
  tc_enabled : bool;
  tc_title : string;
  tc_period_type : string;
  tc_sort_order : Z;
  tc_max_complete_count : Z;
  tc_rewards : json;
  tc_deleted : bool;
  tc_created_at : Z
}.

(** [task_reward_claims] *)
Record task_claim_row : Type := mk_task_claim_row {
  tr_config_id : string;
  tr_user_id : string;
  tr_period_date : string;
  tr_complete_count : Z;
  tr_rewards : json;
  tr_config_snapshot : json;
  tr_created_at : Z
}.

(** [spin_configs] *)
Record spin_config_row : Type := mk_spin_config_row {
  sc_code : string;
  sc_title : string;
  sc_enabled : bool;
  sc_cost_currency : string;
  sc_cost_minor : Z;
  sc_sort_order : Z;
  sc_deleted : bool;
  sc_created_at : Z
}.

(** [spin_prizes] *)
Record spin_prize_row : Type := mk_spin_prize_row {
  sp_spin_id : string;
  sp_code : string;
  sp_label : string;
  sp_reward_currency : string;
  sp_reward_minor : Z;
  sp_weight : Z;
  sp_sort_order : Z;
  sp_disabled : bool
}.

(** [spin_records] *)
Record spin_record_row : Type := mk_spin_record_row {
  sx_user_id : string;
  sx_client_request_id : string;
  sx_spin_id : string;
  sx_prize_id : string;
  sx_prize_label : string;
  sx_reward_currency : string;
  sx_reward_minor : Z;
  sx_cost_currency : string;
  sx_cost_minor : Z;
  sx_cost_balance_after : Z;
  sx_reward_balance_after : Z;
  sx_created_at : Z
}.

(** [auth_identities] *)
Record identity_row : Type := mk_identity_row {
  ai_user_id : string;
  ai_provider : string;
  ai_subject : string;
  ai_password_hash : option string
}.

(** [sessions] *)
Record session_row : Type := mk_session_row {
  se_user_id : string;
  se_token_hash : string;
  se_audience : string;
  se_expires_at : option Z;
  se_revoked_at : option Z
}.

(** [auth_login_guards] *)
Record login_guard_row : Type := mk_login_guard_row {
  lg_failed_attempts : Z;
  lg_window_started_at : Z;
  lg_locked_until : option Z;
  lg_updated_at : Z
}.

(** [lulu_orders] *)
Record lulu_order_row : Type := mk_lulu_order_row {
  lo_user_id : string;
  lo_kind : string;
  lo_request_id : string;
  lo_lulu_uid : string;
  lo_receiver_uid : string;
  lo_amount : Z;
  lo_status : string;
  lo_receipt_id : option string;
  lo_evidence : string;
  lo_reviewed_by : option string;
  lo_created_at : Z;
  lo_expires_at : Z
}.

(** [lulu_receipts] *)
Record lulu_receipt_row : Type := mk_lulu_receipt_row {
  lr_receiver_uid : string;
  lr_sender_uid : string;
  lr_amount : Z;
  lr_occurred_at : Z;
  lr_order_id : option string
}.

(** [lulu_collector_state] *)
Record lulu_collector_row : Type := mk_lulu_collector_row {
  lx_scanned_at : option Z;
  lx_last_success_at : option Z;
  lx_last_error : string;
  lx_last_cycle : string;
  lx_down_at : Z;
  lx_recovered_at : Z;
  lx_last_down_ms : Z
}.

(** [leaderboard_periods] *)
Record period_row : Type := mk_period_row {
  pd_period_type : string;
  pd_starts_at : Z;
  pd_ends_at : Z;
  pd_status : string;
  pd_refreshed_at : Z;
  pd_frozen_at : option Z
}.

(** [leaderboard_reward_rules] *)
Record reward_rule_row : Type := mk_reward_rule_row {
  rw_period_type : string;
  rw_currency : string;
  rw_rank_from : Z;
  rw_rank_to : Z;
  rw_reward_currency : string;
  rw_reward_minor : Z;
  rw_enabled : bool
}.

(** [leaderboard_reward_distributions] *)
Record distribution_row : Type := mk_distribution_row {
  di_period_id : string;
  di_leaderboard_currency : string;
  di_user_id : string;
  di_rank : Z;
  di_reward_currency : string;
  di_reward_minor : Z;
  di_paid_at : Z;
  di_rule_snapshot : json
}.

(** [admin_security_passwords] *)
Record security_password_row : Type := mk_security_password_row {
  sq_password_hash : string;
  sq_version : Z;
  sq_updated_by : option string
}.

(** [chat_messages] *)
Record chat_message_row : Type := mk_chat_message_row {
  cm_room_id : string;
  cm_sender_user_id : option string;
  cm_body : string;
  cm_status : string;
  cm_client_request_id : option string;
  cm_sender_is_staff : bool;
  cm_image_upload_id : option string;
  cm_created_at : Z
}.

(** [uploads] *)
Record upload_row : Type := mk_upload_row {
  uq_owner_user_id : option string;
  uq_storage_key : string;
  uq_content_type : string;
  uq_size_bytes : Z;
  uq_status : string;
  uq_expires_at : option Z;
  uq_created_at : Z
}.

(** [robot_plans] *)
Record robot_plan_row : Type := mk_robot_plan_row {
  rb_user_id : string;
  rb_operator_id : string;
  rb_request_id : string;
  rb_create_input : json;
  rb_enabled : bool;
  rb_deleted : bool;
  rb_game_type : string;
  rb_game_room_id : string;
  rb_currency : string;
  rb_min_stake_minor : Z;
  rb_max_stake_minor : Z;
  rb_selections : json;
  rb_skip_min : Z;
  rb_skip_max : Z;
  rb_next_round_sequence : option Z;
  rb_last_seen_sequence : option Z;
  rb_last_checked_at : option Z;
  rb_last_status : string;
  rb_last_error : string;
  rb_last_bet_id : option string;
  rb_created_at : Z;
  rb_updated_at : Z
}.

(** [hash_room_currency_configs] *)
Record hash_config_row : Type := mk_hash_config_row {
  hc_room_id : string;
  hc_currency : string;
  hc_min_stake_minor : Z;
  hc_guess_max_stake_minor : Z;
  hc_dodge_max_stake_minor : Z;
  hc_road_max_stake_minor : Z;
  hc_guess_multiplier : Z;
  hc_guess_divisor : Z;
  hc_dodge_multiplier : Z;
  hc_dodge_divisor : Z;
  hc_road_multiplier : Z;
  hc_road_divisor : Z
}.

(** [lulu_play_configs] *)
Record lulu_play_row : Type := mk_lulu_play_row {
  lp_game_type_id : string;
  lp_code : string;
  lp_outcomes : json;
  lp_result_map : json;
  lp_dodge_mode : bool;
  lp_enabled : bool
}.

(** [lulu_room_play_currency_configs and lulu_prime_time_configs] *)
Record lulu_config_row : Type := mk_lulu_config_row {
  lc_game_type_id : string;
  lc_room_id : string;
  lc_play_code : string;
  lc_currency : string;
  lc_payout_multiplier : Z;
  lc_payout_divisor : Z;
  lc_min_stake_minor : Z;
  lc_max_stake_minor : Z;
  lc_enabled : bool
}.

(** [leaderboard_entries] *)
Record board_row : Type := mk_board_row {
  lb_public_user_id : Z;
  lb_display_name : string;
  lb_avatar_url : string;
  lb_is_virtual : bool;
  lb_effective_stake_minor : Z;
  lb_first_effective_at : Z;
  lb_rank : option Z;
  lb_total_payout_minor : option Z;
  lb_available_minor : option Z
}.

(** [lulu_config] *)
Record lulu_setting_row : Type := mk_lulu_setting_row {
  ls_receiver_uid : string;
  ls_enabled : bool;
  ls_version : Z;
  ls_updated_at : Z;
  ls_api_url : string;
  ls_scan_start_at : option Z;
  ls_token_cipher : option string;
  ls_protocol_cipher : option string
}.

(** [task_progress] *)
Record task_progress_row : Type := mk_task_progress_row {
  tp_progress_minor : Z;
  tp_complete_count : Z
}.

(** [admin_security_attempts] *)
Record attempt_row : Type := mk_attempt_row {
  sa_failures : Z;
  sa_window_started_at : Z;
  sa_blocked_until : option Z
}.

(** Everything but the money: one field per table. *)
Record App : Type := mk_App {
  users : gmap string user_row;
  currencies : gmap string currency_row;
  chain_addresses : gmap string address_row;
  deposits : gmap string deposit_row;
  assets : gmap string asset_row;
  withdrawals : gmap string withdrawal_row;
  webhook_events : gmap string webhook_row;
  red_packets : gmap string packet_row;
  claims : gmap string claim_row;
  chat_rooms : gmap string chat_room_row;
  point_withdrawals : gmap string point_withdrawal_row;
  adjustments : gmap string adjustment_row;
  game_types : gmap string game_type_row;
  rounds : gmap string round_row;
  bets : gmap string bet_row;
  bet_placements : gmap string placement_row;
  commission_entries : gmap string commission_row;
  rebate_allocations : gmap string allocation_row;
  bet_rebate_snapshots : gmap string snapshot_row;
  room_rebate_configs : gmap string rebate_config_row;
  agent_commission_rates : gmap string agent_rate_row;
  agent_relations : gmap string agent_relation_row;
  commission_adjustments : gmap string commission_adjustment_row;
  external_draw_rounds : gmap string external_draw_row;
  game_rooms : gmap string game_room_row;
  bet_voids : gmap string bet_void_row;
  bet_task_configs : gmap string task_config_row;
  task_reward_claims : gmap string task_claim_row;
  spin_configs : gmap string spin_config_row;
  spin_prizes : gmap string spin_prize_row;
  spin_records : gmap string spin_record_row;
  auth_identities : gmap string identity_row;
  sessions : gmap string session_row;
  auth_login_guards : gmap string login_guard_row;
  lulu_orders : gmap string lulu_order_row;
  lulu_receipts : gmap string lulu_receipt_row;
  lulu_collector_state : gmap string lulu_collector_row;
  leaderboard_periods : gmap string period_row;
  leaderboard_reward_rules : gmap string reward_rule_row;
  leaderboard_reward_distributions : gmap string distribution_row;
  admin_security_passwords : gmap string security_password_row;
  chat_messages : gmap string chat_message_row;
  uploads : gmap string upload_row;
  robot_plans : gmap string robot_plan_row;
  outbox : list outbox_row;
  audit_logs : list audit_row;
  user_roles : list (string * string);
  chat_room_members : list (string * string);
  game_room_types : list (string * string);
  hash_room_currency_configs : list hash_config_row;
  lulu_play_configs : list lulu_play_row;
  lulu_room_configs : list lulu_config_row;
  lulu_prime_configs : list lulu_config_row;
  task_progress : gmap (string * string * string) task_progress_row;
  leaderboard_entries : gmap (string * string * string) board_row;
  leaderboard_reward_rule_versions : gmap (string * string) Z;
  admin_security_attempts : gmap (string * string) attempt_row;
  muted_users : list string;
  virtual_account_automations : list string;
  lulu_setting : lulu_setting_row;
  lulu_login_limits : gmap string Z;
  users_public_id_seq : Z;
  uuid_count : nat
}.

Definition set_users (v : gmap string user_row) (a : App) : App :=
  mk_App v a.(currencies) a.(chain_addresses) a.(deposits) a.(assets) a.(withdrawals) a.(webhook_events) a.(red_packets) a.(claims) a.(chat_rooms) a.(point_withdrawals) a.(adjustments) a.(game_types) a.(rounds) a.(bets) a.(bet_placements) a.(commission_entries) a.(rebate_allocations) a.(bet_rebate_snapshots) a.(room_rebate_configs) a.(agent_commission_rates) a.(agent_relations) a.(commission_adjustments) a.(external_draw_rounds) a.(game_rooms) a.(bet_voids) a.(bet_task_configs) a.(task_reward_claims) a.(spin_configs) a.(spin_prizes) a.(spin_records) a.(auth_identities) a.(sessions) a.(auth_login_guards) a.(lulu_orders) a.(lulu_receipts) a.(lulu_collector_state) a.(leaderboard_periods) a.(leaderboard_reward_rules) a.(leaderboard_reward_distributions) a.(admin_security_passwords) a.(chat_messages) a.(uploads) a.(robot_plans) a.(outbox) a.(audit_logs) a.(user_roles) a.(chat_room_members) a.(game_room_types) a.(hash_room_currency_configs) a.(lulu_play_configs) a.(lulu_room_configs) a.(lulu_prime_configs) a.(task_progress) a.(leaderboard_entries) a.(leaderboard_reward_rule_versions) a.(admin_security_attempts) a.(muted_users) a.(virtual_account_automations) a.(lulu_setting) a.(lulu_login_limits) a.(users_public_id_seq) a.(uuid_count).
Definition set_currencies (v : gmap string currency_row) (a : App) : App :=
  mk_App a.(users) v a.(chain_addresses) a.(deposits) a.(assets) a.(withdrawals) a.(webhook_events) a.(red_packets) a.(claims) a.(chat_rooms) a.(point_withdrawals) a.(adjustments) a.(game_types) a.(rounds) a.(bets) a.(bet_placements) a.(commission_entries) a.(rebate_allocations) a.(bet_rebate_snapshots) a.(room_rebate_configs) a.(agent_commission_rates) a.(agent_relations) a.(commission_adjustments) a.(external_draw_rounds) a.(game_rooms) a.(bet_voids) a.(bet_task_configs) a.(task_reward_claims) a.(spin_configs) a.(spin_prizes) a.(spin_records) a.(auth_identities) a.(sessions) a.(auth_login_guards) a.(lulu_orders) a.(lulu_receipts) a.(lulu_collector_state) a.(leaderboard_periods) a.(leaderboard_reward_rules) a.(leaderboard_reward_distributions) a.(admin_security_passwords) a.(chat_messages) a.(uploads) a.(robot_plans) a.(outbox) a.(audit_logs) a.(user_roles) a.(chat_room_members) a.(game_room_types) a.(hash_room_currency_configs) a.(lulu_play_configs) a.(lulu_room_configs) a.(lulu_prime_configs) a.(task_progress) a.(leaderboard_entries) a.(leaderboard_reward_rule_versions) a.(admin_security_attempts) a.(muted_users) a.(virtual_account_automations) a.(lulu_setting) a.(lulu_login_limits) a.(users_public_id_seq) a.(uuid_count).
Definition set_chain_addresses (v : gmap string address_row) (a : App) : App :=
  mk_App a.(users) a.(currencies) v a.(deposits) a.(assets) a.(withdrawals) a.(webhook_events) a.(red_packets) a.(claims) a.(chat_rooms) a.(point_withdrawals) a.(adjustments) a.(game_types) a.(rounds) a.(bets) a.(bet_placements) a.(commission_entries) a.(rebate_allocations) a.(bet_rebate_snapshots) a.(room_rebate_configs) a.(agent_commission_rates) a.(agent_relations) a.(commission_adjustments) a.(external_draw_rounds) a.(game_rooms) a.(bet_voids) a.(bet_task_configs) a.(task_reward_claims) a.(spin_configs) a.(spin_prizes) a.(spin_records) a.(auth_identities) a.(sessions) a.(auth_login_guards) a.(lulu_orders) a.(lulu_receipts) a.(lulu_collector_state) a.(leaderboard_periods) a.(leaderboard_reward_rules) a.(leaderboard_reward_distributions) a.(admin_security_passwords) a.(chat_messages) a.(uploads) a.(robot_plans) a.(outbox) a.(audit_logs) a.(user_roles) a.(chat_room_members) a.(game_room_types) a.(hash_room_currency_configs) a.(lulu_play_configs) a.(lulu_room_configs) a.(lulu_prime_configs) a.(task_progress) a.(leaderboard_entries) a.(leaderboard_reward_rule_versions) a.(admin_security_attempts) a.(muted_users) a.(virtual_account_automations) a.(lulu_setting) a.(lulu_login_limits) a.(users_public_id_seq) a.(uuid_count).
Definition set_deposits (v : gmap string deposit_row) (a : App) : App :=
  mk_App a.(users) a.(currencies) a.(chain_addresses) v a.(assets) a.(withdrawals) a.(webhook_events) a.(red_packets) a.(claims) a.(chat_rooms) a.(point_withdrawals) a.(adjustments) a.(game_types) a.(rounds) a.(bets) a.(bet_placements) a.(commission_entries) a.(rebate_allocations) a.(bet_rebate_snapshots) a.(room_rebate_configs) a.(agent_commission_rates) a.(agent_relations) a.(commission_adjustments) a.(external_draw_rounds) a.(game_rooms) a.(bet_voids) a.(bet_task_configs) a.(task_reward_claims) a.(spin_configs) a.(spin_prizes) a.(spin_records) a.(auth_identities) a.(sessions) a.(auth_login_guards) a.(lulu_orders) a.(lulu_receipts) a.(lulu_collector_state) a.(leaderboard_periods) a.(leaderboard_reward_rules) a.(leaderboard_reward_distributions) a.(admin_security_passwords) a.(chat_messages) a.(uploads) a.(robot_plans) a.(outbox) a.(audit_logs) a.(user_roles) a.(chat_room_members) a.(game_room_types) a.(hash_room_currency_configs) a.(lulu_play_configs) a.(lulu_room_configs) a.(lulu_prime_configs) a.(task_progress) a.(leaderboard_entries) a.(leaderboard_reward_rule_versions) a.(admin_security_attempts) a.(muted_users) a.(virtual_account_automations) a.(lulu_setting) a.(lulu_login_limits) a.(users_public_id_seq) a.(uuid_count).
Definition set_assets (v : gmap string asset_row) (a : App) : App :=
  mk_App a.(users) a.(currencies) a.(chain_addresses) a.(deposits) v a.(withdrawals) a.(webhook_events) a.(red_packets) a.(claims) a.(chat_rooms) a.(point_withdrawals) a.(adjustments) a.(game_types) a.(rounds) a.(bets) a.(bet_placements) a.(commission_entries) a.(rebate_allocations) a.(bet_rebate_snapshots) a.(room_rebate_configs) a.(agent_commission_rates) a.(agent_relations) a.(commission_adjustments) a.(external_draw_rounds) a.(game_rooms) a.(bet_voids) a.(bet_task_configs) a.(task_reward_claims) a.(spin_configs) a.(spin_prizes) a.(spin_records) a.(auth_identities) a.(sessions) a.(auth_login_guards) a.(lulu_orders) a.(lulu_receipts) a.(lulu_collector_state) a.(leaderboard_periods) a.(leaderboard_reward_rules) a.(leaderboard_reward_distributions) a.(admin_security_passwords) a.(chat_messages) a.(uploads) a.(robot_plans) a.(outbox) a.(audit_logs) a.(user_roles) a.(chat_room_members) a.(game_room_types) a.(hash_room_currency_configs) a.(lulu_play_configs) a.(lulu_room_configs) a.(lulu_prime_configs) a.(task_progress) a.(leaderboard_entries) a.(leaderboard_reward_rule_versions) a.(admin_security_attempts) a.(muted_users) a.(virtual_account_automations) a.(lulu_setting) a.(lulu_login_limits) a.(users_public_id_seq) a.(uuid_count).
Definition set_withdrawals (v : gmap string withdrawal_row) (a : App) : App :=
  mk_App a.(users) a.(currencies) a.(chain_addresses) a.(deposits) a.(assets) v a.(webhook_events) a.(red_packets) a.(claims) a.(chat_rooms) a.(point_withdrawals) a.(adjustments) a.(game_types) a.(rounds) a.(bets) a.(bet_placements) a.(commission_entries) a.(rebate_allocations) a.(bet_rebate_snapshots) a.(room_rebate_configs) a.(agent_commission_rates) a.(agent_relations) a.(commission_adjustments) a.(external_draw_rounds) a.(game_rooms) a.(bet_voids) a.(bet_task_configs) a.(task_reward_claims) a.(spin_configs) a.(spin_prizes) a.(spin_records) a.(auth_identities) a.(sessions) a.(auth_login_guards) a.(lulu_orders) a.(lulu_receipts) a.(lulu_collector_state) a.(leaderboard_periods) a.(leaderboard_reward_rules) a.(leaderboard_reward_distributions) a.(admin_security_passwords) a.(chat_messages) a.(uploads) a.(robot_plans) a.(outbox) a.(audit_logs) a.(user_roles) a.(chat_room_members) a.(game_room_types) a.(hash_room_currency_configs) a.(lulu_play_configs) a.(lulu_room_configs) a.(lulu_prime_configs) a.(task_progress) a.(leaderboard_entries) a.(leaderboard_reward_rule_versions) a.(admin_security_attempts) a.(muted_users) a.(virtual_account_automations) a.(lulu_setting) a.(lulu_login_limits) a.(users_public_id_seq) a.(uuid_count).
Definition set_webhook_events (v : gmap string webhook_row) (a : App) : App :=
  mk_App a.(users) a.(currencies) a.(chain_addresses) a.(deposits) a.(assets) a.(withdrawals) v a.(red_packets) a.(claims) a.(chat_rooms) a.(point_withdrawals) a.(adjustments) a.(game_types) a.(rounds) a.(bets) a.(bet_placements) a.(commission_entries) a.(rebate_allocations) a.(bet_rebate_snapshots) a.(room_rebate_configs) a.(agent_commission_rates) a.(agent_relations) a.(commission_adjustments) a.(external_draw_rounds) a.(game_rooms) a.(bet_voids) a.(bet_task_configs) a.(task_reward_claims) a.(spin_configs) a.(spin_prizes) a.(spin_records) a.(auth_identities) a.(sessions) a.(auth_login_guards) a.(lulu_orders) a.(lulu_receipts) a.(lulu_collector_state) a.(leaderboard_periods) a.(leaderboard_reward_rules) a.(leaderboard_reward_distributions) a.(admin_security_passwords) a.(chat_messages) a.(uploads) a.(robot_plans) a.(outbox) a.(audit_logs) a.(user_roles) a.(chat_room_members) a.(game_room_types) a.(hash_room_currency_configs) a.(lulu_play_configs) a.(lulu_room_configs) a.(lulu_prime_configs) a.(task_progress) a.(leaderboard_entries) a.(leaderboard_reward_rule_versions) a.(admin_security_attempts) a.(muted_users) a.(virtual_account_automations) a.(lulu_setting) a.(lulu_login_limits) a.(users_public_id_seq) a.(uuid_count).
Definition set_red_packets (v : gmap string packet_row) (a : App) : App :=
  mk_App a.(users) a.(currencies) a.(chain_addresses) a.(deposits) a.(assets) a.(withdrawals) a.(webhook_events) v a.(claims) a.(chat_rooms) a.(point_withdrawals) a.(adjustments) a.(game_types) a.(rounds) a.(bets) a.(bet_placements) a.(commission_entries) a.(rebate_allocations) a.(bet_rebate_snapshots) a.(room_rebate_configs) a.(agent_commission_rates) a.(agent_relations) a.(commission_adjustments) a.(external_draw_rounds) a.(game_rooms) a.(bet_voids) a.(bet_task_configs) a.(task_reward_claims) a.(spin_configs) a.(spin_prizes) a.(spin_records) a.(auth_identities) a.(sessions) a.(auth_login_guards) a.(lulu_orders) a.(lulu_receipts) a.(lulu_collector_state) a.(leaderboard_periods) a.(leaderboard_reward_rules) a.(leaderboard_reward_distributions) a.(admin_security_passwords) a.(chat_messages) a.(uploads) a.(robot_plans) a.(outbox) a.(audit_logs) a.(user_roles) a.(chat_room_members) a.(game_room_types) a.(hash_room_currency_configs) a.(lulu_play_configs) a.(lulu_room_configs) a.(lulu_prime_configs) a.(task_progress) a.(leaderboard_entries) a.(leaderboard_reward_rule_versions) a.(admin_security_attempts) a.(muted_users) a.(virtual_account_automations) a.(lulu_setting) a.(lulu_login_limits) a.(users_public_id_seq) a.(uuid_count).
Definition set_claims (v : gmap string claim_row) (a : App) : App :=
  mk_App a.(users) a.(currencies) a.(chain_addresses) a.(deposits) a.(assets) a.(withdrawals) a.(webhook_events) a.(red_packets) v a.(chat_rooms) a.(point_withdrawals) a.(adjustments) a.(game_types) a.(rounds) a.(bets) a.(bet_placements) a.(commission_entries) a.(rebate_allocations) a.(bet_rebate_snapshots) a.(room_rebate_configs) a.(agent_commission_rates) a.(agent_relations) a.(commission_adjustments) a.(external_draw_rounds) a.(game_rooms) a.(bet_voids) a.(bet_task_configs) a.(task_reward_claims) a.(spin_configs) a.(spin_prizes) a.(spin_records) a.(auth_identities) a.(sessions) a.(auth_login_guards) a.(lulu_orders) a.(lulu_receipts) a.(lulu_collector_state) a.(leaderboard_periods) a.(leaderboard_reward_rules) a.(leaderboard_reward_distributions) a.(admin_security_passwords) a.(chat_messages) a.(uploads) a.(robot_plans) a.(outbox) a.(audit_logs) a.(user_roles) a.(chat_room_members) a.(game_room_types) a.(hash_room_currency_configs) a.(lulu_play_configs) a.(lulu_room_configs) a.(lulu_prime_configs) a.(task_progress) a.(leaderboard_entries) a.(leaderboard_reward_rule_versions) a.(admin_security_attempts) a.(muted_users) a.(virtual_account_automations) a.(lulu_setting) a.(lulu_login_limits) a.(users_public_id_seq) a.(uuid_count).
Definition set_chat_rooms (v : gmap string chat_room_row) (a : App) : App :=
  mk_App a.(users) a.(currencies) a.(chain_addresses) a.(deposits) a.(assets) a.(withdrawals) a.(webhook_events) a.(red_packets) a.(claims) v a.(point_withdrawals) a.(adjustments) a.(game_types) a.(rounds) a.(bets) a.(bet_placements) a.(commission_entries) a.(rebate_allocations) a.(bet_rebate_snapshots) a.(room_rebate_configs) a.(agent_commission_rates) a.(agent_relations) a.(commission_adjustments) a.(external_draw_rounds) a.(game_rooms) a.(bet_voids) a.(bet_task_configs) a.(task_reward_claims) a.(spin_configs) a.(spin_prizes) a.(spin_records) a.(auth_identities) a.(sessions) a.(auth_login_guards) a.(lulu_orders) a.(lulu_receipts) a.(lulu_collector_state) a.(leaderboard_periods) a.(leaderboard_reward_rules) a.(leaderboard_reward_distributions) a.(admin_security_passwords) a.(chat_messages) a.(uploads) a.(robot_plans) a.(outbox) a.(audit_logs) a.(user_roles) a.(chat_room_members) a.(game_room_types) a.(hash_room_currency_configs) a.(lulu_play_configs) a.(lulu_room_configs) a.(lulu_prime_configs) a.(task_progress) a.(leaderboard_entries) a.(leaderboard_reward_rule_versions) a.(admin_security_attempts) a.(muted_users) a.(virtual_account_automations) a.(lulu_setting) a.(lulu_login_limits) a.(users_public_id_seq) a.(uuid_count).
Definition set_point_withdrawals (v : gmap string point_withdrawal_row) (a : App) : App :=
  mk_App a.(users) a.(currencies) a.(chain_addresses) a.(deposits) a.(assets) a.(withdrawals) a.(webhook_events) a.(red_packets) a.(claims) a.(chat_rooms) v a.(adjustments) a.(game_types) a.(rounds) a.(bets) a.(bet_placements) a.(commission_entries) a.(rebate_allocations) a.(bet_rebate_snapshots) a.(room_rebate_configs) a.(agent_commission_rates) a.(agent_relations) a.(commission_adjustments) a.(external_draw_rounds) a.(game_rooms) a.(bet_voids) a.(bet_task_configs) a.(task_reward_claims) a.(spin_configs) a.(spin_prizes) a.(spin_records) a.(auth_identities) a.(sessions) a.(auth_login_guards) a.(lulu_orders) a.(lulu_receipts) a.(lulu_collector_state) a.(leaderboard_periods) a.(leaderboard_reward_rules) a.(leaderboard_reward_distributions) a.(admin_security_passwords) a.(chat_messages) a.(uploads) a.(robot_plans) a.(outbox) a.(audit_logs) a.(user_roles) a.(chat_room_members) a.(game_room_types) a.(hash_room_currency_configs) a.(lulu_play_configs) a.(lulu_room_configs) a.(lulu_prime_configs) a.(task_progress) a.(leaderboard_entries) a.(leaderboard_reward_rule_versions) a.(admin_security_attempts) a.(muted_users) a.(virtual_account_automations) a.(lulu_setting) a.(lulu_login_limits) a.(users_public_id_seq) a.(uuid_count).
Definition set_adjustments (v : gmap string adjustment_row) (a : App) : App :=
  mk_App a.(users) a.(currencies) a.(chain_addresses) a.(deposits) a.(assets) a.(withdrawals) a.(webhook_events) a.(red_packets) a.(claims) a.(chat_rooms) a.(point_withdrawals) v a.(game_types) a.(rounds) a.(bets) a.(bet_placements) a.(commission_entries) a.(rebate_allocations) a.(bet_rebate_snapshots) a.(room_rebate_configs) a.(agent_commission_rates) a.(agent_relations) a.(commission_adjustments) a.(external_draw_rounds) a.(game_rooms) a.(bet_voids) a.(bet_task_configs) a.(task_reward_claims) a.(spin_configs) a.(spin_prizes) a.(spin_records) a.(auth_identities) a.(sessions) a.(auth_login_guards) a.(lulu_orders) a.(lulu_receipts) a.(lulu_collector_state) a.(leaderboard_periods) a.(leaderboard_reward_rules) a.(leaderboard_reward_distributions) a.(admin_security_passwords) a.(chat_messages) a.(uploads) a.(robot_plans) a.(outbox) a.(audit_logs) a.(user_roles) a.(chat_room_members) a.(game_room_types) a.(hash_room_currency_configs) a.(lulu_play_configs) a.(lulu_room_configs) a.(lulu_prime_configs) a.(task_progress) a.(leaderboard_entries) a.(leaderboard_reward_rule_versions) a.(admin_security_attempts) a.(muted_users) a.(virtual_account_automations) a.(lulu_setting) a.(lulu_login_limits) a.(users_public_id_seq) a.(uuid_count).
Definition set_game_types (v : gmap string game_type_row) (a : App) : App :=
  mk_App a.(users) a.(currencies) a.(chain_addresses) a.(deposits) a.(assets) a.(withdrawals) a.(webhook_events) a.(red_packets) a.(claims) a.(chat_rooms) a.(point_withdrawals) a.(adjustments) v a.(rounds) a.(bets) a.(bet_placements) a.(commission_entries) a.(rebate_allocations) a.(bet_rebate_snapshots) a.(room_rebate_configs) a.(agent_commission_rates) a.(agent_relations) a.(commission_adjustments) a.(external_draw_rounds) a.(game_rooms) a.(bet_voids) a.(bet_task_configs) a.(task_reward_claims) a.(spin_configs) a.(spin_prizes) a.(spin_records) a.(auth_identities) a.(sessions) a.(auth_login_guards) a.(lulu_orders) a.(lulu_receipts) a.(lulu_collector_state) a.(leaderboard_periods) a.(leaderboard_reward_rules) a.(leaderboard_reward_distributions) a.(admin_security_passwords) a.(chat_messages) a.(uploads) a.(robot_plans) a.(outbox) a.(audit_logs) a.(user_roles) a.(chat_room_members) a.(game_room_types) a.(hash_room_currency_configs) a.(lulu_play_configs) a.(lulu_room_configs) a.(lulu_prime_configs) a.(task_progress) a.(leaderboard_entries) a.(leaderboard_reward_rule_versions) a.(admin_security_attempts) a.(muted_users) a.(virtual_account_automations) a.(lulu_setting) a.(lulu_login_limits) a.(users_public_id_seq) a.(uuid_count).
Definition set_rounds (v : gmap string round_row) (a : App) : App :=
  mk_App a.(users) a.(currencies) a.(chain_addresses) a.(deposits) a.(assets) a.(withdrawals) a.(webhook_events) a.(red_packets) a.(claims) a.(chat_rooms) a.(point_withdrawals) a.(adjustments) a.(game_types) v a.(bets) a.(bet_placements) a.(commission_entries) a.(rebate_allocations) a.(bet_rebate_snapshots) a.(room_rebate_configs) a.(agent_commission_rates) a.(agent_relations) a.(commission_adjustments) a.(external_draw_rounds) a.(game_rooms) a.(bet_voids) a.(bet_task_configs) a.(task_reward_claims) a.(spin_configs) a.(spin_prizes) a.(spin_records) a.(auth_identities) a.(sessions) a.(auth_login_guards) a.(lulu_orders) a.(lulu_receipts) a.(lulu_collector_state) a.(leaderboard_periods) a.(leaderboard_reward_rules) a.(leaderboard_reward_distributions) a.(admin_security_passwords) a.(chat_messages) a.(uploads) a.(robot_plans) a.(outbox) a.(audit_logs) a.(user_roles) a.(chat_room_members) a.(game_room_types) a.(hash_room_currency_configs) a.(lulu_play_configs) a.(lulu_room_configs) a.(lulu_prime_configs) a.(task_progress) a.(leaderboard_entries) a.(leaderboard_reward_rule_versions) a.(admin_security_attempts) a.(muted_users) a.(virtual_account_automations) a.(lulu_setting) a.(lulu_login_limits) a.(users_public_id_seq) a.(uuid_count).
Definition set_bets (v : gmap string bet_row) (a : App) : App :=
  mk_App a.(users) a.(currencies) a.(chain_addresses) a.(deposits) a.(assets) a.(withdrawals) a.(webhook_events) a.(red_packets) a.(claims) a.(chat_rooms) a.(point_withdrawals) a.(adjustments) a.(game_types) a.(rounds) v a.(bet_placements) a.(commission_entries) a.(rebate_allocations) a.(bet_rebate_snapshots) a.(room_rebate_configs) a.(agent_commission_rates) a.(agent_relations) a.(commission_adjustments) a.(external_draw_rounds) a.(game_rooms) a.(bet_voids) a.(bet_task_configs) a.(task_reward_claims) a.(spin_configs) a.(spin_prizes) a.(spin_records) a.(auth_identities) a.(sessions) a.(auth_login_guards) a.(lulu_orders) a.(lulu_receipts) a.(lulu_collector_state) a.(leaderboard_periods) a.(leaderboard_reward_rules) a.(leaderboard_reward_distributions) a.(admin_security_passwords) a.(chat_messages) a.(uploads) a.(robot_plans) a.(outbox) a.(audit_logs) a.(user_roles) a.(chat_room_members) a.(game_room_types) a.(hash_room_currency_configs) a.(lulu_play_configs) a.(lulu_room_configs) a.(lulu_prime_configs) a.(task_progress) a.(leaderboard_entries) a.(leaderboard_reward_rule_versions) a.(admin_security_attempts) a.(muted_users) a.(virtual_account_automations) a.(lulu_setting) a.(lulu_login_limits) a.(users_public_id_seq) a.(uuid_count).
Definition set_bet_placements (v : gmap string placement_row) (a : App) : App :=
  mk_App a.(users) a.(currencies) a.(chain_addresses) a.(deposits) a.(assets) a.(withdrawals) a.(webhook_events) a.(red_packets) a.(claims) a.(chat_rooms) a.(point_withdrawals) a.(adjustments) a.(game_types) a.(rounds) a.(bets) v a.(commission_entries) a.(rebate_allocations) a.(bet_rebate_snapshots) a.(room_rebate_configs) a.(agent_commission_rates) a.(agent_relations) a.(commission_adjustments) a.(external_draw_rounds) a.(game_rooms) a.(bet_voids) a.(bet_task_configs) a.(task_reward_claims) a.(spin_configs) a.(spin_prizes) a.(spin_records) a.(auth_identities) a.(sessions) a.(auth_login_guards) a.(lulu_orders) a.(lulu_receipts) a.(lulu_collector_state) a.(leaderboard_periods) a.(leaderboard_reward_rules) a.(leaderboard_reward_distributions) a.(admin_security_passwords) a.(chat_messages) a.(uploads) a.(robot_plans) a.(outbox) a.(audit_logs) a.(user_roles) a.(chat_room_members) a.(game_room_types) a.(hash_room_currency_configs) a.(lulu_play_configs) a.(lulu_room_configs) a.(lulu_prime_configs) a.(task_progress) a.(leaderboard_entries) a.(leaderboard_reward_rule_versions) a.(admin_security_attempts) a.(muted_users) a.(virtual_account_automations) a.(lulu_setting) a.(lulu_login_limits) a.(users_public_id_seq) a.(uuid_count).
Definition set_commission_entries (v : gmap string commission_row) (a : App) : App :=
  mk_App a.(users) a.(currencies) a.(chain_addresses) a.(deposits) a.(assets) a.(withdrawals) a.(webhook_events) a.(red_packets) a.(claims) a.(chat_rooms) a.(point_withdrawals) a.(adjustments) a.(game_types) a.(rounds) a.(bets) a.(bet_placements) v a.(rebate_allocations) a.(bet_rebate_snapshots) a.(room_rebate_configs) a.(agent_commission_rates) a.(agent_relations) a.(commission_adjustments) a.(external_draw_rounds) a.(game_rooms) a.(bet_voids) a.(bet_task_configs) a.(task_reward_claims) a.(spin_configs) a.(spin_prizes) a.(spin_records) a.(auth_identities) a.(sessions) a.(auth_login_guards) a.(lulu_orders) a.(lulu_receipts) a.(lulu_collector_state) a.(leaderboard_periods) a.(leaderboard_reward_rules) a.(leaderboard_reward_distributions) a.(admin_security_passwords) a.(chat_messages) a.(uploads) a.(robot_plans) a.(outbox) a.(audit_logs) a.(user_roles) a.(chat_room_members) a.(game_room_types) a.(hash_room_currency_configs) a.(lulu_play_configs) a.(lulu_room_configs) a.(lulu_prime_configs) a.(task_progress) a.(leaderboard_entries) a.(leaderboard_reward_rule_versions) a.(admin_security_attempts) a.(muted_users) a.(virtual_account_automations) a.(lulu_setting) a.(lulu_login_limits) a.(users_public_id_seq) a.(uuid_count).
Definition set_rebate_allocations (v : gmap string allocation_row) (a : App) : App :=
  mk_App a.(users) a.(currencies) a.(chain_addresses) a.(deposits) a.(assets) a.(withdrawals) a.(webhook_events) a.(red_packets) a.(claims) a.(chat_rooms) a.(point_withdrawals) a.(adjustments) a.(game_types) a.(rounds) a.(bets) a.(bet_placements) a.(commission_entries) v a.(bet_rebate_snapshots) a.(room_rebate_configs) a.(agent_commission_rates) a.(agent_relations) a.(commission_adjustments) a.(external_draw_rounds) a.(game_rooms) a.(bet_voids) a.(bet_task_configs) a.(task_reward_claims) a.(spin_configs) a.(spin_prizes) a.(spin_records) a.(auth_identities) a.(sessions) a.(auth_login_guards) a.(lulu_orders) a.(lulu_receipts) a.(lulu_collector_state) a.(leaderboard_periods) a.(leaderboard_reward_rules) a.(leaderboard_reward_distributions) a.(admin_security_passwords) a.(chat_messages) a.(uploads) a.(robot_plans) a.(outbox) a.(audit_logs) a.(user_roles) a.(chat_room_members) a.(game_room_types) a.(hash_room_currency_configs) a.(lulu_play_configs) a.(lulu_room_configs) a.(lulu_prime_configs) a.(task_progress) a.(leaderboard_entries) a.(leaderboard_reward_rule_versions) a.(admin_security_attempts) a.(muted_users) a.(virtual_account_automations) a.(lulu_setting) a.(lulu_login_limits) a.(users_public_id_seq) a.(uuid_count).
Definition set_bet_rebate_snapshots (v : gmap string snapshot_row) (a : App) : App :=
  mk_App a.(users) a.(currencies) a.(chain_addresses) a.(deposits) a.(assets) a.(withdrawals) a.(webhook_events) a.(red_packets) a.(claims) a.(chat_rooms) a.(point_withdrawals) a.(adjustments) a.(game_types) a.(rounds) a.(bets) a.(bet_placements) a.(commission_entries) a.(rebate_allocations) v a.(room_rebate_configs) a.(agent_commission_rates) a.(agent_relations) a.(commission_adjustments) a.(external_draw_rounds) a.(game_rooms) a.(bet_voids) a.(bet_task_configs) a.(task_reward_claims) a.(spin_configs) a.(spin_prizes) a.(spin_records) a.(auth_identities) a.(sessions) a.(auth_login_guards) a.(lulu_orders) a.(lulu_receipts) a.(lulu_collector_state) a.(leaderboard_periods) a.(leaderboard_reward_rules) a.(leaderboard_reward_distributions) a.(admin_security_passwords) a.(chat_messages) a.(uploads) a.(robot_plans) a.(outbox) a.(audit_logs) a.(user_roles) a.(chat_room_members) a.(game_room_types) a.(hash_room_currency_configs) a.(lulu_play_configs) a.(lulu_room_configs) a.(lulu_prime_configs) a.(task_progress) a.(leaderboard_entries) a.(leaderboard_reward_rule_versions) a.(admin_security_attempts) a.(muted_users) a.(virtual_account_automations) a.(lulu_setting) a.(lulu_login_limits) a.(users_public_id_seq) a.(uuid_count).
Definition set_room_rebate_configs (v : gmap string rebate_config_row) (a : App) : App :=
  mk_App a.(users) a.(currencies) a.(chain_addresses) a.(deposits) a.(assets) a.(withdrawals) a.(webhook_events) a.(red_packets) a.(claims) a.(chat_rooms) a.(point_withdrawals) a.(adjustments) a.(game_types) a.(rounds) a.(bets) a.(bet_placements) a.(commission_entries) a.(rebate_allocations) a.(bet_rebate_snapshots) v a.(agent_commission_rates) a.(agent_relations) a.(commission_adjustments) a.(external_draw_rounds) a.(game_rooms) a.(bet_voids) a.(bet_task_configs) a.(task_reward_claims) a.(spin_configs) a.(spin_prizes) a.(spin_records) a.(auth_identities) a.(sessions) a.(auth_login_guards) a.(lulu_orders) a.(lulu_receipts) a.(lulu_collector_state) a.(leaderboard_periods) a.(leaderboard_reward_rules) a.(leaderboard_reward_distributions) a.(admin_security_passwords) a.(chat_messages) a.(uploads) a.(robot_plans) a.(outbox) a.(audit_logs) a.(user_roles) a.(chat_room_members) a.(game_room_types) a.(hash_room_currency_configs) a.(lulu_play_configs) a.(lulu_room_configs) a.(lulu_prime_configs) a.(task_progress) a.(leaderboard_entries) a.(leaderboard_reward_rule_versions) a.(admin_security_attempts) a.(muted_users) a.(virtual_account_automations) a.(lulu_setting) a.(lulu_login_limits) a.(users_public_id_seq) a.(uuid_count).
Definition set_agent_commission_rates (v : gmap string agent_rate_row) (a : App) : App :=
  mk_App a.(users) a.(currencies) a.(chain_addresses) a.(deposits) a.(assets) a.(withdrawals) a.(webhook_events) a.(red_packets) a.(claims) a.(chat_rooms) a.(point_withdrawals) a.(adjustments) a.(game_types) a.(rounds) a.(bets) a.(bet_placements) a.(commission_entries) a.(rebate_allocations) a.(bet_rebate_snapshots) a.(room_rebate_configs) v a.(agent_relations) a.(commission_adjustments) a.(external_draw_rounds) a.(game_rooms) a.(bet_voids) a.(bet_task_configs) a.(task_reward_claims) a.(spin_configs) a.(spin_prizes) a.(spin_records) a.(auth_identities) a.(sessions) a.(auth_login_guards) a.(lulu_orders) a.(lulu_receipts) a.(lulu_collector_state) a.(leaderboard_periods) a.(leaderboard_reward_rules) a.(leaderboard_reward_distributions) a.(admin_security_passwords) a.(chat_messages) a.(uploads) a.(robot_plans) a.(outbox) a.(audit_logs) a.(user_roles) a.(chat_room_members) a.(game_room_types) a.(hash_room_currency_configs) a.(lulu_play_configs) a.(lulu_room_configs) a.(lulu_prime_configs) a.(task_progress) a.(leaderboard_entries) a.(leaderboard_reward_rule_versions) a.(admin_security_attempts) a.(muted_users) a.(virtual_account_automations) a.(lulu_setting) a.(lulu_login_limits) a.(users_public_id_seq) a.(uuid_count).
Definition set_agent_relations (v : gmap string agent_relation_row) (a : App) : App :=
  mk_App a.(users) a.(currencies) a.(chain_addresses) a.(deposits) a.(assets) a.(withdrawals) a.(webhook_events) a.(red_packets) a.(claims) a.(chat_rooms) a.(point_withdrawals) a.(adjustments) a.(game_types) a.(rounds) a.(bets) a.(bet_placements) a.(commission_entries) a.(rebate_allocations) a.(bet_rebate_snapshots) a.(room_rebate_configs) a.(agent_commission_rates) v a.(commission_adjustments) a.(external_draw_rounds) a.(game_rooms) a.(bet_voids) a.(bet_task_configs) a.(task_reward_claims) a.(spin_configs) a.(spin_prizes) a.(spin_records) a.(auth_identities) a.(sessions) a.(auth_login_guards) a.(lulu_orders) a.(lulu_receipts) a.(lulu_collector_state) a.(leaderboard_periods) a.(leaderboard_reward_rules) a.(leaderboard_reward_distributions) a.(admin_security_passwords) a.(chat_messages) a.(uploads) a.(robot_plans) a.(outbox) a.(audit_logs) a.(user_roles) a.(chat_room_members) a.(game_room_types) a.(hash_room_currency_configs) a.(lulu_play_configs) a.(lulu_room_configs) a.(lulu_prime_configs) a.(task_progress) a.(leaderboard_entries) a.(leaderboard_reward_rule_versions) a.(admin_security_attempts) a.(muted_users) a.(virtual_account_automations) a.(lulu_setting) a.(lulu_login_limits) a.(users_public_id_seq) a.(uuid_count).
Definition set_commission_adjustments (v : gmap string commission_adjustment_row) (a : App) : App :=
  mk_App a.(users) a.(currencies) a.(chain_addresses) a.(deposits) a.(assets) a.(withdrawals) a.(webhook_events) a.(red_packets) a.(claims) a.(chat_rooms) a.(point_withdrawals) a.(adjustments) a.(game_types) a.(rounds) a.(bets) a.(bet_placements) a.(commission_entries) a.(rebate_allocations) a.(bet_rebate_snapshots) a.(room_rebate_configs) a.(agent_commission_rates) a.(agent_relations) v a.(external_draw_rounds) a.(game_rooms) a.(bet_voids) a.(bet_task_configs) a.(task_reward_claims) a.(spin_configs) a.(spin_prizes) a.(spin_records) a.(auth_identities) a.(sessions) a.(auth_login_guards) a.(lulu_orders) a.(lulu_receipts) a.(lulu_collector_state) a.(leaderboard_periods) a.(leaderboard_reward_rules) a.(leaderboard_reward_distributions) a.(admin_security_passwords) a.(chat_messages) a.(uploads) a.(robot_plans) a.(outbox) a.(audit_logs) a.(user_roles) a.(chat_room_members) a.(game_room_types) a.(hash_room_currency_configs) a.(lulu_play_configs) a.(lulu_room_configs) a.(lulu_prime_configs) a.(task_progress) a.(leaderboard_entries) a.(leaderboard_reward_rule_versions) a.(admin_security_attempts) a.(muted_users) a.(virtual_account_automations) a.(lulu_setting) a.(lulu_login_limits) a.(users_public_id_seq) a.(uuid_count).
Definition set_external_draw_rounds (v : gmap string external_draw_row) (a : App) : App :=
  mk_App a.(users) a.(currencies) a.(chain_addresses) a.(deposits) a.(assets) a.(withdrawals) a.(webhook_events) a.(red_packets) a.(claims) a.(chat_rooms) a.(point_withdrawals) a.(adjustments) a.(game_types) a.(rounds) a.(bets) a.(bet_placements) a.(commission_entries) a.(rebate_allocations) a.(bet_rebate_snapshots) a.(room_rebate_configs) a.(agent_commission_rates) a.(agent_relations) a.(commission_adjustments) v a.(game_rooms) a.(bet_voids) a.(bet_task_configs) a.(task_reward_claims) a.(spin_configs) a.(spin_prizes) a.(spin_records) a.(auth_identities) a.(sessions) a.(auth_login_guards) a.(lulu_orders) a.(lulu_receipts) a.(lulu_collector_state) a.(leaderboard_periods) a.(leaderboard_reward_rules) a.(leaderboard_reward_distributions) a.(admin_security_passwords) a.(chat_messages) a.(uploads) a.(robot_plans) a.(outbox) a.(audit_logs) a.(user_roles) a.(chat_room_members) a.(game_room_types) a.(hash_room_currency_configs) a.(lulu_play_configs) a.(lulu_room_configs) a.(lulu_prime_configs) a.(task_progress) a.(leaderboard_entries) a.(leaderboard_reward_rule_versions) a.(admin_security_attempts) a.(muted_users) a.(virtual_account_automations) a.(lulu_setting) a.(lulu_login_limits) a.(users_public_id_seq) a.(uuid_count).
Definition set_game_rooms (v : gmap string game_room_row) (a : App) : App :=
  mk_App a.(users) a.(currencies) a.(chain_addresses) a.(deposits) a.(assets) a.(withdrawals) a.(webhook_events) a.(red_packets) a.(claims) a.(chat_rooms) a.(point_withdrawals) a.(adjustments) a.(game_types) a.(rounds) a.(bets) a.(bet_placements) a.(commission_entries) a.(rebate_allocations) a.(bet_rebate_snapshots) a.(room_rebate_configs) a.(agent_commission_rates) a.(agent_relations) a.(commission_adjustments) a.(external_draw_rounds) v a.(bet_voids) a.(bet_task_configs) a.(task_reward_claims) a.(spin_configs) a.(spin_prizes) a.(spin_records) a.(auth_identities) a.(sessions) a.(auth_login_guards) a.(lulu_orders) a.(lulu_receipts) a.(lulu_collector_state) a.(leaderboard_periods) a.(leaderboard_reward_rules) a.(leaderboard_reward_distributions) a.(admin_security_passwords) a.(chat_messages) a.(uploads) a.(robot_plans) a.(outbox) a.(audit_logs) a.(user_roles) a.(chat_room_members) a.(game_room_types) a.(hash_room_currency_configs) a.(lulu_play_configs) a.(lulu_room_configs) a.(lulu_prime_configs) a.(task_progress) a.(leaderboard_entries) a.(leaderboard_reward_rule_versions) a.(admin_security_attempts) a.(muted_users) a.(virtual_account_automations) a.(lulu_setting) a.(lulu_login_limits) a.(users_public_id_seq) a.(uuid_count).
Definition set_bet_voids (v : gmap string bet_void_row) (a : App) : App :=
  mk_App a.(users) a.(currencies) a.(chain_addresses) a.(deposits) a.(assets) a.(withdrawals) a.(webhook_events) a.(red_packets) a.(claims) a.(chat_rooms) a.(point_withdrawals) a.(adjustments) a.(game_types) a.(rounds) a.(bets) a.(bet_placements) a.(commission_entries) a.(rebate_allocations) a.(bet_rebate_snapshots) a.(room_rebate_configs) a.(agent_commission_rates) a.(agent_relations) a.(commission_adjustments) a.(external_draw_rounds) a.(game_rooms) v a.(bet_task_configs) a.(task_reward_claims) a.(spin_configs) a.(spin_prizes) a.(spin_records) a.(auth_identities) a.(sessions) a.(auth_login_guards) a.(lulu_orders) a.(lulu_receipts) a.(lulu_collector_state) a.(leaderboard_periods) a.(leaderboard_reward_rules) a.(leaderboard_reward_distributions) a.(admin_security_passwords) a.(chat_messages) a.(uploads) a.(robot_plans) a.(outbox) a.(audit_logs) a.(user_roles) a.(chat_room_members) a.(game_room_types) a.(hash_room_currency_configs) a.(lulu_play_configs) a.(lulu_room_configs) a.(lulu_prime_configs) a.(task_progress) a.(leaderboard_entries) a.(leaderboard_reward_rule_versions) a.(admin_security_attempts) a.(muted_users) a.(virtual_account_automations) a.(lulu_setting) a.(lulu_login_limits) a.(users_public_id_seq) a.(uuid_count).
Definition set_bet_task_configs (v : gmap string task_config_row) (a : App) : App :=
  mk_App a.(users) a.(currencies) a.(chain_addresses) a.(deposits) a.(assets) a.(withdrawals) a.(webhook_events) a.(red_packets) a.(claims) a.(chat_rooms) a.(point_withdrawals) a.(adjustments) a.(game_types) a.(rounds) a.(bets) a.(bet_placements) a.(commission_entries) a.(rebate_allocations) a.(bet_rebate_snapshots) a.(room_rebate_configs) a.(agent_commission_rates) a.(agent_relations) a.(commission_adjustments) a.(external_draw_rounds) a.(game_rooms) a.(bet_voids) v a.(task_reward_claims) a.(spin_configs) a.(spin_prizes) a.(spin_records) a.(auth_identities) a.(sessions) a.(auth_login_guards) a.(lulu_orders) a.(lulu_receipts) a.(lulu_collector_state) a.(leaderboard_periods) a.(leaderboard_reward_rules) a.(leaderboard_reward_distributions) a.(admin_security_passwords) a.(chat_messages) a.(uploads) a.(robot_plans) a.(outbox) a.(audit_logs) a.(user_roles) a.(chat_room_members) a.(game_room_types) a.(hash_room_currency_configs) a.(lulu_play_configs) a.(lulu_room_configs) a.(lulu_prime_configs) a.(task_progress) a.(leaderboard_entries) a.(leaderboard_reward_rule_versions) a.(admin_security_attempts) a.(muted_users) a.(virtual_account_automations) a.(lulu_setting) a.(lulu_login_limits) a.(users_public_id_seq) a.(uuid_count).
Definition set_task_reward_claims (v : gmap string task_claim_row) (a : App) : App :=
  mk_App a.(users) a.(currencies) a.(chain_addresses) a.(deposits) a.(assets) a.(withdrawals) a.(webhook_events) a.(red_packets) a.(claims) a.(chat_rooms) a.(point_withdrawals) a.(adjustments) a.(game_types) a.(rounds) a.(bets) a.(bet_placements) a.(commission_entries) a.(rebate_allocations) a.(bet_rebate_snapshots) a.(room_rebate_configs) a.(agent_commission_rates) a.(agent_relations) a.(commission_adjustments) a.(external_draw_rounds) a.(game_rooms) a.(bet_voids) a.(bet_task_configs) v a.(spin_configs) a.(spin_prizes) a.(spin_records) a.(auth_identities) a.(sessions) a.(auth_login_guards) a.(lulu_orders) a.(lulu_receipts) a.(lulu_collector_state) a.(leaderboard_periods) a.(leaderboard_reward_rules) a.(leaderboard_reward_distributions) a.(admin_security_passwords) a.(chat_messages) a.(uploads) a.(robot_plans) a.(outbox) a.(audit_logs) a.(user_roles) a.(chat_room_members) a.(game_room_types) a.(hash_room_currency_configs) a.(lulu_play_configs) a.(lulu_room_configs) a.(lulu_prime_configs) a.(task_progress) a.(leaderboard_entries) a.(leaderboard_reward_rule_versions) a.(admin_security_attempts) a.(muted_users) a.(virtual_account_automations) a.(lulu_setting) a.(lulu_login_limits) a.(users_public_id_seq) a.(uuid_count).
Definition set_spin_configs (v : gmap string spin_config_row) (a : App) : App :=
  mk_App a.(users) a.(currencies) a.(chain_addresses) a.(deposits) a.(assets) a.(withdrawals) a.(webhook_events) a.(red_packets) a.(claims) a.(chat_rooms) a.(point_withdrawals) a.(adjustments) a.(game_types) a.(rounds) a.(bets) a.(bet_placements) a.(commission_entries) a.(rebate_allocations) a.(bet_rebate_snapshots) a.(room_rebate_configs) a.(agent_commission_rates) a.(agent_relations) a.(commission_adjustments) a.(external_draw_rounds) a.(game_rooms) a.(bet_voids) a.(bet_task_configs) a.(task_reward_claims) v a.(spin_prizes) a.(spin_records) a.(auth_identities) a.(sessions) a.(auth_login_guards) a.(lulu_orders) a.(lulu_receipts) a.(lulu_collector_state) a.(leaderboard_periods) a.(leaderboard_reward_rules) a.(leaderboard_reward_distributions) a.(admin_security_passwords) a.(chat_messages) a.(uploads) a.(robot_plans) a.(outbox) a.(audit_logs) a.(user_roles) a.(chat_room_members) a.(game_room_types) a.(hash_room_currency_configs) a.(lulu_play_configs) a.(lulu_room_configs) a.(lulu_prime_configs) a.(task_progress) a.(leaderboard_entries) a.(leaderboard_reward_rule_versions) a.(admin_security_attempts) a.(muted_users) a.(virtual_account_automations) a.(lulu_setting) a.(lulu_login_limits) a.(users_public_id_seq) a.(uuid_count).
Definition set_spin_prizes (v : gmap string spin_prize_row) (a : App) : App :=
  mk_App a.(users) a.(currencies) a.(chain_addresses) a.(deposits) a.(assets) a.(withdrawals) a.(webhook_events) a.(red_packets) a.(claims) a.(chat_rooms) a.(point_withdrawals) a.(adjustments) a.(game_types) a.(rounds) a.(bets) a.(bet_placements) a.(commission_entries) a.(rebate_allocations) a.(bet_rebate_snapshots) a.(room_rebate_configs) a.(agent_commission_rates) a.(agent_relations) a.(commission_adjustments) a.(external_draw_rounds) a.(game_rooms) a.(bet_voids) a.(bet_task_configs) a.(task_reward_claims) a.(spin_configs) v a.(spin_records) a.(auth_identities) a.(sessions) a.(auth_login_guards) a.(lulu_orders) a.(lulu_receipts) a.(lulu_collector_state) a.(leaderboard_periods) a.(leaderboard_reward_rules) a.(leaderboard_reward_distributions) a.(admin_security_passwords) a.(chat_messages) a.(uploads) a.(robot_plans) a.(outbox) a.(audit_logs) a.(user_roles) a.(chat_room_members) a.(game_room_types) a.(hash_room_currency_configs) a.(lulu_play_configs) a.(lulu_room_configs) a.(lulu_prime_configs) a.(task_progress) a.(leaderboard_entries) a.(leaderboard_reward_rule_versions) a.(admin_security_attempts) a.(muted_users) a.(virtual_account_automations) a.(lulu_setting) a.(lulu_login_limits) a.(users_public_id_seq) a.(uuid_count).
Definition set_spin_records (v : gmap string spin_record_row) (a : App) : App :=
  mk_App a.(users) a.(currencies) a.(chain_addresses) a.(deposits) a.(assets) a.(withdrawals) a.(webhook_events) a.(red_packets) a.(claims) a.(chat_rooms) a.(point_withdrawals) a.(adjustments) a.(game_types) a.(rounds) a.(bets) a.(bet_placements) a.(commission_entries) a.(rebate_allocations) a.(bet_rebate_snapshots) a.(room_rebate_configs) a.(agent_commission_rates) a.(agent_relations) a.(commission_adjustments) a.(external_draw_rounds) a.(game_rooms) a.(bet_voids) a.(bet_task_configs) a.(task_reward_claims) a.(spin_configs) a.(spin_prizes) v a.(auth_identities) a.(sessions) a.(auth_login_guards) a.(lulu_orders) a.(lulu_receipts) a.(lulu_collector_state) a.(leaderboard_periods) a.(leaderboard_reward_rules) a.(leaderboard_reward_distributions) a.(admin_security_passwords) a.(chat_messages) a.(uploads) a.(robot_plans) a.(outbox) a.(audit_logs) a.(user_roles) a.(chat_room_members) a.(game_room_types) a.(hash_room_currency_configs) a.(lulu_play_configs) a.(lulu_room_configs) a.(lulu_prime_configs) a.(task_progress) a.(leaderboard_entries) a.(leaderboard_reward_rule_versions) a.(admin_security_attempts) a.(muted_users) a.(virtual_account_automations) a.(lulu_setting) a.(lulu_login_limits) a.(users_public_id_seq) a.(uuid_count).
Definition set_auth_identities (v : gmap string identity_row) (a : App) : App :=
  mk_App a.(users) a.(currencies) a.(chain_addresses) a.(deposits) a.(assets) a.(withdrawals) a.(webhook_events) a.(red_packets) a.(claims) a.(chat_rooms) a.(point_withdrawals) a.(adjustments) a.(game_types) a.(rounds) a.(bets) a.(bet_placements) a.(commission_entries) a.(rebate_allocations) a.(bet_rebate_snapshots) a.(room_rebate_configs) a.(agent_commission_rates) a.(agent_relations) a.(commission_adjustments) a.(external_draw_rounds) a.(game_rooms) a.(bet_voids) a.(bet_task_configs) a.(task_reward_claims) a.(spin_configs) a.(spin_prizes) a.(spin_records) v a.(sessions) a.(auth_login_guards) a.(lulu_orders) a.(lulu_receipts) a.(lulu_collector_state) a.(leaderboard_periods) a.(leaderboard_reward_rules) a.(leaderboard_reward_distributions) a.(admin_security_passwords) a.(chat_messages) a.(uploads) a.(robot_plans) a.(outbox) a.(audit_logs) a.(user_roles) a.(chat_room_members) a.(game_room_types) a.(hash_room_currency_configs) a.(lulu_play_configs) a.(lulu_room_configs) a.(lulu_prime_configs) a.(task_progress) a.(leaderboard_entries) a.(leaderboard_reward_rule_versions) a.(admin_security_attempts) a.(muted_users) a.(virtual_account_automations) a.(lulu_setting) a.(lulu_login_limits) a.(users_public_id_seq) a.(uuid_count).
Definition set_sessions (v : gmap string session_row) (a : App) : App :=
  mk_App a.(users) a.(currencies) a.(chain_addresses) a.(deposits) a.(assets) a.(withdrawals) a.(webhook_events) a.(red_packets) a.(claims) a.(chat_rooms) a.(point_withdrawals) a.(adjustments) a.(game_types) a.(rounds) a.(bets) a.(bet_placements) a.(commission_entries) a.(rebate_allocations) a.(bet_rebate_snapshots) a.(room_rebate_configs) a.(agent_commission_rates) a.(agent_relations) a.(commission_adjustments) a.(external_draw_rounds) a.(game_rooms) a.(bet_voids) a.(bet_task_configs) a.(task_reward_claims) a.(spin_configs) a.(spin_prizes) a.(spin_records) a.(auth_identities) v a.(auth_login_guards) a.(lulu_orders) a.(lulu_receipts) a.(lulu_collector_state) a.(leaderboard_periods) a.(leaderboard_reward_rules) a.(leaderboard_reward_distributions) a.(admin_security_passwords) a.(chat_messages) a.(uploads) a.(robot_plans) a.(outbox) a.(audit_logs) a.(user_roles) a.(chat_room_members) a.(game_room_types) a.(hash_room_currency_configs) a.(lulu_play_configs) a.(lulu_room_configs) a.(lulu_prime_configs) a.(task_progress) a.(leaderboard_entries) a.(leaderboard_reward_rule_versions) a.(admin_security_attempts) a.(muted_users) a.(virtual_account_automations) a.(lulu_setting) a.(lulu_login_limits) a.(users_public_id_seq) a.(uuid_count).
Definition set_auth_login_guards (v : gmap string login_guard_row) (a : App) : App :=
  mk_App a.(users) a.(currencies) a.(chain_addresses) a.(deposits) a.(assets) a.(withdrawals) a.(webhook_events) a.(red_packets) a.(claims) a.(chat_rooms) a.(point_withdrawals) a.(adjustments) a.(game_types) a.(rounds) a.(bets) a.(bet_placements) a.(commission_entries) a.(rebate_allocations) a.(bet_rebate_snapshots) a.(room_rebate_configs) a.(agent_commission_rates) a.(agent_relations) a.(commission_adjustments) a.(external_draw_rounds) a.(game_rooms) a.(bet_voids) a.(bet_task_configs) a.(task_reward_claims) a.(spin_configs) a.(spin_prizes) a.(spin_records) a.(auth_identities) a.(sessions) v a.(lulu_orders) a.(lulu_receipts) a.(lulu_collector_state) a.(leaderboard_periods) a.(leaderboard_reward_rules) a.(leaderboard_reward_distributions) a.(admin_security_passwords) a.(chat_messages) a.(uploads) a.(robot_plans) a.(outbox) a.(audit_logs) a.(user_roles) a.(chat_room_members) a.(game_room_types) a.(hash_room_currency_configs) a.(lulu_play_configs) a.(lulu_room_configs) a.(lulu_prime_configs) a.(task_progress) a.(leaderboard_entries) a.(leaderboard_reward_rule_versions) a.(admin_security_attempts) a.(muted_users) a.(virtual_account_automations) a.(lulu_setting) a.(lulu_login_limits) a.(users_public_id_seq) a.(uuid_count).
Definition set_lulu_orders (v : gmap string lulu_order_row) (a : App) : App :=
  mk_App a.(users) a.(currencies) a.(chain_addresses) a.(deposits) a.(assets) a.(withdrawals) a.(webhook_events) a.(red_packets) a.(claims) a.(chat_rooms) a.(point_withdrawals) a.(adjustments) a.(game_types) a.(rounds) a.(bets) a.(bet_placements) a.(commission_entries) a.(rebate_allocations) a.(bet_rebate_snapshots) a.(room_rebate_configs) a.(agent_commission_rates) a.(agent_relations) a.(commission_adjustments) a.(external_draw_rounds) a.(game_rooms) a.(bet_voids) a.(bet_task_configs) a.(task_reward_claims) a.(spin_configs) a.(spin_prizes) a.(spin_records) a.(auth_identities) a.(sessions) a.(auth_login_guards) v a.(lulu_receipts) a.(lulu_collector_state) a.(leaderboard_periods) a.(leaderboard_reward_rules) a.(leaderboard_reward_distributions) a.(admin_security_passwords) a.(chat_messages) a.(uploads) a.(robot_plans) a.(outbox) a.(audit_logs) a.(user_roles) a.(chat_room_members) a.(game_room_types) a.(hash_room_currency_configs) a.(lulu_play_configs) a.(lulu_room_configs) a.(lulu_prime_configs) a.(task_progress) a.(leaderboard_entries) a.(leaderboard_reward_rule_versions) a.(admin_security_attempts) a.(muted_users) a.(virtual_account_automations) a.(lulu_setting) a.(lulu_login_limits) a.(users_public_id_seq) a.(uuid_count).
Definition set_lulu_receipts (v : gmap string lulu_receipt_row) (a : App) : App :=
  mk_App a.(users) a.(currencies) a.(chain_addresses) a.(deposits) a.(assets) a.(withdrawals) a.(webhook_events) a.(red_packets) a.(claims) a.(chat_rooms) a.(point_withdrawals) a.(adjustments) a.(game_types) a.(rounds) a.(bets) a.(bet_placements) a.(commission_entries) a.(rebate_allocations) a.(bet_rebate_snapshots) a.(room_rebate_configs) a.(agent_commission_rates) a.(agent_relations) a.(commission_adjustments) a.(external_draw_rounds) a.(game_rooms) a.(bet_voids) a.(bet_task_configs) a.(task_reward_claims) a.(spin_configs) a.(spin_prizes) a.(spin_records) a.(auth_identities) a.(sessions) a.(auth_login_guards) a.(lulu_orders) v a.(lulu_collector_state) a.(leaderboard_periods) a.(leaderboard_reward_rules) a.(leaderboard_reward_distributions) a.(admin_security_passwords) a.(chat_messages) a.(uploads) a.(robot_plans) a.(outbox) a.(audit_logs) a.(user_roles) a.(chat_room_members) a.(game_room_types) a.(hash_room_currency_configs) a.(lulu_play_configs) a.(lulu_room_configs) a.(lulu_prime_configs) a.(task_progress) a.(leaderboard_entries) a.(leaderboard_reward_rule_versions) a.(admin_security_attempts) a.(muted_users) a.(virtual_account_automations) a.(lulu_setting) a.(lulu_login_limits) a.(users_public_id_seq) a.(uuid_count).
Definition set_lulu_collector_state (v : gmap string lulu_collector_row) (a : App) : App :=
  mk_App a.(users) a.(currencies) a.(chain_addresses) a.(deposits) a.(assets) a.(withdrawals) a.(webhook_events) a.(red_packets) a.(claims) a.(chat_rooms) a.(point_withdrawals) a.(adjustments) a.(game_types) a.(rounds) a.(bets) a.(bet_placements) a.(commission_entries) a.(rebate_allocations) a.(bet_rebate_snapshots) a.(room_rebate_configs) a.(agent_commission_rates) a.(agent_relations) a.(commission_adjustments) a.(external_draw_rounds) a.(game_rooms) a.(bet_voids) a.(bet_task_configs) a.(task_reward_claims) a.(spin_configs) a.(spin_prizes) a.(spin_records) a.(auth_identities) a.(sessions) a.(auth_login_guards) a.(lulu_orders) a.(lulu_receipts) v a.(leaderboard_periods) a.(leaderboard_reward_rules) a.(leaderboard_reward_distributions) a.(admin_security_passwords) a.(chat_messages) a.(uploads) a.(robot_plans) a.(outbox) a.(audit_logs) a.(user_roles) a.(chat_room_members) a.(game_room_types) a.(hash_room_currency_configs) a.(lulu_play_configs) a.(lulu_room_configs) a.(lulu_prime_configs) a.(task_progress) a.(leaderboard_entries) a.(leaderboard_reward_rule_versions) a.(admin_security_attempts) a.(muted_users) a.(virtual_account_automations) a.(lulu_setting) a.(lulu_login_limits) a.(users_public_id_seq) a.(uuid_count).
Definition set_leaderboard_periods (v : gmap string period_row) (a : App) : App :=
  mk_App a.(users) a.(currencies) a.(chain_addresses) a.(deposits) a.(assets) a.(withdrawals) a.(webhook_events) a.(red_packets) a.(claims) a.(chat_rooms) a.(point_withdrawals) a.(adjustments) a.(game_types) a.(rounds) a.(bets) a.(bet_placements) a.(commission_entries) a.(rebate_allocations) a.(bet_rebate_snapshots) a.(room_rebate_configs) a.(agent_commission_rates) a.(agent_relations) a.(commission_adjustments) a.(external_draw_rounds) a.(game_rooms) a.(bet_voids) a.(bet_task_configs) a.(task_reward_claims) a.(spin_configs) a.(spin_prizes) a.(spin_records) a.(auth_identities) a.(sessions) a.(auth_login_guards) a.(lulu_orders) a.(lulu_receipts) a.(lulu_collector_state) v a.(leaderboard_reward_rules) a.(leaderboard_reward_distributions) a.(admin_security_passwords) a.(chat_messages) a.(uploads) a.(robot_plans) a.(outbox) a.(audit_logs) a.(user_roles) a.(chat_room_members) a.(game_room_types) a.(hash_room_currency_configs) a.(lulu_play_configs) a.(lulu_room_configs) a.(lulu_prime_configs) a.(task_progress) a.(leaderboard_entries) a.(leaderboard_reward_rule_versions) a.(admin_security_attempts) a.(muted_users) a.(virtual_account_automations) a.(lulu_setting) a.(lulu_login_limits) a.(users_public_id_seq) a.(uuid_count).
Definition set_leaderboard_reward_rules (v : gmap string reward_rule_row) (a : App) : App :=
  mk_App a.(users) a.(currencies) a.(chain_addresses) a.(deposits) a.(assets) a.(withdrawals) a.(webhook_events) a.(red_packets) a.(claims) a.(chat_rooms) a.(point_withdrawals) a.(adjustments) a.(game_types) a.(rounds) a.(bets) a.(bet_placements) a.(commission_entries) a.(rebate_allocations) a.(bet_rebate_snapshots) a.(room_rebate_configs) a.(agent_commission_rates) a.(agent_relations) a.(commission_adjustments) a.(external_draw_rounds) a.(game_rooms) a.(bet_voids) a.(bet_task_configs) a.(task_reward_claims) a.(spin_configs) a.(spin_prizes) a.(spin_records) a.(auth_identities) a.(sessions) a.(auth_login_guards) a.(lulu_orders) a.(lulu_receipts) a.(lulu_collector_state) a.(leaderboard_periods) v a.(leaderboard_reward_distributions) a.(admin_security_passwords) a.(chat_messages) a.(uploads) a.(robot_plans) a.(outbox) a.(audit_logs) a.(user_roles) a.(chat_room_members) a.(game_room_types) a.(hash_room_currency_configs) a.(lulu_play_configs) a.(lulu_room_configs) a.(lulu_prime_configs) a.(task_progress) a.(leaderboard_entries) a.(leaderboard_reward_rule_versions) a.(admin_security_attempts) a.(muted_users) a.(virtual_account_automations) a.(lulu_setting) a.(lulu_login_limits) a.(users_public_id_seq) a.(uuid_count).
Definition set_leaderboard_reward_distributions (v : gmap string distribution_row) (a : App) : App :=
  mk_App a.(users) a.(currencies) a.(chain_addresses) a.(deposits) a.(assets) a.(withdrawals) a.(webhook_events) a.(red_packets) a.(claims) a.(chat_rooms) a.(point_withdrawals) a.(adjustments) a.(game_types) a.(rounds) a.(bets) a.(bet_placements) a.(commission_entries) a.(rebate_allocations) a.(bet_rebate_snapshots) a.(room_rebate_configs) a.(agent_commission_rates) a.(agent_relations) a.(commission_adjustments) a.(external_draw_rounds) a.(game_rooms) a.(bet_voids) a.(bet_task_configs) a.(task_reward_claims) a.(spin_configs) a.(spin_prizes) a.(spin_records) a.(auth_identities) a.(sessions) a.(auth_login_guards) a.(lulu_orders) a.(lulu_receipts) a.(lulu_collector_state) a.(leaderboard_periods) a.(leaderboard_reward_rules) v a.(admin_security_passwords) a.(chat_messages) a.(uploads) a.(robot_plans) a.(outbox) a.(audit_logs) a.(user_roles) a.(chat_room_members) a.(game_room_types) a.(hash_room_currency_configs) a.(lulu_play_configs) a.(lulu_room_configs) a.(lulu_prime_configs) a.(task_progress) a.(leaderboard_entries) a.(leaderboard_reward_rule_versions) a.(admin_security_attempts) a.(muted_users) a.(virtual_account_automations) a.(lulu_setting) a.(lulu_login_limits) a.(users_public_id_seq) a.(uuid_count).
Definition set_admin_security_passwords (v : gmap string security_password_row) (a : App) : App :=
  mk_App a.(users) a.(currencies) a.(chain_addresses) a.(deposits) a.(assets) a.(withdrawals) a.(webhook_events) a.(red_packets) a.(claims) a.(chat_rooms) a.(point_withdrawals) a.(adjustments) a.(game_types) a.(rounds) a.(bets) a.(bet_placements) a.(commission_entries) a.(rebate_allocations) a.(bet_rebate_snapshots) a.(room_rebate_configs) a.(agent_commission_rates) a.(agent_relations) a.(commission_adjustments) a.(external_draw_rounds) a.(game_rooms) a.(bet_voids) a.(bet_task_configs) a.(task_reward_claims) a.(spin_configs) a.(spin_prizes) a.(spin_records) a.(auth_identities) a.(sessions) a.(auth_login_guards) a.(lulu_orders) a.(lulu_receipts) a.(lulu_collector_state) a.(leaderboard_periods) a.(leaderboard_reward_rules) a.(leaderboard_reward_distributions) v a.(chat_messages) a.(uploads) a.(robot_plans) a.(outbox) a.(audit_logs) a.(user_roles) a.(chat_room_members) a.(game_room_types) a.(hash_room_currency_configs) a.(lulu_play_configs) a.(lulu_room_configs) a.(lulu_prime_configs) a.(task_progress) a.(leaderboard_entries) a.(leaderboard_reward_rule_versions) a.(admin_security_attempts) a.(muted_users) a.(virtual_account_automations) a.(lulu_setting) a.(lulu_login_limits) a.(users_public_id_seq) a.(uuid_count).
Definition set_chat_messages (v : gmap string chat_message_row) (a : App) : App :=
  mk_App a.(users) a.(currencies) a.(chain_addresses) a.(deposits) a.(assets) a.(withdrawals) a.(webhook_events) a.(red_packets) a.(claims) a.(chat_rooms) a.(point_withdrawals) a.(adjustments) a.(game_types) a.(rounds) a.(bets) a.(bet_placements) a.(commission_entries) a.(rebate_allocations) a.(bet_rebate_snapshots) a.(room_rebate_configs) a.(agent_commission_rates) a.(agent_relations) a.(commission_adjustments) a.(external_draw_rounds) a.(game_rooms) a.(bet_voids) a.(bet_task_configs) a.(task_reward_claims) a.(spin_configs) a.(spin_prizes) a.(spin_records) a.(auth_identities) a.(sessions) a.(auth_login_guards) a.(lulu_orders) a.(lulu_receipts) a.(lulu_collector_state) a.(leaderboard_periods) a.(leaderboard_reward_rules) a.(leaderboard_reward_distributions) a.(admin_security_passwords) v a.(uploads) a.(robot_plans) a.(outbox) a.(audit_logs) a.(user_roles) a.(chat_room_members) a.(game_room_types) a.(hash_room_currency_configs) a.(lulu_play_configs) a.(lulu_room_configs) a.(lulu_prime_configs) a.(task_progress) a.(leaderboard_entries) a.(leaderboard_reward_rule_versions) a.(admin_security_attempts) a.(muted_users) a.(virtual_account_automations) a.(lulu_setting) a.(lulu_login_limits) a.(users_public_id_seq) a.(uuid_count).
Definition set_uploads (v : gmap string upload_row) (a : App) : App :=
  mk_App a.(users) a.(currencies) a.(chain_addresses) a.(deposits) a.(assets) a.(withdrawals) a.(webhook_events) a.(red_packets) a.(claims) a.(chat_rooms) a.(point_withdrawals) a.(adjustments) a.(game_types) a.(rounds) a.(bets) a.(bet_placements) a.(commission_entries) a.(rebate_allocations) a.(bet_rebate_snapshots) a.(room_rebate_configs) a.(agent_commission_rates) a.(agent_relations) a.(commission_adjustments) a.(external_draw_rounds) a.(game_rooms) a.(bet_voids) a.(bet_task_configs) a.(task_reward_claims) a.(spin_configs) a.(spin_prizes) a.(spin_records) a.(auth_identities) a.(sessions) a.(auth_login_guards) a.(lulu_orders) a.(lulu_receipts) a.(lulu_collector_state) a.(leaderboard_periods) a.(leaderboard_reward_rules) a.(leaderboard_reward_distributions) a.(admin_security_passwords) a.(chat_messages) v a.(robot_plans) a.(outbox) a.(audit_logs) a.(user_roles) a.(chat_room_members) a.(game_room_types) a.(hash_room_currency_configs) a.(lulu_play_configs) a.(lulu_room_configs) a.(lulu_prime_configs) a.(task_progress) a.(leaderboard_entries) a.(leaderboard_reward_rule_versions) a.(admin_security_attempts) a.(muted_users) a.(virtual_account_automations) a.(lulu_setting) a.(lulu_login_limits) a.(users_public_id_seq) a.(uuid_count).
Definition set_robot_plans (v : gmap string robot_plan_row) (a : App) : App :=
  mk_App a.(users) a.(currencies) a.(chain_addresses) a.(deposits) a.(assets) a.(withdrawals) a.(webhook_events) a.(red_packets) a.(claims) a.(chat_rooms) a.(point_withdrawals) a.(adjustments) a.(game_types) a.(rounds) a.(bets) a.(bet_placements) a.(commission_entries) a.(rebate_allocations) a.(bet_rebate_snapshots) a.(room_rebate_configs) a.(agent_commission_rates) a.(agent_relations) a.(commission_adjustments) a.(external_draw_rounds) a.(game_rooms) a.(bet_voids) a.(bet_task_configs) a.(task_reward_claims) a.(spin_configs) a.(spin_prizes) a.(spin_records) a.(auth_identities) a.(sessions) a.(auth_login_guards) a.(lulu_orders) a.(lulu_receipts) a.(lulu_collector_state) a.(leaderboard_periods) a.(leaderboard_reward_rules) a.(leaderboard_reward_distributions) a.(admin_security_passwords) a.(chat_messages) a.(uploads) v a.(outbox) a.(audit_logs) a.(user_roles) a.(chat_room_members) a.(game_room_types) a.(hash_room_currency_configs) a.(lulu_play_configs) a.(lulu_room_configs) a.(lulu_prime_configs) a.(task_progress) a.(leaderboard_entries) a.(leaderboard_reward_rule_versions) a.(admin_security_attempts) a.(muted_users) a.(virtual_account_automations) a.(lulu_setting) a.(lulu_login_limits) a.(users_public_id_seq) a.(uuid_count).
Definition set_outbox (v : list outbox_row) (a : App) : App :=
  mk_App a.(users) a.(currencies) a.(chain_addresses) a.(deposits) a.(assets) a.(withdrawals) a.(webhook_events) a.(red_packets) a.(claims) a.(chat_rooms) a.(point_withdrawals) a.(adjustments) a.(game_types) a.(rounds) a.(bets) a.(bet_placements) a.(commission_entries) a.(rebate_allocations) a.(bet_rebate_snapshots) a.(room_rebate_configs) a.(agent_commission_rates) a.(agent_relations) a.(commission_adjustments) a.(external_draw_rounds) a.(game_rooms) a.(bet_voids) a.(bet_task_configs) a.(task_reward_claims) a.(spin_configs) a.(spin_prizes) a.(spin_records) a.(auth_identities) a.(sessions) a.(auth_login_guards) a.(lulu_orders) a.(lulu_receipts) a.(lulu_collector_state) a.(leaderboard_periods) a.(leaderboard_reward_rules) a.(leaderboard_reward_distributions) a.(admin_security_passwords) a.(chat_messages) a.(uploads) a.(robot_plans) v a.(audit_logs) a.(user_roles) a.(chat_room_members) a.(game_room_types) a.(hash_room_currency_configs) a.(lulu_play_configs) a.(lulu_room_configs) a.(lulu_prime_configs) a.(task_progress) a.(leaderboard_entries) a.(leaderboard_reward_rule_versions) a.(admin_security_attempts) a.(muted_users) a.(virtual_account_automations) a.(lulu_setting) a.(lulu_login_limits) a.(users_public_id_seq) a.(uuid_count).
Definition set_audit_logs (v : list audit_row) (a : App) : App :=
  mk_App a.(users) a.(currencies) a.(chain_addresses) a.(deposits) a.(assets) a.(withdrawals) a.(webhook_events) a.(red_packets) a.(claims) a.(chat_rooms) a.(point_withdrawals) a.(adjustments) a.(game_types) a.(rounds) a.(bets) a.(bet_placements) a.(commission_entries) a.(rebate_allocations) a.(bet_rebate_snapshots) a.(room_rebate_configs) a.(agent_commission_rates) a.(agent_relations) a.(commission_adjustments) a.(external_draw_rounds) a.(game_rooms) a.(bet_voids) a.(bet_task_configs) a.(task_reward_claims) a.(spin_configs) a.(spin_prizes) a.(spin_records) a.(auth_identities) a.(sessions) a.(auth_login_guards) a.(lulu_orders) a.(lulu_receipts) a.(lulu_collector_state) a.(leaderboard_periods) a.(leaderboard_reward_rules) a.(leaderboard_reward_distributions) a.(admin_security_passwords) a.(chat_messages) a.(uploads) a.(robot_plans) a.(outbox) v a.(user_roles) a.(chat_room_members) a.(game_room_types) a.(hash_room_currency_configs) a.(lulu_play_configs) a.(lulu_room_configs) a.(lulu_prime_configs) a.(task_progress) a.(leaderboard_entries) a.(leaderboard_reward_rule_versions) a.(admin_security_attempts) a.(muted_users) a.(virtual_account_automations) a.(lulu_setting) a.(lulu_login_limits) a.(users_public_id_seq) a.(uuid_count).
Definition set_user_roles (v : list (string * string)) (a : App) : App :=
  mk_App a.(users) a.(currencies) a.(chain_addresses) a.(deposits) a.(assets) a.(withdrawals) a.(webhook_events) a.(red_packets) a.(claims) a.(chat_rooms) a.(point_withdrawals) a.(adjustments) a.(game_types) a.(rounds) a.(bets) a.(bet_placements) a.(commission_entries) a.(rebate_allocations) a.(bet_rebate_snapshots) a.(room_rebate_configs) a.(agent_commission_rates) a.(agent_relations) a.(commission_adjustments) a.(external_draw_rounds) a.(game_rooms) a.(bet_voids) a.(bet_task_configs) a.(task_reward_claims) a.(spin_configs) a.(spin_prizes) a.(spin_records) a.(auth_identities) a.(sessions) a.(auth_login_guards) a.(lulu_orders) a.(lulu_receipts) a.(lulu_collector_state) a.(leaderboard_periods) a.(leaderboard_reward_rules) a.(leaderboard_reward_distributions) a.(admin_security_passwords) a.(chat_messages) a.(uploads) a.(robot_plans) a.(outbox) a.(audit_logs) v a.(chat_room_members) a.(game_room_types) a.(hash_room_currency_configs) a.(lulu_play_configs) a.(lulu_room_configs) a.(lulu_prime_configs) a.(task_progress) a.(leaderboard_entries) a.(leaderboard_reward_rule_versions) a.(admin_security_attempts) a.(muted_users) a.(virtual_account_automations) a.(lulu_setting) a.(lulu_login_limits) a.(users_public_id_seq) a.(uuid_count).
Definition set_chat_room_members (v : list (string * string)) (a : App) : App :=
  mk_App a.(users) a.(currencies) a.(chain_addresses) a.(deposits) a.(assets) a.(withdrawals) a.(webhook_events) a.(red_packets) a.(claims) a.(chat_rooms) a.(point_withdrawals) a.(adjustments) a.(game_types) a.(rounds) a.(bets) a.(bet_placements) a.(commission_entries) a.(rebate_allocations) a.(bet_rebate_snapshots) a.(room_rebate_configs) a.(agent_commission_rates) a.(agent_relations) a.(commission_adjustments) a.(external_draw_rounds) a.(game_rooms) a.(bet_voids) a.(bet_task_configs) a.(task_reward_claims) a.(spin_configs) a.(spin_prizes) a.(spin_records) a.(auth_identities) a.(sessions) a.(auth_login_guards) a.(lulu_orders) a.(lulu_receipts) a.(lulu_collector_state) a.(leaderboard_periods) a.(leaderboard_reward_rules) a.(leaderboard_reward_distributions) a.(admin_security_passwords) a.(chat_messages) a.(uploads) a.(robot_plans) a.(outbox) a.(audit_logs) a.(user_roles) v a.(game_room_types) a.(hash_room_currency_configs) a.(lulu_play_configs) a.(lulu_room_configs) a.(lulu_prime_configs) a.(task_progress) a.(leaderboard_entries) a.(leaderboard_reward_rule_versions) a.(admin_security_attempts) a.(muted_users) a.(virtual_account_automations) a.(lulu_setting) a.(lulu_login_limits) a.(users_public_id_seq) a.(uuid_count).
Definition set_game_room_types (v : list (string * string)) (a : App) : App :=
  mk_App a.(users) a.(currencies) a.(chain_addresses) a.(deposits) a.(assets) a.(withdrawals) a.(webhook_events) a.(red_packets) a.(claims) a.(chat_rooms) a.(point_withdrawals) a.(adjustments) a.(game_types) a.(rounds) a.(bets) a.(bet_placements) a.(commission_entries) a.(rebate_allocations) a.(bet_rebate_snapshots) a.(room_rebate_configs) a.(agent_commission_rates) a.(agent_relations) a.(commission_adjustments) a.(external_draw_rounds) a.(game_rooms) a.(bet_voids) a.(bet_task_configs) a.(task_reward_claims) a.(spin_configs) a.(spin_prizes) a.(spin_records) a.(auth_identities) a.(sessions) a.(auth_login_guards) a.(lulu_orders) a.(lulu_receipts) a.(lulu_collector_state) a.(leaderboard_periods) a.(leaderboard_reward_rules) a.(leaderboard_reward_distributions) a.(admin_security_passwords) a.(chat_messages) a.(uploads) a.(robot_plans) a.(outbox) a.(audit_logs) a.(user_roles) a.(chat_room_members) v a.(hash_room_currency_configs) a.(lulu_play_configs) a.(lulu_room_configs) a.(lulu_prime_configs) a.(task_progress) a.(leaderboard_entries) a.(leaderboard_reward_rule_versions) a.(admin_security_attempts) a.(muted_users) a.(virtual_account_automations) a.(lulu_setting) a.(lulu_login_limits) a.(users_public_id_seq) a.(uuid_count).
Definition set_hash_room_currency_configs (v : list hash_config_row) (a : App) : App :=
  mk_App a.(users) a.(currencies) a.(chain_addresses) a.(deposits) a.(assets) a.(withdrawals) a.(webhook_events) a.(red_packets) a.(claims) a.(chat_rooms) a.(point_withdrawals) a.(adjustments) a.(game_types) a.(rounds) a.(bets) a.(bet_placements) a.(commission_entries) a.(rebate_allocations) a.(bet_rebate_snapshots) a.(room_rebate_configs) a.(agent_commission_rates) a.(agent_relations) a.(commission_adjustments) a.(external_draw_rounds) a.(game_rooms) a.(bet_voids) a.(bet_task_configs) a.(task_reward_claims) a.(spin_configs) a.(spin_prizes) a.(spin_records) a.(auth_identities) a.(sessions) a.(auth_login_guards) a.(lulu_orders) a.(lulu_receipts) a.(lulu_collector_state) a.(leaderboard_periods) a.(leaderboard_reward_rules) a.(leaderboard_reward_distributions) a.(admin_security_passwords) a.(chat_messages) a.(uploads) a.(robot_plans) a.(outbox) a.(audit_logs) a.(user_roles) a.(chat_room_members) a.(game_room_types) v a.(lulu_play_configs) a.(lulu_room_configs) a.(lulu_prime_configs) a.(task_progress) a.(leaderboard_entries) a.(leaderboard_reward_rule_versions) a.(admin_security_attempts) a.(muted_users) a.(virtual_account_automations) a.(lulu_setting) a.(lulu_login_limits) a.(users_public_id_seq) a.(uuid_count).
Definition set_lulu_play_configs (v : list lulu_play_row) (a : App) : App :=
  mk_App a.(users) a.(currencies) a.(chain_addresses) a.(deposits) a.(assets) a.(withdrawals) a.(webhook_events) a.(red_packets) a.(claims) a.(chat_rooms) a.(point_withdrawals) a.(adjustments) a.(game_types) a.(rounds) a.(bets) a.(bet_placements) a.(commission_entries) a.(rebate_allocations) a.(bet_rebate_snapshots) a.(room_rebate_configs) a.(agent_commission_rates) a.(agent_relations) a.(commission_adjustments) a.(external_draw_rounds) a.(game_rooms) a.(bet_voids) a.(bet_task_configs) a.(task_reward_claims) a.(spin_configs) a.(spin_prizes) a.(spin_records) a.(auth_identities) a.(sessions) a.(auth_login_guards) a.(lulu_orders) a.(lulu_receipts) a.(lulu_collector_state) a.(leaderboard_periods) a.(leaderboard_reward_rules) a.(leaderboard_reward_distributions) a.(admin_security_passwords) a.(chat_messages) a.(uploads) a.(robot_plans) a.(outbox) a.(audit_logs) a.(user_roles) a.(chat_room_members) a.(game_room_types) a.(hash_room_currency_configs) v a.(lulu_room_configs) a.(lulu_prime_configs) a.(task_progress) a.(leaderboard_entries) a.(leaderboard_reward_rule_versions) a.(admin_security_attempts) a.(muted_users) a.(virtual_account_automations) a.(lulu_setting) a.(lulu_login_limits) a.(users_public_id_seq) a.(uuid_count).
Definition set_lulu_room_configs (v : list lulu_config_row) (a : App) : App :=
  mk_App a.(users) a.(currencies) a.(chain_addresses) a.(deposits) a.(assets) a.(withdrawals) a.(webhook_events) a.(red_packets) a.(claims) a.(chat_rooms) a.(point_withdrawals) a.(adjustments) a.(game_types) a.(rounds) a.(bets) a.(bet_placements) a.(commission_entries) a.(rebate_allocations) a.(bet_rebate_snapshots) a.(room_rebate_configs) a.(agent_commission_rates) a.(agent_relations) a.(commission_adjustments) a.(external_draw_rounds) a.(game_rooms) a.(bet_voids) a.(bet_task_configs) a.(task_reward_claims) a.(spin_configs) a.(spin_prizes) a.(spin_records) a.(auth_identities) a.(sessions) a.(auth_login_guards) a.(lulu_orders) a.(lulu_receipts) a.(lulu_collector_state) a.(leaderboard_periods) a.(leaderboard_reward_rules) a.(leaderboard_reward_distributions) a.(admin_security_passwords) a.(chat_messages) a.(uploads) a.(robot_plans) a.(outbox) a.(audit_logs) a.(user_roles) a.(chat_room_members) a.(game_room_types) a.(hash_room_currency_configs) a.(lulu_play_configs) v a.(lulu_prime_configs) a.(task_progress) a.(leaderboard_entries) a.(leaderboard_reward_rule_versions) a.(admin_security_attempts) a.(muted_users) a.(virtual_account_automations) a.(lulu_setting) a.(lulu_login_limits) a.(users_public_id_seq) a.(uuid_count).
Definition set_lulu_prime_configs (v : list lulu_config_row) (a : App) : App :=
  mk_App a.(users) a.(currencies) a.(chain_addresses) a.(deposits) a.(assets) a.(withdrawals) a.(webhook_events) a.(red_packets) a.(claims) a.(chat_rooms) a.(point_withdrawals) a.(adjustments) a.(game_types) a.(rounds) a.(bets) a.(bet_placements) a.(commission_entries) a.(rebate_allocations) a.(bet_rebate_snapshots) a.(room_rebate_configs) a.(agent_commission_rates) a.(agent_relations) a.(commission_adjustments) a.(external_draw_rounds) a.(game_rooms) a.(bet_voids) a.(bet_task_configs) a.(task_reward_claims) a.(spin_configs) a.(spin_prizes) a.(spin_records) a.(auth_identities) a.(sessions) a.(auth_login_guards) a.(lulu_orders) a.(lulu_receipts) a.(lulu_collector_state) a.(leaderboard_periods) a.(leaderboard_reward_rules) a.(leaderboard_reward_distributions) a.(admin_security_passwords) a.(chat_messages) a.(uploads) a.(robot_plans) a.(outbox) a.(audit_logs) a.(user_roles) a.(chat_room_members) a.(game_room_types) a.(hash_room_currency_configs) a.(lulu_play_configs) a.(lulu_room_configs) v a.(task_progress) a.(leaderboard_entries) a.(leaderboard_reward_rule_versions) a.(admin_security_attempts) a.(muted_users) a.(virtual_account_automations) a.(lulu_setting) a.(lulu_login_limits) a.(users_public_id_seq) a.(uuid_count).
Definition set_task_progress (v : gmap (string * string * string) task_progress_row) (a : App) : App :=
  mk_App a.(users) a.(currencies) a.(chain_addresses) a.(deposits) a.(assets) a.(withdrawals) a.(webhook_events) a.(red_packets) a.(claims) a.(chat_rooms) a.(point_withdrawals) a.(adjustments) a.(game_types) a.(rounds) a.(bets) a.(bet_placements) a.(commission_entries) a.(rebate_allocations) a.(bet_rebate_snapshots) a.(room_rebate_configs) a.(agent_commission_rates) a.(agent_relations) a.(commission_adjustments) a.(external_draw_rounds) a.(game_rooms) a.(bet_voids) a.(bet_task_configs) a.(task_reward_claims) a.(spin_configs) a.(spin_prizes) a.(spin_records) a.(auth_identities) a.(sessions) a.(auth_login_guards) a.(lulu_orders) a.(lulu_receipts) a.(lulu_collector_state) a.(leaderboard_periods) a.(leaderboard_reward_rules) a.(leaderboard_reward_distributions) a.(admin_security_passwords) a.(chat_messages) a.(uploads) a.(robot_plans) a.(outbox) a.(audit_logs) a.(user_roles) a.(chat_room_members) a.(game_room_types) a.(hash_room_currency_configs) a.(lulu_play_configs) a.(lulu_room_configs) a.(lulu_prime_configs) v a.(leaderboard_entries) a.(leaderboard_reward_rule_versions) a.(admin_security_attempts) a.(muted_users) a.(virtual_account_automations) a.(lulu_setting) a.(lulu_login_limits) a.(users_public_id_seq) a.(uuid_count).
Definition set_leaderboard_entries (v : gmap (string * string * string) board_row) (a : App) : App :=
  mk_App a.(users) a.(currencies) a.(chain_addresses) a.(deposits) a.(assets) a.(withdrawals) a.(webhook_events) a.(red_packets) a.(claims) a.(chat_rooms) a.(point_withdrawals) a.(adjustments) a.(game_types) a.(rounds) a.(bets) a.(bet_placements) a.(commission_entries) a.(rebate_allocations) a.(bet_rebate_snapshots) a.(room_rebate_configs) a.(agent_commission_rates) a.(agent_relations) a.(commission_adjustments) a.(external_draw_rounds) a.(game_rooms) a.(bet_voids) a.(bet_task_configs) a.(task_reward_claims) a.(spin_configs) a.(spin_prizes) a.(spin_records) a.(auth_identities) a.(sessions) a.(auth_login_guards) a.(lulu_orders) a.(lulu_receipts) a.(lulu_collector_state) a.(leaderboard_periods) a.(leaderboard_reward_rules) a.(leaderboard_reward_distributions) a.(admin_security_passwords) a.(chat_messages) a.(uploads) a.(robot_plans) a.(outbox) a.(audit_logs) a.(user_roles) a.(chat_room_members) a.(game_room_types) a.(hash_room_currency_configs) a.(lulu_play_configs) a.(lulu_room_configs) a.(lulu_prime_configs) a.(task_progress) v a.(leaderboard_reward_rule_versions) a.(admin_security_attempts) a.(muted_users) a.(virtual_account_automations) a.(lulu_setting) a.(lulu_login_limits) a.(users_public_id_seq) a.(uuid_count).
Definition set_leaderboard_reward_rule_versions (v : gmap (string * string) Z) (a : App) : App :=
  mk_App a.(users) a.(currencies) a.(chain_addresses) a.(deposits) a.(assets) a.(withdrawals) a.(webhook_events) a.(red_packets) a.(claims) a.(chat_rooms) a.(point_withdrawals) a.(adjustments) a.(game_types) a.(rounds) a.(bets) a.(bet_placements) a.(commission_entries) a.(rebate_allocations) a.(bet_rebate_snapshots) a.(room_rebate_configs) a.(agent_commission_rates) a.(agent_relations) a.(commission_adjustments) a.(external_draw_rounds) a.(game_rooms) a.(bet_voids) a.(bet_task_configs) a.(task_reward_claims) a.(spin_configs) a.(spin_prizes) a.(spin_records) a.(auth_identities) a.(sessions) a.(auth_login_guards) a.(lulu_orders) a.(lulu_receipts) a.(lulu_collector_state) a.(leaderboard_periods) a.(leaderboard_reward_rules) a.(leaderboard_reward_distributions) a.(admin_security_passwords) a.(chat_messages) a.(uploads) a.(robot_plans) a.(outbox) a.(audit_logs) a.(user_roles) a.(chat_room_members) a.(game_room_types) a.(hash_room_currency_configs) a.(lulu_play_configs) a.(lulu_room_configs) a.(lulu_prime_configs) a.(task_progress) a.(leaderboard_entries) v a.(admin_security_attempts) a.(muted_users) a.(virtual_account_automations) a.(lulu_setting) a.(lulu_login_limits) a.(users_public_id_seq) a.(uuid_count).
Definition set_admin_security_attempts (v : gmap (string * string) attempt_row) (a : App) : App :=
  mk_App a.(users) a.(currencies) a.(chain_addresses) a.(deposits) a.(assets) a.(withdrawals) a.(webhook_events) a.(red_packets) a.(claims) a.(chat_rooms) a.(point_withdrawals) a.(adjustments) a.(game_types) a.(rounds) a.(bets) a.(bet_placements) a.(commission_entries) a.(rebate_allocations) a.(bet_rebate_snapshots) a.(room_rebate_configs) a.(agent_commission_rates) a.(agent_relations) a.(commission_adjustments) a.(external_draw_rounds) a.(game_rooms) a.(bet_voids) a.(bet_task_configs) a.(task_reward_claims) a.(spin_configs) a.(spin_prizes) a.(spin_records) a.(auth_identities) a.(sessions) a.(auth_login_guards) a.(lulu_orders) a.(lulu_receipts) a.(lulu_collector_state) a.(leaderboard_periods) a.(leaderboard_reward_rules) a.(leaderboard_reward_distributions) a.(admin_security_passwords) a.(chat_messages) a.(uploads) a.(robot_plans) a.(outbox) a.(audit_logs) a.(user_roles) a.(chat_room_members) a.(game_room_types) a.(hash_room_currency_configs) a.(lulu_play_configs) a.(lulu_room_configs) a.(lulu_prime_configs) a.(task_progress) a.(leaderboard_entries) a.(leaderboard_reward_rule_versions) v a.(muted_users) a.(virtual_account_automations) a.(lulu_setting) a.(lulu_login_limits) a.(users_public_id_seq) a.(uuid_count).
Definition set_muted_users (v : list string) (a : App) : App :=
  mk_App a.(users) a.(currencies) a.(chain_addresses) a.(deposits) a.(assets) a.(withdrawals) a.(webhook_events) a.(red_packets) a.(claims) a.(chat_rooms) a.(point_withdrawals) a.(adjustments) a.(game_types) a.(rounds) a.(bets) a.(bet_placements) a.(commission_entries) a.(rebate_allocations) a.(bet_rebate_snapshots) a.(room_rebate_configs) a.(agent_commission_rates) a.(agent_relations) a.(commission_adjustments) a.(external_draw_rounds) a.(game_rooms) a.(bet_voids) a.(bet_task_configs) a.(task_reward_claims) a.(spin_configs) a.(spin_prizes) a.(spin_records) a.(auth_identities) a.(sessions) a.(auth_login_guards) a.(lulu_orders) a.(lulu_receipts) a.(lulu_collector_state) a.(leaderboard_periods) a.(leaderboard_reward_rules) a.(leaderboard_reward_distributions) a.(admin_security_passwords) a.(chat_messages) a.(uploads) a.(robot_plans) a.(outbox) a.(audit_logs) a.(user_roles) a.(chat_room_members) a.(game_room_types) a.(hash_room_currency_configs) a.(lulu_play_configs) a.(lulu_room_configs) a.(lulu_prime_configs) a.(task_progress) a.(leaderboard_entries) a.(leaderboard_reward_rule_versions) a.(admin_security_attempts) v a.(virtual_account_automations) a.(lulu_setting) a.(lulu_login_limits) a.(users_public_id_seq) a.(uuid_count).
Definition set_virtual_account_automations (v : list string) (a : App) : App :=
  mk_App a.(users) a.(currencies) a.(chain_addresses) a.(deposits) a.(assets) a.(withdrawals) a.(webhook_events) a.(red_packets) a.(claims) a.(chat_rooms) a.(point_withdrawals) a.(adjustments) a.(game_types) a.(rounds) a.(bets) a.(bet_placements) a.(commission_entries) a.(rebate_allocations) a.(bet_rebate_snapshots) a.(room_rebate_configs) a.(agent_commission_rates) a.(agent_relations) a.(commission_adjustments) a.(external_draw_rounds) a.(game_rooms) a.(bet_voids) a.(bet_task_configs) a.(task_reward_claims) a.(spin_configs) a.(spin_prizes) a.(spin_records) a.(auth_identities) a.(sessions) a.(auth_login_guards) a.(lulu_orders) a.(lulu_receipts) a.(lulu_collector_state) a.(leaderboard_periods) a.(leaderboard_reward_rules) a.(leaderboard_reward_distributions) a.(admin_security_passwords) a.(chat_messages) a.(uploads) a.(robot_plans) a.(outbox) a.(audit_logs) a.(user_roles) a.(chat_room_members) a.(game_room_types) a.(hash_room_currency_configs) a.(lulu_play_configs) a.(lulu_room_configs) a.(lulu_prime_configs) a.(task_progress) a.(leaderboard_entries) a.(leaderboard_reward_rule_versions) a.(admin_security_attempts) a.(muted_users) v a.(lulu_setting) a.(lulu_login_limits) a.(users_public_id_seq) a.(uuid_count).
Definition set_lulu_setting (v : lulu_setting_row) (a : App) : App :=
  mk_App a.(users) a.(currencies) a.(chain_addresses) a.(deposits) a.(assets) a.(withdrawals) a.(webhook_events) a.(red_packets) a.(claims) a.(chat_rooms) a.(point_withdrawals) a.(adjustments) a.(game_types) a.(rounds) a.(bets) a.(bet_placements) a.(commission_entries) a.(rebate_allocations) a.(bet_rebate_snapshots) a.(room_rebate_configs) a.(agent_commission_rates) a.(agent_relations) a.(commission_adjustments) a.(external_draw_rounds) a.(game_rooms) a.(bet_voids) a.(bet_task_configs) a.(task_reward_claims) a.(spin_configs) a.(spin_prizes) a.(spin_records) a.(auth_identities) a.(sessions) a.(auth_login_guards) a.(lulu_orders) a.(lulu_receipts) a.(lulu_collector_state) a.(leaderboard_periods) a.(leaderboard_reward_rules) a.(leaderboard_reward_distributions) a.(admin_security_passwords) a.(chat_messages) a.(uploads) a.(robot_plans) a.(outbox) a.(audit_logs) a.(user_roles) a.(chat_room_members) a.(game_room_types) a.(hash_room_currency_configs) a.(lulu_play_configs) a.(lulu_room_configs) a.(lulu_prime_configs) a.(task_progress) a.(leaderboard_entries) a.(leaderboard_reward_rule_versions) a.(admin_security_attempts) a.(muted_users) a.(virtual_account_automations) v a.(lulu_login_limits) a.(users_public_id_seq) a.(uuid_count).
Definition set_lulu_login_limits (v : gmap string Z) (a : App) : App :=
  mk_App a.(users) a.(currencies) a.(chain_addresses) a.(deposits) a.(assets) a.(withdrawals) a.(webhook_events) a.(red_packets) a.(claims) a.(chat_rooms) a.(point_withdrawals) a.(adjustments) a.(game_types) a.(rounds) a.(bets) a.(bet_placements) a.(commission_entries) a.(rebate_allocations) a.(bet_rebate_snapshots) a.(room_rebate_configs) a.(agent_commission_rates) a.(agent_relations) a.(commission_adjustments) a.(external_draw_rounds) a.(game_rooms) a.(bet_voids) a.(bet_task_configs) a.(task_reward_claims) a.(spin_configs) a.(spin_prizes) a.(spin_records) a.(auth_identities) a.(sessions) a.(auth_login_guards) a.(lulu_orders) a.(lulu_receipts) a.(lulu_collector_state) a.(leaderboard_periods) a.(leaderboard_reward_rules) a.(leaderboard_reward_distributions) a.(admin_security_passwords) a.(chat_messages) a.(uploads) a.(robot_plans) a.(outbox) a.(audit_logs) a.(user_roles) a.(chat_room_members) a.(game_room_types) a.(hash_room_currency_configs) a.(lulu_play_configs) a.(lulu_room_configs) a.(lulu_prime_configs) a.(task_progress) a.(leaderboard_entries) a.(leaderboard_reward_rule_versions) a.(admin_security_attempts) a.(muted_users) a.(virtual_account_automations) a.(lulu_setting) v a.(users_public_id_seq) a.(uuid_count).
Definition set_users_public_id_seq (v : Z) (a : App) : App :=
  mk_App a.(users) a.(currencies) a.(chain_addresses) a.(deposits) a.(assets) a.(withdrawals) a.(webhook_events) a.(red_packets) a.(claims) a.(chat_rooms) a.(point_withdrawals) a.(adjustments) a.(game_types) a.(rounds) a.(bets) a.(bet_placements) a.(commission_entries) a.(rebate_allocations) a.(bet_rebate_snapshots) a.(room_rebate_configs) a.(agent_commission_rates) a.(agent_relations) a.(commission_adjustments) a.(external_draw_rounds) a.(game_rooms) a.(bet_voids) a.(bet_task_configs) a.(task_reward_claims) a.(spin_configs) a.(spin_prizes) a.(spin_records) a.(auth_identities) a.(sessions) a.(auth_login_guards) a.(lulu_orders) a.(lulu_receipts) a.(lulu_collector_state) a.(leaderboard_periods) a.(leaderboard_reward_rules) a.(leaderboard_reward_distributions) a.(admin_security_passwords) a.(chat_messages) a.(uploads) a.(robot_plans) a.(outbox) a.(audit_logs) a.(user_roles) a.(chat_room_members) a.(game_room_types) a.(hash_room_currency_configs) a.(lulu_play_configs) a.(lulu_room_configs) a.(lulu_prime_configs) a.(task_progress) a.(leaderboard_entries) a.(leaderboard_reward_rule_versions) a.(admin_security_attempts) a.(muted_users) a.(virtual_account_automations) a.(lulu_setting) a.(lulu_login_limits) v a.(uuid_count).
Definition set_uuid_count (v : nat) (a : App) : App :=
  mk_App a.(users) a.(currencies) a.(chain_addresses) a.(deposits) a.(assets) a.(withdrawals) a.(webhook_events) a.(red_packets) a.(claims) a.(chat_rooms) a.(point_withdrawals) a.(adjustments) a.(game_types) a.(rounds) a.(bets) a.(bet_placements) a.(commission_entries) a.(rebate_allocations) a.(bet_rebate_snapshots) a.(room_rebate_configs) a.(agent_commission_rates) a.(agent_relations) a.(commission_adjustments) a.(external_draw_rounds) a.(game_rooms) a.(bet_voids) a.(bet_task_configs) a.(task_reward_claims) a.(spin_configs) a.(spin_prizes) a.(spin_records) a.(auth_identities) a.(sessions) a.(auth_login_guards) a.(lulu_orders) a.(lulu_receipts) a.(lulu_collector_state) a.(leaderboard_periods) a.(leaderboard_reward_rules) a.(leaderboard_reward_distributions) a.(admin_security_passwords) a.(chat_messages) a.(uploads) a.(robot_plans) a.(outbox) a.(audit_logs) a.(user_roles) a.(chat_room_members) a.(game_room_types) a.(hash_room_currency_configs) a.(lulu_play_configs) a.(lulu_room_configs) a.(lulu_prime_configs) a.(task_progress) a.(leaderboard_entries) a.(leaderboard_reward_rule_versions) a.(admin_security_attempts) a.(muted_users) a.(virtual_account_automations) a.(lulu_setting) a.(lulu_login_limits) a.(users_public_id_seq) v.

Definition empty_App : App :=
  mk_App ∅ ∅ ∅ ∅ ∅ ∅ ∅ ∅ ∅ ∅ ∅ ∅ ∅ ∅ ∅ ∅ ∅ ∅ ∅ ∅ ∅ ∅ ∅ ∅ ∅ ∅ ∅ ∅ ∅ ∅ ∅ ∅ ∅ ∅ ∅ ∅ ∅ ∅ ∅ ∅ ∅ ∅ ∅ ∅ [] [] [] [] [] [] [] [] [] ∅ ∅ ∅ ∅ [] [] (mk_lulu_setting_row "" false 1 0 "" None None None) ∅ 10001 0%nat.

Record DB : Type := mk_DB {
  money : Money;
  app : App
}.

Definition set_money (m : Money) (db : DB) : DB := mk_DB m db.(app).
Definition set_app (a : App) (db : DB) : DB := mk_DB db.(money) a.

Definition empty_DB : DB := mk_DB (mk_Money ∅ []) empty_App.

(** A keyed table of the database. *)
Class Table (R : Type) := {
  tbl : App -> gmap string R;
  set_tbl : gmap string R -> App -> App;
  tbl_name : string
}.


#[export] Instance users_table : Table user_row := {| tbl := users; set_tbl := set_users; tbl_name := "users" |}.
#[export] Instance currencies_table : Table currency_row := {| tbl := currencies; set_tbl := set_currencies; tbl_name := "currencies" |}.
#[export] Instance chain_addresses_table : Table address_row := {| tbl := chain_addresses; set_tbl := set_chain_addresses; tbl_name := "chain_addresses" |}.
#[export] Instance deposits_table : Table deposit_row := {| tbl := deposits; set_tbl := set_deposits; tbl_name := "deposits" |}.
#[export] Instance assets_table : Table asset_row := {| tbl := assets; set_tbl := set_assets; tbl_name := "assets" |}.
#[export] Instance withdrawals_table : Table withdrawal_row := {| tbl := withdrawals; set_tbl := set_withdrawals; tbl_name := "withdrawals" |}.
#[export] Instance webhook_events_table : Table webhook_row := {| tbl := webhook_events; set_tbl := set_webhook_events; tbl_name := "webhook_events" |}.
#[export] Instance red_packets_table : Table packet_row := {| tbl := red_packets; set_tbl := set_red_packets; tbl_name := "red_packets" |}.
#[export] Instance claims_table : Table claim_row := {| tbl := claims; set_tbl := set_claims; tbl_name := "claims" |}.
#[export] Instance chat_rooms_table : Table chat_room_row := {| tbl := chat_rooms; set_tbl := set_chat_rooms; tbl_name := "chat_rooms" |}.
#[export] Instance point_withdrawals_table : Table point_withdrawal_row := {| tbl := point_withdrawals; set_tbl := set_point_withdrawals; tbl_name := "point_withdrawals" |}.
#[export] Instance adjustments_table : Table adjustment_row := {| tbl := adjustments; set_tbl := set_adjustments; tbl_name := "adjustments" |}.
#[export] Instance game_types_table : Table game_type_row := {| tbl := game_types; set_tbl := set_game_types; tbl_name := "game_types" |}.
#[export] Instance rounds_table : Table round_row := {| tbl := rounds; set_tbl := set_rounds; tbl_name := "rounds" |}.
#[export] Instance bets_table : Table bet_row := {| tbl := bets; set_tbl := set_bets; tbl_name := "bets" |}.
#[export] Instance bet_placements_table : Table placement_row := {| tbl := bet_placements; set_tbl := set_bet_placements; tbl_name := "bet_placements" |}.
#[export] Instance commission_entries_table : Table commission_row := {| tbl := commission_entries; set_tbl := set_commission_entries; tbl_name := "commission_entries" |}.
#[export] Instance rebate_allocations_table : Table allocation_row := {| tbl := rebate_allocations; set_tbl := set_rebate_allocations; tbl_name := "rebate_allocations" |}.
#[export] Instance bet_rebate_snapshots_table : Table snapshot_row := {| tbl := bet_rebate_snapshots; set_tbl := set_bet_rebate_snapshots; tbl_name := "bet_rebate_snapshots" |}.
#[export] Instance room_rebate_configs_table : Table rebate_config_row := {| tbl := room_rebate_configs; set_tbl := set_room_rebate_configs; tbl_name := "room_rebate_configs" |}.
#[export] Instance agent_commission_rates_table : Table agent_rate_row := {| tbl := agent_commission_rates; set_tbl := set_agent_commission_rates; tbl_name := "agent_commission_rates" |}.
#[export] Instance agent_relations_table : Table agent_relation_row := {| tbl := agent_relations; set_tbl := set_agent_relations; tbl_name := "agent_relations" |}.
#[export] Instance commission_adjustments_table : Table commission_adjustment_row := {| tbl := commission_adjustments; set_tbl := set_commission_adjustments; tbl_name := "commission_adjustments" |}.
#[export] Instance external_draw_rounds_table : Table external_draw_row := {| tbl := external_draw_rounds; set_tbl := set_external_draw_rounds; tbl_name := "external_draw_rounds" |}.
#[export] Instance game_rooms_table : Table game_room_row := {| tbl := game_rooms; set_tbl := set_game_rooms; tbl_name := "game_rooms" |}.
#[export] Instance bet_voids_table : Table bet_void_row := {| tbl := bet_voids; set_tbl := set_bet_voids; tbl_name := "bet_voids" |}.
#[export] Instance bet_task_configs_table : Table task_config_row := {| tbl := bet_task_configs; set_tbl := set_bet_task_configs; tbl_name := "bet_task_configs" |}.
#[export] Instance task_reward_claims_table : Table task_claim_row := {| tbl := task_reward_claims; set_tbl := set_task_reward_claims; tbl_name := "task_reward_claims" |}.
#[export] Instance spin_configs_table : Table spin_config_row := {| tbl := spin_configs; set_tbl := set_spin_configs; tbl_name := "spin_configs" |}.
#[export] Instance spin_prizes_table : Table spin_prize_row := {| tbl := spin_prizes; set_tbl := set_spin_prizes; tbl_name := "spin_prizes" |}.
#[export] Instance spin_records_table : Table spin_record_row := {| tbl := spin_records; set_tbl := set_spin_records; tbl_name := "spin_records" |}.
#[export] Instance auth_identities_table : Table identity_row := {| tbl := auth_identities; set_tbl := set_auth_identities; tbl_name := "auth_identities" |}.
#[export] Instance sessions_table : Table session_row := {| tbl := sessions; set_tbl := set_sessions; tbl_name := "sessions" |}.
#[export] Instance auth_login_guards_table : Table login_guard_row := {| tbl := auth_login_guards; set_tbl := set_auth_login_guards; tbl_name := "auth_login_guards" |}.
#[export] Instance lulu_orders_table : Table lulu_order_row := {| tbl := lulu_orders; set_tbl := set_lulu_orders; tbl_name := "lulu_orders" |}.
#[export] Instance lulu_receipts_table : Table lulu_receipt_row := {| tbl := lulu_receipts; set_tbl := set_lulu_receipts; tbl_name := "lulu_receipts" |}.
#[export] Instance lulu_collector_state_table : Table lulu_collector_row := {| tbl := lulu_collector_state; set_tbl := set_lulu_collector_state; tbl_name := "lulu_collector_state" |}.
#[export] Instance leaderboard_periods_table : Table period_row := {| tbl := leaderboard_periods; set_tbl := set_leaderboard_periods; tbl_name := "leaderboard_periods" |}.
#[export] Instance leaderboard_reward_rules_table : Table reward_rule_row := {| tbl := leaderboard_reward_rules; set_tbl := set_leaderboard_reward_rules; tbl_name := "leaderboard_reward_rules" |}.
#[export] Instance leaderboard_reward_distributions_table : Table distribution_row := {| tbl := leaderboard_reward_distributions; set_tbl := set_leaderboard_reward_distributions; tbl_name := "leaderboard_reward_distributions" |}.
#[export] Instance admin_security_passwords_table : Table security_password_row := {| tbl := admin_security_passwords; set_tbl := set_admin_security_passwords; tbl_name := "admin_security_passwords" |}.
#[export] Instance chat_messages_table : Table chat_message_row := {| tbl := chat_messages; set_tbl := set_chat_messages; tbl_name := "chat_messages" |}.
#[export] Instance uploads_table : Table upload_row := {| tbl := uploads; set_tbl := set_uploads; tbl_name := "uploads" |}.
#[export] Instance robot_plans_table : Table robot_plan_row := {| tbl := robot_plans; set_tbl := set_robot_plans; tbl_name := "robot_plans" |}.
