(* ===== verification/Store.v ===== *)
(** * Transactions

    A service method that runs inside one database transaction is a term of
    [Tx]: it either commits a new database or fails, and a failure leaves the
    database as it was (the deferred [tx.Rollback]).  The row locks the code
    takes ([FOR UPDATE], advisory locks) serialise the transactions that touch
    the same rows, so a transaction is one atomic step.  [Svc] is a method that
    runs several transactions one after the other.

    The primitives carry the constraints of the schema: CHECK, UNIQUE, the
    wallet keys, and the two ledger triggers of migration 0045. *)

From S2P Require Import Prelude GoStrings Json Schema.

(** ** The monads *)

Definition Tx (A : Type) : Type := DB -> res (A * DB).

#[export] Instance Tx_ret : MRet Tx := fun A a db => Ok (a, db).
#[export] Instance Tx_bind : MBind Tx := fun A B f m db =>
  match m db with Ok (a, db') => f a db' | Err e => Err e end.

Definition raise {A} (e : error) : Tx A := fun _ => Err e.

Definition lift {A} (m : res A) : Tx A := fun db =>
  match m with Ok a => Ok (a, db) | Err e => Err e end.

(** [if b { return err }]. *)
Definition reject_if (b : bool) (e : error) : Tx () := if b then raise e else mret ().

Definition gets {A} (f : DB -> A) : Tx A := fun db => Ok (f db, db).

Definition modify (f : DB -> DB) : Tx () := fun db => Ok ((), f db).

(** [QueryRow(...).Scan]: no row is [pgx.ErrNoRows]; [found] maps it. *)
Definition found {A} (e : error) (o : option A) : Tx A :=
  match o with Some a => mret a | None => raise e end.

Definition Svc (A : Type) : Type := DB -> res A * DB.

#[export] Instance Svc_ret : MRet Svc := fun A a db => (Ok a, db).
#[export] Instance Svc_bind : MBind Svc := fun A B f m db =>
  match m db with (Ok a, db') => f a db' | (Err e, db') => (Err e, db') end.

(** Begin, run, commit; on failure the database is unchanged. *)
Definition atomically {A} (m : Tx A) : Svc A := fun db =>
  match m db with Ok (a, db') => (Ok a, db') | Err e => (Err e, db) end.

(** Run and look at the error instead of returning it. *)
Definition try {A} (m : Svc A) : Svc (res A) := fun db =>
  let '(r, db') := m db in (Ok r, db').

Definition fails {A} (e : error) : Svc A := fun db => (Err e, db).

Definition svc_reject (b : bool) (e : error) : Svc () := if b then fails e else mret ().

Definition svc_lift {A} (m : res A) : Svc A := fun db => (m, db).

(** The error a call returns is replaced. *)
Definition or_error {A} (e : error) (m : Svc A) : Svc A := fun db =>
  match m db with (Ok a, d) => (Ok a, d) | (Err _, d) => (Err e, d) end.

(** The two clocks a transaction reads: [now()] of the database, fixed for the
    transaction, and [time.Now().UTC()] of the process, in nanoseconds. *)
Record clock : Type := mk_clock {
  sql_now : Z;
  go_now : Z
}.

(** A time written to a TIMESTAMPTZ column: the driver sends whole
    microseconds, [t.Unix()*1000000 + t.Nanosecond()/1000]. *)
Definition timestamptz (t : Z) : Z := t / 1000 * 1000.

Lemma timestamptz_idem t : timestamptz (timestamptz t) = timestamptz t.
Proof. unfold timestamptz. by rewrite Z.div_mul. Qed.

Lemma timestamptz_bounds t : timestamptz t <= t < timestamptz t + 1000.
Proof. unfold timestamptz. pose proof (Z.div_mod t 1000). pose proof (Z.mod_pos_bound t 1000). lia. Qed.

(** ** Identifiers

    [uuid.NewString] and [gen_random_uuid()]: the [n]th identifier drawn.  No
    freshness is assumed; a repeated identifier is caught by the primary key. *)
Class Uuids := uuid_at : nat -> string.

Section primitives.
Context `{Uuids}.

Definition new_uuid : Tx string := fun db =>
  let n := db.(app).(uuid_count) in
  Ok (uuid_at n, set_app (set_uuid_count (S n) db.(app)) db).

(** ** Keyed tables *)

Definition find_row {R} (P : string -> R -> bool) (t : gmap string R) : option (string * R) :=
  List.find (fun kv => P kv.1 kv.2) (map_to_list t).

Definition select_id {R} `{Table R} (id : string) : Tx (option R) :=
  gets (fun db => tbl db.(app) !! id).

Definition select_where {R} `{Table R} (P : string -> R -> bool) : Tx (option (string * R)) :=
  gets (fun db => find_row P (tbl db.(app))).

Definition select_all {R} `{Table R} (P : string -> R -> bool) : Tx (list (string * R)) :=
  gets (fun db => List.filter (fun kv => P kv.1 kv.2) (map_to_list (tbl db.(app)))).

Definition put_row {R} `{Table R} (id : string) (r : R) (db : DB) : DB :=
  set_app (set_tbl (<[id := r]> (tbl db.(app))) db.(app)) db.

(** INSERT: the primary key and the UNIQUE constraint [P] must be free. *)
Definition insert_row {R} `{Table R} (P : R -> bool) (id : string) (r : R) : Tx () := fun db =>
  match tbl db.(app) !! id with
  | Some _ => Err (UniqueViolation tbl_name)
  | None =>
      match find_row (fun _ => P) (tbl db.(app)) with
      | Some _ => Err (UniqueViolation tbl_name)
      | None => Ok ((), put_row id r db)
      end
  end.

(** INSERT ... ON CONFLICT DO NOTHING; [false] is a conflict. *)
Definition insert_ignore {R} `{Table R} (P : R -> bool) (id : string) (r : R) : Tx bool := fun db =>
  match insert_row P id r db with
  | Ok (_, db') => Ok (true, db')
  | Err _ => Ok (false, db)
  end.

(** INSERT ... ON CONFLICT (P) DO NOTHING: only a conflict on the named
    constraint is skipped. *)
Definition insert_unless {R} `{Table R} (P : R -> bool) (id : string) (r : R) : Tx bool := fun db =>
  match find_row (fun _ => P) (tbl db.(app)) with
  | Some _ => Ok (false, db)
  | None =>
      match tbl db.(app) !! id with
      | Some _ => Err (UniqueViolation tbl_name)
      | None => Ok (true, put_row id r db)
      end
  end.

(** UPDATE ... WHERE id = $1; the number of rows. *)
Definition update_row {R} `{Table R} (id : string) (f : R -> R) : Tx Z := fun db =>
  match tbl db.(app) !! id with
  | Some r => Ok (1, put_row id (f r) db)
  | None => Ok (0, db)
  end.

(** UPDATE ... WHERE [P]. *)
Definition update_where {R} `{Table R} (P : string -> R -> bool) (f : R -> R) : Tx () :=
  modify (fun db => set_app
    (set_tbl (map_imap (fun id r => Some (if P id r then f r else r)) (tbl db.(app))) db.(app)) db).

(** DELETE ... WHERE [P]. *)
Definition delete_where {R} `{Table R} (P : string -> R -> bool) : Tx () :=
  modify (fun db => set_app
    (set_tbl (map_imap (fun id r => if P id r then None else Some r) (tbl db.(app))) db.(app)) db).

(** SELECT ... WHERE [P] ORDER BY [le] LIMIT 1. *)
Definition select_first {R} `{Table R} (le : string * R -> string * R -> Prop)
    `{!forall x y, Decision (le x y)} (P : string -> R -> bool) : Tx (option (string * R)) :=
  gets (fun db => head (merge_sort le (List.filter (fun kv => P kv.1 kv.2) (map_to_list (tbl db.(app)))))).

(** ** Outbox and audit *)

Definition insert_outbox (id aggregate aggregate_id event_type : string) (payload : json)
    (occurred_at : Z) : Tx () := fun db =>
  if existsb (fun o => bool_decide (ob_id o = id)) db.(app).(outbox)
  then Err (UniqueViolation "outbox_events")
  else Ok ((), set_app (set_outbox
    (mk_outbox id aggregate aggregate_id event_type payload (timestamptz occurred_at) None 0 None None
       :: db.(app).(outbox)) db.(app)) db).

Definition insert_audit (a : audit_row) : Tx () :=
  modify (fun db => set_app (set_audit_logs (a :: db.(app).(audit_logs)) db.(app)) db).

(** ** Wallets *)

Definition is_wallet_of (user currency : string) (_ : string) (w : wallet_row) : bool :=
  bool_decide (w_user_id w = user) && bool_decide (w_currency w = currency).

Definition find_wallet (user currency : string) : Tx (option (string * wallet_row)) :=
  gets (fun db => find_row (is_wallet_of user currency) (wallets db.(money))).

Definition wallet_by_id (id : string) : Tx (option wallet_row) :=
  gets (fun db => wallets db.(money) !! id).

(** The BIGINT range and the two CHECKs of the table. *)
Definition wallet_ok (w : wallet_row) : bool :=
  (0 <=? w_available w) && (w_available w <=? int64_max) &&
  (0 <=? w_frozen w) && (w_frozen w <=? int64_max).

Definition put_wallet (id : string) (w : wallet_row) (db : DB) : DB :=
  set_money (mk_Money (<[id := w]> (wallets db.(money))) (ledger db.(money))) db.

(** UPDATE wallets SET available_minor, frozen_minor, version = version + 1,
    updated_at WHERE id. *)
Definition update_wallet (id : string) (available frozen : wallet_row -> Z) (now : Z) : Tx () :=
  fun db =>
  match wallets db.(money) !! id with
  | None => Ok ((), db)
  | Some w =>
      let w' := mk_wallet (w_user_id w) (w_currency w) (available w) (frozen w)
                  (w_version w + 1) now in
      if wallet_ok w' then Ok ((), put_wallet id w' db)
      else Err (CheckViolation "wallets_check")
  end.

(** INSERT INTO wallets(id,user_id,currency) ... ON CONFLICT(user_id,currency)
    DO NOTHING; [false] is a conflict. *)
Definition insert_wallet (id user currency : string) (now : Z) : Tx bool := fun db =>
  if negb (bool_decide (is_Some (currencies db.(app) !! currency)))
  then Err (ForeignKeyViolation "wallets_currency_fk")
  else match find_row (is_wallet_of user currency) (wallets db.(money)) with
  | Some _ => Ok (false, db)
  | None =>
      match wallets db.(money) !! id with
      | Some _ => Err (UniqueViolation "wallets_pkey")
      | None => Ok (true, put_wallet id (mk_wallet user currency 0 0 0 now) db)
      end
  end.

(** ** The ledger *)

Record ledger_insert : Type := mk_entry {
  li_id : string;
  li_wallet_id : string;
  li_business_type : string;
  li_business_id : string;
  li_entry_type : string;
  li_amount : Z;
  li_balance_after : Z;
  li_available_delta : option Z;
  li_frozen_delta : Z;
  li_remark : string;
  li_operator_id : option string;
  li_bet_placement_id : option string
}.

(** An INSERT that names only the seven columns every caller gives. *)
Definition entry (id wallet btype bid etype : string) (amount after : Z) : ledger_insert :=
  mk_entry id wallet btype bid etype amount after None 0 "" None None.

(** The two partial unique indexes of migration 0064. *)
Definition ledger_conflict (li : ledger_insert) (r : ledger_row) : bool :=
  bool_decide (le_id r = li_id li) ||
  match li_bet_placement_id li with
  | Some p => bool_decide (le_bet_placement_id r = Some p)
  | None =>
      bool_decide (le_bet_placement_id r = None) &&
      bool_decide (le_wallet_id r = li_wallet_id li) &&
      bool_decide (le_business_type r = li_business_type li) &&
      bool_decide (le_business_id r = li_business_id li) &&
      bool_decide (le_entry_type r = li_entry_type li)
  end.

(** Trigger [ledger_snapshot]: default the available delta, read the frozen
    balance of the wallet. *)
Definition ledger_row_of (w : wallet_row) (now : Z) (li : ledger_insert) : ledger_row :=
  mk_ledger (li_id li) (li_wallet_id li) (li_business_type li) (li_business_id li)
    (li_entry_type li) (li_amount li) (li_balance_after li)
    (default (li_amount li) (li_available_delta li)) (li_frozen_delta li) (w_frozen w)
    (li_remark li) (li_operator_id li) (li_bet_placement_id li) now.

(** Trigger [ledger_outbox]. *)
Definition ledger_payload (w : wallet_row) (r : ledger_row) : json :=
  JObj [("user_id", JStr (w_user_id w)); ("currency", JStr (w_currency w));
        ("ledger_id", JStr (le_id r)); ("business_id", JStr (le_business_id r));
        ("business_type", JStr (le_business_type r));
        ("available_delta_minor", JInt (le_available_delta r));
        ("frozen_delta_minor", JInt (le_frozen_delta r));
        ("available_after_minor", JInt (le_balance_after r));
        ("frozen_after_minor", JInt (le_frozen_after r))].

Definition insert_ledger (li : ledger_insert) (now : Z) : Tx () := fun db =>
  match wallets db.(money) !! li_wallet_id li with
  | None => Err (RaisedException "query returned no rows")
  | Some w =>
      if existsb (ledger_conflict li) (ledger db.(money))
      then Err (UniqueViolation "ledger_entries")
      else
        let r := ledger_row_of w now li in
        (event ← new_uuid;
         insert_outbox event "ledger" (le_id r) "wallet.ledger.committed"
           (ledger_payload w r) now)
        (set_money (mk_Money (wallets db.(money)) (r :: ledger db.(money))) db)
  end.

End primitives.
