(* ===== verification/Books.v ===== *)
(** * The books

    Running a transaction step by step, and the invariant of the money: every
    balance within BIGINT and non-negative, equal to the sum of its ledger
    deltas, and equal to what the newest ledger entry recorded; one wallet per
    user and currency. *)

From S2P Require Import Prelude GoStrings Json Schema Store.

(** ** Stepping through a successful run *)

Section steps.
Context `{Uuids}.

Lemma tx_bind_Ok {A B} (m : Tx A) (f : A -> Tx B) db b db'' :
  (m ≫= f) db = Ok (b, db'') <->
  exists a db', m db = Ok (a, db') /\ f a db' = Ok (b, db'').
Proof.
  unfold mbind, Tx_bind. destruct (m db) as [[a db']|e]; split.
  - intros Hf. by exists a, db'.
  - by intros (? & ? & [= <- <-] & ?).
  - done.
  - by intros (? & ? & ? & _).
Qed.

Lemma tx_ret_Ok {A} (a b : A) db db' :
  (mret a : Tx A) db = Ok (b, db') <-> a = b /\ db = db'.
Proof. unfold mret, Tx_ret. split; [by intros [= -> ->]|by intros [-> ->]]. Qed.

Lemma raise_Ok {A} e db (a : A) db' : raise e db = Ok (a, db') <-> False.
Proof. by unfold raise. Qed.

Lemma lift_Ok {A} (m : res A) db (a : A) db' :
  lift m db = Ok (a, db') <-> m = Ok a /\ db = db'.
Proof.
  unfold lift. destruct m; split; try done.
  - by intros [= -> ->].
  - by intros [[= ->] ->].
  - by intros [? _].
Qed.

Lemma reject_if_Ok (b : bool) e db (u : ()) db' :
  reject_if b e db = Ok (u, db') <-> b = false /\ db = db'.
Proof.
  unfold reject_if. destruct b; [by split; [|intros [? _]]|].
  rewrite tx_ret_Ok. destruct u. split; intros [? ?]; done.
Qed.

Lemma gets_Ok {A} (f : DB -> A) db (a : A) db' :
  gets f db = Ok (a, db') <-> f db = a /\ db = db'.
Proof. unfold gets. split; [by intros [= -> ->]|by intros [-> ->]]. Qed.

Lemma modify_Ok (f : DB -> DB) db (u : ()) db' :
  modify f db = Ok (u, db') <-> f db = db'.
Proof. unfold modify. destruct u. split; [by intros [= ->]|by intros ->]. Qed.

Lemma found_Ok {A} e (o : option A) db (a : A) db' :
  found e o db = Ok (a, db') <-> o = Some a /\ db = db'.
Proof.
  destruct o as [x|]; cbn [found].
  { rewrite tx_ret_Ok. split; intros [Hx ?]; split; congruence. }
  split; [done|by intros [? _]].
Qed.

(** Running forwards over a step that does nothing. *)
Lemma reject_skip {A} b e (k : Tx A) db : b = false -> (reject_if b e;; k) db = k db.
Proof. by intros ->. Qed.

Lemma reject_stop {A} b e (k : Tx A) db : b = true -> (reject_if b e;; k) db = Err e.
Proof. by intros ->. Qed.

Lemma lift_skip {A B} (m : res A) a (k : A -> Tx B) db :
  m = Ok a -> (lift m ≫= k) db = k a db.
Proof. by intros ->. Qed.

Lemma gets_skip {A B} (f : DB -> A) (k : A -> Tx B) db : (gets f ≫= k) db = k (f db) db.
Proof. done. Qed.

Lemma found_skip {A B} e (o : option A) a (k : A -> Tx B) db :
  o = Some a -> (found e o ≫= k) db = k a db.
Proof. by intros ->. Qed.

Lemma atomically_cases {A} (m : Tx A) db r db' : atomically m db = (r, db') ->
  (exists a, r = Ok a /\ m db = Ok (a, db')) \/ (exists e, r = Err e /\ db' = db).
Proof. unfold atomically. destruct (m db) as [[a d]|e]; intros [= <- <-]; eauto. Qed.

Lemma svc_bind_inv {A B} (m : Svc A) (f : A -> Svc B) db r db'' : (m ≫= f) db = (r, db'') ->
  (exists a db', m db = (Ok a, db') /\ f a db' = (r, db'')) \/ (exists e, m db = (Err e, db'') /\ r = Err e).
Proof.
  unfold mbind, Svc_bind. destruct (m db) as [[a|e] d]; [eauto|]. intros [= <- <-]. eauto.
Qed.

Definition drawn (db : DB) : string := uuid_at db.(app).(uuid_count).

Definition tick (db : DB) : DB :=
  set_app (set_uuid_count (S db.(app).(uuid_count)) db.(app)) db.

Lemma new_uuid_Ok db id db' : new_uuid db = Ok (id, db') <-> drawn db = id /\ tick db = db'.
Proof. unfold new_uuid, drawn, tick. split; [by intros [= -> <-]|by intros [<- <-]]. Qed.

Lemma find_row_Some {R} (P : string -> R -> bool) (t : gmap string R) k r :
  find_row P t = Some (k, r) -> t !! k = Some r /\ P k r = true.
Proof.
  unfold find_row. intros [Hin HP]%List.find_some. split; [|done].
  by apply elem_of_map_to_list, list_elem_of_In.
Qed.

Lemma find_row_None {R} (P : string -> R -> bool) (t : gmap string R) k r :
  find_row P t = None -> t !! k = Some r -> P k r = false.
Proof.
  unfold find_row. intros Hn Hk.
  apply (List.find_none _ _ Hn (k, r)), list_elem_of_In. by apply elem_of_map_to_list.
Qed.

(** The only row that matches is the one just written. *)
Lemma find_row_added {R} (P : string -> R -> bool) (t : gmap string R) id r :
  find_row P t = None -> P id r = true -> find_row P (<[id := r]> t) = Some (id, r).
Proof.
  intros Hn Hr. destruct (find_row P (<[id := r]> t)) as [[k x]|] eqn:E.
  - apply find_row_Some in E as [Hk Hx]. apply lookup_insert_Some in Hk as [[-> ->]|[_ Hk]]; [done|].
    rewrite (find_row_None _ _ _ _ Hn Hk) in Hx. done.
  - rewrite (find_row_None _ _ _ _ E (lookup_insert_eq t id r)) in Hr. done.
Qed.

Lemma insert_row_Ok {R} `{Table R} (P : R -> bool) id r db (u : ()) db' :
  insert_row P id r db = Ok (u, db') <->
  tbl db.(app) !! id = None /\ find_row (fun _ => P) (tbl db.(app)) = None /\
  put_row id r db = db'.
Proof.
  unfold insert_row. destruct u. destruct (tbl (app db) !! id) as [x|].
  { split; [done|by intros [? _]]. }
  destruct (find_row _ _) as [x|]; split; try done.
  - by intros (_ & ? & _).
  - by intros [= ->].
  - by intros (_ & _ & ->).
Qed.

Lemma insert_ignore_Ok {R} `{Table R} (P : R -> bool) id r db (b : bool) db' :
  insert_ignore P id r db = Ok (b, db') ->
  (b = false /\ db = db') \/
  (b = true /\ tbl db.(app) !! id = None /\
   find_row (fun _ => P) (tbl db.(app)) = None /\ put_row id r db = db').
Proof.
  unfold insert_ignore. destruct (insert_row P id r db) as [[u db1]|] eqn:E.
  - intros [= <- <-]. apply insert_row_Ok in E as (? & ? & ?). by right.
  - intros [= <- <-]. by left.
Qed.

Lemma insert_unless_Ok {R} `{Table R} (P : R -> bool) id r db (b : bool) db' :
  insert_unless P id r db = Ok (b, db') ->
  (b = false /\ db = db' /\ exists x, find_row (fun _ => P) (tbl db.(app)) = Some x) \/
  (b = true /\ tbl db.(app) !! id = None /\
   find_row (fun _ => P) (tbl db.(app)) = None /\ put_row id r db = db').
Proof.
  unfold insert_unless. destruct (find_row _ _) as [x|].
  - intros [= <- <-]. left. split; [done|split; [done|by exists x]].
  - destruct (tbl (app db) !! id); [done|]. intros [= <- <-]. by right.
Qed.

Lemma update_row_Ok {R} `{Table R} id (f : R -> R) db (n : Z) db' :
  update_row id f db = Ok (n, db') ->
  (tbl db.(app) !! id = None /\ n = 0 /\ db = db') \/
  exists r, tbl db.(app) !! id = Some r /\ n = 1 /\ put_row id (f r) db = db'.
Proof.
  unfold update_row. destruct (tbl (app db) !! id) as [r|].
  - intros [= <- <-]. right. by exists r.
  - intros [= <- <-]. by left.
Qed.

(** The first row of an ordered selection is one of the selected rows. *)
Lemma select_first_Ok {R} `{Table R} (le : string * R -> string * R -> Prop)
    `{!forall x y, Decision (le x y)} (P : string -> R -> bool) db (o : option (string * R)) db' :
  select_first le P db = Ok (o, db') -> db = db' /\
  match o with
  | Some (k, r) => tbl db.(app) !! k = Some r /\ P k r = true
  | None => forall k r, tbl db.(app) !! k = Some r -> P k r = false
  end.
Proof.
  intros [<- <-]%gets_Ok. split; [done|].
  destruct (merge_sort le (List.filter _ _)) as [|[k r] rest] eqn:E; cbn [head].
  - intros k r Hk. destruct (P k r) eqn:HP; [|done]. exfalso. apply elem_of_map_to_list in Hk.
    assert (Hin : (k, r) ∈ merge_sort le (List.filter (fun kv => P kv.1 kv.2) (map_to_list (tbl db.(app)))));
      [|by rewrite E in Hin; apply elem_of_nil in Hin].
    rewrite merge_sort_Permutation. apply list_elem_of_In, List.filter_In. by rewrite <- list_elem_of_In.
  - assert (Hin : (k, r) ∈ merge_sort le (List.filter (fun kv => P kv.1 kv.2) (map_to_list (tbl db.(app)))))
      by (rewrite E; apply elem_of_cons; by left).
    rewrite merge_sort_Permutation in Hin. apply list_elem_of_In, List.filter_In in Hin as [Hin HP].
    split; [|done]. by apply elem_of_map_to_list, list_elem_of_In.
Qed.

Definition push_outbox (o : outbox_row) (db : DB) : DB :=
  set_app (set_outbox (o :: db.(app).(outbox)) db.(app)) db.

Lemma insert_outbox_Ok id agg aid ty pl at_ db (u : ()) db' :
  insert_outbox id agg aid ty pl at_ db = Ok (u, db') ->
  push_outbox (mk_outbox id agg aid ty pl (timestamptz at_) None 0 None None) db = db'.
Proof. unfold insert_outbox. destruct (existsb _ _); [done|]. by intros [= _ <-]. Qed.

Definition push_audit (a : audit_row) (db : DB) : DB :=
  set_app (set_audit_logs (a :: db.(app).(audit_logs)) db.(app)) db.

Lemma insert_audit_Ok a db (u : ()) db' :
  insert_audit a db = Ok (u, db') <-> push_audit a db = db'.
Proof. unfold insert_audit. by rewrite modify_Ok. Qed.

(** *** Money *)

Definition wallet_after (w : wallet_row) (available frozen : wallet_row -> Z) (now : Z)
  : wallet_row :=
  mk_wallet (w_user_id w) (w_currency w) (available w) (frozen w) (w_version w + 1) now.

Lemma update_wallet_Ok id fa ff now db (u : ()) db' :
  update_wallet id fa ff now db = Ok (u, db') ->
  (wallets db.(money) !! id = None /\ db = db') \/
  exists w, wallets db.(money) !! id = Some w /\
    wallet_ok (wallet_after w fa ff now) = true /\
    put_wallet id (wallet_after w fa ff now) db = db'.
Proof.
  unfold update_wallet, wallet_after. destruct (wallets (money db) !! id) as [w|].
  - destruct (wallet_ok _) eqn:E; [|done]. intros [= _ <-]. right. by exists w.
  - intros [= _ <-]. by left.
Qed.

Lemma insert_wallet_Ok id user cur now db (b : bool) db' :
  insert_wallet id user cur now db = Ok (b, db') ->
  (b = false /\ db = db' /\
   exists x, find_row (is_wallet_of user cur) (wallets db.(money)) = Some x) \/
  (b = true /\ find_row (is_wallet_of user cur) (wallets db.(money)) = None /\
   wallets db.(money) !! id = None /\ put_wallet id (mk_wallet user cur 0 0 0 now) db = db').
Proof.
  unfold insert_wallet. destruct (negb _); [done|].
  destruct (find_row _ _) as [x|].
  - intros [= <- <-]. left. split; [done|split; [done|by exists x]].
  - destruct (wallets (money db) !! id) eqn:E; [done|]. intros [= <- <-]. by right.
Qed.

(** The database after a ledger insert: the entry, and the event of the
    trigger under a fresh identifier. *)
Definition post_ledger (li : ledger_insert) (w : wallet_row) (now : Z) (db : DB) : DB :=
  let r := ledger_row_of w now li in
  push_outbox (mk_outbox (drawn db) "ledger" (le_id r) "wallet.ledger.committed"
                 (ledger_payload w r) (timestamptz now) None 0 None None)
    (tick (set_money (mk_Money (wallets db.(money)) (r :: ledger db.(money))) db)).

Lemma insert_ledger_Ok li now db (u : ()) db' :
  insert_ledger li now db = Ok (u, db') ->
  exists w, wallets db.(money) !! li_wallet_id li = Some w /\
    existsb (ledger_conflict li) (ledger db.(money)) = false /\
    post_ledger li w now db = db'.
Proof.
  unfold insert_ledger. destruct (wallets (money db) !! li_wallet_id li) as [w|]; [|done].
  destruct (existsb _ _); [done|]. intros Hrun. exists w. split; [done|split; [done|]].
  apply tx_bind_Ok in Hrun as (ev & db1 & Hu & Ho). apply new_uuid_Ok in Hu as [<- <-].
  apply insert_outbox_Ok in Ho. exact Ho.
Qed.

End steps.

(** What the state transformers do to the money. *)
Section money_of.
Context `{Uuids}.

Lemma money_tick db : money (tick db) = money db.
Proof. done. Qed.

Lemma money_put_row {R} `{Table R} id (r : R) db : money (put_row id r db) = money db.
Proof. done. Qed.

Lemma money_push_outbox o db : money (push_outbox o db) = money db.
Proof. done. Qed.

Lemma money_push_audit a db : money (push_audit a db) = money db.
Proof. done. Qed.

Lemma money_put_wallet id w db :
  money (put_wallet id w db) = mk_Money (<[id := w]> (wallets (money db))) (ledger (money db)).
Proof. done. Qed.

Lemma money_post_ledger li w now db :
  money (post_ledger li w now db) =
  mk_Money (wallets (money db)) (ledger_row_of w now li :: ledger (money db)).
Proof. done. Qed.

End money_of.

Create Rewrite HintDb money.

#[export] Hint Rewrite @money_tick @money_put_row @money_push_outbox @money_push_audit
  @money_put_wallet @money_post_ledger : money.

Ltac money_simpl := autorewrite with money in *; cbn [wallets ledger] in *.

(** One step of a successful run; case distinctions of the code become cases
    of the proof. *)
Ltac tx_step :=
  match goal with
  | H : False |- _ => destruct H
  | H : Err _ = Ok _ |- _ => discriminate H
  | H : (_ ≫= _) _ = Ok _ |- _ =>
      apply tx_bind_Ok in H;
      let a := fresh "a" in let d := fresh "db" in let H1 := fresh "Hstep" in
      destruct H as (a & d & H1 & H)
  | H : mret _ _ = Ok _ |- _ => apply tx_ret_Ok in H as [? ?]; subst
  | H : raise _ _ = Ok _ |- _ => apply raise_Ok in H; destruct H
  | H : lift _ _ = Ok _ |- _ => apply lift_Ok in H as [? ?]; subst
  | H : reject_if _ _ _ = Ok _ |- _ => apply reject_if_Ok in H as [? ?]; subst
  | H : gets _ _ = Ok _ |- _ => apply gets_Ok in H as [? ?]; subst
  | H : modify _ _ = Ok _ |- _ => apply modify_Ok in H; subst
  | H : found _ _ _ = Ok _ |- _ => apply found_Ok in H as [? ?]; subst
  | H : new_uuid _ = Ok _ |- _ => apply new_uuid_Ok in H as [? ?]; subst
  | H : insert_row _ _ _ _ = Ok _ |- _ => apply insert_row_Ok in H as (? & ? & ?); subst
  | H : insert_outbox _ _ _ _ _ _ _ = Ok _ |- _ => apply insert_outbox_Ok in H; subst
  | H : insert_audit _ _ = Ok _ |- _ => apply insert_audit_Ok in H; subst
  | H : insert_ledger _ _ _ = Ok _ |- _ =>
      apply insert_ledger_Ok in H;
      let w := fresh "w" in destruct H as (w & ? & ? & ?); subst
  | H : update_wallet _ _ _ _ _ = Ok _ |- _ =>
      apply update_wallet_Ok in H;
      let w := fresh "w" in destruct H as [[? ?]|(w & ? & ? & ?)]; subst
  | H : insert_wallet _ _ _ _ _ = Ok _ |- _ =>
      apply insert_wallet_Ok in H;
      destruct H as [(? & ? & ?)|(? & ? & ? & ?)]; subst
  | H : insert_ignore _ _ _ _ = Ok _ |- _ =>
      apply insert_ignore_Ok in H;
      destruct H as [(? & ?)|(? & ? & ? & ?)]; subst
  | H : insert_unless _ _ _ _ = Ok _ |- _ =>
      apply insert_unless_Ok in H;
      destruct H as [(? & ? & ?)|(? & ? & ? & ?)]; subst
  | H : update_row _ _ _ = Ok _ |- _ =>
      apply update_row_Ok in H;
      let r := fresh "r" in destruct H as [(? & ? & ?)|(r & ? & ? & ?)]; subst
  | H : (match ?x with _ => _ end) _ = Ok _ |- _ =>
      let E := fresh "E" in destruct x eqn:E; try (is_var x; subst x)
  | H : (let '(_, _) := ?x in _) _ = Ok _ |- _ => destruct x
  end.

Ltac tx_steps := repeat (tx_step; cbn beta iota in *).

(** Run forwards: the next action returns [a]. *)
Ltac tx_do a := apply tx_bind_Ok; eexists a, _; split.

(** ** The invariant *)

Definition avail (m : Money) (id : string) : Z := from_option w_available 0 (wallets m !! id).
Definition frozen (m : Money) (id : string) : Z := from_option w_frozen 0 (wallets m !! id).

(** The sum of a delta over the entries of one wallet. *)
Definition booked (f : ledger_row -> Z) (m : Money) (id : string) : Z :=
  sum_Z (map f (List.filter (fun r => bool_decide (le_wallet_id r = id)) (ledger m))).

Definition last_entry (m : Money) (id : string) : option ledger_row :=
  List.find (fun r => bool_decide (le_wallet_id r = id)) (ledger m).

Definition bounded (m : Money) : Prop := forall id w,
  wallets m !! id = Some w ->
  0 <= w_available w <= int64_max /\ 0 <= w_frozen w <= int64_max.

Definition reconciled (m : Money) : Prop := forall id,
  avail m id = booked le_available_delta m id /\ frozen m id = booked le_frozen_delta m id.

Definition snapshots (m : Money) : Prop := forall id e,
  last_entry m id = Some e -> le_balance_after e = avail m id /\ le_frozen_after e = frozen m id.

Definition one_wallet (m : Money) : Prop := forall i j w v,
  wallets m !! i = Some w -> wallets m !! j = Some v ->
  w_user_id w = w_user_id v -> w_currency w = w_currency v -> i = j.

Record books (m : Money) : Prop := {
  books_bounded : bounded m;
  books_reconciled : reconciled m;
  books_snapshots : snapshots m;
  books_one_wallet : one_wallet m
}.

Lemma wallet_ok_iff w :
  wallet_ok w = true <->
  0 <= w_available w <= int64_max /\ 0 <= w_frozen w <= int64_max.
Proof. unfold wallet_ok. rewrite !andb_true_iff, !Z.leb_le. lia. Qed.

Lemma booked_cons f ws l r id :
  booked f (mk_Money ws (r :: l)) id =
  (if bool_decide (le_wallet_id r = id) then f r else 0) + booked f (mk_Money ws l) id.
Proof.
  unfold booked. cbn [ledger List.filter]. by destruct (bool_decide (le_wallet_id r = id)).
Qed.

Lemma avail_insert ws l i w id :
  avail (mk_Money (<[i := w]> ws) l) id =
  if bool_decide (i = id) then w_available w else avail (mk_Money ws l) id.
Proof. unfold avail. cbn [wallets]. case_bool_decide; subst; by simplify_map_eq. Qed.

Lemma frozen_insert ws l i w id :
  frozen (mk_Money (<[i := w]> ws) l) id =
  if bool_decide (i = id) then w_frozen w else frozen (mk_Money ws l) id.
Proof. unfold frozen. cbn [wallets]. case_bool_decide; subst; by simplify_map_eq. Qed.

Lemma money_eta m : mk_Money (wallets m) (ledger m) = m.
Proof. by destruct m. Qed.

Lemma one_wallet_update m l id w w' :
  one_wallet m -> wallets m !! id = Some w ->
  w_user_id w' = w_user_id w -> w_currency w' = w_currency w ->
  one_wallet (mk_Money (<[id := w']> (wallets m)) l).
Proof.
  intros Hone Hw Hu Hc i j x y Hi Hj Hxu Hxc. cbn in *.
  destruct (decide (i = id)) as [->|]; destruct (decide (j = id)) as [->|];
    simplify_map_eq; [done|..].
  - apply (Hone id j w y); congruence.
  - apply (Hone i id x w); congruence.
  - by apply (Hone i j x y).
Qed.

(** The one way money moves: a wallet row is rewritten and the difference is
    booked, with the new balances recorded in the entry. *)
Lemma books_post m id w w' r :
  books m -> wallets m !! id = Some w -> wallet_ok w' = true ->
  w_user_id w' = w_user_id w -> w_currency w' = w_currency w ->
  le_wallet_id r = id ->
  le_available_delta r = w_available w' - w_available w ->
  le_frozen_delta r = w_frozen w' - w_frozen w ->
  le_balance_after r = w_available w' -> le_frozen_after r = w_frozen w' ->
  books (mk_Money (<[id := w']> (wallets m)) (r :: ledger m)).
Proof.
  intros [Hb Hr Hs Ho] Hw Hok Hu Hc Hid Ha Hf Hba Hfa. split.
  - intros i x. cbn. destruct (decide (i = id)) as [->|]; simplify_map_eq.
    + intros [= <-]. by apply wallet_ok_iff.
    + intros Hx. by apply (Hb i).
  - intros i. destruct (Hr i) as [Hra Hrf].
    rewrite !booked_cons, avail_insert, frozen_insert, Hid.
    unfold avail, frozen, booked in *. cbn [wallets ledger].
    case_bool_decide; subst; [rewrite Hw in *; cbn in *; lia|lia].
  - intros i e. unfold last_entry. cbn [ledger List.find].
    rewrite avail_insert, frozen_insert, Hid. case_bool_decide.
    + intros [= <-]. done.
    + intros He. exact (Hs _ _ He).
  - by apply (one_wallet_update m _ id w).
Qed.

(** *** Finding a wallet by its owner *)

Lemma is_wallet_of_iff u c k w :
  is_wallet_of u c k w = true <-> w_user_id w = u /\ w_currency w = c.
Proof. unfold is_wallet_of. rewrite andb_true_iff, !bool_decide_eq_true. done. Qed.

Lemma find_wallet_row u c (m : gmap string wallet_row) id w :
  find_row (is_wallet_of u c) m = Some (id, w) ->
  m !! id = Some w /\ w_user_id w = u /\ w_currency w = c.
Proof. intros [Hw Hk]%find_row_Some. by apply is_wallet_of_iff in Hk. Qed.

(** With one wallet per user and currency the lookup is by key. *)
Lemma find_wallet_unique u c m id w :
  one_wallet m -> wallets m !! id = Some w -> w_user_id w = u -> w_currency w = c ->
  find_row (is_wallet_of u c) (wallets m) = Some (id, w).
Proof.
  intros Hone Hw Hu Hc. destruct (find_row _ _) as [[j v]|] eqn:E.
  - apply find_wallet_row in E as (Hv & Hvu & Hvc).
    assert (j = id) as -> by (apply (Hone j id v w); congruence).
    by simplify_eq.
  - pose proof (find_row_None _ _ _ _ E Hw) as Hf.
    rewrite <- not_true_iff_false, is_wallet_of_iff in Hf. naive_solver.
Qed.

(** Every wallet found by its owner is a row of the table; rows that the code
    just read cannot be missing. *)
Ltac wallet_rows :=
  repeat match goal with
  | H : find_row (is_wallet_of ?u ?c) ?ws = Some (?i, ?w) |- _ =>
      lazymatch goal with
      | _ : ws !! i = Some w |- _ => fail
      | _ => let Hw := fresh "Hw" in let Hu := fresh "Hu" in let Hc := fresh "Hc" in
             pose proof (find_wallet_row _ _ _ _ _ H) as (Hw & Hu & Hc)
      end
  end;
  try congruence.

(** A wallet row rewritten with the same balances books nothing. *)
Lemma books_touch m id w w' :
  books m -> wallets m !! id = Some w ->
  w_user_id w' = w_user_id w -> w_currency w' = w_currency w ->
  w_available w' = w_available w -> w_frozen w' = w_frozen w ->
  books (mk_Money (<[id := w']> (wallets m)) (ledger m)).
Proof.
  intros [Hb Hr Hs Ho] Hw Hu Hc Ha Hf.
  assert (Hav : forall i, avail (mk_Money (<[id := w']> (wallets m)) (ledger m)) i = avail m i).
  { intros i. rewrite avail_insert, money_eta. case_bool_decide; [|done]. subst.
    unfold avail. by rewrite Hw. }
  assert (Hfr : forall i, frozen (mk_Money (<[id := w']> (wallets m)) (ledger m)) i = frozen m i).
  { intros i. rewrite frozen_insert, money_eta. case_bool_decide; [|done]. subst.
    unfold frozen. by rewrite Hw. }
  split.
  - intros i x. cbn. destruct (decide (i = id)) as [->|]; simplify_map_eq.
    + intros [= <-]. rewrite Ha, Hf. by apply (Hb id).
    + intros Hx. by apply (Hb i).
  - intros i. rewrite Hav, Hfr. apply Hr.
  - intros i e. rewrite Hav, Hfr. apply Hs.
  - by apply (one_wallet_update m _ id w).
Qed.

(** Opening a wallet with nothing in it. *)
Lemma books_open m id user cur now :
  books m -> wallets m !! id = None ->
  find_row (is_wallet_of user cur) (wallets m) = None ->
  books (mk_Money (<[id := mk_wallet user cur 0 0 0 now]> (wallets m)) (ledger m)).
Proof.
  intros [Hb Hr Hs Ho] Hid Hnone.
  assert (Hfree : forall i w, wallets m !! i = Some w ->
    ~ (w_user_id w = user /\ w_currency w = cur)).
  { intros i w Hw [Hu Hc]. pose proof (find_row_None _ _ _ _ Hnone Hw) as Hf.
    unfold is_wallet_of in Hf. rewrite !bool_decide_true in Hf by done. done. }
  assert (Hav : forall i,
    avail (mk_Money (<[id := mk_wallet user cur 0 0 0 now]> (wallets m)) (ledger m)) i = avail m i).
  { intros i. rewrite avail_insert, money_eta. case_bool_decide; [|done]. subst.
    unfold avail. by rewrite Hid. }
  assert (Hfr : forall i,
    frozen (mk_Money (<[id := mk_wallet user cur 0 0 0 now]> (wallets m)) (ledger m)) i = frozen m i).
  { intros i. rewrite frozen_insert, money_eta. case_bool_decide; [|done]. subst.
    unfold frozen. by rewrite Hid. }
  split.
  - intros i x. cbn. destruct (decide (i = id)) as [->|]; simplify_map_eq.
    + intros [= <-]. cbn. unfold int64_max. lia.
    + intros Hx. by apply (Hb i).
  - intros i. rewrite Hav, Hfr. apply Hr.
  - intros i e. rewrite Hav, Hfr. apply Hs.
  - intros i j x y. cbn.
    destruct (decide (i = id)) as [->|]; destruct (decide (j = id)) as [->|];
      simplify_map_eq; [done|..].
    + intros [= <-] Hy Hu Hc. exfalso. by eapply Hfree.
    + intros Hx [= <-] Hu Hc. exfalso. by eapply Hfree.
    + apply Ho.
Qed.

Lemma books_empty : books (mk_Money ∅ []).
Proof.
  split.
  - by intros i w [=].
  - done.
  - by intros i e [=].
  - by intros i j w v [=].
Qed.

(** A transaction keeps the books when each committed run does. *)
Definition keeps_books {A} (m : Tx A) : Prop := forall db a db',
  m db = Ok (a, db') -> books db.(money) -> books db'.(money).

Lemma keeps_books_bind {A B} (m : Tx A) (f : A -> Tx B) :
  keeps_books m -> (forall a, keeps_books (f a)) -> keeps_books (m ≫= f).
Proof.
  intros Hm Hf db b db'' Hrun Hb. apply tx_bind_Ok in Hrun as (a & db' & H1 & H2).
  exact (Hf a db' b db'' H2 (Hm db a db' H1 Hb)).
Qed.

(** The balances read under the row lock are in range. *)
Lemma bounded_lookup m id w :
  books m -> wallets m !! id = Some w ->
  0 <= w_available w <= int64_max /\ 0 <= w_frozen w <= int64_max.
Proof. intros [Hb _ _ _]. apply Hb. Qed.

(** An [int64] sum that the CHECK of the table accepted did not wrap. *)
Lemma checked_add a b :
  0 <= a <= int64_max -> 0 <= b <= int64_max -> 0 <= (a + b)%i64 -> (a + b)%i64 = a + b.
Proof. apply wrap64_add_nonneg. Qed.

Lemma exact_sub a b :
  0 <= b <= a -> a <= int64_max -> (a - b)%i64 = a - b.
Proof. intros. apply wrap64_small. unfold in_int64, int64_min, int64_max in *. lia. Qed.

Lemma exact_neg a : 0 <= a <= int64_max -> (- a)%i64 = - a.
Proof. intros. apply wrap64_small. unfold in_int64, int64_min, int64_max in *. lia. Qed.

(** A difference of two non-negative [int64] never wraps. *)
Lemma exact_sub_pos a b :
  0 <= a <= int64_max -> 0 <= b <= int64_max -> (a - b)%i64 = a - b.
Proof. intros. apply wrap64_small. unfold in_int64, int64_min, int64_max in *. lia. Qed.

(** ** What a transaction or a service call keeps *)

Definition tx_keeps (P : DB -> Prop) {A} (m : Tx A) : Prop :=
  forall db a db', m db = Ok (a, db') -> P db -> P db'.

Definition svc_keeps (P : DB -> Prop) {A} (m : Svc A) : Prop :=
  forall db r db', m db = (r, db') -> P db -> P db'.

Section keeps.
Context (P : DB -> Prop).

Lemma tx_keeps_bind {A B} (m : Tx A) (f : A -> Tx B) :
  tx_keeps P m -> (forall a, tx_keeps P (f a)) -> tx_keeps P (m ≫= f).
Proof. intros Hm Hf db b db'' (a & db' & H1 & H2)%tx_bind_Ok HP. eapply Hf; [done|]. by eapply Hm. Qed.

Lemma tx_keeps_ret {A} (a : A) : tx_keeps P (mret a).
Proof. by intros db b db' [_ <-]%tx_ret_Ok. Qed.

Lemma tx_keeps_reject b e : tx_keeps P (reject_if b e).
Proof. by intros db u db' [_ <-]%reject_if_Ok. Qed.

Lemma tx_keeps_gets {A} (f : DB -> A) : tx_keeps P (gets f).
Proof. by intros db u db' [_ <-]%gets_Ok. Qed.

Lemma tx_keeps_found {A} e (o : option A) : tx_keeps P (found e o).
Proof. by intros db u db' [_ <-]%found_Ok. Qed.

Lemma tx_keeps_lift {A} (m : res A) : tx_keeps P (lift m).
Proof. by intros db a db' [_ <-]%lift_Ok. Qed.

Lemma tx_keeps_raise {A} e : tx_keeps P (raise e : Tx A).
Proof. by intros db a db'. Qed.

Lemma tx_keeps_new_uuid `{Uuids} : (forall db, P db -> P (tick db)) -> tx_keeps P new_uuid.
Proof. intros HP db id db' [_ <-]%new_uuid_Ok. apply HP. Qed.

Lemma tx_keeps_modify f : (forall db, P db -> P (f db)) -> tx_keeps P (modify f).
Proof. intros HP db u db' <-%modify_Ok. apply HP. Qed.

Lemma tx_keeps_insert_row {R} `{Table R} (C : R -> bool) id r :
  (forall db, P db -> P (put_row id r db)) -> tx_keeps P (insert_row C id r).
Proof. intros HP db u db' (_ & _ & <-)%insert_row_Ok. apply HP. Qed.

Lemma tx_keeps_insert_unless {R} `{Table R} (C : R -> bool) id r :
  (forall db, P db -> P (put_row id r db)) -> tx_keeps P (insert_unless C id r).
Proof. intros HP db u db' [(_ & <- & _)|(_ & _ & _ & <-)]%insert_unless_Ok; [done|apply HP]. Qed.

Lemma tx_keeps_update_row {R} `{Table R} id (f : R -> R) :
  (forall db r, P db -> P (put_row id r db)) -> tx_keeps P (update_row id f).
Proof. intros HP db u db' [(_ & _ & <-)|(r & _ & _ & <-)]%update_row_Ok; [done|apply HP]. Qed.

Lemma svc_keeps_bind {A B} (m : Svc A) (f : A -> Svc B) :
  svc_keeps P m -> (forall a, svc_keeps P (f a)) -> svc_keeps P (m ≫= f).
Proof.
  intros Hm Hf db r db'' [(a & db' & H1 & H2)|(e & H1 & _)]%svc_bind_inv HP; [|by eapply Hm].
  eapply Hf; [done|]. by eapply Hm.
Qed.

Lemma svc_keeps_ret {A} (a : A) : svc_keeps P (mret a).
Proof. by intros db r db' [= _ <-]. Qed.

Lemma svc_keeps_fails {A} e : svc_keeps P (fails (A := A) e).
Proof. by intros db r db' [= _ <-]. Qed.

Lemma svc_keeps_lift {A} (m : res A) : svc_keeps P (svc_lift m).
Proof. by intros db r db' [= _ <-]. Qed.

Lemma svc_keeps_reject b e : svc_keeps P (svc_reject b e).
Proof. destruct b; [apply svc_keeps_fails|apply svc_keeps_ret]. Qed.

Lemma svc_keeps_try {A} (m : Svc A) : svc_keeps P m -> svc_keeps P (try m).
Proof. intros Hm db r db'. unfold try. destruct (m db) as [x d] eqn:E. intros [= _ <-]. by eapply Hm. Qed.

Lemma svc_keeps_or_error {A} e (m : Svc A) : svc_keeps P m -> svc_keeps P (or_error e m).
Proof. intros Hm db r db'. unfold or_error. destruct (m db) as [[x|x] d] eqn:E; intros [= _ <-]; by eapply Hm. Qed.

Lemma svc_keeps_atomically {A} (m : Tx A) : tx_keeps P m -> svc_keeps P (atomically m).
Proof. intros Hm db r db' [(a & -> & H)|(e & -> & ->)]%atomically_cases; [|done]. by eapply Hm. Qed.

End keeps.

Create HintDb keeps discriminated.
#[export] Hint Resolve tx_keeps_bind tx_keeps_ret tx_keeps_reject tx_keeps_gets tx_keeps_found tx_keeps_lift tx_keeps_raise
  svc_keeps_bind svc_keeps_ret svc_keeps_fails svc_keeps_lift svc_keeps_reject svc_keeps_try svc_keeps_or_error
  svc_keeps_atomically : keeps.

(** Walk through a body whose leaves are known to keep the invariant. *)
Ltac keeps :=
  repeat first
    [ progress auto with keeps
    | apply tx_keeps_bind; [|intros ?] | apply svc_keeps_bind; [|intros ?]
    | match goal with |- context [match ?x with _ => _ end] => destruct x end
    | progress cbn zeta beta iota ].
