(* ===== verification/Custody.v ===== *)
(** * Frozen money

    What the frozen balances are for: every frozen unit of a wallet belongs to
    a withdrawal, a point withdrawal or a Lulu withdrawal that is still open.
    The invariant is shared by the three components that freeze ([Chain],
    [Credit], [Lulu]); every other transaction leaves the tables and the frozen
    balances alone ([quiet]). *)

From S2P Require Import Prelude GoStrings Json Schema Store Books.

Definition open_status (s : string) : bool :=
  bool_decide (s ∈ ["requested"; "approved"; "broadcasted"]).

Definition wd_hold (wid : string) (w : withdrawal_row) : Z :=
  if bool_decide (wd_wallet_id w = wid) && open_status (wd_status w) then wd_amount_minor w else 0.

Definition pw_hold (wid : string) (p : point_withdrawal_row) : Z :=
  if bool_decide (pw_wallet_id p = wid) && bool_decide (pw_status p = "requested"%string)
  then pw_amount_minor p else 0.

(** A Lulu withdrawal names no wallet: it holds money in the ORIGIN_STONE wallet
    of its user, a thousand minor units for each stone. *)
Definition lulu_open (s : string) : bool :=
  bool_decide (s ∈ ["requested"; "approved"; "sending"; "unknown"]%string).

Definition lulu_freezes (o : lulu_order_row) : bool :=
  bool_decide (lo_kind o = "withdrawal"%string) && lulu_open (lo_status o).

Definition owner (m : Money) (wid : string) : option (string * string) :=
  (fun w => (w_user_id w, w_currency w)) <$> wallets m !! wid.

Definition lulu_hold (own : option (string * string)) (o : lulu_order_row) : Z :=
  if lulu_freezes o && bool_decide (own = Some (lo_user_id o, "ORIGIN_STONE"%string))
  then 1000 * lo_amount o else 0.

(** What the requests that name a wallet hold of it, and what the Lulu
    withdrawals of its owner hold. *)
Definition pending (db : DB) (wid : string) : Z :=
  sum_map (wd_hold wid) (withdrawals db.(app)) + sum_map (pw_hold wid) (point_withdrawals db.(app)).

Definition lulu_pending (db : DB) (wid : string) : Z :=
  sum_map (lulu_hold (owner db.(money) wid)) (lulu_orders db.(app)).

(** What the open requests hold of a wallet. *)
Definition outstanding (db : DB) (wid : string) : Z := pending db wid + lulu_pending db wid.

(** The wallet a request names is the wallet of its user and currency. *)
Definition owns (m : Money) (wid user currency : string) : Prop := exists w,
  wallets m !! wid = Some w /\ w_user_id w = user /\ w_currency w = currency.

Record custody (db : DB) : Prop := {
  cu_books : books db.(money);
  cu_backed : forall wid, frozen db.(money) wid = outstanding db wid;
  cu_withdrawals : forall id w, withdrawals db.(app) !! id = Some w ->
    0 < wd_amount_minor w <= int64_max /\
    owns db.(money) (wd_wallet_id w) (wd_user_id w) (default "" (wd_token_code w));
  cu_points : forall id p, point_withdrawals db.(app) !! id = Some p ->
    0 < pw_amount_minor p <= int64_max /\
    owns db.(money) (pw_wallet_id p) (pw_user_id p) "POINTS";
  cu_lulu : forall id o, lulu_orders db.(app) !! id = Some o ->
    0 < lo_amount o <= int64_max / 1000 /\
    (lulu_freezes o = true -> exists wid, owns db.(money) wid (lo_user_id o) "ORIGIN_STONE")
}.

(** Wallets are never deleted and never change owner or currency. *)
Definition keeps_owners (m m' : Money) : Prop := forall id w, wallets m !! id = Some w ->
  exists w', wallets m' !! id = Some w' /\ w_user_id w' = w_user_id w /\ w_currency w' = w_currency w.

Record quiet (db db' : DB) : Prop := {
  q_withdrawals : withdrawals db'.(app) = withdrawals db.(app);
  q_points : point_withdrawals db'.(app) = point_withdrawals db.(app);
  q_lulu : lulu_orders db'.(app) = lulu_orders db.(app);
  q_frozen : forall wid, frozen db'.(money) wid = frozen db.(money) wid;
  q_owners : keeps_owners db.(money) db'.(money)
}.

#[export] Instance keeps_owners_preorder : PreOrder keeps_owners.
Proof.
  split.
  - intros m id w Hw. by exists w.
  - intros m1 m2 m3 H12 H23 id w Hw.
    destruct (H12 id w Hw) as (w2 & Hw2 & Hu2 & Hc2).
    destruct (H23 id w2 Hw2) as (w3 & Hw3 & Hu3 & Hc3).
    exists w3. split; [done|split; congruence].
Qed.

#[export] Instance quiet_preorder : PreOrder quiet.
Proof.
  split.
  - intros db. by split.
  - intros d1 d2 d3 [Hw Hp Hl Hf Ho] [Hw' Hp' Hl' Hf' Ho']. split; [congruence..| |].
    + intros wid. by rewrite Hf', Hf.
    + by etrans.
Qed.

Lemma owns_kept m m' wid u c : keeps_owners m m' -> owns m wid u c -> owns m' wid u c.
Proof.
  intros Hk (w & Hw & Hu & Hc). destruct (Hk wid w Hw) as (w' & Hw' & Hu' & Hc').
  exists w'. split; [done|split; congruence].
Qed.

Lemma owns_owner m wid u c : owns m wid u c <-> owner m wid = Some (u, c).
Proof.
  unfold owns, owner. split.
  - intros (w & -> & <- & <-). done.
  - intros (w & Hw & [= -> ->])%fmap_Some. by exists w.
Qed.

Lemma owner_kept m m' wid o : keeps_owners m m' -> owner m wid = Some o -> owner m' wid = Some o.
Proof. destruct o as [u c]. rewrite <-!owns_owner. apply owns_kept. Qed.

(** A wallet opened later holds nothing: the orders of its owner would have had
    a wallet already. *)
Lemma lulu_pending_kept db db' wid :
  custody db -> books db'.(money) -> keeps_owners db.(money) db'.(money) ->
  lulu_orders db'.(app) = lulu_orders db.(app) -> lulu_pending db' wid = lulu_pending db wid.
Proof.
  intros Hcu Hb Hk Eq. unfold lulu_pending. rewrite Eq. apply sum_map_ext. intros id o Ho.
  unfold lulu_hold. destruct (lulu_freezes o) eqn:Hfr; [cbn [andb]|done].
  erewrite bool_decide_ext; [done|]. split.
  - intros Hown. destruct (cu_lulu _ Hcu id o Ho) as [_ Hex].
    destruct (Hex Hfr) as (wid2 & H2). apply owns_owner in Hown as (w & Hw & Hu & Hc).
    pose proof H2 as H2'. apply (owns_kept _ _ _ _ _ Hk) in H2' as (w2 & Hw2 & Hu2 & Hc2).
    assert (wid2 = wid) as -> by (eapply (books_one_wallet _ Hb); eauto; congruence).
    by apply owns_owner.
  - by apply owner_kept.
Qed.

Lemma custody_quiet db db' :
  custody db -> books db'.(money) -> quiet db db' -> custody db'.
Proof.
  intros Hcu Hb Hq. pose proof Hcu as [_ Hback Hw Hp Hl]. pose proof Hq as [Eqw Eqp Eql Hf Ho].
  split; [done|..].
  - intros wid. rewrite Hf, Hback. unfold outstanding.
    rewrite (lulu_pending_kept db db') by done. unfold pending. by rewrite Eqw, Eqp.
  - intros id w. rewrite Eqw. intros Hid. destruct (Hw id w Hid). split; [done|].
    by eapply owns_kept.
  - intros id p. rewrite Eqp. intros Hid. destruct (Hp id p Hid). split; [done|].
    by eapply owns_kept.
  - intros id o. rewrite Eql. intros Hid. destruct (Hl id o Hid) as [Hr Hex]. split; [done|].
    intros Hfr. destruct (Hex Hfr) as (wid & Hwid). exists wid. by eapply owns_kept.
Qed.

Lemma keeps_owners_update m l id w w' :
  wallets m !! id = Some w -> w_user_id w' = w_user_id w -> w_currency w' = w_currency w ->
  keeps_owners m (mk_Money (<[id := w']> (wallets m)) l).
Proof.
  intros Hw Hu Hc i x Hx. cbn. destruct (decide (i = id)) as [->|]; simplify_map_eq.
  - by exists w'.
  - by exists x.
Qed.

Lemma keeps_owners_open m l id w :
  wallets m !! id = None -> keeps_owners m (mk_Money (<[id := w]> (wallets m)) l).
Proof.
  intros Hid i x Hx. cbn. destruct (decide (i = id)) as [->|]; [congruence|].
  simplify_map_eq. by exists x.
Qed.

Lemma keeps_owners_ledger m l : keeps_owners m (mk_Money (wallets m) l).
Proof. intros i x Hx. by exists x. Qed.

(** The quiet moves: a wallet row whose frozen balance stays, a new wallet, a
    ledger entry; anything that leaves the money and the two tables alone. *)
Lemma frozen_update_same m l id w w' wid :
  wallets m !! id = Some w -> w_frozen w' = w_frozen w ->
  frozen (mk_Money (<[id := w']> (wallets m)) l) wid = frozen m wid.
Proof.
  intros Hw Hf. rewrite frozen_insert. unfold frozen. cbn. case_bool_decide; [|done].
  subst. by rewrite Hw.
Qed.

Lemma quiet_put_wallet id w w' db :
  wallets db.(money) !! id = Some w -> w_user_id w' = w_user_id w ->
  w_currency w' = w_currency w -> w_frozen w' = w_frozen w -> quiet db (put_wallet id w' db).
Proof.
  intros Hw Hu Hc Hf. split; [done..| |].
  - intros wid. money_simpl. by apply (frozen_update_same _ _ _ w).
  - by apply (keeps_owners_update _ _ _ w).
Qed.

Lemma quiet_open_wallet id u c now db :
  wallets db.(money) !! id = None -> quiet db (put_wallet id (mk_wallet u c 0 0 0 now) db).
Proof.
  intros Hid. split; [done..| |].
  - intros wid. money_simpl. rewrite frozen_insert, money_eta. case_bool_decide; [|done].
    subst. unfold frozen. by rewrite Hid.
  - by apply keeps_owners_open.
Qed.

Lemma quiet_post `{Uuids} li w now db : quiet db (post_ledger li w now db).
Proof. split; [done..|]. apply keeps_owners_ledger. Qed.

Lemma quiet_app db db' :
  money db' = money db -> withdrawals db'.(app) = withdrawals db.(app) ->
  point_withdrawals db'.(app) = point_withdrawals db.(app) ->
  lulu_orders db'.(app) = lulu_orders db.(app) -> quiet db db'.
Proof. intros Hm Hw Hp Hl. split; [done..|by rewrite Hm|by rewrite Hm]. Qed.

Lemma quiet_tick db : quiet db (tick db).
Proof. by apply quiet_app. Qed.

Lemma quiet_outbox o db : quiet db (push_outbox o db).
Proof. by apply quiet_app. Qed.

Lemma quiet_audit a db : quiet db (push_audit a db).
Proof. by apply quiet_app. Qed.

(** Peel the last state transformer of a run. *)
Ltac quiet_steps :=
  repeat match goal with
  | |- quiet ?d ?d => reflexivity
  | |- quiet _ (tick _) => etrans; [|apply quiet_tick]
  | |- quiet _ (push_outbox _ _) => etrans; [|apply quiet_outbox]
  | |- quiet _ (push_audit _ _) => etrans; [|apply quiet_audit]
  | |- quiet _ (post_ledger _ _ _ _) => etrans; [|apply quiet_post]
  | |- quiet _ (put_row _ _ _) => etrans; [|by apply quiet_app]
  | |- quiet _ (put_wallet _ (mk_wallet _ _ 0 0 0 _) _) =>
      etrans; [|by apply quiet_open_wallet]
  | |- quiet _ (put_wallet _ _ _) => etrans; [|by eapply quiet_put_wallet]
  end.

Lemma empty_custody : custody empty_DB.
Proof.
  split; [apply books_empty|done|by intros ? ? [=]..].
Qed.

(** Opening an empty wallet, or writing any other table. *)
Lemma custody_open id u c now db :
  custody db -> wallets db.(money) !! id = None ->
  find_row (is_wallet_of u c) (wallets db.(money)) = None ->
  custody (put_wallet id (mk_wallet u c 0 0 0 now) db).
Proof.
  intros Hcu Hid Hnone. apply (custody_quiet db); [done| |by apply quiet_open_wallet].
  rewrite money_put_wallet. apply books_open; [apply Hcu|done..].
Qed.

Lemma custody_app db db' :
  custody db -> money db' = money db -> withdrawals db'.(app) = withdrawals db.(app) ->
  point_withdrawals db'.(app) = point_withdrawals db.(app) ->
  lulu_orders db'.(app) = lulu_orders db.(app) -> custody db'.
Proof.
  intros Hcu Hm Hw Hp Hl. apply (custody_quiet db); [done|rewrite Hm; apply Hcu|by apply quiet_app].
Qed.

(** The holds of the tables after the usual changes. *)
Lemma hold_nonneg db id w wid :
  custody db -> withdrawals db.(app) !! id = Some w -> 0 <= wd_hold wid w.
Proof.
  intros [_ _ Hw _ _] Hid. destruct (Hw id w Hid) as [? _]. unfold wd_hold.
  destruct (_ && _); lia.
Qed.

(** One wallet moved from [w] to [w'] and the difference was booked as [r]. *)
Record posted (db db' : DB) (wid : string) (w w' : wallet_row) (r : ledger_row) : Prop := {
  po_wallet : wallets db.(money) !! wid = Some w;
  po_ok : wallet_ok w' = true;
  po_user : w_user_id w' = w_user_id w;
  po_currency : w_currency w' = w_currency w;
  po_money : money db' = mk_Money (<[wid := w']> (wallets db.(money))) (r :: ledger db.(money));
  po_entry : le_wallet_id r = wid;
  po_available : le_available_delta r = w_available w' - w_available w;
  po_frozen : le_frozen_delta r = w_frozen w' - w_frozen w;
  po_balance : le_balance_after r = w_available w';
  po_snapshot : le_frozen_after r = w_frozen w'
}.

Lemma posted_books db db' wid w w' r :
  posted db db' wid w w' r -> books db.(money) -> books db'.(money).
Proof. intros [] Hb. rewrite po_money0. by eapply books_post. Qed.

Lemma posted_owners db db' wid w w' r :
  posted db db' wid w w' r -> keeps_owners db.(money) db'.(money).
Proof. intros []. rewrite po_money0. by apply (keeps_owners_update _ _ _ w). Qed.

Lemma posted_quiet db db' wid w w' r :
  posted db db' wid w w' r -> le_frozen_delta r = 0 ->
  withdrawals db'.(app) = withdrawals db.(app) ->
  point_withdrawals db'.(app) = point_withdrawals db.(app) ->
  lulu_orders db'.(app) = lulu_orders db.(app) -> quiet db db'.
Proof.
  intros Hp Hf Hw Hpw Hl. pose proof Hp as []. split; [done..| |by eapply posted_owners].
  intros i. rewrite po_money0. apply (frozen_update_same _ _ _ w); [done|lia].
Qed.

Lemma posted_avail db db' wid w w' r i :
  posted db db' wid w w' r ->
  avail db'.(money) i = avail db.(money) i + (if bool_decide (wid = i) then le_available_delta r else 0).
Proof.
  intros []. rewrite po_money0, avail_insert. unfold avail. cbn [wallets].
  case_bool_decide; [|lia]. subst. rewrite po_wallet0. cbn. lia.
Qed.

Lemma posted_frozen db db' wid w w' r i :
  posted db db' wid w w' r ->
  frozen db'.(money) i = frozen db.(money) i + (if bool_decide (wid = i) then le_frozen_delta r else 0).
Proof.
  intros []. rewrite po_money0, frozen_insert. unfold frozen. cbn [wallets].
  case_bool_decide; [|lia]. subst. rewrite po_wallet0. cbn. lia.
Qed.

Lemma posted_owner db db' wid w w' r i :
  posted db db' wid w w' r -> owner db'.(money) i = owner db.(money) i.
Proof.
  intros []. rewrite po_money0. unfold owner. cbn [wallets].
  destruct (decide (i = wid)) as [->|]; simplify_map_eq; congruence.
Qed.

(** Money moves between available and frozen together with a request: the
    frozen balance and the holds of the requests change by the same amount. *)
Lemma custody_move db db' wid w w' r :
  custody db -> posted db db' wid w w' r ->
  (forall i, outstanding db' i =
     outstanding db i + (if bool_decide (wid = i) then le_frozen_delta r else 0)) ->
  (forall id x, withdrawals db'.(app) !! id = Some x ->
     0 < wd_amount_minor x <= int64_max /\
     owns db.(money) (wd_wallet_id x) (wd_user_id x) (default "" (wd_token_code x))) ->
  (forall id x, point_withdrawals db'.(app) !! id = Some x ->
     0 < pw_amount_minor x <= int64_max /\
     owns db.(money) (pw_wallet_id x) (pw_user_id x) "POINTS") ->
  (forall id o, lulu_orders db'.(app) !! id = Some o -> 0 < lo_amount o <= int64_max / 1000 /\
     (lulu_freezes o = true -> exists i, owns db.(money) i (lo_user_id o) "ORIGIN_STONE")) ->
  custody db'.
Proof.
  intros Hcu Hpo Hout Hwd Hpw Hlu. assert (Hk := posted_owners _ _ _ _ _ _ Hpo). split.
  - eapply posted_books; [done|apply Hcu].
  - intros i. by rewrite (posted_frozen _ _ _ _ _ _ _ Hpo), Hout, (cu_backed _ Hcu i).
  - intros id x Hx. destruct (Hwd id x Hx). split; [done|]. by eapply owns_kept.
  - intros id x Hx. destruct (Hpw id x Hx). split; [done|]. by eapply owns_kept.
  - intros id x Hx. destruct (Hlu id x Hx) as [Hr Hex]. split; [done|].
    intros Hfr. destruct (Hex Hfr) as (j & Hj). exists j. by eapply owns_kept.
Qed.

(** What the requests hold after one row of a table was written. *)
Definition same_owners (db db' : DB) : Prop := forall i, owner db'.(money) i = owner db.(money) i.

Lemma same_money_owners db db' : money db' = money db -> same_owners db db'.
Proof. intros Hm i. by rewrite Hm. Qed.

Lemma posted_same_owners db db' wid w w' r : posted db db' wid w w' r -> same_owners db db'.
Proof. intros Hp i. by eapply posted_owner. Qed.

Lemma lulu_pending_same db db' wid :
  same_owners db db' -> lulu_orders db'.(app) = lulu_orders db.(app) ->
  lulu_pending db' wid = lulu_pending db wid.
Proof. intros Ho Hl. unfold lulu_pending. by rewrite Ho, Hl. Qed.

Lemma outstanding_insert db db' id r wid :
  same_owners db db' -> withdrawals db.(app) !! id = None ->
  withdrawals db'.(app) = <[id := r]> (withdrawals db.(app)) ->
  point_withdrawals db'.(app) = point_withdrawals db.(app) ->
  lulu_orders db'.(app) = lulu_orders db.(app) ->
  outstanding db' wid = outstanding db wid + wd_hold wid r.
Proof.
  intros Ho Hid Hw Hp Hl. unfold outstanding. rewrite (lulu_pending_same db db') by done.
  unfold pending. rewrite Hw, Hp, sum_map_insert by done. lia.
Qed.

Lemma outstanding_update db db' id r r' wid :
  same_owners db db' -> withdrawals db.(app) !! id = Some r ->
  withdrawals db'.(app) = <[id := r']> (withdrawals db.(app)) ->
  point_withdrawals db'.(app) = point_withdrawals db.(app) ->
  lulu_orders db'.(app) = lulu_orders db.(app) ->
  outstanding db' wid = outstanding db wid - wd_hold wid r + wd_hold wid r'.
Proof.
  intros Ho Hid Hw Hp Hl. unfold outstanding. rewrite (lulu_pending_same db db') by done.
  unfold pending. rewrite Hw, Hp, (sum_map_update _ _ _ r) by done. lia.
Qed.

(** Rows of a table after one row was written. *)
Lemma lookup_insert_or {R} (t : gmap string R) i j x y :
  <[i := x]> t !! j = Some y -> (j = i /\ y = x) \/ t !! j = Some y.
Proof.
  intros Hl. apply lookup_insert_Some in Hl as [[-> ->]|[_ Hl]]; [by left|by right].
Qed.

Lemma lookup_insert_fresh {R} (t : gmap string R) i j x y :
  t !! j = Some y -> t !! i = None -> <[i := x]> t !! j = Some y.
Proof. intros Hj Hi. rewrite lookup_insert_ne; [done|congruence]. Qed.

(** ** Transactions that keep the books and freeze nothing *)

Definition sound {A} (m : Tx A) : Prop := forall db a db',
  m db = Ok (a, db') -> books db.(money) -> books db'.(money) /\ quiet db db'.

Lemma sound_bind {A B} (m : Tx A) (f : A -> Tx B) :
  sound m -> (forall a, sound (f a)) -> sound (m ≫= f).
Proof.
  intros Hm Hf db b db'' Hrun Hb. apply tx_bind_Ok in Hrun as (a & db' & H1 & H2).
  destruct (Hm _ _ _ H1 Hb) as [Hb' Hq]. destruct (Hf a _ _ _ H2 Hb') as [Hb'' Hq'].
  split; [done|by etrans].
Qed.

Lemma sound_custody {A} (m : Tx A) db a db' :
  sound m -> m db = Ok (a, db') -> custody db -> custody db'.
Proof.
  intros Hm Hrun Hcu. destruct (Hm _ _ _ Hrun (cu_books _ Hcu)). by apply (custody_quiet db).
Qed.

(** The new money may already be written out in the goal. *)
Lemma posted_sound db db' m' wid w w' r :
  money db' = m' -> posted db db' wid w w' r -> le_frozen_delta r = 0 ->
  withdrawals db'.(app) = withdrawals db.(app) ->
  point_withdrawals db'.(app) = point_withdrawals db.(app) ->
  lulu_orders db'.(app) = lulu_orders db.(app) ->
  books db.(money) -> books m' /\ quiet db db'.
Proof. intros <- Hp Hf Hw Hpw Hl Hb. split; [by eapply posted_books|by eapply posted_quiet]. Qed.

(** The money and the two tables are as they were. *)
Lemma still_sound db db' :
  money db' = money db -> withdrawals db'.(app) = withdrawals db.(app) ->
  point_withdrawals db'.(app) = point_withdrawals db.(app) ->
  lulu_orders db'.(app) = lulu_orders db.(app) ->
  books db.(money) -> books db'.(money) /\ quiet db db'.
Proof. intros Hm Hw Hp Hl Hb. split; [by rewrite Hm|by apply quiet_app]. Qed.
