(* ===== verification/Wallet.v ===== *)
(** * The wallet repositories

    [domain/wallet]: the interface [Repository] with the laws its callers rely
    on, the in-memory implementation (memory.go), the PostgreSQL one
    (postgres.go), and the currency lookup (currency.go).  Each method takes the
    clock reading of the call first. *)

From S2P Require Import Prelude GoStrings Json Schema Store Books.

(** ** ledger.go *)

Record LedgerEntry : Type := mk_LedgerEntry {
  EntryID : string;
  AccountID : string;
  BusinessID : string;
  EntryType : string;
  AmountMinor : Z;
  Currency : string;
  OccurredAt : Z
}.

Record AccountBalance : Type := mk_AccountBalance {
  ab_AccountID : string;
  ab_Currency : string;
  AvailableMinor : Z;
  FrozenMinor : Z
}.

Definition EntryBetDebit : string := "bet_debit".
Definition EntrySettlementCredit : string := "settlement_credit".

Definition ErrInsufficientFunds : error := Sentinel "wallet.ErrInsufficientFunds".
Definition ErrWalletNotFound : error := Sentinel "wallet.ErrWalletNotFound".
Definition ErrInvalidAmount : error := Sentinel "wallet.ErrInvalidAmount".

#[export] Instance LedgerEntry_eq_dec : EqDecision LedgerEntry.
Proof. solve_decision. Defined.

(** The Go interface: a call returns a result and the state it leaves. *)
Class Repository (T : Type) := {
  DebitForBet : Z -> string -> string -> Z -> string -> T -> res LedgerEntry * T;
  CreditSettlement : Z -> string -> string -> Z -> string -> T -> res LedgerEntry * T;
  Balance : string -> string -> T -> res AccountBalance
}.

Definition available_of `{Repository T} (account currency : string) (s : T) : option Z :=
  match Balance account currency s with
  | Ok b => Some (AvailableMinor b)
  | Err _ => None
  end.

(** What every implementation promises: a mutation is idempotent by business
    ID, an error changes nothing, a first debit takes exactly its amount from a
    balance that covers it, a first credit adds exactly its amount. *)
Class RepositoryLaws (T : Type) `{Repository T} (wf : T -> Prop) := {
  debit_once t t' a b n n' c s e s' :
    DebitForBet t a b n c s = (Ok e, s') -> 0 < n' -> DebitForBet t' a b n' c s' = (Ok e, s');
  credit_once t t' a b n n' c s e s' :
    CreditSettlement t a b n c s = (Ok e, s') -> 0 < n' ->
    CreditSettlement t' a b n' c s' = (Ok e, s');
  debit_error t a b n c s e s' : DebitForBet t a b n c s = (Err e, s') -> s' = s;
  credit_error t a b n c s e s' : CreditSettlement t a b n c s = (Err e, s') -> s' = s;
  debit_effect t a b n c s e s' :
    wf s -> n <= int64_max -> DebitForBet t a b n c s = (Ok e, s') ->
    wf s' /\ (s' = s \/ exists v, available_of a c s = Some v /\ 0 < n <= v /\
                available_of a c s' = Some (v - n));
  credit_effect t a b n c s e s' :
    wf s -> n <= int64_max -> CreditSettlement t a b n c s = (Ok e, s') ->
    (forall v, available_of a c s = Some v -> v + n <= int64_max) ->
    wf s' /\ (s' = s \/ exists v, available_of a c s = Some v /\ 0 < n /\
                available_of a c s' = Some (v + n))
}.

(** ** memory.go *)

Record MemoryRepository : Type := mk_Memory {
  balances : gmap string AccountBalance;
  entries : gmap string LedgerEntry;
  drawn_ids : nat
}.

Definition NewMemoryRepository : MemoryRepository := mk_Memory ∅ ∅ 0.

Definition balanceKey (accountID currency : string) : string :=
  String.append accountID (String.append ":" currency).

Definition idempotencyKey (accountID businessID entryType : string) : string :=
  String.append accountID (String.append ":"
    (String.append businessID (String.append ":" entryType))).

Module Memory.
Section memory.
Context `{Uuids}.

(** [newID]: 16 random bytes; the stream of identifiers stands for them. *)
Definition newID (m : MemoryRepository) : string := uuid_at (drawn_ids m).

Definition Seed (accountID currency : string) (availableMinor : Z) (m : MemoryRepository)
  : MemoryRepository :=
  mk_Memory (<[balanceKey accountID currency :=
    mk_AccountBalance accountID currency availableMinor 0]> (balances m)) (entries m) (drawn_ids m).

Definition record_entry (key bkey : string) (balance : AccountBalance) (e : LedgerEntry)
    (m : MemoryRepository) : MemoryRepository :=
  mk_Memory (<[bkey := balance]> (balances m)) (<[key := e]> (entries m)) (S (drawn_ids m)).

Definition DebitForBet (now : Z) (accountID businessID : string) (amountMinor : Z)
    (currency : string) (m : MemoryRepository) : res LedgerEntry * MemoryRepository :=
  if amountMinor <=? 0 then (Err ErrInvalidAmount, m)
  else
    let entryKey := idempotencyKey accountID businessID EntryBetDebit in
    match entries m !! entryKey with
    | Some e => (Ok e, m)
    | None =>
        let bkey := balanceKey accountID currency in
        match balances m !! bkey with
        | None => (Err ErrWalletNotFound, m)
        | Some balance =>
            if AvailableMinor balance <? amountMinor then (Err ErrInsufficientFunds, m)
            else
              let balance := mk_AccountBalance (ab_AccountID balance) (ab_Currency balance)
                (AvailableMinor balance - amountMinor)%i64 (FrozenMinor balance) in
              let e := mk_LedgerEntry (newID m) accountID businessID EntryBetDebit
                (- amountMinor)%i64 currency now in
              (Ok e, record_entry entryKey bkey balance e m)
        end
    end.

Definition CreditSettlement (now : Z) (accountID businessID : string) (amountMinor : Z)
    (currency : string) (m : MemoryRepository) : res LedgerEntry * MemoryRepository :=
  if amountMinor <=? 0 then (Err ErrInvalidAmount, m)
  else
    let entryKey := idempotencyKey accountID businessID EntrySettlementCredit in
    match entries m !! entryKey with
    | Some e => (Ok e, m)
    | None =>
        let bkey := balanceKey accountID currency in
        match balances m !! bkey with
        | None => (Err ErrWalletNotFound, m)
        | Some balance =>
            let balance := mk_AccountBalance (ab_AccountID balance) (ab_Currency balance)
              (AvailableMinor balance + amountMinor)%i64 (FrozenMinor balance) in
            let e := mk_LedgerEntry (newID m) accountID businessID EntrySettlementCredit
              amountMinor currency now in
            (Ok e, record_entry entryKey bkey balance e m)
        end
    end.

Definition Balance (accountID currency : string) (m : MemoryRepository) : res AccountBalance :=
  of_option ErrWalletNotFound (balances m !! balanceKey accountID currency).

#[global] Instance repository : Repository MemoryRepository := {|
  Wallet.DebitForBet := DebitForBet;
  Wallet.CreditSettlement := CreditSettlement;
  Wallet.Balance := Balance
|}.

(** Seeded balances are non-negative [int64]. *)
Definition wf (m : MemoryRepository) : Prop := forall k b,
  balances m !! k = Some b -> 0 <= AvailableMinor b <= int64_max.

End memory.
End Memory.

(** ** postgres.go *)

Module Postgres.
Section postgres.
Context `{Uuids}.

(** The join of [findEntry]; the query has no ORDER BY, the newest match is
    taken. *)
Definition entry_matches (db : DB) (accountID businessID currency businessType entryType : string)
    (r : ledger_row) : bool :=
  match wallets db.(money) !! le_wallet_id r with
  | Some w =>
      is_wallet_of accountID currency "" w &&
      bool_decide (le_business_type r = businessType) &&
      bool_decide (le_business_id r = businessID) && bool_decide (le_entry_type r = entryType)
  | None => false
  end.

Definition findEntry (accountID businessID currency businessType entryType : string)
  : Tx (option LedgerEntry) :=
  gets (fun db =>
    r ← List.find (entry_matches db accountID businessID currency businessType entryType)
          (ledger db.(money));
    w ← wallets db.(money) !! le_wallet_id r;
    Some (mk_LedgerEntry (le_id r) (w_user_id w) (le_business_id r) (le_entry_type r)
            (le_amount r) (w_currency w) (le_occurred_at r))).

Definition mutate (now : Z) (accountID businessID : string) (amountMinor : Z)
    (currency businessType entryType : string) (balanceDelta : Z) : Tx LedgerEntry :=
  reject_if (amountMinor <=? 0) ErrInvalidAmount;;
  existing ← findEntry accountID businessID currency businessType entryType;
  match existing with
  | Some e => mret e
  | None =>
      w ← find_wallet accountID currency;
      wallet ← found ErrWalletNotFound w;
      let '(walletID, row) := wallet in
      existing ← findEntry accountID businessID currency businessType entryType;
      match existing with
      | Some e => mret e
      | None =>
          reject_if ((w_available row + balanceDelta)%i64 <? 0) ErrInsufficientFunds;;
          let availableMinor := (w_available row + balanceDelta)%i64 in
          update_wallet walletID (fun _ => availableMinor) w_frozen now;;
          id ← new_uuid;
          insert_ledger (entry id walletID businessType businessID entryType
                           balanceDelta availableMinor) now;;
          mret (mk_LedgerEntry id accountID businessID entryType balanceDelta currency now)
      end
  end.

(** One transaction: on an error the database is the one before. *)
Definition run {A} (m : Tx A) (db : DB) : res A * DB :=
  match m db with Ok (a, db') => (Ok a, db') | Err e => (Err e, db) end.

Definition DebitForBet (now : Z) (accountID businessID : string) (amountMinor : Z)
    (currency : string) : DB -> res LedgerEntry * DB :=
  run (mutate now accountID businessID amountMinor currency "bet" EntryBetDebit
         (- amountMinor)%i64).

Definition CreditSettlement (now : Z) (accountID businessID : string) (amountMinor : Z)
    (currency : string) : DB -> res LedgerEntry * DB :=
  run (mutate now accountID businessID amountMinor currency "settlement"
         EntrySettlementCredit amountMinor).

Definition Balance (accountID currency : string) (db : DB) : res AccountBalance :=
  match find_row (is_wallet_of accountID currency) (wallets db.(money)) with
  | Some (_, w) =>
      Ok (mk_AccountBalance (w_user_id w) (w_currency w) (w_available w) (w_frozen w))
  | None => Err ErrWalletNotFound
  end.

#[global] Instance repository : Repository DB := {|
  Wallet.DebitForBet := DebitForBet;
  Wallet.CreditSettlement := CreditSettlement;
  Wallet.Balance := Balance
|}.

End postgres.
End Postgres.

(** ** currency.go *)

Definition ErrUnknownCurrency : error := Sentinel "wallet.ErrUnknownCurrency".
Definition ErrCurrencyDisabled : error := Sentinel "wallet.ErrCurrencyDisabled".

Definition ResolveDecimals (code : string) (enabledOnly : bool) : Tx Z :=
  row ← gets (fun db => currencies db.(app) !! ToUpper (TrimSpace code));
  c ← found ErrUnknownCurrency row;
  reject_if (enabledOnly && negb (cur_enabled c)) ErrCurrencyDisabled;;
  mret (cur_decimals c).

(** ** The in-memory repository keeps the promises *)

Section memory_laws.
Context `{Uuids}.

Lemma memory_debit_inv t a b n c m r m' :
  Memory.DebitForBet t a b n c m = (r, m') ->
  (m' = m /\ (forall e, r = Ok e -> 0 < n /\ entries m !! idempotencyKey a b EntryBetDebit = Some e)) \/
  exists bal e, 0 < n /\ r = Ok e /\ balances m !! balanceKey a c = Some bal /\
    n <= AvailableMinor bal /\
    m' = Memory.record_entry (idempotencyKey a b EntryBetDebit) (balanceKey a c)
      (mk_AccountBalance (ab_AccountID bal) (ab_Currency bal)
        (AvailableMinor bal - n)%i64 (FrozenMinor bal)) e m.
Proof.
  unfold Memory.DebitForBet. destruct (n <=? 0) eqn:En; bool_to_prop.
  { intros [= <- <-]. by left. }
  destruct (entries m !! _) as [e|] eqn:Ee.
  { intros [= <- <-]. left. split; [done|]. by intros ? [= <-]. }
  destruct (balances m !! _) as [bal|] eqn:Eb.
  2:{ intros [= <- <-]. by left. }
  destruct (AvailableMinor bal <? n) eqn:Ea; bool_to_prop.
  { intros [= <- <-]. by left. }
  intros [= <- <-]. right. eexists bal, _. done.
Qed.

Lemma memory_credit_inv t a b n c m r m' :
  Memory.CreditSettlement t a b n c m = (r, m') ->
  (m' = m /\ (forall e, r = Ok e ->
     0 < n /\ entries m !! idempotencyKey a b EntrySettlementCredit = Some e)) \/
  exists bal e, 0 < n /\ r = Ok e /\ balances m !! balanceKey a c = Some bal /\
    m' = Memory.record_entry (idempotencyKey a b EntrySettlementCredit) (balanceKey a c)
      (mk_AccountBalance (ab_AccountID bal) (ab_Currency bal)
        (AvailableMinor bal + n)%i64 (FrozenMinor bal)) e m.
Proof.
  unfold Memory.CreditSettlement. destruct (n <=? 0) eqn:En; bool_to_prop.
  { intros [= <- <-]. by left. }
  destruct (entries m !! _) as [e|] eqn:Ee.
  { intros [= <- <-]. left. split; [done|]. by intros ? [= <-]. }
  destruct (balances m !! _) as [bal|] eqn:Eb.
  2:{ intros [= <- <-]. by left. }
  intros [= <- <-]. right. eexists bal, _. done.
Qed.

Lemma memory_available a c bal key e m :
  available_of a c
    (Memory.record_entry key (balanceKey a c) bal e m) = Some (AvailableMinor bal).
Proof.
  unfold available_of. cbn. unfold Memory.Balance, Memory.record_entry. cbn.
  by rewrite lookup_insert_eq.
Qed.

Lemma memory_wf_record key bkey bal e m :
  Memory.wf m -> 0 <= AvailableMinor bal <= int64_max ->
  Memory.wf (Memory.record_entry key bkey bal e m).
Proof.
  intros Hwf Hb k x. cbn. destruct (decide (k = bkey)) as [->|]; simplify_map_eq.
  - by intros [= <-].
  - apply Hwf.
Qed.

#[export] Instance memory_laws : RepositoryLaws MemoryRepository Memory.wf.
Proof.
  split.
  - intros t t' a b n n' c m e m' Hrun Hn'. cbn in *.
    assert (He : entries m' !! idempotencyKey a b EntryBetDebit = Some e).
    { apply memory_debit_inv in Hrun as [[-> He]|(bal & e' & _ & [= <-] & _ & _ & ->)];
        [by apply He|cbn; by rewrite lookup_insert_eq]. }
    unfold Memory.DebitForBet. rewrite (proj2 (Z.leb_gt _ _)) by lia. by rewrite He.
  - intros t t' a b n n' c m e m' Hrun Hn'. cbn in *.
    assert (He : entries m' !! idempotencyKey a b EntrySettlementCredit = Some e).
    { apply memory_credit_inv in Hrun as [[-> He]|(bal & e' & _ & [= <-] & _ & ->)];
        [by apply He|cbn; by rewrite lookup_insert_eq]. }
    unfold Memory.CreditSettlement. rewrite (proj2 (Z.leb_gt _ _)) by lia. by rewrite He.
  - intros t a b n c m e m' Hrun. cbn in *.
    by apply memory_debit_inv in Hrun as [[-> _]|(? & ? & _ & [=] & _)].
  - intros t a b n c m e m' Hrun. cbn in *.
    by apply memory_credit_inv in Hrun as [[-> _]|(? & ? & _ & [=] & _)].
  - intros t a b n c m e m' Hwf Hn Hrun. cbn in *.
    apply memory_debit_inv in Hrun as [[-> _]|(bal & e' & Hp & _ & Hbal & Hle & ->)];
      [split; [done|by left]|].
    assert (Hb := Hwf _ _ Hbal). rewrite exact_sub by lia.
    split; [apply memory_wf_record; [done|cbn; lia]|]. right. exists (AvailableMinor bal).
    rewrite memory_available. unfold available_of. cbn. unfold Memory.Balance. by rewrite Hbal.
  - intros t a b n c m e m' Hwf Hn Hrun Hmax. cbn in *.
    apply memory_credit_inv in Hrun as [[-> _]|(bal & e' & Hp & _ & Hbal & ->)];
      [split; [done|by left]|].
    assert (Hav : available_of a c m = Some (AvailableMinor bal)).
    { unfold available_of. cbn. unfold Memory.Balance. by rewrite Hbal. }
    assert (Hb := Hwf _ _ Hbal). specialize (Hmax _ Hav).
    rewrite wrap64_small by (unfold in_int64, int64_min; lia).
    split; [apply memory_wf_record; [done|cbn; lia]|]. right. exists (AvailableMinor bal).
    by rewrite memory_available.
Qed.

End memory_laws.

(** ** The PostgreSQL repository keeps the promises *)

Section postgres_laws.
Context `{Uuids}.

(** The outcome of [mutate]: an entry found, or one wallet moved by the delta
    and one entry booked. *)
Lemma mutate_inv t a b n c bt et d db e db' :
  Postgres.mutate t a b n c bt et d db = Ok (e, db') ->
  0 < n /\
  ((db' = db /\ Postgres.findEntry a b c bt et db = Ok (Some e, db)) \/
   exists id w w',
     find_row (is_wallet_of a c) (wallets db.(money)) = Some (id, w) /\
     0 <= (w_available w + d)%i64 /\
     w' = wallet_after w (fun _ => (w_available w + d)%i64) w_frozen t /\
     wallet_ok w' = true /\
     let li := entry (drawn db) id bt b et d (w_available w + d)%i64 in
     money db' = mk_Money (<[id := w']> (wallets db.(money)))
                   (ledger_row_of w' t li :: ledger db.(money)) /\
     e = mk_LedgerEntry (drawn db) a b et d c t).
Proof.
  unfold Postgres.mutate. intros Hrun.
  apply tx_bind_Ok in Hrun as (u & db0 & Hr & Hrun). apply reject_if_Ok in Hr as [Hn <-].
  bool_to_prop. split; [lia|].
  apply tx_bind_Ok in Hrun as (ex & db0 & Hf & Hrun).
  destruct ex as [e0|].
  { apply tx_ret_Ok in Hrun as [-> <-]. left. unfold Postgres.findEntry in Hf.
    pose proof Hf as Hf'. apply gets_Ok in Hf' as [_ <-]. done. }
  unfold Postgres.findEntry, find_wallet in *. tx_steps; try discriminate; wallet_rows.
  right. bool_to_prop. money_simpl. simplify_map_eq.
  eexists _, _, _. split; [done|]. split; [done|]. done.
Qed.

Lemma run_Ok {A} (m : Tx A) db a db' :
  Postgres.run m db = (Ok a, db') -> m db = Ok (a, db').
Proof. unfold Postgres.run. destruct (m db) as [[x y]|]; [by intros [= -> ->]|done]. Qed.

Lemma run_Err {A} (m : Tx A) db e db' : Postgres.run m db = (Err e, db') -> db' = db.
Proof. unfold Postgres.run. destruct (m db) as [[x y]|]; [done|by intros [= _ ->]]. Qed.

(** What a call returned, the same call finds again. *)
Lemma mutate_found t a b n c bt et d db e db' :
  Postgres.mutate t a b n c bt et d db = Ok (e, db') ->
  Postgres.findEntry a b c bt et db' = Ok (Some e, db').
Proof.
  intros (_ & [[-> Hf]|(id & w & w' & Hr & Hnn & -> & Hok & Hm & ->)])%mutate_inv; [done|].
  apply find_wallet_row in Hr as (Hw & Hu & Hc).
  unfold Postgres.findEntry, gets. rewrite Hm. cbn [ledger wallets List.find].
  unfold Postgres.entry_matches at 1. rewrite Hm. cbn [wallets le_wallet_id ledger_row_of entry li_wallet_id].
  rewrite lookup_insert_eq, (proj2 (is_wallet_of_iff _ _ _ _)) by done. cbn.
  rewrite !bool_decide_true by done. cbn. rewrite lookup_insert_eq. cbn. by rewrite Hu, Hc.
Qed.

Lemma mutate_again t a b n c bt et d db e :
  0 < n -> Postgres.findEntry a b c bt et db = Ok (Some e, db) ->
  Postgres.mutate t a b n c bt et d db = Ok (e, db).
Proof.
  intros Hn Hf. unfold Postgres.mutate. rewrite (proj2 (Z.leb_gt _ _)) by lia.
  unfold reject_if, mbind, Tx_bind, mret, Tx_ret in *. rewrite Hf. done.
Qed.

Lemma mutate_books t a b n c bt et d :
  (forall v, 0 <= v <= int64_max -> 0 <= (v + d)%i64 -> (v + d)%i64 = v + d) ->
  keeps_books (Postgres.mutate t a b n c bt et d).
Proof.
  intros Hd db e db' (_ & [[-> _]|(id & w & w' & Hr & Hnn & -> & Hok & Hm & _)])%mutate_inv Hb; [done|].
  apply find_wallet_row in Hr as (Hw & Hu & Hc). rewrite Hm.
  assert (Hx := Hd _ (proj1 (bounded_lookup _ _ _ Hb Hw)) Hnn).
  eapply books_post; try done; cbn; lia.
Qed.

Lemma postgres_available a c db id w :
  one_wallet db.(money) -> wallets db.(money) !! id = Some w ->
  w_user_id w = a -> w_currency w = c -> available_of a c db = Some (w_available w).
Proof.
  intros Hone Hw Hu Hc. unfold available_of. cbn. unfold Postgres.Balance.
  by rewrite (find_wallet_unique a c _ id w).
Qed.

Lemma mutate_effect t a b n c bt et d db e db' :
  books db.(money) ->
  (forall v, available_of a c db = Some v -> 0 <= (v + d)%i64 -> (v + d)%i64 = v + d) ->
  Postgres.mutate t a b n c bt et d db = Ok (e, db') ->
  books db'.(money) /\ 0 < n /\ (db' = db \/ exists v, available_of a c db = Some v /\ 0 <= v + d /\
    available_of a c db' = Some (v + d)).
Proof.
  intros Hb Hd (Hn & [[-> _]|(id & w & w' & Hr & Hnn & -> & Hok & Hm & _)])%mutate_inv;
    [split; [done|split; [done|by left]]|].
  apply find_wallet_row in Hr as (Hw & Hu & Hc).
  assert (Hav := postgres_available a c db id w (books_one_wallet _ Hb) Hw Hu Hc).
  assert (Hx := Hd _ Hav Hnn).
  assert (Hb' : books db'.(money)).
  { rewrite Hm. eapply books_post; try done; cbn; lia. }
  split; [done|split; [done|]]. right. exists (w_available w). split; [done|split; [lia|]]. rewrite <- Hx.
  change (w_available w + d)%i64 with
    (w_available (wallet_after w (fun _ => (w_available w + d)%i64) w_frozen t)).
  apply (postgres_available a c db' id); [apply Hb'| |done..].
  rewrite Hm. cbn. by rewrite lookup_insert_eq.
Qed.

Lemma debit_delta n v :
  0 < n <= int64_max -> 0 <= v <= int64_max ->
  (v + (- n)%i64)%i64 = v - n.
Proof. intros. rewrite exact_neg by lia. apply wrap64_small. unfold in_int64, int64_min, int64_max in *. lia. Qed.

Lemma available_bounded a c db v :
  books db.(money) -> available_of a c db = Some v -> 0 <= v <= int64_max.
Proof.
  unfold available_of. cbn. unfold Postgres.Balance. intros Hb.
  destruct (find_row _ _) as [[i w]|] eqn:E; [|done]. cbn. intros [= <-].
  apply find_wallet_row in E as (Hw & _). by apply (bounded_lookup _ _ _ Hb Hw).
Qed.

#[export] Instance postgres_laws : RepositoryLaws DB (fun db => books db.(money)).
Proof.
  split; cbn.
  - intros t t' a b n n' c db e db' Hrun%run_Ok Hn'. apply mutate_found in Hrun.
    unfold Postgres.DebitForBet, Postgres.run. by rewrite (mutate_again _ _ _ _ _ _ _ _ _ e).
  - intros t t' a b n n' c db e db' Hrun%run_Ok Hn'. apply mutate_found in Hrun.
    unfold Postgres.CreditSettlement, Postgres.run. by rewrite (mutate_again _ _ _ _ _ _ _ _ _ e).
  - by intros t a b n c db e db' ?%run_Err.
  - by intros t a b n c db e db' ?%run_Err.
  - intros t a b n c db e db' Hb Hn Hrun%run_Ok.
    assert (Hn0 : 0 < n) by (by apply mutate_inv in Hrun as [? _]).
    edestruct mutate_effect as (Hb' & _ & Heff); [exact Hb| |exact Hrun|].
    { intros v Hv _. rewrite debit_delta, exact_neg; [lia|lia|lia|].
      by apply (available_bounded a c db). }
    split; [done|]. destruct Heff as [->|(v & Hv & Hle & Hv')]; [by left|].
    rewrite exact_neg in * by lia. right. exists v. split; [done|]. split; [lia|exact Hv'].
  - intros t a b n c db e db' Hb Hn Hrun%run_Ok Hmax.
    assert (Hn0 : 0 < n) by (by apply mutate_inv in Hrun as [? _]).
    edestruct mutate_effect as (Hb' & _ & Heff); [exact Hb| |exact Hrun|].
    { intros v Hv _. apply wrap64_small. specialize (Hmax v Hv).
      pose proof (available_bounded a c db v Hb Hv). unfold in_int64, int64_min. lia. }
    split; [done|]. destruct Heff as [->|(v & Hv & Hle & Hv')]; [by left|].
    right. by exists v.
Qed.

End postgres_laws.
