(* ===== verification/Rebate.v ===== *)
(** * Agent rebates

    [application/rebate]: the differential rebate of a bet (calculation.go),
    the frozen ancestor chain (snapshot.go), its payment (payment.go) and the
    versioned room configuration (service.go). *)

From S2P Require Import Prelude GoStrings Json Schema Store Books Custody.

(** ** calculation.go *)

Definition rebate_ErrInvalid : error := Sentinel "rebate.ErrInvalid".

Record Ancestor : Type := mk_Ancestor {
  an_UserID : string;
  an_Level : Z;
  an_RatePerMille : Z;
  an_IsVirtual : bool
}.

Record Allocation : Type := mk_Allocation {
  al_Ancestor : Ancestor;
  al_BaseMinor : Z;
  al_DifferentialPerMille : Z;
  al_AmountMinor : Z
}.

#[export] Instance Ancestor_eq_dec : EqDecision Ancestor.
Proof. solve_decision. Defined.

Definition known_mode (mode : string) : bool :=
  bool_decide (mode ∈ ["road"; "guess"; "dodge"; "direct"; "up_down"; "left_right"; "odd_even"; "winner"]%string).

(** [base/1000*delta + base%1000*delta/1000]. *)
Definition differential_amount (base delta : Z) : Z :=
  (((base / 1000)%i64 * delta)%i64 + (((base rem 1000)%i64 * delta)%i64 / 1000)%i64)%i64.

Fixpoint calculate_loop (base level rate : Z) (chain : list Ancestor) (result : list Allocation)
    : res (list Allocation) :=
  match chain with
  | [] => Ok result
  | a :: rest =>
      fail_if ((an_Level a <? 0) || (6 <? an_Level a) || (an_RatePerMille a <? 0) ||
               (1000 <? an_RatePerMille a)) rebate_ErrInvalid;;
      if an_IsVirtual a || (an_Level a <=? level) || (an_RatePerMille a <=? rate)
      then calculate_loop base level rate rest result
      else
        let delta := (an_RatePerMille a - rate)%i64 in
        let amount := differential_amount base delta in
        calculate_loop base (an_Level a) (an_RatePerMille a) rest
          (if 0 <? amount then result ++ [mk_Allocation a base delta amount] else result)
  end.

Definition rebate_base (stake payout : Z) (mode : string) : Z :=
  if bool_decide (mode = "dodge"%string)
  then if stake <? payout then (payout - stake)%i64 else 0
  else stake.

Definition Calculate (stake payout : Z) (mode : string) (chain : list Ancestor)
    : res (list Allocation) :=
  fail_if ((stake <? 0) || (payout <? 0)) rebate_ErrInvalid;;
  fail_if (negb (known_mode mode)) rebate_ErrInvalid;;
  calculate_loop (rebate_base stake payout mode) 0 0 chain [].

(** ** snapshot.go *)

Definition ancestor_json (a : Ancestor) : json :=
  JObj [("user_id", JStr (an_UserID a)); ("level", JInt (an_Level a));
        ("rate_per_mille", JInt (an_RatePerMille a)); ("is_virtual", JBool (an_IsVirtual a))]%string.

Definition dec_ancestor : json -> option Ancestor :=
  dec_struct (fun k v a =>
    let '(mk_Ancestor u l r b) := a in
    if is_key "user_id" k then x ← dec_string u v; Some (mk_Ancestor x l r b)
    else if is_key "level" k then x ← dec_int64 l v; Some (mk_Ancestor u x r b)
    else if is_key "rate_per_mille" k then x ← dec_int64 r v; Some (mk_Ancestor u l x b)
    else if is_key "is_virtual" k then x ← dec_bool b v; Some (mk_Ancestor u l r x)
    else Some a) (mk_Ancestor "" 0 0 false).

Definition dec_ancestors (j : json) : option (list Ancestor) :=
  match j with JArr l => mapM dec_ancestor l | JNull => Some [] | _ => None end.

(** The recursive query: parents of parents, each joined with its user, until
    a user seen before.  [fuel] bounds the walk. *)
Fixpoint ancestor_walk (fuel : nat) (db : DB) (visited : list string) (user : string)
    : list (string * user_row) :=
  match fuel with
  | O => []
  | S fuel' =>
      match agent_relations db.(app) !! user ≫= al_parent_user_id with
      | None => []
      | Some parent =>
          if bool_decide (parent ∈ visited) then []
          else match users db.(app) !! parent with
          | None => []
          | Some u => (parent, u) :: ancestor_walk fuel' db (parent :: visited) parent
          end
      end
  end.

(** Every step visits another user, so the number of users is fuel enough. *)
Definition ancestor_chain (user : string) (db : DB) : list (string * user_row) :=
  ancestor_walk (size (users db.(app))) db [user] user.

Definition rate_of (rates : list Z) (level : Z) : Z :=
  if (0 <? level) && (level <=? Z.of_nat (length rates))
  then default 0 (rates !! Z.to_nat (level - 1)) else 0.

Definition ancestor_of (rates : list Z) (x : string * user_row) : Ancestor :=
  let level := default 0 (u_agent_level x.2) in
  mk_Ancestor x.1 level (rate_of rates level) (u_is_virtual x.2).

Definition is_room_config (room : string) (_ : string) (c : rebate_config_row) : bool :=
  bool_decide (rr_room_id c = room).

Definition with_rebate_version (v : Z) (b : bet_row) : bet_row :=
  mk_bet_row (bt_client_request_id b) (bt_round_id b) (bt_user_id b) (bt_wallet_id b)
    (bt_game_room_id b) (bt_play_mode b) (bt_selection b) (bt_stake_minor b) (bt_status b)
    (bt_payout_minor b) (bt_payout_multiplier_snapshot b) (bt_payout_divisor_snapshot b)
    (bt_is_simulated b) (bt_robot_plan_id b) (bt_merge_enabled b) (bt_placement_count b)
    (bt_last_placed_at b) (bt_created_at b) (bt_settled_at b)
    (bt_balance_after_settlement_minor b) v.

Section rebate.
Context `{Uuids}.

Definition SnapshotTx (betID : string) : Tx () :=
  o ← select_id (R := bet_row) betID;
  bet ← found ErrNoRows o;
  config ← (match bt_game_room_id bet with
            | Some room =>
                if bt_is_simulated bet then mret None
                else select_where (R := rebate_config_row) (is_room_config room)
            | None => mret None
            end);
  let enabled := from_option (fun c => rr_enabled c.2) false config in
  let rates := from_option (fun c => rr_rates c.2) [] config in
  chain ← gets (ancestor_chain (bt_user_id bet));
  let ancestors := if enabled then map (ancestor_of rates) chain else [] in
  insert_row (fun _ => false) betID
    (mk_snapshot_row (option_map fst config) (option_map (fun c => rr_version c.2) config) enabled
       (JArr (map ancestor_json ancestors)));;
  n ← update_row (R := bet_row) betID (with_rebate_version 2);
  mret ().

Definition LoadTx (betID : string) : Tx (list Ancestor) :=
  o ← select_id (R := snapshot_row) betID;
  s ← found ErrNoRows o;
  if bs_enabled s
  then lift (of_option (Sentinel "json.Unmarshal") (dec_ancestors (bs_ancestors s)))
  else mret [].

(** ** payment.go *)

Definition ErrBalanceOverflow : error := Sentinel "rebate.ErrBalanceOverflow".

Definition commission_of (betID user : string) (c : commission_row) : bool :=
  bool_decide (ce_source_bet_id c = betID) && bool_decide (ce_beneficiary_user_id c = user).

(** The CHECKs of [rebate_allocations]. *)
Definition allocation_ok (a : Allocation) : bool :=
  (0 <? al_BaseMinor a) && (1 <=? an_Level (al_Ancestor a)) && (an_Level (al_Ancestor a) <=? 6) &&
  (1 <=? al_DifferentialPerMille a) && (al_DifferentialPerMille a <=? 1000).

Definition PayTx (now : Z) (betID currency : string) (a : Allocation) : Tx () :=
  let user := an_UserID (al_Ancestor a) in
  o ← select_id (R := user_row) user;
  u ← found ErrNoRows o;
  if u_is_virtual u then mret ()
  else
    id ← new_uuid;
    fresh ← insert_unless (commission_of betID user) id
      (mk_commission_row betID user (al_AmountMinor a) currency "paid" (Some now));
    if fresh : bool then
      w ← find_wallet user currency;
      wallet ← found ErrNoRows w;
      let '(walletID, row) := wallet in
      reject_if ((al_AmountMinor a <=? 0) || ((int64_max - al_AmountMinor a)%i64 <? w_available row))
        ErrBalanceOverflow;;
      let balance := (w_available row + al_AmountMinor a)%i64 in
      update_wallet walletID (fun _ => balance) w_frozen now;;
      entryID ← new_uuid;
      insert_ledger (entry entryID walletID "commission" id "commission_credit" (al_AmountMinor a)
                       balance) now;;
      reject_if (negb (allocation_ok a)) (CheckViolation "rebate_allocations_check");;
      insert_row (fun r => bool_decide (ra_bet_id r = betID) &&
                           bool_decide (ra_beneficiary_user_id r = user)) id
        (mk_allocation_row betID user (al_BaseMinor a) (an_Level (al_Ancestor a))
           (al_DifferentialPerMille a))
    else mret ().

(** ** service.go *)

Definition rebate_ErrForbidden : error := Sentinel "rebate.ErrForbidden".
Definition rebate_ErrConflict : error := Sentinel "rebate.ErrConflict".
Definition rebate_ErrNotFound : error := Sentinel "rebate.ErrNotFound".

Record Level : Type := mk_Level {
  lv_Level : Z;
  lv_RatePerMille : Z
}.

Record ConfigUpdate : Type := mk_ConfigUpdate {
  cu_Version : Z;
  cu_Enabled : bool;
  cu_Levels : list Level
}.

(** [Config] is its row with its identifier. *)
Record Config : Type := mk_Config {
  cf_ID : string;
  cf_row : rebate_config_row
}.

(** Out-of-range writes do not occur: the level was checked just before. *)
Definition put_rate (rates : list Z) (l : Level) : list Z :=
  <[Z.to_nat (lv_Level l - 1) := lv_RatePerMille l]> rates.

Fixpoint check_levels (seen : list bool) (rates : list Z) (levels : list Level) : res (list Z) :=
  match levels with
  | [] => Ok rates
  | l :: rest =>
      fail_if ((lv_Level l <? 1) || (6 <? lv_Level l) || (lv_RatePerMille l <? 0) ||
               (1000 <? lv_RatePerMille l) ||
               default false (seen !! Z.to_nat (lv_Level l - 1))) rebate_ErrInvalid;;
      check_levels (<[Z.to_nat (lv_Level l - 1) := true]> seen) (put_rate rates l) rest
  end.

Fixpoint ascending (rates : list Z) : bool :=
  match rates with
  | a :: (b :: _) as rest => (a <=? b) && ascending rest
  | _ => true
  end.

Definition validateLevels (levels : list Level) : res () :=
  fail_if (negb (length levels =? 6)%nat) rebate_ErrInvalid;;
  rates ← check_levels (replicate 6 false) (replicate 6 0) levels;
  fail_if (negb (ascending rates)) rebate_ErrInvalid.

(** [uuid.Parse] of the google/uuid package. *)
Context (valid_uuid : string -> bool).

Definition config_json (c : Config) : json :=
  JObj [("id", JStr (cf_ID c)); ("enabled", JBool (rr_enabled (cf_row c)));
        ("version", JInt (rr_version (cf_row c))); ("levels", JArr (map JInt (rr_rates (cf_row c))))]%string.

Definition set_config (now : Z) (enabled : bool) (rates : list Z) (c : rebate_config_row)
    : rebate_config_row :=
  mk_rebate_config_row (rr_room_id c) enabled (rr_version c + 1) rates now.

Definition may_configure (actor : string) (db : DB) : bool :=
  match users db.(app) !! actor with
  | Some u => bool_decide (u_status u = "active"%string) &&
              existsb (fun r => bool_decide (r.1 = actor) &&
                                bool_decide (r.2 ∈ ["admin"; "operator"]%string)) (user_roles db.(app))
  | None => false
  end.

Definition UpdateConfig (now : Z) (actor id : string) (inp : ConfigUpdate) : Tx Config :=
  reject_if (negb (valid_uuid actor)) rebate_ErrForbidden;;
  reject_if (negb (valid_uuid id)) rebate_ErrNotFound;;
  reject_if ((cu_Version inp <? 1) || (cu_Version inp =? int64_max)) rebate_ErrInvalid;;
  lift (validateLevels (cu_Levels inp));;
  allowed ← gets (may_configure actor);
  reject_if (negb allowed) rebate_ErrForbidden;;
  o ← select_id (R := rebate_config_row) id;
  old ← found rebate_ErrNotFound o;
  reject_if (negb (rr_version old =? cu_Version inp)) rebate_ErrConflict;;
  let rates := foldl put_rate (replicate 6 0) (cu_Levels inp) in
  n ← update_row (R := rebate_config_row) id (set_config now (cu_Enabled inp) rates);
  let result := mk_Config id (set_config now (cu_Enabled inp) rates old) in
  insert_audit (mk_audit (Some actor) "rebate.config.update" "rebate_config" id None
    (JObj [("before", config_json (mk_Config id old)); ("after", config_json result)]%string));;
  mret result.

End rebate.
