(* ===== verification/Draws.v ===== *)
(** * Draws and winning

    [application/settlement]: the last digit of a block hash or a closing price
    (digit.go), the local, hash, price and external draws (results.go,
    tron_hash.go, okx_kline.go, lulu.go, composite.go), and which selections
    win (settle.go).  SHA-256 and the two fetched values are parameters. *)

From S2P Require Import Prelude GoStrings Json Game.

(** ** digit.go *)

Definition ErrNoDigitFound : error := Sentinel "settlement.ErrNoDigitFound".

Fixpoint last_digit_bytes (reversed : bytes) : res Z :=
  match reversed with
  | [] => Err ErrNoDigitFound
  | c :: rest => if is_digit c then Ok (digit_val c) else last_digit_bytes rest
  end.

Definition lastDigit (input : string) : res Z := last_digit_bytes (rev (s2b input)).

Inductive outcomeShape : Type := shapeDigit | shapeBigSmall | shapeDodge | shapeOddEven.

Definition single_digit (outcome : string) : bool :=
  match s2b outcome with [c] => is_digit c | _ => false end.

Definition detectShape (outcomes : list string) (dodgeMode : bool) : outcomeShape :=
  if dodgeMode then shapeDodge
  else if existsb (fun o => bool_decide (o = "big"%string)) outcomes then shapeBigSmall
  else if existsb single_digit outcomes then shapeDigit
  else shapeOddEven.

Definition bigSmallOutcome (digit : Z) : list string :=
  [if (5 <=? digit)%Z then "big" else "small"; if (Z.rem digit 2 =? 1)%Z then "odd" else "even"]%string.

Definition oddEvenOutcome (digit : Z) : list string :=
  if Z.rem digit 2 =? 1 then ["odd"%string] else ["even"%string].

Definition mapOutcome (digit : Z) (shape : outcomeShape) : list string :=
  match shape with
  | shapeDigit => [FormatInt digit]
  | shapeBigSmall => bigSmallOutcome digit
  | shapeDodge => [dodge (FormatInt digit)]
  | shapeOddEven => oddEvenOutcome digit
  end.

Definition sharedHashOutcome (digit : Z) : list string :=
  [FormatInt digit; if (5 <=? digit)%Z then "big" else "small";
   if (Z.rem digit 2 =? 1)%Z then "odd" else "even"]%string.

(** [strings.EqualFold], for the ASCII outcomes of the hash games. *)
Definition EqualFold (s t : string) : bool := bool_decide (fold_name (s2b s) = fold_name (s2b t)).

Definition containsOutcome (outcomes : list string) (target : string) : bool :=
  existsb (fun o => EqualFold o target) outcomes.

(** ** results.go *)

Definition delete_nth {A} (n : nat) (l : list A) : list A := take n l ++ drop (S n) l.

(** [binary.BigEndian.Uint64]. *)
Definition big_endian (b : bytes) : Z := fold_left (fun acc c => acc * 256 + code c) b 0.

Fixpoint draw_loop (seed : bytes) (index count : nat) (pool drawn : list string) : list string :=
  match count with
  | O => drawn
  | S count' =>
      let offset := ((index * 8) mod 24)%nat in
      let roll := big_endian (take 8 (drop offset seed)) in
      let pick := Z.to_nat (roll mod Z.of_nat (length pool)) in
      draw_loop seed (S index) count' (delete_nth pick pool)
        (drawn ++ [nth pick pool ""%string])
  end.

Section draws.
Context (sha256 : bytes -> bytes).

Definition seed_text (round : Round) : bytes :=
  s2b (r_GameType round) ++ [byte_at 58] ++ format_int (r_Sequence round) ++ [byte_at 58] ++
  s2b (r_RoundID round).

Definition hash_Outcome (round : Round) (rules : Rules) : res (list string) :=
  Validate rules;;
  Ok (draw_loop (sha256 (seed_text round)) 0 (Z.to_nat (DrawCount rules)) (Outcomes rules) []).

(** ** tron_hash.go, okx_kline.go, lulu.go, composite.go *)

Definition ErrBlockNotFound : error := Sentinel "settlement.ErrBlockNotFound".
Definition ErrRateLimited : error := Sentinel "settlement.ErrRateLimited".

Record tronExtras : Type := mk_tronExtras {
  te_BlockInterval : Z;
  te_HashShared : bool
}.

Definition dec_tronExtras (data : json) : option tronExtras :=
  dec_struct (fun k v e =>
    let '(mk_tronExtras i s) := e in
    if is_key "block_interval" k then x ← dec_int64 i v; Some (mk_tronExtras x s)
    else if is_key "hash_shared" k then x ← dec_bool s v; Some (mk_tronExtras i x)
    else Some e) (mk_tronExtras 0 false) data.

(** The block hash at a height, fetched over JSON-RPC or gRPC. *)
Context (fetchBlockHash : Z -> res string).

Definition tron_Outcome (round : Round) (rules : Rules) : res (list string) :=
  extras ← match Extras rules with
           | None => Ok (mk_tronExtras 0 false)
           | Some j => of_option (Sentinel "parse tron extras") (dec_tronExtras j)
           end;
  fail_if (te_BlockInterval extras <=? 0) (Sentinel "tron_hash: positive block_interval is required");;
  fail_if (r_Sequence round <=? 0) (Sentinel "tron_hash: target block height is required");;
  hash ← fetchBlockHash (r_Sequence round);
  digit ← lastDigit hash;
  if te_HashShared extras then Ok (sharedHashOutcome digit)
  else Ok (mapOutcome digit (detectShape (Outcomes rules) (DodgeMode rules))).

(** The closing price of one minute, from the stream or over REST. *)
Context (closePrice : string -> Z -> res string).

(** [time.Time{}], in nanoseconds since 1970. *)
Definition zero_time : Z := -62135596800000000000.

Definition minute_ns : Z := 60000000000.

Definition target_minute (round : Round) : Z :=
  let resultAt := if r_ResultAt round =? zero_time
    then r_BetClosesAt round + 3000000000 else r_ResultAt round in
  resultAt - resultAt mod minute_ns - minute_ns.

Definition outcomeFromClose (closePrice : string) (rules : Rules) : res (list string) :=
  digit ← lastDigit closePrice;
  Ok (mapOutcome digit (detectShape (Outcomes rules) (DodgeMode rules))).

Definition okx_Outcome (round : Round) (rules : Rules) : res (list string) :=
  symbol ← match Extras rules with
           | None => Ok ""%string
           | Some j => of_option (Sentinel "parse okx extras") (dec_string_field "symbol" (Some j))
           end;
  fail_if (bool_decide (symbol = ""%string)) (Sentinel "okx_kline: symbol is required in extras");;
  price ← closePrice symbol (target_minute round);
  outcomeFromClose price rules.

(** The outcomes the drawn rooms map to, each once, in order. *)
Definition add_new (acc : list string) (mapped : string) : list string :=
  if bool_decide (mapped ∈ acc) then acc else acc ++ [mapped].

Definition dec_mapping (data : raw) : option (bool * gmap string (list string)) :=
  j ← data; dec_struct (fun k v e =>
    if is_key "lulu_shared" k then s ← dec_bool e.1 v; Some (s, e.2)
    else if is_key "result_map" k then m ← dec_result_map e.2 v; Some (e.1, m)
    else Some e) (false, ∅) j.

Definition luluOutcomeForRules (rules : Rules) (values : list string) : res (list string) :=
  extras ← of_option ErrInvalidRules (dec_mapping (Extras rules));
  let '(shared, result_map) := extras in
  if shared : bool then Ok values
  else
    let outcome := foldl add_new [] (concat (map (fun v => default [] (result_map !! v)) values)) in
    fail_if (bool_decide (outcome = [])) ErrInvalidRules;;
    Ok outcome.

(** The confirmed draw of an external round: [outcome] of
    [external_draw_rounds], when there is one. *)
Context (confirmed_draw : string -> Z -> option raw).

Definition lulu_Outcome (round : Round) (rules : Rules) : res (list string) :=
  Validate rules;;
  fail_if (negb (bool_decide (Source rules = "lulu_ws"%string))) ErrInvalidRules;;
  game ← of_option ErrInvalidRules (dec_string_field "external_game" (Extras rules));
  data ← of_option ErrBlockNotFound (confirmed_draw game (r_Sequence round));
  values ← of_option (Sentinel "decode lulu outcome") (j ← data; dec_strings [] j);
  fail_if (bool_decide (values = [])) (Sentinel "decode lulu outcome");;
  luluOutcomeForRules rules values.

Definition composite_Outcome (round : Round) (rules : Rules) : res (list string) :=
  if bool_decide (Source rules = "lulu_ws"%string) then lulu_Outcome round rules
  else if bool_decide (Source rules = "tron_hash"%string) then tron_Outcome round rules
  else if bool_decide (Source rules = "okx_kline"%string) then okx_Outcome round rules
  else hash_Outcome round rules.

End draws.

(** ** Winning selections (settle.go) *)

Definition winning_digit (outcome : list string) : string :=
  default ""%string (List.find single_digit outcome).

Definition hashSelectionWins (mode : string) (selection : raw) (outcome : list string) : bool :=
  match pick_of selection with
  | None => false
  | Some pick =>
      let digit := winning_digit outcome in
      if bool_decide (mode = "guess"%string)
      then negb (bool_decide (digit = ""%string)) && bool_decide (pick = digit)
      else if bool_decide (mode = "dodge"%string)
      then negb (bool_decide (digit = ""%string)) && negb (bool_decide (pick = digit))
      else if bool_decide (mode = "road"%string) then containsOutcome outcome pick
      else false
  end.

Definition sharedLuluRules (rules : Rules) : bool :=
  bool_decide (Source rules = "lulu_ws"%string) &&
  default false (dec_bool_field "lulu_shared" (Extras rules)).

Definition hour_ns : Z := 3600000000000.

(** [t.In(UTC+8).Hour()]. *)
Definition shanghai_hour (t : Z) : Z := ((t + 8 * hour_ns) / hour_ns) mod 24.

Definition luluPrimeTimeOddEven (rules : Rules) (mode : string) (placedAt : Z) : bool :=
  if negb (bool_decide (mode = "odd_even"%string)) || (placedAt =? zero_time) then false
  else
    match dec_string_field "external_game" (Extras rules) with
    | None => false
    | Some g => bool_decide (g = "xdy"%string) && (shanghai_hour placedAt =? 20)
    end.

Definition prime_multipliers : list Z := [0; 112; 130; 150; 160; 245; 380; 750].

Definition luluPrimeTimeDodgeOdds (rules : Rules) (mode : string) (placedAt : Z)
    (outcome : list string) : option (Z * Z) :=
  if negb (bool_decide (mode = "dodge"%string)) then None
  else if negb (luluPrimeTimeOddEven rules "odd_even" placedAt) then None
  else
    let killedRooms := length outcome in
    if (killedRooms <? 1)%nat || (7 <? killedRooms)%nat then None
    else m ← prime_multipliers !! killedRooms; Some (m, 100).

Definition selectionWins (rules : Rules) (luluPlays : gmap string LuluPlay) (mode : string)
    (selection : raw) (placedAt : Z) (outcome : list string) : res bool :=
  if sharedLuluRules rules then
    if luluPrimeTimeOddEven rules mode placedAt then
      pick ← of_option ErrInvalidRules (dec_string_field "pick" selection);
      fail_if (negb (bool_decide (pick = "odd"%string)) && negb (bool_decide (pick = "even"%string)))
        ErrInvalidRules;;
      let odd := Nat.odd (length outcome) in
      Ok ((odd && bool_decide (pick = "odd"%string)) ||
          (negb odd && bool_decide (pick = "even"%string)))
    else
      play ← of_option ErrInvalidRules (luluPlays !! mode);
      Ok (lulu_SelectionWins play selection outcome)
  else if negb (bool_decide (mode = ""%string)) then Ok (hashSelectionWins mode selection outcome)
  else Ok (SelectionWins rules selection outcome).

Definition containsEmpty (values : list string) : bool :=
  existsb (fun v => bool_decide (v = ""%string)) values.

Definition sameStrings (left right : list string) : bool := bool_decide (left = right).

Definition withinPool (outcome pool : list string) : bool :=
  forallb (fun v => bool_decide (v ∈ pool)) outcome.

(** ** Drawing without replacement *)

Lemma delete_nth_spec {A} n (l : list A) x :
  l !! n = Some x -> l ≡ₚ x :: delete_nth n l.
Proof.
  intros Hx. unfold delete_nth. rewrite <- (take_drop_middle l n x Hx) at 1.
  by rewrite Permutation_middle.
Qed.

Lemma draw_loop_spec seed count : forall index pool drawn,
  (count <= length pool)%nat ->
  exists new, draw_loop seed index count pool drawn = drawn ++ new /\
    length new = count /\ new ⊆+ pool.
Proof.
  induction count as [|count IH]; intros index pool drawn Hlen; cbn [draw_loop].
  { exists []. split; [by rewrite app_nil_r|split; [done|apply submseteq_nil_l]]. }
  set (pick := Z.to_nat _).
  assert (Hpick : (pick < length pool)%nat).
  { unfold pick. pose proof (Z.mod_pos_bound (big_endian (take 8 (drop ((index * 8) mod 24) seed)))
      (Z.of_nat (length pool)) ltac:(lia)). lia. }
  destruct (lookup_lt_is_Some_2 _ _ Hpick) as [x Hx].
  rewrite (nth_lookup_Some _ _ _ _ Hx). pose proof (delete_nth_spec _ _ _ Hx) as Hperm.
  destruct (IH (S index) (delete_nth pick pool) (drawn ++ [x])) as (new & -> & Hn & Hsub).
  { apply Permutation_length in Hperm. cbn in Hperm. lia. }
  exists (x :: new). rewrite <- app_assoc. split; [done|split; [cbn; lia|]].
  rewrite Hperm. by apply submseteq_skip.
Qed.

Definition pick_json (pick : string) : raw := Some (JObj [("pick"%string, JStr pick)]).

(** One bet of each kind against the draw of one digit. *)
Definition odds_ok (d k : Z) : bool :=
  let out := sharedHashOutcome d in
  let wins mode p := hashSelectionWins mode (pick_json p) out in
  Bool.eqb (wins "guess" (FormatInt k)) (k =? d)%Z &&
  Bool.eqb (wins "dodge" (FormatInt k)) (negb (k =? d)%Z) &&
  Bool.eqb (wins "road" "big") (5 <=? d)%Z && Bool.eqb (wins "road" "small") (d <? 5)%Z &&
  Bool.eqb (wins "road" "odd") (Z.odd d) && Bool.eqb (wins "road" "even") (Z.even d).

Lemma odds_table :
  forallb (fun d => forallb (odds_ok (Z.of_nat d)) (map Z.of_nat (seq 0 10))) (seq 0 10) = true.
Proof. vm_compute. reflexivity. Qed.

Lemma odds_all d k : 0 <= d <= 9 -> 0 <= k <= 9 -> odds_ok d k = true.
Proof.
  intros Hd Hk. pose proof odds_table as Ht. rewrite forallb_forall in Ht.
  specialize (Ht (Z.to_nat d)). rewrite Z2Nat.id in Ht by lia.
  assert (Hin : In (Z.to_nat d) (seq 0 10)) by (apply in_seq; lia).
  specialize (Ht Hin). rewrite forallb_forall in Ht. apply Ht, in_map_iff.
  exists (Z.to_nat k). split; [lia|apply in_seq; lia].
Qed.

Lemma last_digit_bytes_spec l d :
  last_digit_bytes l = Ok d <-> exists pre c post, l = pre ++ c :: post /\
    forallb (fun x => negb (is_digit x)) pre = true /\ is_digit c = true /\ d = digit_val c.
Proof.
  induction l as [|c l IH]; cbn [last_digit_bytes].
  { split; [done|]. intros (pre & c & post & Hl & _). by destruct pre. }
  destruct (is_digit c) eqn:E.
  - split; [intros [= <-]; by exists [], c, l|].
    intros ([|x pre] & c' & post & [= <- Hl] & Hpre & Hc & ->); [done|].
    cbn in Hpre. by rewrite E in Hpre.
  - rewrite IH. split; intros (pre & c' & post & Hl & Hpre & Hc & Hd).
    + exists (c :: pre), c', post. subst. cbn. by rewrite E.
    + destruct pre as [|x pre]; injection Hl as -> Hl; [congruence|].
      cbn in Hpre. apply andb_prop in Hpre as [_ Hpre]. by exists pre, c', post.
Qed.

Lemma is_digit_range c : is_digit c = true -> 0 <= digit_val c <= 9.
Proof. unfold is_digit, digit_val. rewrite andb_true_iff, !Z.leb_le. lia. Qed.

(** ** Properties *)

(** The local draw always yields an outcome that settlement accepts:
    exactly as many values as the rules ask for, different from each other, all
    from the pool, none empty. *)
Theorem hash_draw_valid sha256 round rules out :
  hash_Outcome sha256 round rules = Ok out ->
  Z.of_nat (length out) = DrawCount rules /\ NoDup out /\
  out <> [] /\ containsEmpty out = false /\ withinPool out (Outcomes rules) = true.
Proof.
  unfold hash_Outcome. intros ([] & Hv & [= <-])%res_bind_Ok.
  apply Validate_sound in Hv as [(Hne & Hnd & Hemp) _ _ Hc _].
  assert (Hcount : 1 <= DrawCount rules <= Z.of_nat (length (Outcomes rules))).
  { unfold DrawCount. destruct (_ <=? 0) eqn:E; bool_to_prop; [|lia].
    destruct (Outcomes rules); [done|]. cbn. lia. }
  destruct (draw_loop_spec (sha256 (seed_text round)) (Z.to_nat (DrawCount rules)) 0 (Outcomes rules) [])
    as (new & -> & Hlen & Hsub); [lia|]. rewrite app_nil_l.
  assert (Hin : forall o, o ∈ new -> o ∈ Outcomes rules) by (intros o Ho; by eapply elem_of_submseteq).
  split; [lia|split; [|split; [|split]]].
  - apply submseteq_Permutation in Hsub as [k Hp]. rewrite Hp in Hnd. by apply NoDup_app in Hnd as [? _].
  - intros ->. cbn in Hlen. lia.
  - apply not_true_is_false. intros (o & Ho & He)%existsb_exists. apply bool_decide_eq_true in He. subst o.
    apply Hemp, Hin. by apply list_elem_of_In.
  - apply forallb_forall. intros o Ho. apply bool_decide_eq_true, Hin. by apply list_elem_of_In.
Qed.

(** The odds of the shared hash games: for every drawn digit and every
    pick, a guess wins on its digit only, a dodge on the nine others, big from
    five up, small below, odd and even by parity, so that of two opposite road
    picks exactly one wins. *)
Theorem shared_hash_odds d k :
  0 <= d <= 9 -> 0 <= k <= 9 ->
  let out := sharedHashOutcome d in
  let wins mode p := hashSelectionWins mode (pick_json p) out in
  (wins "guess" (FormatInt k) = true <-> k = d) /\ (wins "dodge" (FormatInt k) = true <-> k <> d) /\
  (wins "road" "big" = true <-> 5 <= d) /\ wins "road" "small" = negb (wins "road" "big") /\
  (wins "road" "odd" = true <-> Z.Odd d) /\ wins "road" "even" = negb (wins "road" "odd").
Proof.
  intros Hd Hk out wins. pose proof (odds_all d k Hd Hk) as Hok. unfold odds_ok in Hok.
  fold out in Hok. change (fun mode p => hashSelectionWins mode (pick_json p) out) with wins in Hok.
  cbv zeta in Hok. rewrite !andb_true_iff, !eqb_true_iff in Hok.
  destruct Hok as (((((Hg & Hdg) & Hb) & Hs) & Ho) & He).
  unfold wins in *. rewrite Hg, Hdg, Hb, Hs, Ho, He, negb_true_iff, Z.eqb_eq, Z.eqb_neq, Z.leb_le, Z.odd_spec.
  split; [done|split; [done|split; [done|split; [|split; [done|]]]]].
  - rewrite Z.ltb_antisym. done.
  - by rewrite <- Z.negb_odd.
Qed.

(** The drawn digit is the last decimal digit of the hash or the price,
    whatever follows it, and there is an error exactly when there is none. *)
Theorem lastDigit_last s :
  (forall d, lastDigit s = Ok d <-> exists pre c post, s2b s = pre ++ c :: post /\
     is_digit c = true /\ forallb (fun x => negb (is_digit x)) post = true /\ d = digit_val c) /\
  (forall d, lastDigit s = Ok d -> 0 <= d <= 9).
Proof.
  assert (Hspec : forall d, lastDigit s = Ok d <-> exists pre c post, s2b s = pre ++ c :: post /\
     is_digit c = true /\ forallb (fun x => negb (is_digit x)) post = true /\ d = digit_val c).
  { intros d. unfold lastDigit. rewrite last_digit_bytes_spec.
    split; intros (pre & c & post & Hl & H1 & H2 & H3).
    - exists (rev post), c, (rev pre). rewrite <- (rev_involutive (s2b s)), Hl, rev_app_distr. cbn.
      rewrite <- app_assoc. split; [done|split; [done|split; [|done]]].
      rewrite forallb_forall in *. intros x Hx. by apply H1, in_rev.
    - exists (rev post), c, (rev pre). rewrite Hl, rev_app_distr. cbn.
      rewrite <- app_assoc. split; [done|split; [|done]].
      rewrite forallb_forall in *. intros x Hx. by apply H2, in_rev. }
  split; [done|]. intros d (pre & c & post & _ & Hc & _ & ->)%Hspec. by apply is_digit_range.
Qed.

(** ** Witnesses *)

Definition dice : Rules := mk_Rules ["1"; "2"; "3"; "4"; "5"; "6"]%string 2 0 ∅ "" 3 "" None false.

Lemma hash_draw_valid_witness :
  exists out, hash_Outcome (fun b => rev b) (mk_Round "r" "dice" 7 RoundClosed 0 0 None []) dice = Ok out /\
    length out = 3%nat /\ NoDup out /\ withinPool out (Outcomes dice) = true.
Proof.
  destruct (succeeds_Ok (fun _ => true) (hash_Outcome (fun b => rev b)
    (mk_Round "r" "dice" 7 RoundClosed 0 0 None []) dice)) as (out & Hrun & _); [vm_compute; reflexivity|].
  exists out. split; [exact Hrun|].
  destruct (hash_draw_valid _ _ _ _ Hrun) as (Hlen & Hnd & _ & _ & Hin).
  split; [apply Nat2Z.inj; exact Hlen|split; [exact Hnd|exact Hin]].
Defined.

Lemma shared_hash_odds_witness :
  hashSelectionWins "dodge" (pick_json "3") (sharedHashOutcome 8) = true /\
  hashSelectionWins "road" (pick_json "small") (sharedHashOutcome 8) = false.
Proof.
  destruct (shared_hash_odds 8 3) as (_ & Hdodge & Hbig & Hsmall & _); [lia|lia|].
  split; [apply Hdodge; lia|]. change (FormatInt 3) with "3"%string in *.
  rewrite Hsmall. rewrite (proj2 Hbig); [reflexivity|lia].
Defined.
