(* ===== verification/Settlement.v ===== *)
(** * Settlement

    [application/settlement]: settling a round (settle.go) with the payouts,
    the legacy agent commission (commission.go) and the frozen rebates,
    cancelling a round (refund.go), and the settlement job (settle_due.go).
    The task hook is an argument. *)

From S2P Require Import Prelude GoStrings Json Game Schema Store Books Custody Wallet Rebate Draws.

Definition ErrInvalidOutcome : error := Sentinel "settlement.ErrInvalidOutcome".
Definition ErrOutcomeOutsidePool : error := Sentinel "settlement.ErrOutcomeOutsidePool".
Definition ErrPayoutOverflow : error := Sentinel "settlement.ErrPayoutOverflow".
Definition ErrSettlementOutcomeMismatch : error := Sentinel "settlement.ErrSettlementOutcomeMismatch".

Record SettlementResult : Type := mk_SettlementResult {
  sr_RoundID : string;
  sr_Outcome : list string;
  sr_WonBetCount : Z;
  sr_LostBetCount : Z;
  sr_PayoutMinor : Z;
  sr_SettledAt : Z
}.

(** ** The accepted bets of a round, ORDER BY wallet_id, id *)

Record acceptedBet : Type := mk_acceptedBet {
  ab_id : string;
  ab_row : bet_row;
  ab_currency : string
}.

Definition bet_before (x y : acceptedBet) : Prop :=
  String.ltb (bt_wallet_id (ab_row x)) (bt_wallet_id (ab_row y)) ||
  bool_decide (bt_wallet_id (ab_row x) = bt_wallet_id (ab_row y)) && String.leb (ab_id x) (ab_id y) = true.

#[export] Instance bet_before_dec x y : Decision (bet_before x y) := bool_eq_dec _ _.

Definition is_accepted (roundID : string) (b : bet_row) : bool :=
  bool_decide (bt_round_id b = roundID) && bool_decide (bt_status b = "accepted"%string).

Definition accepted_bets (roundID : string) (db : DB) : list acceptedBet :=
  merge_sort bet_before (omap (fun kv : string * bet_row =>
    if is_accepted roundID kv.2
    then w ← wallets db.(money) !! bt_wallet_id kv.2; Some (mk_acceptedBet kv.1 kv.2 (w_currency w))
    else None) (map_to_list (bets db.(app)))).

Definition play_mode_of (b : bet_row) : string := default ""%string (bt_play_mode b).

(** ** The odds of a bet *)

Definition odds_of (rules : Rules) (b : bet_row) (outcome : list string) : Z * Z :=
  match luluPrimeTimeDodgeOdds rules (play_mode_of b) (bt_created_at b) outcome with
  | Some odds => odds
  | None =>
      match bt_payout_multiplier_snapshot b, bt_payout_divisor_snapshot b with
      | Some m, Some d => (m, d)
      | _, _ => (PayoutMultiplier rules, PayoutScale rules)
      end
  end.

Definition payout_of (rules : Rules) (b : bet_row) (outcome : list string) : res Z :=
  let '(m, d) := odds_of rules b outcome in
  fail_if ((m <=? 0) || (d <=? 0) || ((int64_max / m)%i64 <? bt_stake_minor b)) ErrPayoutOverflow;;
  Ok ((bt_stake_minor b * m)%i64 / d)%i64.

Definition bet_wins (rules : Rules) (plays : gmap string LuluPlay) (b : bet_row)
    (outcome : list string) : res bool :=
  selectionWins rules plays (play_mode_of b) (Some (bt_selection b)) (bt_created_at b) outcome.

(** ** commission.go *)

Definition calculateCommission (stake rateBasisPoints : Z) : Z :=
  (((stake / 10000)%i64 * rateBasisPoints)%i64 +
   (((stake rem 10000)%i64 * rateBasisPoints)%i64 / 10000)%i64)%i64.

Section settlement.
Context `{Uuids}.

(** The agent's wallet, opened when there is none. *)
Definition commission_wallet (now : Z) (agentID currency : string) : Tx (string * Z) :=
  w ← find_wallet agentID currency;
  match w with
  | Some (walletID, row) => mret (walletID, w_available row)
  | None =>
      walletID ← new_uuid;
      made ← insert_wallet walletID agentID currency now;
      reject_if (negb made) (UniqueViolation "wallets_user_currency");;
      mret (walletID, 0)
  end.

Definition applyCommission (now : Z) (betID agentID currency : string) (stake : Z) : Tx () :=
  if bool_decide (agentID = ""%string) then mret ()
  else
    r ← select_id (R := agent_rate_row) agentID;
    let rate := from_option ar_rate_basis_points 0 r in
    if rate =? 0 then mret ()
    else
      let amount := calculateCommission stake rate in
      if amount <=? 0 then mret ()
      else
        id ← new_uuid;
        fresh ← insert_unless (commission_of betID agentID) id
          (mk_commission_row betID agentID amount currency "paid" (Some now));
        if fresh : bool then
          wallet ← commission_wallet now agentID currency;
          let '(walletID, balance) := wallet in
          reject_if ((int64_max - amount)%i64 <? balance) ErrPayoutOverflow;;
          let balance := (balance + amount)%i64 in
          update_wallet walletID (fun _ => balance) w_frozen now;;
          entryID ← new_uuid;
          insert_ledger (entry entryID walletID "commission" id "commission_credit" amount balance) now
        else mret ().

(** ** settle.go *)

(** [ValidBetTaskHook.OnBetSettled], when the service has one. *)
Context (taskHook : option (string -> string -> Z -> Z -> Tx ())).

Definition load_play (p : lulu_play_row) : res LuluPlay :=
  outcomes ← of_option ErrInvalidRules (dec_strings [] (lp_outcomes p));
  mapping ← of_option ErrInvalidRules (dec_result_map ∅ (lp_result_map p));
  Ok (mk_LuluPlay (lp_code p) outcomes mapping (lp_dodge_mode p)).

Fixpoint load_plays (rows : list lulu_play_row) (plays : gmap string LuluPlay)
    : res (gmap string LuluPlay) :=
  match rows with
  | [] => Ok plays
  | p :: rest => play ← load_play p; load_plays rest (<[lp_code p := play]> plays)
  end.

Definition loadLuluPlaysTx (roundID : string) : Tx (gmap string LuluPlay) := fun db =>
  let of_round p := match rounds db.(app) !! roundID with
    | Some r => bool_decide (lp_game_type_id p = rd_game_type_id r) && lp_enabled p
    | None => false end in
  lift (load_plays (List.filter of_round (lulu_play_configs db.(app))) ∅) db.

(** What is gathered about a bet before the wallets are locked. *)
Record prepared : Type := mk_prepared {
  pb_bet : acceptedBet;
  pb_legacyAgentID : string;
  pb_allocations : list Allocation
}.

Definition parent_agent (user : string) (db : DB) : option string :=
  agent_relations db.(app) !! user ≫= al_parent_user_id.

Definition prepare (rules : Rules) (plays : gmap string LuluPlay) (outcome : list string)
    (b : acceptedBet) : Tx prepared :=
  let row := ab_row b in
  if bt_is_simulated row then mret (mk_prepared b "" [])
  else if bt_rebate_version row =? 1 then
    parent ← gets (parent_agent (bt_user_id row));
    mret (mk_prepared b (default ""%string parent) [])
  else
    chain ← LoadTx (ab_id b);
    won ← lift (bet_wins rules plays row outcome);
    payout ← lift (if won : bool then payout_of rules row outcome else Ok 0);
    allocations ← lift (Calculate (bt_stake_minor row) payout (play_mode_of row) chain);
    mret (mk_prepared b "" allocations).

Fixpoint prepare_all (rules : Rules) (plays : gmap string LuluPlay) (outcome : list string)
    (bs : list acceptedBet) : Tx (list prepared) :=
  match bs with
  | [] => mret []
  | b :: rest =>
      p ← prepare rules plays outcome b;
      ps ← prepare_all rules plays outcome rest;
      mret (p :: ps)
  end.

Definition recipients_of (p : prepared) : list (string * string) :=
  let currency := ab_currency (pb_bet p) in
  (if bool_decide (pb_legacyAgentID p = ""%string) then [] else [(pb_legacyAgentID p, currency)]) ++
  map (fun a => (an_UserID (al_Ancestor a), currency)) (pb_allocations p).

Definition recipient_before (x y : string * string) : Prop :=
  String.ltb x.1 y.1 || bool_decide (x.1 = y.1) && String.leb x.2 y.2 = true.

#[local] Instance recipient_before_dec x y : Decision (recipient_before x y) := bool_eq_dec _ _.

Fixpoint ensure_wallets (now : Z) (recipients : list (string * string)) : Tx () :=
  match recipients with
  | [] => mret ()
  | (user, currency) :: rest =>
      w ← find_wallet user currency;
      (match w with
       | Some _ => mret ()
       | None => id ← new_uuid; made ← insert_wallet id user currency now; mret ()
       end);;
      ensure_wallets now rest
  end.

Fixpoint pay_all (now : Z) (betID currency : string) (allocations : list Allocation) : Tx () :=
  match allocations with
  | [] => mret ()
  | a :: rest => PayTx now betID currency a;; pay_all now betID currency rest
  end.

Definition set_settled (status : string) (payout settledAt balance : Z) (b : bet_row) : bet_row :=
  mk_bet_row (bt_client_request_id b) (bt_round_id b) (bt_user_id b) (bt_wallet_id b)
    (bt_game_room_id b) (bt_play_mode b) (bt_selection b) (bt_stake_minor b) status payout
    (bt_payout_multiplier_snapshot b) (bt_payout_divisor_snapshot b) (bt_is_simulated b)
    (bt_robot_plan_id b) (bt_merge_enabled b) (bt_placement_count b) (bt_last_placed_at b)
    (bt_created_at b) (Some settledAt) (Some balance) (bt_rebate_version b).

Definition update_bet (id : string) (f : bet_row -> bet_row) : Tx () :=
  n ← update_row (R := bet_row) id f;
  mret ().

(** The agents of a bet are paid first. *)
Definition pay_agents (t : clock) (p : prepared) : Tx () :=
  let row := ab_row (pb_bet p) in
  if bt_is_simulated row then mret ()
  else if bt_rebate_version row =? 1 then
    applyCommission (sql_now t) (ab_id (pb_bet p)) (pb_legacyAgentID p) (ab_currency (pb_bet p))
      (bt_stake_minor row)
  else if bt_rebate_version row =? 2 then
    pay_all (sql_now t) (ab_id (pb_bet p)) (ab_currency (pb_bet p)) (pb_allocations p)
  else mret ().

Definition count_task (p : prepared) : Tx () :=
  let row := ab_row (pb_bet p) in
  match taskHook with
  | Some hook =>
      if negb (bt_is_simulated row) && negb (bool_decide (play_mode_of row = "dodge"%string))
      then hook (bt_user_id row) (ab_currency (pb_bet p)) (bt_stake_minor row) (bt_created_at row)
      else mret ()
  | None => mret ()
  end.

Definition add_won (payout : Z) (r : SettlementResult) : SettlementResult :=
  mk_SettlementResult (sr_RoundID r) (sr_Outcome r) (sr_WonBetCount r + 1) (sr_LostBetCount r)
    (sr_PayoutMinor r + payout)%i64 (sr_SettledAt r).

Definition add_lost (r : SettlementResult) : SettlementResult :=
  mk_SettlementResult (sr_RoundID r) (sr_Outcome r) (sr_WonBetCount r) (sr_LostBetCount r + 1)
    (sr_PayoutMinor r) (sr_SettledAt r).

(** Pay one bet and record how it ended. *)
Definition settle_bet (rules : Rules) (plays : gmap string LuluPlay) (outcome : list string)
    (settledAt : Z) (p : prepared) (now : Z) (result : SettlementResult) : Tx SettlementResult :=
  let id := ab_id (pb_bet p) in
  let bet := ab_row (pb_bet p) in
  w ← wallet_by_id (bt_wallet_id bet);
  wallet ← found ErrNoRows w;
  won ← lift (bet_wins rules plays bet outcome);
  count_task p;;
  if negb won then
    update_bet id (fun b => set_settled "lost" (bt_payout_minor b) settledAt (w_available wallet) b);;
    mret (add_lost result)
  else
    payout ← lift (payout_of rules bet outcome);
    if bt_is_simulated bet then
      update_bet id (set_settled "won" payout settledAt (w_available wallet));;
      mret (add_won payout result)
    else
      reject_if ((int64_max - payout)%i64 <? w_available wallet) ErrPayoutOverflow;;
      let available := (w_available wallet + payout)%i64 in
      update_wallet (bt_wallet_id bet) (fun _ => available) w_frozen settledAt;;
      update_bet id (set_settled "won" payout settledAt available);;
      entryID ← new_uuid;
      insert_ledger (entry entryID (bt_wallet_id bet) "settlement" id "settlement_credit" payout available)
        now;;
      mret (add_won payout result).

Fixpoint settle_bets (t : clock) (rules : Rules) (plays : gmap string LuluPlay)
    (outcome : list string) (ps : list prepared) (result : SettlementResult) : Tx SettlementResult :=
  match ps with
  | [] => mret result
  | p :: rest =>
      pay_agents t p;;
      result' ← settle_bet rules plays outcome (timestamptz (go_now t)) p (sql_now t) result;
      settle_bets t rules plays outcome rest result'
  end.

(** One personal result per user of the round. *)
Definition settled_now (roundID : string) (settledAt : Z) (b : bet_row) : bool :=
  bool_decide (bt_round_id b = roundID) && bool_decide (bt_status b ∈ ["won"; "lost"]%string) &&
  bool_decide (bt_settled_at b = Some settledAt).

Definition opt_str (o : option string) : json := from_option JStr JNull o.

Definition bet_result_json (currency : string) (id : string) (b : bet_row) : json :=
  JObj [("bet_id", JStr id); ("game_room_id", opt_str (bt_game_room_id b));
        ("play_mode", opt_str (bt_play_mode b)); ("selection", bt_selection b);
        ("currency", JStr currency); ("status", JStr (bt_status b));
        ("stake_minor", JInt (bt_stake_minor b)); ("payout_minor", JInt (bt_payout_minor b));
        ("net_win_minor", JInt (bt_payout_minor b - bt_stake_minor b));
        ("placement_count", JInt (bt_placement_count b)); ("is_simulated", JBool (bt_is_simulated b))]%string.

Definition currency_total (rows : list (string * string * bet_row)) (currency : string) : json :=
  let of_currency := List.filter (fun r => bool_decide (r.1.2 = currency)) rows in
  let stake := sum_Z (map (fun r => bt_stake_minor r.2) of_currency) in
  let payout := sum_Z (map (fun r => bt_payout_minor r.2) of_currency) in
  JObj [("currency", JStr currency); ("stake_minor", JInt stake); ("payout_minor", JInt payout);
        ("net_win_minor", JInt (payout - stake));
        ("bet_count", JInt (Z.of_nat (length of_currency)))]%string.

Definition personal_payload (roundID : string) (round : round_row) (code : string) (user : string)
    (u : user_row) (settledAt : Z) (rows : list (string * string * bet_row)) : json :=
  let currencies := merge_sort str_le (remove_dups (map (fun r => r.1.2) rows)) in
  JObj [("user_ids", JArr [JStr user]); ("account_id", JInt (u_public_id u));
        ("round_id", JStr roundID); ("round_sequence", JInt (rd_sequence round));
        ("game_type", JStr code); ("settled_at", JInt settledAt);
        ("bets", JArr (map (fun r => bet_result_json r.1.2 r.1.1 r.2) rows));
        ("totals", JArr (map (currency_total rows) currencies))]%string.

(** The settled bets of the round with their currency, in the order of their
    identifiers. *)
Definition settled_rows (roundID : string) (settledAt : Z) (db : DB) : list (string * string * bet_row) :=
  omap (fun kv : string * bet_row =>
    if settled_now roundID settledAt kv.2
    then w ← wallets db.(money) !! bt_wallet_id kv.2; Some (kv.1, w_currency w, kv.2)
    else None) (merge_sort (fun x y => str_le x.1 y.1) (map_to_list (bets db.(app)))).

Fixpoint publish_results (roundID : string) (settledAt : Z) (rows : list (string * string * bet_row))
    (users : list string) : Tx () :=
  match users with
  | [] => mret ()
  | user :: rest =>
      payload ← gets (fun db =>
        u ← Schema.users db.(app) !! user;
        round ← rounds db.(app) !! roundID;
        g ← game_types db.(app) !! rd_game_type_id round;
        Some (personal_payload roundID round (gt_code g) user u settledAt
          (List.filter (fun r => bool_decide (bt_user_id r.2 = user)) rows)));
      (match payload with
       | Some p => id ← new_uuid; insert_outbox id "round" roundID "game.bet.settled" p settledAt
       | None => mret ()
       end);;
      publish_results roundID settledAt rows rest
  end.

Definition set_round (status : RoundStatus) (r : round_row) : round_row :=
  mk_round_row (rd_game_type_id r) (rd_sequence r) status (rd_bet_closes_at r) (rd_result_at r)
    (rd_outcome r) (rd_settled_at r) (rd_version r + 1).

Definition finish_round (outcome : list string) (settledAt : Z) (r : round_row) : round_row :=
  mk_round_row (rd_game_type_id r) (rd_sequence r) RoundSettled (rd_bet_closes_at r) (rd_result_at r)
    (Some (JArr (map JStr outcome))) (Some settledAt) (rd_version r + 1).

Definition update_round (id : string) (f : round_row -> round_row) : Tx () :=
  n ← update_row (R := round_row) id f;
  mret ().

Definition count_status (roundID status : string) (b : bet_row) : Z :=
  if bool_decide (bt_round_id b = roundID) && bool_decide (bt_status b = status) then 1 else 0.

Definition payout_if_won (roundID : string) (b : bet_row) : Z :=
  if bool_decide (bt_round_id b = roundID) && bool_decide (bt_status b = "won"%string)
  then bt_payout_minor b else 0.

Definition decode_outcome (o : option json) : res (list string) :=
  of_option (Sentinel "json.Unmarshal") (j ← o; dec_strings [] j).

(** The totals of a settled round, from its bets. *)
Definition settledResult (roundID : string) (round : round_row) : Tx SettlementResult :=
  outcome ← lift (decode_outcome (rd_outcome round));
  won ← gets (fun db => sum_map (count_status roundID "won") (bets db.(app)));
  lost ← gets (fun db => sum_map (count_status roundID "lost") (bets db.(app)));
  payout ← gets (fun db => sum_map (payout_if_won roundID) (bets db.(app)));
  reject_if ((payout <? int64_min) || (int64_max <? payout)) RangeViolation;;
  mret (mk_SettlementResult roundID outcome won lost payout (default zero_time (rd_settled_at round))).

Definition result_json (r : SettlementResult) : json :=
  JObj [("round_id", JStr (sr_RoundID r)); ("outcome", JArr (map JStr (sr_Outcome r)));
        ("won_bet_count", JInt (sr_WonBetCount r)); ("lost_bet_count", JInt (sr_LostBetCount r));
        ("payout_minor", JInt (sr_PayoutMinor r)); ("settled_at", JInt (sr_SettledAt r))]%string.

(** Pay every accepted bet of a round that is closed or settling.  The answer
    and its event carry the time of the process; what the statements store and
    compare is that time in whole microseconds. *)
Definition settle_open (t : clock) (roundID : string) (outcome : list string) (rules : Rules)
    : Tx SettlementResult :=
  bs ← gets (accepted_bets roundID);
  plays ← (if sharedLuluRules rules then loadLuluPlaysTx roundID else mret ∅);
  ps ← prepare_all rules plays outcome bs;
  let recipients := merge_sort recipient_before (remove_dups (concat (map recipients_of ps))) in
  ensure_wallets (sql_now t) recipients;;
  let settledAt := go_now t in
  let storedAt := timestamptz settledAt in
  result ← settle_bets t rules plays outcome ps (mk_SettlementResult roundID outcome 0 0 0 settledAt);
  rows ← gets (settled_rows roundID storedAt);
  publish_results roundID storedAt rows (remove_dups (map (fun r => bt_user_id r.2) rows));;
  update_round roundID (finish_round outcome storedAt);;
  id ← new_uuid;
  insert_outbox id "round" roundID "game.round.settled" (result_json result) settledAt;;
  mret result.

Definition SettleRound (t : clock) (roundID : string) (outcome : list string) (rules : Rules)
    : Tx SettlementResult :=
  reject_if (bool_decide (outcome = []) || containsEmpty outcome) ErrInvalidOutcome;;
  lift (Validate rules);;
  reject_if (negb (withinPool outcome (Outcomes rules))) ErrOutcomeOutsidePool;;
  o ← select_id (R := round_row) roundID;
  round ← found game_ErrRoundNotFound o;
  match rd_status round with
  | RoundSettled =>
      existing ← lift (decode_outcome (rd_outcome round));
      reject_if (negb (sameStrings existing outcome)) ErrSettlementOutcomeMismatch;;
      settledResult roundID round
  | RoundClosed =>
      update_round roundID (set_round RoundSettling);;
      settle_open t roundID outcome rules
  | RoundSettling => settle_open t roundID outcome rules
  | _ => raise ErrInvalidTransition
  end.

(** ** refund.go *)

Definition refund_bet (t : clock) (b : acceptedBet) : Tx () :=
  let bet := ab_row b in
  w ← wallet_by_id (bt_wallet_id bet);
  wallet ← found ErrNoRows w;
  let refunded balance b := set_settled "refunded" (bt_payout_minor b) (sql_now t) balance b in
  if bt_is_simulated bet then update_bet (ab_id b) (refunded (w_available wallet))
  else
    let available := (w_available wallet + bt_stake_minor bet)%i64 in
    update_wallet (bt_wallet_id bet) (fun _ => available) w_frozen (sql_now t);;
    update_bet (ab_id b) (refunded available);;
    entryID ← new_uuid;
    insert_ledger (entry entryID (bt_wallet_id bet) "refund" (ab_id b) "refund" (bt_stake_minor bet)
                     available) (sql_now t).

Fixpoint refund_bets (t : clock) (bs : list acceptedBet) : Tx () :=
  match bs with
  | [] => mret ()
  | b :: rest => refund_bet t b;; refund_bets t rest
  end.

Definition CancelRound (t : clock) (roundID : string) : Tx Z :=
  o ← select_id (R := round_row) roundID;
  round ← found game_ErrRoundNotFound o;
  match rd_status round with
  | RoundCancelled => mret 0
  | RoundOpen | RoundClosed =>
      bs ← gets (accepted_bets roundID);
      refund_bets t bs;;
      update_round roundID (set_round RoundCancelled);;
      id ← new_uuid;
      insert_outbox id "round" roundID "game.round.cancelled"
        (JObj [("round_id", JStr roundID); ("refunded_bet_count", JInt (Z.of_nat (length bs)))]%string)
        (sql_now t);;
      mret (Z.of_nat (length bs))
  | _ => raise ErrInvalidTransition
  end.

(** ** settle_due.go *)

(** The result source of the worker. *)
Context (source : DB -> Round -> Rules -> res (list string)).

Definition confirmed_external (db : DB) (rules : json) (sequence : Z) : bool :=
  match jfield "extras" rules ≫= jfield "external_game" with
  | Some (JStr game) =>
      bool_decide (jfield "source" rules = Some (JStr "lulu_ws")) &&
      existsb (fun kv => bool_decide (ed_source kv.2 = "lulu_ws"%string) &&
        bool_decide (ed_game kv.2 = game) && (ed_external_round kv.2 =? sequence) &&
        bool_decide (ed_status kv.2 = "confirmed"%string)) (map_to_list (external_draw_rounds db.(app)))
  | _ => false
  end.

Record dueRound : Type := mk_dueRound {
  du_round : Round;
  du_rules : json;
  du_rank : Z
}.

Definition due_before (x y : dueRound) : Prop :=
  (du_rank x <? du_rank y) ||
  (du_rank x =? du_rank y) &&
    ((r_ResultAt (du_round x) <? r_ResultAt (du_round y)) ||
     (r_ResultAt (du_round x) =? r_ResultAt (du_round y)) &&
       String.leb (r_RoundID (du_round x)) (r_RoundID (du_round y))) = true.

#[local] Instance due_before_dec x y : Decision (due_before x y) := bool_eq_dec _ _.

Definition due_round (now : Z) (db : DB) (kv : string * round_row) : option dueRound :=
  let '(id, r) := kv in
  if (bool_decide (rd_status r = RoundClosed) || bool_decide (rd_status r = RoundSettling)) &&
     (rd_result_at r <=? now)
  then
    g ← game_types db.(app) !! rd_game_type_id r;
    let rank := if confirmed_external db (gt_rules g) (rd_sequence r) then 0
      else if bool_decide (jfield "source" (gt_rules g) = Some (JStr "tron_hash"%string)) then 1 else 2 in
    Some (mk_dueRound (mk_Round id (gt_code g) (rd_sequence r) (rd_status r) (rd_bet_closes_at r)
      (rd_result_at r) None []) (gt_rules g) rank)
  else None.

Definition due_rounds (now limit : Z) (db : DB) : list dueRound :=
  take (Z.to_nat limit) (merge_sort due_before (omap (due_round now db) (map_to_list (rounds db.(app))))).

(** Settle one due round after the other, each in its own transaction; a rate
    limit ends the batch. *)
Fixpoint settle_due (t : clock) (items : list dueRound) (settled : list (string * SettlementResult))
    (failures : list (string * error)) (db : DB)
    : list (string * SettlementResult) * list (string * error) * DB :=
  match items with
  | [] => (settled, failures, db)
  | item :: rest =>
      let id := r_RoundID (du_round item) in
      match ParseRules (Some (du_rules item)) with
      | Err e => settle_due t rest settled (failures ++ [(id, e)]) db
      | Ok rules =>
          match source db (du_round item) rules with
          | Err e =>
              if bool_decide (e = ErrBlockNotFound) then settle_due t rest settled failures db
              else if bool_decide (e = ErrRateLimited) then (settled, failures ++ [(id, e)], db)
              else settle_due t rest settled (failures ++ [(id, e)]) db
          | Ok outcome =>
              match atomically (SettleRound t id outcome rules) db with
              | (Err e, db') => settle_due t rest settled (failures ++ [(id, e)]) db'
              | (Ok r, db') => settle_due t rest (settled ++ [(id, r)]) failures db'
              end
          end
      end
  end.

Definition SettleDueRounds (t : clock) (limit : Z) (db : DB)
    : list (string * SettlementResult) * list (string * error) * DB :=
  if limit <=? 0 then ([], [], db)
  else settle_due t (due_rounds (sql_now t) limit db) [] [] db.

End settlement.
