(* ===== verification/BetBooks.v ===== *)
(** * Bets and the ledger

    What the components that take and resolve bets share: the money the ledger
    booked for one bet, the transactions that leave bets, rounds and that money
    alone, the contract of the task hook, and the accepted bets of a round. *)

From S2P Require Import Prelude GoStrings Json Game Schema Store Books Custody Wallet Rebate Draws Settlement.

(** ** The money of a bet *)

(** The ledger entries that name a bet. *)
Definition is_bet_entry (r : ledger_row) : bool :=
  bool_decide (le_business_type r ∈ ["bet"; "settlement"; "refund"; "bet_cancel"]%string).

Definition bet_entries (m : Money) : list ledger_row := List.filter is_bet_entry (ledger m).

Definition of_bet (btype id : string) (r : ledger_row) : bool :=
  bool_decide (le_business_type r = btype) && bool_decide (le_business_id r = id).

(** What the ledger booked for bet [id] under [btype]. *)
Definition credited (btype id : string) (m : Money) : Z :=
  sum_Z (map le_available_delta (List.filter (of_bet btype id) (bet_entries m))).

Lemma credited_other btype id ws l r :
  is_bet_entry r = false -> credited btype id (mk_Money ws (r :: l)) = credited btype id (mk_Money ws l).
Proof. unfold credited, bet_entries. cbn. by intros ->. Qed.

Lemma credited_cons btype id ws l r :
  is_bet_entry r = true ->
  credited btype id (mk_Money ws (r :: l)) =
  (if of_bet btype id r then le_available_delta r else 0) + credited btype id (mk_Money ws l).
Proof.
  unfold credited, bet_entries. cbn. intros ->. cbn. by destruct (of_bet btype id r).
Qed.

Lemma credited_entries btype id m m' :
  bet_entries m' = bet_entries m -> credited btype id m' = credited btype id m.
Proof. unfold credited. by intros ->. Qed.

(** ** Transactions that leave the bets alone *)

Record stays (db db' : DB) : Prop := {
  st_bets : bets db'.(app) = bets db.(app);
  st_rounds : rounds db'.(app) = rounds db.(app);
  st_plays : lulu_play_configs db'.(app) = lulu_play_configs db.(app);
  st_entries : bet_entries db'.(money) = bet_entries db.(money)
}.

#[export] Instance stays_preorder : PreOrder stays.
Proof.
  split.
  - by split.
  - intros d1 d2 d3 [] []. split; congruence.
Qed.

(** A transaction that keeps the books, freezes nothing and leaves the bets alone. *)
Definition aside {A} (m : Tx A) : Prop := forall db a db',
  m db = Ok (a, db') -> books db.(money) ->
  books db'.(money) /\ quiet db db' /\ stays db db'.

Lemma aside_bind {A B} (m : Tx A) (f : A -> Tx B) :
  aside m -> (forall a, aside (f a)) -> aside (m ≫= f).
Proof.
  intros Hm Hf db b db'' Hrun Hb. apply tx_bind_Ok in Hrun as (a & db' & H1 & H2).
  destruct (Hm _ _ _ H1 Hb) as (Hb' & Hq & Hs). destruct (Hf a _ _ _ H2 Hb') as (Hb'' & Hq' & Hs').
  split; [done|split; by etrans].
Qed.

Lemma aside_intro {A} (m : Tx A) :
  sound m -> (forall db a db', m db = Ok (a, db') -> stays db db') -> aside m.
Proof. intros Hm Hs db a db' Hrun Hb. destruct (Hm _ _ _ Hrun Hb). eauto. Qed.

(** The tables that matter here and the money are as they were. *)
Record untouched (db db' : DB) : Prop := {
  un_money : money db' = money db;
  un_withdrawals : withdrawals db'.(app) = withdrawals db.(app);
  un_points : point_withdrawals db'.(app) = point_withdrawals db.(app);
  un_lulu : lulu_orders db'.(app) = lulu_orders db.(app);
  un_bets : bets db'.(app) = bets db.(app);
  un_rounds : rounds db'.(app) = rounds db.(app);
  un_plays : lulu_play_configs db'.(app) = lulu_play_configs db.(app);
  un_packets : red_packets db'.(app) = red_packets db.(app);
  un_claims : claims db'.(app) = claims db.(app)
}.

Lemma untouched_stays db db' : untouched db db' -> stays db db'.
Proof. intros []. split; [done..|congruence]. Qed.

Lemma untouched_quiet db db' : untouched db db' -> quiet db db'.
Proof. intros []. by apply quiet_app. Qed.

Lemma aside_still {A} (m : Tx A) :
  (forall db a db', m db = Ok (a, db') -> untouched db db') -> aside m.
Proof.
  intros Hm db a db' Hrun Hb. specialize (Hm _ _ _ Hrun).
  split; [by rewrite (un_money _ _ Hm)|]. split; [by apply untouched_quiet|by apply untouched_stays].
Qed.

Lemma aside_ret {A} (a : A) : aside (mret a).
Proof. apply aside_still. intros db x db' Hrun. by tx_steps. Qed.

Lemma aside_lift {A} (m : res A) : aside (lift m).
Proof. apply aside_still. intros db x db' Hrun. by tx_steps. Qed.

Lemma aside_gets {A} (f : DB -> A) : aside (gets f).
Proof. apply aside_still. intros db x db' Hrun. by tx_steps. Qed.

Create HintDb aside discriminated.
#[export] Hint Resolve aside_bind aside_ret aside_lift aside_gets : aside.
#[export] Hint Extern 1 (forall _, aside _) => intro : aside.
#[export] Hint Extern 2 (aside (match ?x with _ => _ end)) => destruct x : aside.

(** ** The task hook *)

(** What settlement relies on from the service that counts bets for tasks: a
    balance read before the call is written back after it, so the hook must
    leave the money alone. *)
Class TaskHook (hook : option (string -> string -> Z -> Z -> Tx ())) : Prop := {
  hook_counts h user currency stake placed db u db' :
    hook = Some h -> h user currency stake placed db = Ok (u, db') -> untouched db db'
}.

#[export] Instance no_hook : TaskHook None.
Proof. by split. Qed.

(** ** The accepted bets of a round *)

(** What the schema promises of a bet: its stake, and its wallet. *)
Record bets_ok (db : DB) : Prop := {
  bo_stake id b : bets db.(app) !! id = Some b -> 0 < bt_stake_minor b <= int64_max;
  bo_wallet id b : bets db.(app) !! id = Some b -> is_Some (wallets db.(money) !! bt_wallet_id b)
}.

Lemma omap_keys_NoDup {R K} (f : string * R -> option K) (key : K -> string) l :
  (forall kv x, f kv = Some x -> key x = kv.1) -> NoDup l.*1 -> NoDup (map key (omap f l)).
Proof.
  intros Hf. induction l as [|kv l IH]; intros Hn; [constructor|].
  apply NoDup_cons in Hn as [Hk Hn]. cbn. destruct (f kv) as [x|] eqn:E; [|by apply IH].
  cbn. apply NoDup_cons. split; [|by apply IH].
  intros (y & Hy & Hin)%list_elem_of_fmap. apply list_elem_of_omap in Hin as (kv' & Hkv' & E').
  apply Hk. rewrite (Hf _ _ E) in Hy. rewrite Hy, (Hf _ _ E'). by apply list_elem_of_fmap_2.
Qed.

Definition accepted_in (roundID : string) (db : DB) (b : acceptedBet) : Prop :=
  bets db.(app) !! ab_id b = Some (ab_row b) /\ is_accepted roundID (ab_row b) = true /\
  exists w, wallets db.(money) !! bt_wallet_id (ab_row b) = Some w /\ ab_currency b = w_currency w.

Lemma accepted_bets_NoDup roundID db : NoDup (map ab_id (accepted_bets roundID db)).
Proof.
  unfold accepted_bets. rewrite merge_sort_Permutation. apply omap_keys_NoDup.
  - intros [k b] x. cbn. destruct (is_accepted _ _); [|done].
    destruct (wallets _ !! _); [|done]. by intros [= <-].
  - apply NoDup_fst_map_to_list.
Qed.

Lemma elem_of_accepted roundID db b : b ∈ accepted_bets roundID db <-> accepted_in roundID db b.
Proof.
  unfold accepted_bets, accepted_in. rewrite merge_sort_Permutation, list_elem_of_omap. split.
  - intros ([k r] & Hin & E). apply elem_of_map_to_list in Hin. cbn in E.
    destruct (is_accepted roundID r) eqn:Ea; [|done].
    destruct (wallets _ !! _) as [w|] eqn:Ew; [|done]. injection E as <-. cbn. eauto.
  - intros (Hb & Ha & w & Hw & Hc). exists (ab_id b, ab_row b).
    split; [by apply elem_of_map_to_list|]. cbn. rewrite Ha, Hw. cbn. destruct b. cbn in *. by subst.
Qed.

(** Every accepted bet of the table is in the list. *)
Lemma accepted_listed roundID db id b :
  bets_ok db -> bets db.(app) !! id = Some b -> is_accepted roundID b = true ->
  exists a, a ∈ accepted_bets roundID db /\ ab_id a = id /\ ab_row a = b.
Proof.
  intros Hok Hb Ha. destruct (bo_wallet _ Hok _ _ Hb) as [w Hw].
  exists (mk_acceptedBet id b (w_currency w)). rewrite elem_of_accepted. split; [|done].
  split; [done|split; [done|by exists w]].
Qed.
