(* ===== verification/Frames.v ===== *)
(** * Frames

    What no transaction of the platform does, whatever else it does: it does
    not delete a wallet, change its owner or its currency, and it does not
    change the stake or the wallet of a bet.  [framed] is closed under the
    primitives of [Store], so that it follows from the text of a transaction. *)

From S2P Require Import Prelude GoStrings Json Game Schema Store Books Custody Wallet.
From S2P Require Import Rebate Draws Settlement BetBooks.

(** The stakes of the bets and the wallets that paid them. *)
Definition stakes (db : DB) : gmap string (Z * string) :=
  (fun b => (bt_stake_minor b, bt_wallet_id b)) <$> bets db.(app).

(** The red packets and their claims. *)
Definition packets (db : DB) : gmap string packet_row * gmap string claim_row :=
  (red_packets db.(app), claims db.(app)).

(** With [o] the stakes, with [b] the red packets, with [g] the Lulu orders are
    left alone as well. *)
Record frame (o b g : bool) (db db' : DB) : Prop := {
  fr_owners : keeps_owners db.(money) db'.(money);
  fr_stakes : o = true -> stakes db' = stakes db;
  fr_packets : b = true -> packets db' = packets db;
  fr_lulu : g = true -> lulu_orders db'.(app) = lulu_orders db.(app)
}.

#[export] Instance frame_preorder o b g : PreOrder (frame o b g).
Proof.
  split.
  - intros d. by split.
  - intros d1 d2 d3 [] []. split; [by etrans|intros E; rewrite fr_stakes1; auto|intros E; rewrite fr_packets1; auto|
      intros E; rewrite fr_lulu1; auto].
Qed.

Lemma frame_same o b g db db' : money db' = money db -> (o = true -> bets db'.(app) = bets db.(app)) ->
  (b = true -> packets db' = packets db) -> (g = true -> lulu_orders db'.(app) = lulu_orders db.(app)) ->
  frame o b g db db'.
Proof. intros Hm Hb Hp Hg. split; [by rewrite Hm| |done|done]. intros E. unfold stakes. by rewrite Hb. Qed.

Lemma frame_untouched o b g db db' : untouched db db' -> frame o b g db db'.
Proof. intros []. apply frame_same; [done|done| |done]. intros _. unfold packets. congruence. Qed.

(** The order book stays well-formed. *)
Lemma frame_bets_ok b0 g db db' : frame true b0 g db db' -> bets_ok db -> bets_ok db'.
Proof.
  intros [Ho Hs _ _] Hok. specialize (Hs eq_refl).
  assert (Hold : forall id b, bets db'.(app) !! id = Some b -> exists b1, bets db.(app) !! id = Some b1 /\
    bt_stake_minor b1 = bt_stake_minor b /\ bt_wallet_id b1 = bt_wallet_id b).
  { intros id b Hb. assert (E : stakes db' !! id = Some (bt_stake_minor b, bt_wallet_id b))
      by (unfold stakes; by rewrite lookup_fmap, Hb).
    rewrite Hs in E. unfold stakes in E. rewrite lookup_fmap in E.
    destruct (bets (app db) !! id) as [b1|]; [|done]. injection E as E1 E2. by exists b1. }
  split; intros id b Hb; destruct (Hold id b Hb) as (b1 & Hb1 & Es & Ew).
  - rewrite <- Es. by apply (bo_stake _ Hok id).
  - rewrite <- Ew. destruct (bo_wallet _ Hok id b1 Hb1) as [w Hw]. destruct (Ho _ _ Hw) as (w' & Hw' & _). by exists w'.
Qed.

Section rules.
Context (o b g : bool).

Definition framed {A} (m : Tx A) : Prop := forall db a db', m db = Ok (a, db') -> frame o b g db db'.

Lemma framed_bind {A B} (m : Tx A) (f : A -> Tx B) : framed m -> (forall a, framed (f a)) -> framed (m ≫= f).
Proof. intros Hm Hf db y db' (a & d & H1 & H2)%tx_bind_Ok. etrans; [by eapply Hm|by eapply Hf]. Qed.

Lemma framed_ret {A} (a : A) : framed (mret a).
Proof. by intros db x db' [_ <-]%tx_ret_Ok. Qed.

Lemma framed_raise {A} e : framed (raise (A := A) e).
Proof. by intros db a db' ?%raise_Ok. Qed.

Lemma framed_lift {A} (m : res A) : framed (lift m).
Proof. by intros db a db' [_ <-]%lift_Ok. Qed.

Lemma framed_reject x e : framed (reject_if x e).
Proof. unfold reject_if. destruct x; [apply framed_raise|apply framed_ret]. Qed.

Lemma framed_gets {A} (f : DB -> A) : framed (gets f).
Proof. by intros db a db' [_ <-]%gets_Ok. Qed.

Lemma framed_found {A} e (x : option A) : framed (found e x).
Proof. destruct x; [apply framed_ret|apply framed_raise]. Qed.

Lemma framed_modify f : (forall db, frame o b g db (f db)) -> framed (modify f).
Proof. by intros Hf db u db' <-%modify_Ok. Qed.

(** A table that is not one of those. *)
Class Aside (R : Type) `{Table R} : Prop := aside_bets : forall t a,
  (o = true -> bets (set_tbl (R := R) t a) = bets a) /\
  (b = true -> red_packets (set_tbl (R := R) t a) = red_packets a /\ claims (set_tbl (R := R) t a) = claims a) /\
  (g = true -> lulu_orders (set_tbl (R := R) t a) = lulu_orders a).

Context `{Uuids}.

Lemma framed_uuid : framed new_uuid.
Proof. intros db a db' Hrun. unfold new_uuid in Hrun. injection Hrun as _ <-. by apply frame_same. Qed.

Lemma frame_put {R} `{Aside R} id (r : R) db : frame o b g db (put_row id r db).
Proof.
  destruct (aside_bets (<[id := r]> (tbl db.(app))) db.(app)) as (Hb & Hp & Hg).
  apply frame_same; [done|exact Hb| |exact Hg]. intros E. unfold packets. cbn. by destruct (Hp E) as [-> ->].
Qed.

Lemma framed_update_where {R} `{Aside R} (P : string -> R -> bool) f : framed (update_where P f).
Proof.
  apply framed_modify. intros db.
  destruct (aside_bets (map_imap (fun id r => Some (if P id r then f r else r)) (tbl db.(app))) db.(app)) as (Hb & Hp & Hg).
  apply frame_same; [done|exact Hb| |exact Hg]. intros E. unfold packets. cbn. by destruct (Hp E) as [-> ->].
Qed.

Lemma framed_insert {R} `{Aside R} P id (r : R) : framed (insert_row P id r).
Proof. intros db a db' (_ & _ & <-)%insert_row_Ok. apply frame_put. Qed.

Lemma framed_ignore {R} `{Aside R} P id (r : R) : framed (insert_ignore P id r).
Proof.
  unfold insert_ignore. intros db a db' Hrun. destruct (insert_row P id r db) as [[u d]|] eqn:E.
  - injection Hrun as _ <-. by apply (framed_insert P id r _ _ _ E).
  - by injection Hrun as _ <-.
Qed.

Lemma framed_unless {R} `{Aside R} P id (r : R) : framed (insert_unless P id r).
Proof.
  unfold insert_unless. intros db a db' Hrun. destruct (find_row _ _); [by injection Hrun as _ <-|].
  destruct (_ !! _); [done|]. injection Hrun as _ <-. apply frame_put.
Qed.

Lemma framed_update {R} `{Aside R} id (f : R -> R) : framed (update_row id f).
Proof.
  unfold update_row. intros db a db' Hrun. destruct (_ !! _); injection Hrun as _ <-; [apply frame_put|done].
Qed.

(** Bets themselves are only updated in their other columns. *)
Lemma framed_update_bet id f :
  (forall x, bt_stake_minor (f x) = bt_stake_minor x) -> (forall x, bt_wallet_id (f x) = bt_wallet_id x) ->
  framed (update_bet id f).
Proof.
  intros Hst Hw db u db' (n & d & Hup & Hrun)%tx_bind_Ok. apply tx_ret_Ok in Hrun as [_ <-].
  unfold update_row in Hup. change (tbl (app db)) with (bets (app db)) in Hup.
  destruct (bets (app db) !! id) as [x|] eqn:E; injection Hup as _ <-; [|done].
  split; [done|intros _|done|done]. unfold stakes. cbn. change (tbl (app db)) with (bets (app db)).
  rewrite fmap_insert, Hst, Hw. apply insert_id. by rewrite lookup_fmap, E.
Qed.

Lemma framed_outbox id ag aid ty p at_ : framed (insert_outbox id ag aid ty p at_).
Proof.
  unfold insert_outbox. intros db a db' Hrun. destruct (existsb _ _); [done|]. injection Hrun as _ <-. by apply frame_same.
Qed.

Lemma framed_audit a : framed (insert_audit a).
Proof. apply framed_modify. intros db. by apply frame_same. Qed.

Lemma frame_wallet id w w' db :
  wallets db.(money) !! id = Some w -> w_user_id w' = w_user_id w -> w_currency w' = w_currency w ->
  frame o b g db (put_wallet id w' db).
Proof.
  intros Hw Hu Hc. split; [|done|done|done]. intros j x Hx. cbn. destruct (decide (j = id)) as [->|Hne].
  - exists w'. rewrite lookup_insert_eq. split; [done|]. split; congruence.
  - exists x. by rewrite lookup_insert_ne.
Qed.

Lemma framed_wallet id av fz now : framed (update_wallet id av fz now).
Proof.
  intros db u db' Hrun. apply update_wallet_Ok in Hrun as [[_ <-]|(w & Hw & _ & <-)]; [done|].
  by apply (frame_wallet id w).
Qed.

Lemma framed_new_wallet id user cur now : framed (insert_wallet id user cur now).
Proof.
  unfold insert_wallet. intros db a db' Hrun. destruct (negb _); [done|].
  destruct (find_row _ _); [by injection Hrun as _ <-|]. destruct (_ !! _) as [|] eqn:E; [done|].
  injection Hrun as _ <-. split; [|done|done|done]. intros j x Hx. exists x. cbn.
  rewrite lookup_insert_ne; [done|congruence].
Qed.

Lemma framed_ledger li now : framed (insert_ledger li now).
Proof.
  intros db u db' (w & _ & _ & <-)%insert_ledger_Ok. unfold post_ledger. split; [|done|done|done].
  intros j x Hx. by exists x.
Qed.
End rules.

#[export] Hint Extern 0 (Aside _ _ _ _) => intros ? ?; split; [|split]; by intros : typeclass_instances.

Create HintDb framed discriminated.
#[export] Hint Resolve framed_bind framed_ret framed_raise framed_lift framed_reject framed_gets framed_found
  framed_uuid framed_insert framed_ignore framed_unless framed_update framed_update_where framed_outbox framed_audit framed_wallet
  framed_new_wallet framed_ledger : framed.

(** Follow the text of the transaction. *)
Ltac frames :=
  repeat (first
    [ progress intros | progress cbv zeta
    | match goal with
      | |- framed _ _ _ (if ?b then _ else _) => destruct b
      | |- framed _ _ _ (match ?x with _ => _ end) => destruct x
      | |- framed _ _ _ (modify _) => apply framed_modify; intros; first [by apply frame_same|idtac]
      | |- framed _ _ _ (select_id _) => apply framed_gets
      | |- framed _ _ _ (select_where _) => apply framed_gets
      | |- framed _ _ _ (select_all _) => apply framed_gets
      | |- framed _ _ _ (select_first _ _) => apply framed_gets
      | |- framed _ _ _ (find_wallet _ _) => apply framed_gets
      | |- framed _ _ _ (wallet_by_id _) => apply framed_gets
      | |- framed _ _ _ (_ ≫= _) => apply framed_bind
      end
    | solve [auto with framed typeclass_instances] ]).
