(* ===== verification/Chain.v ===== *)
(** * Deposits and withdrawals

    [application/chain]: crediting deposits reported by the provider
    (deposit.go, pqpa_webhook.go, provider_events.go), the withdrawal state
    machine (withdrawal_request.go, withdrawal_review.go,
    withdrawal_dispatch.go, withdrawal_status.go, reconcile.go), the policy and
    destination checks (withdrawal_policy.go), deposit addresses
    (deposit_address.go); and [domain/chain/webhook.go].

    The provider's HTTP API is an argument of the functions that call it. *)

From S2P Require Import Prelude GoStrings Money Json Schema Store Books Wallet.

(** ** service.go: the errors *)

Definition ErrUnknownDepositAddress : error := Sentinel "chain.ErrUnknownDepositAddress".
Definition ErrMissingFields : error := Sentinel "chain.ErrMissingFields".
Definition ErrWithdrawalNotFound : error := Sentinel "chain.ErrWithdrawalNotFound".
Definition ErrDepositAddressNotFound : error := Sentinel "chain.ErrDepositAddressNotFound".
Definition ErrWithdrawalState : error := Sentinel "chain.ErrWithdrawalState".
Definition ErrUnsupportedAsset : error := Sentinel "chain.ErrUnsupportedAsset".
Definition ErrInvalidWithdrawalAddress : error := Sentinel "chain.ErrInvalidWithdrawalAddress".
Definition ErrWithdrawalBelowMinimum : error := Sentinel "chain.ErrWithdrawalBelowMinimum".
Definition ErrWithdrawalAboveMaximum : error := Sentinel "chain.ErrWithdrawalAboveMaximum".
Definition ErrWithdrawalDailyLimit : error := Sentinel "chain.ErrWithdrawalDailyLimit".
Definition ErrVirtualAccountWithdrawal : error := Sentinel "chain.ErrVirtualAccountWithdrawal".

(** ** withdrawal_policy.go *)

Record WithdrawalPolicy : Type := mk_policy {
  MinimumMinor : Z;
  MaximumMinor : Z;
  DailyLimitMinor : Z
}.

Definition Validate (policy : WithdrawalPolicy) : res () :=
  fail_if ((MinimumMinor policy <? 0) || (MaximumMinor policy <? 0) || (DailyLimitMinor policy <? 0))
    (Sentinel "withdrawal limits cannot be negative");;
  fail_if ((0 <? MaximumMinor policy) && (MaximumMinor policy <? MinimumMinor policy))
    (Sentinel "withdrawal minimum exceeds per-request maximum");;
  fail_if ((0 <? DailyLimitMinor policy) && (DailyLimitMinor policy <? MinimumMinor policy))
    (Sentinel "withdrawal minimum exceeds daily limit").

Definition validateAmount (policy : WithdrawalPolicy) (amount : Z) : res () :=
  fail_if ((0 <? MinimumMinor policy) && (amount <? MinimumMinor policy)) ErrWithdrawalBelowMinimum;;
  fail_if ((0 <? MaximumMinor policy) && (MaximumMinor policy <? amount)) ErrWithdrawalAboveMaximum.

(** The runes of category Cc, as UTF-8: C0, DEL and C1. *)
Definition control_at (l : bytes) : bool :=
  match l with
  | c :: r =>
      (code c <? 32) || (code c =? 127) ||
      match r with
      | d :: _ => (code c =? 194) && (128 <=? code d) && (code d <=? 159)
      | [] => false
      end
  | [] => false
  end.

Definition space_at (l : bytes) : bool :=
  match strip_any space_runes l with Some _ => true | None => false end.

(** A rune loop that looks for a match.  The first byte of a space or control
    rune is ASCII or a leading byte, so a match at any byte is a rune. *)
Fixpoint any_suffix (P : bytes -> bool) (l : bytes) : bool :=
  P l || match l with [] => false | _ :: r => any_suffix P r end.

Definition containsSpaceOrControl (value : bytes) : bool :=
  any_suffix (fun l => space_at l || control_at l) value.

Definition containsControl (value : bytes) : bool := any_suffix control_at value.

(** The alphabets are ASCII: a byte outside them belongs to a rune outside. *)
Definition allInAlphabet (value : bytes) (alphabet : string) : bool :=
  forallb (fun c => existsb (fun d => code c =? code d) (s2b alphabet)) value.

Definition isEVMChain (chain : string) : bool :=
  bool_decide (chain ∈ ["ETH"; "ETHEREUM"; "BSC"; "BNB"; "POLYGON"; "ARBITRUM"; "OPTIMISM";
                        "BASE"; "AVALANCHE"]).

Definition base58 : string := "123456789ABCDEFGHJKLMNPQRSTUVWXYZabcdefghijkmnopqrstuvwxyz".

Definition validateWithdrawalDestination (chainCode address memo : string) : res () :=
  let address := s2b (TrimSpace address) in
  let len := Z.of_nat (length address) in
  fail_if ((len <? 8) || (256 <? len) || containsSpaceOrControl address) ErrInvalidWithdrawalAddress;;
  fail_if ((256 <? str_len memo) || containsControl (s2b memo)) ErrInvalidWithdrawalAddress;;
  let chain := ToUpper (TrimSpace chainCode) in
  if bool_decide (chain = "TRON"%string) then
    fail_if (negb (len =? 34) ||
             negb match address with c :: _ => code c =? 84 | [] => false end ||
             negb (allInAlphabet address base58)) ErrInvalidWithdrawalAddress
  else if isEVMChain chain then
    fail_if (negb (len =? 42) ||
             negb match strip_prefix [48; 120] address with Some _ => true | None => false end ||
             negb (allInAlphabet (drop 2 address) "0123456789abcdefABCDEF"))
      ErrInvalidWithdrawalAddress
  else Ok ().

(** ** deposit.go *)

Record DepositInput : Type := mk_DepositInput {
  di_ProviderEventID : string;
  di_TxHash : string;
  di_ChainCode : string;
  di_TokenCode : string;
  di_Address : string;
  di_AmountMinor : Z;
  di_ProviderAmount : string;
  di_ChainDecimals : option Z;
  di_PlatformDecimals : option Z
}.

Record DepositResult : Type := mk_DepositResult {
  dr_DepositID : string;
  dr_Status : string;
  dr_Credited : bool
}.

(** [NULLIF(v, '')]. *)
Definition nullif_empty (v : string) : option string :=
  if bool_decide (v = ""%string) then None else Some v.

Definition is_empty (v : string) : bool := bool_decide (v = ""%string).

(** ** withdrawal.go *)

Record WithdrawalInput : Type := mk_WithdrawalInput {
  wi_UserID : string;
  wi_ClientRequestID : string;
  wi_DestinationAddress : string;
  wi_DestinationMemo : string;
  wi_ChainCode : string;
  wi_Currency : string;
  wi_AmountMinor : Z
}.

Record Withdrawal : Type := mk_Withdrawal {
  WithdrawalID : string;
  UserID : string;
  ClientRequestID : string;
  DestinationAddress : string;
  DestinationMemo : string;
  ChainCode : string;
  wCurrency : string;
  wAmountMinor : Z;
  Status : string;
  CreatedAt : Z;
  ProviderOrderID : string;
  TxHash : string;
  FailureReason : string
}.

Record WithdrawalStatusInput : Type := mk_StatusInput {
  si_ProviderOrderID : string;
  si_TxHash : string;
  si_Status : string;
  si_FailureReason : string;
  si_Fee : string
}.

(** [withdrawalColumns] with the join on the wallet. *)
Definition scanWithdrawal (id : string) (w : withdrawal_row) (wallet : wallet_row) : Withdrawal :=
  mk_Withdrawal id (wd_user_id w) (wd_client_request_id w) (wd_destination_address w)
    (default "" (wd_destination_memo w)) (default "" (wd_chain_code w)) (w_currency wallet)
    (wd_amount_minor w) (wd_status w) (wd_created_at w) (default "" (wd_provider_order_id w))
    (default "" (wd_tx_hash w)) (default "" (wd_failure_reason w)).

Section chain.
Context `{Uuids}.

(** ensureWallet: open the wallet if the user has none in this currency. *)
Definition ensureWallet (now : Z) (userID currency : string) : Tx string :=
  walletID ← new_uuid;
  inserted ← insert_wallet walletID userID currency now;
  if (inserted : bool) then mret walletID
  else
    w ← find_wallet userID currency;
    x ← found ErrNoRows w;
    mret x.1.

Definition find_address (chain token address : string) : Tx (option (string * address_row)) :=
  select_where (R := address_row) (fun _ a =>
    bool_decide (ca_chain_code a = chain) && bool_decide (ca_token_code a = token) &&
    bool_decide (ca_address a = address)).

Definition CreditDeposit (t : clock) (input : DepositInput) : Tx DepositResult :=
  reject_if (is_empty (di_ProviderEventID input) || is_empty (di_TxHash input) ||
             is_empty (di_ChainCode input) || is_empty (di_TokenCode input) ||
             is_empty (di_Address input)) ErrMissingFields;;
  reject_if (di_AmountMinor input <=? 0) chain_ErrInvalidAmount;;
  a ← find_address (di_ChainCode input) (di_TokenCode input) (di_Address input);
  address ← found ErrUnknownDepositAddress a;
  let userID := ca_user_id address.2 in
  depositID ← new_uuid;
  let creditedAt := go_now t in
  let same d := bool_decide (dep_provider_event_id d = di_ProviderEventID input) ||
                bool_decide (dep_tx_hash d = di_TxHash input) in
  inserted ← insert_ignore same depositID
    (mk_deposit_row address.1 (di_ProviderEventID input) (di_TxHash input) (di_AmountMinor input)
       "credited" (Some creditedAt) (nullif_empty (di_ProviderAmount input))
       (di_ChainDecimals input) (di_PlatformDecimals input));
  if negb inserted then
    d ← select_where (R := deposit_row) (fun _ => same);
    existing ← found ErrNoRows d;
    mret (mk_DepositResult existing.1 (dep_status existing.2) false)
  else
    walletID ← ensureWallet (sql_now t) userID (di_TokenCode input);
    w ← wallet_by_id walletID;
    wallet ← found ErrNoRows w;
    let availableMinor := (w_available wallet + di_AmountMinor input)%i64 in
    update_wallet walletID (fun _ => availableMinor) w_frozen creditedAt;;
    entryID ← new_uuid;
    insert_ledger (entry entryID walletID "deposit" depositID "deposit_credit"
                     (di_AmountMinor input) availableMinor) (sql_now t);;
    eventID ← new_uuid;
    insert_outbox eventID "deposit" depositID "chain.deposit.credited"
      (JObj [("deposit_id", JStr depositID); ("user_id", JStr userID);
             ("token_code", JStr (di_TokenCode input)); ("tx_hash", JStr (di_TxHash input))])
      creditedAt;;
    mret (mk_DepositResult depositID "credited" true).

(** ** withdrawal_query.go *)

Definition with_wallet (o : option (string * withdrawal_row)) : Tx (option Withdrawal) :=
  gets (fun db => x ← o; w ← wallets db.(money) !! wd_wallet_id x.2;
                  Some (scanWithdrawal x.1 x.2 w)).

Definition findWithdrawalByRequestID (userID clientRequestID : string) : Tx (option Withdrawal) :=
  x ← select_where (R := withdrawal_row) (fun _ w =>
    bool_decide (wd_user_id w = userID) && bool_decide (wd_client_request_id w = clientRequestID));
  with_wallet x.

Definition findWithdrawalForUpdate (withdrawalID : string) : Tx (option Withdrawal) :=
  w ← select_id (R := withdrawal_row) withdrawalID;
  with_wallet (pair withdrawalID <$> w).

Definition FindWithdrawal (withdrawalID : string) : Tx Withdrawal :=
  w ← findWithdrawalForUpdate withdrawalID;
  found ErrWithdrawalNotFound w.

(** ** withdrawal_request.go *)

Definition day_ns : Z := 86400000000000.

(** [sum(amount_minor)] of the withdrawals that count against the daily limit;
    a sum beyond BIGINT fails to scan. *)
Definition counts_since (userID currency : string) (start : Z) (w : withdrawal_row) : bool :=
  bool_decide (wd_user_id w = userID) && bool_decide (wd_token_code w = Some currency) &&
  (start <=? wd_created_at w) &&
  bool_decide (wd_status w ∈ ["requested"; "approved"; "broadcasted"; "confirmed"]).

Definition withdrawn_since (userID currency : string) (start : Z) : Tx Z :=
  rows ← select_all (R := withdrawal_row) (fun _ => counts_since userID currency start);
  let total := sum_Z (map (fun x => wd_amount_minor x.2) rows) in
  reject_if (int64_max <? total) RangeViolation;;
  mret total.

Definition find_asset (chain token : string) : Tx (option (string * asset_row)) :=
  select_where (R := asset_row) (fun _ a =>
    bool_decide (as_provider a = "pqpa"%string) && bool_decide (as_chain_code a = chain) &&
    bool_decide (as_token_code a = token)).

Definition resolve_supported (currency : string) : Tx Z := fun db =>
  match ResolveDecimals currency true db with
  | Err e => if bool_decide (e = ErrUnknownCurrency) || bool_decide (e = ErrCurrencyDisabled)
             then Err ErrUnsupportedAsset else Err e
  | ok => ok
  end.

Definition check_daily_limit (t : clock) (policy : WithdrawalPolicy) (userID currency : string)
    (amount : Z) : Tx () :=
  if 0 <? DailyLimitMinor policy then
    withdrawnToday ← withdrawn_since userID currency (go_now t - go_now t mod day_ns);
    reject_if ((DailyLimitMinor policy - amount)%i64 <? withdrawnToday) ErrWithdrawalDailyLimit
  else mret ().

Definition insert_withdrawal (id : string) (r : withdrawal_row) : Tx () :=
  insert_row (fun w => bool_decide (wd_user_id w = wd_user_id r) &&
                       bool_decide (wd_client_request_id w = wd_client_request_id r)) id r.

Definition normalize_input (i : WithdrawalInput) : WithdrawalInput :=
  mk_WithdrawalInput (wi_UserID i) (wi_ClientRequestID i) (TrimSpace (wi_DestinationAddress i))
    (TrimSpace (wi_DestinationMemo i)) (ToUpper (TrimSpace (wi_ChainCode i)))
    (ToUpper (TrimSpace (wi_Currency i))) (wi_AmountMinor i).

(** The checks before the wallet is locked: the asset's chain token and
    decimals, and the platform's decimals. *)
Definition check_asset (policy : WithdrawalPolicy) (input : WithdrawalInput) : Tx (Z * Z * Z) :=
  u ← gets (fun db => users db.(app) !! wi_UserID input);
  user ← found ErrNoRows u;
  reject_if (u_is_virtual user) ErrVirtualAccountWithdrawal;;
  a ← find_asset (wi_ChainCode input) (wi_Currency input);
  asset ← found ErrUnsupportedAsset a;
  reject_if (negb (as_enabled asset.2 && as_support_withdraw asset.2)) ErrUnsupportedAsset;;
  chainTokenID ← found ErrUnsupportedAsset (as_chain_token_id asset.2);
  let tokenDecimals := as_decimals asset.2 in
  platformDecimals ← resolve_supported (wi_Currency input);
  reject_if ((tokenDecimals <? platformDecimals) &&
    negb ((wi_AmountMinor input rem
           pow10_loop (Z.to_nat (platformDecimals - tokenDecimals)) 1)%i64 =? 0))
    chain_ErrInvalidAmount;;
  lift (validateAmount policy (wi_AmountMinor input));;
  mret (chainTokenID, tokenDecimals, platformDecimals).

Definition RequestWithdrawal (t : clock) (policy : WithdrawalPolicy) (input0 : WithdrawalInput)
  : Tx Withdrawal :=
  let input := normalize_input input0 in
  reject_if (is_empty (wi_UserID input) || is_empty (wi_ClientRequestID input) ||
             is_empty (wi_DestinationAddress input) || is_empty (wi_ChainCode input) ||
             is_empty (wi_Currency input)) ErrMissingFields;;
  reject_if (wi_AmountMinor input <=? 0) chain_ErrInvalidAmount;;
  lift (validateWithdrawalDestination (wi_ChainCode input) (wi_DestinationAddress input)
          (wi_DestinationMemo input));;
  existing ← findWithdrawalByRequestID (wi_UserID input) (wi_ClientRequestID input);
  match existing with
  | Some w => mret w
  | None =>
      decimals ← check_asset policy input;
      let '(chainTokenID, tokenDecimals, platformDecimals) := decimals in
      w ← find_wallet (wi_UserID input) (wi_Currency input);
      wallet ← found Wallet.ErrWalletNotFound w;
      let walletID := wallet.1 in
      reject_if (w_available wallet.2 <? wi_AmountMinor input) Wallet.ErrInsufficientFunds;;
      check_daily_limit t policy (wi_UserID input) (wi_Currency input) (wi_AmountMinor input);;
      let availableMinor := (w_available wallet.2 - wi_AmountMinor input)%i64 in
      let frozenMinor := (w_frozen wallet.2 + wi_AmountMinor input)%i64 in
      update_wallet walletID (fun _ => availableMinor) (fun _ => frozenMinor) (sql_now t);;
      withdrawalID ← new_uuid;
      reject_if ((tokenDecimals <? 0) || (18 <? tokenDecimals))
        (CheckViolation "withdrawals_token_decimals_check");;
      insert_withdrawal withdrawalID
        (mk_withdrawal_row (wi_UserID input) walletID (wi_ClientRequestID input)
           (wi_DestinationAddress input) (nullif_empty (wi_DestinationMemo input))
           (Some (wi_ChainCode input)) (Some (wi_Currency input)) (Some chainTokenID)
           (Some tokenDecimals) (Some platformDecimals) (wi_AmountMinor input) "requested"
           None None None None None (sql_now t));;
      entryID ← new_uuid;
      insert_ledger (mk_entry entryID walletID "withdrawal" withdrawalID "withdrawal_freeze"
                       (- wi_AmountMinor input)%i64 availableMinor None
                       (- (- wi_AmountMinor input)%i64)%i64 "" None None) (sql_now t);;
      eventID ← new_uuid;
      insert_outbox eventID "withdrawal" withdrawalID "wallet.withdrawal.requested"
        (JObj [("withdrawal_id", JStr withdrawalID); ("user_id", JStr (wi_UserID input));
               ("currency", JStr (wi_Currency input))]) (sql_now t);;
      mret (mk_Withdrawal withdrawalID (wi_UserID input) (wi_ClientRequestID input)
              (wi_DestinationAddress input) (wi_DestinationMemo input) (wi_ChainCode input)
              (wi_Currency input) (wi_AmountMinor input) "requested" (sql_now t) "" "" "")
  end.

(** ** withdrawal_review.go *)

Definition set_status (status : string) (reviewer reason : option string) (w : withdrawal_row)
  : withdrawal_row :=
  mk_withdrawal_row (wd_user_id w) (wd_wallet_id w) (wd_client_request_id w)
    (wd_destination_address w) (wd_destination_memo w) (wd_chain_code w) (wd_token_code w)
    (wd_provider_chain_token_id w) (wd_token_decimals w) (wd_platform_decimals w)
    (wd_amount_minor w) status (wd_provider_order_id w) (wd_tx_hash w) (wd_provider_fee_minor w)
    reviewer reason (wd_created_at w).

Definition with_status (status : string) (w : Withdrawal) : Withdrawal :=
  mk_Withdrawal (WithdrawalID w) (UserID w) (ClientRequestID w) (DestinationAddress w)
    (DestinationMemo w) (ChainCode w) (wCurrency w) (wAmountMinor w) status (CreatedAt w)
    (ProviderOrderID w) (TxHash w) (FailureReason w).

Definition ApproveWithdrawal (t : clock) (withdrawalID reviewerID : string) : Tx Withdrawal :=
  reject_if (is_empty withdrawalID || is_empty reviewerID) ErrMissingFields;;
  x ← findWithdrawalForUpdate withdrawalID;
  withdrawal ← found ErrWithdrawalNotFound x;
  reject_if (negb (bool_decide (Status withdrawal = "requested"%string))) ErrWithdrawalState;;
  update_row withdrawalID (fun w => set_status "approved" (Some reviewerID) (wd_failure_reason w) w);;
  eventID ← new_uuid;
  insert_outbox eventID "withdrawal" withdrawalID "chain.withdrawal.approved"
    (JObj [("withdrawal_id", JStr withdrawalID); ("currency", JStr (wCurrency withdrawal))])
    (sql_now t);;
  mret (with_status "approved" withdrawal).

Definition RejectWithdrawal (t : clock) (withdrawalID reviewerID reason : string) : Tx Withdrawal :=
  reject_if (is_empty withdrawalID || is_empty reviewerID) ErrMissingFields;;
  x ← findWithdrawalForUpdate withdrawalID;
  withdrawal ← found ErrWithdrawalNotFound x;
  reject_if (negb (bool_decide (Status withdrawal = "requested"%string))) ErrWithdrawalState;;
  w ← find_wallet (UserID withdrawal) (wCurrency withdrawal);
  wallet ← found ErrNoRows w;
  reject_if (w_frozen wallet.2 <? wAmountMinor withdrawal) ErrWithdrawalState;;
  let available := (w_available wallet.2 + wAmountMinor withdrawal)%i64 in
  let frozen := (w_frozen wallet.2 - wAmountMinor withdrawal)%i64 in
  update_wallet wallet.1 (fun _ => available) (fun _ => frozen) (sql_now t);;
  update_row withdrawalID (set_status "cancelled" (Some reviewerID) (Some reason));;
  entryID ← new_uuid;
  insert_ledger (mk_entry entryID wallet.1 "withdrawal" withdrawalID "withdrawal_unfreeze"
                   (wAmountMinor withdrawal) available None (- wAmountMinor withdrawal)%i64
                   "" None None) (sql_now t);;
  mret (with_status "cancelled" withdrawal).

(** ** withdrawal_status.go *)

Definition set_terminal (status : string) (txHash : string) (reason : option string)
    (fee : option (option Z)) (w : withdrawal_row) : withdrawal_row :=
  mk_withdrawal_row (wd_user_id w) (wd_wallet_id w) (wd_client_request_id w)
    (wd_destination_address w) (wd_destination_memo w) (wd_chain_code w) (wd_token_code w)
    (wd_provider_chain_token_id w) (wd_token_decimals w) (wd_platform_decimals w)
    (wd_amount_minor w) status (wd_provider_order_id w) (nullif_empty txHash)
    (default (wd_provider_fee_minor w) fee) (wd_reviewed_by w) reason (wd_created_at w).

(** [tx_hash] is UNIQUE. *)
Definition check_tx_hash (id : string) (txHash : string) : Tx () :=
  clash ← select_where (R := withdrawal_row) (fun k w =>
    negb (bool_decide (k = id)) && negb (is_empty txHash) &&
    bool_decide (wd_tx_hash w = Some txHash));
  reject_if (bool_decide (is_Some clash)) (UniqueViolation "withdrawals_tx_hash_key").

Definition ApplyWithdrawalStatus (t : clock) (input : WithdrawalStatusInput) : Tx () :=
  reject_if (is_empty (si_ProviderOrderID input) ||
             negb (bool_decide (si_Status input = "confirmed"%string)) &&
             negb (bool_decide (si_Status input = "failed"%string))) ErrMissingFields;;
  x ← select_where (R := withdrawal_row) (fun id w =>
    bool_decide (id = si_ProviderOrderID input) ||
    bool_decide (wd_provider_order_id w = Some (si_ProviderOrderID input)));
  row ← found ErrWithdrawalNotFound x;
  let '(withdrawalID, w) := row in
  let walletID := wd_wallet_id w in
  let amount := wd_amount_minor w in
  v ← wallet_by_id walletID;
  wallet ← found ErrWithdrawalNotFound v;
  if bool_decide (wd_status w = si_Status input) then mret ()
  else
    reject_if (negb (bool_decide (wd_status w = "broadcasted"%string))) ErrWithdrawalState;;
    reject_if (w_frozen wallet <? amount) ErrWithdrawalState;;
    if bool_decide (si_Status input = "confirmed"%string) then
      fee ← (if is_empty (si_Fee input) then mret None
             else x ← lift (parseDecimalMinor (si_Fee input) (default 0 (wd_token_decimals w)));
                  mret (Some x));
      update_wallet walletID w_available (fun _ => (w_frozen wallet - amount)%i64) (sql_now t);;
      check_tx_hash withdrawalID (si_TxHash input);;
      update_row withdrawalID (set_terminal "confirmed" (si_TxHash input) None (Some fee));;
      entryID ← new_uuid;
      insert_ledger (mk_entry entryID walletID "withdrawal" withdrawalID "withdrawal_debit"
                       (- amount)%i64 (w_available wallet) (Some 0) (- amount)%i64
                       "" None None) (sql_now t)
    else
      let available := (w_available wallet + amount)%i64 in
      update_wallet walletID (fun _ => available) (fun _ => (w_frozen wallet - amount)%i64) (sql_now t);;
      check_tx_hash withdrawalID (si_TxHash input);;
      update_row withdrawalID (set_terminal "failed" (si_TxHash input) (Some (si_FailureReason input)) None);;
      entryID ← new_uuid;
      insert_ledger (mk_entry entryID walletID "withdrawal" withdrawalID "withdrawal_unfreeze"
                       amount available None (- amount)%i64 "" None None) (sql_now t).

(** ** withdrawal_dispatch.go *)

Record ProviderWithdrawalRequest : Type := mk_ProviderRequest {
  pr_RequestID : string;
  pr_ChainCode : string;
  pr_ChainTokenID : Z;
  pr_Address : string;
  pr_Memo : string;
  pr_AmountMinor : Z;
  pr_Decimals : Z
}.

Definition set_broadcasted (orderID : string) (w : withdrawal_row) : withdrawal_row :=
  mk_withdrawal_row (wd_user_id w) (wd_wallet_id w) (wd_client_request_id w)
    (wd_destination_address w) (wd_destination_memo w) (wd_chain_code w) (wd_token_code w)
    (wd_provider_chain_token_id w) (wd_token_decimals w) (wd_platform_decimals w)
    (wd_amount_minor w) "broadcasted" (Some orderID) (wd_tx_hash w) (wd_provider_fee_minor w)
    (wd_reviewed_by w) (wd_failure_reason w) (wd_created_at w).

(** The transaction after the provider call: UPDATE ... WHERE id AND
    status='approved'; zero rows commit without an event. *)
Definition mark_broadcasted (t : clock) (withdrawalID providerOrderID : string) : Tx () :=
  row ← select_id (R := withdrawal_row) withdrawalID;
  match row with
  | Some w =>
      if bool_decide (wd_status w = "approved"%string) then
        clash ← select_where (R := withdrawal_row) (fun k v =>
          negb (bool_decide (k = withdrawalID)) &&
          bool_decide (wd_provider_order_id v = Some providerOrderID));
        reject_if (bool_decide (is_Some clash))
          (UniqueViolation "withdrawals_provider_order_id_key");;
        update_row withdrawalID (set_broadcasted providerOrderID);;
        eventID ← new_uuid;
        insert_outbox eventID "withdrawal" withdrawalID "chain.withdrawal.sent"
          (JObj [("withdrawal_id", JStr withdrawalID);
                 ("provider_order_id", JStr providerOrderID)]) (sql_now t)
      else mret ()
  | None => mret ()
  end.

(** [CreateProviderWithdrawal] is the provider's HTTP API. *)
Definition SendApprovedWithdrawal (t : clock)
    (provider : option (ProviderWithdrawalRequest -> res (string * string)))
    (withdrawalID : string) : Svc () :=
  match provider with
  | None => fails (Sentinel "withdrawal provider is unavailable")
  | Some CreateProviderWithdrawal =>
      withdrawal ← atomically (FindWithdrawal withdrawalID);
      if bool_decide (Status withdrawal = "broadcasted"%string) ||
         bool_decide (Status withdrawal = "confirmed"%string) then mret ()
      else if negb (bool_decide (Status withdrawal = "approved"%string))
      then fails ErrWithdrawalState
      else
        columns ← atomically (
          row ← select_id (R := withdrawal_row) withdrawalID;
          w ← found ErrNoRows row;
          tokenID ← found (Sentinel "cannot scan NULL") (wd_provider_chain_token_id w);
          decimals ← found (Sentinel "cannot scan NULL") (wd_platform_decimals w);
          mret (tokenID, decimals));
        match CreateProviderWithdrawal
          (mk_ProviderRequest (WithdrawalID withdrawal) (ChainCode withdrawal) columns.1
             (DestinationAddress withdrawal) (DestinationMemo withdrawal)
             (wAmountMinor withdrawal) columns.2) with
        | Err e => fails e
        | Ok (providerOrderID, _) => atomically (mark_broadcasted t withdrawalID providerOrderID)
        end
  end.

(** ** reconcile.go *)

Definition normalizeProviderWithdrawalStatus (status : string) : string :=
  let s := ToLower (TrimSpace status) in
  if bool_decide (s ∈ ["confirmed"; "completed"; "success"; "succeeded"]) then "confirmed"
  else if bool_decide (s ∈ ["failed"; "rejected"; "cancelled"; "canceled"]) then "failed"
  else "".

Record ReconcileResult : Type := mk_Reconcile {
  Checked : Z;
  Confirmed : Z;
  Failed : Z
}.

(** One order of the loop: [status, txHash, reason, fee] from the provider. *)
Definition reconcile_one (t : clock)
    (GetProviderWithdrawal : string -> res (string * string * string * string))
    (orderID : string) (result : ReconcileResult) : Svc ReconcileResult :=
  match GetProviderWithdrawal orderID with
  | Err e => fails e
  | Ok (status, txHash, reason, fee) =>
      let result := mk_Reconcile (Checked result + 1) (Confirmed result) (Failed result) in
      let terminalStatus := normalizeProviderWithdrawalStatus status in
      if is_empty terminalStatus then mret result
      else
        atomically (ApplyWithdrawalStatus t
          (mk_StatusInput orderID txHash terminalStatus reason fee));;
        if bool_decide (terminalStatus = "confirmed"%string)
        then mret (mk_Reconcile (Checked result) (Confirmed result + 1) (Failed result))
        else mret (mk_Reconcile (Checked result) (Confirmed result) (Failed result + 1))
  end.

Fixpoint reconcile_loop (t : clock) provider (orderIDs : list string) (result : ReconcileResult)
  : Svc ReconcileResult :=
  match orderIDs with
  | [] => mret result
  | id :: rest => result ← reconcile_one t provider id result; reconcile_loop t provider rest result
  end.

Definition created_before (x y : string * withdrawal_row) : Prop :=
  wd_created_at x.2 <= wd_created_at y.2.

#[local] Instance created_before_dec x y : Decision (created_before x y) := Z_le_dec _ _.

Definition ReconcileWithdrawals (t : clock)
    (provider : option (string -> res (string * string * string * string))) (limit : Z)
  : Svc ReconcileResult :=
  match provider with
  | None => fails (Sentinel "withdrawal provider is unavailable")
  | Some GetProviderWithdrawal =>
      let limit := if (limit <=? 0) || (100 <? limit) then 100 else limit in
      rows ← atomically (select_all (R := withdrawal_row) (fun _ w =>
        bool_decide (wd_status w = "broadcasted"%string) &&
        bool_decide (is_Some (wd_provider_order_id w))));
      let orderIDs := map fst (take (Z.to_nat limit) (merge_sort created_before rows)) in
      reconcile_loop t GetProviderWithdrawal orderIDs (mk_Reconcile 0 0 0)
  end.

(** ** provider_events.go *)

Definition is_event (eventID : string) (_ : string) (e : webhook_row) : bool :=
  bool_decide (wh_provider e = "pqpa"%string) && bool_decide (wh_provider_event_id e = eventID).

Definition beginProviderEvent (eventID eventType : string) : Tx bool :=
  id ← new_uuid;
  inserted ← insert_ignore (is_event eventID "") id
    (mk_webhook_row "pqpa" eventID eventType None None);
  if (inserted : bool) then mret false
  else
    x ← select_where (R := webhook_row) (is_event eventID);
    row ← found ErrNoRows x;
    mret (bool_decide (is_Some (wh_processed_at row.2))).

Definition finishProviderEvent (t : clock) (eventID : string) (processingErr : option error) : Tx () :=
  x ← select_where (R := webhook_row) (is_event eventID);
  match x with
  | None => mret ()
  | Some (id, _) =>
      update_row id (fun e => match processingErr with
        | None => mk_webhook_row (wh_provider e) (wh_provider_event_id e) (wh_event_type e)
                    (Some (go_now t)) None
        | Some err => mk_webhook_row (wh_provider e) (wh_provider_event_id e) (wh_event_type e)
                        (wh_processed_at e) (Some err)
        end);;
      mret ()
  end.

(** ** pqpa_webhook.go *)

Record PQPADepositWebhook : Type := mk_DepositWebhook {
  pd_Event : string;
  pd_ID : Z;
  pd_ChainTokenID : Z;
  pd_Address : string;
  pd_Amount : string;
  pd_TxHash : string;
  pd_TxStatus : string
}.

Record PQPAWithdrawalWebhook : Type := mk_WithdrawalWebhook {
  pwh_Event : string;
  pwh_ID : Z;
  pwh_AppOrderNo : string;
  pwh_TxHash : string;
  pwh_Status : string
}.

(** The registered asset of a chain token, joined with the platform currency:
    chain code, token code, network decimals, platform decimals. *)
Definition lookup_deposit_asset (chainTokenID : Z) : Tx (option (string * string * Z * Z)) :=
  gets (fun db =>
    x ← find_row (fun _ a => bool_decide (as_provider a = "pqpa"%string) &&
                   bool_decide (as_chain_token_id a = Some chainTokenID) &&
                   as_enabled a && as_support_deposit a &&
                   bool_decide (is_Some (currencies db.(app) !! as_token_code a)))
          (assets db.(app));
    c ← currencies db.(app) !! as_token_code x.2;
    Some (as_chain_code x.2, as_token_code x.2, as_decimals x.2, cur_decimals c)).

Definition no_deposit : DepositResult := mk_DepositResult "" "" false.

Definition CreditPQPADeposit (t : clock) (callback : PQPADepositWebhook)
  : Svc (DepositResult * bool) :=
  if negb (bool_decide (pd_Event callback = "recharge"%string)) || (pd_ID callback <=? 0) ||
     (pd_ChainTokenID callback <=? 0) || is_empty (pd_Address callback) ||
     is_empty (pd_Amount callback) || is_empty (pd_TxHash callback) ||
     is_empty (pd_TxStatus callback)
  then fails ErrMissingFields
  else if negb (bool_decide (pd_TxStatus callback = "SETTLED"%string)) then mret (no_deposit, false)
  else
    let eventID := String.append "recharge:" (FormatInt (pd_ID callback)) in
    alreadyProcessed ← atomically (beginProviderEvent eventID "recharge");
    if (alreadyProcessed : bool) then mret (no_deposit, false)
    else
      asset ← atomically (lookup_deposit_asset (pd_ChainTokenID callback));
      match asset with
      | None =>
          atomically (finishProviderEvent t eventID (Some ErrUnsupportedAsset));;
          fails ErrUnsupportedAsset
      | Some (chainCode, tokenCode, decimals, platformDecimals) =>
          match parsePlatformDeposit (pd_Amount callback) decimals platformDecimals with
          | Err _ =>
              atomically (finishProviderEvent t eventID (Some chain_ErrInvalidAmount));;
              fails chain_ErrInvalidAmount
          | Ok amountMinor =>
              if amountMinor <=? 0 then
                atomically (finishProviderEvent t eventID (Some chain_ErrInvalidAmount));;
                fails chain_ErrInvalidAmount
              else
                result ← try (atomically (CreditDeposit t
                  (mk_DepositInput eventID (pd_TxHash callback) chainCode tokenCode
                     (pd_Address callback) amountMinor (pd_Amount callback)
                     (Some decimals) (Some platformDecimals))));
                match result with
                | Ok r => atomically (finishProviderEvent t eventID None);; mret (r, true)
                | Err e => atomically (finishProviderEvent t eventID (Some e));; fails e
                end
          end
      end.

Definition ApplyPQPAWithdrawal (t : clock) (callback : PQPAWithdrawalWebhook) : Svc bool :=
  if negb (bool_decide (pwh_Event callback = "withdraw"%string)) || (pwh_ID callback <=? 0) ||
     is_empty (pwh_AppOrderNo callback) || is_empty (pwh_Status callback)
  then fails ErrMissingFields
  else
    let status := normalizeProviderWithdrawalStatus (pwh_Status callback) in
    if is_empty status then mret false
    else
      let eventID := String.append "withdraw:" (String.append (FormatInt (pwh_ID callback))
        (String.append ":" (pwh_Status callback))) in
      alreadyProcessed ← atomically (beginProviderEvent eventID "withdraw");
      if (alreadyProcessed : bool) then mret false
      else
        result ← try (atomically (ApplyWithdrawalStatus t
          (mk_StatusInput (pwh_AppOrderNo callback) (pwh_TxHash callback) status "" "")));
        match result with
        | Ok _ => atomically (finishProviderEvent t eventID None);; mret true
        | Err e => atomically (finishProviderEvent t eventID (Some e));; fails e
        end.

(** ** deposit_address.go *)

Record DepositAddress : Type := mk_DepositAddress {
  da_ID : string;
  da_UserID : string;
  da_ChainCode : string;
  da_TokenCode : string;
  da_Address : string;
  da_Memo : string
}.

Definition address_of (x : string * address_row) : DepositAddress :=
  mk_DepositAddress x.1 (ca_user_id x.2) (ca_chain_code x.2) (ca_token_code x.2)
    (ca_address x.2) (default "" (ca_memo x.2)).

Definition GetDepositAddress (userID chainCode tokenCode : string) : Tx DepositAddress :=
  x ← select_where (R := address_row) (fun _ a =>
    bool_decide (ca_user_id a = userID) && bool_decide (ca_chain_code a = chainCode) &&
    bool_decide (ca_token_code a = tokenCode));
  a ← found ErrDepositAddressNotFound x;
  mret (address_of a).

(** INSERT ... ON CONFLICT (chain_code, token_code, address) DO UPDATE SET
    user_id = EXCLUDED.user_id RETURNING. *)
Definition upsert_address (id userID chainCode tokenCode address providerID memo : string)
  : Tx DepositAddress :=
  x ← find_address chainCode tokenCode address;
  match x with
  | Some (id', _) =>
      update_row id' (fun a => mk_address_row userID (ca_chain_code a) (ca_token_code a)
        (ca_address a) (ca_provider_address_id a) (ca_memo a));;
      row ← select_id (R := address_row) id';
      a ← found ErrNoRows row;
      mret (address_of (id', a))
  | None =>
      let row := mk_address_row userID chainCode tokenCode address (Some providerID)
                   (nullif_empty memo) in
      insert_row (fun a => bool_decide (ca_provider_address_id a = Some providerID)) id row;;
      mret (address_of (id, row))
  end.

Definition CreateDepositAddress
    (provider : option (string -> string -> string -> res (string * string * string)))
    (userID chainCode tokenCode : string) : Svc DepositAddress :=
  if is_empty userID || is_empty chainCode || is_empty tokenCode then fails ErrMissingFields
  else
    a ← atomically (find_asset chainCode tokenCode);
    let enabled := match a with
      | Some (_, x) => as_enabled x && as_support_deposit x | None => false end in
    if negb enabled then fails ErrUnsupportedAsset
    else
      existing ← try (atomically (GetDepositAddress userID chainCode tokenCode));
      match existing with
      | Ok address => mret address
      | Err e =>
          if negb (bool_decide (e = ErrDepositAddressNotFound)) then fails e
          else match provider with
          | None => fails (Sentinel "deposit address provider is unavailable")
          | Some create =>
              match create userID chainCode tokenCode with
              | Err e => fails e
              | Ok (providerID, address, memo) =>
                  atomically (id ← new_uuid;
                    upsert_address id userID chainCode tokenCode address providerID memo)
              end
          end
      end.

End chain.

(** ** domain/chain/webhook.go *)

Definition ErrTimestampOutOfRange : error := Sentinel "chain.ErrTimestampOutOfRange".
Definition ErrInvalidSignature : error := Sentinel "chain.ErrInvalidSignature".

Section webhook.

(** [crypto/sha256] and [crypto/hmac], both followed by [hex.EncodeToString]. *)
Context (sha256_hex : bytes -> bytes) (hmac_sha256_hex : string -> bytes -> bytes).

Definition newline : bytes := [byte_at 10].

Definition string_to_sign (method path timestamp nonce : string) (rawBody : bytes) : bytes :=
  s2b method ++ newline ++ s2b path ++ newline ++ s2b timestamp ++ newline ++ s2b nonce
    ++ newline ++ sha256_hex rawBody.

Definition SignWebhook (secret method path timestamp nonce : string) (rawBody : bytes) : string :=
  b2s (hmac_sha256_hex secret (string_to_sign method path timestamp nonce rawBody)).

(** [Time.Sub] saturates at the range of [time.Duration]. *)
Definition time_sub (a b : Z) : Z := Z.max int64_min (Z.min int64_max (a - b)).

Definition VerifyWebhook (secret method path timestamp nonce : string) (rawBody : bytes)
    (signature : string) (now allowedSkew : Z) : res () :=
  milliseconds ← of_option ErrTimestampOutOfRange (ParseInt timestamp);
  let requestTime := milliseconds * 1000000 in
  fail_if ((allowedSkew <? time_sub now requestTime) || (allowedSkew <? time_sub requestTime now))
    ErrTimestampOutOfRange;;
  let expected := hmac_sha256_hex secret (string_to_sign method path timestamp nonce rawBody) in
  fail_if (negb (bool_decide (expected = s2b signature))) ErrInvalidSignature.

End webhook.
