(* ===== verification/Examples.v ===== *)
(** * Concrete databases

    Small states on which the witnesses run the modelled transactions: two
    players, a staff account, the currencies, one network asset, one deposit
    address.  Identifiers are the decimal numerals. *)

From S2P Require Import Prelude GoStrings Json Schema Store Books Custody Wallet Chain.

#[export] Instance numeral_ids : Uuids := fun n => FormatInt (Z.of_nat n).

Definition example_app : App :=
  set_users {[ "alice" := mk_user_row "active" false "Alice" 10001 None None (Some "alice") None 0;
               "bob" := mk_user_row "active" false "Bob" 10002 None None (Some "bob") None 0;
               "staff" := mk_user_row "active" false "Staff" 10003 None None (Some "staff") None 0 ]}
  (set_currencies {[ "USDT" := mk_currency_row 6 true "token" true;
                     "POINTS" := mk_currency_row 3 true "points" true ]}
  (set_chain_addresses {[ "addr-1" := mk_address_row "alice" "TRON" "USDT"
     "TAbcdefghijkmnopqrstuvwxyzABCDEFGH" (Some "p-1") None ]}
  (set_assets {[ "asset-1" := mk_asset_row "pqpa" "TRON" "USDT" 6 true (Some 7) true true ]}
  (set_user_roles [("staff", "admin")]
   empty_App)))).

Definition example_db : DB := mk_DB (mk_Money ∅ []) example_app.

Definition noon : clock := mk_clock 1750000000000000000 1750000000000000000.

Definition run_or {A} (m : Tx A) (db : DB) : DB :=
  match m db with Ok (_, db') => db' | Err _ => db end.

Definition example_deposit : DepositInput :=
  mk_DepositInput "evt-1" "tx-1" "TRON" "USDT" "TAbcdefghijkmnopqrstuvwxyzABCDEFGH"
    5000000 "5" (Some 6) (Some 6).

(** Alice has 5 USDT. *)
Definition funded_db : DB := run_or (CreditDeposit noon example_deposit) example_db.

Definition example_policy : WithdrawalPolicy := mk_policy 1000000 0 4000000.

Definition example_request : WithdrawalInput :=
  mk_WithdrawalInput "alice" "req-1" "TXYZabcdefghijkmnopqrstuvwxyzABCDE" "" "tron" "usdt" 3000000.

Lemma custody_no_money a :
  withdrawals a = ∅ -> point_withdrawals a = ∅ -> lulu_orders a = ∅ ->
  custody (mk_DB (mk_Money ∅ []) a).
Proof.
  intros Hw Hp Hl. split; cbn.
  - apply books_empty.
  - intros wid. unfold outstanding, pending, lulu_pending. cbn. by rewrite Hw, Hp, Hl.
  - rewrite Hw. by intros ? ? [=].
  - rewrite Hp. by intros ? ? [=].
  - rewrite Hl. by intros ? ? [=].
Qed.

Lemma example_custody : custody example_db.
Proof. by apply custody_no_money. Qed.

(** A run that succeeds leads to [run_or]. *)
Lemma run_or_Ok {A} (m : Tx A) (P : A -> bool) db :
  succeeds (fun x => P x.1) (m db) = true -> exists a, P a = true /\ m db = Ok (a, run_or m db).
Proof.
  unfold run_or. intros E. apply succeeds_Ok in E as ([a d] & Ea & HP). exists a. split; [done|by rewrite Ea].
Qed.
