(* ===== verification/RebateProofs.v ===== *)
(** * Agent rebates: what holds

    The rebates of a bet are exact, strictly differential and bounded by the
    top rate of the chain; the chain is finite and frozen with the bet; each
    beneficiary is paid once. *)

From S2P Require Import Prelude GoStrings Json Schema Store Books Custody Wallet Rebate Chain Examples.

(** ** The calculation *)

Lemma differential_exact base delta :
  0 <= base <= int64_max -> 0 <= delta <= 1000 ->
  differential_amount base delta = base * delta / 1000.
Proof.
  intros Hb Hd. unfold differential_amount.
  rewrite Z.quot_div_nonneg, Z.rem_mod_nonneg by lia.
  pose proof (Z.div_mod base 1000 ltac:(lia)) as Hdm.
  pose proof (Z.mod_pos_bound base 1000 ltac:(lia)) as Hm.
  set (q := base / 1000) in *. set (r := base mod 1000) in *.
  assert (Hq : 0 <= q) by (apply Z.div_pos; lia).
  assert (Hrd : 0 <= r * delta <= 1000000) by nia.
  assert (Hqd : 0 <= q * delta <= base) by nia.
  unfold int64_max in *.
  rewrite (wrap64_small q), (wrap64_small r), (wrap64_small (q * delta)), (wrap64_small (r * delta))
    by (unfold in_int64, int64_min, int64_max; nia).
  rewrite Z.quot_div_nonneg by lia.
  pose proof (Z.div_pos (r * delta) 1000 ltac:(lia) ltac:(lia)).
  pose proof (Z.mul_div_le (r * delta) 1000 ltac:(lia)).
  rewrite (wrap64_small (r * delta / 1000)) by (unfold in_int64, int64_min, int64_max; lia).
  replace (base * delta) with (r * delta + q * delta * 1000) by nia.
  rewrite Z.div_add by lia. rewrite wrap64_small; [lia|].
  unfold in_int64, int64_min, int64_max. nia.
Qed.

(** One allocation of a bet with the given base. *)
Record fair (base : Z) (a : Allocation) : Prop := {
  fa_base : al_BaseMinor a = base;
  fa_amount : al_AmountMinor a = base * al_DifferentialPerMille a / 1000;
  fa_positive : 0 < al_AmountMinor a;
  fa_real : an_IsVirtual (al_Ancestor a) = false;
  fa_level : 1 <= an_Level (al_Ancestor a) <= 6;
  fa_delta : 1 <= al_DifferentialPerMille a <= an_RatePerMille (al_Ancestor a);
  fa_rate : an_RatePerMille (al_Ancestor a) <= 1000
}.

Definition above (a b : Allocation) : Prop :=
  an_Level (al_Ancestor a) < an_Level (al_Ancestor b) /\
  an_RatePerMille (al_Ancestor a) < an_RatePerMille (al_Ancestor b).

Definition total (l : list Allocation) : Z := sum_Z (map al_AmountMinor l).

(** What the loop adds after the level and rate already reached. *)
Record differential (base level rate : Z) (chain : list Ancestor) (new : list Allocation) : Prop := {
  df_fair : Forall (fair base) new;
  df_above : Forall (fun a => level < an_Level (al_Ancestor a) /\
                              rate < an_RatePerMille (al_Ancestor a)) new;
  df_sorted : StronglySorted above new;
  df_chain : map al_Ancestor new `sublist_of` chain;
  df_total : exists top, rate <= top <= 1000 /\
    (top = rate \/ exists a, a ∈ chain /\ an_IsVirtual a = false /\ an_RatePerMille a = top) /\
    1000 * total new <= base * (top - rate)
}.

Lemma differential_skip base level rate a chain new :
  differential base level rate chain new -> differential base level rate (a :: chain) new.
Proof.
  intros [Hf Ha Hs Hc (top & Ht & Hor & Hsum)]. split; try done.
  - by apply sublist_cons.
  - exists top. split; [done|split; [|done]]. destruct Hor as [->|(x & Hx & Hv & Hr)]; [by left|].
    right. exists x. split; [by apply elem_of_cons; right|done].
Qed.

Lemma differential_take base level rate a chain new :
  0 <= base -> 0 <= level < an_Level a -> an_Level a <= 6 ->
  0 <= rate < an_RatePerMille a -> an_RatePerMille a <= 1000 -> an_IsVirtual a = false ->
  differential base (an_Level a) (an_RatePerMille a) chain new ->
  let delta := an_RatePerMille a - rate in
  let amount := base * delta / 1000 in
  differential base level rate (a :: chain)
    ((if 0 <? amount then [mk_Allocation a base delta amount] else []) ++ new).
Proof.
  intros Hbase Hl Hl6 Hr Hr1 Hv [Hf Ha Hs Hc (top & Ht & Hor & Hsum)] delta amount.
  assert (Hdiv : 1000 * amount <= base * delta) by (apply Z.mul_div_le; lia).
  assert (Hpos : 0 <= amount) by (apply Z.div_pos; unfold delta; nia).
  assert (Htop : exists top, rate <= top <= 1000 /\
    (top = rate \/ exists x, x ∈ a :: chain /\ an_IsVirtual x = false /\ an_RatePerMille x = top) /\
    1000 * (amount + total new) <= base * (top - rate)).
  { exists top. split; [lia|split; [|unfold delta in *; nia]]. right.
    destruct Hor as [->|(x & Hx & Hvx & Hrx)]; [exists a|exists x];
      (split; [|done]); apply elem_of_cons; [by left|by right]. }
  destruct (0 <? amount) eqn:E; bool_to_prop; cbn [app].
  - split.
    + constructor; [|done]. by split; cbn; unfold delta in *; try lia.
    + constructor; [cbn; lia|]. eapply Forall_impl; [exact Ha|]. cbn. lia.
    + constructor; [done|]. eapply Forall_impl; [exact Ha|]. unfold above. cbn. lia.
    + cbn. by apply sublist_skip.
    + exact Htop.
  - split; try done.
    + eapply Forall_impl; [exact Ha|]. cbn. lia.
    + by apply sublist_cons.
    + destruct Htop as (t & ? & ? & ?). exists t. split; [done|split; [done|change (total ([] ++ new)) with (total new); lia]].
Qed.

Lemma calculate_loop_Ok base chain : forall level rate result out,
  0 <= base <= int64_max -> 0 <= level -> 0 <= rate <= 1000 ->
  calculate_loop base level rate chain result = Ok out ->
  exists new, out = result ++ new /\ differential base level rate chain new.
Proof.
  induction chain as [|a chain IH]; intros level rate result out Hb Hl Hr; cbn [calculate_loop].
  { intros [= <-]. exists []. rewrite app_nil_r. split; [done|].
    split; [constructor..|exists rate]. split; [lia|split; [by left|cbn; lia]]. }
  rewrite guard_Ok. intros [Hg Hrun]. bool_to_prop.
  destruct (_ || _) eqn:E in Hrun.
  { destruct (IH _ _ _ _ Hb Hl Hr Hrun) as (new & -> & Hd). exists new. split; [done|].
    by apply differential_skip. }
  bool_to_prop.
  assert (Hdelta : (an_RatePerMille a - rate)%i64 = an_RatePerMille a - rate)
    by (apply wrap64_small; unfold in_int64, int64_min, int64_max; lia).
  rewrite Hdelta, differential_exact in Hrun by lia.
  apply IH in Hrun as (new & -> & Hd); [|done|lia|lia].
  pose proof (differential_take base level rate a chain new) as Htake. cbv zeta in Htake.
  eexists. split; [|apply Htake; try done; lia].
  destruct (0 <? _); [by rewrite <- app_assoc|done].
Qed.

(** The level and the rate reached by the agents of a chain, from a level and a
    rate on: an agent takes over who is real and above both. *)
Definition takes_over (a : Ancestor) (x : Z * Z) : bool :=
  negb (an_IsVirtual a) && (x.1 <? an_Level a) && (x.2 <? an_RatePerMille a).

Definition reached_from (x : Z * Z) (chain : list Ancestor) : Z * Z :=
  foldl (fun x a => if takes_over a x then (an_Level a, an_RatePerMille a) else x) x chain.

Definition reached : list Ancestor -> Z * Z := reached_from (0, 0).

(** The allocation of [a] where [x] was reached before him. *)
Definition allocation (base : Z) (a : Ancestor) (x : Z * Z) : Allocation :=
  mk_Allocation a base (an_RatePerMille a - x.2) (base * (an_RatePerMille a - x.2) / 1000).

(** Who is paid, and how much: [a], standing behind [before] in the chain. *)
Definition earns (base : Z) (x : Z * Z) (before : list Ancestor) (a : Ancestor) (alloc : Allocation) : Prop :=
  takes_over a (reached_from x before) = true /\ alloc = allocation base a (reached_from x before) /\
  0 < al_AmountMinor alloc.

Lemma calculate_loop_exact base chain : forall level rate result out,
  0 <= base <= int64_max -> 0 <= rate <= 1000 ->
  calculate_loop base level rate chain result = Ok out ->
  exists new, out = result ++ new /\
    (forall alloc, alloc ∈ new <-> exists before a after, chain = before ++ a :: after /\ earns base (level, rate) before a alloc) /\
    1000 * total new <= base * ((reached_from (level, rate) chain).2 - rate) <= 1000 * total new + 999 * Z.of_nat (length chain).
Proof.
  induction chain as [|a chain IH]; intros level rate result out Hb Hr; cbn [calculate_loop].
  { intros [= <-]. exists []. rewrite app_nil_r. split; [done|]. split; [|cbn; lia].
    intros alloc. split; [by intros ?%elem_of_nil|]. by intros ([|y l] & z & after & Hnil & _). }
  rewrite guard_Ok. intros [Hg Hrun]. bool_to_prop.
  assert (Hcons : forall before a' alloc, earns base (level, rate) (a :: before) a' alloc =
    earns base (if takes_over a (level, rate) then (an_Level a, an_RatePerMille a) else (level, rate)) before a' alloc) by done.
  assert (Hsplit : forall (P : list Ancestor -> Ancestor -> Prop), (exists before a' after, a :: chain = before ++ a' :: after /\ P before a') <->
    P [] a \/ exists before a' after, chain = before ++ a' :: after /\ P (a :: before) a').
  { intros P. split.
    - intros ([|b before] & a' & after & [= -> ->] & HP); [by left|right]. by exists before, a', after.
    - intros [HP|(before & a' & after & -> & HP)]; [by exists [], a, chain|by exists (a :: before), a', after]. }
  destruct (_ || _) eqn:E in Hrun.
  - assert (Hno : takes_over a (level, rate) = false).
    { unfold takes_over. cbn. destruct (an_IsVirtual a); [done|]. cbn in E |- *.
      apply orb_true_iff in E as [E|E]; bool_to_prop; apply andb_false_iff; [left|right]; by apply Z.ltb_ge. }
    destruct (IH _ _ _ _ Hb Hr Hrun) as (new & -> & Hin & Hsum). exists new. split; [done|]. split.
    + intros alloc. rewrite Hin, (Hsplit (fun before a' => earns base (level, rate) before a' alloc)).
      setoid_rewrite Hcons. rewrite Hno. split; [by right|]. intros [[Ht _]|?]; [|done]. cbn in Ht. congruence.
    + unfold reached_from in *. cbn [foldl]. rewrite Hno. cbn [length]. lia.
  - apply orb_false_iff in E as [E E3]. apply orb_false_iff in E as [E1 E2]. apply Z.leb_gt in E2, E3.
    assert (Hyes : takes_over a (level, rate) = true).
    { unfold takes_over. cbn. rewrite E1. cbn. by rewrite (proj2 (Z.ltb_lt _ _) E2), (proj2 (Z.ltb_lt _ _) E3). }
    assert (Hdelta : (an_RatePerMille a - rate)%i64 = an_RatePerMille a - rate)
      by (apply wrap64_small; unfold in_int64, int64_min, int64_max; lia).
    rewrite Hdelta, differential_exact in Hrun by lia.
    set (amount := base * (an_RatePerMille a - rate) / 1000) in *.
    assert (Hamount : 0 <= amount /\ 1000 * amount <= base * (an_RatePerMille a - rate) <= 1000 * amount + 999).
    { unfold amount. pose proof (Z.div_mod (base * (an_RatePerMille a - rate)) 1000 ltac:(lia)).
      pose proof (Z.mod_pos_bound (base * (an_RatePerMille a - rate)) 1000 ltac:(lia)).
      split; [apply Z.div_pos; nia|lia]. }
    apply IH in Hrun as (new & -> & Hin & Hsum); [|done|lia].
    exists ((if 0 <? amount then [mk_Allocation a base (an_RatePerMille a - rate) amount] else []) ++ new).
    split; [destruct (0 <? amount); [by rewrite <- app_assoc|done]|]. split.
    + intros alloc. rewrite elem_of_app, Hin, (Hsplit (fun before a' => earns base (level, rate) before a' alloc)).
      setoid_rewrite Hcons. rewrite Hyes.
      enough (alloc ∈ (if 0 <? amount then [mk_Allocation a base (an_RatePerMille a - rate) amount] else []) <->
        earns base (level, rate) [] a alloc) as -> by done.
      unfold earns, allocation. cbn [reached_from foldl fst snd]. fold amount. rewrite Hyes. destruct (Z.ltb_spec 0 amount) as [Hpos|Hpos].
      * rewrite list_elem_of_singleton. split; [by intros ->|by intros (_ & -> & _)].
      * split; [by intros ?%elem_of_nil|]. intros (_ & -> & Hp). cbn in Hp. lia.
    + unfold reached_from in *. cbn [foldl]. rewrite Hyes. cbn [length].
      assert (Ht : total ((if 0 <? amount then [mk_Allocation a base (an_RatePerMille a - rate) amount] else []) ++ new) = amount + total new).
      { destruct (Z.ltb_spec 0 amount); [done|]. change (total ([] ++ new)) with (total new). lia. }
      rewrite Ht. lia.
Qed.

(** ** The ancestor chain *)

Definition parent_of (db : DB) (user : string) : option string :=
  agent_relations db.(app) !! user ≫= al_parent_user_id.

(** Each element is the parent of the one before. *)
Fixpoint linked (db : DB) (user : string) (l : list (string * user_row)) : Prop :=
  match l with
  | [] => True
  | (p, u) :: rest => parent_of db user = Some p /\ users db.(app) !! p = Some u /\ linked db p rest
  end.

Definition last_of (user : string) (l : list (string * user_row)) : string :=
  default user (last (map fst l)).

(** Nobody, or nobody new, is above [user]. *)
Definition topmost (db : DB) (seen : list string) (user : string) : Prop :=
  forall p, parent_of db user = Some p -> p ∈ seen \/ users db.(app) !! p = None.

Definition unseen (seen : list string) (db : DB) : gmap string user_row :=
  filter (fun kv => kv.1 ∉ seen) (users db.(app)).

Lemma unseen_less seen db p u :
  p ∉ seen -> users db.(app) !! p = Some u ->
  (size (unseen (p :: seen) db) < size (unseen seen db))%nat.
Proof.
  intros Hp Hu. unfold unseen.
  assert (Hin : filter (fun kv => kv.1 ∉ seen) (users db.(app)) !! p = Some u)
    by (by apply map_lookup_filter_Some).
  rewrite <- (insert_delete_id _ _ _ Hin), map_size_insert_None by apply lookup_delete_eq.
  apply Nat.lt_succ_r, map_subseteq_size, map_subseteq_spec. intros k v Hk.
  apply map_lookup_filter_Some in Hk as [Hk Hne]. cbn in Hne.
  apply not_elem_of_cons in Hne as [Hkp Hks].
  rewrite lookup_delete_ne by done. by apply map_lookup_filter_Some.
Qed.

Lemma walk_spec db fuel : forall seen user,
  user ∈ seen -> (size (unseen seen db) <= fuel)%nat ->
  let l := ancestor_walk fuel db seen user in
  linked db user l /\ NoDup (map fst l) /\ Forall (fun x => x.1 ∉ seen) l /\
  topmost db (rev (map fst l) ++ seen) (last_of user l).
Proof.
  induction fuel as [|fuel IH]; intros seen user Huser Hfuel; cbn [ancestor_walk].
  { split; [done|split; [constructor|split; [constructor|]]]. intros p Hp. cbn.
    destruct (decide (p ∈ seen)) as [|Hns]; [by left|right].
    destruct (users (app db) !! p) as [u|] eqn:Hu; [|done].
    pose proof (unseen_less seen db p u Hns Hu). lia. }
  fold (parent_of db user). destruct (parent_of db user) as [p|] eqn:Hp.
  2: { split; [done|split; [constructor|split; [constructor|]]]. intros q. cbn. congruence. }
  case_bool_decide as Hs.
  { split; [done|split; [constructor|split; [constructor|]]]. intros q Hq. left.
    change (parent_of db user = Some q) in Hq. by simplify_eq. }
  destruct (users (app db) !! p) as [u|] eqn:Hu.
  2: { split; [done|split; [constructor|split; [constructor|]]]. intros q Hq. right.
    change (parent_of db user = Some q) in Hq. by simplify_eq. }
  pose proof (unseen_less seen db p u Hs Hu) as Hless.
  destruct (IH (p :: seen) p) as (Hl & Hn & Hf & Ht); [by apply list_elem_of_here|lia|].
  set (l := ancestor_walk fuel db (p :: seen) p) in *. cbn zeta. split; [done|split; [|split]].
  - cbn. constructor; [|done]. intros (y & Hy & Hin)%list_elem_of_fmap.
    rewrite Forall_forall in Hf. apply (Hf y Hin). rewrite <- Hy. by apply list_elem_of_here.
  - constructor; [done|]. eapply Forall_impl; [exact Hf|]. cbn. intros x Hx Hin. apply Hx.
    by apply elem_of_cons; right.
  - cbn. rewrite <- app_assoc. unfold last_of in *. cbn.
    destruct (map fst l) as [|k ks]; [exact Ht|].
    change (last (p :: k :: ks)) with (last (k :: ks)).
    destruct (last (k :: ks)) as [z|] eqn:E; [exact Ht|]. by apply last_None in E.
Qed.

(** ** The frozen chain *)

Lemma dec_ancestor_json a :
  in_int64 (an_Level a) -> in_int64 (an_RatePerMille a) -> dec_ancestor (ancestor_json a) = Some a.
Proof.
  destruct a as [u l r b]. unfold in_int64. cbn [an_Level an_RatePerMille]. intros Hl Hr.
  unfold dec_ancestor, ancestor_json, dec_struct. cbn [foldl fst snd mbind option_bind].
  change (is_key "user_id" "user_id") with true. change (is_key "user_id" "level") with false.
  change (is_key "user_id" "rate_per_mille") with false. change (is_key "user_id" "is_virtual") with false.
  change (is_key "level" "level") with true. change (is_key "level" "rate_per_mille") with false.
  change (is_key "level" "is_virtual") with false.
  change (is_key "rate_per_mille" "rate_per_mille") with true.
  change (is_key "rate_per_mille" "is_virtual") with false.
  change (is_key "is_virtual" "is_virtual") with true.
  cbn [an_UserID an_Level an_RatePerMille an_IsVirtual dec_string dec_bool mbind option_bind].
  unfold dec_int64. rewrite (proj2 (andb_true_iff (int64_min <=? l) (l <=? int64_max))),
    (proj2 (andb_true_iff (int64_min <=? r) (r <=? int64_max))) by lia. done.
Qed.

Definition sane (a : Ancestor) : Prop := in_int64 (an_Level a) /\ in_int64 (an_RatePerMille a).

Lemma dec_ancestors_json l :
  Forall sane l -> dec_ancestors (JArr (map ancestor_json l)) = Some l.
Proof.
  unfold dec_ancestors. induction 1 as [|a l [Hl Hr] _ IH]; [done|]. cbn [map mapM].
  rewrite dec_ancestor_json by done. cbn [mbind option_bind]. by rewrite IH.
Qed.

(** ** The six levels *)

Definition level_ok (l : Level) : Prop := 1 <= lv_Level l <= 6 /\ 0 <= lv_RatePerMille l <= 1000.

Definition slot (l : Level) : nat := Z.to_nat (lv_Level l - 1).

Lemma check_levels_iff levels : forall seen rates out,
  length seen = 6%nat ->
  check_levels seen rates levels = Ok out <->
  Forall level_ok levels /\ NoDup (map slot levels) /\
  (forall l, l ∈ levels -> seen !! slot l = Some false) /\ out = foldl put_rate rates levels.
Proof.
  induction levels as [|l levels IH]; intros seen rates out Hlen; cbn [check_levels map foldl].
  { split; [intros [= <-]|intros (_ & _ & _ & ->); done].
    split; [done|split; [constructor|split; [by intros ? ?%elem_of_nil|done]]]. }
  rewrite guard_Ok, IH, Forall_cons, NoDup_cons by (by rewrite length_insert).
  fold (slot l). rewrite !orb_false_iff, !Z.ltb_ge. split.
  - intros [[[[[? ?] ?] ?] Hseen] (Hf & Hn & Hs & ->)].
    assert (Hl : seen !! slot l = Some false).
    { destruct (lookup_lt_is_Some_2 seen (slot l)) as [b Hb]; [unfold slot; lia|].
      rewrite Hb in *. cbn in Hseen. by subst. }
    split; [split; [split; lia|done]|]. split; [split; [|done]|].
    + intros (m & Hm & Hin)%list_elem_of_fmap. specialize (Hs m Hin).
      rewrite <- Hm, list_lookup_insert_eq in Hs by (unfold slot; lia). done.
    + split; [|done]. intros m [->|Hin]%elem_of_cons; [done|]. specialize (Hs m Hin).
      destruct (decide (slot m = slot l)) as [->|]; [done|by rewrite list_lookup_insert_ne in Hs].
  - intros ([[Hl Hr] Hf] & [Hnot Hn] & Hs & ->).
    rewrite (Hs l) by apply list_elem_of_here. split; [repeat split; lia|].
    split; [done|split; [done|split; [|done]]]. intros m Hin.
    rewrite list_lookup_insert_ne; [by apply Hs, elem_of_cons; right|].
    intros Heq. apply Hnot, list_elem_of_fmap. by exists m.
Qed.

Lemma put_rates_lookup levels : forall rates l,
  length rates = 6%nat -> Forall level_ok levels -> NoDup (map slot levels) -> l ∈ levels ->
  foldl put_rate rates levels !! slot l = Some (lv_RatePerMille l).
Proof.
  assert (Hkeep : forall ls rates i, i ∉ map slot ls -> foldl put_rate rates ls !! i = rates !! i).
  { induction ls as [|x ls IH]; intros rates i Hi; [done|]. cbn [map foldl] in *.
    apply not_elem_of_cons in Hi as [Hx Hi]. rewrite IH by done. unfold put_rate.
    by rewrite list_lookup_insert_ne. }
  induction levels as [|x levels IH]; intros rates l Hlen Hf Hn Hin; [by apply elem_of_nil in Hin|].
  cbn [map foldl] in *. inversion Hf as [|? ? [Hx _] Hf']; subst. apply NoDup_cons in Hn as [Hnx Hn].
  apply elem_of_cons in Hin as [->|Hin].
  - rewrite Hkeep by done. unfold put_rate. rewrite list_lookup_insert_eq; [done|].
    rewrite Hlen. lia.
  - apply IH; try done. unfold put_rate. by rewrite length_insert.
Qed.

Lemma ascending_iff rates :
  ascending rates = true <->
  forall i a b, rates !! i = Some a -> rates !! S i = Some b -> a <= b.
Proof.
  induction rates as [|x [|y rates] IH].
  - split; [|done]. by intros _ i a b [=].
  - split; [|done]. by intros _ [|i] a b _ [=].
  - cbn [ascending]. rewrite andb_true_iff, IH, Z.leb_le. split.
    + intros [Hxy Hs] [|i] a b; cbn; [by intros [= <-] [= <-]|apply (Hs i)].
    + intros Hs. split; [by apply (Hs 0%nat)|]. intros i a b Ha Hb. by apply (Hs (S i)).
Qed.

Lemma ascending_le rates i j a b :
  ascending rates = true -> (i <= j)%nat -> rates !! i = Some a -> rates !! j = Some b -> a <= b.
Proof.
  rewrite ascending_iff. intros Hs Hij Ha. revert b.
  induction Hij as [|j Hij IH]; intros b Hb; [by simplify_eq|].
  destruct (lookup_lt_is_Some_2 rates j) as [c Hc].
  { apply lookup_lt_Some in Hb. lia. }
  specialize (IH _ Hc). specialize (Hs _ _ _ Hc Hb). lia.
Qed.

Lemma put_rates_length levels : forall rates, length (foldl put_rate rates levels) = length rates.
Proof.
  induction levels as [|l levels IH]; intros rates; [done|]. cbn. rewrite IH.
  unfold put_rate. apply length_insert.
Qed.

Lemma NoDup_slots levels :
  Forall level_ok levels -> NoDup (map slot levels) <-> NoDup (map lv_Level levels).
Proof.
  intros Hf. induction Hf as [|l levels [Hl _] Hf IH]; [split; constructor|]. cbn [map].
  rewrite !NoDup_cons, IH. apply and_iff_compat_r. rewrite !list_elem_of_fmap.
  rewrite Forall_forall in Hf. split; intros Hno (m & Hm & Hin); apply Hno; exists m;
    (split; [|done]); destruct (Hf m Hin) as [Hlm _]; unfold slot in *; lia.
Qed.

Lemma slots_cover levels i :
  length levels = 6%nat -> Forall level_ok levels -> NoDup (map slot levels) -> (i < 6)%nat ->
  exists l, l ∈ levels /\ slot l = i.
Proof.
  intros Hlen Hf Hn Hi.
  assert (Hp : Permutation (map slot levels) (seq 0 6)).
  { apply NoDup_Permutation_bis.
    - by apply NoDup_ListNoDup.
    - by rewrite length_map, length_seq, Hlen.
    - intros x (l & <- & Hin)%in_map_iff. apply in_seq.
      rewrite Forall_forall in Hf. destruct (Hf l) as [Hl _]; [by apply list_elem_of_In|].
      unfold slot. lia. }
  assert (Hin : i ∈ map slot levels).
  { rewrite Hp. apply list_elem_of_In, in_seq. lia. }
  apply list_elem_of_fmap in Hin as (l & -> & Hl). by exists l.
Qed.

Lemma validate_rates levels :
  length levels = 6%nat -> Forall level_ok levels -> NoDup (map slot levels) ->
  ascending (foldl put_rate (replicate 6 0) levels) = true <->
  forall l m, l ∈ levels -> m ∈ levels -> lv_Level l <= lv_Level m ->
    lv_RatePerMille l <= lv_RatePerMille m.
Proof.
  intros Hlen Hf Hn. set (rates := foldl put_rate _ levels).
  assert (Hat : forall l, l ∈ levels -> rates !! slot l = Some (lv_RatePerMille l))
    by (intros l Hl; by apply put_rates_lookup).
  split.
  - intros Hs l m Hl Hm Hle. apply (ascending_le rates (slot l) (slot m)); auto.
    unfold slot. lia.
  - intros Hmono. apply ascending_iff. intros i a b Ha Hb.
    pose proof (lookup_lt_Some _ _ _ Hb) as Hlt.
    unfold rates in Hlt. rewrite put_rates_length, length_replicate in Hlt.
    destruct (slots_cover levels i) as (l & Hl & Hil); [done|done|done|lia|].
    destruct (slots_cover levels (S i)) as (m & Hm & Him); [done|done|done|lia|].
    rewrite <- Hil, Hat in Ha by done. rewrite <- Him, Hat in Hb by done.
    injection Ha as <-. injection Hb as <-. apply Hmono; try done.
    rewrite Forall_forall in Hf. destruct (Hf l Hl), (Hf m Hm). unfold slot in *. lia.
Qed.

(** ** Payment *)

Section payment.
Context `{Uuids}.

Lemma PayTx_sound now bet currency a :
  0 <= al_AmountMinor a <= int64_max -> sound (PayTx now bet currency a).
Proof.
  intros Ha db r db' Hrun Hb. unfold PayTx, select_id, find_wallet in Hrun. cbv zeta in Hrun.
  tx_steps; bool_to_prop; try (by apply still_sound).
  all: money_simpl; wallet_rows; simplify_map_eq.
  match goal with E : wallets (money _) !! _ = Some ?x |- _ => rename x into wal;
    destruct (bounded_lookup _ _ _ Hb E) as [Hba _] end.
  assert (Hmx : (int64_max - al_AmountMinor a)%i64 = int64_max - al_AmountMinor a)
    by (apply exact_sub_pos; unfold int64_max in *; lia).
  rewrite Hmx in *.
  assert (Hax : (w_available wal + al_AmountMinor a)%i64 = w_available wal + al_AmountMinor a)
    by (apply wrap64_small; unfold in_int64, int64_min; lia).
  eapply posted_sound; [reflexivity|split; try done; cbn; rewrite ?Hax; lia|done..].
Qed.

Lemma commission_recorded (t : gmap string commission_row) id bet user amount currency at_ :
  exists i c, <[id := mk_commission_row bet user amount currency "paid" at_]> t !! i = Some c /\
    commission_of bet user c = true.
Proof.
  eexists id, _. split; [apply lookup_insert_eq|]. unfold commission_of. cbn.
  by rewrite !bool_decide_true by done.
Qed.

(** What a payment changes besides the money. *)
Lemma PayTx_frame now bet currency a db r db' :
  PayTx now bet currency a db = Ok (r, db') ->
  bets db'.(app) = bets db.(app) /\ rounds db'.(app) = rounds db.(app) /\
  users db'.(app) = users db.(app) /\
  (forall id c, commission_entries db.(app) !! id = Some c -> commission_entries db'.(app) !! id = Some c) /\
  (u_is_virtual <$> users db.(app) !! an_UserID (al_Ancestor a) = Some false ->
   exists id c, commission_entries db'.(app) !! id = Some c /\
     commission_of bet (an_UserID (al_Ancestor a)) c = true).
Proof.
  intros Hrun. unfold PayTx, select_id, find_wallet in Hrun. cbv zeta in Hrun.
  tx_steps; bool_to_prop; repeat (split; [done|]).
  - intros Hv. cbn in *. match goal with E : users _ !! _ = Some _ |- _ => rewrite E in Hv end.
    cbn in Hv. congruence.
  - intros _. match goal with E : exists _, _ |- _ => destruct E as [[i c] Hx] end.
    apply find_row_Some in Hx as [Hi Hc]. by exists i, c.
  - split; [intros i c Hc; by apply lookup_insert_fresh|intros _; by apply commission_recorded].
  - split; [intros i c Hc; by apply lookup_insert_fresh|intros _; by apply commission_recorded].
Qed.

End payment.

(** ** Properties *)

(** C36: the rebates of a bet are exact and differential.  The base is the
    stake, or the net winnings of a dodge bet.  Going up the chain, an agent
    takes over when he is real and above the level and the rate reached so far
    ([reached], both zero at the start); exactly those agents are allocated
    something for whom the floor of the base times the rate they add, in
    thousandths, is positive, and they are allocated this amount under this
    difference.  Nothing wraps, levels and rates strictly increase along the
    allocations, and all together are at most the base times the rate finally
    reached, and short of it by less than one minor unit per ancestor. *)
Theorem Calculate_differential stake payout mode chain allocs :
  stake <= int64_max -> payout <= int64_max ->
  Calculate stake payout mode chain = Ok allocs ->
  let base := if bool_decide (mode = "dodge"%string) then Z.max 0 (payout - stake) else stake in
  (forall alloc, alloc ∈ allocs <-> exists before a after, chain = before ++ a :: after /\
     takes_over a (reached before) = true /\ alloc = allocation base a (reached before) /\ 0 < al_AmountMinor alloc) /\
  Forall (fair base) allocs /\ StronglySorted above allocs /\
  map al_Ancestor allocs `sublist_of` chain /\
  1000 * total allocs <= base * (reached chain).2 <= 1000 * total allocs + 999 * Z.of_nat (length chain) /\
  exists top, 0 <= top <= 1000 /\
    (top = 0 \/ exists a, a ∈ chain /\ an_IsVirtual a = false /\ an_RatePerMille a = top) /\
    1000 * total allocs <= base * top.
Proof.
  intros Hs Hp Hrun base. unfold Calculate in Hrun. rewrite !guard_Ok in Hrun.
  destruct Hrun as (Hneg & _ & Hrun). bool_to_prop.
  assert (Hbase : rebate_base stake payout mode = base).
  { unfold rebate_base, base. case_bool_decide; [|done]. destruct (stake <? payout) eqn:E; bool_to_prop; [|lia].
    rewrite wrap64_small; [lia|]. unfold in_int64, int64_min, int64_max in *. lia. }
  assert (Hb : 0 <= base <= int64_max) by (unfold base, int64_max in *; case_bool_decide; lia).
  rewrite Hbase in Hrun. destruct (calculate_loop_exact base chain 0 0 [] allocs Hb ltac:(lia) Hrun) as (new' & E & Hexact & Hclose).
  apply calculate_loop_Ok in Hrun as (new & -> & [Hf _ Hsort Hch Htop]); [|lia..].
  cbn in E. subst new'. rewrite Z.sub_0_r in Hclose.
  rewrite app_nil_l. split; [exact Hexact|split; [done|split; [done|split; [done|split; [exact Hclose|]]]]].
  destruct Htop as (top & Ht & Hor & Hsum). exists top. rewrite Z.sub_0_r in Hsum. done.
Qed.

(** The recursive ancestor query ends, even when the relations form a
    cycle, and finds the whole chain: each element is the parent of the one
    before, nobody appears twice, the bettor does not appear, and above the
    last one there is nobody who was not listed already. *)
Theorem ancestor_chain_ends db user :
  let l := ancestor_chain user db in
  linked db user l /\ NoDup (user :: map fst l) /\
  topmost db (user :: map fst l) (last_of user l).
Proof.
  intros l. destruct (walk_spec db (size (users (app db))) [user] user) as (Hl & Hn & Hf & Ht).
  - by apply list_elem_of_here.
  - apply map_subseteq_size, map_filter_subseteq.
  - split; [done|split].
    + apply NoDup_cons. split; [|done]. intros (x & Hx & Hin)%list_elem_of_fmap.
      rewrite Forall_forall in Hf. apply (Hf x Hin). rewrite <- Hx. by apply list_elem_of_here.
    + intros p Hp. destruct (Ht p Hp) as [Hin|Hnone]; [left|by right].
      rewrite elem_of_app, list_elem_of_singleton in Hin. apply elem_of_cons.
      destruct Hin as [Hin|Hin]; [right|by left]. by apply list_elem_of_In, in_rev, list_elem_of_In.
Qed.

(** The chain a snapshot freezes: the chain of the bettor at the rates of the
    room, when the room's rebates are enabled and the bet is real. *)
Definition frozen_chain (betID : string) (db : DB) : list Ancestor :=
  match bets db.(app) !! betID with
  | None => []
  | Some b =>
      match bt_game_room_id b with
      | Some room =>
          if bt_is_simulated b then []
          else match find_row (is_room_config room) (room_rebate_configs db.(app)) with
          | Some (_, c) => if rr_enabled c then map (ancestor_of (rr_rates c)) (ancestor_chain (bt_user_id b) db)
                           else []
          | None => []
          end
      | None => []
      end
  end.

Lemma SnapshotTx_row `{Uuids} betID db u db1 :
  SnapshotTx betID db = Ok (u, db1) ->
  exists r, bet_rebate_snapshots db1.(app) !! betID = Some r /\
    bs_ancestors r = JArr (map ancestor_json (frozen_chain betID db)) /\
    (bs_enabled r = false -> frozen_chain betID db = []).
Proof.
  intros Hrun. unfold SnapshotTx, select_id, select_where in Hrun. cbv zeta in Hrun. tx_steps.
  all: cbn in *; try congruence; simplify_map_eq.
  all: eexists; (split; [reflexivity|]); unfold frozen_chain; cbn;
    repeat match goal with E : bets _ !! _ = Some _ |- _ => rewrite E; clear E
      | E : bt_game_room_id _ = _ |- _ => rewrite E; clear E
      | E : bt_is_simulated _ = _ |- _ => rewrite E; clear E end; try done.
  all: match goal with |- context [find_row (is_room_config ?s) ?t] =>
    destruct (find_row (is_room_config s) t) as [[i c]|] end; cbn; [by destruct (rr_enabled c)|done].
Qed.

(** The rebate chain of a bet is frozen when it is placed: what settlement
    loads is what the snapshot saw, whatever happened to the agents, their
    levels and the room's configuration in the meantime. *)
Theorem snapshot_frozen `{Uuids} betID db u db1 db2 :
  SnapshotTx betID db = Ok (u, db1) -> Forall sane (frozen_chain betID db) ->
  bet_rebate_snapshots db2.(app) !! betID = bet_rebate_snapshots db1.(app) !! betID ->
  LoadTx betID db2 = Ok (frozen_chain betID db, db2).
Proof.
  intros Hrun Hsane Hsame. destruct (SnapshotTx_row _ _ _ _ Hrun) as (r & Hr & Hanc & Hen).
  rewrite Hr in Hsame. unfold LoadTx. tx_do (Some r).
  { unfold select_id, gets. change (tbl (app db2)) with (bet_rebate_snapshots (app db2)). by rewrite Hsame. }
  tx_do r; [done|]. destruct (bs_enabled r).
  - rewrite Hanc, dec_ancestors_json by done. done.
  - by rewrite Hen.
Qed.

(** A rebate configuration is only replaced by six distinct levels with
    rates between 0 and 1000 that do not fall with the level, and only by a
    caller who saw the current version: the version goes up by one, and a
    second change based on the same version is refused as a conflict. *)
Theorem UpdateConfig_versioned `{Uuids} valid_uuid now actor id inp db c db' :
  UpdateConfig valid_uuid now actor id inp db = Ok (c, db') ->
  (exists old, room_rebate_configs db.(app) !! id = Some old /\ rr_version old = cu_Version inp /\
     room_rebate_configs db'.(app) !! id = Some (cf_row c) /\
     rr_version (cf_row c) = rr_version old + 1) /\
  (length (cu_Levels inp) = 6%nat /\ NoDup (map lv_Level (cu_Levels inp)) /\
   Forall level_ok (cu_Levels inp) /\
   forall l, l ∈ cu_Levels inp -> rr_rates (cf_row c) !! Z.to_nat (lv_Level l - 1) = Some (lv_RatePerMille l)) /\
  ascending (rr_rates (cf_row c)) = true /\
  forall now' inp', cu_Version inp' = cu_Version inp -> validateLevels (cu_Levels inp') = Ok () ->
    UpdateConfig valid_uuid now' actor id inp' db' = Err rebate_ErrConflict.
Proof.
  intros Hrun. unfold UpdateConfig, select_id in Hrun. cbv zeta in Hrun. tx_steps; bool_to_prop.
  all: match goal with E : @tbl _ _ _ !! _ = Some _ |- _ => cbn in E end; try (cbn in *; congruence).
  match goal with E : validateLevels _ = Ok _ |- _ => unfold validateLevels in E;
    rewrite guard_Ok in E; destruct E as [Hlen E]; apply res_bind_Ok in E as (rates & Hck & Has) end.
  apply negb_false_iff, Nat.eqb_eq in Hlen. apply fail_if_Ok, negb_false_iff in Has.
  apply check_levels_iff in Hck as (Hf & Hn & _ & ->); [|done].
  cbn in *. simplify_map_eq. split; [by eexists|split; [|split; [done|]]].
  - split; [done|split; [by apply NoDup_slots|split; [done|]]].
    intros l Hl. by apply put_rates_lookup.
  - intros now' inp' Hver Hlv. unfold UpdateConfig.
    rewrite !reject_skip, (lift_skip _ () _ _ Hlv), gets_skip, reject_skip; cbn; rewrite ?Hver.
    + unfold select_id. rewrite gets_skip. erewrite found_skip; [|cbn; apply lookup_insert_eq].
      apply reject_stop. apply negb_true_iff, Z.eqb_neq. cbn. lia.
    + by apply negb_false_iff.
    + apply orb_false_iff. rewrite Z.ltb_ge, Z.eqb_neq. done.
    + by apply negb_false_iff.
    + by apply negb_false_iff.
Qed.

(** ** Witnesses *)

Definition example_chain : list Ancestor :=
  [mk_Ancestor "a" 1 100 false; mk_Ancestor "v" 2 300 true; mk_Ancestor "b" 3 250 false].

Lemma Calculate_differential_witness :
  exists allocs, Calculate 1999 5000 "dodge" example_chain = Ok allocs /\
    map al_AmountMinor allocs = [300; 450] /\ exists top, 0 <= top <= 1000 /\ 1000 * total allocs <= 3001 * top.
Proof.
  eexists. split; [vm_compute; reflexivity|split; [reflexivity|]].
  destruct (Calculate_differential 1999 5000 "dodge" example_chain
    [mk_Allocation (mk_Ancestor "a" 1 100 false) 3001 100 300;
     mk_Allocation (mk_Ancestor "b" 3 250 false) 3001 150 450]) as (_ & _ & _ & _ & _ & top & Htop & _ & Hsum).
  - unfold int64_max. lia.
  - unfold int64_max. lia.
  - vm_compute. reflexivity.
  - exists top. split; [exact Htop|exact Hsum].
Defined.

(** Alice's agent is Carol, Carol's agent is Dave, and Dave's is Carol again. *)
Definition rebate_app : App :=
  set_users (<["carol" := mk_user_row "active" false "Carol" 10004 (Some 1) None (Some "carol") None 0]>
            (<["dave" := mk_user_row "active" false "Dave" 10005 (Some 3) None (Some "dave") None 0]> (users example_app)))
  (set_agent_relations {[ "alice" := mk_agent_relation_row (Some "carol") None;
                          "carol" := mk_agent_relation_row (Some "dave") None;
                          "dave" := mk_agent_relation_row (Some "carol") None ]}
  (set_room_rebate_configs {[ "cfg-1" := mk_rebate_config_row "room-1" true 7 [10; 20; 30; 40; 50; 60] 0 ]}
  (set_bets {[ "bet-1" := mk_bet_row "req-1" "round-1" "alice" "wallet-1" (Some "room-1") (Some "road")
      (JObj [("pick", JStr "big")]) 1000 "accepted" 0 (Some 195) (Some 100) false None true 1 None 0
      None None 1 ]}
   example_app)))%string.

Definition rebate_db : DB := mk_DB (mk_Money ∅ []) rebate_app.

Lemma snapshot_frozen_witness :
  exists db1, SnapshotTx "bet-1" rebate_db = Ok ((), db1) /\
    frozen_chain "bet-1" rebate_db = [mk_Ancestor "carol" 1 10 false; mk_Ancestor "dave" 3 30 false] /\
    forall agents, let db2 := set_app (set_agent_relations agents db1.(app)) db1 in
      LoadTx "bet-1" db2 = Ok (frozen_chain "bet-1" rebate_db, db2).
Proof.
  destruct (succeeds_Ok (fun _ => true) (SnapshotTx "bet-1" rebate_db)) as ([[] db1] & Hrun & _).
  { vm_compute. reflexivity. }
  assert (Hchain : frozen_chain "bet-1" rebate_db =
    [mk_Ancestor "carol" 1 10 false; mk_Ancestor "dave" 3 30 false]) by (vm_compute; reflexivity).
  exists db1. split; [exact Hrun|split; [exact Hchain|]]. intros agents db2.
  apply (snapshot_frozen "bet-1" rebate_db () db1 db2 Hrun); [|reflexivity].
  rewrite Hchain. unfold sane, in_int64, int64_min, int64_max. repeat constructor; cbn; lia.
Defined.

Definition example_update : ConfigUpdate :=
  mk_ConfigUpdate 7 true [mk_Level 1 5; mk_Level 2 5; mk_Level 3 9; mk_Level 4 9; mk_Level 5 80; mk_Level 6 90].

Lemma UpdateConfig_versioned_witness :
  exists c db', UpdateConfig (fun _ => true) 5 "staff" "cfg-1" example_update rebate_db = Ok (c, db') /\
    ascending (rr_rates (cf_row c)) = true /\
    UpdateConfig (fun _ => true) 6 "staff" "cfg-1" example_update db' = Err rebate_ErrConflict.
Proof.
  destruct (succeeds_Ok (fun _ => true)
    (UpdateConfig (fun _ => true) 5 "staff" "cfg-1" example_update rebate_db)) as ([c db'] & Hrun & _).
  { vm_compute. reflexivity. }
  exists c, db'. split; [exact Hrun|].
  destruct (UpdateConfig_versioned _ _ _ _ _ _ _ _ Hrun) as (_ & _ & Hasc & Hagain).
  split; [exact Hasc|]. apply Hagain; [reflexivity|vm_compute; reflexivity].
Defined.
