(* ===== verification/ChainProofs.v ===== *)
(** * Deposits and withdrawals: what holds

    Every committed run of [Chain] keeps the books and the custody invariant;
    a deposit is credited once; a withdrawal only moves along its state
    machine. *)

From S2P Require Import Prelude GoStrings Money Json Schema Store Books Custody Wallet Chain Examples.

Section proofs.
Context `{Uuids}.

Lemma ensureWallet_Ok now u c db wid db' :
  ensureWallet now u c db = Ok (wid, db') ->
  quiet db db' /\ (books db.(money) -> books db'.(money)) /\
  (exists w, wallets db'.(money) !! wid = Some w /\ w_user_id w = u /\ w_currency w = c) /\
  deposits db'.(app) = deposits db.(app) /\
  forall i, avail db'.(money) i = avail db.(money) i.
Proof.
  unfold ensureWallet, find_wallet. intros Hrun. tx_steps; try discriminate; wallet_rows.
  - split; [quiet_steps|split; [done|split; [|done]]].
    destruct a0 as [i w]. wallet_rows. by exists w.
  - split; [quiet_steps|split; [|split; [|split; [done|]]]].
    + intros Hb. money_simpl. by apply books_open.
    + money_simpl. rewrite lookup_insert_eq. by eexists.
    + intros i. money_simpl. rewrite avail_insert, money_eta. case_bool_decide; [|done].
      subst. unfold avail. by match goal with E : wallets _ !! _ = None |- _ => rewrite E end.
Qed.

Lemma ensureWallet_ledger now u c db wid db' :
  ensureWallet now u c db = Ok (wid, db') -> ledger db'.(money) = ledger db.(money).
Proof. unfold ensureWallet, find_wallet. intros Hrun. by tx_steps. Qed.

(** The two outcomes of [CreditDeposit]. *)
Lemma CreditDeposit_inv t input db r db' :
  CreditDeposit t input db = Ok (r, db') ->
  0 < di_AmountMinor input /\ is_empty (di_ProviderEventID input) = false /\
  exists aid a, find_address (di_ChainCode input) (di_TokenCode input) (di_Address input) db
                  = Ok (Some (aid, a), db) /\
  let same d := bool_decide (dep_provider_event_id d = di_ProviderEventID input) ||
                bool_decide (dep_tx_hash d = di_TxHash input) in
  (dr_Credited r = false /\ db' = tick db /\
   exists d, find_row (fun _ => same) (deposits db.(app)) = Some (dr_DepositID r, d)) \/
  (r = mk_DepositResult (drawn db) "credited" true /\
   find_row (fun _ => same) (deposits db.(app)) = None /\
   (exists d, deposits db'.(app) = <[drawn db := d]> (deposits db.(app)) /\
      deposits db.(app) !! drawn db = None /\
      dep_provider_event_id d = di_ProviderEventID input /\ dep_tx_hash d = di_TxHash input /\
      dep_amount_minor d = di_AmountMinor input /\ dep_status d = "credited"%string) /\
   exists wid w db1,
     ensureWallet (sql_now t) (ca_user_id a) (di_TokenCode input) (put_row (drawn db)
        (mk_deposit_row aid (di_ProviderEventID input) (di_TxHash input) (di_AmountMinor input)
          "credited" (Some (go_now t)) (nullif_empty (di_ProviderAmount input))
          (di_ChainDecimals input) (di_PlatformDecimals input)) (tick db)) = Ok (wid, db1) /\
     wallets db1.(money) !! wid = Some w /\
     let after := (w_available w + di_AmountMinor input)%i64 in
     let w' := wallet_after w (fun _ => after) w_frozen (go_now t) in
     wallet_ok w' = true /\
     exists id,
     money db' = mk_Money (<[wid := w']> (wallets db1.(money)))
       (ledger_row_of w' (sql_now t) (entry id wid "deposit" (drawn db) "deposit_credit"
          (di_AmountMinor input) after) :: ledger db1.(money)) /\
     quiet db1 db').
Proof.
  unfold CreditDeposit, wallet_by_id, find_address, select_where. intros Hrun. tx_steps.
  all: try discriminate; try congruence.
  all: bool_to_prop; split; [lia|split; [done|]].
  all: match goal with a : string * address_row |- _ => destruct a as [aid ad] end.
  all: exists aid, ad; split; [by unfold gets; do 3 f_equal|].
  - left. split; [done|split; [done|]].
    match goal with E : find_row _ _ = Some ?x |- context [dr_DepositID _] =>
      destruct x as [did d]; exists d; exact E end.
  - right. money_simpl. simplify_map_eq. split; [done|split; [done|split]].
    + match goal with E : ensureWallet _ _ _ _ = Ok _ |- _ =>
        apply ensureWallet_Ok in E as (_ & _ & _ & Hdep & _) end.
      eexists. split; [exact Hdep|done].
    + eexists _, _, _. split; [done|split; [done|split; [done|]]].
      eexists. split; [done|]. quiet_steps.
Qed.

(** A committed run keeps the custody invariant. *)
Definition keeps_custody {A} (m : Tx A) : Prop := forall db a db',
  m db = Ok (a, db') -> custody db -> custody db'.

Lemma CreditDeposit_custody t input :
  di_AmountMinor input <= int64_max -> keeps_custody (CreditDeposit t input).
Proof.
  intros Hmax db r db' Hrun Hcu.
  apply CreditDeposit_inv in Hrun as (Hpos & _ & aid & a & _ & [(_ & -> & _)|
    (_ & _ & _ & wid & w & db1 & Hens & Hw & Hok & id & Hm & Hq)]).
  - apply (custody_quiet db); [done|apply Hcu|apply quiet_tick].
  - pose proof (ensureWallet_Ok _ _ _ _ _ _ Hens) as (Hq1 & Hb1 & _).
    assert (Hb : books db1.(money)) by (apply Hb1, Hcu).
    assert (Hc1 : custody db1).
    { apply (custody_quiet db); [done|done|]. etrans; [|exact Hq1].
      etrans; [apply quiet_tick|by apply quiet_app]. }
    apply (custody_quiet db1); [done| |exact Hq].
    rewrite Hm. apply wallet_ok_iff in Hok as Hok'. cbn in Hok'.
    assert (Hx := checked_add _ _ (proj1 (bounded_lookup _ _ _ Hb Hw))
                    (conj (Z.lt_le_incl _ _ Hpos) Hmax) (proj1 (proj1 Hok'))).
    eapply books_post; try done; cbn; lia.
Qed.

(** *** Requests *)

Lemma found_withdrawal o db x db' :
  with_wallet o db = Ok (Some x, db') ->
  db' = db /\ exists id w wal, o = Some (id, w) /\ wallets db.(money) !! wd_wallet_id w = Some wal /\
    x = scanWithdrawal id w wal.
Proof.
  unfold with_wallet. intros [Hx <-]%gets_Ok. split; [done|].
  destruct o as [[id w]|]; [|done]. cbn in Hx.
  destruct (wallets (money db) !! wd_wallet_id w) as [wal|] eqn:E; [|done]. cbn in Hx.
  exists id, w, wal. split; [done|split; [done|congruence]].
Qed.

Lemma ResolveDecimals_Ok c e db d db' :
  ResolveDecimals c e db = Ok (d, db') ->
  db' = db /\ exists r, currencies db.(app) !! ToUpper (TrimSpace c) = Some r /\
    cur_decimals r = d /\ (e = true -> cur_enabled r = true).
Proof.
  unfold ResolveDecimals. intros Hrun. tx_steps. split; [done|]. eexists. split; [done|].
  split; [done|]. intros ->. cbn in *. bool_to_prop. done.
Qed.

Lemma resolve_supported_Ok c db d db' :
  resolve_supported c db = Ok (d, db') -> ResolveDecimals c true db = Ok (d, db').
Proof.
  unfold resolve_supported. destruct (ResolveDecimals c true db) as [|e]; [done|].
  by destruct (_ || _).
Qed.

Lemma check_asset_Ok policy input db x db' :
  check_asset policy input db = Ok (x, db') ->
  db' = db /\ (exists u, users db.(app) !! wi_UserID input = Some u /\ u_is_virtual u = false) /\
  validateAmount policy (wi_AmountMinor input) = Ok ().
Proof.
  unfold check_asset, find_asset, select_where. intros Hrun. tx_steps.
  match goal with E : resolve_supported _ _ = Ok _ |- _ =>
    apply resolve_supported_Ok, ResolveDecimals_Ok in E as [-> _] end.
  split; [done|split; [by eexists|]].
  match goal with E : validateAmount _ _ = Ok ?u |- _ => by destruct u end.
Qed.

Lemma check_daily_limit_Ok t policy u c n db x db' :
  check_daily_limit t policy u c n db = Ok (x, db') -> db' = db.
Proof.
  unfold check_daily_limit, withdrawn_since, select_all. intros Hrun. by tx_steps.
Qed.

Lemma RequestWithdrawal_inv t policy input0 db r db' :
  RequestWithdrawal t policy input0 db = Ok (r, db') ->
  let input := normalize_input input0 in
  let n := wi_AmountMinor input in
  0 < n /\
  (db' = db /\ findWithdrawalByRequestID (wi_UserID input) (wi_ClientRequestID input) db
                 = Ok (Some r, db) \/
   exists wid w row, find_row (is_wallet_of (wi_UserID input) (wi_Currency input))
                       (wallets db.(money)) = Some (wid, w) /\
     n <= w_available w /\ WithdrawalID r = drawn db /\
     let w' := wallet_after w (fun _ => (w_available w - n)%i64) (fun _ => (w_frozen w + n)%i64)
                 (sql_now t) in
     wallet_ok w' = true /\
     withdrawals db.(app) !! drawn db = None /\
     withdrawals db'.(app) = <[drawn db := row]> (withdrawals db.(app)) /\
     point_withdrawals db'.(app) = point_withdrawals db.(app) /\
     lulu_orders db'.(app) = lulu_orders db.(app) /\
     wd_user_id row = wi_UserID input /\ wd_token_code row = Some (wi_Currency input) /\
     wd_wallet_id row = wid /\ wd_amount_minor row = n /\ wd_status row = "requested"%string /\
     wd_client_request_id row = wi_ClientRequestID input /\
     validateAmount policy n = Ok () /\
     check_daily_limit t policy (wi_UserID input) (wi_Currency input) n db = Ok ((), db) /\
     wd_created_at row = sql_now t /\
     (forall wal, w_currency wal = wi_Currency input -> scanWithdrawal (drawn db) row wal = r) /\
     find_row (fun _ v => bool_decide (wd_user_id v = wi_UserID input) &&
       bool_decide (wd_client_request_id v = wi_ClientRequestID input)) (withdrawals db.(app)) = None /\
     exists id, money db' = mk_Money (<[wid := w']> (wallets db.(money)))
       (ledger_row_of w' (sql_now t)
          (mk_entry id wid "withdrawal" (drawn db) "withdrawal_freeze" (- n)%i64
             (w_available w - n)%i64 None (- (- n)%i64)%i64 "" None None) :: ledger db.(money))).
Proof.
  unfold RequestWithdrawal, findWithdrawalByRequestID, select_where, find_wallet, insert_withdrawal.
  intros Hrun. cbv zeta in Hrun. tx_steps; bool_to_prop; cbn [wi_AmountMinor normalize_input] in *.
  all: try match goal with E : with_wallet _ _ = Ok (Some _, _) |- _ =>
    pose proof E as E0; apply found_withdrawal in E0 as (-> & _); split; [lia|left; split; done] end.
  all: match goal with E : with_wallet _ _ = Ok (None, _) |- _ =>
    unfold with_wallet in E; apply gets_Ok in E as [_ <-] end.
  all: match goal with E : check_asset _ _ _ = Ok _ |- _ =>
    apply check_asset_Ok in E as (-> & _ & Hval) end.
  all: match goal with E : check_daily_limit _ _ _ _ _ _ = Ok _ |- _ =>
    pose proof E as Hday; apply check_daily_limit_Ok in E as ->;
    match type of Hday with _ = Ok (?u, _) => destruct u end end.
  all: match goal with x : string * wallet_row |- _ => destruct x as [wid wrow] end; cbn in *.
  all: wallet_rows.
  split; [lia|]. right. money_simpl. simplify_map_eq.
  eexists wid, _, _. split; [done|split; [done|split; [done|split; [done|split; [done|]]]]].
  split; [done|split; [done|]].
  do 10 (split; [done|]). split; [|split; [done|by eexists]].
  intros wal Hwal. unfold scanWithdrawal. cbn. rewrite Hwal. f_equal.
  unfold nullif_empty. by case_bool_decide.
Qed.

End proofs.

(** ** Events

    What one committed transaction of the component does to the withdrawals:
    a new request, a change of status without money, a release of the frozen
    amount, or something that concerns no withdrawal. *)

Definition withdrawal_entry (id : string) (r : ledger_row) : bool :=
  bool_decide (le_business_type r = "withdrawal"%string) && bool_decide (le_business_id r = id).

(** Net effect, over the whole ledger, of the entries of one withdrawal. *)
Definition booked_for (f : ledger_row -> Z) (id : string) (db : DB) : Z :=
  sum_Z (map f (List.filter (withdrawal_entry id) (ledger db.(money)))).

Definition same_request (w w' : withdrawal_row) : Prop :=
  wd_user_id w' = wd_user_id w /\ wd_wallet_id w' = wd_wallet_id w /\
  wd_token_code w' = wd_token_code w /\ wd_amount_minor w' = wd_amount_minor w /\
  wd_client_request_id w' = wd_client_request_id w.

Inductive event (db db' : DB) : Prop :=
| ev_other :
    books db'.(money) -> quiet db db' ->
    (forall f id, booked_for f id db' = booked_for f id db) -> event db db'
| ev_request id row w w' r :
    withdrawals db.(app) !! id = None ->
    withdrawals db'.(app) = <[id := row]> (withdrawals db.(app)) ->
    point_withdrawals db'.(app) = point_withdrawals db.(app) ->
    lulu_orders db'.(app) = lulu_orders db.(app) ->
    posted db db' (wd_wallet_id row) w w' r -> withdrawal_entry id r = true ->
    w_user_id w = wd_user_id row -> wd_token_code row = Some (w_currency w) ->
    0 < wd_amount_minor row <= int64_max -> wd_status row = "requested"%string ->
    le_available_delta r = - wd_amount_minor row -> le_frozen_delta r = wd_amount_minor row ->
    event db db'
| ev_status id x x' :
    withdrawals db.(app) !! id = Some x ->
    withdrawals db'.(app) = <[id := x']> (withdrawals db.(app)) ->
    point_withdrawals db'.(app) = point_withdrawals db.(app) ->
    lulu_orders db'.(app) = lulu_orders db.(app) -> money db' = money db ->
    same_request x x' ->
    (wd_status x = "requested"%string /\ wd_status x' = "approved"%string \/
     wd_status x = "approved"%string /\ wd_status x' = "broadcasted"%string) ->
    event db db'
| ev_release id x x' w w' r :
    withdrawals db.(app) !! id = Some x ->
    withdrawals db'.(app) = <[id := x']> (withdrawals db.(app)) ->
    point_withdrawals db'.(app) = point_withdrawals db.(app) ->
    lulu_orders db'.(app) = lulu_orders db.(app) ->
    posted db db' (wd_wallet_id x) w w' r -> withdrawal_entry id r = true ->
    same_request x x' -> le_frozen_delta r = - wd_amount_minor x ->
    (wd_status x = "requested"%string /\ wd_status x' = "cancelled"%string /\
       le_available_delta r = wd_amount_minor x \/
     wd_status x = "broadcasted"%string /\ wd_status x' = "failed"%string /\
       le_available_delta r = wd_amount_minor x \/
     wd_status x = "broadcasted"%string /\ wd_status x' = "confirmed"%string /\
       le_available_delta r = 0) ->
    event db db'.

Lemma booked_for_cons f id db ws r l :
  money db = mk_Money ws (r :: l) ->
  booked_for f id db = (if withdrawal_entry id r then f r else 0)
    + sum_Z (map f (List.filter (withdrawal_entry id) l)).
Proof.
  intros Hm. unfold booked_for. rewrite Hm. cbn [ledger List.filter].
  by destruct (withdrawal_entry id r).
Qed.

Lemma booked_for_posted f id db db' wid w w' r :
  posted db db' wid w w' r ->
  booked_for f id db' = (if withdrawal_entry id r then f r else 0) + booked_for f id db.
Proof. intros []. by erewrite booked_for_cons. Qed.

Lemma withdrawal_entry_other id j r : withdrawal_entry id r = true -> j <> id -> withdrawal_entry j r = false.
Proof.
  unfold withdrawal_entry. intros [_ Hid%bool_decide_eq_true]%andb_true_iff Hne.
  rewrite Hid, (bool_decide_false (id = j)), andb_false_r by congruence. done.
Qed.

(** *** Custody *)

Lemma event_custody db db' : custody db -> event db db' -> custody db'.
Proof.
  intros Hcu [Hb Hq _|id row w w' r Hid Hwd Hpw Hlu Hpo _ Hu Hc Ham Hst Ha Hf|
              id x x' Hid Hwd Hpw Hlu Hm (Hxu & Hxw & Hxt & Hxa & _) Hst|
              id x x' w w' r Hid Hwd Hpw Hlu Hpo _ (Hxu & Hxw & Hxt & Hxa & _) Hf Hst].
  - by eapply custody_quiet.
  - eapply custody_move; [done|done|..].
    + intros i. rewrite (outstanding_insert db db' id row) by (done || by eapply posted_same_owners). f_equal.
      unfold wd_hold. rewrite Hst, Hf. change (open_status "requested") with true.
      by rewrite andb_true_r.
    + rewrite Hwd. intros j y [[-> ->]|Hy]%lookup_insert_or; [|by apply (cu_withdrawals _ Hcu j)].
      split; [done|]. exists w. rewrite Hc. split; [apply Hpo|done].
    + rewrite Hpw. apply Hcu.
    + rewrite Hlu. apply Hcu.
  - destruct (cu_withdrawals _ Hcu id x Hid) as [Hxr Hxo]. split.
    + rewrite Hm. apply Hcu.
    + intros i. rewrite Hm, (cu_backed _ Hcu), (outstanding_update db db' id x x') by (done || by apply same_money_owners).
      unfold wd_hold. rewrite Hxw, Hxa.
      destruct Hst as [[-> ->]|[-> ->]]; change (open_status _) with true; lia.
    + rewrite Hwd, Hm. intros j y [[-> ->]|Hy]%lookup_insert_or; [|by apply (cu_withdrawals _ Hcu j)].
      by rewrite Hxa, Hxw, Hxu, Hxt.
    + rewrite Hpw, Hm. apply Hcu.
    + rewrite Hlu, Hm. apply Hcu.
  - destruct (cu_withdrawals _ Hcu id x Hid) as [Hxr Hxo].
    eapply custody_move; [done|done|..].
    + intros i. rewrite (outstanding_update db db' id x x') by (done || by eapply posted_same_owners).
      unfold wd_hold. rewrite Hxw, Hxa, Hf.
      destruct Hst as [(-> & -> & _)|[(-> & -> & _)|(-> & -> & _)]];
        match goal with |- context [open_status ?s && _] => idtac | _ => idtac end;
        change (open_status "requested") with true; change (open_status "broadcasted") with true;
        change (open_status "cancelled") with false; change (open_status "failed") with false;
        change (open_status "confirmed") with false; rewrite andb_true_r, andb_false_r;
        case_bool_decide; lia.
    + rewrite Hwd. intros j y [[-> ->]|Hy]%lookup_insert_or; [|by apply (cu_withdrawals _ Hcu j)].
      by rewrite Hxa, Hxw, Hxu, Hxt.
    + rewrite Hpw. apply Hcu.
    + rewrite Hlu. apply Hcu.
Qed.

(** *** Each transaction is an event *)

Section operations.
Context `{Uuids}.

Lemma event_refl db : custody db -> event db db.
Proof. intros Hcu. apply ev_other; [apply Hcu|reflexivity|done]. Qed.

Lemma event_ticks db db' :
  custody db -> money db' = money db -> quiet db db' -> event db db'.
Proof.
  intros Hcu Hm Hq. apply ev_other; [rewrite Hm; apply Hcu|done|].
  intros f id. unfold booked_for. by rewrite Hm.
Qed.

Lemma RequestWithdrawal_event t policy input db r db' :
  wi_AmountMinor input <= int64_max ->
  RequestWithdrawal t policy input db = Ok (r, db') -> custody db -> event db db'.
Proof.
  intros Hmax Hrun Hcu. apply RequestWithdrawal_inv in Hrun as
    (Hpos & [[-> _]|(wid & w & row & Hfind & Hle & _ & Hok & Hfresh & Hwd & Hpw & Hlu & Hu & Hc & Hwid & Ham & Hst & _ & _ & _ & _ & _ & _ & id & Hm)]);
    [by apply event_refl|]. cbn [normalize_input wi_AmountMinor] in *.
  apply find_wallet_row in Hfind as (Hw & Hwu & Hwc).
  pose proof (bounded_lookup _ _ _ (cu_books _ Hcu) Hw) as [Hba Hbf].
  apply wallet_ok_iff in Hok as Hok'. cbn in Hok'.
  assert (Hfx : (w_frozen w + wi_AmountMinor input)%i64 = w_frozen w + wi_AmountMinor input)
    by (apply checked_add; lia).
  assert (Hax : (w_available w - wi_AmountMinor input)%i64 = w_available w - wi_AmountMinor input)
    by (apply exact_sub; lia).
  assert (Hnx : (- wi_AmountMinor input)%i64 = - wi_AmountMinor input) by (apply exact_neg; lia).
  assert (Hnnx : (- (- wi_AmountMinor input)%i64)%i64 = wi_AmountMinor input)
    by (rewrite Hnx, wrap64_small; unfold in_int64, int64_min, int64_max in *; lia).
  eapply (ev_request db db' (drawn db) row w); try done.
  - rewrite Hwid. split; try done; cbn; rewrite ?Hnnx, ?Hnx, ?Hax, ?Hfx; lia.
  - unfold withdrawal_entry. cbn. by rewrite !bool_decide_true.
  - by rewrite Hu.
  - by rewrite Hwc.
  - lia.
  - cbn. rewrite Ham. done.
  - cbn. by rewrite Ham.
Qed.

Lemma ApproveWithdrawal_event t id reviewer db r db' :
  ApproveWithdrawal t id reviewer db = Ok (r, db') -> custody db -> event db db'.
Proof.
  unfold ApproveWithdrawal, findWithdrawalForUpdate, select_id. intros Hrun Hcu.
  tx_steps; bool_to_prop; match goal with E : with_wallet _ _ = Ok _ |- _ =>
    apply found_withdrawal in E as (-> & j & x & wal & Hj & Hwal & ->) end; cbn in *.
  - match goal with E : withdrawals _ !! _ = None |- _ => by rewrite E in Hj end.
  - match goal with E : withdrawals _ !! _ = Some ?y |- _ =>
      rewrite E in Hj; injection Hj as <- <-;
      apply (ev_status _ _ id y (set_status "approved" (Some reviewer) (wd_failure_reason y) y));
      try done; by left end.
Qed.

Lemma RejectWithdrawal_event t id reviewer reason db r db' :
  RejectWithdrawal t id reviewer reason db = Ok (r, db') -> custody db -> event db db'.
Proof.
  unfold RejectWithdrawal, findWithdrawalForUpdate, select_id, find_wallet. intros Hrun Hcu.
  tx_steps; bool_to_prop; match goal with E : with_wallet _ _ = Ok _ |- _ =>
    apply found_withdrawal in E as (-> & j & x & wal & Hj & Hwal & ->) end; cbn in *.
  all: try match goal with E : withdrawals _ !! _ = None |- _ => by rewrite E in Hj end.
  all: match goal with p : string * wallet_row |- _ => destruct p as [wid wrow] end; cbn in *.
  all: wallet_rows.
  match goal with E : withdrawals _ !! _ = Some ?y |- _ =>
    rewrite E in Hj; injection Hj as <- <-; rename E into Hx; rename y into x0 end.
  destruct (cu_withdrawals _ Hcu id x0 Hx) as [Hxr (wal' & Hwal' & Hwu & Hwc)].
  simplify_map_eq.
  match goal with E : find_row _ _ = Some (wid, _) |- _ => 
    rewrite (find_wallet_unique (wd_user_id x0) (w_currency wal) _ (wd_wallet_id x0) wal) in E;
      [injection E as <- <-|apply Hcu|done..] end.
  pose proof (bounded_lookup _ _ _ (cu_books _ Hcu) Hwal) as [Hba Hbf].
  match goal with E : wallet_ok _ = true |- _ => apply wallet_ok_iff in E as Hok'; rename E into Hok end.
  cbn in Hok'.
  assert (Hax : (w_available wal + wd_amount_minor x0)%i64 = w_available wal + wd_amount_minor x0)
    by (apply checked_add; lia).
  assert (Hfx : (w_frozen wal - wd_amount_minor x0)%i64 = w_frozen wal - wd_amount_minor x0)
    by (apply exact_sub; lia).
  assert (Hnx : (- wd_amount_minor x0)%i64 = - wd_amount_minor x0) by (apply exact_neg; lia).
  eapply (ev_release _ _ id x0); try done.
  - split; try done; cbn; rewrite ?Hnx, ?Hax, ?Hfx; lia.
  - unfold withdrawal_entry. cbn. by rewrite !bool_decide_true.
  - cbn. by rewrite Hnx.
  - left. done.
Qed.

Lemma mark_broadcasted_event t id order db r db' :
  mark_broadcasted t id order db = Ok (r, db') -> custody db -> event db db'.
Proof.
  unfold mark_broadcasted, select_id, select_where. intros Hrun Hcu.
  tx_steps; bool_to_prop; try by apply event_refl.
  - congruence.
  - cbn in *. simplify_eq. match goal with E : withdrawals _ !! _ = Some ?y |- _ =>
      apply (ev_status _ _ id y (set_broadcasted order y)); try done; by right end.
Qed.

Lemma ApplyWithdrawalStatus_event t input db r db' :
  ApplyWithdrawalStatus t input db = Ok (r, db') -> custody db -> event db db'.
Proof.
  unfold ApplyWithdrawalStatus, check_tx_hash, select_where, wallet_by_id. intros Hrun Hcu.
  tx_steps; bool_to_prop; try by apply event_refl.
  all: try congruence.
  all: match goal with E : find_row _ _ = Some (?i, ?y) |- _ =>
    apply find_row_Some in E as [Hx _]; cbn in Hx; rename i into wdid; rename y into x0 end.
  all: destruct (cu_withdrawals _ Hcu wdid x0 Hx) as [Hxr _].
  all: try match goal with E : @tbl _ _ _ !! _ = None |- _ => cbn in E; congruence end.
  all: match goal with E : @tbl _ _ _ !! _ = Some ?z |- _ =>
    assert (z = x0) as -> by (cbn in E; congruence); clear E end.
  all: repeat match goal with E : wallets ?m !! ?k = Some ?y, E' : wallets ?m !! ?k = Some ?z |- _ =>
    assert (z = y) as -> by congruence; clear E' end.
  all: match goal with E : wallets (money ?d) !! wd_wallet_id ?x = Some ?y |- event ?d _ =>
    rename E into Hw; rename y into wal; pose proof (bounded_lookup _ _ _ (cu_books _ Hcu) Hw) as [Hba Hbf] end.
  all: match goal with E : wallet_ok _ = true |- _ => pose proof (proj1 (wallet_ok_iff _) E) as Hok'; cbn in Hok' end.
  all: assert (Hfx : (w_frozen wal - wd_amount_minor x0)%i64 = w_frozen wal - wd_amount_minor x0)
    by (apply exact_sub; lia).
  all: assert (Hnx : (- wd_amount_minor x0)%i64 = - wd_amount_minor x0) by (apply exact_neg; lia).
  all: try assert (Hax : (w_available wal + wd_amount_minor x0)%i64 = w_available wal + wd_amount_minor x0)
    by (apply checked_add; lia).
  all: simplify_map_eq.
  all: eapply (ev_release _ _ wdid x0); try done.
  all: try (split; try done; cbn; rewrite ?Hnx, ?Hfx; try rewrite Hax; lia).
  all: try (unfold withdrawal_entry; cbn; by rewrite !bool_decide_true); try exact Hnx.
  all: try (right; right; done).
  right; left. split; [done|split; done].
Qed.

End operations.

(** ** The life of a withdrawal *)

(** The state machine of [withdrawals.status]. *)
Inductive edge : string -> string -> Prop :=
| edge_approve : edge "requested" "approved"
| edge_cancel : edge "requested" "cancelled"
| edge_broadcast : edge "approved" "broadcasted"
| edge_confirm : edge "broadcasted" "confirmed"
| edge_fail : edge "broadcasted" "failed".

(** What the ledger holds about a withdrawal, by its status: the available
    balance gets the amount back only when it is cancelled or failed, the
    frozen balance holds it only while it is open. *)
Definition returned_status (s : string) : bool := bool_decide (s ∈ ["cancelled"; "failed"]).

Definition expected_available (w : withdrawal_row) : Z :=
  if returned_status (wd_status w) then 0 else - wd_amount_minor w.

Definition expected_frozen (w : withdrawal_row) : Z :=
  if open_status (wd_status w) then wd_amount_minor w else 0.

Definition accounted (db : DB) : Prop := forall id,
  booked_for le_available_delta id db =
    from_option expected_available 0 (withdrawals db.(app) !! id) /\
  booked_for le_frozen_delta id db =
    from_option expected_frozen 0 (withdrawals db.(app) !! id).

Lemma accounted_one db db' id x' r :
  accounted db -> withdrawals db'.(app) = <[id := x']> (withdrawals db.(app)) ->
  withdrawal_entry id r = true ->
  (forall f j, booked_for f j db' = (if withdrawal_entry j r then f r else 0) + booked_for f j db) ->
  le_available_delta r + booked_for le_available_delta id db = expected_available x' ->
  le_frozen_delta r + booked_for le_frozen_delta id db = expected_frozen x' ->
  accounted db'.
Proof.
  intros Hacc Hwd He Hb Ha Hf j. rewrite !Hb, Hwd. destruct (decide (j = id)) as [->|Hne].
  - rewrite lookup_insert_eq, He. cbn. done.
  - rewrite lookup_insert_ne, (withdrawal_entry_other id j r) by done. apply Hacc.
Qed.

Ltac status_simpl :=
  change (open_status "requested") with true in *; change (open_status "approved") with true in *;
  change (open_status "broadcasted") with true in *; change (open_status "cancelled") with false in *;
  change (open_status "failed") with false in *; change (open_status "confirmed") with false in *;
  change (returned_status "requested") with false in *;
  change (returned_status "approved") with false in *;
  change (returned_status "broadcasted") with false in *;
  change (returned_status "cancelled") with true in *;
  change (returned_status "failed") with true in *;
  change (returned_status "confirmed") with false in *; cbv iota in *.

Lemma event_accounted db db' : custody db -> accounted db -> event db db' -> accounted db'.
Proof.
  intros Hcu Hacc [_ Hq Hb|id row w w' r Hid Hwd _ _ Hpo He _ _ Ham Hst Ha Hf|
    id x x' Hid Hwd _ _ Hm (_ & _ & _ & Hxa & _) Hst|
    id x x' w w' r Hid Hwd _ _ Hpo He (_ & _ & _ & Hxa & _) Hf Hst].
  - intros j. rewrite !Hb, (q_withdrawals _ _ Hq). apply Hacc.
  - destruct (Hacc id) as [Hz1 Hz2]. rewrite Hid in Hz1, Hz2. cbn in Hz1, Hz2.
    eapply accounted_one; try done; [intros f j; by eapply booked_for_posted|..].
    + unfold expected_available. rewrite Hst, Ha, Hz1. status_simpl. lia.
    + unfold expected_frozen. rewrite Hst, Hf, Hz2. status_simpl. lia.
  - intros j. unfold booked_for. rewrite Hm, Hwd. fold (booked_for le_available_delta j db).
    fold (booked_for le_frozen_delta j db). destruct (decide (j = id)) as [->|Hne].
    + rewrite lookup_insert_eq. cbn. destruct (Hacc id) as [-> ->]. rewrite Hid. cbn.
      unfold expected_available, expected_frozen. rewrite Hxa.
      by destruct Hst as [[-> ->]|[-> ->]].
    + rewrite lookup_insert_ne by done. apply Hacc.
  - destruct (Hacc id) as [Hz1 Hz2]. rewrite Hid in Hz1, Hz2. cbn in Hz1, Hz2.
    unfold expected_available, expected_frozen in Hz1, Hz2.
    destruct Hst as [(Hs & Hs' & Ha)|[(Hs & Hs' & Ha)|(Hs & Hs' & Ha)]]; rewrite Hs in Hz1, Hz2;
      (eapply accounted_one; try done; [intros f j; by eapply booked_for_posted|..]);
      unfold expected_available, expected_frozen; rewrite Hs', ?Ha, ?Hf, ?Hz1, ?Hz2, ?Hxa;
      status_simpl; lia.
Qed.

Lemma same_request_refl w : same_request w w.
Proof. done. Qed.

Lemma event_edges db db' id w :
  event db db' -> withdrawals db.(app) !! id = Some w ->
  exists w', withdrawals db'.(app) !! id = Some w' /\ same_request w w' /\
    (wd_status w' = wd_status w \/ edge (wd_status w) (wd_status w')).
Proof.
  intros [_ Hq _|j row v v' r Hj Hwd _ _ _ _ _ _ _ _ _ _|j x x' Hj Hwd _ _ _ Hsame Hst|
          j x x' v v' r Hj Hwd _ _ _ _ Hsame _ Hst] Hw.
  - exists w. rewrite (q_withdrawals _ _ Hq). split; [done|split; [done|by left]].
  - exists w. rewrite Hwd, lookup_insert_ne by congruence. split; [done|split; [done|by left]].
  - rewrite Hwd. destruct (decide (j = id)) as [->|Hne].
    + simplify_eq. exists x'. rewrite lookup_insert_eq. split; [done|split; [done|right]].
      destruct Hst as [[-> ->]|[-> ->]]; constructor.
    + exists w. rewrite lookup_insert_ne by done. split; [done|split; [done|by left]].
  - rewrite Hwd. destruct (decide (j = id)) as [->|Hne].
    + simplify_eq. exists x'. rewrite lookup_insert_eq. split; [done|split; [done|right]].
      destruct Hst as [(-> & -> & _)|[(-> & -> & _)|(-> & -> & _)]]; constructor.
    + exists w. rewrite lookup_insert_ne by done. split; [done|split; [done|by left]].
Qed.

(** A transaction of the component, as a step. *)
Inductive chain_step `{Uuids} (db db' : DB) : Prop :=
| step_deposit t input r :
    di_AmountMinor input <= int64_max -> CreditDeposit t input db = Ok (r, db') -> chain_step db db'
| step_request t policy input r :
    wi_AmountMinor input <= int64_max ->
    RequestWithdrawal t policy input db = Ok (r, db') -> chain_step db db'
| step_approve t id reviewer r :
    ApproveWithdrawal t id reviewer db = Ok (r, db') -> chain_step db db'
| step_reject t id reviewer reason r :
    RejectWithdrawal t id reviewer reason db = Ok (r, db') -> chain_step db db'
| step_broadcast t id order r :
    mark_broadcasted t id order db = Ok (r, db') -> chain_step db db'
| step_status t input r :
    ApplyWithdrawalStatus t input db = Ok (r, db') -> chain_step db db'.

Section steps.
Context `{Uuids}.

Lemma CreditDeposit_event t input db r db' :
  di_AmountMinor input <= int64_max ->
  CreditDeposit t input db = Ok (r, db') -> custody db -> event db db'.
Proof.
  intros Hmax Hrun Hcu. pose proof (CreditDeposit_custody _ _ Hmax _ _ _ Hrun Hcu) as Hcu'.
  apply CreditDeposit_inv in Hrun as (Hpos & _ & aid & a & _ & [(_ & -> & _)|
    (_ & _ & _ & wid & w & db1 & Hens & Hw & Hok & id & Hm & Hq)]).
  - apply event_ticks; [done|done|apply quiet_tick].
  - apply ev_other; [apply Hcu'| |].
    + etrans; [|exact Hq]. pose proof (ensureWallet_Ok _ _ _ _ _ _ Hens) as (Hq1 & _).
      etrans; [|exact Hq1]. etrans; [apply quiet_tick|by apply quiet_app].
    + intros f j. erewrite booked_for_cons by exact Hm. cbn [withdrawal_entry ledger_row_of entry].
      unfold withdrawal_entry. cbn.
      pose proof (ensureWallet_ledger _ _ _ _ _ _ Hens) as Hl. rewrite Hl. done.
Qed.

Lemma chain_step_event db db' : chain_step db db' -> custody db -> event db db'.
Proof.
  intros [] Hcu;
    eauto using CreditDeposit_event, RequestWithdrawal_event, ApproveWithdrawal_event,
      RejectWithdrawal_event, mark_broadcasted_event, ApplyWithdrawalStatus_event.
Qed.

End steps.

(** ** Properties *)

Section properties.
Context `{Uuids}.

(** The wallet of a user in a currency, as the transactions find it. *)
Definition balance_of (user currency : string) (db : DB) : Z :=
  match find_row (is_wallet_of user currency) (wallets db.(money)) with
  | Some (_, w) => w_available w
  | None => 0
  end.

Lemma balance_of_wallet user currency db id w :
  one_wallet db.(money) -> wallets db.(money) !! id = Some w ->
  w_user_id w = user -> w_currency w = currency -> balance_of user currency db = w_available w.
Proof. intros. unfold balance_of. by rewrite (find_wallet_unique user currency _ id w). Qed.

(** A repeated callback finds its deposit and moves nothing. *)
Lemma CreditDeposit_again t t' input db r db1 aid a :
  CreditDeposit t input db = Ok (r, db1) -> dr_Credited r = true ->
  find_address (di_ChainCode input) (di_TokenCode input) (di_Address input) db1
    = Ok (Some (aid, a), db1) ->
  CreditDeposit t' input db1 = Ok (mk_DepositResult (dr_DepositID r) "credited" false, tick db1).
Proof.
  intros Hrun Hcr Haddr. pose proof Hrun as Hrun0.
  apply CreditDeposit_inv in Hrun as (Hpos & _ & aid' & a' & _ & [(Hno & _)|
    (-> & Hnone & (d & Hdep & Hfree & Hev & Htx & _ & Hst) & _)]); [congruence|].
  assert (Hargs : is_empty (di_ProviderEventID input) || is_empty (di_TxHash input) ||
             is_empty (di_ChainCode input) || is_empty (di_TokenCode input) ||
             is_empty (di_Address input) = false).
  { unfold CreditDeposit in Hrun0. apply tx_bind_Ok in Hrun0 as (u & ? & Hr & _).
    by apply reject_if_Ok in Hr as [? _]. }
  set (same := fun d => bool_decide (dep_provider_event_id d = di_ProviderEventID input) ||
                        bool_decide (dep_tx_hash d = di_TxHash input)) in *.
  assert (Hfind : find_row (fun _ : string => same) (deposits (app (tick db1))) = Some (drawn db, d)).
  { change (deposits (app (tick db1))) with (deposits (app db1)). rewrite Hdep.
    destruct (find_row (fun _ => same) (<[drawn db := d]> (deposits (app db)))) as [[k x]|] eqn:E.
    - apply find_row_Some in E as [Hk Hsame]. apply lookup_insert_or in Hk as [[-> ->]|Hk]; [done|].
      pose proof (find_row_None _ _ _ _ Hnone Hk) as Hf. cbn in Hf. congruence.
    - pose proof (find_row_None _ _ (drawn db) d E (lookup_insert_eq _ _ _)) as Hf.
      unfold same in Hf. rewrite Hev, bool_decide_true in Hf by done. done. }
  subst same. unfold CreditDeposit.
  tx_do tt; [by apply reject_if_Ok|]. tx_do tt; [apply reject_if_Ok; split; [apply Z.leb_gt; lia|done]|].
  tx_do (Some (aid, a)); [exact Haddr|]. tx_do (aid, a); [done|].
  tx_do (drawn db1); [by apply new_uuid_Ok|]. cbv zeta.
  tx_do false.
  { unfold insert_ignore, insert_row. destruct (tbl (app (tick db1)) !! _); [reflexivity|].
    change (tbl (app (tick db1))) with (deposits (app (tick db1))). rewrite Hfind. reflexivity. }
  cbn [negb]. tx_do (Some (drawn db, d)); [by apply gets_Ok|]. tx_do (drawn db, d); [done|].
  cbn. by rewrite Hst.
Qed.

Lemma find_address_kept t input db r db1 x :
  CreditDeposit t input db = Ok (r, db1) ->
  find_address (di_ChainCode input) (di_TokenCode input) (di_Address input) db = Ok (x, db) ->
  find_address (di_ChainCode input) (di_TokenCode input) (di_Address input) db1 = Ok (x, db1).
Proof.
  unfold CreditDeposit, ensureWallet, find_wallet, wallet_by_id, find_address, select_where.
  intros Hrun Hf. unfold gets at 1 in Hf. unfold gets at 1.
  enough (chain_addresses (app db1) = chain_addresses (app db)) as Heq.
  { cbn [tbl chain_addresses_table] in *. rewrite Heq. by injection Hf as ->. }
  by tx_steps.
Qed.

(** C4: a deposit is credited once.  The first callback adds exactly the
    reported amount to the available balance of the owner of the address (in
    the token's wallet, opened if needed) and leaves every other wallet alone;
    the same callback again, at any time, succeeds, reports the same deposit as
    not credited and changes no money. *)
Theorem deposit_credited_once t input db r db1 :
  custody db -> di_AmountMinor input <= int64_max ->
  CreditDeposit t input db = Ok (r, db1) -> dr_Credited r = true ->
  custody db1 /\
  (exists aid a, find_address (di_ChainCode input) (di_TokenCode input) (di_Address input) db
                   = Ok (Some (aid, a), db) /\
     balance_of (ca_user_id a) (di_TokenCode input) db1 =
       balance_of (ca_user_id a) (di_TokenCode input) db + di_AmountMinor input /\
     forall wid w, wallets db.(money) !! wid = Some w ->
       (w_user_id w <> ca_user_id a \/ w_currency w <> di_TokenCode input) ->
       avail db1.(money) wid = avail db.(money) wid) /\
  forall t', CreditDeposit t' input db1
    = Ok (mk_DepositResult (dr_DepositID r) "credited" false, tick db1).
Proof.
  intros Hcu Hmax Hrun Hcr.
  pose proof (CreditDeposit_custody _ _ Hmax _ _ _ Hrun Hcu) as Hcu'. split; [done|].
  pose proof Hrun as Hrun0. apply CreditDeposit_inv in Hrun as (Hpos & _ & aid & a & Ha & [(Hno & _)|
    (-> & _ & _ & wid & w & db0 & Hens & Hw & Hok & id & Hm & Hq)]); [congruence|].
  split; [|by intros t'; eapply CreditDeposit_again; [..|eapply find_address_kept]].
  exists aid, a. split; [done|].
  apply ensureWallet_Ok in Hens as (Hq0 & Hb0 & (w0 & Hw0 & Hu & Hc) & _ & Hav).
  assert (w0 = w) as -> by congruence. clear Hw0. rewrite <- Hu, <- Hc.
  assert (Hb : books db0.(money)) by (apply Hb0, Hcu).
  apply wallet_ok_iff in Hok as Hok'. cbn in Hok'.
  pose proof (bounded_lookup _ _ _ Hb Hw) as [Hba _].
  assert (Hx : (w_available w + di_AmountMinor input)%i64 = w_available w + di_AmountMinor input)
    by (apply checked_add; lia).
  split.
  - assert (H1 : balance_of (w_user_id w) (w_currency w) db = avail db.(money) wid).
    { rewrite <- Hav. unfold avail at 1. rewrite Hw. cbn. unfold balance_of.
      destruct (find_row _ (wallets (money db))) as [[i v]|] eqn:E.
      - apply find_wallet_row in E as (Hv & Hvu & Hvc).
        destruct (q_owners _ _ Hq0 i v Hv) as (v' & Hv' & Hvu' & Hvc').
        assert (i = wid) as -> by (apply (books_one_wallet _ Hb i wid v' w); congruence).
        specialize (Hav wid). unfold avail in Hav. rewrite Hw in Hav.
        change (wallets (money db) !! wid) with (wallets (money (put_row (drawn db) (mk_deposit_row aid (di_ProviderEventID input) (di_TxHash input) (di_AmountMinor input) "credited" (Some (go_now t)) (nullif_empty (di_ProviderAmount input)) (di_ChainDecimals input) (di_PlatformDecimals input)) (tick db))) !! wid) in Hv.
        rewrite Hv in Hav. cbn in Hav. lia.
      - specialize (Hav wid). unfold avail in Hav. rewrite Hw in Hav. cbn in Hav.
        destruct (wallets (money db) !! wid) as [v|] eqn:Ev; cbn in Hav; [|lia].
        exfalso. destruct (q_owners _ _ Hq0 wid v Ev) as (v' & Hv' & Hvu' & Hvc').
        pose proof (find_row_None _ _ _ _ E Ev) as Hf.
        rewrite <- not_true_iff_false, is_wallet_of_iff in Hf. apply Hf.
        split; congruence. }
    rewrite H1, <- Hav. unfold avail. rewrite Hw. cbn. rewrite <- Hx.
    change (w_available w + di_AmountMinor input)%i64 with
      (w_available (wallet_after w (fun _ => (w_available w + di_AmountMinor input)%i64) w_frozen (go_now t))).
    apply (balance_of_wallet _ _ _ wid); [apply Hcu'| |done..].
    rewrite Hm. cbn. by rewrite lookup_insert_eq.
  - intros j v Hv Hne. rewrite Hm, avail_insert. case_bool_decide; [|apply Hav].
    subst j. exfalso. destruct (q_owners _ _ Hq0 wid v Hv) as (v' & Hv' & Hvu' & Hvc').
    simplify_eq. destruct Hne; congruence.
Qed.

(** What counts against a user's daily limit. *)
Definition daily_total (db : DB) (user currency : string) (start : Z) : Z :=
  sum_map (fun w => if counts_since user currency start w then wd_amount_minor w else 0)
    (withdrawals db.(app)).

Lemma check_daily_limit_bound t policy user currency n db u :
  0 < n <= int64_max -> 0 < DailyLimitMinor policy <= int64_max ->
  check_daily_limit t policy user currency n db = Ok (u, db) ->
  daily_total db user currency (go_now t - go_now t mod day_ns) + n <= DailyLimitMinor policy.
Proof.
  intros Hn Hd. unfold check_daily_limit. rewrite (proj2 (Z.ltb_lt _ _)) by lia.
  unfold withdrawn_since, select_all. intros Hrun. tx_steps. bool_to_prop.
  rewrite exact_sub_pos in * by lia.
  match goal with E : sum_Z _ <= DailyLimitMinor _ - _ |- _ =>
    rewrite (sum_rows (fun _ => counts_since user currency _) wd_amount_minor) in E by done end.
  unfold daily_total. cbn [tbl withdrawals_table] in *. lia.
Qed.

(** C5: a withdrawal request that creates a withdrawal respects the policy: the
    amount is within the per-request limits, and with it the user's withdrawals
    of the day, in every status but failed and cancelled, stay within the daily
    limit; the amount moves from the available to the frozen balance. *)
Theorem withdrawal_within_policy t policy input0 db r db' :
  let input := normalize_input input0 in
  let n := wi_AmountMinor input in
  custody db -> n <= int64_max -> DailyLimitMinor policy <= int64_max ->
  go_now t - go_now t mod day_ns <= sql_now t ->
  RequestWithdrawal t policy input0 db = Ok (r, db') ->
  withdrawals db.(app) !! WithdrawalID r = None ->
  (0 < MinimumMinor policy -> MinimumMinor policy <= n) /\
  (0 < MaximumMinor policy -> n <= MaximumMinor policy) /\
  (0 < DailyLimitMinor policy ->
     daily_total db' (wi_UserID input) (wi_Currency input) (go_now t - go_now t mod day_ns)
       <= DailyLimitMinor policy) /\
  exists wid w, find_row (is_wallet_of (wi_UserID input) (wi_Currency input)) (wallets db.(money))
                  = Some (wid, w) /\
    0 < n <= w_available w /\
    avail db'.(money) wid = w_available w - n /\ frozen db'.(money) wid = w_frozen w + n.
Proof.
  cbv zeta. intros Hcu Hmax Hdl Hclock Hrun Hnew.
  
  apply RequestWithdrawal_inv in Hrun as (Hpos & [[-> Hold]|
    (wid & w & row & Hfind & Hle & Hid & Hok & Hfresh & Hwd & Hpw & Hlu & Hu & Hc & Hwid & Ham & Hst & _ & Hval & Hday & Hcr & _ & _ & id & Hm)]).
  { exfalso. unfold findWithdrawalByRequestID in Hold.
    apply tx_bind_Ok in Hold as (x & d & Hx & Hold). apply gets_Ok in Hx as [Hx <-].
    apply found_withdrawal in Hold as (_ & i & y & wal & -> & _ & ->).
    apply find_row_Some in Hx as [Hx _]. cbn in Hx, Hnew. congruence. }
  cbn [normalize_input wi_AmountMinor] in *. unfold validateAmount in Hval.
  apply res_bind_Ok in Hval as (u & Hmin & Hmaxp). apply fail_if_Ok in Hmin, Hmaxp.
  split; [intros; bool_to_prop; lia|]. split; [intros; bool_to_prop; lia|]. split.
  - intros Hpos_dl. apply check_daily_limit_bound in Hday; [|lia|lia].
    assert (Hcounts : counts_since (wi_UserID (normalize_input input0))
      (wi_Currency (normalize_input input0)) (go_now t - go_now t mod day_ns) row = true).
    { unfold counts_since. rewrite Hu, Hc, Hst, Hcr, (proj2 (Z.leb_le _ _) Hclock).
      rewrite !bool_decide_eq_true_2 by reflexivity.
      change (bool_decide ("requested"%string ∈ ["requested"; "approved"; "broadcasted"; "confirmed"]))
        with true. reflexivity. }
    unfold daily_total in *. rewrite Hwd, sum_map_insert by done. rewrite Hcounts, Ham. lia.
  - exists wid, w. split; [done|split; [lia|]]. apply find_wallet_row in Hfind as (Hw & _).
    pose proof (bounded_lookup _ _ _ (cu_books _ Hcu) Hw) as [Hba Hbf].
    apply wallet_ok_iff in Hok as Hok'. cbn in Hok'.
    rewrite Hm, avail_insert, frozen_insert, !bool_decide_true by done. cbn.
    rewrite exact_sub, checked_add; lia.
Qed.

(** A repeated withdrawal request (same user, same client request ID)
    returns the withdrawal of the first one and changes nothing, whatever the
    policy and the amount of the repetition. *)
Theorem withdrawal_request_idempotent t t' policy policy' input input' db r db1 :
  RequestWithdrawal t policy input db = Ok (r, db1) ->
  wi_UserID input' = wi_UserID input -> wi_ClientRequestID input' = wi_ClientRequestID input ->
  wi_ChainCode input' = wi_ChainCode input -> wi_Currency input' = wi_Currency input ->
  wi_DestinationAddress input' = wi_DestinationAddress input ->
  wi_DestinationMemo input' = wi_DestinationMemo input -> 0 < wi_AmountMinor input' ->
  RequestWithdrawal t' policy' input' db1 = Ok (r, db1).
Proof.
  destruct input as [iu ir ia im ic icur n], input' as [iu' ir' ia' im' ic' icur' n'].
  cbn [wi_UserID wi_ClientRequestID wi_DestinationAddress wi_DestinationMemo wi_ChainCode
       wi_Currency wi_AmountMinor].
  intros Hrun -> -> -> -> -> -> Hpos'. pose proof Hrun as Hrun0.
  set (input := mk_WithdrawalInput iu ir ia im ic icur n) in *.
  unfold RequestWithdrawal in Hrun0. cbv zeta in Hrun0.
  apply tx_bind_Ok in Hrun0 as (u1 & d1 & Hr1 & Hrun0). apply reject_if_Ok in Hr1 as [Hr1 <-].
  apply tx_bind_Ok in Hrun0 as (u2 & d2 & Hr2 & Hrun0). apply reject_if_Ok in Hr2 as [Hr2 <-].
  apply tx_bind_Ok in Hrun0 as (u3 & d3 & Hr3 & Hrun0). apply lift_Ok in Hr3 as [Hr3 <-]. clear Hrun0.
  unfold RequestWithdrawal. cbv zeta.
  tx_do tt. { apply reject_if_Ok. split; [exact Hr1|done]. }
  tx_do tt. { apply reject_if_Ok. split; [|done]. apply Z.leb_gt. done. }
  tx_do u3. { apply lift_Ok. split; [exact Hr3|done]. }
  tx_do (Some r); [|done].
  assert (Hsame : findWithdrawalByRequestID (wi_UserID (normalize_input input))
    (wi_ClientRequestID (normalize_input input)) db1 = Ok (Some r, db1)).
  { apply RequestWithdrawal_inv in Hrun as (_ & [[-> Hold]|
      (wid & w & row & Hfind & _ & _ & _ & Hfresh & Hwd & _ & _ & Hu & _ & Hwid & _ & _ & Hreq & _ & _ & _ & Hscan & Hnone & id & Hm)]);
      [done|].
    apply find_wallet_row in Hfind as (Hw & Hwu & Hwc).
    unfold findWithdrawalByRequestID. tx_do (Some (drawn db, row)).
    - apply gets_Ok. split; [|done]. cbn [tbl withdrawals_table]. rewrite Hwd.
      destruct (find_row _ (<[_ := _]> _)) as [[k x]|] eqn:E.
      + apply find_row_Some in E as [Hk Hp]. apply lookup_insert_or in Hk as [[-> ->]|Hk]; [done|].
        pose proof (find_row_None _ _ _ _ Hnone Hk) as Hf. cbn in Hf, Hp. congruence.
      + pose proof (find_row_None _ _ (drawn db) row E (lookup_insert_eq _ _ _)) as Hf.
        cbn in Hf. rewrite Hu, Hreq, !bool_decide_true in Hf by done. done.
    - unfold with_wallet. apply gets_Ok. split; [|done]. cbn.
      rewrite Hm, Hwid. cbn. rewrite lookup_insert_eq. cbn. f_equal. by apply Hscan. }
  exact Hsame.
Qed.

End properties.

(** ** Witnesses *)

Lemma funded_custody : custody funded_db.
Proof.
  unfold funded_db, run_or. destruct (CreditDeposit noon example_deposit example_db) as [[r db]|] eqn:E.
  - refine (CreditDeposit_custody noon example_deposit _ _ _ _ E example_custody).
    cbn. unfold int64_max. lia.
  - apply example_custody.
Qed.

Lemma deposit_credited_once_witness :
  exists r db1, CreditDeposit noon example_deposit example_db = Ok (r, db1) /\
    dr_Credited r && (balance_of "alice" "USDT" db1 =? 5000000) = true /\
    custody db1 /\
    (exists aid a, find_address "TRON" "USDT" "TAbcdefghijkmnopqrstuvwxyzABCDEFGH" example_db
                     = Ok (Some (aid, a), example_db) /\
       balance_of (ca_user_id a) "USDT" db1 = balance_of (ca_user_id a) "USDT" example_db + 5000000 /\
       forall wid w, wallets example_db.(money) !! wid = Some w ->
         (w_user_id w <> ca_user_id a \/ w_currency w <> "USDT"%string) ->
         avail db1.(money) wid = avail example_db.(money) wid) /\
    forall t', CreditDeposit t' example_deposit db1
      = Ok (mk_DepositResult (dr_DepositID r) "credited" false, tick db1).
Proof.
  destruct (succeeds_Ok (fun x => dr_Credited x.1 && (balance_of "alice" "USDT" x.2 =? 5000000))
    (CreditDeposit noon example_deposit example_db)) as ([r db1] & Hrun & Hobs).
  { vm_compute. reflexivity. }
  exists r, db1. split; [exact Hrun|split; [exact Hobs|]].
  apply (deposit_credited_once noon example_deposit example_db r db1 example_custody);
    [cbn; unfold int64_max; lia|exact Hrun|].
  cbn [fst] in Hobs. apply andb_prop in Hobs as [Hcr _]. exact Hcr.
Defined.

Lemma withdrawal_within_policy_witness :
  exists r db', RequestWithdrawal noon example_policy example_request funded_db = Ok (r, db') /\
    (0 < 1000000 -> 1000000 <= 3000000) /\ (0 < 0 -> 3000000 <= 0) /\
    (0 < 4000000 -> daily_total db' "alice" "USDT"
       (1750000000000000000 - 1750000000000000000 mod day_ns) <= 4000000) /\
    exists wid w, find_row (is_wallet_of "alice" "USDT") (wallets funded_db.(money)) = Some (wid, w) /\
      0 < 3000000 <= w_available w /\
      avail db'.(money) wid = w_available w - 3000000 /\ frozen db'.(money) wid = w_frozen w + 3000000.
Proof.
  destruct (succeeds_Ok (fun x => match withdrawals funded_db.(app) !! WithdrawalID x.1 with
      Some _ => false | None => true end)
    (RequestWithdrawal noon example_policy example_request funded_db)) as ([r db'] & Hrun & Hobs).
  { vm_compute. reflexivity. }
  exists r, db'. split; [exact Hrun|].
  apply (withdrawal_within_policy noon example_policy example_request funded_db r db' funded_custody).
  - vm_compute. discriminate.
  - vm_compute. discriminate.
  - vm_compute. discriminate.
  - exact Hrun.
  - cbn [fst] in Hobs. destruct (withdrawals (app funded_db) !! WithdrawalID r); [discriminate|reflexivity].
Defined.

Lemma withdrawal_request_idempotent_witness :
  exists r db1, RequestWithdrawal noon example_policy example_request funded_db = Ok (r, db1) /\
    RequestWithdrawal noon (mk_policy 0 0 0)
      (mk_WithdrawalInput "alice" "req-1" "TXYZabcdefghijkmnopqrstuvwxyzABCDE" "" "tron" "usdt" 9)
      db1 = Ok (r, db1).
Proof.
  destruct (succeeds_Ok (fun _ => true)
    (RequestWithdrawal noon example_policy example_request funded_db)) as ([r db1] & Hrun & _).
  { vm_compute. reflexivity. }
  exists r, db1. split; [exact Hrun|].
  apply (withdrawal_request_idempotent noon noon example_policy (mk_policy 0 0 0) example_request _
           funded_db r db1 Hrun); try reflexivity.
Defined.

(** ** Webhook signatures *)

(** A webhook is accepted exactly when its timestamp is a number within the
    allowed skew of the clock, on either side, and its signature is the one
    [SignWebhook] computes from the same request and secret. *)
Theorem webhook_verified sha hmac secret method path timestamp nonce body signature now skew :
  0 <= skew < int64_max ->
  VerifyWebhook sha hmac secret method path timestamp nonce body signature now skew = Ok () <->
  exists ms, ParseInt timestamp = Some ms /\ Z.abs (now - ms * 1000000) <= skew /\
    signature = SignWebhook sha hmac secret method path timestamp nonce body.
Proof.
  intros Hskew. unfold VerifyWebhook, SignWebhook, time_sub. rewrite res_bind_Ok. split.
  - intros (ms & Hms & H). apply of_option_Ok in Hms. exists ms. split; [done|].
    apply res_bind_Ok in H as (u & H1 & H2). apply fail_if_Ok in H1, H2. bool_to_prop.
    unfold int64_min, int64_max in *. split; [lia|]. apply s2b_inj. by rewrite s2b_b2s.
  - intros (ms & Hms & Hw & ->). exists ms. split; [by apply of_option_Ok|].
    apply res_bind_Ok. exists (). split; apply fail_if_Ok.
    + unfold int64_min, int64_max in *. apply orb_false_iff. rewrite !Z.ltb_ge. lia.
    + rewrite s2b_b2s, bool_decide_true by done. done.
Qed.

(** The signature of the platform's own test, with stand-in hashes. *)
Lemma webhook_verified_witness :
  let sha := fun b : bytes => rev b in
  let hmac := fun (k : string) (b : bytes) => s2b k ++ b in
  VerifyWebhook sha hmac "k" "POST" "/v1/chain/callback" "1784376000000" "nonce-1"
    (s2b "{}") (SignWebhook sha hmac "k" "POST" "/v1/chain/callback" "1784376000000" "nonce-1" (s2b "{}"))
    1784376000000000000 300000000000 = Ok ().
Proof.
  intros sha hmac. apply webhook_verified; [unfold int64_max; lia|].
  exists 1784376000000. split; [vm_compute; reflexivity|split; [lia|reflexivity]].
Defined.
