(* ===== verification/Betting.v ===== *)
(** * Betting

    [application/betting]: placing a bet, with its idempotency, the limits of
    the three families of games, merging and the debit (service.go); the
    restricted plays of prime time (lulu_maintenance.go); the bets as they are
    reported; cancelling a bet. *)

From S2P Require Import Prelude GoStrings Money Json Game Schema Store Books Custody Wallet Rebate Draws Settlement.

Definition betting_ErrRoundNotFound : error := Sentinel "betting.ErrRoundNotFound".
Definition ErrBetNotFound : error := Sentinel "betting.ErrBetNotFound".
Definition ErrInvalidSelection : error := Sentinel "betting.ErrInvalidSelection".
Definition ErrAccountDisabled : error := Sentinel "betting.ErrAccountDisabled".
Definition ErrBettingBanned : error := Sentinel "betting.ErrBettingBanned".
Definition ErrStakeOutsideLimits : error := Sentinel "betting.ErrStakeOutsideLimits".
Definition ErrSelectionOutsidePlay : error := Sentinel "betting.ErrSelectionOutsidePlay".
Definition ErrHashRoomRequired : error := Sentinel "betting.ErrHashRoomRequired".
Definition ErrHashRoomConflict : error := Sentinel "betting.ErrHashRoomConflict".
Definition ErrBetCancellationClosed : error := Sentinel "betting.ErrBetCancellationClosed".
Definition ErrRequestConflict : error := Sentinel "betting.ErrRequestConflict".
Definition ErrLuluXDYBettingClosed : error := Sentinel "betting.ErrLuluXDYBettingClosed".
Definition cancel_overflow : error := Sentinel "cancel refund would overflow wallet balance".

Record PlaceBetRequest : Type := mk_PlaceBetRequest {
  pr_RobotPlanID : string;
  pr_ClientRequestID : string;
  pr_RoundID : string;
  pr_AccountID : string;
  pr_Currency : string;
  pr_GameRoomID : string;
  pr_PlayMode : string;
  pr_Selection : raw;
  pr_StakeMinor : Z
}.

Record PlacedBet : Type := mk_PlacedBet {
  pl_PlacementCount : Z;
  pl_LastPlacedAt : Z;
  pl_Decimals : Z;
  pl_Stake : string;
  pl_Payout : string;
  pl_BetID : string;
  pl_ClientRequestID : string;
  pl_RoundID : string;
  pl_AccountID : string;
  pl_GameType : string;
  pl_GameName : string;
  pl_RoundSequence : Z;
  pl_Currency : string;
  pl_GameRoomID : string;
  pl_GameRoomCode : string;
  pl_GameRoomName : string;
  pl_PlayMode : string;
  pl_Selection : json;
  pl_StakeMinor : Z;
  pl_PayoutMultiplier : Z;
  pl_PayoutDivisor : Z;
  pl_PayoutRate : string;
  pl_Status : string;
  pl_PayoutMinor : Z;
  pl_BalanceAfterBetMinor : option Z;
  pl_BalanceAfterRefundMinor : option Z;
  pl_BalanceAfterSettlementMinor : option Z;
  pl_PlacedAt : Z;
  pl_SettledAt : option Z
}.

Record PublicPlayer : Type := mk_PublicPlayer {
  pp_UserID : Z;
  pp_DisplayName : string;
  pp_AvatarURL : string;
  pp_IsVirtual : bool
}.

Record PublicBet : Type := mk_PublicBet {
  pu_PlacementCount : Z;
  pu_LastPlacedAt : Z;
  pu_Decimals : Z;
  pu_Stake : string;
  pu_Payout : string;
  pu_BetID : string;
  pu_Player : PublicPlayer;
  pu_RoundID : string;
  pu_GameType : string;
  pu_GameName : string;
  pu_RoundSequence : Z;
  pu_Currency : string;
  pu_GameRoomID : string;
  pu_GameRoomCode : string;
  pu_GameRoomName : string;
  pu_PlayMode : string;
  pu_Selection : json;
  pu_StakeMinor : Z;
  pu_PayoutMultiplier : Z;
  pu_PayoutDivisor : Z;
  pu_PayoutRate : string;
  pu_Status : string;
  pu_PayoutMinor : Z;
  pu_PlacedAt : Z;
  pu_SettledAt : option Z
}.

(** ** The bets as they are reported *)

(** [big.Rat.FloatString(6)] of a positive fraction: rounded to the nearest,
    halves up, then the zeros and the point trimmed. *)
Definition rat_micros (multiplier divisor : Z) : Z :=
  (2 * multiplier * 1000000 + divisor) / (2 * divisor).

Definition six_digits (n : Z) : bytes := replicate (6 - length (format_int n)) (byte_at 48) ++ format_int n.

Definition formatPayoutRate (multiplier divisor : Z) : string :=
  if (multiplier <=? 0) || (divisor <=? 0) then ""%string
  else
    let q := rat_micros multiplier divisor in
    let value := format_int (q / 1000000) ++ [byte_at 46] ++ six_digits (q mod 1000000) in
    b2s (trim_right 46 (trim_right 48 value)).

(** The inner joins of both selects. *)
Definition bet_join (betID : string) (db : DB)
    : option (bet_row * wallet_row * currency_row * round_row * game_type_row) :=
  b ← bets db.(app) !! betID;
  w ← wallets db.(money) !! bt_wallet_id b;
  c ← currencies db.(app) !! w_currency w;
  r ← rounds db.(app) !! bt_round_id b;
  g ← game_types db.(app) !! rd_game_type_id r;
  Some (b, w, c, r, g).

Definition room_of (b : bet_row) (db : DB) : option game_room_row :=
  bt_game_room_id b ≫= fun id => game_rooms db.(app) !! id.

(** The lateral join: the newest debit of the bet, by the time of its
    placement. *)
Definition is_debit (betID : string) (b : bet_row) (e : ledger_row) : bool :=
  bool_decide (le_wallet_id e = bt_wallet_id b) && bool_decide (le_business_type e = "bet"%string) &&
  bool_decide (le_business_id e = betID) && bool_decide (le_entry_type e = "bet_debit"%string).

Definition debit_time (db : DB) (e : ledger_row) : Z :=
  from_option bp_created_at (le_occurred_at e)
    (le_bet_placement_id e ≫= fun id => bet_placements db.(app) !! id).

Definition debit_before (db : DB) (x y : ledger_row) : Prop :=
  (debit_time db y <? debit_time db x) ||
  (debit_time db x =? debit_time db y) && String.leb (le_id y) (le_id x) = true.

#[export] Instance debit_before_dec db x y : Decision (debit_before db x y) := bool_eq_dec _ _.

Definition last_debit (betID : string) (b : bet_row) (db : DB) : option ledger_row :=
  head (merge_sort (debit_before db) (List.filter (is_debit betID b) (ledger db.(money)))).

(** [placedBetSelect ... WHERE b.id = $1] with [scanPlacedBet]. *)
Definition scanPlacedBet (betID : string) (db : DB) : res PlacedBet :=
  j ← of_option ErrNoRows (bet_join betID db);
  let '(b, w, c, r, g) := j in
  let m := default 0 (bt_payout_multiplier_snapshot b) in
  let d := default 0 (bt_payout_divisor_snapshot b) in
  let room := room_of b db in
  stake ← FormatDisplayAmount (bt_stake_minor b) (cur_decimals c);
  payout ← FormatDisplayAmount (bt_payout_minor b) (cur_decimals c);
  Ok (mk_PlacedBet (bt_placement_count b) (default (bt_created_at b) (bt_last_placed_at b))
    (cur_decimals c) stake payout betID (bt_client_request_id b) (bt_round_id b) (bt_user_id b)
    (gt_code g) (gt_name g) (rd_sequence r) (w_currency w)
    (default ""%string (bt_game_room_id b)) (from_option gr_code ""%string room)
    (from_option gr_name ""%string room) (default ""%string (bt_play_mode b)) (bt_selection b)
    (bt_stake_minor b) m d (formatPayoutRate m d) (bt_status b) (bt_payout_minor b)
    (option_map le_balance_after (last_debit betID b db)) None
    (bt_balance_after_settlement_minor b) (bt_created_at b) (bt_settled_at b)).

Definition Find (betID : string) (db : DB) : res PlacedBet :=
  match scanPlacedBet betID db with
  | Err e => if bool_decide (e = ErrNoRows) then Err ErrBetNotFound else Err e
  | Ok b => Ok b
  end.

Definition last_segment (s : string) : string := b2s (List.last (split_all 47 (s2b s)) []).

Definition avatar_of (u : user_row) : string :=
  match u_avatar_url u with
  | Some url =>
      if HasPrefix url "uploads/"
      then String.concat ""%string ["/v1/avatars/"; FormatInt (u_public_id u); "?v="; last_segment url]%string
      else url
  | None => ""%string
  end.

(** [publicBetSelect ... WHERE b.id = $1] with [scanPublicBet]. *)
Definition scanPublicBet (betID : string) (db : DB) : res PublicBet :=
  j ← of_option ErrNoRows (bet_join betID db);
  let '(b, w, c, r, g) := j in
  u ← of_option ErrNoRows (users db.(app) !! bt_user_id b);
  let m := default 0 (bt_payout_multiplier_snapshot b) in
  let d := default 0 (bt_payout_divisor_snapshot b) in
  let room := room_of b db in
  stake ← FormatDisplayAmount (bt_stake_minor b) (cur_decimals c);
  payout ← FormatDisplayAmount (bt_payout_minor b) (cur_decimals c);
  Ok (mk_PublicBet (bt_placement_count b) (default (bt_created_at b) (bt_last_placed_at b))
    (cur_decimals c) stake payout betID
    (mk_PublicPlayer (u_public_id u) (u_display_name u) (avatar_of u) (u_is_virtual u))
    (bt_round_id b) (gt_code g) (gt_name g) (rd_sequence r) (w_currency w)
    (default ""%string (bt_game_room_id b)) (from_option gr_code ""%string room)
    (from_option gr_name ""%string room) (default ""%string (bt_play_mode b)) (bt_selection b)
    (bt_stake_minor b) m d (formatPayoutRate m d) (bt_status b) (bt_payout_minor b)
    (bt_created_at b) (bt_settled_at b)).

(** [json.Marshal] of the public bet; [omitempty] drops empty text and nil. *)
Definition omit_text (k s : string) : list (string * json) :=
  if bool_decide (s = ""%string) then [] else [(k, JStr s)].

Definition omit_nil (k : string) (o : option Z) : list (string * json) :=
  from_option (fun t => [(k, JInt t)]) [] o.

Definition player_json (p : PublicPlayer) : json :=
  JObj [("user_id", JInt (pp_UserID p)); ("display_name", JStr (pp_DisplayName p));
        ("avatar_url", JStr (pp_AvatarURL p)); ("is_virtual", JBool (pp_IsVirtual p))]%string.

Definition public_bet_json (b : PublicBet) : json :=
  JObj ([("placement_count", JInt (pu_PlacementCount b)); ("last_placed_at", JInt (pu_LastPlacedAt b));
         ("decimals", JInt (pu_Decimals b)); ("stake", JStr (pu_Stake b)); ("payout", JStr (pu_Payout b));
         ("bet_id", JStr (pu_BetID b)); ("player", player_json (pu_Player b));
         ("round_id", JStr (pu_RoundID b)); ("game_type", JStr (pu_GameType b));
         ("game_name", JStr (pu_GameName b)); ("round_sequence", JInt (pu_RoundSequence b));
         ("currency", JStr (pu_Currency b))]%string ++
        omit_text "game_room_id" (pu_GameRoomID b) ++ omit_text "game_room_code" (pu_GameRoomCode b) ++
        omit_text "game_room_name" (pu_GameRoomName b) ++ omit_text "play_mode" (pu_PlayMode b) ++
        [("selection", pu_Selection b); ("stake_minor", JInt (pu_StakeMinor b));
         ("payout_multiplier", JInt (pu_PayoutMultiplier b));
         ("payout_divisor", JInt (pu_PayoutDivisor b)); ("payout_rate", JStr (pu_PayoutRate b));
         ("status", JStr (pu_Status b)); ("payout_minor", JInt (pu_PayoutMinor b));
         ("placed_at", JInt (pu_PlacedAt b))]%string ++
        omit_nil "settled_at" (pu_SettledAt b)).

(** ListUserBets and ListPublicBets: a page of the bets that match, newest
    first. *)
Definition newest_first (x y : string * bet_row) : Prop :=
  (bt_created_at y.2 <? bt_created_at x.2) ||
  (bt_created_at x.2 =? bt_created_at y.2) && String.leb y.1 x.1 = true.

#[export] Instance newest_first_dec x y : Decision (newest_first x y) := bool_eq_dec _ _.

Definition page {A} (limit offset : Z) (l : list A) : list A :=
  take (Z.to_nat (if (limit <=? 0) || (100 <? limit) then 50 else limit))
    (drop (Z.to_nat (Z.max 0 offset)) l).

Definition ListUserBets (userID status : string) (statuses : list string) (limit offset : Z) (db : DB)
    : res (list PlacedBet) :=
  let wanted b :=
    if negb (bool_decide (status = ""%string)) then bool_decide (bt_status b = status)
    else bool_decide (statuses = []) || bool_decide (bt_status b ∈ statuses) in
  let rows := List.filter (fun kv => bool_decide (bt_user_id kv.2 = userID) && wanted kv.2 &&
    bool_decide (is_Some (bet_join kv.1 db))) (map_to_list (bets db.(app))) in
  mapM (fun kv => scanPlacedBet kv.1 db) (page limit offset (merge_sort newest_first rows)).

Record PublicBetQuery : Type := mk_PublicBetQuery {
  pq_GameType : string;
  pq_Currency : string;
  pq_Status : string;
  pq_PlayerType : string;
  pq_Limit : Z;
  pq_Offset : Z
}.

Definition public_match (q : PublicBetQuery) (db : DB) (kv : string * bet_row) : bool :=
  let currency := ToUpper (TrimSpace (pq_Currency q)) in
  let gameType := TrimSpace (pq_GameType q) in
  let status := TrimSpace (pq_Status q) in
  let player := let p := TrimSpace (pq_PlayerType q) in if bool_decide (p = ""%string) then "all"%string else p in
  match bet_join kv.1 db, users db.(app) !! bt_user_id kv.2 with
  | Some (b, w, _, _, g), Some u =>
      (bool_decide (gameType = ""%string) || bool_decide (gt_code g = gameType)) &&
      (bool_decide (currency = ""%string) || bool_decide (w_currency w = currency)) &&
      (bool_decide (status = ""%string) || bool_decide (bt_status b = status)) &&
      (bool_decide (player = "all"%string) ||
       bool_decide (player = "real"%string) && negb (u_is_virtual u) ||
       bool_decide (player = "virtual"%string) && u_is_virtual u)
  | _, _ => false
  end.

Definition ListPublicBets (q : PublicBetQuery) (db : DB) : res (list PublicBet) :=
  mapM (fun kv => scanPublicBet kv.1 db)
    (page (pq_Limit q) (pq_Offset q)
      (merge_sort newest_first (List.filter (public_match q db) (map_to_list (bets db.(app)))))).

(** ** Requests and placements *)

(** [strings.ToUpper(strings.TrimSpace(...))] on the currency, lower case on
    the mode. *)
Definition normalize_bet (r : PlaceBetRequest) : PlaceBetRequest :=
  mk_PlaceBetRequest (pr_RobotPlanID r) (pr_ClientRequestID r) (pr_RoundID r) (pr_AccountID r)
    (ToUpper (TrimSpace (pr_Currency r))) (pr_GameRoomID r) (ToLower (TrimSpace (pr_PlayMode r)))
    (pr_Selection r) (pr_StakeMinor r).

(** NULLIF($n,''). *)
Definition nullif (s : string) : option string := if bool_decide (s = ""%string) then None else Some s.

Definition selection_of (r : PlaceBetRequest) : json := from_option jsonb JNull (pr_Selection r).

Definition placement_key (r : PlaceBetRequest) (p : placement_row) : bool :=
  bool_decide (bp_user_id p = pr_AccountID r) &&
  bool_decide (bp_client_request_id p = pr_ClientRequestID r).

Definition placement_matches (r : PlaceBetRequest) (p : placement_row) : bool :=
  bool_decide (bp_round_id p = pr_RoundID r) && bool_decide (bp_currency p = pr_Currency r) &&
  bool_decide (bp_game_room_id p = nullif (pr_GameRoomID r)) &&
  bool_decide (default ""%string (bp_play_mode p) = pr_PlayMode r) &&
  jsonb_equal (bp_selection p) (selection_of r) && (bp_stake_minor p =? pr_StakeMinor r) &&
  bool_decide (bp_robot_plan_id p = nullif (pr_RobotPlanID r)).

Definition with_request_id (id : string) (b : PlacedBet) : PlacedBet :=
  mk_PlacedBet (pl_PlacementCount b) (pl_LastPlacedAt b) (pl_Decimals b) (pl_Stake b) (pl_Payout b)
    (pl_BetID b) id (pl_RoundID b) (pl_AccountID b) (pl_GameType b) (pl_GameName b)
    (pl_RoundSequence b) (pl_Currency b) (pl_GameRoomID b) (pl_GameRoomCode b) (pl_GameRoomName b)
    (pl_PlayMode b) (pl_Selection b) (pl_StakeMinor b) (pl_PayoutMultiplier b) (pl_PayoutDivisor b)
    (pl_PayoutRate b) (pl_Status b) (pl_PayoutMinor b) (pl_BalanceAfterBetMinor b)
    (pl_BalanceAfterRefundMinor b) (pl_BalanceAfterSettlementMinor b) (pl_PlacedAt b) (pl_SettledAt b).

Definition findPlacement (r : PlaceBetRequest) (db : DB) : res PlacedBet :=
  p ← of_option ErrNoRows (find_row (fun _ => placement_key r) (bet_placements db.(app)));
  fail_if (negb (placement_matches r p.2)) ErrRequestConflict;;
  b ← scanPlacedBet (bp_bet_id p.2) db;
  Ok (with_request_id (pr_ClientRequestID r) b).

(** [findBet]: by user and request. *)
Definition findBet (user request : string) (db : DB) : res PlacedBet :=
  b ← of_option ErrNoRows (find_row (fun _ b => bool_decide (bt_user_id b = user) &&
        bool_decide (bt_client_request_id b = request)) (bets db.(app)));
  scanPlacedBet b.1 db.

(** ** The conditions of a bet *)

Definition sharedHashRules (rules : Rules) : bool :=
  default false (dec_bool_field "hash_shared" (Extras rules)).

Definition one_digit (s : string) : bool :=
  match s2b s with [c] => is_digit c | _ => false end.

Definition validHashSelection (mode : string) (selection : raw) : bool :=
  match dec_string_field "pick" selection with
  | None => false
  | Some pick =>
      if bool_decide (mode = "guess"%string) || bool_decide (mode = "dodge"%string) then one_digit pick
      else if bool_decide (mode = "road"%string)
      then bool_decide (pick ∈ ["big"; "small"; "odd"; "even"]%string)
      else false
  end.

(** lulu_maintenance.go *)
Definition luluPrimeTime (now : Z) : bool := shanghai_hour now =? 20.

Definition luluXDYRestrictedPlays (now : Z) : list string :=
  if luluPrimeTime now then ["direct"; "up_down"; "left_right"]%string else [].

(** The odds a new bet freezes, and whether it also freezes rebates. *)
Record Terms : Type := mk_Terms {
  tm_Multiplier : Z;
  tm_Divisor : Z;
  tm_Shared : bool
}.

Definition unfinished (r : round_row) : bool :=
  bool_decide (rd_status r ∈ [RoundScheduled; RoundOpen; RoundClosed; RoundSettling]).

(** EXISTS an unfinished round of the same game whose sequence is beyond. *)
Definition unfinished_round (beyond : Z -> Z -> bool) (target : round_row) (db : DB) : bool :=
  existsb (fun kv => bool_decide (rd_game_type_id kv.2 = rd_game_type_id target) &&
    beyond (rd_sequence kv.2) (rd_sequence target) && unfinished kv.2) (map_to_list (rounds db.(app))).

(** The enabled room of the round's game. *)
Definition room_open (room gameType : string) (db : DB) : bool :=
  bool_decide ((room, gameType) ∈ game_room_types db.(app)) &&
  from_option gr_enabled false (game_rooms db.(app) !! room).

Definition accepted_by (r : PlaceBetRequest) (b : bet_row) : bool :=
  bool_decide (bt_round_id b = pr_RoundID r) && bool_decide (bt_user_id b = pr_AccountID r) &&
  bool_decide (bt_status b = "accepted"%string).

Definition different_room (r : PlaceBetRequest) (db : DB) : bool :=
  existsb (fun kv => accepted_by r kv.2 &&
    negb (bool_decide (bt_game_room_id kv.2 = Some (pr_GameRoomID r)))) (map_to_list (bets db.(app))).

(** A SUM over BIGINT that is scanned into an [int64]. *)
Definition scan_sum (l : list Z) : res Z :=
  let s := sum_Z l in
  if (int64_min <=? s) && (s <=? int64_max) then Ok s else Err RangeViolation.

Definition same_pick (r : PlaceBetRequest) (b : bet_row) : bool :=
  match jtext "pick" (bt_selection b), jtext "pick" (selection_of r) with
  | Some x, Some y => bool_decide (x = y)
  | _, _ => false
  end.

Definition existing_stake (r : PlaceBetRequest) (db : DB) : res Z :=
  scan_sum (map (fun kv => bt_stake_minor kv.2) (List.filter (fun kv =>
    accepted_by r kv.2 && bool_decide (bt_game_room_id kv.2 = Some (pr_GameRoomID r)) &&
    bool_decide (bt_play_mode kv.2 = Some (pr_PlayMode r)) && same_pick r kv.2 &&
    bool_decide (option_map w_currency (wallets db.(money) !! bt_wallet_id kv.2) = Some (pr_Currency r)))
    (map_to_list (bets db.(app))))).

(** The three CASE expressions of the hash room's configuration. *)
Definition hash_limits (mode : string) (c : hash_config_row) : Z * Z * Z :=
  if bool_decide (mode = "guess"%string)
  then (hc_guess_max_stake_minor c, hc_guess_multiplier c, hc_guess_divisor c)
  else if bool_decide (mode = "dodge"%string)
  then (hc_dodge_max_stake_minor c, hc_dodge_multiplier c, hc_dodge_divisor c)
  else (hc_road_max_stake_minor c, hc_road_multiplier c, hc_road_divisor c).

Definition hash_terms (r : PlaceBetRequest) (round : round_row) (db : DB) : res Terms :=
  fail_if (bool_decide (pr_GameRoomID r = ""%string) ||
           negb (validHashSelection (pr_PlayMode r) (pr_Selection r))) ErrHashRoomRequired;;
  fail_if (negb (room_open (pr_GameRoomID r) (rd_game_type_id round) db)) ErrHashRoomRequired;;
  c ← of_option ErrHashRoomRequired (List.find (fun c =>
        bool_decide (hc_room_id c = pr_GameRoomID r) && bool_decide (hc_currency c = pr_Currency r))
        (hash_room_currency_configs db.(app)));
  let '(maxStake, multiplier, divisor) := hash_limits (pr_PlayMode r) c in
  fail_if (pr_StakeMinor r <? hc_min_stake_minor c) ErrStakeOutsideLimits;;
  fail_if (different_room r db) ErrHashRoomConflict;;
  existing ← existing_stake r db;
  fail_if (((int64_max - pr_StakeMinor r)%i64 <? existing) ||
           (maxStake <? (existing + pr_StakeMinor r)%i64)) ErrStakeOutsideLimits;;
  Ok (mk_Terms multiplier divisor true).

Definition is_lulu_config (r : PlaceBetRequest) (gameType : string) (c : lulu_config_row) : bool :=
  bool_decide (lc_game_type_id c = gameType) && bool_decide (lc_room_id c = pr_GameRoomID r) &&
  bool_decide (lc_play_code c = pr_PlayMode r) && bool_decide (lc_currency c = pr_Currency r).

Definition lulu_terms (now : Z) (r : PlaceBetRequest) (round : round_row) (code : string) (db : DB)
    : res Terms :=
  fail_if (bool_decide (pr_GameRoomID r = ""%string) || bool_decide (pr_PlayMode r = ""%string))
    ErrHashRoomRequired;;
  let gameType := rd_game_type_id round in
  fail_if (negb (room_open (pr_GameRoomID r) gameType db)) ErrHashRoomRequired;;
  p ← of_option ErrHashRoomRequired (List.find (fun p => bool_decide (lp_game_type_id p = gameType) &&
        bool_decide (lp_code p = pr_PlayMode r) && lp_enabled p) (lulu_play_configs db.(app)));
  daily ← of_option ErrHashRoomRequired
    (List.find (is_lulu_config r gameType) (lulu_room_configs db.(app)));
  c ← (if bool_decide (code = "lulu-xdy"%string) && luluPrimeTime now then
         match List.find (is_lulu_config r gameType) (lulu_prime_configs db.(app)) with
         | None => Err ErrLuluXDYBettingClosed
         | Some prime => if lc_enabled prime then Ok prime else Err ErrLuluXDYBettingClosed
         end
       else Ok daily);
  outcomes ← of_option ErrSelectionOutsidePlay (dec_strings [] (lp_outcomes p));
  mapping ← of_option ErrSelectionOutsidePlay (dec_result_map ∅ (lp_result_map p));
  fail_if (negb (lulu_SelectionAllowed (mk_LuluPlay "" outcomes mapping (lp_dodge_mode p)) (pr_Selection r)))
    ErrSelectionOutsidePlay;;
  fail_if ((pr_StakeMinor r <? lc_min_stake_minor c) || (lc_max_stake_minor c <? pr_StakeMinor r))
    ErrStakeOutsideLimits;;
  fail_if (different_room r db) ErrHashRoomConflict;;
  Ok (mk_Terms (lc_payout_multiplier c) (lc_payout_divisor c) true).

Definition outside_limit (currency : string) (stake : Z) (rules : Rules) : bool :=
  match BetLimits rules !! currency with
  | Some l => (stake <? MinStakeMinor l) || (MaxStakeMinor l <? stake)
  | None => false
  end.

Definition plain_terms (r : PlaceBetRequest) (rules : Rules) : res Terms :=
  fail_if (negb (SelectionAllowed rules (pr_Selection r))) ErrSelectionOutsidePlay;;
  fail_if (outside_limit (pr_Currency r) (pr_StakeMinor r) rules) ErrStakeOutsideLimits;;
  Ok (mk_Terms (PayoutMultiplier rules) (PayoutScale rules) false).

(** Everything between the lock on the round and the lock on the wallet. *)
Definition bet_terms (now : Z) (r : PlaceBetRequest) (db : DB) : res Terms :=
  round ← of_option betting_ErrRoundNotFound (rounds db.(app) !! pr_RoundID r);
  g ← of_option betting_ErrRoundNotFound (game_types db.(app) !! rd_game_type_id round);
  fail_if (negb (bool_decide (rd_status round = RoundOpen)) || negb (now <? rd_bet_closes_at round))
    ErrBettingClosed;;
  rules ← ParseRules (Some (gt_rules g));
  fail_if (bool_decide (gt_code g = "lulu-xdy"%string) &&
           bool_decide (pr_PlayMode r ∈ luluXDYRestrictedPlays now)) ErrLuluXDYBettingClosed;;
  fail_if (if bool_decide (Source rules = "lulu_ws"%string)
           then unfinished_round (fun later target => target <? later) round db
           else unfinished_round (fun prior target => prior <? target) round db) ErrBettingClosed;;
  if sharedHashRules rules then hash_terms r round db
  else if sharedLuluRules rules then lulu_terms now r round (gt_code g) db
  else plain_terms r rules.

(** ** Placing *)

(** The partial unique indexes and the request key of [bets]. *)
Definition same_slot (b x : bet_row) : bool :=
  bool_decide (bt_user_id x = bt_user_id b) && bool_decide (bt_round_id x = bt_round_id b) &&
  bool_decide (bt_wallet_id x = bt_wallet_id b) &&
  bool_decide (bt_game_room_id x = bt_game_room_id b) &&
  bool_decide (bt_play_mode x = bt_play_mode b) &&
  jsonb_equal (bt_selection x) (bt_selection b) &&
  bool_decide (bt_status x = "accepted"%string) && bt_merge_enabled x.

Definition bet_conflict (b x : bet_row) : bool :=
  bool_decide (bt_user_id x = bt_user_id b) &&
    bool_decide (bt_client_request_id x = bt_client_request_id b) ||
  same_slot b x ||
  match bt_robot_plan_id b with
  | Some plan => bool_decide (bt_robot_plan_id x = Some plan) && bool_decide (bt_round_id x = bt_round_id b)
  | None => false
  end.

Definition play_modes : list string :=
  ["guess"; "dodge"; "road"; "direct"; "up_down"; "left_right"; "odd_even"; "winner"]%string.

Definition positive_snapshot (o : option Z) : bool := from_option (fun z => 0 <? z) true o.

(** The CHECKs of the table. *)
Definition bet_ok (b : bet_row) : bool :=
  (0 <? bt_stake_minor b) && (bt_stake_minor b <=? int64_max) &&
  from_option (fun m => bool_decide (m ∈ play_modes)) true (bt_play_mode b) &&
  positive_snapshot (bt_payout_multiplier_snapshot b) && positive_snapshot (bt_payout_divisor_snapshot b).

Definition new_bet (r : PlaceBetRequest) (walletID : string) (simulated : bool) (terms : Terms)
    (now stamp : Z) : bet_row :=
  mk_bet_row (pr_ClientRequestID r) (pr_RoundID r) (pr_AccountID r) walletID
    (nullif (pr_GameRoomID r)) (nullif (pr_PlayMode r)) (selection_of r) (pr_StakeMinor r)
    "accepted" 0 (Some (tm_Multiplier terms)) (Some (tm_Divisor terms)) simulated
    (nullif (pr_RobotPlanID r)) true 1 (Some stamp) now None None 1.

(** The accepted order the request is added to. *)
Definition mergeable (r : PlaceBetRequest) (walletID : string) (simulated : bool) (_ : string)
    (b : bet_row) : bool :=
  bool_decide (bt_user_id b = pr_AccountID r) && bool_decide (bt_round_id b = pr_RoundID r) &&
  bool_decide (bt_wallet_id b = walletID) && bool_decide (bt_game_room_id b = nullif (pr_GameRoomID r)) &&
  bool_decide (bt_play_mode b = nullif (pr_PlayMode r)) &&
  jsonb_equal (bt_selection b) (selection_of r) && bool_decide (bt_status b = "accepted"%string) &&
  bt_merge_enabled b && Bool.eqb (bt_is_simulated b) simulated.

Definition add_stake (stake stamp : Z) (b : bet_row) : bet_row :=
  mk_bet_row (bt_client_request_id b) (bt_round_id b) (bt_user_id b) (bt_wallet_id b)
    (bt_game_room_id b) (bt_play_mode b) (bt_selection b) stake (bt_status b) (bt_payout_minor b)
    (bt_payout_multiplier_snapshot b) (bt_payout_divisor_snapshot b) (bt_is_simulated b)
    (bt_robot_plan_id b) (bt_merge_enabled b) (bt_placement_count b + 1) (Some stamp)
    (bt_created_at b) (bt_settled_at b) (bt_balance_after_settlement_minor b) (bt_rebate_version b).

Definition new_placement (r : PlaceBetRequest) (betID : string) (stamp : Z) : placement_row :=
  mk_placement_row betID (pr_AccountID r) (pr_RoundID r) (pr_ClientRequestID r) (pr_Currency r)
    (nullif (pr_GameRoomID r)) (nullif (pr_PlayMode r)) (selection_of r) (pr_StakeMinor r)
    (nullif (pr_RobotPlanID r)) stamp.

Definition placement_conflict (p x : placement_row) : bool :=
  bool_decide (bp_user_id x = bp_user_id p) &&
    bool_decide (bp_client_request_id x = bp_client_request_id p) ||
  match bp_robot_plan_id p with
  | Some plan => bool_decide (bp_robot_plan_id x = Some plan) && bool_decide (bp_round_id x = bp_round_id p)
  | None => false
  end.

Definition optional_room (room : option string) (db : DB) : bool :=
  from_option (fun id => bool_decide (is_Some (game_rooms db.(app) !! id))) true room.

Section betting.
Context `{Uuids}.

(** The row of the order: a new one under [betID], or the merged one. *)
Definition write_order (t : clock) (stamp : Z) (r : PlaceBetRequest) (walletID : string)
    (simulated : bool) (terms : Terms) (betID : string) (merged : option (string * bet_row)) : Tx string :=
  match merged with
  | Some (id, old) =>
      n ← update_row (R := bet_row) id (add_stake (pr_StakeMinor r + bt_stake_minor old)%i64 stamp);
      mret id
  | None =>
      let b := new_bet r walletID simulated terms (sql_now t) stamp in
      reject_if (negb (bet_ok b)) (CheckViolation "bets_check");;
      room ← gets (optional_room (bt_game_room_id b));
      reject_if (negb room) (ForeignKeyViolation "bets_game_room_id_fkey");;
      insert_row (bet_conflict b) betID b;;
      (if tm_Shared terms then SnapshotTx betID else mret ());;
      mret betID
  end.

Definition debit_entry (entryID walletID betID placementID : string) (stake after : Z) : ledger_insert :=
  mk_entry entryID walletID "bet" betID "bet_debit" (- stake)%i64 after None 0 "" None (Some placementID).

Definition announce_placed (t : clock) (betID placementID : string) (stake : Z) : Tx () :=
  scanned ← gets (scanPublicBet betID);
  public ← lift scanned;
  added ← lift (FormatDisplayAmount stake (pu_Decimals public));
  eventID ← new_uuid;
  insert_outbox eventID "bet" betID "game.bet.placed"
    (JObj [("bet", public_bet_json public); ("placement_id", JStr placementID);
           ("added_stake", JStr added)]%string) (sql_now t).

(** The writes of an accepted bet.  A real bettor pays now. *)
Definition take_bet (t : clock) (stamp : Z) (r : PlaceBetRequest) (simulated : bool) (terms : Terms)
    : Tx () :=
  let stake := pr_StakeMinor r in
  w ← find_wallet (pr_AccountID r) (pr_Currency r);
  wallet ← found ErrWalletNotFound w;
  let '(walletID, row) := wallet in
  reject_if (negb simulated && (w_available row <? stake)) ErrInsufficientFunds;;
  newID ← new_uuid;
  merged ← select_where (R := bet_row) (mergeable r walletID simulated);
  reject_if (from_option (fun x => (int64_max - stake)%i64 <? bt_stake_minor x.2) false merged)
    ErrStakeOutsideLimits;;
  let available := (w_available row - stake)%i64 in
  (if simulated then mret ()
   else update_wallet walletID (fun _ => available) w_frozen (sql_now t));;
  betID ← write_order t stamp r walletID simulated terms newID merged;
  placementID ← new_uuid;
  let p := new_placement r betID stamp in
  insert_row (placement_conflict p) placementID p;;
  (if simulated then mret ()
   else
     entryID ← new_uuid;
     insert_ledger (debit_entry entryID walletID betID placementID stake available) (sql_now t));;
  announce_placed t betID placementID stake.

(** The answer of [findPlacement], unless the request is new. *)
Definition known_or (found : res PlacedBet) (k : Tx PlacedBet) : Tx PlacedBet :=
  match found with
  | Ok b => mret b
  | Err e => if bool_decide (e = ErrNoRows) then k else raise e
  end.

Definition check_account (requireRobot : bool) (u : user_row) : res () :=
  fail_if (requireRobot && negb (u_is_virtual u)) ErrBettingBanned;;
  fail_if (bool_decide (u_status u = "disabled"%string)) ErrAccountDisabled;;
  fail_if (bool_decide (u_status u = "bet_banned"%string)) ErrBettingBanned.

(** [stamp] is what [clock_timestamp()] reads during the transaction. *)
Definition placeBetTx (t : clock) (stamp : Z) (request : PlaceBetRequest) (requireRobot : bool)
    : Tx PlacedBet :=
  let r := normalize_bet request in
  reject_if (pr_StakeMinor r <=? 0) ErrInvalidStake;;
  reject_if (bool_decide (pr_Selection r = None)) ErrInvalidSelection;;
  existing ← gets (findPlacement r);
  known_or existing (
    o ← gets (fun db => users db.(app) !! pr_AccountID r);
    u ← found ErrNoRows o;
    existing ← gets (findPlacement r);
    known_or existing (
      lift (check_account requireRobot u);;
      judged ← gets (bet_terms (go_now t) r);
      terms ← lift judged;
      take_bet t stamp r (u_is_virtual u) terms;;
      placed ← gets (findPlacement r);
      lift placed)).

Definition PlaceBet (t : clock) (stamp : Z) (request : PlaceBetRequest) : Svc PlacedBet :=
  atomically (placeBetTx t stamp request false).

Definition PlaceRobotBetTx (t : clock) (stamp : Z) (request : PlaceBetRequest) : Tx PlacedBet :=
  placeBetTx t stamp request true.

(** ** Cancelling *)

Definition with_refund_balance (balance : Z) (b : PlacedBet) : PlacedBet :=
  mk_PlacedBet (pl_PlacementCount b) (pl_LastPlacedAt b) (pl_Decimals b) (pl_Stake b) (pl_Payout b)
    (pl_BetID b) (pl_ClientRequestID b) (pl_RoundID b) (pl_AccountID b) (pl_GameType b) (pl_GameName b)
    (pl_RoundSequence b) (pl_Currency b) (pl_GameRoomID b) (pl_GameRoomCode b) (pl_GameRoomName b)
    (pl_PlayMode b) (pl_Selection b) (pl_StakeMinor b) (pl_PayoutMultiplier b) (pl_PayoutDivisor b)
    (pl_PayoutRate b) (pl_Status b) (pl_PayoutMinor b) (pl_BalanceAfterBetMinor b)
    (Some balance) (pl_BalanceAfterSettlementMinor b) (pl_PlacedAt b) (pl_SettledAt b).

Definition is_cancel_refund (betID : string) (e : ledger_row) : bool :=
  bool_decide (le_business_type e = "bet_cancel"%string) && bool_decide (le_business_id e = betID) &&
  bool_decide (le_entry_type e = "bet_refund"%string).

Definition cancelledBetResult (userID requestID betID : string) (db : DB) : res PlacedBet :=
  b ← findBet userID requestID db;
  e ← of_option ErrNoRows (List.find (is_cancel_refund betID) (ledger db.(money)));
  Ok (with_refund_balance (le_balance_after e) b).

Definition announce_cancelled (betID : string) (at_ : Z) : Tx () :=
  scanned ← gets (scanPublicBet betID);
  public ← lift scanned;
  eventID ← new_uuid;
  insert_outbox eventID "bet" betID "game.bet.cancelled" (JObj [("bet", public_bet_json public)]%string) at_.

Definition set_cancelled (settledAt balance : Z) (b : bet_row) : bet_row :=
  set_settled "cancelled" (bt_payout_minor b) settledAt balance b.

Definition CancelBet (t : clock) (betID userID : string) : Tx PlacedBet :=
  o ← select_id (R := bet_row) betID;
  b ← found ErrBetNotFound (o ≫= fun b => if bool_decide (bt_user_id b = userID) then Some b else None);
  w ← gets (fun db => wallets db.(money) !! bt_wallet_id b);
  wallet ← found ErrBetNotFound w;
  d ← gets (fun db => rounds db.(app) !! bt_round_id b);
  round ← found ErrBetNotFound d;
  let before_close := go_now t <? rd_bet_closes_at round in
  let request := bt_client_request_id b in
  if bt_is_simulated b then
    (if bool_decide (bt_status b = "accepted"%string) && before_close then
       update_bet betID (set_cancelled (sql_now t) (w_available wallet));;
       announce_cancelled betID (sql_now t)
     else reject_if (negb (bool_decide (bt_status b = "cancelled"%string))) ErrBetCancellationClosed);;
    result ← gets (findBet userID request);
    lift result
  else if bool_decide (bt_status b = "cancelled"%string) then
    result ← gets (cancelledBetResult userID request betID);
    lift result
  else
    reject_if (negb (bool_decide (bt_status b = "accepted"%string)) || negb before_close)
      ErrBetCancellationClosed;;
    reject_if ((int64_max - bt_stake_minor b)%i64 <? w_available wallet) cancel_overflow;;
    let available := (w_available wallet + bt_stake_minor b)%i64 in
    let now := go_now t in
    update_wallet (bt_wallet_id b) (fun _ => available) w_frozen now;;
    update_bet betID (set_cancelled now available);;
    entryID ← new_uuid;
    insert_ledger (entry entryID (bt_wallet_id b) "bet_cancel" betID "bet_refund" (bt_stake_minor b)
                     available) (sql_now t);;
    announce_cancelled betID now;;
    result ← gets (cancelledBetResult userID request betID);
    lift result.

End betting.
