(* ===== verification/Operations.v ===== *)
(** * Administrative operations on bets

    [application/operations/bet_void.go]: an administrator voids one accepted
    bet; the refund, the audit record and the answer to a repeated request are
    one transaction.  [uuid.Parse] is not part of the repository: whether a
    text is a UUID is an argument. *)

From S2P Require Import Prelude GoStrings Json Game Schema Store Settlement.

Definition ErrAdminCompletionForbidden : error := Sentinel "operations.ErrAdminCompletionForbidden".
Definition ErrInvalidBetVoid : error := Sentinel "operations.ErrInvalidBetVoid".
Definition ErrBetVoidNotFound : error := Sentinel "operations.ErrBetVoidNotFound".
Definition ErrBetNotVoidable : error := Sentinel "operations.ErrBetNotVoidable".
Definition ErrBetVoidConflict : error := Sentinel "operations.ErrBetVoidConflict".
Definition ErrBetVoidBalanceOverflow : error := Sentinel "operations.ErrBetVoidBalanceOverflow".

Record BetVoidInput : Type := mk_BetVoidInput {
  vi_OperatorID : string;
  vi_RequestID : string;
  vi_BetID : string;
  vi_Reason : string
}.

Record BetVoidResult : Type := mk_BetVoidResult {
  vr_OperationID : string;
  vr_BetID : string;
  vr_UserID : Z;
  vr_OperatorUserID : Z;
  vr_GameType : string;
  vr_RoundSequence : Z;
  vr_Currency : string;
  vr_StakeMinor : Z;
  vr_RefundMinor : Z;
  vr_IsSimulated : bool;
  vr_Reason : string;
  vr_Status : string;
  vr_Duplicate : bool;
  vr_CreatedAt : Z
}.

(** [json.Marshal(out)], and what [json.Unmarshal] reads back. *)
Definition bet_void_json (r : BetVoidResult) : json :=
  JObj [("operation_id", JStr (vr_OperationID r)); ("bet_id", JStr (vr_BetID r));
        ("user_id", JInt (vr_UserID r)); ("operator_user_id", JInt (vr_OperatorUserID r));
        ("game_type", JStr (vr_GameType r)); ("round_sequence", JInt (vr_RoundSequence r));
        ("currency", JStr (vr_Currency r)); ("stake_minor", JInt (vr_StakeMinor r));
        ("refund_minor", JInt (vr_RefundMinor r)); ("is_simulated", JBool (vr_IsSimulated r));
        ("reason", JStr (vr_Reason r)); ("status", JStr (vr_Status r));
        ("duplicate", JBool (vr_Duplicate r)); ("created_at", JInt (vr_CreatedAt r))]%string.

Definition dec_time (old : Z) (j : json) : option Z :=
  match j with JInt n => Some n | JNull => Some old | _ => None end.

Definition set_bet_void (k : string) (v : json) (r : BetVoidResult) : option BetVoidResult :=
  let '(mk_BetVoidResult o b u a g s c st rf sim rs stt d at_) := r in
  if is_key "operation_id" k then x ← dec_string o v; Some (mk_BetVoidResult x b u a g s c st rf sim rs stt d at_)
  else if is_key "bet_id" k then x ← dec_string b v; Some (mk_BetVoidResult o x u a g s c st rf sim rs stt d at_)
  else if is_key "user_id" k then x ← dec_int64 u v; Some (mk_BetVoidResult o b x a g s c st rf sim rs stt d at_)
  else if is_key "operator_user_id" k then x ← dec_int64 a v; Some (mk_BetVoidResult o b u x g s c st rf sim rs stt d at_)
  else if is_key "game_type" k then x ← dec_string g v; Some (mk_BetVoidResult o b u a x s c st rf sim rs stt d at_)
  else if is_key "round_sequence" k then x ← dec_int64 s v; Some (mk_BetVoidResult o b u a g x c st rf sim rs stt d at_)
  else if is_key "currency" k then x ← dec_string c v; Some (mk_BetVoidResult o b u a g s x st rf sim rs stt d at_)
  else if is_key "stake_minor" k then x ← dec_int64 st v; Some (mk_BetVoidResult o b u a g s c x rf sim rs stt d at_)
  else if is_key "refund_minor" k then x ← dec_int64 rf v; Some (mk_BetVoidResult o b u a g s c st x sim rs stt d at_)
  else if is_key "is_simulated" k then x ← dec_bool sim v; Some (mk_BetVoidResult o b u a g s c st rf x rs stt d at_)
  else if is_key "reason" k then x ← dec_string rs v; Some (mk_BetVoidResult o b u a g s c st rf sim x stt d at_)
  else if is_key "status" k then x ← dec_string stt v; Some (mk_BetVoidResult o b u a g s c st rf sim rs x d at_)
  else if is_key "duplicate" k then x ← dec_bool d v; Some (mk_BetVoidResult o b u a g s c st rf sim rs stt x at_)
  else if is_key "created_at" k then x ← dec_time at_ v; Some (mk_BetVoidResult o b u a g s c st rf sim rs stt d x)
  else Some r.

Definition zero_bet_void : BetVoidResult := mk_BetVoidResult "" "" 0 0 "" 0 "" 0 0 false "" "" false 0.

Definition dec_bet_void : json -> option BetVoidResult := dec_struct set_bet_void zero_bet_void.

Definition as_duplicate (r : BetVoidResult) : BetVoidResult :=
  mk_BetVoidResult (vr_OperationID r) (vr_BetID r) (vr_UserID r) (vr_OperatorUserID r) (vr_GameType r)
    (vr_RoundSequence r) (vr_Currency r) (vr_StakeMinor r) (vr_RefundMinor r) (vr_IsSimulated r)
    (vr_Reason r) (vr_Status r) true (vr_CreatedAt r).

Definition has_role (user : string) (roles : list string) (db : DB) : bool :=
  existsb (fun r => bool_decide (r.1 = user) && bool_decide (r.2 ∈ roles)) (user_roles db.(app)).

(** account_creation.go: the public number of an active administrator or
    operator. *)
Definition requireAdminOperator (actorID : string) (db : DB) : res Z :=
  u ← of_option ErrAdminCompletionForbidden (users db.(app) !! actorID);
  fail_if (negb (bool_decide (u_status u = "active"%string)) ||
           negb (has_role actorID ["admin"; "operator"]%string db)) ErrAdminCompletionForbidden;;
  Ok (u_public_id u).

Section voids.
Context `{Uuids}.
Context (is_uuid : string -> bool).

Definition valid_void (i : BetVoidInput) : bool :=
  is_uuid (vi_OperatorID i) && is_uuid (vi_BetID i) &&
  (0 <? str_len (vi_RequestID i)) && (str_len (vi_RequestID i) <=? 128) &&
  (0 <? str_len (vi_Reason i)) && (str_len (vi_Reason i) <=? 2000).

Definition void_key (operator request : string) (_ : string) (v : bet_void_row) : bool :=
  bool_decide (bv_operator_id v = operator) && bool_decide (bv_request_id v = request).

(** UNIQUE(operator_id, request_id) and UNIQUE(bet_id). *)
Definition void_conflict (v x : bet_void_row) : bool :=
  bool_decide (bv_operator_id x = bv_operator_id v) && bool_decide (bv_request_id x = bv_request_id v) ||
  bool_decide (bv_bet_id x = bv_bet_id v).

Definition set_voided (at_ balance : Z) (b : bet_row) : bet_row :=
  set_settled "voided" (bt_payout_minor b) at_ balance b.

Definition VoidBet (t : clock) (input : BetVoidInput) : Tx BetVoidResult :=
  let i := mk_BetVoidInput (vi_OperatorID input) (TrimSpace (vi_RequestID input)) (vi_BetID input)
             (TrimSpace (vi_Reason input)) in
  reject_if (negb (valid_void i)) ErrInvalidBetVoid;;
  admin ← gets (requireAdminOperator (vi_OperatorID i));
  operatorPublicID ← lift admin;
  old ← select_where (R := bet_void_row) (void_key (vi_OperatorID i) (vi_RequestID i));
  match old with
  | Some (_, v) =>
      reject_if (negb (bool_decide (bv_bet_id v = vi_BetID i)) || negb (bool_decide (bv_reason v = vi_Reason i)))
        ErrBetVoidConflict;;
      out ← lift (of_option (Sentinel "json.Unmarshal") (dec_bet_void (bv_result v)));
      mret (as_duplicate out)
  | None =>
      o ← select_id (R := bet_row) (vi_BetID i);
      b ← found ErrBetVoidNotFound o;
      operationID ← new_uuid;
      let now := go_now t in
      joined ← gets (fun db =>
        u ← users db.(app) !! bt_user_id b;
        w ← wallets db.(money) !! bt_wallet_id b;
        r ← rounds db.(app) !! bt_round_id b;
        g ← game_types db.(app) !! rd_game_type_id r;
        Some (u, w, r, g));
      j ← found ErrBetVoidNotFound joined;
      let '(u, w, r, g) := j in
      reject_if (negb (bool_decide (bt_status b = "accepted"%string))) ErrBetNotVoidable;;
      let stake := bt_stake_minor b in
      let balance := if bt_is_simulated b then w_available w else (w_available w + stake)%i64 in
      let refund := if bt_is_simulated b then 0 else stake in
      let out := mk_BetVoidResult operationID (vi_BetID i) (u_public_id u) operatorPublicID (gt_code g)
        (rd_sequence r) (w_currency w) stake refund (bt_is_simulated b) (vi_Reason i) "voided" false now in
      (if bt_is_simulated b then mret ()
       else
         reject_if ((int64_max - stake)%i64 <? w_available w) ErrBetVoidBalanceOverflow;;
         update_wallet (bt_wallet_id b) (fun _ => balance) w_frozen now;;
         entryID ← new_uuid;
         insert_ledger (mk_entry entryID (bt_wallet_id b) "bet_void" operationID "bet_void_refund" refund
                          balance None 0 (vi_Reason i) (Some (vi_OperatorID i)) None) (sql_now t));;
      update_bet (vi_BetID i) (set_voided now balance);;
      let v := mk_bet_void_row (vi_OperatorID i) (vi_RequestID i) (vi_BetID i) (bt_user_id b) (bt_wallet_id b)
        (bt_round_id b) (rd_sequence r) (gt_code g) (w_currency w) stake refund (bt_is_simulated b) (vi_Reason i)
        (jsonb (bet_void_json out)) now in
      insert_row (void_conflict v) operationID v;;
      eventID ← new_uuid;
      insert_outbox eventID "bet" (vi_BetID i) "game.bet.voided"
        (JObj [("bet_id", JStr (vi_BetID i)); ("round_id", JStr (bt_round_id b)); ("status", JStr "voided")]%string)
        now;;
      auditID ← new_uuid;
      insert_audit (mk_audit (Some (vi_OperatorID i)) "admin.bet.void" "bet" (vi_BetID i)
                      (Some (vi_RequestID i)) (bet_void_json out));;
      mret out
  end.

(** ListBetVoids: a page of the recorded results, newest first. *)
Definition void_newest (x y : string * bet_void_row) : Prop :=
  (bv_created_at y.2 <? bv_created_at x.2) ||
  (bv_created_at x.2 =? bv_created_at y.2) && String.leb y.1 x.1 = true.

#[local] Instance void_newest_dec x y : Decision (void_newest x y) := bool_eq_dec _ _.

Definition ListBetVoids (actorID : string) (limit offset : Z) (db : DB) : res (list BetVoidResult * Z) :=
  requireAdminOperator actorID db;;
  let rows := merge_sort void_newest (map_to_list (bet_voids db.(app))) in
  let shown := take (Z.to_nat (if (limit <=? 0) || (200 <? limit) then 50 else limit))
                 (drop (Z.to_nat (Z.max 0 offset)) rows) in
  items ← mapM (fun kv => of_option (Sentinel "json.Unmarshal") (dec_bet_void (bv_result kv.2))) shown;
  Ok (items, Z.of_nat (length rows)).

End voids.
