(* ===== verification/Credit.v ===== *)
(** * Credits

    [application/credit]: point withdrawals and their review, rewards, stamina
    (service.go), and the administrative adjustment of a balance
    (adjustment.go). *)

From S2P Require Import Prelude GoStrings Money Json Schema Store Wallet.
From S2P Require Import Operations.

Definition CurrencyPoints : string := "POINTS".
Definition CurrencyStamina : string := "STAMINA".
Definition BizBetTaskReward : string := "bet_task_reward".
Definition BizActivityConsume : string := "activity_consume".

Definition validCurrency (v : string) : bool := negb (bool_decide (TrimSpace v = ""%string)).

Definition credit_ErrInvalidAmount : error := Sentinel "credit.ErrInvalidAmount".
Definition ErrInvalidCurrency : error := Sentinel "credit.ErrInvalidCurrency".
Definition credit_ErrInsufficientBalance : error := Sentinel "credit.ErrInsufficientBalance".
Definition ErrUserNotFound : error := Sentinel "credit.ErrUserNotFound".
Definition ErrPointWithdrawalNotFound : error := Sentinel "credit.ErrPointWithdrawalNotFound".
Definition ErrVirtualAccountWithdrawal : error := Sentinel "credit.ErrVirtualAccountWithdrawal".
Definition ErrPointWithdrawalState : error := Sentinel "credit.ErrPointWithdrawalState".

Record PointWithdrawal : Type := mk_PointWithdrawal {
  pwd_ID : string;
  pwd_UserID : string;
  pwd_ClientRequestID : string;
  pwd_AmountMinor : Z;
  pwd_Status : string;
  pwd_CreatedAt : Z
}.

Definition point_withdrawal_of (id : string) (p : point_withdrawal_row) : PointWithdrawal :=
  mk_PointWithdrawal id (pw_user_id p) (pw_client_request_id p) (pw_amount_minor p) (pw_status p)
    (pw_created_at p).

Section credit.
Context `{Uuids}.

(** ** Shared steps *)

(** [walletIDOf]. *)
Definition walletIDOf (userID currency : string) : Tx string :=
  w ← find_wallet userID currency;
  wallet ← found ErrNoRows w;
  mret wallet.1.

(** What an entry moves besides its amount: point withdrawals freeze. *)
Definition credit_deltas (bizType : string) (amount : Z) : Z * Z :=
  if bool_decide (bizType = "point_withdrawal"%string) then (amount, (- amount)%i64)
  else if bool_decide (bizType = "point_withdrawal_debit"%string) then (0, amount)
  else if bool_decide (bizType = "point_withdrawal_unfreeze"%string) then (amount, (- amount)%i64)
  else (amount, 0).

Definition credit_entry (entryID walletID bizType bizID : string) (amount after : Z)
    (remark operatorID : string) : ledger_insert :=
  let '(availableDelta, frozenDelta) := credit_deltas bizType amount in
  mk_entry entryID walletID bizType bizID bizType amount after (Some availableDelta) frozenDelta remark
    (if bool_decide (operatorID = ""%string) then None else Some operatorID) None.

Definition writeLedger (now : Z) (userID currency bizType bizID : string) (amount after : Z)
    (remark operatorID : string) : Tx () :=
  walletID ← walletIDOf userID currency;
  entryID ← new_uuid;
  insert_ledger (credit_entry entryID walletID bizType bizID amount after remark operatorID) now.

(** The wallet is opened when there is none; the sum is made by the database,
    which checks its range. *)
Definition addBalance (now : Z) (userID currency : string) (delta : Z) : Tx Z :=
  walletID ← new_uuid;
  made ← insert_wallet walletID userID currency now;
  w ← find_wallet userID currency;
  wallet ← found ErrNoRows w;
  update_wallet wallet.1 (fun w => w_available w + delta) w_frozen now;;
  mret (w_available wallet.2 + delta).

Definition deductBalance (now : Z) (userID currency : string) (amount : Z) : Tx Z :=
  w ← find_wallet userID currency;
  match w with
  | Some (walletID, wallet) =>
      if amount <=? w_available wallet then
        update_wallet walletID (fun w => w_available w - amount) w_frozen now;;
        mret (w_available wallet - amount)
      else raise credit_ErrInsufficientBalance
  | None => raise credit_ErrInsufficientBalance
  end.

Definition RewardCurrency (now : Z) (userID currency0 bizType bizID : string) (amountMinor : Z)
    (remark : string) : Tx Z :=
  let currency := ToUpper (TrimSpace currency0) in
  reject_if (negb (validCurrency currency)) ErrInvalidCurrency;;
  reject_if (amountMinor <=? 0) credit_ErrInvalidAmount;;
  balanceAfter ← addBalance now userID currency amountMinor;
  writeLedger now userID currency bizType bizID amountMinor balanceAfter remark "";;
  mret balanceAfter.

Definition RewardStamina (now : Z) (userID bizType bizID : string) (amountMinor : Z) (remark : string) : Tx Z :=
  RewardCurrency now userID CurrencyStamina bizType bizID amountMinor remark.

(** ** Point withdrawals *)

Definition point_request (userID requestID : string) (_ : string) (p : point_withdrawal_row) : bool :=
  bool_decide (pw_user_id p = userID) && bool_decide (pw_client_request_id p = requestID).

Definition RequestPointWithdrawal (t : clock) (userID requestID : string) (amount : Z) (remark : string)
    : Tx PointWithdrawal :=
  reject_if (bool_decide (userID = ""%string) || bool_decide (requestID = ""%string)) ErrUserNotFound;;
  reject_if (amount <=? 0) credit_ErrInvalidAmount;;
  existing ← select_where (R := point_withdrawal_row) (point_request userID requestID);
  match existing with
  | Some (id, p) => mret (point_withdrawal_of id p)
  | None =>
      u ← gets (fun db => users db.(app) !! userID);
      user ← found ErrNoRows u;
      reject_if (u_is_virtual user) ErrVirtualAccountWithdrawal;;
      w ← find_wallet userID CurrencyPoints;
      wallet ← found ErrUserNotFound w;
      let '(walletID, row) := wallet in
      let available := w_available row in
      let frozen := w_frozen row in
      reject_if (available <? amount) credit_ErrInsufficientBalance;;
      update_wallet walletID (fun _ => (available - amount)%i64) (fun _ => (frozen + amount)%i64) (sql_now t);;
      id ← new_uuid;
      let p := mk_point_withdrawal_row userID walletID requestID amount "requested" remark None None (sql_now t) in
      insert_row (point_request userID requestID "") id p;;
      writeLedger (sql_now t) userID CurrencyPoints "point_withdrawal" id (- amount)%i64 (available - amount)%i64
        remark "";;
      mret (point_withdrawal_of id p)
  end.

Definition set_reviewed (status reviewer : string) (at_ : Z) (p : point_withdrawal_row) : point_withdrawal_row :=
  mk_point_withdrawal_row (pw_user_id p) (pw_wallet_id p) (pw_client_request_id p) (pw_amount_minor p) status
    (pw_remark p) (Some reviewer) (Some at_) (pw_created_at p).

Definition ReviewPointWithdrawal (t : clock) (id reviewerID : string) (approved : bool) : Tx () :=
  o ← select_id (R := point_withdrawal_row) id;
  p ← found ErrPointWithdrawalNotFound o;
  w ← wallet_by_id (pw_wallet_id p);
  wallet ← found ErrPointWithdrawalNotFound w;
  let amount := pw_amount_minor p in
  let available := w_available wallet in
  let frozen := w_frozen wallet in
  reject_if (negb (bool_decide (pw_status p = "requested"%string)) || (frozen <? amount)) ErrPointWithdrawalState;;
  let newStatus := (if approved then "approved" else "rejected")%string in
  let balanceAfter := if approved then available else (available + amount)%i64 in
  let entryType := (if approved then "point_withdrawal_debit" else "point_withdrawal_unfreeze")%string in
  let entryAmount := if approved then (- amount)%i64 else amount in
  update_wallet (pw_wallet_id p) (fun _ => balanceAfter) (fun _ => (frozen - amount)%i64) (sql_now t);;
  n ← update_row (R := point_withdrawal_row) id (set_reviewed newStatus reviewerID (sql_now t));
  writeLedger (sql_now t) (pw_user_id p) CurrencyPoints entryType id entryAmount balanceAfter "" reviewerID.

Definition newest_point (x y : string * point_withdrawal_row) : Prop := pw_created_at y.2 <= pw_created_at x.2.

#[local] Instance newest_point_dec x y : Decision (newest_point x y) := Z.le_dec _ _.

Definition ListPointWithdrawals (userID status : string) (limit : Z) (db : DB) : list PointWithdrawal :=
  let wanted kv := (bool_decide (userID = ""%string) || bool_decide (pw_user_id kv.2 = userID)) &&
                   (bool_decide (status = ""%string) || bool_decide (pw_status kv.2 = status)) in
  take (Z.to_nat (if (limit <=? 0) || (100 <? limit) then 50 else limit))
    (map (fun kv => point_withdrawal_of kv.1 kv.2)
      (merge_sort newest_point
        (List.filter wanted (map_to_list (point_withdrawals db.(app)))))).

(** ** Stamina *)

Record ConsumeStaminaInput : Type := mk_ConsumeStaminaInput {
  cs_UserID : string;
  cs_AmountMinor : Z;
  cs_ActivityID : string;
  cs_Remark : string
}.

Record ConsumeResult : Type := mk_ConsumeResult {
  co_UserID : string;
  co_AmountMinor : Z;
  co_BalanceAfterMinor : Z;
  co_Consumed : bool;
  co_OccurredAt : Z
}.

Definition findStaminaLedger (userID bizType bizID : string) (db : DB) : option ledger_row :=
  List.find (fun e =>
    bool_decide (le_business_type e = bizType) && bool_decide (le_business_id e = bizID) &&
    match wallets db.(money) !! le_wallet_id e with
    | Some w => is_wallet_of userID CurrencyStamina "" w
    | None => false
    end) (ledger db.(money)).

Definition ConsumeStamina (t : clock) (input : ConsumeStaminaInput) : Tx ConsumeResult :=
  reject_if (cs_AmountMinor input <=? 0) credit_ErrInvalidAmount;;
  reject_if (bool_decide (cs_UserID input = ""%string) || bool_decide (cs_ActivityID input = ""%string))
    ErrUserNotFound;;
  let bizID := String.append "consume:" (cs_ActivityID input) in
  existing ← gets (findStaminaLedger (cs_UserID input) BizActivityConsume bizID);
  match existing with
  | Some e => mret (mk_ConsumeResult (cs_UserID input) (- le_amount e)%i64 (le_balance_after e) false (le_occurred_at e))
  | None =>
      balanceAfter ← deductBalance (sql_now t) (cs_UserID input) CurrencyStamina (cs_AmountMinor input);
      writeLedger (sql_now t) (cs_UserID input) CurrencyStamina BizActivityConsume bizID
        (- cs_AmountMinor input)%i64 balanceAfter (cs_Remark input) "";;
      mret (mk_ConsumeResult (cs_UserID input) (cs_AmountMinor input) balanceAfter true (go_now t))
  end.

(** ** Balances *)

Record BalanceInfo : Type := mk_BalanceInfo {
  bi_UserID : string;
  bi_Currency : string;
  bi_AvailableMinor : Z;
  bi_FrozenMinor : Z;
  bi_Decimals : Z;
  bi_Available : string;
  bi_Frozen : string
}.

(** The formatting error is dropped: the text is then empty. *)
Definition shown_amount (minor decimals : Z) : string :=
  match FormatDisplayAmount minor decimals with Ok s => s | Err _ => ""%string end.

Definition balance_info (userID currency : string) (available frozen decimals : Z) : BalanceInfo :=
  mk_BalanceInfo userID currency available frozen decimals (shown_amount available decimals)
    (shown_amount frozen decimals).

Definition Balance (userID currency : string) (db : DB) : res BalanceInfo :=
  w ← of_option ErrUserNotFound (find_row (is_wallet_of userID currency) (wallets db.(money)));
  c ← of_option ErrUserNotFound (currencies db.(app) !! currency);
  Ok (balance_info userID currency (w_available w.2) (w_frozen w.2) (cur_decimals c)).

Definition Balances (userID : string) (db : DB) : list BalanceInfo :=
  match users db.(app) !! userID with
  | None => []
  | Some _ =>
      omap (fun kv =>
        let w := find_row (is_wallet_of userID kv.1) (wallets db.(money)) in
        if cur_enabled kv.2 || bool_decide (is_Some w)
        then Some (balance_info userID kv.1 (from_option (fun x => w_available x.2) 0 w)
                     (from_option (fun x => w_frozen x.2) 0 w) (cur_decimals kv.2))
        else None)
        (merge_sort (fun x y => str_le x.1 y.1) (map_to_list (currencies db.(app))))
  end.

(** ** The ledger, listed

    Pages are ordered by time and identifier, the newest first; the cursor of
    the unified list is the pair itself (its base64 text is left out). *)

Definition newest_entry (x y : ledger_row * wallet_row) : Prop :=
  (le_occurred_at y.1 <? le_occurred_at x.1) ||
  (le_occurred_at y.1 =? le_occurred_at x.1) && String.leb (le_id y.1) (le_id x.1) = true.

#[local] Instance newest_entry_dec x y : Decision (newest_entry x y) := bool_eq_dec _ _.

(** The entries joined with their wallets, of one user, in order. *)
Definition entries_of (userID : string) (wanted : ledger_row -> wallet_row -> bool) (db : DB)
    : list (ledger_row * wallet_row) :=
  merge_sort newest_entry
    (omap (fun e =>
      w ← wallets db.(money) !! le_wallet_id e;
      if bool_decide (w_user_id w = userID) && wanted e w then Some (e, w) else None)
      (ledger db.(money))).

Definition page_size (limit : Z) : nat := Z.to_nat (if (limit <=? 0) || (100 <? limit) then 50 else limit).

Record LedgerEntry : Type := mk_LedgerEntry {
  cl_ID : string;
  cl_UserID : string;
  cl_BusinessType : string;
  cl_BusinessID : string;
  cl_AmountMinor : Z;
  cl_BalanceAfterMinor : Z;
  cl_Remark : string;
  cl_OperatorID : string;
  cl_OccurredAt : Z
}.

Definition ledger_entry_of (x : ledger_row * wallet_row) : LedgerEntry :=
  mk_LedgerEntry (le_id x.1) (w_user_id x.2) (le_business_type x.1) (le_business_id x.1) (le_amount x.1)
    (le_balance_after x.1) (le_remark x.1) (default ""%string (le_operator_id x.1)) (le_occurred_at x.1).

Definition listLedger (currency userID : string) (limit offset : Z) (db : DB) : list LedgerEntry :=
  map ledger_entry_of (take (page_size limit) (drop (Z.to_nat offset)
    (entries_of userID (fun _ w => bool_decide (w_currency w = currency)) db))).

Definition ListPointsLedger : string -> Z -> Z -> DB -> list LedgerEntry := listLedger CurrencyPoints.

Definition ListStaminaLedger : string -> Z -> Z -> DB -> list LedgerEntry := listLedger CurrencyStamina.

(** *** ledger.go *)

Record LedgerFilter : Type := mk_LedgerFilter {
  lf_From : option Z;
  lf_To : option Z;
  lf_BusinessType : string;
  lf_EntryType : string
}.

Record UnifiedLedgerEntry : Type := mk_UnifiedLedgerEntry {
  ul_ID : string;
  ul_Currency : string;
  ul_Decimals : Z;
  ul_BusinessType : string;
  ul_BusinessID : string;
  ul_EntryType : string;
  ul_AmountMinor : Z;
  ul_Amount : string;
  ul_AvailableDeltaMinor : Z;
  ul_FrozenDeltaMinor : Z;
  ul_AvailableAfterMinor : Z;
  ul_FrozenAfterMinor : Z;
  ul_AvailableAfter : string;
  ul_FrozenAfter : string;
  ul_Remark : string;
  ul_OccurredAt : Z
}.

Definition unified_entry (x : ledger_row * wallet_row) (decimals : Z) : UnifiedLedgerEntry :=
  let e := x.1 in
  mk_UnifiedLedgerEntry (le_id e) (w_currency x.2) decimals (le_business_type e) (le_business_id e)
    (le_entry_type e) (le_amount e) (shown_amount (le_amount e) decimals) (le_available_delta e)
    (le_frozen_delta e) (le_balance_after e) (le_frozen_after e) (shown_amount (le_balance_after e) decimals)
    (shown_amount (le_frozen_after e) decimals) (le_remark e) (le_occurred_at e).

Definition before_cursor (cursor : option (Z * string)) (e : ledger_row) : bool :=
  match cursor with
  | None => true
  | Some (at_, id) =>
      (le_occurred_at e <? at_) || (le_occurred_at e =? at_) && String.ltb (le_id e) id
  end.

Definition in_period (f : LedgerFilter) (e : ledger_row) : bool :=
  match lf_From f with Some a => a <=? le_occurred_at e | None => true end &&
  match lf_To f with Some b => le_occurred_at e <? b | None => true end.

Definition unified_match (currency : string) (f : LedgerFilter) (e : ledger_row) (w : wallet_row) : bool :=
  (bool_decide (currency = ""%string) || bool_decide (w_currency w = currency)) && in_period f e &&
  (bool_decide (lf_BusinessType f = ""%string) || bool_decide (le_business_type e = lf_BusinessType f)) &&
  (bool_decide (lf_EntryType f = ""%string) || bool_decide (le_entry_type e = lf_EntryType f)).

Definition ListUnifiedLedger (userID currency0 : string) (cursor : option (Z * string)) (limit : Z)
    (f : LedgerFilter) (db : DB) : list UnifiedLedgerEntry * option (Z * string) :=
  let currency := ToUpper (TrimSpace currency0) in
  let rows := omap (fun x => c ← currencies db.(app) !! w_currency x.2; Some (unified_entry x (cur_decimals c)))
    (entries_of userID (fun e w => unified_match currency f e w && before_cursor cursor e) db) in
  let n := page_size limit in
  let page := take n rows in
  (page,
   if (n <? length rows)%nat
   then option_map (fun v => (ul_OccurredAt v, ul_ID v)) (last page)
   else None).

End credit.

(** ** adjustment.go *)

Definition ErrInvalidAdjustment : error := Sentinel "credit.ErrInvalidAdjustment".
Definition ErrAdjustmentConflict : error := Sentinel "credit.ErrAdjustmentConflict".
Definition ErrAdjustmentForbidden : error := Sentinel "credit.ErrAdjustmentForbidden".

Record AdjustmentInput : Type := mk_AdjustmentInput {
  ai_UserID : string;
  ai_Currency : string;
  ai_Action : string;
  ai_Amount : string;
  ai_Remark : string;
  ai_RequestID : string;
  ai_OperatorID : string
}.

Record AdjustmentResult : Type := mk_AdjustmentResult {
  ar_OperationID : string;
  ar_UserID : string;
  ar_Currency : string;
  ar_Action : string;
  ar_AmountMinor : Z;
  ar_DeltaMinor : Z;
  ar_BalanceBeforeMinor : Z;
  ar_BalanceAfterMinor : Z;
  ar_FrozenMinor : Z;
  ar_Duplicate : bool;
  ar_OccurredAt : Z
}.

Definition adjustment_json (r : AdjustmentResult) : json :=
  JObj [("operation_id", JStr (ar_OperationID r)); ("user_id", JStr (ar_UserID r));
        ("currency", JStr (ar_Currency r)); ("action", JStr (ar_Action r));
        ("amount_minor", JInt (ar_AmountMinor r)); ("delta_minor", JInt (ar_DeltaMinor r));
        ("balance_before_minor", JInt (ar_BalanceBeforeMinor r));
        ("balance_after_minor", JInt (ar_BalanceAfterMinor r)); ("frozen_minor", JInt (ar_FrozenMinor r));
        ("duplicate", JBool (ar_Duplicate r)); ("occurred_at", JInt (ar_OccurredAt r))]%string.

Definition set_adjustment (k : string) (v : json) (r : AdjustmentResult) : option AdjustmentResult :=
  let '(mk_AdjustmentResult o u c a m d b e f dup at_) := r in
  if is_key "operation_id" k then x ← dec_string o v; Some (mk_AdjustmentResult x u c a m d b e f dup at_)
  else if is_key "user_id" k then x ← dec_string u v; Some (mk_AdjustmentResult o x c a m d b e f dup at_)
  else if is_key "currency" k then x ← dec_string c v; Some (mk_AdjustmentResult o u x a m d b e f dup at_)
  else if is_key "action" k then x ← dec_string a v; Some (mk_AdjustmentResult o u c x m d b e f dup at_)
  else if is_key "amount_minor" k then x ← dec_int64 m v; Some (mk_AdjustmentResult o u c a x d b e f dup at_)
  else if is_key "delta_minor" k then x ← dec_int64 d v; Some (mk_AdjustmentResult o u c a m x b e f dup at_)
  else if is_key "balance_before_minor" k then x ← dec_int64 b v; Some (mk_AdjustmentResult o u c a m d x e f dup at_)
  else if is_key "balance_after_minor" k then x ← dec_int64 e v; Some (mk_AdjustmentResult o u c a m d b x f dup at_)
  else if is_key "frozen_minor" k then x ← dec_int64 f v; Some (mk_AdjustmentResult o u c a m d b e x dup at_)
  else if is_key "duplicate" k then x ← dec_bool dup v; Some (mk_AdjustmentResult o u c a m d b e f x at_)
  else if is_key "occurred_at" k then x ← dec_time at_ v; Some (mk_AdjustmentResult o u c a m d b e f dup x)
  else Some r.

Definition zero_adjustment : AdjustmentResult := mk_AdjustmentResult "" "" "" "" 0 0 0 0 0 false 0.

Definition dec_adjustment : json -> option AdjustmentResult := dec_struct set_adjustment zero_adjustment.

Definition repeated (r : AdjustmentResult) : AdjustmentResult :=
  mk_AdjustmentResult (ar_OperationID r) (ar_UserID r) (ar_Currency r) (ar_Action r) (ar_AmountMinor r)
    (ar_DeltaMinor r) (ar_BalanceBeforeMinor r) (ar_BalanceAfterMinor r) (ar_FrozenMinor r) true
    (ar_OccurredAt r).

Definition adjustmentDirection (action : string) : option Z :=
  if bool_decide (action = "credit"%string) || bool_decide (action = "reward"%string) then Some 1
  else if bool_decide (action = "debit"%string) || bool_decide (action = "penalty"%string) then Some (-1)
  else None.

Definition valid_adjustment (i : AdjustmentInput) : bool :=
  negb (bool_decide (ai_UserID i = ""%string) || bool_decide (ai_RequestID i = ""%string) ||
        (128 <? str_len (ai_RequestID i)) || (2000 <? str_len (ai_Remark i))).

Definition is_operator (user : string) (db : DB) : bool :=
  match users db.(app) !! user with
  | Some u => bool_decide (u_status u = "active"%string) && has_role user ["admin"; "operator"]%string db
  | None => false
  end.

Definition adjustment_key (operator request : string) (_ : string) (a : adjustment_row) : bool :=
  bool_decide (ad_operator_id a = operator) && bool_decide (ad_request_id a = request).

Definition same_adjustment (i : AdjustmentInput) (currency : string) (amount : Z) (a : adjustment_row) : bool :=
  bool_decide (ad_user_id a = ai_UserID i) && bool_decide (ad_currency a = currency) &&
  bool_decide (ad_action a = ai_Action i) && (ad_amount_minor a =? amount) &&
  bool_decide (ad_remark a = ai_Remark i).

(** The entries of the credit interface before migration 0049, which used the
    request as the business identifier, with their wallets. *)
Definition legacy_credits (operator request : string) (db : DB) : list (ledger_row * wallet_row) :=
  omap (fun e =>
    if bool_decide (le_operator_id e = Some operator) && bool_decide (le_business_type e = "admin_credit"%string) &&
       bool_decide (le_business_id e = request) && bool_decide (adjustments db.(app) !! request = None)
    then w ← wallets db.(money) !! le_wallet_id e; Some (e, w)
    else None) (ledger db.(money)).

Definition same_legacy (i : AdjustmentInput) (currency : string) (amount : Z) (l : ledger_row * wallet_row) : bool :=
  bool_decide (ai_Action i = "credit"%string) && bool_decide (w_user_id l.2 = ai_UserID i) &&
  bool_decide (w_currency l.2 = currency) && (le_amount l.1 =? amount) &&
  bool_decide (le_remark l.1 = ai_Remark i).

Definition legacy_result (amount : Z) (l : ledger_row * wallet_row) : AdjustmentResult :=
  mk_AdjustmentResult (le_id l.1) (w_user_id l.2) (w_currency l.2) "credit" (le_amount l.1) amount
    (le_balance_after l.1 - amount)%i64 (le_balance_after l.1) (le_frozen_after l.1) true (le_occurred_at l.1).

Section adjustment.
Context `{Uuids}.

(** The change itself, once the request is known to be new. *)
Definition apply_adjustment (t : clock) (i : AdjustmentInput) (currency : string) (direction amount : Z)
    : Tx AdjustmentResult :=
  u ← gets (fun db => users db.(app) !! ai_UserID i);
  user ← found ErrUserNotFound u;
  reject_if (u_is_virtual user && (direction <? 0)) ErrVirtualAccountWithdrawal;;
  walletID ← new_uuid;
  made ← insert_wallet walletID (ai_UserID i) currency (sql_now t);
  w ← find_wallet (ai_UserID i) currency;
  wallet ← found ErrNoRows w;
  let before := w_available wallet.2 in
  let frozen := w_frozen wallet.2 in
  reject_if ((direction <? 0) && (before <? amount)) credit_ErrInsufficientBalance;;
  reject_if ((0 <? direction) && (((int64_max - frozen)%i64 <? before) ||
                                  (((int64_max - frozen)%i64 - before)%i64 <? amount))) credit_ErrInvalidAmount;;
  let delta := (direction * amount)%i64 in
  let after := (before + delta)%i64 in
  update_wallet wallet.1 (fun _ => after) w_frozen (sql_now t);;
  operationID ← new_uuid;
  let out := mk_AdjustmentResult operationID (ai_UserID i) currency (ai_Action i) amount delta before after
               frozen false (go_now t) in
  writeLedger (sql_now t) (ai_UserID i) currency (String.append "admin_" (ai_Action i)) operationID delta after
    (ai_Remark i) (ai_OperatorID i);;
  insert_row (adjustment_key (ai_OperatorID i) (ai_RequestID i) "") operationID
    (mk_adjustment_row (ai_OperatorID i) (ai_RequestID i) (ai_UserID i) currency (ai_Action i) amount (ai_Remark i)
       (jsonb (adjustment_json out)));;
  auditID ← new_uuid;
  insert_audit (mk_audit (Some (ai_OperatorID i)) (String.append "admin.wallet." (ai_Action i)) "user" (ai_UserID i)
                  (Some (ai_RequestID i)) (adjustment_json out));;
  mret out.

(** A repeated request returns what was recorded; a new one is applied. *)
Definition answer_adjustment (t : clock) (i : AdjustmentInput) (currency : string) (direction amount : Z)
    (cur : currency_row) : Tx AdjustmentResult :=
  old ← select_where (R := adjustment_row) (adjustment_key (ai_OperatorID i) (ai_RequestID i));
  match old with
  | Some (_, a) =>
      reject_if (negb (same_adjustment i currency amount a)) ErrAdjustmentConflict;;
      out ← lift (of_option (Sentinel "json.Unmarshal") (dec_adjustment (ad_result a)));
      mret (repeated out)
  | None =>
      legacy ← gets (legacy_credits (ai_OperatorID i) (ai_RequestID i));
      match legacy with
      | [] =>
          reject_if (negb (cur_enabled cur)) ErrInvalidCurrency;;
          apply_adjustment t i currency direction amount
      | l :: rest =>
          reject_if (negb (bool_decide (rest = [])) || negb (same_legacy i currency amount l))
            ErrAdjustmentConflict;;
          mret (legacy_result amount l)
      end
  end.

Definition AdjustWallet (t : clock) (i : AdjustmentInput) : Tx AdjustmentResult :=
  match adjustmentDirection (ai_Action i) with
  | None => raise ErrInvalidAdjustment
  | Some direction =>
      reject_if (negb (valid_adjustment i)) ErrInvalidAdjustment;;
      reject_if (bool_decide (ai_OperatorID i = ""%string)) ErrAdjustmentForbidden;;
      let currency := ToUpper (TrimSpace (ai_Currency i)) in
      reject_if (negb (validCurrency currency)) ErrInvalidCurrency;;
      reject_if (negb (ValidDisplayAmount (ai_Amount i))) credit_ErrInvalidAmount;;
      admin ← gets (is_operator (ai_OperatorID i));
      reject_if (negb admin) ErrAdjustmentForbidden;;
      c ← gets (fun db => currencies db.(app) !! ToUpper (TrimSpace currency));
      cur ← found ErrInvalidCurrency c;
      amount ← (match ParseDisplayAmount (ai_Amount i) (cur_decimals cur) with
                | Ok a => mret a
                | Err _ => raise credit_ErrInvalidAmount
                end);
      answer_adjustment t i currency direction amount cur
  end.

(** AdminCredit: the older entry point, the same rules. *)
Record CreditResult : Type := mk_CreditResult {
  cr_UserID : string;
  cr_Currency : string;
  cr_AmountMinor : Z;
  cr_BalanceAfterMinor : Z;
  cr_Credited : bool;
  cr_OccurredAt : Z
}.

Record AdminCreditInput : Type := mk_AdminCreditInput {
  ac_UserID : string;
  ac_Currency : string;
  ac_Amount : string;
  ac_Remark : string;
  ac_OperatorID : string;
  ac_RequestID : string
}.

Definition AdminCredit (t : clock) (i : AdminCreditInput) : Tx CreditResult :=
  reject_if (bool_decide (ac_UserID i = ""%string) || bool_decide (ac_RequestID i = ""%string)) ErrUserNotFound;;
  reject_if (negb (validCurrency (ac_Currency i))) ErrInvalidCurrency;;
  reject_if (negb (ValidDisplayAmount (ac_Amount i))) credit_ErrInvalidAmount;;
  r ← AdjustWallet t (mk_AdjustmentInput (ac_UserID i) (ac_Currency i) "credit" (ac_Amount i) (ac_Remark i)
                        (ac_RequestID i) (ac_OperatorID i));
  mret (mk_CreditResult (ar_UserID r) (ar_Currency r) (ar_AmountMinor r) (ar_BalanceAfterMinor r)
          (negb (ar_Duplicate r)) (ar_OccurredAt r)).

End adjustment.
