(* ===== verification/Spin.v ===== *)
(** * The lucky wheel

    [application/credit]: a spin and its prize (spin.go), the configuration of
    the wheels (spin_config.go) and their management (spin_management.go).  The
    random source is an argument: [rand.Int] of the prize weights. *)

From S2P Require Import Prelude GoStrings Money Json Schema Store Wallet.
From S2P Require Import Operations Credit.

Definition BizLuckySpinReward : string := "lucky_spin_reward".
Definition BizLuckySpinCost : string := "lucky_spin_cost".

Definition ErrActivityUnavailable : error := Sentinel "credit.ErrActivityUnavailable".
Definition ErrInvalidSpinConfig : error := Sentinel "credit.ErrInvalidSpinConfig".
Definition ErrSpinConfigNotFound : error := Sentinel "credit.ErrSpinConfigNotFound".
Definition ErrSpinManagementForbidden : error := Sentinel "credit.ErrSpinManagementForbidden".

Record SpinPrize : Type := mk_SpinPrize {
  pz_Disabled : bool;
  pz_ID : string;
  pz_Label : string;
  pz_Currency : string;
  pz_AmountMinor : Z;
  pz_Weight : Z
}.

Record SpinResult : Type := mk_SpinResult {
  sr_ID : string;
  sr_SpinID : string;
  sr_PrizeID : string;
  sr_PrizeLabel : string;
  sr_RewardCurrency : string;
  sr_RewardMinor : Z;
  sr_CostCurrency : string;
  sr_CostMinor : Z;
  sr_CostBalance : Z;
  sr_RewardBalance : Z;
  sr_CreatedAt : Z
}.

(** What [formatSpin] adds to a result. *)
Record SpinView : Type := mk_SpinView {
  sv_result : SpinResult;
  sv_CostDecimals : Z;
  sv_RewardDecimals : Z;
  sv_CostBalanceAfterSpin : Z;
  sv_Cost : string;
  sv_Reward : string;
  sv_CostAvailable : string;
  sv_RewardAvailable : string
}.

Record SpinConfig : Type := mk_SpinConfig {
  sg_ID : string;
  sg_Code : string;
  sg_Title : string;
  sg_Enabled : bool;
  sg_CostCurrency : string;
  sg_CostMinor : Z;
  sg_SortOrder : Z;
  sg_Prizes : list SpinPrize
}.

(** ** Drawing *)

Definition drawable (p : SpinPrize) : bool :=
  negb (bool_decide (pz_ID p = ""%string) || bool_decide (pz_Label p = ""%string) || (pz_AmountMinor p <=? 0) ||
        (pz_Weight p <? 0) || negb (validCurrency (pz_Currency p))).

(** The total weight of the enabled prizes; [None] when one of them is not
    drawable or the sum leaves [int64]. *)
Fixpoint total_weight (prizes : list SpinPrize) (total : Z) : option Z :=
  match prizes with
  | [] => Some total
  | p :: rest =>
      if pz_Disabled p then total_weight rest total
      else if negb (drawable p) || ((int64_max - pz_Weight p)%i64 <? total) then None
      else total_weight rest (total + pz_Weight p)%i64
  end.

Fixpoint pick_prize (prizes : list SpinPrize) (cursor : Z) : option SpinPrize :=
  match prizes with
  | [] => None
  | p :: rest =>
      if pz_Disabled p then pick_prize rest cursor
      else if cursor <? pz_Weight p then Some p
      else pick_prize rest (cursor - pz_Weight p)%i64
  end.

Definition choosePrize (random : Z -> res Z) (prizes : list SpinPrize) : option SpinPrize :=
  total ← total_weight prizes 0;
  if total <=? 0 then None
  else match random total with
       | Ok cursor => pick_prize prizes cursor
       | Err _ => None
       end.

Definition formatSpin (r : SpinResult) (db : DB) : res SpinView :=
  c ← of_option ErrNoRows (currencies db.(app) !! sr_CostCurrency r);
  d ← of_option ErrNoRows (currencies db.(app) !! sr_RewardCurrency r);
  let after := if bool_decide (sr_CostCurrency r = sr_RewardCurrency r) then sr_RewardBalance r
               else sr_CostBalance r in
  cost ← FormatDisplayAmount (sr_CostMinor r) (cur_decimals c);
  reward ← FormatDisplayAmount (sr_RewardMinor r) (cur_decimals d);
  cost_available ← FormatDisplayAmount after (cur_decimals c);
  reward_available ← FormatDisplayAmount (sr_RewardBalance r) (cur_decimals d);
  Ok (mk_SpinView r (cur_decimals c) (cur_decimals d) after cost reward cost_available reward_available).

Definition spin_key (userID requestID : string) (_ : string) (r : spin_record_row) : bool :=
  bool_decide (sx_user_id r = userID) && bool_decide (sx_client_request_id r = requestID).

Definition spin_result (id : string) (r : spin_record_row) : SpinResult :=
  mk_SpinResult id (sx_spin_id r) (sx_prize_id r) (sx_prize_label r) (sx_reward_currency r) (sx_reward_minor r)
    (sx_cost_currency r) (sx_cost_minor r) (sx_cost_balance_after r) (sx_reward_balance_after r) (sx_created_at r).

Definition findSpin (userID requestID : string) (db : DB) : option SpinResult :=
  option_map (fun kv => spin_result kv.1 kv.2) (find_row (spin_key userID requestID) (spin_records db.(app))).

(** ** Configuration *)

Definition prize_before (x y : string * spin_prize_row) : Prop :=
  (sp_sort_order x.2 <? sp_sort_order y.2) ||
  (sp_sort_order x.2 =? sp_sort_order y.2) && String.leb x.1 y.1 = true.

#[export] Instance prize_before_dec x y : Decision (prize_before x y) := bool_eq_dec _ _.

Definition prize_of (kv : string * spin_prize_row) : SpinPrize :=
  mk_SpinPrize (sp_disabled kv.2) kv.1 (sp_label kv.2) (sp_reward_currency kv.2) (sp_reward_minor kv.2)
    (sp_weight kv.2).

Definition spinPrizes (spinID : string) (db : DB) : list SpinPrize :=
  map prize_of (merge_sort prize_before
    (List.filter (fun kv => bool_decide (sp_spin_id kv.2 = spinID)) (map_to_list (spin_prizes db.(app))))).

Definition config_of (db : DB) (kv : string * spin_config_row) : SpinConfig :=
  mk_SpinConfig kv.1 (sc_code kv.2) (sc_title kv.2) (sc_enabled kv.2) (sc_cost_currency kv.2) (sc_cost_minor kv.2)
    (sc_sort_order kv.2) (spinPrizes kv.1 db).

Definition config_before (x y : string * spin_config_row) : Prop :=
  (sc_sort_order x.2 <? sc_sort_order y.2) ||
  (sc_sort_order x.2 =? sc_sort_order y.2) && (sc_created_at x.2 <=? sc_created_at y.2) = true.

#[export] Instance config_before_dec x y : Decision (config_before x y) := bool_eq_dec _ _.

Definition ListSpinConfigs (enabledOnly : bool) (db : DB) : list SpinConfig :=
  map (config_of db) (merge_sort config_before
    (List.filter (fun kv => negb (sc_deleted kv.2) && (negb enabledOnly || sc_enabled kv.2))
      (map_to_list (spin_configs db.(app))))).

Definition spin_named (idOrCode : string) (enabledOnly : bool) (id : string) (c : spin_config_row) : bool :=
  (bool_decide (id = idOrCode) || bool_decide (sc_code c = idOrCode)) && negb (sc_deleted c) &&
  (negb enabledOnly || sc_enabled c).

Definition findSpinConfig (idOrCode : string) (enabledOnly : bool) (db : DB) : option SpinConfig :=
  option_map (config_of db) (find_row (spin_named idOrCode enabledOnly) (spin_configs db.(app))).

Section spin.
Context `{Uuids}.

Definition shown_spin (r : SpinResult) : Tx SpinView := fun db =>
  match formatSpin r db with Ok v => Ok (v, db) | Err e => Err e end.

(** The cost is taken, the prize paid, the draw recorded. *)
Definition draw_spin (t : clock) (userID requestID : string) (config : SpinConfig) (prize : SpinPrize)
    : Tx SpinView :=
  costBalance ← deductBalance (sql_now t) userID (sg_CostCurrency config) (sg_CostMinor config);
  recordID ← new_uuid;
  writeLedger (sql_now t) userID (sg_CostCurrency config) BizLuckySpinCost recordID (- sg_CostMinor config)%i64
    costBalance "转盘参与消耗" "";;
  rewardBalance ← addBalance (sql_now t) userID (pz_Currency prize) (pz_AmountMinor prize);
  writeLedger (sql_now t) userID (pz_Currency prize) BizLuckySpinReward recordID (pz_AmountMinor prize)
    rewardBalance "幸运转盘奖励" "";;
  let row := mk_spin_record_row userID requestID (sg_ID config) (pz_ID prize) (pz_Label prize) (pz_Currency prize)
    (pz_AmountMinor prize) (sg_CostCurrency config) (sg_CostMinor config) costBalance rewardBalance (sql_now t) in
  insert_row (spin_key userID requestID "") recordID row;;
  shown_spin (spin_result recordID row).

(** The second look at the request, after the wallets are locked, sees what the
    first saw: the transaction is one step. *)
Definition LuckySpin (t : clock) (random : Z -> res Z) (userID spinID requestID : string) : Tx SpinView :=
  reject_if (bool_decide (userID = ""%string) || bool_decide (spinID = ""%string) ||
             bool_decide (requestID = ""%string)) ErrUserNotFound;;
  existing ← gets (findSpin userID requestID);
  match existing with
  | Some r => shown_spin r
  | None =>
      c ← gets (findSpinConfig spinID true);
      config ← found ErrActivityUnavailable c;
      prize ← found ErrActivityUnavailable (choosePrize random (sg_Prizes config));
      draw_spin t userID requestID config prize
  end.

(** ** Saving wheels *)

Definition strip_dashes (id : string) : string :=
  b2s (List.filter (fun c => negb (code c =? 45)) (s2b id)).

Definition currency_known (c : string) (db : DB) : bool := bool_decide (is_Some (currencies db.(app) !! c)).

Definition check_currency (c : string) : Tx () :=
  ok ← gets (currency_known c);
  reject_if (negb ok) (ForeignKeyViolation "currencies").

Definition normal_spin (v : SpinConfig) : SpinConfig :=
  mk_SpinConfig (sg_ID v) (sg_Code v) (TrimSpace (sg_Title v)) (sg_Enabled v)
    (ToUpper (TrimSpace (sg_CostCurrency v))) (sg_CostMinor v) (sg_SortOrder v) (sg_Prizes v).

Definition valid_spin (v : SpinConfig) : bool :=
  negb (bool_decide (sg_Title v = ""%string)) && validCurrency (sg_CostCurrency v) && (0 <? sg_CostMinor v) &&
  negb (bool_decide (sg_Prizes v = [])).

Definition normal_prize (p : SpinPrize) : SpinPrize :=
  mk_SpinPrize (pz_Disabled p) (pz_ID p) (pz_Label p) (ToUpper (TrimSpace (pz_Currency p))) (pz_AmountMinor p)
    (pz_Weight p).

Definition valid_prize (p : SpinPrize) : bool :=
  negb (bool_decide (pz_Label p = ""%string)) && validCurrency (pz_Currency p) && (0 <? pz_AmountMinor p) &&
  (0 <=? pz_Weight p).

Definition with_id (id : string) (p : SpinPrize) : SpinPrize :=
  mk_SpinPrize (pz_Disabled p) id (pz_Label p) (pz_Currency p) (pz_AmountMinor p) (pz_Weight p).

Definition prize_row (spinID code : string) (i : Z) (p : SpinPrize) : spin_prize_row :=
  mk_spin_prize_row spinID code (pz_Label p) (pz_Currency p) (pz_AmountMinor p) (pz_Weight p) i (pz_Disabled p).

Definition same_prize_code (r x : spin_prize_row) : bool :=
  bool_decide (sp_spin_id x = sp_spin_id r) && bool_decide (sp_code x = sp_code r).

(** One prize of the list, at its position. *)
Definition save_prize (creating : bool) (spinID : string) (i : Z) (seen : list string) (p0 : SpinPrize)
    : Tx SpinPrize :=
  let p := normal_prize p0 in
  reject_if (negb (valid_prize p)) ErrInvalidSpinConfig;;
  if bool_decide (pz_ID p = ""%string) then
    id ← new_uuid;
    check_currency (pz_Currency p);;
    insert_row (same_prize_code (prize_row spinID id i p)) id (prize_row spinID id i p);;
    mret (with_id id p)
  else
    reject_if (creating || bool_decide (pz_ID p ∈ seen)) ErrInvalidSpinConfig;;
    old ← select_id (R := spin_prize_row) (pz_ID p);
    row ← found ErrInvalidSpinConfig old;
    reject_if (negb (bool_decide (sp_spin_id row = spinID))) ErrInvalidSpinConfig;;
    check_currency (pz_Currency p);;
    n ← update_row (R := spin_prize_row) (pz_ID p) (fun r => prize_row spinID (sp_code r) i p);
    mret p.

Fixpoint save_prizes (creating : bool) (spinID : string) (i : Z) (seen : list string) (ps : list SpinPrize)
    : Tx (list SpinPrize) :=
  match ps with
  | [] => mret []
  | p :: rest =>
      p' ← save_prize creating spinID i seen p;
      rest' ← save_prizes creating spinID (i + 1) (pz_ID p' :: seen) rest;
      mret (p' :: rest')
  end.

Definition drop_prizes (spinID : string) (keep : list string) : Tx () :=
  modify (fun db => set_app (set_spin_prizes
    (filter (fun kv => ~ (sp_spin_id kv.2 = spinID /\ kv.1 ∉ keep)) (spin_prizes db.(app))) db.(app)) db).

Definition save_spin_row (t : clock) (v : SpinConfig) : Tx (string * string) :=
  if bool_decide (sg_ID v = ""%string) then
    id ← new_uuid;
    let code := String.append "spin-" (strip_dashes id) in
    check_currency (sg_CostCurrency v);;
    insert_row (fun c => bool_decide (sc_code c = code)) id
      (mk_spin_config_row code (sg_Title v) (sg_Enabled v) (sg_CostCurrency v) (sg_CostMinor v) (sg_SortOrder v)
         false (sql_now t));;
    mret (id, code)
  else
    old ← select_id (R := spin_config_row) (sg_ID v);
    row ← found ErrSpinConfigNotFound old;
    reject_if (sc_deleted row) ErrSpinConfigNotFound;;
    check_currency (sg_CostCurrency v);;
    n ← update_row (R := spin_config_row) (sg_ID v) (fun r =>
      mk_spin_config_row (sc_code r) (sg_Title v) (sg_Enabled v) (sg_CostCurrency v) (sg_CostMinor v)
        (sg_SortOrder v) (sc_deleted r) (sc_created_at r));
    mret (sg_ID v, sc_code row).

Definition save_spin (t : clock) (random : Z -> res Z) (v0 : SpinConfig) : Tx SpinConfig :=
  let v := normal_spin v0 in
  reject_if (negb (valid_spin v)) ErrInvalidSpinConfig;;
  saved ← save_spin_row t v;
  let '(id, code) := saved in
  prizes ← save_prizes (bool_decide (sg_ID v = ""%string)) id 0 [] (sg_Prizes v);
  reject_if (sg_Enabled v && bool_decide (choosePrize random prizes = None)) ErrInvalidSpinConfig;;
  drop_prizes id (map pz_ID prizes);;
  mret (mk_SpinConfig id code (sg_Title v) (sg_Enabled v) (sg_CostCurrency v) (sg_CostMinor v) (sg_SortOrder v)
          prizes).

Fixpoint save_spins (t : clock) (random : Z -> res Z) (items : list SpinConfig) : Tx (list SpinConfig) :=
  match items with
  | [] => mret []
  | v :: rest =>
      v' ← save_spin t random v;
      rest' ← save_spins t random rest;
      mret (v' :: rest')
  end.

Definition disable_others (keep : list string) : Tx () :=
  modify (fun db => set_app (set_spin_configs
    (map_imap (fun id c => Some (if bool_decide (id ∈ keep) then c else
       mk_spin_config_row (sc_code c) (sc_title c) false (sc_cost_currency c) (sc_cost_minor c) (sc_sort_order c)
         (sc_deleted c) (sc_created_at c))) (spin_configs db.(app))) db.(app)) db).

Definition saveSpinConfigs (t : clock) (random : Z -> res Z) (items : list SpinConfig) (replace : bool)
    : Tx (list SpinConfig) :=
  reject_if (bool_decide (items = [])) ErrInvalidSpinConfig;;
  saved ← save_spins t random items;
  (if replace : bool then disable_others (map sg_ID saved) else mret ());;
  if replace then gets (ListSpinConfigs false) else mret saved.

Definition ReplaceSpinConfigs (t : clock) (random : Z -> res Z) (items : list SpinConfig) : Tx (list SpinConfig) :=
  saveSpinConfigs t random items true.

Definition SaveSpinConfig (t : clock) (random : Z -> res Z) (item : SpinConfig) : Tx SpinConfig :=
  items ← saveSpinConfigs t random [item] false;
  match items with
  | saved :: _ => mret saved
  | [] => raise (Sentinel "runtime.indexOutOfRange")
  end.

(** ** Management *)

Definition is_admin (user : string) (db : DB) : bool :=
  match users db.(app) !! user with
  | Some u => bool_decide (u_status u = "active"%string) && has_role user ["admin"]%string db
  | None => false
  end.

Definition set_enabled (deleted enabled : bool) (c : spin_config_row) : spin_config_row :=
  mk_spin_config_row (sc_code c) (sc_title c) enabled (sc_cost_currency c) (sc_cost_minor c) (sc_sort_order c)
    deleted (sc_created_at c).

Definition ChangeSpinState (is_uuid : string -> bool) (random : Z -> res Z) (actor id : string)
    (enabled : option bool) : Tx () :=
  reject_if (negb (is_uuid id)) ErrSpinConfigNotFound;;
  allowed ← gets (is_admin actor);
  reject_if (negb allowed) ErrSpinManagementForbidden;;
  old ← select_id (R := spin_config_row) id;
  row ← found ErrSpinConfigNotFound old;
  if sc_deleted row then
    reject_if (bool_decide (is_Some enabled)) ErrSpinConfigNotFound
  else
    (match enabled with
     | Some on =>
         (if on : bool then
            v ← gets (findSpinConfig id false);
            config ← found ErrNoRows v;
            reject_if (bool_decide (choosePrize random (sg_Prizes config) = None)) ErrInvalidSpinConfig
          else mret ());;
         n ← update_row (R := spin_config_row) id (fun c => set_enabled (sc_deleted c) on c);
         mret ()
     | None =>
         n ← update_row (R := spin_config_row) id (set_enabled true false);
         mret ()
     end);;
    auditID ← new_uuid;
    insert_audit (mk_audit (Some actor)
      (match enabled with Some _ => "spin.enabled" | None => "spin.delete" end)%string "spin" id None (JObj [])).

(** ** Records *)

Record SpinRecordQuery : Type := mk_SpinRecordQuery {
  sq_SpinID : string;
  sq_Currency : string;
  sq_UserID : Z;
  sq_Limit : Z;
  sq_Offset : Z
}.

Record SpinRecord : Type := mk_SpinRecord {
  sd_ID : string;
  sd_SpinID : string;
  sd_UserID : Z;
  sd_DisplayName : string;
  sd_IsVirtual : bool;
  sd_PrizeID : string;
  sd_PrizeLabel : string;
  sd_Currency : string;
  sd_AmountMinor : Z;
  sd_CreatedAt : Z
}.

Definition newest_record (x y : SpinRecord) : Prop :=
  (sd_CreatedAt y <? sd_CreatedAt x) ||
  (sd_CreatedAt y =? sd_CreatedAt x) && String.leb (sd_ID y) (sd_ID x) = true.

#[local] Instance newest_record_dec x y : Decision (newest_record x y) := bool_eq_dec _ _.

Definition spin_match (q : SpinRecordQuery) (r : spin_record_row) (u : user_row) : bool :=
  (bool_decide (sq_SpinID q = ""%string) || bool_decide (sx_spin_id r = sq_SpinID q)) &&
  (bool_decide (sq_Currency q = ""%string) || bool_decide (sx_reward_currency r = sq_Currency q)) &&
  ((sq_UserID q =? 0) || (u_public_id u =? sq_UserID q)).

Definition ListSpinRecords (is_uuid : string -> bool) (q : SpinRecordQuery) (db : DB) : res (list SpinRecord * Z) :=
  fail_if (negb (bool_decide (sq_SpinID q = ""%string)) && negb (is_uuid (sq_SpinID q))) ErrInvalidSpinConfig;;
  let limit := if (sq_Limit q <? 1) || (100 <? sq_Limit q) then 50 else sq_Limit q in
  let offset := if sq_Offset q <? 0 then 0 else sq_Offset q in
  let all := omap (fun kv =>
      u ← users db.(app) !! sx_user_id kv.2;
      if spin_match q kv.2 u
      then Some (mk_SpinRecord kv.1 (sx_spin_id kv.2) (u_public_id u) (u_display_name u) (u_is_virtual u)
                   (sx_prize_id kv.2) (sx_prize_label kv.2) (sx_reward_currency kv.2) (sx_reward_minor kv.2)
                   (sx_created_at kv.2))
      else None) (map_to_list (spin_records db.(app))) in
  Ok (take (Z.to_nat limit) (drop (Z.to_nat offset) (merge_sort newest_record all)), Z.of_nat (length all)).

End spin.
