(* ===== verification/Task.v ===== *)
(** * Betting tasks

    [application/task]: the configuration of the tasks, the progress that
    settled bets make, and the claim of a reward (lifecycle.go, service.go),
    and their management (management.go). *)

From S2P Require Import Prelude GoStrings Json Schema Store.
From S2P Require Import Operations Credit Spin.

Definition ErrInvalidTask : error := Sentinel "task.ErrInvalidTask".
Definition ErrTaskConfigNotFound : error := Sentinel "task.ErrTaskConfigNotFound".
Definition ErrTaskNotCompleted : error := Sentinel "task.ErrTaskNotCompleted".
Definition ErrTaskAlreadyClaimed : error := Sentinel "task.ErrTaskAlreadyClaimed".
Definition ErrTaskForbidden : error := Sentinel "task.ErrTaskForbidden".

Record TaskReward : Type := mk_TaskReward {
  tw_Currency : string;
  tw_AmountMinor : Z;
  tw_BalanceAfterMinor : option Z
}.

Record BetTaskConfig : Type := mk_BetTaskConfig {
  tk_Title : string;
  tk_PeriodType : string;
  tk_SortOrder : Z;
  tk_MaxCompleteCount : Z;
  tk_Rewards : list TaskReward;
  tk_ID : string;
  tk_AccumulationCurrency : string;
  tk_RewardCurrency : string;
  tk_ThresholdMinor : Z;
  tk_RewardMinor : Z;
  tk_Enabled : bool
}.

Record BetTaskClaim : Type := mk_BetTaskClaim {
  tm_CompleteCount : Z;
  tm_Rewards : list TaskReward;
  tm_TaskID : string;
  tm_BetDate : string;
  tm_RewardCurrency : string;
  tm_RewardMinor : Z;
  tm_BalanceAfterMinor : Z;
  tm_ClaimedAt : Z
}.

(** ** JSON *)

Definition set_reward (k : string) (v : json) (r : TaskReward) : option TaskReward :=
  let '(mk_TaskReward c a b) := r in
  if is_key "currency" k then x ← dec_string c v; Some (mk_TaskReward x a b)
  else if is_key "amount_minor" k then x ← dec_int64 a v; Some (mk_TaskReward c x b)
  else if is_key "balance_after_minor" k then
    match v with
    | JNull => Some (mk_TaskReward c a None)
    | _ => x ← dec_int64 0 v; Some (mk_TaskReward c a (Some x))
    end
  else Some r.

Definition dec_rewards (j : json) : option (list TaskReward) :=
  match j with
  | JArr l => mapM (dec_struct set_reward (mk_TaskReward "" 0 None)) l
  | JNull => Some []
  | _ => None
  end.

Definition reward_json (r : TaskReward) : json :=
  JObj (("currency"%string, JStr (tw_Currency r)) :: ("amount_minor"%string, JInt (tw_AmountMinor r))
        :: match tw_BalanceAfterMinor r with Some b => [("balance_after_minor"%string, JInt b)] | None => [] end).

Definition rewards_json (l : list TaskReward) : json := JArr (map reward_json l).

Definition task_json (c : BetTaskConfig) : json :=
  JObj [("title", JStr (tk_Title c)); ("period_type", JStr (tk_PeriodType c)); ("sort_order", JInt (tk_SortOrder c));
        ("max_complete_count", JInt (tk_MaxCompleteCount c)); ("rewards", rewards_json (tk_Rewards c));
        ("id", JStr (tk_ID c)); ("accumulation_currency", JStr (tk_AccumulationCurrency c));
        ("reward_currency", JStr (tk_RewardCurrency c)); ("threshold_minor", JInt (tk_ThresholdMinor c));
        ("reward_minor", JInt (tk_RewardMinor c)); ("enabled", JBool (tk_Enabled c))]%string.

Definition scanConfig (id : string) (c : task_config_row) : res BetTaskConfig :=
  rewards ← of_option (Sentinel "json.Unmarshal") (dec_rewards (tc_rewards c));
  let rewards := match rewards with
                 | [] => [mk_TaskReward (tc_reward_currency c) (tc_reward_minor c) None]
                 | _ => rewards
                 end in
  Ok (mk_BetTaskConfig (tc_title c) (tc_period_type c) (tc_sort_order c) (tc_max_complete_count c) rewards id
        (tc_accumulation_currency c) (tc_reward_currency c) (tc_threshold_minor c) (tc_reward_minor c)
        (tc_enabled c)).

Definition task_order (x y : string * task_config_row) : Prop :=
  (tc_sort_order x.2 <? tc_sort_order y.2) ||
  (tc_sort_order x.2 =? tc_sort_order y.2) &&
    ((tc_created_at x.2 <? tc_created_at y.2) ||
     (tc_created_at x.2 =? tc_created_at y.2) && String.leb x.1 y.1) = true.

#[export] Instance task_order_dec x y : Decision (task_order x y) := bool_eq_dec _ _.

Definition live_tasks (wanted : task_config_row -> bool) (db : DB) : list (string * task_config_row) :=
  merge_sort task_order
    (List.filter (fun kv => negb (tc_deleted kv.2) && wanted kv.2) (map_to_list (bet_task_configs db.(app)))).

Definition BetTaskConfigs (db : DB) : res (list BetTaskConfig) :=
  mapM (fun kv => scanConfig kv.1 kv.2) (live_tasks (fun _ => true) db).

(** ** Validation *)

Definition fill_rewards (c : BetTaskConfig) : list TaskReward :=
  match tk_Rewards c with
  | [] => [mk_TaskReward (tk_RewardCurrency c) (tk_RewardMinor c) None]
  | l => l
  end.

(** The rewards, their currencies normalised and pairwise different. *)
Fixpoint check_rewards (seen : list string) (l : list TaskReward) : option (list TaskReward) :=
  match l with
  | [] => Some []
  | p :: rest =>
      let currency := ToUpper (TrimSpace (tw_Currency p)) in
      if bool_decide (currency = ""%string) || (tw_AmountMinor p <=? 0) ||
         bool_decide (is_Some (tw_BalanceAfterMinor p)) || bool_decide (currency ∈ seen)
      then None
      else rest' ← check_rewards (currency :: seen) rest;
           Some (mk_TaskReward currency (tw_AmountMinor p) None :: rest')
  end.

Definition valid_period (p : string) : bool := bool_decide (p = "daily"%string) || bool_decide (p = "global"%string).

Definition normalizeConfig (c : BetTaskConfig) : res BetTaskConfig :=
  let accumulation := ToUpper (TrimSpace (tk_AccumulationCurrency c)) in
  let title := let t := TrimSpace (tk_Title c) in if bool_decide (t = ""%string) then "投注任务"%string else t in
  let period := if bool_decide (tk_PeriodType c = ""%string) then "daily"%string else tk_PeriodType c in
  let rewards := fill_rewards c in
  if (tk_ThresholdMinor c <=? 0) || bool_decide (accumulation = ""%string) || negb (valid_period period) ||
     (tk_MaxCompleteCount c <? 0) || (100000 <? tk_MaxCompleteCount c) || (32 <? Z.of_nat (length rewards)) ||
     (100 <? rune_len title)
  then Err ErrInvalidTask
  else
    match check_rewards [] rewards with
    | Some (first :: rest) =>
        Ok (mk_BetTaskConfig title period (tk_SortOrder c) (tk_MaxCompleteCount c) (first :: rest) (tk_ID c)
              accumulation (tw_Currency first) (tk_ThresholdMinor c) (tw_AmountMinor first) (tk_Enabled c))
    | _ => Err ErrInvalidTask
    end.

(** ** Days

    [value.In(chinaTimeZone).Format("2006-01-02")]: the civil date, eight
    hours ahead of UTC, of a time in nanoseconds since 1970. *)

Definition civil_date (days : Z) : Z * Z * Z :=
  let z := days + 719468 in
  let era := z / 146097 in
  let doe := z - era * 146097 in
  let yoe := (doe - doe / 1460 + doe / 36524 - doe / 146096) / 365 in
  let doy := doe - (365 * yoe + yoe / 4 - yoe / 100) in
  let mp := (5 * doy + 2) / 153 in
  let d := doy - (153 * mp + 2) / 5 + 1 in
  let m := if mp <? 10 then mp + 3 else mp - 9 in
  (yoe + era * 400 + (if m <=? 2 then 1 else 0), m, d).

Definition pad_digits (width : nat) (n : Z) : string :=
  let s := FormatInt n in
  String.append (b2s (replicate (width - String.length s) (byte_at 48))) s.

Definition format_date (days : Z) : string :=
  let '(y, m, d) := civil_date days in
  String.append (pad_digits 4 y) (String.append "-" (String.append (pad_digits 2 m) (String.append "-" (pad_digits 2 d)))).

Definition betDateAt (value : Z) : string := format_date ((value + 28800000000000) / 86400000000000).

Definition periodDate (kind date : string) : string :=
  if bool_decide (kind = "global"%string) then "1970-01-01"%string else date.

(** ** Progress *)

Definition task_key (configID user date : string) : string * string * string := (configID, user, date).

Definition put_progress (key : string * string * string) (p : task_progress_row) (db : DB) : DB :=
  set_app (set_task_progress (<[key := p]> (task_progress db.(app))) db.(app)) db.

(** INSERT ... ON CONFLICT DO UPDATE ... WHERE. *)
Definition add_progress (c : BetTaskConfig) (user date : string) (stake : Z) (db : DB) : DB :=
  let key := task_key (tk_ID c) user date in
  match task_progress db.(app) !! key with
  | None => put_progress key (mk_task_progress_row (Z.min stake (tk_ThresholdMinor c)) 0) db
  | Some p =>
      if (tp_progress_minor p <? tk_ThresholdMinor c) &&
         ((tk_MaxCompleteCount c =? 0) || (tp_complete_count p <? tk_MaxCompleteCount c))
      then put_progress key
             (mk_task_progress_row
                (tp_progress_minor p + Z.min stake (Z.max 0 (tk_ThresholdMinor c - tp_progress_minor p)))
                (tp_complete_count p)) db
      else db
  end.

Definition by_id (x y : string * task_config_row) : Prop := str_le x.1 y.1.

#[export] Instance by_id_dec x y : Decision (by_id x y) := str_le_dec _ _.

Definition counted_tasks (currency : string) (db : DB) : res (list BetTaskConfig) :=
  mapM (fun kv => scanConfig kv.1 kv.2)
    (merge_sort by_id (List.filter (fun kv =>
       tc_enabled kv.2 && negb (tc_deleted kv.2) && bool_decide (tc_accumulation_currency kv.2 = currency))
       (map_to_list (bet_task_configs db.(app))))).

Definition OnBetSettled (user currency : string) (stake placedAt : Z) : Tx () :=
  reject_if (stake <=? 0) ErrInvalidTask;;
  found_configs ← gets (counted_tasks currency);
  configs ← lift found_configs;
  modify (fun db => foldl (fun d c => add_progress c user (periodDate (tk_PeriodType c) (betDateAt placedAt)) stake d)
                      db configs).

(** What a player sees. *)
Record BetTask : Type := mk_BetTask {
  bk_config : BetTaskConfig;
  bk_CompleteCount : Z;
  bk_ProgressMinor : Z;
  bk_Completed : bool;
  bk_Rewarded : bool
}.

Definition BetTasks (now : Z) (user : string) (db : DB) : res (list BetTask) :=
  mapM (fun kv =>
    c ← scanConfig kv.1 kv.2;
    let p := default (mk_task_progress_row 0 0)
      (task_progress db.(app) !! task_key kv.1 user (periodDate (tk_PeriodType c) (betDateAt now))) in
    let rewarded := (0 <? tk_MaxCompleteCount c) && (tk_MaxCompleteCount c <=? tp_complete_count p) in
    Ok (mk_BetTask c (tp_complete_count p) (tp_progress_minor p)
          (rewarded || (tk_ThresholdMinor c <=? tp_progress_minor p)) rewarded))
    (live_tasks tc_enabled db).

Section tasks.
Context `{Uuids}.
Context (is_uuid : string -> bool).

(** ** Saving *)

Definition enabled_currency (code : string) (db : DB) : bool :=
  match currencies db.(app) !! code with Some c => cur_enabled c | None => false end.

Definition row_of_task (old : option task_config_row) (now : Z) (c : BetTaskConfig) : task_config_row :=
  mk_task_config_row (tk_AccumulationCurrency c) (tk_RewardCurrency c) (tk_ThresholdMinor c) (tk_RewardMinor c)
    (tk_Enabled c) (tk_Title c) (tk_PeriodType c) (tk_SortOrder c) (tk_MaxCompleteCount c)
    (jsonb (rewards_json (tk_Rewards c))) (from_option tc_deleted false old) (from_option tc_created_at now old).

Definition with_task_id (id : string) (c : BetTaskConfig) : BetTaskConfig :=
  mk_BetTaskConfig (tk_Title c) (tk_PeriodType c) (tk_SortOrder c) (tk_MaxCompleteCount c) (tk_Rewards c) id
    (tk_AccumulationCurrency c) (tk_RewardCurrency c) (tk_ThresholdMinor c) (tk_RewardMinor c) (tk_Enabled c).

Definition has_progress (id : string) (db : DB) : bool :=
  existsb (fun kv : _ * task_progress_row => bool_decide (kv.1.1.1 = id)) (map_to_list (task_progress db.(app))).

Definition SaveBetTaskConfig (t : clock) (c0 : BetTaskConfig) : Tx BetTaskConfig :=
  c ← lift (normalizeConfig c0);
  known ← gets (fun db => forallb (fun code => enabled_currency code db)
                            (tk_AccumulationCurrency c :: map tw_Currency (tk_Rewards c)));
  reject_if (negb known) ErrInvalidTask;;
  if bool_decide (tk_ID c = ""%string) then
    id ← new_uuid;
    insert_row (fun _ => false) id (row_of_task None (sql_now t) c);;
    mret (with_task_id id c)
  else
    reject_if (negb (is_uuid (tk_ID c))) ErrTaskConfigNotFound;;
    o ← select_id (R := task_config_row) (tk_ID c);
    row ← found ErrTaskConfigNotFound o;
    reject_if (tc_deleted row) ErrTaskConfigNotFound;;
    old ← lift (scanConfig (tk_ID c) row);
    (if negb (bool_decide (tk_AccumulationCurrency old = tk_AccumulationCurrency c)) ||
        negb (bool_decide (tk_PeriodType old = tk_PeriodType c))
     then exists_ ← gets (has_progress (tk_ID c)); reject_if exists_ ErrInvalidTask
     else mret ());;
    n ← update_row (R := task_config_row) (tk_ID c) (fun r => row_of_task (Some r) (sql_now t) c);
    mret c.

Definition ReplaceBetTaskConfigs (items : list BetTaskConfig) : res (list BetTaskConfig) := Err ErrInvalidTask.

(** ** Claiming *)

Definition reward_before (x y : TaskReward) : Prop := str_le (tw_Currency x) (tw_Currency y).

#[local] Instance reward_before_dec x y : Decision (reward_before x y) := str_le_dec _ _.

Definition claim_remark (title : string) (count : Z) : string :=
  String.append "任务 " (String.append title (String.append " 第" (String.append (FormatInt count) "次手动领取"))).

(** Pay the rewards one after the other, each with its own entry. *)
Fixpoint pay_rewards (now : Z) (user claimID remark : string) (l : list TaskReward) : Tx (list TaskReward) :=
  match l with
  | [] => mret []
  | p :: rest =>
      balance ← RewardCurrency now user (tw_Currency p) BizBetTaskReward
        (String.append claimID (String.append ":" (tw_Currency p))) (tw_AmountMinor p) remark;
      rest' ← pay_rewards now user claimID remark rest;
      mret (mk_TaskReward (tw_Currency p) (tw_AmountMinor p) (Some balance) :: rest')
  end.

Definition main_reward (currency : string) (l : list TaskReward) : TaskReward :=
  default (mk_TaskReward "" 0 None) (last (List.filter (fun p => bool_decide (tw_Currency p = currency)) l)).

Definition claim_period (id user date : string) (count : Z) (r : task_claim_row) : bool :=
  bool_decide (tr_config_id r = id) && bool_decide (tr_user_id r = user) &&
  bool_decide (tr_period_date r = date) && (tr_complete_count r =? count).

(** The reward of a task whose progress was found complete. *)
Definition pay_claim (t : clock) (user id date : string) (c : BetTaskConfig) (count : Z) : Tx BetTaskClaim :=
  claimID ← new_uuid;
  rewards ← pay_rewards (sql_now t) user claimID (claim_remark (tk_Title c) (count + 1))
    (merge_sort reward_before (tk_Rewards c));
  insert_row (claim_period id user date (count + 1)) claimID
    (mk_task_claim_row id user date (count + 1) (jsonb (rewards_json rewards)) (jsonb (task_json c)) (sql_now t));;
  modify (put_progress (task_key id user date) (mk_task_progress_row 0 (count + 1)));;
  let main := main_reward (tk_RewardCurrency c) rewards in
  mret (mk_BetTaskClaim (count + 1) rewards id date (tw_Currency main) (tw_AmountMinor main)
          (default 0 (tw_BalanceAfterMinor main)) (sql_now t)).

Definition ClaimBetTask (t : clock) (user id : string) : Tx BetTaskClaim :=
  reject_if (negb (is_uuid id)) ErrTaskConfigNotFound;;
  o ← select_id (R := task_config_row) id;
  row ← found ErrTaskConfigNotFound o;
  reject_if (negb (tc_enabled row) || tc_deleted row) ErrTaskConfigNotFound;;
  c ← lift (scanConfig id row);
  let date := periodDate (tk_PeriodType c) (betDateAt (go_now t)) in
  o' ← gets (fun db => task_progress db.(app) !! task_key id user date);
  progress ← found ErrTaskNotCompleted o';
  let count := tp_complete_count progress in
  reject_if ((0 <? tk_MaxCompleteCount c) && (tk_MaxCompleteCount c <=? count)) ErrTaskAlreadyClaimed;;
  reject_if (tp_progress_minor progress <? tk_ThresholdMinor c) ErrTaskNotCompleted;;
  reject_if (2147483647 <=? count) ErrTaskAlreadyClaimed;;
  pay_claim t user id date c count.

(** ** Management *)

Definition set_task_state (deleted enabled : bool) (c : task_config_row) : task_config_row :=
  mk_task_config_row (tc_accumulation_currency c) (tc_reward_currency c) (tc_threshold_minor c) (tc_reward_minor c)
    enabled (tc_title c) (tc_period_type c) (tc_sort_order c) (tc_max_complete_count c) (tc_rewards c) deleted
    (tc_created_at c).

Definition ChangeTaskState (actor id : string) (enabled : option bool) : Tx () :=
  reject_if (negb (is_uuid id)) ErrTaskConfigNotFound;;
  allowed ← gets (is_admin actor);
  reject_if (negb allowed) ErrTaskForbidden;;
  o ← select_id (R := task_config_row) id;
  row ← found ErrTaskConfigNotFound o;
  if tc_deleted row then reject_if (bool_decide (is_Some enabled)) ErrTaskConfigNotFound
  else
    n ← update_row (R := task_config_row) id (fun c =>
      match enabled with
      | None => set_task_state true false c
      | Some on => set_task_state (tc_deleted c) on c
      end);
    auditID ← new_uuid;
    insert_audit (mk_audit (Some actor)
      (match enabled with None => "task.delete" | Some _ => "task.enabled" end)%string "task" id None (JObj [])).

End tasks.

Example betDate_shift : betDateAt 1719763200000000000 = "2024-07-01"%string.
Proof. reflexivity. Qed.

Example betDate_before : betDateAt 1719763199999999999 = "2024-06-30"%string.
Proof. reflexivity. Qed.
