(* ===== verification/Lulu.v ===== *)
(** * Lulu payments

    [application/lulu]: the orders that exchange the stones of an external game
    for the currency ORIGIN_STONE (service.go), the collector of receipts and
    the dispatcher of transfers (processor.go).  The configuration of the
    channel is in LuluConfig.

    Arguments: [uuid.Parse]; the provider that lists receipts and makes
    transfers; [wall] is [clock_timestamp()]. *)

From S2P Require Import Prelude GoStrings Money Json Schema Store Wallet Operations.

Definition lulu_Currency : string := "ORIGIN_STONE".
Definition stoneScale : Z := 1000.
Definition second_ns : Z := 1000000000.
Definition six_minutes : Z := 360 * second_ns.

Definition lulu_ErrSameAccount : error := Sentinel "lulu.ErrSameAccount".
Definition lulu_ErrInvalid : error := Sentinel "lulu.ErrInvalid".
Definition lulu_ErrForbidden : error := Sentinel "lulu.ErrForbidden".
Definition lulu_ErrConflict : error := Sentinel "lulu.ErrConflict".
Definition lulu_ErrDisabled : error := Sentinel "lulu.ErrDisabled".
Definition lulu_ErrNotFound : error := Sentinel "lulu.ErrNotFound".
Definition ErrTokenInvalid : error := Sentinel "lulu.ErrTokenInvalid".

Definition PendingDepositError (luluUID : string) (retryAfter : Z) : error :=
  Detailed "lulu.PendingDepositError" [luluUID; FormatInt retryAfter].

(** [^[1-9][0-9]{2,19}$]. *)
Definition ValidUID (s : string) : bool :=
  forallb is_digit (s2b s) && (3 <=? str_len s) && (str_len s <=? 20) &&
  match s2b s with c :: _ => negb (code c =? 48) | [] => false end.

Definition ParseAmount (s : string) : res Z :=
  fail_if (bool_decide (s = ""%string) || negb (forallb is_digit (s2b s))) lulu_ErrInvalid;;
  n ← of_option lulu_ErrInvalid (ParseInt s);
  fail_if ((n <=? 0) || (int64_max / stoneScale <? n)) lulu_ErrInvalid;;
  Ok n.

(** [Order] is its row with its identifier; its [Amount] is the row's number
    printed. *)
Record Order : Type := mk_Order {
  or_ID : string;
  or_row : lulu_order_row
}.

Definition or_Amount (o : Order) : string := FormatInt (lo_amount (or_row o)).

Record LuluInput : Type := mk_LuluInput {
  lu_RequestID : string;
  lu_LuluUID : string;
  lu_Amount : string
}.

Record Receipt : Type := mk_Receipt {
  rt_ID : string;
  rt_ReceiverUID : string;
  rt_SenderUID : string;
  rt_Amount : Z;
  rt_OccurredAt : Z
}.

Inductive TransferResult : Type :=
| TransferConfirmed
| TransferUnknown
| TransferFailed.

Definition set_order_status (status : string) (o : lulu_order_row) : lulu_order_row :=
  mk_lulu_order_row (lo_user_id o) (lo_kind o) (lo_request_id o) (lo_lulu_uid o) (lo_receiver_uid o)
    (lo_amount o) status (lo_receipt_id o) (lo_evidence o) (lo_reviewed_by o) (lo_created_at o) (lo_expires_at o).

Definition set_order_confirmed (receipt : string) (o : lulu_order_row) : lulu_order_row :=
  mk_lulu_order_row (lo_user_id o) (lo_kind o) (lo_request_id o) (lo_lulu_uid o) (lo_receiver_uid o)
    (lo_amount o) "confirmed" (Some receipt) (lo_evidence o) (lo_reviewed_by o) (lo_created_at o) (lo_expires_at o).

Definition set_order_reviewed (status evidence actor : string) (o : lulu_order_row) : lulu_order_row :=
  mk_lulu_order_row (lo_user_id o) (lo_kind o) (lo_request_id o) (lo_lulu_uid o) (lo_receiver_uid o)
    (lo_amount o) status (lo_receipt_id o) evidence (Some actor) (lo_created_at o) (lo_expires_at o).

Definition set_receipt_order (order : string) (r : lulu_receipt_row) : lulu_receipt_row :=
  mk_lulu_receipt_row (lr_receiver_uid r) (lr_sender_uid r) (lr_amount r) (lr_occurred_at r) (Some order).

Definition order_expired (now : Z) (o : lulu_order_row) : bool :=
  bool_decide (lo_kind o = "deposit"%string) && bool_decide (lo_status o = "requested"%string) &&
  (lo_expires_at o <? now).

(** A deposit that still waits for the transfer of [uid] to [receiver]. *)
Definition waiting_deposit (receiver uid : string) (o : lulu_order_row) : bool :=
  bool_decide (lo_kind o = "deposit"%string) && bool_decide (lo_status o = "requested"%string) &&
  bool_decide (lo_receiver_uid o = receiver) && bool_decide (lo_lulu_uid o = uid).

Definition order_request (user kind request : string) (o : lulu_order_row) : bool :=
  bool_decide (lo_user_id o = user) && bool_decide (lo_kind o = kind) &&
  bool_decide (lo_request_id o = request).

(** UNIQUE(user_id,kind,request_id) and the partial index [lulu_active_sender]. *)
Definition order_conflict (o x : lulu_order_row) : bool :=
  order_request (lo_user_id o) (lo_kind o) (lo_request_id o) x ||
  waiting_deposit (lo_receiver_uid o) (lo_lulu_uid o) o &&
  waiting_deposit (lo_receiver_uid o) (lo_lulu_uid o) x.

Definition receipt_before (x y : string * lulu_receipt_row) : Prop :=
  (lr_occurred_at x.2 <? lr_occurred_at y.2) ||
  (lr_occurred_at x.2 =? lr_occurred_at y.2) && String.leb x.1 y.1 = true.

#[export] Instance receipt_before_dec x y : Decision (receipt_before x y) := bool_eq_dec _ _.

Definition order_before (x y : string * lulu_order_row) : Prop :=
  lo_created_at x.2 <= lo_created_at y.2.

#[export] Instance order_before_dec x y : Decision (order_before x y) := Z_le_dec _ _.

(** The receipts a new deposit order may claim. *)
Definition claimable (o : lulu_order_row) (r : lulu_receipt_row) : bool :=
  bool_decide (lr_receiver_uid r = lo_receiver_uid o) && bool_decide (lr_sender_uid r = lo_lulu_uid o) &&
  (lr_amount r =? lo_amount o) && bool_decide (lr_order_id r = None) &&
  (lo_created_at o - six_minutes <=? lr_occurred_at r) && (lr_occurred_at r <=? lo_expires_at o).

(** The orders a receipt may complete. *)
Definition completable (r : lulu_receipt_row) (o : lulu_order_row) : bool :=
  bool_decide (lo_kind o = "deposit"%string) && bool_decide (lo_status o ∈ ["requested"; "expired"]%string) &&
  bool_decide (lo_receiver_uid o = lr_receiver_uid r) && bool_decide (lo_lulu_uid o = lr_sender_uid r) &&
  (lo_amount o =? lr_amount r) && (lo_created_at o - six_minutes <=? lr_occurred_at r) &&
  (lr_occurred_at r <=? lo_expires_at o).

Section lulu.
Context `{Uuids}.
Context (is_uuid : string -> bool).

(** ** service.go *)

Definition lulu_admin (id : string) : Tx () :=
  reject_if (negb (is_uuid id)) lulu_ErrForbidden;;
  ok ← gets (fun db => from_option (fun u => bool_decide (u_status u = "active"%string)) false
                         (users db.(app) !! id) && has_role id ["admin"; "operator"]%string db);
  reject_if (negb ok) lulu_ErrForbidden.

Definition lulu_player (id : string) : Tx () :=
  reject_if (negb (is_uuid id)) lulu_ErrForbidden;;
  ok ← gets (fun db => from_option (fun u => bool_decide (u_status u = "active"%string) && negb (u_is_virtual u))
                         false (users db.(app) !! id) && has_role id ["player"]%string db);
  reject_if (negb ok) lulu_ErrForbidden.

Definition lulu_audit (actor id action evidence : string) : Tx () :=
  auditID ← new_uuid;
  insert_audit (mk_audit (Some actor) (String.append "lulu." action) "lulu_order" id None
                  (JObj [("evidence", JStr evidence)]%string)).

(** [balance]: the deltas are whole stones. *)
Definition lulu_balance (t : clock) (o : Order) (typ : string) (da0 df0 : Z) (actor : string) : Tx () :=
  let cap := int64_max / stoneScale in
  reject_if ((cap <? da0) || (da0 <? - cap) || (cap <? df0) || (df0 <? - cap)) lulu_ErrInvalid;;
  let da := (da0 * stoneScale)%i64 in
  let df := (df0 * stoneScale)%i64 in
  let user := lo_user_id (or_row o) in
  newID ← new_uuid;
  made ← insert_wallet newID user lulu_Currency (sql_now t);
  w ← find_wallet user lulu_Currency;
  wallet ← found ErrNoRows w;
  let '(id, row) := wallet in
  let a := w_available row in
  let f := w_frozen row in
  reject_if ((da <? 0) && (a <? (- da)%i64) || (df <? 0) && (f <? (- df)%i64)) ErrInsufficientFunds;;
  reject_if ((0 <? da) && ((int64_max - da)%i64 <? a) || (0 <? df) && ((int64_max - df)%i64 <? f)) lulu_ErrInvalid;;
  update_wallet id (fun _ => (a + da)%i64) (fun _ => (f + df)%i64) (sql_now t);;
  let amount := if da =? 0 then df else da in
  entryID ← new_uuid;
  insert_ledger (mk_entry entryID id typ (or_ID o) typ amount (a + da)%i64 (Some da) df
                   "噜噜彩石兑换 ORIGIN_STONE 1:1" (if bool_decide (actor = ""%string) then None else Some actor) None)
    (sql_now t).

(** UPDATE lulu_receipts SET order_id: UNIQUE(order_id). *)
Definition claim_receipt (receipt order : string) : Tx () :=
  other ← select_where (R := lulu_receipt_row)
            (fun k r => bool_decide (lr_order_id r = Some order) && negb (bool_decide (k = receipt)));
  reject_if (bool_decide (is_Some other)) (UniqueViolation "lulu_receipts_order_id_key");;
  n ← update_row (R := lulu_receipt_row) receipt (set_receipt_order order);
  mret ().

(** UPDATE lulu_orders SET status='confirmed',receipt_id: UNIQUE(receipt_id). *)
Definition confirm_order (order receipt : string) : Tx () :=
  other ← select_where (R := lulu_order_row)
            (fun k o => bool_decide (lo_receipt_id o = Some receipt) && negb (bool_decide (k = order)));
  reject_if (bool_decide (is_Some other)) (UniqueViolation "lulu_claimed_receipt");;
  n ← update_row (R := lulu_order_row) order (set_order_confirmed receipt);
  mret ().

(** INSERT ... RETURNING, with [conflict]. *)
Definition insert_order (id : string) (row : lulu_order_row) : Tx () := fun db =>
  match insert_row (order_conflict row) id row db with
  | Err (UniqueViolation _) => Err lulu_ErrConflict
  | r => r
  end.

(** Whole seconds until [expires], rounded up, at least one. *)
Definition retry_after (expires wall : Z) : Z := Z.max 1 (- ((wall - expires) / second_ns)).

(** A deposit order expires the old ones of its route; one that still waits
    refuses the new order. *)
Definition clear_route (t : clock) (wall : Z) (receiver uid : string) : Tx () :=
  update_where (R := lulu_order_row)
    (fun _ o => order_expired (sql_now t) o && bool_decide (lo_receiver_uid o = receiver) &&
                bool_decide (lo_lulu_uid o = uid)) (set_order_status "expired");;
  pending ← select_where (R := lulu_order_row) (fun _ => waiting_deposit receiver uid);
  match pending with
  | Some (_, o) => raise (PendingDepositError uid (retry_after (lo_expires_at o) wall))
  | None => mret ()
  end.

(** A transfer that arrived before the order completes it at once. *)
Definition match_receipt (t : clock) (o : Order) (n : Z) : Tx Order :=
  r ← select_first receipt_before (fun _ => claimable (or_row o));
  match r with
  | None => mret o
  | Some (receiptID, _) =>
      claim_receipt receiptID (or_ID o);;
      lulu_balance t o "lulu_deposit" n 0 "";;
      confirm_order (or_ID o) receiptID;;
      mret (mk_Order (or_ID o) (set_order_confirmed receiptID (or_row o)))
  end.

Definition lulu_Create (t : clock) (wall : Z) (user kind : string) (inp : LuluInput) : Tx Order :=
  n ← lift (ParseAmount (lu_Amount inp));
  reject_if (negb (ValidUID (lu_LuluUID inp)) || bool_decide (lu_RequestID inp = ""%string) ||
             (128 <? str_len (lu_RequestID inp)) ||
             negb (bool_decide (kind ∈ ["deposit"; "withdrawal"]%string))) lulu_ErrInvalid;;
  lulu_player user;;
  known ← select_where (R := lulu_order_row) (fun _ => order_request user kind (lu_RequestID inp));
  match known with
  | Some (id, o) =>
      reject_if (negb (bool_decide (FormatInt (lo_amount o) = FormatInt n)) ||
                 negb (bool_decide (lo_lulu_uid o = lu_LuluUID inp))) lulu_ErrConflict;;
      mret (mk_Order id o)
  | None =>
      cfg ← gets (fun db => lulu_setting db.(app));
      let receiver := ls_receiver_uid cfg in
      reject_if (negb (ls_enabled cfg) || negb (ValidUID receiver)) lulu_ErrDisabled;;
      reject_if (bool_decide (lu_LuluUID inp = receiver)) lulu_ErrSameAccount;;
      decimals ← ResolveDecimals lulu_Currency true;
      (if bool_decide (kind = "deposit"%string) then clear_route t wall receiver (lu_LuluUID inp) else mret ());;
      id ← new_uuid;
      let row := mk_lulu_order_row user kind (lu_RequestID inp) (lu_LuluUID inp) receiver n "requested" None "" None
                   (sql_now t) (sql_now t + six_minutes) in
      insert_order id row;;
      if bool_decide (kind = "deposit"%string) then match_receipt t (mk_Order id row) n
      else
        lulu_balance t (mk_Order id row) "lulu_withdrawal_freeze" (- n)%i64 n "";;
        mret (mk_Order id row)
  end.

(** [n, _ := ParseAmount(o.Amount)]. *)
Definition order_stones (o : Order) : Z :=
  match ParseAmount (or_Amount o) with Ok n => n | Err _ => 0 end.

(** [scan] of one order by its identifier. *)
Definition scan_order (id : string) : Tx Order :=
  o ← select_id (R := lulu_order_row) id;
  row ← found lulu_ErrNotFound o;
  mret (mk_Order id row).

(** The decisions of [Review]: the status an action leads to, the one it needs,
    and what it does to the money. *)
Definition review_target (action : string) : option (string * string) :=
  if bool_decide (action = "approve"%string) then Some ("approved", "requested")%string
  else if bool_decide (action = "reject"%string) then Some ("rejected", "requested")%string
  else if bool_decide (action = "confirm_paid"%string) then Some ("confirmed", "unknown")%string
  else if bool_decide (action = "confirm_not_paid"%string) then Some ("failed", "unknown")%string
  else None.

Definition review_money (t : clock) (cfg : lulu_setting_row) (o : Order) (action actor : string) : Tx () :=
  let n := order_stones o in
  if bool_decide (action = "approve"%string) then
    reject_if (negb (ls_enabled cfg) || negb (bool_decide (lo_receiver_uid (or_row o) = ls_receiver_uid cfg)))
      lulu_ErrDisabled
  else if bool_decide (action = "confirm_paid"%string)
  then lulu_balance t o "lulu_withdrawal_debit" 0 (- n)%i64 actor
  else lulu_balance t o "lulu_withdrawal_unfreeze" n (- n)%i64 actor.

Definition lulu_Review (t : clock) (id actor action evidence : string) : Tx Order :=
  reject_if (negb (is_uuid id)) lulu_ErrInvalid;;
  reject_if (bool_decide (TrimSpace evidence = ""%string) || (2000 <? str_len evidence)) lulu_ErrInvalid;;
  lulu_admin actor;;
  cfg ← gets (fun db => lulu_setting db.(app));
  o ← scan_order id;
  reject_if (negb (bool_decide (lo_kind (or_row o) = "withdrawal"%string))) lulu_ErrConflict;;
  move ← found lulu_ErrInvalid (review_target action);
  let '(target, needed) := move in
  if bool_decide (lo_status (or_row o) = target) then mret o
  else
    reject_if (negb (bool_decide (lo_status (or_row o) = needed))) lulu_ErrConflict;;
    review_money t cfg o action actor;;
    n ← update_row (R := lulu_order_row) id (set_order_reviewed target evidence actor);
    lulu_audit actor id action evidence;;
    mret (mk_Order id (set_order_reviewed target evidence actor (or_row o))).

(** [List]: the overdue deposits expire first. *)
Definition order_newest (x y : string * lulu_order_row) : Prop :=
  (lo_created_at y.2 <? lo_created_at x.2) ||
  (lo_created_at x.2 =? lo_created_at y.2) && String.leb y.1 x.1 = true.

#[local] Instance order_newest_dec x y : Decision (order_newest x y) := bool_eq_dec _ _.

Definition order_statuses : list string :=
  [""; "requested"; "approved"; "sending"; "unknown"; "confirmed"; "rejected"; "failed"; "expired"]%string.

Definition empty_or (wanted actual : string) : bool :=
  bool_decide (wanted = ""%string) || bool_decide (actual = wanted).

Definition lulu_List (t : clock) (user actor kind status : string) (startTime endTime : option Z)
    (limit offset : Z) : Tx (list Order) :=
  reject_if (negb (bool_decide (status ∈ order_statuses))) lulu_ErrInvalid;;
  reject_if ((limit <? 1) || (100 <? limit) || (offset <? 0) ||
             negb (bool_decide (kind ∈ [""; "deposit"; "withdrawal"]%string))) lulu_ErrInvalid;;
  (if bool_decide (actor = ""%string) then lulu_player user else lulu_admin actor);;
  update_where (R := lulu_order_row) (fun _ o => order_expired (sql_now t) o && empty_or user (lo_user_id o))
    (set_order_status "expired");;
  rows ← select_all (R := lulu_order_row) (fun _ o =>
    empty_or user (lo_user_id o) && empty_or kind (lo_kind o) && empty_or status (lo_status o) &&
    from_option (fun s => s <=? lo_created_at o) true startTime &&
    from_option (fun e => lo_created_at o <? e) true endTime);
  mret (map (fun kv => mk_Order kv.1 kv.2)
          (take (Z.to_nat limit) (drop (Z.to_nat offset) (merge_sort order_newest rows)))).

(** ** processor.go *)

(** The service is built for one receiver and one version of the
    configuration; zero is any version. *)
Context (Receiver : string) (ConfigVersion : Z).

Definition zero_time : Z := -62135596800 * second_ns.

Definition RecordReceipt (t : clock) (r : Receipt) : Tx () :=
  reject_if (bool_decide (rt_ID r = ""%string) || (256 <? str_len (rt_ID r)) || negb (ValidUID (rt_SenderUID r)) ||
             negb (bool_decide (rt_ReceiverUID r = Receiver)) || (rt_Amount r <=? 0) ||
             (rt_OccurredAt r =? zero_time)) lulu_ErrInvalid;;
  fresh ← insert_ignore (fun _ => false) (rt_ID r)
    (mk_lulu_receipt_row (rt_ReceiverUID r) (rt_SenderUID r) (rt_Amount r) (rt_OccurredAt r) None);
  s ← select_id (R := lulu_receipt_row) (rt_ID r);
  stored ← found ErrNoRows s;
  reject_if (negb (bool_decide (lr_receiver_uid stored = rt_ReceiverUID r)) ||
             negb (bool_decide (lr_sender_uid stored = rt_SenderUID r)) ||
             negb (lr_amount stored =? rt_Amount r) || negb (lr_occurred_at stored =? rt_OccurredAt r))
    lulu_ErrConflict;;
  match lr_order_id stored with
  | Some _ => mret ()
  | None =>
      m ← select_first order_before (fun _ => completable stored);
      match m with
      | None => mret ()
      | Some (id, _) =>
          claim_receipt (rt_ID r) id;;
          o ← scan_order id;
          lulu_balance t o "lulu_deposit" (rt_Amount r) 0 "";;
          confirm_order id (rt_ID r)
      end
  end.

Definition serves (cfg : lulu_setting_row) : bool :=
  ls_enabled cfg && bool_decide (ls_receiver_uid cfg = Receiver) &&
  ((ConfigVersion =? 0) || (ls_version cfg =? ConfigVersion)).

(** The transaction of [Dispatch] before the transfer. *)
Definition begin_sending : Tx (option Order) :=
  cfg ← gets (fun db => lulu_setting db.(app));
  if negb (serves cfg) then mret None
  else
    o ← select_first order_before (fun _ o =>
          bool_decide (lo_kind o = "withdrawal"%string) && bool_decide (lo_status o = "approved"%string) &&
          bool_decide (lo_receiver_uid o = Receiver));
    match o with
    | None => mret None
    | Some (id, row) =>
        n ← update_row (R := lulu_order_row) id (set_order_status "sending");
        mret (Some (mk_Order id row))
    end.

Definition transfer_status (result : TransferResult) : string :=
  match result with
  | TransferConfirmed => "confirmed"
  | TransferUnknown => "unknown"
  | TransferFailed => "failed"
  end.

Definition lulu_finish (t : clock) (id : string) (result : TransferResult) : Tx () :=
  o ← scan_order id;
  reject_if (negb (bool_decide (lo_status (or_row o) = "sending"%string))) lulu_ErrConflict;;
  let n := order_stones o in
  match result with
  | TransferConfirmed => lulu_balance t o "lulu_withdrawal_debit" 0 (- n)%i64 ""
  | TransferFailed => lulu_balance t o "lulu_withdrawal_unfreeze" n (- n)%i64 ""
  | TransferUnknown => mret ()
  end;;
  n ← update_row (R := lulu_order_row) id (set_order_status (transfer_status result));
  mret ().

Definition Dispatch (t : clock) (transfer : Order -> TransferResult) : Svc () :=
  o ← atomically begin_sending;
  match o with
  | None => mret ()
  | Some o => atomically (lulu_finish t (or_ID o) (transfer o))
  end.

Definition RecoverSending : Tx () :=
  update_where (R := lulu_order_row) (fun _ o =>
    bool_decide (lo_status o = "sending"%string) && bool_decide (lo_kind o = "withdrawal"%string) &&
    bool_decide (lo_receiver_uid o = Receiver)) (set_order_status "unknown").

Definition ExpireDeposits (t : clock) : Tx () :=
  update_where (R := lulu_order_row) (fun _ => order_expired (sql_now t)) (set_order_status "expired").

Fixpoint record_all (t : clock) (receipts : list Receipt) : Svc () :=
  match receipts with
  | [] => mret ()
  | r :: rest => atomically (RecordReceipt t r);; record_all t rest
  end.

Definition receipt_of (kv : string * lulu_receipt_row) : Receipt :=
  mk_Receipt kv.1 (lr_receiver_uid kv.2) (lr_sender_uid kv.2) (lr_amount kv.2) (lr_occurred_at kv.2).

Definition stored_unmatched (db : DB) : list Receipt :=
  take 100 (map receipt_of (merge_sort receipt_before (List.filter (fun kv =>
    bool_decide (lr_receiver_uid kv.2 = Receiver) && bool_decide (lr_order_id kv.2 = None) &&
    existsb (fun o => completable kv.2 o.2) (map_to_list (lulu_orders db.(app))))
    (map_to_list (lulu_receipts db.(app)))))).

Definition ReconcileStored (t : clock) : Svc () := fun db => record_all t (stored_unmatched db) db.

Definition collector_zero : lulu_collector_row := mk_lulu_collector_row None None "" "" 0 0 0.

Definition collection_failed (wall : Z) (e : error) (c : lulu_collector_row) : lulu_collector_row :=
  let message := if bool_decide (e = ErrTokenInvalid) then "噜噜登录已失效，请重新获取短信验证码登录"%string
                 else "collection failed; cursor unchanged"%string in
  mk_lulu_collector_row (lx_scanned_at c) (lx_last_success_at c) message message
    (if bool_decide (e = ErrTokenInvalid) && (lx_down_at c =? 0) then wall / 1000000 else lx_down_at c)
    (lx_recovered_at c) (lx_last_down_ms c).

Definition collection_succeeded (t : clock) (wall scanned : Z) (c : lulu_collector_row) : lulu_collector_row :=
  let down := 0 <? lx_down_at c in
  let ms := wall / 1000000 in
  mk_lulu_collector_row (Some scanned) (Some (sql_now t)) ""
    (if down then "噜噜登录已恢复，采集成功" else "采集成功")
    0 (if down then ms else lx_recovered_at c)
    (if down then Z.max 0 (ms - lx_down_at c) else lx_last_down_ms c).

(** Where the next scan begins: ten minutes before the last one, but never
    before the configured start. *)
Definition scan_since (start : Z) (watermark : option Z) : Z :=
  match watermark with
  | Some w => if start <? w - 600 * second_ns then w - 600 * second_ns else start
  | None => start
  end.

(** The provider hands over its receipts since a time one by one and then ends
    with success or an error; it stops at the first receipt that is refused. *)
Definition Collect (t : clock) (wall : Z) (provide : Z -> list Receipt * option error) (start : Z) : Svc () :=
  fun db =>
  if negb (serves (lulu_setting db.(app))) then (Ok (), db)
  else
    match ReconcileStored t db with
    | (Err e, db) => (Err e, db)
    | (Ok _, db) =>
        if start =? zero_time then (Err lulu_ErrInvalid, db)
        else
          let state := default collector_zero (lulu_collector_state db.(app) !! Receiver) in
          let '(receipts, ending) := provide (scan_since start (lx_scanned_at state)) in
          let '(r, db) := record_all t receipts db in
          let outcome := match r, ending with Err e, _ => Some e | Ok _, e => e end in
          match outcome with
          | Some e => (Err e, put_row Receiver (collection_failed wall e state) db)
          | None => (Ok (), put_row Receiver (collection_succeeded t wall (go_now t) state) db)
          end
    end.

End lulu.
