(* ===== verification/Agent.v ===== *)
(** * Agents

    [application/agent]: the referral tree with its materialized paths
    (service.go), the level of a direct player and the income periods
    (self_service.go), the players below an agent (direct_players.go), and manual
    reversal and grant of a commission.  Left out: commission_details.go, a
    report whose rate column is a division in NUMERIC.

    A path is stored as an [ltree]: the list of its labels, separated by dots in
    its text.  The advisory lock on the graph serialises the transactions that
    bind, so each is one step. *)

From S2P Require Import Prelude GoStrings Json Schema Store Wallet Operations Settlement.

Definition ErrInvalidRelation : error := Sentinel "agent.ErrInvalidRelation".
Definition ErrRelationExists : error := Sentinel "agent.ErrRelationExists".
Definition ErrAdminBindForbidden : error := Sentinel "agent.ErrAdminBindForbidden".
Definition ErrRelationUserNotFound : error := Sentinel "agent.ErrRelationUserNotFound".
Definition ErrVirtualRelation : error := Sentinel "agent.ErrVirtualRelation".
Definition ErrInvalidCommissionRate : error := Sentinel "agent.ErrInvalidCommissionRate".
Definition ErrCommissionNotFound : error := Sentinel "agent.ErrCommissionNotFound".
Definition ErrCommissionState : error := Sentinel "agent.ErrCommissionState".
Definition ErrInsufficientCommissionBalance : error := Sentinel "agent.ErrInsufficientCommissionBalance".
Definition ErrInvalidCommissionAdjustment : error := Sentinel "agent.ErrInvalidCommissionAdjustment".
Definition ErrChildLevelForbidden : error := Sentinel "agent.ErrChildLevelForbidden".
Definition ErrChildLevelInvalid : error := Sentinel "agent.ErrChildLevelInvalid".
Definition ErrPlayerQueryForbidden : error := Sentinel "agent.ErrPlayerQueryForbidden".
Definition ErrPlayerQueryInvalid : error := Sentinel "agent.ErrPlayerQueryInvalid".

Record Relation : Type := mk_Relation {
  re_UserID : string;
  re_ParentUserID : string
}.

Record AdminRelation : Type := mk_AdminRelation {
  ad_UserID : Z;
  ad_ParentUserID : Z
}.

Record Commission : Type := mk_Commission {
  cm_ID : string;
  cm_row : commission_row
}.

Record TeamMetric : Type := mk_TeamMetric {
  tm_Currency : string;
  tm_SettledBets : Z;
  tm_ValidStakeMinor : Z;
  tm_PaidCommissionMinor : Z
}.

Record TeamSummary : Type := mk_TeamSummary {
  ts_DirectPlayers : Z;
  ts_Metrics : list TeamMetric
}.

Record DirectPlayerIncome : Type := mk_income {
  in_Currency : string;
  in_AmountMinor : Z
}.

Record IncomePeriod : Type := mk_IncomePeriod {
  ip_Period : string;
  ip_From : Z;
  ip_To : Z;
  ip_Income : list DirectPlayerIncome
}.

(** A SUM over BIGINT that is scanned into an [int64]. *)
Definition sum_scan (l : list Z) : res Z :=
  let s := sum_Z l in
  if (int64_min <=? s) && (s <=? int64_max) then Ok s else Err RangeViolation.

(** The keys of GROUP BY ... ORDER BY. *)
Definition group_keys (l : list string) : list string := merge_sort str_le (remove_dups l).

(** ** The tree *)

(** [strings.ReplaceAll(id, "-", "_")]. *)
Definition agent_label (id : string) : string :=
  b2s (map (fun c => if code c =? 45 then byte_at 95 else c) (s2b id)).

(** COALESCE(path::text,''), split at the dots. *)
Definition text_path (row : option agent_relation_row) : list string := default [] (row ≫= al_path).

Definition containsPathLabel (path : list string) (label : string) : bool := bool_decide (label ∈ path).

(** The recursive query [ancestors], from [id] upwards, each user once. *)
Fixpoint upward (fuel : nat) (rels : gmap string agent_relation_row) (visited : list string) (id : string)
    : list string :=
  id :: match fuel with
        | O => []
        | S fuel' =>
            match rels !! id ≫= al_parent_user_id with
            | Some p => if bool_decide (p ∈ id :: visited) then [] else upward fuel' rels (id :: visited) p
            | None => []
            end
        end.

(** Every step leaves the row of another user behind. *)
Definition ancestor_set (rels : gmap string agent_relation_row) (id : string) : list string :=
  upward (size rels) rels [] id.

(** [path <@ label]: a path below a root. *)
Definition below_label (label : string) (r : agent_relation_row) : bool :=
  match al_path r with Some (l :: _) => bool_decide (l = label) | _ => false end.

Definition prefix_path (above : list string) (r : agent_relation_row) : agent_relation_row :=
  mk_agent_relation_row (al_parent_user_id r) ((fun p => above ++ p) <$> al_path r).

(** The path above a new relation: the parent's, or the parent alone. *)
Definition path_above (rels : gmap string agent_relation_row) (parentID : string) : list string :=
  match text_path (rels !! parentID) with
  | [] => [agent_label parentID]
  | p => p
  end.

Section agent.
Context `{Uuids}.

Definition ensureRealRelationUsers (userID parentID : string) : Tx () :=
  us ← gets (fun db => omap (fun id => users db.(app) !! id) (remove_dups [userID; parentID]));
  reject_if (existsb u_is_virtual us) ErrVirtualRelation;;
  reject_if (negb (Nat.eqb (length us) 2)) ErrRelationUserNotFound.

(** INSERT ... ON CONFLICT(user_id) DO UPDATE ... WHERE parent_user_id IS NULL. *)
Definition upsert_relation (userID parentID : string) (path : list string) : Tx () := fun db =>
  match agent_relations db.(app) !! userID ≫= al_parent_user_id with
  | Some _ => Ok ((), db)
  | None => Ok ((), put_row userID (mk_agent_relation_row (Some parentID) (Some path)) db)
  end.

Definition bindTx (userID parentID : string) : Tx () :=
  rels ← gets (fun db => agent_relations db.(app));
  let parentPath := text_path (rels !! parentID) in
  reject_if (bool_decide (is_Some (rels !! userID ≫= al_parent_user_id))) ErrRelationExists;;
  reject_if (bool_decide (userID ∈ ancestor_set rels parentID)) ErrInvalidRelation;;
  let userLabel := agent_label userID in
  reject_if (negb (bool_decide (parentPath = [])) && containsPathLabel parentPath userLabel) ErrInvalidRelation;;
  let above := path_above rels parentID in
  update_where (R := agent_relation_row) (fun _ => below_label userLabel) (prefix_path above);;
  upsert_relation userID parentID (above ++ [userLabel]).

Definition Bind (userID parentID : string) : Tx () :=
  reject_if (bool_decide (userID = ""%string) || bool_decide (parentID = ""%string) || bool_decide (userID = parentID))
    ErrInvalidRelation;;
  (fun db => match ensureRealRelationUsers userID parentID db with
             | Err e => Err (if bool_decide (e = ErrRelationUserNotFound) then ErrInvalidRelation else e)
             | ok => ok
             end);;
  bindTx userID parentID.

Definition user_of_public (publicID : Z) : Tx string :=
  u ← select_where (R := user_row) (fun _ u => u_public_id u =? publicID);
  kv ← found ErrRelationUserNotFound u;
  mret (fst kv).

Definition AdminBind (actorID : string) (userPublicID parentPublicID : Z) : Tx AdminRelation :=
  reject_if (bool_decide (actorID = ""%string) || (userPublicID <? 10001) || (parentPublicID <? 10001) ||
             (userPublicID =? parentPublicID)) ErrInvalidRelation;;
  allowed ← gets (fun db =>
    from_option (fun u => bool_decide (u_status u = "active"%string)) false (users db.(app) !! actorID) &&
    has_role actorID ["admin"; "operator"]%string db);
  reject_if (negb allowed) ErrAdminBindForbidden;;
  userID ← user_of_public userPublicID;
  parentID ← user_of_public parentPublicID;
  ensureRealRelationUsers userID parentID;;
  bindTx userID parentID;;
  auditID ← new_uuid;
  insert_audit (mk_audit (Some actorID) "admin.agent.bind" "user" userID None
    (JObj [("user_id", JInt userPublicID); ("parent_user_id", JInt parentPublicID)]%string));;
  mret (mk_AdminRelation userPublicID parentPublicID).

Definition GetRelation (userID : string) : Tx Relation :=
  row ← select_id (R := agent_relation_row) userID;
  mret (match row with
        | None => mk_Relation userID ""
        | Some r => mk_Relation userID (default ""%string (al_parent_user_id r))
        end).

Definition SetCommissionRate (agentID : string) (rateBasisPoints : Z) (operatorID : string) : Tx () :=
  reject_if (bool_decide (agentID = ""%string) || bool_decide (operatorID = ""%string) || (rateBasisPoints <? 0) ||
             (10000 <? rateBasisPoints)) ErrInvalidCommissionRate;;
  modify (put_row agentID (mk_agent_rate_row rateBasisPoints)).

(** ** Reversal and grant *)

Definition set_commission_status (status : string) (c : commission_row) : commission_row :=
  mk_commission_row (ce_source_bet_id c) (ce_beneficiary_user_id c) (ce_amount_minor c) (ce_currency c) status
    (ce_created_at c).

Definition ReverseCommission (t : clock) (commissionID : string) : Tx () :=
  r ← select_id (R := commission_row) commissionID;
  c ← found ErrCommissionNotFound r;
  reject_if (negb (bool_decide (ce_status c = "paid"%string))) ErrCommissionState;;
  let amount := ce_amount_minor c in
  w ← find_wallet (ce_beneficiary_user_id c) (ce_currency c);
  wallet ← found ErrNoRows w;
  let '(walletID, row) := wallet in
  reject_if (w_available row <? amount) ErrInsufficientCommissionBalance;;
  let available := (w_available row - amount)%i64 in
  update_wallet walletID (fun _ => available) w_frozen (sql_now t);;
  n ← update_row (R := commission_row) commissionID (set_commission_status "reversed");
  entryID ← new_uuid;
  insert_ledger (entry entryID walletID "commission" commissionID "commission_reversal" (- amount)%i64 available)
    (sql_now t).

Definition grant_currencies : list string := ["POINTS"; "USDT"; "JADE"; "ORIGIN_STONE"]%string.

Definition GrantCommission (t : clock) (requestID agentID currency : string) (amount : Z)
    (remark operatorID : string) : Tx string :=
  reject_if (bool_decide (requestID = ""%string) || bool_decide (agentID = ""%string) ||
             negb (bool_decide (currency ∈ grant_currencies)) || (amount <=? 0) || bool_decide (operatorID = ""%string))
    ErrInvalidCommissionAdjustment;;
  known ← select_where (R := commission_adjustment_row) (fun _ a => bool_decide (cj_request_id a = requestID));
  match known with
  | Some (id, _) => mret id
  | None =>
      wallet ← commission_wallet (sql_now t) agentID currency;
      let '(walletID, before) := wallet in
      adjustmentID ← new_uuid;
      let available := (before + amount)%i64 in
      update_wallet walletID (fun _ => available) w_frozen (sql_now t);;
      insert_row (R := commission_adjustment_row) (fun a => bool_decide (cj_request_id a = requestID)) adjustmentID
        (mk_commission_adjustment_row requestID agentID currency amount remark operatorID);;
      entryID ← new_uuid;
      insert_ledger (entry entryID walletID "commission_adjustment" adjustmentID "commission_manual_credit" amount available)
        (sql_now t);;
      mret adjustmentID
  end.

(** ** Queries *)

Definition by_id_desc {R} (x y : string * R) : Prop := String.leb y.1 x.1 = true.

#[local] Instance by_id_desc_dec {R} (x y : string * R) : Decision (by_id_desc x y) := bool_eq_dec _ _.

Definition page_limit (limit : Z) : Z := if (limit <=? 0) || (100 <? limit) then 50 else limit.

Definition ListCommissions (agentID : string) (limit : Z) : Tx (list Commission) :=
  rows ← select_all (R := commission_row) (fun _ c => bool_decide (ce_beneficiary_user_id c = agentID));
  mret (map (fun kv => mk_Commission kv.1 kv.2) (take (Z.to_nat (page_limit limit)) (merge_sort by_id_desc rows))).

Definition in_time (from to : option Z) (at_ : option Z) : bool :=
  from_option (fun f => from_option (fun c => f <=? c) false at_) true from &&
  from_option (fun u => from_option (fun c => c <? u) false at_) true to.

(** created_at DESC NULLS LAST, id DESC. *)
Definition commission_newest (x y : string * commission_row) : Prop :=
  match ce_created_at x.2, ce_created_at y.2 with
  | Some a, Some b => (b <? a) || (a =? b) && String.leb y.1 x.1
  | Some _, None => true
  | None, Some _ => false
  | None, None => String.leb y.1 x.1
  end = true.

#[local] Instance commission_newest_dec x y : Decision (commission_newest x y) := bool_eq_dec _ _.

(** The joins drop a commission whose beneficiary, bet or player is gone. *)
Definition ListAllCommissions (status currency : string) (limit : Z) (from to : option Z) : Tx (list Commission) :=
  db ← gets id;
  rows ← select_all (R := commission_row) (fun _ c =>
    bool_decide (is_Some (users db.(app) !! ce_beneficiary_user_id c)) &&
    bool_decide (is_Some (bets db.(app) !! ce_source_bet_id c ≫= fun b => users db.(app) !! bt_user_id b)) &&
    (bool_decide (status = ""%string) || bool_decide (ce_status c = status)) &&
    (bool_decide (currency = ""%string) || bool_decide (ce_currency c = currency)) &&
    in_time from to (ce_created_at c));
  mret (map (fun kv => mk_Commission kv.1 kv.2)
          (take (Z.to_nat (page_limit limit)) (merge_sort commission_newest rows))).

Definition direct_players (agentID : string) (db : DB) : list (string * user_row) :=
  omap (fun kv => match al_parent_user_id kv.2, users db.(app) !! kv.1 with
                  | Some p, Some u => if bool_decide (p = agentID) then Some (kv.1, u) else None
                  | _, _ => None
                  end) (map_to_list (agent_relations db.(app))).

(** The real bets of the real direct players, with the currency of the wallet. *)
Definition team_bets (agentID : string) (db : DB) : list (string * bet_row) :=
  let team := map fst (List.filter (fun x => negb (u_is_virtual x.2)) (direct_players agentID db)) in
  omap (fun kv =>
    w ← wallets db.(money) !! bt_wallet_id kv.2;
    if bool_decide (bt_user_id kv.2 ∈ team) && negb (bt_is_simulated kv.2) then Some (w_currency w, kv.2) else None)
    (map_to_list (bets db.(app))).

Definition decided_bet (b : bet_row) : bool := bool_decide (bt_status b ∈ ["won"; "lost"]%string).

Definition team_metric (agentID : string) (db : DB) (currency : string) : res TeamMetric :=
  let mine := List.filter (fun x => bool_decide (x.1 = currency) && decided_bet x.2) (team_bets agentID db) in
  stake ← sum_scan (map (fun x => bt_stake_minor x.2) mine);
  paid ← sum_scan (map (fun kv => ce_amount_minor kv.2) (List.filter (fun kv =>
    bool_decide (ce_beneficiary_user_id kv.2 = agentID) && bool_decide (ce_status kv.2 = "paid"%string) &&
    bool_decide (ce_currency kv.2 = currency)) (map_to_list (commission_entries db.(app)))));
  Ok (mk_TeamMetric currency (Z.of_nat (length mine)) stake paid).

Fixpoint res_all {A B} (f : A -> res B) (l : list A) : res (list B) :=
  match l with
  | [] => Ok []
  | x :: rest => y ← f x; ys ← res_all f rest; Ok (y :: ys)
  end.

Definition summarize_team (agentID : string) (db : DB) : res TeamSummary :=
  metrics ← res_all (team_metric agentID db) (group_keys (map fst (team_bets agentID db)));
  Ok (mk_TeamSummary
        (Z.of_nat (length (List.filter (fun x => negb (u_is_virtual x.2)) (direct_players agentID db)))) metrics).

Definition agent_TeamSummary (agentID : string) : Tx TeamSummary := fun db => lift (summarize_team agentID db) db.

End agent.

(** ** Income *)

Definition agent_day_ns : Z := 86400000000000.

(** Midnight in Shanghai, of the day of [now]. *)
Definition shanghai_midnight (now : Z) : Z :=
  (now + 8 * 3600000000000) / agent_day_ns * agent_day_ns - 8 * 3600000000000.

(** [(int(day.Weekday())+6)%7], days since Monday; day 0 was a Thursday. *)
Definition days_since_monday (midnight : Z) : Z := ((midnight + 8 * 3600000000000) / agent_day_ns + 3) mod 7.

Definition incomePeriods (now : Z) : list IncomePeriod :=
  let day := shanghai_midnight now in
  let week := day - days_since_monday day * agent_day_ns in
  [mk_IncomePeriod "today" day (day + agent_day_ns) [];
   mk_IncomePeriod "yesterday" (day - agent_day_ns) day [];
   mk_IncomePeriod "this_week" week (week + 7 * agent_day_ns) [];
   mk_IncomePeriod "last_week" (week - 7 * agent_day_ns) week []].

(** The paid commissions of [owner], summed per currency. *)
Definition income_of (rows : list commission_row) : res (list DirectPlayerIncome) :=
  res_all (fun currency =>
    s ← sum_scan (map ce_amount_minor (List.filter (fun c => bool_decide (ce_currency c = currency)) rows));
    Ok (mk_income currency s)) (group_keys (map ce_currency rows)).

Definition paid_to (owner : string) (db : DB) : list commission_row :=
  List.filter (fun c => bool_decide (ce_beneficiary_user_id c = owner) && bool_decide (ce_status c = "paid"%string))
    (map snd (map_to_list (commission_entries db.(app)))).

Definition IncomeSummary (t : clock) (owner : string) : Tx (list IncomePeriod) := fun db =>
  lift (res_all (fun p =>
    income ← income_of (List.filter (fun c => from_option (fun at_ => (ip_From p <=? at_) && (at_ <? ip_To p)) false
                                      (ce_created_at c)) (paid_to owner db));
    Ok (mk_IncomePeriod (ip_Period p) (ip_From p) (ip_To p) income)) (incomePeriods (go_now t))) db.

(** ** Levels *)

Definition set_user_level (level : Z) (u : user_row) : user_row :=
  mk_user_row (u_status u) (u_is_virtual u) (u_display_name u) (u_public_id u)
    (if level =? 0 then None else Some level) (u_avatar_url u) (u_login_name u) (u_secondary_password_hash u)
    (u_created_at u).

Section level.
Context `{Uuids}.

Definition level_of (u : user_row) : Z := default 0 (u_agent_level u).

Definition SetDirectPlayerLevel (owner : string) (target level : Z) : Tx () :=
  reject_if ((level <? 0) || (6 <? level)) ErrChildLevelInvalid;;
  reject_if (bool_decide (owner = ""%string) || (target <? 10001)) ErrChildLevelForbidden;;
  o ← select_id (R := user_row) owner;
  c ← select_where (R := user_row) (fun _ u => u_public_id u =? target);
  ou ← found ErrChildLevelForbidden o;
  kv ← found ErrChildLevelForbidden c;
  let '(child, cu) := kv in
  let ownerOK := negb (u_is_virtual ou) && bool_decide (u_status ou = "active"%string) in
  let childOK := negb (u_is_virtual cu) && negb (bool_decide (u_status cu = "disabled"%string)) in
  reject_if (negb ownerOK || negb childOK || bool_decide (child = owner) || (level_of ou <? 1) ||
             (level_of ou <=? level) || (level_of ou <=? level_of cu) || (level <=? level_of cu)) ErrChildLevelForbidden;;
  r ← select_id (R := agent_relation_row) child;
  rel ← found ErrChildLevelForbidden r;
  parent ← found (RaisedException "cannot scan NULL into *string") (al_parent_user_id rel);
  reject_if (negb (bool_decide (parent = owner))) ErrChildLevelForbidden;;
  n ← update_row (R := user_row) child (set_user_level level);
  (if 0 <? level
   then fresh ← insert_ignore (R := agent_rate_row) (fun _ => false) child (mk_agent_rate_row 0); mret ()
   else mret ());;
  auditID ← new_uuid;
  insert_audit (mk_audit (Some owner) "agent.direct_player.level.update" "user" child None
    (JObj [("old_level", JInt (level_of cu)); ("agent_level", JInt level)]%string)).

End level.

(** ** The players below an agent *)

Record DirectPlayerQuery : Type := mk_DirectPlayerQuery {
  dq_ParentUserID : Z;
  dq_Cursor : string;
  dq_PlayerType : string;
  dq_From : option Z;
  dq_To : option Z;
  dq_Limit : Z;
  dq_Offset : Z
}.

Record DirectPlayer : Type := mk_DirectPlayer {
  dp_ID : string;
  dp_row : user_row;
  dp_HasChildren : bool;
  dp_Depth : Z;
  dp_ParentUserID : Z;
  dp_Income : list DirectPlayerIncome;
  dp_TodayIncome : list DirectPlayerIncome;
  dp_HistoryIncome : list DirectPlayerIncome
}.

Record DirectPlayers : Type := mk_DirectPlayers {
  ds_ParentUserID : Z;
  ds_HasMore : bool;
  ds_NextCursor : string;
  ds_Total : Z;
  ds_Items : list DirectPlayer
}.

Definition player_cursor (q : DirectPlayerQuery) : res Z :=
  if bool_decide (dq_Cursor q = ""%string) then Ok 0
  else after ← of_option ErrPlayerQueryInvalid (ParseInt (dq_Cursor q));
       fail_if ((after <=? 0) || negb (dq_Offset q =? 0)) ErrPlayerQueryInvalid;;
       Ok after.

(** How far [parent] is above [target], from one. *)
Fixpoint depth_of (parent : string) (chain : list string) : option Z :=
  match chain with
  | [] => None
  | x :: rest => if bool_decide (x = parent) then Some 1 else Z.add 1 <$> depth_of parent rest
  end.

Definition player_type_ok (kind : string) (u : user_row) : bool :=
  bool_decide (kind ∈ [""; "all"]%string) || bool_decide (kind = "real"%string) && negb (u_is_virtual u) ||
  bool_decide (kind = "virtual"%string) && u_is_virtual u.

Definition members_of (target kind : string) (db : DB) : list (string * user_row) :=
  List.filter (fun x => negb (bool_decide (x.1 = target)) && bool_decide (u_status x.2 = "active"%string) &&
                        player_type_ok kind x.2) (direct_players target db).

Definition public_order (x y : string * user_row) : Prop := u_public_id x.2 <= u_public_id y.2.

#[local] Instance public_order_dec x y : Decision (public_order x y) := Z_le_dec _ _.

Definition has_children (id : string) (db : DB) : bool :=
  existsb (fun kv => bool_decide (al_parent_user_id kv.2 = Some id) && negb (bool_decide (kv.1 = id)))
    (map_to_list (agent_relations db.(app))).

(** What [parent] earned from the bets of one player. *)
Definition earned_from (parent player : string) (db : DB) : list commission_row :=
  List.filter (fun c => from_option (fun b => bool_decide (bt_user_id b = player)) false
                          (bets db.(app) !! ce_source_bet_id c)) (paid_to parent db).

Definition player_item (now : Z) (parent : string) (q : DirectPlayerQuery) (depth parentPublic : Z) (db : DB)
    (x : string * user_row) : res DirectPlayer :=
  let earned := earned_from parent x.1 db in
  let day := shanghai_midnight now in
  all ← income_of earned;
  filtered ← income_of (List.filter (fun c => in_time (dq_From q) (dq_To q) (ce_created_at c)) earned);
  daily ← income_of (List.filter (fun c => in_time (Some day) (Some (day + agent_day_ns)) (ce_created_at c)) earned);
  Ok (mk_DirectPlayer x.1 x.2 (has_children x.1 db) depth parentPublic filtered daily all).

Definition list_direct_players (now : Z) (parent : string) (q : DirectPlayerQuery) (db : DB) : res DirectPlayers :=
  fail_if (bool_decide (parent = ""%string) ||
           negb (bool_decide (dq_PlayerType q ∈ [""; "all"; "real"; "virtual"]%string)) ||
           match dq_From q, dq_To q with Some f, Some u => u <=? f | _, _ => false end) ErrPlayerQueryInvalid;;
  fail_if (dq_ParentUserID q <? 0) ErrPlayerQueryInvalid;;
  after ← player_cursor q;
  let limit := page_limit (dq_Limit q) in
  let offset := Z.max 0 (dq_Offset q) in
  where_ ← (if 0 <? dq_ParentUserID q then
              kv ← of_option ErrPlayerQueryForbidden
                (find_row (fun _ u => u_public_id u =? dq_ParentUserID q) (users db.(app)));
              depth ← of_option ErrPlayerQueryForbidden
                (depth_of parent (ancestor_set (agent_relations db.(app)) kv.1));
              Ok (kv.1, depth)
            else Ok (parent, 1));
  let '(target, depth) := where_ in
  tu ← of_option ErrNoRows (users db.(app) !! target);
  let members := members_of target (dq_PlayerType q) db in
  let rest := drop (Z.to_nat offset)
    (List.filter (fun x => after <? u_public_id x.2) (merge_sort public_order members)) in
  let page := take (Z.to_nat limit) rest in
  items ← res_all (player_item now parent q depth (u_public_id tu) db) page;
  let more := limit <? Z.of_nat (length rest) in
  Ok (mk_DirectPlayers (u_public_id tu) more
        (if more then from_option (fun x => FormatInt (u_public_id x.2)) ""%string (last page) else ""%string)
        (Z.of_nat (length members)) items).

Definition ListDirectPlayers (t : clock) (parent : string) (q : DirectPlayerQuery) : Tx DirectPlayers :=
  fun db => lift (list_direct_players (go_now t) parent q db) db.
