(* ===== verification/Identity.v ===== *)
(** * Identity

    [domain/identity]: access tokens (access_token.go), passwords
    (credentials.go), display names (display_name.go), the login guard
    (login_guard.go), roles (roles.go) and the repository of users, credentials
    and sessions (postgres.go).

    Arguments: HMAC-SHA256, Argon2id and the text of JSON.  The roles table is
    read through [user_roles], which holds the codes; inserting a role code
    draws an identifier and changes nothing that is modelled.  Left out:
    [NewSessionToken], which nothing calls. *)

From S2P Require Import Prelude GoStrings Base64 Json Schema Store Wallet Agent.

Definition ErrIdentityNotFound : error := Sentinel "identity.ErrIdentityNotFound".
Definition ErrLoginNameTaken : error := Sentinel "identity.ErrLoginNameTaken".
Definition ErrInvitationCodeNotFound : error := Sentinel "identity.ErrInvitationCodeNotFound".
Definition ErrAdminAlreadyExists : error := Sentinel "identity.ErrAdminAlreadyExists".
Definition ErrInvalidAccessToken : error := Sentinel "identity.ErrInvalidAccessToken".

Definition MinimumInvitationCode : Z := 10001.

Definition RolePlayer : string := "player".
Definition RoleOperator : string := "operator".
Definition RoleAdmin : string := "admin".

Definition AudiencePlayer : string := "player".
Definition AudienceAdmin : string := "admin".

(** ** Access tokens *)

Record AccessTokenClaims : Type := mk_claims {
  at_SessionID : string;
  at_Subject : string;
  at_Roles : list string;
  at_IssuedAt : Z;
  at_ExpiresAt : Z
}.

Definition claims_HasRole (claims : AccessTokenClaims) (roles : list string) : bool :=
  existsb (fun wanted => existsb (fun owned => String.eqb owned wanted) (at_Roles claims)) roles.

(** [Time.Unix]. *)
Definition unix (t : Z) : Z := t / 1000000000.

Definition token_header : json := JObj [("alg", JStr "HS256"); ("typ", JStr "JWT")]%string.

(** A nil slice is null. *)
Definition roles_json (roles : list string) : json :=
  match roles with [] => JNull | _ => JArr (map JStr roles) end.

(** The tags: [sid] and [exp] are left out when empty; no roles are null. *)
Definition claims_json (c : AccessTokenClaims) : json :=
  JObj ((if bool_decide (at_SessionID c = ""%string) then [] else [("sid"%string, JStr (at_SessionID c))]) ++
        [("sub"%string, JStr (at_Subject c));
         ("roles"%string, roles_json (at_Roles c));
         ("iat"%string, JInt (at_IssuedAt c))] ++
        (if at_ExpiresAt c =? 0 then [] else [("exp"%string, JInt (at_ExpiresAt c))])).

Definition dec_claims : json -> option AccessTokenClaims :=
  dec_struct (fun k v c =>
    let '(mk_claims sid sub roles iat exp) := c in
    if is_key "sid" k then x ← dec_string sid v; Some (mk_claims x sub roles iat exp)
    else if is_key "sub" k then x ← dec_string sub v; Some (mk_claims sid x roles iat exp)
    else if is_key "roles" k then x ← dec_strings roles v; Some (mk_claims sid sub x iat exp)
    else if is_key "iat" k then x ← dec_int64 iat v; Some (mk_claims sid sub roles x exp)
    else if is_key "exp" k then x ← dec_int64 exp v; Some (mk_claims sid sub roles iat x)
    else Some c) (mk_claims "" "" [] 0 0).

Record token_kind : Type := mk_kind {
  tk_Algorithm : string;
  tk_Type : string
}.

Definition dec_kind : json -> option token_kind :=
  dec_struct (fun k v h =>
    if is_key "alg" k then x ← dec_string (tk_Algorithm h) v; Some (mk_kind x (tk_Type h))
    else if is_key "typ" k then x ← dec_string (tk_Type h) v; Some (mk_kind (tk_Algorithm h) x)
    else Some h) (mk_kind "" "").

Section tokens.
Context (hmac_sha256 : bytes -> bytes -> bytes).
Context (Marshal : json -> bytes) (Unmarshal : bytes -> raw).

Definition encodeTokenPart (value : json) : bytes := b64_encode true (Marshal value).

Definition decodeTokenPart {T} (dec : json -> option T) (encoded : bytes) : option T :=
  text ← b64_decode true encoded;
  j ← Unmarshal text;
  dec j.

Definition token_signature (secret signingInput : bytes) : bytes := b64_encode true (hmac_sha256 secret signingInput).

Definition dot : bytes := [byte_at 46].

Definition IssueAccessToken (secret : bytes) (subject : string) (roles : list string) (issuedAt lifetime : Z)
    (sessionID : string) : res bytes :=
  fail_if ((Z.of_nat (length secret) <? 32) || bool_decide (subject = ""%string) || (lifetime <? 0)) ErrInvalidAccessToken;;
  fail_if ((lifetime =? 0) && bool_decide (sessionID = ""%string)) ErrInvalidAccessToken;;
  let expiresAt := if 0 <? lifetime then unix (issuedAt + lifetime) else 0 in
  let claims := encodeTokenPart (claims_json (mk_claims sessionID subject roles (unix issuedAt) expiresAt)) in
  let signingInput := encodeTokenPart token_header ++ dot ++ claims in
  Ok (signingInput ++ dot ++ token_signature secret signingInput).

Definition claims_valid (now : Z) (c : AccessTokenClaims) : bool :=
  negb (bool_decide (at_Subject c = ""%string) || (at_ExpiresAt c <? 0) ||
        (0 <? at_ExpiresAt c) && (at_ExpiresAt c <=? unix now) ||
        (at_ExpiresAt c =? 0) && bool_decide (at_SessionID c = ""%string) || (unix now <? at_IssuedAt c)).

Definition VerifyAccessToken (secret token : bytes) (now : Z) : res AccessTokenClaims :=
  fail_if (Z.of_nat (length secret) <? 32) ErrInvalidAccessToken;;
  match split_all 46 token with
  | [h; c; s] =>
      kind ← of_option ErrInvalidAccessToken (decodeTokenPart dec_kind h);
      fail_if (negb (bool_decide (tk_Algorithm kind = "HS256"%string)) || negb (bool_decide (tk_Type kind = "JWT"%string)))
        ErrInvalidAccessToken;;
      fail_if (negb (bool_decide (s = token_signature secret (h ++ dot ++ c)))) ErrInvalidAccessToken;;
      claims ← of_option ErrInvalidAccessToken (decodeTokenPart dec_claims c);
      fail_if (negb (claims_valid now claims)) ErrInvalidAccessToken;;
      Ok claims
  | _ => Err ErrInvalidAccessToken
  end.

End tokens.

(** ** Passwords *)

Section passwords.
(** [argon2.IDKey]: password, salt, time, memory, threads, key length. *)
Context (IDKey : bytes -> bytes -> Z -> Z -> Z -> Z -> bytes).

Definition argonTime : Z := 3.
Definition argonMemory : Z := 65536.
Definition argonThreads : Z := 4.
Definition argonKeyLen : Z := 32.

(** The text of a hash; [salt] are the sixteen random bytes. *)
Definition HashPassword (salt : bytes) (password : string) : string :=
  let hash := IDKey (s2b password) salt argonTime argonMemory argonThreads argonKeyLen in
  b2s (s2b "$argon2id$v=19$m=65536,t=3,p=4$" ++ b64_encode false salt ++ s2b "$" ++ b64_encode false hash).

(** [%d] of [fmt.Sscanf] into an unsigned integer of [bits]. *)
Fixpoint skip_blanks (l : bytes) : bytes :=
  match l with
  | c :: r => if (code c =? 32) || (code c =? 9) || (code c =? 11) || (code c =? 12) || (code c =? 13)
              then skip_blanks r else l
  | [] => []
  end.

Fixpoint span_digits (l : bytes) : bytes * bytes :=
  match l with
  | c :: r => if is_digit c then let '(d, rest) := span_digits r in (c :: d, rest) else ([], l)
  | [] => ([], [])
  end.

Definition scan_uint (bits : Z) (l : bytes) : option (Z * bytes) :=
  let '(d, rest) := span_digits (skip_blanks l) in
  match d with
  | [] => None
  | _ => if value_of d <? 2 ^ bits then Some (value_of d, rest) else None
  end.

Fixpoint scan_literal (p l : bytes) : option bytes :=
  match p, l with
  | [], _ => Some l
  | c :: p', d :: l' => if bool_decide (c = d) then scan_literal p' l' else None
  | _, [] => None
  end.

(** [fmt.Sscanf(text, "m=%d,t=%d,p=%d", ...)]; what follows is not read. *)
Definition scan_parameters (l : bytes) : option (Z * Z * Z) :=
  l ← scan_literal (s2b "m=") l;
  x ← scan_uint 32 l;
  l ← scan_literal (s2b ",t=") x.2;
  y ← scan_uint 32 l;
  l ← scan_literal (s2b ",p=") y.2;
  z ← scan_uint 8 l;
  Some (x.1, y.1, z.1).

Definition VerifyPassword (encodedHash password : string) : bool :=
  match split_all 36 (s2b encodedHash) with
  | [_; kind; version; parameters; salt; key] =>
      bool_decide (kind = s2b "argon2id") && bool_decide (version = s2b "v=19") &&
      match scan_parameters parameters, b64_decode false salt, b64_decode false key with
      | Some (memory, iterations, threads), Some salt, Some expected =>
          bool_decide (IDKey (s2b password) salt iterations memory threads (Z.of_nat (length expected)) = expected)
      | _, _, _ => false
      end
  | _ => false
  end.

End passwords.

(** ** Display names *)

Definition restrictedDisplayNameTerms : list string :=
  ["风云"; "上分"; "下分"; "客服"; "管理员"; "管理"; "官方"; "平台"; "系统"; "运营"; "GM"; "admin"; "administrator";
   "service"; "system"; "official"; "lulu"; "庄家"; "荷官"; "博彩"; "赌"; "下注"; "盘口"; "赔率"; "打水"; "水位";
   "滚盘"; "信用盘"; "现金盘"; "出款"; "入款"; "充值"; "回收"; "变现"; "返水"; "返点"; "代理"; "推广"; "代充"; "兑换"; "洗码";
   "码农"; "赌球"; "棋牌"; "赌场"; "娱乐城"; "稳赢"; "必中"; "包赢"; "root"; "master"; "op"; "operator";
   "moderator"; "mod"; "manager"; "help"; "support"; "bot"; "微信"; "wx"; "vx"; "qq"; "加我"; "联系";
   "私聊"; "扫码"; "客服号"; "客服微信"]%string.

Definition Contains (s sub : string) : bool := match String.index 0 sub s with Some _ => true | None => false end.

Definition HasRestrictedDisplayNameTerm (displayName : string) : bool :=
  let name := TrimSpace displayName in
  if bool_decide (name = ""%string) then false
  else existsb (fun term => Contains (ToLower name) (ToLower term)) restrictedDisplayNameTerms.

(** ** Credentials *)

Record PasswordCredentials : Type := mk_credentials {
  pc_UserID : string;
  pc_Status : string;
  pc_PasswordHash : string
}.

Definition password_of_subject (loginName : string) (a : identity_row) : bool :=
  bool_decide (ai_provider a = "password"%string) && bool_decide (ai_subject a = loginName).

Definition password_of_user (userID : string) (a : identity_row) : bool :=
  bool_decide (ai_user_id a = userID) && bool_decide (ai_provider a = "password"%string).

Definition set_password_hash (hash : string) (a : identity_row) : identity_row :=
  mk_identity_row (ai_user_id a) (ai_provider a) (ai_subject a) (Some hash).

Definition set_secondary_hash (hash : string) (u : user_row) : user_row :=
  mk_user_row (u_status u) (u_is_virtual u) (u_display_name u) (u_public_id u) (u_agent_level u) (u_avatar_url u)
    (u_login_name u) (Some hash) (u_created_at u).

(** ** The login guard *)

(** [now.Sub(started)] saturates. *)
Definition since (now started : Z) : Z := Z.max int64_min (Z.min int64_max (now - started)).

Definition guard_locked (now : Z) (g : login_guard_row) : bool :=
  from_option (fun until => now <? until) false (lg_locked_until g).

Definition next_guard (now maxFailures window lockout : Z) (old : option login_guard_row) : login_guard_row * bool :=
  let g := default (mk_login_guard_row 0 now None 0) old in
  let stale := match lg_locked_until g with Some until => until <=? now | None => false end ||
               (window <=? since now (lg_window_started_at g)) in
  let failures := ((if stale then 0 else lg_failed_attempts g) + 1)%i64 in
  let started := if stale then now else lg_window_started_at g in
  let locked := if stale then None else lg_locked_until g in
  if maxFailures <=? failures then (mk_login_guard_row failures started (Some (now + lockout)) now, true)
  else (mk_login_guard_row failures started locked now, from_option (fun until => now <? until) false locked).

(** ** Sessions *)

Definition session_active (s : session_row) : bool := bool_decide (se_revoked_at s = None).

Definition session_alive (now : Z) (s : session_row) : bool :=
  session_active s && from_option (fun e => now <? e) true (se_expires_at s).

Definition revoke_session (now : Z) (s : session_row) : session_row :=
  mk_session_row (se_user_id s) (se_token_hash s) (se_audience s) (se_expires_at s) (Some now).

Definition renew_session (hash : string) (expires : option Z) (s : session_row) : session_row :=
  mk_session_row (se_user_id s) hash (se_audience s) expires (se_revoked_at s).

(** UNIQUE(token_hash) and the index [sessions_one_active_per_user]. *)
Definition session_conflict (s x : session_row) : bool :=
  bool_decide (se_token_hash x = se_token_hash s) ||
  session_active s && session_active x && bool_decide (se_user_id x = se_user_id s).

Section repository.
Context `{Uuids} (is_uuid : string -> bool).

Definition user_is_active (userID : string) (db : DB) : bool :=
  from_option (fun u => bool_decide (u_status u = "active"%string)) false (users db.(app) !! userID).

(** [expiresAt]: no time is no expiry. *)
Definition CreateSession (t : clock) (userID tokenHash audience : string) (expiresAt : option Z) : Tx () :=
  active ← gets (user_is_active userID);
  reject_if (negb active) ErrNoRows;;
  update_where (R := session_row) (fun _ s => bool_decide (se_user_id s = userID) && session_active s)
    (revoke_session (sql_now t));;
  id ← new_uuid;
  let s := mk_session_row userID tokenHash audience expiresAt None in
  insert_row (session_conflict s) id s.

Definition live_session (t : clock) (tokenHash : string) : Tx (option (string * session_row)) :=
  select_where (R := session_row) (fun _ s => bool_decide (se_token_hash s = tokenHash) && session_alive (sql_now t) s).

Definition SessionID (t : clock) (tokenHash : string) : Tx string :=
  s ← live_session t tokenHash;
  kv ← found ErrNoRows s;
  mret (fst kv).

Definition ValidateSession (t : clock) (claims : AccessTokenClaims) : Tx () :=
  reject_if (negb (is_uuid (at_SessionID claims)) || negb (is_uuid (at_Subject claims))) ErrInvalidAccessToken;;
  s ← select_id (R := session_row) (at_SessionID claims);
  active ← gets (user_is_active (at_Subject claims));
  reject_if (negb (from_option (fun s => bool_decide (se_user_id s = at_Subject claims) && session_alive (sql_now t) s)
                     false s && active)) ErrInvalidAccessToken.

Definition RotateSession (t : clock) (oldTokenHash newTokenHash audience : string) (expiresAt : option Z) : Tx string :=
  found_ ← (db ← gets id;
            select_where (R := session_row) (fun _ s =>
              bool_decide (se_token_hash s = oldTokenHash) && session_alive (sql_now t) s &&
              bool_decide (se_audience s = audience) && user_is_active (se_user_id s) db));
  kv ← found ErrIdentityNotFound found_;
  let '(id, s) := kv in
  other ← select_where (R := session_row) (fun k x =>
            bool_decide (se_token_hash x = newTokenHash) && negb (bool_decide (k = id)));
  reject_if (bool_decide (is_Some other)) (UniqueViolation "sessions_token_hash_key");;
  n ← update_row (R := session_row) id (renew_session newTokenHash expiresAt);
  mret (se_user_id s).

Definition RevokeSession (t : clock) (tokenHash : string) : Tx () :=
  s ← select_where (R := session_row) (fun _ s => bool_decide (se_token_hash s = tokenHash) && session_active s);
  kv ← found ErrIdentityNotFound s;
  n ← update_row (R := session_row) (fst kv) (revoke_session (sql_now t));
  mret ().

Definition FindPasswordCredentials (loginName : string) : Tx PasswordCredentials :=
  a ← select_where (R := identity_row) (fun _ => password_of_subject loginName);
  kv ← found ErrIdentityNotFound a;
  u ← select_id (R := user_row) (ai_user_id kv.2);
  row ← found ErrIdentityNotFound u;
  hash ← found (RaisedException "cannot scan NULL into *string") (ai_password_hash kv.2);
  mret (mk_credentials (ai_user_id kv.2) (u_status row) hash).

Definition PublicUserID (userID : string) : Tx Z :=
  u ← select_id (R := user_row) userID;
  row ← found ErrIdentityNotFound u;
  mret (u_public_id row).

Definition InternalUserIDByPublicID (publicID : Z) : Tx string :=
  u ← select_where (R := user_row) (fun _ u => u_public_id u =? publicID);
  kv ← found ErrIdentityNotFound u;
  mret (fst kv).

Definition PasswordHashByUserID (userID : string) : Tx string :=
  a ← select_where (R := identity_row) (fun _ => password_of_user userID);
  kv ← found ErrIdentityNotFound a;
  found (RaisedException "cannot scan NULL into *string") (ai_password_hash kv.2).

Definition UpdatePasswordHash (userID passwordHash : string) : Tx () :=
  a ← select_where (R := identity_row) (fun _ => password_of_user userID);
  reject_if (negb (bool_decide (is_Some a))) ErrIdentityNotFound;;
  update_where (R := identity_row) (fun _ => password_of_user userID) (set_password_hash passwordHash);;
  modify (fun db => set_app (set_sessions
    (filter (fun kv => se_user_id kv.2 <> userID) (sessions db.(app))) db.(app)) db).

Definition SecondaryPasswordHashByUserID (userID : string) : Tx string :=
  u ← select_id (R := user_row) userID;
  row ← found ErrIdentityNotFound u;
  hash ← found ErrIdentityNotFound (u_secondary_password_hash row);
  reject_if (bool_decide (hash = ""%string)) ErrIdentityNotFound;;
  mret hash.

Definition UpdateSecondaryPasswordHash (userID passwordHash : string) : Tx () :=
  n ← update_row (R := user_row) userID (set_secondary_hash passwordHash);
  reject_if (n =? 0) ErrIdentityNotFound.

(** ORDER BY roles.code. *)
Definition UserRoles (userID : string) : Tx (list string) :=
  gets (fun db => merge_sort str_le (map snd (List.filter (fun r => bool_decide (fst r = userID)) (user_roles db.(app))))).

Definition LoginBlocked (loginName : string) (now : Z) : Tx bool :=
  g ← select_id (R := login_guard_row) loginName;
  mret (from_option (guard_locked now) false g).

Definition RecordLoginFailure (loginName : string) (now maxFailures window lockout : Z) : Tx bool :=
  g ← select_id (R := login_guard_row) loginName;
  let '(g', blocked) := next_guard now maxFailures window lockout g in
  modify (put_row loginName g');;
  mret blocked.

Definition ClearLoginFailures (loginName : string) : Tx () :=
  modify (fun db => set_app (set_auth_login_guards (delete loginName (auth_login_guards db.(app))) db.(app)) db).

(** ** Registration *)

(** nextval('users_public_id_seq'): NO CYCLE up to 99999. *)
Definition next_public_id : Tx Z := fun db =>
  let n := users_public_id_seq db.(app) in
  if 99999 <? n then Err (RaisedException "nextval: reached maximum value of sequence")
  else Ok (n, set_app (set_users_public_id_seq (n + 1) db.(app)) db).

(** A unique violation is a login name that is taken. *)
Definition taken_if_unique (m : Tx ()) : Tx () := fun db =>
  match m db with
  | Err (UniqueViolation _) => Err ErrLoginNameTaken
  | r => r
  end.

Definition insert_user (id loginName displayName : string) (now : Z) : Tx () :=
  public ← next_public_id;
  insert_row (fun u => bool_decide (u_login_name u = Some loginName) || (u_public_id u =? public)) id
    (mk_user_row "active" false displayName public None None (Some loginName) None now).

Definition insert_identity (id userID loginName passwordHash : string) : Tx () :=
  insert_row (password_of_subject loginName) id (mk_identity_row userID "password" loginName (Some passwordHash)).

Definition insert_role (userID role : string) : Tx () := fun db =>
  if existsb (fun r => bool_decide (r = (userID, role))) (user_roles db.(app))
  then Err (UniqueViolation "user_roles_pkey")
  else Ok ((), set_app (set_user_roles ((userID, role) :: user_roles db.(app)) db.(app)) db).

(** ensure_user_customer_service_rooms (migrations 0066 and 0093). *)
Definition service_room (userID kind : string) (r : chat_room_row) : bool :=
  bool_decide (cr_room_type r = "customer_service"%string) && bool_decide (cr_customer_user_id r = Some userID) &&
  bool_decide (cr_service_type r = Some kind).

Definition insert_service_room (now : Z) (userID kind : string) : Tx () :=
  id ← new_uuid;
  made ← insert_unless (service_room userID kind) id 
    (mk_chat_room_row "customer_service" (Some userID) (Some kind) now);
  mret ().

Definition join_service_rooms (userID : string) : Tx () :=
  modify (fun db =>
    let rooms := List.filter (fun kv => bool_decide (cr_room_type kv.2 = "customer_service"%string) &&
                                        bool_decide (cr_customer_user_id kv.2 = Some userID))
                   (map_to_list (chat_rooms db.(app))) in
    let fresh := List.filter (fun m => negb (existsb (fun x => bool_decide (x = m)) (chat_room_members db.(app))))
                   (map (fun kv => (kv.1, userID)) rooms) in
    set_app (set_chat_room_members (fresh ++ chat_room_members db.(app)) db.(app)) db).

Definition ensure_user_customer_service_rooms (now : Z) (userID : string) : Tx () :=
  player ← gets (fun db => existsb (fun r => bool_decide (r = (userID, RolePlayer))) (user_roles db.(app)) &&
                            bool_decide (is_Some (users db.(app) !! userID)));
  if negb player then mret ()
  else
    insert_service_room now userID "deposit";;
    insert_service_room now userID "withdrawal";;
    join_service_rooms userID.

(** INSERT INTO wallets ... SELECT: one empty wallet per currency that is
    opened on registration. *)
Fixpoint open_wallets (now : Z) (userID : string) (currencies : list string) : Tx () :=
  match currencies with
  | [] => mret ()
  | c :: rest =>
      id ← new_uuid;
      made ← insert_wallet id userID c now;
      reject_if (negb made) (UniqueViolation "wallets_user_currency");;
      open_wallets now userID rest
  end.

Definition opened_currencies (db : DB) : list string :=
  map fst (List.filter (fun kv => cur_enabled kv.2 && cur_create_on_registration kv.2) (map_to_list (currencies db.(app)))).

(** The invitation code of a user is his public number (a CHECK of migration
    0078). *)
Definition RegisterPasswordUser (t : clock) (loginName displayName passwordHash roleCode : string)
    (invitationCode : Z) : Tx string :=
  reject_if (invitationCode <? MinimumInvitationCode) ErrInvitationCodeNotFound;;
  inviter ← select_where (R := user_row) (fun _ u =>
    (u_public_id u =? invitationCode) && bool_decide (is_Some (u_agent_level u)));
  kv ← found ErrInvitationCodeNotFound inviter;
  let parentUserID := fst kv in
  rels ← gets (fun db => agent_relations db.(app));
  roleRow ← new_uuid;
  userID ← new_uuid;
  taken_if_unique (insert_user userID loginName displayName (sql_now t));;
  identityID ← new_uuid;
  taken_if_unique (insert_identity identityID userID loginName passwordHash);;
  insert_role userID roleCode;;
  ensure_user_customer_service_rooms (sql_now t) userID;;
  codes ← gets opened_currencies;
  open_wallets (sql_now t) userID codes;;
  insert_row (R := agent_relation_row) (fun _ => false) userID
    (mk_agent_relation_row (Some parentUserID) (Some (path_above rels parentUserID ++ [agent_label userID])));;
  mret userID.

Definition CreateFirstAdmin (t : clock) (loginName displayName passwordHash : string) : Tx string :=
  exists_ ← gets (fun db => existsb (fun r => bool_decide (snd r = RoleAdmin)) (user_roles db.(app)));
  reject_if exists_ ErrAdminAlreadyExists;;
  roleRow ← new_uuid;
  userID ← new_uuid;
  taken_if_unique (insert_user userID loginName displayName (sql_now t));;
  identityID ← new_uuid;
  insert_identity identityID userID loginName passwordHash;;
  insert_role userID RoleAdmin;;
  auditID ← new_uuid;
  insert_audit (mk_audit (Some userID) "auth.bootstrap_admin" "user" userID None (JObj [("login_name", JStr loginName)]%string));;
  mret userID.

End repository.
