(* ===== verification/Auth.v ===== *)
(** * Authentication

    [application/auth]: service.go, login_guard.go and audience.go over the
    Postgres repository of Identity.v.  Each repository call is a transaction
    of its own ([Svc]).  What [crypto/rand] returns (the raw refresh token and
    the salt) is an argument, as are Argon2id, SHA-256 and HMAC-SHA256; the
    dummy hash that equalises timing has no effect and is left out. *)

From S2P Require Import Prelude GoStrings Base64 Json Schema Store Identity.

Definition ErrInvalidCredentials : error := Sentinel "auth.ErrInvalidCredentials".
Definition ErrAccountDisabled : error := Sentinel "auth.ErrAccountDisabled".
Definition ErrAuthNotConfigured : error := Sentinel "auth.ErrAuthNotConfigured".
Definition ErrInvalidLoginName : error := Sentinel "auth.ErrInvalidLoginName".
Definition ErrInvalidPassword : error := Sentinel "auth.ErrInvalidPassword".
Definition ErrRestrictedDisplayName : error := Sentinel "auth.ErrRestrictedDisplayName".
Definition ErrInvalidRefreshToken : error := Sentinel "auth.ErrInvalidRefreshToken".
Definition ErrInvalidInvitationCode : error := Sentinel "auth.ErrInvalidInvitationCode".
Definition ErrSecondaryPasswordNotSet : error := Sentinel "auth.ErrSecondaryPasswordNotSet".
Definition ErrSecondaryPasswordAlreadySet : error := Sentinel "auth.ErrSecondaryPasswordAlreadySet".
Definition ErrTooManyLoginAttempts : error := Sentinel "auth.ErrTooManyLoginAttempts".

Record LoginProtectionPolicy : Type := mk_login_policy {
  MaxFailures : Z;
  Window : Z;
  Lockout : Z
}.

Definition login_policy_Validate (p : LoginProtectionPolicy) : bool :=
  (0 <? MaxFailures p) && (0 <? Window p) && (0 <? Lockout p).

(** [sa_sessions], [sa_registrar]: whether the store is wired; [sa_guard]: the
    login policy when a guard is. *)
Record AuthService : Type := mk_auth {
  sa_secret : bytes;
  sa_ttl : Z;
  sa_sessions : bool;
  sa_refreshTTL : Z;
  sa_permanentTokens : bool;
  sa_registrar : bool;
  sa_guard : option LoginProtectionPolicy
}.

Definition sessionExpiresAt (s : AuthService) (now : Z) : option Z :=
  if sa_permanentTokens s then None else Some (now + sa_refreshTTL s).

Definition accessLifetime (s : AuthService) : Z := if sa_permanentTokens s then 0 else sa_ttl s.

(** The Postgres store has [SessionID]; a missing store has no methods. *)
Definition permanentSessionConfigured (s : AuthService) : bool := negb (sa_permanentTokens s) || sa_sessions s.

Record LoginResult : Type := mk_login {
  au_AccessToken : bytes;
  au_RefreshToken : string;
  au_TokenType : string;
  au_ExpiresIn : Z;
  au_UserID : string;
  au_PublicUserID : Z;
  au_Roles : list string
}.

Definition login_char (c : Ascii.ascii) : bool :=
  is_digit c || between 65 90 c || between 97 122 c || (code c =? 45) || (code c =? 95).

Definition loginNamePattern (loginName : string) : bool :=
  forallb login_char (s2b loginName) && (3 <=? str_len loginName) && (str_len loginName <=? 32).

Fixpoint playerLoginAllowed_from (hasPlayer : bool) (roles : list string) : bool :=
  match roles with
  | [] => hasPlayer
  | role :: rest =>
      if bool_decide (role = RoleAdmin) || bool_decide (role = RoleOperator) then false
      else playerLoginAllowed_from (hasPlayer || bool_decide (role = RolePlayer)) rest
  end.

Definition playerLoginAllowed (roles : list string) : bool := playerLoginAllowed_from false roles.

Definition adminLoginAllowed (roles : list string) : bool :=
  existsb (fun role => bool_decide (role = RoleAdmin) || bool_decide (role = RoleOperator)) roles.

Definition audienceAllowsRoles (audience : string) (roles : list string) : bool :=
  if bool_decide (audience = AudienceAdmin) then adminLoginAllowed roles else playerLoginAllowed roles.

(** [rand.Read] into 32 bytes, base64url. *)
Definition randomRefreshToken (raw : res bytes) : res string :=
  bytes ← raw;
  Ok (b2s (b64_encode true bytes)).

Section service.
Context `{Uuids}.
Context (hmac_sha256 : bytes -> bytes -> bytes) (sha256_hex : bytes -> string).
Context (IDKey : bytes -> bytes -> Z -> Z -> Z -> Z -> bytes).
Context (Marshal : json -> bytes).

Definition hashRefreshToken (token : string) : string := sha256_hex (s2b token).

Definition sessionAccessToken (s : AuthService) (t : clock) (userID : string) (roles : list string) (hash : string)
    : Svc bytes :=
  sid ← (if sa_sessions s then atomically (SessionID t hash) else mret ""%string);
  svc_lift (IssueAccessToken hmac_sha256 Marshal (sa_secret s) userID roles (go_now t) (accessLifetime s) sid).

Definition attachRefreshToken (s : AuthService) (t : clock) (raw : res bytes) (result : LoginResult) (audience : string)
    : Svc LoginResult :=
  if negb (sa_sessions s) then mret result
  else
    svc_reject (sa_refreshTTL s <=? 0) ErrAuthNotConfigured;;
    token ← svc_lift (randomRefreshToken raw);
    atomically (CreateSession t (au_UserID result) (hashRefreshToken token) audience (sessionExpiresAt s (go_now t)));;
    access ← sessionAccessToken s t (au_UserID result) (au_Roles result) (hashRefreshToken token);
    mret (mk_login access token (au_TokenType result) (Z.quot (accessLifetime s) 1000000000)
            (au_UserID result) (au_PublicUserID result) (au_Roles result)).

(** The access token without a session and what is said with it. *)
Definition bare_login (s : AuthService) (t : clock) (userID : string) (publicUserID : Z) (roles : list string)
    : res LoginResult :=
  token ← IssueAccessToken hmac_sha256 Marshal (sa_secret s) userID roles (go_now t) (sa_ttl s) "";
  Ok (mk_login token "" "Bearer" (Z.quot (sa_ttl s) 1000000000) userID publicUserID roles).

Definition recordLoginFailure (s : AuthService) (t : clock) (loginName : string) : Svc bool :=
  match sa_guard s with
  | None => mret false
  | Some p => atomically (RecordLoginFailure loginName (go_now t) (MaxFailures p) (Window p) (Lockout p))
  end.

Definition login_failed (s : AuthService) (t : clock) (loginName : string) : Svc LoginResult :=
  blocked ← recordLoginFailure s t loginName;
  fails (if blocked : bool then ErrTooManyLoginAttempts else ErrInvalidCredentials).

Definition login_admitted (s : AuthService) (t : clock) (loginName : string) : Svc () :=
  match sa_guard s with
  | None => mret ()
  | Some p =>
      svc_reject (negb (login_policy_Validate p)) ErrAuthNotConfigured;;
      blocked ← atomically (LoginBlocked loginName (go_now t));
      svc_reject blocked ErrTooManyLoginAttempts
  end.

Definition clear_failures (s : AuthService) (loginName : string) : Svc () :=
  match sa_guard s with None => mret () | Some _ => atomically (ClearLoginFailures loginName) end.

Definition auth_ready (s : AuthService) : bool :=
  (32 <=? Z.of_nat (length (sa_secret s))) && (0 <? sa_ttl s) && permanentSessionConfigured s.

Definition login (s : AuthService) (t : clock) (raw : res bytes) (loginName password audience : string)
    : Svc LoginResult :=
  svc_reject (negb (auth_ready s)) ErrAuthNotConfigured;;
  let loginName := TrimSpace loginName in
  svc_reject (128 <? str_len loginName) ErrInvalidCredentials;;
  login_admitted s t loginName;;
  credentials ← try (atomically (FindPasswordCredentials loginName));
  match credentials with
  | Err e => if bool_decide (e = ErrIdentityNotFound) then login_failed s t loginName else fails e
  | Ok c =>
      if negb (VerifyPassword IDKey (pc_PasswordHash c) password) then login_failed s t loginName
      else
        clear_failures s loginName;;
        svc_reject (negb (bool_decide (pc_Status c = "active"%string))) ErrAccountDisabled;;
        roles ← atomically (UserRoles (pc_UserID c));
        svc_reject (negb (audienceAllowsRoles audience roles)) ErrInvalidCredentials;;
        publicUserID ← atomically (PublicUserID (pc_UserID c));
        result ← svc_lift (bare_login s t (pc_UserID c) publicUserID roles);
        attachRefreshToken s t raw result audience
  end.

Definition Login (s : AuthService) (t : clock) (raw : res bytes) (loginName password : string) : Svc LoginResult :=
  login s t raw loginName password AudiencePlayer.

Definition LoginAdmin (s : AuthService) (t : clock) (raw : res bytes) (loginName password : string) : Svc LoginResult :=
  login s t raw loginName password AudienceAdmin.

(** The checks of a registration and the invitation code it names. *)
Definition register_admitted (s : AuthService) (loginName displayName password invitationCode : string) : res Z :=
  fail_if (negb (sa_registrar s && auth_ready s)) ErrAuthNotConfigured;;
  fail_if (negb (loginNamePattern loginName)) ErrInvalidLoginName;;
  fail_if (bool_decide (TrimSpace password = ""%string)) ErrInvalidPassword;;
  fail_if (HasRestrictedDisplayNameTerm displayName) ErrRestrictedDisplayName;;
  match ParseInt (TrimSpace invitationCode) with
  | None => Err ErrInvalidInvitationCode
  | Some invite => fail_if (invite <? MinimumInvitationCode) ErrInvalidInvitationCode;; Ok invite
  end.

Definition Register (s : AuthService) (t : clock) (raw salt : res bytes)
    (loginName displayName password invitationCode : string) : Svc LoginResult :=
  invite ← svc_lift (register_admitted s loginName displayName password invitationCode);
  saltBytes ← or_error ErrInvalidPassword (svc_lift salt);
  let hash := HashPassword IDKey saltBytes password in
  let shown := if bool_decide (displayName = ""%string) then loginName else displayName in
  userID ← atomically (RegisterPasswordUser t loginName shown hash RolePlayer invite);
  publicUserID ← atomically (PublicUserID userID);
  result ← svc_lift (bare_login s t userID publicUserID [RolePlayer]);
  attachRefreshToken s t raw result AudiencePlayer.

Definition refresh (s : AuthService) (t : clock) (raw : res bytes) (refreshToken audience : string) : Svc LoginResult :=
  svc_reject (negb (sa_sessions s) || (sa_refreshTTL s <=? 0) || (Z.of_nat (length (sa_secret s)) <? 32) ||
              negb (permanentSessionConfigured s)) ErrAuthNotConfigured;;
  newToken ← svc_lift (randomRefreshToken raw);
  userID ← or_error ErrInvalidRefreshToken (atomically (
    RotateSession t (hashRefreshToken refreshToken) (hashRefreshToken newToken) audience
      (sessionExpiresAt s (go_now t))));
  roles ← atomically (UserRoles userID);
  if negb (audienceAllowsRoles audience roles) then
    try (atomically (RevokeSession t (hashRefreshToken newToken)));;
    fails ErrInvalidRefreshToken
  else
    publicUserID ← atomically (PublicUserID userID);
    access ← sessionAccessToken s t userID roles (hashRefreshToken newToken);
    mret (mk_login access newToken "Bearer" (Z.quot (accessLifetime s) 1000000000) userID publicUserID roles).

Definition Logout (s : AuthService) (t : clock) (refreshToken : string) : Svc () :=
  svc_reject (negb (sa_sessions s)) ErrAuthNotConfigured;;
  svc_reject (bool_decide (refreshToken = ""%string)) ErrInvalidRefreshToken;;
  or_error ErrInvalidRefreshToken (atomically (RevokeSession t (hashRefreshToken refreshToken))).

Definition ChangePassword (salt : res bytes) (userID currentPassword newPassword : string) : Svc () :=
  svc_reject (bool_decide (TrimSpace newPassword = ""%string)) ErrInvalidPassword;;
  currentHash ← or_error ErrInvalidCredentials (atomically (PasswordHashByUserID userID));
  svc_reject (negb (VerifyPassword IDKey currentHash currentPassword)) ErrInvalidCredentials;;
  saltBytes ← svc_lift salt;
  atomically (UpdatePasswordHash userID (HashPassword IDKey saltBytes newPassword)).

Definition SetSecondaryPassword (salt : res bytes) (userID secondaryPassword : string) : Svc () :=
  svc_reject (bool_decide (TrimSpace secondaryPassword = ""%string)) ErrInvalidPassword;;
  existing ← try (atomically (SecondaryPasswordHashByUserID userID));
  match existing with
  | Ok _ => fails ErrSecondaryPasswordAlreadySet
  | Err e =>
      svc_reject (negb (bool_decide (e = ErrIdentityNotFound))) e;;
      saltBytes ← svc_lift salt;
      atomically (UpdateSecondaryPasswordHash userID (HashPassword IDKey saltBytes secondaryPassword))
  end.

Definition VerifySecondaryPassword (userID secondaryPassword : string) : Svc () :=
  hash ← try (atomically (SecondaryPasswordHashByUserID userID));
  match hash with
  | Err e => fails (if bool_decide (e = ErrIdentityNotFound) then ErrSecondaryPasswordNotSet else ErrInvalidCredentials)
  | Ok h => svc_reject (negb (VerifyPassword IDKey h secondaryPassword)) ErrInvalidCredentials
  end.

Definition ChangeSecondaryPassword (salt : res bytes) (userID currentSecondaryPassword newSecondaryPassword : string)
    : Svc () :=
  svc_reject (bool_decide (TrimSpace newSecondaryPassword = ""%string)) ErrInvalidPassword;;
  VerifySecondaryPassword userID currentSecondaryPassword;;
  saltBytes ← svc_lift salt;
  atomically (UpdateSecondaryPasswordHash userID (HashPassword IDKey saltBytes newSecondaryPassword)).

End service.
