(* ===== verification/Outbox.v ===== *)
(** * The outbox

    [domain/events]: the [Outbox] interface (events.go) with its two
    implementations, in memory (memory_outbox.go) and on the table
    [outbox_events] (postgres_outbox.go), and [application/outbox]: the
    processor (processor.go) and the draining loop of live.go.

    A payload is the JSON it holds.  The publisher is an argument, with a state
    of its own; the order in which a Go map is ranged over is an argument. *)

From S2P Require Import Prelude GoStrings Json Schema Store.

Record Event : Type := mk_Event {
  ev_ID : string;
  ev_Type : string;
  ev_AggregateType : string;
  ev_AggregateID : string;
  ev_OccurredAt : Z;
  ev_Payload : json
}.

#[export] Instance Event_eq_dec : EqDecision Event.
Proof. solve_decision. Defined.

Definition ErrEventNotFound : error := Sentinel "events.ErrEventNotFound".
Definition ErrMaxAttempts : error := Sentinel "max attempts must be positive".

(** The Go interface: a call returns a result and the state it leaves. *)
Class Outbox (S : Type) := {
  Append : Event -> S -> res () * S;
  Pending : Z -> S -> list Event;
  MarkPublished : string -> Z -> S -> res () * S;
  RecordFailure : string -> Z -> string -> Z -> S -> res bool * S
}.

(** Occurred earlier, as [Time.Before] does not hold the other way round. *)
Definition occurs_before (x y : Event) : Prop := ev_OccurredAt x <= ev_OccurredAt y.

#[export] Instance occurs_before_dec x y : Decision (occurs_before x y) := Z_le_dec _ _.

#[export] Instance occurs_before_trans : Transitive occurs_before.
Proof. intros x y z. unfold occurs_before. lia. Qed.

Definition first_of {A} (limit : Z) (l : list A) : list A := if 0 <? limit then take (Z.to_nat limit) l else l.

(** ** memory_outbox.go *)

Record MemoryOutbox : Type := mk_MemoryOutbox {
  mo_events : gmap string Event;
  mo_published : gmap string Z;
  mo_attempts : gmap string Z;
  mo_dead : gmap string Z
}.

Module InMemory.

Section memory.
(** The order of [range]: any permutation; [sort.Slice] then orders by time and
    leaves ties to that order. *)
Context (ranged : list Event -> list Event).

Definition Append (event : Event) (o : MemoryOutbox) : res () * MemoryOutbox :=
  match mo_events o !! ev_ID event with
  | Some _ => (Ok (), o)
  | None => (Ok (), mk_MemoryOutbox (<[ev_ID event := event]> (mo_events o)) (mo_published o) (mo_attempts o) (mo_dead o))
  end.

Definition is_pending (o : MemoryOutbox) (id : string) : bool :=
  negb (bool_decide (is_Some (mo_published o !! id))) && negb (bool_decide (is_Some (mo_dead o !! id))).

Definition Pending (limit : Z) (o : MemoryOutbox) : list Event :=
  first_of limit (merge_sort occurs_before (ranged
    (map snd (List.filter (fun kv => is_pending o kv.1) (map_to_list (mo_events o)))))).

Definition MarkPublished (eventID : string) (publishedAt : Z) (o : MemoryOutbox) : res () * MemoryOutbox :=
  if negb (bool_decide (is_Some (mo_events o !! eventID))) then (Err ErrEventNotFound, o)
  else if bool_decide (is_Some (mo_published o !! eventID)) then (Ok (), o)
  else (Ok (), mk_MemoryOutbox (mo_events o) (<[eventID := publishedAt]> (mo_published o)) (mo_attempts o) (mo_dead o)).

Definition RecordFailure (eventID : string) (failedAt : Z) (_ : string) (maxAttempts : Z) (o : MemoryOutbox)
    : res bool * MemoryOutbox :=
  if maxAttempts <=? 0 then (Err ErrMaxAttempts, o)
  else if negb (bool_decide (is_Some (mo_events o !! eventID))) then (Err ErrEventNotFound, o)
  else if bool_decide (is_Some (mo_published o !! eventID)) then (Ok false, o)
  else if bool_decide (is_Some (mo_dead o !! eventID)) then (Ok true, o)
  else
    let n := (default 0 (mo_attempts o !! eventID) + 1)%i64 in
    let attempts := <[eventID := n]> (mo_attempts o) in
    if maxAttempts <=? n
    then (Ok true, mk_MemoryOutbox (mo_events o) (mo_published o) attempts (<[eventID := failedAt]> (mo_dead o)))
    else (Ok false, mk_MemoryOutbox (mo_events o) (mo_published o) attempts (mo_dead o)).

Definition outbox : Outbox MemoryOutbox := {|
  Outbox.Append := Append; Outbox.Pending := Pending;
  Outbox.MarkPublished := MarkPublished; Outbox.RecordFailure := RecordFailure |}.

End memory.

Definition empty : MemoryOutbox := mk_MemoryOutbox ∅ ∅ ∅ ∅.

End InMemory.

(** ** postgres_outbox.go *)

(** The column is a UUID: the driver reads the text of an identifier, and the
    database gives it back in the canonical text; [None] is a text that is no
    UUID. *)
Class UuidText := uuid_of : string -> option string.

Module InPostgres.

Definition ErrUuid : error := RaisedException "cannot parse UUID".

Section postgres.
Context `{UuidText}.

Definition read_uuid (id : string) : Tx string := lift (of_option ErrUuid (uuid_of id)).

Definition event_of (o : outbox_row) : Event :=
  mk_Event (ob_id o) (ob_event_type o) (ob_aggregate_type o) (ob_aggregate_id o) (ob_occurred_at o) (ob_payload o).

Definition has_id (id : string) (o : outbox_row) : bool := bool_decide (ob_id o = id).

Definition known (id : string) (db : DB) : bool := existsb (has_id id) (outbox db.(app)).

(** ON CONFLICT (id) DO NOTHING. *)
Definition insert_event (id : string) (event : Event) : Tx () := fun db =>
  if known id db then Ok ((), db)
  else Ok ((), set_app (set_outbox
    (mk_outbox id (ev_AggregateType event) (ev_AggregateID event) (ev_Type event) (ev_Payload event)
       (timestamptz (ev_OccurredAt event)) None 0 None None :: outbox db.(app)) db.(app)) db).

Definition Append (event : Event) : Tx () :=
  id ← read_uuid (ev_ID event);
  insert_event id event.

Definition unpublished (o : outbox_row) : bool := bool_decide (ob_published_at o = None).

Definition is_pending (o : outbox_row) : bool := unpublished o && bool_decide (ob_failed_at o = None).

(** ORDER BY occurred_at, id. *)
Definition outbox_order (x y : outbox_row) : Prop :=
  (ob_occurred_at x <? ob_occurred_at y) || (ob_occurred_at x =? ob_occurred_at y) && String.leb (ob_id x) (ob_id y) = true.

#[global] Instance outbox_order_dec x y : Decision (outbox_order x y) := bool_eq_dec _ _.

Definition Pending (limit : Z) (db : DB) : list Event :=
  first_of limit (map event_of (merge_sort outbox_order (List.filter is_pending (outbox db.(app))))).

(** UPDATE ... WHERE id = $1 AND [P]; the rows it found.  [attempts] is an
    INTEGER: a value out of its range is an error. *)
Definition int4_max : Z := 2147483647.

Definition update_outbox (id : string) (P : outbox_row -> bool) (f : outbox_row -> outbox_row) : Tx (list outbox_row) :=
  fun db =>
    let hit := List.filter (fun o => has_id id o && P o) (outbox db.(app)) in
    if existsb (fun o => int4_max <? ob_attempts (f o)) hit then Err RangeViolation
    else Ok (map f hit, set_app (set_outbox
      (map (fun o => if has_id id o && P o then f o else o) (outbox db.(app))) db.(app)) db).

Definition set_published (at_ : Z) (o : outbox_row) : outbox_row :=
  mk_outbox (ob_id o) (ob_aggregate_type o) (ob_aggregate_id o) (ob_event_type o) (ob_payload o) (ob_occurred_at o)
    (Some (timestamptz at_)) (ob_attempts o + 1) (ob_failed_at o) (ob_failure_reason o).

Definition set_failed (reason : string) (maxAttempts failedAt : Z) (o : outbox_row) : outbox_row :=
  mk_outbox (ob_id o) (ob_aggregate_type o) (ob_aggregate_id o) (ob_event_type o) (ob_payload o) (ob_occurred_at o)
    (ob_published_at o) (ob_attempts o + 1) (if maxAttempts <=? ob_attempts o + 1 then Some (timestamptz failedAt) else None)
    (Some reason).

Definition MarkPublished (eventID : string) (publishedAt : Z) : Tx () :=
  id ← read_uuid eventID;
  rows ← update_outbox id unpublished (set_published publishedAt);
  match rows with
  | _ :: _ => mret ()
  | [] => exists_ ← gets (known id); reject_if (negb exists_) ErrEventNotFound
  end.

(** A TEXT value is UTF-8 without zero bytes. *)
Fixpoint utf8 (fuel : nat) (l : bytes) : bool :=
  match fuel, l with
  | _, [] => true
  | O, _ => false
  | S fuel', c :: _ =>
      match rune_width l with
      | 1%nat => (0 <? code c) && (code c <? 128) && utf8 fuel' (drop 1 l)
      | n => utf8 fuel' (drop n l)
      end
  end.

Definition first_bytes (n : Z) (s : string) : string := b2s (take (Z.to_nat n) (s2b s)).

Definition storable (reason : string) : bool :=
  let kept := take 1024 (s2b reason) in utf8 (length kept) kept.

Definition RecordFailure (eventID : string) (failedAt : Z) (reason : string) (maxAttempts : Z) : Tx bool :=
  reject_if (maxAttempts <=? 0) ErrMaxAttempts;;
  id ← read_uuid eventID;
  reject_if (int4_max <? maxAttempts) RangeViolation;;
  let reason' := if 1024 <? str_len reason then first_bytes 1024 reason else reason in
  reject_if (negb (storable reason)) (RaisedException "invalid byte sequence for encoding UTF8");;
  rows ← update_outbox id is_pending (set_failed reason' maxAttempts failedAt);
  match rows with
  | o :: _ => mret (bool_decide (is_Some (ob_failed_at o)))
  | [] => exists_ ← gets (known id); reject_if (negb exists_) ErrEventNotFound;; mret false
  end.

#[global] Instance outbox : Outbox DB := {|
  Outbox.Append := fun e => atomically (Append e); Outbox.Pending := Pending;
  Outbox.MarkPublished := fun id at_ => atomically (MarkPublished id at_);
  Outbox.RecordFailure := fun id at_ reason n => atomically (RecordFailure id at_ reason n) |}.

End postgres.

End InPostgres.

(** ** The processor *)

Definition maxAttempts : Z := 5.

Section processor.
Context {S B : Type} `{Outbox S}.
(** [Publish] and its state; the text of an error. *)
Context (Publish : Event -> B -> option error * B) (Error : error -> string).

(** The range over the batch, from [published] on; [now] is [time.Now]. *)
Fixpoint publish_batch (now : Z) (batch : list Event) (published : Z) (s : S) (b : B) : (Z * option error) * S * B :=
  match batch with
  | [] => (published, None, s, b)
  | event :: rest =>
      match Publish event b with
      | (Some err, b') =>
          match RecordFailure (ev_ID event) now (Error err) maxAttempts s with
          | (Err recordErr, s') => (published, Some recordErr, s', b')
          | (Ok _, s') => (published, Some err, s', b')
          end
      | (None, b') =>
          match MarkPublished (ev_ID event) now s with
          | (Err err, s') => (published, Some err, s', b')
          | (Ok _, s') => publish_batch now rest (published + 1) s' b'
          end
      end
  end.

Definition ProcessPending (now limit : Z) (s : S) (b : B) : (Z * option error) * S * B :=
  publish_batch now (Pending limit s) 0 s b.

(** The inner loop of [RunLive]: batches of a hundred until one fails or is not
    full. *)
Fixpoint drain (fuel : nat) (now : Z) (s : S) (b : B) : option (option error * S * B) :=
  match fuel with
  | O => None
  | Datatypes.S fuel' =>
      let '((n, err), s', b') := ProcessPending now 100 s b in
      match err with
      | Some e => Some (Some e, s', b')
      | None => if n <? 100 then Some (None, s', b') else drain fuel' now s' b'
      end
  end.

End processor.
