(* ===== verification/Leaderboard.v ===== *)
(** * Leaderboards

    [application/leaderboard]: daily and weekly boards in China time, their
    refresh and freezing, the payment of the rewards, the reward rules and the
    queries (service.go).  [ILIKE] is an argument; a range over the rows of a
    query without ORDER BY follows the order of the table. *)

From S2P Require Import Prelude GoStrings Money Json Schema Store Agent.

Definition ErrInvalidPeriod : error := Sentinel "leaderboard.ErrInvalidPeriod".
Definition leaderboard_ErrInvalidCurrency : error := Sentinel "leaderboard.ErrInvalidCurrency".
Definition ErrInvalidRewardRules : error := Sentinel "leaderboard.ErrInvalidRewardRules".
Definition ErrRewardRuleConflict : error := Sentinel "leaderboard.ErrRewardRuleConflict".

Record Reward : Type := mk_Reward {
  rd_Currency : string;
  rd_AmountMinor : Z
}.

(** [Entry]: the formatted amounts are empty where formatting fails. *)
Record BoardEntry : Type := mk_BoardEntry {
  en_TotalPayoutMinor : option Z;
  en_NetWinMinor : option Z;
  en_AvailableMinor : option Z;
  en_TotalBet : string;
  en_TotalPayout : option string;
  en_NetWin : option string;
  en_Available : option string;
  en_FirstBetAt : Z;
  en_Rank : Z;
  en_UserID : Z;
  en_DisplayName : string;
  en_AvatarURL : string;
  en_IsVirtual : bool;
  en_EffectiveStakeMinor : Z;
  en_Reward : option Reward
}.

Record Board : Type := mk_Board {
  bo_Self : option BoardEntry;
  bo_Decimals : Z;
  bo_Period : string;
  bo_PeriodType : string;
  bo_Currency : string;
  bo_StartsAt : Z;
  bo_EndsAt : Z;
  bo_Status : string;
  bo_RefreshedAt : option Z;
  bo_Items : list BoardEntry
}.

Record RewardRule : Type := mk_RewardRule {
  rr_RankFrom : Z;
  rr_RankTo : Z;
  rr_RewardCurrency : string;
  rr_RewardMinor : Z;
  rr_Enabled : bool
}.

Record RewardRuleSet : Type := mk_RuleSet {
  rs_PeriodType : string;
  rs_Currency : string;
  rs_Version : Z;
  rs_Rules : list RewardRule
}.

Record RewardDistribution : Type := mk_RewardDistribution {
  rx_ID : string;
  rx_PeriodType : string;
  rx_StartsAt : Z;
  rx_EndsAt : Z;
  rx_Currency : string;
  rx_UserID : Z;
  rx_DisplayName : string;
  rx_Rank : Z;
  rx_RewardCurrency : string;
  rx_RewardMinor : Z;
  rx_PaidAt : Z
}.

(** ** Periods *)

Definition board_day_ns : Z := 86400000000000.

(** Start and end, in China time. *)
Definition periodBounds (kind : string) (at_ : Z) : Z * Z :=
  let start := shanghai_midnight at_ in
  if bool_decide (kind = "weekly"%string)
  then let start := start - days_since_monday start * board_day_ns in (start, start + 7 * board_day_ns)
  else (start, start + board_day_ns).

Definition period_of (kind : string) (start : Z) (_ : string) (p : period_row) : bool :=
  bool_decide (pd_period_type p = kind) && (pd_starts_at p =? start).

Definition bet_in_period (p : period_row) (b : bet_row) : bool :=
  (pd_starts_at p <=? bt_created_at b) && (bt_created_at b <? pd_ends_at p).

Section leaderboard.
Context `{Uuids}.

Definition insert_period (t : clock) (kind : string) (start end_ : Z) : Tx () :=
  id ← new_uuid;
  made ← insert_unless (period_of kind start "") id (mk_period_row kind start end_ "running" (sql_now t) None);
  mret ().

(** ** Refreshing a board *)

(** The bets that count: decided, and paid more than they staked. *)
Definition winning_bet (p : period_row) (b : bet_row) : bool :=
  bool_decide (bt_status b ∈ ["won"; "lost"]%string) && (bt_stake_minor b <? bt_payout_minor b) && bet_in_period p b.

(** The joins: the currency of the wallet and the user. *)
Definition board_key (db : DB) (b : bet_row) : option (string * string) :=
  w ← wallets db.(money) !! bt_wallet_id b;
  u ← users db.(app) !! bt_user_id b;
  Some (w_currency w, bt_user_id b).

Definition counted_bets (p : period_row) (db : DB) : list bet_row :=
  List.filter (winning_bet p) (map snd (map_to_list (bets db.(app)))).

Definition bets_of (p : period_row) (db : DB) (key : string * string) : list bet_row :=
  List.filter (fun b => bool_decide (board_key db b = Some key)) (counted_bets p db).

Definition board_keys (p : period_row) (db : DB) : list (string * string) :=
  remove_dups (omap (board_key db) (counted_bets p db)).

(** [min] and [max] over the rows of a group, which is not empty. *)
Definition smallest (l : list Z) : Z := match l with [] => 0 | x :: r => foldr Z.min x r end.
Definition largest (l : list Z) : Z := match l with [] => 0 | x :: r => foldr Z.max x r end.

Definition available_in (db : DB) (b : bet_row) : Z := from_option w_available 0 (wallets db.(money) !! bt_wallet_id b).

(** One row of the INSERT; a sum that a BIGINT cannot hold is an error. *)
Definition board_entry (p : period_row) (db : DB) (key : string * string) : res board_row :=
  let group := bets_of p db key in
  stake ← sum_scan (map bt_stake_minor group);
  payout ← sum_scan (map bt_payout_minor group);
  u ← of_option ErrNoRows (users db.(app) !! key.2);
  Ok (mk_board_row (u_public_id u) (u_display_name u) (default ""%string (u_avatar_url u)) (u_is_virtual u) stake
        (smallest (map bt_created_at group)) None (Some payout) (Some (largest (map (available_in db) group)))).

Definition put_entry (k : string * string * string) (e : board_row) (db : DB) : DB :=
  set_app (set_leaderboard_entries (<[k := e]> (leaderboard_entries db.(app))) db.(app)) db.

Fixpoint insert_entries (id : string) (p : period_row) (keys : list (string * string)) : Tx () :=
  match keys with
  | [] => mret ()
  | key :: rest =>
      db ← gets Datatypes.id;
      e ← lift (board_entry p db key);
      modify (put_entry (id, key.1, key.2) e);;
      insert_entries id p rest
  end.

(** The entries of a board, and the order of its ranks. *)
Definition board_of (id currency : string) (db : DB) : list (string * string * string * board_row) :=
  List.filter (fun kv => bool_decide (kv.1.1 = (id, currency))) (map_to_list (leaderboard_entries db.(app))).

Definition net_win (e : board_row) : Z := default 0 (lb_total_payout_minor e) - lb_effective_stake_minor e.

(** (total_payout_minor-effective_stake_minor) DESC, first_effective_at,
    public_user_id. *)
Definition board_before (x y : string * string * string * board_row) : Prop :=
  (net_win y.2 <? net_win x.2) ||
  (net_win x.2 =? net_win y.2) &&
    ((lb_first_effective_at x.2 <? lb_first_effective_at y.2) ||
     (lb_first_effective_at x.2 =? lb_first_effective_at y.2) && (lb_public_user_id x.2 <=? lb_public_user_id y.2)) = true.

#[export] Instance board_before_dec x y : Decision (board_before x y) := bool_eq_dec _ _.

Definition set_rank (r : Z) (e : board_row) : board_row :=
  mk_board_row (lb_public_user_id e) (lb_display_name e) (lb_avatar_url e) (lb_is_virtual e) (lb_effective_stake_minor e)
    (lb_first_effective_at e) (Some r) (lb_total_payout_minor e) (lb_available_minor e).

(** row_number() over one board, from [r] on. *)
Fixpoint number_from (r : Z) (l : list (string * string * string * board_row)) (db : DB) : DB :=
  match l with
  | [] => db
  | (k, e) :: rest => number_from (r + 1) rest (put_entry k (set_rank r e) db)
  end.

Definition rank_board (id currency : string) (db : DB) : DB :=
  number_from 1 (merge_sort board_before (board_of id currency db)) db.

Definition board_currencies (id : string) (db : DB) : list string :=
  group_keys (map (fun kv => kv.1.1.2)
    (List.filter (fun kv => bool_decide (kv.1.1.1 = id)) (map_to_list (leaderboard_entries db.(app))))).

Definition set_refreshed (at_ : Z) (p : period_row) : period_row :=
  mk_period_row (pd_period_type p) (pd_starts_at p) (pd_ends_at p) (pd_status p) at_ (pd_frozen_at p).

Definition clear_entries (id : string) (db : DB) : DB :=
  set_app (set_leaderboard_entries (filter (fun kv => kv.1.1.1 <> id) (leaderboard_entries db.(app))) db.(app)) db.

Definition refreshPeriod (t : clock) (kind : string) (start : Z) : Tx () :=
  p ← select_where (R := period_row) (period_of kind start);
  kv ← found ErrNoRows p;
  let '(id, period) := kv in
  if bool_decide (pd_status period = "frozen"%string) then mret ()
  else
    modify (clear_entries id);;
    keys ← gets (board_keys period);
    insert_entries id period keys;;
    modify (fun db => foldl (fun d c => rank_board id c d) db (board_currencies id db));;
    n ← update_row (R := period_row) id (set_refreshed (sql_now t));
    mret ().

(** ** Paying a board *)

(** The range of a rule. *)
Definition covers (kind currency : string) (rank : Z) (r : reward_rule_row) : bool :=
  bool_decide (rw_period_type r = kind) && bool_decide (rw_currency r = currency) && (rw_rank_from r <=? rank) &&
  (rank <=? rw_rank_to r) && rw_enabled r.

(** to_jsonb(r)||jsonb_build_object('version',v.version). *)
Definition rule_snapshot (id : string) (r : reward_rule_row) (version : option Z) : json :=
  JObj [("id", JStr id); ("period_type", JStr (rw_period_type r)); ("currency", JStr (rw_currency r));
        ("rank_from", JInt (rw_rank_from r)); ("rank_to", JInt (rw_rank_to r));
        ("reward_currency", JStr (rw_reward_currency r)); ("reward_minor", JInt (rw_reward_minor r));
        ("enabled", JBool (rw_enabled r)); ("version", from_option JInt JNull version)]%string.

Record reward_due : Type := mk_due {
  du_user : string;
  du_currency : string;
  du_rank : Z;
  du_rewardCurrency : string;
  du_amount : Z;
  du_periodID : string;
  du_snapshot : json
}.

Definition rewards_due (kind : string) (start : Z) (db : DB) : list reward_due :=
  match find_row (period_of kind start) (leaderboard_periods db.(app)) with
  | None => []
  | Some (id, p) =>
      flat_map (fun kv : string * string * string * board_row =>
        match lb_rank kv.2 with
        | None => []
        | Some rank =>
            map (fun r : string * reward_rule_row =>
              mk_due kv.1.2 kv.1.1.2 rank (rw_reward_currency r.2) (rw_reward_minor r.2) id
                (rule_snapshot r.1 r.2 (leaderboard_reward_rule_versions db.(app) !! (kind, kv.1.1.2))))
              (List.filter (fun r => covers kind kv.1.1.2 rank r.2) (map_to_list (leaderboard_reward_rules db.(app))))
        end)
        (List.filter (fun kv => bool_decide (kv.1.1.1 = id)) (map_to_list (leaderboard_entries db.(app))))
  end.

Definition distributed (d : reward_due) (_ : string) (x : distribution_row) : bool :=
  bool_decide (di_period_id x = du_periodID d) && bool_decide (di_leaderboard_currency x = du_currency d) &&
  bool_decide (di_user_id x = du_user d).

Definition reward_entry (id wallet distribution : string) (amount after : Z) : ledger_insert :=
  mk_entry id wallet "leaderboard_reward" distribution "leaderboard_reward_credit" amount after None 0 "排行榜奖励" None None.

(** CHECK (rank > 0) and CHECK (reward_minor > 0). *)
Definition insert_distribution (id : string) (d : reward_due) (now : Z) : Tx () :=
  reject_if ((du_rank d <=? 0) || (du_amount d <=? 0)) (CheckViolation "leaderboard_reward_distributions");;
  insert_row (R := distribution_row) (distributed d "") id
    (mk_distribution_row (du_periodID d) (du_currency d) (du_user d) (du_rank d) (du_rewardCurrency d) (du_amount d) now
       (du_snapshot d)).

(** The values of the event's payload reach [jsonb_build_object], which takes
    arguments of any type, as parameters without a type.  [any_typed] is
    whether the server gives them one; PostgreSQL refuses the statement. *)
Variable any_typed : bool.

Definition ErrIndeterminate : error := RaisedException "could not determine data type of parameter $3".

Definition pay (t : clock) (d : reward_due) : Tx () :=
  known ← select_where (R := distribution_row) (distributed d);
  match known with
  | Some _ => mret ()
  | None =>
      newID ← new_uuid;
      made ← insert_wallet newID (du_user d) (du_rewardCurrency d) (sql_now t);
      w ← find_wallet (du_user d) (du_rewardCurrency d);
      wallet ← found ErrNoRows w;
      let balance := (w_available wallet.2 + du_amount d)%i64 in
      update_wallet wallet.1 (fun _ => balance) w_frozen (sql_now t);;
      distributionID ← new_uuid;
      insert_distribution distributionID d (sql_now t);;
      entryID ← new_uuid;
      insert_ledger (reward_entry entryID wallet.1 distributionID (du_amount d) balance) (sql_now t);;
      eventID ← new_uuid;
      reject_if (negb any_typed) ErrIndeterminate;;
      insert_outbox eventID "leaderboard_reward" distributionID "wallet.leaderboard_reward.paid"
        (JObj [("user_id", JStr (du_user d)); ("currency", JStr (du_rewardCurrency d)); ("amount_minor", JInt (du_amount d))]%string)
        (sql_now t)
  end.

Fixpoint pay_all_due (t : clock) (l : list reward_due) : Svc () :=
  match l with
  | [] => mret ()
  | d :: rest => atomically (pay t d);; pay_all_due t rest
  end.

Definition payPeriod (t : clock) (kind : string) (start : Z) : Svc () :=
  due ← atomically (gets (rewards_due kind start));
  pay_all_due t due.

(** ** Refreshing every board *)

Definition set_frozen (at_ : Z) (p : period_row) : period_row :=
  mk_period_row (pd_period_type p) (pd_starts_at p) (pd_ends_at p) "frozen" (pd_refreshed_at p) (Some at_).

Definition is_running (kind : string) (start : Z) (id : string) (p : period_row) : bool :=
  period_of kind start id p && bool_decide (pd_status p = "running"%string).

(** Periods of [kind] that have ended and still run, oldest first. *)
Definition ended_running (kind : string) (at_ : Z) (db : DB) : list Z :=
  merge_sort Z.le (map (fun kv => pd_starts_at kv.2)
    (List.filter (fun kv => bool_decide (pd_period_type kv.2 = kind) && bool_decide (pd_status kv.2 = "running"%string) &&
                            (pd_ends_at kv.2 <=? at_)) (map_to_list (leaderboard_periods db.(app))))).

(** The bets of a period that are not decided. *)
Definition pending_bets (kind : string) (start : Z) (db : DB) : Z :=
  match find_row (period_of kind start) (leaderboard_periods db.(app)) with
  | None => 0
  | Some (_, p) => Z.of_nat (length (List.filter (fun b => bool_decide (bt_status b = "accepted"%string) && bet_in_period p b)
                                       (map snd (map_to_list (bets db.(app))))))
  end.

Definition freeze_one (t : clock) (kind : string) (start : Z) : Svc () :=
  atomically (refreshPeriod t kind start);;
  atomically (update_where (R := period_row) (is_running kind start) (set_frozen (sql_now t)));;
  payPeriod t kind start.

Fixpoint freeze_ended (t : clock) (kind : string) (starts : list Z) : Svc () :=
  match starts with
  | [] => mret ()
  | start :: rest =>
      pending ← atomically (gets (pending_bets kind start));
      if 0 <? pending then freeze_ended t kind rest
      else
        freeze_one t kind start;;
        freeze_ended t kind rest
  end.

Definition refresh_kind (t : clock) (at_ : Z) (kind : string) : Svc () :=
  let '(start, end_) := periodBounds kind at_ in
  atomically (insert_period t kind start end_);;
  atomically (refreshPeriod t kind start);;
  starts ← atomically (gets (ended_running kind at_));
  freeze_ended t kind starts.

Definition Refresh (t : clock) (at_ : Z) : Svc () :=
  refresh_kind t at_ "daily";;
  refresh_kind t at_ "weekly".

(** ** Queries *)

Definition or_empty (r : res string) : string := match r with Ok s => s | Err _ => "" end.

(** The reward that was paid, or the one the rules promise: the two columns
    are chosen one by one. *)
Definition shown_reward (kind : string) (k : string * string * string) (e : board_row) (db : DB) : option Reward :=
  let d := snd <$> find_row (fun _ x => bool_decide (di_period_id x = k.1.1) && bool_decide (di_leaderboard_currency x = k.1.2) &&
                                       bool_decide (di_user_id x = k.2)) (leaderboard_reward_distributions db.(app)) in
  let r := snd <$> (rank ← lb_rank e; find_row (fun _ r => covers kind k.1.2 rank r) (leaderboard_reward_rules db.(app))) in
  match d, r with
  | Some d, _ => Some (mk_Reward (di_reward_currency d) (di_reward_minor d))
  | None, Some r => Some (mk_Reward (rw_reward_currency r) (rw_reward_minor r))
  | None, None => None
  end.

Definition shown_entry (decimals : Z) (kind : string) (k : string * string * string) (rank : Z) (e : board_row) (db : DB)
    : BoardEntry :=
  let format := fun n => or_empty (FormatDisplayAmount n decimals) in
  let net := option_map (fun p => (p - lb_effective_stake_minor e)%i64) (lb_total_payout_minor e) in
  mk_BoardEntry (lb_total_payout_minor e) net (lb_available_minor e) (format (lb_effective_stake_minor e))
    (option_map format (lb_total_payout_minor e)) (option_map format net) (option_map format (lb_available_minor e))
    (lb_first_effective_at e) rank (lb_public_user_id e) (lb_display_name e) (lb_avatar_url e) (lb_is_virtual e)
    (lb_effective_stake_minor e) (shown_reward kind k e db).

(** The period a name stands for: its kind and how many days back. *)
Definition named_period (period : string) : option (string * Z) :=
  if bool_decide (period = "today"%string) then Some ("daily"%string, 0)
  else if bool_decide (period = "yesterday"%string) then Some ("daily"%string, -1)
  else if bool_decide (period = "this_week"%string) then Some ("weekly"%string, 0)
  else if bool_decide (period = "last_week"%string) then Some ("weekly"%string, -7)
  else None.

Definition rank_order (x y : Z * (string * string * string * board_row)) : Prop := x.1 <= y.1.

#[export] Instance rank_order_dec x y : Decision (rank_order x y) := Z_le_dec _ _.

(** A rank that is NULL is neither within the limit nor scanned into an int. *)
Definition ListForUser (t : clock) (period currency : string) (limit : Z) (userID : string) : Tx Board :=
  let currency := ToUpper (TrimSpace currency) in
  reject_if (bool_decide (currency = ""%string)) leaderboard_ErrInvalidCurrency;;
  ks ← found ErrInvalidPeriod (named_period period);
  let '(kind, shift) := ks in
  let '(start, end_) := periodBounds kind (go_now t) in
  let start := start + shift * board_day_ns in
  let end_ := end_ + shift * board_day_ns in
  let limit := if (limit <? 1) || (100 <? limit) then 50 else limit in
  c ← select_id (R := currency_row) currency;
  cur ← found leaderboard_ErrInvalidCurrency c;
  p ← select_where (R := period_row) (period_of kind start);
  match p with
  | None => mret (mk_Board None (cur_decimals cur) period kind currency start end_ "running" None [])
  | Some (id, row) =>
      entries ← gets (board_of id currency);
      db ← gets Datatypes.id;
      let chosen := List.filter (fun kv => from_option (fun r => r <=? limit) false (lb_rank kv.2) ||
                                          bool_decide (kv.1.2 = userID)) entries in
      reject_if (existsb (fun kv => bool_decide (lb_rank kv.2 = None)) chosen) (RaisedException "cannot scan NULL into *int");;
      let ranked := merge_sort rank_order (map (fun kv => (default 0 (lb_rank kv.2), kv)) chosen) in
      let shown := map (fun x => (x.2.1.2, shown_entry (cur_decimals cur) kind x.2.1 x.1 x.2.2 db)) ranked in
      mret (mk_Board (snd <$> List.find (fun x => bool_decide (x.1 = userID)) shown) (cur_decimals cur) period kind currency
              start end_ (pd_status row) (Some (pd_refreshed_at row))
              (List.filter (fun e => en_Rank e <=? limit) (map snd shown)))
  end.

Definition board_List (t : clock) (period currency : string) (limit : Z) : Tx Board := ListForUser t period currency limit "".

(** ** The reward rules *)

Definition rule_set (kind currency : string) (r : reward_rule_row) : bool :=
  bool_decide (rw_period_type r = kind) && bool_decide (rw_currency r = currency).

Definition from_order (x y : RewardRule) : Prop := rr_RankFrom x <= rr_RankFrom y.

#[export] Instance from_order_dec x y : Decision (from_order x y) := Z_le_dec _ _.

Definition rule_of (r : reward_rule_row) : RewardRule :=
  mk_RewardRule (rw_rank_from r) (rw_rank_to r) (rw_reward_currency r) (rw_reward_minor r) (rw_enabled r).

Definition known_kind (kind : string) : bool := bool_decide (kind ∈ ["daily"; "weekly"]%string).

Definition GetRules (kind currency : string) : Tx RewardRuleSet :=
  let currency := ToUpper (TrimSpace currency) in
  reject_if (negb (known_kind kind) || bool_decide (currency = ""%string)) ErrInvalidRewardRules;;
  version ← gets (fun db => leaderboard_reward_rule_versions db.(app) !! (kind, currency));
  rows ← select_all (R := reward_rule_row) (fun _ => rule_set kind currency);
  mret (mk_RuleSet kind currency (default 0 version) (merge_sort from_order (map (fun kv => rule_of kv.2) rows))).

(** Each range begins after the one before it ends. *)
Fixpoint ranges_valid (last : Z) (rules : list RewardRule) : bool :=
  match rules with
  | [] => true
  | r :: rest =>
      negb ((rr_RankFrom r <=? last) || (rr_RankTo r <? rr_RankFrom r) ||
            bool_decide (TrimSpace (rr_RewardCurrency r) = ""%string) || (rr_RewardMinor r <=? 0)) &&
      ranges_valid (rr_RankTo r) rest
  end.

Definition validateRules (s : RewardRuleSet) : res () :=
  fail_if (negb (known_kind (rs_PeriodType s)) || bool_decide (rs_Currency s = ""%string) || (rs_Version s <? 0))
    ErrInvalidRewardRules;;
  fail_if (negb (ranges_valid 0 (rs_Rules s))) ErrInvalidRewardRules.

(** UNIQUE(period_type, currency, rank_from, rank_to), and the exclusion of
    overlapping ranges among the enabled rules. *)
Definition rule_conflict (a b : reward_rule_row) : bool :=
  rule_set (rw_period_type a) (rw_currency a) b &&
  ((rw_rank_from a =? rw_rank_from b) && (rw_rank_to a =? rw_rank_to b) ||
   rw_enabled a && rw_enabled b && (rw_rank_from a <=? rw_rank_to b) && (rw_rank_from b <=? rw_rank_to a)).

(** The ranks are INTEGERs and both currencies exist. *)
Definition insert_rule (kind currency : string) (r : RewardRule) : Tx () :=
  let row := mk_reward_rule_row kind currency (rr_RankFrom r) (rr_RankTo r) (ToUpper (TrimSpace (rr_RewardCurrency r)))
               (rr_RewardMinor r) (rr_Enabled r) in
  reject_if ((2147483647 <? rr_RankFrom r) || (2147483647 <? rr_RankTo r)) RangeViolation;;
  known ← gets (fun db => bool_decide (is_Some (currencies db.(app) !! currency)) &&
                          bool_decide (is_Some (currencies db.(app) !! rw_reward_currency row)));
  reject_if (negb known) (ForeignKeyViolation "leaderboard_reward_rules");;
  id ← new_uuid;
  insert_row (rule_conflict row) id row.

Fixpoint insert_rules (kind currency : string) (rules : list RewardRule) : Tx () :=
  match rules with
  | [] => mret ()
  | r :: rest => insert_rule kind currency r;; insert_rules kind currency rest
  end.

Definition set_version (kind currency : string) (v : Z) (db : DB) : DB :=
  set_app (set_leaderboard_reward_rule_versions
    (<[(kind, currency) := v]> (leaderboard_reward_rule_versions db.(app))) db.(app)) db.

(** The version of the set is taken and replaced by the next. *)
Definition bump_version (kind currency : string) (given : Z) : Tx Z :=
  v ← gets (fun db => leaderboard_reward_rule_versions db.(app) !! (kind, currency));
  match v with
  | None =>
      reject_if (negb (given =? 0)) ErrRewardRuleConflict;;
      known ← gets (fun db => bool_decide (is_Some (currencies db.(app) !! currency)));
      reject_if (negb known) (ForeignKeyViolation "leaderboard_version_currency_fk");;
      modify (set_version kind currency 1);;
      mret 1
  | Some v =>
      reject_if (negb (v =? given)) ErrRewardRuleConflict;;
      reject_if (v =? int64_max) RangeViolation;;
      modify (set_version kind currency (v + 1));;
      mret (v + 1)
  end.

Definition clear_rules (kind currency : string) (db : DB) : DB :=
  set_app (set_leaderboard_reward_rules
    (filter (fun kv => rule_set kind currency kv.2 = false) (leaderboard_reward_rules db.(app))) db.(app)) db.

Definition normalize_rules (s : RewardRuleSet) : RewardRuleSet :=
  mk_RuleSet (ToLower (TrimSpace (rs_PeriodType s))) (ToUpper (TrimSpace (rs_Currency s))) (rs_Version s) (rs_Rules s).

Definition ReplaceRules (s : RewardRuleSet) : Tx RewardRuleSet :=
  let s := normalize_rules s in
  lift (validateRules s);;
  v ← bump_version (rs_PeriodType s) (rs_Currency s) (rs_Version s);
  modify (clear_rules (rs_PeriodType s) (rs_Currency s));;
  insert_rules (rs_PeriodType s) (rs_Currency s) (rs_Rules s);;
  mret (mk_RuleSet (rs_PeriodType s) (rs_Currency s) v (rs_Rules s)).

(** ** Distributions *)

Record DistributionQuery : Type := mk_DistributionQuery {
  dq_PeriodType : string;
  dq_Currency : string;
  dq_User : string;
  dq_Limit : Z;
  dq_Offset : Z
}.

Definition paid_order (x y : string * distribution_row) : Prop := di_paid_at y.2 <= di_paid_at x.2.

#[export] Instance paid_order_dec x y : Decision (paid_order x y) := Z_le_dec _ _.

Definition ListDistributions (ilike : string -> string -> bool) (q : DistributionQuery) : Tx (list RewardDistribution) :=
  let limit := if (dq_Limit q <? 1) || (200 <? dq_Limit q) then 50 else dq_Limit q in
  let offset := if dq_Offset q <? 0 then 0 else dq_Offset q in
  db ← gets Datatypes.id;
  let currency := ToUpper (dq_Currency q) in
  let shown := omap (fun kv : string * distribution_row =>
    p ← leaderboard_periods db.(app) !! di_period_id kv.2;
    u ← users db.(app) !! di_user_id kv.2;
    if (bool_decide (dq_PeriodType q = ""%string) || bool_decide (pd_period_type p = dq_PeriodType q)) &&
       (bool_decide (currency = ""%string) || bool_decide (di_leaderboard_currency kv.2 = currency)) &&
       (bool_decide (dq_User q = ""%string) || bool_decide (FormatInt (u_public_id u) = dq_User q) ||
        from_option (fun name => ilike name ("%" ++ dq_User q ++ "%")%string) false (u_login_name u))
    then Some (mk_RewardDistribution kv.1 (pd_period_type p) (pd_starts_at p) (pd_ends_at p) (di_leaderboard_currency kv.2)
                 (u_public_id u) (u_display_name u) (di_rank kv.2) (di_reward_currency kv.2) (di_reward_minor kv.2) (di_paid_at kv.2))
    else None)
    (merge_sort paid_order (map_to_list (leaderboard_reward_distributions db.(app)))) in
  mret (take (Z.to_nat limit) (drop (Z.to_nat offset) shown)).

End leaderboard.
