(* ===== verification/Scheduler.v ===== *)
(** * The round scheduler

    [domain/game]: the PostgreSQL repository of the rounds (postgres.go) and
    their activation (activation.go).  Times are nanoseconds since 1970. *)

From S2P Require Import Prelude GoStrings Json Game Schema Store.
From S2P Require Import Settlement Betting.

Definition second_ns : Z := 1000000000.

(** [time.Minute]. *)
Definition kline_cycle : Z := 60000000000.

(** [time.Duration(n) * time.Second]. *)
Definition seconds (n : Z) : Z := (n * second_ns)%i64.

Definition nextTronTarget (currentHeight interval : Z) : Z :=
  if (currentHeight <=? 0) || (interval <=? 0) then 0
  else (((currentHeight / interval)%i64 + 1)%i64 * interval)%i64.

(** ** What is scheduled *)

Record scheduledType : Type := mk_scheduledType {
  st_id : string;
  st_interval : Z;
  st_source : string;
  st_closeBefore : Z
}.

Definition room_is_enabled (room : string) (db : DB) : bool :=
  from_option gr_enabled false (game_rooms db.(app) !! room).

(** A game type has an enabled room, its own or a shared one. *)
Definition has_room (id : string) (g : game_type_row) (db : DB) : bool :=
  match gt_room_id g with Some room => room_is_enabled room db | None => false end ||
  existsb (fun rt => bool_decide (rt.2 = id) && room_is_enabled rt.1 db) (game_room_types db.(app)).

Definition source_of (g : game_type_row) : option string := jtext "source" (gt_rules g).

Definition schedulable (id : string) (g : game_type_row) (db : DB) : bool :=
  gt_enabled g && has_room id g db &&
  (bool_decide (source_of g = Some "tron_hash"%string) &&
     match gt_block_interval g with Some n => 0 <? n | None => false end ||
   bool_decide (source_of g = Some "okx_kline"%string)).

Definition by_code (x y : string * game_type_row) : Prop := str_le (gt_code x.2) (gt_code y.2).

#[export] Instance by_code_dec x y : Decision (by_code x y) := str_le_dec _ _.

Definition scheduled_types (db : DB) : list scheduledType :=
  map (fun kv => mk_scheduledType kv.1 (default 0 (gt_block_interval kv.2)) (default ""%string (source_of kv.2))
                   (seconds (gt_close_before_seconds kv.2)))
    (merge_sort by_code (List.filter (fun kv => schedulable kv.1 kv.2 db) (map_to_list (game_types db.(app))))).

Definition is_tron (item : scheduledType) : bool := bool_decide (st_source item = "tron_hash"%string).

Definition cycle_of (item : scheduledType) : Z :=
  if is_tron item then seconds (st_interval item * 3)%i64 else kline_cycle.

Definition rounds_of (gameType : string) (db : DB) : list round_row :=
  map snd (List.filter (fun kv => bool_decide (rd_game_type_id kv.2 = gameType)) (map_to_list (rounds db.(app)))).

Definition max_of (l : list Z) : option Z :=
  foldr (fun x m => Some (match m with Some y => Z.max x y | None => x end)) None l.

(** [COALESCE(max(sequence),0),max(result_at)]. *)
Definition last_sequence (gameType : string) (db : DB) : Z :=
  default 0 (max_of (map rd_sequence (rounds_of gameType db))).

Definition last_result (gameType : string) (db : DB) : option Z :=
  max_of (map rd_result_at (rounds_of gameType db)).

(** The first sequence and result time to prepare; [None] skips the game.  A
    zero [tronBlockAt] is [None]. *)
Definition first_slot (now tronHeight : Z) (tronBlockAt : option Z) (item : scheduledType)
    (lastSequence : Z) (lastResult : option Z) : option (Z * Z) :=
  let cycle := cycle_of item in
  let close := st_closeBefore item in
  if is_tron item then
    if tronHeight <=? 0 then None
    else
      let interval := st_interval item in
      let target := nextTronTarget tronHeight interval in
      let sequence := if target <=? lastSequence then (lastSequence + interval)%i64 else target in
      let reference := default now tronBlockAt in
      let result := reference + seconds ((sequence - tronHeight)%i64 * 3)%i64 in
      if result - close <=? now then Some ((sequence + interval)%i64, result + cycle)
      else Some (sequence, result)
  else
    let sequence := (lastSequence + 1)%i64 in
    let result := now - now mod kline_cycle + kline_cycle in
    let result := if result - close <=? now then result + kline_cycle else result in
    match lastResult with
    | Some last =>
        let result := last + cycle in
        if result - close <=? now then
          let skipped := (Z.quot (now - (result - close)) cycle + 1)%i64 in
          Some ((sequence + skipped)%i64, result + (skipped * cycle)%i64)
        else Some (sequence, result)
    | None => Some (sequence, result)
    end.

Definition is_future (now : Z) (gameType : string) (r : round_row) : bool :=
  bool_decide (rd_game_type_id r = gameType) && unfinished r && (now <? rd_result_at r).

Definition future_count (now : Z) (gameType : string) (db : DB) : Z :=
  Z.of_nat (length (List.filter (fun kv => is_future now gameType kv.2) (map_to_list (rounds db.(app))))).

Definition step_of (item : scheduledType) : Z := if is_tron item then st_interval item else 1.

Definition new_round (item : scheduledType) (sequence result : Z) : round_row :=
  mk_round_row (st_id item) sequence RoundScheduled (result - st_closeBefore item) result None None 0.

Definition same_round_slot (r x : round_row) : bool :=
  bool_decide (rd_game_type_id x = rd_game_type_id r) && (rd_sequence x =? rd_sequence r).

(** The event a round transition leaves. *)
Definition round_payload (roundID : string) : json := JObj [("round_id", JStr roundID)]%string.

Definition prior_unfinished (r : round_row) (db : DB) : bool :=
  unfinished_round (fun prior target => prior <? target) r db.

(** A round that may be opened at [now]. *)
Definition activates (now : Z) (db : DB) (r : round_row) : bool :=
  bool_decide (rd_status r = RoundScheduled) && (now <? rd_bet_closes_at r) &&
  from_option gt_enabled false (game_types db.(app) !! rd_game_type_id r) &&
  negb (prior_unfinished r db).

(** UPDATE rounds SET status, version = version + 1 WHERE, over one snapshot. *)
Definition update_rounds (choose : string -> round_row -> bool) (status : RoundStatus) (db : DB) : DB :=
  set_app (set_rounds (map_imap (fun id r => Some (if choose id r then set_round status r else r))
                         (rounds db.(app))) db.(app)) db.

Definition activateScheduledRounds (now : Z) : Tx () :=
  modify (fun db => update_rounds (fun _ => activates now db) RoundOpen db).

Definition ActivateScheduledRounds (now : Z) : Tx () := activateScheduledRounds now.

Section scheduler.
Context `{Uuids}.

(** Insert rounds until there are three ahead. *)
Fixpoint fill_rounds (fuel : nat) (item : scheduledType) (futureCount sequence result created : Z) : Tx Z :=
  if futureCount <? 3 then
    match fuel with
    | O => raise (Sentinel "out of fuel")
    | S fuel' =>
        id ← new_uuid;
        inserted ← insert_unless (same_round_slot (new_round item sequence result)) id
          (new_round item sequence result);
        fill_rounds fuel' item (if inserted : bool then futureCount + 1 else futureCount)
          (sequence + step_of item)%i64 (result + cycle_of item)
          (if inserted : bool then created + 1 else created)
    end
  else mret created.

(** Every conflict of the loop is with another round of the table. *)
Definition fill_fuel (db : DB) : nat := size (rounds db.(app)) + 3.

Fixpoint schedule_types (now tronHeight : Z) (tronBlockAt : option Z) (items : list scheduledType) (created : Z)
    : Tx Z :=
  match items with
  | [] => mret created
  | item :: rest =>
      slot ← gets (fun db => first_slot now tronHeight tronBlockAt item (last_sequence (st_id item) db)
                               (last_result (st_id item) db));
      match slot with
      | None => schedule_types now tronHeight tronBlockAt rest created
      | Some (sequence, result) =>
          futureCount ← gets (future_count now (st_id item));
          fuel ← gets fill_fuel;
          created' ← fill_rounds fuel item futureCount sequence result created;
          schedule_types now tronHeight tronBlockAt rest created'
      end
  end.

Definition EnsureScheduledRounds (now tronHeight : Z) (tronBlockAt : option Z) : Tx Z :=
  types ← gets scheduled_types;
  created ← schedule_types now tronHeight tronBlockAt types 0;
  activateScheduledRounds now;;
  mret created.

(** ** Transitions *)

Definition repository_BeginSettlement (t : clock) (roundID : string) : Tx () :=
  o ← select_id (R := round_row) roundID;
  round ← found game_ErrRoundNotFound o;
  reject_if (negb (bool_decide (rd_status round = RoundClosed))) ErrInvalidTransition;;
  n ← update_row (R := round_row) roundID (set_round RoundSettling);
  id ← new_uuid;
  insert_outbox id "round" roundID "game.round.settling" (round_payload roundID) (sql_now t).

Definition closes_before (x y : string * round_row) : Prop :=
  (rd_bet_closes_at x.2 <? rd_bet_closes_at y.2) ||
  (rd_bet_closes_at x.2 =? rd_bet_closes_at y.2) && String.leb x.1 y.1 = true.

#[export] Instance closes_before_dec x y : Decision (closes_before x y) := bool_eq_dec _ _.

Definition closable (now : Z) (r : round_row) : bool :=
  bool_decide (rd_status r ∈ [RoundOpen; RoundScheduled]) && (rd_bet_closes_at r <=? now).

Definition due_to_close (now limit : Z) (db : DB) : list string :=
  map fst (take (Z.to_nat limit) (merge_sort closes_before
    (List.filter (fun kv => closable now kv.2) (map_to_list (rounds db.(app)))))).

Fixpoint announce_closed (now : Z) (ids : list string) : Tx () :=
  match ids with
  | [] => mret ()
  | roundID :: rest =>
      id ← new_uuid;
      insert_outbox id "round" roundID "game.round.closed" (round_payload roundID) now;;
      announce_closed now rest
  end.

Definition CloseDue (now limit : Z) : Tx (list string) :=
  if limit <=? 0 then mret []
  else
    ids ← gets (due_to_close now limit);
    modify (update_rounds (fun id _ => bool_decide (id ∈ ids)) RoundClosed);;
    announce_closed now ids;;
    mret ids.

End scheduler.

(** ** Queries *)

(** A JSON column decoded into a slice of strings; NULL leaves it empty. *)
Definition outcome_of (r : round_row) : res (list string) :=
  match rd_outcome r with
  | None => Ok []
  | Some j => of_option (Sentinel "json.Unmarshal") (dec_strings [] j)
  end.

Definition scan_round (id : string) (r : round_row) (g : game_type_row) (with_outcome : bool) : res Round :=
  outcome ← (if with_outcome : bool then outcome_of r else Ok []);
  Ok (mk_Round id (gt_code g) (rd_sequence r) (rd_status r) (rd_bet_closes_at r) (rd_result_at r)
        (if with_outcome : bool then rd_settled_at r else None) outcome).

Definition repository_Find (roundID : string) (db : DB) : res Round :=
  r ← of_option game_ErrRoundNotFound (rounds db.(app) !! roundID);
  g ← of_option game_ErrRoundNotFound (game_types db.(app) !! rd_game_type_id r);
  scan_round roundID r g true.

(** Rounds joined with their game types. *)
Definition round_rows (db : DB) : list (string * round_row * game_type_row) :=
  omap (fun kv => g ← game_types db.(app) !! rd_game_type_id kv.2; Some (kv.1, kv.2, g)) (map_to_list (rounds db.(app))).

Definition has_accepted (roundID : string) (db : DB) : bool :=
  existsb (fun kv => bool_decide (bt_round_id kv.2 = roundID) && bool_decide (bt_status kv.2 = "accepted"%string))
    (map_to_list (bets db.(app))).

(** An earlier round of the same game that is still in the way. *)
Definition hidden_by_prior (g : game_type_row) (r : round_row) (db : DB) : bool :=
  existsb (fun kv => bool_decide (rd_game_type_id kv.2 = rd_game_type_id r) && (rd_sequence kv.2 <? rd_sequence r) &&
      unfinished kv.2 &&
      (negb (bool_decide (default ""%string (source_of g) = "lulu_ws"%string)) || has_accepted kv.1 db))
    (map_to_list (rounds db.(app))).

Definition row_before (x y : string * round_row * game_type_row) : Prop := closes_before (x.1.1, x.1.2) (y.1.1, y.1.2).

#[export] Instance row_before_dec x y : Decision (row_before x y) := closes_before_dec _ _.

Definition ListOpen (now : Z) (gameType : string) (limit : Z) (db : DB) : res (list Round) :=
  if limit <=? 0 then Ok []
  else
    mapM (fun x => scan_round x.1.1 x.1.2 x.2 false)
      (take (Z.to_nat limit) (merge_sort row_before (List.filter (fun x =>
         bool_decide (rd_status x.1.2 = RoundOpen) && bool_decide (gt_code x.2 = gameType) &&
         (now <? rd_bet_closes_at x.1.2) && negb (hidden_by_prior x.2 x.1.2 db)) (round_rows db)))).

(** ** The state of a game *)

Record RoundState : Type := mk_RoundState {
  Current : option Round;
  Previous : option Round
}.

(** ORDER BY a key, then the identifier; LIMIT 1. *)
Definition first_round (key : round_row -> Z) (wanted : string * round_row * game_type_row -> bool) (db : DB)
    : option (string * round_row * game_type_row) :=
  let before (x y : string * round_row * game_type_row) : bool :=
    (key x.1.2 <? key y.1.2) || (key x.1.2 =? key y.1.2) && String.leb x.1.1 y.1.1 in
  foldr (fun x m => if wanted x then Some (match m with Some y => if before y x then y else x | None => x end) else m)
    None (round_rows db).

(** No row is [ErrRoundNotFound], which the callers pass over. *)
Definition scan_first (o : option (string * round_row * game_type_row)) : res (option Round) :=
  match o with
  | None => Ok None
  | Some (id, r, g) => round ← scan_round id r g true; Ok (Some round)
  end.

Definition lulu_source (g : game_type_row) : bool := bool_decide (source_of g = Some "lulu_ws"%string).

Definition is_latest (r : round_row) (db : DB) : bool := rd_sequence r =? last_sequence (rd_game_type_id r) db.

Definition previousRound (gameType : string) (current : option Round) (db : DB) : res (option Round) :=
  match current with
  | None =>
      scan_first (first_round (fun r => - rd_result_at r)
        (fun x => bool_decide (gt_code x.2 = gameType) && bool_decide (rd_status x.1.2 = RoundSettled)) db)
  | Some c =>
      (* the CASE is NULL for the other games, which DESC puts first *)
      scan_first (first_round (fun r => - rd_result_at r)
        (fun x => bool_decide (gt_code x.2 = gameType) && negb (lulu_source x.2) &&
                  bool_decide (rd_status x.1.2 = RoundSettled)) db) ≫= fun o =>
      match o with
      | Some r => Ok (Some r)
      | None =>
          scan_first (first_round (fun r => - rd_sequence r)
            (fun x => bool_decide (gt_code x.2 = gameType) && lulu_source x.2 && (rd_sequence x.1.2 <? r_Sequence c)) db)
      end
  end.

Definition State (gameType : string) (db : DB) : res RoundState :=
  let live x := bool_decide (gt_code x.2 = gameType) &&
    bool_decide (rd_status x.1.2 ∈ [RoundOpen; RoundClosed; RoundSettling]) &&
    (negb (lulu_source x.2) || is_latest x.1.2 db) in
  now_ ← scan_first (first_round rd_result_at live db);
  current ← (match now_ with
    | Some r => Ok (Some r)
    | None => scan_first (first_round (fun r => - rd_sequence r)
                (fun x => bool_decide (gt_code x.2 = gameType) && lulu_source x.2) db)
    end);
  previous ← previousRound gameType current db;
  Ok (mk_RoundState current previous).

(** ** Trends of the shared hash games *)

Record HashTrendItem : Type := mk_HashTrendItem {
  ht_Sequence : Z;
  ht_Digit : Z;
  ht_Size : string;
  ht_Parity : string;
  ht_SettledAt : Z
}.

Record HashTrendStreak : Type := mk_HashTrendStreak {
  hk_Value : string;
  hk_Count : Z
}.

Record HashTrendSummary : Type := mk_HashTrendSummary {
  hs_DigitOmissions : list (Z * Z);
  hs_SizeStreak : HashTrendStreak;
  hs_ParityStreak : HashTrendStreak
}.

Definition ErrInvalidTrendLimit : error := Sentinel "game.ErrInvalidTrendLimit".
Definition ErrTrendOutcome : error := Sentinel "settled hash round has invalid outcome".

Definition read_trend (item : HashTrendItem) (value : string) : HashTrendItem :=
  let '(mk_HashTrendItem s d size parity at_) := item in
  match s2b value with
  | [c] => if is_digit c then mk_HashTrendItem s (code c - 48) size parity at_ else item
  | _ =>
      if bool_decide (value ∈ ["big"; "small"]%string) then mk_HashTrendItem s d value parity at_
      else if bool_decide (value ∈ ["odd"; "even"]%string) then mk_HashTrendItem s d size value at_
      else item
  end.

Definition parseHashTrendOutcome (sequence : Z) (j : json) (settledAt : Z) : res HashTrendItem :=
  values ← of_option (Sentinel "json.Unmarshal") (dec_strings [] j);
  let item := foldl read_trend (mk_HashTrendItem sequence (-1) "" "" settledAt) values in
  if (ht_Digit item <? 0) || bool_decide (ht_Size item = ""%string) || bool_decide (ht_Parity item = ""%string)
  then Err ErrTrendOutcome
  else Ok item.

(** How many items pass before the first that [P] holds of; all of them when
    there is none. *)
Fixpoint run_before {A} (P : A -> bool) (l : list A) : Z :=
  match l with
  | [] => 0
  | x :: rest => if P x then 0 else 1 + run_before P rest
  end.

Definition digits : list Z := [0; 1; 2; 3; 4; 5; 6; 7; 8; 9].

Definition streak_of (key : HashTrendItem -> string) (items : list HashTrendItem) : HashTrendStreak :=
  match items with
  | [] => mk_HashTrendStreak "" 0
  | first :: _ =>
      mk_HashTrendStreak (key first) (run_before (fun x => negb (bool_decide (key x = key first))) items)
  end.

Definition summarizeHashTrend (items : list HashTrendItem) : HashTrendSummary :=
  mk_HashTrendSummary (map (fun d => (d, run_before (fun x => ht_Digit x =? d) items)) digits)
    (streak_of ht_Size items) (streak_of ht_Parity items).

Definition newest_sequence (x y : string * round_row * game_type_row) : Prop :=
  rd_sequence y.1.2 <= rd_sequence x.1.2.

#[export] Instance newest_sequence_dec x y : Decision (newest_sequence x y) := Z.le_dec _ _.

Definition trend_type (gameType : string) (db : DB) : bool :=
  existsb (fun kv => bool_decide (gt_code kv.2 = gameType) && gt_enabled kv.2 &&
    bool_decide (source_of kv.2 = Some "tron_hash"%string)) (map_to_list (game_types db.(app))).

Definition trend_round (gameType : string) (x : string * round_row * game_type_row) : bool :=
  bool_decide (gt_code x.2 = gameType) && bool_decide (rd_status x.1.2 = RoundSettled) &&
  bool_decide (is_Some (rd_outcome x.1.2)) && bool_decide (is_Some (rd_settled_at x.1.2)).

Definition HashTrend (gameType : string) (limit : Z) (db : DB) : res (list HashTrendItem * HashTrendSummary) :=
  fail_if ((limit <=? 0) || (200 <? limit)) ErrInvalidTrendLimit;;
  fail_if (negb (trend_type gameType db)) game_ErrRoundNotFound;;
  items ← mapM (fun x => parseHashTrendOutcome (rd_sequence x.1.2) (default JNull (rd_outcome x.1.2))
                           (default 0 (rd_settled_at x.1.2)))
    (take (Z.to_nat limit) (merge_sort newest_sequence (List.filter (trend_round gameType) (round_rows db))));
  Ok (items, summarizeHashTrend items).
