(* ===== verification/AdminSecurity.v ===== *)
(** * The operation passwords of the staff

    [application/adminsecurity/service.go]: two passwords, of the first and the
    second level, that the staff enter again for sensitive operations; who may
    set them, and the lockout of an account after repeated failures.

    Arguments: Argon2id, the bytes of the salt, and [uuid.Parse] (PostgreSQL
    refuses a text that is no UUID).  A wrong password is recorded in a
    transaction that commits and then answers with an error: such a transaction
    returns the error as a value. *)

From S2P Require Import Prelude GoStrings Json Schema Store Identity Operations.

Definition security_ErrInvalid : error := Sentinel "adminsecurity.ErrInvalid".
Definition security_ErrForbidden : error := Sentinel "adminsecurity.ErrForbidden".
Definition security_ErrNotSet : error := Sentinel "adminsecurity.ErrNotSet".
Definition security_ErrIncorrect : error := Sentinel "adminsecurity.ErrIncorrect".
Definition security_ErrLoginPassword : error := Sentinel "adminsecurity.ErrLoginPassword".
Definition security_ErrLocked : error := Sentinel "adminsecurity.ErrLocked".
Definition ErrInvalidUUID : error := Sentinel "invalid input syntax for type uuid".

Definition ErrNullScan : error := Sentinel "cannot scan NULL into *string".

Record security_Status : Type := mk_security_Status {
  FirstSet : bool;
  SecondSet : bool
}.

Definition validLevel (level : string) : bool := bool_decide (level = "first"%string) || bool_decide (level = "second"%string).

Definition validPassword (password : string) : bool := negb (bool_decide (TrimSpace password = ""%string)).

(** The actor is an active administrator or, unless [adminOnly], operator. *)
Definition staff_member (adminOnly : bool) (actor : string) (db : DB) : bool :=
  user_is_active actor db &&
  has_role actor ("admin" :: if adminOnly then [] else ["operator"])%string db.

Definition fifteen_minutes : Z := 900000000000.

(** ** The attempts of one account *)

Definition put_attempt (actor scope : string) (a : attempt_row) : Tx () :=
  modify (fun db => set_app (set_admin_security_attempts
    (<[(actor, scope) := a]> (admin_security_attempts db.(app))) db.(app)) db).

(** INSERT ... ON CONFLICT DO NOTHING, then SELECT ... FOR UPDATE. *)
Definition attempt_of (actor scope : string) (now : Z) (db : DB) : attempt_row :=
  default (mk_attempt_row 0 now None) (admin_security_attempts db.(app) !! (actor, scope)).

Definition guard (t : clock) (actor scope : string) : Tx Z :=
  a ← gets (attempt_of actor scope (sql_now t));
  put_attempt actor scope a;;
  reject_if (from_option (fun until => go_now t <? until) false (sa_blocked_until a)) security_ErrLocked;;
  if fifteen_minutes <=? since (go_now t) (sa_window_started_at a) then
    put_attempt actor scope (mk_attempt_row 0 (sql_now t) None);;
    mret 0
  else mret (sa_failures a).

Definition update_attempt (actor scope : string) (f : attempt_row -> attempt_row) : Tx () :=
  modify (fun db => set_app (set_admin_security_attempts
    (alter f (actor, scope) (admin_security_attempts db.(app))) db.(app)) db).

Definition failed (t : clock) (actor scope : string) (count : Z) (reason : error) : Tx error :=
  let count := (count + 1)%i64 in
  update_attempt actor scope (fun a => mk_attempt_row count (sa_window_started_at a)
    (if 5 <=? count then Some (sql_now t + fifteen_minutes) else None));;
  mret (if 5 <=? count then security_ErrLocked else reason).

Definition succeeded (t : clock) (actor scope : string) : Tx () :=
  update_attempt actor scope (fun _ => mk_attempt_row 0 (sql_now t) None).

(** A transaction that may commit and still answer with an error. *)
Definition answering (m : Tx (option error)) : Svc () :=
  r ← atomically m;
  match r with Some e => fails e | None => mret () end.

Section service.
Context `{Uuids} (is_uuid : string -> bool).
Context (IDKey : bytes -> bytes -> Z -> Z -> Z -> Z -> bytes).

Definition authorized (actor : string) (adminOnly : bool) : Tx () :=
  reject_if (bool_decide (actor = ""%string)) security_ErrForbidden;;
  reject_if (negb (is_uuid actor)) ErrInvalidUUID;;
  allowed ← gets (staff_member adminOnly actor);
  reject_if (negb allowed) security_ErrForbidden.

Definition is_set (level : string) (db : DB) : bool :=
  from_option (fun p => negb (bool_decide (sq_password_hash p = ""%string))) false
    (admin_security_passwords db.(app) !! level).

Definition security_status (actor : string) : Tx security_Status :=
  authorized actor false;;
  gets (fun db => mk_security_Status (is_set "first" db) (is_set "second" db)).

Definition verify_tx (t : clock) (actor level password : string) : Tx (option error) :=
  authorized actor false;;
  count ← guard t actor level;
  p ← select_id (R := security_password_row) level;
  row ← found ErrNoRows p;
  reject_if (bool_decide (sq_password_hash row = ""%string)) security_ErrNotSet;;
  if negb (VerifyPassword IDKey (sq_password_hash row) password) then
    e ← failed t actor level count security_ErrIncorrect;
    mret (Some e)
  else
    succeeded t actor level;;
    mret None.

Definition Verify (t : clock) (actor level password : string) : Svc () :=
  svc_reject (negb (validLevel level) || negb (validPassword password)) security_ErrInvalid;;
  answering (verify_tx t actor level password).

Definition set_security_password (hash actor : string) (p : security_password_row) : security_password_row :=
  mk_security_password_row hash (sq_version p + 1) (Some actor).

(** What the administrator's own login must be. *)
Definition login_confirmed (actor loginPassword : string) (db : DB) : res bool :=
  match find_row (fun _ => password_of_user actor) (auth_identities db.(app)) with
  | Some (_, a) =>
      hash ← of_option ErrNullScan (ai_password_hash a);
      Ok (VerifyPassword IDKey hash loginPassword)
  | None => Ok false
  end.

Definition set_tx (t : clock) (salt : res bytes) (actor level loginPassword password : string) : Tx (option error) :=
  authorized actor true;;
  count ← guard t actor "manage";
  answer ← gets (login_confirmed actor loginPassword);
  confirmed ← lift answer;
  if negb confirmed then
    e ← failed t actor "manage" count security_ErrLoginPassword;
    mret (Some e)
  else
    saltBytes ← lift salt;
    p ← select_id (R := security_password_row) level;
    row ← found ErrNoRows p;
    let hash := HashPassword IDKey saltBytes password in
    n ← update_row level (set_security_password hash actor);
    auditID ← new_uuid;
    insert_audit (mk_audit (Some actor) "admin.security_password.set" "admin_security_password" level None
      (JObj [("level", JStr level); ("version", JInt (sq_version row + 1))]%string));;
    succeeded t actor "manage";;
    mret None.

Definition security_Set (t : clock) (salt : res bytes) (actor level loginPassword password : string) : Svc () :=
  svc_reject (negb (validLevel level) || negb (validPassword password) || negb (validPassword loginPassword))
    security_ErrInvalid;;
  answering (set_tx t salt actor level loginPassword password).

End service.
