(* ===== verification/Staff.v ===== *)
(** * The staff and their control of the users

    [application/operations]: roles (roles.go), the security controls of a user
    (user_controls.go), status, level, profile and deletion (users.go), turning a
    player into a virtual one (user_virtual.go), creating a player
    (account_creation.go), and creating a virtual one with money (analytics.go).  The advisory lock on role management makes the
    transactions that count administrators serial.

    Arguments: Argon2id, the bytes of a salt, [uuid.Parse].  The table of roles
    holds the three codes (migration 0013).  Left out: the listings. *)

From S2P Require Import Prelude GoStrings Json Schema Store Betting Identity Operations AdminSecurity.

Definition ErrInvalidRoles : error := Sentinel "operations.ErrInvalidRoles".
Definition ErrCannotRemoveOwnAdmin : error := Sentinel "operations.ErrCannotRemoveOwnAdmin".
Definition ErrCannotRemoveLastAdmin : error := Sentinel "operations.ErrCannotRemoveLastAdmin".
Definition ErrUserControlForbidden : error := Sentinel "operations.ErrUserControlForbidden".
Definition ErrUserControlInvalid : error := Sentinel "operations.ErrUserControlInvalid".
Definition ErrResetPasswordEmpty : error := Sentinel "operations.ErrResetPasswordEmpty".
Definition ErrInvalidUserStatus : error := Sentinel "operations.ErrInvalidUserStatus".
Definition operations_ErrUserNotFound : error := Sentinel "operations.ErrUserNotFound".
Definition ErrCannotDisableOwnAdmin : error := Sentinel "operations.ErrCannotDisableOwnAdmin".
Definition ErrCannotDisableLastAdmin : error := Sentinel "operations.ErrCannotDisableLastAdmin".
Definition ErrCannotDeleteStaff : error := Sentinel "operations.ErrCannotDeleteStaff".
Definition operations_ErrInvalidAgentLevel : error := Sentinel "operations.ErrInvalidAgentLevel".
Definition ErrInvalidProfile : error := Sentinel "operations.ErrInvalidProfile".
Definition operations_ErrRestrictedDisplayName : error := Sentinel "operations.ErrRestrictedDisplayName".
Definition ErrInvalidAvatar : error := Sentinel "operations.ErrInvalidAvatar".
Definition ErrInvalidVirtualAccount : error := Sentinel "operations.ErrInvalidVirtualAccount".
Definition ErrInvalidPlayerAccount : error := Sentinel "operations.ErrInvalidPlayerAccount".

(** ** roles.go *)

Definition known_roles : list string := [RolePlayer; RoleOperator; RoleAdmin].

(** The set of the names, in ascending order. *)
Definition normalizeRoles (requested : list string) : res (list string) :=
  let named := map (fun role => ToLower (TrimSpace role)) requested in
  fail_if (negb (forallb (fun role => bool_decide (role ∈ known_roles)) named)) ErrInvalidRoles;;
  let roles := List.filter (fun role => bool_decide (role ∈ named)) (merge_sort str_le known_roles) in
  fail_if (bool_decide (roles = [])) ErrInvalidRoles;;
  Ok roles.

Definition containsRole (roles : list string) (expected : string) : bool := bool_decide (expected ∈ roles).

Definition staff_roles : list string := ["admin"; "operator"]%string.

(** Administrators other than [userID], each once. *)
Definition other_admins (userID : string) (db : DB) : list string :=
  remove_dups (map fst (List.filter (fun r => bool_decide (r.2 = RoleAdmin) && negb (bool_decide (r.1 = userID)))
    (user_roles db.(app)))).

Definition public_user (publicID : Z) : Tx (option (string * user_row)) :=
  select_where (R := user_row) (fun _ u => u_public_id u =? publicID).

(** A public number as text: at least five digits' worth. *)
Definition public_number (userID : string) : res Z :=
  publicID ← of_option operations_ErrUserNotFound (ParseInt userID);
  fail_if (publicID <? 10001) operations_ErrUserNotFound;;
  Ok publicID.

Definition end_sessions (userID : string) : Tx () :=
  delete_where (R := session_row) (fun _ s => bool_decide (se_user_id s = userID)).

Definition replace_roles (userID : string) (roles : list string) : Tx () :=
  modify (fun db => set_app (set_user_roles
    (map (pair userID) roles ++ List.filter (fun r => negb (bool_decide (r.1 = userID))) (user_roles db.(app)))
    db.(app)) db).

Definition SetUserRoles (actorUserID userID : string) (requested : list string) : Tx (Z * list string) :=
  roles ← lift (normalizeRoles requested);
  publicID ← lift (public_number userID);
  u ← public_user publicID;
  kv ← found operations_ErrUserNotFound u;
  let target := fst kv in
  reject_if (bool_decide (actorUserID = target) && negb (containsRole roles RoleAdmin)) ErrCannotRemoveOwnAdmin;;
  currentlyAdmin ← gets (has_role target [RoleAdmin]);
  others ← gets (other_admins target);
  reject_if (currentlyAdmin && negb (containsRole roles RoleAdmin) && bool_decide (others = [])) ErrCannotRemoveLastAdmin;;
  replace_roles target roles;;
  end_sessions target;;
  mret (publicID, roles).

(** ** users.go *)

Definition set_status (status : string) (u : user_row) : user_row :=
  mk_user_row status (u_is_virtual u) (u_display_name u) (u_public_id u) (u_agent_level u) (u_avatar_url u)
    (u_login_name u) (u_secondary_password_hash u) (u_created_at u).

Definition set_virtual (u : user_row) : user_row :=
  mk_user_row (u_status u) true (u_display_name u) (u_public_id u) (u_agent_level u) (u_avatar_url u)
    (u_login_name u) (u_secondary_password_hash u) (u_created_at u).

Definition set_level (level : option Z) (u : user_row) : user_row :=
  mk_user_row (u_status u) (u_is_virtual u) (u_display_name u) (u_public_id u) level (u_avatar_url u)
    (u_login_name u) (u_secondary_password_hash u) (u_created_at u).

Definition set_profile (displayName avatarURL : string) (u : user_row) : user_row :=
  mk_user_row (u_status u) (u_is_virtual u) displayName (u_public_id u) (u_agent_level u) (Some avatarURL)
    (u_login_name u) (u_secondary_password_hash u) (u_created_at u).

Definition update_user (id : string) (f : user_row -> user_row) : Tx () :=
  n ← update_row (R := user_row) id f; mret ().

Definition known_status (status : string) : bool :=
  bool_decide (status ∈ ["active"; "disabled"; "bet_banned"]%string).

Definition other_active_admins (userID : string) (db : DB) : list string :=
  List.filter (fun user => user_is_active user db) (other_admins userID db).

Definition SetUserStatus (actorUserID userID status : string) : Tx () :=
  reject_if (negb (known_status status)) ErrInvalidUserStatus;;
  publicID ← lift (public_number userID);
  u ← public_user publicID;
  kv ← found operations_ErrUserNotFound u;
  let '(target, row) := kv in
  isAdmin ← gets (has_role target [RoleAdmin]);
  others ← gets (other_active_admins target);
  let active := bool_decide (status = "active"%string) in
  reject_if (negb active && isAdmin && bool_decide (actorUserID = target)) ErrCannotDisableOwnAdmin;;
  reject_if (negb active && isAdmin && bool_decide (u_status row = "active"%string) && bool_decide (others = []))
    ErrCannotDisableLastAdmin;;
  update_user target (set_status status);;
  if active then mret () else end_sessions target.

Definition DeleteUser (userID : string) : Tx () :=
  publicID ← lift (public_number userID);
  u ← public_user publicID;
  kv ← found operations_ErrUserNotFound u;
  let target := fst kv in
  staff ← gets (has_role target staff_roles);
  reject_if staff ErrCannotDeleteStaff;;
  update_user target (set_status "disabled");;
  end_sessions target;;
  delete_where (R := identity_row) (fun _ a => bool_decide (ai_user_id a = target)).

Definition SetAgentLevel (userID : string) (level : Z) : Tx () :=
  reject_if ((level <? 0) || (6 <? level)) operations_ErrInvalidAgentLevel;;
  publicID ← lift (public_number userID);
  u ← public_user publicID;
  kv ← found operations_ErrUserNotFound u;
  let target := fst kv in
  update_user target (set_level (if level =? 0 then None else Some level));;
  if level =? 0 then mret ()
  else
    fresh ← insert_ignore (R := agent_rate_row) (fun _ => false) target (mk_agent_rate_row 0);
    mret ().

(** An image the user uploaded and confirmed. *)
Definition avatar_upload (owner key : string) (db : DB) : bool :=
  match find_row (fun _ x => bool_decide (uq_owner_user_id x = Some owner) && bool_decide (uq_storage_key x = key) &&
    bool_decide (uq_status x = "confirmed"%string) &&
    bool_decide (ToLower (uq_content_type x) ∈ ["image/jpeg"; "image/png"; "image/webp"]%string)) (uploads db.(app)) with
  | Some _ => true
  | None => false
  end.

Definition UpdateCurrentProfile (userID displayName avatarURL : string) : Tx () :=
  let displayName := TrimSpace displayName in
  let avatarURL := TrimSpace avatarURL in
  reject_if (bool_decide (displayName = ""%string) || (100 <? str_len displayName) || (2048 <? str_len avatarURL))
    ErrInvalidProfile;;
  reject_if (HasRestrictedDisplayNameTerm displayName) operations_ErrRestrictedDisplayName;;
  allowed ← gets (fun db => bool_decide (avatarURL = ""%string) || avatar_upload userID avatarURL db);
  known ← gets (fun db => bool_decide (is_Some (users db.(app) !! userID)));
  reject_if (negb known) operations_ErrUserNotFound;;
  reject_if (negb allowed) ErrInvalidAvatar;;
  update_user userID (set_profile displayName avatarURL).

(** ** user_controls.go *)

Section controls.
Context `{Uuids} (is_uuid : string -> bool).
Context (IDKey : bytes -> bytes -> Z -> Z -> Z -> Z -> bytes).

Definition controlUser (actor : string) (publicID : Z) (adminOnly : bool) (action : string)
    (fn : string -> Tx ()) (detail : string) : Tx () :=
  reject_if (publicID <? 10001) operations_ErrUserNotFound;;
  reject_if (negb (is_uuid actor)) ErrInvalidUUID;;
  isAdmin ← gets (staff_member true actor);
  allowed ← gets (staff_member false actor);
  reject_if (negb allowed || adminOnly && negb isAdmin) ErrUserControlForbidden;;
  u ← public_user publicID;
  kv ← found operations_ErrUserNotFound u;
  let target := fst kv in
  staff ← gets (has_role target staff_roles);
  reject_if (negb isAdmin && staff) ErrUserControlForbidden;;
  fn target;;
  auditID ← new_uuid;
  insert_audit (mk_audit (Some actor) action "user" target None (JObj [("detail"%string, JStr detail)])).

Definition reset_password (kind hash target : string) : Tx () :=
  (if bool_decide (kind = "login"%string) then
     known ← gets (fun db => find_row (fun _ => password_of_user target) (auth_identities db.(app)));
     found operations_ErrUserNotFound known;;
     update_where (R := identity_row) (fun _ => password_of_user target) (set_password_hash hash)
   else update_user target (set_secondary_hash hash));;
  end_sessions target.

Definition ResetUserPassword (salt : res bytes) (actor : string) (publicID : Z) (kind password : string) : Tx () :=
  reject_if (negb (bool_decide (kind = "login"%string)) && negb (bool_decide (kind = "secondary"%string)))
    ErrUserControlInvalid;;
  reject_if (bool_decide (TrimSpace password = ""%string)) ErrResetPasswordEmpty;;
  saltBytes ← lift salt;
  controlUser actor publicID true "user.password.reset" (reset_password kind (HashPassword IDKey saltBytes password)) kind.

Definition mute (muted : bool) (target : string) : Tx () :=
  modify (fun db => set_app (set_muted_users
    ((if muted then [target] else []) ++ List.filter (fun u => negb (bool_decide (u = target))) (muted_users db.(app)))
    db.(app)) db).

Definition SetUserMuted (actor : string) (publicID : Z) (muted : bool) : Tx () :=
  controlUser actor publicID false "user.chat_mute.update" (mute muted) (if muted then "true" else "false").

(** ** user_virtual.go *)

Definition virtual_payload : json := JObj [("before_is_virtual", JBool false); ("is_virtual", JBool true)]%string.

Definition ConvertUserToVirtual (actor : string) (publicID : Z) : Tx () :=
  reject_if ((publicID <? 10001) || (99999 <? publicID)) operations_ErrUserNotFound;;
  reject_if (negb (is_uuid actor)) ErrInvalidUUID;;
  allowed ← gets (staff_member false actor);
  reject_if (negb allowed) ErrUserControlForbidden;;
  u ← public_user publicID;
  kv ← found operations_ErrUserNotFound u;
  let '(target, row) := kv in
  player ← gets (has_role target [RolePlayer]);
  staff ← gets (has_role target staff_roles);
  reject_if (staff || negb player) ErrUserControlForbidden;;
  if u_is_virtual row then mret ()
  else
    update_user target set_virtual;;
    auditID ← new_uuid;
    insert_audit (mk_audit (Some actor) "user.virtual.convert" "user" target None virtual_payload).

(** ** account_creation.go *)

Record PlayerAccountInput : Type := mk_PlayerAccountInput {
  ci_ActorUserID : string;
  ci_AvatarURL : string;
  ci_LoginName : string;
  ci_DisplayName : string;
  ci_Password : string
}.

Record PlayerAccount : Type := mk_PlayerAccount {
  ca_UserID : Z;
  ca_LoginName : string;
  ca_DisplayName : string;
  ca_AvatarURL : string;
  ca_Status : string;
  ca_IsVirtual : bool;
  ca_Roles : list string;
  ca_CreatedAt : Z
}.

(** [^[A-Za-z0-9_-]{3,32}$] *)
Definition login_byte (c : Ascii.ascii) : bool :=
  is_digit c || between 65 90 c || between 97 122 c || (code c =? 45) || (code c =? 95).

Definition playerLoginNamePattern (s : string) : bool :=
  (3 <=? str_len s) && (str_len s <=? 32) && forallb login_byte (s2b s).

Definition shown_avatar (public : Z) (avatar : string) : string :=
  if bool_decide (avatar = ""%string) then "" else ("/v1/avatars/" ++ FormatInt public ++ "?v=" ++ last_segment avatar)%string.

Definition generated_name (public : Z) (u : user_row) : string :=
  if bool_decide (u_display_name u = ""%string) then ("用户" ++ FormatInt public)%string else u_display_name u.

Definition createPasswordAccount (t : clock) (actor avatar loginName displayName passwordHash : string)
    (isVirtual : bool) : Tx (string * PlayerAccount) :=
  (if bool_decide (avatar = ""%string) then mret ()
   else
     reject_if (negb (is_uuid actor)) ErrInvalidAvatar;;
     valid ← gets (avatar_upload actor avatar);
     reject_if (negb valid) ErrInvalidAvatar);;
  id ← new_uuid;
  taken_if_unique (insert_user id loginName displayName (sql_now t));;
  (if isVirtual then update_user id set_virtual else mret ());;
  update_user id (fun u => set_profile (generated_name (u_public_id u) u) avatar u);;
  u ← select_id (R := user_row) id;
  row ← found ErrNoRows u;
  identityID ← new_uuid;
  taken_if_unique (insert_identity identityID id loginName passwordHash);;
  roleRow ← new_uuid;
  insert_role id RolePlayer;;
  ensure_user_customer_service_rooms (sql_now t) id;;
  codes ← gets opened_currencies;
  open_wallets (sql_now t) id codes;;
  mret (id, mk_PlayerAccount (u_public_id row) (default ""%string (u_login_name row)) (u_display_name row)
    (shown_avatar (u_public_id row) avatar) (u_status row) false [RolePlayer] (u_created_at row)).

Definition CreatePlayerAccount (t : clock) (salt : res bytes) (i : PlayerAccountInput) : Tx PlayerAccount :=
  let loginName := TrimSpace (ci_LoginName i) in
  let displayName := TrimSpace (ci_DisplayName i) in
  let avatar := TrimSpace (ci_AvatarURL i) in
  reject_if (bool_decide (ci_ActorUserID i = ""%string) || negb (playerLoginNamePattern loginName) ||
             bool_decide (TrimSpace (ci_Password i) = ""%string) || (100 <? str_len displayName) ||
             (2048 <? str_len avatar)) ErrInvalidPlayerAccount;;
  saltBytes ← lift (match salt with Ok b => Ok b | Err _ => Err ErrInvalidPlayerAccount end);
  reject_if (negb (is_uuid (ci_ActorUserID i))) ErrInvalidUUID;;
  actor ← gets (requireAdminOperator (ci_ActorUserID i));
  public ← lift actor;
  created ← createPasswordAccount t (ci_ActorUserID i) avatar loginName displayName
    (HashPassword IDKey saltBytes (ci_Password i)) false;
  let '(id, account) := created in
  auditID ← new_uuid;
  insert_audit (mk_audit (Some (ci_ActorUserID i)) "admin.player.create" "user" id None
    (JObj [("login_name", JStr (ca_LoginName account)); ("user_id", JInt (ca_UserID account))]%string));;
  mret account.

(** ** analytics.go: virtual accounts *)

(** [InitialBalances] is a Go map: its keys differ, and it is walked in any
    order.  [Count] is left out: only CreateVirtualAccounts reads it. *)
Record VirtualAccountInput : Type := mk_VirtualAccountInput {
  vi_ActorUserID : string;
  vi_AvatarURL : string;
  vi_LoginName : string;
  vi_DisplayName : string;
  vi_Password : string;
  vi_InitialBalances : list (string * Z)
}.

(** The fields of the answer that are set. *)
Record VirtualAccount : Type := mk_VirtualAccount {
  va_UserID : Z;
  va_LoginName : string;
  va_DisplayName : string;
  va_UserStatus : string;
  va_AvatarURL : string
}.

Definition set_available (n : Z) (w : wallet_row) : wallet_row :=
  mk_wallet (w_user_id w) (w_currency w) n (w_frozen w) (w_version w) (w_updated_at w).

(** INSERT INTO wallets ... SELECT FROM currencies WHERE code AND enabled ON
    CONFLICT(user_id,currency) DO UPDATE SET available_minor RETURNING id. *)
Definition upsert_balance (id user currency : string) (amount now : Z) : Tx (option string) := fun db =>
  if negb (from_option cur_enabled false (currencies db.(app) !! currency)) then Ok (None, db)
  else
    let '(walletID, w) :=
      match find_row (is_wallet_of user currency) (wallets db.(money)) with
      | Some (old, w) => (old, set_available amount w)
      | None => (id, mk_wallet user currency amount 0 0 now)
      end in
    if negb (wallet_ok w) then Err (CheckViolation "wallets_check")
    else if bool_decide (walletID = id) && bool_decide (is_Some (wallets db.(money) !! id))
    then Err (UniqueViolation "wallets_pkey")
    else Ok (Some walletID, put_wallet walletID w db).

Definition fund_wallet (now : Z) (user currency : string) (amount : Z) : Tx () :=
  reject_if (amount <? 0) ErrInvalidVirtualAccount;;
  id ← new_uuid;
  o ← upsert_balance id user currency amount now;
  walletID ← found ErrInvalidVirtualAccount o;
  if 0 <? amount then
    entryID ← new_uuid;
    insert_ledger (entry entryID walletID "virtual_initial_balance" user "virtual_initial_balance" amount amount) now
  else mret ().

Fixpoint fund_wallets (now : Z) (user : string) (l : list (string * Z)) : Tx () :=
  match l with
  | [] => mret ()
  | (currency, amount) :: rest => fund_wallet now user currency amount;; fund_wallets now user rest
  end.

(** INSERT INTO virtual_account_automations(user_id). *)
Definition insert_automation (user : string) : Tx () :=
  known ← gets (fun db => bool_decide (user ∈ virtual_account_automations db.(app)));
  reject_if known (UniqueViolation "virtual_account_automations_pkey");;
  modify (fun db => set_app (set_virtual_account_automations (user :: virtual_account_automations db.(app)) db.(app)) db).

Definition CreateVirtualAccount (t : clock) (salt : res bytes) (i : VirtualAccountInput) : Tx VirtualAccount :=
  let loginName := TrimSpace (vi_LoginName i) in
  let displayName := TrimSpace (vi_DisplayName i) in
  let avatar := TrimSpace (vi_AvatarURL i) in
  reject_if (bool_decide (loginName = ""%string) || (100 <? str_len displayName) || (2048 <? str_len avatar) ||
             bool_decide (TrimSpace (vi_Password i) = ""%string)) ErrInvalidVirtualAccount;;
  saltBytes ← lift salt;
  created ← createPasswordAccount t (vi_ActorUserID i) avatar loginName displayName
    (HashPassword IDKey saltBytes (vi_Password i)) true;
  let '(id, account) := created in
  fund_wallets (sql_now t) id (vi_InitialBalances i);;
  insert_automation id;;
  mret (mk_VirtualAccount (ca_UserID account) (ca_LoginName account) (ca_DisplayName account) (ca_Status account)
          (ca_AvatarURL account)).

End controls.
