(* ===== verification/Access.v ===== *)
(** * Access to the HTTP interface

    [platform/httpapi]: the routes (server.go, admin_completion.go), what stands
    before a handler - the origin check, routing, the access token, the roles,
    the amounts, the operation passwords (server.go, auth.go, routing_errors.go,
    amount_contract.go, admin_security.go) - and the accounts a caller may act
    for.  A request ends in an answer or at a handler; the handlers themselves
    decode their input and call one service.

    [http.ServeMux] of Go 1.22 is modelled as far as the patterns of this file
    go: a method and segments that are literal or a wildcard.  A path is the
    list of its unescaped segments, cleaned, with a last segment ["/"] for a
    trailing slash; a path that is not clean is redirected and reaches no
    handler.  Arguments: HMAC, Argon2id, [uuid.Parse], the reading of JSON, and the conversion of the
    amounts of a body. *)

From S2P Require Import Prelude GoStrings Json Schema Store Identity AdminSecurity.

(** ** Patterns *)

Inductive segment : Type := Lit (s : string) | Wild (name : string).

#[export] Instance segment_eq_dec : EqDecision segment.
Proof. solve_decision. Defined.

Record pattern : Type := mk_pattern {
  pt_method : string;
  pt_path : list segment
}.

#[export] Instance pattern_eq_dec : EqDecision pattern.
Proof. solve_decision. Defined.

(** A segment in braces is a wildcard. *)
Definition segment_of (l : bytes) : segment :=
  match l with
  | c :: name => if code c =? 123 then Wild (b2s (take (length name - 1) name)) else Lit (b2s l)
  | [] => Lit ""
  end.

(** "METHOD /a/{b}/c". *)
Definition pattern_of (text : string) : pattern :=
  match split_all 32 (s2b text) with
  | [method; path] => mk_pattern (b2s method) (map segment_of (tail (split_all 47 path)))
  | _ => mk_pattern "" []
  end.

(** One segment cannot be both. *)
Definition disjoint (x y : segment) : bool :=
  match x, y with Lit s, Lit s' => negb (bool_decide (s = s')) | _, _ => false end.

Definition sharper (x y : segment) : bool :=
  match x, y with Lit _, Wild _ => true | _, _ => false end.

Definition pairwise (f : segment -> segment -> bool) (p q : list segment) : bool :=
  existsb (fun xy => f xy.1 xy.2) (zip p q).

(** Registering two patterns panics when some request fits both and neither is
    more specific.  GET also serves HEAD. *)
Definition conflict (p q : pattern) : bool :=
  bool_decide (pt_method p = pt_method q) &&
  (length (pt_path p) =? length (pt_path q))%nat &&
  negb (pairwise disjoint (pt_path p) (pt_path q)) &&
  eqb (pairwise sharper (pt_path p) (pt_path q)) (pairwise sharper (pt_path q) (pt_path p)).

Fixpoint registers (seen : list pattern) (l : list pattern) : bool :=
  match l with
  | [] => true
  | p :: rest => negb (existsb (conflict p) seen) && registers (p :: seen) rest
  end.

(** ** The tree of routes

    At each segment the literal child is tried first, then the wildcard. *)

Section tree.
Context {A : Type}.

Record branch : Type := mk_branch {
  br_rest : list segment;
  br_params : list (string * string);
  br_route : A
}.

Definition literal_child (s : string) (b : branch) : option branch :=
  match br_rest b with
  | Lit s' :: rest => if bool_decide (s = s') then Some (mk_branch rest (br_params b) (br_route b)) else None
  | _ => None
  end.

Definition wild_child (s : string) (b : branch) : option branch :=
  match br_rest b with
  | Wild name :: rest =>
      if bool_decide (s = "/"%string) then None else Some (mk_branch rest ((name, s) :: br_params b) (br_route b))
  | _ => None
  end.

Fixpoint match_path (branches : list branch) (path : list string) : option branch :=
  match path with
  | [] => List.find (fun b => bool_decide (br_rest b = [])) branches
  | s :: rest =>
      match match_path (omap (literal_child s) branches) rest with
      | Some b => Some b
      | None => match_path (omap (wild_child s) branches) rest
      end
  end.

End tree.

#[global] Arguments branch : clear implicits.

(** ** Handlers *)

(** What a route is registered with: an endpoint of the server, and what is
    wrapped around it. *)
Inductive handler : Type :=
| Endpoint (name : string)
| FirstPassword (next : handler)
| SecondPassword (next : handler)
| Protect (next : handler)
| ProtectRoles (next : handler) (roles : list string).

#[export] Instance handler_eq_dec : EqDecision handler.
Proof. solve_decision. Defined.

Definition admin_completion_routes : list (string * handler) :=
  [
    ("POST /v1/admin/bets/{betID}/void",
       ProtectRoles (SecondPassword (Endpoint "adminVoidBet")) [RoleAdmin; RoleOperator]);
    ("GET /v1/admin/bet-voids", ProtectRoles (Endpoint "adminListBetVoids") [RoleAdmin; RoleOperator]);
    ("POST /v1/admin/users", ProtectRoles (SecondPassword (Endpoint "adminCreatePlayer")) [RoleAdmin; RoleOperator]);
    ("PUT /v1/admin/users/{userID}/agent-relation",
       ProtectRoles (SecondPassword (Endpoint "adminBindRelation")) [RoleAdmin; RoleOperator]) ]%string.

Definition handler_routes : list (string * handler) :=
  [
    ("GET /healthz", Endpoint "health");
    ("GET /readyz", Endpoint "ready");
    ("GET /v1/platform", Endpoint "platform");
    ("GET /v1/assets", Endpoint "assets");
    ("GET /v1/currencies", Protect (Endpoint "listCurrencies"));
    ("GET /v1/users/me/ledger", Protect (Endpoint "currentUserLedger"));
    ("GET /v1/admin/currencies", ProtectRoles (Endpoint "adminCurrencies") [RoleAdmin]);
    ("POST /v1/admin/currencies", ProtectRoles (Endpoint "createCurrency") [RoleAdmin]);
    ("PUT /v1/admin/currencies/{code}", ProtectRoles (Endpoint "updateCurrency") [RoleAdmin]);
    ("GET /v1/game-rooms", Protect (Endpoint "gameRooms"));
    ("GET /v1/hash/menus", Protect (Endpoint "hashMenus"));
    ("GET /v1/lulu/menus", Protect (Endpoint "luluMenuConfig"));
    ("GET /v1/hash/trends", Protect (Endpoint "hashTrends"));
    ("GET /v1/external-draws/{game}/history", Protect (Endpoint "externalDrawHistoryEndpoint"));
    ("GET /v1/announcements", Endpoint "announcements");
    ("GET /v1/configs/{key}", Endpoint "publicConfig");
    ("POST /v1/auth/login", Endpoint "login");
    ("POST /v1/admin/auth/login", Endpoint "adminLogin");
    ("POST /v1/auth/register", Endpoint "register");
    ("POST /v1/auth/refresh", Endpoint "refresh");
    ("POST /v1/admin/auth/refresh", Endpoint "adminRefresh");
    ("POST /v1/auth/logout", Endpoint "logout");
    ("GET /v1/users/me", Protect (Endpoint "currentUser"));
    ("GET /v1/avatars/{userID}", Endpoint "publicAvatar");
    ("PUT /v1/users/me", Protect (Endpoint "updateCurrentProfile"));
    ("PUT /v1/users/me/password", Protect (Endpoint "changePassword"));
    ("PUT /v1/users/me/secondary-password", Protect (Endpoint "setSecondaryPassword"));
    ("POST /v1/users/me/secondary-password/verify", Protect (Endpoint "verifySecondaryPassword"));
    ("POST /v1/chat/customer-service", Protect (Endpoint "openCustomerServiceRoom"));
    ("GET /v1/chat/rooms", Protect (Endpoint "chatRooms"));
    ("DELETE /v1/chat/rooms/{roomID}/messages/{messageID}", Protect (Endpoint "deleteChatMessage"));
    ("GET /v1/chat/rooms/{roomID}/messages", Protect (Endpoint "chatMessages"));
    ("POST /v1/uploads/authorize", Protect (Endpoint "authorizeUpload"));
    ("POST /v1/uploads/{uploadID}/confirm", Protect (Endpoint "confirmUpload"));
    ("GET /v1/uploads/{uploadID}", Protect (Endpoint "upload"));
    ("PUT /v1/uploads/{uploadID}/content", Protect (Endpoint "putUploadContent"));
    ("GET /v1/uploads/{uploadID}/content", Protect (Endpoint "downloadUploadContent"));
    ("GET /v1/leaderboards", Protect (Endpoint "leaderboard"));
    ("POST /v1/chat/rooms/{roomID}/red-packets", Protect (Endpoint "createRedPacket"));
    ("GET /v1/red-packets/{packetID}", Protect (Endpoint "redPacket"));
    ("POST /v1/red-packets/{packetID}/claim", Protect (Endpoint "claimRedPacket"));
    ("POST /v1/agents/bind", Protect (Endpoint "bindAgent"));
    ("GET /v1/agents/me", Protect (Endpoint "agentRelation"));
    ("GET /v1/admin/users/{userID}/agent-relation",
       ProtectRoles (Endpoint "adminAgentRelation") [RoleAdmin; RoleOperator]);
    ("GET /v1/agents/me/commissions", Protect (Endpoint "commissions"));
    ("GET /v1/agents/me/direct-players", Protect (Endpoint "directPlayers"));
    ("GET /v1/agents/me/income-summary", Protect (Endpoint "agentIncomeSummary"));
    ("PUT /v1/agents/me/direct-players/{userID}/agent-level", Protect (Endpoint "setDirectPlayerLevel"));
    ("GET /v1/agents/me/team-summary", Protect (Endpoint "teamSummary"));
    ("PUT /v1/admin/agents/{agentID}/commission-rate",
       ProtectRoles (Endpoint "setAgentCommissionRate") [RoleAdmin; RoleOperator]);
    ("GET /v1/admin/commissions", ProtectRoles (Endpoint "adminCommissions") [RoleAdmin; RoleOperator]);
    ("GET /v1/admin/rebate-configs", ProtectRoles (Endpoint "rebateConfigs") [RoleAdmin; RoleOperator]);
    ("GET /v1/admin/login-whitelist", ProtectRoles (Endpoint "loginWhitelistHandler") [RoleAdmin; RoleOperator]);
    ("POST /v1/admin/login-whitelist",
       ProtectRoles (SecondPassword (Endpoint "loginWhitelistHandler")) [RoleAdmin; RoleOperator]);
    ("DELETE /v1/admin/login-whitelist/{entryID}",
       ProtectRoles (SecondPassword (Endpoint "loginWhitelistHandler")) [RoleAdmin; RoleOperator]);
    ("GET /v1/admin/rebate-records", ProtectRoles (Endpoint "rebateRecords") [RoleAdmin; RoleOperator]);
    ("GET /v1/agents/me/rebates", Protect (Endpoint "rebateRecords"));
    ("PUT /v1/admin/rebate-configs/{configID}",
       ProtectRoles (SecondPassword (Endpoint "rebateConfigs")) [RoleAdmin; RoleOperator]);
    ("POST /v1/admin/commissions/{commissionID}/reverse",
       ProtectRoles (Endpoint "reverseCommission") [RoleAdmin; RoleOperator]);
    ("POST /v1/admin/agents/{agentID}/commissions",
       ProtectRoles (Endpoint "grantCommission") [RoleAdmin; RoleOperator]);
    ("POST /v1/bets", Protect (Endpoint "placeBet"));
    ("GET /v1/bets/public-feed", Protect (Endpoint "publicBets"));
    ("GET /v1/bets/{betID}", Protect (Endpoint "bet"));
    ("POST /v1/bets/{betID}/cancel", Protect (Endpoint "cancelBet"));
    ("GET /v1/bets", Protect (Endpoint "userBets"));
    ("GET /v1/wallets/{accountID}", Protect (Endpoint "balance"));
    ("GET /v1/rounds", Protect (Endpoint "openRounds"));
    ("GET /v1/rounds/state", Protect (Endpoint "roundState"));
    ("GET /v1/rounds/{roundID}", Protect (Endpoint "round"));
    ("POST /v1/rounds/{roundID}/cancel", ProtectRoles (Endpoint "cancelRound") [RoleAdmin; RoleOperator]);
    ("POST /v1/webhooks/chain/deposits", Endpoint "chainDepositWebhook");
    ("POST /v1/webhooks/chain/withdrawals", Endpoint "chainWithdrawalWebhook");
    ("POST /v1/withdrawals", Protect (Endpoint "requestWithdrawal"));
    ("GET /v1/deposits", Protect (Endpoint "userDeposits"));
    ("GET /v1/withdrawals", Protect (Endpoint "userWithdrawals"));
    ("GET /v1/deposit-addresses", Protect (Endpoint "depositAddress"));
    ("POST /v1/deposit-addresses", Protect (Endpoint "createDepositAddress"));
    ("GET /v1/withdrawals/{withdrawalID}", Protect (Endpoint "withdrawal"));
    ("POST /v1/admin/withdrawals/{withdrawalID}/approve",
       ProtectRoles (Endpoint "approveWithdrawal") [RoleAdmin; RoleOperator]);
    ("GET /v1/admin/withdrawals", ProtectRoles (Endpoint "adminWithdrawals") [RoleAdmin; RoleOperator]);
    ("POST /v1/admin/withdrawals/{withdrawalID}/reject",
       ProtectRoles (Endpoint "rejectWithdrawal") [RoleAdmin; RoleOperator]);
    ("GET /v1/admin/security-passwords", ProtectRoles (Endpoint "adminSecurityStatus") [RoleAdmin; RoleOperator]);
    ("GET /v1/admin/phrases", ProtectRoles (Endpoint "listPhrases") [RoleAdmin; RoleOperator]);
    ("POST /v1/admin/phrases", ProtectRoles (Endpoint "createPhrase") [RoleAdmin; RoleOperator]);
    ("PUT /v1/admin/phrases/{phraseID}", ProtectRoles (Endpoint "updatePhrase") [RoleAdmin; RoleOperator]);
    ("DELETE /v1/admin/phrases/{phraseID}", ProtectRoles (Endpoint "deletePhrase") [RoleAdmin; RoleOperator]);
    ("PUT /v1/admin/phrases/{phraseID}/enabled",
       ProtectRoles (Endpoint "setPhraseEnabled") [RoleAdmin; RoleOperator]);
    ("PUT /v1/admin/phrases/order", ProtectRoles (Endpoint "reorderPhrases") [RoleAdmin; RoleOperator]);
    ("PUT /v1/admin/security-passwords/{level}", ProtectRoles (Endpoint "setAdminSecurity") [RoleAdmin]);
    ("POST /v1/admin/security-passwords/{level}/verify",
       ProtectRoles (Endpoint "verifyAdminSecurityEndpoint") [RoleAdmin; RoleOperator]);
    ("POST /v1/admin/credits", ProtectRoles (Endpoint "adminCredit") [RoleAdmin; RoleOperator]);
    ("POST /v1/admin/wallet-adjustments", ProtectRoles (Endpoint "adminWalletAdjustment") [RoleAdmin; RoleOperator]);
    ("PUT /v1/admin/users/{userID}/password",
       ProtectRoles (SecondPassword (Endpoint "resetUserPassword")) [RoleAdmin]);
    ("PUT /v1/admin/users/{userID}/secondary-password",
       ProtectRoles (SecondPassword (Endpoint "resetUserPassword")) [RoleAdmin]);
    ("PUT /v1/admin/users/{userID}/mute", ProtectRoles (Endpoint "setUserMuted") [RoleAdmin; RoleOperator]);
    ("GET /v1/admin/users", ProtectRoles (Endpoint "adminUsers") [RoleAdmin; RoleOperator]);
    ("DELETE /v1/admin/users/{userID}",
       ProtectRoles (SecondPassword (Endpoint "deleteUser")) [RoleAdmin; RoleOperator]);
    ("PUT /v1/admin/users/{userID}/status", ProtectRoles (Endpoint "setUserStatus") [RoleAdmin; RoleOperator]);
    ("PUT /v1/admin/users/{userID}/agent-level", ProtectRoles (Endpoint "setAgentLevel") [RoleAdmin; RoleOperator]);
    ("GET /v1/admin/roles", ProtectRoles (Endpoint "adminRoles") [RoleAdmin]);
    ("PUT /v1/admin/users/{userID}/roles", ProtectRoles (Endpoint "setUserRoles") [RoleAdmin]);
    ("GET /v1/admin/announcements", ProtectRoles (Endpoint "adminAnnouncements") [RoleAdmin; RoleOperator]);
    ("POST /v1/admin/announcements", ProtectRoles (Endpoint "createAnnouncement") [RoleAdmin; RoleOperator]);
    ("PUT /v1/admin/announcements/{announcementID}",
       ProtectRoles (Endpoint "updateAnnouncement") [RoleAdmin; RoleOperator]);
    ("GET /v1/admin/audit-logs", ProtectRoles (Endpoint "auditLogs") [RoleAdmin]);
    ("GET /v1/admin/monitor", ProtectRoles (Endpoint "adminMonitor") [RoleAdmin; RoleOperator]);
    ("GET /v1/admin/monitor/bets", ProtectRoles (Endpoint "adminCurrentBets") [RoleAdmin; RoleOperator]);
    ("GET /v1/admin/monitor/rounds", ProtectRoles (Endpoint "adminRoundCountdowns") [RoleAdmin; RoleOperator]);
    ("GET /v1/admin/bets", ProtectRoles (Endpoint "adminBets") [RoleAdmin; RoleOperator]);
    ("GET /v1/admin/ledger", ProtectRoles (Endpoint "adminLedger") [RoleAdmin; RoleOperator]);
    ("GET /v1/admin/refunds-clearances", ProtectRoles (Endpoint "adminRefundClearances") [RoleAdmin; RoleOperator]);
    ("GET /v1/admin/dashboard", ProtectRoles (Endpoint "adminDashboard") [RoleAdmin; RoleOperator]);
    ("GET /v1/admin/users/{userID}/login-ips",
       ProtectRoles (Endpoint "adminUserLoginIPs") [RoleAdmin; RoleOperator]);
    ("GET /v1/admin/login-ips/{ip}/users", ProtectRoles (Endpoint "adminLoginIPUsers") [RoleAdmin; RoleOperator]);
    ("PUT /v1/admin/users/{userID}/virtual",
       ProtectRoles (SecondPassword (Endpoint "convertUserToVirtual")) [RoleAdmin; RoleOperator]);
    ("POST /v1/admin/virtual-accounts", ProtectRoles (Endpoint "createVirtualAccount") [RoleAdmin; RoleOperator]);
    ("GET /v1/admin/robot-plans", ProtectRoles (Endpoint "handleRobotPlans") [RoleAdmin; RoleOperator]);
    ("POST /v1/admin/robot-plans", ProtectRoles (Endpoint "handleRobotPlans") [RoleAdmin; RoleOperator]);
    ("GET /v1/admin/robot-plans/{planID}", ProtectRoles (Endpoint "handleRobotPlans") [RoleAdmin; RoleOperator]);
    ("PUT /v1/admin/robot-plans/{planID}", ProtectRoles (Endpoint "handleRobotPlans") [RoleAdmin; RoleOperator]);
    ("DELETE /v1/admin/robot-plans/{planID}", ProtectRoles (Endpoint "handleRobotPlans") [RoleAdmin; RoleOperator]);
    ("PUT /v1/admin/robot-plans/{planID}/enabled",
       ProtectRoles (Endpoint "handleRobotPlans") [RoleAdmin; RoleOperator]);
    ("PUT /v1/admin/virtual-accounts/{userID}/automation",
       ProtectRoles (Endpoint "retiredAutomation") [RoleAdmin; RoleOperator]);
    ("GET /v1/admin/configs", ProtectRoles (Endpoint "adminConfigs") [RoleAdmin]);
    ("GET /v1/admin/leaderboard-reward-rules", ProtectRoles (Endpoint "leaderboardRules") [RoleAdmin; RoleOperator]);
    ("PUT /v1/admin/leaderboard-reward-rules",
       ProtectRoles (SecondPassword (Endpoint "replaceLeaderboardRules")) [RoleAdmin; RoleOperator]);
    ("GET /v1/admin/leaderboard-rewards", ProtectRoles (Endpoint "leaderboardRewards") [RoleAdmin; RoleOperator]);
    ("PUT /v1/admin/configs/{key}", ProtectRoles (SecondPassword (Endpoint "putConfig")) [RoleAdmin]);
    ("GET /v1/admin/tasks/bet-configs", ProtectRoles (Endpoint "adminBetTaskConfigs") [RoleAdmin]);
    ("POST /v1/admin/tasks/bet-configs", ProtectRoles (SecondPassword (Endpoint "saveTaskConfig")) [RoleAdmin]);
    ("PUT /v1/admin/tasks/bet-configs/{taskID}",
       ProtectRoles (SecondPassword (Endpoint "saveTaskConfig")) [RoleAdmin]);
    ("PUT /v1/admin/tasks/bet-configs", ProtectRoles (SecondPassword (Endpoint "retiredActivityBatch")) [RoleAdmin]);
    ("DELETE /v1/admin/tasks/bet-configs/{taskID}",
       ProtectRoles (SecondPassword (Endpoint "taskState")) [RoleAdmin]);
    ("PUT /v1/admin/tasks/bet-configs/{taskID}/enabled",
       ProtectRoles (SecondPassword (Endpoint "taskState")) [RoleAdmin]);
    ("GET /v1/admin/tasks/progress", ProtectRoles (Endpoint "taskProgress") [RoleAdmin]);
    ("GET /v1/admin/game-types", ProtectRoles (Endpoint "adminGameTypes") [RoleAdmin; RoleOperator]);
    ("POST /v1/admin/game-types",
       ProtectRoles (SecondPassword (Endpoint "createGameType")) [RoleAdmin; RoleOperator]);
    ("PUT /v1/admin/game-types/{gameTypeID}",
       ProtectRoles (SecondPassword (Endpoint "updateGameType")) [RoleAdmin; RoleOperator]);
    ("GET /v1/admin/hash/config", ProtectRoles (Endpoint "adminHashConfig") [RoleAdmin; RoleOperator]);
    ("PUT /v1/admin/hash/config",
       ProtectRoles (SecondPassword (Endpoint "updateHashConfig")) [RoleAdmin; RoleOperator]);
    ("GET /v1/admin/game-rooms", ProtectRoles (Endpoint "adminGameRooms") [RoleAdmin; RoleOperator]);
    ("GET /v1/admin/rounds", ProtectRoles (Endpoint "adminRounds") [RoleAdmin; RoleOperator]);
    ("POST /v1/admin/lulu/draw-results",
       ProtectRoles (FirstPassword (Endpoint "confirmLuluManual")) [RoleAdmin; RoleOperator]);
    ("POST /v1/admin/lulu/send-code",
       ProtectRoles (FirstPassword (Endpoint "luluSMSLogin(true)")) [RoleAdmin; RoleOperator]);
    ("POST /v1/admin/lulu/login",
       ProtectRoles (FirstPassword (Endpoint "luluSMSLogin(false)")) [RoleAdmin; RoleOperator]);
    ("GET /v1/admin/lulu/config", ProtectRoles (Endpoint "adminLuluConfig") [RoleAdmin; RoleOperator]);
    ("PUT /v1/admin/lulu/config",
       ProtectRoles (FirstPassword (Endpoint "updateLuluConfig")) [RoleAdmin; RoleOperator]);
    ("PUT /v1/admin/lulu/room-play-config",
       ProtectRoles (SecondPassword (Endpoint "updateLuluRoomPlayConfig")) [RoleAdmin; RoleOperator]);
    ("PUT /v1/admin/lulu/room-play-configs",
       ProtectRoles (SecondPassword (Endpoint "updateLuluRoomPlayConfigs")) [RoleAdmin; RoleOperator]);
    ("GET /v1/admin/lulu/prime-time-configs",
       ProtectRoles (Endpoint "adminLuluPrimeTimeConfigs") [RoleAdmin; RoleOperator]);
    ("PUT /v1/admin/lulu/prime-time-config",
       ProtectRoles (SecondPassword (Endpoint "updateLuluPrimeTimeConfig")) [RoleAdmin; RoleOperator]);
    ("PUT /v1/admin/lulu/prime-time-configs",
       ProtectRoles (SecondPassword (Endpoint "updateLuluPrimeTimeConfigs")) [RoleAdmin; RoleOperator]);
    ("GET /v1/lulu/config", Protect (Endpoint "luluConfig"));
    ("POST /v1/lulu/deposits", Protect (Endpoint "createLuluOrder('deposit')"));
    ("POST /v1/lulu/withdrawals", Protect (Endpoint "createLuluOrder('withdrawal')"));
    ("GET /v1/lulu/orders", Protect (Endpoint "listLuluOrders(false)"));
    ("GET /v1/admin/lulu/orders", ProtectRoles (Endpoint "listLuluOrders(true)") [RoleAdmin; RoleOperator]);
    ("POST /v1/admin/lulu/orders/{orderID}/review",
       ProtectRoles (Endpoint "reviewLuluOrder") [RoleAdmin; RoleOperator]);
    ("GET /v1/admin/lulu/balance", ProtectRoles (Endpoint "luluBalance") [RoleAdmin; RoleOperator]);
    ("GET /v1/admin/lulu/transfers", ProtectRoles (Endpoint "luluTransfers") [RoleAdmin; RoleOperator]);
    ("GET /v1/admin/lulu/health", ProtectRoles (Endpoint "luluHealth") [RoleAdmin; RoleOperator]);
    ("POST /v1/point-withdrawals", Protect (Endpoint "requestPointWithdrawal"));
    ("GET /v1/point-withdrawals", Protect (Endpoint "pointWithdrawals"));
    ("POST /v1/admin/point-withdrawals/{withdrawalID}/review",
       ProtectRoles (Endpoint "reviewPointWithdrawal") [RoleAdmin; RoleOperator]);
    ("GET /v1/admin/point-withdrawals", ProtectRoles (Endpoint "adminPointWithdrawals") [RoleAdmin; RoleOperator]);
    ("POST /v1/stamina/consume", Protect (Endpoint "consumeStamina"));
    ("GET /v1/tasks/bet-progress", Protect (Endpoint "betTasks"));
    ("POST /v1/tasks/{taskID}/claim", Protect (Endpoint "claimBetTask"));
    ("GET /v1/activities/spins", Protect (Endpoint "spinConfigs"));
    ("POST /v1/activities/spins/{spinID}/play", Protect (Endpoint "playConfiguredSpin"));
    ("GET /v1/admin/spins", ProtectRoles (Endpoint "adminSpinConfigs") [RoleAdmin]);
    ("POST /v1/admin/spins", ProtectRoles (SecondPassword (Endpoint "saveSpinConfig")) [RoleAdmin]);
    ("PUT /v1/admin/spins/{spinID}", ProtectRoles (SecondPassword (Endpoint "saveSpinConfig")) [RoleAdmin]);
    ("PUT /v1/admin/spins", ProtectRoles (SecondPassword (Endpoint "retiredActivityBatch")) [RoleAdmin]);
    ("DELETE /v1/admin/spins/{spinID}", ProtectRoles (SecondPassword (Endpoint "spinState")) [RoleAdmin]);
    ("PUT /v1/admin/spins/{spinID}/enabled", ProtectRoles (SecondPassword (Endpoint "spinState")) [RoleAdmin]);
    ("GET /v1/admin/spin-records", ProtectRoles (Endpoint "spinRecords") [RoleAdmin]);
    ("GET /v1/activities/spin-records", Protect (Endpoint "spinRecords"));
    ("GET /v1/wallets/{accountID}/all", Protect (Endpoint "allBalances"));
    ("GET /v1/points/{accountID}/ledger", Protect (Endpoint "pointsLedger"));
    ("GET /v1/stamina/{accountID}/ledger", Protect (Endpoint "staminaLedger")) ]%string.

(** ** Requests *)

Record request : Type := mk_request {
  rq_method : string;
  rq_path : list string;
  rq_origin : string;
  rq_authorization : string;
  rq_body : raw
}.

(** A request ends in an answer with a status, or at an endpoint, with the
    claims of its token. *)
Inductive outcome : Type :=
| Answered (status : Z)
| Handled (endpoint : string) (claims : option AccessTokenClaims) (params : list (string * string)) (body : raw).

(** [Authenticator] and the parts of the server that guard: whether sessions and
    operation passwords are wired, and the allowed origins. *)
Record access_config : Type := mk_access {
  ac_auth : option bytes;
  ac_sessions : bool;
  ac_security : bool;
  ac_origins : list string
}.

Record route : Type := mk_route {
  rt_pattern : pattern;
  rt_handler : handler
}.

#[export] Instance route_eq_dec : EqDecision route.
Proof. solve_decision. Defined.

Definition all_routes : list route :=
  map (fun r => mk_route (pattern_of r.1) r.2) (admin_completion_routes ++ handler_routes).

Definition route_branch (r : route) : branch route := mk_branch (pt_path (rt_pattern r)) [] r.

Definition routes_for (method : string) : list (branch route) :=
  map route_branch (List.filter (fun r => bool_decide (pt_method (rt_pattern r) = method)) all_routes).

(** The method's own patterns, then those of GET for HEAD. *)
Definition find_route (method : string) (path : list string) : option (branch route) :=
  match match_path (routes_for method) path with
  | Some b => Some b
  | None => if bool_decide (method = "HEAD"%string) then match_path (routes_for "GET") path else None
  end.

(** Some other method has the path. *)
Definition other_method (path : list string) : bool :=
  existsb (fun m => bool_decide (is_Some (match_path (routes_for m) path))) ["GET"; "POST"; "PUT"; "DELETE"]%string.

(** *** amount_contract.go *)

Definition path_text (path : list string) : string :=
  String.concat "" (map (fun s => if bool_decide (s = "/"%string) then s else ("/" ++ s)%string) path).

Definition HasSuffix (s p : string) : bool :=
  (str_len p <=? str_len s) && bool_decide (String.substring (String.length s - String.length p) (String.length p) s = p).

Definition amount_paths : list string :=
  [ "/v1/bets"; "/v1/withdrawals"; "/v1/point-withdrawals"; "/v1/stamina/consume"; "/v1/admin/credits";
    "/v1/admin/wallet-adjustments"; "/v1/admin/spins"; "/v1/admin/tasks/bet-configs";
    "/v1/admin/leaderboard-reward-rules"; "/v1/admin/hash/config"; "/v1/admin/lulu/room-play-config";
    "/v1/admin/lulu/room-play-configs"; "/v1/admin/lulu/prime-time-config"; "/v1/admin/lulu/prime-time-configs";
    "/v1/admin/virtual-accounts" ]%string.

Definition amountInputRoute (r : request) : bool :=
  bool_decide (rq_method r ∈ ["POST"; "PUT"]%string) &&
  let p := path_text (rq_path r) in
  bool_decide (p = "/v1/admin/robot-plans"%string) || HasPrefix p "/v1/admin/robot-plans/" ||
  HasPrefix p "/v1/admin/spins/" || HasPrefix p "/v1/admin/tasks/bet-configs/" ||
  bool_decide (p ∈ amount_paths) ||
  HasPrefix p "/v1/admin/configs/" ||
  HasPrefix p "/v1/chat/rooms/" && HasSuffix p "/red-packets" ||
  HasPrefix p "/v1/admin/agents/" && HasSuffix p "/commissions" ||
  HasPrefix p "/v1/admin/virtual-accounts/" && HasSuffix p "/automation".

Definition amountRouteCurrency (path : string) : string :=
  if Contains path "/point-withdrawals" || HasPrefix path "/v1/points/" then "POINTS"
  else if HasPrefix path "/v1/stamina/" then "STAMINA" else "".

(** *** admin_security.go *)

Definition securityError (e : error) : Z :=
  if bool_decide (e = security_ErrInvalid) then 400
  else if bool_decide (e = security_ErrForbidden) then 403
  else if bool_decide (e = security_ErrNotSet) then 409
  else if bool_decide (e = security_ErrIncorrect) || bool_decide (e = security_ErrLoginPassword) then 401
  else if bool_decide (e = security_ErrLocked) then 429
  else 500.

(** A body that is one JSON object; null is the empty one. *)
Definition decodeSecurity (body : raw) : option (gmap string json) := j ← body; dec_map Some ∅ j.

Definition encode_map (m : gmap string json) : json := JObj (merge_sort key_before (map_to_list m)).

Section server.
Context `{Uuids} (is_uuid : string -> bool).
Context (hmac_sha256 : bytes -> bytes -> bytes) (Unmarshal : bytes -> raw).
Context (IDKey : bytes -> bytes -> Z -> Z -> Z -> Z -> bytes).
(** [amountCodec.convert] of a body, with the currency of the route. *)
Context (convert : string -> bool -> json -> res json).

(** [ServeHTTP] of a handler: its claims are those of the context. *)
Definition Handler : Type := option AccessTokenClaims -> request -> list (string * string) -> DB -> outcome * DB.

Definition answer (status : Z) : DB -> outcome * DB := fun db => (Answered status, db).

Definition subject_of (claims : option AccessTokenClaims) : string :=
  from_option at_Subject ""%string claims.

Definition roles_of (claims : option AccessTokenClaims) : AccessTokenClaims :=
  default (mk_claims "" "" [] 0 0) claims.

Section guards.
Context (cfg : access_config) (t : clock).

(** auth.go *)
Definition bearer (header : string) : option string :=
  if HasPrefix header "Bearer " then
    let token := String.substring 7 (String.length header - 7) header in
    if bool_decide (token = ""%string) then None else Some token
  else None.

Definition authenticator_verify (secret : bytes) (r : request) (db : DB) : option AccessTokenClaims :=
  token ← bearer (rq_authorization r);
  match VerifyAccessToken hmac_sha256 Unmarshal secret (s2b token) (go_now t) with
  | Err _ => None
  | Ok claims =>
      if (at_ExpiresAt claims =? 0) && negb (ac_sessions cfg) then None
      else if ac_sessions cfg then
        match ValidateSession is_uuid t claims db with
        | Ok _ => Some claims
        | Err _ => None
        end
      else Some claims
  end.

Definition Authenticate (next : Handler) (secret : bytes) : Handler := fun _ r params db =>
  match authenticator_verify secret r db with
  | Some claims => next (Some claims) r params db
  | None => answer 401 db
  end.

Definition RequireRoles (next : Handler) (roles : list string) (secret : bytes) : Handler :=
  Authenticate (fun claims r params =>
    if claims_HasRole (roles_of claims) roles then next claims r params else answer 403) secret.

(** server.go: without an authenticator everything passes. *)
Definition requestAmounts (next : Handler) : Handler := fun claims r params db =>
  if amountInputRoute r then
    let p := path_text (rq_path r) in
    let adjustment := bool_decide (p ∈ ["/v1/admin/credits"; "/v1/admin/wallet-adjustments"]%string) in
    match rq_body r ≫= fun j => match convert (amountRouteCurrency p) adjustment j with Ok j' => Some j' | Err _ => None end with
    | Some body => next claims (mk_request (rq_method r) (rq_path r) (rq_origin r) (rq_authorization r) (Some body)) params db
    | None => answer 400 db
    end
  else next claims r params db.

Definition protect (next : Handler) : Handler :=
  match ac_auth cfg with
  | None => requestAmounts next
  | Some secret => Authenticate (requestAmounts next) secret
  end.

Definition protectRoles (next : Handler) (roles : list string) : Handler :=
  match ac_auth cfg with
  | None => requestAmounts next
  | Some secret => RequireRoles (requestAmounts next) roles secret
  end.

(** admin_security.go: the password is checked and taken out of the body. *)
Definition verifyAdminSecurity (subject level password : string) (db : DB) : option Z * DB :=
  if bool_decide (password = ""%string) then (Some (securityError security_ErrInvalid), db)
  else if negb (ac_security cfg) then (Some 503, db)
  else
    match Verify is_uuid IDKey t subject level password db with
    | (Ok _, db') => (None, db')
    | (Err e, db') => (Some (securityError e), db')
    end.

Definition levelPassword (level : string) (next : Handler) : Handler := fun claims r params db =>
  let field := (level ++ "_password")%string in
  match decodeSecurity (rq_body r) with
  | None => answer (securityError security_ErrInvalid) db
  | Some body =>
      match v ← body !! field; dec_string "" v with
      | None => answer 400 db
      | Some password =>
          if bool_decide (password = ""%string) then answer 400 db
          else
            match verifyAdminSecurity (subject_of claims) level password db with
            | (Some status, db') => (Answered status, db')
            | (None, db') =>
                next claims (mk_request (rq_method r) (rq_path r) (rq_origin r) (rq_authorization r)
                  (Some (encode_map (delete field body)))) params db'
            end
      end
  end.

Definition firstPassword : Handler -> Handler := levelPassword "first".
Definition secondPassword : Handler -> Handler := levelPassword "second".

Definition endpoint (name : string) : Handler := fun claims r params db => (Handled name claims params (rq_body r), db).

Fixpoint serve_handler (h : handler) : Handler :=
  match h with
  | Endpoint name => endpoint name
  | FirstPassword next => firstPassword (serve_handler next)
  | SecondPassword next => secondPassword (serve_handler next)
  | Protect next => protect (serve_handler next)
  | ProtectRoles next roles => protectRoles (serve_handler next) roles
  end.

(** [ServeMux.ServeHTTP] with the bodies of routing_errors.go. *)
Definition serve_mux (r : request) : DB -> outcome * DB :=
  match find_route (rq_method r) (rq_path r) with
  | Some b => serve_handler (rt_handler (br_route b)) None r (br_params b)
  | None => answer (if other_method (rq_path r) then 405 else 404)
  end.

(** [withCORS]: a preflight request never goes further. *)
Definition allowed_origin (origin : string) : bool :=
  bool_decide ("*"%string ∈ ac_origins cfg) || bool_decide (origin ∈ ac_origins cfg).

Definition serve (r : request) : DB -> outcome * DB :=
  if bool_decide (rq_method r = "OPTIONS"%string) then
    if negb (bool_decide (rq_origin r = ""%string)) && negb (allowed_origin (rq_origin r)) then answer 403 else answer 204
  else serve_mux r.

End guards.

(** The accounts a caller may act for: his own, or any for the staff. *)
Definition authorizeAccount (claims : option AccessTokenClaims) (accountID : string) : bool :=
  match claims with
  | None => true
  | Some c => bool_decide (at_Subject c = accountID) || claims_HasRole c [RoleOperator; RoleAdmin]
  end.

End server.
