(* ===== verification/SettlementProofs.v ===== *)
(** * Settlement: what holds

    Payouts and commissions are exact; settling a round resolves every accepted
    bet of it once, pays exactly what its odds say, and leaves every other bet
    alone; settling again changes nothing; cancelling gives every stake back. *)

From S2P Require Import Prelude GoStrings Json Game Schema Store Books Custody Wallet Rebate Draws.
From S2P Require Import Settlement BetBooks Examples RebateProofs.

(** ** Arithmetic *)

Lemma payout_of_Ok rules b outcome p :
  0 < bt_stake_minor b <= int64_max ->
  payout_of rules b outcome = Ok p <->
  let '(m, d) := odds_of rules b outcome in
  0 < m /\ 0 < d /\ bt_stake_minor b * m <= int64_max /\ p = bt_stake_minor b * m / d.
Proof.
  intros Hs. unfold payout_of. destruct (odds_of rules b outcome) as [m d].
  rewrite guard_Ok, !orb_false_iff, !Z.leb_gt, Z.ltb_ge.
  set (s := bt_stake_minor b) in *. split.
  - intros [[[Hm Hd] Hle] [= <-]]. split; [done|split; [done|]].
    rewrite Z.quot_div_nonneg in Hle by (unfold int64_max; lia).
    assert (0 <= int64_max / m <= int64_max).
    { split; [apply Z.div_pos; unfold int64_max; lia|].
      apply Z.div_le_upper_bound; [lia|unfold int64_max; nia]. }
    rewrite wrap64_small in Hle by (unfold in_int64, int64_min; lia).
    assert (s * m <= int64_max).
    { pose proof (Z.mul_div_le int64_max m Hm). nia. }
    split; [done|]. rewrite (wrap64_small (s * m)) by (unfold in_int64, int64_min; nia).
    rewrite Z.quot_div_nonneg by nia. apply wrap64_small.
    assert (0 <= s * m / d) by (apply Z.div_pos; nia).
    assert (s * m / d <= int64_max) by (apply Z.div_le_upper_bound; nia).
    unfold in_int64, int64_min. lia.
  - intros (Hm & Hd & Hle & ->).
    assert (Hq : s <= int64_max / m) by (apply Z.div_le_lower_bound; lia).
    assert (Hqm : int64_max / m <= int64_max) by (apply Z.div_le_upper_bound; unfold int64_max in *; nia).
    rewrite (Z.quot_div_nonneg int64_max) by (unfold int64_max; lia).
    rewrite (wrap64_small (int64_max / m)) by (unfold in_int64, int64_min; lia).
    split; [done|]. f_equal.
    rewrite (wrap64_small (s * m)) by (unfold in_int64, int64_min; nia).
    rewrite Z.quot_div_nonneg by nia. apply wrap64_small.
    assert (0 <= s * m / d) by (apply Z.div_pos; nia).
    assert (s * m / d <= int64_max) by (apply Z.div_le_upper_bound; nia).
    unfold in_int64, int64_min. lia.
Qed.

(** The guard of a credit admits exactly the amounts that do not overflow. *)
Lemma credit_guard payout a :
  in_int64 payout -> 0 <= a <= int64_max -> a <= (int64_max - payout)%i64 ->
  0 <= payout /\ a + payout <= int64_max.
Proof.
  unfold in_int64. intros Hp Ha Hle. destruct (decide (0 <= payout)) as [|Hneg].
  - rewrite wrap64_small in Hle by (unfold in_int64, int64_min, int64_max in *; lia). lia.
  - exfalso. unfold wrap64 in Hle. unfold int64_min, int64_max in *.
    rewrite <- (Z.mod_add _ (-1)), Z.mod_small in Hle by lia. lia.
Qed.

(** Whatever the stake, a payout is an [int64]. *)
Lemma payout_of_range rules b outcome p : payout_of rules b outcome = Ok p -> in_int64 p.
Proof.
  unfold payout_of. destruct (odds_of rules b outcome) as [m d].
  rewrite guard_Ok. intros [_ [= <-]]. auto with go.
Qed.

Lemma Calculate_range base : forall chain level rate result out,
  calculate_loop base level rate chain result = Ok out ->
  Forall (fun a => 0 <= al_AmountMinor a <= int64_max) result ->
  Forall (fun a => 0 <= al_AmountMinor a <= int64_max) out.
Proof.
  induction chain as [|a chain IH]; intros level rate result out; cbn [calculate_loop].
  { by intros [= <-]. }
  rewrite guard_Ok. intros [_ Hrun] Hf. destruct (_ || _) in Hrun; [by eapply IH|].
  apply IH in Hrun; [done|]. destruct (0 <? _) eqn:E; [|done]. bool_to_prop.
  apply Forall_app. split; [done|]. constructor; [|done]. cbn. unfold differential_amount in *.
  match goal with |- _ <= wrap64 ?z <= _ => pose proof (wrap64_range z) as Hr end.
  unfold in_int64 in Hr. lia.
Qed.

(** ** The parts that leave the bets alone *)

Section asides.
Context `{Uuids}.

Lemma PayTx_aside now bet currency a :
  0 <= al_AmountMinor a <= int64_max -> aside (PayTx now bet currency a).
Proof.
  intros Ha. apply aside_intro; [by apply PayTx_sound|]. intros db r db' Hrun.
  unfold PayTx, select_id, find_wallet in Hrun. cbv zeta in Hrun. by tx_steps.
Qed.

Lemma pay_all_aside now bet currency l :
  Forall (fun a => 0 <= al_AmountMinor a <= int64_max) l -> aside (pay_all now bet currency l).
Proof.
  induction 1 as [|a l Ha _ IH]; cbn [pay_all]; [auto with aside|].
  apply aside_bind; [by apply PayTx_aside|done].
Qed.

Lemma ensure_wallets_aside now rs : aside (ensure_wallets now rs).
Proof.
  induction rs as [|[u c] rs IH]; cbn [ensure_wallets]; [auto with aside|].
  apply aside_bind; [apply aside_gets|]. intros w. apply aside_bind; [|done].
  destruct w; [auto with aside|]. intros db r db' Hrun Hb. tx_steps.
  - split; [done|split; [by apply quiet_app|done]].
  - split; [money_simpl; by apply books_open|split; [quiet_steps|done]].
Qed.

Lemma publish_results_aside roundID at_ rows us : aside (publish_results roundID at_ rows us).
Proof.
  induction us as [|u us IH]; cbn [publish_results]; [auto with aside|].
  apply aside_bind; [apply aside_gets|]. intros p. apply aside_bind; [|done].
  apply aside_still. intros db r db' Hrun. by tx_steps.
Qed.

Lemma calculateCommission_range stake rate : in_int64 (calculateCommission stake rate).
Proof. unfold calculateCommission. auto with go. Qed.

(** The wallet of a legacy agent may have to be opened first. *)
Lemma commission_wallet_spec now agent currency db wid z db' :
  commission_wallet now agent currency db = Ok ((wid, z), db') -> books db.(money) ->
  books db'.(money) /\ quiet db db' /\ stays db db' /\
  exists w, wallets db'.(money) !! wid = Some w /\ w_available w = z.
Proof.
  unfold commission_wallet, find_wallet. intros Hrun Hb. tx_steps; simplify_eq.
  - wallet_rows. split; [done|split; [done|split; [done|by eexists]]].
  - split; [money_simpl; by apply books_open|split; [quiet_steps|split; [done|]]].
    eexists. split; [apply lookup_insert_eq|done].
Qed.

Lemma applyCommission_aside now bet agent currency stake :
  aside (applyCommission now bet agent currency stake).
Proof.
  intros db r db' Hrun Hb. unfold applyCommission, select_id in Hrun. cbv zeta in Hrun.
  tx_steps; bool_to_prop; try (split; [done|split; [by apply quiet_app|done]]).
  all: match goal with E : commission_wallet _ _ _ ?d = Ok _ |- _ =>
    pose proof (commission_wallet_spec _ _ _ _ _ _ _ E Hb) as (Hb1 & Hq & Hs & wal & Hw & Hz);
    assert (Hq0 : quiet db0 d) by (by apply quiet_app); assert (Hs0 : stays db0 d) by done end.
  all: money_simpl; try congruence. simplify_map_eq.
  pose proof (calculateCommission_range stake (from_option ar_rate_basis_points 0 (tbl (app db0) !! agent))) as Hr.
  set (amount := calculateCommission _ _) in *. unfold in_int64 in Hr.
  match goal with E : wallets (money db1) !! _ = Some ?x |- _ => rename x into wl;
    destruct (bounded_lookup _ _ _ Hb1 E) as [Hba _] end.
  assert (Hmx : (int64_max - amount)%i64 = int64_max - amount)
    by (apply exact_sub_pos; unfold int64_max in *; lia).
  rewrite Hmx in *.
  assert (Hax : (w_available wl + amount)%i64 = w_available wl + amount)
    by (apply wrap64_small; unfold in_int64, int64_min; lia).
  match goal with |- _ /\ quiet _ ?d' /\ _ => assert (Hmore : books (money d') /\ quiet db1 d') end.
  { eapply posted_sound; [reflexivity|split; try done; cbn; rewrite ?Hax; lia|done..]. }
  destruct Hmore as [Hb2 Hq2]. split; [exact Hb2|split; [by repeat (etrans; [eassumption|])|]].
  etrans; [exact Hs0|]. etrans; [exact Hs|]. done.
Qed.

Definition paid_amounts (p : prepared) : Prop :=
  Forall (fun a => 0 <= al_AmountMinor a <= int64_max) (pb_allocations p).

Lemma pay_agents_aside t p : paid_amounts p -> aside (pay_agents t p).
Proof.
  intros Hp. unfold pay_agents. cbv zeta. repeat case_match; try apply aside_ret.
  - apply applyCommission_aside.
  - by apply pay_all_aside.
Qed.

Context (taskHook : option (string -> string -> Z -> Z -> Tx ())) `{!TaskHook taskHook}.

Lemma count_task_Ok p db u db' : count_task taskHook p db = Ok (u, db') -> untouched db db'.
Proof.
  unfold count_task. cbv zeta. intros Hrun. destruct taskHook as [h|] eqn:E; [|by tx_steps].
  case_match; [by eapply hook_counts|by tx_steps].
Qed.

(** Preparing a bet reads only. *)
Lemma prepare_Ok rules plays outcome b db p db' :
  prepare rules plays outcome b db = Ok (p, db') -> db' = db /\ pb_bet p = b /\ paid_amounts p.
Proof.
  unfold prepare, LoadTx, select_id. intros Hrun. cbv zeta in Hrun. tx_steps; try done.
  all: split; [done|split; [done|]]; unfold paid_amounts; cbn; try constructor.
  all: match goal with E : Calculate _ _ _ _ = Ok _ |- _ => unfold Calculate in E;
    rewrite !guard_Ok in E; destruct E as (_ & _ & E); by eapply Calculate_range end.
Qed.

Lemma prepare_all_Ok rules plays outcome : forall bs db ps db',
  prepare_all rules plays outcome bs db = Ok (ps, db') ->
  db' = db /\ map pb_bet ps = bs /\ Forall paid_amounts ps.
Proof.
  induction bs as [|b bs IH]; intros db ps db' Hrun; cbn [prepare_all] in Hrun.
  { by tx_steps. }
  apply tx_bind_Ok in Hrun as (p & d1 & H1 & Hrun).
  apply tx_bind_Ok in Hrun as (qs & d2 & H2 & Hrun). tx_steps.
  apply prepare_Ok in H1 as (-> & <- & Hp). apply IH in H2 as (-> & <- & Hps).
  split; [done|split; [done|by constructor]].
Qed.

(** ** One bet *)

(** How a bet ends: its status and its payout. *)
Definition verdict (rules : Rules) (plays : gmap string LuluPlay) (outcome : list string)
    (b : bet_row) : res (string * Z) :=
  won ← bet_wins rules plays b outcome;
  if won : bool then p ← payout_of rules b outcome; Ok ("won"%string, p)
  else Ok ("lost"%string, bt_payout_minor b).

(** What the wallet of the bettor receives. *)
Definition prize (status : string) (payout : Z) (b : bet_row) : Z :=
  if bool_decide (status = "won"%string) && negb (bt_is_simulated b) then payout else 0.

Definition tally (status : string) (payout : Z) (r : SettlementResult) : SettlementResult :=
  if bool_decide (status = "won"%string) then add_won payout r else add_lost r.

(** Bet [id] went from [b] to [b'] and the ledger paid [amount] for it. *)
Record resolves (btype id : string) (b' : bet_row) (amount : Z) (db db' : DB) : Prop := {
  rs_bets : bets db'.(app) = <[id := b']> (bets db.(app));
  rs_rounds : rounds db'.(app) = rounds db.(app);
  rs_plays : lulu_play_configs db'.(app) = lulu_play_configs db.(app);
  rs_credited i : credited btype i db'.(money) =
    credited btype i db.(money) + (if bool_decide (i = id) then amount else 0)
}.

Lemma resolves_aside btype id b' amount d1 d2 d3 :
  stays d1 d2 -> resolves btype id b' amount d2 d3 -> resolves btype id b' amount d1 d3.
Proof.
  intros [Hb Hr Hp He] [Hb' Hr' Hp' Hc']. split; try congruence.
  intros i. rewrite Hc'. f_equal. by apply credited_entries.
Qed.

Lemma credited_post btype id li w now db i :
  li_business_type li = btype -> li_business_id li = id ->
  (btype ∈ ["bet"; "settlement"; "refund"; "bet_cancel"])%string ->
  credited btype i (money (post_ledger li w now db)) =
  credited btype i (money db) + (if bool_decide (i = id) then default (li_amount li) (li_available_delta li) else 0).
Proof.
  intros <- <- Hin. money_simpl. rewrite credited_cons, money_eta.
  - unfold of_bet. cbn [ledger_row_of le_business_type le_business_id le_available_delta].
    rewrite (bool_decide_true (_ = li_business_type li)) by done. cbn [andb].
    rewrite (bool_decide_ext (li_business_id li = i) (i = li_business_id li)) by done. lia.
  - unfold is_bet_entry. cbn. by apply bool_decide_true.
Qed.

Lemma update_bet_Ok id f b db u db' :
  update_bet id f db = Ok (u, db') -> bets db.(app) !! id = Some b -> db' = put_row id (f b) db.
Proof. unfold update_bet. intros Hrun Hb. tx_steps; cbn in *; simplify_eq; done. Qed.

Lemma update_bet_money id f db (u : ()) db' : update_bet id f db = Ok (u, db') -> money db' = money db.
Proof. unfold update_bet. intros Hrun. by tx_steps. Qed.

(** The bet row rewritten, with and without money paid to its wallet. *)
Lemma resolve_row btype id b' db d :
  untouched db d -> books db.(money) ->
  books (put_row id b' d).(money) /\ quiet db (put_row id b' d) /\ resolves btype id b' 0 db (put_row id b' d).
Proof.
  intros Hu Hb. pose proof Hu as [Hm Hw Hp Hbt Hr Hpl].
  split; [money_simpl; by rewrite Hm|split; [by apply quiet_app|]]. split; cbn; try congruence.
  intros i. rewrite Hm. case_bool_decide; lia.
Qed.

Lemma resolve_paid btype etype id b' db d wid w now t entryID amount :
  untouched db d -> books db.(money) -> (btype ∈ ["bet"; "settlement"; "refund"; "bet_cancel"])%string ->
  wallets db.(money) !! wid = Some w -> 0 <= w_available w + amount <= int64_max ->
  let w' := wallet_after w (fun _ => w_available w + amount) w_frozen t in
  let d1 := put_row id b' (put_wallet wid w' d) in
  let d' := post_ledger (entry entryID wid btype id etype amount (w_available w + amount)) w' now (tick d1) in
  books d'.(money) /\ quiet db d' /\ resolves btype id b' amount db d'.
Proof.
  intros Hu Hb Hin Hw Hmax w' d1 d'. pose proof Hu as [Hm Hwd Hp Hlu Hbt Hr Hpl].
  destruct (bounded_lookup _ _ _ Hb Hw) as [Hba Hbf].
  assert (Hbq : books (money d') /\ quiet db d').
  { eapply (posted_sound db d' _ wid w w' (ledger_row_of w' now
      (entry entryID wid btype id etype amount (w_available w + amount)))); [reflexivity|split; try done|done|exact Hwd|exact Hp|exact Hlu|exact Hb].
    - unfold w', wallet_ok. cbn. rewrite !andb_true_iff, !Z.leb_le. lia.
    - unfold d', d1. money_simpl. by rewrite Hm.
    - cbn. lia.
    - cbn. lia. }
  split; [apply Hbq|split; [apply Hbq|]]. split; try (cbn; congruence).
  intros i. unfold d'. rewrite (credited_post btype id) by done. cbn [default li_amount li_available_delta entry].
  unfold d1. rewrite money_tick, money_put_row, money_put_wallet. f_equal. apply credited_entries.
  unfold bet_entries. cbn. by rewrite Hm.
Qed.

Lemma settle_bet_run rules plays outcome at_ p now result db r db' :
  settle_bet taskHook rules plays outcome at_ p now result db = Ok (r, db') ->
  bets db.(app) !! ab_id (pb_bet p) = Some (ab_row (pb_bet p)) -> books db.(money) ->
  let row := ab_row (pb_bet p) in
  books db'.(money) /\ quiet db db' /\ exists status payout balance,
    verdict rules plays outcome row = Ok (status, payout) /\
    resolves "settlement" (ab_id (pb_bet p)) (set_settled status payout at_ balance row)
      (prize status payout row) db db' /\
    r = tally status payout result.
Proof.
  intros Hrun Hb Hbooks row. unfold settle_bet, wallet_by_id in Hrun. cbv zeta in Hrun. fold row in Hrun, Hb.
  tx_steps; bool_to_prop.

  all: match goal with E : count_task _ _ _ = Ok _ |- _ => apply count_task_Ok in E as Hu end.
  all: pose proof Hb as Hb'; rewrite <- (un_bets _ _ Hu) in Hb'.
  all: match goal with E : update_bet _ _ _ = Ok _ |- _ =>
    eapply update_bet_Ok in E; [|exact Hb']; subst end.
  all: match goal with Hu : untouched ?d _, E : wallets (money ?d) !! _ = Some ?x |- _ =>
    rename x into wal, E into Hwal end.
  all: set (id := ab_id (pb_bet p)) in *.
  - pose proof (resolve_row "settlement" id (set_settled "lost" (bt_payout_minor row) at_ (w_available wal) row)
      _ _ Hu Hbooks) as (? & ? & ?).
    split; [done|split; [done|]]. exists "lost"%string, (bt_payout_minor row), (w_available wal).
    unfold verdict. rewrite H0. done.
  - match goal with E : payout_of _ _ _ = Ok ?x |- _ => rename x into payout, E into Hpay end.
    pose proof (resolve_row "settlement" id (set_settled "won" payout at_ (w_available wal) row)
      _ _ Hu Hbooks) as (? & ? & ?).
    split; [done|split; [done|]]. exists "won"%string, payout, (w_available wal).
    unfold verdict, prize. rewrite H0. cbn. rewrite Hpay, E0. done.
  - match goal with E : payout_of _ _ _ = Ok ?x |- _ => rename x into payout, E into Hpay end.
    cbn in *. rewrite (un_money _ _ Hu) in *. congruence.
  - match goal with E : payout_of _ _ _ = Ok ?x |- _ => rename x into payout, E into Hpay end.
    pose proof (payout_of_range _ _ _ _ Hpay) as Hr. unfold in_int64 in Hr.
    destruct (bounded_lookup _ _ _ Hbooks Hwal) as [Hba _].
    cbn in H6. rewrite (un_money _ _ Hu), Hwal in H6. injection H6 as <-.
    destruct (credit_guard payout (w_available wal) Hr Hba ltac:(assumption)) as [Hp0 Hp1].
    rewrite (wrap64_small (w_available wal + payout)) in * by (unfold in_int64, int64_min; lia).
    cbn [li_wallet_id entry] in *. money_simpl. simplify_map_eq.
    match goal with |- context [entry ?e _ "settlement" _ _ _ _] =>
      destruct (resolve_paid "settlement" "settlement_credit" id
        (set_settled "won" payout at_ (w_available wal + payout) row) db2 db0 (bt_wallet_id row) wal now at_
        e payout Hu Hbooks) as (Hb1 & Hq1 & Hr1); [set_solver|exact Hwal|lia|] end.
    split; [exact Hb1|split; [exact Hq1|]].
    exists "won"%string, payout, (w_available wal + payout). unfold verdict, prize. rewrite H0. cbn. rewrite Hpay, E0.
    done.
Qed.

(** ** All the bets of a round *)

Definition bet_id (p : prepared) : string := ab_id (pb_bet p).
Definition bet_of (p : prepared) : bet_row := ab_row (pb_bet p).

(** Bet [id] was resolved by its verdict, and its prize credited. *)
Definition resolved (rules : Rules) (plays : gmap string LuluPlay) (outcome : list string) (at_ : Z)
    (id : string) (b : bet_row) (db db' : DB) : Prop := exists status payout balance,
  verdict rules plays outcome b = Ok (status, payout) /\
  bets db'.(app) !! id = Some (set_settled status payout at_ balance b) /\
  credited "settlement" id db'.(money) = credited "settlement" id db.(money) + prize status payout b.

Definition same_bet (btype id : string) (db db' : DB) : Prop :=
  bets db'.(app) !! id = bets db.(app) !! id /\
  credited btype id db'.(money) = credited btype id db.(money).

Lemma stays_same btype id d1 d2 : stays d1 d2 -> same_bet btype id d1 d2.
Proof. intros [Hb _ _ He]. split; [by rewrite Hb|by apply credited_entries]. Qed.

Lemma resolves_same btype id b' n i d1 d2 :
  resolves btype id b' n d1 d2 -> i <> id -> same_bet btype i d1 d2.
Proof.
  intros [Hb _ _ Hc] Hne. split; [by rewrite Hb, lookup_insert_ne|].
  rewrite Hc, bool_decide_false by done. lia.
Qed.

Lemma resolved_frame rules plays outcome at_ id b d1 d2 d3 d4 :
  resolved rules plays outcome at_ id b d2 d3 ->
  same_bet "settlement" id d1 d2 -> same_bet "settlement" id d3 d4 ->
  resolved rules plays outcome at_ id b d1 d4.
Proof.
  intros (st & pay & bal & Hv & Hb & Hc) [_ E] [F G]. exists st, pay, bal.
  split; [done|split; [congruence|lia]].
Qed.

(** The totals a settled round reports. *)
Definition won_in (roundID : string) (db : DB) : Z := sum_map (count_status roundID "won") (bets db.(app)).
Definition lost_in (roundID : string) (db : DB) : Z := sum_map (count_status roundID "lost") (bets db.(app)).
Definition paid_in (roundID : string) (db : DB) : Z := sum_map (payout_if_won roundID) (bets db.(app)).

(** The running result follows the totals of the table. *)
Definition tallied (roundID : string) (r r' : SettlementResult) (db db' : DB) : Prop :=
  sr_RoundID r' = sr_RoundID r /\ sr_Outcome r' = sr_Outcome r /\ sr_SettledAt r' = sr_SettledAt r /\
  sr_WonBetCount r' = sr_WonBetCount r + (won_in roundID db' - won_in roundID db) /\
  sr_LostBetCount r' = sr_LostBetCount r + (lost_in roundID db' - lost_in roundID db) /\
  sr_PayoutMinor r' = wrap64 (sr_PayoutMinor r + (paid_in roundID db' - paid_in roundID db)).

Lemma tallied_refl roundID r db : in_int64 (sr_PayoutMinor r) -> tallied roundID r r db db.
Proof. intros Hr. repeat (split; [done || lia|]). rewrite Z.sub_diag, Z.add_0_r. by rewrite wrap64_small. Qed.

Lemma tallied_trans roundID r1 r2 r3 d1 d2 d3 :
  tallied roundID r1 r2 d1 d2 -> tallied roundID r2 r3 d2 d3 -> tallied roundID r1 r3 d1 d3.
Proof.
  intros (A1 & A2 & A3 & A4 & A5 & A6) (B1 & B2 & B3 & B4 & B5 & B6).
  repeat (split; [congruence || lia|]). rewrite B6, A6, wrap64_wrap. f_equal. lia.
Qed.

Lemma tallied_stays roundID r r' d1 d2 d3 :
  stays d1 d2 -> tallied roundID r r' d2 d3 -> tallied roundID r r' d1 d3.
Proof. intros [Hb _ _ _]. unfold tallied, won_in, lost_in, paid_in. by rewrite Hb. Qed.

Lemma tally_tallied roundID rules plays outcome at_ b id status payout balance n result db db' :
  verdict rules plays outcome b = Ok (status, payout) -> is_accepted roundID b = true ->
  bets db.(app) !! id = Some b -> in_int64 (sr_PayoutMinor result) ->
  resolves "settlement" id (set_settled status payout at_ balance b) n db db' ->
  tallied roundID result (tally status payout result) db db'.
Proof.
  intros Hv Ha Hb Hr [Hbets _ _ _].
  apply andb_prop in Ha as [Hround Hacc]. bool_to_prop.
  assert (Hst : status = "won"%string \/ status = "lost"%string).
  { unfold verdict in Hv. apply res_bind_Ok in Hv as ([] & _ & Hv).
    - apply res_bind_Ok in Hv as (x & _ & [= <- _]). by left.
    - injection Hv as <- _. by right. }
  unfold tallied, won_in, lost_in, paid_in. rewrite Hbets, !(sum_map_update _ _ _ b) by done.
  assert (E0 : count_status roundID "won" b = 0 /\ count_status roundID "lost" b = 0 /\ payout_if_won roundID b = 0).
  { unfold count_status, payout_if_won. by rewrite Hacc, !andb_false_r. }
  destruct E0 as (-> & -> & ->).
  set (won := sum_map (count_status roundID "won") _). set (lost := sum_map (count_status roundID "lost") _).
  set (paid := sum_map (payout_if_won roundID) _).
  unfold count_status, payout_if_won. cbn [set_settled bt_round_id bt_status bt_payout_minor].
  rewrite Hround, (bool_decide_true (roundID = roundID)) by done.
  destruct Hst as [-> | ->]; unfold tally; cbn -[won lost paid];
    rewrite ?(bool_decide_true ("won" = "won")), ?(bool_decide_true ("lost" = "lost")),
      ?(bool_decide_false ("won" = "lost")), ?(bool_decide_false ("lost" = "won")) by done;
    cbn -[won lost paid]; repeat (split; [done || lia|]).
  - f_equal. lia.
  - rewrite wrap64_small; [lia|]. by replace (_ + _) with (sr_PayoutMinor result) by lia.
Qed.

(** What resolving a list of accepted bets does. *)
Record round_resolved (roundID : string) (rules : Rules) (plays : gmap string LuluPlay)
    (outcome : list string) (at_ : Z) (result r : SettlementResult)
    (listed : string -> bet_row -> Prop) (db db' : DB) : Prop := {
  rr_books : books db'.(money);
  rr_quiet : quiet db db';
  rr_tallied : tallied roundID result r db db';
  rr_resolved id b : listed id b -> resolved rules plays outcome at_ id b db db';
  rr_others id : (forall b, ~ listed id b) -> same_bet "settlement" id db db'
}.

Lemma settle_bets_run t roundID rules plays outcome : forall ps result db r db',
  settle_bets taskHook t rules plays outcome ps result db = Ok (r, db') ->
  NoDup (map bet_id ps) -> Forall paid_amounts ps ->
  Forall (fun p => bets db.(app) !! bet_id p = Some (bet_of p) /\ is_accepted roundID (bet_of p) = true) ps ->
  in_int64 (sr_PayoutMinor result) -> books db.(money) ->
  round_resolved roundID rules plays outcome (timestamptz (go_now t)) result r
    (fun id b => exists p, p ∈ ps /\ bet_id p = id /\ bet_of p = b) db db' /\
  rounds db'.(app) = rounds db.(app).
Proof.
  induction ps as [|p ps IH]; intros result db r db' Hrun Hnd Hpaid Hrows Hr Hb; cbn [settle_bets] in Hrun.
  { tx_steps. split; [|done]. split; [done..|by apply tallied_refl| |done].
    by intros id b (p & Hp%elem_of_nil & _). }
  apply tx_bind_Ok in Hrun as ([] & d1 & H1 & Hrun). apply tx_bind_Ok in Hrun as (r2 & d2 & H2 & Hrun).
  apply Forall_cons in Hpaid as [Hp Hpaid]. apply Forall_cons in Hrows as [[Hrow Hacc] Hrows].
  cbn [map] in Hnd. apply NoDup_cons in Hnd as [Hnew Hnd].
  destruct (pay_agents_aside t p Hp _ _ _ H1 Hb) as (Hb1 & Hq1 & Hs1).
  assert (Hrow1 : bets d1.(app) !! bet_id p = Some (bet_of p)) by (by rewrite (st_bets _ _ Hs1)).
  destruct (settle_bet_run _ _ _ _ _ _ _ _ _ _ H2 Hrow1 Hb1)
    as (Hb2 & Hq2 & status & payout & balance & Hv & Hres & ->). fold (bet_id p) (bet_of p) in Hv, Hres.
  pose proof (tally_tallied _ _ _ _ _ _ _ _ _ _ _ _ _ _ Hv Hacc Hrow1 Hr Hres) as Htal.
  assert (Hr2 : in_int64 (sr_PayoutMinor (tally status payout result)))
    by (destruct Htal as (_ & _ & _ & _ & _ & ->); apply wrap64_range).
  assert (Hrows2 : Forall (fun p => bets d2.(app) !! bet_id p = Some (bet_of p) /\
      is_accepted roundID (bet_of p) = true) ps).
  { rewrite Forall_forall in *. intros q Hq. destruct (Hrows q Hq) as [Hqb Hqa]. split; [|done].
    rewrite (rs_bets _ _ _ _ _ _ Hres), lookup_insert_ne; [by rewrite (st_bets _ _ Hs1)|].
    intros Heq. apply Hnew. rewrite Heq. apply list_elem_of_fmap. by exists q. }
  destruct (IH _ _ _ _ Hrun Hnd Hpaid Hrows2 Hr2 Hb2) as [[Hb3 Hq3 Htal3 Hres3 Hoth3] Hrd3].
  assert (Hstep : same_bet "settlement" (bet_id p) d2 db').
  { apply Hoth3. intros b (q & Hq & Hid & _). apply Hnew. rewrite <- Hid. apply list_elem_of_fmap. by exists q. }
  split; [split|by rewrite Hrd3, (rs_rounds _ _ _ _ _ _ Hres), (st_rounds _ _ Hs1)].
  - done.
  - etrans; [exact Hq1|]. by etrans.
  - eapply tallied_stays; [exact Hs1|]. by eapply tallied_trans.
  - intros id b (q & Hq & <- & <-). apply elem_of_cons in Hq as [->|Hq].
    + apply (resolved_frame _ _ _ _ _ _ db d1 d2 db'); [|by apply stays_same|done].
      exists status, payout, balance. split; [done|]. destruct Hres as [-> _ _ ->].
      rewrite lookup_insert_eq, bool_decide_true by done. done.
    + apply (resolved_frame _ _ _ _ _ _ db d2 db' db'); [apply Hres3; by exists q| |done].
      destruct (stays_same "settlement" (bet_id q) _ _ Hs1) as [E1 E2].
      destruct (resolves_same _ _ _ _ (bet_id q) _ _ Hres) as [E3 E4].
      { intros Heq. apply Hnew. rewrite <- Heq. apply list_elem_of_fmap. by exists q. }
      split; congruence.
  - intros id Hno.
    destruct (stays_same "settlement" id _ _ Hs1) as [E1 E2].
    destruct (resolves_same _ _ _ _ id _ _ Hres) as [E3 E4].
    { intros ->. apply (Hno (bet_of p)). exists p. split; [by apply list_elem_of_here|done]. }
    destruct (Hoth3 id) as [E5 E6].
    { intros b (q & Hq & Hx). apply (Hno b). exists q. split; [by apply elem_of_cons; right|done]. }
    split; congruence.
Qed.

(** Steps around the loop that touch neither the bets nor their entries. *)
Definition around (d1 d2 : DB) : Prop :=
  quiet d1 d2 /\ bets d2.(app) = bets d1.(app) /\ bet_entries d2.(money) = bet_entries d1.(money).

Lemma around_same btype id d1 d2 : around d1 d2 -> same_bet btype id d1 d2.
Proof. intros (_ & Hb & He). split; [by rewrite Hb|by apply credited_entries]. Qed.

Lemma around_stays d1 d2 : quiet d1 d2 -> stays d1 d2 -> around d1 d2.
Proof. intros Hq [Hb _ _ He]. done. Qed.

Lemma round_resolved_around roundID rules plays outcome at_ r0 r P d1 d2 d3 d4 :
  around d1 d2 -> around d3 d4 -> books d4.(money) ->
  round_resolved roundID rules plays outcome at_ r0 r P d2 d3 ->
  round_resolved roundID rules plays outcome at_ r0 r P d1 d4.
Proof.
  intros H12 H34 Hb [_ Hq Ht Hr Ho]. pose proof H12 as (Hq1 & Hb1 & _). pose proof H34 as (Hq3 & Hb3 & _).
  split; [done| |unfold tallied, won_in, lost_in, paid_in in *; by rewrite Hb3, <- Hb1|..].
  - etrans; [exact Hq1|]. by etrans.
  - intros id b Hp. eapply resolved_frame; [by apply Hr|by apply around_same..].
  - intros id Hno. destruct (Ho id Hno) as [E1 E2].
    destruct (around_same "settlement" id _ _ H12), (around_same "settlement" id _ _ H34).
    split; congruence.
Qed.

Lemma round_resolved_ext roundID rules plays outcome at_ r0 r (P Q : string -> bet_row -> Prop) d1 d2 :
  (forall id b, P id b <-> Q id b) -> round_resolved roundID rules plays outcome at_ r0 r P d1 d2 ->
  round_resolved roundID rules plays outcome at_ r0 r Q d1 d2.
Proof.
  intros HPQ [Hb Hq Ht Hr Ho]. split; try done.
  - intros id b Hp. by apply Hr, HPQ.
  - intros id Hno. apply Ho. intros b Hp. by eapply Hno, HPQ.
Qed.

(** The bets settlement resolves. *)
Definition due_bet (roundID : string) (db : DB) (id : string) (b : bet_row) : Prop :=
  bets db.(app) !! id = Some b /\ is_accepted roundID b = true /\
  is_Some (wallets db.(money) !! bt_wallet_id b).

Definition start_result (roundID : string) (outcome : list string) (at_ : Z) : SettlementResult :=
  mk_SettlementResult roundID outcome 0 0 0 at_.

Definition plays_of (roundID : string) (rules : Rules) (db : DB) (plays : gmap string LuluPlay) : Prop :=
  if sharedLuluRules rules then loadLuluPlaysTx roundID db = Ok (plays, db) else plays = ∅.

Lemma update_round_Ok id f db u db' :
  update_round id f db = Ok (u, db') ->
  around db db' /\ money db' = money db /\
  rounds db'.(app) = (match rounds db.(app) !! id with
                      | Some r => <[id := f r]> (rounds db.(app)) | None => rounds db.(app) end) /\
  lulu_play_configs db'.(app) = lulu_play_configs db.(app).
Proof.
  unfold update_round. intros Hrun. tx_steps; cbn in *.
  - rewrite H0. split; [by repeat split|done].
  - rewrite H0. split; [|done]. by repeat split.
Qed.

Lemma prepared_due roundID db ps id b :
  map pb_bet ps = accepted_bets roundID db ->
  (exists p, p ∈ ps /\ bet_id p = id /\ bet_of p = b) <-> due_bet roundID db id b.
Proof.
  intros Hps. split.
  - intros (p & Hp & <- & <-).
    assert (Hin : pb_bet p ∈ accepted_bets roundID db).
    { rewrite <- Hps. apply list_elem_of_fmap. by exists p. }
    apply elem_of_accepted in Hin as (Hb & Ha & w & Hw & _). split; [done|split; [done|by exists w]].
  - intros (Hb & Ha & w & Hw).
    assert (Hin : mk_acceptedBet id b (w_currency w) ∈ accepted_bets roundID db).
    { apply elem_of_accepted. split; [done|split; [done|by exists w]]. }
    rewrite <- Hps in Hin. apply list_elem_of_fmap in Hin as (p & Hp & Hin).
    exists p. unfold bet_id, bet_of. by rewrite <- Hp.
Qed.

Lemma aside_around {A} (m : Tx A) db a db' :
  aside m -> m db = Ok (a, db') -> books db.(money) ->
  books db'.(money) /\ around db db' /\ rounds db'.(app) = rounds db.(app).
Proof.
  intros Hm Hrun Hb. destruct (Hm _ _ _ Hrun Hb) as (Hb' & Hq & Hs).
  split; [done|split; [by apply around_stays|apply Hs]].
Qed.

Lemma plays_of_Ok roundID rules db plays d :
  (if sharedLuluRules rules then loadLuluPlaysTx roundID else mret ∅) db = Ok (plays, d) ->
  d = db /\ plays_of roundID rules db plays.
Proof.
  unfold plays_of. destruct (sharedLuluRules rules); intros Hrun; [|by tx_steps].
  unfold loadLuluPlaysTx in *. assert (d = db) as ->; [by apply lift_Ok in Hrun as [_ ->]|done].
Qed.

Lemma settle_open_run t roundID outcome rules db r db' :
  settle_open taskHook t roundID outcome rules db = Ok (r, db') -> books db.(money) ->
  exists plays, plays_of roundID rules db plays /\
    round_resolved roundID rules plays outcome (timestamptz (go_now t)) (start_result roundID outcome (go_now t)) r
      (due_bet roundID db) db db' /\
    rounds db'.(app) = (match rounds db.(app) !! roundID with
      | Some x => <[roundID := finish_round outcome (timestamptz (go_now t)) x]> (rounds db.(app))
      | None => rounds db.(app) end).
Proof.
  intros Hrun Hb. unfold settle_open in Hrun. cbv zeta in Hrun.
  apply tx_bind_Ok in Hrun as (bs & d0 & H0 & Hrun). apply gets_Ok in H0 as [<- <-].
  apply tx_bind_Ok in Hrun as (plays & d1 & H1 & Hrun). apply plays_of_Ok in H1 as [-> Hpl].
  apply tx_bind_Ok in Hrun as (ps & d2 & H2 & Hrun). apply prepare_all_Ok in H2 as (-> & Hps & Hpaid).
  apply tx_bind_Ok in Hrun as ([] & d3 & H3 & Hrun).
  destruct (aside_around _ _ _ _ (ensure_wallets_aside _ _) H3 Hb) as (Hb3 & Ha3 & Hr3).
  apply tx_bind_Ok in Hrun as (r4 & d4 & H4 & Hrun).
  apply tx_bind_Ok in Hrun as (rows & d5 & H5 & Hrun). apply gets_Ok in H5 as [_ <-].
  apply tx_bind_Ok in Hrun as ([] & d6 & H6 & Hrun). apply tx_bind_Ok in Hrun as ([] & d7 & H7 & Hrun).
  pose proof Ha3 as (_ & Hbets3 & _).
  destruct (settle_bets_run t roundID rules plays outcome ps _ _ _ _ H4) as [Hres Hr4]; try done.
  { unfold bet_id. rewrite <- map_map, Hps. apply accepted_bets_NoDup. }
  { rewrite Forall_forall. intros p Hp.
    assert (Hin : pb_bet p ∈ accepted_bets roundID db) by (rewrite <- Hps; apply list_elem_of_fmap; by exists p).
    apply elem_of_accepted in Hin as (Hbet & Hacc & _). by rewrite Hbets3. }
  destruct (aside_around _ _ _ _ (publish_results_aside _ _ _ _) H6 (rr_books _ _ _ _ _ _ _ _ _ _ Hres))
    as (Hb6 & Ha6 & Hr6).
  apply update_round_Ok in H7 as (Ha7 & Hm7 & Hr7 & _).
  assert (Htail : around d7 db' /\ books db'.(money) /\ rounds db'.(app) = rounds d7.(app) /\ r = r4).
  { tx_steps. rewrite <- Hm7 in Hb6. split; [by repeat split|done]. }
  destruct Htail as (Ha8 & Hb8 & Hr8 & ->). exists plays. split; [done|split].
  - eapply round_resolved_ext; [by intros id b; apply prepared_due|].
    eapply round_resolved_around; [exact Ha3| |exact Hb8|exact Hres].
    destruct Ha6 as (Q6 & B6 & E6), Ha7 as (Q7 & B7 & E7), Ha8 as (Q8 & B8 & E8).
    split; [etrans; [exact Q6|]; by etrans|split; congruence].
  - rewrite Hr8, Hr7, Hr6, Hr4, Hr3. done.
Qed.

(** ** A round, settled *)

(** The round kept its place in its game. *)
Definition same_slot (r r' : round_row) : Prop :=
  rd_game_type_id r' = rd_game_type_id r /\ rd_sequence r' = rd_sequence r /\
  rd_bet_closes_at r' = rd_bet_closes_at r /\ rd_result_at r' = rd_result_at r.

Definition is_settled (outcome : list string) (at_ : Z) (round r : round_row) : Prop :=
  rd_status r = RoundSettled /\ rd_outcome r = Some (JArr (map JStr outcome)) /\ rd_settled_at r = Some at_ /\
  same_slot round r.

Lemma loadLuluPlaysTx_round id f db db' plays :
  rounds db'.(app) = (match rounds db.(app) !! id with
    | Some r => <[id := f r]> (rounds db.(app)) | None => rounds db.(app) end) ->
  (forall r, rd_game_type_id (f r) = rd_game_type_id r) ->
  lulu_play_configs db'.(app) = lulu_play_configs db.(app) ->
  loadLuluPlaysTx id db' = Ok (plays, db') -> loadLuluPlaysTx id db = Ok (plays, db).
Proof.
  unfold loadLuluPlaysTx. intros Hr Hf Hp Hrun. apply lift_Ok in Hrun as [Hrun _].
  apply lift_Ok. split; [|done]. rewrite <- Hrun, Hp, Hr. do 2 f_equal.
  destruct (rounds (app db) !! id) as [r|] eqn:E; [by rewrite lookup_insert_eq, Hf|by rewrite E].
Qed.

(** Settling a round that was not settled before. *)
Lemma SettleRound_run t roundID outcome rules db r db' round :
  SettleRound taskHook t roundID outcome rules db = Ok (r, db') -> books db.(money) ->
  rounds db.(app) !! roundID = Some round -> rd_status round <> RoundSettled ->
  (outcome <> [] /\ containsEmpty outcome = false /\ Validate rules = Ok () /\
   withinPool outcome (Outcomes rules) = true) /\
  exists plays, plays_of roundID rules db plays /\
    round_resolved roundID rules plays outcome (timestamptz (go_now t)) (start_result roundID outcome (go_now t)) r
      (due_bet roundID db) db db' /\
    (exists x, is_settled outcome (timestamptz (go_now t)) round x /\ rounds db'.(app) = <[roundID := x]> (rounds db.(app))).
Proof.
  intros Hrun Hb Hround Hst. unfold SettleRound, select_id in Hrun.
  do 4 (apply tx_bind_Ok in Hrun as (? & ? & ? & Hrun)).
  repeat match goal with
    | E : reject_if _ _ _ = Ok _ |- _ => apply reject_if_Ok in E as [? <-]
    | E : gets _ _ = Ok _ |- _ => apply gets_Ok in E as [<- <-]
    | E : lift _ _ = Ok _ |- _ => apply lift_Ok in E as [? <-] end.
  change (tbl (app db)) with (rounds (app db)) in Hrun. rewrite Hround in Hrun.
  apply tx_bind_Ok in Hrun as (x4 & d4 & H4 & Hrun). apply found_Ok in H4 as [[= <-] <-].
  split.
  { bool_to_prop. repeat match goal with u : () |- _ => destruct u end. done. }
  destruct (rd_status round) eqn:Es; try (by apply raise_Ok in Hrun); try done.
  - apply tx_bind_Ok in Hrun as ([] & d5 & H5 & Hrun).
    apply update_round_Ok in H5 as (Ha5 & Hm5 & Hr5 & Hp5).
    apply settle_open_run in Hrun as (plays & Hpl & Hres & Hrd); [|by rewrite Hm5].
    exists plays. split; [|split].
    + unfold plays_of in *. destruct (sharedLuluRules rules); [|done]. by eapply loadLuluPlaysTx_round.
    + eapply round_resolved_ext; [|eapply round_resolved_around; [exact Ha5| |apply Hres|exact Hres]; done].
      intros id b. unfold due_bet. by rewrite Hm5, (proj1 (proj2 Ha5)).
    + rewrite Hr5, Hround in Hrd. rewrite lookup_insert_eq, insert_insert_eq in Hrd.
      eexists. split; [|exact Hrd]. done.
  - apply settle_open_run in Hrun as (plays & Hpl & Hres & Hrd); [|done].
    exists plays. split; [done|split; [done|]]. rewrite Hround in Hrd. eexists. split; [|exact Hrd]. done.
Qed.

End asides.

(** ** Refunds *)

Section refunds.
Context `{Uuids}.

(** The stake that goes back to the wallet. *)
Definition stake_back (b : bet_row) : Z := if bt_is_simulated b then 0 else bt_stake_minor b.

Definition refunded_row (at_ balance : Z) (b : bet_row) : bet_row :=
  set_settled "refunded" (bt_payout_minor b) at_ balance b.

Definition refunded (at_ : Z) (id : string) (b : bet_row) (db db' : DB) : Prop := exists balance,
  bets db'.(app) !! id = Some (refunded_row at_ balance b) /\
  credited "refund" id db'.(money) = credited "refund" id db.(money) + stake_back b.

Lemma refund_bet_run t b db u db' :
  refund_bet t b db = Ok (u, db') -> bets db.(app) !! ab_id b = Some (ab_row b) ->
  0 < bt_stake_minor (ab_row b) <= int64_max -> books db.(money) ->
  books db'.(money) /\ quiet db db' /\ exists balance,
    resolves "refund" (ab_id b) (refunded_row (sql_now t) balance (ab_row b)) (stake_back (ab_row b)) db db'.
Proof.
  intros Hrun Hrow Hstake Hb. unfold refund_bet, wallet_by_id in Hrun. cbv zeta in Hrun.
  unfold stake_back. tx_steps.
  all: match type of Hb with books (money ?d) => rename d into d0 end.
  all: match goal with E : update_bet _ _ _ = Ok _ |- _ =>
    eapply update_bet_Ok in E; [|exact Hrow]; subst end.
  all: match type of Hb with books ?m =>
    match goal with E : wallets m !! _ = Some ?x |- _ => rename x into wal, E into Hwal end end.
  all: try congruence.
  - destruct (resolve_row "refund" (ab_id b) (refunded_row (sql_now t) (w_available wal) (ab_row b))
      d0 d0) as (? & ? & ?); [done..|]. eauto.
  - match goal with E : wallet_ok _ = true |- _ => rename E into Hok end.
    match goal with E : wallets (money d0) !! _ = Some ?x |- _ =>
      assert (x = wal) as -> by congruence; clear E end.
    destruct (bounded_lookup _ _ _ Hb Hwal) as [Hba _].
    apply wallet_ok_iff in Hok as [Hok _]. cbn in Hok.
    pose proof (checked_add (w_available wal) (bt_stake_minor (ab_row b)) Hba ltac:(lia) (proj1 Hok)) as Hax.
    rewrite Hax in *. cbn [li_wallet_id entry] in *. money_simpl. simplify_map_eq.
    match goal with |- context [entry ?e _ "refund" _ _ _ _] =>
      destruct (resolve_paid "refund" "refund" (ab_id b)
        (refunded_row (sql_now t) (w_available wal + bt_stake_minor (ab_row b)) (ab_row b)) d0 d0
        (bt_wallet_id (ab_row b)) wal (sql_now t) (sql_now t) e (bt_stake_minor (ab_row b)))
        as (Hb1 & Hq1 & Hr1); [done|exact Hb|set_solver|exact Hwal|lia|] end.
    split; [exact Hb1|split; [exact Hq1|]]. by exists (w_available wal + bt_stake_minor (ab_row b)).
Qed.

Lemma refunded_frame at_ id b d1 d2 d3 d4 :
  refunded at_ id b d2 d3 -> same_bet "refund" id d1 d2 -> same_bet "refund" id d3 d4 ->
  refunded at_ id b d1 d4.
Proof.
  intros (bal & Hb & Hc) [_ E] [F G]. exists bal. split; [congruence|lia].
Qed.

Lemma refund_bets_run t : forall bs db u db',
  refund_bets t bs db = Ok (u, db') -> NoDup (map ab_id bs) ->
  Forall (fun b => bets db.(app) !! ab_id b = Some (ab_row b) /\
    0 < bt_stake_minor (ab_row b) <= int64_max) bs -> books db.(money) ->
  books db'.(money) /\ quiet db db' /\ rounds db'.(app) = rounds db.(app) /\
  (forall b, b ∈ bs -> refunded (sql_now t) (ab_id b) (ab_row b) db db') /\
  (forall id, id ∉ map ab_id bs -> same_bet "refund" id db db').
Proof.
  induction bs as [|b bs IH]; intros db u db' Hrun Hnd Hrows Hb; cbn [refund_bets] in Hrun.
  { tx_steps. repeat (split; [done|]). split; [by intros b ?%elem_of_nil|done]. }
  apply tx_bind_Ok in Hrun as (x & d1 & H1 & Hrun).
  apply Forall_cons in Hrows as [[Hrow Hst] Hrows]. cbn [map] in *. apply NoDup_cons in Hnd as [Hnew Hnd].
  destruct (refund_bet_run _ _ _ _ _ H1 Hrow Hst Hb) as (Hb1 & Hq1 & bal & Hres).
  assert (Hne : forall c, c ∈ bs -> ab_id c <> ab_id b).
  { intros c Hc Heq. apply Hnew. rewrite <- Heq. apply list_elem_of_fmap. by exists c. }
  destruct (IH d1 u db' Hrun Hnd) as (Hb2 & Hq2 & Hr2 & Hin & Hout); [|done|].
  { rewrite Forall_forall in *. intros c Hc. destruct (Hrows c Hc) as [? ?]. split; [|done].
    rewrite (rs_bets _ _ _ _ _ _ Hres), lookup_insert_ne; [done|]. by apply not_eq_sym, Hne. }
  split; [done|split; [by etrans|split; [by rewrite Hr2, (rs_rounds _ _ _ _ _ _ Hres)|split]]].
  - intros c [->|Hc]%elem_of_cons.
    + apply (refunded_frame _ _ _ db db d1 db'); [|done|by apply Hout].
      exists bal. destruct Hres as [-> _ _ ->].
      by rewrite lookup_insert_eq, bool_decide_true.
    + apply (refunded_frame _ _ _ db d1 db' db'); [by apply Hin| |done].
      by apply (resolves_same _ _ _ _ _ _ _ Hres), Hne.
  - intros id [Hid Hids]%not_elem_of_cons.
    destruct (resolves_same _ _ _ _ id _ _ Hres Hid), (Hout id Hids). split; congruence.
Qed.

(** What one refund does to wallet [j], and what those of a list do. *)
Definition refund_to (j : string) (b : acceptedBet) : Z :=
  if bool_decide (bt_wallet_id (ab_row b) = j) then stake_back (ab_row b) else 0.

Definition refunds_to (j : string) (bs : list acceptedBet) : Z := sum_Z (map (refund_to j) bs).

Lemma refund_bet_wallets t b db u db' j :
  refund_bet t b db = Ok (u, db') -> 0 < bt_stake_minor (ab_row b) <= int64_max -> books db.(money) ->
  avail db'.(money) j = avail db.(money) j + refund_to j b /\ frozen db'.(money) j = frozen db.(money) j.
Proof.
  intros Hrun Hstake Hb. unfold refund_bet, wallet_by_id in Hrun. cbv zeta in Hrun.
  unfold refund_to, stake_back, avail, frozen. rewrite gets_skip in Hrun.
  apply tx_bind_Ok in Hrun as (w & d & E & Hrun). apply found_Ok in E as [Hw <-].
  destruct (bt_is_simulated (ab_row b)).
  { apply update_bet_money in Hrun as ->. case_bool_decide; split; lia. }
  apply tx_bind_Ok in Hrun as ([] & d1 & E & Hrun). destruct (bounded_lookup _ _ _ Hb Hw) as [Hba _].
  apply update_wallet_Ok in E as [[E _]|(x & Hx & Hok & <-)]; [congruence|]. assert (x = w) as -> by congruence.
  apply wallet_ok_iff in Hok as [Hok _]. cbn in Hok.
  pose proof (checked_add (w_available w) (bt_stake_minor (ab_row b)) Hba ltac:(lia) (proj1 Hok)) as Hax. rewrite Hax in *.
  apply tx_bind_Ok in Hrun as ([] & d2 & E & Hrun). apply update_bet_money in E.
  apply tx_bind_Ok in Hrun as (e & d3 & E3 & Hrun). apply new_uuid_Ok in E3 as [_ <-].
  apply insert_ledger_Ok in Hrun as (v & _ & _ & <-). cbn. rewrite E. cbn.
  destruct (decide (bt_wallet_id (ab_row b) = j)) as [<-|Hne].
  - rewrite lookup_insert_eq, bool_decide_true, Hw by done. done.
  - rewrite lookup_insert_ne, bool_decide_false by done. split; [lia|done].
Qed.

Lemma refund_bets_wallets t j : forall bs db u db',
  refund_bets t bs db = Ok (u, db') ->
  Forall (fun b => bets db.(app) !! ab_id b = Some (ab_row b) /\ 0 < bt_stake_minor (ab_row b) <= int64_max) bs ->
  NoDup (map ab_id bs) -> books db.(money) ->
  avail db'.(money) j = avail db.(money) j + refunds_to j bs /\ frozen db'.(money) j = frozen db.(money) j.
Proof.
  induction bs as [|b bs IH]; intros db u db' Hrun Hrows Hnd Hb; cbn [refund_bets] in Hrun.
  { apply tx_ret_Ok in Hrun as [_ <-]. unfold refunds_to. cbn. split; lia. }
  apply tx_bind_Ok in Hrun as (x & d1 & H1 & Hrun). apply Forall_cons in Hrows as [[Hrow Hst] Hrows].
  cbn [map] in Hnd. apply NoDup_cons in Hnd as [Hnew Hnd].
  destruct (refund_bet_run _ _ _ _ _ H1 Hrow Hst Hb) as (Hb1 & _ & bal & Hres).
  destruct (refund_bet_wallets _ _ _ _ _ j H1 Hst Hb) as [A1 F1].
  destruct (IH d1 u db' Hrun) as [A2 F2]; [|done|done|].
  - rewrite Forall_forall in *. intros c Hc. destruct (Hrows c Hc) as [Hcr ?]. split; [|done].
    rewrite (rs_bets _ _ _ _ _ _ Hres), lookup_insert_ne; [done|].
    intros Heq. apply Hnew. rewrite Heq. apply list_elem_of_fmap. by exists c.
  - change (refunds_to j (b :: bs)) with (refund_to j b + refunds_to j bs). split; [lia|congruence].
Qed.

Lemma CancelRound_run t roundID db n db' round :
  CancelRound t roundID db = Ok (n, db') -> bets_ok db -> books db.(money) ->
  rounds db.(app) !! roundID = Some round -> rd_status round <> RoundCancelled ->
  (rd_status round = RoundOpen \/ rd_status round = RoundClosed) /\
  n = Z.of_nat (length (accepted_bets roundID db)) /\
  books db'.(money) /\ quiet db db' /\
  rounds db'.(app) = <[roundID := set_round RoundCancelled round]> (rounds db.(app)) /\
  (forall b, b ∈ accepted_bets roundID db -> refunded (sql_now t) (ab_id b) (ab_row b) db db') /\
  (forall id, id ∉ map ab_id (accepted_bets roundID db) -> same_bet "refund" id db db') /\
  (forall j, avail db'.(money) j = avail db.(money) j + refunds_to j (accepted_bets roundID db) /\
     frozen db'.(money) j = frozen db.(money) j).
Proof.
  intros Hrun Hok Hb Hround Hst. unfold CancelRound, select_id in Hrun.
  apply tx_bind_Ok in Hrun as (o & d0 & H0 & Hrun). apply gets_Ok in H0 as [<- <-].
  change (tbl (app db)) with (rounds (app db)) in Hrun. rewrite Hround in Hrun.
  apply tx_bind_Ok in Hrun as (x & d1 & H1 & Hrun). apply found_Ok in H1 as [[= <-] <-].
  assert (Hcases : rd_status round = RoundOpen \/ rd_status round = RoundClosed).
  { destruct (rd_status round); try (by apply raise_Ok in Hrun); try done; [by left|by right]. }
  assert (Hgo : (bs ← gets (accepted_bets roundID); refund_bets t bs;;
     update_round roundID (set_round RoundCancelled);; id ← new_uuid;
     insert_outbox id "round" roundID "game.round.cancelled"
       (JObj [("round_id", JStr roundID); ("refunded_bet_count", JInt (Z.of_nat (length bs)))]%string)
       (sql_now t);; mret (Z.of_nat (length bs))) db = Ok (n, db')).
  { by destruct Hcases as [E|E]; rewrite E in Hrun. }
  clear Hrun. apply tx_bind_Ok in Hgo as (bs & d2 & H2 & Hgo). apply gets_Ok in H2 as [<- <-].
  apply tx_bind_Ok in Hgo as ([] & d3 & H3 & Hgo). apply tx_bind_Ok in Hgo as ([] & d4 & H4 & Hgo).
  assert (Hrows : Forall (fun b => bets db.(app) !! ab_id b = Some (ab_row b) /\
    0 < bt_stake_minor (ab_row b) <= int64_max) (accepted_bets roundID db)).
  { rewrite Forall_forall. intros b Hbin. apply elem_of_accepted in Hbin as (Hrow & _ & _).
    split; [done|]. by apply (bo_stake _ Hok (ab_id b)). }
  pose proof (fun j => refund_bets_wallets t j _ _ _ _ H3 Hrows (accepted_bets_NoDup _ _) Hb) as Hmoney.
  destruct (refund_bets_run t _ _ _ _ H3) as (Hb3 & Hq3 & Hr3 & Hin & Hout); [apply accepted_bets_NoDup|done|done|].
  apply update_round_Ok in H4 as (Ha4 & Hm4 & Hr4 & _). rewrite Hr3, Hround in Hr4.
  assert (Htail : around d4 db' /\ wallets db'.(money) = wallets d4.(money) /\ books db'.(money) /\ rounds db'.(app) = rounds d4.(app) /\
    n = Z.of_nat (length (accepted_bets roundID db))).
  { tx_steps. rewrite <- Hm4 in Hb3. split; [by repeat split|done]. }
  destruct Htail as (Ha5 & Hw5 & Hb5 & Hr5 & ->).
  pose proof Ha4 as (Q4 & B4 & E4). pose proof Ha5 as (Q5 & B5 & E5).
  assert (Hend : forall id, same_bet "refund" id d3 db').
  { intros id. apply around_same. split; [by etrans|split; congruence]. }
  split; [done|split; [done|split; [done|split; [etrans; [exact Hq3|]; by etrans|split; [congruence|split; [|split]]]]]].
  - intros b Hbin. apply (refunded_frame _ _ _ db db d3 db'); [by apply Hin|done|apply Hend].
  - intros id Hid. destruct (Hout id Hid), (Hend id). split; congruence.
  - intros j. destruct (Hmoney j) as [A F]. unfold avail, frozen in *. rewrite Hw5, Hm4. by split.
Qed.

End refunds.

(** ** What was done already *)

Section repeated.
Context `{Uuids}.

Lemma settledResult_same roundID round db r db' : settledResult roundID round db = Ok (r, db') -> db' = db.
Proof. unfold settledResult. intros Hrun. by tx_steps. Qed.

Lemma SettleRound_found hook t roundID outcome rules db r db' :
  SettleRound hook t roundID outcome rules db = Ok (r, db') ->
  exists round, rounds db.(app) !! roundID = Some round /\ (rd_status round = RoundSettled -> db' = db).
Proof.
  intros Hrun. unfold SettleRound, select_id in Hrun. do 4 (apply tx_bind_Ok in Hrun as (? & ? & ? & Hrun)).
  repeat match goal with
    | E : reject_if _ _ _ = Ok _ |- _ => apply reject_if_Ok in E as [? <-]
    | E : gets _ _ = Ok _ |- _ => apply gets_Ok in E as [<- <-]
    | E : lift _ _ = Ok _ |- _ => apply lift_Ok in E as [? <-] end.
  apply tx_bind_Ok in Hrun as (round & d & Hfound & Hrun). apply found_Ok in Hfound as [Hround <-].
  exists round. split; [done|]. intros Hst. rewrite Hst in Hrun.
  apply tx_bind_Ok in Hrun as (? & ? & Hl & Hrun). apply lift_Ok in Hl as [_ <-].
  apply tx_bind_Ok in Hrun as (? & ? & Hl & Hrun). apply reject_if_Ok in Hl as [_ <-].
  by apply settledResult_same in Hrun.
Qed.

Lemma CancelRound_found t roundID db n db' :
  CancelRound t roundID db = Ok (n, db') ->
  exists round, rounds db.(app) !! roundID = Some round /\ (rd_status round = RoundCancelled -> db' = db).
Proof.
  intros Hrun. unfold CancelRound, select_id in Hrun.
  apply tx_bind_Ok in Hrun as (? & ? & Hget & Hrun). apply gets_Ok in Hget as [<- <-].
  apply tx_bind_Ok in Hrun as (round & d & Hfound & Hrun). apply found_Ok in Hfound as [Hround <-].
  exists round. split; [done|]. intros Hst. rewrite Hst in Hrun. by injection Hrun as _ <-.
Qed.
End repeated.

(** ** The settlement job *)

Section job.
Context `{Uuids}.
Context (taskHook : option (string -> string -> Z -> Z -> Tx ())).
Context (source : DB -> Round -> Rules -> res (list string)).

(** Rounds settled one after the other, each in its own transaction and with
    the outcome of the source. *)
Inductive batch (t : clock) : DB -> list (string * SettlementResult) -> DB -> Prop :=
| batch_nil db : batch t db [] db
| batch_cons db item rules outcome r db1 l db2 :
    ParseRules (Some (du_rules item)) = Ok rules -> source db (du_round item) rules = Ok outcome ->
    SettleRound taskHook t (r_RoundID (du_round item)) outcome rules db = Ok (r, db1) ->
    batch t db1 l db2 -> batch t db ((r_RoundID (du_round item), r) :: l) db2.

Definition due_id (item : dueRound) : string := r_RoundID (du_round item).

(** The round was settled, or its failure reported, or its block is not there yet. *)
Definition handled (settled : list (string * SettlementResult)) (failures : list (string * error))
    (item : dueRound) : Prop :=
  due_id item ∈ map fst settled \/ due_id item ∈ map fst failures \/
  exists db rules, source db (du_round item) rules = Err ErrBlockNotFound.

Lemma settle_due_run t : forall items settled failures db settled' failures' db',
  settle_due taskHook source t items settled failures db = (settled', failures', db') ->
  exists new errs, settled' = settled ++ new /\ failures' = failures ++ errs /\
    batch t db new db' /\ map fst new `sublist_of` map due_id items /\
    map fst errs `sublist_of` map due_id items /\
    (Forall (fun f => f.2 <> ErrRateLimited) errs -> Forall (handled new errs) items).
Proof.
  induction items as [|item items IH]; intros settled failures db settled' failures' db'; cbn [settle_due map].
  { intros [= <- <- <-]. exists [], []. rewrite !app_nil_r. repeat (split; [done || constructor|]). by constructor. }
  assert (Hfail : forall e s f, settle_due taskHook source t items settled (failures ++ [(due_id item, e)]) db
      = (s, f, db') -> exists new errs, s = settled ++ new /\ f = failures ++ errs /\
    batch t db new db' /\ map fst new `sublist_of` due_id item :: map due_id items /\
    map fst errs `sublist_of` due_id item :: map due_id items /\
    (Forall (fun f => f.2 <> ErrRateLimited) errs -> Forall (handled new errs) (item :: items))).
  { intros e s f Hrun. destruct (IH _ _ _ _ _ _ Hrun) as (new & errs & -> & -> & Hbt & Hs & Hf & Hall).
    exists new, ((due_id item, e) :: errs). rewrite <- app_assoc. repeat (split; [done|]).
    split; [by apply sublist_cons|split; [by apply sublist_skip|]].
    intros Hn. apply Forall_cons in Hn as [_ Hn]. constructor; [right; left; by apply list_elem_of_here|].
    eapply Forall_impl; [by apply Hall|]. intros x [?|[?|?]]; [by left|right; left; by apply elem_of_cons; right|by right; right]. }
  fold (due_id item). destruct (ParseRules (Some (du_rules item))) as [rules|e] eqn:Er; [|by apply Hfail].
  destruct (source db (du_round item) rules) as [outcome|e] eqn:Es.
  - unfold atomically. destruct (SettleRound _ _ _ _ _ _) as [[r d1]|e] eqn:Eset; [|by apply Hfail].
    intros Hrun. destruct (IH _ _ _ _ _ _ Hrun) as (new & errs & -> & -> & Hbt & Hs & Hf & Hall).
    exists ((due_id item, r) :: new), errs. rewrite <- app_assoc. repeat (split; [done|]).
    split; [by eapply batch_cons|split; [by apply sublist_skip|split; [by apply sublist_cons|]]].
    intros Hn. constructor; [left; by apply list_elem_of_here|].
    eapply Forall_impl; [by apply Hall|]. intros x [?|[?|?]]; [left; by apply elem_of_cons; right|by right; left|by right; right].
  - case_bool_decide as Enf.
    { intros Hrun. destruct (IH _ _ _ _ _ _ Hrun) as (new & errs & -> & -> & Hbt & Hs & Hf & Hall).
      exists new, errs. repeat (split; [done|]). split; [by apply sublist_cons|split; [by apply sublist_cons|]].
      intros Hn. constructor; [right; right; exists db, rules; by subst|by apply Hall]. }
    case_bool_decide as Erl; [|by apply Hfail].
    intros [= <- <- <-]. exists [], [(due_id item, e)]. rewrite app_nil_r.
    repeat (split; [done || constructor; try apply sublist_nil_l|]).
    intros Hn. apply Forall_cons in Hn as [Hn _]. by subst.
Qed.

End job.

(** ** Properties *)

(** C2: settling an open or half-settled round resolves exactly the accepted
    bets of that round: each gets the verdict of its selection and its odds,
    its prize (and nothing else) is credited under its own identifier, every
    other bet and its money stay as they were, the round records the outcome,
    and every wallet still equals the sum of its ledger. *)
Theorem SettleRound_exact `{Uuids} hook `{!TaskHook hook} t roundID outcome rules db r db' round :
  SettleRound hook t roundID outcome rules db = Ok (r, db') ->
  custody db -> bets_ok db ->
  rounds db.(app) !! roundID = Some round -> rd_status round <> RoundSettled ->
  custody db' /\
  (exists x, is_settled outcome (timestamptz (go_now t)) round x /\ rounds db'.(app) = <[roundID := x]> (rounds db.(app))) /\
  exists plays, plays_of roundID rules db plays /\
    forall id b, bets db.(app) !! id = Some b ->
      if is_accepted roundID b then resolved rules plays outcome (timestamptz (go_now t)) id b db db'
      else same_bet "settlement" id db db'.
Proof.
  intros Hrun Hcu Hok Hround Hst.
  destruct (SettleRound_run _ _ _ _ _ _ _ _ _ Hrun (cu_books _ Hcu) Hround Hst)
    as (_ & plays & Hpl & [Hb Hq _ Hin Hout] & Hx).
  split; [by apply (custody_quiet db)|split; [done|]]. exists plays. split; [done|].
  intros id b Hbet. destruct (is_accepted roundID b) eqn:Ha.
  - apply Hin. split; [done|split; [done|]]. by eapply bo_wallet.
  - apply Hout. intros b' (Hb' & Ha' & _). congruence.
Qed.

(** No bet of the round has a result yet. *)
Definition no_results (roundID : string) (db : DB) : Prop := forall id b,
  bets db.(app) !! id = Some b -> bt_round_id b = roundID ->
  bt_status b <> "won"%string /\ bt_status b <> "lost"%string.

Lemma sum_map_zero {R} (f : R -> Z) (t : gmap string R) :
  (forall i r, t !! i = Some r -> f r = 0) -> sum_map f t = 0.
Proof.
  intros Hf. unfold sum_map. induction t as [|i r t Hi Hfst IH] using map_first_key_ind; [by rewrite map_fold_empty|].
  rewrite map_fold_insert_L by (done || intros; lia). rewrite (Hf i r) by apply lookup_insert_eq.
  rewrite IH; [done|]. intros j x Hj. apply (Hf j). rewrite lookup_insert_ne; [done|congruence].
Qed.

Lemma no_results_totals roundID db :
  no_results roundID db -> won_in roundID db = 0 /\ lost_in roundID db = 0 /\ paid_in roundID db = 0.
Proof.
  intros Hno. unfold won_in, lost_in, paid_in.
  split; [|split]; apply sum_map_zero; intros i b Hb; unfold count_status, payout_if_won;
    (case_bool_decide as Hr; [|done]); destruct (Hno i b Hb Hr) as [Hw Hl];
    rewrite bool_decide_false by done; done.
Qed.

Lemma mapM_dec_strings l : mapM (dec_string "") (map JStr l) = Some l.
Proof. induction l as [|x l IH]; [done|]. cbn. by rewrite IH. Qed.

(** An answer as the rows give it back: the time of the process in whole
    microseconds. *)
Definition as_stored (r : SettlementResult) : SettlementResult :=
  mk_SettlementResult (sr_RoundID r) (sr_Outcome r) (sr_WonBetCount r) (sr_LostBetCount r)
    (sr_PayoutMinor r) (timestamptz (sr_SettledAt r)).

(** C6: settling is idempotent.  Let a round be settled of which no bet had a
    result yet, and whose prizes together fit a BIGINT.  A second call for the
    same outcome, at any later time and with any valid rules, then changes
    nothing and reports the same outcome, counts and prizes, and the same time
    in whole microseconds, which is what the column keeps of it; a second call
    for any other outcome fails. *)
Theorem SettleRound_idempotent `{Uuids} hook `{!TaskHook hook} t roundID outcome rules db r db' round :
  SettleRound hook t roundID outcome rules db = Ok (r, db') ->
  books db.(money) -> rounds db.(app) !! roundID = Some round -> rd_status round <> RoundSettled ->
  no_results roundID db -> in_int64 (paid_in roundID db') ->
  (forall t' rules', Validate rules' = Ok () -> withinPool outcome (Outcomes rules') = true ->
     SettleRound hook t' roundID outcome rules' db' = Ok (as_stored r, db')) /\
  forall t' outcome' rules', outcome' <> outcome ->
    exists e, SettleRound hook t' roundID outcome' rules' db' = Err e.
Proof.
  intros Hrun Hb Hround Hst Hno Hsum.
  destruct (SettleRound_run _ _ _ _ _ _ _ _ _ Hrun Hb Hround Hst)
    as ((Hne & Hemp & Hval & Hpool) & plays & _ & [_ _ Htal _ _] & x & (Hxs & Hxo & Hxt & _) & Hx).
  destruct (no_results_totals _ _ Hno) as (E1 & E2 & E3).
  destruct Htal as (R1 & R2 & R3 & R4 & R5 & R6). rewrite E1, E2, E3 in *. cbn [start_result sr_RoundID sr_Outcome
    sr_SettledAt sr_WonBetCount sr_LostBetCount sr_PayoutMinor] in *.
  rewrite Z.sub_0_r, Z.add_0_l, wrap64_small in R6 by done.
  assert (Hload : rounds db'.(app) !! roundID = Some x) by (by rewrite Hx, lookup_insert_eq).
  split.
  - intros t' rules' Hval' Hpool'. unfold SettleRound, select_id.
    rewrite reject_skip by (by rewrite Hemp, bool_decide_false).
    rewrite (lift_skip _ _ _ _ Hval'), reject_skip by (by rewrite Hpool'). rewrite gets_skip.
    change (tbl (app db')) with (rounds (app db')). rewrite Hload, (found_skip _ _ _ _ _ eq_refl), Hxs, Hxo.
    assert (Hdec : decode_outcome (Some (JArr (map JStr outcome))) = Ok outcome)
      by (unfold decode_outcome; cbn; by rewrite mapM_dec_strings).
    rewrite (lift_skip _ _ _ _ Hdec), reject_skip by (unfold sameStrings; by rewrite bool_decide_true).
    unfold settledResult. rewrite Hxo, (lift_skip _ _ _ _ Hdec), !gets_skip.
    rewrite reject_skip by (unfold in_int64, paid_in in Hsum; apply orb_false_iff; rewrite !Z.ltb_ge; lia).
    unfold mret, Tx_ret, as_stored. do 2 f_equal. rewrite Hxt. destruct r; cbn in *. subst.
    unfold won_in, lost_in, paid_in. f_equal; lia.
  - intros t' outcome' rules' Hdiff. unfold SettleRound, select_id.
    destruct (bool_decide (outcome' = []) || containsEmpty outcome') eqn:F1; [by eexists|].
    rewrite reject_skip by done. destruct (Validate rules') as [[]|e] eqn:F2; [|by exists e].
    rewrite (lift_skip _ _ _ _ eq_refl). destruct (negb (withinPool outcome' (Outcomes rules'))) eqn:F3; [by eexists|].
    rewrite reject_skip, gets_skip by done.
    change (tbl (app db')) with (rounds (app db')). rewrite Hload, (found_skip _ _ _ _ _ eq_refl), Hxs, Hxo.
    assert (Hdec : decode_outcome (Some (JArr (map JStr outcome))) = Ok outcome)
      by (unfold decode_outcome; cbn; by rewrite mapM_dec_strings).
    rewrite (lift_skip _ _ _ _ Hdec), reject_stop by (unfold sameStrings; by rewrite bool_decide_false).
    by eexists.
Qed.

(** C35: a payout is the stake times the odds, rounded down, computed without
    overflow; it is refused exactly when the odds are not positive or the
    product does not fit an [int64]. *)
Theorem payout_exact rules b outcome :
  0 < bt_stake_minor b <= int64_max ->
  let '(m, d) := odds_of rules b outcome in
  (forall p, payout_of rules b outcome = Ok p <->
     0 < m /\ 0 < d /\ bt_stake_minor b * m <= int64_max /\ p = bt_stake_minor b * m / d) /\
  (forall e, payout_of rules b outcome = Err e ->
     e = ErrPayoutOverflow /\ (m <= 0 \/ d <= 0 \/ int64_max < bt_stake_minor b * m)).
Proof.
  intros Hs. pose proof (fun p => payout_of_Ok rules b outcome p Hs) as Hok.
  destruct (odds_of rules b outcome) as [m d] eqn:E. split; [done|].
  intros e He. split.
  - unfold payout_of in He. rewrite E in He. destruct (_ || _) in He; [by injection He as <-|done].
  - destruct (decide (0 < m)) as [Hm|]; [|lia]. destruct (decide (0 < d)) as [Hd|]; [|lia].
    destruct (decide (bt_stake_minor b * m <= int64_max)) as [Hle|]; [|lia].
    rewrite (proj2 (Hok (bt_stake_minor b * m / d))) in He; done.
Qed.

(** C15: cancelling gives every stake back to the wallet that paid it: every
    wallet of the platform grows by exactly the stakes of the accepted bets of
    the round it paid for (nothing for a simulated one) and its frozen balance
    stays; each of these bets ends refunded, with exactly its stake booked under
    its name; every other bet stays, the round is cancelled, and cancelling
    again refunds nothing. *)
Theorem CancelRound_refunds `{Uuids} t t' roundID db n db' round :
  CancelRound t roundID db = Ok (n, db') -> custody db -> bets_ok db ->
  rounds db.(app) !! roundID = Some round -> rd_status round <> RoundCancelled ->
  (rd_status round = RoundOpen \/ rd_status round = RoundClosed) /\
  n = Z.of_nat (length (accepted_bets roundID db)) /\ custody db' /\
  (forall id b, bets db.(app) !! id = Some b ->
     if is_accepted roundID b then refunded (sql_now t) id b db db' else same_bet "refund" id db db') /\
  (forall j, avail db'.(money) j = avail db.(money) j + refunds_to j (accepted_bets roundID db) /\
     frozen db'.(money) j = frozen db.(money) j) /\
  CancelRound t' roundID db' = Ok (0, db').
Proof.
  intros Hrun Hcu Hok Hround Hst.
  destruct (CancelRound_run _ _ _ _ _ _ Hrun Hok (cu_books _ Hcu) Hround Hst)
    as (Hcases & Hn & Hb & Hq & Hr & Hin & Hout & Hmoney).
  split; [done|split; [done|split; [by apply (custody_quiet db)|split; [|split; [exact Hmoney|]]]]].
  - intros id b Hbet. destruct (is_accepted roundID b) eqn:Ha.
    + destruct (accepted_listed _ _ _ _ Hok Hbet Ha) as (a & Hain & <- & <-). by apply Hin.
    + apply Hout. intros (a & Hid & Hain)%list_elem_of_fmap.
      apply elem_of_accepted in Hain as (Hrow & Hacc & _). congruence.
  - unfold CancelRound, select_id. rewrite gets_skip. change (tbl (app db')) with (rounds (app db')).
    by rewrite Hr, lookup_insert_eq.
Qed.

(** The settlement job settles due rounds one by one, in order, each in a
    transaction of its own: what it reports as settled is exactly what was
    committed, a failing round leaves no trace and does not stop the others,
    and unless the upstream limits the rate every round of the batch is
    settled, reported as failed, or still waiting for its block. *)
Theorem SettleDueRounds_batch `{Uuids} hook source t limit db settled failures db' :
  SettleDueRounds hook source t limit db = (settled, failures, db') -> 0 < limit ->
  let items := due_rounds (sql_now t) limit db in
  Z.of_nat (length items) <= limit /\ batch hook source t db settled db' /\
  map fst settled `sublist_of` map due_id items /\ map fst failures `sublist_of` map due_id items /\
  (Forall (fun f => f.2 <> ErrRateLimited) failures -> Forall (handled source settled failures) items).
Proof.
  intros Hrun Hlim items. unfold SettleDueRounds in Hrun. rewrite (proj2 (Z.leb_gt _ _)) in Hrun by done.
  fold items in Hrun. destruct (settle_due_run _ _ _ _ _ _ _ _ _ _ Hrun) as (new & errs & -> & -> & Hb & H1 & H2 & H3).
  split; [|done]. unfold items, due_rounds. rewrite length_take. lia.
Qed.

(** ** Witnesses *)

(** Two bets on a closed dice round, one on another round, one simulated. *)
Definition dice_bet (round pick : string) (stake : Z) (simulated : bool) : bet_row :=
  mk_bet_row pick round "alice" "wallet-1" (Some "room-1") None (JObj [("pick", JStr pick)]) stake
    "accepted" 0 (Some 195) (Some 100) simulated None true 1 None 0 None None 1.

Definition dice_rules : json :=
  JObj [("outcomes", JArr (map JStr ["1"; "2"; "3"; "4"; "5"; "6"])); ("payout_multiplier", JInt 2);
        ("result_count", JInt 3)]%string.

Definition settle_app : App :=
  set_rounds {[ "round-1" := mk_round_row "dice" 7 RoundClosed 100 200 None None 1;
                "round-2" := mk_round_row "dice" 8 RoundOpen 300 400 None None 1 ]}
  (set_game_types {[ "dice" := mk_game_type_row "dice" "Dice" true dice_rules None 0 None ]}
  (set_bets {[ "bet-1" := dice_bet "round-1" "2" 1001 false; "bet-2" := dice_bet "round-1" "6" 500 false;
               "bet-3" := dice_bet "round-2" "2" 700 false; "bet-4" := dice_bet "round-1" "3" 900 true ]}
   example_app))%string.

Definition settle_db : DB :=
  put_wallet "wallet-1" (mk_wallet "alice" "USDT" 0 0 0 0) (mk_DB (mk_Money ∅ []) settle_app).

Lemma settle_custody : custody settle_db.
Proof. apply custody_open; [by apply custody_no_money|done..]. Qed.

Lemma settle_bets_ok : bets_ok settle_db.
Proof.
  assert (Hall : map_Forall (fun _ b => 0 < bt_stake_minor b <= int64_max /\ bt_wallet_id b = "wallet-1"%string)
    (bets (app settle_db))) by (apply (bool_decide_unpack _); vm_compute; exact I).
  split; intros id b Hb; destruct (Hall id b Hb) as [? Hw]; [done|]. rewrite Hw.
  by exists (mk_wallet "alice" "USDT" 0 0 0 0).
Qed.

Definition evening : clock := mk_clock 1750000000000000000 1750000000000000000.

Definition dice_outcome : list string := ["1"; "2"; "3"]%string.

Lemma settle_run : exists r db', SettleRound None evening "round-1" dice_outcome dice settle_db = Ok (r, db') /\
  (sr_WonBetCount r =? 2) && (sr_LostBetCount r =? 1) && (sr_PayoutMinor r =? 3706) &&
  (paid_in "round-1" db' =? 3706) = true.
Proof.
  destruct (succeeds_Ok (fun x => (sr_WonBetCount x.1 =? 2) && (sr_LostBetCount x.1 =? 1) &&
    (sr_PayoutMinor x.1 =? 3706) && (paid_in "round-1" x.2 =? 3706))
    (SettleRound None evening "round-1" dice_outcome dice settle_db)) as ([r db'] & Hrun & Hok).
  { vm_compute. reflexivity. }
  exists r, db'. split; [exact Hrun|exact Hok].
Qed.

Lemma settle_no_results : no_results "round-1" settle_db.
Proof.
  assert (Hall : map_Forall (fun _ b => bt_status b <> "won"%string /\ bt_status b <> "lost"%string)
    (bets (app settle_db))) by (apply (bool_decide_unpack _); vm_compute; exact I).
  intros id b Hb _. exact (Hall id b Hb).
Qed.

Lemma settle_round : exists x, rounds (app settle_db) !! "round-1"%string = Some x /\ rd_status x = RoundClosed.
Proof. eexists. split; [reflexivity|reflexivity]. Qed.

Lemma settle_bet_lookup : bets (app settle_db) !! "bet-1"%string = Some (dice_bet "round-1" "2" 1001 false).
Proof. reflexivity. Qed.

Lemma SettleRound_exact_witness : exists r db',
  SettleRound None evening "round-1" dice_outcome dice settle_db = Ok (r, db') /\ custody db' /\
  exists plays, resolved dice plays dice_outcome (timestamptz (go_now evening)) "bet-1" (dice_bet "round-1" "2" 1001 false) settle_db db'.
Proof.
  destruct settle_run as (r & db' & Hrun & _). exists r, db'. split; [exact Hrun|].
  destruct settle_round as (x & Hx & Hs).
  destruct (SettleRound_exact None evening "round-1" dice_outcome dice settle_db r db' x Hrun
    settle_custody settle_bets_ok Hx) as (Hcu & _ & plays & _ & Hall); [rewrite Hs; discriminate|].
  split; [exact Hcu|]. exists plays. exact (Hall "bet-1"%string _ settle_bet_lookup).
Defined.

Lemma SettleRound_idempotent_witness : exists r db',
  SettleRound None evening "round-1" dice_outcome dice settle_db = Ok (r, db') /\
  SettleRound None (mk_clock 5 6) "round-1" dice_outcome dice db' = Ok (as_stored r, db') /\
  exists e, SettleRound None evening "round-1" ["4"]%string dice db' = Err e.
Proof.
  destruct settle_run as (r & db' & Hrun & Hok). exists r, db'. split; [exact Hrun|].
  destruct settle_round as (x & Hx & Hs). apply andb_prop in Hok as [_ Hpaid]. apply Z.eqb_eq in Hpaid.
  destruct (SettleRound_idempotent None evening "round-1" dice_outcome dice settle_db r db' x Hrun
    (cu_books _ settle_custody) Hx) as [Hsame Hother]; [rewrite Hs; discriminate|exact settle_no_results| |].
  { rewrite Hpaid. unfold in_int64, int64_min, int64_max. lia. }
  split; [|apply Hother; discriminate].
  apply Hsame; vm_compute; reflexivity.
Defined.

Lemma payout_exact_witness :
  payout_of dice (dice_bet "round-1" "2" 1001 false) dice_outcome = Ok 1951.
Proof.
  apply (payout_exact dice (dice_bet "round-1" "2" 1001 false) dice_outcome); vm_compute; repeat split; discriminate.
Defined.

Lemma cancel_run : exists n db', CancelRound evening "round-1" settle_db = Ok (n, db') /\ (n =? 3) = true.
Proof.
  destruct (succeeds_Ok (fun x => x.1 =? 3) (CancelRound evening "round-1" settle_db)) as ([n db'] & Hrun & Hok).
  { vm_compute. reflexivity. }
  exists n, db'. split; [exact Hrun|exact Hok].
Qed.

Lemma CancelRound_refunds_witness : exists db',
  CancelRound evening "round-1" settle_db = Ok (3, db') /\
  refunded (sql_now evening) "bet-1" (dice_bet "round-1" "2" 1001 false) settle_db db' /\
  CancelRound evening "round-1" db' = Ok (0, db').
Proof.
  destruct cancel_run as (n & db' & Hrun & Hn). apply Z.eqb_eq in Hn. subst n. exists db'. split; [exact Hrun|].
  destruct settle_round as (x & Hx & Hs).
  destruct (CancelRound_refunds evening evening "round-1" settle_db 3 db' x Hrun settle_custody settle_bets_ok Hx)
    as (_ & _ & _ & Hall & _ & Hagain); [rewrite Hs; discriminate|].
  split; [exact (Hall "bet-1"%string _ settle_bet_lookup)|exact Hagain].
Defined.

(** A source that knows the outcome of every round. *)
Definition fixed_source (db : DB) (round : Round) (rules : Rules) : res (list string) := Ok dice_outcome.

Lemma due_run : exists settled failures db',
  SettleDueRounds None fixed_source evening 5 settle_db = (settled, failures, db') /\
  bool_decide (map fst settled = ["round-1"]%string) && bool_decide (map fst failures = []) = true.
Proof.
  destruct (SettleDueRounds None fixed_source evening 5 settle_db) as [[settled failures] db'] eqn:E.
  exists settled, failures, db'. split; [exact eq_refl|].
  assert (Hgo : (let '(s, f, _) := SettleDueRounds None fixed_source evening 5 settle_db in
    bool_decide (map fst s = ["round-1"]%string) && bool_decide (map fst f = [])) = true)
    by (vm_compute; reflexivity).
  rewrite E in Hgo. exact Hgo.
Qed.

Lemma SettleDueRounds_batch_witness : exists r db',
  SettleDueRounds None fixed_source evening 5 settle_db = ([("round-1"%string, r)], [], db') /\
  batch None fixed_source evening settle_db [("round-1"%string, r)] db'.
Proof.
  destruct due_run as (settled & failures & db' & E & Hok).
  apply andb_prop in Hok as [Hs Hf]. apply bool_decide_eq_true in Hs, Hf.
  destruct (SettleDueRounds_batch None fixed_source evening 5 settle_db settled failures db' E) as (_ & Hb & _); [lia|].
  destruct settled as [|[i r] [|? ?]]; [discriminate Hs| |discriminate Hs].
  destruct failures; [|discriminate Hf].
  injection Hs as Hi. cbn in Hi. subst i. exists r, db'. split; [exact E|exact Hb].
Defined.
