(* ===== verification/SchedulerProofs.v ===== *)
(** * The round scheduler: what holds

    The rounds of a game stay in order: at most one is open, and every earlier
    one is finished.  The scheduler only appends, behind the last round. *)

From S2P Require Import Prelude GoStrings Json Game Schema Store Books Custody Wallet.
From S2P Require Import Rebate Draws Settlement BetBooks Chain Examples Betting Scheduler SettlementProofs.

(** ** Rounds in order *)

(** UNIQUE (game_type_id, sequence). *)
Definition slots_unique (game : string) (db : DB) : Prop := forall i j r x,
  rounds db.(app) !! i = Some r -> rounds db.(app) !! j = Some x ->
  rd_game_type_id r = game -> rd_game_type_id x = game -> rd_sequence r = rd_sequence x -> i = j.

(** Before an open round of a game everything is finished. *)
Definition in_order (game : string) (db : DB) : Prop := forall i j r x,
  rounds db.(app) !! i = Some r -> rd_status r = RoundOpen -> rounds db.(app) !! j = Some x ->
  rd_game_type_id r = game -> rd_game_type_id x = game -> rd_sequence x < rd_sequence r ->
  unfinished x = false.

Record ordered (game : string) (db : DB) : Prop := {
  or_slots : slots_unique game db;
  or_order : in_order game db
}.

(** At most one round of a game is open. *)
Lemma one_open game db i j r x :
  ordered game db -> rounds db.(app) !! i = Some r -> rounds db.(app) !! j = Some x ->
  rd_status r = RoundOpen -> rd_status x = RoundOpen ->
  rd_game_type_id r = game -> rd_game_type_id x = game -> i = j.
Proof.
  intros [Hu Ho] Hr Hx Hro Hxo Hg Hgx.
  assert (Hopen : forall y, rd_status y = RoundOpen -> unfinished y = true).
  { intros y Hy. unfold unfinished. rewrite Hy. done. }
  destruct (Ztrichotomy (rd_sequence r) (rd_sequence x)) as [Hlt|[Heq|Hgt]].
  - pose proof (Ho j i x r Hx Hxo Hr Hgx Hg Hlt) as Hf. by rewrite Hopen in Hf.
  - by apply (Hu i j r x).
  - pose proof (Ho i j r x Hr Hro Hx Hg Hgx ltac:(lia)) as Hf. by rewrite Hopen in Hf.
Qed.

(** Rounds only move on: none is added, none is opened or taken up again. *)
Definition advances (db db' : DB) : Prop := forall i r', rounds db'.(app) !! i = Some r' ->
  exists r, rounds db.(app) !! i = Some r /\ same_slot r r' /\
    (rd_status r' = RoundOpen -> rd_status r = RoundOpen) /\ (unfinished r = false -> unfinished r' = false).

Lemma advances_ordered game db db' : advances db db' -> ordered game db -> ordered game db'.
Proof.
  intros Had [Hu Ho]. split.
  - intros i j r' x' Hr Hx Hg Hgx Hs. destruct (Had _ _ Hr) as (r & Hr0 & (G1 & S1 & _) & _).
    destruct (Had _ _ Hx) as (x & Hx0 & (G2 & S2 & _) & _). apply (Hu i j r x); congruence.
  - intros i j r' x' Hr Hopen Hx Hg Hgx Hlt. destruct (Had _ _ Hr) as (r & Hr0 & (G1 & S1 & _) & Hop & _).
    destruct (Had _ _ Hx) as (x & Hx0 & (G2 & S2 & _) & _ & Hfin). apply Hfin.
    apply (Ho i j r x Hr0 (Hop Hopen) Hx0); [congruence|congruence|lia].
Qed.

Lemma same_slot_refl r : same_slot r r.
Proof. done. Qed.

Lemma advances_refl db db' : rounds db'.(app) = rounds db.(app) -> advances db db'.
Proof. intros E i r. rewrite E. intros Hr. by exists r. Qed.

Lemma advances_one db db' i r r' :
  rounds db.(app) !! i = Some r -> rounds db'.(app) = <[i := r']> (rounds db.(app)) -> same_slot r r' ->
  (rd_status r' = RoundOpen -> rd_status r = RoundOpen) -> (unfinished r = false -> unfinished r' = false) ->
  advances db db'.
Proof.
  intros Hr E Hs Hop Hfin j x. rewrite E. intros [[<- <-]|[_ Hx]]%lookup_insert_Some; [by exists r|by exists x].
Qed.

(** Updating many rounds over one snapshot. *)
Lemma update_rounds_lookup choose status db i :
  rounds (app (update_rounds choose status db)) !! i =
    (r ← rounds (app db) !! i; Some (if choose i r then set_round status r else r)).
Proof. unfold update_rounds. cbn. by rewrite map_lookup_imap. Qed.

Lemma update_rounds_inv choose status db i r' :
  rounds (app (update_rounds choose status db)) !! i = Some r' ->
  exists r, rounds (app db) !! i = Some r /\ same_slot r r' /\
    (choose i r = true /\ r' = set_round status r \/ choose i r = false /\ r' = r).
Proof.
  rewrite update_rounds_lookup. destruct (rounds (app db) !! i) as [r|] eqn:E; [|done]. cbn. intros [= <-].
  exists r. split; [done|]. destruct (choose i r); split; auto using same_slot_refl. by split.
Qed.

Lemma close_advances (ids : list string) db :
  (forall i r, rounds db.(app) !! i = Some r -> i ∈ ids -> unfinished r = true) ->
  advances db (update_rounds (fun i _ => bool_decide (i ∈ ids)) RoundClosed db).
Proof.
  intros Hids i r' Hr'. destruct (update_rounds_inv _ _ _ _ _ Hr') as (r & Hr & Hs & [[Hc ->]|[_ ->]]).
  - exists r. split; [done|split; [done|split; [done|]]]. bool_to_prop. by rewrite (Hids i r).
  - by exists r.
Qed.

(** Opening what is next keeps the order. *)
Lemma activate_ordered game now db :
  ordered game db -> ordered game (update_rounds (fun _ => activates now db) RoundOpen db).
Proof.
  intros [Hu Ho]. split.
  - intros i j r' x' Hr Hx Hg Hgx Hs. destruct (update_rounds_inv _ _ _ _ _ Hr) as (r & Hr0 & (G1 & S1 & _) & _).
    destruct (update_rounds_inv _ _ _ _ _ Hx) as (x & Hx0 & (G2 & S2 & _) & _). apply (Hu i j r x); congruence.
  - intros i j r' x' Hr Hopen Hx Hg Hgx Hlt.
    destruct (update_rounds_inv _ _ _ _ _ Hr) as (r & Hr0 & (G1 & S1 & _) & Hcase).
    destruct (update_rounds_inv _ _ _ _ _ Hx) as (x & Hx0 & (G2 & S2 & _) & Hcasex).
    assert (Hfin : unfinished x = false).
    { destruct Hcase as [[Hact _]|[_ ->]].
      - unfold activates in Hact. apply andb_prop in Hact as [_ Hno%negb_true_iff].
        unfold prior_unfinished, unfinished_round in Hno. apply not_true_iff_false in Hno.
        destruct (unfinished x) eqn:Hf; [|done]. exfalso. apply Hno, existsb_exists. exists (j, x).
        split; [by apply list_elem_of_In, elem_of_map_to_list|]. cbn. rewrite Hf, andb_true_r.
        apply andb_true_iff. split; [apply bool_decide_eq_true; congruence|apply Z.ltb_lt; lia].
      - apply (Ho i j r x Hr0 Hopen Hx0); [congruence|congruence|lia]. }
    destruct Hcasex as [[Hact _]|[_ ->]]; [|done]. exfalso.
    unfold activates in Hact. repeat apply andb_prop in Hact as [Hact _]. apply bool_decide_eq_true in Hact.
    unfold unfinished in Hfin. rewrite Hact in Hfin. done.
Qed.

(** ** Appending rounds *)

Lemma max_of_ge l x : x ∈ l -> exists m, max_of l = Some m /\ x <= m.
Proof.
  induction l as [|y l IH]; [by intros ?%elem_of_nil|]. intros [->|Hin]%elem_of_cons; cbn [max_of foldr].
  - change (foldr _ None l) with (max_of l). destruct (max_of l) as [m|]; eexists; split; [done|lia|done|lia].
  - destruct (IH Hin) as (m & Hm & Hle). change (foldr _ None l) with (max_of l). rewrite Hm.
    eexists. split; [done|lia].
Qed.

Lemma last_sequence_ge db i r :
  rounds db.(app) !! i = Some r -> rd_sequence r <= last_sequence (rd_game_type_id r) db.
Proof.
  intros Hr. unfold last_sequence.
  destruct (max_of_ge (map rd_sequence (rounds_of (rd_game_type_id r) db)) (rd_sequence r)) as (m & -> & Hle); [|done].
  apply list_elem_of_fmap_2. unfold rounds_of. change r with (snd (i, r)). apply list_elem_of_fmap_2.
  apply list_elem_of_In, List.filter_In. split; [by apply list_elem_of_In, elem_of_map_to_list|].
  by apply bool_decide_eq_true.
Qed.

(** The rounds of a game are all before [s]. *)
Definition all_before (gameType : string) (s : Z) (db : DB) : Prop := forall i r,
  rounds db.(app) !! i = Some r -> rd_game_type_id r = gameType -> rd_sequence r < s.

(** [k] rounds of [item] were appended, from [s] on. *)
Record appended (item : scheduledType) (s res k : Z) (db db' : DB) : Prop := {
  ap_only : exists m n, app db' = set_uuid_count n (set_rounds m (app db));
  ap_money : money db' = money db;
  ap_old : forall i r, rounds db.(app) !! i = Some r -> rounds db'.(app) !! i = Some r;
  ap_new : forall i r, rounds db'.(app) !! i = Some r -> rounds db.(app) !! i = Some r \/
    rounds db.(app) !! i = None /\
    exists j, 0 <= j < k /\ r = new_round item (s + j * step_of item) (res + j * cycle_of item);
  ap_all : forall j, 0 <= j < k -> exists i, rounds db.(app) !! i = None /\
    rounds db'.(app) !! i = Some (new_round item (s + j * step_of item) (res + j * cycle_of item))
}.

Lemma appended_none item s res db db' : rounds db'.(app) = rounds db.(app) -> money db' = money db ->
  (exists n, app db' = set_uuid_count n (app db)) -> appended item s res 0 db db'.
Proof.
  intros Hr Hm (n & Ha). split.
  - exists (rounds (app db)), n. rewrite Ha. by destruct (app db).
  - done.
  - intros i r. by rewrite Hr.
  - intros i r. rewrite Hr. by left.
  - lia.
Qed.

Lemma appended_one item s res k id db d db' :
  rounds db.(app) !! id = None -> app d = set_uuid_count (uuid_count (app d)) (set_rounds (<[id := new_round item s res]> (rounds (app db))) (app db)) ->
  money d = money db -> 0 <= k -> appended item (s + step_of item) (res + cycle_of item) k d db' ->
  appended item s res (1 + k) db db'.
Proof.
  intros Hid Hd Hm Hk [(m & n & A1) A2 A3 A4 A5].
  assert (Hrd : rounds (app d) = <[id := new_round item s res]> (rounds (app db))) by (by rewrite Hd).
  assert (H0 : new_round item s res = new_round item (s + 0 * step_of item) (res + 0 * cycle_of item))
    by (f_equal; lia).
  assert (Hj : forall j, new_round item (s + step_of item + j * step_of item) (res + cycle_of item + j * cycle_of item) =
    new_round item (s + (1 + j) * step_of item) (res + (1 + j) * cycle_of item)) by (intros j; f_equal; lia).
  split.
  - exists m, n. rewrite A1, Hd. done.
  - congruence.
  - intros i r Hr. apply A3. rewrite Hrd, lookup_insert_ne; [done|congruence].
  - intros i r Hr. destruct (A4 i r Hr) as [Hold|(Hnone & j & Hjk & ->)].
    + rewrite Hrd in Hold. apply lookup_insert_Some in Hold as [[<- <-]|[_ Hold]]; [|by left].
      right. split; [done|]. exists 0. split; [lia|done].
    + right. rewrite Hrd in Hnone. apply lookup_insert_None in Hnone as [Hnone _]. split; [done|].
      exists (1 + j). split; [lia|]. apply Hj.
  - intros j Hjk. destruct (decide (j = 0)) as [->|Hne].
    + exists id. split; [done|]. rewrite <- H0. apply A3. rewrite Hrd. apply lookup_insert_eq.
    + destruct (A5 (j - 1)) as (i & Hn & Hi); [lia|]. exists i. rewrite Hrd in Hn.
      apply lookup_insert_None in Hn as [Hn _]. split; [done|]. rewrite Hi, Hj. do 2 f_equal; lia.
Qed.

(** How many rounds of a game are not finished. *)
Definition waiting_round (gameType : string) (r : round_row) : Z :=
  if bool_decide (rd_game_type_id r = gameType) && unfinished r then 1 else 0.

Definition waiting (gameType : string) (db : DB) : Z := sum_map (waiting_round gameType) (rounds db.(app)).

Lemma future_waiting now gameType db : future_count now gameType db <= waiting gameType db.
Proof.
  unfold future_count, waiting.
  transitivity (sum_map (fun r => if is_future now gameType r then 1 else 0) (rounds (app db))).
  - rewrite <- (sum_rows (fun _ => is_future now gameType) (fun _ => 1)) by done. cbn [snd].
    generalize (List.filter (fun kv : string * round_row => is_future now gameType kv.2) (map_to_list (rounds (app db)))).
    intros l. induction l as [|x l IH]; [done|]. cbn [length map]. unfold sum_Z in *. cbn [foldr]. lia.
  - apply sum_map_le. intros r. unfold is_future, waiting_round.
    destruct (bool_decide _), (unfinished r), (now <? rd_result_at r); cbn; lia.
Qed.

(** A scheduled round behind all others keeps the order. *)
Lemma insert_ordered game db db' id r :
  rounds db'.(app) = <[id := r]> (rounds db.(app)) -> rounds db.(app) !! id = None ->
  rd_status r = RoundScheduled -> all_before (rd_game_type_id r) (rd_sequence r) db -> ordered game db -> ordered game db'.
Proof.
  intros E Hid Hst Hbef [Hu Ho]. split.
  - intros i j y x. rewrite E.
    intros [[<- <-]|[_ Hr]]%lookup_insert_Some [[<- <-]|[_ Hx]]%lookup_insert_Some Hg Hgx Hs; [done|..|by apply (Hu i j y x)].
    + pose proof (Hbef j x Hx ltac:(congruence)). lia.
    + pose proof (Hbef i y Hr ltac:(congruence)). lia.
  - intros i j y x. rewrite E.
    intros [[<- <-]|[_ Hr]]%lookup_insert_Some Hop [[<- <-]|[_ Hx]]%lookup_insert_Some Hg Hgx Hlt; [congruence|congruence|..].
    + pose proof (Hbef i y Hr ltac:(congruence)). lia.
    + by apply (Ho i j y x).
Qed.

Section fill.
Context `{Uuids}.

Lemma fill_rounds_k k fuel item fc s res created db :
  Z.to_nat (3 - fc) = k -> (k <= fuel)%nat -> 0 < step_of item ->
  int64_min <= s -> s + Z.of_nat k * step_of item <= int64_max -> all_before (st_id item) s db ->
  match fill_rounds fuel item fc s res created db with
  | Err e => e = UniqueViolation "rounds"
  | Ok (n, db') => n = created + Z.of_nat k /\ appended item s res (Z.of_nat k) db db' /\ (forall game, ordered game db -> ordered game db') /\
      (forall g, waiting g db <= waiting g db') /\
      waiting (st_id item) db' = waiting (st_id item) db + Z.of_nat k /\ size (rounds db'.(app)) = (size (rounds db.(app)) + k)%nat
  end.
Proof.
  revert fuel fc s res created db. induction k as [|k IH]; intros f fc s res created db Hk Hf Hstep Hmin Hmax Hbef.
  - assert (E : (fc <? 3) = false) by (apply Z.ltb_ge; lia). destruct f; cbn [fill_rounds]; rewrite E; cbn.
    all: split; [lia|split; [|split; [done|split; [done|split; lia]]]].
    all: apply appended_none; [done|done|exists (uuid_count (app db)); by destruct (app db)].
  - assert (Hs1 : s + step_of item <= s + Z.of_nat (S k) * step_of item) by nia.
    destruct f as [|f]; [lia|]. cbn [fill_rounds].
    rewrite (proj2 (Z.ltb_lt fc 3)) by lia. set (r := new_round item s res).
    unfold mbind, Tx_bind. cbn [new_uuid]. unfold insert_unless.
    assert (Hnone : find_row (fun _ => same_round_slot r) (rounds (app db)) = None).
    { destruct (find_row _ _) as [[i x]|] eqn:Ex; [|done]. apply find_row_Some in Ex as [Hx Hs].
      apply andb_prop in Hs as [Hg%bool_decide_eq_true Hsq%Z.eqb_eq].
      pose proof (Hbef i x Hx Hg). unfold r in Hsq. cbn in Hsq. lia. }
    change (tbl (app (set_app (set_uuid_count (S (uuid_count (app db))) (app db)) db))) with (rounds (app db)).
    rewrite Hnone. destruct (rounds (app db) !! uuid_at (uuid_count (app db))) as [x|] eqn:Ex; [done|].
    rewrite wrap64_small by (unfold in_int64; unfold int64_min, int64_max in *; lia).
    match goal with |- context [fill_rounds f item (fc + 1) ?s' ?r' ?c' ?d] =>
      set (d1 := d); specialize (IH f (fc + 1) s' r' c' d1);
      assert (Hbef1 : all_before (st_id item) s' d1) end.
    { intros i x Hx Hg. unfold d1 in Hx. cbn in Hx. apply lookup_insert_Some in Hx as [[_ <-]|[_ Hx]]; [cbn; lia|].
      pose proof (Hbef i x Hx Hg). lia. }
    specialize (IH ltac:(lia) ltac:(lia) Hstep ltac:(lia) ltac:(lia) Hbef1).
    destruct (fill_rounds f item (fc + 1) _ _ _ d1) as [[n db']|e]; [|exact IH].
    destruct IH as (-> & Hap & Hord & Hmono & Hwait & Hsize). split; [lia|split; [|split; [|split; [|split]]]].
    + replace (Z.of_nat (S k)) with (1 + Z.of_nat k) by lia.
      eapply (appended_one _ _ _ _ _ db d1); [exact Ex|reflexivity|reflexivity|lia|exact Hap].
    + intros game Hor. apply Hord. by apply (insert_ordered game db d1 (uuid_at (uuid_count (app db))) r).
    + intros g. etrans; [|apply Hmono]. unfold waiting.
      change (rounds (app d1)) with (<[uuid_at (uuid_count (app db)) := r]> (rounds (app db))).
      rewrite sum_map_insert by exact Ex. unfold waiting_round at 2. destruct (_ && _); lia.
    + rewrite Hwait. unfold waiting at 1.
      change (rounds (app d1)) with (<[uuid_at (uuid_count (app db)) := r]> (rounds (app db))).
      rewrite sum_map_insert by exact Ex. fold (waiting (st_id item) db).
      assert (waiting_round (st_id item) r = 1) as -> by (unfold waiting_round; by rewrite bool_decide_true).
      lia.
    + rewrite Hsize. change (rounds (app d1)) with (<[uuid_at (uuid_count (app db)) := r]> (rounds (app db))).
      rewrite map_size_insert_None by exact Ex. lia.
Qed.

(** ** One game after the other *)

(** What the tables and the clock keep to. *)
Record schedule_bounds (now height : Z) (db : DB) : Prop := {
  sb_now : 0 <= now <= 2 ^ 61;
  sb_height : height <= 2 ^ 61;
  sb_rounds i r : rounds db.(app) !! i = Some r -> 0 <= rd_sequence r <= 2 ^ 61 /\ 0 <= rd_result_at r
}.

(** INTEGER columns with their CHECKs. *)
Definition sane_item (item : scheduledType) : Prop :=
  (is_tron item = true -> 0 < st_interval item < 2 ^ 31) /\ 0 <= st_closeBefore item <= 59 * second_ns.

Lemma max_of_In l m : max_of l = Some m -> m ∈ l.
Proof.
  revert m. induction l as [|x l IH]; intros m; [done|]. cbn [max_of foldr]. change (foldr _ None l) with (max_of l).
  destruct (max_of l) as [y|]; intros [= <-]; [|constructor].
  destruct (Z.max_spec x y) as [[_ ->]|[_ ->]]; [constructor; by apply IH|constructor].
Qed.

Lemma rounds_of_In gameType db r : r ∈ rounds_of gameType db ->
  exists i, rounds db.(app) !! i = Some r /\ rd_game_type_id r = gameType.
Proof.
  unfold rounds_of. intros ([i x] & -> & Hin)%list_elem_of_fmap.
  apply list_elem_of_In, List.filter_In in Hin as [Hin Hg%bool_decide_eq_true].
  apply list_elem_of_In, elem_of_map_to_list in Hin. by exists i.
Qed.

(** The last round of a game is within what bounds all of its rounds. *)
Lemma last_bounds gameType db :
  (forall i r, rounds db.(app) !! i = Some r -> rd_game_type_id r = gameType ->
     0 <= rd_sequence r <= 2 ^ 61 /\ 0 <= rd_result_at r) ->
  0 <= last_sequence gameType db <= 2 ^ 61 /\ (forall x, last_result gameType db = Some x -> 0 <= x).
Proof.
  intros Hall. unfold last_sequence, last_result. split.
  - destruct (max_of _) as [m|] eqn:E; [|cbn; lia].
    apply max_of_In, list_elem_of_fmap in E as (r & -> & Hin).
    destruct (rounds_of_In _ _ _ Hin) as (i & Hr & Hg). apply (Hall i r Hr Hg).
  - intros x E. apply max_of_In, list_elem_of_fmap in E as (r & -> & Hin).
    destruct (rounds_of_In _ _ _ Hin) as (i & Hr & Hg). apply (Hall i r Hr Hg).
Qed.

Lemma nextTronTarget_spec height interval :
  0 < height <= 2 ^ 61 -> 0 < interval < 2 ^ 31 ->
  let target := nextTronTarget height interval in
  height < target <= height + interval /\ (interval | target).
Proof.
  intros Hh Hi. unfold nextTronTarget. rewrite (proj2 (Z.leb_gt _ _)), (proj2 (Z.leb_gt interval 0)) by lia.
  cbn [orb]. pose proof (Z.div_mod height interval ltac:(lia)) as Hdm.
  pose proof (Z.mod_pos_bound height interval ltac:(lia)) as Hmod.
  assert (Hq : 0 <= height / interval <= height).
  { split; [apply Z.div_pos; lia|]. apply Z.div_le_upper_bound; nia. }
  assert (Hfit : forall z, 0 <= z <= 2 ^ 61 + 2 ^ 31 -> wrap64 z = z).
  { intros z Hz. apply wrap64_small. unfold in_int64, int64_min, int64_max. lia. }
  rewrite (Z.quot_div_nonneg height interval) by lia.
  rewrite (Hfit (height / interval)), (Hfit (height / interval + 1)) by lia.
  rewrite Hfit by nia. split; [nia|]. exists (height / interval + 1). lia.
Qed.

(** Where the rounds of a game go on. *)
Lemma first_slot_spec now height blockAt item lastSequence lastResult s res :
  first_slot now height blockAt item lastSequence lastResult = Some (s, res) ->
  sane_item item -> 0 <= now <= 2 ^ 61 -> height <= 2 ^ 61 -> 0 <= lastSequence <= 2 ^ 61 ->
  (forall x, lastResult = Some x -> 0 <= x) ->
  lastSequence < s /\ (is_tron item = true -> 0 < height < s) /\ s + 3 * step_of item <= int64_max /\
  0 < step_of item /\ (is_tron item = false -> now < res - st_closeBefore item).
Proof.
  unfold first_slot, step_of. intros Hslot [Hint Hclose] Hnow Hh Hlast Hres. unfold int64_max.
  assert (Hfit : forall z, 0 <= z <= 2 ^ 62 -> wrap64 z = z).
  { intros z Hz. apply wrap64_small. unfold in_int64, int64_min, int64_max. lia. }
  destruct (is_tron item) eqn:Ht.
  - specialize (Hint eq_refl). destruct (height <=? 0) eqn:Eh; [done|]. apply Z.leb_gt in Eh. cbv zeta in Hslot.
    destruct (nextTronTarget_spec height (st_interval item) ltac:(lia) Hint) as [Htg _].
    set (q := if nextTronTarget height (st_interval item) <=? lastSequence then (lastSequence + st_interval item)%i64
              else nextTronTarget height (st_interval item)) in Hslot.
    assert (Hq : lastSequence < q /\ height < q /\ q <= 2 ^ 61 + 2 ^ 31).
    { unfold q. destruct (_ <=? _) eqn:E; bool_to_prop; [rewrite Hfit by lia|]; lia. }
    destruct (_ <=? now); injection Hslot as <- <-; [rewrite Hfit by lia|]; repeat split; lia || done.
  - cbv zeta in Hslot. rewrite (Hfit (lastSequence + 1)) in Hslot by lia. unfold cycle_of in Hslot. rewrite Ht in Hslot.
    pose proof (Z.mod_pos_bound now kline_cycle ltac:(done)) as Hm. unfold kline_cycle, second_ns in *.
    destruct lastResult as [x|].
    + specialize (Hres x eq_refl). destruct (x + 60000000000 - st_closeBefore item <=? now) eqn:E; bool_to_prop.
      * set (gap := now - (x + 60000000000 - st_closeBefore item)) in *.
        assert (Hgap : 0 <= gap <= 2 ^ 61) by (unfold gap; lia).
        pose proof (Z.quot_rem' gap 60000000000) as Hqr. pose proof (Z.rem_bound_pos gap 60000000000 ltac:(lia) ltac:(lia)) as Hrm.
        set (k := Z.quot gap 60000000000) in *. assert (Hk : 0 <= k <= 2 ^ 26) by lia.
        rewrite (Hfit (k + 1)), (Hfit (lastSequence + 1 + (k + 1))) in Hslot by lia.
        rewrite (Hfit ((k + 1) * 60000000000)) in Hslot by lia. injection Hslot as <- <-.
        unfold gap in *. repeat split; lia || done.
      * injection Hslot as <- <-. repeat split; lia || done.
    + destruct (_ <=? now) eqn:E; bool_to_prop; injection Hslot as <- <-; repeat split; lia || done.
Qed.

(** A round the scheduler adds for [item]. *)
Definition fresh_round (now height : Z) (item : scheduledType) (last : Z) (r : round_row) : Prop :=
  rd_game_type_id r = st_id item /\ rd_status r = RoundScheduled /\
  rd_bet_closes_at r = rd_result_at r - st_closeBefore item /\ last < rd_sequence r /\
  (is_tron item = true -> 0 < height < rd_sequence r) /\
  (is_tron item = false -> now < rd_bet_closes_at r).

Record grown (now height : Z) (items : list scheduledType) (n : Z) (db db' : DB) : Prop := {
  gw_only : exists m k, app db' = set_uuid_count k (set_rounds m (app db));
  gw_money : money db' = money db;
  gw_old : forall i r, rounds db.(app) !! i = Some r -> rounds db'.(app) !! i = Some r;
  gw_new : forall i r, rounds db'.(app) !! i = Some r -> rounds db.(app) !! i = Some r \/
    rounds db.(app) !! i = None /\
    exists item, item ∈ items /\ fresh_round now height item (last_sequence (st_id item) db) r;
  gw_order game : ordered game db -> ordered game db';
  gw_waiting : forall item, item ∈ items -> (is_tron item = true -> 0 < height) -> 3 <= waiting (st_id item) db';
  gw_mono : forall g, waiting g db <= waiting g db';
  gw_count : Z.of_nat (size (rounds db'.(app))) = Z.of_nat (size (rounds db.(app))) + n
}.

Lemma grown_none now height db : grown now height [] 0 db db.
Proof.
  split; try done.
  - exists (rounds (app db)), (uuid_count (app db)). by destruct (app db).
  - intros i r. by left.
  - by intros item ?%elem_of_nil.
  - lia.
Qed.

Lemma last_sequence_mono g db d :
  (forall i r, rounds db.(app) !! i = Some r -> rounds d.(app) !! i = Some r) ->
  0 <= last_sequence g d -> last_sequence g db <= last_sequence g d.
Proof.
  intros Hold Hpos. unfold last_sequence at 1. destruct (max_of _) as [m|] eqn:E; [|done]. cbn.
  apply max_of_In, list_elem_of_fmap in E as (r & -> & Hin).
  destruct (rounds_of_In _ _ _ Hin) as (i & Hr & <-). by eapply last_sequence_ge, Hold.
Qed.

(** The bounds of the rounds of the games still to come. *)
Definition items_bounds (items : list scheduledType) (db : DB) : Prop := forall item i r,
  item ∈ items -> rounds db.(app) !! i = Some r -> rd_game_type_id r = st_id item ->
  0 <= rd_sequence r <= 2 ^ 61 /\ 0 <= rd_result_at r.

(** One game filled, then the others. *)
Lemma grown_cons now height item items s res created k n db d1 d' :
  appended item s res k db d1 -> (forall game, ordered game db -> ordered game d1) -> (forall g, waiting g db <= waiting g d1) ->
  waiting (st_id item) d1 = waiting (st_id item) db + k -> size (rounds d1.(app)) = (size (rounds db.(app)) + Z.to_nat k)%nat ->
  0 <= k -> 3 <= waiting (st_id item) db + k ->
  (forall j, 0 <= j < k -> last_sequence (st_id item) db < s + j * step_of item /\
     (is_tron item = false -> now < res + j * cycle_of item - st_closeBefore item)) ->
  (forall j, 0 <= j < k -> is_tron item = true -> 0 < height < s + j * step_of item) ->
  (forall it, it ∈ items -> 0 <= last_sequence (st_id it) d1) ->
  grown now height items (n - (created + k)) d1 d' ->
  grown now height (item :: items) (n - created) db d'.
Proof.
  intros [A1 A2 A3 A4 A5] Hord Hmono Hwait Hsize Hk H3 Hj Hjt Hpos [G1 G2 G3 G4 G5 G6 G7 G8]. split.
  - destruct A1 as (m & c & A1), G1 as (m' & c' & G1). exists m', c'. by rewrite G1, A1.
  - congruence.
  - auto.
  - intros i r Hr. destruct (G4 i r Hr) as [Hr1|(Hno & it & Hin & Hfr)].
    + destruct (A4 i r Hr1) as [?|(Hno & j & Hjk & ->)]; [by left|right]. split; [done|].
      exists item. split; [constructor|]. destruct (Hj j Hjk) as [J1 J2]. split; [done|split; [done|split; [done|]]].
      split; [exact J1|split; [by apply Hjt|done]].
    + right. destruct (rounds (app db) !! i) as [x|] eqn:Ex; [by rewrite (A3 _ _ Ex) in Hno|]. split; [done|].
      exists it. split; [by constructor|]. destruct Hfr as (F1 & F2 & F3 & F4 & F5).
      split; [done|split; [done|split; [done|split; [|done]]]].
      pose proof (last_sequence_mono (st_id it) db d1 A3 (Hpos it Hin)). lia.
  - auto.
  - intros it Hin Hh. apply elem_of_cons in Hin as [E|Hin]; [|by apply G6].
    rewrite E. specialize (G7 (st_id item)). lia.
  - intros g. etrans; [apply Hmono|apply G7].
  - rewrite G8, Hsize. lia.
Qed.

Lemma schedule_types_spec now height blockAt items created db :
  NoDup (map st_id items) -> Forall sane_item items -> 0 <= now <= 2 ^ 61 -> height <= 2 ^ 61 ->
  items_bounds items db ->
  match schedule_types now height blockAt items created db with
  | Err e => e = UniqueViolation "rounds"
  | Ok (n, db') => grown now height items (n - created) db db'
  end.
Proof.
  intros Hnd Hsane Hnow Hh. revert created db Hnd. induction Hsane as [|item items Hi Hsane IH]; intros created db Hnd Hb.
  { cbn. rewrite Z.sub_diag. apply grown_none. }
  cbn [map] in Hnd. apply NoDup_cons in Hnd as [Hnotin Hnd]. cbn [schedule_types]. rewrite gets_skip.
  assert (Hlast : 0 <= last_sequence (st_id item) db <= 2 ^ 61 /\ (forall x, last_result (st_id item) db = Some x -> 0 <= x)).
  { apply last_bounds. intros i r Hr Hg. apply (Hb item i r); [constructor|done|done]. }
  destruct (first_slot _ _ _ _ _ _) as [[s res]|] eqn:Eslot.
  - rewrite !gets_skip. unfold mbind, Tx_bind.
    destruct (first_slot_spec _ _ _ _ _ _ _ _ Eslot Hi Hnow Hh (proj1 Hlast) (proj2 Hlast)) as (S1 & S2 & S3 & S4 & S5).
    set (fc := future_count now (st_id item) db). assert (Hfc : 0 <= fc) by (unfold fc, future_count; lia).
    assert (Hbef : all_before (st_id item) s db).
    { intros i r Hr Hg. pose proof (last_sequence_ge db i r Hr) as Hge. rewrite Hg in Hge. lia. }
    pose proof (fill_rounds_k (Z.to_nat (3 - fc)) (fill_fuel db) item fc s res created db eq_refl) as Hfill.
    destruct (fill_rounds _ _ _ _ _ _ db) as [[n1 d1]|e].
    2: { apply Hfill; [unfold fill_fuel; lia|done|unfold int64_min; lia|nia|done]. }
    destruct Hfill as (-> & Hap & Hord & Hmono & Hwait & Hsize);
      [unfold fill_fuel; lia|done|unfold int64_min; lia|nia|done|].
    set (k := Z.of_nat (Z.to_nat (3 - fc))) in *.
    assert (Hb1 : items_bounds items d1).
    { intros it i r Hin Hr Hg. destruct (ap_new _ _ _ _ _ _ Hap i r Hr) as [Hr0|(_ & j & _ & ->)].
      - by apply (Hb it i r); [constructor|..].
      - exfalso. apply Hnotin. cbn in Hg. rewrite Hg. by apply list_elem_of_fmap_2. }
    specialize (IH (created + k) d1 Hnd Hb1).
    destruct (schedule_types _ _ _ items _ d1) as [[n d']|e]; [|exact IH].
    eapply grown_cons; [exact Hap|exact Hord|exact Hmono|exact Hwait|unfold k; rewrite Nat2Z.id; exact Hsize| |..|exact IH].
    + unfold k. lia.
    + pose proof (future_waiting now (st_id item) db) as Hle. fold fc in Hle. unfold k. lia.
    + intros j Hj. split; [nia|]. intros Hk. specialize (S5 Hk).
      assert (cycle_of item = kline_cycle) as -> by (unfold cycle_of; by rewrite Hk). unfold kline_cycle. nia.
    + intros j Hj Ht. specialize (S2 Ht). nia.
    + intros it Hin. apply last_bounds. intros i r Hr Hg. by apply (Hb1 it i r).
  - specialize (IH created db Hnd).
    assert (Hb1 : items_bounds items db) by (intros it i r Hin; apply Hb; by constructor).
    specialize (IH Hb1). destruct (schedule_types _ _ _ items created db) as [[n d']|e]; [|exact IH].
    destruct IH as [G1 G2 G3 G4 G5 G6 G7 G8]. split; try done.
    + intros i r Hr. destruct (G4 i r Hr) as [?|(? & it & Hin & Hfr)]; [by left|right].
      split; [done|]. exists it. split; [by constructor|done].
    + intros it Hin Hpos. apply elem_of_cons in Hin as [E|Hin]; [|by apply G6]. subst it.
      exfalso. unfold first_slot in Eslot. destruct (is_tron item) eqn:Ht.
      * rewrite (proj2 (Z.leb_gt height 0)) in Eslot by (by apply Hpos). cbv zeta in Eslot. by destruct (_ <=? now).
      * cbv zeta in Eslot. destruct (last_result _ _); [by destruct (_ <=? now)|done].
Qed.
End fill.

(** ** Opening what comes next *)

Lemma unfinished_status r x : rd_status r = rd_status x -> unfinished r = unfinished x.
Proof. unfold unfinished. by intros ->. Qed.

Lemma prior_unfinished_true r db :
  prior_unfinished r db = true <-> exists j x, rounds db.(app) !! j = Some x /\
    rd_game_type_id x = rd_game_type_id r /\ rd_sequence x < rd_sequence r /\ unfinished x = true.
Proof.
  unfold prior_unfinished, unfinished_round. rewrite existsb_exists. split.
  - intros ([j x] & Hin & H). bool_to_prop. apply list_elem_of_In, elem_of_map_to_list in Hin. by exists j, x.
  - intros (j & x & Hx & Hg & Hlt & Hun). exists (j, x).
    split; [by apply list_elem_of_In, elem_of_map_to_list|]. cbn.
    by rewrite Hun, bool_decide_true, (proj2 (Z.ltb_lt _ _) Hlt).
Qed.

(** What activation does to one round. *)
Definition opened (r r' : round_row) : Prop :=
  same_slot r r' /\ (r' = r \/ rd_status r = RoundScheduled /\ r' = set_round RoundOpen r).

Lemma opened_unfinished r r' : opened r r' -> unfinished r' = unfinished r.
Proof. intros [_ [->|[Hst ->]]]; [done|]. unfold unfinished. rewrite Hst. done. Qed.

Lemma activated_row now db i r' :
  rounds (app (update_rounds (fun _ => activates now db) RoundOpen db)) !! i = Some r' ->
  exists r, rounds (app db) !! i = Some r /\ opened r r' /\ (activates now db r = true -> rd_status r' = RoundOpen).
Proof.
  intros (r & Hr & Hs & Hcase)%update_rounds_inv. exists r. split; [done|].
  destruct Hcase as [[Hact ->]|[Hact ->]]; (split; [split; [done|]|done || congruence]); [right|by left].
  split; [|done]. unfold activates in Hact. by bool_to_prop.
Qed.

Lemma activated_kept now db i r :
  rounds (app db) !! i = Some r ->
  exists r', rounds (app (update_rounds (fun _ => activates now db) RoundOpen db)) !! i = Some r' /\ opened r r'.
Proof.
  intros Hr. pose proof (update_rounds_lookup (fun _ => activates now db) RoundOpen db i) as E. rewrite Hr in E.
  eexists. split; [exact E|]. by destruct (activated_row _ _ _ _ E) as (x & Hx & Ho & _); simplify_eq.
Qed.

(** Nothing is left that could be opened. *)
Lemma activated_all now db i r' :
  rounds (app (update_rounds (fun _ => activates now db) RoundOpen db)) !! i = Some r' ->
  activates now (update_rounds (fun _ => activates now db) RoundOpen db) r' = false.
Proof.
  intros Hr'. apply not_true_iff_false. intros Hact.
  destruct (activated_row _ _ _ _ Hr') as (r & Hr & [_ Hcase] & Hopen).
  assert (Hst : rd_status r' = RoundScheduled) by (unfold activates in Hact; by bool_to_prop).
  destruct Hcase as [->|[_ ->]]; [|done].
  enough (activates now db r = true) as H by (apply Hopen in H; congruence).
  unfold activates in Hact |- *. bool_to_prop. apply andb_true_iff. split; [repeat (apply andb_true_iff; split)|].
  all: try (by apply bool_decide_eq_true); try (by apply Z.ltb_lt); try done.
  apply negb_true_iff, not_true_iff_false. intros (j & x & Hx & Hg & Hlt & Hun)%prior_unfinished_true.
  destruct (activated_kept now db j x Hx) as (x' & Hx' & Hox).
  match goal with H : prior_unfinished _ _ = false |- _ => apply not_true_iff_false in H; apply H end.
  apply prior_unfinished_true. exists j, x'. pose proof (opened_unfinished _ _ Hox). destruct Hox as [(G & S & _) _].
  split; [done|]. split; [congruence|split; [lia|congruence]].
Qed.

Lemma activated_waiting g now db :
  waiting g (update_rounds (fun _ => activates now db) RoundOpen db) = waiting g db.
Proof.
  unfold waiting, update_rounds. cbn [app set_app set_rounds rounds].
  apply sum_map_imap. intros i r Hr. destruct (activates now db r) eqn:E; [|done].
  unfold waiting_round. cbn. unfold activates in E. bool_to_prop. unfold unfinished. cbn.
  match goal with H : rd_status r = _ |- _ => rewrite H end. done.
Qed.

Lemma activated_size now db :
  size (rounds (app (update_rounds (fun _ => activates now db) RoundOpen db))) = size (rounds (app db)).
Proof.
  unfold update_rounds. cbn [app set_app set_rounds rounds]. rewrite <- !size_dom. f_equal.
  apply dom_imap_L. intros i. rewrite elem_of_dom. unfold is_Some. naive_solver.
Qed.

(** ** Preparing the rounds *)

(** INTEGER columns with their CHECKs. *)
Definition types_sane (db : DB) : Prop := forall id g, game_types db.(app) !! id = Some g ->
  (forall n, gt_block_interval g = Some n -> n < 2 ^ 31) /\ 0 <= gt_close_before_seconds g <= 59.

Lemma scheduled_sane db : types_sane db ->
  NoDup (map st_id (scheduled_types db)) /\ Forall sane_item (scheduled_types db).
Proof.
  intros Hsane. unfold scheduled_types. split.
  - rewrite map_map. change (map _ _) with (map fst (merge_sort by_code
      (List.filter (fun kv => schedulable kv.1 kv.2 db) (map_to_list (game_types db.(app)))))).
    rewrite (merge_sort_Permutation by_code). apply filter_keys_NoDup, NoDup_fst_map_to_list.
  - apply Forall_forall. intros item Hin. apply list_elem_of_fmap in Hin as ([id g] & -> & Hin).
    rewrite merge_sort_Permutation in Hin. apply list_elem_of_In, List.filter_In in Hin as [Hin Hsch].
    apply list_elem_of_In, elem_of_map_to_list in Hin. destruct (Hsane id g Hin) as [Hint Hclose].
    cbn [fst snd] in *. split; cbn.
    + unfold is_tron. cbn. intros Ht%bool_decide_eq_true. unfold schedulable in Hsch.
      apply andb_prop in Hsch as [_ Hsch]. destruct (source_of g) as [s|]; [|by bool_to_prop]. cbn in Ht. subst s.
      rewrite (bool_decide_false (Some "tron_hash"%string = Some "okx_kline"%string)), orb_false_r in Hsch by done.
      apply andb_prop in Hsch as [_ Hpos]. destruct (gt_block_interval g) as [n|]; [|done].
      cbn. specialize (Hint n eq_refl). lia.
    + unfold seconds, second_ns. rewrite wrap64_small; [lia|]. unfold in_int64, int64_min, int64_max. lia.
Qed.

(** What a run of the scheduler leaves. *)
Record schedule_prepared (now height : Z) (n : Z) (db db' : DB) : Prop := {
  pr_only : money db' = money db /\ exists m k, app db' = set_uuid_count k (set_rounds m (app db));
  pr_count : Z.of_nat (size (rounds db'.(app))) = Z.of_nat (size (rounds db.(app))) + n;
  pr_old i r : rounds db.(app) !! i = Some r -> exists r', rounds db'.(app) !! i = Some r' /\ opened r r';
  pr_new i r' : rounds db'.(app) !! i = Some r' -> rounds db.(app) !! i = None ->
    exists item r, item ∈ scheduled_types db /\ opened r r' /\
      fresh_round now height item (last_sequence (st_id item) db) r;
  pr_ahead item : item ∈ scheduled_types db -> (is_tron item = true -> 0 < height) ->
    3 <= waiting (st_id item) db';
  pr_unknown item i r : item ∈ scheduled_types db -> is_tron item = true -> height <= 0 ->
    rounds db'.(app) !! i = Some r -> rd_game_type_id r = st_id item -> is_Some (rounds db.(app) !! i);
  pr_open i r : rounds db'.(app) !! i = Some r -> activates now db' r = false;
  pr_order game : ordered game db -> ordered game db'
}.

Lemma scheduled_type_inj db item item' : NoDup (map st_id (scheduled_types db)) ->
  item ∈ scheduled_types db -> item' ∈ scheduled_types db -> st_id item = st_id item' -> item = item'.
Proof.
  intros Hnd [i Hi]%list_elem_of_lookup [j Hj]%list_elem_of_lookup Heq.
  enough (i = j) by (subst; congruence).
  apply (NoDup_lookup _ i j (st_id item) Hnd); change (map st_id (scheduled_types db)) with (st_id <$> scheduled_types db);
    rewrite list_lookup_fmap, ?Hi, ?Hj; cbn; congruence.
Qed.

Lemma grown_prepared now height n db d1 :
  NoDup (map st_id (scheduled_types db)) -> grown now height (scheduled_types db) n db d1 ->
  schedule_prepared now height n db (update_rounds (fun _ => activates now d1) RoundOpen d1).
Proof.
  intros Hnd [(m & k & G1) G2 G3 G4 G5 G6 _ G8]. split.
  - split; [done|]. eexists _, k. cbn [update_rounds app set_app]. rewrite G1. reflexivity.
  - by rewrite activated_size, G8.
  - intros i r Hr. by apply activated_kept, G3.
  - intros i r' Hr' Hno. destruct (activated_row _ _ _ _ Hr') as (r & Hr & Ho & _).
    destruct (G4 i r Hr) as [Hold|(_ & item & Hin & Hfr)]; [congruence|]. by exists item, r.
  - intros item Hin Hh. rewrite activated_waiting. by apply G6.
  - intros item i r' Hin Htron Hh Hr' Hg. destruct (activated_row _ _ _ _ Hr') as (r & Hr & [(Hgame & _) _] & _).
    destruct (G4 i r Hr) as [Hold|(_ & item' & Hin' & Hid & _ & _ & _ & Hpos & _)]; [by eexists|].
    rewrite (scheduled_type_inj _ item' item Hnd Hin' Hin ltac:(congruence)) in Hpos. specialize (Hpos Htron). lia.
  - intros i r. apply activated_all.
  - intros game Hor. by apply activate_ordered, G5.
Qed.

Section claims.
Context `{Uuids}.

Lemma EnsureScheduledRounds_run now height blockAt db :
  schedule_bounds now height db -> types_sane db ->
  match EnsureScheduledRounds now height blockAt db with
  | Err e => e = UniqueViolation "rounds"
  | Ok (n, db') => schedule_prepared now height n db db'
  end.
Proof.
  intros [Hnow Hh Hrd] Hsane. destruct (scheduled_sane db Hsane) as [Hnd Hitems].
  unfold EnsureScheduledRounds. rewrite gets_skip. unfold mbind, Tx_bind.
  pose proof (schedule_types_spec now height blockAt (scheduled_types db) 0 db Hnd Hitems Hnow Hh) as Hspec.
  specialize (Hspec (fun item i r _ Hr _ => Hrd i r Hr)).
  destruct (schedule_types _ _ _ _ _ db) as [[n d1]|e]; [|exact Hspec].
  rewrite Z.sub_0_r in Hspec. exact (grown_prepared _ _ _ _ _ Hnd Hspec).
Qed.

(** C9: Preparing the rounds always ends, with a collision of round
    identifiers as its only error.  Committed, the count returned is the
    number of rounds added; each new round belongs to an enabled game, lies
    behind every earlier round of its game (a TRON round also above the current
    block), closes the configured time before its result and, for the minute
    games, after now.  Rounds that existed keep their game, sequence and times
    and change only from scheduled to open.  Every scheduled game ends with at
    least three rounds that are not finished - the TRON games only where the
    height of the chain is known (positive): without it, which is how the
    worker goes on when the query of the block fails, no round of a TRON game
    is added, while the others are prepared all the same.  No round is left
    that could be opened, at most one round per game is open where that held
    before, and nothing else is touched. *)
Theorem EnsureScheduledRounds_prepares now height blockAt db :
  schedule_bounds now height db -> types_sane db ->
  match EnsureScheduledRounds now height blockAt db with
  | Err e => e = UniqueViolation "rounds"
  | Ok (n, db') => schedule_prepared now height n db db'
  end.
Proof. exact (EnsureScheduledRounds_run now height blockAt db). Qed.

(** ** Every transition of the rounds *)

(** One transaction on the rounds of [game]: the scheduler, the worker's
    closing, a settlement, a cancellation, or anything that leaves the rounds
    of the game alone. *)
Inductive round_step (game : string) : DB -> DB -> Prop :=
| step_schedule now height blockAt db n db' :
    schedule_bounds now height db -> types_sane db ->
    EnsureScheduledRounds now height blockAt db = Ok (n, db') -> round_step game db db'
| step_activate now db db' : ActivateScheduledRounds now db = Ok ((), db') -> round_step game db db'
| step_close now limit db ids db' : CloseDue now limit db = Ok (ids, db') -> round_step game db db'
| step_begin t roundID db db' :
    repository_BeginSettlement t roundID db = Ok ((), db') -> round_step game db db'
| step_settle hook `{!TaskHook hook} t roundID outcome rules db r db' :
    SettleRound hook t roundID outcome rules db = Ok (r, db') -> books db.(money) -> round_step game db db'
| step_cancel t roundID db n db' :
    CancelRound t roundID db = Ok (n, db') -> books db.(money) -> bets_ok db -> round_step game db db'
| step_elsewhere db db' :
    (forall i r, rounds db'.(app) !! i = Some r -> rd_game_type_id r = game -> rounds db.(app) !! i = Some r) ->
    round_step game db db'.

Lemma elsewhere_ordered game db db' :
  (forall i r, rounds db'.(app) !! i = Some r -> rd_game_type_id r = game -> rounds db.(app) !! i = Some r) ->
  ordered game db -> ordered game db'.
Proof.
  intros Hsub [Hu Ho]. split.
  - intros i j r x Hr Hx Hg Hgx. apply (Hu i j r x); auto.
  - intros i j r x Hr Hop Hx Hg Hgx. apply (Ho i j r x); auto.
Qed.

Lemma announce_rounds now ids db db' :
  announce_closed now ids db = Ok ((), db') -> rounds db'.(app) = rounds db.(app).
Proof.
  revert db. induction ids as [|x ids IH]; intros db Hrun; cbn [announce_closed] in Hrun; tx_steps; [done|].
  by apply IH in Hrun.
Qed.

Lemma close_step t limit db ids db' : CloseDue t limit db = Ok (ids, db') -> advances db db'.
Proof.
  unfold CloseDue. destruct (limit <=? 0); intros Hrun; [tx_steps; by apply advances_refl|].
  apply tx_bind_Ok in Hrun as (x & d & Hx & Hrun). apply gets_Ok in Hx as [<- <-].
  apply tx_bind_Ok in Hrun as ([] & d1 & H1 & Hrun). apply modify_Ok in H1 as <-.
  apply tx_bind_Ok in Hrun as ([] & d2 & H2 & Hrun). apply announce_rounds in H2.
  injection Hrun as <- <-.
  intros i r'. rewrite H2. apply (close_advances (due_to_close t limit db) db).
  intros j r Hr (kv & -> & Hin)%list_elem_of_fmap. apply elem_of_take in Hin as (k & Hin & _).
  apply list_elem_of_lookup_2 in Hin. rewrite merge_sort_Permutation in Hin.
  apply list_elem_of_In, List.filter_In in Hin as [Hin Hcl]. apply list_elem_of_In in Hin.
  destruct kv as [a b]. apply elem_of_map_to_list in Hin. cbn in *. simplify_eq.
  unfold closable in Hcl. bool_to_prop. unfold unfinished. apply bool_decide_eq_true. set_solver.
Qed.

Lemma begin_step t roundID db db' : repository_BeginSettlement t roundID db = Ok ((), db') -> advances db db'.
Proof.
  unfold repository_BeginSettlement, select_id. intros Hrun. tx_steps; [congruence|]. bool_to_prop.
  match goal with H : tbl (app ?d) !! _ = Some ?x, G : tbl (app ?d) !! _ = Some ?y |- _ =>
    rewrite H in G; injection G as -> end.
  eapply advances_one; [eassumption|reflexivity|done|done|]. unfold unfinished.
  match goal with H : rd_status _ = _ |- _ => rewrite H end. done.
Qed.

Lemma settle_step hook `{!TaskHook hook} t roundID outcome rules db r db' :
  SettleRound hook t roundID outcome rules db = Ok (r, db') -> books db.(money) -> advances db db'.
Proof.
  intros Hrun Hbooks. destruct (SettleRound_found _ _ _ _ _ _ _ _ Hrun) as (round & Hround & Hsame).
  destruct (decide (rd_status round = RoundSettled)) as [Hst|Hst]; [rewrite (Hsame Hst); by apply advances_refl|].
  destruct (SettleRound_run _ _ _ _ _ _ _ _ _ Hrun Hbooks Hround Hst) as (_ & _ & _ & _ & y & (Hx & _ & _ & Hs) & E).
  apply (advances_one _ _ roundID round y); [done|done|done|congruence|]. intros _. unfold unfinished. by rewrite Hx.
Qed.

Lemma cancel_step t roundID db n db' :
  CancelRound t roundID db = Ok (n, db') -> books db.(money) -> bets_ok db -> advances db db'.
Proof.
  intros Hrun Hbooks Hbets. destruct (CancelRound_found _ _ _ _ _ Hrun) as (round & Hround & Hsame).
  destruct (decide (rd_status round = RoundCancelled)) as [Hst|Hst]; [rewrite (Hsame Hst); by apply advances_refl|].
  destruct (CancelRound_run _ _ _ _ _ _ Hrun Hbets Hbooks Hround Hst) as (_ & _ & _ & _ & E & _).
  by apply (advances_one _ _ roundID round (set_round RoundCancelled round)).
Qed.

Lemma round_step_ordered game db db' : round_step game db db' -> ordered game db -> ordered game db'.
Proof.
  intros Hstep Hor. destruct Hstep as [now height blockAt db n db' Hb Hs Hrun|now db db' Hrun|now limit db ids db' Hrun
    |t roundID db db' Hrun|hook Hhook t roundID outcome rules db r db' Hrun Hbooks|t roundID db n db' Hrun Hbooks Hbets
    |db db' Hsub].
  - pose proof (EnsureScheduledRounds_run now height blockAt db Hb Hs) as Hp. rewrite Hrun in Hp.
    by apply (pr_order _ _ _ _ _ Hp).
  - injection Hrun as <-. by apply activate_ordered.
  - by apply (advances_ordered game db), Hor; eapply close_step.
  - by apply (advances_ordered game db), Hor; eapply begin_step.
  - by apply (advances_ordered game db), Hor; eapply settle_step.
  - by apply (advances_ordered game db), Hor; eapply cancel_step.
  - by apply (elsewhere_ordered game db).
Qed.

(** C10: The rounds of a game stay in order.  Whatever sequence of scheduler
    runs, activations, closings, settlements and cancellations commits, two
    rounds of the game never share a sequence, every round before an open one
    is finished, and so at most one round of the game takes bets. *)
Theorem rounds_in_order game db db' :
  rtc (round_step game) db db' -> ordered game db ->
  ordered game db' /\
  forall i j r x, rounds db'.(app) !! i = Some r -> rounds db'.(app) !! j = Some x ->
    rd_game_type_id r = game -> rd_game_type_id x = game ->
    rd_status r = RoundOpen -> rd_status x = RoundOpen -> i = j.
Proof.
  intros Hsteps Hor. enough (ordered game db') as Hor'.
  { split; [done|]. intros i j r x Hr Hx Hg Hgx Hro Hxo. by apply (one_open game db' i j r x). }
  induction Hsteps as [|db d db' Hstep _ IH]; [done|]. by apply IH, (round_step_ordered game db).
Qed.
End claims.

(** ** Witnesses *)

Definition kline_rules : json := JObj [("source", JStr "okx_kline")]%string.
Definition hash_rules : json := JObj [("source", JStr "tron_hash")]%string.

(** A minute game and a TRON game in one enabled room, no round yet. *)
Definition schedule_db : DB := mk_DB (mk_Money ∅ [])
  (set_game_rooms {[ "main" := mk_game_room_row "main" "Main" true "hash" ]}
  (set_game_types {[ "k" := mk_game_type_row "kline" "K" true kline_rules None 5 (Some "main");
                     "t" := mk_game_type_row "hash_9" "T" true hash_rules (Some 9) 5 (Some "main") ]}
     example_app))%string.

Definition first_now : Z := go_now noon.
Definition first_height : Z := 72000000.

Definition scheduled_db : DB := run_or (EnsureScheduledRounds first_now first_height None) schedule_db.

(** A minute later the first rounds close and the next ones open. *)
Definition closed_db : DB := run_or (CloseDue (first_now + kline_cycle) 10) scheduled_db.

Lemma schedule_db_bounds : schedule_bounds first_now first_height schedule_db.
Proof. split; [vm_compute; split; discriminate|vm_compute; discriminate|by intros ? ? [=]]. Qed.

Lemma schedule_db_sane : types_sane schedule_db.
Proof.
  unfold types_sane. cbn [app schedule_db set_game_rooms set_game_types game_types]. intros id g Hg.
  apply lookup_insert_Some in Hg as [[_ <-]|[_ Hg]]; [|apply lookup_singleton_Some in Hg as [_ <-]].
  all: cbn; split; [intros n [=]; lia|lia].
Qed.

Lemma EnsureScheduledRounds_prepares_witness : exists db',
  EnsureScheduledRounds first_now first_height None schedule_db = Ok (6, db') /\
  schedule_prepared first_now first_height 6 schedule_db db' /\ 3 <= waiting "k" db' /\ 3 <= waiting "t" db'.
Proof.
  destruct (succeeds_Ok (fun x => x.1 =? 6) (EnsureScheduledRounds first_now first_height None schedule_db))
    as ([n db'] & Hrun & Hn). { vm_compute. reflexivity. }
  apply Z.eqb_eq in Hn. cbn in Hn. subst n. exists db'. split; [exact Hrun|].
  pose proof (EnsureScheduledRounds_prepares first_now first_height None schedule_db schedule_db_bounds schedule_db_sane)
    as Hp. rewrite Hrun in Hp. split; [exact Hp|].
  assert (E : scheduled_types schedule_db =
    [mk_scheduledType "t" 9 "tron_hash" (5 * second_ns); mk_scheduledType "k" 0 "okx_kline" (5 * second_ns)]%string)
    by (vm_compute; reflexivity).
  split.
  - apply (pr_ahead _ _ _ _ _ Hp (mk_scheduledType "k" 0 "okx_kline" (5 * second_ns))%string); [|done].
    rewrite E. by right; left.
  - apply (pr_ahead _ _ _ _ _ Hp (mk_scheduledType "t" 9 "tron_hash" (5 * second_ns))%string); [|done].
    rewrite E. by left.
Defined.

Lemma rounds_in_order_witness : ordered "k" closed_db /\
  exists i r, rounds (app closed_db) !! i = Some r /\ rd_game_type_id r = "k"%string /\ rd_status r = RoundClosed.
Proof.
  destruct (rounds_in_order "k" schedule_db closed_db) as [Hor _].
  - eapply rtc_l; [|eapply rtc_l; [|apply rtc_refl]].
    + eapply (step_schedule _ first_now first_height None _ 6 scheduled_db schedule_db_bounds schedule_db_sane).
      unfold scheduled_db, run_or.
      destruct (succeeds_Ok (fun x => x.1 =? 6) (EnsureScheduledRounds first_now first_height None schedule_db))
        as ([n d] & Hd & Hn); [vm_compute; reflexivity|]. apply Z.eqb_eq in Hn. cbn in Hn. subst n. by rewrite Hd.
    + unfold closed_db, run_or.
      destruct (succeeds_Ok (fun x => true) (CloseDue (first_now + kline_cycle) 10 scheduled_db)) as ([ids d] & Hd & _);
        [vm_compute; reflexivity|].
      rewrite Hd. by eapply step_close.
  - split; [intros i j r x|intros i j r x]; cbn; by intros [=].
  - split; [exact Hor|]. eexists "3"%string, _. vm_compute. repeat split; reflexivity.
Defined.
