(* ===== verification/BettingProofs.v ===== *)
(** * Betting: what holds

    Placing a bet charges exactly its stake, once per request, within the
    limits of its game; cancelling gives it back once. *)

From S2P Require Import Prelude GoStrings Money Json Game Schema Store Books Custody Wallet Rebate Draws.
From S2P Require Import Settlement BetBooks Chain Examples ChainProofs RebateProofs SettlementProofs Betting.

(** ** The writes of a bet *)

(** The tables that placing a bet leaves alone. *)
Record kept (db db' : DB) : Prop := {
  kp_rounds : rounds db'.(app) = rounds db.(app);
  kp_withdrawals : withdrawals db'.(app) = withdrawals db.(app);
  kp_points : point_withdrawals db'.(app) = point_withdrawals db.(app);
  kp_lulu : lulu_orders db'.(app) = lulu_orders db.(app);
  kp_users : users db'.(app) = users db.(app);
  kp_types : game_types db'.(app) = game_types db.(app)
}.

#[export] Instance kept_preorder : PreOrder kept.
Proof.
  split.
  - by split.
  - intros d1 d2 d3 [] []. split; congruence.
Qed.

Section placing.
Context `{Uuids}.

Lemma SnapshotTx_Ok betID b db u db' :
  SnapshotTx betID db = Ok (u, db') -> bets db.(app) !! betID = Some b ->
  bets db'.(app) = <[betID := with_rebate_version 2 b]> (bets db.(app)) /\
  bet_placements db'.(app) = bet_placements db.(app) /\
  money db' = money db /\ kept db db'.
Proof.
  intros Hrun Hb. unfold SnapshotTx, select_id, select_where in Hrun. cbv zeta in Hrun.
  tx_steps; cbn in *; simplify_map_eq; done.
Qed.

(** What an accepted request leaves of its order. *)
Definition order_of (t : clock) (stamp : Z) (r : PlaceBetRequest) (walletID : string) (simulated : bool)
    (terms : Terms) (merged : option (string * bet_row)) (b : bet_row) : Prop :=
  match merged with
  | Some (_, old) => b = add_stake (pr_StakeMinor r + bt_stake_minor old)%i64 stamp old
  | None => exists v, b = with_rebate_version v (new_bet r walletID simulated terms (sql_now t) stamp)
  end.

Definition free_for (id : string) (merged : option (string * bet_row)) (db : DB) : Prop :=
  match merged with
  | Some (i, old) => id = i /\ bets db.(app) !! i = Some old
  | None => bets db.(app) !! id = None
  end.

Lemma write_order_Ok t stamp r wid sim terms betID merged db id db' :
  write_order t stamp r wid sim terms betID merged db = Ok (id, db') ->
  (forall i old, merged = Some (i, old) -> bets db.(app) !! i = Some old) ->
  exists b, order_of t stamp r wid sim terms merged b /\ free_for id merged db /\
    (merged = None -> bet_ok (new_bet r wid sim terms (sql_now t) stamp) = true) /\
    bets db'.(app) = <[id := b]> (bets db.(app)) /\
    bet_placements db'.(app) = bet_placements db.(app) /\ money db' = money db /\ kept db db'.
Proof.
  intros Hrun Hm. unfold write_order in Hrun. cbv zeta in Hrun. destruct merged as [[i old]|].
  - pose proof (Hm i old eq_refl) as Hold. tx_steps; cbn in *; simplify_map_eq.
    eexists. split; [done|]. repeat split; try done.
  - clear Hm. tx_steps; bool_to_prop; cbn in *.
    + match goal with E : SnapshotTx _ _ = Ok _ |- _ =>
        apply (SnapshotTx_Ok _ (new_bet r wid sim terms (sql_now t) stamp)) in E as (E1 & E2 & E3 & E4);
        [|by cbn; rewrite lookup_insert_eq] end.
      exists (with_rebate_version 2 (new_bet r wid sim terms (sql_now t) stamp)).
      split; [by exists 2|]. split; [done|split; [done|]].
      rewrite E1, E2, E3. cbn. rewrite insert_insert_eq. split; [done|split; [done|split; [done|]]].
      etrans; [|exact E4]. done.
    + exists (new_bet r wid sim terms (sql_now t) stamp). split; [by exists 1|].
      split; [done|split; [done|]]. repeat split; done.
Qed.

(** The effect of taking a bet on account of wallet [wid]. *)
Record taken (t : clock) (stamp : Z) (r : PlaceBetRequest) (sim : bool) (terms : Terms) (wid : string)
    (w : wallet_row) (merged : option (string * bet_row)) (id : string) (b : bet_row) (db db' : DB)
    : Prop := {
  tk_wallet : find_row (is_wallet_of (pr_AccountID r) (pr_Currency r)) (wallets db.(money)) = Some (wid, w);
  tk_funds : sim = false -> pr_StakeMinor r <= w_available w;
  tk_merged : find_row (mergeable r wid sim) (bets db.(app)) = merged;
  tk_order : order_of t stamp r wid sim terms merged b;
  tk_free : free_for id merged db;
  tk_ok : merged = None -> bet_ok (new_bet r wid sim terms (sql_now t) stamp) = true;
  tk_guard : forall x, merged = Some x -> bt_stake_minor x.2 <= (int64_max - pr_StakeMinor r)%i64;
  tk_bets : bets db'.(app) = <[id := b]> (bets db.(app));
  tk_placed : exists pid, bet_placements db.(app) !! pid = None /\
    find_row (fun _ => placement_conflict (new_placement r id stamp)) (bet_placements db.(app)) = None /\
    bet_placements db'.(app) = <[pid := new_placement r id stamp]> (bet_placements db.(app));
  tk_kept : kept db db';
  tk_books : books db'.(money);
  tk_quiet : quiet db db';
  tk_wallets : keeps_owners db.(money) db'.(money);
  tk_avail i : avail db'.(money) i =
    avail db.(money) i - (if negb sim && bool_decide (wid = i) then pr_StakeMinor r else 0);
  tk_credited i : credited "bet" i db'.(money) =
    credited "bet" i db.(money) - (if negb sim && bool_decide (i = id) then pr_StakeMinor r else 0)
}.

(** The debit: the wallet row, then the entry that names the placement. *)
Lemma debit_posted now db d d' wid w entryID betID pid stake :
  books db.(money) -> wallets db.(money) !! wid = Some w -> 0 < stake <= w_available w ->
  let w' := wallet_after w (fun _ => w_available w - stake) w_frozen now in
  let li := debit_entry entryID wid betID pid stake (w_available w - stake) in
  money d = mk_Money (<[wid := w']> (wallets db.(money))) (ledger db.(money)) ->
  money d' = money (post_ledger li w' now d) ->
  withdrawals d'.(app) = withdrawals db.(app) -> point_withdrawals d'.(app) = point_withdrawals db.(app) ->
  lulu_orders d'.(app) = lulu_orders db.(app) ->
  books d'.(money) /\ quiet db d' /\ keeps_owners db.(money) d'.(money) /\
  (forall i, avail d'.(money) i = avail db.(money) i - (if bool_decide (wid = i) then stake else 0)) /\
  (forall i, credited "bet" i d'.(money) =
     credited "bet" i db.(money) - (if bool_decide (i = betID) then stake else 0)).
Proof.
  intros Hb Hw Hst w' li Hd Hd' Hwd Hpw Hlu. destruct (bounded_lookup _ _ _ Hb Hw) as [Hba Hbf].
  assert (Hneg : (- stake)%i64 = - stake) by (apply exact_neg; lia).
  assert (Hp : posted db d' wid w w' (ledger_row_of w' now li)).
  { split; try done.
    - unfold w', wallet_ok. cbn. rewrite !andb_true_iff, !Z.leb_le. lia.
    - rewrite Hd', money_post_ledger, Hd. done.
    - cbn. rewrite Hneg. lia.
    - cbn. lia. }
  split; [by eapply posted_books|split; [by eapply posted_quiet|split; [by eapply posted_owners|split]]].
  - intros i. rewrite (posted_avail _ _ _ _ _ _ i Hp). cbn. rewrite Hneg. case_bool_decide; lia.
  - intros i. rewrite Hd', (credited_post "bet" betID) by (done || set_solver).
    cbn [default li_amount li_available_delta li debit_entry]. rewrite Hneg, Hd.
    rewrite (credited_entries _ _ (money db)) by done. case_bool_decide; lia.
Qed.

Lemma announce_placed_Ok t betID pid stake db u db' :
  announce_placed t betID pid stake db = Ok (u, db') -> exists o, db' = push_outbox o (tick db).
Proof. intros Hrun. unfold announce_placed in Hrun. tx_steps. by eexists. Qed.

Lemma take_bet_run t stamp r sim terms db u db' :
  take_bet t stamp r sim terms db = Ok (u, db') -> books db.(money) -> 0 < pr_StakeMinor r <= int64_max ->
  exists wid w merged id b, taken t stamp r sim terms wid w merged id b db db'.
Proof.
  intros Hrun Hb Hst. unfold take_bet, find_wallet, select_where in Hrun. cbv zeta in Hrun.
  apply tx_bind_Ok in Hrun as (ow & d0 & E0 & Hrun). apply gets_Ok in E0 as [E0 <-].
  apply tx_bind_Ok in Hrun as ([wid w] & d0 & E1 & Hrun). apply found_Ok in E1 as [-> <-].
  apply tx_bind_Ok in Hrun as ([] & d0 & E2 & Hrun). apply reject_if_Ok in E2 as [E2 <-].
  apply tx_bind_Ok in Hrun as (betID & d1 & E3 & Hrun). apply new_uuid_Ok in E3 as [<- <-].
  apply tx_bind_Ok in Hrun as (merged & d1 & E4 & Hrun). apply gets_Ok in E4 as [E4 <-].
  apply tx_bind_Ok in Hrun as ([] & d1 & E5 & Hrun). apply reject_if_Ok in E5 as [E5 <-].
  apply tx_bind_Ok in Hrun as ([] & d1 & E6 & Hrun).
  apply tx_bind_Ok in Hrun as (id & d2 & E7 & Hrun).
  apply tx_bind_Ok in Hrun as (pid & d3 & E8 & Hrun). apply new_uuid_Ok in E8 as [<- <-].
  apply tx_bind_Ok in Hrun as ([] & d3 & E9 & Hrun). apply insert_row_Ok in E9 as (P1 & P2 & <-).
  apply tx_bind_Ok in Hrun as ([] & d4 & E10 & Hrun).
  apply announce_placed_Ok in Hrun as (o & ->).
  change (tbl (app (tick db))) with (bets (app db)) in E4.
  assert (Hm : forall i old, merged = Some (i, old) -> bets db.(app) !! i = Some old).
  { intros i old ->. by apply find_row_Some in E4 as [? _]. }
  pose proof (find_wallet_row _ _ _ _ _ E0) as (Hw & _ & _).
  destruct sim; cbn [negb andb] in *.
  - apply tx_ret_Ok in E6 as [_ <-]. apply tx_ret_Ok in E10 as [_ <-].
    destruct (write_order_Ok _ _ _ _ _ _ _ _ _ _ _ E7 Hm)
      as (b & H1 & H2 & H3 & H4 & H5 & H6 & H7).
    change (tbl (app (tick d2))) with (bet_placements (app d2)) in P1, P2. rewrite H5 in P1, P2.
    exists wid, w, merged, id, b.
    split; [exact E0|discriminate|exact E4|exact H1|exact H2|exact H3| |exact H4| |destruct H7; by split|..].
    + intros x ->. cbn in E5. by apply Z.ltb_ge in E5.
    + eexists. split; [exact P1|split; [exact P2|cbn; by rewrite H5]].
    + cbn. rewrite H6. exact Hb.
    + apply quiet_app; [exact H6|apply H7..].
    + cbn. by rewrite H6.
    + intros i. cbn. rewrite H6. cbn. lia.
    + intros i. cbn. rewrite H6. cbn. lia.
  - apply Z.ltb_ge in E2. apply update_wallet_Ok in E6 as [[Hno _]|(w0 & Hw0 & _ & <-)].
    { change (wallets (money (tick db))) with (wallets (money db)) in Hno. congruence. }
    change (wallets (money (tick db))) with (wallets (money db)) in Hw0.
    assert (w0 = w) as -> by congruence.
    apply tx_bind_Ok in E10 as (eid & d5 & E10 & E11). apply new_uuid_Ok in E10 as [<- <-].
    apply insert_ledger_Ok in E11 as (w1 & Hw1 & _ & <-).
    destruct (bounded_lookup _ _ _ Hb Hw) as [Hba _].
    rewrite (exact_sub (w_available w) (pr_StakeMinor r)) in * by lia.
    destruct (write_order_Ok _ _ _ _ _ _ _ _ _ _ _ E7 Hm)
      as (b & H1 & H2 & H3 & H4 & H5 & H6 & H7).
    change (tbl (app (tick d2))) with (bet_placements (app d2)) in P1, P2. rewrite H5 in P1, P2.
    set (w' := wallet_after w (fun _ => w_available w - pr_StakeMinor r) w_frozen (sql_now t)) in *.
    assert (Hd2 : money d2 = mk_Money (<[wid := w']> (wallets (money db))) (ledger (money db))).
    { rewrite H6. by money_simpl. }
    assert (w1 = w') as ->.
    { cbn in Hw1. rewrite Hd2 in Hw1. cbn in Hw1. rewrite lookup_insert_eq in Hw1. by injection Hw1. }
    match goal with |- context [taken _ _ _ _ _ _ _ _ _ _ _ ?d'] => set (dd := d') end.
    set (d3 := put_row (drawn d2) (new_placement r id stamp) (tick d2)) in *.
    assert (Hd3 : money (tick d3) = mk_Money (<[wid := w']> (wallets (money db))) (ledger (money db)))
      by exact Hd2.
    assert (Hk3 : kept db d3) by (destruct H7; by split).
    assert (Hp3 : bet_placements (app d3) = <[drawn d2 := new_placement r id stamp]> (bet_placements (app db)))
      by (unfold d3; cbn; by rewrite H5).
    assert (Hb3 : bets (app d3) = <[id := b]> (bets (app db))) by exact H4.
    pose proof P2 as P2'. clearbody d3. clear E7 P2 H7.
    destruct (debit_posted (sql_now t) db (tick d3) dd wid w (drawn d3) id (drawn d2) (pr_StakeMinor r)
      Hb Hw ltac:(lia) Hd3) as (Q1 & Q2 & Q3 & Q4 & Q5).
    { unfold dd. by rewrite money_push_outbox, money_tick. }
    1-3: apply Hk3.
    exists wid, w, merged, id, b.
    split; [exact E0|intros _; exact E2|exact E4|exact H1|exact H2|exact H3| |exact Hb3| |destruct Hk3; by split
           |exact Q1|exact Q2|exact Q3|exact Q4|exact Q5].
    + intros x ->. cbn in E5. by apply Z.ltb_ge in E5.
    + eexists. split; [exact P1|split; [exact P2'|exact Hp3]].
Qed.

(** A request is answered from its placement, or taken anew. *)
Lemma placeBetTx_run t stamp req robot db pb db' :
  placeBetTx t stamp req robot db = Ok (pb, db') ->
  let r := normalize_bet req in
  0 < pr_StakeMinor r /\ pr_Selection r <> None /\
  ((findPlacement r db = Ok pb /\ db' = db) \/
   (findPlacement r db = Err ErrNoRows /\ findPlacement r db' = Ok pb /\ exists u terms,
      users db.(app) !! pr_AccountID r = Some u /\ check_account robot u = Ok () /\
      bet_terms (go_now t) r db = Ok terms /\
      take_bet t stamp r (u_is_virtual u) terms db = Ok ((), db'))).
Proof.
  intros Hrun r. unfold placeBetTx in Hrun. fold r in Hrun. cbv zeta in Hrun.
  apply tx_bind_Ok in Hrun as ([] & d0 & E & Hrun). apply reject_if_Ok in E as [E <-]. apply Z.leb_gt in E.
  apply tx_bind_Ok in Hrun as ([] & d0 & E1 & Hrun). apply reject_if_Ok in E1 as [E1 <-].
  apply bool_decide_eq_false in E1. split; [done|split; [done|]].
  rewrite gets_skip in Hrun. destruct (findPlacement r db) as [b|e] eqn:F; cbn [known_or] in Hrun.
  { apply tx_ret_Ok in Hrun as [-> ->]. by left. }
  case_bool_decide as He; [|by unfold raise in Hrun]. subst e. right.
  apply tx_bind_Ok in Hrun as (o & d0 & E2 & Hrun). apply gets_Ok in E2 as [E2 <-].
  apply tx_bind_Ok in Hrun as (u & d0 & E3 & Hrun). apply found_Ok in E3 as [-> <-].
  rewrite gets_skip, F in Hrun. cbn [known_or] in Hrun. rewrite bool_decide_true in Hrun by done.
  apply tx_bind_Ok in Hrun as ([] & d0 & E4 & Hrun). apply lift_Ok in E4 as [E4 <-].
  rewrite gets_skip in Hrun. apply tx_bind_Ok in Hrun as (terms & d0 & E5 & Hrun). apply lift_Ok in E5 as [E5 <-].
  apply tx_bind_Ok in Hrun as ([] & d1 & E6 & Hrun). rewrite gets_skip in Hrun.
  apply lift_Ok in Hrun as [E7 <-]. split; [done|split; [done|]]. by exists u, terms.
Qed.

End placing.

(** ** The placements of a request *)

(** UNIQUE(user_id, client_request_id). *)
Definition placements_unique (db : DB) : Prop := forall i j p q,
  bet_placements db.(app) !! i = Some p -> bet_placements db.(app) !! j = Some q ->
  bp_user_id p = bp_user_id q -> bp_client_request_id p = bp_client_request_id q -> i = j.

Lemma placement_key_iff r p :
  placement_key r p = true <-> bp_user_id p = pr_AccountID r /\ bp_client_request_id p = pr_ClientRequestID r.
Proof. unfold placement_key. by rewrite andb_true_iff, !bool_decide_eq_true. Qed.

Lemma find_placement r db i p :
  placements_unique db -> bet_placements db.(app) !! i = Some p -> placement_key r p = true ->
  find_row (fun _ => placement_key r) (bet_placements db.(app)) = Some (i, p).
Proof.
  intros Hu Hp Hk. destruct (find_row _ _) as [[j q]|] eqn:E.
  - apply find_row_Some in E as [Hq Hqk]. apply placement_key_iff in Hk as [], Hqk as [].
    assert (j = i) as -> by (apply (Hu j i q p); congruence). congruence.
  - apply (find_row_None _ _ _ _ E) in Hp. congruence.
Qed.

Lemma placements_insert db db' pid p :
  placements_unique db -> find_row (fun _ => placement_conflict p) (bet_placements db.(app)) = None ->
  bet_placements db'.(app) = <[pid := p]> (bet_placements db.(app)) -> placements_unique db'.
Proof.
  intros Hu Hno E i j x y. rewrite E.
  assert (Hfree : forall k q, bet_placements db.(app) !! k = Some q ->
    bp_user_id q = bp_user_id p -> bp_client_request_id q <> bp_client_request_id p).
  { intros k q Hq Hqu Hqr. apply (find_row_None _ _ _ _ Hno) in Hq. unfold placement_conflict in Hq.
    rewrite !bool_decide_true in Hq by done. done. }
  intros [[-> ->]|[_ Hx]]%lookup_insert_Some [[-> ->]|[_ Hy]]%lookup_insert_Some Hxy Hr; [done|..].
  - by edestruct Hfree.
  - by edestruct Hfree.
  - by apply (Hu i j x y).
Qed.

(** The request of a placement is answered from it, or refused. *)
Lemma findPlacement_known r db i p :
  placements_unique db -> bet_placements db.(app) !! i = Some p -> placement_key r p = true ->
  findPlacement r db =
    (if placement_matches r p
     then b ← scanPlacedBet (bp_bet_id p) db; Ok (with_request_id (pr_ClientRequestID r) b)
     else Err ErrRequestConflict).
Proof.
  intros Hu Hp Hk. unfold findPlacement. rewrite (find_placement r db i p) by done.
  cbn [of_option mbind res_bind snd]. by destruct (placement_matches r p).
Qed.

Lemma new_placement_matches r id stamp : placement_matches r (new_placement r id stamp) = true.
Proof.
  unfold placement_matches. cbn. rewrite !bool_decide_true, jsonb_equal_refl, Z.eqb_refl; try done.
  unfold nullif. case_bool_decide; [done|]. done.
Qed.

Lemma scanPlacedBet_id id db b : scanPlacedBet id db = Ok b -> pl_BetID b = id.
Proof.
  unfold scanPlacedBet. destruct (bet_join id db) as [[[[[? ?] ?] ?] ?]|]; [|done]. cbn [of_option mbind res_bind].
  intros (? & _ & (? & _ & [= <-])%res_bind_Ok)%res_bind_Ok. done.
Qed.

Lemma findPlacement_row r db pb :
  findPlacement r db = Ok pb ->
  exists i p, bet_placements db.(app) !! i = Some p /\ placement_key r p = true /\
    placement_matches r p = true /\ pl_BetID pb = bp_bet_id p.
Proof.
  unfold findPlacement. intros ([i p] & E & H1)%res_bind_Ok. apply of_option_Ok, find_row_Some in E as [E Ek].
  apply guard_Ok in H1 as [Em H1]. apply negb_false_iff in Em.
  apply res_bind_Ok in H1 as (b & Hs & [= <-]). apply scanPlacedBet_id in Hs. cbn in *. eauto 10.
Qed.

(** ** Stakes are paid for *)

(** What a bet cost its bettor. *)
Definition real_stake (b : bet_row) : Z := if bt_is_simulated b then 0 else bt_stake_minor b.

(** The debits of every order add up to its stake; nothing was taken for a
    simulated one, nor under an identifier that is no order. *)
Definition stakes_paid (db : DB) : Prop := forall id,
  credited "bet" id db.(money) = - from_option real_stake 0 (bets db.(app) !! id).

(** Every request of an order is a placement of it, and they add up too. *)
Definition order_stake (id : string) (db : DB) : Z := from_option bt_stake_minor 0 (bets db.(app) !! id).

Lemma mergeable_simulated r wid sim k b : mergeable r wid sim k b = true -> bt_is_simulated b = sim.
Proof. unfold mergeable. intros Hm. bool_to_prop. by apply Bool.eqb_prop. Qed.

(** What the order was before and is after the request. *)
Lemma taken_order `{Uuids} t stamp r sim terms wid w merged id b db db' :
  taken t stamp r sim terms wid w merged id b db db' -> bets_ok db -> 0 < pr_StakeMinor r <= int64_max ->
  bt_stake_minor b = order_stake id db + pr_StakeMinor r /\ bt_stake_minor b <= int64_max /\
  bt_is_simulated b = sim /\
  (forall old, bets db.(app) !! id = Some old -> bt_is_simulated old = sim /\ bt_wallet_id b = bt_wallet_id old) /\
  (bets db.(app) !! id = None -> bt_wallet_id b = wid).
Proof.
  intros [] Hok Hst. unfold order_stake. destruct merged as [[i old]|]; cbn in tk_order0, tk_free0.
  - destruct tk_free0 as [-> Hold]. rewrite Hold. cbn [from_option]. subst b.
    specialize (tk_guard0 _ eq_refl). cbn in tk_guard0.
    rewrite exact_sub_pos in tk_guard0 by (unfold int64_max in *; lia).
    pose proof (bo_stake _ Hok _ _ Hold) as Hs.
    apply find_row_Some in tk_merged0 as [_ Hm]. apply mergeable_simulated in Hm.
    unfold add_stake. cbn.
    rewrite wrap64_small by (unfold in_int64, int64_min, int64_max in *; lia).
    split; [lia|split; [lia|split; [done|split]]].
    + intros ? [= <-]. done.
    + done.
  - destruct tk_order0 as [v ->]. rewrite tk_free0. cbn.
    split; [lia|split; [lia|split; [done|split]]]; done.
Qed.

Lemma taken_stakes_paid `{Uuids} t stamp r sim terms wid w merged id b db db' :
  taken t stamp r sim terms wid w merged id b db db' -> bets_ok db -> 0 < pr_StakeMinor r <= int64_max ->
  stakes_paid db -> stakes_paid db'.
Proof.
  intros Ht Hok Hst Hpaid i. destruct (taken_order _ _ _ _ _ _ _ _ _ _ _ _ Ht Hok Hst) as (H1 & _ & H2 & H3 & _).
  destruct Ht as []. rewrite tk_credited0, tk_bets0, Hpaid. unfold order_stake in H1.
  destruct (decide (i = id)) as [->|Hne].
  - rewrite lookup_insert_eq. cbn [from_option]. unfold real_stake at 2. rewrite H1, H2.
    rewrite bool_decide_true, andb_true_r by done. destruct (bets (app db) !! id) as [old|].
    + cbn [from_option] in *. destruct (H3 old eq_refl) as [Hs _]. unfold real_stake. rewrite Hs.
      destruct sim; cbn; lia.
    + cbn [from_option]. destruct sim; cbn; lia.
  - rewrite lookup_insert_ne by done. rewrite bool_decide_false, andb_false_r by done. lia.
Qed.

Lemma taken_bets_ok `{Uuids} t stamp r sim terms wid w merged id b db db' :
  taken t stamp r sim terms wid w merged id b db db' -> bets_ok db -> 0 < pr_StakeMinor r <= int64_max ->
  bets_ok db'.
Proof.
  intros Ht Hok Hst. destruct (taken_order _ _ _ _ _ _ _ _ _ _ _ _ Ht Hok Hst) as (H1 & H2 & _ & H3 & H4).
  destruct Ht as []. assert (Hkeep : forall k, is_Some (wallets (money db) !! k) -> is_Some (wallets (money db') !! k)).
  { intros k [x Hx]. destruct (tk_wallets0 k x Hx) as (x' & Hx' & _). by exists x'. }
  split; intros i x; rewrite tk_bets0; intros [[<- <-]|[_ Hx]]%lookup_insert_Some.
  - split; [|done]. rewrite H1. unfold order_stake. destruct (bets (app db) !! id) as [old|] eqn:E; cbn; [|lia].
    pose proof (bo_stake _ Hok _ _ E). lia.
  - by apply (bo_stake _ Hok i).
  - apply Hkeep. destruct (bets (app db) !! id) as [old|] eqn:E.
    + destruct (H3 old eq_refl) as [_ ->]. by apply (bo_wallet _ Hok id).
    + rewrite H4 by done. apply find_wallet_row in tk_wallet0 as [Hw _]. by eexists.
  - apply Hkeep. by apply (bo_wallet _ Hok i).
Qed.

(** ** The properties *)

(** C3: placing a bet is exact: a request is either already known, and then it
    changes nothing, or it is charged once: the wallet of the bettor in that
    currency loses exactly the stake (nothing in a simulation), the order grows
    by exactly the stake, no other order and no other balance changes, and the
    books, the order of the wallets and the agreement between stakes and ledger
    debits hold afterwards. *)
Theorem PlaceBet_exact `{Uuids} t stamp req robot db pb db' :
  placeBetTx t stamp req robot db = Ok (pb, db') ->
  custody db -> bets_ok db -> stakes_paid db -> placements_unique db ->
  in_int64 (pr_StakeMinor req) ->
  let r := normalize_bet req in
  custody db' /\ bets_ok db' /\ stakes_paid db' /\ placements_unique db' /\
  ((findPlacement r db = Ok pb /\ db' = db) \/
   exists u wid w, users db.(app) !! pr_AccountID r = Some u /\
     find_row (is_wallet_of (pr_AccountID r) (pr_Currency r)) (wallets db.(money)) = Some (wid, w) /\
     (u_is_virtual u = false -> pr_StakeMinor r <= w_available w) /\
     (forall i, avail db'.(money) i = avail db.(money) i -
        (if negb (u_is_virtual u) && bool_decide (wid = i) then pr_StakeMinor r else 0)) /\
     order_stake (pl_BetID pb) db' = order_stake (pl_BetID pb) db + pr_StakeMinor r /\
     (forall i, i <> pl_BetID pb -> bets db'.(app) !! i = bets db.(app) !! i)).
Proof.
  intros Hrun Hcu Hok Hpaid Hun Hin r.
  destruct (placeBetTx_run _ _ _ _ _ _ _ Hrun) as (Hst & _ & Hcase). fold r in Hst, Hcase.
  destruct Hcase as [[Hf ->]|(_ & Hf & u & terms & Hu & _ & _ & Htake)].
  { do 4 (split; [done|]). by left. }
  assert (Hs : 0 < pr_StakeMinor r <= int64_max) by (unfold in_int64 in Hin; cbn in *; lia).
  destruct (take_bet_run _ _ _ _ _ _ _ _ Htake (cu_books _ Hcu) Hs) as (wid & w & merged & id & b & Ht).
  pose proof (taken_order _ _ _ _ _ _ _ _ _ _ _ _ Ht Hok Hs) as (H1 & _ & _).
  split; [by apply (custody_quiet db); [done|apply Ht|apply Ht]|].
  split; [by eapply taken_bets_ok|split; [by eapply taken_stakes_paid|]].
  destruct (tk_placed _ _ _ _ _ _ _ _ _ _ _ _ Ht) as (pid & Hfresh & Hno & Hins).
  assert (Hun' : placements_unique db') by (by eapply placements_insert).
  split; [done|right].
  assert (Hid : pl_BetID pb = id).
  { rewrite (findPlacement_known r db' pid (new_placement r id stamp)) in Hf; [|done|..].
    - rewrite new_placement_matches in Hf. apply res_bind_Ok in Hf as (x & Hx & [= <-]).
      apply scanPlacedBet_id in Hx. exact Hx.
    - by rewrite Hins, lookup_insert_eq.
    - by apply placement_key_iff. }
  exists u, wid, w. rewrite Hid. unfold order_stake at 1. destruct Ht.
  split; [done|split; [done|split; [done|split; [done|split]]]].
  - by rewrite tk_bets0, lookup_insert_eq.
  - intros i Hi. by rewrite tk_bets0, lookup_insert_ne.
Qed.

(** C7: one request places one bet: once a request was accepted, any later
    request of the same account under the same identifier, at whatever time,
    in whatever state the round, the limits or the account are by then, leaves
    the database as it is; it is answered with the same order, and refused when
    its round, currency or stake differ. *)
Theorem PlaceBet_once `{Uuids} t stamp req robot db pb db1 :
  placeBetTx t stamp req robot db = Ok (pb, db1) ->
  forall t' stamp' req' robot' db2,
  placements_unique db2 -> books db2.(money) -> bet_placements db1.(app) ⊆ bet_placements db2.(app) ->
  pr_AccountID req' = pr_AccountID req -> pr_ClientRequestID req' = pr_ClientRequestID req ->
  0 < pr_StakeMinor req' <= int64_max -> pr_Selection req' <> None ->
  (forall pb' db3, placeBetTx t' stamp' req' robot' db2 = Ok (pb', db3) ->
     db3 = db2 /\ pl_BetID pb' = pl_BetID pb) /\
  (req' = req -> forall b, scanPlacedBet (pl_BetID pb) db2 = Ok b ->
     placeBetTx t' stamp' req' robot' db2 = Ok (with_request_id (pr_ClientRequestID req) b, db2)) /\
  ((pr_RoundID req', pr_Currency (normalize_bet req'), pr_StakeMinor req') <>
   (pr_RoundID req, pr_Currency (normalize_bet req), pr_StakeMinor req) ->
   placeBetTx t' stamp' req' robot' db2 = Err ErrRequestConflict).
Proof.
  intros Hrun t' stamp' req' robot' db2 Hun Hb Hsub Ha Hc Hst Hsel.
  set (r := normalize_bet req) in *. set (r' := normalize_bet req').
  assert (Hf : findPlacement r db1 = Ok pb).
  { destruct (placeBetTx_run _ _ _ _ _ _ _ Hrun) as (_ & _ & [[Hf ->]|(_ & Hf & _)]); exact Hf. }
  destruct (findPlacement_row _ _ _ Hf) as (i & p & Hp & Hk & Hmt & Hid).
  assert (Hp2 : bet_placements db2.(app) !! i = Some p) by (by eapply lookup_weaken).
  assert (Hk' : placement_key r' p = true).
  { apply placement_key_iff in Hk as [K1 K2]. apply placement_key_iff. cbn in *. split; congruence. }
  pose proof (findPlacement_known r' db2 i p Hun Hp2 Hk') as Hknown.
  assert (Hstart : placeBetTx t' stamp' req' robot' db2 =
    known_or (findPlacement r' db2) (
      o ← gets (fun db => users db.(app) !! pr_AccountID r');
      u ← found ErrNoRows o;
      existing ← gets (findPlacement r');
      known_or existing (
        lift (check_account robot' u);;
        judged ← gets (bet_terms (go_now t') r');
        terms ← lift judged;
        take_bet t' stamp' r' (u_is_virtual u) terms;;
        placed ← gets (findPlacement r');
        lift placed)) db2).
  { unfold placeBetTx. fold r'. cbv zeta. rewrite reject_skip by (apply Z.leb_gt; cbn; lia).
    rewrite reject_skip by (by apply bool_decide_eq_false). by rewrite gets_skip. }
  split; [|split].
  - intros pb' db3 Hrun'. destruct (placeBetTx_run _ _ _ _ _ _ _ Hrun') as (_ & _ & Hcase). fold r' in Hcase.
    destruct Hcase as [[Hf' ->]|(_ & _ & u & terms & _ & _ & _ & Htake)].
    + split; [done|]. rewrite Hknown in Hf'. destruct (placement_matches r' p); [|done].
      apply res_bind_Ok in Hf' as (x & Hx & [= <-]). apply scanPlacedBet_id in Hx. cbn. congruence.
    + exfalso. destruct (take_bet_run _ _ _ _ _ _ _ _ Htake Hb Hst) as (wid & w & merged & id & b & []).
      destruct tk_placed0 as (pid & _ & Hno & _). apply (find_row_None _ _ _ _ Hno) in Hp2.
      apply placement_key_iff in Hk' as [K1 K2]. unfold placement_conflict in Hp2.
      rewrite !bool_decide_true in Hp2 by done. done.
  - intros -> b Hscan. rewrite Hstart. change r' with r in *. rewrite Hknown, Hmt, <- Hid, Hscan. done.
  - intros Hdiff. rewrite Hstart, Hknown.
    assert (placement_matches r' p = false) as ->; [|done].
    apply not_true_iff_false. intros Hmt'. apply Hdiff. unfold placement_matches in Hmt, Hmt'.
    bool_to_prop. cbn in *. congruence.
Qed.

(** ** The limits *)

Definition counted (r : PlaceBetRequest) (m : Money) (b : bet_row) : bool :=
  accepted_by r b && bool_decide (bt_game_room_id b = Some (pr_GameRoomID r)) &&
  bool_decide (bt_play_mode b = Some (pr_PlayMode r)) && same_pick r b &&
  bool_decide (option_map w_currency (wallets m !! bt_wallet_id b) = Some (pr_Currency r)).

Definition counted_stake (r : PlaceBetRequest) (db : DB) : Z :=
  sum_map (fun b => if counted r db.(money) b then bt_stake_minor b else 0) (bets db.(app)).

Lemma existing_stake_sum r db : existing_stake r db = scan_sum [counted_stake r db].
Proof.
  unfold existing_stake, scan_sum, counted_stake. cbn [sum_Z foldr]. rewrite Z.add_0_r.
  assert (E : sum_Z (map (fun kv : string * bet_row => bt_stake_minor kv.2)
      (List.filter (fun kv => counted r (money db) kv.2) (map_to_list (bets (app db))))) =
    sum_map (fun b => if counted r (money db) b then bt_stake_minor b else 0) (bets (app db))).
  { exact (sum_rows (fun _ => counted r (money db)) bt_stake_minor _ (fun _ _ _ => eq_refl)). }
  unfold counted in E. by rewrite E.
Qed.

(** A hash pick that is stored under the key [pick] is text. *)
Lemma hash_pick_text mode r y :
  validHashSelection mode (pr_Selection r) = true -> jtext "pick" (selection_of r) = Some y ->
  jfield "pick" (selection_of r) = Some (JStr y).
Proof.
  unfold validHashSelection, selection_of, jtext. destruct (pr_Selection r) as [j|]; [|done]. cbn [from_option].
  destruct (dec_string_field "pick" (Some j)) as [p|] eqn:E; [|done]. intros _.
  destruct (jfield "pick" (jsonb j)) as [v|] eqn:F; [|done].
  destruct (jsonb_field _ _ _ F) as (l & v0 & -> & Hin & ->).
  destruct (dec_string_field_In _ _ _ _ E Hin) as [->|[x ->]]; cbn; [done|]. by intros [= ->].
Qed.

Lemma same_pick_equal mode r old y :
  validHashSelection mode (pr_Selection r) = true -> jtext "pick" (selection_of r) = Some y ->
  jsonb_equal old (selection_of r) = true -> jtext "pick" old = Some y.
Proof.
  intros Hv Hy Heq. pose proof (hash_pick_text _ _ _ Hv Hy) as Hf.
  destruct (jsonb_equal_field _ _ _ _ Heq Hf) as (u & Hu & ->%jsonb_equal_str).
  unfold jtext. by rewrite Hu.
Qed.

Lemma nullif_some s : s <> ""%string -> nullif s = Some s.
Proof. intros Hs. unfold nullif. by rewrite bool_decide_false. Qed.

Lemma hash_mode_nonempty mode sel : validHashSelection mode sel = true -> mode <> ""%string.
Proof. intros Hv ->. unfold validHashSelection in Hv. by destruct (dec_string_field _ _). Qed.

(** The order counts towards the limit of its pick. *)
Lemma taken_counted `{Uuids} t stamp r sim terms wid w merged id b db db' y :
  taken t stamp r sim terms wid w merged id b db db' ->
  pr_GameRoomID r <> ""%string -> validHashSelection (pr_PlayMode r) (pr_Selection r) = true ->
  jtext "pick" (selection_of r) = Some y ->
  counted r db'.(money) b = true /\
  (forall old, bets db.(app) !! id = Some old -> counted r db.(money) old = true).
Proof.
  intros [] Hroom Hv Hy. apply hash_mode_nonempty in Hv as Hmode.
  pose proof (find_wallet_row _ _ _ _ _ tk_wallet0) as (Hw & Hwu & Hwc).
  destruct (tk_wallets0 _ _ Hw) as (w' & Hw' & _ & Hwc').
  unfold counted, accepted_by, same_pick. destruct merged as [[i old]|]; cbn in tk_order0, tk_free0.
  - destruct tk_free0 as [-> Hold]. apply find_row_Some in tk_merged0 as [_ Hm]. unfold mergeable in Hm.
    bool_to_prop. rewrite !nullif_some in * by done.
    assert (Hpick : jtext "pick" (bt_selection old) = Some y) by (by eapply same_pick_equal).
    subst b. cbn. rewrite Hpick, Hy. split.
    + rewrite !bool_decide_true; try congruence; [done|]. match goal with E : bt_wallet_id old = _ |- _ => rewrite E end.
      rewrite Hw'. cbn. congruence.
    + intros x Hx. assert (x = old) as -> by congruence. rewrite Hpick. rewrite !bool_decide_true; try congruence; [done|].
      match goal with E : bt_wallet_id old = _ |- _ => rewrite E end. rewrite Hw. cbn. congruence.
  - destruct tk_order0 as [v ->]. cbn. rewrite Hy, !nullif_some, !bool_decide_true by (done || congruence).
    split; [|intros old Hold; congruence]. apply bool_decide_eq_true. rewrite Hw'. cbn. congruence.
Qed.

Lemma taken_counted_stake `{Uuids} t stamp r sim terms wid w merged id b db db' y :
  taken t stamp r sim terms wid w merged id b db db' -> bets_ok db -> 0 < pr_StakeMinor r <= int64_max ->
  pr_GameRoomID r <> ""%string -> validHashSelection (pr_PlayMode r) (pr_Selection r) = true ->
  jtext "pick" (selection_of r) = Some y ->
  counted_stake r db' = counted_stake r db + pr_StakeMinor r.
Proof.
  intros Ht Hok Hst Hroom Hv Hy.
  destruct (taken_counted _ _ _ _ _ _ _ _ _ _ _ _ _ Ht Hroom Hv Hy) as [Hb Hold].
  destruct (taken_order _ _ _ _ _ _ _ _ _ _ _ _ Ht Hok Hst) as (Hstake & _). destruct Ht.
  assert (Hsame : forall x, is_Some (wallets (money db) !! bt_wallet_id x) ->
    counted r (money db') x = counted r (money db) x).
  { intros x [v Hx]. unfold counted. destruct (tk_wallets0 _ _ Hx) as (v' & Hv' & _ & Hc).
    rewrite Hv', Hx. cbn. by rewrite Hc. }
  assert (E : counted_stake r db = sum_map (fun x => if counted r (money db') x then bt_stake_minor x else 0)
    (bets (app db))).
  { apply sum_map_ext. intros i x Hx. rewrite Hsame; [done|]. by apply (bo_wallet _ Hok i). }
  unfold counted_stake at 1. rewrite tk_bets0, E. unfold order_stake in Hstake.
  destruct (bets (app db) !! id) as [old|] eqn:F.
  - rewrite (sum_map_update _ _ _ old) by done. cbn in Hstake.
    rewrite Hb, Hsame, (Hold old eq_refl) by (by apply (bo_wallet _ Hok id)). lia.
  - rewrite sum_map_insert by done. rewrite Hb. cbn in Hstake. lia.
Qed.

Lemma taken_room `{Uuids} t stamp r sim terms wid w merged id b db db' :
  taken t stamp r sim terms wid w merged id b db db' -> pr_GameRoomID r <> ""%string ->
  different_room r db = false -> different_room r db' = false.
Proof.
  intros [] Hroom Hno. unfold different_room in *. apply not_true_iff_false. rewrite <- not_true_iff_false in Hno.
  intros ([i x] & Hin & Hx)%existsb_exists. apply list_elem_of_In, elem_of_map_to_list in Hin. cbn in Hx.
  rewrite tk_bets0 in Hin. apply lookup_insert_Some in Hin as [[<- <-]|[_ Hin]].
  - apply andb_prop in Hx as [_ Hx]. apply negb_true_iff, bool_decide_eq_false in Hx. apply Hx.
    destruct merged as [[j old]|]; cbn in tk_order0.
    + subst b. apply find_row_Some in tk_merged0 as [_ Hm]. unfold mergeable in Hm. bool_to_prop.
      rewrite nullif_some in * by done. done.
    + destruct tk_order0 as [v ->]. by apply nullif_some.
  - apply Hno, existsb_exists. exists (i, x). split; [|done]. by apply list_elem_of_In, elem_of_map_to_list.
Qed.

(** The limits of a shared hash room: the range of a stake, and the most that
    one bettor may have on one pick of the round.  The statement that sums his
    bets reads the key [pick] as it is spelled, so the second bound holds of the
    selections that spell it so; encoding/json takes the key in any case, and a
    selection that spells it otherwise is held to the first bound alone. *)
Definition within_hash (r : PlaceBetRequest) (db db' : DB) : Prop := exists c,
  c ∈ hash_room_currency_configs db.(app) /\
  hc_room_id c = pr_GameRoomID r /\ hc_currency c = pr_Currency r /\
  validHashSelection (pr_PlayMode r) (pr_Selection r) = true /\
  hc_min_stake_minor c <= pr_StakeMinor r <= (hash_limits (pr_PlayMode r) c).1.1 /\
  (is_Some (jtext "pick" (selection_of r)) -> exists total,
     existing_stake r db' = Ok total /\ total <= (hash_limits (pr_PlayMode r) c).1.1).

(** The limits of a play: those of prime time when it is on. *)
Definition within_lulu (now : Z) (code : string) (r : PlaceBetRequest) (gameType : string) (db : DB) : Prop :=
  exists p outcomes mapping c,
  p ∈ lulu_play_configs db.(app) /\ lp_code p = pr_PlayMode r /\ lp_enabled p = true /\
  dec_strings [] (lp_outcomes p) = Some outcomes /\
  lulu_SelectionAllowed (mk_LuluPlay "" outcomes mapping (lp_dodge_mode p)) (pr_Selection r) = true /\
  is_lulu_config r gameType c = true /\
  (if bool_decide (code = "lulu-xdy"%string) && luluPrimeTime now
   then c ∈ lulu_prime_configs db.(app) /\ lc_enabled c = true else c ∈ lulu_room_configs db.(app)) /\
  lc_min_stake_minor c <= pr_StakeMinor r <= lc_max_stake_minor c.

Definition within_plain (r : PlaceBetRequest) (rules : Rules) : Prop :=
  SelectionAllowed rules (pr_Selection r) = true /\
  forall l, BetLimits rules !! pr_Currency r = Some l ->
    MinStakeMinor l <= pr_StakeMinor r <= MaxStakeMinor l.

Lemma find_In {A} (f : A -> bool) l x : List.find f l = Some x -> x ∈ l /\ f x = true.
Proof. intros [Hin Hf]%List.find_some. split; [by apply list_elem_of_In|done]. Qed.

(** The room that was named, and no other, holds the bets of the round. *)
Lemma hash_terms_Ok `{Uuids} t stamp r sim terms wid w merged id b db db' round :
  hash_terms r round db = Ok terms -> taken t stamp r sim terms wid w merged id b db db' ->
  bets_ok db -> 0 < pr_StakeMinor r <= int64_max ->
  within_hash r db db' /\ different_room r db' = false.
Proof.
  intros Hterms Ht Hok Hst. unfold hash_terms in Hterms.
  apply guard_Ok in Hterms as [[Hr0 Hv%negb_false_iff]%orb_false_elim Hterms]. apply bool_decide_eq_false in Hr0.
  apply guard_Ok in Hterms as [_ Hterms]. apply res_bind_Ok in Hterms as (c & Hc & Hterms).
  apply of_option_Ok, find_In in Hc as [Hin Hc]. apply andb_prop in Hc as [Hc1 Hc2].
  apply bool_decide_eq_true in Hc1, Hc2.
  destruct (hash_limits (pr_PlayMode r) c) as [[mx mult] div] eqn:El.
  apply guard_Ok in Hterms as [Hmin Hterms]. apply Z.ltb_ge in Hmin.
  apply guard_Ok in Hterms as [Hroom Hterms]. apply res_bind_Ok in Hterms as (ex & Hex & Hterms).
  apply guard_Ok in Hterms as [[G1 G2]%orb_false_elim _]. apply Z.ltb_ge in G1, G2.
  split; [|by eapply taken_room]. exists c. do 4 (split; [done|]).
  rewrite existing_stake_sum in *. unfold scan_sum in *. cbn [sum_Z foldr] in *. rewrite Z.add_0_r in *.
  case_match_hyp Hex. injection Hex as <-. bool_to_prop.
  assert (Hpos : 0 <= counted_stake r db).
  { apply sum_map_nonneg. intros i x Hx. pose proof (bo_stake _ Hok _ _ Hx). by case_match; lia. }
  rewrite exact_sub_pos in G1 by (unfold int64_max in *; lia).
  rewrite wrap64_small in G2 by (unfold in_int64, int64_min, int64_max in *; lia).
  rewrite El. cbn. split; [lia|]. intros [y Hy]. rewrite (taken_counted_stake _ _ _ _ _ _ _ _ _ _ _ _ y Ht) by done.
  exists (counted_stake r db + pr_StakeMinor r).
  rewrite (proj2 (Z.leb_le _ _)), (proj2 (Z.leb_le _ _)) by (unfold int64_min, int64_max in *; lia). done.
Qed.

Lemma lulu_terms_Ok now r round code db terms :
  lulu_terms now r round code db = Ok terms ->
  within_lulu now code r (rd_game_type_id round) db /\ pr_GameRoomID r <> ""%string /\ different_room r db = false.
Proof.
  intros Hterms. unfold lulu_terms in Hterms. cbv zeta in Hterms.
  apply guard_Ok in Hterms as [[Hr0 _]%orb_false_elim Hterms]. apply bool_decide_eq_false in Hr0.
  apply guard_Ok in Hterms as [_ Hterms]. apply res_bind_Ok in Hterms as (p & Hp & Hterms).
  apply of_option_Ok, find_In in Hp as [Hpin Hp]. apply andb_prop in Hp as [[_ Hp1]%andb_prop Hp2].
  apply bool_decide_eq_true in Hp1. apply res_bind_Ok in Hterms as (daily & Hd & Hterms).
  apply of_option_Ok, find_In in Hd as [Hdin Hd]. apply res_bind_Ok in Hterms as (c & Hc & Hterms).
  apply res_bind_Ok in Hterms as (outcomes & Ho & Hterms). apply of_option_Ok in Ho.
  apply res_bind_Ok in Hterms as (mapping & Hm & Hterms). apply of_option_Ok in Hm.
  apply guard_Ok in Hterms as [Hall%negb_false_iff Hterms].
  apply guard_Ok in Hterms as [[G1 G2]%orb_false_elim Hterms]. apply Z.ltb_ge in G1, G2.
  apply guard_Ok in Hterms as [Hroom _].
  split; [|done]. exists p, outcomes, mapping, c. do 5 (split; [done|]).
  destruct (bool_decide (code = "lulu-xdy"%string) && luluPrimeTime now); [|by injection Hc as <-].
  destruct (List.find _ (lulu_prime_configs _)) as [prime|] eqn:F; [|done].
  apply find_In in F as [Fin F]. destruct (lc_enabled prime) eqn:En; [|done]. by injection Hc as <-.
Qed.


(** ** Cancelling *)

Section cancelling.
Context `{Uuids}.

Lemma announce_cancelled_Ok betID at_ db u db' :
  announce_cancelled betID at_ db = Ok (u, db') -> exists o, db' = push_outbox o (tick db).
Proof. intros Hrun. unfold announce_cancelled in Hrun. tx_steps. by eexists. Qed.

Lemma resolves_stays btype id b' amount d1 d2 d3 :
  resolves btype id b' amount d1 d2 -> stays d2 d3 -> resolves btype id b' amount d1 d3.
Proof.
  intros [Hb Hr Hp Hc] [Hb' Hr' Hp' He']. split; try congruence.
  intros i. rewrite <- Hc. by apply credited_entries.
Qed.

(** An event on top of a database. *)
Lemma announced o db : quiet db (push_outbox o (tick db)) /\ stays db (push_outbox o (tick db)) /\
  money (push_outbox o (tick db)) = money db.
Proof. split; [by apply quiet_app|split; [by split|done]]. Qed.

(** The first cancellation of an accepted bet. *)
Lemma CancelBet_run t betID userID db pb db' b :
  CancelBet t betID userID db = Ok (pb, db') -> bets db.(app) !! betID = Some b ->
  bt_status b <> "cancelled"%string -> custody db -> bets_ok db ->
  bt_user_id b = userID /\ bt_status b = "accepted"%string /\
  (exists round, rounds db.(app) !! bt_round_id b = Some round /\ go_now t < rd_bet_closes_at round) /\
  custody db' /\ (exists at_ balance, resolves "bet_cancel" betID (set_cancelled at_ balance b) (real_stake b) db db') /\
  (if bt_is_simulated b then findBet userID (bt_client_request_id b) db'
   else cancelledBetResult userID (bt_client_request_id b) betID db') = Ok pb /\
  (exists w, wallets db'.(money) !! bt_wallet_id b = Some w).
Proof.
  intros Hrun Hb Hnc Hcu Hok. unfold CancelBet, select_id in Hrun. rewrite gets_skip in Hrun.
  change (tbl (app db)) with (bets (app db)) in Hrun. rewrite Hb in Hrun. cbn [mbind option_bind] in Hrun.
  case_bool_decide as Hu; [|discriminate Hrun]. rewrite (found_skip _ _ _ _ _ eq_refl), gets_skip in Hrun.
  destruct (bo_wallet _ Hok _ _ Hb) as [w Hw]. rewrite Hw, (found_skip _ _ _ _ _ eq_refl), gets_skip in Hrun.
  apply tx_bind_Ok in Hrun as (round & d0 & E & Hrun). apply found_Ok in E as [Hround <-]. cbv zeta in Hrun.
  pose proof (bo_stake _ Hok _ _ Hb) as Hst. pose proof (cu_books _ Hcu) as Hbooks.
  destruct (bounded_lookup _ _ _ Hbooks Hw) as [Hba _].
  destruct (bt_is_simulated b) eqn:Hsim.
  - apply tx_bind_Ok in Hrun as ([] & d1 & E & Hrun). rewrite gets_skip in Hrun. apply lift_Ok in Hrun as [Hres <-].
    destruct (_ && _) eqn:G in E.
    2:{ apply reject_if_Ok in E as [E _]. by apply negb_false_iff, bool_decide_eq_true in E. }
    apply andb_prop in G as [G1 G2]. apply bool_decide_eq_true in G1. apply Z.ltb_lt in G2.
    apply tx_bind_Ok in E as ([] & d2 & E1 & E2). eapply update_bet_Ok in E1; [|exact Hb]. subst d2.
    apply announce_cancelled_Ok in E2 as (o & ->). unfold real_stake. rewrite Hsim.
    destruct (resolve_row "bet_cancel" betID (set_cancelled (sql_now t) (w_available w) b) db db
      ltac:(by split) Hbooks) as (R1 & R2 & R3).
    destruct (announced o (put_row betID (set_cancelled (sql_now t) (w_available w) b) db)) as (A1 & A2 & A3).
    split; [done|split; [done|split; [by exists round|split; [|split; [|split; [exact Hres|]]]]]].
    + apply (custody_quiet db); [done|by rewrite A3|by etrans].
    + do 2 eexists. by eapply resolves_stays.
    + by exists w.
  - rewrite bool_decide_false in Hrun by done.
    apply tx_bind_Ok in Hrun as ([] & d1 & E & Hrun). apply reject_if_Ok in E as [[G1 G2]%orb_false_elim <-].
    apply negb_false_iff, bool_decide_eq_true in G1. apply negb_false_iff, Z.ltb_lt in G2.
    apply tx_bind_Ok in Hrun as ([] & d1 & E & Hrun). apply reject_if_Ok in E as [G3 <-]. apply Z.ltb_ge in G3.
    rewrite exact_sub_pos in G3 by (unfold int64_max in *; lia).
    rewrite (wrap64_small (w_available w + bt_stake_minor b)) in Hrun
      by (unfold in_int64, int64_min, int64_max in *; lia).
    apply tx_bind_Ok in Hrun as ([] & d1 & E & Hrun).
    apply update_wallet_Ok in E as [[Hno _]|(w0 & Hw0 & _ & <-)]; [congruence|].
    assert (w0 = w) as -> by congruence.
    apply tx_bind_Ok in Hrun as ([] & d2 & E1 & Hrun). eapply update_bet_Ok in E1; [|exact Hb]. subst d2.
    apply tx_bind_Ok in Hrun as (eid & d2 & E2 & Hrun). apply new_uuid_Ok in E2 as [<- <-].
    apply tx_bind_Ok in Hrun as ([] & d3 & E3 & Hrun). apply insert_ledger_Ok in E3 as (w1 & Hw1 & _ & <-).
    apply tx_bind_Ok in Hrun as ([] & d4 & E4 & Hrun). apply announce_cancelled_Ok in E4 as (o & ->).
    rewrite gets_skip in Hrun. apply lift_Ok in Hrun as [Hres <-].
    cbn in Hw1. rewrite lookup_insert_eq in Hw1. injection Hw1 as <-.
    unfold real_stake. rewrite Hsim.
    match goal with |- context [post_ledger (entry ?e _ _ _ _ _ _) _ _ _] =>
      destruct (resolve_paid "bet_cancel" "bet_refund" betID
        (set_cancelled (go_now t) (w_available w + bt_stake_minor b) b) db db (bt_wallet_id b) w (sql_now t) (go_now t)
        e (bt_stake_minor b) ltac:(by split) Hbooks ltac:(set_solver) Hw ltac:(lia)) as (R1 & R2 & R3) end.
    match goal with |- context [push_outbox o (tick ?d)] => destruct (announced o d) as (A1 & A2 & A3) end.
    split; [done|split; [done|split; [by exists round|split; [|split; [|split; [exact Hres|]]]]]].
    + apply (custody_quiet db); [done|rewrite A3; exact R1|etrans; [exact R2|exact A1]].
    + do 2 eexists. eapply resolves_stays; [exact R3|exact A2].
    + eexists. rewrite A3, money_post_ledger. cbn. apply lookup_insert_eq.
Qed.

End cancelling.

(** Cancelling gives a bet back exactly once: only the bettor can cancel,
    only an accepted bet and only before betting closes; the stake returns to
    the wallet that paid it (nothing for a simulated bet), the order is
    cancelled and nothing else moves; cancelling again, whenever, gives the
    same answer and changes nothing. *)
Theorem CancelBet_once `{Uuids} t t' betID userID db pb db' b :
  CancelBet t betID userID db = Ok (pb, db') -> bets db.(app) !! betID = Some b ->
  bt_status b <> "cancelled"%string -> custody db -> bets_ok db ->
  bt_user_id b = userID /\ bt_status b = "accepted"%string /\
  (exists round, rounds db.(app) !! bt_round_id b = Some round /\ go_now t < rd_bet_closes_at round) /\
  custody db' /\
  (exists at_ balance, bets db'.(app) = <[betID := set_cancelled at_ balance b]> (bets db.(app))) /\
  (forall id, credited "bet_cancel" id db'.(money) =
     credited "bet_cancel" id db.(money) + (if bool_decide (id = betID) then real_stake b else 0)) /\
  CancelBet t' betID userID db' = Ok (pb, db').
Proof.
  intros Hrun Hb Hnc Hcu Hok.
  destruct (CancelBet_run _ _ _ _ _ _ _ Hrun Hb Hnc Hcu Hok)
    as (Hu & Ha & (round & Hround & Htime) & Hcu' & (at_ & balance & [Hbets Hrounds _ Hcr]) & Hres & w & Hw).
  split; [done|split; [done|split; [by exists round|split; [done|split; [by do 2 eexists|split; [done|]]]]]].
  unfold CancelBet, select_id. rewrite gets_skip. change (tbl (app db')) with (bets (app db')).
  rewrite Hbets, lookup_insert_eq. cbn [mbind option_bind]. rewrite bool_decide_true by done.
  rewrite (found_skip _ _ _ _ _ eq_refl), gets_skip. change (bt_wallet_id (set_cancelled at_ balance b)) with (bt_wallet_id b).
  rewrite Hw, (found_skip _ _ _ _ _ eq_refl), gets_skip, Hrounds.
  change (bt_round_id (set_cancelled at_ balance b)) with (bt_round_id b). rewrite Hround, (found_skip _ _ _ _ _ eq_refl).
  cbv zeta. cbn [bt_is_simulated bt_status bt_client_request_id set_cancelled set_settled].
  destruct (bt_is_simulated b); [|rewrite bool_decide_true by done].
  - rewrite bool_decide_false by done. cbn [andb].
    rewrite reject_skip, gets_skip, Hres by (by rewrite bool_decide_true). done.
  - rewrite gets_skip, Hres. done.
Qed.

(** ** Witnesses *)

(** An open round of a shared hash game with one room; Alice has 5 USDT. *)
Definition hash_game_rules : json :=
  JObj [("outcomes", JArr (map JStr ["0"; "1"; "2"; "3"; "4"; "5"; "6"; "7"; "8"; "9"]));
        ("payout_multiplier", JInt 9); ("extras", JObj [("hash_shared", JBool true)])]%string.

Definition betting_app (a : App) : App :=
  (set_rounds {[ "round-1" := mk_round_row "hash" 7 RoundOpen 2000000000000000000 2000000005000000000 None None 1 ]}
  (set_game_types {[ "hash" := mk_game_type_row "hash" "Hash" true hash_game_rules None 5 None ]}
  (set_game_rooms {[ "room-1" := mk_game_room_row "A" "Room A" true "hash" ]}
  (set_game_room_types [("room-1", "hash")]
  (set_hash_room_currency_configs
     [mk_hash_config_row "room-1" "USDT" 100000 2000000 2000000 2000000 9500 1000 1100 1000 1950 1000] a)))))%string.

Definition betting_db : DB := set_app (betting_app funded_db.(app)) funded_db.

Definition digit_bet (stake : Z) : PlaceBetRequest :=
  mk_PlaceBetRequest "" "req-1" "round-1" "alice" " usdt" "room-1" "Guess"
    (Some (JObj [("pick", JStr "5")])) stake.

Lemma custody_betting db : custody db -> custody (set_app (betting_app db.(app)) db).
Proof. intros Hcu. by apply (custody_app db). Qed.

Lemma betting_custody : custody betting_db.
Proof. apply custody_betting, funded_custody. Qed.

Lemma betting_bets_ok : bets_ok betting_db.
Proof.
  assert (E : bets (app betting_db) = ∅) by (vm_compute; reflexivity).
  split; intros i b Hb; rewrite E, lookup_empty in Hb; discriminate Hb.
Qed.

Lemma betting_stakes : stakes_paid betting_db.
Proof.
  assert (E : bet_entries (money betting_db) = []) by (vm_compute; reflexivity).
  assert (E0 : bets (app betting_db) = ∅) by (vm_compute; reflexivity).
  intros i. unfold credited. rewrite E, E0. reflexivity.
Qed.

Lemma betting_placements : placements_unique betting_db.
Proof.
  assert (E : bet_placements (app betting_db) = ∅) by (vm_compute; reflexivity).
  intros i j p q Hp. rewrite E, lookup_empty in Hp. discriminate Hp.
Qed.

Lemma place_run : exists pb db', placeBetTx noon 7 (digit_bet 400000) false betting_db = Ok (pb, db') /\
  bool_decide (pl_StakeMinor pb = 400000) && bool_decide (pl_PayoutRate pb = "9.5"%string) &&
  bool_decide (order_stake (pl_BetID pb) betting_db = 0) &&
  match findPlacement (normalize_bet (digit_bet 400000)) betting_db with Err ErrNoRows => true | _ => false end &&
  match scanPlacedBet (pl_BetID pb) db' with Ok _ => true | Err _ => false end = true.
Proof.
  destruct (succeeds_Ok (fun x => bool_decide (pl_StakeMinor x.1 = 400000) &&
    bool_decide (pl_PayoutRate x.1 = "9.5"%string) && bool_decide (order_stake (pl_BetID x.1) betting_db = 0) &&
    match findPlacement (normalize_bet (digit_bet 400000)) betting_db with Err ErrNoRows => true | _ => false end &&
    match scanPlacedBet (pl_BetID x.1) x.2 with Ok _ => true | Err _ => false end)
    (placeBetTx noon 7 (digit_bet 400000) false betting_db)) as ([pb db'] & Hrun & Hok).
  { vm_compute. reflexivity. }
  exists pb, db'. split; [exact Hrun|exact Hok].
Qed.

Lemma place_new : findPlacement (normalize_bet (digit_bet 400000)) betting_db = Err ErrNoRows.
Proof. vm_compute. reflexivity. Qed.

Lemma PlaceBet_exact_witness : exists pb db',
  placeBetTx noon 7 (digit_bet 400000) false betting_db = Ok (pb, db') /\
  stakes_paid db' /\ order_stake (pl_BetID pb) db' = 400000.
Proof.
  destruct place_run as (pb & db' & Hrun & Hok). exists pb, db'. split; [exact Hrun|].
  destruct (PlaceBet_exact noon 7 (digit_bet 400000) false betting_db pb db' Hrun betting_custody betting_bets_ok
    betting_stakes betting_placements) as (_ & _ & Hp & _ & Hcase).
  { unfold in_int64, int64_min, int64_max. cbn. lia. }
  split; [exact Hp|]. apply andb_prop in Hok as [Hok _]. apply andb_prop in Hok as [Hok _].
  apply andb_prop in Hok as [_ Hzero]. apply bool_decide_eq_true in Hzero.
  destruct Hcase as [[Hf _]|(u & wid & w & _ & _ & _ & _ & Hs & _)].
  - rewrite place_new in Hf. discriminate Hf.
  - rewrite Hs, Hzero. reflexivity.
Defined.

(** The same request, late and for another account status, answers; a changed
    stake is refused. *)
Lemma PlaceBet_once_witness : exists pb db' pb',
  placeBetTx noon 7 (digit_bet 400000) false betting_db = Ok (pb, db') /\
  placeBetTx (mk_clock 0 3000000000000000000) 9 (digit_bet 400000) false db' = Ok (pb', db') /\
  placeBetTx noon 9 (digit_bet 400001) false db' = Err ErrRequestConflict.
Proof.
  destruct place_run as (pb & db' & Hrun & Hok). apply andb_prop in Hok as [_ Hscan].
  destruct (PlaceBet_exact noon 7 (digit_bet 400000) false betting_db pb db' Hrun betting_custody betting_bets_ok
    betting_stakes betting_placements) as (Hcu & _ & _ & Hun & _).
  { unfold in_int64, int64_min, int64_max. cbn. lia. }
  destruct (scanPlacedBet (pl_BetID pb) db') as [b|] eqn:Es; [|discriminate Hscan].
  exists pb, db', (with_request_id "req-1" b). split; [exact Hrun|].
  destruct (PlaceBet_once noon 7 (digit_bet 400000) false betting_db pb db' Hrun (mk_clock 0 3000000000000000000) 9
    (digit_bet 400000) false db' Hun (cu_books _ Hcu) (reflexivity _) eq_refl eq_refl)
    as (_ & Hsame & _); [cbn; unfold int64_max; lia|discriminate|].
  destruct (PlaceBet_once noon 7 (digit_bet 400000) false betting_db pb db' Hrun noon 9
    (digit_bet 400001) false db' Hun (cu_books _ Hcu) (reflexivity _) eq_refl eq_refl)
    as (_ & _ & Hdiff); [cbn; unfold int64_max; lia|discriminate|].
  split; [exact (Hsame eq_refl b Es)|]. apply Hdiff. cbn. intros Heq. injection Heq as Hst. discriminate Hst.
Defined.


(** Cancelling an open dice bet of the settlement example. *)
Lemma cancel_bet_run : exists pb db', CancelBet (mk_clock 250 250) "bet-3" "alice" settle_db = Ok (pb, db').
Proof.
  destruct (succeeds_Ok (fun _ => true) (CancelBet (mk_clock 250 250) "bet-3" "alice" settle_db)) as ([pb db'] & Hrun & _).
  { vm_compute. reflexivity. }
  exists pb, db'. exact Hrun.
Qed.

Lemma CancelBet_once_witness : exists pb db',
  CancelBet (mk_clock 250 250) "bet-3" "alice" settle_db = Ok (pb, db') /\
  CancelBet (mk_clock 999 999) "bet-3" "alice" db' = Ok (pb, db') /\
  credited "bet_cancel" "bet-3" db'.(money) = 700.
Proof.
  destruct cancel_bet_run as (pb & db' & Hrun). exists pb, db'. split; [exact Hrun|].
  destruct (CancelBet_once (mk_clock 250 250) (mk_clock 999 999) "bet-3" "alice" settle_db pb db'
    (dice_bet "round-2" "2" 700 false) Hrun eq_refl) as (_ & _ & _ & _ & _ & Hc & Hagain);
    [discriminate|exact settle_custody|exact settle_bets_ok|].
  split; [exact Hagain|]. rewrite Hc, bool_decide_true by reflexivity. vm_compute. reflexivity.
Defined.

(** A pick under the key [Pick] is accepted and wins like any other, but the
    limit of the pick does not see it. *)
Lemma uncounted_pick :
  let r := mk_PlaceBetRequest "" "req-2" "round-1" "alice" "USDT" "room-1" "guess"
             (Some (JObj [("Pick", JStr "5")])) 400000 in
  validHashSelection "guess" (pr_Selection r) = true /\
  hashSelectionWins "guess" (pr_Selection r) (sharedHashOutcome 5) = true /\
  forall b, same_pick r b = false.
Proof.
  split; [reflexivity|split; [vm_compute; reflexivity|]]. intros b. unfold same_pick.
  change (jtext "pick" (selection_of _)) with (@None string). by destruct (jtext _ _).
Qed.
