(* ===== verification/OperationsProofs.v ===== *)
(** * Voiding a bet: what holds

    An administrator can void an accepted bet once; the stake goes back to the
    wallet that paid it, and the same request gives the same answer. *)

From S2P Require Import Prelude GoStrings Json Game Schema Store Books Custody Wallet Settlement.
From S2P Require Import BetBooks SettlementProofs BettingProofs Operations Examples Betting.

(** What the INT8 columns and the JSON of a result can carry. *)
Definition void_fits (r : BetVoidResult) : Prop :=
  in_int64 (vr_UserID r) /\ in_int64 (vr_OperatorUserID r) /\ in_int64 (vr_RoundSequence r) /\
  in_int64 (vr_StakeMinor r) /\ in_int64 (vr_RefundMinor r).

Lemma dec_int64_JInt old n : in_int64 n -> dec_int64 old (JInt n) = Some n.
Proof.
  unfold in_int64, dec_int64. intros [H1 H2].
  by rewrite (proj2 (Z.leb_le _ _) H1), (proj2 (Z.leb_le _ _) H2).
Qed.

(** Which field a constant key names. *)
Ltac dec_keys :=
  repeat match goal with
  | |- context [is_key ?a ?b] => let E := fresh in
      eassert (is_key a b = _) as E by (vm_compute; reflexivity); rewrite E; clear E
  end; cbn match.

(** Decode the next field of a struct read with [set]. *)
Ltac dec_field set :=
  match goal with
  | |- context [set ?k ?v ?r] =>
      let E := fresh in
      eassert (set k v r = Some _) as E;
      [unfold set; dec_keys; rewrite ?dec_int64_JInt by done; cbn; reflexivity|];
      rewrite E; clear E; cbn [mbind option_bind]
  end.

(** The recorded result reads back as it was, through JSONB. *)
Lemma bet_void_roundtrip r : void_fits r -> dec_bet_void (jsonb (bet_void_json r)) = Some r.
Proof.
  destruct r as [o b u a g s c st rf sim rs stt d at_]. unfold void_fits. cbn [vr_UserID vr_OperatorUserID
    vr_RoundSequence vr_StakeMinor vr_RefundMinor]. intros (H1 & H2 & H3 & H4 & H5).
  eassert (jsonb (bet_void_json (mk_BetVoidResult o b u a g s c st rf sim rs stt d at_)) = _) as E
    by (vm_compute; reflexivity).
  rewrite E. clear E. unfold dec_bet_void, dec_struct. cbn [foldl fst snd mbind option_bind].
  unfold zero_bet_void. repeat dec_field set_bet_void. done.
Qed.

Section voids.
Context `{Uuids}.
Context (is_uuid : string -> bool).

Definition trimmed (i : BetVoidInput) : BetVoidInput :=
  mk_BetVoidInput (vi_OperatorID i) (TrimSpace (vi_RequestID i)) (vi_BetID i) (TrimSpace (vi_Reason i)).

(** The refund of a voided bet: nothing in a simulation. *)
Lemma void_refund db d wid w now at_ op remark opid eid stake :
  books db.(money) -> wallets db.(money) !! wid = Some w -> 0 < stake -> w_available w + stake <= int64_max ->
  let w' := wallet_after w (fun _ => w_available w + stake) w_frozen at_ in
  let li := mk_entry eid wid "bet_void" op "bet_void_refund" stake (w_available w + stake) None 0 remark opid None in
  money d = money (post_ledger li w' now (put_wallet wid w' db)) ->
  withdrawals d.(app) = withdrawals db.(app) -> point_withdrawals d.(app) = point_withdrawals db.(app) ->
  lulu_orders d.(app) = lulu_orders db.(app) ->
  books d.(money) /\ quiet db d /\ bet_entries d.(money) = bet_entries db.(money) /\
  (forall i, avail d.(money) i = avail db.(money) i + (if bool_decide (wid = i) then stake else 0)).
Proof.
  intros Hb Hw Hst Hmax w' li Hd Hwd Hpw Hlu. destruct (bounded_lookup _ _ _ Hb Hw) as [Hba Hbf].
  assert (Hp : posted db d wid w w' (ledger_row_of w' now li)).
  { split; try done.
    - unfold w', wallet_ok. cbn. rewrite !andb_true_iff, !Z.leb_le. lia.
    - cbn. lia.
    - cbn. lia. }
  split; [by eapply posted_books|split; [by eapply posted_quiet|split]].
  - rewrite Hd. done.
  - intros i. by rewrite (posted_avail _ _ _ _ _ _ i Hp).
Qed.

(** What is left of a voided bet, apart from the money. *)
Definition void_written (t : clock) (i : BetVoidInput) (b : bet_row) (out : BetVoidResult) (db db' : DB) : Prop :=
  kept db db' /\ user_roles db'.(app) = user_roles db.(app) /\
  (exists balance, bets db'.(app) = <[vi_BetID i := set_voided (go_now t) balance b]> (bets db.(app))) /\
  exists v, bv_bet_id v = vi_BetID i /\ bv_reason v = vi_Reason i /\
    bv_result v = jsonb (bet_void_json out) /\ void_key (vi_OperatorID i) (vi_RequestID i) "" v = true /\
    bet_voids db'.(app) = <[vr_OperationID out := v]> (bet_voids db.(app)) /\
    find_row (fun _ => void_conflict v) (bet_voids db.(app)) = None.

(** What the joined row says. *)
Lemma w_wallet db b u w r g :
  (u ← users db.(app) !! bt_user_id b; w ← wallets db.(money) !! bt_wallet_id b;
   r ← rounds db.(app) !! bt_round_id b; g ← game_types db.(app) !! rd_game_type_id r;
   Some (u, w, r, g)) = Some (u, w, r, g) ->
  wallets db.(money) !! bt_wallet_id b = Some w /\ users db.(app) !! bt_user_id b = Some u /\
  rounds db.(app) !! bt_round_id b = Some r /\ game_types db.(app) !! rd_game_type_id r = Some g.
Proof.
  destruct (users _ !! _); [|done]. destruct (wallets _ !! _); [|done].
  destruct (rounds _ !! _) as [r'|]; [|done]. cbn. destruct (game_types _ !! _) eqn:E; [|done].
  cbn. by intros [= -> -> -> ->].
Qed.

Lemma VoidBet_run t input db out db' :
  VoidBet is_uuid t input db = Ok (out, db') ->
  let i := trimmed input in
  find_row (void_key (vi_OperatorID i) (vi_RequestID i)) (bet_voids db.(app)) = None ->
  custody db -> bets_ok db ->
  exists b admin, valid_void is_uuid i = true /\ requireAdminOperator (vi_OperatorID i) db = Ok admin /\
    bets db.(app) !! vi_BetID i = Some b /\ bt_status b = "accepted"%string /\
    void_written t i b out db db' /\ vr_BetID out = vi_BetID i /\ vr_StakeMinor out = bt_stake_minor b /\
    vr_RefundMinor out = real_stake b /\ vr_Duplicate out = false /\
    custody db' /\ bet_entries db'.(money) = bet_entries db.(money) /\
    (forall j, avail db'.(money) j =
       avail db.(money) j + (if bool_decide (bt_wallet_id b = j) then real_stake b else 0)).
Proof.
  intros Hrun i Hnew Hcu Hok. unfold VoidBet in Hrun. fold (trimmed input) in Hrun. cbv zeta in Hrun.
  fold i in Hrun. apply tx_bind_Ok in Hrun as ([] & d & E & Hrun). apply reject_if_Ok in E as [E1%negb_false_iff <-].
  rewrite gets_skip in Hrun. apply tx_bind_Ok in Hrun as (admin & d & E & Hrun). apply lift_Ok in E as [E2 <-].
  unfold select_where in Hrun. rewrite gets_skip in Hrun. change (tbl (app db)) with (bet_voids (app db)) in Hrun.
  rewrite Hnew in Hrun. unfold select_id in Hrun. rewrite gets_skip in Hrun.
  apply tx_bind_Ok in Hrun as (b & d & E & Hrun). apply found_Ok in E as [E3 <-].
  apply tx_bind_Ok in Hrun as (op & d & E & Hrun). apply new_uuid_Ok in E as [<- <-].
  rewrite gets_skip in Hrun. apply tx_bind_Ok in Hrun as ([[[u w] r] g] & d & E & Hrun).
  apply found_Ok in E as [E4 <-]. change (tbl (app db)) with (bets (app db)) in E3.
  apply tx_bind_Ok in Hrun as ([] & d & E & Hrun). apply reject_if_Ok in E as [E5 <-].
  apply negb_false_iff, bool_decide_eq_true in E5.
  cbv zeta in Hrun. destruct (w_wallet _ _ _ _ _ _ E4) as (Hw & _). change (money (tick db)) with (money db) in Hw.
  pose proof (bo_stake _ Hok _ _ E3) as Hst. pose proof (cu_books _ Hcu) as Hbooks.
  destruct (bounded_lookup _ _ _ Hbooks Hw) as [Hba _].
  apply tx_bind_Ok in Hrun as ([] & d1 & Em & Hrun).
  assert (Hmoney : books d1.(money) /\ quiet db d1 /\ bet_entries d1.(money) = bet_entries db.(money) /\
    (forall j, avail d1.(money) j =
       avail db.(money) j + (if bool_decide (bt_wallet_id b = j) then real_stake b else 0)) /\
    kept db d1 /\ bets d1.(app) = bets db.(app) /\ bet_voids d1.(app) = bet_voids db.(app) /\
    user_roles d1.(app) = user_roles db.(app)).
  { unfold real_stake. destruct (bt_is_simulated b).
    - apply tx_ret_Ok in Em as [_ <-].
      split; [done|split; [apply quiet_tick|split; [done|split; [|by split]]]].
      intros j. cbn. case_bool_decide; lia.
    - apply tx_bind_Ok in Em as ([] & d & E & Em). apply reject_if_Ok in E as [G <-]. apply Z.ltb_ge in G.
      rewrite exact_sub_pos in G by (unfold int64_max in *; lia).
      rewrite (wrap64_small (w_available w + bt_stake_minor b)) in Em
        by (unfold in_int64, int64_min, int64_max in *; lia).
      apply tx_bind_Ok in Em as ([] & d & E & Em).
      apply update_wallet_Ok in E as [[Hno _]|(w0 & Hw0 & _ & <-)]; [by cbn in Hno; congruence|].
      cbn in Hw0. assert (w0 = w) as -> by congruence.
      apply tx_bind_Ok in Em as (eid & d & E & Em). apply new_uuid_Ok in E as [<- <-].
      apply insert_ledger_Ok in Em as (w1 & Hw1 & _ & <-).
      cbn in Hw1. rewrite lookup_insert_eq in Hw1. injection Hw1 as <-.
      match goal with |- context [post_ledger (mk_entry ?e _ _ ?o _ _ _ _ _ ?rm (Some ?who) _) ?w' _ ?x] =>
        destruct (void_refund db (post_ledger (mk_entry e (bt_wallet_id b) "bet_void" o "bet_void_refund"
          (bt_stake_minor b) (w_available w + bt_stake_minor b) None 0 rm (Some who) None) w' (sql_now t) x)
          (bt_wallet_id b) w (sql_now t) (go_now t) o rm (Some who) e (bt_stake_minor b))
          as (Q1 & Q2 & Q3 & Q4) end; [done|done|lia|lia|done..|].
      split; [exact Q1|split; [exact Q2|split; [exact Q3|split; [exact Q4|by split]]]]. }
  destruct Hmoney as (M1 & M2 & M3 & M4 & K1 & K2 & K3 & K4). clear Em.
  apply tx_bind_Ok in Hrun as ([] & d2 & E & Hrun). eapply update_bet_Ok in E; [|by rewrite K2]. subst d2.
  apply tx_bind_Ok in Hrun as ([] & d2 & E & Hrun). apply insert_row_Ok in E as (P1 & P2 & <-).
  apply tx_bind_Ok in Hrun as (ev & d2 & E & Hrun). apply new_uuid_Ok in E as [<- <-].
  apply tx_bind_Ok in Hrun as ([] & d2 & E & Hrun). apply insert_outbox_Ok in E as <-.
  apply tx_bind_Ok in Hrun as (au & d2 & E & Hrun). apply new_uuid_Ok in E as [<- <-].
  apply tx_bind_Ok in Hrun as ([] & d2 & E & Hrun). apply insert_audit_Ok in E as <-.
  apply tx_ret_Ok in Hrun as [<- <-].
  match goal with |- context [void_written _ _ _ _ db ?d'] => set (dd := d') end.
  assert (Hdd : money dd = money d1) by done.
  exists b, admin. split; [done|split; [done|split; [done|split; [done|split]]]].
  - unfold void_written. split; [destruct K1; by split|split; [exact K4|split]].
    + eexists. cbn. rewrite K2. reflexivity.
    + cbn in P2. rewrite K3 in P2.
      eexists. split; [|split; [|split; [|split; [|split]]]]; cycle 4; [cbn; by rewrite K3|exact P2|..]; try reflexivity.
      unfold void_key. cbn. by rewrite !bool_decide_true.
  - do 4 (split; [done|]). rewrite Hdd. split; [|by split].
    apply (custody_quiet db); [done|by rewrite Hdd|]. etrans; [exact M2|by apply quiet_app].
Qed.
(** A request that is already recorded. *)
Lemma VoidBet_known t input db id v admin :
  let i := trimmed input in
  valid_void is_uuid i = true -> requireAdminOperator (vi_OperatorID i) db = Ok admin ->
  find_row (void_key (vi_OperatorID i) (vi_RequestID i)) (bet_voids db.(app)) = Some (id, v) ->
  bv_bet_id v = vi_BetID i -> bv_reason v = vi_Reason i -> forall out,
  dec_bet_void (bv_result v) = Some out -> VoidBet is_uuid t input db = Ok (as_duplicate out, db).
Proof.
  intros i Hv Had Hf Hb Hr out Hout. unfold VoidBet. fold (trimmed input). cbv zeta. fold i.
  rewrite reject_skip by (by rewrite Hv). rewrite gets_skip, (lift_skip _ _ _ _ Had).
  unfold select_where. rewrite gets_skip. change (tbl (app db)) with (bet_voids (app db)). rewrite Hf.
  rewrite reject_skip by (by rewrite Hb, Hr, !bool_decide_true).
  by rewrite Hout.
Qed.

(** A voided bet is never voided again. *)
Lemma VoidBet_spent t input db out db2 b :
  VoidBet is_uuid t input db = Ok (out, db2) ->
  bets db.(app) !! vi_BetID input = Some b -> bt_status b <> "accepted"%string ->
  db2 = db /\ vr_Duplicate out = true.
Proof.
  intros Hrun Hb Hst. unfold VoidBet in Hrun. cbv zeta in Hrun. cbn [vi_BetID] in Hrun.
  apply tx_bind_Ok in Hrun as ([] & d & E & Hrun). apply reject_if_Ok in E as [_ <-].
  rewrite gets_skip in Hrun. apply tx_bind_Ok in Hrun as (admin & d & E & Hrun). apply lift_Ok in E as [_ <-].
  unfold select_where in Hrun. rewrite gets_skip in Hrun. destruct (find_row _ _) as [[id v]|].
  - apply tx_bind_Ok in Hrun as ([] & d & E & Hrun). apply reject_if_Ok in E as [_ <-].
    apply tx_bind_Ok in Hrun as (o & d & E & Hrun). apply lift_Ok in E as [_ <-].
    by apply tx_ret_Ok in Hrun as [<- <-].
  - exfalso. unfold select_id in Hrun. rewrite gets_skip in Hrun. change (tbl (app db)) with (bets (app db)) in Hrun.
    rewrite Hb, (found_skip _ _ _ _ _ eq_refl) in Hrun.
    apply tx_bind_Ok in Hrun as (op & d & _ & Hrun). rewrite gets_skip in Hrun.
    apply tx_bind_Ok in Hrun as ([[[u w] r] g] & d' & _ & Hrun).
    apply tx_bind_Ok in Hrun as ([] & d'' & E & _). apply reject_if_Ok in E as [E _].
    by apply negb_false_iff, bool_decide_eq_true in E.
Qed.

End voids.

(** C33: an administrator voids an accepted bet at most once: the operator is an
    active administrator or operator, the stake returns to the wallet that paid
    it and to no other, the agreement of stakes and debits is kept, and the bet
    is voided; the same request later gives the same answer, marked as a
    duplicate, and no request whatever voids the bet a second time. *)
Theorem VoidBet_once `{Uuids} is_uuid t t' input db out db' :
  VoidBet is_uuid t input db = Ok (out, db') ->
  let i := trimmed input in
  find_row (void_key (vi_OperatorID i) (vi_RequestID i)) (bet_voids db.(app)) = None ->
  custody db -> bets_ok db ->
  exists b admin, requireAdminOperator (vi_OperatorID i) db = Ok admin /\
    bets db.(app) !! vi_BetID i = Some b /\ bt_status b = "accepted"%string /\
    custody db' /\ (stakes_paid db -> stakes_paid db') /\ vr_RefundMinor out = real_stake b /\
    (exists balance, bets db'.(app) = <[vi_BetID i := set_voided (go_now t) balance b]> (bets db.(app))) /\
    (forall j, avail db'.(money) j =
       avail db.(money) j + (if bool_decide (bt_wallet_id b = j) then real_stake b else 0)) /\
    (void_fits out -> VoidBet is_uuid t' input db' = Ok (as_duplicate out, db')) /\
    (forall again out2 db2, vi_BetID again = vi_BetID input ->
       VoidBet is_uuid t' again db' = Ok (out2, db2) -> db2 = db' /\ vr_Duplicate out2 = true).
Proof.
  intros Hrun i Hnew Hcu Hok.
  destruct (VoidBet_run _ _ _ _ _ _ Hrun Hnew Hcu Hok) as (b & admin & Hv & Had & Hb & Hacc &
    ([_ _ _ _ Hku _] & Hroles & (balance & Hbets) & v & V1 & V2 & V3 & V4 & V5 & V6) & _ & _ & Href & _ & Hcu' & Hent & Hav).
  fold i in Hv, Had, Hb, Hbets, V1, V2, V4. exists b, admin.
  split; [done|split; [done|split; [done|split; [done|split; [|split; [done|split; [by exists balance|split; [done|split]]]]]]]].
  - intros Hpaid j. rewrite (credited_entries _ _ _ _ Hent), Hpaid, Hbets. f_equal.
    destruct (decide (j = vi_BetID i)) as [->|Hj]; [by rewrite lookup_insert_eq, Hb|by rewrite lookup_insert_ne].
  - intros Hfit. apply (VoidBet_known is_uuid t' input db' (vr_OperationID out) v admin); try done.
    + unfold requireAdminOperator, has_role in *. by rewrite Hku, Hroles.
    + rewrite V5. by apply find_row_added.
    + rewrite V3. by apply bet_void_roundtrip.
  - intros again out2 db2 Hsame Hrun2. eapply (VoidBet_spent is_uuid t' again); [exact Hrun2| |].
    + rewrite Hsame, Hbets. apply lookup_insert_eq.
    + done.
Qed.

(** ** Witness *)

Definition void_request : BetVoidInput := mk_BetVoidInput "staff" " void-1" "bet-3" "player request ".

(** Identifiers of the example count as UUIDs. *)
Definition any_uuid (_ : string) : bool := true.

Definition fits (n : Z) : bool := (int64_min <=? n) && (n <=? int64_max).

Lemma void_run : exists out db', VoidBet any_uuid evening void_request settle_db = Ok (out, db') /\
  fits (vr_UserID out) && fits (vr_OperatorUserID out) && fits (vr_RoundSequence out) &&
  fits (vr_StakeMinor out) && fits (vr_RefundMinor out) && (vr_RefundMinor out =? 700) = true.
Proof.
  destruct (succeeds_Ok (fun x => fits (vr_UserID x.1) && fits (vr_OperatorUserID x.1) && fits (vr_RoundSequence x.1) &&
    fits (vr_StakeMinor x.1) && fits (vr_RefundMinor x.1) && (vr_RefundMinor x.1 =? 700))
    (VoidBet any_uuid evening void_request settle_db)) as ([out db'] & Hrun & Hok).
  { vm_compute. reflexivity. }
  exists out, db'. split; [exact Hrun|exact Hok].
Qed.

Lemma fits_void out :
  fits (vr_UserID out) && fits (vr_OperatorUserID out) && fits (vr_RoundSequence out) &&
  fits (vr_StakeMinor out) && fits (vr_RefundMinor out) = true -> void_fits out.
Proof. unfold fits, void_fits, in_int64. rewrite !andb_true_iff, !Z.leb_le. lia. Qed.

Lemma VoidBet_once_witness : exists out db',
  VoidBet any_uuid evening void_request settle_db = Ok (out, db') /\ custody db' /\ vr_RefundMinor out = 700 /\
  VoidBet any_uuid evening void_request db' = Ok (as_duplicate out, db').
Proof.
  destruct void_run as (out & db' & Hrun & Hok). exists out, db'. split; [exact Hrun|].
  apply andb_prop in Hok as [Hfit Hr]. apply Z.eqb_eq in Hr.
  destruct (VoidBet_once any_uuid evening evening void_request settle_db out db' Hrun)
    as (b & admin & _ & _ & _ & Hcu & _ & _ & _ & _ & Hagain & _);
    [vm_compute; reflexivity|exact settle_custody|exact settle_bets_ok|].
  split; [exact Hcu|split; [exact Hr|]]. apply Hagain, fits_void, Hfit.
Defined.
