(* ===== verification/CreditProofs.v ===== *)
(** * Credits: what holds

    The shared steps keep the books; a point withdrawal is frozen, reviewed
    once, and its money leaves or comes back; an adjustment is exact and made
    once per request. *)

From S2P Require Import Prelude GoStrings Money Json Schema Store Books Custody Wallet.
From S2P Require Import Chain Examples ChainProofs Operations Credit.
From S2P Require Import BetBooks OperationsProofs.

(** ** Transactions that only move money *)

(** No table changes but the outbox, which takes the ledger events. *)
Definition money_only (db db' : DB) : Prop :=
  exists n o, db'.(app) = set_outbox o (set_uuid_count n db.(app)).

#[export] Instance money_only_preorder : PreOrder money_only.
Proof.
  split.
  - intros [m a]. exists (uuid_count a), (outbox a). by destruct a.
  - intros d1 d2 d3 (n & o & E) (n' & o' & E'). exists n', o'. rewrite E', E. reflexivity.
Qed.

Lemma money_only_withdrawals db db' : money_only db db' -> withdrawals db'.(app) = withdrawals db.(app).
Proof. intros (n & o & ->). done. Qed.

Lemma money_only_points db db' : money_only db db' -> point_withdrawals db'.(app) = point_withdrawals db.(app).
Proof. intros (n & o & ->). done. Qed.

Lemma money_only_lulu db db' : money_only db db' -> lulu_orders db'.(app) = lulu_orders db.(app).
Proof. intros (n & o & ->). done. Qed.

Lemma money_only_tick db : money_only db (tick db).
Proof. exists (S (uuid_count (app db))), (outbox (app db)). by destruct db as [m []]. Qed.

Lemma money_only_put id w db : money_only db (put_wallet id w db).
Proof. exists (uuid_count (app db)), (outbox (app db)). by destruct db as [m []]. Qed.

Lemma money_only_post `{Uuids} li w now db : money_only db (post_ledger li w now db).
Proof. by eexists _, _. Qed.

#[export] Hint Resolve money_only_tick money_only_put money_only_post : aside.

(** Settlement's hook contract is met by what only moves no money. *)
Section steps.
Context `{Uuids}.

Lemma writeLedger_Ok now user cur btype bid amount after remark op db u db' :
  writeLedger now user cur btype bid amount after remark op db = Ok (u, db') ->
  exists wid w, find_row (is_wallet_of user cur) (wallets db.(money)) = Some (wid, w) /\
    db' = post_ledger (credit_entry (drawn db) wid btype bid amount after remark op) w now (tick db).
Proof.
  unfold writeLedger, walletIDOf, find_wallet. intros Hrun. tx_steps.
  match goal with x : string * wallet_row |- _ => destruct x as [wid w'] end. exists wid, w'. split; [done|].
  match goal with E : wallets (money (tick _)) !! _ = Some ?x |- _ =>
    assert (x = w') as -> by (wallet_rows; unfold credit_entry in E; destruct (credit_deltas _ _); cbn in *; congruence) end.
  done.
Qed.

(** Opening a wallet moves nothing. *)
Lemma insert_wallet_still id user cur now db made d :
  insert_wallet id user cur now db = Ok (made, d) -> books db.(money) ->
  books d.(money) /\ quiet db d /\ money_only db d /\ ledger d.(money) = ledger db.(money) /\
  (forall i, avail d.(money) i = avail db.(money) i).
Proof.
  intros Ei Hb. apply insert_wallet_Ok in Ei as [(_ & <- & _)|(_ & Hnone & Hid & <-)]; [done|].
  split; [money_simpl; by apply books_open|split; [by apply quiet_open_wallet|split; [apply money_only_put|split; [done|]]]].
  intros i. money_simpl. rewrite avail_insert, money_eta. case_bool_decide; [|done]. subst i.
  unfold avail. by rewrite Hid.
Qed.

(** The wallet that [addBalance] credits, opened when there was none. *)
Lemma addBalance_Ok now user cur delta db z db' :
  addBalance now user cur delta db = Ok (z, db') -> books db.(money) ->
  exists wid w d, find_row (is_wallet_of user cur) (wallets d.(money)) = Some (wid, w) /\
    books d.(money) /\ quiet db d /\ money_only db d /\ ledger d.(money) = ledger db.(money) /\
    (forall i, avail d.(money) i = avail db.(money) i) /\
    z = w_available w + delta /\
    wallet_ok (wallet_after w (fun _ => z) w_frozen now) = true /\
    db' = put_wallet wid (wallet_after w (fun _ => z) w_frozen now) d.
Proof.
  unfold addBalance, find_wallet. intros Hrun Hb.
  apply tx_bind_Ok in Hrun as (id & d0 & E & Hrun). apply new_uuid_Ok in E as [<- <-].
  apply tx_bind_Ok in Hrun as (made & d & Ei & Hrun).
  apply tx_bind_Ok in Hrun as (o & d' & E & Hrun). apply gets_Ok in E as [E <-].
  apply tx_bind_Ok in Hrun as ([wid w] & d' & E1 & Hrun). apply found_Ok in E1 as [-> <-].
  apply tx_bind_Ok in Hrun as ([] & d' & E1 & Hrun). apply tx_ret_Ok in Hrun as [<- <-]. cbn [fst snd] in *.
  pose proof (find_wallet_row _ _ _ _ _ E) as (Hw & _ & _).
  apply update_wallet_Ok in E1 as [[Hno _]|(w' & Hw' & Hok & <-)]; [congruence|].
  assert (w' = w) as -> by congruence. exists wid, w, d. split; [done|].
  destruct (insert_wallet_still _ _ _ _ _ _ _ Ei Hb) as (D1 & D2 & D3 & D4 & D5).
  split; [done|split; [etrans; [apply quiet_tick|done]|split; [etrans; [apply money_only_tick|done]|]]].
  do 2 (split; [done|]). split; [done|split; [exact Hok|done]].
Qed.

(** The ledger step of a transaction that has just written the wallet found. *)
Lemma writeLedger_found now user cur btype bid amount after remark op wid w d u db' :
  writeLedger now user cur btype bid amount after remark op d = Ok (u, db') ->
  one_wallet d.(money) -> wallets d.(money) !! wid = Some w -> w_user_id w = user -> w_currency w = cur ->
  db' = post_ledger (credit_entry (drawn d) wid btype bid amount after remark op) w now (tick d).
Proof.
  intros Hrun Hone Hw Hu Hc. destruct (writeLedger_Ok _ _ _ _ _ _ _ _ _ _ _ _ Hrun) as (i & v & Hf & ->).
  rewrite (find_wallet_unique user cur _ wid w) in Hf by done. by injection Hf as <- <-.
Qed.

Lemma neg_neg a : 0 <= a <= int64_max -> (- (- a)%i64)%i64 = a.
Proof.
  intros. rewrite (exact_neg a), wrap64_small; [lia| |done].
  unfold in_int64, int64_min, int64_max in *. lia.
Qed.

(** A wallet row was rewritten; [writeLedger] books the difference. *)
Lemma write_posted now user cur btype bid amount after remark op wid w w' db d u db' :
  writeLedger now user cur btype bid amount after remark op d = Ok (u, db') ->
  money d = mk_Money (<[wid := w']> (wallets db.(money))) (ledger db.(money)) ->
  one_wallet db.(money) -> wallets db.(money) !! wid = Some w ->
  w_user_id w = user -> w_currency w = cur -> w_user_id w' = user -> w_currency w' = cur ->
  wallet_ok w' = true -> after = w_available w' ->
  credit_deltas btype amount = (w_available w' - w_available w, w_frozen w' - w_frozen w) ->
  exists r, posted db db' wid w w' r /\ money_only d db' /\
    r = ledger_row_of w' now (credit_entry (drawn d) wid btype bid amount after remark op).
Proof.
  intros Hrun Hm Hone Hw Hu Hc Hu' Hc' Hok -> Hd.
  apply (writeLedger_found _ _ _ _ _ _ _ _ _ wid w') in Hrun as ->; [..|done|done].
  2: { rewrite Hm. apply (one_wallet_update _ _ _ w); first [done|congruence]. }
  2: { rewrite Hm. apply lookup_insert_eq. }
  eexists. split; [|split; [|reflexivity]].
  - unfold credit_entry. rewrite Hd. split; try done; try congruence.
    rewrite money_post_ledger, money_tick, Hm. done.
  - etrans; [apply money_only_tick|apply money_only_post].
Qed.

(** The ledger of the betting components is not concerned. *)
Definition plain_type (btype : string) : Prop :=
  btype ∉ ["bet"; "settlement"; "refund"; "bet_cancel"]%string /\
  btype ∉ ["point_withdrawal"; "point_withdrawal_debit"; "point_withdrawal_unfreeze"]%string.

Lemma plain_deltas btype amount : plain_type btype -> credit_deltas btype amount = (amount, 0).
Proof.
  intros [_ Hn]. unfold credit_deltas. rewrite !bool_decide_false; [done|..]; intros ->; apply Hn; set_solver.
Qed.

(** Crediting a reward. *)
Record rewarded (user cur : string) (amount : Z) (db db' : DB) : Prop := {
  rw_books : books db'.(money);
  rw_quiet : quiet db db';
  rw_only : money_only db db';
  rw_entries : bet_entries db'.(money) = bet_entries db.(money);
  rw_wallet : exists wid w, find_row (is_wallet_of user cur) (wallets db'.(money)) = Some (wid, w) /\
    forall i, avail db'.(money) i = avail db.(money) i + (if bool_decide (wid = i) then amount else 0)
}.

Lemma credit_business w now id wid btype bid amount after remark op :
  le_business_type (ledger_row_of w now (credit_entry id wid btype bid amount after remark op)) = btype.
Proof. unfold credit_entry. by destruct (credit_deltas _ _). Qed.

(** One plain entry over the state the wallet was found in. *)
Lemma plain_posted user cur amount btype db d db' wid w w' r :
  posted d db' wid w w' r -> plain_type btype -> le_business_type r = btype ->
  le_frozen_delta r = 0 -> le_available_delta r = amount ->
  find_row (is_wallet_of user cur) (wallets d.(money)) = Some (wid, w) ->
  books d.(money) -> quiet db d -> money_only db d -> ledger d.(money) = ledger db.(money) ->
  (forall i, avail d.(money) i = avail db.(money) i) -> money_only d db' ->
  rewarded user cur amount db db'.
Proof.
  intros Hp Hpt Hbt Hf Ha Hw Hb Hq Hod Hl Hav Hmo.
  pose proof (find_wallet_row _ _ _ _ _ Hw) as (Hrow & Hu & Hc).
  split.
  - by eapply posted_books.
  - etrans; [exact Hq|]. eapply posted_quiet; [exact Hp|exact Hf|..].
    + by apply money_only_withdrawals.
    + by apply money_only_points.
    + by apply money_only_lulu.
  - by etrans.
  - unfold bet_entries. rewrite (po_money _ _ _ _ _ _ Hp). cbn [ledger List.filter].
    assert (is_bet_entry r = false) as ->.
    { unfold is_bet_entry. rewrite Hbt. apply bool_decide_eq_false. apply Hpt. }
    by rewrite Hl.
  - exists wid, w'. split.
    + rewrite (po_money _ _ _ _ _ _ Hp). destruct (po_user _ _ _ _ _ _ Hp), (po_currency _ _ _ _ _ _ Hp).
      apply (find_wallet_unique _ _ (mk_Money _ _)); cbn; [|apply lookup_insert_eq|done|done].
      apply (one_wallet_update _ _ _ w); [apply Hb|exact Hrow|apply Hp|apply Hp].
    + intros i. by rewrite (posted_avail _ _ _ _ _ _ i Hp), Hav, Ha.
Qed.

(** A wallet rewritten with a new available balance, and its plain entry. *)
Lemma plain_written now user cur btype bid amount remark op db d d1 wid w z u db' :
  let w' := wallet_after w (fun _ => z) w_frozen now in
  writeLedger now user cur btype bid amount z remark op d1 = Ok (u, db') ->
  money d1 = money (put_wallet wid w' d) -> money_only (put_wallet wid w' d) d1 ->
  z = w_available w + amount -> plain_type btype -> wallet_ok w' = true ->
  find_row (is_wallet_of user cur) (wallets d.(money)) = Some (wid, w) ->
  books d.(money) -> quiet db d -> money_only db d -> ledger d.(money) = ledger db.(money) ->
  (forall i, avail d.(money) i = avail db.(money) i) ->
  rewarded user cur amount db db' /\ find_row (is_wallet_of user cur) (wallets db'.(money)) = Some (wid, w').
Proof.
  intros w' Hl Hm1 Ho1 Hz Hpt Hok Hw Hb Hq Hod Hld Hav.
  pose proof (find_wallet_row _ _ _ _ _ Hw) as (Hrow & Hu & Hc).
  eapply (write_posted _ _ _ _ _ _ _ _ _ wid w _ d) in Hl as (r & Hp & Hmo & Hr);
    [|exact Hm1|apply Hb|done|done|done|done|done|done|done|].
  2: { rewrite plain_deltas by done. cbn. f_equal; lia. }
  assert (Hrw : rewarded user cur amount db db').
  { eapply (plain_posted _ _ _ btype _ d); [exact Hp|done| | | |done..|].
    - by rewrite Hr, credit_business.
    - rewrite (po_frozen _ _ _ _ _ _ Hp). cbn. lia.
    - rewrite (po_available _ _ _ _ _ _ Hp). cbn. lia.
    - etrans; [apply money_only_put|by etrans]. }
  split; [done|]. apply find_wallet_unique; [apply Hrw| |done|done].
  rewrite (po_money _ _ _ _ _ _ Hp). apply lookup_insert_eq.
Qed.

Lemma reward_run now user cur btype bid amount remark db z d1 u db' :
  addBalance now user cur amount db = Ok (z, d1) ->
  writeLedger now user cur btype bid amount z remark "" d1 = Ok (u, db') ->
  plain_type btype -> books db.(money) -> rewarded user cur amount db db'.
Proof.
  intros Ha Hl Hpt Hb.
  destruct (addBalance_Ok _ _ _ _ _ _ _ Ha Hb) as (wid & w & d & Hw & Hbd & Hqd & Hod & Hld & Hav & Hz & Hok & ->).
  by eapply (plain_written _ _ _ _ _ _ _ _ db) in Hl as [Hrw _].
Qed.
(** Charging a cost. *)
Lemma deduct_run now user cur btype bid amount remark db z d1 d2 u db' :
  deductBalance now user cur amount db = Ok (z, d1) ->
  money d2 = money d1 -> money_only d1 d2 ->
  writeLedger now user cur btype bid (- amount)%i64 z remark "" d2 = Ok (u, db') ->
  plain_type btype -> 0 < amount -> books db.(money) ->
  rewarded user cur (- amount) db db' /\
  exists wid w, find_row (is_wallet_of user cur) (wallets db.(money)) = Some (wid, w) /\ amount <= w_available w.
Proof.
  intros Hd Hm Hmo Hl Hpt Ha Hb. unfold deductBalance, find_wallet in Hd. rewrite gets_skip in Hd.
  destruct (find_row _ _) as [[wid w]|] eqn:Hw; [|done].
  destruct (amount <=? w_available w) eqn:E; [|done]. apply Z.leb_le in E.
  pose proof (find_wallet_row _ _ _ _ _ Hw) as (Hrow & _ & _).
  destruct (bounded_lookup _ _ _ Hb Hrow) as [Hba _].
  apply tx_bind_Ok in Hd as ([] & d & Eu & Hd). apply tx_ret_Ok in Hd as [<- <-].
  apply update_wallet_Ok in Eu as [[Hno _]|(w' & Hw' & Hok & <-)]; [congruence|].
  assert (w' = w) as -> by congruence. split; [|by exists wid, w].
  rewrite exact_neg in Hl by lia.
  eapply (plain_written _ _ _ _ _ _ _ _ db db) in Hl as [Hrw _];
    [exact Hrw|exact Hm|exact Hmo|lia|exact Hpt|exact Hok|exact Hw|exact Hb|reflexivity|reflexivity|done|done].
Qed.

Lemma rewarded_owns user cur amount db db' :
  rewarded user cur amount db db' -> exists wid, owns db'.(money) wid user cur /\
    forall i, avail db'.(money) i = avail db.(money) i + (if bool_decide (wid = i) then amount else 0).
Proof.
  intros [_ _ _ _ (wid & w & Hw & Hav)]. exists wid. split; [|done]. exists w.
  by apply find_wallet_row in Hw.
Qed.
End steps.

(** ** Point withdrawals *)

Lemma points_insert db db' id p i :
  point_withdrawals db.(app) !! id = None ->
  point_withdrawals db'.(app) = <[id := p]> (point_withdrawals db.(app)) ->
  withdrawals db'.(app) = withdrawals db.(app) ->
  lulu_orders db'.(app) = lulu_orders db.(app) -> same_owners db db' ->
  outstanding db' i = outstanding db i + pw_hold i p.
Proof.
  intros Hid Hp Hw Hl Ho. unfold outstanding. rewrite (lulu_pending_same db db') by done.
  unfold pending. rewrite Hw, Hp, sum_map_insert by done. lia.
Qed.

Lemma points_update db db' id p p' i :
  point_withdrawals db.(app) !! id = Some p ->
  point_withdrawals db'.(app) = <[id := p']> (point_withdrawals db.(app)) ->
  withdrawals db'.(app) = withdrawals db.(app) ->
  lulu_orders db'.(app) = lulu_orders db.(app) -> same_owners db db' ->
  outstanding db' i = outstanding db i - pw_hold i p + pw_hold i p'.
Proof.
  intros Hid Hp Hw Hl Ho. unfold outstanding. rewrite (lulu_pending_same db db') by done.
  unfold pending. rewrite Hw, Hp, (sum_map_update _ _ _ p) by done. lia.
Qed.

(** What one committed transaction does to the point withdrawals. *)
Inductive point_event (db db' : DB) : Prop :=
| pe_known : quiet db db' -> money db' = money db -> point_event db db'
| pe_request id p w w' r :
    point_withdrawals db.(app) !! id = None ->
    point_withdrawals db'.(app) = <[id := p]> (point_withdrawals db.(app)) ->
    withdrawals db'.(app) = withdrawals db.(app) ->
    lulu_orders db'.(app) = lulu_orders db.(app) ->
    posted db db' (pw_wallet_id p) w w' r ->
    w_user_id w = pw_user_id p -> w_currency w = "POINTS"%string ->
    0 < pw_amount_minor p <= int64_max -> pw_status p = "requested"%string ->
    le_available_delta r = - pw_amount_minor p -> le_frozen_delta r = pw_amount_minor p ->
    point_event db db'
| pe_review id p status reviewer at_ w w' r :
    point_withdrawals db.(app) !! id = Some p -> pw_status p = "requested"%string ->
    status <> "requested"%string ->
    point_withdrawals db'.(app) =
      <[id := set_reviewed status reviewer at_ p]> (point_withdrawals db.(app)) ->
    withdrawals db'.(app) = withdrawals db.(app) ->
    lulu_orders db'.(app) = lulu_orders db.(app) ->
    posted db db' (pw_wallet_id p) w w' r -> le_frozen_delta r = - pw_amount_minor p ->
    point_event db db'.

Lemma point_event_custody db db' : custody db -> point_event db db' -> custody db'.
Proof.
  intros Hcu [Hq Hm|id p w w' r Hid Hpw Hwd Hlu Hpo Hu Hc Ham Hst _ Hf|
              id p status rv at_ w w' r Hid Hst Hne Hpw Hwd Hlu Hpo Hf].
  - apply (custody_quiet db); [done|rewrite Hm; apply Hcu|done].
  - eapply custody_move; [done|done|..].
    + intros i. rewrite (points_insert db db' id p) by (done || by eapply posted_same_owners). f_equal.
      unfold pw_hold. by rewrite Hst, Hf, andb_true_r.
    + rewrite Hwd. apply Hcu.
    + rewrite Hpw. intros j y [[-> ->]|Hy]%lookup_insert_or; [|by apply (cu_points _ Hcu j)].
      split; [done|]. exists w. split; [apply Hpo|done].
    + rewrite Hlu. apply Hcu.
  - destruct (cu_points _ Hcu id p Hid) as [Hr Ho]. eapply custody_move; [done|done|..].
    + intros i. rewrite (points_update db db' id p (set_reviewed status rv at_ p))
        by (done || by eapply posted_same_owners).
      unfold pw_hold. cbn. rewrite Hst, Hf, (bool_decide_false (status = _)) by done.
      rewrite andb_true_r, andb_false_r. case_bool_decide; lia.
    + rewrite Hwd. apply Hcu.
    + rewrite Hpw. intros j y [[-> ->]|Hy]%lookup_insert_or; [|by apply (cu_points _ Hcu j)]. done.
    + rewrite Hlu. apply Hcu.
Qed.

Section points.
Context `{Uuids}.

Lemma RequestPointWithdrawal_event t user request amount remark db p db' :
  amount <= int64_max ->
  RequestPointWithdrawal t user request amount remark db = Ok (p, db') -> custody db ->
  point_event db db'.
Proof.
  intros Hmax Hrun Hcu. unfold RequestPointWithdrawal, find_wallet, select_where in Hrun.
  cbv zeta in Hrun.
  tx_steps; try (by apply pe_known); wallet_rows. bool_to_prop. money_simpl.
  assert (w0 = w) as -> by congruence.
  destruct (bounded_lookup _ _ _ (cu_books _ Hcu) Hw) as [Hav Hfr].
  pose proof (proj1 (wallet_ok_iff _) H9) as [_ [Hf _]]. cbn in Hf.
  pose proof (checked_add (w_frozen w) amount Hfr ltac:(lia) Hf) as Hsum.
  pose proof (exact_sub (w_available w) amount ltac:(lia) ltac:(lia)) as Hsub.
  match goal with E : writeLedger _ _ _ _ _ _ _ _ _ _ = Ok _ |- _ =>
    eapply (write_posted _ _ _ _ _ _ _ _ _ _ w _ db) in E as (r & Hpo & Hmo & Hr);
      [|reflexivity|apply Hcu|done|done|done|done|done|done|done|] end.
  - destruct Hmo as (n & o & Ha). eapply pe_request;
      [exact H6|rewrite Ha; reflexivity|by rewrite Ha|by rewrite Ha|exact Hpo|done|done|cbn; lia|done|..].
    + rewrite (po_available _ _ _ _ _ _ Hpo). cbn. lia.
    + rewrite (po_frozen _ _ _ _ _ _ Hpo). cbn. lia.
  - cbn. unfold credit_deltas. rewrite bool_decide_true by done. rewrite Hsum, Hsub, neg_neg, exact_neg by lia.
    f_equal; lia.
Qed.

(** A reviewed request: what the run did. *)
Lemma ReviewPointWithdrawal_run t id reviewer approved db u db' :
  ReviewPointWithdrawal t id reviewer approved db = Ok (u, db') -> custody db ->
  exists p w r, let wid := pw_wallet_id p in let amount := pw_amount_minor p in
    point_withdrawals db.(app) !! id = Some p /\ pw_status p = "requested"%string /\
    wallets db.(money) !! wid = Some w /\ amount <= w_frozen w /\
    point_withdrawals db'.(app) = <[id := set_reviewed (if approved then "approved" else "rejected")
      reviewer (sql_now t) p]> (point_withdrawals db.(app)) /\
    withdrawals db'.(app) = withdrawals db.(app) /\
    lulu_orders db'.(app) = lulu_orders db.(app) /\
    posted db db' wid w (wallet_after w (fun _ => w_available w + if approved then 0 else amount)
      (fun _ => w_frozen w - amount) (sql_now t)) r /\
    le_available_delta r = (if approved then 0 else amount) /\ le_frozen_delta r = - amount.
Proof.
  intros Hrun Hcu. unfold ReviewPointWithdrawal, select_id, wallet_by_id in Hrun. cbv zeta in Hrun.
  tx_steps; bool_to_prop; wallet_rows; money_simpl.
  all: repeat match goal with E : tbl (app (put_wallet _ _ ?d)) !! ?i = ?x |- _ =>
    change (tbl (app d) !! i = x) in E end.
  { exfalso. congruence. }
  assert (r = a0) as -> by congruence.
  assert (w = a2) as -> by congruence.
  destruct (cu_points _ Hcu id a0) as [Ham (w' & Hw' & Hu & Hc)]; [done|].
  assert (w' = a2) as -> by congruence.
  destruct (bounded_lookup _ _ _ (cu_books _ Hcu) H3) as [Hav Hfr].
  match goal with E : wallet_ok _ = true |- _ => pose proof (proj1 (wallet_ok_iff _) E) as [[Ha _] _] end.
  assert (Hnew : (if approved then w_available a2 else (w_available a2 + pw_amount_minor a0)%i64) =
    w_available a2 + if approved then 0 else pw_amount_minor a0).
  { cbn in Ha. destruct approved; [lia|]. apply checked_add; [done|lia|done]. }
  rewrite !Hnew, !(exact_sub (w_frozen a2)) in * by lia.
  match goal with E : writeLedger _ _ _ _ _ _ _ _ _ _ = Ok _ |- _ =>
    eapply (write_posted _ _ _ _ _ _ _ _ _ _ a2 _ db4) in E as (r & Hpo & (n & o & Happ) & Hr);
      [|reflexivity|apply Hcu|done|done|done|done|done|done|done|] end.
  - exists a0, a2, r. do 4 (split; [done|]). split; [by rewrite Happ|].
    split; [by rewrite Happ|]. split; [by rewrite Happ|]. split; [exact Hpo|].
    rewrite (po_available _ _ _ _ _ _ Hpo), (po_frozen _ _ _ _ _ _ Hpo). cbn. lia.
  - cbn. destruct approved; unfold credit_deltas; cbn; rewrite ?exact_neg by lia; f_equal; lia.
Qed.

Lemma ReviewPointWithdrawal_event t id reviewer approved db u db' :
  ReviewPointWithdrawal t id reviewer approved db = Ok (u, db') -> custody db ->
  point_event db db'.
Proof.
  intros Hrun Hcu.
  destruct (ReviewPointWithdrawal_run _ _ _ _ _ _ _ Hrun Hcu)
    as (p & w & r & Hp & Hst & Hw & Hle & Hpw & Hwd & Hlu & Hpo & Ha & Hf).
  eapply pe_review; [exact Hp|exact Hst| |exact Hpw|exact Hwd|exact Hlu|exact Hpo|exact Hf].
  by destruct approved.
Qed.
End points.

(** ** Adjustments *)

Definition adjustment_fits (r : AdjustmentResult) : Prop :=
  in_int64 (ar_AmountMinor r) /\ in_int64 (ar_DeltaMinor r) /\ in_int64 (ar_BalanceBeforeMinor r) /\
  in_int64 (ar_BalanceAfterMinor r) /\ in_int64 (ar_FrozenMinor r).

(** The recorded result reads back as it was, through JSONB. *)
Lemma adjustment_roundtrip r : adjustment_fits r -> dec_adjustment (jsonb (adjustment_json r)) = Some r.
Proof.
  destruct r as [o u c a m d b e f dup at_]. unfold adjustment_fits. cbn [ar_AmountMinor ar_DeltaMinor
    ar_BalanceBeforeMinor ar_BalanceAfterMinor ar_FrozenMinor]. intros (H1 & H2 & H3 & H4 & H5).
  eassert (jsonb (adjustment_json (mk_AdjustmentResult o u c a m d b e f dup at_)) = _) as E
    by (vm_compute; reflexivity).
  rewrite E. clear E. unfold dec_adjustment, dec_struct. cbn [foldl fst snd mbind option_bind].
  unfold zero_adjustment. repeat dec_field set_adjustment. done.
Qed.

Section adjustments.
Context `{Uuids}.

(** A change that was made: the money, the row that remembers it, and what
    the checks of a repetition read. *)
Record adjusted (t : clock) (i : AdjustmentInput) (cur : string) (delta : Z) (out : AdjustmentResult)
    (db db' : DB) : Prop := {
  aj_money : books db'.(money) /\ quiet db db' /\ bet_entries db'.(money) = bet_entries db.(money);
  aj_wallet : exists wid w, find_row (is_wallet_of (ai_UserID i) cur) (wallets db'.(money)) = Some (wid, w) /\
    ar_BalanceAfterMinor out = w_available w /\ ar_FrozenMinor out = w_frozen w /\
    (forall j, avail db'.(money) j = avail db.(money) j + (if bool_decide (wid = j) then delta else 0));
  aj_result : ar_Duplicate out = false /\ ar_DeltaMinor out = delta /\
    ar_BalanceAfterMinor out = ar_BalanceBeforeMinor out + delta /\ adjustment_fits out;
  aj_row : exists a, adjustments db'.(app) = <[ar_OperationID out := a]> (adjustments db.(app)) /\
    find_row (fun _ => adjustment_key (ai_OperatorID i) (ai_RequestID i) "") (adjustments db.(app)) = None /\
    adjustment_key (ai_OperatorID i) (ai_RequestID i) "" a = true /\
    same_adjustment i cur (ar_AmountMinor out) a = true /\ ad_result a = jsonb (adjustment_json out);
  aj_kept : users db'.(app) = users db.(app) /\ user_roles db'.(app) = user_roles db.(app) /\
    currencies db'.(app) = currencies db.(app)
}.

(** The arithmetic of the checks: no operation wraps. *)
Lemma adjustment_exact before frozen direction amount :
  0 <= before <= int64_max -> 0 <= frozen <= int64_max -> 0 < amount <= int64_max ->
  direction = 1 \/ direction = -1 ->
  (direction <? 0) && (before <? amount) = false ->
  (0 <? direction) && (((int64_max - frozen)%i64 <? before) ||
     (((int64_max - frozen)%i64 - before)%i64 <? amount)) = false ->
  (direction * amount)%i64 = direction * amount /\
  (before + direction * amount)%i64 = before + direction * amount.
Proof.
  intros Hb Hf Ha Hd Hlow Hhigh. rewrite (exact_sub int64_max frozen) in Hhigh by lia.
  destruct Hd as [-> | ->]; cbn [Z.ltb Z.compare andb] in Hlow, Hhigh; bool_to_prop.
  - rewrite (exact_sub (int64_max - frozen) before) in * by lia.
    split; apply wrap64_small; unfold in_int64, int64_min, int64_max in *; lia.
  - split; apply wrap64_small; unfold in_int64, int64_min, int64_max in *; lia.
Qed.

(** The tables an adjustment only reads. *)
Definition kept_tables (db db' : DB) : Prop :=
  users db'.(app) = users db.(app) /\ user_roles db'.(app) = user_roles db.(app) /\
  currencies db'.(app) = currencies db.(app) /\ adjustments db'.(app) = adjustments db.(app).

Lemma money_only_tables db db' : money_only db db' -> kept_tables db db'.
Proof. intros (n & o & E). unfold kept_tables. by rewrite E. Qed.

Lemma apply_adjustment_run t i cur direction amount db out db' :
  apply_adjustment t i cur direction amount db = Ok (out, db') ->
  direction = 1 \/ direction = -1 -> 0 < amount <= int64_max ->
  plain_type (String.append "admin_" (ai_Action i)) -> books db.(money) ->
  adjusted t i cur (direction * amount) out db db' /\ ar_AmountMinor out = amount.
Proof.
  intros Hrun Hdir Ham Hpt Hb. unfold apply_adjustment, find_wallet in Hrun. cbv zeta in Hrun.
  rewrite gets_skip in Hrun. apply tx_bind_Ok in Hrun as (user & d & E & Hrun). apply found_Ok in E as [Hu <-].
  apply tx_bind_Ok in Hrun as ([] & d & E & Hrun). apply reject_if_Ok in E as [Hvirt <-].
  apply tx_bind_Ok in Hrun as (id & d0 & E & Hrun). apply new_uuid_Ok in E as [<- <-].
  apply tx_bind_Ok in Hrun as (made & d & Ei & Hrun). rewrite gets_skip in Hrun.
  destruct (insert_wallet_still _ _ _ _ _ _ _ Ei Hb) as (D1 & D2 & D3 & D4 & D5).
  apply tx_bind_Ok in Hrun as ([wid w] & d' & E & Hrun). apply found_Ok in E as [Hw <-].
  pose proof (find_wallet_row _ _ _ _ _ Hw) as (Hrow & Hwu & Hwc).
  destruct (bounded_lookup _ _ _ D1 Hrow) as [Hba Hbf]. cbn [fst snd] in Hrun.
  apply tx_bind_Ok in Hrun as ([] & d' & E & Hrun). apply reject_if_Ok in E as [Hlow <-].
  apply tx_bind_Ok in Hrun as ([] & d' & E & Hrun). apply reject_if_Ok in E as [Hhigh <-].
  destruct (adjustment_exact (w_available w) (w_frozen w) direction amount) as [Hdel Haft]; try done.
  rewrite Hdel, Haft in Hrun.
  apply tx_bind_Ok in Hrun as ([] & d1 & E & Hrun).
  apply update_wallet_Ok in E as [[Hno _]|(w' & Hw' & Hok & <-)]; [congruence|].
  assert (w' = w) as -> by congruence.
  apply tx_bind_Ok in Hrun as (op & d1 & E & Hrun). apply new_uuid_Ok in E as [<- <-].
  match type of Hrun with context [writeLedger _ _ _ _ ?x] => set (opid := x) in * end.
  match type of Hrun with context [adjustment_json ?x] => set (o := x) in * end.
  apply tx_bind_Ok in Hrun as ([] & d1 & El & Hrun).
  eapply (plain_written _ _ _ _ _ _ _ _ db) in El as [Hrw E2];
    [|done|apply money_only_tick|done|exact Hpt|exact Hok|exact Hw|exact D1|by (etrans; [apply quiet_tick|exact D2])|
     by (etrans; [apply money_only_tick|exact D3])|exact D4|exact D5].
  pose proof (money_only_tables _ _ (rw_only _ _ _ _ _ Hrw)) as Hkt.
  apply tx_bind_Ok in Hrun as ([] & d2 & E & Hrun). apply insert_row_Ok in E as (Hfree & Hnone & <-).
  change (tbl (app d1)) with (adjustments (app d1)) in Hfree, Hnone.
  destruct Hkt as (K1 & K2 & K3 & K4). rewrite K4 in Hnone, Hfree.
  match type of Hrun with context [put_row opid ?x d1] => set (row := x) in * end.
  apply tx_bind_Ok in Hrun as (aid & d2 & E & Hrun). apply new_uuid_Ok in E as [<- <-].
  apply tx_bind_Ok in Hrun as ([] & d2 & E & Hrun). apply insert_audit_Ok in E as <-.
  apply tx_ret_Ok in Hrun as [<- <-]. split; [|done].
  match goal with |- adjusted _ _ _ _ _ _ ?x => set (dd := x) end.
  assert (Hmm : money dd = money d1) by done.
  assert (Hqq : quiet d1 dd) by (by apply quiet_app).
  destruct Hrw as [R1 R2 R3 R4 (wid2 & w2 & R5 & R6)].
  apply wallet_ok_iff in Hok as [Ha2 Hf2]. cbn in Ha2, Hf2.
  split.
  - rewrite Hmm. split; [exact R1|split; [by etrans|exact R4]].
  - exists wid2, w2. rewrite Hmm. split; [exact R5|].
    rewrite E2 in R5. injection R5 as <- <-. split; [done|split; [done|exact R6]].
  - split; [done|split; [done|split; [done|]]]. unfold adjustment_fits, o, in_int64. cbn.
    unfold int64_max, int64_min in *. lia.
  - exists row. split; [by rewrite <- K4|split; [exact Hnone|split; [|split; [|done]]]].
    + unfold adjustment_key. cbn. by rewrite !bool_decide_true.
    + unfold same_adjustment. cbn. by rewrite !bool_decide_true, Z.eqb_refl.
  - split; [done|split; done].
Qed.
End adjustments.

(** The checks before the request is looked up, and what they read. *)
Record admitted (i : AdjustmentInput) (direction amount : Z) (c : currency_row) (db : DB) : Prop := {
  am_direction : adjustmentDirection (ai_Action i) = Some direction;
  am_valid : valid_adjustment i = true;
  am_operator : ai_OperatorID i <> ""%string;
  am_currency : validCurrency (ToUpper (TrimSpace (ai_Currency i))) = true;
  am_amount : ValidDisplayAmount (ai_Amount i) = true;
  am_admin : is_operator (ai_OperatorID i) db = true;
  am_known : currencies db.(app) !! ToUpper (TrimSpace (ToUpper (TrimSpace (ai_Currency i)))) = Some c;
  am_minor : ParseDisplayAmount (ai_Amount i) (cur_decimals c) = Ok amount
}.

Definition adjusted_currency (i : AdjustmentInput) : string := ToUpper (TrimSpace (ai_Currency i)).

Section adjust.
Context `{Uuids}.

Lemma AdjustWallet_admitted t i direction amount c db :
  admitted i direction amount c db ->
  AdjustWallet t i db = answer_adjustment t i (adjusted_currency i) direction amount c db.
Proof.
  intros [A1 A2 A3 A4 A5 A6 A7 A8]. unfold AdjustWallet. rewrite A1. cbv zeta.
  rewrite reject_skip by (by rewrite A2). rewrite reject_skip by (by apply bool_decide_eq_false).
  rewrite reject_skip by (by rewrite A4). rewrite reject_skip by (by rewrite A5).
  rewrite gets_skip, reject_skip by (by rewrite A6). rewrite gets_skip, (found_skip _ _ c) by done.
  by rewrite A8.
Qed.

Lemma AdjustWallet_iff t i db out db' :
  AdjustWallet t i db = Ok (out, db') <->
  exists direction amount c, admitted i direction amount c db /\
    answer_adjustment t i (adjusted_currency i) direction amount c db = Ok (out, db').
Proof.
  split; [|intros (dir & a & c & Had & Hrun); by rewrite (AdjustWallet_admitted _ _ _ _ _ _ Had)].
  unfold AdjustWallet. destruct (adjustmentDirection _) as [dir|] eqn:Hd; [|done]. cbv zeta. intros Hrun.
  repeat match type of Hrun with (reject_if ?b ?e ≫= _) _ = _ =>
    apply tx_bind_Ok in Hrun as ([] & d & E & Hrun); apply reject_if_Ok in E as [? <-] end.
  rewrite gets_skip in Hrun.
  apply tx_bind_Ok in Hrun as ([] & d & E & Hrun). apply reject_if_Ok in E as [Had%negb_false_iff <-].
  rewrite gets_skip in Hrun. apply tx_bind_Ok in Hrun as (c & d & E & Hrun). apply found_Ok in E as [Hc <-].
  apply tx_bind_Ok in Hrun as (amount & d & E & Hrun).
  destruct (ParseDisplayAmount _ _) as [a|] eqn:Ha; [|done]. apply tx_ret_Ok in E as [<- <-].
  exists dir, a, c. split; [|done]. split; try done; bool_to_prop; done.
Qed.

Lemma admitted_kept i direction amount c db db' :
  users db'.(app) = users db.(app) -> user_roles db'.(app) = user_roles db.(app) ->
  currencies db'.(app) = currencies db.(app) ->
  admitted i direction amount c db -> admitted i direction amount c db'.
Proof.
  intros Hu Hr Hc []. split; try done.
  - unfold is_operator, has_role in *. by rewrite Hu, Hr.
  - by rewrite Hc.
Qed.

Lemma admitted_fun i direction amount c direction' amount' c' db :
  admitted i direction amount c db -> admitted i direction' amount' c' db ->
  direction = direction' /\ amount = amount' /\ c = c'.
Proof. intros [] []. assert (c = c') as -> by congruence. split; [|split]; congruence. Qed.

Lemma action_plain action direction :
  adjustmentDirection action = Some direction ->
  (direction = 1 \/ direction = -1) /\ plain_type (String.append "admin_" action).
Proof.
  unfold adjustmentDirection. intros Hd.
  destruct (bool_decide (action = "credit")) eqn:E1; [|destruct (bool_decide (action = "reward")) eqn:E2;
    [|destruct (bool_decide (action = "debit")) eqn:E3; [|destruct (bool_decide (action = "penalty")) eqn:E4]]];
    try done; bool_to_prop; subst action; injection Hd as <-; (split; [lia|]);
    split; apply (bool_decide_unpack _); vm_compute; done.
Qed.

(** A request that was recorded answers what was recorded, or conflicts. *)
Lemma answer_known t i cur direction amount c db id a o :
  find_row (adjustment_key (ai_OperatorID i) (ai_RequestID i)) (adjustments db.(app)) = Some (id, a) ->
  dec_adjustment (ad_result a) = Some o ->
  answer_adjustment t i cur direction amount c db =
    if same_adjustment i cur amount a then Ok (repeated o, db) else Err ErrAdjustmentConflict.
Proof.
  intros Hf Ho. unfold answer_adjustment, select_where. rewrite gets_skip.
  change (tbl (app db)) with (adjustments (app db)). rewrite Hf.
  destruct (same_adjustment i cur amount a); [|done]. rewrite reject_skip by done.
  by rewrite (lift_skip _ o) by (by rewrite Ho).
Qed.

(** The outcomes of a committed call. *)
Lemma AdjustWallet_run t i db out db' :
  AdjustWallet t i db = Ok (out, db') -> custody db ->
  exists direction amount c, admitted i direction amount c db /\
    (ar_Duplicate out = true /\ db' = db \/
     adjusted t i (adjusted_currency i) (direction * amount) out db db' /\ ar_AmountMinor out = amount).
Proof.
  intros Hrun Hcu. apply AdjustWallet_iff in Hrun as (dir & amount & c & Had & Hrun).
  exists dir, amount, c. split; [done|]. destruct (action_plain _ _ (am_direction _ _ _ _ _ Had)) as [Hdir Hpt].
  destruct (proj1 (ParseDisplayAmount_trimmed _ _ _) (am_minor _ _ _ _ _ Had)) as (_ & i0 & f & _ & _ & _ & Hpos).
  unfold answer_adjustment, select_where in Hrun. rewrite gets_skip in Hrun.
  destruct (find_row _ _) as [[id a]|].
  - left. tx_steps. done.
  - rewrite gets_skip in Hrun. destruct (legacy_credits _ _ _) as [|l rest].
    + apply tx_bind_Ok in Hrun as ([] & d & E & Hrun). apply reject_if_Ok in E as [_ <-].
      right. eapply apply_adjustment_run; [exact Hrun|done|done|done|apply Hcu].
    + left. tx_steps. done.
Qed.

Lemma AdjustWallet_custody t i db out db' :
  AdjustWallet t i db = Ok (out, db') -> custody db -> custody db'.
Proof.
  intros Hrun Hcu.
  destruct (AdjustWallet_run _ _ _ _ _ Hrun Hcu) as (dir & amount & c & _ & [[_ ->]|[[(Hb & Hq & _) _ _ _ _] _]]);
    [done|by eapply custody_quiet].
Qed.

(** A later call with the same operator and request. *)
Lemma adjusted_again t t' i i2 direction amount c out db db' :
  admitted i direction amount c db ->
  adjusted t i (adjusted_currency i) (direction * amount) out db db' -> ar_AmountMinor out = amount ->
  ai_OperatorID i2 = ai_OperatorID i -> ai_RequestID i2 = ai_RequestID i ->
  forall direction2 amount2 c2, admitted i2 direction2 amount2 c2 db' ->
  exists a, ad_user_id a = ai_UserID i /\ same_adjustment i (adjusted_currency i) amount a = true /\
  answer_adjustment t' i2 (adjusted_currency i2) direction2 amount2 c2 db' =
    if same_adjustment i2 (adjusted_currency i2) amount2 a then Ok (repeated out, db') else Err ErrAdjustmentConflict.
Proof.
  intros Had [_ _ (_ & _ & _ & Hfit) (a & A1 & A2 & A3 & A4 & A5) _] Ham Hop Hreq dir2 amount2 c2 Had2.
  rewrite Ham in A4. exists a. split.
  { unfold same_adjustment in A4. bool_to_prop. done. }
  split; [done|].
  apply (answer_known _ _ _ _ _ _ _ (ar_OperationID out)).
  - rewrite A1, Hop, Hreq. apply find_row_added; [exact A2|exact A3].
  - rewrite A5. by apply adjustment_roundtrip.
Qed.
End adjust.

(** ** What the component promises *)

Section promises.
Context `{Uuids}.

(** C34: A committed review of a point withdrawal found it still requested and
    leaves it approved or rejected for good.  Exactly the requested amount
    leaves the frozen balance of its wallet: an approval pays it out, a
    rejection returns it to the available balance; no other balance and no
    other request changes, the custody invariant holds, and a second review,
    whatever it decides, is refused with the state error. *)
Theorem ReviewPointWithdrawal_once t id reviewer approved db u db' :
  ReviewPointWithdrawal t id reviewer approved db = Ok (u, db') -> custody db ->
  exists p, let amount := pw_amount_minor p in
    point_withdrawals db.(app) !! id = Some p /\ pw_status p = "requested"%string /\
    point_withdrawals db'.(app) = <[id := set_reviewed (if approved then "approved" else "rejected")
      reviewer (sql_now t) p]> (point_withdrawals db.(app)) /\
    (forall wid, frozen db'.(money) wid =
       frozen db.(money) wid - (if bool_decide (pw_wallet_id p = wid) then amount else 0)) /\
    (forall wid, avail db'.(money) wid = avail db.(money) wid +
       (if bool_decide (pw_wallet_id p = wid) then if approved then 0 else amount else 0)) /\
    custody db' /\
    (forall t' reviewer' approved',
       ReviewPointWithdrawal t' id reviewer' approved' db' = Err ErrPointWithdrawalState).
Proof.
  intros Hrun Hcu.
  pose proof (point_event_custody _ _ Hcu (ReviewPointWithdrawal_event _ _ _ _ _ _ _ Hrun Hcu)) as Hcu'.
  destruct (ReviewPointWithdrawal_run _ _ _ _ _ _ _ Hrun Hcu)
    as (p & w & r & Hp & Hst & Hw & Hle & Hpw & Hwd & Hlu & Hpo & Ha & Hf).
  exists p. split; [done|split; [done|split; [done|split; [|split; [|split; [done|]]]]]].
  - intros wid. rewrite (posted_frozen _ _ _ _ _ _ wid Hpo), Hf. case_bool_decide; lia.
  - intros wid. by rewrite (posted_avail _ _ _ _ _ _ wid Hpo), Ha.
  - intros t' rv' ap'. unfold ReviewPointWithdrawal, select_id, wallet_by_id. rewrite gets_skip.
    change (tbl (app db')) with (point_withdrawals (app db')). rewrite Hpw, lookup_insert_eq.
    erewrite found_skip by reflexivity. rewrite gets_skip. cbn [pw_wallet_id set_reviewed].
    rewrite (po_money _ _ _ _ _ _ Hpo). cbn [wallets]. rewrite lookup_insert_eq.
    erewrite found_skip by reflexivity. apply reject_stop. apply orb_true_iff. left.
    cbn. by destruct approved.
Qed.

(** A committed adjustment of a balance was ordered by an active
    administrator or operator.  Either it repeats a request that was already
    answered and changes nothing, or the available balance of that user and
    currency, and no other balance, frozen or not, changes by exactly plus or
    minus the requested amount, the result states the balance before and
    after, and custody holds.  After that the same operator and request can
    change nothing more: the same call answers the recorded result, marked as
    a duplicate, and a call with another user, currency, action, amount or
    remark is refused as a conflict. *)
Theorem AdjustWallet_once t t' i db out db' :
  AdjustWallet t i db = Ok (out, db') -> custody db ->
  is_operator (ai_OperatorID i) db = true /\ custody db' /\
  (forall wid, frozen db'.(money) wid = frozen db.(money) wid) /\
  (ar_Duplicate out = true /\ db' = db \/
   ar_Duplicate out = false /\
   (exists direction, adjustmentDirection (ai_Action i) = Some direction /\
      ar_DeltaMinor out = direction * ar_AmountMinor out) /\
   (exists wid w, find_row (is_wallet_of (ai_UserID i) (adjusted_currency i)) (wallets db'.(money)) = Some (wid, w) /\
      w_available w = ar_BalanceAfterMinor out /\
      ar_BalanceAfterMinor out = ar_BalanceBeforeMinor out + ar_DeltaMinor out /\
      forall j, avail db'.(money) j = avail db.(money) j + (if bool_decide (wid = j) then ar_DeltaMinor out else 0)) /\
   AdjustWallet t' i db' = Ok (repeated out, db') /\
   (forall i2 direction2 amount2 c2, admitted i2 direction2 amount2 c2 db' ->
      ai_OperatorID i2 = ai_OperatorID i -> ai_RequestID i2 = ai_RequestID i ->
      (ai_UserID i2, adjusted_currency i2, ai_Action i2, amount2, ai_Remark i2) <>
        (ai_UserID i, adjusted_currency i, ai_Action i, ar_AmountMinor out, ai_Remark i) ->
      AdjustWallet t' i2 db' = Err ErrAdjustmentConflict)).
Proof.
  intros Hrun Hcu. destruct (AdjustWallet_run _ _ _ _ _ Hrun Hcu) as (dir & amount & c & Had & Hout).
  split; [apply Had|]. destruct Hout as [[Hdup ->]|[Haj Ham]]; [split; [done|split; [done|by left]]|].
  pose proof Haj as [(Hb & Hq & _) (wid & w & Hw & Hwa & _ & Hav) (Hnd & Hdel & Haft & _) _ (Hu & Hr & Hc)].
  split; [by eapply custody_quiet|split; [apply Hq|right]].
  split; [done|split; [exists dir; by rewrite (am_direction _ _ _ _ _ Had), Ham|split; [|split]]].
  - exists wid, w. rewrite Hdel. do 2 (split; [done|]). split; [done|exact Hav].
  - apply (admitted_kept _ _ _ _ _ _ Hu Hr Hc) in Had as Had'.
    destruct (adjusted_again t t' i i dir amount c out db db' Had Haj Ham eq_refl eq_refl _ _ _ Had') as (a & _ & Hs & Hans).
    apply AdjustWallet_iff. exists dir, amount, c. split; [done|]. by rewrite Hans, Hs.
  - intros i2 dir2 amount2 c2 Had2 Hop Hreq Hne.
    destruct (adjusted_again t t' i i2 dir amount c out db db' Had Haj Ham Hop Hreq _ _ _ Had2) as (a & _ & Hs & Hans).
    destruct (same_adjustment i2 (adjusted_currency i2) amount2 a) eqn:Hs2.
    + exfalso. apply Hne. unfold same_adjustment in Hs, Hs2. bool_to_prop. rewrite Ham. congruence.
    + by rewrite (AdjustWallet_admitted _ _ _ _ _ _ Had2).
Qed.
End promises.

(** ** Witnesses *)

Definition example_bonus : AdjustmentInput := mk_AdjustmentInput "alice" " points" "reward" "12.5" "welcome" "adj-1" "staff".

(** Alice has 12.5 points, and 2 of them are asked for. *)
Definition bonus_db : DB := run_or (AdjustWallet noon example_bonus) example_db.

Definition asked_db : DB := run_or (RequestPointWithdrawal noon "alice" "pw-1" 2000 "") bonus_db.

Lemma run_or_custody {A} (m : Tx A) db :
  (forall a db', m db = Ok (a, db') -> custody db -> custody db') -> custody db -> custody (run_or m db).
Proof. unfold run_or. intros Hm Hcu. destruct (m db) as [[a db']|]; [by eapply Hm|done]. Qed.

Lemma bonus_custody : custody bonus_db.
Proof.
  apply run_or_custody; [|exact example_custody]. intros out db' Hrun Hcu.
  by apply (AdjustWallet_custody _ _ _ _ _ Hrun).
Qed.

Lemma asked_custody : custody asked_db.
Proof.
  apply run_or_custody; [|exact bonus_custody]. intros p db' Hrun Hcu. eapply point_event_custody; [exact Hcu|].
  eapply RequestPointWithdrawal_event; [|exact Hrun|exact Hcu]. unfold int64_max. lia.
Qed.

Lemma ReviewPointWithdrawal_once_witness : exists db',
  ReviewPointWithdrawal noon "5" "staff" true asked_db = Ok ((), db') /\ custody db' /\
  ReviewPointWithdrawal noon "5" "staff" false db' = Err ErrPointWithdrawalState.
Proof.
  destruct (succeeds_Ok (fun _ => true) (ReviewPointWithdrawal noon "5" "staff" true asked_db)) as ([[] db'] & Hrun & _).
  { vm_compute. reflexivity. }
  exists db'. split; [exact Hrun|].
  destruct (ReviewPointWithdrawal_once noon "5" "staff" true asked_db () db' Hrun asked_custody)
    as (p & _ & _ & _ & _ & _ & Hcu & Hagain).
  split; [exact Hcu|]. apply Hagain.
Defined.

Lemma AdjustWallet_once_witness : exists out db',
  AdjustWallet noon example_bonus example_db = Ok (out, db') /\
  ar_AmountMinor out = 12500 /\ ar_Duplicate out = false /\ custody db' /\
  AdjustWallet noon example_bonus db' = Ok (repeated out, db').
Proof.
  destruct (succeeds_Ok (fun x => (ar_AmountMinor x.1 =? 12500) && negb (ar_Duplicate x.1))
    (AdjustWallet noon example_bonus example_db)) as ([out db'] & Hrun & Hobs).
  { vm_compute. reflexivity. }
  exists out, db'. split; [exact Hrun|].
  apply andb_prop in Hobs as [Ham%Z.eqb_eq Hdup%negb_true_iff]. cbn [fst] in Ham, Hdup.
  split; [exact Ham|split; [exact Hdup|]].
  destruct (AdjustWallet_once noon noon example_bonus example_db out db' Hrun example_custody)
    as (_ & Hcu & _ & [[Hd _]|(_ & _ & _ & Hagain & _)]); [rewrite Hdup in Hd; discriminate Hd|].
  split; [exact Hcu|exact Hagain].
Defined.
