(* ===== verification/SpinProofs.v ===== *)
(** * The lucky wheel: what holds

    Every prize is drawn with its weight, and a spin is paid for and rewarded
    exactly once per request. *)

From S2P Require Import Prelude GoStrings Money Json Schema Store Books Custody Wallet.
From S2P Require Import Chain Examples BetBooks ChainProofs Operations OperationsProofs Credit CreditProofs Spin.

(** ** Drawing *)

Definition weight_of (p : SpinPrize) : Z := if pz_Disabled p then 0 else pz_Weight p.

(** Where the cursors of the prize at position [i] begin. *)
Definition weight_before (ps : list SpinPrize) (i : nat) : Z := sum_Z (map weight_of (take i ps)).

Definition weights (ps : list SpinPrize) : Z := sum_Z (map weight_of ps).

(** The weights are [int64] values. *)
Definition weights_fit (ps : list SpinPrize) : Prop := Forall (fun p => in_int64 (pz_Weight p)) ps.

Definition good_prize (p : SpinPrize) : Prop := drawable p = true /\ 0 <= pz_Weight p.

Lemma weights_cons p ps : weights (p :: ps) = weight_of p + weights ps.
Proof. done. Qed.

Lemma total_weight_spec ps total n :
  0 <= total <= int64_max -> weights_fit ps -> total_weight ps total = Some n ->
  n = total + weights ps /\ n <= int64_max /\
  Forall (fun p => pz_Disabled p = false -> good_prize p) ps.
Proof.
  revert total. induction ps as [|p ps IH]; intros total Ht Hfit; cbn [total_weight].
  { intros [= <-]. cbn. split; [lia|split; [lia|constructor]]. }
  apply Forall_cons in Hfit as [Hp Hfit]. rewrite weights_cons. unfold weight_of.
  destruct (pz_Disabled p) eqn:Hd.
  - intros Hn. destruct (IH _ Ht Hfit Hn) as (-> & Hle & Hall).
    split; [lia|split; [exact Hle|constructor; [congruence|done]]].
  - destruct (negb (drawable p) || _) eqn:E; [done|]. apply orb_false_iff in E as [Hdr%negb_false_iff Hov].
    assert (Hw : 0 <= pz_Weight p) by (unfold drawable in Hdr; bool_to_prop; lia).
    bool_to_prop. unfold in_int64 in Hp. rewrite (exact_sub int64_max) in Hov by lia.
    rewrite wrap64_small by (unfold in_int64, int64_min, int64_max in *; lia). intros Hn.
    destruct (IH (total + pz_Weight p)) as (-> & Hle & Hall); [lia|done|done|].
    split; [lia|split; [exact Hle|by constructor]].
Qed.

Lemma weights_nonneg ps : Forall (fun p => pz_Disabled p = false -> good_prize p) ps -> 0 <= weights ps.
Proof.
  induction 1 as [|p ps Hp _ IH]; [done|]. rewrite weights_cons. unfold weight_of.
  destruct (pz_Disabled p); [lia|]. destruct (Hp eq_refl). lia.
Qed.

(** Each cursor picks the prize in whose interval it falls. *)
Lemma pick_prize_spec ps cursor :
  Forall (fun p => pz_Disabled p = false -> good_prize p) ps -> weights ps <= int64_max ->
  0 <= cursor < weights ps ->
  exists i p, ps !! i = Some p /\ pz_Disabled p = false /\ pick_prize ps cursor = Some p /\
    weight_before ps i <= cursor < weight_before ps i + pz_Weight p.
Proof.
  intros Hall. revert cursor. induction Hall as [|p ps Hp Hall IH]; intros cursor Hmax Hc.
  { cbn in Hc. lia. }
  rewrite weights_cons in *. cbn [pick_prize]. unfold weight_of in *.
  pose proof (weights_nonneg _ Hall) as Hnn. destruct (pz_Disabled p) eqn:Hd.
  - destruct (IH cursor) as (i & q & Hi & Hq & Hpick & Hin); [lia|lia|].
    exists (S i), q. split; [done|split; [done|split; [done|]]].
    unfold weight_before in *. cbn [take map sum_Z foldr]. unfold weight_of at 1 3. rewrite Hd. exact Hin.
  - destruct (Hp eq_refl) as [_ Hw]. destruct (cursor <? pz_Weight p) eqn:E; bool_to_prop.
    + exists 0%nat, p. split; [done|split; [done|split; [done|]]]. unfold weight_before. cbn. lia.
    + rewrite exact_sub by lia. destruct (IH (cursor - pz_Weight p)) as (i & q & Hi & Hq & Hpick & Hin); [lia|lia|].
      exists (S i), q. split; [done|split; [done|split; [done|]]].
      unfold weight_before in *. cbn [take map sum_Z foldr]. unfold weight_of at 1 3. rewrite Hd.
      change (foldr Z.add 0) with sum_Z. lia.
Qed.

Lemma choosePrize_in random ps p :
  choosePrize random ps = Some p -> p ∈ ps /\ pz_Disabled p = false /\ 0 < pz_AmountMinor p.
Proof.
  unfold choosePrize. destruct (total_weight ps 0) as [n|] eqn:Ht; [|done]. cbn.
  destruct (n <=? 0); [done|]. destruct (random n) as [c|]; [|done].
  clear -Ht. revert c Ht. generalize 0 at 1. induction ps as [|q ps IH]; intros total c Ht; [done|].
  cbn [pick_prize total_weight] in *. destruct (pz_Disabled q) eqn:Hd.
  - intros Hp. destruct (IH _ _ Ht Hp) as [Hin ?]. split; [by constructor|done].
  - destruct (negb (drawable q) || _) eqn:E; [done|]. apply orb_false_iff in E as [Hdr%negb_false_iff _].
    destruct (c <? pz_Weight q).
    + intros [= <-]. split; [constructor|split; [done|]]. unfold drawable in Hdr. bool_to_prop. lia.
    + intros Hp. destruct (IH _ _ Ht Hp) as [Hin ?]. split; [by constructor|done].
Qed.

(** ** A spin *)

(** CHECK (cost_minor > 0) of the table. *)
Definition spins_ok (db : DB) : Prop := forall id c, spin_configs db.(app) !! id = Some c -> 0 < sc_cost_minor c.

Section spin.
Context `{Uuids}.

Lemma findSpinConfig_row spin enabled db config :
  spins_ok db -> findSpinConfig spin enabled db = Some config -> 0 < sg_CostMinor config.
Proof.
  unfold findSpinConfig. intros Hok. destruct (find_row _ _) as [[id c]|] eqn:E; [|done]. intros [= <-].
  apply find_row_Some in E as [E _]. by apply (Hok id c).
Qed.

Lemma shown_spin_Ok r db v db' : shown_spin r db = Ok (v, db') -> db' = db /\ formatSpin r db = Ok v /\ sv_result v = r.
Proof.
  unfold shown_spin. destruct (formatSpin r db) as [x|] eqn:E; [|done]. intros [= <- <-].
  split; [done|split; [done|]]. unfold formatSpin in E.
  repeat match type of E with (?m ≫= _) = Ok _ => destruct m; [|done]; cbn in E end. by injection E as <-.
Qed.

Lemma spin_types : plain_type BizLuckySpinCost /\ plain_type BizLuckySpinReward.
Proof. split; split; apply (bool_decide_unpack _); vm_compute; done. Qed.

Lemma draw_spin_run t user request config prize db v db' :
  draw_spin t user request config prize db = Ok (v, db') -> 0 < sg_CostMinor config -> custody db ->
  custody db' /\
  (exists wid w, find_row (is_wallet_of user (sg_CostCurrency config)) (wallets db.(money)) = Some (wid, w) /\
     sg_CostMinor config <= w_available w) /\
  (exists cost reward, owns db'.(money) cost user (sg_CostCurrency config) /\
     owns db'.(money) reward user (pz_Currency prize) /\
     forall i, avail db'.(money) i = avail db.(money) i
       - (if bool_decide (cost = i) then sg_CostMinor config else 0)
       + (if bool_decide (reward = i) then pz_AmountMinor prize else 0)) /\
  currencies db'.(app) = currencies db.(app) /\ formatSpin (sv_result v) db' = Ok v /\
  exists id r, spin_records db'.(app) = <[id := r]> (spin_records db.(app)) /\
    find_row (fun _ => spin_key user request "") (spin_records db.(app)) = None /\
    spin_key user request "" r = true /\ sv_result v = spin_result id r /\
    sx_prize_id r = pz_ID prize /\ sx_reward_minor r = pz_AmountMinor prize /\ sx_cost_minor r = sg_CostMinor config.
Proof.
  intros Hrun Hpos Hcu. unfold draw_spin in Hrun.
  apply tx_bind_Ok in Hrun as (z & d1 & Ed & Hrun).
  apply tx_bind_Ok in Hrun as (id & d2 & E & Hrun). apply new_uuid_Ok in E as [<- <-].
  apply tx_bind_Ok in Hrun as ([] & d2 & El & Hrun).
  destruct (deduct_run _ _ _ _ _ _ _ _ _ _ (tick d1) _ _ Ed eq_refl (money_only_tick _) El (proj1 spin_types) Hpos
    (cu_books _ Hcu)) as [Hcost Hhad].
  apply tx_bind_Ok in Hrun as (z2 & d3 & Ea & Hrun).
  apply tx_bind_Ok in Hrun as ([] & d4 & El2 & Hrun).
  pose proof (reward_run _ _ _ _ _ _ _ _ _ _ _ _ Ea El2 (proj2 spin_types) (rw_books _ _ _ _ _ Hcost)) as Hrew.
  cbv zeta in Hrun. match type of Hrun with context [insert_row _ ?i ?x] => set (id := i) in *; set (r := x) in * end.
  apply tx_bind_Ok in Hrun as ([] & d5 & E & Hrun). apply insert_row_Ok in E as (_ & Hnone & <-).
  apply shown_spin_Ok in Hrun as (-> & Hfmt & Hres).
  assert (Hkept : money_only db d4) by (etrans; [apply Hcost|apply Hrew]).
  change (tbl (app d4)) with (spin_records (app d4)) in Hnone.
  assert (Hsame : spin_records d4.(app) = spin_records db.(app) /\ currencies d4.(app) = currencies db.(app)).
  { destruct Hkept as (n & o & E). by rewrite E. }
  destruct Hsame as [Hsr Hcr]. rewrite Hsr in Hnone.
  split; [|split; [exact Hhad|split; [|split; [exact Hcr|split; [by rewrite Hres|]]]]].
  - apply (custody_quiet d4); [|apply Hrew|by apply quiet_app].
    apply (custody_quiet db); [done|apply Hrew|]. etrans; [apply Hcost|apply Hrew].
  - destruct (rewarded_owns _ _ _ _ _ Hcost) as (wc & Hwc & Hac).
    destruct (rewarded_owns _ _ _ _ _ Hrew) as (wp & Hwp & Hap).
    exists wc, wp. rewrite money_put_row. split; [|split; [exact Hwp|]].
    + eapply owns_kept; [apply Hrew|exact Hwc].
    + intros i. rewrite Hap, Hac. repeat case_bool_decide; lia.
  - exists id, r. rewrite <- Hsr. split; [done|split; [by rewrite Hsr|]].
    split; [|done]. unfold spin_key. cbn. by rewrite !bool_decide_true.
Qed.
End spin.

(** ** What the wheel promises *)

(** A draw over valid prizes picks each enabled prize on exactly as many
    cursors as its weight says: the cursors [0 .. total-1] are cut into
    consecutive intervals, one per enabled prize, of the length of its weight;
    disabled prizes are never drawn, no addition overflows, and the draw fails
    only when the random source does or the prizes are not drawable. *)
Theorem choosePrize_fair ps total :
  weights_fit ps -> total_weight ps 0 = Some total -> 0 < total ->
  total = weights ps /\ total <= int64_max /\
  (forall random cursor, random total = Ok cursor -> 0 <= cursor < total ->
     exists i p, ps !! i = Some p /\ pz_Disabled p = false /\ drawable p = true /\
       choosePrize random ps = Some p /\
       weight_before ps i <= cursor < weight_before ps i + pz_Weight p) /\
  (forall random e, random total = Err e -> choosePrize random ps = None).
Proof.
  intros Hfit Ht Hpos. destruct (total_weight_spec ps 0 total) as (Hsum & Hle & Hall); [done|done|done|].
  rewrite Z.add_0_l in Hsum. subst total. split; [done|split; [done|split]].
  - intros random cursor Hr Hc. destruct (pick_prize_spec ps cursor Hall Hle Hc) as (i & p & Hi & Hd & Hp & Hin).
    exists i, p. split; [done|split; [done|]].
    assert (Hgood : good_prize p) by (by apply (proj1 (Forall_lookup _ _) Hall i p)).
    split; [apply Hgood|split; [|done]]. unfold choosePrize. rewrite Ht. cbn.
    by rewrite (proj2 (Z.leb_gt _ _) Hpos), Hr.
  - intros random e Hr. unfold choosePrize. rewrite Ht. cbn. by rewrite (proj2 (Z.leb_gt _ _) Hpos), Hr.
Qed.

Section promise.
Context `{Uuids}.

(** C31: A spin that commits either repeats a request already answered, and
    then shows the recorded draw and changes nothing, or is a new draw from an
    enabled wheel: the user had the cost, exactly the cost leaves the wallet
    of the cost currency and exactly the prize enters the wallet of the prize
    currency, no other balance changes, custody holds, and the draw is
    recorded under the request, so that the same request, with any other
    random numbers, only shows this draw again. *)
Theorem LuckySpin_once t random user spin request db v db' :
  LuckySpin t random user spin request db = Ok (v, db') -> custody db -> spins_ok db ->
  findSpin user request db = Some (sv_result v) /\ db' = db \/
  findSpin user request db = None /\
  (exists config prize, findSpinConfig spin true db = Some config /\
     choosePrize random (sg_Prizes config) = Some prize /\ prize ∈ sg_Prizes config /\ pz_Disabled prize = false /\
     sr_PrizeID (sv_result v) = pz_ID prize /\ 0 < pz_AmountMinor prize /\
     (exists wid w, find_row (is_wallet_of user (sg_CostCurrency config)) (wallets db.(money)) = Some (wid, w) /\
        sg_CostMinor config <= w_available w) /\
     exists cost reward, owns db'.(money) cost user (sg_CostCurrency config) /\
       owns db'.(money) reward user (pz_Currency prize) /\
       forall i, avail db'.(money) i = avail db.(money) i
         - (if bool_decide (cost = i) then sg_CostMinor config else 0)
         + (if bool_decide (reward = i) then pz_AmountMinor prize else 0)) /\
  custody db' /\ findSpin user request db' = Some (sv_result v) /\
  forall t' random', LuckySpin t' random' user spin request db' = Ok (v, db').
Proof.
  intros Hrun Hcu Hok. unfold LuckySpin in Hrun.
  apply tx_bind_Ok in Hrun as ([] & d & E & Hrun). apply reject_if_Ok in E as [Hargs <-].
  rewrite gets_skip in Hrun. destruct (findSpin user request db) as [r|] eqn:Hf.
  { left. apply shown_spin_Ok in Hrun as (-> & _ & ->). done. }
  right. rewrite gets_skip in Hrun.
  apply tx_bind_Ok in Hrun as (config & d & E & Hrun). apply found_Ok in E as [Hc <-].
  apply tx_bind_Ok in Hrun as (prize & d & E & Hrun). apply found_Ok in E as [Hp <-].
  destruct (draw_spin_run _ _ _ _ _ _ _ _ Hrun (findSpinConfig_row _ _ _ _ Hok Hc) Hcu)
    as (Hcu' & Hhad & Hmoney & _ & Hfmt & id & x & Hrec & Hnone & Hkey & Hres & Hpid & _).
  destruct (choosePrize_in _ _ _ Hp) as (Hin & Hdis & Hamt).
  assert (Hfind : findSpin user request db' = Some (sv_result v)).
  { unfold findSpin. rewrite Hrec. rewrite (find_row_added _ _ id x); [by rewrite Hres|exact Hnone|exact Hkey]. }
  split; [done|split; [|split; [done|split; [done|]]]].
  - exists config, prize. do 4 (split; [done|]). split; [by rewrite Hres|]. split; [done|split; [done|exact Hmoney]].
  - intros t' random'. unfold LuckySpin. rewrite reject_skip by done. rewrite gets_skip, Hfind.
    unfold shown_spin. by rewrite Hfmt.
Qed.
End promise.

(** ** Witnesses *)

Definition example_prizes : list SpinPrize :=
  [mk_SpinPrize false "p-1" "8" "POINTS" 8 30; mk_SpinPrize true "p-2" "28" "POINTS" 28 25;
   mk_SpinPrize false "p-3" "1 USDT" "USDT" 1000000 2].

(** The wheel with these prizes, and Alice with 12.5 points. *)
Definition wheel_app (a : App) : App :=
  set_spin_configs {[ "wheel" := mk_spin_config_row "lucky" "Wheel" true "POINTS" 500 0 false 0 ]}
  (set_spin_prizes {[ "p-1" := mk_spin_prize_row "wheel" "p-1" "8" "POINTS" 8 30 0 false;
                      "p-2" := mk_spin_prize_row "wheel" "p-2" "28" "POINTS" 28 25 1 true;
                      "p-3" := mk_spin_prize_row "wheel" "p-3" "1 USDT" "USDT" 1000000 2 2 false ]} a).

Definition wheel_db : DB := set_app (wheel_app bonus_db.(app)) bonus_db.

Definition draws (n : Z) : Z -> res Z := fun _ => Ok n.

Lemma choosePrize_fair_witness :
  total_weight example_prizes 0 = Some 32 /\ weights example_prizes = 32 /\
  exists i p, example_prizes !! i = Some p /\ choosePrize (draws 31) example_prizes = Some p /\
    weight_before example_prizes i <= 31 < weight_before example_prizes i + pz_Weight p.
Proof.
  destruct (choosePrize_fair example_prizes 32) as (Hs & _ & Hin & _).
  - unfold weights_fit, example_prizes. repeat constructor; unfold in_int64, int64_min, int64_max; cbn; lia.
  - reflexivity.
  - lia.
  - split; [reflexivity|split; [exact (eq_sym Hs)|]].
    destruct (Hin (draws 31) 31 eq_refl) as (i & p & Hi & _ & _ & Hp & Hw); [lia|].
    exists i, p. split; [exact Hi|split; [exact Hp|exact Hw]].
Defined.

Lemma wheel_custody db : custody db -> custody (set_app (wheel_app db.(app)) db).
Proof. intros Hcu. by apply (custody_app db). Qed.

Lemma wheel_spins db : spins_ok (set_app (wheel_app db.(app)) db).
Proof.
  intros id c Hc. cbn [app set_app wheel_app] in Hc. change (spin_configs (wheel_app (app db)) !! id = Some c) in Hc.
  unfold wheel_app in Hc. cbn [spin_configs set_spin_configs] in Hc.
  apply lookup_singleton_Some in Hc as [_ <-]. done.
Qed.

Lemma LuckySpin_once_witness : exists v db',
  LuckySpin noon (draws 31) "alice" "lucky" "spin-1" wheel_db = Ok (v, db') /\
  sr_PrizeID (sv_result v) = "p-3"%string /\ custody db' /\
  LuckySpin noon (draws 0) "alice" "lucky" "spin-1" db' = Ok (v, db').
Proof.
  destruct (succeeds_Ok (fun x => bool_decide (sr_PrizeID (sv_result x.1) = "p-3"%string) &&
      bool_decide (findSpin "alice" "spin-1" wheel_db = None))
    (LuckySpin noon (draws 31) "alice" "lucky" "spin-1" wheel_db)) as ([v db'] & Hrun & Hobs).
  { vm_compute. reflexivity. }
  apply andb_prop in Hobs as [Hp%bool_decide_eq_true Hn%bool_decide_eq_true].
  exists v, db'. split; [exact Hrun|split; [exact Hp|]].
  destruct (LuckySpin_once noon (draws 31) "alice" "lucky" "spin-1" wheel_db v db' Hrun)
    as [[Hk _]|(_ & _ & Hcu & _ & Hagain)].
  - apply wheel_custody, bonus_custody.
  - apply wheel_spins.
  - rewrite Hn in Hk. discriminate Hk.
  - split; [exact Hcu|]. apply Hagain.
Defined.
