(* ===== verification/TaskProofs.v ===== *)
(** * Betting tasks: what holds

    Settled bets fill a task up to its threshold, a claim empties it and pays
    its rewards once; the component meets the hook contract of settlement. *)

From S2P Require Import Prelude GoStrings Json Schema Store Books Custody Wallet.
From S2P Require Import Rebate Draws Settlement BetBooks Chain Examples ChainProofs Operations OperationsProofs Credit CreditProofs Spin SpinProofs Task.

(** ** Progress *)

Definition progress_of (key : string * string * string) (db : DB) : Z :=
  from_option tp_progress_minor 0 (task_progress db.(app) !! key).

Definition count_of (key : string * string * string) (db : DB) : Z :=
  from_option tp_complete_count 0 (task_progress db.(app) !! key).

(** Only the progress table changes. *)
Definition progress_only (db db' : DB) : Prop :=
  exists m, db' = set_app (set_task_progress m db.(app)) db.

#[export] Instance progress_only_preorder : PreOrder progress_only.
Proof.
  split.
  - intros [m a]. exists (task_progress a). by destruct a.
  - intros d1 d2 d3 (m & ->) (n & ->). by exists n.
Qed.

Lemma progress_only_untouched db db' : progress_only db db' -> untouched db db'.
Proof. intros (m & ->). by split. Qed.

Lemma put_progress_only key p db : progress_only db (put_progress key p db).
Proof. by eexists. Qed.

Lemma add_progress_only c user date stake db : progress_only db (add_progress c user date stake db).
Proof.
  unfold add_progress. destruct (task_progress _ !! _); [|apply put_progress_only].
  destruct (_ && _); [apply put_progress_only|reflexivity].
Qed.

Definition count_all (user : string) (stake placedAt : Z) (configs : list BetTaskConfig) (db : DB) : DB :=
  foldl (fun d c => add_progress c user (periodDate (tk_PeriodType c) (betDateAt placedAt)) stake d) db configs.

Lemma count_all_only user stake placedAt configs db : progress_only db (count_all user stake placedAt configs db).
Proof.
  revert db. induction configs as [|c cs IH]; intros db; [reflexivity|].
  exact (transitivity (add_progress_only _ _ _ _ _) (IH _)).
Qed.

Lemma OnBetSettled_Ok user currency stake placedAt db u db' :
  OnBetSettled user currency stake placedAt db = Ok (u, db') ->
  0 < stake /\ exists configs, counted_tasks currency db = Ok configs /\ db' = count_all user stake placedAt configs db.
Proof.
  unfold OnBetSettled. intros Hrun. tx_steps. bool_to_prop. split; [lia|]. by eexists.
Qed.

(** Settlement may call it while it holds the balances it read. *)
#[export] Instance task_hook : TaskHook (Some OnBetSettled).
Proof.
  split. intros h user currency stake placed db u db' [= <-] Hrun.
  destruct (OnBetSettled_Ok _ _ _ _ _ _ _ Hrun) as (_ & configs & _ & ->).
  apply progress_only_untouched, count_all_only.
Qed.

(** What the table promises: CHECK (progress_minor >= 0), and counts. *)
Definition progress_ok (db : DB) : Prop := forall key p, task_progress db.(app) !! key = Some p ->
  0 <= tp_progress_minor p /\ 0 <= tp_complete_count p.

Lemma put_progress_lookup key p k db :
  task_progress (app (put_progress key p db)) !! k =
    if bool_decide (key = k) then Some p else task_progress (app db) !! k.
Proof. unfold put_progress. cbn. case_bool_decide; subst; by simplify_map_eq. Qed.

(** What a stake adds to the progress of [key] in a task. *)
Definition room_for (c : BetTaskConfig) (key : string * string * string) (stake : Z) (db : DB) : Z :=
  if (tk_MaxCompleteCount c =? 0) || (count_of key db <? tk_MaxCompleteCount c)
  then Z.min stake (Z.max 0 (tk_ThresholdMinor c - progress_of key db)) else 0.

Definition sane_task (c : BetTaskConfig) : Prop := 0 < tk_ThresholdMinor c /\ 0 <= tk_MaxCompleteCount c.

(** One configuration: its own key grows by what it has room for, no other key
    changes. *)
Lemma add_progress_spec c user date stake db :
  0 < stake -> sane_task c -> progress_ok db ->
  let db' := add_progress c user date stake db in
  progress_ok db' /\ (forall key, count_of key db' = count_of key db) /\
  forall key, progress_of key db' =
    progress_of key db + (if bool_decide (task_key (tk_ID c) user date = key) then room_for c key stake db else 0).
Proof.
  intros Hs [Ht Hm] Hok. unfold add_progress. set (k := task_key _ _ _).
  destruct (task_progress (app db) !! k) as [p|] eqn:Hp.
  - destruct (Hok k p Hp) as [Hp0 Hc0]. destruct (_ && _) eqn:E.
    + apply andb_true_iff in E as [E1 E2]. apply Z.ltb_lt in E1. split; [|split].
      * intros key q. rewrite put_progress_lookup. case_bool_decide; [|apply Hok]. intros [= <-]. cbn. lia.
      * intros key. unfold count_of. rewrite put_progress_lookup. case_bool_decide; [|done]. subst. by rewrite Hp.
      * intros key. unfold progress_of, room_for, progress_of, count_of. rewrite put_progress_lookup.
        case_bool_decide; [|lia]. subst. rewrite Hp. cbn. rewrite E2. lia.
    + split; [done|split; [done|]]. intros key. case_bool_decide; [|lia]. subst key.
      unfold room_for, progress_of, count_of. rewrite Hp. cbn. apply andb_false_iff in E as [E|E]; [|rewrite E; lia].
      apply Z.ltb_ge in E. destruct (_ || _); lia.
  - split; [|split].
    + intros key q. rewrite put_progress_lookup. case_bool_decide; [|apply Hok]. intros [= <-]. cbn. lia.
    + intros key. unfold count_of. rewrite put_progress_lookup. case_bool_decide; [|done]. subst. by rewrite Hp.
    + intros key. unfold progress_of, room_for, progress_of, count_of. rewrite put_progress_lookup.
      case_bool_decide; [|lia]. subst. rewrite Hp. cbn.
      destruct (Z.eqb_spec (tk_MaxCompleteCount c) 0), (Z.ltb_spec 0 (tk_MaxCompleteCount c)); cbn; lia.
Qed.

(** The key of a task for a bet. *)
Definition key_for (c : BetTaskConfig) (user : string) (placedAt : Z) : string * string * string :=
  task_key (tk_ID c) user (periodDate (tk_PeriodType c) (betDateAt placedAt)).

Lemma count_all_ok user stake placedAt configs db :
  0 < stake -> Forall sane_task configs -> progress_ok db ->
  let db' := count_all user stake placedAt configs db in
  progress_ok db' /\ forall key, count_of key db' = count_of key db.
Proof.
  intros Hs Hall. revert db. induction Hall as [|c cs Hc _ IH]; intros db Hok; [done|].
  cbn [count_all foldl]. destruct (add_progress_spec c user (periodDate (tk_PeriodType c) (betDateAt placedAt)) stake db Hs Hc Hok)
    as (Hok1 & Hc1 & _). destruct (IH _ Hok1) as [Hok2 Hc2]. split; [exact Hok2|]. intros key. by rewrite <- Hc1, <- Hc2.
Qed.

(** Many configurations, of different identifiers: the one of the key counts. *)
Lemma count_all_missed user stake placedAt configs db key :
  0 < stake -> Forall sane_task configs -> progress_ok db ->
  (forall c, c ∈ configs -> key_for c user placedAt <> key) ->
  progress_of key (count_all user stake placedAt configs db) = progress_of key db.
Proof.
  intros Hs Hall. revert db. induction Hall as [|c cs Hc _ IH]; intros db Hok Hno; [done|].
  cbn [count_all foldl]. destruct (add_progress_spec c user (periodDate (tk_PeriodType c) (betDateAt placedAt)) stake db Hs Hc Hok)
    as (Hok1 & _ & Hp1). etrans; [apply IH; [done|]|].
  - intros x Hx. apply Hno. by constructor.
  - rewrite Hp1, bool_decide_false; [lia|]. apply (Hno c). constructor.
Qed.

Lemma count_all_hit user stake placedAt configs db c :
  0 < stake -> Forall sane_task configs -> NoDup (map tk_ID configs) -> progress_ok db -> c ∈ configs ->
  progress_of (key_for c user placedAt) (count_all user stake placedAt configs db) =
    progress_of (key_for c user placedAt) db + room_for c (key_for c user placedAt) stake db.
Proof.
  intros Hs Hall. revert db. induction Hall as [|c' cs Hc Hcs IH]; intros db Hnd Hok Hin; [by apply elem_of_nil in Hin|].
  cbn [map] in Hnd. apply NoDup_cons in Hnd as [Hnotin Hnd]. cbn [count_all foldl].
  destruct (add_progress_spec c' user (periodDate (tk_PeriodType c') (betDateAt placedAt)) stake db Hs Hc Hok) as (Hok1 & Hc1 & Hp1).
  apply elem_of_cons in Hin as [->|Hin].
  - etrans; [apply count_all_missed; [done|done|done|]|].
    + intros x Hx Heq. apply (f_equal (fun k => k.1.1)) in Heq. cbn in Heq. apply Hnotin, list_elem_of_In, in_map_iff. exists x.
      split; [done|by apply list_elem_of_In].
    + by rewrite Hp1, bool_decide_true.
  - etrans; [by apply IH|]. unfold room_for. rewrite Hc1, Hp1, bool_decide_false, Z.add_0_r; [done|].
    intros Heq. apply (f_equal (fun k => k.1.1)) in Heq. cbn in Heq. apply Hnotin, list_elem_of_In, in_map_iff. exists c.
    split; [done|by apply list_elem_of_In].
Qed.

(** The table's CHECKs (threshold_minor > 0, max_complete_count >= 0). *)
Definition tasks_ok (db : DB) : Prop := forall id c, bet_task_configs db.(app) !! id = Some c ->
  0 < tc_threshold_minor c /\ 0 <= tc_max_complete_count c.

(** Does a bet of [user] in [currency] placed at [placedAt] count for the task
    and the period of the key?  The task must be there, on, and collect this
    currency. *)
Definition counts_for (key : string * string * string) (user currency : string) (placedAt : Z) (db : DB) : bool :=
  match bet_task_configs db.(app) !! key.1.1 with
  | Some row =>
      tc_enabled row && negb (tc_deleted row) && bool_decide (tc_accumulation_currency row = currency) &&
      bool_decide (key = (key.1.1, user, periodDate (tc_period_type row) (betDateAt placedAt)))
  | None => false
  end.

(** What the stake adds there: all of it up to the threshold, nothing once the
    task was completed as often as it may be. *)
Definition counted (key : string * string * string) (user currency : string) (stake placedAt : Z) (db : DB) : Z :=
  match bet_task_configs db.(app) !! key.1.1 with
  | Some row =>
      if counts_for key user currency placedAt db &&
         ((tc_max_complete_count row =? 0) || (count_of key db <? tc_max_complete_count row))
      then Z.min stake (Z.max 0 (tc_threshold_minor row - progress_of key db)) else 0
  | None => 0
  end.

Lemma scanConfig_fields id c x :
  scanConfig id c = Ok x -> tk_ID x = id /\ tk_ThresholdMinor x = tc_threshold_minor c /\
    tk_MaxCompleteCount x = tc_max_complete_count c /\ tk_PeriodType x = tc_period_type c.
Proof.
  unfold scanConfig. destruct (dec_rewards _) as [r|]; [|done]. cbn. by intros [= <-].
Qed.

Lemma scan_all l xs : mapM (fun kv => scanConfig kv.1 kv.2) l = Ok xs ->
  map tk_ID xs = map fst l /\ Forall2 (fun kv x => scanConfig kv.1 kv.2 = Ok x) l xs.
Proof.
  revert xs. induction l as [|kv l IH]; intros xs; cbn [mapM].
  { intros [= <-]. split; [done|constructor]. }
  destruct (scanConfig kv.1 kv.2) as [x|] eqn:Ex; [|done]. cbn.
  destruct (mapM _ l) as [ys|] eqn:El; [|done]. cbn. intros [= <-].
  destruct (scanConfig_fields _ _ _ Ex) as (Hid & _). destruct (IH ys eq_refl) as [Hids Hall].
  cbn. rewrite Hid, Hids. split; [done|]. by constructor.
Qed.

Definition collects (currency : string) (row : task_config_row) : bool :=
  tc_enabled row && negb (tc_deleted row) && bool_decide (tc_accumulation_currency row = currency).

Lemma counted_tasks_Ok currency db configs :
  counted_tasks currency db = Ok configs -> tasks_ok db ->
  Forall sane_task configs /\ NoDup (map tk_ID configs) /\
  (forall c, c ∈ configs -> exists row, bet_task_configs db.(app) !! tk_ID c = Some row /\ collects currency row = true /\
     scanConfig (tk_ID c) row = Ok c) /\
  (forall id row, bet_task_configs db.(app) !! id = Some row -> collects currency row = true ->
     exists c, c ∈ configs /\ tk_ID c = id).
Proof.
  unfold counted_tasks. intros Hrun Hok. destruct (scan_all _ _ Hrun) as [Hids Hall].
  set (l := merge_sort _ _) in *.
  assert (Hl : forall kv, kv ∈ l <-> bet_task_configs db.(app) !! kv.1 = Some kv.2 /\ collects currency kv.2 = true).
  { intros [k r]. unfold l. rewrite merge_sort_Permutation, list_elem_of_In, List.filter_In, <- list_elem_of_In, elem_of_map_to_list. done. }
  assert (Hrow : forall c, c ∈ configs -> exists row, bet_task_configs db.(app) !! tk_ID c = Some row /\ collects currency row = true /\
    scanConfig (tk_ID c) row = Ok c).
  { intros c [i Hi]%list_elem_of_lookup. destruct (Forall2_lookup_r _ _ _ _ _ Hall Hi) as ([k r] & Hk & Hx).
    apply list_elem_of_lookup_2, Hl in Hk as [Hk Hcol]. cbn in *. destruct (scanConfig_fields _ _ _ Hx) as (-> & _). by exists r. }
  split; [|split; [|split; [exact Hrow|]]].
  - apply Forall_forall. intros c (row & Hr & _ & Hs)%Hrow. destruct (scanConfig_fields _ _ _ Hs) as (_ & E1 & E2 & _).
    unfold sane_task. rewrite E1, E2. by apply (Hok (tk_ID c)).
  - rewrite Hids. unfold l. rewrite (merge_sort_Permutation by_id). apply filter_keys_NoDup, NoDup_fst_map_to_list.
  - intros id row Hr Hcol. assert (Hin : id ∈ map tk_ID configs).
    { rewrite Hids, list_elem_of_In. apply in_map_iff. exists (id, row). split; [done|]. by apply list_elem_of_In, Hl. }
    apply list_elem_of_In, in_map_iff in Hin as (c & Hid & Hin). exists c. split; [by apply list_elem_of_In|done].
Qed.

(** A settled bet adds to every key exactly what counts for it. *)
Lemma OnBetSettled_counts user currency stake placedAt db u db' :
  OnBetSettled user currency stake placedAt db = Ok (u, db') -> tasks_ok db -> progress_ok db ->
  0 < stake /\ progress_only db db' /\ progress_ok db' /\
  forall key, count_of key db' = count_of key db /\
    progress_of key db' = progress_of key db + counted key user currency stake placedAt db.
Proof.
  intros Hrun Hts Hpr. destruct (OnBetSettled_Ok _ _ _ _ _ _ _ Hrun) as (Hs & configs & Hcf & ->).
  destruct (counted_tasks_Ok _ _ _ Hcf Hts) as (Hsane & Hnd & Hrows & Hall).
  destruct (count_all_ok user stake placedAt configs db Hs Hsane Hpr) as [Hok Hcnt].
  split; [done|]. split; [apply count_all_only|]. split; [done|]. intros key. split; [apply Hcnt|].
  destruct (decide (Exists (fun c => key_for c user placedAt = key) configs)) as [Hex|Hno].
  - apply Exists_exists in Hex as (c & Hin & <-). rewrite count_all_hit by done. f_equal.
    destruct (Hrows c Hin) as (row & Hrow & Hcol & Hscan). destruct (scanConfig_fields _ _ _ Hscan) as (_ & E1 & E2 & E3).
    unfold counted, counts_for, room_for. change ((key_for c user placedAt).1.1) with (tk_ID c). rewrite Hrow.
    unfold collects in Hcol. rewrite Hcol, E1, E2. cbn [andb]. rewrite bool_decide_true by (unfold key_for; by rewrite E3). done.
  - rewrite count_all_missed; [|done|done|done|].
    2: { intros c Hc Heq. apply Hno, Exists_exists. by exists c. }
    assert (counted key user currency stake placedAt db = 0) as ->; [|lia].
    unfold counted, counts_for. destruct (bet_task_configs (app db) !! key.1.1) as [row|] eqn:Hrow; [|done].
    destruct (_ && _) eqn:E; [|done]. exfalso. apply andb_prop in E as [[Hcol Hkey]%andb_prop _]. apply bool_decide_eq_true in Hkey.
    destruct (Hall _ _ Hrow Hcol) as (c & Hin & Hid). apply Hno, Exists_exists. exists c. split; [done|].
    destruct (Hrows c Hin) as (row' & Hrow' & _ & Hscan). destruct (scanConfig_fields _ _ _ Hscan) as (_ & _ & _ & E3).
    rewrite Hid in *. assert (row' = row) as -> by congruence. unfold key_for. by rewrite Hid, E3.
Qed.

(** No more than the stake, and only where it counts. *)
Lemma counted_bound key user currency stake placedAt db : 0 < stake ->
  0 <= counted key user currency stake placedAt db <= (if counts_for key user currency placedAt db then stake else 0).
Proof.
  intros Hs. unfold counted. destruct (bet_task_configs _ !! _); [|destruct (counts_for _ _ _ _ _); lia].
  destruct (counts_for _ _ _ _ _); cbn [andb]; [|lia]. destruct (_ || _); lia.
Qed.

(** ** Paying the rewards *)

Definition reward_currency (p : TaskReward) : string := ToUpper (TrimSpace (tw_Currency p)).

(** What a list of rewards gives in one currency. *)
Definition rewards_in (cur : string) (l : list TaskReward) : Z :=
  sum_Z (map (fun p => if bool_decide (reward_currency p = cur) then tw_AmountMinor p else 0) l).

Section claims.
Context `{Uuids}.

Lemma rewarded_avail user cur amount db d m i u c :
  rewarded user cur amount db d -> keeps_owners d.(money) m -> books m -> owns m i u c ->
  avail d.(money) i = avail db.(money) i + (if bool_decide (u = user) && bool_decide (cur = c) then amount else 0).
Proof.
  intros Hrw Hk Hb (w & Hw & Hu & Hc). destruct (rewarded_owns _ _ _ _ _ Hrw) as (wid & Howns & Hav).
  destruct (owns_kept _ _ _ _ _ Hk Howns) as (w' & Hw' & Hu' & Hc'). rewrite Hav. f_equal.
  destruct (decide (wid = i)) as [->|Hne].
  - rewrite bool_decide_true by done. by rewrite !bool_decide_true by congruence.
  - rewrite (bool_decide_false _ Hne). destruct (bool_decide (u = user)) eqn:E1; [|done].
    destruct (bool_decide (cur = c)) eqn:E2; [|done]. bool_to_prop. exfalso. apply Hne.
    apply (books_one_wallet _ Hb wid i w' w); congruence.
Qed.

Lemma reward_type : plain_type BizBetTaskReward.
Proof. split; apply (bool_decide_unpack _); vm_compute; done. Qed.

Lemma RewardCurrency_run now user currency bid amount remark db z db' :
  RewardCurrency now user currency BizBetTaskReward bid amount remark db = Ok (z, db') -> books db.(money) ->
  0 < amount /\ rewarded user (ToUpper (TrimSpace currency)) amount db db'.
Proof.
  intros Hrun Hb. unfold RewardCurrency in Hrun. cbv zeta in Hrun.
  apply tx_bind_Ok in Hrun as ([] & d & E & Hrun). apply reject_if_Ok in E as [_ <-].
  apply tx_bind_Ok in Hrun as ([] & d & E & Hrun). apply reject_if_Ok in E as [Ha <-].
  apply tx_bind_Ok in Hrun as (z' & d & Ea & Hrun). apply tx_bind_Ok in Hrun as ([] & d' & El & Hrun).
  apply tx_ret_Ok in Hrun as [-> <-]. bool_to_prop. split; [lia|].
  eapply reward_run; [exact Ea|exact El|exact reward_type|exact Hb].
Qed.

Lemma pay_rewards_run now user claimID remark l db r db' :
  pay_rewards now user claimID remark l db = Ok (r, db') -> books db.(money) ->
  books db'.(money) /\ quiet db db' /\ money_only db db' /\ bet_entries db'.(money) = bet_entries db.(money) /\
  map (fun p => (tw_Currency p, tw_AmountMinor p)) r = map (fun p => (tw_Currency p, tw_AmountMinor p)) l /\
  forall m i u c, keeps_owners db'.(money) m -> books m -> owns m i u c ->
    avail db'.(money) i = avail db.(money) i + (if bool_decide (u = user) then rewards_in c l else 0).
Proof.
  revert db r. induction l as [|p l IH]; intros db r Hrun Hb; cbn [pay_rewards] in Hrun.
  { apply tx_ret_Ok in Hrun as [<- <-]. split; [done|split; [done|split; [done|split; [done|split; [done|]]]]].
    intros m i u c _ _ _. unfold rewards_in. cbn. case_bool_decide; lia. }
  apply tx_bind_Ok in Hrun as (z & d & E & Hrun).
  destruct (RewardCurrency_run _ _ _ _ _ _ _ _ _ E Hb) as [_ Hrw].
  apply tx_bind_Ok in Hrun as (r' & d' & E' & Hrun). apply tx_ret_Ok in Hrun as [<- <-].
  destruct (IH _ _ E' (rw_books _ _ _ _ _ Hrw)) as (H1 & H2 & H3 & H4 & H5 & H6).
  split; [done|split; [etrans; [apply Hrw|done]|split; [etrans; [apply Hrw|done]|split; [|split]]]].
  - rewrite H4. apply Hrw.
  - cbn. by rewrite H5.
  - intros m i u c Hk Hbm Ho. rewrite (H6 m i u c Hk Hbm Ho).
    assert (Hkd : keeps_owners d.(money) m) by (etrans; [apply H2|exact Hk]).
    rewrite (rewarded_avail _ _ _ _ _ m i u c Hrw Hkd Hbm Ho). unfold rewards_in, reward_currency. cbn.
    change (foldr Z.add 0) with sum_Z. destruct (bool_decide (u = user)); cbn [andb]; lia.
Qed.

Lemma rewards_in_perm c l l' : l ≡ₚ l' -> rewards_in c l = rewards_in c l'.
Proof. unfold rewards_in. intros Hp. unfold sum_Z.
  induction Hp; cbn in *; lia. Qed.

Context (is_uuid : string -> bool).

Lemma ClaimBetTask_run t user id db out db' :
  ClaimBetTask is_uuid t user id db = Ok (out, db') -> custody db ->
  exists row c p, let key := task_key id user (tm_BetDate out) in
    bet_task_configs db.(app) !! id = Some row /\ tc_enabled row = true /\ tc_deleted row = false /\
    scanConfig id row = Ok c /\ tm_BetDate out = periodDate (tk_PeriodType c) (betDateAt (go_now t)) /\
    task_progress db.(app) !! key = Some p /\ tk_ThresholdMinor c <= tp_progress_minor p /\
    (0 < tk_MaxCompleteCount c -> tp_complete_count p < tk_MaxCompleteCount c) /\
    tm_CompleteCount out = tp_complete_count p + 1 /\
    task_progress db'.(app) = <[key := mk_task_progress_row 0 (tp_complete_count p + 1)]> (task_progress db.(app)) /\
    bet_task_configs db'.(app) = bet_task_configs db.(app) /\ custody db' /\ quiet db db' /\ stays db db' /\
    forall i u cur, owns db'.(money) i u cur ->
      avail db'.(money) i = avail db.(money) i + (if bool_decide (u = user) then rewards_in cur (tk_Rewards c) else 0).
Proof.
  intros Hrun Hcu. unfold ClaimBetTask, select_id in Hrun.
  apply tx_bind_Ok in Hrun as ([] & d & E & Hrun). apply reject_if_Ok in E as [_ <-]. rewrite gets_skip in Hrun.
  apply tx_bind_Ok in Hrun as (row & d & E & Hrun). apply found_Ok in E as [Hrow <-].
  apply tx_bind_Ok in Hrun as ([] & d & E & Hrun). apply reject_if_Ok in E as [Hlive <-].
  apply tx_bind_Ok in Hrun as (c & d & E & Hrun). apply lift_Ok in E as [Hc <-]. cbv zeta in Hrun.
  set (date := periodDate _ _) in Hrun. rewrite gets_skip in Hrun.
  apply tx_bind_Ok in Hrun as (p & d & E & Hrun). apply found_Ok in E as [Hp <-].
  apply tx_bind_Ok in Hrun as ([] & d & E & Hrun). apply reject_if_Ok in E as [Hmax <-].
  apply tx_bind_Ok in Hrun as ([] & d & E & Hrun). apply reject_if_Ok in E as [Hth <-].
  apply tx_bind_Ok in Hrun as ([] & d & E & Hrun). apply reject_if_Ok in E as [_ <-].
  apply orb_false_iff in Hlive as [Hen%negb_false_iff Hdel]. apply Z.ltb_ge in Hth.
  unfold pay_claim in Hrun.
  apply tx_bind_Ok in Hrun as (claimID & d & E & Hrun). apply new_uuid_Ok in E as [_ <-].
  apply tx_bind_Ok in Hrun as (rewards & d & E & Hrun).
  destruct (pay_rewards_run _ _ _ _ _ _ _ _ E (cu_books _ Hcu)) as (R1 & R2 & R3 & R4 & _ & R6).
  apply tx_bind_Ok in Hrun as ([] & d1 & E1 & Hrun). apply insert_row_Ok in E1 as (_ & _ & <-).
  apply tx_bind_Ok in Hrun as ([] & d1 & E1 & Hrun). apply modify_Ok in E1 as <-.
  cbv zeta in Hrun. apply tx_ret_Ok in Hrun as [<- <-]. cbn [tm_BetDate tm_CompleteCount].
  match goal with |- context [put_progress ?k ?q (put_row ?i ?r d)] => set (key := k) in *; set (dd := put_row i r d) end.
  assert (Hmd : money (put_progress key (mk_task_progress_row 0 (tp_complete_count p + 1)) dd) = money d) by done.
  destruct R3 as (n & o & Happ).
  assert (Hq : quiet db (put_progress key (mk_task_progress_row 0 (tp_complete_count p + 1)) dd)).
  { etrans; [exact (quiet_tick db)|]. etrans; [exact R2|]. by apply quiet_app. }
  exists row, c, p. do 7 (split; [done|]). split; [|split; [done|split; [|split; [|split; [|split; [exact Hq|split]]]]]].
  - intros Hpos. apply andb_false_iff in Hmax as [Hm|Hm]; bool_to_prop; lia.
  - unfold dd. cbn. by rewrite Happ.
  - unfold dd. cbn. by rewrite Happ.
  - apply (custody_quiet db); [done|by rewrite Hmd|done].
  - split; [..|rewrite Hmd, R4; done]; unfold dd; cbn; by rewrite Happ.
  - rewrite Hmd. intros i u cur Ho. rewrite (R6 _ _ _ _ (reflexivity _) R1 Ho), money_tick.
    by rewrite (rewards_in_perm cur _ _ (merge_sort_Permutation _ _)).
Qed.

(** ** Claims are earned *)

(** The only operations that touch progress: a settled bet, and a claim.  The
    step says what stake it counted for the key, and whether it claimed it. *)
Inductive task_step (key : string * string * string) : DB -> Z -> Z -> DB -> Prop :=
| step_bet user currency stake placedAt db db' :
    OnBetSettled user currency stake placedAt db = Ok ((), db') ->
    task_step key db (if counts_for key user currency placedAt db then stake else 0) 0 db'
| step_claim t user id db out db' :
    ClaimBetTask is_uuid t user id db = Ok (out, db') ->
    task_step key db 0 (if bool_decide (task_key id user (tm_BetDate out) = key) then 1 else 0) db'.

Inductive task_steps (key : string * string * string) : DB -> Z -> Z -> DB -> Prop :=
| steps_done db : task_steps key db 0 0 db
| steps_more db s n d s' n' db' :
    task_step key db s n d -> task_steps key d s' n' db' -> task_steps key db (s + s') (n + n') db'.

(** What the steps keep. *)
Record task_state (db : DB) : Prop := {
  ts_custody : custody db;
  ts_progress : progress_ok db;
  ts_tasks : tasks_ok db
}.

Definition score (key : string * string * string) (threshold : Z) (db : DB) : Z :=
  progress_of key db + count_of key db * threshold.

Lemma custody_untouched db db' : untouched db db' -> custody db -> custody db'.
Proof.
  intros Hu Hcu. apply (custody_quiet db); [done| |by apply untouched_quiet].
  rewrite (un_money _ _ Hu). apply Hcu.
Qed.

Lemma task_step_keeps key db s n db' :
  task_step key db s n db' -> task_state db ->
  task_state db' /\ bet_task_configs db'.(app) = bet_task_configs db.(app) /\ 0 <= s /\ 0 <= n /\
  count_of key db' = count_of key db + n /\
  forall row, bet_task_configs db.(app) !! key.1.1 = Some row ->
    score key (tc_threshold_minor row) db' <= score key (tc_threshold_minor row) db + s.
Proof.
  intros [user cur stake placed d d' Hrun|t user id d out d' Hrun] [Hcu Hpr Hts].
  - destruct (OnBetSettled_counts _ _ _ _ _ _ _ Hrun Hts Hpr) as (Hs & Honly & Hok & Hkeys).
    assert (Hcfg : bet_task_configs (app d') = bet_task_configs (app d)) by (by destruct Honly as (m & ->)).
    split; [split; [|done|by unfold tasks_ok; rewrite Hcfg]|].
    { eapply custody_untouched; [by apply progress_only_untouched|done]. }
    destruct (Hkeys key) as [Hcnt Hp]. pose proof (counted_bound key user cur stake placed d Hs) as Hb.
    split; [done|split; [destruct (counts_for _ _ _ _ _); lia|split; [lia|split; [lia|]]]].
    intros row _. unfold score. rewrite Hcnt, Hp. lia.
  - destruct (ClaimBetTask_run _ _ _ _ _ _ Hrun Hcu)
      as (row & c & p & Hrow & _ & _ & Hc & _ & Hp & Hth & _ & _ & Htp & Hcfg & Hcu' & _ & _ & _).
    destruct (scanConfig_fields _ _ _ Hc) as (_ & Hthr & _). destruct (Hpr _ _ Hp) as [Hp0 Hc0].
    set (k := task_key id user (tm_BetDate out)) in *.
    split; [split; [done| |by unfold tasks_ok; rewrite Hcfg]|].
    { intros k' q. rewrite Htp. intros [[_ <-]|[_ Hq]]%lookup_insert_Some; [cbn; lia|by apply (Hpr k')]. }
    split; [done|split; [lia|split; [case_bool_decide; lia|]]]. unfold score, progress_of, count_of. rewrite Htp.
    destruct (decide (k = key)) as [<-|Hne].
    + rewrite (bool_decide_true (k = k)) by done. rewrite lookup_insert_eq, Hp. cbn. split; [lia|].
      intros row' Hrow'. assert (row' = row) as -> by (change (bet_task_configs (app d) !! id = Some row') in Hrow'; congruence). lia.
    + rewrite (bool_decide_false _ Hne), lookup_insert_ne by done. split; [lia|]. intros row' _. lia.
Qed.

Lemma task_steps_keep key db s n db' :
  task_steps key db s n db' -> task_state db ->
  task_state db' /\ 0 <= s /\ count_of key db' = count_of key db + n /\
  forall row, bet_task_configs db.(app) !! key.1.1 = Some row ->
    score key (tc_threshold_minor row) db' <= score key (tc_threshold_minor row) db + s.
Proof.
  induction 1 as [db|db s n d s' n' db' Hstep _ IH]; intros Hst.
  { split; [done|split; [lia|split; [lia|]]]. intros. lia. }
  destruct (task_step_keeps _ _ _ _ _ Hstep Hst) as (Hd & Hcfg & Hs & _ & Hn & Hsc).
  destruct (IH Hd) as (Hst' & Hs' & Hn' & Hsc'). split; [done|split; [lia|split; [lia|]]].
  intros row Hrow. specialize (Hsc row Hrow). rewrite Hcfg in Hsc'. specialize (Hsc' row Hrow). lia.
Qed.
End claims.

(** ** What the tasks promise *)

Section promise.
Context `{Uuids}.
Context (is_uuid : string -> bool).

(** A claim just made cannot be made again in the same period. *)
Lemma ClaimBetTask_spent t t' user id db out db' :
  ClaimBetTask is_uuid t user id db = Ok (out, db') -> custody db -> tasks_ok db ->
  (forall kind, periodDate kind (betDateAt (go_now t')) = periodDate kind (betDateAt (go_now t))) ->
  exists e, ClaimBetTask is_uuid t' user id db' = Err e.
Proof.
  intros Hrun Hcu Hts Hday. destruct (ClaimBetTask is_uuid t' user id db') as [[out' db2]|e] eqn:E; [|by exists e].
  exfalso. destruct (ClaimBetTask_run _ _ _ _ _ _ _ Hrun Hcu)
    as (row & c & p & Hrow & _ & _ & Hc & Hdate & _ & _ & _ & _ & Htp & Hcfg & Hcu' & _).
  destruct (ClaimBetTask_run _ _ _ _ _ _ _ E Hcu')
    as (row' & c' & p' & Hrow' & _ & _ & Hc' & Hdate' & Hp' & Hth' & _).
  rewrite Hcfg, Hrow in Hrow'. injection Hrow' as <-. rewrite Hc in Hc'. injection Hc' as <-.
  rewrite Hday, <- Hdate in Hdate'. rewrite Hdate', Htp, lookup_insert_eq in Hp'. injection Hp' as <-.
  destruct (scanConfig_fields _ _ _ Hc) as (_ & Hthr & _). pose proof (Hts _ _ Hrow). cbn in Hth'. lia.
Qed.

(** C32: Rewards are earned.  Over any sequence of settled bets and claims, the
    claims of a task by a player in a period, times the threshold of the task,
    plus the progress that is left, never exceed what was there at the start
    plus the stakes of the player that count: those settled while the task is
    enabled and not deleted, in the currency it collects, of bets placed in
    the period; custody holds throughout.  A further settled bet adds to the
    progress exactly what there is room for - the stake, up to the threshold,
    where it counts and the task can still be completed - and completes
    nothing.  A further claim needs the whole threshold, respects the maximum
    number of completions, empties the progress, pays every reward of the task
    to the wallet of the player in its currency and nothing to anyone else, and
    cannot be repeated in the same period without new bets. *)
Theorem task_rewards_earned key db s n db' row :
  task_steps is_uuid key db s n db' -> task_state db -> bet_task_configs db.(app) !! key.1.1 = Some row ->
  let T := tc_threshold_minor row in
  custody db' /\ count_of key db' = count_of key db + n /\
  progress_of key db' + (count_of key db + n) * T <= progress_of key db + count_of key db * T + s /\
  (forall user currency stake placedAt db2, OnBetSettled user currency stake placedAt db' = Ok ((), db2) ->
     0 < stake /\ count_of key db2 = count_of key db' /\
     progress_of key db2 = progress_of key db' + counted key user currency stake placedAt db') /\
  forall t user id out db2, ClaimBetTask is_uuid t user id db' = Ok (out, db2) ->
    task_key id user (tm_BetDate out) = key -> exists row' c,
    bet_task_configs db'.(app) !! id = Some row' /\ scanConfig id row' = Ok c /\
    tk_ThresholdMinor c <= progress_of key db' /\ progress_of key db2 = 0 /\
    tm_CompleteCount out = count_of key db' + 1 /\ count_of key db2 = count_of key db' + 1 /\
    (0 < tk_MaxCompleteCount c -> count_of key db2 <= tk_MaxCompleteCount c) /\
    custody db2 /\
    (forall i u cur, owns db2.(money) i u cur -> avail db2.(money) i =
       avail db'.(money) i + (if bool_decide (u = user) then rewards_in cur (tk_Rewards c) else 0)) /\
    (forall t', (forall kind, periodDate kind (betDateAt (go_now t')) = periodDate kind (betDateAt (go_now t))) ->
       exists e, ClaimBetTask is_uuid t' user id db2 = Err e).
Proof.
  intros Hsteps Hst Hrow T. destruct (task_steps_keep _ _ _ _ _ _ Hsteps Hst) as ([Hcu' Hpr' Hts'] & _ & Hn & Hsc).
  split; [done|split; [done|split; [|split]]].
  { specialize (Hsc row Hrow). unfold score in Hsc. rewrite Hn in Hsc. exact Hsc. }
  { intros user currency stake placedAt db2 Hrun.
    destruct (OnBetSettled_counts _ _ _ _ _ _ _ Hrun Hts' Hpr') as (Hs & _ & _ & Hkeys). split; [done|apply Hkeys]. }
  intros t user id out db2 Hrun Hkey.
  destruct (ClaimBetTask_run _ _ _ _ _ _ _ Hrun Hcu')
    as (row' & c & p & Hrow' & _ & _ & Hc & _ & Hp & Hth & Hmax & Hout & Htp & _ & Hcu2 & _ & _ & Hav).
  rewrite Hkey in Hp, Htp. exists row', c. unfold progress_of, count_of. rewrite Htp, lookup_insert_eq, Hp. cbn.
  do 4 (split; [done|]). split; [done|split; [done|]]. split; [intros Hpos; specialize (Hmax Hpos); lia|].
  split; [done|split; [exact Hav|]]. intros t' Hday. by eapply ClaimBetTask_spent.
Qed.
End promise.

(** ** Witness *)

Definition example_task : task_config_row :=
  mk_task_config_row "POINTS" "POINTS" 1000 5 true "Bet" "daily" 0 2
    (JArr [JObj [("currency", JStr "POINTS"); ("amount_minor", JInt 5)]]%string) false 0.

Definition task_db : DB := set_app (set_bet_task_configs {[ "task-1" := example_task ]} bonus_db.(app)) bonus_db.

Definition played_db : DB := run_or (OnBetSettled "alice" "POINTS" 1500 (go_now noon)) task_db.

Definition example_key : string * string * string := ("task-1", "alice", "2025-06-15")%string.

Lemma with_tasks_state db : custody db -> task_progress db.(app) = ∅ ->
  task_state (set_app (set_bet_task_configs {[ "task-1"%string := example_task ]} db.(app)) db).
Proof.
  intros Hcu Hnone. split.
  - by apply (custody_app db).
  - unfold progress_ok. cbn [app set_app]. intros key p Hp. change (task_progress (app db) !! key = Some p) in Hp.
    rewrite Hnone in Hp. discriminate Hp.
  - unfold tasks_ok. intros id c Hc. cbn [app set_app set_bet_task_configs bet_task_configs] in Hc.
    apply lookup_singleton_Some in Hc as [_ <-]. done.
Qed.

Lemma task_db_state : task_state task_db.
Proof. apply with_tasks_state; [exact bonus_custody|vm_compute; reflexivity]. Qed.

Lemma task_rewards_earned_witness : exists out db2,
  ClaimBetTask any_uuid noon "alice" "task-1" played_db = Ok (out, db2) /\
  task_key "task-1" "alice" (tm_BetDate out) = example_key /\ progress_of example_key db2 = 0 /\ custody db2 /\
  exists e, ClaimBetTask any_uuid noon "alice" "task-1" db2 = Err e.
Proof.
  destruct (succeeds_Ok (fun x => bool_decide (task_key "task-1" "alice" (tm_BetDate x.1) = example_key))
    (ClaimBetTask any_uuid noon "alice" "task-1" played_db)) as ([out db2] & Hrun & Hkey%bool_decide_eq_true).
  { vm_compute. reflexivity. }
  exists out, db2. split; [exact Hrun|split; [exact Hkey|]].
  destruct (task_rewards_earned any_uuid example_key task_db (1500 + 0) (0 + 0) played_db example_task)
    as (_ & _ & _ & _ & Hclaim).
  - eapply (steps_more _ _ _ 1500 0 played_db); [|apply steps_done].
    assert (E : counts_for example_key "alice" "POINTS" (go_now noon) task_db = true) by (vm_compute; reflexivity).
    pose proof (step_bet any_uuid example_key "alice" "POINTS" 1500 (go_now noon) task_db played_db) as Hstep.
    rewrite E in Hstep. apply Hstep. unfold played_db, run_or.
    destruct (succeeds_Ok (fun _ => true) (OnBetSettled "alice" "POINTS" 1500 (go_now noon) task_db))
      as ([[] d] & Hd & _); [vm_compute; reflexivity|]. by rewrite Hd.
  - exact task_db_state.
  - vm_compute. reflexivity.
  - destruct (Hclaim noon "alice"%string "task-1"%string out db2 Hrun Hkey)
      as (row' & c & _ & _ & _ & Hzero & _ & _ & _ & Hcu & _ & Hagain).
    split; [exact Hzero|split; [exact Hcu|]]. apply Hagain. reflexivity.
Defined.
