(* ===== verification/RedPacket.v ===== *)
(** * Red packets

    [application/redpacket]: funding a packet (create.go), claiming a share
    (claim.go), refunding an expired packet (refund.go).  The clock and the
    random source are arguments. *)

From S2P Require Import Prelude GoStrings Money Json Schema Store Books Custody Wallet.

(** ** model.go *)

Definition ErrInvalidPacket : error := Sentinel "redpacket.ErrInvalidPacket".
Definition ErrVirtualAccount : error := Sentinel "redpacket.ErrVirtualAccount".
Definition ErrPacketNotFound : error := Sentinel "redpacket.ErrPacketNotFound".
Definition ErrPacketUnavailable : error := Sentinel "redpacket.ErrPacketUnavailable".
Definition ErrSenderCannotClaim : error := Sentinel "redpacket.ErrSenderCannotClaim".
Definition ErrRoomAccessDenied : error := Sentinel "redpacket.ErrRoomAccessDenied".
Definition ErrInsufficientBalance : error := Sentinel "redpacket.ErrInsufficientBalance".
Definition ErrRandomSource : error := Sentinel "crypto/rand failed".

(** [Packet] is its row with the identifier. *)
Record Packet : Type := mk_Packet {
  p_ID : string;
  p_row : packet_row
}.

Record CreateInput : Type := mk_CreateInput {
  ci_RoomID : string;
  ci_SenderUserID : string;
  ci_ClientRequestID : string;
  ci_Currency : string;
  ci_Greeting : string;
  ci_TotalMinor : Z;
  ci_PacketCount : Z
}.

Record Claim : Type := mk_Claim {
  cl_ID : string;
  cl_RedPacketID : string;
  cl_UserID : string;
  cl_Currency : string;
  cl_AmountMinor : Z;
  cl_ClaimedAt : Z
}.

Section redpacket.
Context `{Uuids}.

(** ** service.go *)

Definition requireRealAccount (userID : string) : Tx () :=
  u ← gets (fun db => users db.(app) !! userID);
  user ← found ErrNoRows u;
  reject_if (u_is_virtual user) ErrVirtualAccount.

Definition mapNotFound (o : option packet_row) : Tx packet_row := found ErrPacketNotFound o.

(** ** create.go *)

Definition roomAudience (roomID userID : string) : Tx (bool * list string) :=
  r ← gets (fun db => chat_rooms db.(app) !! roomID);
  room ← found ErrRoomAccessDenied r;
  if bool_decide (cr_room_type room = "global"%string) ||
     bool_decide (cr_room_type room = "game"%string) then mret (true, [])
  else
    member ← gets (fun db => bool_decide ((roomID, userID) ∈ chat_room_members db.(app)));
    reject_if (negb member) ErrRoomAccessDenied;;
    userIDs ← gets (fun db => map snd (List.filter
      (fun m => bool_decide (m.1 = roomID)) (chat_room_members db.(app))));
    mret (false, userIDs).

Definition findByRequest (userID requestID : string) : Tx (option (string * packet_row)) :=
  select_where (R := packet_row) (fun _ p =>
    bool_decide (rp_sender_user_id p = userID) && bool_decide (rp_client_request_id p = requestID)).

Definition normalize (i : CreateInput) : CreateInput :=
  mk_CreateInput (ci_RoomID i) (ci_SenderUserID i) (TrimSpace (ci_ClientRequestID i))
    (ToUpper (TrimSpace (ci_Currency i))) (TrimSpace (ci_Greeting i)) (ci_TotalMinor i)
    (ci_PacketCount i).

Definition valid_input (input : CreateInput) (ttl : Z) : bool :=
  negb (bool_decide (ci_SenderUserID input = ""%string) || bool_decide (ci_RoomID input = ""%string) ||
    bool_decide (ci_ClientRequestID input = ""%string) || (128 <? str_len (ci_ClientRequestID input)) ||
    negb (bool_decide (ci_Currency input ∈ ["USDT"; "POINTS"; "JADE"; "ORIGIN_STONE"])) ||
    (ci_TotalMinor input <=? 0) || (ci_PacketCount input <=? 0) || (100 <? ci_PacketCount input) ||
    (ci_TotalMinor input <? ci_PacketCount input) || (100 <? rune_len (ci_Greeting input)) ||
    (ttl <=? 0)).

(** CHECK (currency IN ('USDT', 'POINTS')) of migration 0019. *)
Definition currency_check (currency : string) : Tx () :=
  reject_if (negb (bool_decide (currency ∈ ["USDT"; "POINTS"])))
    (CheckViolation "red_packets_currency_check").

Definition packet_payload (id : string) (p : packet_row) (fields : list (string * json)) : json :=
  JObj (("red_packet_id", JStr id) :: ("room_id", JStr (rp_room_id p)) :: fields).

Definition audience_fields (a : bool * list string) : list (string * json) :=
  [("broadcast", JBool a.1); ("user_ids", JArr (map JStr a.2))].

Definition Create (t : clock) (ttl : Z) (input0 : CreateInput) : Tx (Packet * bool) :=
  let input := normalize input0 in
  reject_if (negb (valid_input input ttl)) ErrInvalidPacket;;
  requireRealAccount (ci_SenderUserID input);;
  existing ← findByRequest (ci_SenderUserID input) (ci_ClientRequestID input);
  match existing with
  | Some (id, p) => mret (mk_Packet id p, false)
  | None =>
      audience ← roomAudience (ci_RoomID input) (ci_SenderUserID input);
      w ← find_wallet (ci_SenderUserID input) (ci_Currency input);
      wallet ← found ErrNoRows w;
      let '(walletID, row) := wallet in
      reject_if (w_available row <? ci_TotalMinor input) ErrInsufficientBalance;;
      let balance := (w_available row - ci_TotalMinor input)%i64 in
      let now := go_now t in
      packetID ← new_uuid;
      currency_check (ci_Currency input);;
      let packet := mk_packet_row (ci_RoomID input) (ci_SenderUserID input) walletID
        (ci_ClientRequestID input) (ci_Currency input) (ci_Greeting input) (ci_TotalMinor input)
        (ci_TotalMinor input) (ci_PacketCount input) 0 "active" (now + ttl) (sql_now t) in
      insert_row (fun p => bool_decide (rp_sender_user_id p = ci_SenderUserID input) &&
                           bool_decide (rp_client_request_id p = ci_ClientRequestID input))
        packetID packet;;
      update_wallet walletID (fun _ => balance) w_frozen now;;
      entryID ← new_uuid;
      insert_ledger (entry entryID walletID "red_packet" packetID "red_packet_fund"
                       (- ci_TotalMinor input)%i64 balance) (sql_now t);;
      eventID ← new_uuid;
      insert_outbox eventID "red_packet" packetID "chat.red_packet.created"
        (packet_payload packetID packet (audience_fields audience)) now;;
      mret (mk_Packet packetID packet, true)
  end.

(** ** claim.go *)

Definition claimAmount (random : Z -> res Z) (remaining slots : Z) : res Z :=
  if slots <=? 1 then Ok remaining
  else
    let maximum := (remaining - (slots - 1)%i64)%i64 in
    let doubleAverage := (2 * (remaining / slots)%i64)%i64 in
    let maximum := if (0 <? doubleAverage) && (doubleAverage <? maximum)
      then doubleAverage else maximum in
    r ← random maximum;
    Ok (r + 1)%i64.

Definition findClaim (packetID userID : string) : Tx (option Claim) :=
  c ← select_where (R := claim_row) (fun _ c =>
    bool_decide (rc_red_packet_id c = packetID) && bool_decide (rc_user_id c = userID));
  gets (fun db => x ← c; p ← red_packets db.(app) !! rc_red_packet_id x.2;
    Some (mk_Claim x.1 (rc_red_packet_id x.2) (rc_user_id x.2) (rp_currency p)
            (rc_amount_minor x.2) (rc_claimed_at x.2))).

Definition set_packet (remaining claimed : Z) (status : string) (p : packet_row) : packet_row :=
  mk_packet_row (rp_room_id p) (rp_sender_user_id p) (rp_wallet_id p) (rp_client_request_id p)
    (rp_currency p) (rp_greeting p) (rp_total_minor p) remaining (rp_packet_count p) claimed
    status (rp_expires_at p) (rp_created_at p).

(** UPDATE red_packets, with CHECK (remaining_minor >= 0). *)
Definition update_packet (id : string) (f : packet_row -> packet_row) : Tx () := fun db =>
  match red_packets db.(app) !! id with
  | Some p =>
      if rp_remaining_minor (f p) <? 0 then Err (CheckViolation "red_packets_remaining_minor_check")
      else Ok ((), put_row id (f p) db)
  | None => Ok ((), db)
  end.

Definition claim_payload (id : string) (c : Claim) (p : packet_row) (a : bool * list string) : json :=
  packet_payload id p (("claim", JObj [("id", JStr (cl_ID c)); ("user_id", JStr (cl_UserID c));
    ("currency", JStr (cl_Currency c)); ("amount_minor", JInt (cl_AmountMinor c))])
    :: audience_fields a).

Definition do_claim (t : clock) (random : Z -> res Z) (packetID userID : string) : Tx (Claim * bool) :=
  requireRealAccount userID;;
  existing ← findClaim packetID userID;
  match existing with
  | Some c => mret (c, false)
  | None =>
      p ← gets (fun db => red_packets db.(app) !! packetID);
      packet ← mapNotFound p;
      reject_if (bool_decide (rp_sender_user_id packet = userID)) ErrSenderCannotClaim;;
      reject_if (negb (bool_decide (rp_status packet = "active"%string)) ||
                 (rp_expires_at packet <=? go_now t) ||
                 (rp_packet_count packet <=? rp_claimed_count packet) ||
                 (rp_remaining_minor packet <=? 0)) ErrPacketUnavailable;;
      audience ← roomAudience (rp_room_id packet) userID;
      let remainingSlots := rp_packet_count packet - rp_claimed_count packet in
      amount ← lift (claimAmount random (rp_remaining_minor packet) remainingSlots);
      w ← find_wallet userID (rp_currency packet);
      wallet ← found ErrNoRows w;
      let '(walletID, row) := wallet in
      reject_if ((int64_max - amount)%i64 <? w_available row)
        (Sentinel "red packet claim would overflow wallet");;
      let balance := (w_available row + amount)%i64 in
      let now := go_now t in
      claimID ← new_uuid;
      let claim := mk_Claim claimID packetID userID (rp_currency packet) amount now in
      reject_if (amount <=? 0) (CheckViolation "red_packet_claims_amount_minor_check");;
      insert_row (fun c => bool_decide (rc_red_packet_id c = packetID) &&
                           bool_decide (rc_user_id c = userID))
        claimID (mk_claim_row packetID userID walletID amount now);;
      let remaining := (rp_remaining_minor packet - amount)%i64 in
      let claimed := rp_claimed_count packet + 1 in
      let status := if (claimed =? rp_packet_count packet) || (remaining =? 0)
        then "exhausted"%string else rp_status packet in
      update_packet packetID (set_packet remaining claimed status);;
      update_wallet walletID (fun _ => balance) w_frozen now;;
      entryID ← new_uuid;
      insert_ledger (entry entryID walletID "red_packet" claimID "red_packet_claim" amount balance)
        (sql_now t);;
      eventID ← new_uuid;
      insert_outbox eventID "red_packet" packetID "chat.red_packet.claimed"
        (claim_payload packetID claim packet audience) now;;
      mret (claim, true)
  end.

(** ** refund.go *)

Definition refundOne (t : clock) (packetID : string) : Tx bool :=
  p ← gets (fun db => red_packets db.(app) !! packetID);
  match p with
  | None => mret false
  | Some packet =>
      if negb (bool_decide (rp_status packet = "active"%string)) ||
         (go_now t <? rp_expires_at packet) then mret false
      else
        w ← wallet_by_id (rp_wallet_id packet);
        wallet ← found ErrNoRows w;
        let remaining := rp_remaining_minor packet in
        reject_if ((int64_max - remaining)%i64 <? w_available wallet)
          (Sentinel "red packet refund would overflow wallet");;
        let balance := (w_available wallet + remaining)%i64 in
        let now := go_now t in
        update_packet packetID (fun q => set_packet 0 (rp_claimed_count q) "refunded" q);;
        update_wallet (rp_wallet_id packet) (fun _ => balance) w_frozen now;;
        (if 0 <? remaining then
           entryID ← new_uuid;
           insert_ledger (entry entryID (rp_wallet_id packet) "red_packet" packetID
                            "red_packet_refund" remaining balance) (sql_now t)
         else mret ());;
        audience ← (fun db => match roomAudience (rp_room_id packet) (rp_sender_user_id packet) db with
          | Err e => if bool_decide (e = ErrRoomAccessDenied)
                     then Ok ((false, [rp_sender_user_id packet]), db) else Err e
          | ok => ok end);
        eventID ← new_uuid;
        insert_outbox eventID "red_packet" packetID "chat.red_packet.refunded"
          (packet_payload packetID packet
             (("refund_minor", JInt remaining) :: ("currency", JStr (rp_currency packet))
                :: audience_fields audience)) now;;
        mret true
  end.

Definition expires_before (x y : string * packet_row) : Prop :=
  rp_expires_at x.2 <= rp_expires_at y.2.

#[export] Instance expires_before_dec x y : Decision (expires_before x y) := Z_le_dec _ _.

(** One transaction per packet; the first error stops the loop, which keeps the
    count of those already refunded. *)
Fixpoint refund_loop (t : clock) (ids : list string) (refunded : Z) : Svc Z := fun db =>
  match ids with
  | [] => (Ok refunded, db)
  | id :: rest =>
      match atomically (refundOne t id) db with
      | (Err e, db') => (Err e, db')
      | (Ok changed, db') => refund_loop t rest (if changed then refunded + 1 else refunded) db'
      end
  end.

Definition RefundExpired (t : clock) (limit : Z) : Svc Z :=
  let limit := if (limit <=? 0) || (1000 <? limit) then 100 else limit in
  rows ← atomically (select_all (R := packet_row) (fun _ p =>
    bool_decide (rp_status p = "active"%string) && (rp_expires_at p <=? go_now t)));
  refund_loop t (map fst (take (Z.to_nat limit) (merge_sort expires_before rows))) 0.

End redpacket.
