(* ===== verification/RedPacketProofs.v ===== *)
(** * Red packets: what holds

    Shares are between one unit and what leaves one unit for every other slot,
    the shares of a packet add up to its total, nothing is claimed twice, and a
    packet moves money without creating or destroying any. *)

From S2P Require Import Prelude GoStrings Money Json Schema Store Books Custody Wallet RedPacket Examples ChainProofs.

(** ** The share *)

(** What the platform's random source promises: a value below the bound, which
    must be positive. *)
Definition random_contract (random : Z -> res Z) : Prop := forall max r,
  random max = Ok r -> 0 < max -> 0 <= r < max.

Lemma claimAmount_bounds random remaining slots amount :
  random_contract random -> 1 <= slots <= remaining -> remaining <= int64_max ->
  claimAmount random remaining slots = Ok amount ->
  1 <= amount <= remaining - (slots - 1) /\ (slots = 1 -> amount = remaining).
Proof.
  intros Hr Hs Hmax. unfold claimAmount. destruct (slots <=? 1) eqn:E; bool_to_prop.
  { intros [= <-]. lia. }
  assert (Hq : (remaining / slots)%i64 = Z.div remaining slots).
  { rewrite Z.quot_div_nonneg by lia. apply wrap64_small.
    pose proof (Z.div_pos remaining slots). pose proof (Z.div_le_upper_bound remaining slots remaining).
    unfold in_int64, int64_min. nia. }
  assert (Hdiv : 1 <= Z.div remaining slots /\ 2 * Z.div remaining slots <= remaining).
  { split; [apply Z.div_le_lower_bound; lia|]. pose proof (Z.mul_div_le remaining slots). nia. }
  rewrite Hq, (exact_sub_pos slots 1), (exact_sub_pos remaining (slots - 1))
    by (unfold int64_max in *; lia).
  rewrite (wrap64_small (2 * _)) by (unfold in_int64, int64_min; lia).
  set (maximum := if _ && _ then _ else _).
  assert (Hm : 1 <= maximum <= remaining - (slots - 1)).
  { unfold maximum. destruct (0 <? _) eqn:E1; destruct (_ <? _) eqn:E2 in |- *;
      cbn [andb]; bool_to_prop; lia. }
  intros (r & Hrun & [= <-])%res_bind_Ok. specialize (Hr _ _ Hrun).
  rewrite wrap64_small by (unfold in_int64, int64_min; lia). lia.
Qed.

(** ** The invariant of the packets *)

Definition claimed_of (id : string) (c : claim_row) : Z :=
  if bool_decide (rc_red_packet_id c = id) then rc_amount_minor c else 0.

Definition counted_of (id : string) (c : claim_row) : Z :=
  if bool_decide (rc_red_packet_id c = id) then 1 else 0.

Record packet_ok (db : DB) (id : string) (p : packet_row) : Prop := {
  pk_wallet : owns db.(money) (rp_wallet_id p) (rp_sender_user_id p) (rp_currency p);
  pk_total : 0 < rp_total_minor p <= int64_max;
  pk_count : sum_map (counted_of id) (claims db.(app)) = rp_claimed_count p;
  pk_state :
    rp_status p = "active"%string /\
      0 <= rp_claimed_count p < rp_packet_count p /\
      rp_packet_count p - rp_claimed_count p <= rp_remaining_minor p /\
      sum_map (claimed_of id) (claims db.(app)) + rp_remaining_minor p = rp_total_minor p /\
      0 <= sum_map (claimed_of id) (claims db.(app)) \/
    rp_status p = "exhausted"%string /\ rp_remaining_minor p = 0 /\
      rp_claimed_count p = rp_packet_count p /\
      sum_map (claimed_of id) (claims db.(app)) = rp_total_minor p \/
    rp_status p = "refunded"%string /\ rp_remaining_minor p = 0 /\
      0 <= sum_map (claimed_of id) (claims db.(app)) < rp_total_minor p
}.

Record packets_ok (db : DB) : Prop := {
  ps_packets : forall id p, red_packets db.(app) !! id = Some p -> packet_ok db id p;
  ps_claims : forall id c, claims db.(app) !! id = Some c ->
    is_Some (red_packets db.(app) !! rc_red_packet_id c);
  ps_once : forall i j c d, claims db.(app) !! i = Some c -> claims db.(app) !! j = Some d ->
    rc_red_packet_id c = rc_red_packet_id d -> rc_user_id c = rc_user_id d -> i = j
}.

(** ** What a transaction of the component does *)

Inductive packet_event (db db' : DB) : Prop :=
| pe_none :
    money db' = money db -> red_packets db'.(app) = red_packets db.(app) ->
    claims db'.(app) = claims db.(app) -> packet_event db db'
| pe_create id p w w' r :
    red_packets db.(app) !! id = None ->
    red_packets db'.(app) = <[id := p]> (red_packets db.(app)) ->
    claims db'.(app) = claims db.(app) ->
    posted db db' (rp_wallet_id p) w w' r ->
    le_available_delta r = - rp_total_minor p -> le_frozen_delta r = 0 ->
    w_user_id w = rp_sender_user_id p -> w_currency w = rp_currency p ->
    rp_currency p ∈ ["USDT"; "POINTS"] ->
    rp_status p = "active"%string -> rp_claimed_count p = 0 ->
    rp_remaining_minor p = rp_total_minor p ->
    1 <= rp_packet_count p <= rp_total_minor p -> rp_total_minor p <= int64_max ->
    packet_event db db'
| pe_claim id p cid c w w' r :
    red_packets db.(app) !! id = Some p -> claims db.(app) !! cid = None ->
    find_row (fun _ d => bool_decide (rc_red_packet_id d = id) &&
      bool_decide (rc_user_id d = rc_user_id c)) (claims db.(app)) = None ->
    claims db'.(app) = <[cid := c]> (claims db.(app)) ->
    rc_red_packet_id c = id ->
    rp_status p = "active"%string -> rp_claimed_count p < rp_packet_count p ->
    rc_user_id c <> rp_sender_user_id p ->
    (let slots := rp_packet_count p - rp_claimed_count p in
     1 <= rc_amount_minor c <= rp_remaining_minor p - (slots - 1) /\
     (slots = 1 -> rc_amount_minor c = rp_remaining_minor p)) ->
    (let remaining := rp_remaining_minor p - rc_amount_minor c in
     let claimed := rp_claimed_count p + 1 in
     red_packets db'.(app) = <[id := set_packet remaining claimed
       (if (claimed =? rp_packet_count p) || (remaining =? 0) then "exhausted" else "active") p]>
       (red_packets db.(app))) ->
    posted db db' (rc_wallet_id c) w w' r ->
    le_available_delta r = rc_amount_minor c -> le_frozen_delta r = 0 ->
    w_user_id w = rc_user_id c -> w_currency w = rp_currency p ->
    packet_event db db'
| pe_refund id p w w' r :
    red_packets db.(app) !! id = Some p -> rp_status p = "active"%string ->
    claims db'.(app) = claims db.(app) ->
    red_packets db'.(app) = <[id := set_packet 0 (rp_claimed_count p) "refunded" p]>
      (red_packets db.(app)) ->
    posted db db' (rp_wallet_id p) w w' r ->
    le_available_delta r = rp_remaining_minor p -> le_frozen_delta r = 0 ->
    w_currency w = rp_currency p ->
    packet_event db db'.

Lemma remaining_bounds db id p :
  packet_ok db id p -> 0 <= rp_remaining_minor p <= rp_total_minor p.
Proof. intros [_ ? _ [(? & ? & ? & ? & ?)|[(? & ? & ? & ?)|(? & ? & ?)]]]; lia. Qed.

Lemma active_bounds db id p :
  packet_ok db id p -> rp_status p = "active"%string ->
  1 <= rp_packet_count p - rp_claimed_count p <= rp_remaining_minor p.
Proof.
  intros [_ _ _ [(? & ? & ? & ? & ?)|[(? & ? & ? & ?)|(? & ? & ?)]]] Hs;
    [lia|by rewrite Hs in *..].
Qed.

Section operations.
Context `{Uuids}.

Lemma requireRealAccount_Ok u db x db' : requireRealAccount u db = Ok (x, db') -> db' = db.
Proof. unfold requireRealAccount. intros Hrun. by tx_steps. Qed.

Lemma roomAudience_Ok room u db x db' : roomAudience room u db = Ok (x, db') -> db' = db.
Proof. unfold roomAudience. intros Hrun. by tx_steps. Qed.

Lemma update_packet_Ok id f db u db' :
  update_packet id f db = Ok (u, db') ->
  (red_packets db.(app) !! id = None /\ db' = db) \/
  exists p, red_packets db.(app) !! id = Some p /\ 0 <= rp_remaining_minor (f p) /\
    db' = put_row id (f p) db.
Proof.
  unfold update_packet. destruct (red_packets (app db) !! id) as [p|].
  - destruct (_ <? 0) eqn:E; [done|]. bool_to_prop. intros [= _ <-]. right. by exists p.
  - intros [= _ <-]. by left.
Qed.

Lemma Create_event t ttl input db r db' :
  ci_TotalMinor input <= int64_max ->
  Create t ttl input db = Ok (r, db') -> custody db -> packet_event db db'.
Proof.
  unfold Create, findByRequest, select_where, find_wallet, currency_check.
  intros Hmax Hrun Hcu. cbv zeta in Hrun. tx_steps; bool_to_prop.
  all: repeat match goal with
    | E : requireRealAccount _ _ = Ok _ |- _ => apply requireRealAccount_Ok in E as ->
    | E : roomAudience _ _ _ = Ok _ |- _ => apply roomAudience_Ok in E as -> end.
  all: try by apply pe_none.
  all: money_simpl; wallet_rows.
  match goal with E : valid_input _ _ = true |- _ =>
    unfold valid_input in E; apply negb_true_iff in E; bool_to_prop end.
  change (ci_TotalMinor (normalize input)) with (ci_TotalMinor input) in *.
  simplify_map_eq.
  match goal with E : wallets (money db0) !! s = Some ?x |- _ => rename x into wal;
    pose proof (bounded_lookup _ _ _ (cu_books _ Hcu) E) as [Hba Hbf] end.
  assert (Hax : (w_available wal - ci_TotalMinor input)%i64 = w_available wal - ci_TotalMinor input)
    by (apply exact_sub; lia).
  assert (Hnx : (- ci_TotalMinor input)%i64 = - ci_TotalMinor input) by (apply exact_neg; lia).
  eapply (pe_create _ _ (drawn db0)); try done.
  - split; try done; cbn; rewrite ?Hnx, ?Hax; lia.
  - exact Hnx.
  - reflexivity.
  - cbn in *. lia.
Qed.

Lemma do_claim_event t random packetID userID db r db' :
  random_contract random ->
  do_claim t random packetID userID db = Ok (r, db') -> custody db -> packets_ok db ->
  packet_event db db'.
Proof.
  unfold do_claim, findClaim, select_where, find_wallet, mapNotFound.
  intros Hrand Hrun Hcu Hps. cbv zeta in Hrun. tx_steps; bool_to_prop.
  all: repeat match goal with
    | E : requireRealAccount _ _ = Ok _ |- _ => apply requireRealAccount_Ok in E as ->
    | E : roomAudience _ _ _ = Ok _ |- _ => apply roomAudience_Ok in E as ->
    | E : update_packet _ _ _ = Ok _ |- _ => apply update_packet_Ok in E as [[? ->]|(? & ? & ? & ->)] end.
  all: try by apply pe_none.
  all: money_simpl; wallet_rows.
  all: try (cbn in *; congruence).
  match goal with E : red_packets (app ?d) !! packetID = Some ?p,
                  E' : claimAmount _ _ _ = Ok ?x |- packet_event ?d _ =>
    rename p into pk; rename x into amount; rename E into Hpk; rename E' into Hamount end.
  pose proof (ps_packets _ Hps _ _ Hpk) as Hok. pose proof (remaining_bounds _ _ _ Hok) as Hrem.
  pose proof (pk_total _ _ _ Hok) as Htot.
  assert (Hact : rp_status pk = "active"%string) by congruence.
  pose proof (active_bounds _ _ _ Hok Hact) as Hslots.
  pose proof (claimAmount_bounds _ _ _ _ Hrand Hslots ltac:(lia) Hamount) as Hshare.
  simplify_map_eq.
  try match goal with E : red_packets _ !! packetID = Some ?y |- _ =>
    cbn in E; assert (y = pk) as -> by congruence; clear E end.
  match goal with E : wallets (money db) !! s = Some ?x |- _ => rename x into wal;
    pose proof (bounded_lookup _ _ _ (cu_books _ Hcu) E) as [Hba Hbf] end.
  assert (Hrx : (rp_remaining_minor pk - amount)%i64 = rp_remaining_minor pk - amount)
    by (apply exact_sub_pos; lia).
  assert (Hmx : (int64_max - amount)%i64 = int64_max - amount)
    by (apply exact_sub_pos; unfold int64_max in *; lia).
  rewrite Hmx in *. cbn [set_packet rp_remaining_minor] in *. rewrite Hrx in *.
  assert (Hax : (w_available wal + amount)%i64 = w_available wal + amount)
    by (apply wrap64_small; unfold in_int64, int64_min; lia).
  eapply (pe_claim _ _ packetID pk (drawn db)); try done.
  - match goal with E : find_row _ _ = None |- _ => exact E end.
  - cbn. match goal with E : rp_status _ = _ |- _ => rewrite E end. reflexivity.
  - split; try done; cbn; rewrite ?Hax; lia.
  - done.
  - done.
Qed.

Lemma audience_or_sender_Ok room sender db x db' :
  match roomAudience room sender db with
  | Err e => if bool_decide (e = ErrRoomAccessDenied) then Ok ((false, [sender]), db) else Err e
  | ok => ok end = Ok (x, db') -> db' = db.
Proof.
  destruct (roomAudience room sender db) as [[]|] eqn:E.
  - intros [= _ <-]. by eapply roomAudience_Ok.
  - case_bool_decide; [by intros [= _ <-]|done].
Qed.

Lemma refundOne_event t packetID db r db' :
  refundOne t packetID db = Ok (r, db') -> custody db -> packets_ok db -> packet_event db db'.
Proof.
  unfold refundOne, wallet_by_id. intros Hrun Hcu Hps. cbv zeta in Hrun. tx_steps; bool_to_prop.
  all: repeat match goal with
    | E : update_packet _ _ _ = Ok _ |- _ => apply update_packet_Ok in E as [[? ->]|(? & ? & ? & ->)]
    | E : match roomAudience _ _ _ with _ => _ end = Ok _ |- _ => apply audience_or_sender_Ok in E as -> end.
  all: try by apply pe_none.
  all: money_simpl; try (cbn in *; congruence).
  all: match goal with E : red_packets _ !! ?i = Some ?p |- packet_event ?d _ =>
    rename p into pk; rename E into Hpk end.
  all: pose proof (ps_packets _ Hps _ _ Hpk) as Hok; pose proof (remaining_bounds _ _ _ Hok) as Hrem.
  all: pose proof (pk_total _ _ _ Hok) as Htot; destruct (pk_wallet _ _ _ Hok) as (wl & Hwl & Hwu & Hwc).
  all: simplify_map_eq; 
    pose proof (active_bounds _ _ _ Hok ltac:(assumption)) as Hact; try lia.
  match goal with E : wallets (money _) !! _ = Some ?x |- _ => rename x into wal;
    pose proof (bounded_lookup _ _ _ (cu_books _ Hcu) E) as [Hba Hbf] end.
  assert (Hmx : (int64_max - rp_remaining_minor p)%i64 = int64_max - rp_remaining_minor p)
    by (apply exact_sub_pos; unfold int64_max in *; lia).
  rewrite Hmx in *.
  assert (Hax : (w_available wal + rp_remaining_minor p)%i64 = w_available wal + rp_remaining_minor p)
    by (apply wrap64_small; unfold in_int64, int64_min; lia).
  eapply (pe_refund _ _ packetID p); try done;
    [split; try done; cbn; rewrite ?Hax; lia|done|done].
Qed.

End operations.

(** ** The invariant is kept *)

Lemma sum_counted id c (t : gmap string claim_row) cid :
  t !! cid = None ->
  sum_map (counted_of id) (<[cid := c]> t) = counted_of id c + sum_map (counted_of id) t /\
  sum_map (claimed_of id) (<[cid := c]> t) = claimed_of id c + sum_map (claimed_of id) t.
Proof. intros Hc. by rewrite !sum_map_insert. Qed.

Lemma no_claims (t : gmap string claim_row) id :
  (forall i c, t !! i = Some c -> rc_red_packet_id c <> id) ->
  sum_map (counted_of id) t = 0 /\ sum_map (claimed_of id) t = 0.
Proof.
  intros Hno. unfold sum_map, counted_of, claimed_of.
  induction t as [|i c t Hi Hfst IH] using map_first_key_ind; [by rewrite !map_fold_empty|].
  rewrite !map_fold_insert_L by (done || intros; lia).
  rewrite bool_decide_false by (by apply (Hno i); rewrite lookup_insert_eq).
  destruct IH as [-> ->]; [|lia]. intros j x Hj. apply (Hno j).
  rewrite lookup_insert_ne; [done|congruence].
Qed.

(** The other packets and their claims are as they were. *)
Lemma packet_ok_frame db db' id p :
  packet_ok db id p -> keeps_owners db.(money) db'.(money) ->
  sum_map (counted_of id) (claims db'.(app)) = sum_map (counted_of id) (claims db.(app)) ->
  sum_map (claimed_of id) (claims db'.(app)) = sum_map (claimed_of id) (claims db.(app)) ->
  packet_ok db' id p.
Proof.
  intros [Hw Ht Hc Hs] Hk Hn Hm. split; [by eapply owns_kept|done|by rewrite Hn|by rewrite Hm].
Qed.

Lemma packet_event_owners db db' : packet_event db db' -> keeps_owners db.(money) db'.(money).
Proof.
  intros [Hm| | |]; [by rewrite Hm|by eapply posted_owners..].
Qed.

Lemma packets_create db db' id p :
  packets_ok db -> keeps_owners db.(money) db'.(money) ->
  red_packets db.(app) !! id = None -> red_packets db'.(app) = <[id := p]> (red_packets db.(app)) ->
  claims db'.(app) = claims db.(app) ->
  owns db.(money) (rp_wallet_id p) (rp_sender_user_id p) (rp_currency p) ->
  rp_status p = "active"%string -> rp_claimed_count p = 0 -> rp_remaining_minor p = rp_total_minor p ->
  1 <= rp_packet_count p <= rp_total_minor p -> rp_total_minor p <= int64_max ->
  packets_ok db'.
Proof.
  intros [Hp Hc Ho] Hk Hid Ht Hcl Hown Hs Hn Hrem Hcount Hmax.
  assert (Hfresh : forall i c, claims (app db) !! i = Some c -> rc_red_packet_id c <> id).
  { intros i c Hi <-. destruct (Hc i c Hi) as [x Hx]. congruence. }
  destruct (no_claims _ _ Hfresh) as [H0 H1].
  split.
  - intros i q. rewrite Ht. intros [[-> ->]|Hq]%lookup_insert_or.
    + split; [by eapply owns_kept|lia|rewrite Hcl; lia|left; rewrite Hcl, H1].
      split; [done|]. rewrite Hn, Hrem. lia.
    + eapply packet_ok_frame; [by apply Hp|done|by rewrite Hcl..].
  - intros i c. rewrite Hcl, Ht. intros Hi. apply lookup_insert_is_Some'. right. by eapply Hc.
  - rewrite Hcl. exact Ho.
Qed.

Lemma packets_claim db db' id p cid c :
  packets_ok db -> keeps_owners db.(money) db'.(money) ->
  red_packets db.(app) !! id = Some p -> claims db.(app) !! cid = None ->
  find_row (fun _ d => bool_decide (rc_red_packet_id d = id) &&
    bool_decide (rc_user_id d = rc_user_id c)) (claims db.(app)) = None ->
  claims db'.(app) = <[cid := c]> (claims db.(app)) -> rc_red_packet_id c = id ->
  rp_status p = "active"%string ->
  (let slots := rp_packet_count p - rp_claimed_count p in
   1 <= rc_amount_minor c <= rp_remaining_minor p - (slots - 1) /\
   (slots = 1 -> rc_amount_minor c = rp_remaining_minor p)) ->
  (let remaining := rp_remaining_minor p - rc_amount_minor c in
   let claimed := rp_claimed_count p + 1 in
   red_packets db'.(app) = <[id := set_packet remaining claimed
     (if (claimed =? rp_packet_count p) || (remaining =? 0) then "exhausted" else "active") p]>
     (red_packets db.(app))) ->
  packets_ok db'.
Proof.
  cbv zeta. intros [Hp Hc Ho] Hk Hid Hcid Hnew Hcl Hcp Hs [Hb Hlast] Ht.
  destruct (Hp id p Hid) as [Hw Htot Hcnt Hst].
  destruct Hst as [(_ & Hn & Hr & Hsum & Hpos)|[(? & _)|(? & _)]]; [|by rewrite Hs in *..].
  split.
  - intros i q. rewrite Ht. destruct (sum_counted i c _ _ Hcid) as [E1 E2].
    rewrite <- Hcl in E1, E2. unfold counted_of at 2 in E1. unfold claimed_of at 2 in E2.
    rewrite Hcp in E1, E2.
    destruct (decide (i = id)) as [->|Hne]; simplify_map_eq.
    + intros [= <-]. rewrite !bool_decide_true in * by done.
      split; cbn; [by eapply owns_kept|done|lia|]. rewrite E2.
      destruct (_ =? rp_packet_count p) eqn:Ec; cbn [orb]; bool_to_prop.
      { right. left. split; [done|]. assert (rc_amount_minor c = rp_remaining_minor p) by (apply Hlast; lia).
        lia. }
      assert (Hne : (rp_remaining_minor p - rc_amount_minor c =? 0) = false) by (apply Z.eqb_neq; lia).
      rewrite Hne. left. split; [done|lia].
    + intros Hq. rewrite !bool_decide_false in * by congruence.
      eapply packet_ok_frame; [by apply Hp|done|lia..].
  - intros i d. rewrite Hcl, Ht. intros [[-> ->]|Hd]%lookup_insert_or; apply lookup_insert_is_Some'.
    + left. by symmetry.
    + right. by eapply Hc.
  - assert (Hold : forall i d, claims (app db) !! i = Some d ->
      rc_red_packet_id d = id -> rc_user_id d <> rc_user_id c).
    { intros i d Hd Hdp Hdu. pose proof (find_row_None _ _ _ _ Hnew Hd) as Hf. cbn in Hf.
      by rewrite !bool_decide_true in Hf by done. }
    intros i j x y. rewrite Hcl.
    intros [[-> ->]|Hx]%lookup_insert_or [[-> ->]|Hy]%lookup_insert_or Hxy Hu; [done|..].
    + exfalso. apply (Hold j y Hy); congruence.
    + exfalso. apply (Hold i x Hx); congruence.
    + by eapply Ho.
Qed.

Lemma packets_refund db db' id p :
  packets_ok db -> keeps_owners db.(money) db'.(money) ->
  red_packets db.(app) !! id = Some p -> rp_status p = "active"%string ->
  claims db'.(app) = claims db.(app) ->
  red_packets db'.(app) = <[id := set_packet 0 (rp_claimed_count p) "refunded" p]> (red_packets db.(app)) ->
  packets_ok db'.
Proof.
  intros [Hp Hc Ho] Hk Hid Hs Hcl Ht.
  destruct (Hp id p Hid) as [Hw Htot Hcnt Hst].
  destruct Hst as [(_ & Hn & Hr & Hsum & Hpos)|[(? & _)|(? & _)]]; [|by rewrite Hs in *..].
  split.
  - intros i q. rewrite Ht. intros [[-> ->]|Hq]%lookup_insert_or.
    + split; cbn; [by eapply owns_kept|done|by rewrite Hcl|rewrite Hcl].
      right. right. split; [done|lia].
    + eapply packet_ok_frame; [by apply Hp|done|by rewrite Hcl..].
  - intros i c. rewrite Hcl, Ht. intros Hi. apply lookup_insert_is_Some'. right. by eapply Hc.
  - rewrite Hcl. exact Ho.
Qed.

Lemma packet_event_packets db db' : packet_event db db' -> packets_ok db -> packets_ok db'.
Proof.
  intros Hev Hps. pose proof (packet_event_owners _ _ Hev) as Hk. destruct Hev.
  - destruct Hps as [Hp Hc Ho]. split.
    + intros i q. replace (red_packets (app db')) with (red_packets (app db)) by done. intros Hq.
      eapply packet_ok_frame; [by apply Hp|done|by f_equal..].
    + replace (claims (app db')) with (claims (app db)) by done.
      by replace (red_packets (app db')) with (red_packets (app db)) by done.
    + by replace (claims (app db')) with (claims (app db)) by done.
  - eapply packets_create; try done. match goal with E : posted _ _ _ _ _ _ |- _ => destruct E end.
    eexists. split; [done|split; congruence].
  - by eapply packets_claim.
  - by eapply packets_refund.
Qed.

Lemma packet_event_custody db db' : packet_event db db' -> custody db -> 
  withdrawals db'.(app) = withdrawals db.(app) ->
  point_withdrawals db'.(app) = point_withdrawals db.(app) ->
  lulu_orders db'.(app) = lulu_orders db.(app) -> custody db'.
Proof.
  intros Hev Hcu Hw Hp Hl. apply (custody_quiet db); [done|..]; destruct Hev as [Hm| | |].
  - rewrite Hm. apply Hcu.
  - eapply posted_books; [done|apply Hcu].
  - eapply posted_books; [done|apply Hcu].
  - eapply posted_books; [done|apply Hcu].
  - by apply quiet_app.
  - by eapply posted_quiet.
  - by eapply posted_quiet.
  - by eapply posted_quiet.
Qed.

(** ** Money is conserved *)

Definition holding (c : string) (w : wallet_row) : Z :=
  if bool_decide (w_currency w = c) then w_available w + w_frozen w else 0.

Definition parked (c : string) (p : packet_row) : Z :=
  if bool_decide (rp_currency p = c) then rp_remaining_minor p else 0.

(** All the money of a currency: in wallets, and waiting in packets. *)
Definition supply (c : string) (db : DB) : Z :=
  sum_map (holding c) (wallets db.(money)) + sum_map (parked c) (red_packets db.(app)).

Lemma posted_holding c db db' wid w w' r :
  posted db db' wid w w' r ->
  sum_map (holding c) (wallets db'.(money)) = sum_map (holding c) (wallets db.(money)) +
    (if bool_decide (w_currency w = c) then le_available_delta r + le_frozen_delta r else 0).
Proof.
  intros [Hw _ _ Hc Hm _ Ha Hf _ _]. rewrite Hm. cbn [wallets].
  rewrite (sum_map_update _ _ _ w) by done. unfold holding. rewrite Hc. case_bool_decide; lia.
Qed.

Lemma packet_event_supply c db db' : packet_event db db' -> packets_ok db -> supply c db' = supply c db.
Proof.
  intros Hev Hps. unfold supply. destruct Hev as [Hm Hr _| | |]; [by rewrite Hm, Hr|..];
    cbv zeta in *;
    match goal with E : red_packets _ = _, P : posted _ _ _ _ _ _ |- _ =>
      rewrite E, (posted_holding c _ _ _ _ _ _ P) end;
    [rewrite sum_map_insert by done|rewrite (sum_map_update _ _ _ p) by done..];
    unfold parked; cbn [rp_currency rp_remaining_minor set_packet];
    repeat match goal with E : w_currency _ = _ |- _ => rewrite E; clear E end;
    case_bool_decide; lia.
Qed.

(** ** Histories of the component *)

Section history.
Context `{Uuids}.

(** One call of the service, or one transaction of the refund job. *)
Inductive packet_step (db db' : DB) : Prop :=
| ps_create t ttl input r :
    ci_TotalMinor input <= int64_max -> Create t ttl input db = Ok (r, db') -> packet_step db db'
| ps_claim t random id u r :
    random_contract random -> do_claim t random id u db = Ok (r, db') -> packet_step db db'
| ps_refund t id r : refundOne t id db = Ok (r, db') -> packet_step db db'.

Lemma Create_frame t ttl input db r db' :
  Create t ttl input db = Ok (r, db') ->
  withdrawals db'.(app) = withdrawals db.(app) /\
  point_withdrawals db'.(app) = point_withdrawals db.(app) /\ lulu_orders db'.(app) = lulu_orders db.(app) /\
  users db'.(app) = users db.(app).
Proof.
  unfold Create, findByRequest, select_where, find_wallet, currency_check.
  intros Hrun. cbv zeta in Hrun. tx_steps; bool_to_prop.
  all: repeat match goal with
    | E : requireRealAccount _ _ = Ok _ |- _ => apply requireRealAccount_Ok in E as ->
    | E : roomAudience _ _ _ = Ok _ |- _ => apply roomAudience_Ok in E as -> end.
  all: done.
Qed.

Lemma do_claim_frame t random id u db r db' :
  do_claim t random id u db = Ok (r, db') ->
  withdrawals db'.(app) = withdrawals db.(app) /\
  point_withdrawals db'.(app) = point_withdrawals db.(app) /\ lulu_orders db'.(app) = lulu_orders db.(app) /\
  users db'.(app) = users db.(app).
Proof.
  unfold do_claim, findClaim, select_where, find_wallet, mapNotFound.
  intros Hrun. cbv zeta in Hrun. tx_steps; bool_to_prop.
  all: repeat match goal with
    | E : requireRealAccount _ _ = Ok _ |- _ => apply requireRealAccount_Ok in E as ->
    | E : roomAudience _ _ _ = Ok _ |- _ => apply roomAudience_Ok in E as ->
    | E : update_packet _ _ _ = Ok _ |- _ => apply update_packet_Ok in E as [[? ->]|(? & ? & ? & ->)] end.
  all: done.
Qed.

Lemma refundOne_frame t id db r db' :
  refundOne t id db = Ok (r, db') ->
  withdrawals db'.(app) = withdrawals db.(app) /\
  point_withdrawals db'.(app) = point_withdrawals db.(app) /\ lulu_orders db'.(app) = lulu_orders db.(app) /\
  users db'.(app) = users db.(app).
Proof.
  unfold refundOne, wallet_by_id. intros Hrun. cbv zeta in Hrun. tx_steps; bool_to_prop.
  all: repeat match goal with
    | E : update_packet _ _ _ = Ok _ |- _ => apply update_packet_Ok in E as [[? ->]|(? & ? & ? & ->)]
    | E : match roomAudience _ _ _ with _ => _ end = Ok _ |- _ => apply audience_or_sender_Ok in E as -> end.
  all: done.
Qed.

Lemma packet_step_event db db' :
  packet_step db db' -> custody db -> packets_ok db ->
  packet_event db db' /\ custody db' /\ users db'.(app) = users db.(app).
Proof.
  intros Hst Hcu Hps.
  assert (packet_event db db' /\ withdrawals db'.(app) = withdrawals db.(app) /\
          point_withdrawals db'.(app) = point_withdrawals db.(app) /\
          lulu_orders db'.(app) = lulu_orders db.(app) /\
          users db'.(app) = users db.(app)) as (Hev & Hw & Hp & Hl & Hu).
  { destruct Hst; split.
    - by eapply Create_event.
    - by eapply Create_frame.
    - by eapply do_claim_event.
    - by eapply do_claim_frame.
    - by eapply refundOne_event.
    - by eapply refundOne_frame. }
  split; [done|split; [by eapply packet_event_custody|done]].
Qed.

Lemma packet_steps_sound db db' :
  rtc packet_step db db' -> custody db -> packets_ok db ->
  custody db' /\ packets_ok db' /\ forall c, supply c db' = supply c db.
Proof.
  induction 1 as [|d1 d2 d3 Hst _ IH]; intros Hcu Hps; [done|].
  destruct (packet_step_event _ _ Hst Hcu Hps) as (Hev & Hcu2 & _).
  destruct IH as (Hcu3 & Hps3 & Hsup); [done|by eapply packet_event_packets|].
  split; [done|split; [done|]]. intros c. rewrite Hsup. by eapply packet_event_supply.
Qed.

(** Claims and the currency of a packet are written once. *)
Lemma packet_event_kept db db' :
  packet_event db db' ->
  (forall i c, claims db.(app) !! i = Some c -> claims db'.(app) !! i = Some c) /\
  (forall i p, red_packets db.(app) !! i = Some p ->
     exists p', red_packets db'.(app) !! i = Some p' /\ rp_currency p' = rp_currency p).
Proof.
  intros [Hm Hr Hc|id p w w' r Hid Hr Hc|id p cid c w w' r Hid Hcid _ Hc _ _ _ _ _ Hr|
          id p w w' r Hid _ Hc Hr]; cbv zeta in Hr; split; rewrite ?Hc; try done; intros i x Hi; rewrite ?Hr.
  - by exists x.
  - exists x. by rewrite lookup_insert_ne by congruence.
  - by rewrite lookup_insert_ne by congruence.
  - destruct (decide (i = id)) as [->|]; simplify_map_eq; [by eexists|by exists x].
  - destruct (decide (i = id)) as [->|]; simplify_map_eq; [by eexists|by exists x].
Qed.

Lemma packet_steps_kept db db' :
  rtc packet_step db db' -> custody db -> packets_ok db ->
  users db'.(app) = users db.(app) /\
  (forall i c, claims db.(app) !! i = Some c -> claims db'.(app) !! i = Some c) /\
  (forall i p, red_packets db.(app) !! i = Some p ->
     exists p', red_packets db'.(app) !! i = Some p' /\ rp_currency p' = rp_currency p).
Proof.
  induction 1 as [d|d1 d2 d3 Hst _ IH]; intros Hcu Hps.
  { split; [done|split; [done|]]. intros i p Hp. by exists p. }
  destruct (packet_step_event _ _ Hst Hcu Hps) as (Hev & Hcu2 & Hu).
  destruct (packet_event_kept _ _ Hev) as [Hc Hp].
  destruct IH as (Hu' & Hc' & Hp'); [done|by eapply packet_event_packets|].
  split; [congruence|split; [by auto|]]. intros i p Hi.
  destruct (Hp i p Hi) as (p1 & H1 & E1). destruct (Hp' i p1 H1) as (p2 & H2 & E2).
  exists p2. split; [done|congruence].
Qed.

End history.

(** ** The results of a claim *)

Section results.
Context `{Uuids}.

Lemma do_claim_new t random id u db c db' :
  do_claim t random id u db = Ok ((c, true), db') ->
  exists p wid w usr,
    red_packets db.(app) !! id = Some p /\ rp_status p = "active"%string /\
    go_now t < rp_expires_at p /\ rp_sender_user_id p <> u /\
    users db.(app) !! u = Some usr /\ u_is_virtual usr = false /\
    users db'.(app) = users db.(app) /\
    c = mk_Claim (cl_ID c) id u (rp_currency p) (cl_AmountMinor c) (go_now t) /\
    claimAmount random (rp_remaining_minor p) (rp_packet_count p - rp_claimed_count p)
      = Ok (cl_AmountMinor c) /\
    find_row (is_wallet_of u (rp_currency p)) (wallets db.(money)) = Some (wid, w) /\
    w_available w <= (int64_max - cl_AmountMinor c)%i64 /\
    avail db'.(money) wid = (w_available w + cl_AmountMinor c)%i64 /\
    claims db'.(app) !! cl_ID c = Some (mk_claim_row id u wid (cl_AmountMinor c) (go_now t)).
Proof.
  unfold do_claim, findClaim, requireRealAccount, select_where, find_wallet, mapNotFound.
  intros Hrun. cbv zeta in Hrun. tx_steps; bool_to_prop; try discriminate.
  all: repeat match goal with
    | E : roomAudience _ _ _ = Ok _ |- _ => apply roomAudience_Ok in E as ->
    | E : update_packet _ _ _ = Ok _ |- _ => apply update_packet_Ok in E as [[? ->]|(? & ? & ? & ->)] end.
  all: money_simpl; wallet_rows; simplify_map_eq.
  all: try (cbn in *; congruence).
  eexists _, _, _, _. repeat (split; [done|]). split.
  - by rewrite avail_insert, bool_decide_true by done.
  - done.
Qed.

(** The claim of a user, as [findClaim] reports it. *)
Lemma findClaim_known db cid row p :
  packets_ok db -> claims db.(app) !! cid = Some row ->
  red_packets db.(app) !! rc_red_packet_id row = Some p ->
  findClaim (rc_red_packet_id row) (rc_user_id row) db =
  Ok (Some (mk_Claim cid (rc_red_packet_id row) (rc_user_id row) (rp_currency p)
              (rc_amount_minor row) (rc_claimed_at row)), db).
Proof.
  intros Hps Hrow Hp. unfold findClaim, select_where.
  apply tx_bind_Ok. eexists (Some (cid, row)), db. split.
  - unfold gets. do 2 f_equal. cbn.
    destruct (find_row _ _) as [[j y]|] eqn:E.
    + apply find_row_Some in E as [Hj Hk]. bool_to_prop.
      assert (j = cid) as -> by (eapply (ps_once _ Hps); [done|done|congruence..]). congruence.
    + pose proof (find_row_None _ _ _ _ E Hrow) as Hf. cbn in Hf.
      by rewrite !bool_decide_true in Hf by done.
  - unfold gets. do 2 f_equal. cbn. by rewrite Hp.
Qed.

End results.

(** ** The refund job *)

Definition due (now : Z) (p : packet_row) : bool :=
  bool_decide (rp_status p = "active"%string) && (rp_expires_at p <=? now).

Section refunds.
Context `{Uuids}.

(** A refund settles its packet and leaves the others alone. *)
Lemma refundOne_effect t id db b db' :
  refundOne t id db = Ok (b, db') ->
  (forall j, j <> id -> red_packets db'.(app) !! j = red_packets db.(app) !! j) /\
  (forall p, red_packets db'.(app) !! id = Some p -> due (go_now t) p = false).
Proof.
  unfold refundOne, wallet_by_id. intros Hrun. cbv zeta in Hrun. tx_steps.
  all: repeat match goal with
    | E : update_packet _ _ _ = Ok _ |- _ => apply update_packet_Ok in E as [[? ->]|(? & ? & ? & ->)]
    | E : match roomAudience _ _ _ with _ => _ end = Ok _ |- _ => apply audience_or_sender_Ok in E as -> end.
  all: try (cbn in *; congruence); (split; [try done|]).
  all: try (by intros j Hj; cbn; rewrite lookup_insert_ne by done).
  all: intros q Hq; cbn in Hq; rewrite ?lookup_insert_eq in Hq; simplify_eq; try done.
  unfold due. bool_to_prop. destruct E0 as [E0|E0]; bool_to_prop.
  - by rewrite bool_decide_false by done.
  - apply andb_false_intro2, Z.leb_gt. lia.
Qed.

Lemma refund_loop_effect t ids : forall n db m db',
  refund_loop t ids n db = (Ok m, db') ->
  (forall j, j ∉ ids -> red_packets db'.(app) !! j = red_packets db.(app) !! j) /\
  (forall j p, (j ∈ ids \/ red_packets db.(app) !! j = Some p /\ due (go_now t) p = false) ->
     red_packets db'.(app) !! j = Some p -> due (go_now t) p = false).
Proof.
  induction ids as [|id ids IH]; intros n db m db'; cbn.
  { intros [= _ <-]. split; [done|]. intros j p [[]%elem_of_nil|[H1 H2]]; congruence. }
  unfold atomically. destruct (refundOne t id db) as [[b d]|] eqn:E; [|done]. intros Hrun.
  destruct (IH _ _ _ _ Hrun) as [Hkeep Hdue]. destruct (refundOne_effect _ _ _ _ _ E) as [Hother Hthis].
  split.
  - intros j Hj. apply not_elem_of_cons in Hj as [Hne Hj]. by rewrite Hkeep, Hother.
  - intros j p Hj Hp. destruct (decide (j ∈ ids)) as [Hin|Hin]; [by eapply Hdue; [left|]|].
    rewrite (Hkeep j Hin) in Hp. destruct (decide (j = id)) as [->|Hne]; [by apply Hthis|].
    destruct Hj as [[->|?]%elem_of_cons|[H1 H2]]; try done.
Qed.

End refunds.

(** ** Properties *)

Section properties.
Context `{Uuids}.

(** C8: whatever sequence of packets created, shares claimed and packets
    refunded, no money of any currency appears or disappears: wallets plus
    unclaimed packets add up to the same total, every wallet still agrees with
    its ledger, and in every packet the claims and the remainder add up to what
    was put in, with at most [packet_count] claims. *)
Theorem red_packets_conserve db db' :
  custody db -> packets_ok db -> rtc packet_step db db' ->
  books db'.(money) /\ (forall c, supply c db' = supply c db) /\
  forall id p, red_packets db'.(app) !! id = Some p ->
    let claimed := sum_map (claimed_of id) (claims db'.(app)) in
    sum_map (counted_of id) (claims db'.(app)) = rp_claimed_count p /\
    0 <= rp_remaining_minor p <= rp_total_minor p /\
    (rp_status p = "active"%string -> claimed + rp_remaining_minor p = rp_total_minor p /\
       1 <= rp_packet_count p - rp_claimed_count p <= rp_remaining_minor p) /\
    (rp_status p = "exhausted"%string -> claimed = rp_total_minor p /\
       rp_claimed_count p = rp_packet_count p) /\
    (rp_status p = "refunded"%string -> claimed < rp_total_minor p /\ rp_remaining_minor p = 0).
Proof.
  intros Hcu Hps Hrun. destruct (packet_steps_sound _ _ Hrun Hcu Hps) as (Hcu' & Hps' & Hsup).
  split; [apply Hcu'|split; [done|]]. intros id p Hp claimed.
  pose proof (ps_packets _ Hps' _ _ Hp) as Hok. pose proof (remaining_bounds _ _ _ Hok) as Hrem.
  pose proof (active_bounds _ _ _ Hok) as Hact.
  destruct Hok as [_ _ Hcnt Hst]. split; [done|split; [done|]]. subst claimed.
  destruct Hst as [(E & ? & ? & ? & ?)|[(E & ? & ? & ?)|(E & ? & ?)]]; rewrite E in *;
    (split; [intros ?|split; intros ?]; try discriminate); try lia.
Qed.

(** A share is at least one minor unit, leaves at least one for each slot
    still open, and the last slot takes all that remains; the claimer, who is
    neither virtual nor the sender, is credited exactly the share, before the
    packet expires. *)
Theorem claim_share t random id u db c db' :
  random_contract random -> custody db -> packets_ok db ->
  do_claim t random id u db = Ok ((c, true), db') ->
  exists p wid w usr, red_packets db.(app) !! id = Some p /\ go_now t < rp_expires_at p /\
    users db.(app) !! u = Some usr /\ u_is_virtual usr = false /\ u <> rp_sender_user_id p /\
    find_row (is_wallet_of u (rp_currency p)) (wallets db.(money)) = Some (wid, w) /\
    avail db'.(money) wid = w_available w + cl_AmountMinor c /\
    let open := rp_packet_count p - rp_claimed_count p in
    1 <= cl_AmountMinor c <= rp_remaining_minor p - (open - 1) /\
    (open = 1 -> cl_AmountMinor c = rp_remaining_minor p).
Proof.
  intros Hr Hcu Hps Hrun.
  destruct (do_claim_new _ _ _ _ _ _ _ Hrun) as
    (p & wid & w & usr & Hp & Hact & Hexp & Hsend & Hu & Hv & _ & _ & Ham & Hw & Hroom & Hav & _).
  pose proof (ps_packets _ Hps _ _ Hp) as Hok. pose proof (remaining_bounds _ _ _ Hok).
  pose proof (pk_total _ _ _ Hok). pose proof (active_bounds _ _ _ Hok Hact) as Hslots.
  destruct (claimAmount_bounds _ _ _ _ Hr Hslots ltac:(lia) Ham) as [Hb Hlast].
  exists p, wid, w, usr. repeat (split; [done || by apply not_eq_sym|]).
  apply find_wallet_row in Hw as (Hw & _). destruct (bounded_lookup _ _ _ (cu_books _ Hcu) Hw) as [Hba _].
  rewrite (exact_sub_pos int64_max) in Hroom by (unfold int64_max in *; lia).
  rewrite wrap64_small in Hav by (unfold in_int64, int64_min; lia).
  split; [done|split; [done|]]. by intros ?%Hlast.
Qed.

(** A user gets one share of a packet.  However often, whenever and with
    whatever random values a user who has claimed claims again, and whatever
    happened to the packets in between, the answer is the same share and the
    database does not change. *)
Theorem claim_once t random id u db c db1 db2 t' random' :
  random_contract random -> custody db -> packets_ok db ->
  do_claim t random id u db = Ok ((c, true), db1) -> rtc packet_step db1 db2 ->
  do_claim t' random' id u db2 = Ok ((c, false), db2).
Proof.
  intros Hr Hcu Hps Hrun Hrest.
  pose proof (do_claim_event _ _ _ _ _ _ _ Hr Hrun Hcu Hps) as Hev.
  destruct (packet_step_event _ _ (ps_claim _ _ _ _ _ _ _ Hr Hrun) Hcu Hps) as (_ & Hcu1 & _).
  pose proof (packet_event_packets _ _ Hev Hps) as Hps1.
  destruct (packet_steps_sound _ _ Hrest Hcu1 Hps1) as (_ & Hps2 & _).
  destruct (packet_steps_kept _ _ Hrest Hcu1 Hps1) as (Hu2 & Hc2 & Hp2).
  destruct (do_claim_new _ _ _ _ _ _ _ Hrun) as
    (p & wid & w & usr & Hp & _ & _ & _ & Hu & Hv & Hus & Hc & _ & _ & _ & _ & Hcl).
  destruct (proj2 (packet_event_kept _ _ Hev) _ _ Hp) as (p1 & Hp1 & E1).
  destruct (Hp2 _ _ Hp1) as (p2 & Hp2' & E2).
  assert (Hreal : requireRealAccount u db2 = Ok ((), db2)).
  { unfold requireRealAccount. tx_do (users db2.(app) !! u); [done|].
    tx_do usr; [by rewrite Hu2, Hus, Hu|]. by rewrite Hv. }
  unfold do_claim. tx_do tt; [exact Hreal|].
  pose proof (findClaim_known _ _ _ _ Hps2 (Hc2 _ _ Hcl) Hp2') as Hf. cbn in Hf.
  rewrite E2, E1, <- Hc in Hf. by tx_do (Some c).
Qed.

(** A run of the refund job that ends without an error leaves no expired
    active packet behind, when they were not more than its limit; packets it
    had no reason to touch are as they were. *)
Theorem RefundExpired_complete t limit db n db' :
  1 <= limit <= 1000 ->
  Z.of_nat (length (List.filter (fun kv => due (go_now t) kv.2) (map_to_list (red_packets db.(app)))))
    <= limit ->
  RefundExpired t limit db = (Ok n, db') ->
  forall id p, red_packets db'.(app) !! id = Some p ->
    due (go_now t) p = false /\
    (forall q, red_packets db.(app) !! id = Some q -> due (go_now t) q = false -> p = q).
Proof.
  intros Hlimit Hlen Hrun id p Hp. unfold RefundExpired, select_all in Hrun.
  assert (Hl : (if (limit <=? 0) || (1000 <? limit) then 100 else limit) = limit).
  { destruct (_ || _) eqn:E; [bool_to_prop; lia|done]. }
  cbv zeta in Hrun. rewrite Hl in Hrun.
  set (rows := List.filter (fun kv => due (go_now t) kv.2) (map_to_list (red_packets db.(app)))) in Hlen.
  change (refund_loop t (map fst (take (Z.to_nat limit) (merge_sort expires_before rows))) 0 db
    = (Ok n, db')) in Hrun.
  set (sorted := merge_sort expires_before rows) in Hrun.
  assert (Hperm : sorted ≡ₚ rows) by apply merge_sort_Permutation.
  rewrite take_ge in Hrun by (rewrite Hperm; lia).
  destruct (refund_loop_effect _ _ _ _ _ _ Hrun) as [Hkeep Hdue].
  assert (Hin : forall j q, red_packets (app db) !! j = Some q ->
    j ∈ map fst sorted <-> due (go_now t) q = true).
  { intros j q Hq. rewrite list_elem_of_fmap. split.
    - intros ([k r] & -> & Hr). rewrite Hperm in Hr. apply list_elem_of_In, filter_In in Hr as [Hr Hd].
      apply list_elem_of_In, elem_of_map_to_list in Hr. cbn in *. congruence.
    - intros Hd. exists (j, q). split; [done|]. rewrite Hperm. apply list_elem_of_In, filter_In.
      split; [|done]. by apply list_elem_of_In, elem_of_map_to_list. }
  destruct (decide (id ∈ map fst sorted)) as [Hid|Hid].
  - split; [by eapply Hdue; [left|]|]. intros q Hq Hq'. apply Hin in Hq. by rewrite Hq, Hq' in Hid.
  - pose proof Hp as Hp'. rewrite (Hkeep id Hid) in Hp'. apply Hin in Hp' as Hd.
    split; [|congruence]. apply not_true_is_false. by rewrite <- Hd.
Qed.

(** A new packet in JADE or ORIGIN_STONE, which the input check admits, is
    always refused: the table's CHECK still lists only USDT and POINTS. *)
Theorem Create_currency t ttl input db p db' :
  Create t ttl input db = Ok ((p, true), db') ->
  rp_currency (p_row p) = ToUpper (TrimSpace (ci_Currency input)) /\
  rp_currency (p_row p) ∈ ["USDT"; "POINTS"]%string.
Proof.
  unfold Create, findByRequest, select_where, find_wallet, currency_check.
  intros Hrun. cbv zeta in Hrun. tx_steps; bool_to_prop; try done.
  all: match goal with E : (mk_Packet _ _, _) = _ |- _ => injection E as <- end; by cbn.
Qed.

End properties.

(** ** Witnesses *)

(** Alice has 5 USDT, Bob an empty USDT wallet; both are in the lobby. *)
Definition party_db : DB :=
  put_wallet "wallet-bob" (mk_wallet "bob" "USDT" 0 0 0 0)
    (put_row (R := chat_room_row) "lobby" (mk_chat_room_row "global" None None 0) funded_db).

Definition example_packet : CreateInput :=
  mk_CreateInput "lobby" "alice" "rp-1" "usdt" "Happy New Year" 3000000 2.

Definition last_below (max : Z) : res Z := Ok (max - 1).

Lemma last_below_contract : random_contract last_below.
Proof. intros max r [= <-]. lia. Qed.

Lemma custody_room id r db : custody db -> custody (put_row (R := chat_room_row) id r db).
Proof. intros Hcu. by apply (custody_app db). Qed.

Lemma party_custody : custody party_db.
Proof.
  apply custody_open; [apply custody_room, funded_custody|vm_compute; reflexivity..].
Qed.

Lemma no_packets_ok db : red_packets db.(app) = ∅ -> claims db.(app) = ∅ -> packets_ok db.
Proof. intros Hp Hc. split; intros *; by rewrite ?Hp, ?Hc, lookup_empty. Qed.

Lemma party_packets : packets_ok party_db.
Proof. by apply no_packets_ok. Qed.

(** Alice's packet, on the identifier it is given, and Bob's claim of it. *)
Definition party_packet : string := drawn party_db.

Definition packet_db : DB := run_or (Create noon 86400000000000 example_packet) party_db.

Lemma packet_created :
  exists r, Create noon 86400000000000 example_packet party_db = Ok (r, packet_db).
Proof.
  unfold packet_db, run_or.
  destruct (succeeds_Ok (fun _ => true) (Create noon 86400000000000 example_packet party_db))
    as ([r db] & Hrun & _); [vm_compute; reflexivity|].
  exists r. by rewrite Hrun.
Qed.

Lemma packet_db_step : packet_step party_db packet_db.
Proof.
  destruct packet_created as [r Hr]. apply (ps_create _ _ noon 86400000000000 example_packet r).
  - cbn. unfold int64_max. lia.
  - exact Hr.
Qed.

Lemma packet_db_ok : custody packet_db /\ packets_ok packet_db.
Proof.
  destruct (packet_step_event _ _ packet_db_step party_custody party_packets) as (Hev & Hcu & _).
  split; [done|]. by apply (packet_event_packets _ _ Hev party_packets).
Qed.

Lemma bob_claims : exists c db', do_claim noon last_below party_packet "bob" packet_db = Ok ((c, true), db').
Proof.
  destruct (succeeds_Ok (fun x => x.1.2) (do_claim noon last_below party_packet "bob" packet_db))
    as ([[c b] db'] & Hrun & Hb); [vm_compute; reflexivity|].
  cbn in Hb. subst b. by exists c, db'.
Qed.

Lemma red_packets_conserve_witness :
  exists c db', do_claim noon last_below party_packet "bob" packet_db = Ok ((c, true), db') /\
    forall cur, supply cur db' = supply cur party_db.
Proof.
  destruct bob_claims as (c & db' & Hrun). exists c, db'. split; [exact Hrun|].
  apply (red_packets_conserve party_db db' party_custody party_packets).
  eapply rtc_l; [apply packet_db_step|]. apply rtc_once.
  exact (ps_claim _ _ noon last_below party_packet "bob" (c, true) last_below_contract Hrun).
Defined.

Lemma claim_share_witness :
  exists c db', do_claim noon last_below party_packet "bob" packet_db = Ok ((c, true), db') /\
    exists p, red_packets packet_db.(app) !! party_packet = Some p /\
      1 <= cl_AmountMinor c <= rp_remaining_minor p - (rp_packet_count p - rp_claimed_count p - 1).
Proof.
  destruct bob_claims as (c & db' & Hrun). exists c, db'. split; [exact Hrun|].
  destruct packet_db_ok as [Hcu Hps].
  destruct (claim_share _ _ _ _ _ _ _ last_below_contract Hcu Hps Hrun)
    as (p & wid & w & usr & Hp & _ & _ & _ & _ & _ & _ & Hb & _).
  exists p. split; [exact Hp|exact Hb].
Defined.

Lemma claim_once_witness :
  exists c db', do_claim noon last_below party_packet "bob" packet_db = Ok ((c, true), db') /\
    do_claim noon (fun _ => Err ErrRandomSource) party_packet "bob" db' = Ok ((c, false), db').
Proof.
  destruct bob_claims as (c & db' & Hrun). exists c, db'. split; [exact Hrun|].
  destruct packet_db_ok as [Hcu Hps].
  exact (claim_once _ _ _ _ _ _ _ db' noon (fun _ => Err ErrRandomSource)
           last_below_contract Hcu Hps Hrun (rtc_refl _ db')).
Defined.

(** Two days later the packet has expired. *)
Definition later : clock := mk_clock 1750172800000000000 1750172800000000000.

Lemma RefundExpired_complete_witness :
  exists n db', RefundExpired later 100 packet_db = (Ok n, db') /\ n = 1 /\
    forall id p, red_packets db'.(app) !! id = Some p -> due (go_now later) p = false.
Proof.
  destruct (RefundExpired later 100 packet_db) as [r db'] eqn:Hrun.
  assert (Hr : r = Ok 1).
  { change r with (fst (r, db')). rewrite <- Hrun. vm_compute. reflexivity. }
  rewrite Hr in Hrun. exists 1, db'. split; [by rewrite Hr|split; [done|]]. intros id p Hp.
  apply (RefundExpired_complete later 100 packet_db 1 db') with (id := id);
    [lia|vm_compute; discriminate|exact Hrun|exact Hp].
Defined.

Lemma Create_currency_witness :
  exists p, Create noon 86400000000000 example_packet party_db = Ok ((p, true), packet_db) /\
    rp_currency (p_row p) = "USDT"%string.
Proof.
  destruct (succeeds_Ok (fun x => x.1.2) (Create noon 86400000000000 example_packet party_db))
    as ([[p b] db'] & Hrun & Hb); [vm_compute; reflexivity|].
  cbn in Hb. subst b. exists p. split; [|exact (proj1 (Create_currency _ _ _ _ _ _ Hrun))].
  unfold packet_db, run_or. by rewrite Hrun.
Defined.
