(* ===== verification/LuluProofs.v ===== *)
(** * Lulu payments: what holds

    Each order moves along its state machine and the ledger books exactly what
    its status says, whatever the provider does; a receipt credits one order,
    once; an order is handed to the provider at most once. *)

From S2P Require Import Prelude GoStrings Money Json Schema Store Books Custody Wallet Operations.
From S2P Require Import BetBooks Examples CreditProofs Lulu.

(** ** Amounts *)

Definition lulu_cap : Z := int64_max / 1000.

Lemma ParseAmount_Ok s n : ParseAmount s = Ok n -> 0 < n <= lulu_cap.
Proof.
  unfold ParseAmount. intros Hrun. res_steps. subst. unfold lulu_cap, stoneScale in *. lia.
Qed.

(** What a row prints is what the code parses back. *)
Lemma ParseAmount_FormatInt n : 0 < n <= lulu_cap -> ParseAmount (FormatInt n) = Ok n.
Proof.
  unfold lulu_cap, int64_max. intros Hn. change (9223372036854775807 / 1000) with 9223372036854775 in Hn.
  destruct (format_int_abs n) as (l & Hl & Hd & Hv & c & r & Hc & _).
  { unfold in_int64, int64_min, int64_max. lia. }
  rewrite (proj2 (Z.ltb_ge n 0)) in Hl by lia. cbn [app] in Hl.
  assert (Hs : s2b (FormatInt n) = l) by (unfold FormatInt; by rewrite s2b_b2s).
  unfold ParseAmount, ParseInt. rewrite Hs, Hd, parse_int_digits by (done || by rewrite Hc).
  rewrite Hv, Z.abs_eq by lia. rewrite (proj2 (Z.leb_le n int64_max)) by (unfold int64_max; lia).
  rewrite bool_decide_false.
  { cbn. rewrite (proj2 (Z.leb_gt n 0)), (proj2 (Z.ltb_ge _ n)); [done| |lia].
    unfold stoneScale, int64_max. change (9223372036854775807 / 1000) with 9223372036854775. lia. }
  intros E. rewrite E in Hs. cbn in Hs. congruence.
Qed.

Lemma order_stones_exact o : 0 < lo_amount (or_row o) <= lulu_cap -> order_stones o = lo_amount (or_row o).
Proof. intros Hn. unfold order_stones, or_Amount. by rewrite ParseAmount_FormatInt. Qed.

Lemma stones_exact n : - lulu_cap <= n <= lulu_cap -> (n * stoneScale)%i64 = 1000 * n.
Proof.
  unfold lulu_cap, stoneScale, int64_max. change (9223372036854775807 / 1000) with 9223372036854775.
  intros. rewrite wrap64_small; [lia|]. unfold in_int64, int64_min, int64_max. lia.
Qed.

(** ** The wallet step *)

Definition lulu_types : list string :=
  ["lulu_deposit"; "lulu_withdrawal_freeze"; "lulu_withdrawal_debit"; "lulu_withdrawal_unfreeze"]%string.

Ltac is_lulu_type := by apply (bool_decide_unpack _).

Definition lulu_entry (id : string) (r : ledger_row) : bool :=
  bool_decide (le_business_type r ∈ lulu_types) && bool_decide (le_business_id r = id).

(** Net effect, over the whole ledger, of the entries of one order. *)
Definition lulu_booked (f : ledger_row -> Z) (id : string) (l : list ledger_row) : Z :=
  sum_Z (map f (List.filter (lulu_entry id) l)).

Lemma lulu_booked_cons f id r l :
  lulu_booked f id (r :: l) = (if lulu_entry id r then f r else 0) + lulu_booked f id l.
Proof. unfold lulu_booked. cbn [List.filter]. by destruct (lulu_entry id r). Qed.

(** A wallet of the user exists, opened if need be, and moves by the stones. *)
Definition lulu_moved (user typ id : string) (da df : Z) (db db' : DB) : Prop := exists d wid w w' r,
  books d.(money) /\ quiet db d /\ ledger d.(money) = ledger db.(money) /\
  posted d db' wid w w' r /\ w_user_id w = user /\ w_currency w = "ORIGIN_STONE"%string /\
  le_business_type r = typ /\ le_business_id r = id /\
  le_available_delta r = 1000 * da /\ le_frozen_delta r = 1000 * df.

Section balance.
Context `{Uuids}.

Lemma lulu_balance_moved t o typ da df actor db u db' :
  - lulu_cap <= da <= lulu_cap -> - lulu_cap <= df <= lulu_cap ->
  lulu_balance t o typ da df actor db = Ok (u, db') -> books db.(money) ->
  lulu_moved (lo_user_id (or_row o)) typ (or_ID o) da df db db' /\ money_only db db'.
Proof.
  intros Hda Hdf Hrun Hb. unfold lulu_balance, find_wallet in Hrun. rewrite !stones_exact in Hrun by done.
  cbv zeta in Hrun.
  apply tx_bind_Ok in Hrun as ([] & d0 & E & Hrun). apply reject_if_Ok in E as [_ <-].
  apply tx_bind_Ok in Hrun as (id & d0 & E & Hrun). apply new_uuid_Ok in E as [<- <-].
  apply tx_bind_Ok in Hrun as (made & d & Ei & Hrun).
  destruct (insert_wallet_still _ _ _ _ _ _ _ Ei Hb) as (D1 & D2 & D3 & D4 & D5). clear Ei.
  apply tx_bind_Ok in Hrun as (o' & d' & E & Hrun). apply gets_Ok in E as [E <-].
  apply tx_bind_Ok in Hrun as ([wid w] & d' & E1 & Hrun). apply found_Ok in E1 as [-> <-].
  destruct (find_wallet_row _ _ _ _ _ E) as (Hw & Hu & Hc).
  destruct (bounded_lookup _ _ _ D1 Hw) as [Ha Hf].
  apply tx_bind_Ok in Hrun as ([] & d' & E1 & Hrun). apply reject_if_Ok in E1 as [G1 <-].
  apply tx_bind_Ok in Hrun as ([] & d' & E1 & Hrun). apply reject_if_Ok in E1 as [G2 <-].
  apply tx_bind_Ok in Hrun as ([] & d' & E1 & Hrun).
  apply update_wallet_Ok in E1 as [[Hno _]|(w2 & Hw2 & Hok & <-)]; [congruence|].
  assert (w2 = w) as -> by congruence.
  apply tx_bind_Ok in Hrun as (eid & d' & E1 & Hrun). apply new_uuid_Ok in E1 as [<- <-].
  apply insert_ledger_Ok in Hrun as (w3 & Hw3 & _ & <-). cbn in Hw3. rewrite lookup_insert_eq in Hw3.
  injection Hw3 as <-.
  assert (Hsum : forall a z, 0 <= a <= int64_max -> - lulu_cap <= z <= lulu_cap ->
    0 <= (a + 1000 * z)%i64 ->
    ((1000 * z <? 0) && (a <? (- (1000 * z))%i64)) = false ->
    (0 <? 1000 * z) && ((int64_max - 1000 * z)%i64 <? a) = false -> (a + 1000 * z)%i64 = a + 1000 * z).
  { intros a z Hrng Hz _ H1 H2. unfold lulu_cap, int64_max in *.
    change (9223372036854775807 / 1000) with 9223372036854775 in Hz.
    apply wrap64_small. unfold in_int64, int64_min, int64_max.
    destruct (decide (1000 * z < 0)) as [Hneg|Hpos].
    - rewrite (proj2 (Z.ltb_lt _ _) Hneg) in H1. cbn in H1. apply Z.ltb_ge in H1.
      rewrite wrap64_small in H1 by (unfold in_int64, int64_min, int64_max; lia). lia.
    - destruct (decide (0 < 1000 * z)) as [Hp|]; [|lia].
      rewrite (proj2 (Z.ltb_lt _ _) Hp) in H2. cbn in H2. apply Z.ltb_ge in H2.
      rewrite wrap64_small in H2 by (unfold in_int64, int64_min, int64_max; lia). lia. }
  apply orb_false_elim in G1 as [G1a G1f], G2 as [G2a G2f].
  pose proof (proj1 (wallet_ok_iff _) Hok) as [[Hna _] [Hnf _]]. cbn in Hna, Hnf.
  rewrite (Hsum _ _ Ha Hda Hna G1a G2a), (Hsum _ _ Hf Hdf Hnf G1f G2f) in *.
  split.
  - exists d, wid, w. eexists _, _. split; [exact D1|]. split; [etrans; [apply quiet_tick|exact D2]|].
    split; [exact D4|]. split; [split; [exact Hw|exact Hok|done|done|reflexivity|..]; cbn; try done; lia|].
    split; [exact Hu|split; [exact Hc|done]].
  - etrans; [apply money_only_tick|]. etrans; [exact D3|].
    etrans; [apply money_only_put|]. etrans; [apply money_only_tick|apply money_only_post].
Qed.

End balance.

(** ** The state machine of an order *)

(** [order_edge kind s s' a f]: the status may change from [s] to [s'], and the
    change books [a] times the amount on the available balance and [f] times on
    the frozen one. *)
Inductive order_edge : string -> string -> string -> Z -> Z -> Prop :=
| oe_expire : order_edge "deposit" "requested" "expired" 0 0
| oe_paid : order_edge "deposit" "requested" "confirmed" 1 0
| oe_paid_late : order_edge "deposit" "expired" "confirmed" 1 0
| oe_approve : order_edge "withdrawal" "requested" "approved" 0 0
| oe_reject : order_edge "withdrawal" "requested" "rejected" 1 (-1)
| oe_send : order_edge "withdrawal" "approved" "sending" 0 0
| oe_unknown : order_edge "withdrawal" "sending" "unknown" 0 0
| oe_sent : order_edge "withdrawal" "sending" "confirmed" 0 (-1)
| oe_unsent : order_edge "withdrawal" "sending" "failed" 1 (-1)
| oe_confirm_paid : order_edge "withdrawal" "unknown" "confirmed" 0 (-1)
| oe_confirm_not_paid : order_edge "withdrawal" "unknown" "failed" 1 (-1).

(** What an order in a status has booked, for each stone of its amount. *)
Definition booked_available (kind status : string) : Z :=
  if bool_decide (kind = "deposit"%string) then if bool_decide (status = "confirmed"%string) then 1 else 0
  else if bool_decide (status ∈ ["rejected"; "failed"]%string) then 0 else -1.

Definition booked_frozen (kind status : string) : Z :=
  if bool_decide (kind = "deposit"%string) then 0 else if lulu_open status then 1 else 0.

Lemma edge_booked kind s s' a f : order_edge kind s s' a f ->
  booked_available kind s' = booked_available kind s + a /\ booked_frozen kind s' = booked_frozen kind s + f.
Proof. by intros []. Qed.

Lemma edge_kind kind s s' a f : order_edge kind s s' a f -> kind = "deposit"%string \/ kind = "withdrawal"%string.
Proof. intros []; auto. Qed.

(** An order keeps everything but its status, its receipt and its review. *)
Definition same_order (o o' : lulu_order_row) : Prop :=
  lo_user_id o' = lo_user_id o /\ lo_kind o' = lo_kind o /\ lo_request_id o' = lo_request_id o /\
  lo_lulu_uid o' = lo_lulu_uid o /\ lo_receiver_uid o' = lo_receiver_uid o /\ lo_amount o' = lo_amount o /\
  lo_created_at o' = lo_created_at o /\ lo_expires_at o' = lo_expires_at o.

#[export] Instance same_order_preorder : PreOrder same_order.
Proof. split; [by intros o|]. intros a b c. unfold same_order. intuition congruence. Qed.

Definition keeps_receipt (o o' : lulu_order_row) : Prop := lo_receipt_id o' = lo_receipt_id o.

(** A status change that books nothing. *)
Definition idle_move (o o' : lulu_order_row) : Prop :=
  o' = o \/ (same_order o o' /\ keeps_receipt o o' /\ order_edge (lo_kind o) (lo_status o) (lo_status o') 0 0).

Definition opt_rel {A} (P : A -> A -> Prop) (x y : option A) : Prop :=
  match x, y with Some a, Some b => P a b | None, None => True | _, _ => False end.

(** A receipt pays a deposit order. *)
Definition receipt_pays (r : lulu_receipt_row) (o : lulu_order_row) : Prop :=
  lo_kind o = "deposit"%string /\ lr_receiver_uid r = lo_receiver_uid o /\ lr_sender_uid r = lo_lulu_uid o /\
  lr_amount r = lo_amount o /\ lo_created_at o - six_minutes <= lr_occurred_at r <= lo_expires_at o.

(** ** What one transaction does, in primitive changes *)

Inductive lulu_change (db db' : DB) : Prop :=
| lc_other :
    quiet db db' -> books db'.(money) ->
    (forall f id, lulu_booked f id (ledger db'.(money)) = lulu_booked f id (ledger db.(money))) ->
    (lulu_receipts db'.(app) = lulu_receipts db.(app) \/
     exists id r, lulu_receipts db.(app) !! id = None /\ lr_order_id r = None /\
       lulu_receipts db'.(app) = <[id := r]> (lulu_receipts db.(app))) ->
    lulu_change db db'
| lc_idle :
    money db' = money db -> withdrawals db'.(app) = withdrawals db.(app) ->
    point_withdrawals db'.(app) = point_withdrawals db.(app) ->
    lulu_receipts db'.(app) = lulu_receipts db.(app) ->
    (forall id, opt_rel idle_move (lulu_orders db.(app) !! id) (lulu_orders db'.(app) !! id)) ->
    lulu_change db db'
| lc_new id o :
    money db' = money db -> withdrawals db'.(app) = withdrawals db.(app) ->
    point_withdrawals db'.(app) = point_withdrawals db.(app) ->
    lulu_receipts db'.(app) = lulu_receipts db.(app) ->
    lulu_orders db.(app) !! id = None -> lulu_orders db'.(app) = <[id := o]> (lulu_orders db.(app)) ->
    lo_kind o = "deposit"%string -> lo_status o = "requested"%string -> lo_receipt_id o = None ->
    0 < lo_amount o <= lulu_cap -> lulu_change db db'
| lc_freeze id o :
    lulu_moved (lo_user_id o) "lulu_withdrawal_freeze" id (- lo_amount o) (lo_amount o) db db' ->
    withdrawals db'.(app) = withdrawals db.(app) ->
    point_withdrawals db'.(app) = point_withdrawals db.(app) ->
    lulu_receipts db'.(app) = lulu_receipts db.(app) ->
    lulu_orders db.(app) !! id = None -> lulu_orders db'.(app) = <[id := o]> (lulu_orders db.(app)) ->
    lo_kind o = "withdrawal"%string -> lo_status o = "requested"%string -> lo_receipt_id o = None ->
    0 < lo_amount o <= lulu_cap -> lulu_change db db'
| lc_move id o o' typ a f :
    lulu_moved (lo_user_id o) typ id (a * lo_amount o) (f * lo_amount o) db db' -> typ ∈ lulu_types ->
    withdrawals db'.(app) = withdrawals db.(app) ->
    point_withdrawals db'.(app) = point_withdrawals db.(app) ->
    lulu_orders db.(app) !! id = Some o -> lulu_orders db'.(app) = <[id := o']> (lulu_orders db.(app)) ->
    same_order o o' -> order_edge (lo_kind o) (lo_status o) (lo_status o') a f ->
    (lo_kind o = "withdrawal"%string -> lulu_receipts db'.(app) = lulu_receipts db.(app) /\ keeps_receipt o o') ->
    (lo_kind o = "deposit"%string -> exists rid r, lulu_receipts db.(app) !! rid = Some r /\
       lr_order_id r = None /\ receipt_pays r o /\ lo_receipt_id o' = Some rid /\
       lo_status o' = "confirmed"%string /\
       lulu_receipts db'.(app) = <[rid := set_receipt_order id r]> (lulu_receipts db.(app))) ->
    lulu_change db db'.

(** *** Custody *)

Lemma lulu_hold_edge own o o' a f :
  same_order o o' -> order_edge (lo_kind o) (lo_status o) (lo_status o') a f ->
  lulu_hold own o' = lulu_hold own o + (if bool_decide (own = Some (lo_user_id o, "ORIGIN_STONE"%string))
                                        then 1000 * (f * lo_amount o) else 0).
Proof.
  intros (Hu & Hk & _ & _ & _ & Ha & _) He. unfold lulu_hold, lulu_freezes. rewrite Hk, Hu, Ha.
  destruct He; repeat match goal with |- context [lulu_open ?s] =>
    let b := eval vm_compute in (lulu_open s) in change (lulu_open s) with b end;
  rewrite ?andb_true_r, ?andb_false_r;
  repeat (case_bool_decide; cbn [andb]; try congruence); lia.
Qed.

Lemma lulu_hold_idle own o o' : idle_move o o' -> lulu_hold own o' = lulu_hold own o.
Proof.
  intros [->|(Hs & _ & He)]; [done|]. rewrite (lulu_hold_edge _ _ _ _ _ Hs He). case_bool_decide; lia.
Qed.

Lemma sum_map_rel {R} (f g : R -> Z) (P : R -> R -> Prop) (t t' : gmap string R) :
  (forall x y, P x y -> g y = f x) -> (forall id, opt_rel P (t !! id) (t' !! id)) ->
  sum_map g t' = sum_map f t.
Proof.
  intros Hfg. revert t'. induction t as [|i r t Hi IH] using map_ind; intros t' Hrel.
  - assert (t' = ∅) as ->; [|done]. apply map_eq. intros j. specialize (Hrel j). rewrite lookup_empty in *.
    by destruct (t' !! j).
  - pose proof (Hrel i) as Hri. rewrite lookup_insert_eq in Hri. destruct (t' !! i) as [y|] eqn:E; [|done].
    rewrite (sum_map_delete g t' i y E), sum_map_insert by done. rewrite (Hfg r y Hri). f_equal.
    apply IH. intros j. specialize (Hrel j). destruct (decide (j = i)) as [->|Hne].
    + by rewrite lookup_delete_eq, Hi.
    + by rewrite lookup_insert_ne in Hrel by done; rewrite lookup_delete_ne by done.
Qed.

(** The owner of the moved wallet, seen from the state before. *)
Lemma moved_custody db db' user typ id da df :
  custody db -> lulu_moved user typ id da df db db' ->
  withdrawals db'.(app) = withdrawals db.(app) ->
  point_withdrawals db'.(app) = point_withdrawals db.(app) ->
  (forall own, sum_map (lulu_hold own) (lulu_orders db'.(app)) = sum_map (lulu_hold own) (lulu_orders db.(app)) +
     (if bool_decide (own = Some (user, "ORIGIN_STONE"%string)) then 1000 * df else 0)) ->
  (forall j o, lulu_orders db'.(app) !! j = Some o -> 0 < lo_amount o <= lulu_cap /\
     (lo_user_id o = user \/ exists o0, lulu_orders db.(app) !! j = Some o0 /\
        lo_user_id o0 = lo_user_id o /\ (lulu_freezes o = true -> lulu_freezes o0 = true))) ->
  custody db'.
Proof.
  intros Hcu (d & wid & w & w' & r & Hb & Hq & _ & Hpo & Hu & Hc & _ & _ & _ & Hf) Hwd Hpw Hsum Hord.
  assert (Hcd : custody d) by (by apply (custody_quiet db)).
  destruct Hq as [Eqw Eqp Eql _ _].
  assert (Hown : owns d.(money) wid user "ORIGIN_STONE"%string) by (exists w; split; [apply Hpo|done]).
  eapply custody_move; [exact Hcd|exact Hpo|..].
  - intros i. unfold outstanding, pending, lulu_pending. rewrite Hwd, Hpw, Eqw, Eqp, Hsum, Eql.
    rewrite (posted_owner _ _ _ _ _ _ i Hpo), Hf.
    rewrite (bool_decide_ext (owner (money d) i = _) (wid = i)); [lia|]. rewrite <- owns_owner. split.
    + intros (v & Hv & Hvu & Hvc). destruct Hown as (v' & Hv' & Hu' & Hc').
      apply (books_one_wallet _ Hb wid i v' v); congruence.
    + by intros <-.
  - rewrite Hwd, <- Eqw. apply Hcd.
  - rewrite Hpw, <- Eqp. apply Hcd.
  - intros j o Ho. destruct (Hord j o Ho) as [Hr [<-|(o0 & Ho0 & Hu0 & Hfr)]]; (split; [exact Hr|]).
    + intros _. by exists wid.
    + intros Hf1. rewrite <- Hu0. rewrite <- Eql in Ho0. apply (cu_lulu _ Hcd j o0 Ho0), Hfr, Hf1.
Qed.

Lemma edge_freezes o o' a f :
  same_order o o' -> order_edge (lo_kind o) (lo_status o) (lo_status o') a f ->
  lulu_freezes o' = true -> lulu_freezes o = true.
Proof.
  intros (_ & Hk & _) He. unfold lulu_freezes. rewrite Hk. destruct He; vm_compute; done.
Qed.

Lemma change_custody db db' : custody db -> lulu_change db db' -> custody db'.
Proof.
  intros Hcu [Hq Hb _ _|Hm Hwd Hpw _ Hrel|id o Hm Hwd Hpw _ Hid Ho Hk Hs _ Ha|
    id o Hmv Hwd Hpw _ Hid Ho Hk Hs _ Ha|id o o' typ a f Hmv _ Hwd Hpw Hid Ho Hsame He _ _].
  - by apply (custody_quiet db).
  - split.
    + rewrite Hm. apply Hcu.
    + intros wid. rewrite Hm, (cu_backed _ Hcu). unfold outstanding, pending, lulu_pending. rewrite Hwd, Hpw, Hm.
      by rewrite (sum_map_rel _ _ _ _ _ (lulu_hold_idle (owner (money db) wid)) Hrel).
    + rewrite Hwd, Hm. apply Hcu.
    + rewrite Hpw, Hm. apply Hcu.
    + intros id o' Ho'. specialize (Hrel id). rewrite Ho', Hm in *.
      destruct (lulu_orders (app db) !! id) as [o|] eqn:Ho; [|done].
      destruct (cu_lulu _ Hcu id o Ho) as [Hr Hex]. cbn in Hrel.
      destruct Hrel as [->|(Hsm & _ & He)]; [done|]. pose proof Hsm as (Hu & Hk & _ & _ & _ & Ha & _).
      rewrite Ha, Hu. split; [done|]. intros Hf. by eapply Hex, edge_freezes.
  - split.
    + rewrite Hm. apply Hcu.
    + intros wid. rewrite Hm, (cu_backed _ Hcu). unfold outstanding, pending, lulu_pending. rewrite Hwd, Hpw, Hm, Ho.
      rewrite sum_map_insert by done.
      assert (lulu_hold (owner (money db) wid) o = 0) as ->; [|lia]. unfold lulu_hold, lulu_freezes. by rewrite Hk.
    + rewrite Hwd, Hm. apply Hcu.
    + rewrite Hpw, Hm. apply Hcu.
    + rewrite Ho, Hm. intros j x [[-> ->]|Hx]%lookup_insert_or; [|by apply (cu_lulu _ Hcu j)].
      split; [exact Ha|]. unfold lulu_freezes. by rewrite Hk.
  - eapply moved_custody; [exact Hcu|exact Hmv|exact Hwd|exact Hpw|..].
    + intros own. rewrite Ho, sum_map_insert by done. unfold lulu_hold at 1, lulu_freezes. rewrite Hk, Hs.
      change (bool_decide _ && lulu_open "requested") with true. cbn [andb]. case_bool_decide; lia.
    + rewrite Ho. intros j x [[-> ->]|Hx]%lookup_insert_or; [split; [done|by left]|].
      split; [by apply (cu_lulu _ Hcu j)|right; by exists x].
  - eapply moved_custody; [exact Hcu|exact Hmv|exact Hwd|exact Hpw|..].
    + intros own. rewrite Ho, (sum_map_update _ _ _ o) by done. rewrite (lulu_hold_edge own o o' a f Hsame He). lia.
    + pose proof Hsame as (Hu & _ & _ & _ & _ & Ha & _).
      rewrite Ho. intros j x [[-> ->]|Hx]%lookup_insert_or.
      * rewrite Ha. split; [by apply (cu_lulu _ Hcu id)|left; by rewrite Hu].
      * split; [by apply (cu_lulu _ Hcu j)|right; by exists x].
Qed.

(** *** The ledger of each order *)

(** Every order has booked what its status says. *)
Definition lulu_accounted (db : DB) : Prop := forall id,
  let part (f : string -> string -> Z) :=
    from_option (fun o => 1000 * (f (lo_kind o) (lo_status o) * lo_amount o)) 0 (lulu_orders db.(app) !! id) in
  lulu_booked le_available_delta id (ledger db.(money)) = part booked_available /\
  lulu_booked le_frozen_delta id (ledger db.(money)) = part booked_frozen.

Lemma moved_booked f user typ id da df db db' : lulu_moved user typ id da df db db' -> typ ∈ lulu_types ->
  exists r, le_available_delta r = 1000 * da /\ le_frozen_delta r = 1000 * df /\
    forall j, lulu_booked f j (ledger db'.(money)) =
      (if bool_decide (id = j) then f r else 0) + lulu_booked f j (ledger db.(money)).
Proof.
  intros (d & wid & w & w' & r & _ & _ & Hl & Hpo & _ & _ & Ht & Hi & Ha & Hf) Hty.
  exists r. split; [done|split; [done|]]. intros j. rewrite (po_money _ _ _ _ _ _ Hpo). cbn [ledger].
  rewrite lulu_booked_cons, Hl. unfold lulu_entry. rewrite Ht, Hi, (bool_decide_true (typ ∈ _)) by done. done.
Qed.

(** One order changed and booked the difference. *)
Lemma accounted_move user typ id da df x o' db db' :
  lulu_accounted db -> lulu_moved user typ id da df db db' -> typ ∈ lulu_types ->
  lulu_orders db.(app) !! id = x -> lulu_orders db'.(app) = <[id := o']> (lulu_orders db.(app)) ->
  (forall f z, (f = booked_available /\ z = da) \/ (f = booked_frozen /\ z = df) ->
    1000 * (f (lo_kind o') (lo_status o') * lo_amount o') =
    1000 * z + from_option (fun o => 1000 * (f (lo_kind o) (lo_status o) * lo_amount o)) 0 x) ->
  lulu_accounted db'.
Proof.
  intros Hacc Hmv Hty Hid Ho Hsum j. rewrite Ho.
  destruct (moved_booked le_available_delta _ _ _ _ _ _ _ Hmv Hty) as (r & Ha & _ & Hba).
  destruct (moved_booked le_frozen_delta _ _ _ _ _ _ _ Hmv Hty) as (r' & _ & Hf & Hbf).
  rewrite Hba, Hbf. destruct (Hacc j) as [A F]. rewrite A, F. destruct (decide (j = id)) as [->|Hne].
  - rewrite !bool_decide_true, lookup_insert_eq by done. cbn [from_option]. subst x.
    by rewrite (Hsum booked_available da), (Hsum booked_frozen df), Ha, Hf by auto.
  - by rewrite !bool_decide_false, lookup_insert_ne by done.
Qed.

Lemma change_accounted db db' : lulu_accounted db -> lulu_change db db' -> lulu_accounted db'.
Proof.
  intros Hacc [Hq _ Hbk _|Hm _ _ _ Hrel|id o Hm _ _ _ Hid Ho Hk Hs _ _|
    id o Hmv _ _ _ Hid Ho Hk Hs _ _|id o o' typ a f Hmv Hty _ _ Hid Ho Hsame He _ _].
  - intros j. rewrite !Hbk, (q_lulu _ _ Hq). apply Hacc.
  - intros j. rewrite Hm. destruct (Hacc j) as [A F]. rewrite A, F. specialize (Hrel j).
    destruct (lulu_orders (app db) !! j) as [o|], (lulu_orders (app db') !! j) as [o'|]; try done.
    destruct Hrel as [->|((_ & Hk & _ & _ & _ & Ha & _) & _ & He)]; [done|].
    cbn. rewrite Hk, Ha. destruct (edge_booked _ _ _ _ _ He) as [-> ->]. lia.
  - intros j. rewrite Hm, Ho. destruct (Hacc j) as [A F]. rewrite A, F. destruct (decide (j = id)) as [->|Hne].
    + rewrite Hid, lookup_insert_eq. cbn. by rewrite Hk, Hs.
    + by rewrite lookup_insert_ne.
  - eapply (accounted_move _ _ _ _ _ None); [done|exact Hmv|set_solver|done|exact Ho|].
    intros f z [[-> ->]|[-> ->]]; rewrite Hk, Hs; cbn [from_option].
    + change (booked_available "withdrawal" "requested") with (-1). lia.
    + change (booked_frozen "withdrawal" "requested") with 1. lia.
  - destruct Hsame as (_ & Hk & _ & _ & _ & Ha & _). destruct (edge_booked _ _ _ _ _ He) as [E1 E2].
    eapply (accounted_move _ _ _ _ _ (Some o)); [done|exact Hmv|done|done|exact Ho|].
    intros g z [[-> ->]|[-> ->]]; rewrite Hk, Ha; cbn [from_option]; rewrite ?E1, ?E2; lia.
Qed.

(** *** Receipts and the orders they paid *)

(** A confirmed deposit names the receipt that paid it, a claimed receipt names
    its order, and the two agree; nothing else names the other. *)
Record linked (db : DB) : Prop := {
  lk_receipt : forall rid r id, lulu_receipts db.(app) !! rid = Some r -> lr_order_id r = Some id ->
    exists o, lulu_orders db.(app) !! id = Some o /\ receipt_pays r o /\ lo_status o = "confirmed"%string /\
      lo_receipt_id o = Some rid;
  lk_order : forall id o, lulu_orders db.(app) !! id = Some o ->
    match lo_receipt_id o with
    | Some rid => exists r, lulu_receipts db.(app) !! rid = Some r /\ lr_order_id r = Some id
    | None => lo_kind o = "deposit"%string -> lo_status o <> "confirmed"%string
    end
}.

Lemma receipt_pays_same r o o' : same_order o o' -> receipt_pays r o -> receipt_pays r o'.
Proof. unfold same_order, receipt_pays. intuition congruence. Qed.

Lemma set_receipt_pays r id o : receipt_pays r o -> receipt_pays (set_receipt_order id r) o.
Proof. done. Qed.

(** Orders that keep their receipt, and confirmed deposits stay confirmed. *)
Lemma linked_kept db db' :
  linked db ->
  (forall rid r id, lulu_receipts db'.(app) !! rid = Some r -> lr_order_id r = Some id ->
     lulu_receipts db.(app) !! rid = Some r) ->
  (forall rid r, lulu_receipts db.(app) !! rid = Some r -> lulu_receipts db'.(app) !! rid = Some r) ->
  (forall id o, lulu_orders db.(app) !! id = Some o -> exists o', lulu_orders db'.(app) !! id = Some o' /\
     same_order o o' /\ (lo_kind o = "deposit"%string -> lo_status o = "confirmed"%string ->
       lo_status o' = "confirmed"%string /\ keeps_receipt o o')) ->
  (forall id o', lulu_orders db'.(app) !! id = Some o' ->
     (lo_receipt_id o' = None /\ (lo_kind o' = "deposit"%string -> lo_status o' <> "confirmed"%string)) \/
     exists o, lulu_orders db.(app) !! id = Some o /\ same_order o o' /\ keeps_receipt o o' /\
       (lo_kind o = "deposit"%string -> lo_status o' = "confirmed"%string -> lo_status o = "confirmed"%string)) ->
  linked db'.
Proof.
  intros [Hr Ho] Hold Hnew Hf Hb. split.
  - intros rid r id Hl Hid. destruct (Hr rid r id (Hold _ _ _ Hl Hid) Hid) as (o & Hlo & Hp & Hs & Hrc).
    destruct (Hf id o Hlo) as (o' & Hlo' & Hsm & Hst). destruct (Hst (proj1 Hp) Hs) as [Hs' Hk].
    exists o'. split; [done|]. split; [by eapply receipt_pays_same|split; [done|]]. by rewrite Hk.
  - intros id o' Hl. destruct (Hb id o' Hl) as [[-> Hn]|(o & Hlo & Hsm & Hk & Hst)]; [done|].
    specialize (Ho id o Hlo). rewrite Hk. destruct (lo_receipt_id o) as [rid|].
    + destruct Ho as (r & Hlr & Hid). exists r. split; [by apply Hnew|done].
    + pose proof Hsm as (_ & Hkd & _). rewrite Hkd. intros Hd Hc. by apply (Ho Hd), Hst.
Qed.

Lemma change_linked db db' : linked db -> lulu_change db db' -> linked db'.
Proof.
  intros Hlk [Hq _ _ Hrc|_ _ _ Hrc Hrel|id o _ _ _ Hrc Hid Ho Hk Hs Hn _|
    id o _ _ _ Hrc Hid Ho Hk Hs Hn _|id o o' typ a f _ _ _ _ Hid Ho Hsame He Hwit Hdep].
  - apply (linked_kept db); [done|..].
    + destruct Hrc as [->|(i & x & Hf & Hx & ->)]; [done|].
      intros rid r id [[-> ->]|Hl]%lookup_insert_or; [congruence|done].
    + destruct Hrc as [->|(i & x & Hf & Hx & ->)]; [done|]. intros rid r Hl. by apply lookup_insert_fresh.
    + rewrite (q_lulu _ _ Hq). intros id o Ho. by exists o.
    + rewrite (q_lulu _ _ Hq). intros id o Ho. right. by exists o.
  - apply (linked_kept db); rewrite ?Hrc; try done.
    + intros id o Ho. specialize (Hrel id). rewrite Ho in Hrel.
      destruct (lulu_orders (app db') !! id) as [o'|]; [|done]. exists o'. split; [done|].
      destruct Hrel as [->|(Hsm & Hk & He)]; [done|]. split; [done|]. intros Hd Hc. rewrite Hc in He. inversion He.
    + intros id o' Ho'. specialize (Hrel id). rewrite Ho' in Hrel.
      destruct (lulu_orders (app db) !! id) as [o|] eqn:Ho; [|done]. right. exists o. split; [done|].
      destruct Hrel as [->|(Hsm & Hk & He)]; [done|]. split; [done|split; [done|]].
      intros Hd Hc. rewrite Hd, Hc in He. inversion He.
  - apply (linked_kept db); rewrite ?Hrc; try done; rewrite Ho.
    + intros j x Hx. exists x. split; [by apply lookup_insert_fresh|done].
    + intros j x [[-> ->]|Hx]%lookup_insert_or; [left; by rewrite Hs|right; by exists x].
  - apply (linked_kept db); rewrite ?Hrc; try done; rewrite Ho.
    + intros j x Hx. exists x. split; [by apply lookup_insert_fresh|done].
    + intros j x [[-> ->]|Hx]%lookup_insert_or; [left; by rewrite Hs|right; by exists x].
  - destruct (edge_kind _ _ _ _ _ He) as [Hk|Hk]; rewrite Hk in He.
    + destruct (Hdep Hk) as (rid & r & Hr & Hfree & Hp & Hrid & Hs' & Hrc). clear Hwit Hdep.
      assert (Hlate : lo_status o <> "confirmed"%string) by (intros E; rewrite E in He; inversion He).
      destruct Hlk as [L1 L2]. split; rewrite Hrc, Ho.
      * intros rid2 r2 id2 [[-> ->]|Hl]%lookup_insert_or Hid2.
        -- injection Hid2 as <-. exists o'. rewrite lookup_insert_eq.
           split; [done|split; [by eapply receipt_pays_same|done]].
        -- destruct (L1 _ _ _ Hl Hid2) as (o2 & Ho2 & Hp2 & Hs2 & Hr2). exists o2.
           rewrite lookup_insert_ne; [done|congruence].
      * intros j x [[-> ->]|Hx]%lookup_insert_or.
        -- rewrite Hrid. exists (set_receipt_order id r). by rewrite lookup_insert_eq.
        -- specialize (L2 j x Hx). destruct (lo_receipt_id x) as [rid2|]; [|done].
           destruct L2 as (r2 & Hr2 & Hj). exists r2. rewrite lookup_insert_ne; [done|congruence].
    + destruct (Hwit Hk) as [Hrc Hkeep]. apply (linked_kept db); rewrite ?Hrc; try done; rewrite Ho.
      * intros j x Hx. destruct (decide (j = id)) as [->|Hne].
        -- assert (x = o) as -> by congruence. exists o'. rewrite lookup_insert_eq.
           split; [done|split; [done|]]. intros Hd. congruence.
        -- exists x. by rewrite lookup_insert_ne.
      * intros j x [[-> ->]|Hx]%lookup_insert_or; right.
        -- exists o. do 3 (split; [done|]). intros Hd. congruence.
        -- by exists x.
Qed.

(** *** Kinds *)

Definition kinds_ok (db : DB) : Prop := forall id o, lulu_orders db.(app) !! id = Some o ->
  lo_kind o = "withdrawal"%string \/
  lo_kind o = "deposit"%string /\ lo_status o ∈ ["requested"; "confirmed"; "expired"]%string.

Lemma edge_kinds o o' a f : same_order o o' -> order_edge (lo_kind o) (lo_status o) (lo_status o') a f ->
  lo_kind o' = "withdrawal"%string \/
  lo_kind o' = "deposit"%string /\ lo_status o' ∈ ["requested"; "confirmed"; "expired"]%string.
Proof. intros (_ & Hk & _) He. rewrite Hk. destruct He; set_solver. Qed.

Lemma change_kinds db db' : kinds_ok db -> lulu_change db db' -> kinds_ok db'.
Proof.
  intros Hok [Hq _ _ _|_ _ _ _ Hrel|id o _ _ _ _ Hid Ho Hk Hs _ _|
    id o _ _ _ _ Hid Ho Hk Hs _ _|id o o' typ a f _ _ _ _ Hid Ho Hsame He _ _]; intros j x.
  - rewrite (q_lulu _ _ Hq). apply Hok.
  - intros Hx. specialize (Hrel j). rewrite Hx in Hrel.
    destruct (lulu_orders (app db) !! j) as [o|] eqn:Hj; [|done].
    destruct Hrel as [->|(Hsm & _ & He)]; [by eapply Hok|by eapply edge_kinds].
  - rewrite Ho. intros [[-> ->]|Hx]%lookup_insert_or; [right; rewrite Hk, Hs; set_solver|by eapply Hok].
  - rewrite Ho. intros [[-> ->]|Hx]%lookup_insert_or; [by left|by eapply Hok].
  - rewrite Ho. intros [[-> ->]|Hx]%lookup_insert_or; [by eapply edge_kinds|by eapply Hok].
Qed.

Record lulu_ok (db : DB) : Prop := {
  ok_custody : custody db;
  ok_accounted : lulu_accounted db;
  ok_linked : linked db;
  ok_kinds : kinds_ok db
}.

Lemma change_ok db db' : lulu_ok db -> lulu_change db db' -> lulu_ok db'.
Proof.
  intros [] Hc. split;
    [by eapply change_custody|by eapply change_accounted|by eapply change_linked|by eapply change_kinds].
Qed.

Lemma changes_ok db db' : rtc lulu_change db db' -> lulu_ok db -> lulu_ok db'.
Proof. induction 1; eauto using change_ok. Qed.

(** ** Every transaction is made of such changes *)

Lemma moved_transport user typ id da df db db1 d db2 :
  money db1 = money db -> lulu_moved user typ id da df db1 d -> money db2 = money d ->
  lulu_moved user typ id da df db db2.
Proof.
  intros Hm (x & wid & w & w' & r & Hb & [_ _ _ Hf Ho] & Hl & [] & Hrest) Hm2.
  exists (mk_DB (money x) (app db)), wid, w, w', r. split; [done|].
  split; [split; try done; by rewrite <- Hm|]. split; [by rewrite <- Hm|].
  split; [split; try done; by rewrite Hm2|done].
Qed.

(** A step that touches neither the money nor the tables at hand. *)
Record lulu_still (db db' : DB) : Prop := {
  st_money : money db' = money db;
  st_withdrawals : withdrawals db'.(app) = withdrawals db.(app);
  st_points : point_withdrawals db'.(app) = point_withdrawals db.(app);
  st_orders : lulu_orders db'.(app) = lulu_orders db.(app);
  st_receipts : lulu_receipts db'.(app) = lulu_receipts db.(app)
}.

#[export] Instance lulu_still_preorder : PreOrder lulu_still.
Proof. split; [by split|]. intros a b c [] []. split; congruence. Qed.

Lemma still_change db db' : books db.(money) -> lulu_still db db' -> lulu_change db db'.
Proof.
  intros Hb []. apply lc_other; [by apply quiet_app|by rewrite st_money0|by rewrite st_money0|by left].
Qed.

(** Change before or after a still step. *)
Lemma change_still db db1 db2 : lulu_change db db1 -> lulu_still db1 db2 -> lulu_change db db2.
Proof.
  intros Hc [Em Ew Ep Eo Er]. destruct Hc as [Hq Hb Hk Hr|Hm Hwd Hpw Hrc Hrel|id o Hm Hwd Hpw Hrc Hid Ho Hk Hs Hn Ha|
    id o Hmv Hwd Hpw Hrc Hid Ho Hk Hs Hn Ha|id o o' typ a f Hmv Hty Hwd Hpw Hid Ho Hsame He Hwit Hdep].
  - apply lc_other; rewrite ?Em, ?Er; try done. etrans; [exact Hq|by apply quiet_app].
  - apply lc_idle; rewrite ?Em, ?Ew, ?Ep, ?Er, ?Eo; done.
  - apply (lc_new _ _ id o); rewrite ?Em, ?Ew, ?Ep, ?Er, ?Eo; done.
  - apply (lc_freeze _ _ id o); rewrite ?Ew, ?Ep, ?Er, ?Eo; try done.
    by eapply moved_transport; [|exact Hmv|].
  - apply (lc_move _ _ id o o' typ a f); rewrite ?Ew, ?Ep, ?Er, ?Eo; try done.
    by eapply moved_transport; [|exact Hmv|].
Qed.

Lemma still_then db db1 db2 : lulu_still db db1 -> lulu_change db1 db2 -> lulu_change db db2.
Proof.
  intros Hst Hc. pose proof Hst as [Em Ew Ep Eo Er]. destruct Hc as [Hq Hb Hk Hr|Hm Hwd Hpw Hrc Hrel|id o Hm Hwd Hpw Hrc Hid Ho Hk Hs Hn Ha|
    id o Hmv Hwd Hpw Hrc Hid Ho Hk Hs Hn Ha|id o o' typ a f Hmv Hty Hwd Hpw Hid Ho Hsame He Hwit Hdep];
    rewrite ?Er, ?Eo in *.
  - apply lc_other; rewrite <- ?Em; try done. etrans; [by apply quiet_app|exact Hq].
  - apply lc_idle; congruence || done.
  - apply (lc_new _ _ id o); congruence || done.
  - apply (lc_freeze _ _ id o); try (congruence || done).
    by eapply moved_transport; [|exact Hmv|].
  - apply (lc_move _ _ id o o' typ a f); try (congruence || done).
    by eapply moved_transport; [|exact Hmv|].
Qed.

(** *** Reading steps *)

Definition lulu_reader {A} (m : Tx A) : Prop := forall db a db', m db = Ok (a, db') -> lulu_still db db'.

Lemma reader_bind {A B} (m : Tx A) (f : A -> Tx B) :
  lulu_reader m -> (forall a, lulu_reader (f a)) -> lulu_reader (m ≫= f).
Proof. intros Hm Hf db b db' (a & d & H1 & H2)%tx_bind_Ok. etrans; [by eapply Hm|by eapply Hf]. Qed.

Lemma reader_pure {A} (m : Tx A) : (forall db a db', m db = Ok (a, db') -> db = db') -> lulu_reader m.
Proof. intros Hm db a db' <-%Hm. done. Qed.

Lemma reader_gets {A} (f : DB -> A) : lulu_reader (gets f).
Proof. apply reader_pure. by intros db a db' [_ <-]%gets_Ok. Qed.

Lemma reader_reject b e : lulu_reader (reject_if b e).
Proof. apply reader_pure. by intros db a db' [_ <-]%reject_if_Ok. Qed.

Lemma reader_found {A} e (x : option A) : lulu_reader (found e x).
Proof. apply reader_pure. by intros db a db' [_ <-]%found_Ok. Qed.

Lemma reader_lift {A} (m : res A) : lulu_reader (lift m).
Proof. apply reader_pure. by intros db a db' [_ <-]%lift_Ok. Qed.

Lemma reader_ret {A} (a : A) : lulu_reader (mret a).
Proof. apply reader_pure. by intros db x db' [_ <-]%tx_ret_Ok. Qed.

Create HintDb lulu_read discriminated.
#[export] Hint Resolve reader_gets reader_reject reader_found reader_lift reader_ret : lulu_read.

Ltac lulu_reads :=
  repeat match goal with
  | |- lulu_reader (_ ≫= _) => apply reader_bind; [|intros ?]
  | |- lulu_reader (if ?b then _ else _) => destruct b
  | |- lulu_reader (match ?x with _ => _ end) => destruct x
  | |- lulu_reader _ => solve [eauto with lulu_read]
  end.

Section transactions.
Context `{Uuids} (is_uuid : string -> bool).

Lemma reader_uuid : lulu_reader new_uuid.
Proof. intros db a db' [_ <-]%new_uuid_Ok. by split. Qed.

Lemma reader_audit a : lulu_reader (insert_audit a).
Proof. intros db u db' <-%insert_audit_Ok. by split. Qed.

#[local] Hint Resolve reader_uuid reader_audit : lulu_read.

Lemma reader_lulu_admin id : lulu_reader (lulu_admin is_uuid id).
Proof. unfold lulu_admin. lulu_reads. Qed.

Lemma reader_lulu_player id : lulu_reader (lulu_player is_uuid id).
Proof. unfold lulu_player. lulu_reads. Qed.

Lemma reader_lulu_audit actor id action evidence : lulu_reader (lulu_audit actor id action evidence).
Proof. unfold lulu_audit. lulu_reads. Qed.

Lemma reader_ResolveDecimals c b : lulu_reader (ResolveDecimals c b).
Proof. unfold ResolveDecimals. lulu_reads. Qed.

(** *** Status changes that book nothing *)

(** What becomes of the orders when nothing else changes. *)
Record orders_only (db db' : DB) : Prop := {
  oo_money : money db' = money db;
  oo_withdrawals : withdrawals db'.(app) = withdrawals db.(app);
  oo_points : point_withdrawals db'.(app) = point_withdrawals db.(app);
  oo_receipts : lulu_receipts db'.(app) = lulu_receipts db.(app)
}.

Lemma update_where_idle (P : string -> lulu_order_row -> bool) f db u db' :
  (forall id o, P id o = true -> lulu_orders db.(app) !! id = Some o -> idle_move o (f o)) ->
  update_where P f db = Ok (u, db') -> lulu_change db db' /\ orders_only db db'.
Proof.
  intros Hf <-%modify_Ok. split; [|done]. apply lc_idle; try done.
  intros id. cbn. rewrite map_lookup_imap. destruct (lulu_orders (app db) !! id) as [o|] eqn:Ho; cbn; [|done].
  destruct (P id o) eqn:E; [eauto|by left].
Qed.

Lemma update_row_idle f id o db n db' :
  lulu_orders db.(app) !! id = Some o -> idle_move o (f o) ->
  update_row (R := lulu_order_row) id f db = Ok (n, db') -> lulu_change db db'.
Proof.
  intros Ho Hf E. apply update_row_Ok in E as [(E & _)|(x & Hx & _ & <-)]; [cbn in E; congruence|].
  cbn in Hx. assert (x = o) as -> by congruence. apply lc_idle; try done.
  intros j. cbn. destruct (decide (j = id)) as [->|Hne].
  - by rewrite Ho, lookup_insert_eq.
  - rewrite lookup_insert_ne by done. destruct (lulu_orders (app db) !! j); cbn; [by left|done].
Qed.

Lemma expired_idle now o : order_expired now o = true -> idle_move o (set_order_status "expired" o).
Proof.
  unfold order_expired. intros E. bool_to_prop. right. split; [by split|]. split; [done|].
  cbn. match goal with Hk : lo_kind o = _, Hs : lo_status o = _ |- _ => rewrite Hk, Hs end. constructor.
Qed.

Lemma clear_route_change t wall receiver uid db u db' :
  clear_route t wall receiver uid db = Ok (u, db') -> lulu_change db db' /\ orders_only db db'.
Proof.
  unfold clear_route. intros Hrun. apply tx_bind_Ok in Hrun as ([] & d & E & Hrun).
  apply update_where_idle in E as [Hc Ho].
  - unfold select_where in Hrun. rewrite gets_skip in Hrun.
    destruct (find_row _ _) as [[? ?]|]; [done|]. by apply tx_ret_Ok in Hrun as [_ <-].
  - intros id o HP _. apply andb_prop in HP as [HP _]. apply andb_prop in HP as [HP _]. by eapply expired_idle.
Qed.

(** *** Receipts *)

Lemma claim_receipt_Ok rid id db u db' : claim_receipt rid id db = Ok (u, db') ->
  forall r, lulu_receipts db.(app) !! rid = Some r -> db' = put_row rid (set_receipt_order id r) db.
Proof.
  unfold claim_receipt, select_where. intros Hrun r Hr. tx_steps.
  all: cbn in *; congruence.
Qed.

Lemma confirm_order_Ok id rid db u db' : confirm_order id rid db = Ok (u, db') ->
  forall o, lulu_orders db.(app) !! id = Some o -> db' = put_row id (set_order_confirmed rid o) db.
Proof.
  unfold confirm_order, select_where. intros Hrun o Ho. tx_steps.
  all: cbn in *; congruence.
Qed.

Lemma money_only_receipts db db' : money_only db db' -> lulu_receipts db'.(app) = lulu_receipts db.(app).
Proof. intros (n & o & ->). done. Qed.

(** The three writes that pay a deposit order with a receipt. *)
Lemma pay_deposit t o rid r db d1 d2 db' :
  claim_receipt rid (or_ID o) db = Ok ((), d1) ->
  lulu_balance t o "lulu_deposit" (lo_amount (or_row o)) 0 "" d1 = Ok ((), d2) ->
  confirm_order (or_ID o) rid d2 = Ok ((), db') ->
  lulu_orders db.(app) !! or_ID o = Some (or_row o) -> lulu_receipts db.(app) !! rid = Some r ->
  lr_order_id r = None -> receipt_pays r (or_row o) -> lo_status (or_row o) ∈ ["requested"; "expired"]%string ->
  0 < lo_amount (or_row o) <= lulu_cap -> books db.(money) -> lulu_change db db'.
Proof.
  intros E1 E2 E3 Ho Hr Hfree Hp Hs Ha Hb. rewrite (claim_receipt_Ok _ _ _ _ _ E1 r Hr) in E2.
  apply lulu_balance_moved in E2 as [Hmv Hmo]; [|lia..|exact Hb].
  assert (Ho2 : lulu_orders d2.(app) !! or_ID o = Some (or_row o)) by (by rewrite (money_only_lulu _ _ Hmo)).
  rewrite (confirm_order_Ok _ _ _ _ _ E3 _ Ho2).
  eapply (lc_move _ _ (or_ID o) (or_row o) (set_order_confirmed rid (or_row o)) "lulu_deposit" 1 0);
    try done.
  - rewrite Z.mul_1_l, Z.mul_0_l. by eapply moved_transport; [|exact Hmv|].
  - is_lulu_type.
  - cbn. by rewrite (money_only_withdrawals _ _ Hmo).
  - cbn. by rewrite (money_only_points _ _ Hmo).
  - cbn. by rewrite (money_only_lulu _ _ Hmo).
  - destruct Hp as [-> _]. apply elem_of_cons in Hs as [->|Hs]; [constructor|].
    apply list_elem_of_singleton in Hs as ->. constructor.
  - destruct Hp as [-> _]. done.
  - intros _. exists rid, r. do 5 (split; [done|]). cbn. by rewrite (money_only_receipts _ _ Hmo).
Qed.

Lemma claimable_pays o r : lo_kind o = "deposit"%string -> claimable o r = true ->
  receipt_pays r o /\ lr_order_id r = None.
Proof. unfold claimable, receipt_pays. intros Hk E. bool_to_prop. repeat split; try done; lia. Qed.

Lemma completable_pays r o : completable r o = true ->
  receipt_pays r o /\ lo_status o ∈ ["requested"; "expired"]%string /\ lo_amount o = lr_amount r.
Proof. unfold completable, receipt_pays. intros E. bool_to_prop. repeat split; try done; lia. Qed.

Lemma match_receipt_changes t o n db o' db' :
  match_receipt t o n db = Ok (o', db') -> lulu_orders db.(app) !! or_ID o = Some (or_row o) ->
  lo_kind (or_row o) = "deposit"%string -> lo_status (or_row o) = "requested"%string ->
  lo_amount (or_row o) = n -> 0 < n <= lulu_cap -> books db.(money) -> rtc lulu_change db db'.
Proof.
  unfold match_receipt. intros Hrun Ho Hk Hs <- Hn Hb. apply tx_bind_Ok in Hrun as (x & d & E & Hrun).
  apply select_first_Ok in E as [<- Hx]. destruct x as [[rid r]|]; [|by apply tx_ret_Ok in Hrun as [_ <-]].
  destruct Hx as [Hr Hc]. apply claimable_pays in Hc as [Hp Hfree]; [|done].
  apply tx_bind_Ok in Hrun as ([] & d1 & E1 & Hrun). apply tx_bind_Ok in Hrun as ([] & d2 & E2 & Hrun).
  apply tx_bind_Ok in Hrun as ([] & d3 & E3 & Hrun). apply tx_ret_Ok in Hrun as [_ <-].
  apply rtc_once. eapply pay_deposit; eauto. rewrite Hs. is_lulu_type.
Qed.

(** *** Creating an order *)

Lemma insert_order_Ok id row db u db' : insert_order id row db = Ok (u, db') ->
  lulu_orders db.(app) !! id = None /\ db' = put_row id row db.
Proof.
  unfold insert_order. destruct (insert_row _ _ _ db) as [[x d]|e] eqn:E.
  - intros [= _ <-]. by apply insert_row_Ok in E as (Hid & _ & <-).
  - by destruct e.
Qed.

Lemma lulu_Create_changes t wall user kind inp db o db' :
  lulu_Create is_uuid t wall user kind inp db = Ok (o, db') -> books db.(money) -> rtc lulu_change db db'.
Proof.
  unfold lulu_Create. intros Hrun Hb. apply tx_bind_Ok in Hrun as (n & d & E & Hrun).
  apply lift_Ok in E as [Hn%ParseAmount_Ok <-].
  apply tx_bind_Ok in Hrun as ([] & d & E & Hrun). apply reject_if_Ok in E as [Hin <-].
  apply tx_bind_Ok in Hrun as ([] & d & E & Hrun). apply reader_lulu_player in E as Hst. clear E.
  apply tx_bind_Ok in Hrun as (known & d' & E & Hrun). apply gets_Ok in E as [_ <-].
  assert (Hb0 : books d.(money)) by (by rewrite (st_money _ _ Hst)).
  eapply rtc_l; [by apply still_change|]. destruct known as [[i k]|].
  { apply tx_bind_Ok in Hrun as ([] & d' & E & Hrun). apply reject_if_Ok in E as [_ <-].
    by apply tx_ret_Ok in Hrun as [_ <-]. }
  rewrite gets_skip in Hrun. cbv zeta in Hrun.
  apply tx_bind_Ok in Hrun as ([] & d1 & E & Hrun). apply reject_if_Ok in E as [_ <-].
  apply tx_bind_Ok in Hrun as ([] & d1 & E & Hrun). apply reject_if_Ok in E as [_ <-].
  apply tx_bind_Ok in Hrun as (dec & d1 & E & Hrun). apply reader_ResolveDecimals in E.
  assert (Hb1 : books d1.(money)) by (by rewrite (st_money _ _ E)).
  eapply rtc_l; [by apply (still_change d)|]. clear Hst E Hb Hb0.
  apply tx_bind_Ok in Hrun as ([] & d2 & E & Hrun).
  apply tx_bind_Ok in Hrun as (id & d3 & E3 & Hrun). apply new_uuid_Ok in E3 as [<- <-].
  apply tx_bind_Ok in Hrun as ([] & d4 & E4 & Hrun). apply insert_order_Ok in E4 as [Hid ->].
  case_bool_decide as Hk.
  - apply clear_route_change in E as [Hc [Hm _ _ _]]. eapply rtc_l; [exact Hc|].
    assert (Hbt : books (money d2)) by (by rewrite Hm).
    match type of Hrun with match_receipt _ _ _ (put_row ?i ?row ?d) = _ =>
      apply (rtc_l _ _ (put_row i row d)); [by apply (lc_new _ _ i row)|] end.
    eapply match_receipt_changes;
      [exact Hrun|cbn; by rewrite lookup_insert_eq|exact Hk|reflexivity|reflexivity|exact Hn|exact Hbt].
  - apply tx_ret_Ok in E as [_ <-].
    assert (kind = "withdrawal"%string) as ->.
    { apply orb_false_elim in Hin as [_ Hin]. apply negb_false_iff, bool_decide_eq_true in Hin. set_solver. }
    assert (En : (- n)%i64 = - n).
    { apply wrap64_small. unfold lulu_cap, in_int64, int64_min, int64_max in *.
      change (9223372036854775807 / 1000) with 9223372036854775 in Hn. lia. }
    rewrite En in Hrun. apply tx_bind_Ok in Hrun as ([] & d5 & E5 & Hrun). apply tx_ret_Ok in Hrun as [_ <-].
    apply lulu_balance_moved in E5 as [Hmv Hmo]; [|lia..|exact Hb1]. apply rtc_once.
    match type of Hmv with lulu_moved _ _ _ _ _ (put_row ?i ?row _) _ =>
      apply (lc_freeze _ _ i row); try done end.
    + eapply moved_transport; [|exact Hmv|done]. done.
    + by rewrite (money_only_withdrawals _ _ Hmo).
    + by rewrite (money_only_points _ _ Hmo).
    + by rewrite (money_only_receipts _ _ Hmo).
    + by rewrite (money_only_lulu _ _ Hmo).
Qed.

(** *** Deciding a withdrawal *)

Lemma neg_stones n : 0 < n <= lulu_cap -> (- n)%i64 = - n.
Proof.
  unfold lulu_cap, int64_max. change (9223372036854775807 / 1000) with 9223372036854775. intros Hn.
  apply wrap64_small. unfold in_int64, int64_min, int64_max. lia.
Qed.

Lemma unit_stones n : 0 = 0 * n /\ n = 1 * n /\ - n = -1 * n.
Proof. lia. Qed.

Lemma decide_withdrawal t o typ a f actor g db d n db' :
  lulu_balance t o typ (a * lo_amount (or_row o)) (f * lo_amount (or_row o)) actor db = Ok ((), d) ->
  update_row (R := lulu_order_row) (or_ID o) g d = Ok (n, db') ->
  lulu_orders db.(app) !! or_ID o = Some (or_row o) -> lo_kind (or_row o) = "withdrawal"%string ->
  same_order (or_row o) (g (or_row o)) -> keeps_receipt (or_row o) (g (or_row o)) ->
  order_edge "withdrawal" (lo_status (or_row o)) (lo_status (g (or_row o))) a f ->
  typ ∈ lulu_types -> 0 < lo_amount (or_row o) <= lulu_cap -> books db.(money) -> lulu_change db db'.
Proof.
  intros E1 E2 Ho Hk Hsame Hkeep He Hty Ha Hb.
  assert (Hr : - 1 <= a <= 1 /\ - 1 <= f <= 1) by (destruct He; lia).
  apply lulu_balance_moved in E1 as [Hmv Hmo]; [|nia..|exact Hb].
  assert (Ho2 : lulu_orders d.(app) !! or_ID o = Some (or_row o)) by (by rewrite (money_only_lulu _ _ Hmo)).
  apply update_row_Ok in E2 as [(E2 & _)|(x & Hx & _ & <-)]; [cbn in E2; congruence|].
  cbn in Hx. assert (x = or_row o) as -> by congruence.
  apply (lc_move _ _ (or_ID o) (or_row o) (g (or_row o)) typ a f); try done.
  - by eapply moved_transport; [|exact Hmv|].
  - cbn. by rewrite (money_only_withdrawals _ _ Hmo).
  - cbn. by rewrite (money_only_points _ _ Hmo).
  - cbn. by rewrite (money_only_lulu _ _ Hmo).
  - by rewrite Hk.
  - intros _. split; [cbn; by rewrite (money_only_receipts _ _ Hmo)|done].
  - rewrite Hk. discriminate.
Qed.

(** The premises of a decision, from what its transaction has read. *)
Ltac decided a f Hmoney Hrow Hold Hkind Hstatus Hamount Hcustody :=
  eapply (decide_withdrawal _ _ _ a f);
  [ exact Hmoney | exact Hrow | exact Hold | exact Hkind | repeat split | reflexivity
   | cbn; rewrite Hstatus; constructor | is_lulu_type | exact Hamount | apply Hcustody ].

Lemma scan_order_Ok id db o db' : scan_order id db = Ok (o, db') ->
  db = db' /\ or_ID o = id /\ lulu_orders db.(app) !! id = Some (or_row o).
Proof.
  unfold scan_order, select_id. intros Hrun. rewrite gets_skip in Hrun.
  apply tx_bind_Ok in Hrun as (row & d & E & Hrun). apply found_Ok in E as [E <-].
  by apply tx_ret_Ok in Hrun as [<- <-].
Qed.

Lemma review_target_cases action target needed : review_target action = Some (target, needed) ->
  (action = "approve" /\ target = "approved" /\ needed = "requested") \/
  (action = "reject" /\ target = "rejected" /\ needed = "requested") \/
  (action = "confirm_paid" /\ target = "confirmed" /\ needed = "unknown") \/
  (action = "confirm_not_paid" /\ target = "failed" /\ needed = "unknown").
Proof. unfold review_target. intros E. repeat (case_bool_decide; [injection E as <- <-; tauto|]). done. Qed.

Lemma lulu_Review_changes t id actor action evidence db o db' :
  lulu_Review is_uuid t id actor action evidence db = Ok (o, db') -> custody db -> rtc lulu_change db db'.
Proof.
  unfold lulu_Review. intros Hrun Hcu.
  apply tx_bind_Ok in Hrun as ([] & d & E & Hrun). apply reject_if_Ok in E as [_ <-].
  apply tx_bind_Ok in Hrun as ([] & d & E & Hrun). apply reject_if_Ok in E as [_ <-].
  apply tx_bind_Ok in Hrun as ([] & d & E & Hrun). apply reader_lulu_admin in E as Hst.
  eapply rtc_l; [by apply (still_change db); [apply Hcu|exact Hst]|].
  assert (Hcd : custody d) by (apply (custody_app db); [done|apply Hst..]). clear E Hst Hcu.
  rewrite gets_skip in Hrun. apply tx_bind_Ok in Hrun as (x & d' & E & Hrun).
  apply scan_order_Ok in E as (<- & Hid & Hx). rewrite <- Hid in Hrun, Hx. clear Hid.
  destruct (cu_lulu _ Hcd _ _ Hx) as [Ha _]. change (int64_max / 1000) with lulu_cap in Ha.
  apply tx_bind_Ok in Hrun as ([] & d' & E & Hrun). apply reject_if_Ok in E as [E <-].
  apply negb_false_iff, bool_decide_eq_true in E as Hk. clear E.
  apply tx_bind_Ok in Hrun as ([target needed] & d' & E & Hrun). apply found_Ok in E as [Hact <-].
  case_bool_decide as Hsame; [by apply tx_ret_Ok in Hrun as [_ <-]|].
  apply tx_bind_Ok in Hrun as ([] & d' & E & Hrun). apply reject_if_Ok in E as [E <-].
  apply negb_false_iff, bool_decide_eq_true in E as Hneed. clear E.
  apply tx_bind_Ok in Hrun as ([] & d1 & E1 & Hrun). apply tx_bind_Ok in Hrun as (n & d2 & E2 & Hrun).
  apply tx_bind_Ok in Hrun as ([] & d3 & E3 & Hrun). apply tx_ret_Ok in Hrun as [_ <-].
  apply reader_lulu_audit in E3. unfold review_money in E1.
  rewrite order_stones_exact, neg_stones in E1 by done. cbv zeta in E1.
  destruct (unit_stones (lo_amount (or_row x))) as (U0 & U1 & U2).
  apply rtc_once. eapply change_still; [|exact E3]. clear E3.
  destruct (review_target_cases _ _ _ Hact) as [(-> & -> & ->)|[(-> & -> & ->)|[(-> & -> & ->)|(-> & -> & ->)]]];
    cbn [bool_decide decide_rel] in E1; rewrite ?bool_decide_true, ?bool_decide_false in E1 by done;
    rewrite ?U2 in E1; try rewrite U0 in E1 at 1; try rewrite U1 in E1 at 1.
  - apply reject_if_Ok in E1 as [_ <-]. eapply update_row_idle; [exact Hx| |exact E2].
    right. split; [by split|split; [done|]]. cbn. rewrite Hk, Hneed. constructor.
  - decided 1 (-1) E1 E2 Hx Hk Hneed Ha Hcd.
  - decided 0 (-1) E1 E2 Hx Hk Hneed Ha Hcd.
  - decided 1 (-1) E1 E2 Hx Hk Hneed Ha Hcd.
Qed.

(** *** Receipts, transfers and deadlines *)

(** The stored row of a receipt the provider handed over. *)
Definition stored_as (r : Receipt) (row : lulu_receipt_row) : Prop :=
  lr_receiver_uid row = rt_ReceiverUID r /\ lr_sender_uid row = rt_SenderUID r /\
  lr_amount row = rt_Amount r /\ lr_occurred_at row = rt_OccurredAt r.

Lemma RecordReceipt_run Receiver t r db db' :
  RecordReceipt Receiver t r db = Ok ((), db') -> custody db -> exists d row,
  lulu_change db d /\ lulu_receipts d.(app) !! rt_ID r = Some row /\ stored_as r row /\ rtc lulu_change d db'.
Proof.
  unfold RecordReceipt. intros Hrun Hcu. apply tx_bind_Ok in Hrun as ([] & d & E & Hrun).
  apply reject_if_Ok in E as [_ <-]. apply tx_bind_Ok in Hrun as (fresh & d & E & Hrun).
  assert (Hd : lulu_change db d /\ custody d).
  { apply insert_ignore_Ok in E as [(_ & <-)|(_ & Hid & _ & <-)].
    - split; [|done]. apply still_change; [apply Hcu|done].
    - split; [|by apply (custody_app db)]. apply lc_other; [by apply quiet_app|apply Hcu|done|].
      right. eexists _, _. split; [exact Hid|]. by split; [|reflexivity]. }
  destruct Hd as [Hc Hcd]. clear E Hcu.
  unfold select_id in Hrun. rewrite gets_skip in Hrun.
  apply tx_bind_Ok in Hrun as (stored & d' & E & Hrun). apply found_Ok in E as [Hr <-]. cbn in Hr.
  apply tx_bind_Ok in Hrun as ([] & d' & E & Hrun). apply reject_if_Ok in E as [E <-].
  assert (Hst : stored_as r stored) by (unfold stored_as; bool_to_prop; auto). clear E.
  exists d, stored. split; [done|split; [done|split; [done|]]]. destruct Hst as (_ & _ & Ha & _).
  destruct (lr_order_id stored) as [k|] eqn:Hfree; [by apply tx_ret_Ok in Hrun as [_ <-]|].
  apply tx_bind_Ok in Hrun as (m & d' & E & Hrun). apply select_first_Ok in E as [<- Hm].
  destruct m as [[id row]|]; [|by apply tx_ret_Ok in Hrun as [_ <-]].
  destruct Hm as [Ho Hcm]. apply completable_pays in Hcm as (Hp & Hs & Hamt).
  apply tx_bind_Ok in Hrun as ([] & d1 & E1 & Hrun). apply tx_bind_Ok in Hrun as (o & d' & E2 & Hrun).
  apply scan_order_Ok in E2 as (<- & Hid & Ho2). apply tx_bind_Ok in Hrun as ([] & d2 & E3 & Hrun).
  assert (Hrow : or_row o = row).
  { rewrite (claim_receipt_Ok _ _ _ _ _ E1 _ Hr) in Ho2. cbn in Ho, Ho2. congruence. }
  subst row id. apply rtc_once. rewrite <- Ha, <- Hamt in E3.
  eapply pay_deposit; try eassumption; [|apply Hcd]. by apply (cu_lulu _ Hcd (or_ID o)).
Qed.

Lemma RecordReceipt_changes Receiver t r db db' :
  RecordReceipt Receiver t r db = Ok ((), db') -> custody db -> rtc lulu_change db db'.
Proof.
  intros Hrun Hcu. destruct (RecordReceipt_run _ _ _ _ _ Hrun Hcu) as (d & row & Hc & _ & _ & Hcs).
  by eapply rtc_l.
Qed.

Lemma begin_sending_change Receiver version db o db' :
  begin_sending Receiver version db = Ok (o, db') -> books db.(money) -> lulu_change db db'.
Proof.
  unfold begin_sending. intros Hrun Hb. rewrite gets_skip in Hrun.
  destruct (negb _); [apply tx_ret_Ok in Hrun as [_ <-]; by apply still_change|].
  apply tx_bind_Ok in Hrun as (x & d & E & Hrun). apply select_first_Ok in E as [<- Hx].
  destruct x as [[id row]|]; [|apply tx_ret_Ok in Hrun as [_ <-]; by apply still_change].
  destruct Hx as [Ho HP]. bool_to_prop. apply tx_bind_Ok in Hrun as (n & d & E & Hrun).
  apply tx_ret_Ok in Hrun as [_ <-]. eapply update_row_idle; [exact Ho| |exact E].
  right. split; [by split|split; [done|]]. cbn.
  match goal with Hk : lo_kind row = _, Hs : lo_status row = _ |- _ => rewrite Hk, Hs end. constructor.
Qed.

Lemma lulu_finish_changes t id result db db' :
  lulu_finish t id result db = Ok ((), db') -> custody db -> kinds_ok db -> rtc lulu_change db db'.
Proof.
  unfold lulu_finish. intros Hrun Hcu Hkinds.
  apply tx_bind_Ok in Hrun as (o & d & E & Hrun). apply scan_order_Ok in E as (<- & <- & Ho).
  apply tx_bind_Ok in Hrun as ([] & d & E & Hrun). apply reject_if_Ok in E as [E <-].
  apply negb_false_iff, bool_decide_eq_true in E as Hs. cbv zeta in Hrun.
  assert (Hk : lo_kind (or_row o) = "withdrawal"%string).
  { destruct (Hkinds _ _ Ho) as [Hk|[_ Hk]]; [done|]. rewrite Hs in Hk. set_solver. }
  destruct (cu_lulu _ Hcu _ _ Ho) as [Ha _]. change (int64_max / 1000) with lulu_cap in Ha.
  rewrite order_stones_exact, neg_stones in Hrun by done.
  destruct (unit_stones (lo_amount (or_row o))) as (U0 & U1 & U2).
  apply tx_bind_Ok in Hrun as ([] & d & E1 & Hrun). apply tx_bind_Ok in Hrun as (n & d2 & E2 & Hrun).
  apply tx_ret_Ok in Hrun as [_ <-]. apply rtc_once. rewrite ?U2 in E1. destruct result.
  - rewrite U0 in E1 at 1. decided 0 (-1) E1 E2 Ho Hk Hs Ha Hcu.
  - apply tx_ret_Ok in E1 as [_ <-]. eapply update_row_idle; [exact Ho| |exact E2].
    right. split; [by split|split; [done|]]. cbn. rewrite Hk, Hs. constructor.
  - rewrite U1 in E1 at 1. decided 1 (-1) E1 E2 Ho Hk Hs Ha Hcu.
Qed.

Lemma lulu_List_changes t user actor kind status st en limit offset db l db' :
  lulu_List is_uuid t user actor kind status st en limit offset db = Ok (l, db') ->
  books db.(money) -> rtc lulu_change db db'.
Proof.
  unfold lulu_List. intros Hrun Hb.
  apply tx_bind_Ok in Hrun as ([] & d & E & Hrun). apply reject_if_Ok in E as [_ <-].
  apply tx_bind_Ok in Hrun as ([] & d & E & Hrun). apply reject_if_Ok in E as [_ <-].
  apply tx_bind_Ok in Hrun as ([] & d & E & Hrun).
  assert (Hst : lulu_still db d).
  { destruct (bool_decide _); [by eapply reader_lulu_player|by eapply reader_lulu_admin]. }
  eapply rtc_l; [by apply still_change|]. apply tx_bind_Ok in Hrun as ([] & d' & E2 & Hrun).
  apply update_where_idle in E2 as [Hc _].
  - unfold select_all in Hrun. rewrite gets_skip in Hrun. apply tx_ret_Ok in Hrun as [_ <-]. by apply rtc_once.
  - intros id o HP _. apply andb_prop in HP as [HP _]. by eapply expired_idle.
Qed.

Lemma ExpireDeposits_change t db db' : ExpireDeposits t db = Ok ((), db') -> lulu_change db db'.
Proof.
  unfold ExpireDeposits. intros E. apply update_where_idle in E as [Hc _]; [exact Hc|].
  intros id o HP _. by eapply expired_idle.
Qed.

Lemma RecoverSending_change Receiver db db' : RecoverSending Receiver db = Ok ((), db') -> lulu_change db db'.
Proof.
  unfold RecoverSending. intros E. apply update_where_idle in E as [Hc _]; [exact Hc|].
  intros id o HP _. bool_to_prop. right.
  split; [by split|split; [done|]]. cbn.
  match goal with Hk : lo_kind o = _, Hs : lo_status o = _ |- _ => rewrite Hk, Hs end. constructor.
Qed.

(** ** Every sequence of committed transactions *)

Inductive lulu_tx (db db' : DB) : Prop :=
| ls_create t wall user kind inp o : lulu_Create is_uuid t wall user kind inp db = Ok (o, db') -> lulu_tx db db'
| ls_review t id actor action evidence o :
    lulu_Review is_uuid t id actor action evidence db = Ok (o, db') -> lulu_tx db db'
| ls_list t user actor kind status st en limit offset l :
    lulu_List is_uuid t user actor kind status st en limit offset db = Ok (l, db') -> lulu_tx db db'
| ls_receipt Receiver t r : RecordReceipt Receiver t r db = Ok ((), db') -> lulu_tx db db'
| ls_send Receiver version o : begin_sending Receiver version db = Ok (o, db') -> lulu_tx db db'
| ls_finish t id result : lulu_finish t id result db = Ok ((), db') -> lulu_tx db db'
| ls_recover Receiver : RecoverSending Receiver db = Ok ((), db') -> lulu_tx db db'
| ls_expire t : ExpireDeposits t db = Ok ((), db') -> lulu_tx db db'.

(** One of them, or a transaction of another component. *)
Inductive lulu_step (db db' : DB) : Prop :=
| ls_tx : lulu_tx db db' -> lulu_step db db'
| ls_elsewhere : quiet db db' -> books db'.(money) ->
    (forall f id, lulu_booked f id (ledger db'.(money)) = lulu_booked f id (ledger db.(money))) ->
    lulu_receipts db'.(app) = lulu_receipts db.(app) -> lulu_step db db'.

Lemma tx_changes db db' : lulu_tx db db' -> custody db -> kinds_ok db -> rtc lulu_change db db'.
Proof.
  intros Hstep Hcu Hk. pose proof (cu_books _ Hcu) as Hb. destruct Hstep.
  - by eapply lulu_Create_changes.
  - by eapply lulu_Review_changes.
  - by eapply lulu_List_changes.
  - by eapply RecordReceipt_changes.
  - by eapply rtc_once, begin_sending_change.
  - by eapply lulu_finish_changes.
  - by eapply rtc_once, RecoverSending_change.
  - by eapply rtc_once, ExpireDeposits_change.
Qed.

Lemma tx_custody db db' : lulu_tx db db' -> custody db -> kinds_ok db -> custody db' /\ kinds_ok db'.
Proof.
  intros Htx Hcu Hk. pose proof (tx_changes _ _ Htx Hcu Hk) as Hc. clear Htx. revert Hcu Hk.
  induction Hc; eauto using change_custody, change_kinds.
Qed.

Lemma step_changes db db' : lulu_step db db' -> lulu_ok db -> rtc lulu_change db db'.
Proof.
  intros [Htx|Hq Hb Hl Hr] Hok; [by apply tx_changes; [|apply Hok..]|]. apply rtc_once, lc_other; auto.
Qed.

Lemma steps_ok db db' : rtc lulu_step db db' -> lulu_ok db -> lulu_ok db' /\ rtc lulu_change db db'.
Proof.
  induction 1 as [|db d db' Hstep _ IH]; intros Hok; [done|]. pose proof (step_changes _ _ Hstep Hok) as Hc.
  destruct IH as [Hok' Hc']; [by eapply changes_ok|]. split; [done|by etrans].
Qed.

End transactions.
