(* ===== verification/LuluHistory.v ===== *)
(** * Lulu payments over time

    The theorems of the Lulu channel over every sequence of committed
    transactions ([lulu_step] of LuluProofs), with the runs of the collector and
    of the dispatcher as such sequences. *)

From S2P Require Import Prelude GoStrings Money Json Schema Store Books Custody Wallet Operations.
From S2P Require Import BetBooks Examples CreditProofs Lulu LuluProofs.

(** ** What never goes back *)

(** How far an order has come; a payout that was handed over has passed 1. *)
Definition status_rank (s : string) : Z :=
  if bool_decide (s = "requested"%string) then 0
  else if bool_decide (s = "approved"%string) then 1
  else if bool_decide (s ∈ ["sending"; "expired"]%string) then 2
  else if bool_decide (s = "unknown"%string) then 3 else 4.

Lemma edge_rank kind s s' a f : order_edge kind s s' a f -> status_rank s < status_rank s'.
Proof. by intros []. Qed.

(** An order later on: the same order, further along, and final when it was. *)
Definition later_order (o o' : lulu_order_row) : Prop :=
  same_order o o' /\
  (lo_status o' = lo_status o \/ status_rank (lo_status o) < status_rank (lo_status o')).

(** A receipt later on: the same transfer; once it has an order it keeps it. *)
Definition later_receipt (r r' : lulu_receipt_row) : Prop :=
  lr_receiver_uid r' = lr_receiver_uid r /\ lr_sender_uid r' = lr_sender_uid r /\
  lr_amount r' = lr_amount r /\ lr_occurred_at r' = lr_occurred_at r /\
  (lr_order_id r <> None -> r' = r).

Record later (db db' : DB) : Prop := {
  lt_orders : forall id o, lulu_orders db.(app) !! id = Some o ->
    exists o', lulu_orders db'.(app) !! id = Some o' /\ later_order o o';
  lt_receipts : forall rid r, lulu_receipts db.(app) !! rid = Some r ->
    exists r', lulu_receipts db'.(app) !! rid = Some r' /\ later_receipt r r'
}.

Lemma later_order_trans o1 o2 o3 : later_order o1 o2 -> later_order o2 o3 -> later_order o1 o3.
Proof.
  intros [Hs Hr] [Hs' Hr']. split; [by etrans|].
  destruct Hr as [<-|Hr], Hr' as [E|Hr']; try (by auto); rewrite ?E in *; right; try done; lia.
Qed.

Lemma later_receipt_trans r1 r2 r3 : later_receipt r1 r2 -> later_receipt r2 r3 -> later_receipt r1 r3.
Proof.
  intros (H1 & H2 & H3 & H4 & H5) (K1 & K2 & K3 & K4 & K5).
  do 4 (split; [congruence|]). intros Hn. pose proof (H5 Hn) as ->. by apply K5.
Qed.

#[export] Instance later_preorder : PreOrder later.
Proof.
  split.
  - intros db. split; intros i x Hx; exists x; (split; [done|]); [split; [done|by left]|done].
  - intros d1 d2 d3 [O1 R1] [O2 R2]. split.
    + intros id o Ho. destruct (O1 id o Ho) as (o2 & Ho2 & L1), (O2 id o2 Ho2) as (o3 & Ho3 & L2).
      exists o3. split; [done|by eapply later_order_trans].
    + intros id r Hr. destruct (R1 id r Hr) as (r2 & Hr2 & L1), (R2 id r2 Hr2) as (r3 & Hr3 & L2).
      exists r3. split; [done|by eapply later_receipt_trans].
Qed.

Lemma same_later {R} (P : R -> R -> Prop) (t t' : gmap string R) :
  Reflexive P -> t' = t -> forall id x, t !! id = Some x -> exists y, t' !! id = Some y /\ P x y.
Proof. intros HP -> id x Hx. by exists x. Qed.

Lemma change_later db db' : lulu_change db db' -> later db db'.
Proof.
  assert (HO : Reflexive later_order) by (intros o; split; [done|by left]).
  assert (HR : Reflexive later_receipt) by done.
  intros [Hq _ _ Hrc|_ _ _ Hrc Hrel|id o _ _ _ Hrc Hid Ho _ _ _ _|
    id o _ _ _ Hrc Hid Ho _ _ _ _|id o o' typ a f _ _ _ _ Hid Ho Hsame He Hwit Hdep].
  - split; [apply same_later; [done|apply Hq]|].
    destruct Hrc as [Hrc|(i & x & Hf & _ & Hrc)]; [by apply same_later|]. rewrite Hrc.
    intros rid r Hr. exists r. split; [by apply lookup_insert_fresh|done].
  - split; [|by apply same_later]. intros id o Ho. specialize (Hrel id). rewrite Ho in Hrel.
    destruct (lulu_orders (app db') !! id) as [o'|]; [|done]. exists o'. split; [done|].
    destruct Hrel as [->|(Hsm & _ & He)]; [done|]. split; [done|]. right. by eapply edge_rank.
  - split; [|by apply same_later]. rewrite Ho. intros j x Hx. exists x. split; [by apply lookup_insert_fresh|done].
  - split; [|by apply same_later]. rewrite Ho. intros j x Hx. exists x. split; [by apply lookup_insert_fresh|done].
  - split.
    + rewrite Ho. intros j x Hx. destruct (decide (j = id)) as [->|Hne].
      * assert (x = o) as -> by congruence. exists o'. rewrite lookup_insert_eq. split; [done|].
        split; [done|]. right. by eapply edge_rank.
      * exists x. by rewrite lookup_insert_ne.
    + destruct (edge_kind _ _ _ _ _ He) as [Hk|Hk]; [|by apply same_later; [done|apply Hwit]].
      destruct (Hdep Hk) as (rid & r & Hr & Hfree & _ & _ & _ & ->). intros i x Hx.
      destruct (decide (i = rid)) as [->|Hne].
      * assert (x = r) as -> by congruence. eexists. rewrite lookup_insert_eq. by repeat split.
      * exists x. by rewrite lookup_insert_ne.
Qed.

Lemma changes_later db db' : rtc lulu_change db db' -> later db db'.
Proof. induction 1 as [|db d db' Hc _ IH]; [done|]. etrans; [by apply change_later|done]. Qed.

Section history.
Context `{Uuids} (is_uuid : string -> bool).

#[local] Notation lulu_step := (lulu_step is_uuid).

Lemma steps_later db db' : rtc lulu_step db db' -> lulu_ok db -> lulu_ok db' /\ later db db'.
Proof.
  intros Hs Hok. destruct (steps_ok is_uuid _ _ Hs Hok) as [Hok' Hc]. split; [done|by apply changes_later].
Qed.

(** C12: Every Lulu order has booked exactly what its status says: whatever
    players, staff, the collector, the dispatcher and the deadlines do, in
    whatever order, a deposit has credited a thousand minor units for each stone
    if and only if it is confirmed; a withdrawal holds its amount frozen while it
    is open, has spent it once it is confirmed and has it back once it was
    rejected or failed; and the frozen balances of all wallets stay backed. *)
Theorem lulu_orders_accounted db db' id o :
  rtc lulu_step db db' -> lulu_ok db -> lulu_orders db'.(app) !! id = Some o ->
  custody db' /\
  lulu_booked le_available_delta id (ledger db'.(money)) =
    (if bool_decide (lo_kind o = "deposit"%string)
     then if bool_decide (lo_status o = "confirmed"%string) then 1000 * lo_amount o else 0
     else if bool_decide (lo_status o ∈ ["rejected"; "failed"]%string) then 0 else - (1000 * lo_amount o)) /\
  lulu_booked le_frozen_delta id (ledger db'.(money)) =
    (if lulu_freezes o then 1000 * lo_amount o else 0) /\
  (lo_kind o = "deposit"%string \/ lo_kind o = "withdrawal"%string).
Proof.
  intros Hs Hok Ho. destruct (steps_ok is_uuid _ _ Hs Hok) as [[Hcu Hacc _ Hk] _]. split; [done|].
  destruct (Hacc id) as [A F]. rewrite A, F, Ho. cbn [from_option]. unfold booked_available, booked_frozen, lulu_freezes.
  destruct (Hk id o Ho) as [->|[-> _]].
  - rewrite (bool_decide_false ("withdrawal" = "deposit")%string) by done.
    rewrite (bool_decide_true ("withdrawal" = "withdrawal")%string) by done. cbn [andb].
    split; [case_bool_decide; lia|split; [destruct (lulu_open _); lia|by right]].
  - rewrite (bool_decide_true ("deposit" = "deposit")%string) by done.
    rewrite (bool_decide_false ("deposit" = "withdrawal")%string) by done. cbn [andb].
    split; [case_bool_decide; lia|split; [lia|by left]].
Qed.


Lemma begin_sending_Some Receiver version db o db' :
  begin_sending Receiver version db = Ok (Some o, db') ->
  lulu_orders db.(app) !! or_ID o = Some (or_row o) /\ lo_kind (or_row o) = "withdrawal"%string /\
  lo_status (or_row o) = "approved"%string /\ lo_receiver_uid (or_row o) = Receiver /\
  db' = put_row (or_ID o) (set_order_status "sending" (or_row o)) db /\
  serves Receiver version (lulu_setting db.(app)) = true.
Proof.
  unfold begin_sending. intros Hrun. rewrite gets_skip in Hrun.
  destruct (negb _) eqn:Hsv; [by apply tx_ret_Ok in Hrun as [? _]|]. apply negb_false_iff in Hsv.
  apply tx_bind_Ok in Hrun as (x & d & E & Hrun). apply select_first_Ok in E as [<- Hx].
  destruct x as [[id row]|]; [|by apply tx_ret_Ok in Hrun as [? _]].
  destruct Hx as [Ho HP]. bool_to_prop. apply tx_bind_Ok in Hrun as (n & d & E & Hrun).
  apply tx_ret_Ok in Hrun as [[= <-] <-]. cbn [or_ID or_row].
  apply update_row_Ok in E as [(E & _)|(y & Hy & _ & <-)]; [cbn in E, Ho; congruence|].
  assert (y = row) as -> by congruence. auto 8.
Qed.

(** C27: A payout is handed to the provider at most once.  Once the dispatcher
    has taken an approved withdrawal, no later run of the dispatcher takes it
    again, whatever happened in between (a crash, an unknown result, a review,
    a recovery); the order it took was approved, belongs to the configured
    account, and was marked as being sent before the transfer. *)
Theorem lulu_dispatched_once Receiver version o db1 db2 db3 Receiver' version' o' db4 :
  lulu_ok db1 -> begin_sending Receiver version db1 = Ok (Some o, db2) -> rtc lulu_step db2 db3 ->
  begin_sending Receiver' version' db3 = Ok (Some o', db4) ->
  or_ID o' <> or_ID o /\ lo_status (or_row o) = "approved"%string /\ lo_receiver_uid (or_row o) = Receiver /\
  exists row, lulu_orders db3.(app) !! or_ID o = Some row /\ same_order (or_row o) row /\
    lo_status row ∉ ["requested"; "approved"]%string.
Proof.
  intros Hok H1 Hs H2. pose proof (begin_sending_change _ _ _ _ _ H1 (cu_books _ (ok_custody _ Hok))) as Hc.
  destruct (begin_sending_Some _ _ _ _ _ H1) as (Ho & _ & Hap & Hrc & -> & _).
  destruct (begin_sending_Some _ _ _ _ _ H2) as (Ho' & _ & Hap' & _).
  destruct (steps_later _ _ Hs (change_ok _ _ Hok Hc)) as [_ [Hlo _]].
  destruct (Hlo (or_ID o) (set_order_status "sending" (or_row o))) as (row & Hrow & Hsm & Hst).
  { cbn. by rewrite lookup_insert_eq. }
  assert (Hr : 2 <= status_rank (lo_status row)).
  { destruct Hst as [->|Hst]; [done|]. cbn [set_order_status lo_status] in Hst.
    change (status_rank "sending") with 2 in Hst. lia. }
  split; [|split; [done|split; [done|]]].
  - intros E. rewrite E in Ho'. assert (row = or_row o') as -> by congruence. rewrite Hap' in Hr.
    change (status_rank "approved") with 1 in Hr. lia.
  - exists row. split; [done|split; [etrans; [|exact Hsm]; by repeat split|]]. intros Hin.
    apply elem_of_cons in Hin as [E|Hin]; [rewrite E in Hr; by vm_compute in Hr|].
    apply list_elem_of_singleton in Hin. rewrite Hin in Hr. by vm_compute in Hr.
Qed.

(** ** The collector and the dispatcher *)

(** Transactions that leave the state of the collector alone. *)
Definition same_collector {A} (m : Tx A) : Prop := forall db a db',
  m db = Ok (a, db') -> lulu_collector_state db'.(app) = lulu_collector_state db.(app).

Lemma collector_bind {A B} (m : Tx A) (f : A -> Tx B) :
  same_collector m -> (forall a, same_collector (f a)) -> same_collector (m ≫= f).
Proof. intros Hm Hf db b db' (a & d & H1 & H2)%tx_bind_Ok. etrans; [by eapply Hf|by eapply Hm]. Qed.

Lemma collector_balance t o typ da df actor : same_collector (lulu_balance t o typ da df actor).
Proof. intros db u db' Hrun. unfold lulu_balance, find_wallet in Hrun. cbv zeta in Hrun. by tx_steps. Qed.

Lemma collector_claim rid id : same_collector (claim_receipt rid id).
Proof. intros db u db' Hrun. unfold claim_receipt, select_where in Hrun. by tx_steps. Qed.

Lemma collector_confirm id rid : same_collector (confirm_order id rid).
Proof. intros db u db' Hrun. unfold confirm_order, select_where in Hrun. by tx_steps. Qed.

Lemma collector_RecordReceipt Receiver t r : same_collector (RecordReceipt Receiver t r).
Proof.
  intros db u db' Hrun. unfold RecordReceipt, select_id in Hrun. tx_steps; try done;
  repeat match goal with
  | H : select_first _ _ _ = Ok _ |- _ => apply select_first_Ok in H as [<- _]
  | H : claim_receipt _ _ _ = Ok _ |- _ => apply collector_claim in H
  | H : confirm_order _ _ _ = Ok _ |- _ => apply collector_confirm in H
  | H : scan_order _ _ = Ok _ |- _ => apply scan_order_Ok in H as [<- _]
  | H : lulu_balance _ _ _ _ _ _ _ = Ok _ |- _ => apply collector_balance in H
  end; cbn in *; congruence.
Qed.

Definition kept_receipt (db : DB) (r : Receipt) : Prop := exists row,
  lulu_receipts db.(app) !! rt_ID r = Some row /\ stored_as r row.

Lemma kept_later db db' r : later db db' -> kept_receipt db r -> kept_receipt db' r.
Proof.
  intros [_ Hl] (row & Hr & Hs). destruct (Hl _ _ Hr) as (row' & Hr' & E1 & E2 & E3 & E4 & _).
  exists row'. split; [done|]. unfold stored_as in *. by rewrite E1, E2, E3, E4.
Qed.

Lemma record_all_run Receiver t rs : forall db res db',
  record_all Receiver t rs db = (res, db') -> lulu_ok db ->
  rtc lulu_step db db' /\ lulu_collector_state db'.(app) = lulu_collector_state db.(app) /\
  (res = Ok () -> Forall (kept_receipt db') rs).
Proof.
  induction rs as [|r rs IH]; cbn [record_all]; intros db res db' Hrun Hok.
  { injection Hrun as <- <-. split; [apply rtc_refl|split; [done|]]. constructor. }
  unfold mbind, Svc_bind in Hrun. destruct (atomically _ db) as [x d] eqn:E.
  apply atomically_cases in E as [([] & -> & E)|(e & -> & ->)].
  - pose proof (ls_tx is_uuid _ _ (ls_receipt is_uuid db d Receiver t r E)) as Hstep.
    destruct (steps_later _ _ (rtc_once _ _ Hstep) Hok) as [Hokd _].
    destruct (IH d res db' Hrun Hokd) as (Hs & Hlx & Hall).
    split; [by eapply rtc_l|split; [by rewrite Hlx; eapply collector_RecordReceipt|]]. intros Hr.
    constructor; [|by apply Hall]. destruct (steps_later _ _ Hs Hokd) as [_ Hl].
    destruct (RecordReceipt_run _ _ _ _ _ E (ok_custody _ Hok)) as (d0 & row & _ & Hrow & Hst & Hcs).
    eapply kept_later; [exact Hl|]. eapply kept_later; [by apply changes_later|]. by exists row.
  - injection Hrun as <- <-. done.
Qed.

Lemma elsewhere_collector Receiver (row : lulu_collector_row) db : lulu_ok db -> lulu_step db (put_row Receiver row db).
Proof. intros Hok. apply ls_elsewhere; [by apply quiet_app|apply Hok|done|done]. Qed.

(** The time up to which the collector has read. *)
Definition scanned_until (Receiver : string) (db : DB) : option Z :=
  lulu_collector_state db.(app) !! Receiver ≫= lx_scanned_at.

(** The collector loses no receipt.  A run that ends well has stored every
    receipt the provider listed since the last scan - going back ten minutes
    before it, never before the configured start - and only then moves the time
    of the last scan; a run that fails leaves that time where it was, so that
    the next one reads the same span again; and either way the run is a sequence
    of steps that keep the orders accounted. *)
Theorem Collect_loses_nothing Receiver version t wall provide start db res db' :
  Collect Receiver version t wall provide start db = (res, db') -> lulu_ok db ->
  rtc lulu_step db db' /\ lulu_ok db' /\
  match res with
  | Err _ => scanned_until Receiver db' = scanned_until Receiver db
  | Ok _ =>
      serves Receiver version (lulu_setting db.(app)) = false /\ db' = db \/
      scanned_until Receiver db' = Some (go_now t) /\
      (forall r, r ∈ (provide (scan_since start (scanned_until Receiver db))).1 -> kept_receipt db' r)
  end.
Proof.
  intros Hrun Hok. unfold Collect in Hrun. destruct (serves _ _ _); cbn [negb] in Hrun.
  2:{ injection Hrun as <- <-. split; [done|]. auto. }
  destruct (ReconcileStored _ _ db) as [x d] eqn:E. unfold ReconcileStored in E.
  destruct (record_all_run _ _ _ _ _ _ E Hok) as (Hs & Hlx & _). destruct (steps_later _ _ Hs Hok) as [Hokd _].
  assert (Hsu : scanned_until Receiver d = scanned_until Receiver db) by (unfold scanned_until; by rewrite Hlx).
  destruct x as [[]|e]; [|injection Hrun as <- <-; auto].
  destruct (_ =? _); [injection Hrun as <- <-; auto|]. cbv zeta in Hrun.
  assert (Hst : lx_scanned_at (default collector_zero (lulu_collector_state d.(app) !! Receiver)) =
    scanned_until Receiver db) by (rewrite <- Hsu; unfold scanned_until; by destruct (_ !! _)).
  rewrite Hst in Hrun. destruct (provide _) as [receipts ending]. cbn [fst].
  destruct (record_all _ _ receipts d) as [y d2] eqn:E2.
  destruct (record_all_run _ _ _ _ _ _ E2 Hokd) as (Hs2 & Hlx2 & Hall).
  destruct (steps_later _ _ Hs2 Hokd) as [Hok2 _].
  assert (Hput : forall row : lulu_collector_row, rtc lulu_step db (put_row Receiver row d2) /\ lulu_ok (put_row Receiver row d2)).
  { intros row. pose proof (elsewhere_collector Receiver row d2 Hok2) as Hst2.
    split; [etrans; [exact Hs|]; etrans; [exact Hs2|by apply rtc_once]|].
    by eapply steps_later; [apply rtc_once, Hst2|]. }
  assert (Herr : forall e, scanned_until Receiver (put_row Receiver (collection_failed wall e
      (default collector_zero (lulu_collector_state d.(app) !! Receiver))) d2) = scanned_until Receiver db).
  { intros e. unfold scanned_until at 1. cbn. by rewrite lookup_insert_eq. }
  destruct y as [[]|e].
  - destruct ending as [e|]; injection Hrun as <- <-.
    + destruct (Hput (collection_failed wall e (default collector_zero (lulu_collector_state d.(app) !! Receiver)))). auto.
    + match goal with |- rtc _ _ (put_row _ ?row _) /\ _ => destruct (Hput row) as [H1 H2] end.
      do 2 (split; [done|]). right. split; [unfold scanned_until; cbn; by rewrite lookup_insert_eq|].
      intros r Hr. rewrite Forall_forall in Hall. exact (Hall eq_refl r Hr).
  - injection Hrun as <- <-.
    destruct (Hput (collection_failed wall e (default collector_zero (lulu_collector_state d.(app) !! Receiver)))). auto.
Qed.

End history.

(** ** Witnesses *)

Definition any_uuid (_ : string) : bool := true.

Definition stone_db : DB := mk_DB (mk_Money ∅ [])
  (set_lulu_setting (mk_lulu_setting_row "888888" true 1 0 "" None None None)
  (set_user_roles [("staff", "admin"); ("alice", "player")]%string
  (set_currencies (<["ORIGIN_STONE" := mk_currency_row 3 true "token" true]> (currencies example_app)) example_app))).

Lemma stone_ok : lulu_ok stone_db.
Proof.
  split.
  - by apply custody_no_money.
  - done.
  - assert (lulu_receipts stone_db.(app) = ∅ /\ lulu_orders stone_db.(app) = ∅) as [E1 E2] by (split; reflexivity).
    split; [rewrite E1; by intros rid r id [=]|rewrite E2; by intros id o [=]].
  - assert (lulu_orders stone_db.(app) = ∅) as E by reflexivity. intros id o. rewrite E. by intros [=].
Qed.

Definition stone_input (request amount : string) : LuluInput := mk_LuluInput request "123456" amount.

(** Alice asks to exchange ten stones, her transfer arrives, and she asks for
    four of them back; the payout is approved and handed over. *)
Definition ordered_db : DB :=
  run_or (lulu_Create any_uuid noon (sql_now noon) "alice" "deposit" (stone_input "d-1" "10")) stone_db.

Definition stone_receipt : Receipt := mk_Receipt "tr-1" "888888" "123456" 10 (sql_now noon).

Definition paid_db : DB := run_or (RecordReceipt "888888" noon stone_receipt) ordered_db.

Definition payout_db : DB :=
  run_or (lulu_Create any_uuid noon (sql_now noon) "alice" "withdrawal" (stone_input "w-1" "4")) paid_db.

Definition order_of (kind : string) (db : DB) : string :=
  match find_row (fun _ o => bool_decide (lo_kind o = kind)) (lulu_orders db.(app)) with
  | Some (id, _) => id
  | None => ""
  end.

Definition approved_db : DB :=
  run_or (lulu_Review any_uuid noon (order_of "withdrawal" payout_db) "staff" "approve" "checked") payout_db.

Definition sending_db : DB := run_or (begin_sending "888888" 1) approved_db.

Lemma order_of_Some kind db (P : lulu_order_row -> bool) :
  from_option P false (lulu_orders db.(app) !! order_of kind db) = true ->
  exists o, lulu_orders db.(app) !! order_of kind db = Some o /\ P o = true.
Proof. destruct (_ !! _) as [o|]; [|done]. by exists o. Qed.

Lemma paid_steps : rtc (lulu_step any_uuid) stone_db paid_db.
Proof.
  destruct (run_or_Ok (lulu_Create any_uuid noon (sql_now noon) "alice" "deposit" (stone_input "d-1" "10"))
    (fun _ => true) stone_db) as (o & _ & E1); [vm_compute; reflexivity|].
  destruct (run_or_Ok (RecordReceipt "888888" noon stone_receipt) (fun _ => true) ordered_db) as ([] & _ & E2);
    [vm_compute; reflexivity|].
  eapply rtc_l; [by eapply ls_tx, ls_create, E1|]. eapply rtc_l; [by eapply ls_tx, ls_receipt, E2|]. apply rtc_refl.
Qed.

Lemma approved_steps : rtc (lulu_step any_uuid) paid_db approved_db.
Proof.
  destruct (run_or_Ok (lulu_Create any_uuid noon (sql_now noon) "alice" "withdrawal" (stone_input "w-1" "4"))
    (fun _ => true) paid_db) as (o & _ & E1); [vm_compute; reflexivity|].
  destruct (run_or_Ok (lulu_Review any_uuid noon (order_of "withdrawal" payout_db) "staff" "approve" "checked")
    (fun _ => true) payout_db) as (o2 & _ & E2); [vm_compute; reflexivity|].
  eapply rtc_l; [by eapply ls_tx, ls_create, E1|]. eapply rtc_l; [by eapply ls_tx, ls_review, E2|]. apply rtc_refl.
Qed.

Lemma approved_ok : lulu_ok approved_db.
Proof.
  destruct (steps_ok any_uuid stone_db approved_db) as [Hok _]; [|exact stone_ok|exact Hok].
  etrans; [exact paid_steps|exact approved_steps].
Qed.

Lemma lulu_orders_accounted_witness : exists o,
  lulu_orders approved_db.(app) !! order_of "withdrawal" approved_db = Some o /\ lo_status o = "approved"%string /\
  lulu_booked le_available_delta (order_of "withdrawal" approved_db) (ledger approved_db.(money)) = -4000 /\
  lulu_booked le_frozen_delta (order_of "withdrawal" approved_db) (ledger approved_db.(money)) = 4000.
Proof.
  destruct (order_of_Some "withdrawal" approved_db (fun o => bool_decide (lo_status o = "approved"%string) &&
    (lo_amount o =? 4) && bool_decide (lo_kind o = "withdrawal"%string))) as (o & Ho & HP); [vm_compute; reflexivity|].
  bool_to_prop. exists o. split; [exact Ho|]. split; [assumption|].
  destruct (lulu_orders_accounted any_uuid stone_db approved_db (order_of "withdrawal" approved_db) o) as (_ & Ha & Hf & _);
    [etrans; [exact paid_steps|exact approved_steps]|exact stone_ok|exact Ho|].
  unfold lulu_freezes in *.
  repeat match goal with Hx : lo_status o = _ |- _ => rewrite Hx in Ha, Hf; clear Hx
    | Hx : lo_kind o = _ |- _ => rewrite Hx in Ha, Hf; clear Hx
    | Hx : lo_amount o = _ |- _ => rewrite Hx in Ha, Hf; clear Hx end.
  split; [exact Ha|exact Hf].
Defined.


(** While the payout is under way, a second one is asked for and approved. *)
Definition asked_again_db : DB :=
  run_or (lulu_Create any_uuid noon (sql_now noon) "alice" "withdrawal" (stone_input "w-2" "3")) sending_db.

Definition second_order : string :=
  match find_row (fun _ o => bool_decide (lo_status o = "requested"%string)) (lulu_orders asked_again_db.(app)) with
  | Some (id, _) => id
  | None => ""
  end.

Definition approved_again_db : DB :=
  run_or (lulu_Review any_uuid noon second_order "staff" "approve" "checked") asked_again_db.

Lemma approved_again_steps : rtc (lulu_step any_uuid) sending_db approved_again_db.
Proof.
  destruct (run_or_Ok (lulu_Create any_uuid noon (sql_now noon) "alice" "withdrawal" (stone_input "w-2" "3"))
    (fun _ => true) sending_db) as (o & _ & E1); [vm_compute; reflexivity|].
  destruct (run_or_Ok (lulu_Review any_uuid noon second_order "staff" "approve" "checked")
    (fun _ => true) asked_again_db) as (o2 & _ & E2); [vm_compute; reflexivity|].
  eapply rtc_l; [by eapply ls_tx, ls_create, E1|]. eapply rtc_l; [by eapply ls_tx, ls_review, E2|]. apply rtc_refl.
Qed.

(** The dispatcher takes the second payout, not the first one again. *)
Lemma lulu_dispatched_once_witness : exists o o' db4,
  begin_sending "888888" 1 approved_db = Ok (Some o, sending_db) /\
  begin_sending "888888" 1 approved_again_db = Ok (Some o', db4) /\
  or_ID o' = second_order /\ or_ID o' <> or_ID o.
Proof.
  destruct (run_or_Ok (begin_sending "888888" 1) (fun x => bool_decide (is_Some x)) approved_db) as ([o|] & HP & E);
    [vm_compute; reflexivity| |discriminate HP].
  destruct (run_or_Ok (begin_sending "888888" 1)
    (fun x => from_option (fun o => bool_decide (or_ID o = second_order)) false x) approved_again_db)
    as ([o'|] & HP' & E'); [vm_compute; reflexivity| |discriminate HP'].
  apply bool_decide_eq_true in HP'.
  exists o, o', (run_or (begin_sending "888888" 1) approved_again_db).
  split; [exact E|split; [exact E'|split; [exact HP'|]]].
  exact (proj1 (lulu_dispatched_once any_uuid "888888" 1 o approved_db sending_db approved_again_db "888888" 1 o' _
    approved_ok E approved_again_steps E')).
Defined.

(** The provider lists one transfer. *)
Lemma Collect_loses_nothing_witness : exists db',
  Collect "888888" 1 noon (sql_now noon) (fun _ => ([stone_receipt], None)) (sql_now noon - six_minutes) ordered_db
    = (Ok (), db') /\ kept_receipt db' stone_receipt.
Proof.
  assert (E : match (Collect "888888" 1 noon (sql_now noon) (fun _ => ([stone_receipt], None))
    (sql_now noon - six_minutes) ordered_db).1 with Ok _ => true | Err _ => false end = true) by (vm_compute; reflexivity).
  assert (Hs : serves "888888" 1 (lulu_setting ordered_db.(app)) = true) by (vm_compute; reflexivity).
  assert (Hok : lulu_ok ordered_db).
  { destruct (run_or_Ok (lulu_Create any_uuid noon (sql_now noon) "alice" "deposit" (stone_input "d-1" "10"))
      (fun _ => true) stone_db) as (o & _ & E1); [vm_compute; reflexivity|].
    eapply (steps_ok any_uuid stone_db); [eapply rtc_l; [by eapply ls_tx, ls_create, E1|apply rtc_refl]|exact stone_ok]. }
  destruct (Collect _ _ _ _ _ _ ordered_db) as [[[]|e] db'] eqn:Hrun; cbn [fst] in E; [|discriminate E].
  exists db'. split; [reflexivity|].
  destruct (Collect_loses_nothing any_uuid _ _ _ _ _ _ _ _ _ Hrun Hok) as (_ & _ & [[Hn _]|[_ Hall]]);
    [congruence|]. apply Hall. apply elem_of_cons. by left.
Defined.
