(* ===== verification/LuluConfig.v ===== *)
(** * The configuration of the Lulu channel

    [application/lulu]: the configuration of the channel (config.go), its
    credentials (secrets.go), the login by text message that renews them
    (login.go), the balance of the receiving account (balance.go) and the
    upstream transfers shown to the staff (transfers.go).

    Arguments: [uuid.Parse], [url.Parse] and [Time.MarshalJSON]; AES-GCM; the
    key of the service; the factories of the providers.  [rand.Read] is an
    argument of each call that seals. *)

From S2P Require Import Prelude GoStrings Base64 Json Schema Store Operations Lulu.

Definition ErrConfigInvalid : error := Sentinel "lulu.ErrConfigInvalid".
Definition ErrConfigConflict : error := Sentinel "lulu.ErrConfigConflict".
Definition ErrEncryption : error := Sentinel "lulu.ErrEncryption".
Definition ErrLoginFailed : error := Sentinel "lulu.ErrLoginFailed".
Definition ErrLoginLimited : error := Sentinel "lulu.ErrLoginLimited".
Definition ErrBalanceUnavailable : error := Sentinel "lulu.ErrBalanceUnavailable".
Definition ErrBalanceTimeout : error := Sentinel "lulu.ErrBalanceTimeout".

(** [version+1] of a BIGINT column. *)
Definition ErrBigint : error := Sentinel "bigint out of range".

Record Config : Type := mk_Config {
  cf_APIURL : string;
  cf_ScanStartAt : option Z;
  cf_TokenConfigured : bool;
  cf_ProtocolKeyConfigured : bool;
  cf_ReceiverUID : string;
  cf_Enabled : bool;
  cf_Version : Z;
  cf_UpdatedAt : Z
}.

Record ConfigUpdate : Type := mk_ConfigUpdate {
  cu_APIURL : option string;
  cu_ScanStartAt : option Z;
  cu_loginToken : string;
  cu_ProtocolKey : string;
  cu_ReceiverUID : string;
  cu_Enabled : bool;
  cu_Version : Z
}.

Record RuntimeConfig : Type := mk_RuntimeConfig {
  rc_Config : Config;
  rc_Token : string;
  rc_ProtocolKey : string
}.

(** Queries of the pool, outside a transaction. *)
Definition svc_read {A} (f : DB -> res A) : Svc A := fun db => (f db, db).

(** ** secrets.go *)

Definition validToken (t : string) : bool :=
  (str_len t <=? 16384) && bool_decide (TrimSpace t = t) && negb (existsb line_break (s2b t)).

Definition validateStart (now : Z) (t : option Z) : bool :=
  from_option (fun t => negb (t =? zero_time) && (t <=? now)) true t.

(** Validates the upstream shared secret, not the storage key. *)
Definition ValidProtocolKey (value : string) : bool :=
  match b64_decode_padded false (s2b value) with
  | Some raw => bool_decide (length raw ∈ [24; 32]%nat)
  | None => false
  end.

Definition NonceSize : nat := 12.

Section credentials.
(** [Seal] and [Open] of a key, a nonce, a text and its additional data. *)
Context (gcm_Seal : bytes -> bytes -> bytes -> bytes -> bytes).
Context (gcm_Open : bytes -> bytes -> bytes -> bytes -> option bytes).
Context (encryptionKey : string).

Definition aead : res bytes :=
  match b64_decode_padded false (s2b encryptionKey) with
  | Some key => if bool_decide (length key = 32%nat) then Ok key else Err ErrEncryption
  | None => Err ErrEncryption
  end.

Definition purpose_data (purpose : string) : bytes := s2b ("lulu:" ++ purpose).

(** [nonce] is what [rand.Read] fills in, if it does. *)
Definition seal (nonce : option bytes) (value purpose : string) : res string :=
  key ← aead;
  n ← of_option ErrEncryption nonce;
  Ok (b2s (n ++ gcm_Seal key n (s2b value) (purpose_data purpose))).

Definition unseal (value : option string) (purpose : string) : res string :=
  key ← aead;
  let v := s2b (default "" value) in
  fail_if (bool_decide (length v < NonceSize)%nat) ErrEncryption;;
  p ← of_option ErrEncryption (gcm_Open key (take NonceSize v) (drop NonceSize v) (purpose_data purpose));
  Ok (b2s p).

(** ** config.go *)

Definition public_config (s : lulu_setting_row) : Config :=
  mk_Config (ls_api_url s) (ls_scan_start_at s) (bool_decide (is_Some (ls_token_cipher s)))
    (bool_decide (is_Some (ls_protocol_cipher s))) (ls_receiver_uid s) (ls_enabled s) (ls_version s) (ls_updated_at s).

Definition readConfig (db : DB) : Config := public_config (lulu_setting db.(app)).

Definition lulu_RuntimeConfig (includeDisabled : bool) (db : DB) : res RuntimeConfig :=
  let s := lulu_setting db.(app) in
  if negb (ls_enabled s) && negb includeDisabled then Ok (mk_RuntimeConfig (public_config s) "" "")
  else
    token ← unseal (ls_token_cipher s) "token";
    key ← unseal (ls_protocol_cipher s) "protocol";
    Ok (mk_RuntimeConfig (public_config s) token key).

Context `{Uuids} (is_uuid : string -> bool) (url_Parse : string -> option url) (MarshalTime : Z -> json).

Definition validAPIURL (value : string) : bool :=
  match url_Parse value with
  | Some u =>
      bool_decide (url_Scheme u ∈ ["https"; "http"]%string) && negb (bool_decide (url_Hostname u = ""%string)) &&
      negb (url_User u) && bool_decide (url_RawQuery u = ""%string) && bool_decide (url_Fragment u = ""%string) &&
      (str_len value <=? 2048)
  | None => false
  end.

Definition config_json (c : Config) : json :=
  JObj [("api_url", JStr (cf_APIURL c)); ("scan_start_at", from_option MarshalTime JNull (cf_ScanStartAt c));
        ("token_configured", JBool (cf_TokenConfigured c)); ("protocol_key_configured", JBool (cf_ProtocolKeyConfigured c));
        ("receiver_uid", JStr (cf_ReceiverUID c)); ("enabled", JBool (cf_Enabled c)); ("version", JInt (cf_Version c));
        ("updated_at", MarshalTime (cf_UpdatedAt c))]%string.

(** [admin], and a role of its own check. *)
Definition config_admin (actor : string) : Tx () :=
  lulu_admin is_uuid actor;;
  allowed ← gets (has_role actor ["admin"; "operator"]%string);
  reject_if (negb allowed) lulu_ErrForbidden.

(** The orders whose money is still owed. *)
Definition active_order (o : lulu_order_row) : bool :=
  bool_decide (lo_status o ∈ ["requested"; "approved"; "sending"; "unknown"]%string).

Definition any_active (db : DB) : bool :=
  existsb (fun kv => active_order kv.2) (map_to_list (lulu_orders db.(app))).

(** The receiver has been scanned from the old start. *)
Definition scanned_already (receiver : string) (db : DB) : bool :=
  bool_decide (is_Some (c ← lulu_collector_state db.(app) !! receiver; lx_scanned_at c)).

Definition starts_later (old start : option Z) : bool :=
  match old, start with Some o, Some s => o <? s | _, _ => false end.

Definition seal_token (nonce : option bytes) (token : string) : Tx (option string) :=
  if bool_decide (token = ""%string) then mret None else c ← lift (seal nonce token "token"); mret (Some c).

Definition seal_key (nonce : option bytes) (key : string) : Tx (option string) :=
  if bool_decide (key = ""%string) then mret None
  else
    reject_if (negb (ValidProtocolKey key)) ErrConfigInvalid;;
    c ← lift (seal nonce key "protocol");
    mret (Some c).

(** UPDATE lulu_config, with COALESCE of the two ciphers. *)
Definition set_config (now : Z) (inp : ConfigUpdate) (apiURL : string) (start : option Z) (token key : option string)
    (s : lulu_setting_row) : lulu_setting_row :=
  mk_lulu_setting_row (cu_ReceiverUID inp) (cu_Enabled inp) (ls_version s + 1) now apiURL start
    (match token with Some _ => token | None => ls_token_cipher s end)
    (match key with Some _ => key | None => ls_protocol_cipher s end).

Definition config_audit (actor : string) (inp : ConfigUpdate) (old out : Config) : audit_row :=
  mk_audit (Some actor) "lulu.config.update" "lulu_config" "singleton" None
    (JObj [("after", config_json out); ("before", config_json old);
           ("protocol_key_changed", JBool (negb (bool_decide (cu_ProtocolKey inp = ""%string))));
           ("token_changed", JBool (negb (bool_decide (cu_loginToken inp = ""%string))))]%string).

(** What may not change while the old receiver owes or is owed. *)
Definition check_receiver (inp : ConfigUpdate) : Tx () :=
  old ← gets readConfig;
  if bool_decide (cf_ReceiverUID old = cu_ReceiverUID inp) then mret ()
  else
    reject_if (cf_Enabled old) ErrConfigConflict;;
    pending ← gets any_active;
    reject_if pending ErrConfigConflict.

Definition UpdateConfig (t : clock) (tokenNonce keyNonce : option bytes) (actor : string) (inp : ConfigUpdate) : Tx Config :=
  reject_if ((cu_Version inp <? 1) ||
             negb (bool_decide (cu_ReceiverUID inp = ""%string)) && negb (ValidUID (cu_ReceiverUID inp)) ||
             cu_Enabled inp && negb (ValidUID (cu_ReceiverUID inp))) ErrConfigInvalid;;
  config_admin actor;;
  old ← gets readConfig;
  reject_if (negb (cf_Version old =? cu_Version inp)) ErrConfigConflict;;
  check_receiver inp;;
  let moved := negb (bool_decide (cf_ReceiverUID old = cu_ReceiverUID inp)) in
  let apiURL := default (cf_APIURL old) (cu_APIURL inp) in
  let start := match cu_ScanStartAt inp with Some s => Some s | None => cf_ScanStartAt old end in
  reject_if (negb (bool_decide (apiURL = ""%string)) && negb (validAPIURL apiURL) || negb (validateStart (go_now t) start) ||
             negb (validToken (cu_loginToken inp))) ErrConfigInvalid;;
  reject_if (moved && negb (bool_decide (cu_ReceiverUID inp = ""%string)) && bool_decide (cu_loginToken inp = ""%string))
    ErrConfigInvalid;;
  reject_if (negb (bool_decide (cf_APIURL old = apiURL)) && cf_Enabled old) ErrConfigConflict;;
  scanned ← gets (scanned_already (cu_ReceiverUID inp));
  reject_if (starts_later (cf_ScanStartAt old) start && scanned) ErrConfigConflict;;
  token ← seal_token tokenNonce (cu_loginToken inp);
  key ← seal_key keyNonce (cu_ProtocolKey inp);
  reject_if (cu_Enabled inp && (bool_decide (apiURL = ""%string) || bool_decide (start = None) ||
             negb (cf_TokenConfigured old) && bool_decide (token = None) ||
             negb (cf_ProtocolKeyConfigured old) && bool_decide (key = None))) ErrConfigInvalid;;
  (if cu_Enabled inp then lift aead;; mret () else mret ());;
  reject_if (cf_Version old =? int64_max) ErrBigint;;
  modify (fun db => set_app (set_lulu_setting (set_config (sql_now t) inp apiURL start token key (lulu_setting db.(app)))
                               db.(app)) db);;
  out ← gets readConfig;
  insert_audit (config_audit actor inp old out);;
  mret out.

(** ** login.go *)

Definition phonePattern (s : string) : bool :=
  (str_len s =? 11) && forallb is_digit (s2b s) && HasPrefix s "1".

Definition smsPattern (s : string) : bool := (4 <=? str_len s) && (str_len s <=? 8) && forallb is_digit (s2b s).

(** [SendCode] tells whether it succeeded; [PhoneLogin] answers an account and
    its token, or fails. *)
Record LoginProvider : Type := mk_LoginProvider {
  lp_SendCode : string -> bool;
  lp_PhoneLogin : string -> string -> option (string * string)
}.

Context (loginFactory : option (string -> string -> option LoginProvider)).

Definition login_delay (action : string) : Z :=
  if bool_decide (action = "login"%string) then 5 * second_ns else 60 * second_ns.

(** One action at a time, for all replicas. *)
Definition reserve_login (now : Z) (action : string) : Tx () :=
  next ← gets (fun db => lulu_login_limits db.(app) !! action);
  reject_if (from_option (fun n => now <? n) false next) ErrLoginLimited;;
  modify (fun db => set_app (set_lulu_login_limits (<[action := now + login_delay action]> (lulu_login_limits db.(app)))
                               db.(app)) db).

Definition loginPrepare (t : clock) (actor phone action : string) (version : Z) : Tx (Config * LoginProvider) :=
  reject_if (negb (phonePattern phone) || (version <? 1)) ErrConfigInvalid;;
  config_admin actor;;
  cfg ← gets readConfig;
  reject_if (negb (cf_Version cfg =? version)) ErrConfigConflict;;
  reject_if (negb (validAPIURL (cf_APIURL cfg)) || negb (cf_ProtocolKeyConfigured cfg)) ErrConfigInvalid;;
  factory ← found ErrConfigInvalid loginFactory;
  cipher ← gets (fun db => ls_protocol_cipher (lulu_setting db.(app)));
  key ← lift (unseal cipher "protocol");
  lift aead;;
  provider ← found ErrLoginFailed (factory (cf_APIURL cfg) key);
  reserve_login (sql_now t) action;;
  mret (cfg, provider).

Definition SendLoginCode (t : clock) (actor phone : string) (version : Z) : Svc () :=
  p ← atomically (loginPrepare t actor phone "send" version);
  svc_reject (negb (lp_SendCode p.2 phone)) ErrLoginFailed.

(** The update compares the version that the login began with. *)
Definition login_update (cfg : Config) (uid token : string) : ConfigUpdate :=
  mk_ConfigUpdate None None token "" uid (cf_Enabled cfg) (cf_Version cfg).

(** [t] is the clock of the preparation and [t'] the one of the update. *)
Definition PhoneLogin (t t' : clock) (nonce : option bytes) (actor phone code : string) (version : Z) : Svc Config :=
  svc_reject (negb (smsPattern code)) ErrConfigInvalid;;
  p ← atomically (loginPrepare t actor phone "login" version);
  answer ← svc_lift (of_option ErrLoginFailed (lp_PhoneLogin p.2 phone code));
  let '(uid, token) := answer in
  svc_reject (negb (ValidUID uid) || bool_decide (token = ""%string) || negb (validToken token)) ErrLoginFailed;;
  atomically (UpdateConfig t' nonce None actor (login_update p.1 uid token)).

(** ** balance.go *)

Record AccountBalance : Type := mk_AccountBalance {
  ab_ReceiverUID : string;
  ab_ItemID : Z;
  ab_Balance : string;
  ab_QueriedAt : Z
}.

Definition stone_item : Z := 102201.

(** What the reader answers within fifteen seconds. *)
Inductive balance_answer : Type :=
| BalanceText (text : string)
| BalanceError (e : error)
| BalanceTimedOut.

Definition lulu_AccountBalance (t : clock)
    (factory : option (string -> string -> string -> string -> option balance_answer)) (actor : string) : Svc AccountBalance :=
  atomically (lulu_admin is_uuid actor);;
  cfg ← svc_read (lulu_RuntimeConfig true);
  let c := rc_Config cfg in
  svc_reject (bool_decide (rc_Token cfg = ""%string) || bool_decide (rc_ProtocolKey cfg = ""%string) ||
              bool_decide (cf_APIURL c = ""%string) || negb (ValidUID (cf_ReceiverUID c))) ErrConfigInvalid;;
  reader ← svc_lift (of_option ErrBalanceUnavailable factory);
  answer ← svc_lift (of_option ErrBalanceUnavailable (reader (cf_APIURL c) (cf_ReceiverUID c) (rc_Token cfg) (rc_ProtocolKey cfg)));
  match answer with
  | BalanceText text => mret (mk_AccountBalance (cf_ReceiverUID c) stone_item text (go_now t))
  | BalanceError e => fails e
  | BalanceTimedOut => fails ErrBalanceTimeout
  end.

(** ** transfers.go *)

Record TransferRecord : Type := mk_TransferRecord {
  tr_ID : string;
  tr_Direction : string;
  tr_CounterpartyUID : string;
  tr_Nickname : string;
  tr_ItemID : Z;
  tr_Amount : string;
  tr_OccurredAt : Z;
  tr_Linked : bool;
  tr_OrderID : string;
  tr_OrderStatus : string;
  tr_LinkMethod : string;
  tr_LinkReason : string
}.

Record TransferPage : Type := mk_TransferPage {
  tp_ReceiverUID : string;
  tp_Page : Z;
  tp_Size : Z;
  tp_Total : Z;
  tp_Items : list TransferRecord
}.

Definition set_link (linked : bool) (id status method reason : string) (r : TransferRecord) : TransferRecord :=
  mk_TransferRecord (tr_ID r) (tr_Direction r) (tr_CounterpartyUID r) (tr_Nickname r) (tr_ItemID r) (tr_Amount r)
    (tr_OccurredAt r) linked id status method reason.

Definition set_reason (reason : string) (r : TransferRecord) : TransferRecord :=
  set_link (tr_Linked r) (tr_OrderID r) (tr_OrderStatus r) (tr_LinkMethod r) reason r.

Definition unlinked (reason : string) (r : TransferRecord) : TransferRecord := set_link false "" "" "" reason r.

Definition sent_stones (r : TransferRecord) : res Z := ParseAmount (TrimPrefix (tr_Amount r) "-").

Definition applyWithdrawalLink (candidates : list (string * string)) (r : TransferRecord) : TransferRecord :=
  if negb (tr_ItemID r =? stone_item) then unlinked "unsupported_item" r
  else if negb (HasPrefix (tr_Amount r) "-") then unlinked "invalid_transfer_amount" r
  else match sent_stones r with
  | Err _ => unlinked "invalid_transfer_amount" r
  | Ok _ =>
      match candidates with
      | [] => unlinked "no_matching_withdrawal" r
      | [(id, status)] => set_link true id status "account_uid_amount_completion_window" "" r
      | _ => unlinked "ambiguous_withdrawal" r
      end
  end.

(** The withdrawal was debited within thirty seconds of the transfer, by the
    dispatcher itself. *)
Definition debited_near (id : string) (at_ : Z) (l : ledger_row) : bool :=
  bool_decide (le_business_id l = id) && bool_decide (le_business_type l = "lulu_withdrawal_debit"%string) &&
  bool_decide (le_entry_type l = "lulu_withdrawal_debit"%string) && bool_decide (le_operator_id l = None) &&
  (at_ - 30 * second_ns <=? le_occurred_at l) && (le_occurred_at l <=? at_ + 30 * second_ns).

Definition link_candidate (receiver : string) (n : Z) (r : TransferRecord) (db : DB) (id : string) (o : lulu_order_row) : bool :=
  bool_decide (lo_kind o = "withdrawal"%string) && bool_decide (lo_status o = "confirmed"%string) &&
  bool_decide (lo_receiver_uid o = receiver) && bool_decide (lo_lulu_uid o = tr_CounterpartyUID r) && (lo_amount o =? n) &&
  existsb (debited_near id (tr_OccurredAt r)) (ledger db.(money)).

(** The candidates are asked for only when the record itself is in order. *)
Definition linkWithdrawal (receiver : string) (db : DB) (r : TransferRecord) : TransferRecord :=
  let r := applyWithdrawalLink [] r in
  match sent_stones r with
  | Ok n =>
      if negb (bool_decide (tr_LinkReason r = "no_matching_withdrawal"%string)) then r
      else applyWithdrawalLink
             (take 2 (map (fun kv => (kv.1, lo_status kv.2))
                (List.filter (fun kv => link_candidate receiver n r db kv.1 kv.2) (map_to_list (lulu_orders db.(app)))))) r
  | Err _ => r
  end.

(** A received transfer shows the deposit that claimed its receipt. *)
Definition linkReceipt (receiver : string) (db : DB) (r : TransferRecord) : TransferRecord :=
  match (c ← lulu_receipts db.(app) !! tr_ID r;
         if bool_decide (lr_receiver_uid c = receiver) then
           id ← lr_order_id c; o ← lulu_orders db.(app) !! id;
           if bool_decide (lo_kind o = "deposit"%string) then Some (id, o) else None
         else None) with
  | Some (id, o) => set_link true id (lo_status o) "receipt_id" "" r
  | None => r
  end.

Definition in_window (startTime endTime : option Z) (r : TransferRecord) : bool :=
  from_option (fun s => s <=? tr_OccurredAt r) true startTime && from_option (fun e => tr_OccurredAt r <? e) true endTime.

Definition link_count (id : string) (l : list TransferRecord) : nat :=
  length (List.filter (fun r => tr_Linked r && bool_decide (tr_OrderID r = id)) l).

(** Two upstream rows must not display the same inferred order association. *)
Definition drop_shared (l : list TransferRecord) : list TransferRecord :=
  map (fun r => if tr_Linked r && bool_decide (1 < link_count (tr_OrderID r) l)%nat then unlinked "ambiguous_transfer" r else r) l.

Definition shown_transfers (direction receiver : string) (startTime endTime : option Z) (db : DB) (l : list TransferRecord)
    : list TransferRecord :=
  let sent := bool_decide (direction = "sent"%string) in
  let l := map (fun r => let r := set_reason "no_matching_receipt" r in
                         if sent then linkWithdrawal receiver db r else linkReceipt receiver db r) l in
  let l := List.filter (in_window startTime endTime) l in
  if sent then drop_shared l else l.

Definition Transfers
    (factory : option (string -> string -> string -> string -> res (string -> Z -> Z -> res TransferPage)))
    (actor direction : string) (startTime endTime : option Z) (page size : Z) : Svc TransferPage :=
  svc_reject (negb (bool_decide (direction ∈ ["received"; "sent"]%string)) || (page <? 1) || (1000 <? page) ||
              (size <? 1) || (100 <? size)) lulu_ErrInvalid;;
  atomically (lulu_admin is_uuid actor);;
  cfg ← svc_read (lulu_RuntimeConfig false);
  let c := rc_Config cfg in
  svc_reject (negb (cf_Enabled c)) lulu_ErrDisabled;;
  factory ← svc_lift (of_option lulu_ErrDisabled factory);
  reader ← svc_lift (factory (cf_APIURL c) (cf_ReceiverUID c) (rc_Token cfg) (rc_ProtocolKey cfg));
  out ← svc_lift (reader direction page size);
  svc_read (fun db => Ok (mk_TransferPage (tp_ReceiverUID out) (tp_Page out) (tp_Size out) (tp_Total out)
                            (shown_transfers direction (cf_ReceiverUID c) startTime endTime db (tp_Items out)))).

End credentials.
