(* ===== verification/LuluConfigProofs.v ===== *)
(** * The configuration of the Lulu channel: what holds

    The receiving account only changes while nothing is owed on the old one, a
    login serves the configuration it began with, the credentials come back as
    they were given, and a transfer is shown with the one order it can be. *)

From S2P Require Import Prelude GoStrings Base64 Money Json Schema Store Books Custody Wallet Operations BetBooks Examples.
From S2P Require Import CreditProofs Lulu LuluProofs LuluHistory LuluConfig.

(** ** Obligations stay with their account *)

(** Every order whose money is still owed names the configured account. *)
Definition obliged (db : DB) : Prop := forall id o,
  lulu_orders db.(app) !! id = Some o -> active_order o = true -> lo_receiver_uid o = ls_receiver_uid (lulu_setting db.(app)).

(** From [db0] on: the configuration stays, and new orders name its account. *)
Definition from_here (db0 d : DB) : Prop :=
  lulu_setting d.(app) = lulu_setting db0.(app) /\
  forall id o, lulu_orders db0.(app) !! id = None -> lulu_orders d.(app) !! id = Some o ->
    lo_receiver_uid o = ls_receiver_uid (lulu_setting db0.(app)).

Lemma from_here_refl db : from_here db db.
Proof. split; [done|]. intros id o Hn Ho. by rewrite Hn in Ho. Qed.

Lemma from_here_aside db0 d d' : lulu_setting d'.(app) = lulu_setting d.(app) ->
  lulu_orders d'.(app) = lulu_orders d.(app) -> from_here db0 d -> from_here db0 d'.
Proof. intros H1 H2 [H3 H4]. split; [congruence|]. intros id o Hn. rewrite H2. by apply H4. Qed.

Section here.
Context `{Uuids} (is_uuid : string -> bool) (db0 : DB).

Lemma here_uuid : tx_keeps (from_here db0) new_uuid.
Proof. apply tx_keeps_new_uuid. intros d. by apply from_here_aside. Qed.

Lemma here_audit a : tx_keeps (from_here db0) (insert_audit a).
Proof.
  unfold insert_audit. intros d u d' Hrun.
  first [by injection Hrun as _ <-; apply from_here_aside | by apply modify_Ok in Hrun as <-; apply from_here_aside].
Qed.

Lemma here_wallet id user cur now : tx_keeps (from_here db0) (insert_wallet id user cur now).
Proof. intros d b d' [(_ & <- & _)|(_ & _ & _ & <-)]%insert_wallet_Ok; [done|by apply from_here_aside]. Qed.

Lemma here_update_wallet id fa ff now : tx_keeps (from_here db0) (update_wallet id fa ff now).
Proof. intros d u d' [[_ <-]|(w & _ & _ & <-)]%update_wallet_Ok; [done|by apply from_here_aside]. Qed.

Lemma here_ledger li now : tx_keeps (from_here db0) (insert_ledger li now).
Proof. intros d u d' (w & _ & _ & <-)%insert_ledger_Ok. by apply from_here_aside. Qed.

Lemma here_receipt id f : tx_keeps (from_here db0) (update_row (R := lulu_receipt_row) id f).
Proof. apply tx_keeps_update_row. intros d r. by apply from_here_aside. Qed.

Lemma here_ignore (P : lulu_receipt_row -> bool) id r : tx_keeps (from_here db0) (insert_ignore P id r).
Proof. intros d b d' [[_ <-]|(_ & _ & _ & <-)]%insert_ignore_Ok; [done|by apply from_here_aside]. Qed.

(** Changes of orders that keep their account. *)
Definition same_account (f : lulu_order_row -> lulu_order_row) : Prop := forall o, lo_receiver_uid (f o) = lo_receiver_uid o.

Lemma here_order id f : same_account f -> tx_keeps (from_here db0) (update_row (R := lulu_order_row) id f).
Proof.
  intros Hf d u d' Hrun [H1 H2]. apply update_row_Ok in Hrun as [(_ & _ & <-)|(r & Hr & _ & <-)]; [done|].
  split; [done|]. intros i o Hn. cbn. destruct (decide (i = id)) as [->|Hne].
  - rewrite lookup_insert_eq. intros [= <-]. rewrite Hf. by apply (H2 id).
  - rewrite lookup_insert_ne by done. by apply H2.
Qed.

Lemma here_orders (P : string -> lulu_order_row -> bool) f : same_account f -> tx_keeps (from_here db0) (update_where P f).
Proof.
  intros Hf. apply tx_keeps_modify. intros d [H1 H2]. split; [done|]. intros i o Hn. cbn. rewrite map_lookup_imap.
  change (tbl (app d)) with (lulu_orders (app d)). intros (r & Hr & [= <-])%bind_Some. destruct (P i r); [rewrite Hf|]; by apply (H2 i).
Qed.

Lemma here_insert id row : lo_receiver_uid row = ls_receiver_uid (lulu_setting db0.(app)) ->
  tx_keeps (from_here db0) (insert_order id row).
Proof.
  intros Hr d u d' [_ ->]%insert_order_Ok [H1 H2]. split; [done|]. intros i o Hn. cbn. destruct (decide (i = id)) as [->|Hne].
  - rewrite lookup_insert_eq. by intros [= <-].
  - rewrite lookup_insert_ne by done. by apply H2.
Qed.

End here.

#[local] Hint Resolve here_uuid here_audit here_wallet here_update_wallet here_ledger here_receipt here_ignore : keeps.
#[local] Hint Extern 1 (tx_keeps _ (update_row _ _)) => apply here_order; by intros [] : keeps.
#[local] Hint Extern 1 (tx_keeps _ (update_where _ _)) => apply here_orders; by intros [] : keeps.

Section channel.
Context `{Uuids} (is_uuid : string -> bool).

Lemma here_gets_setting {A} db0 (f : lulu_setting_row -> A) {B} (k : A -> Tx B) :
  tx_keeps (from_here db0) (k (f (lulu_setting db0.(app)))) ->
  tx_keeps (from_here db0) (x ← gets (fun d => f (lulu_setting d.(app))); k x).
Proof. intros Hk d a d' Hrun Hd. rewrite gets_skip in Hrun. rewrite (proj1 Hd) in Hrun. by apply (Hk d a d'). Qed.

Lemma here_decimals db0 c b : tx_keeps (from_here db0) (ResolveDecimals c b).
Proof. unfold ResolveDecimals. keeps. Qed.

Lemma here_balance db0 t o typ da df actor : tx_keeps (from_here db0) (lulu_balance t o typ da df actor).
Proof. unfold lulu_balance, find_wallet. keeps. Qed.
#[local] Hint Resolve here_decimals here_balance : keeps.

Lemma here_claim db0 rid id : tx_keeps (from_here db0) (claim_receipt rid id).
Proof. unfold claim_receipt, select_where. keeps. Qed.

Lemma here_confirm db0 id rid : tx_keeps (from_here db0) (confirm_order id rid).
Proof. unfold confirm_order, select_where. keeps. Qed.

Lemma here_lulu_audit db0 actor id action evidence : tx_keeps (from_here db0) (lulu_audit actor id action evidence).
Proof. unfold lulu_audit. keeps. Qed.

Lemma here_player db0 id : tx_keeps (from_here db0) (lulu_player is_uuid id).
Proof. unfold lulu_player. keeps. Qed.

Lemma here_admin db0 id : tx_keeps (from_here db0) (lulu_admin is_uuid id).
Proof. unfold lulu_admin. keeps. Qed.

Lemma here_scan db0 id : tx_keeps (from_here db0) (scan_order id).
Proof. unfold scan_order, select_id. keeps. Qed.

Lemma here_route db0 t wall receiver uid : tx_keeps (from_here db0) (clear_route t wall receiver uid).
Proof. unfold clear_route, select_where. keeps. Qed.
#[local] Hint Resolve here_claim here_confirm here_lulu_audit here_player here_admin here_scan here_route : keeps.

Lemma here_match db0 t o n : tx_keeps (from_here db0) (match_receipt t o n).
Proof. unfold match_receipt, select_first. keeps. Qed.

Lemma here_money db0 t cfg o action actor : tx_keeps (from_here db0) (review_money t cfg o action actor).
Proof. unfold review_money. keeps. Qed.
#[local] Hint Resolve here_match here_money : keeps.

Lemma here_Create db0 t wall user kind inp : tx_keeps (from_here db0) (lulu_Create is_uuid t wall user kind inp).
Proof.
  unfold lulu_Create, select_where. apply tx_keeps_bind; [keeps|intros n]. apply tx_keeps_bind; [keeps|intros []].
  apply tx_keeps_bind; [keeps|intros []]. apply tx_keeps_bind; [keeps|intros [[id o]|]]; [keeps|].
  apply (here_gets_setting db0 id). keeps; by apply here_insert.
Qed.

Lemma tx_here db db' : lulu_tx is_uuid db db' -> from_here db db'.
Proof.
  intros Htx. pose proof (from_here_refl db) as H0. destruct Htx as [t wall user kind inp o Hrun|t id actor action evidence o Hrun|
    t user actor kind status st en limit offset l Hrun|Receiver t r Hrun|Receiver version o Hrun|t id result Hrun|Receiver Hrun|t Hrun].
  - by eapply here_Create, H0.
  - assert (Hk : tx_keeps (from_here db) (lulu_Review is_uuid t id actor action evidence)) by (unfold lulu_Review; keeps).
    by eapply Hk, H0.
  - assert (Hk : tx_keeps (from_here db) (lulu_List is_uuid t user actor kind status st en limit offset)) by (unfold lulu_List, select_all; keeps).
    by eapply Hk, H0.
  - assert (Hk : tx_keeps (from_here db) (RecordReceipt Receiver t r)) by (unfold RecordReceipt, select_id, select_first; keeps).
    by eapply Hk, H0.
  - assert (Hk : tx_keeps (from_here db) (begin_sending Receiver version)) by (unfold begin_sending, select_first; keeps).
    by eapply Hk, H0.
  - assert (Hk : tx_keeps (from_here db) (lulu_finish t id result)) by (unfold lulu_finish; keeps). by eapply Hk, H0.
  - assert (Hk : tx_keeps (from_here db) (RecoverSending Receiver)) by (unfold RecoverSending; keeps). by eapply Hk, H0.
  - assert (Hk : tx_keeps (from_here db) (ExpireDeposits t)) by (unfold ExpireDeposits; keeps). by eapply Hk, H0.
Qed.

(** *** What is owed was owed before *)

Lemma edge_active kind s s' a f : order_edge kind s s' a f ->
  s' ∈ ["requested"; "approved"; "sending"; "unknown"]%string -> s ∈ ["requested"; "approved"; "sending"; "unknown"]%string.
Proof. intros []; rewrite !elem_of_cons, elem_of_nil; intuition congruence. Qed.

Definition owed (o o' : lulu_order_row) : Prop :=
  lo_receiver_uid o' = lo_receiver_uid o /\ (active_order o' = true -> active_order o = true).

Lemma edge_owed o o' a f : same_order o o' -> order_edge (lo_kind o) (lo_status o) (lo_status o') a f -> owed o o'.
Proof.
  intros (_ & _ & _ & _ & Hr & _) He. split; [done|]. unfold active_order. rewrite !bool_decide_eq_true. by eapply edge_active.
Qed.

Definition owed_from (db db' : DB) : Prop := forall id o, lulu_orders db.(app) !! id = Some o ->
  exists o', lulu_orders db'.(app) !! id = Some o' /\ owed o o'.

#[local] Instance owed_refl : Reflexive owed.
Proof. by split. Qed.

Lemma owed_same db db' : lulu_orders db'.(app) = lulu_orders db.(app) -> owed_from db db'.
Proof. intros E id o Ho. exists o. by rewrite E. Qed.

Lemma change_owed db db' : lulu_change db db' -> owed_from db db'.
Proof.
  intros [Hq _ _ _|_ _ _ _ Hrel|id o _ _ _ _ Hid Ho _ _ _ _|id o _ _ _ _ Hid Ho _ _ _ _|
    id o o' typ a f _ _ _ _ Hid Ho Hsame He _ _].
  - apply owed_same, Hq.
  - intros id o Ho. specialize (Hrel id). rewrite Ho in Hrel. destruct (lulu_orders (app db') !! id) as [o'|]; [|done].
    exists o'. split; [done|]. destruct Hrel as [->|(Hsm & _ & He)]; [done|by eapply edge_owed].
  - unfold owed_from; rewrite Ho; intros j x Hx. exists x. split; [by apply lookup_insert_fresh|done].
  - unfold owed_from; rewrite Ho; intros j x Hx. exists x. split; [by apply lookup_insert_fresh|done].
  - unfold owed_from; rewrite Ho; intros j x Hx. destruct (decide (j = id)) as [->|Hne].
    + assert (x = o) as -> by congruence. exists o'. rewrite lookup_insert_eq. split; [done|by eapply edge_owed].
    + exists x. by rewrite lookup_insert_ne.
Qed.

Lemma changes_owed db db' : rtc lulu_change db db' -> owed_from db db'.
Proof.
  induction 1 as [db|db d db' Hc _ IH]; [by apply owed_same|]. intros id o Ho.
  destruct (change_owed _ _ Hc id o Ho) as (o1 & Ho1 & E1 & A1), (IH id o1 Ho1) as (o2 & Ho2 & E2 & A2).
  exists o2. split; [done|]. split; [congruence|auto].
Qed.

Lemma tx_obliged db db' : lulu_tx is_uuid db db' -> lulu_ok db -> obliged db -> obliged db'.
Proof.
  intros Htx Hok Hob id o' Ho' Ha. destruct (tx_here _ _ Htx) as [Hs Hnew]. rewrite Hs.
  destruct (lulu_orders (app db) !! id) as [o|] eqn:Ho; [|by eapply Hnew].
  assert (Hc : rtc lulu_change db db') by (by eapply tx_changes; [|apply Hok..]).
  destruct (changes_owed _ _ Hc id o Ho) as (x & Hx & Hr & Hact). assert (x = o') as -> by congruence.
  rewrite Hr. by apply (Hob id); [|apply Hact].
Qed.

End channel.

(** ** Updating the configuration *)

Section update.
Context (gcm_Seal : bytes -> bytes -> bytes -> bytes -> bytes).
Context (gcm_Open : bytes -> bytes -> bytes -> bytes -> option bytes).
Context (encryptionKey : string).
Context `{Uuids} (is_uuid : string -> bool) (url_Parse : string -> option url) (MarshalTime : Z -> json).

#[local] Abbreviation UpdateConfig := (UpdateConfig gcm_Seal encryptionKey is_uuid url_Parse MarshalTime).
#[local] Abbreviation seal := (seal gcm_Seal encryptionKey).
#[local] Abbreviation unseal := (unseal gcm_Open encryptionKey).

(** The cipher of a credential, when one is given. *)
Definition sealed (nonce : option bytes) (value purpose : string) (c : option string) : Prop :=
  if bool_decide (value = ""%string) then c = None else exists x, c = Some x /\ seal nonce value purpose = Ok x.

Record config_written (t : clock) (n1 n2 : option bytes) (actor : string) (inp : ConfigUpdate) (cfg : Config) (db db' : DB) : Prop := {
  cw_by : from_option u_status "" (users db.(app) !! actor) = "active"%string /\ has_role actor ["admin"; "operator"]%string db = true;
  cw_version : ls_version (lulu_setting db.(app)) = cu_Version inp;
  cw_idle : ls_receiver_uid (lulu_setting db.(app)) <> cu_ReceiverUID inp ->
    ls_enabled (lulu_setting db.(app)) = false /\ any_active db = false;
  cw_row : exists api start token key,
    sealed n1 (cu_loginToken inp) "token" token /\ sealed n2 (cu_ProtocolKey inp) "protocol" key /\
    (cu_Enabled inp = true -> ValidUID (cu_ReceiverUID inp) = true /\ validAPIURL url_Parse api = true /\ start <> None) /\
    db' = push_audit (config_audit MarshalTime actor inp (readConfig db) cfg)
            (set_app (set_lulu_setting (set_config (sql_now t) inp api start token key (lulu_setting db.(app))) db.(app)) db);
  cw_answer : cfg = readConfig db'
}.

Lemma seal_token_Ok n token db c db' : seal_token gcm_Seal encryptionKey n token db = Ok (c, db') -> db' = db /\ sealed n token "token" c.
Proof.
  unfold seal_token, sealed. case_bool_decide; [by intros [<- <-]%tx_ret_Ok|]. intros (x & d & [E <-]%lift_Ok & [<- <-]%tx_ret_Ok)%tx_bind_Ok.
  split; [done|]. by exists x.
Qed.

Lemma seal_key_Ok n key db c db' : seal_key gcm_Seal encryptionKey n key db = Ok (c, db') -> db' = db /\ sealed n key "protocol" c.
Proof.
  unfold seal_key, sealed. case_bool_decide; [by intros [<- <-]%tx_ret_Ok|].
  intros ([] & d & [_ <-]%reject_if_Ok & (x & d1 & [E <-]%lift_Ok & [<- <-]%tx_ret_Ok)%tx_bind_Ok)%tx_bind_Ok.
  split; [done|]. by exists x.
Qed.

Lemma config_admin_Ok actor db u db' : config_admin is_uuid actor db = Ok (u, db') ->
  db' = db /\ from_option u_status "" (users db.(app) !! actor) = "active"%string /\ has_role actor ["admin"; "operator"]%string db = true.
Proof.
  unfold config_admin, lulu_admin. intros Hrun. apply tx_bind_Ok in Hrun as ([] & d & E & Hrun).
  apply tx_bind_Ok in E as ([] & d1 & E1 & E). apply reject_if_Ok in E1 as [_ <-]. rewrite gets_skip in E.
  apply reject_if_Ok in E as [Hn%negb_false_iff <-]. rewrite gets_skip in Hrun. apply reject_if_Ok in Hrun as [_ <-].
  apply andb_prop in Hn as [Hu Hr]. split; [done|]. destruct (users (app db) !! actor) as [x|]; [|done]. cbn in Hu.
  by apply bool_decide_eq_true in Hu.
Qed.

Lemma check_receiver_Ok inp db u db' : check_receiver inp db = Ok (u, db') ->
  db' = db /\ (ls_receiver_uid (lulu_setting db.(app)) <> cu_ReceiverUID inp ->
    ls_enabled (lulu_setting db.(app)) = false /\ any_active db = false).
Proof.
  unfold check_receiver. intros Hrun. rewrite gets_skip in Hrun. case_bool_decide as He; [by apply tx_ret_Ok in Hrun as [_ <-]|].
  apply tx_bind_Ok in Hrun as ([] & d & E & Hrun). apply reject_if_Ok in E as [Hn <-]. rewrite gets_skip in Hrun.
  apply reject_if_Ok in Hrun as [Hp <-]. done.
Qed.

Lemma UpdateConfig_run t n1 n2 actor inp db cfg db' : UpdateConfig t n1 n2 actor inp db = Ok (cfg, db') ->
  config_written t n1 n2 actor inp cfg db db'.
Proof.
  unfold LuluConfig.UpdateConfig. intros Hrun. apply tx_bind_Ok in Hrun as ([] & d & E & Hrun). apply reject_if_Ok in E as [Hval <-].
  apply tx_bind_Ok in Hrun as ([] & d & E & Hrun). apply config_admin_Ok in E as (-> & Hby). rewrite gets_skip in Hrun.
  apply tx_bind_Ok in Hrun as ([] & d & E & Hrun). apply reject_if_Ok in E as [Hv%negb_false_iff%Z.eqb_eq <-].
  apply tx_bind_Ok in Hrun as ([] & d & E & Hrun). apply check_receiver_Ok in E as (-> & Hidle). cbv zeta in Hrun.
  set (api := default _ _) in Hrun. set (start := match cu_ScanStartAt inp with Some _ => _ | None => _ end) in Hrun.
  apply tx_bind_Ok in Hrun as ([] & d & E & Hrun). apply reject_if_Ok in E as [Hfmt <-].
  apply tx_bind_Ok in Hrun as ([] & d & E & Hrun). apply reject_if_Ok in E as [_ <-].
  apply tx_bind_Ok in Hrun as ([] & d & E & Hrun). apply reject_if_Ok in E as [_ <-]. rewrite gets_skip in Hrun.
  apply tx_bind_Ok in Hrun as ([] & d & E & Hrun). apply reject_if_Ok in E as [_ <-].
  apply tx_bind_Ok in Hrun as (token & d & E & Hrun). apply seal_token_Ok in E as (-> & Ht).
  apply tx_bind_Ok in Hrun as (key & d & E & Hrun). apply seal_key_Ok in E as (-> & Hk).
  apply tx_bind_Ok in Hrun as ([] & d & E & Hrun). apply reject_if_Ok in E as [Hen <-].
  apply tx_bind_Ok in Hrun as ([] & d & E & Hrun). assert (d = db) as ->.
  { destruct (cu_Enabled inp); [|by apply tx_ret_Ok in E as [_ <-]]. by apply tx_bind_Ok in E as (x & d1 & [_ <-]%lift_Ok & [_ <-]%tx_ret_Ok). }
  apply tx_bind_Ok in Hrun as ([] & d & E1 & Hrun). apply reject_if_Ok in E1 as [_ <-].
  apply tx_bind_Ok in Hrun as ([] & d & E1 & Hrun). apply modify_Ok in E1 as <-. rewrite gets_skip in Hrun.
  apply tx_bind_Ok in Hrun as ([] & d & E1 & Hrun). apply insert_audit_Ok in E1 as <-. apply tx_ret_Ok in Hrun as [<- <-].
  split; [done|done|done| |done]. exists api, start, token, key. do 2 (split; [done|]). split; [|done]. intros He.
  rewrite He in Hval, Hen. cbn [andb] in Hval, Hen. apply orb_false_iff in Hval as [_ Hval%negb_false_iff].
  apply orb_false_iff in Hfmt as [[Hapi _]%orb_false_iff _]. apply orb_false_iff in Hen as [[[Hne Hst]%orb_false_iff _]%orb_false_iff _].
  rewrite Hne in Hapi. cbn [negb andb] in Hapi. apply negb_false_iff in Hapi. apply bool_decide_eq_false in Hst. done.
Qed.

(** The credentials come back as they were given. *)
Context (gcm_opens : forall k n p a, gcm_Open k n (gcm_Seal k n p a) a = Some p).

Definition nonce_ok (n : option bytes) : Prop := from_option (fun b => length b = NonceSize) True n.

Lemma unseal_seal n value purpose c : nonce_ok n -> seal n value purpose = Ok c -> unseal (Some c) purpose = Ok value.
Proof.
  intros Hn Hs. unfold LuluConfig.seal in Hs. unfold LuluConfig.unseal. apply res_bind_Ok in Hs as (key & -> & Hs).
  apply res_bind_Ok in Hs as (b & Hb%of_option_Ok & Hs). injection Hs as <-. subst n. cbn in Hn. cbv zeta.
  change (default "" (Some (b2s (b ++ gcm_Seal key b (s2b value) (purpose_data purpose)))))%string
    with (b2s (b ++ gcm_Seal key b (s2b value) (purpose_data purpose))).
  rewrite s2b_b2s, bool_decide_false by (rewrite length_app; lia). rewrite take_app_length' by done.
  rewrite drop_app_length' by done. unfold mbind, res_bind. cbn [fail_if]. rewrite gcm_opens. cbn. by rewrite b2s_s2b.
Qed.

Lemma sealed_unseal n value purpose c old : nonce_ok n -> sealed n value purpose c ->
  unseal (match c with Some _ => c | None => old end) purpose = if bool_decide (value = ""%string) then unseal old purpose else Ok value.
Proof.
  intros Hn. unfold sealed. case_bool_decide; [by intros ->|]. intros (x & -> & Hs). by eapply unseal_seal.
Qed.

(** After an update the service works with the credentials it was given,
    and with the old ones where none were given; the answer and the audit log
    hold neither, but only whether there is one and whether it changed. *)
Theorem credentials_roundtrip t n1 n2 actor inp db cfg db' : nonce_ok n1 -> nonce_ok n2 ->
  UpdateConfig t n1 n2 actor inp db = Ok (cfg, db') ->
  lulu_RuntimeConfig gcm_Open encryptionKey true db' =
    (token ← (if bool_decide (cu_loginToken inp = ""%string) then unseal (ls_token_cipher (lulu_setting db.(app))) "token"
              else Ok (cu_loginToken inp));
     key ← (if bool_decide (cu_ProtocolKey inp = ""%string) then unseal (ls_protocol_cipher (lulu_setting db.(app))) "protocol"
            else Ok (cu_ProtocolKey inp));
     Ok (mk_RuntimeConfig cfg token key)) /\
  cf_Version cfg = cu_Version inp + 1 /\
  audit_logs db'.(app) = config_audit MarshalTime actor inp (readConfig db) cfg :: audit_logs db.(app).
Proof.
  intros Hn1 Hn2 Hrun. destruct (UpdateConfig_run _ _ _ _ _ _ _ _ Hrun) as [_ Hv _ (api & start & token & key & Ht & Hk & _ & Hdb) Hcfg].
  assert (Hs : lulu_setting db'.(app) = set_config (sql_now t) inp api start token key (lulu_setting db.(app))) by (by rewrite Hdb).
  split; [|split].
  - unfold lulu_RuntimeConfig. rewrite andb_false_r, Hs. cbn [ls_token_cipher ls_protocol_cipher set_config].
    rewrite (sealed_unseal _ _ _ _ _ Hn1 Ht), (sealed_unseal _ _ _ _ _ Hn2 Hk).
    rewrite Hcfg. unfold readConfig. by rewrite Hs.
  - rewrite Hcfg. unfold readConfig. rewrite Hs. cbn. by rewrite Hv.
  - by rewrite Hdb.
Qed.

End update.

(** ** The channel over time *)

Section history.
Context (gcm_Seal : bytes -> bytes -> bytes -> bytes -> bytes).
Context (gcm_Open : bytes -> bytes -> bytes -> bytes -> option bytes).
Context (encryptionKey : string).
Context `{Uuids} (is_uuid : string -> bool) (url_Parse : string -> option url) (MarshalTime : Z -> json).
Context (loginFactory : option (string -> string -> option LoginProvider)).

#[local] Abbreviation UpdateConfig := (UpdateConfig gcm_Seal encryptionKey is_uuid url_Parse MarshalTime).
#[local] Abbreviation loginPrepare := (loginPrepare gcm_Open encryptionKey is_uuid url_Parse loginFactory).

(** A transaction of the channel, a change of its configuration, the start of a
    login, or a transaction of another component. *)
Inductive channel_step (db db' : DB) : Prop :=
| ch_tx : lulu_tx is_uuid db db' -> channel_step db db'
| ch_update t n1 n2 actor inp cfg : UpdateConfig t n1 n2 actor inp db = Ok (cfg, db') -> channel_step db db'
| ch_login t actor phone action version p : loginPrepare t actor phone action version db = Ok (p, db') -> channel_step db db'
| ch_elsewhere : quiet db db' -> books db'.(money) ->
    (forall f id, lulu_booked f id (ledger db'.(money)) = lulu_booked f id (ledger db.(money))) ->
    lulu_receipts db'.(app) = lulu_receipts db.(app) -> lulu_setting db'.(app) = lulu_setting db.(app) -> channel_step db db'.

Lemma loginPrepare_run t actor phone action version db p db' : loginPrepare t actor phone action version db = Ok (p, db') ->
  p.1 = readConfig db /\ from_option (fun n => n <= sql_now t) True (lulu_login_limits db.(app) !! action) /\
  db' = set_app (set_lulu_login_limits (<[action := sql_now t + login_delay action]> (lulu_login_limits db.(app))) db.(app)) db.
Proof.
  unfold LuluConfig.loginPrepare. intros Hrun. apply tx_bind_Ok in Hrun as ([] & d & E & Hrun). apply reject_if_Ok in E as [_ <-].
  apply tx_bind_Ok in Hrun as ([] & d & E & Hrun). apply config_admin_Ok in E as (-> & _). rewrite gets_skip in Hrun.
  apply tx_bind_Ok in Hrun as ([] & d & E & Hrun). apply reject_if_Ok in E as [_ <-].
  apply tx_bind_Ok in Hrun as ([] & d & E & Hrun). apply reject_if_Ok in E as [_ <-].
  apply tx_bind_Ok in Hrun as (factory & d & E & Hrun). apply found_Ok in E as [_ <-]. rewrite gets_skip in Hrun.
  apply tx_bind_Ok in Hrun as (key & d & E & Hrun). apply lift_Ok in E as [_ <-].
  apply tx_bind_Ok in Hrun as (k & d & E & Hrun). apply lift_Ok in E as [_ <-].
  apply tx_bind_Ok in Hrun as (provider & d & E & Hrun). apply found_Ok in E as [_ <-].
  apply tx_bind_Ok in Hrun as ([] & d & E & Hrun). apply tx_ret_Ok in Hrun as [<- <-].
  unfold reserve_login in E. rewrite gets_skip in E. apply tx_bind_Ok in E as ([] & d1 & E1 & E). apply reject_if_Ok in E1 as [Hl <-].
  apply modify_Ok in E as <-. split; [done|]. split; [|done]. destruct (lulu_login_limits (app db) !! action); cbn in *; [lia|done].
Qed.

(** A change of the configuration is no transaction of the orders. *)
Lemma update_aside t n1 n2 actor inp db cfg db' : UpdateConfig t n1 n2 actor inp db = Ok (cfg, db') -> lulu_ok db ->
  lulu_step is_uuid db db' /\ lulu_orders db'.(app) = lulu_orders db.(app).
Proof.
  intros Hrun Hok. destruct (UpdateConfig_run _ _ _ _ _ _ _ _ _ _ _ _ _ Hrun) as [_ _ _ (api & start & token & key & _ & _ & _ & ->) _].
  split; [|done]. apply ls_elsewhere; [by apply quiet_app|apply Hok|done|done].
Qed.

Lemma active_none db id o : any_active db = false -> lulu_orders db.(app) !! id = Some o -> active_order o = false.
Proof.
  unfold any_active. intros Hn Ho. destruct (active_order o) eqn:E; [|done]. exfalso. apply not_true_iff_false in Hn. apply Hn.
  apply existsb_exists. exists (id, o). split; [by apply list_elem_of_In, elem_of_map_to_list|done].
Qed.

Lemma channel_step_ok db db' : channel_step db db' -> lulu_ok db /\ obliged db -> lulu_ok db' /\ obliged db'.
Proof.
  intros Hstep [Hok Hob]. destruct Hstep as [Htx|t n1 n2 actor inp cfg Hrun|t actor phone action version p Hrun|Hq Hb Hl Hr Hs].
  - split; [|by eapply tx_obliged]. by eapply steps_ok; [apply rtc_once, ls_tx|].
  - destruct (update_aside _ _ _ _ _ _ _ _ Hrun Hok) as [Hst Ho]. split; [by eapply steps_ok; [apply rtc_once|]|].
    destruct (UpdateConfig_run _ _ _ _ _ _ _ _ _ _ _ _ _ Hrun) as [_ _ Hidle (api & start & token & key & _ & _ & _ & ->) _].
    intros id o Hid Ha. cbn in Hid |- *. destruct (decide (ls_receiver_uid (lulu_setting (app db)) = cu_ReceiverUID inp)) as [<-|Hne].
    + by eapply Hob.
    + destruct (Hidle Hne) as [_ Hnone]. by rewrite (active_none _ _ _ Hnone Hid) in Ha.
  - destruct (loginPrepare_run _ _ _ _ _ _ _ _ Hrun) as (_ & _ & ->). split; [|exact Hob].
    eapply (steps_ok is_uuid db); [|done]. apply rtc_once, ls_elsewhere; [by apply quiet_app|apply Hok|done|done].
  - split; [by eapply (steps_ok is_uuid db); [apply rtc_once, ls_elsewhere|]|]. intros id o.
    rewrite (q_lulu _ _ Hq), Hs. apply Hob.
Qed.

(** C28: whatever players, staff, the collector, the dispatcher, logins and
    changes of the configuration do, every order whose money is still owed names
    the receiving account that is configured: an account is never changed while
    anything is owed on it, so nothing is collected or paid out elsewhere. *)
Theorem obligations_stay db db' : rtc channel_step db db' -> lulu_ok db -> obliged db ->
  lulu_ok db' /\ forall id o, lulu_orders db'.(app) !! id = Some o -> active_order o = true ->
    lo_receiver_uid o = ls_receiver_uid (lulu_setting db'.(app)).
Proof.
  intros Hsteps Hok Hob. enough (lulu_ok db' /\ obliged db') by done.
  induction Hsteps as [|db d db' Hstep _ IH]; [done|]. destruct (channel_step_ok _ _ Hstep (conj Hok Hob)). by apply IH.
Qed.

(** A login by text message is at most two steps: the start, and the update. *)
Lemma PhoneLogin_steps t t' nonce actor phone text version db r db' :
  PhoneLogin gcm_Seal gcm_Open encryptionKey is_uuid url_Parse MarshalTime loginFactory t t' nonce actor phone text version db = (r, db') ->
  rtc channel_step db db'.
Proof.
  assert (Hk : svc_keeps (rtc channel_step db) (PhoneLogin gcm_Seal gcm_Open encryptionKey is_uuid url_Parse MarshalTime
    loginFactory t t' nonce actor phone text version)).
  { assert (H1 : forall action, tx_keeps (rtc channel_step db) (loginPrepare t actor phone action version)).
    { intros action d p d' Hrun Hd. eapply rtc_r; [exact Hd|by eapply ch_login]. }
    assert (H2 : forall n1 n2 inp, tx_keeps (rtc channel_step db) (UpdateConfig t' n1 n2 actor inp)).
    { intros n1 n2 inp d cfg d' Hrun Hd. eapply rtc_r; [exact Hd|by eapply ch_update]. }
    unfold PhoneLogin. keeps. }
  intros Hrun. by apply (Hk _ _ _ Hrun).
Qed.

End history.

(** ** Transfers as they are shown *)

(** The one order an outgoing transfer can be. *)
Record transfer_of (receiver : string) (db : DB) (r : TransferRecord) (o : lulu_order_row) : Prop := {
  tf_order : lulu_orders db.(app) !! tr_OrderID r = Some o;
  tf_paid : lo_kind o = "withdrawal"%string /\ lo_status o = "confirmed"%string /\ tr_OrderStatus r = "confirmed"%string;
  tf_parties : lo_receiver_uid o = receiver /\ lo_lulu_uid o = tr_CounterpartyUID r;
  tf_amount : sent_stones r = Ok (lo_amount o) /\ tr_ItemID r = stone_item;
  tf_debited : exists l, l ∈ ledger db.(money) /\ debited_near (tr_OrderID r) (tr_OccurredAt r) l = true;
  tf_only : forall id x, lulu_orders db.(app) !! id = Some x ->
    link_candidate receiver (lo_amount o) r db id x = true -> id = tr_OrderID r
}.

Lemma apply_link_linked c r : tr_Linked (applyWithdrawalLink c r) = true ->
  exists id status n, c = [(id, status)] /\ tr_ItemID r = stone_item /\ sent_stones r = Ok n /\
    applyWithdrawalLink c r = set_link true id status "account_uid_amount_completion_window" "" r.
Proof.
  unfold applyWithdrawalLink. destruct (tr_ItemID r =? stone_item) eqn:Ei; [|done]. cbn [negb].
  destruct (HasPrefix _ _); [|done]. cbn [negb]. destruct (sent_stones r) as [n|]; [|done].
  destruct c as [|[id status] [|]]; [done| |done]. intros _. exists id, status, n. repeat split. lia.
Qed.

Lemma apply_none_same r : sent_stones (applyWithdrawalLink [] r) = sent_stones r /\
  tr_CounterpartyUID (applyWithdrawalLink [] r) = tr_CounterpartyUID r /\
  tr_OccurredAt (applyWithdrawalLink [] r) = tr_OccurredAt r /\ tr_Linked (applyWithdrawalLink [] r) = false.
Proof. unfold applyWithdrawalLink. repeat case_match; done. Qed.

Lemma take_two_one {A} (l : list A) x : take 2 l = [x] -> l = [x].
Proof. destruct l as [|a [|b l]]; cbn; congruence. Qed.

Lemma map_one {A B} (f : A -> B) l y : map f l = [y] -> exists x, l = [x] /\ f x = y.
Proof. destruct l as [|x [|]]; cbn; [done| |done]. intros [= <-]. by exists x. Qed.

Lemma linkWithdrawal_linked receiver db r : tr_Linked (linkWithdrawal receiver db r) = true ->
  exists o, transfer_of receiver db (linkWithdrawal receiver db r) o.
Proof.
  unfold linkWithdrawal. destruct (apply_none_same r) as (Es & Eu & Ea & El). cbv zeta.
  set (q := applyWithdrawalLink [] r) in *. destruct (sent_stones q) as [n|] eqn:En; [|congruence].
  destruct (negb _); [congruence|]. intros (id & status & m & Hc & Hi & Hm & ->)%apply_link_linked.
  apply take_two_one, map_one in Hc as ([k o] & Hf & [= <- <-]).
  assert (Hin : forall i x, lulu_orders (app db) !! i = Some x -> link_candidate receiver n q db i x = true -> (i, x) = (k, o)).
  { intros i x Hx Hl. assert (H0 : (i, x) ∈ [(k, o)]); [|by apply list_elem_of_singleton in H0].
    rewrite <- Hf. rewrite list_elem_of_In, List.filter_In, <- list_elem_of_In, elem_of_map_to_list. done. }
  assert (Hk : (k, o) ∈ List.filter (fun kv => link_candidate receiver n q db kv.1 kv.2) (map_to_list (lulu_orders (app db))))
    by (rewrite Hf; by left).
  rewrite list_elem_of_In, List.filter_In, <- list_elem_of_In, elem_of_map_to_list in Hk. destruct Hk as [Ho Hl].
  exists o. pose proof Hl as Hl'. unfold link_candidate in Hl'. cbn [fst snd] in Hl'. apply andb_prop in Hl' as [Hl' Hd].
  bool_to_prop. apply existsb_exists in Hd as (x & Hx & Hd). assert (lo_amount o = n) as <- by lia.
  split; [done|done|done|done|exists x; split; [by apply list_elem_of_In|done]|].
  intros i y Hy Hcand. by assert ((i, y) = (k, o)) as [= -> _] by (by apply Hin).
Qed.

Lemma count_two {A} (P : A -> bool) l i j x y : (i < j)%nat -> l !! i = Some x -> l !! j = Some y ->
  P x = true -> P y = true -> (2 <= length (List.filter P l))%nat.
Proof.
  revert i j. induction l as [|a l IH]; intros i j Hij Hi Hj Hx Hy; [done|]. destruct j as [|j]; [lia|]. destruct i as [|i]; cbn in *.
  - injection Hi as ->. rewrite Hx. cbn. assert (Hin : y ∈ List.filter P l).
    { rewrite list_elem_of_In, List.filter_In. split; [by eapply list_elem_of_In, list_elem_of_lookup_2|done]. }
    destruct (List.filter P l); [by apply elem_of_nil in Hin|cbn; lia].
  - assert (Hlt : (i < j)%nat) by lia. specialize (IH i j Hlt Hi Hj Hx Hy). destruct (P a); cbn; lia.
Qed.

(** An outgoing transfer is shown as the payment of an order only when that
    order, and no other, is a confirmed withdrawal of the same account, person
    and amount that the dispatcher debited within thirty seconds; and no two
    transfers are shown as the payment of one order. *)
Theorem transfers_shown receiver st en db l :
  let shown := shown_transfers "sent" receiver st en db l in
  (forall r, r ∈ shown -> tr_Linked r = true -> exists o, transfer_of receiver db r o) /\
  (forall i j r q, i <> j -> shown !! i = Some r -> shown !! j = Some q -> tr_Linked r = true -> tr_Linked q = true ->
     tr_OrderID r <> tr_OrderID q).
Proof.
  unfold shown_transfers. rewrite (bool_decide_true (_ = _)) by done. cbv zeta.
  set (l1 := List.filter _ _). set (g := fun r => if tr_Linked r && bool_decide (1 < link_count (tr_OrderID r) l1)%nat then unlinked "ambiguous_transfer" r else r).
  assert (Hg : forall r, tr_Linked (g r) = true -> g r = r /\ (link_count (tr_OrderID r) l1 <= 1)%nat).
  { intros r. unfold g. destruct (tr_Linked r) eqn:E; cbn [andb]; [|congruence]. case_bool_decide; [done|]. intros _. split; [done|lia]. }
  change (drop_shared l1) with (map g l1). split.
  - intros r Hr Hl. apply list_elem_of_fmap in Hr as (x & -> & Hx). destruct (Hg x Hl) as [-> _]. rewrite (proj1 (Hg x Hl)) in Hl.
    unfold l1 in Hx. rewrite list_elem_of_In, List.filter_In, <- list_elem_of_In in Hx. destruct Hx as [Hx _].
    apply list_elem_of_fmap in Hx as (y & -> & _). by apply linkWithdrawal_linked.
  - assert (Hlt : forall i j r q, (i < j)%nat -> map g l1 !! i = Some r -> map g l1 !! j = Some q -> tr_Linked r = true ->
      tr_Linked q = true -> tr_OrderID r <> tr_OrderID q).
    { intros i j r q Hij Hi Hj Hr Hq Heq. apply list_lookup_fmap_Some in Hi as (x & -> & Hi), Hj as (y & -> & Hj).
      destruct (Hg x Hr) as [Ex Hc], (Hg y Hq) as [Ey _]. rewrite Ex, Ey in *.
      assert (H2 : (2 <= link_count (tr_OrderID x) l1)%nat); [|lia].
      apply (count_two _ _ i j x y); [done|done|done| |]; rewrite ?Hr, ?Hq; cbn; by apply bool_decide_eq_true. }
    intros i j r q Hne Hi Hj Hr Hq. destruct (Nat.lt_ge_cases i j) as [Hij|Hij]; [by eapply (Hlt i j)|].
    intros Heq. symmetry in Heq. revert Heq. apply (Hlt j i); [lia|done..].
Qed.

(** ** Witnesses *)

(** A cipher that hides nothing, and one provider of addresses. *)
Definition plain_Seal (_ _ p _ : bytes) : bytes := p.
Definition plain_Open (_ _ c _ : bytes) : option bytes := Some c.
Definition some_url (s : string) : option url := Some (mk_url "https" false s s "" "" "" false "").
Definition zero_key : string := "AAAAAAAAAAAAAAAAAAAAAAAAAAAAAAAAAAAAAAAAAAA=".
Definition shared_key : string := "AAAAAAAAAAAAAAAAAAAAAAAAAAAAAAAA".
Definition zero_nonce : option bytes := Some (repeat (byte_at 0) NonceSize).

#[local] Abbreviation update := (UpdateConfig plain_Seal zero_key any_uuid some_url JInt).

(** The channel is paused, moved to another account, and taken up again. *)
Definition pause : ConfigUpdate := mk_ConfigUpdate None None "" "" "888888" false 1.
Definition move : ConfigUpdate :=
  mk_ConfigUpdate (Some "https://lulu") (Some 1700000000000000000) "token" shared_key "999999" true 2.

Definition paused_db : DB := run_or (update noon None None "staff" pause) stone_db.
Definition moved_db : DB := run_or (update noon zero_nonce zero_nonce "staff" move) paused_db.
Definition reordered_db : DB :=
  run_or (lulu_Create any_uuid noon (sql_now noon) "alice" "deposit" (stone_input "d-1" "10")) moved_db.

Lemma channel_steps : rtc (channel_step plain_Seal plain_Open zero_key any_uuid some_url JInt None) stone_db reordered_db.
Proof.
  destruct (run_or_Ok (update noon None None "staff" pause) (fun _ => true) stone_db) as (c1 & _ & E1); [vm_compute; reflexivity|].
  destruct (run_or_Ok (update noon zero_nonce zero_nonce "staff" move) (fun _ => true) paused_db) as (c2 & _ & E2); [vm_compute; reflexivity|].
  destruct (run_or_Ok (lulu_Create any_uuid noon (sql_now noon) "alice" "deposit" (stone_input "d-1" "10")) (fun _ => true) moved_db)
    as (o & _ & E3); [vm_compute; reflexivity|].
  eapply rtc_l; [exact (ch_update _ _ _ _ _ _ _ _ _ _ _ _ _ _ _ E1)|].
  eapply rtc_l; [exact (ch_update _ _ _ _ _ _ _ _ _ _ _ _ _ _ _ E2)|].
  eapply rtc_l; [exact (ch_tx _ _ _ _ _ _ _ _ _ (ls_create _ _ _ _ _ _ _ _ _ E3))|apply rtc_refl].
Qed.

Lemma stone_obliged : obliged stone_db.
Proof. assert (lulu_orders stone_db.(app) = ∅) as E by reflexivity. intros id o. rewrite E. by intros [=]. Qed.

Lemma obligations_stay_witness : exists o, lulu_orders reordered_db.(app) !! order_of "deposit" reordered_db = Some o /\
  active_order o = true /\ lo_receiver_uid o = "999999"%string /\ lo_receiver_uid o = ls_receiver_uid (lulu_setting reordered_db.(app)).
Proof.
  destruct (order_of_Some "deposit" reordered_db (fun o => active_order o && bool_decide (lo_receiver_uid o = "999999"%string)))
    as (o & Ho & HP); [vm_compute; reflexivity|]. apply andb_prop in HP as [Ha Hr]. exists o. split; [exact Ho|]. split; [exact Ha|].
  split; [exact (bool_decide_eq_true_1 _ Hr)|].
  destruct (obligations_stay plain_Seal plain_Open zero_key any_uuid some_url JInt None stone_db reordered_db channel_steps stone_ok stone_obliged)
    as [_ Hall]. exact (Hall _ o Ho Ha).
Defined.

Lemma credentials_roundtrip_witness : exists cfg,
  update noon zero_nonce zero_nonce "staff" move paused_db = Ok (cfg, moved_db) /\
  lulu_RuntimeConfig plain_Open zero_key true moved_db = Ok (mk_RuntimeConfig cfg "token" shared_key).
Proof.
  destruct (run_or_Ok (update noon zero_nonce zero_nonce "staff" move) (fun _ => true) paused_db) as (cfg & _ & E); [vm_compute; reflexivity|].
  exists cfg. split; [exact E|].
  assert (Hn : nonce_ok zero_nonce) by (vm_compute; reflexivity).
  destruct (credentials_roundtrip plain_Seal plain_Open zero_key any_uuid some_url JInt (fun k n p a => eq_refl)
    noon zero_nonce zero_nonce "staff" move paused_db cfg moved_db Hn Hn E) as [Hrc _].
  exact Hrc.
Defined.
