(* ===== verification/AgentProofs.v ===== *)
(** * Agents: what holds

    The referral graph is a forest and every stored path is the way from its
    top down; binding either refuses or links exactly one user; a commission is
    reversed once and exactly, a grant is paid once per request. *)

From S2P Require Import Prelude GoStrings Json Schema Store Books Custody Wallet Operations Settlement.
From S2P Require Import BetBooks Examples CreditProofs SettlementProofs Agent.

(** ** Labels *)

(** An identifier without an underscore: what [uuid.NewString] prints. *)
Definition plain_id (id : string) : Prop := forallb (fun c => negb (code c =? 95)) (s2b id) = true.

Lemma label_bytes_inj (a b : bytes) :
  let f c := if code c =? 45 then byte_at 95 else c in
  forallb (fun c => negb (code c =? 95)) a = true -> forallb (fun c => negb (code c =? 95)) b = true ->
  map f a = map f b -> a = b.
Proof.
  intros f. revert b. induction a as [|x a IH]; intros [|y b] Ha Hb E; try discriminate E; [done|].
  cbn in Ha, Hb. apply andb_prop in Ha as [Hx Ha], Hb as [Hy Hb]. injection E as Exy E.
  rewrite (IH b Ha Hb E). f_equal. unfold f in Exy.
  apply negb_true_iff, Z.eqb_neq in Hx, Hy.
  destruct (code x =? 45) eqn:E1, (code y =? 45) eqn:E2; bool_to_prop.
  - rewrite <- (byte_at_code x), <- (byte_at_code y). congruence.
  - exfalso. apply Hy. rewrite <- Exy. done.
  - exfalso. apply Hx. rewrite Exy. done.
  - done.
Qed.

Lemma agent_label_inj a b : plain_id a -> plain_id b -> agent_label a = agent_label b -> a = b.
Proof.
  intros Ha Hb E. unfold agent_label in E. apply (f_equal s2b) in E. rewrite !s2b_b2s in E.
  apply label_bytes_inj in E; [|done..]. by rewrite <- (b2s_s2b a), <- (b2s_s2b b), E.
Qed.

(** ** Chains of parents *)

Definition parent_in (rels : gmap string agent_relation_row) (id : string) : option string :=
  rels !! id ≫= al_parent_user_id.

(** The users from the top of the tree down to [id]. *)
Inductive chain (rels : gmap string agent_relation_row) : string -> list string -> Prop :=
| chain_root id : parent_in rels id = None -> chain rels id [id]
| chain_up id p l : parent_in rels id = Some p -> chain rels p l -> chain rels id (l ++ [id]).

Section chains.
Context (rels : gmap string agent_relation_row).

Lemma chain_det id l : chain rels id l -> forall l', chain rels id l' -> l = l'.
Proof.
  induction 1 as [id Hn|id p l Hp _ IH]; intros l' H'; inversion H' as [? Hn'|? p' l0 Hp' Hc]; subst; try congruence.
  assert (p' = p) as -> by congruence. by rewrite (IH l0 Hc).
Qed.

Lemma chain_last id l : chain rels id l -> exists l0, l = l0 ++ [id].
Proof. intros []; [by exists []|by eexists]. Qed.

Lemma chain_self id l : chain rels id l -> id ∈ l.
Proof. intros (l0 & ->)%chain_last. apply elem_of_app. right. by apply list_elem_of_singleton. Qed.

(** The chain of a user on the way is the beginning of the chain. *)
Lemma chain_split id l x : chain rels id l -> x ∈ l -> exists l1 l2, l = l1 ++ l2 /\ chain rels x l1.
Proof.
  induction 1 as [id Hn|id p l Hp Hc IH]; intros Hx.
  - apply list_elem_of_singleton in Hx as ->. exists [id], []. split; [done|by constructor].
  - apply elem_of_app in Hx as [Hx|Hx].
    + destruct (IH Hx) as (l1 & l2 & -> & H1). exists l1, (l2 ++ [id]). by rewrite app_assoc.
    + apply list_elem_of_singleton in Hx as ->. exists (l ++ [id]), []. rewrite app_nil_r.
      split; [done|by econstructor].
Qed.

Lemma chain_fresh id p l : parent_in rels id = Some p -> chain rels p l -> id ∉ l.
Proof.
  intros Hp Hc Hin. destruct (chain_split _ _ _ Hc Hin) as (l1 & l2 & E & H1).
  pose proof (chain_det _ _ H1 _ (chain_up _ _ _ _ Hp Hc)) as E2. apply (f_equal length) in E, E2.
  rewrite length_app in E, E2. cbn in E2. lia.
Qed.

Lemma chain_NoDup id l : chain rels id l -> NoDup l.
Proof.
  induction 1 as [id Hn|id p l Hp Hc IH]; [apply NoDup_singleton|].
  apply NoDup_app. split; [done|split; [|apply NoDup_singleton]].
  intros x Hx Hi. apply list_elem_of_singleton in Hi as ->. by apply (chain_fresh id p l).
Qed.

(** Only the top has no row with a parent. *)
Lemma chain_head id l x : chain rels id l -> x ∈ l -> parent_in rels x = None -> head l = Some x.
Proof.
  intros Hc Hx Hn. destruct (chain_split _ _ _ Hc Hx) as (l1 & l2 & -> & H1).
  inversion H1 as [? _|? p l0 Hp _]; subst; [done|congruence].
Qed.

Lemma chain_length id l : chain rels id l -> (length l <= S (size rels))%nat.
Proof.
  intros Hc. pose proof (chain_NoDup _ _ Hc) as Hd. destruct l as [|x l]; [cbn; lia|]. cbn. apply le_n_S.
  rewrite <- size_dom. apply NoDup_cons in Hd as [Hx Hd].
  rewrite <- (size_list_to_set (C := gset string) l) by done. apply subseteq_size. intros y Hy.
  apply elem_of_list_to_set in Hy. apply elem_of_dom. destruct (rels !! y) as [r|] eqn:E; [done|]. exfalso.
  assert (Hn : parent_in rels y = None) by (unfold parent_in; by rewrite E).
  pose proof (chain_head _ _ y Hc ltac:(apply elem_of_cons; by right) Hn) as Eh. injection Eh as ->. done.
Qed.

(** The recursive query walks the chain. *)
Lemma upward_chain id l : chain rels id l -> forall fuel visited,
  (forall x, x ∈ visited -> x ∉ l) -> (length l <= S fuel)%nat -> upward fuel rels visited id = rev l.
Proof.
  induction 1 as [id Hn|id p l Hp Hc IH]; intros fuel visited Hv Hl.
  - destruct fuel; cbn; [done|]. unfold parent_in in Hn. by rewrite Hn.
  - rewrite rev_app_distr. cbn [rev app]. rewrite length_app in Hl. cbn in Hl.
    destruct fuel as [|fuel]; [destruct (chain_last _ _ Hc) as (l0 & ->); rewrite length_app in Hl; cbn in Hl; lia|].
    cbn [upward]. unfold parent_in in Hp. rewrite Hp. f_equal. rewrite bool_decide_false.
    + apply IH; [|lia]. intros x Hx Hin. apply elem_of_cons in Hx as [->|Hx].
      * by apply (chain_fresh id p l).
      * apply (Hv x Hx), elem_of_app. by left.
    + intros Hin. apply elem_of_cons in Hin as [E|Hin].
      * apply (chain_fresh id p l Hp Hc). rewrite <- E. by apply chain_self.
      * apply (Hv p Hin), elem_of_app. left. by apply chain_self.
Qed.

Lemma ancestor_set_chain id l x : chain rels id l -> x ∈ ancestor_set rels id <-> x ∈ l.
Proof.
  intros Hc. unfold ancestor_set. rewrite (upward_chain _ _ Hc).
  - rewrite !list_elem_of_In, <- in_rev. done.
  - by intros y Hy%elem_of_nil.
  - by apply chain_length with id.
Qed.

End chains.

(** ** The forest *)

Record forest (rels : gmap string agent_relation_row) : Prop := {
  fo_path : forall id row p, rels !! id = Some row -> al_parent_user_id row = Some p ->
    exists l, chain rels id l /\ al_path row = Some (map agent_label l);
  fo_root : forall id row, rels !! id = Some row -> al_parent_user_id row = None -> al_path row = None;
  fo_plain : forall id row, rels !! id = Some row -> plain_id id;
  fo_parent : forall id row p, rels !! id = Some row -> al_parent_user_id row = Some p -> plain_id p
}.

Lemma forest_chain rels id : forest rels -> exists l, chain rels id l.
Proof.
  intros Hf. destruct (parent_in rels id) as [p|] eqn:E; [|by exists [id]; constructor].
  unfold parent_in in E. destruct (rels !! id) as [row|] eqn:Hr; [|done].
  destruct (fo_path _ Hf id row p Hr E) as (l & Hl & _). by exists l.
Qed.

Lemma chain_plain rels id l : forest rels -> plain_id id -> chain rels id l -> Forall plain_id l.
Proof.
  intros Hf Hid Hc. induction Hc as [id Hn|id p l Hp Hc IH]; [by constructor|].
  unfold parent_in in Hp. destruct (rels !! id) as [row|] eqn:Hr; [|done]. cbn in Hp.
  apply Forall_app. split; [by apply IH; eapply (fo_parent _ Hf)|by constructor].
Qed.

(** The path that a user's subordinates hang below. *)
Lemma path_above_chain rels id l : forest rels -> chain rels id l -> path_above rels id = map agent_label l.
Proof.
  intros Hf Hc. unfold path_above, text_path. destruct (rels !! id) as [row|] eqn:Hr; cbn.
  - destruct (al_parent_user_id row) as [p|] eqn:Hp.
    + destruct (fo_path _ Hf id row p Hr Hp) as (l' & Hc' & ->). cbn. rewrite (chain_det _ _ _ Hc _ Hc').
      destruct (chain_last _ _ _ Hc') as (l0 & ->). rewrite map_app. by destruct (map agent_label l0).
    + rewrite (fo_root _ Hf id row Hr Hp). cbn. inversion Hc as [? _|? p l0 Hp' _]; subst; [done|].
      unfold parent_in in Hp'. rewrite Hr in Hp'. cbn in Hp'. congruence.
  - inversion Hc as [? _|? p l0 Hp' _]; subst; [done|]. unfold parent_in in Hp'. by rewrite Hr in Hp'.
Qed.

(** *** Linking one user *)

Definition link (rels : gmap string agent_relation_row) (u p : string) : gmap string agent_relation_row :=
  let above := path_above rels p in
  <[u := mk_agent_relation_row (Some p) (Some (above ++ [agent_label u]))]>
    (map_imap (fun _ r => Some (if below_label (agent_label u) r then prefix_path above r else r)) rels).

Section linking.
Context (rels : gmap string agent_relation_row) (u p : string) (lp : list string).
Context (Hf : forest rels) (Hu : plain_id u) (Hp : plain_id p).
Context (Hfree : parent_in rels u = None) (Hlp : chain rels p lp) (Hcycle : u ∉ lp).

Lemma link_parent id : parent_in (link rels u p) id = if bool_decide (id = u) then Some p else parent_in rels id.
Proof.
  unfold parent_in, link. cbv zeta. case_bool_decide as E; [subst; by rewrite lookup_insert_eq|].
  rewrite lookup_insert_ne by done. rewrite map_lookup_imap. destruct (rels !! id) as [r|]; cbn; [|done].
  by destruct (below_label _ r).
Qed.

Lemma link_chain_apart id l : chain rels id l -> u ∉ l -> chain (link rels u p) id l.
Proof.
  induction 1 as [id Hn|id q l Hq Hc IH]; intros Hni.
  - constructor. rewrite link_parent, bool_decide_false; [done|]. intros ->. apply Hni, list_elem_of_singleton. done.
  - apply (chain_up _ _ q).
    + rewrite link_parent, bool_decide_false; [done|]. intros ->. apply Hni, elem_of_app. right.
      by apply list_elem_of_singleton.
    + apply IH. intros Hin. apply Hni, elem_of_app. by left.
Qed.

Lemma link_chain id l : chain rels id l ->
  chain (link rels u p) id (if bool_decide (u ∈ l) then lp ++ l else l).
Proof.
  induction 1 as [id Hn|id q l Hq Hc IH].
  - case_bool_decide as E.
    + apply list_elem_of_singleton in E as <-. apply (chain_up _ _ p); [by rewrite link_parent, bool_decide_true|].
      by apply link_chain_apart.
    + apply link_chain_apart; [by constructor|done].
  - assert (Hne : id <> u) by (intros ->; congruence).
    rewrite (bool_decide_ext (u ∈ l ++ [id]) (u ∈ l)).
    + assert (Hq' : parent_in (link rels u p) id = Some q) by (by rewrite link_parent, bool_decide_false).
      pose proof (chain_up _ _ _ _ Hq' IH) as Hc'. case_bool_decide; [by rewrite app_assoc|done].
    + rewrite elem_of_app, list_elem_of_singleton. split; [intros [?|?]; [done|congruence]|by left].
Qed.

Lemma below_label_chain id row q l :
  rels !! id = Some row -> al_parent_user_id row = Some q -> chain rels id l ->
  al_path row = Some (map agent_label l) -> below_label (agent_label u) row = bool_decide (u ∈ l).
Proof.
  intros Hr Hq Hc Hpath. unfold below_label. rewrite Hpath.
  pose proof (chain_plain _ _ _ Hf (fo_plain _ Hf _ _ Hr) Hc) as Hpl.
  destruct l as [|x l]; [cbn; case_bool_decide as E; [by apply elem_of_nil in E|done]|]. cbn [map].
  apply bool_decide_ext. apply Forall_cons in Hpl as [Hx _]. split.
  - intros E. apply agent_label_inj in E as ->; [|done..]. apply elem_of_cons. by left.
  - intros Hin. pose proof (chain_head _ _ _ u Hc Hin Hfree) as E. by injection E as ->.
Qed.

Lemma link_forest : forest (link rels u p).
Proof.
  assert (Habove : path_above rels p = map agent_label lp) by (by apply path_above_chain).
  assert (Hcu : chain (link rels u p) u (lp ++ [u])).
  { apply (chain_up _ _ p); [by rewrite link_parent, bool_decide_true|by apply link_chain_apart]. }
  assert (Hrow : forall id row, link rels u p !! id = Some row -> id <> u -> exists r0, rels !! id = Some r0 /\
    row = if below_label (agent_label u) r0 then prefix_path (map agent_label lp) r0 else r0).
  { intros id row Hr Hne. unfold link in Hr. cbv zeta in Hr. rewrite lookup_insert_ne, map_lookup_imap in Hr by done.
    destruct (rels !! id) as [r0|] eqn:E; [|done]. cbn in Hr. injection Hr as <-. rewrite Habove. by exists r0. }
  assert (Hself : forall row, link rels u p !! u = Some row ->
    row = mk_agent_relation_row (Some p) (Some (map agent_label (lp ++ [u])))).
  { intros row Hr. unfold link in Hr. cbv zeta in Hr. rewrite lookup_insert_eq in Hr. injection Hr as <-.
    by rewrite Habove, map_app. }
  split.
  - intros id row q Hr Hq. destruct (decide (id = u)) as [->|Hne].
    + rewrite (Hself row Hr). by exists (lp ++ [u]).
    + destruct (Hrow id row Hr Hne) as (r0 & Hr0 & ->).
      assert (Hq0 : al_parent_user_id r0 = Some q) by (by destruct (below_label _ r0)).
      destruct (fo_path _ Hf id r0 q Hr0 Hq0) as (l & Hc & Hpath). pose proof (link_chain _ _ Hc) as Hc'.
      rewrite (below_label_chain _ _ _ _ Hr0 Hq0 Hc Hpath). eexists. split; [exact Hc'|].
      case_bool_decide; [|done]. cbn. by rewrite Hpath, map_app.
  - intros id row Hr Hn. destruct (decide (id = u)) as [->|Hne]; [by rewrite (Hself row Hr) in Hn|].
    destruct (Hrow id row Hr Hne) as (r0 & Hr0 & ->).
    assert (Hn0 : al_parent_user_id r0 = None) by (by destruct (below_label _ r0)).
    pose proof (fo_root _ Hf id r0 Hr0 Hn0) as E. unfold below_label. rewrite E. done.
  - intros id row Hr. destruct (decide (id = u)) as [->|Hne]; [done|].
    destruct (Hrow id row Hr Hne) as (r0 & Hr0 & _). by eapply (fo_plain _ Hf).
  - intros id row q Hr Hq. destruct (decide (id = u)) as [->|Hne].
    + rewrite (Hself row Hr) in Hq. by injection Hq as <-.
    + destruct (Hrow id row Hr Hne) as (r0 & Hr0 & ->). apply (fo_parent _ Hf id r0 q Hr0). by destruct (below_label _ r0).
Qed.

End linking.

(** ** Binding *)

Record agents_ok (db : DB) : Prop := {
  ag_forest : forest (agent_relations db.(app));
  ag_plain : forall id u, users db.(app) !! id = Some u -> plain_id id
}.

Definition linked_db (u p : string) (db : DB) : DB :=
  set_app (set_agent_relations (link (agent_relations db.(app)) u p) db.(app)) db.

Section binding.
Context `{Uuids}.

Lemma real_users u p db : u <> p -> ensureRealRelationUsers u p db =
  if existsb u_is_virtual (omap (fun id => users db.(app) !! id) [u; p]) then Err ErrVirtualRelation
  else match users db.(app) !! u, users db.(app) !! p with
       | Some _, Some _ => Ok ((), db)
       | _, _ => Err ErrRelationUserNotFound
       end.
Proof.
  intros Hne. unfold ensureRealRelationUsers. rewrite gets_skip.
  assert (Hd : remove_dups [u; p] = [u; p]).
  { cbn [remove_dups]. repeat case_decide; try done; set_solver. }
  rewrite Hd. unfold reject_if. destruct (existsb _ _); [done|]. cbn.
  destruct (users (app db) !! u), (users (app db) !! p); done.
Qed.

(** What the transaction does once both users are known to be real. *)
Lemma bindTx_exact u p db lp : agents_ok db -> plain_id u -> plain_id p -> chain (agent_relations db.(app)) p lp ->
  bindTx u p db =
  if bool_decide (is_Some (parent_in (agent_relations db.(app)) u)) then Err ErrRelationExists
  else if bool_decide (u ∈ lp) then Err ErrInvalidRelation else Ok ((), linked_db u p db).
Proof.
  intros [Hf _] Hu Hp Hc. unfold bindTx. rewrite gets_skip. cbv zeta. fold (parent_in (agent_relations db.(app)) u).
  destruct (decide (is_Some (parent_in (agent_relations db.(app)) u))) as [Hs|Hfree];
    [by rewrite !(bool_decide_true _ Hs)|]. rewrite !(bool_decide_false _ Hfree).
  rewrite reject_skip by done. apply eq_None_not_Some in Hfree.
  rewrite (bool_decide_ext _ _ (ancestor_set_chain _ _ _ u Hc)).
  destruct (decide (u ∈ lp)) as [Hin|Hcy]; [by rewrite !(bool_decide_true _ Hin)|]. rewrite !(bool_decide_false _ Hcy).
  assert (Hpa : path_above (agent_relations db.(app)) p = map agent_label lp) by (by apply path_above_chain).
  rewrite !reject_skip; [|..|done].
  - unfold parent_in in Hfree. unfold mbind, Tx_bind, update_where, modify, upsert_relation. cbn.
    rewrite map_lookup_imap. unfold linked_db, link, put_row. cbn.
    destruct (agent_relations (app db) !! u) as [r|] eqn:Hr; cbn.
    + cbn in Hfree. destruct (below_label _ r); cbn; by rewrite Hfree.
    + done.
  - apply andb_false_iff. destruct (text_path (agent_relations (app db) !! p)) as [|l ls] eqn:Ht; [by left|right].
    unfold containsPathLabel. apply bool_decide_eq_false. unfold path_above in Hpa. rewrite Ht in Hpa. rewrite Hpa.
    intros (x & Ex & Hx)%list_elem_of_fmap. apply Hcy.
    pose proof (chain_plain _ _ _ Hf Hp Hc) as Hpl. rewrite Forall_forall in Hpl.
    apply agent_label_inj in Ex as ->; [done|done|by apply Hpl].
Qed.

(** Binding is exact.  A player is bound to a parent exactly when both are
    real, different users, the player has no parent yet, and the parent is not
    below the player; then the player hangs under the parent, his whole team
    moves with him and nothing else of the platform changes; in every other case
    the error says which condition failed and nothing changes. *)
Theorem Bind_exact u p db lp : agents_ok db -> chain (agent_relations db.(app)) p lp ->
  Bind u p db =
  if bool_decide (u = ""%string) || bool_decide (p = ""%string) || bool_decide (u = p) then Err ErrInvalidRelation
  else match users db.(app) !! u, users db.(app) !! p with
       | Some a, Some b =>
           if u_is_virtual a || u_is_virtual b then Err ErrVirtualRelation
           else if bool_decide (is_Some (parent_in (agent_relations db.(app)) u)) then Err ErrRelationExists
           else if bool_decide (u ∈ lp) then Err ErrInvalidRelation
           else Ok ((), linked_db u p db)
       | Some a, None | None, Some a => if u_is_virtual a then Err ErrVirtualRelation else Err ErrInvalidRelation
       | None, None => Err ErrInvalidRelation
       end.
Proof.
  intros Hok Hc. unfold Bind. destruct (_ || _ || _) eqn:Hg; [done|].
  rewrite reject_skip by done. bool_to_prop. unfold mbind at 1, Tx_bind at 1. rewrite real_users by done.
  destruct (users (app db) !! u) as [a|] eqn:Ha, (users (app db) !! p) as [b|] eqn:Hb; cbn; rewrite ?Ha, ?Hb; cbn;
    rewrite ?orb_false_r.
  - destruct (u_is_virtual a || u_is_virtual b); [done|].
    apply bindTx_exact; [done|by eapply (ag_plain _ Hok)|by eapply (ag_plain _ Hok)|done].
  - by destruct (u_is_virtual a).
  - by destruct (u_is_virtual b).
  - done.
Qed.

Lemma linked_ok u p lp db : agents_ok db -> plain_id u -> plain_id p -> parent_in (agent_relations db.(app)) u = None ->
  chain (agent_relations db.(app)) p lp -> u ∉ lp -> agents_ok (linked_db u p db).
Proof.
  intros [Hf Hpl] Hu Hp Hn Hc Hni. split; [|exact Hpl]. cbn. by eapply link_forest.
Qed.

(** A link that was made kept the forest, and nobody else's parent moved. *)
Lemma bindTx_run u p db db' : bindTx u p db = Ok ((), db') -> agents_ok db -> plain_id u -> plain_id p ->
  agents_ok db' /\ db' = linked_db u p db /\ parent_in (agent_relations db.(app)) u = None /\
  forall id, parent_in (agent_relations db'.(app)) id =
    if bool_decide (id = u) then Some p else parent_in (agent_relations db.(app)) id.
Proof.
  intros Hrun Hok Hu Hp. destruct (forest_chain _ p (ag_forest _ Hok)) as (lp & Hc).
  rewrite (bindTx_exact _ _ _ _ Hok Hu Hp Hc) in Hrun.
  destruct (bool_decide (is_Some _)) eqn:Hn; [done|]. apply bool_decide_eq_false, eq_None_not_Some in Hn.
  case_bool_decide as Hcy; [done|]. injection Hrun as <-.
  split; [by eapply linked_ok|split; [done|split; [done|]]]. intros id. cbn. apply link_parent.
Qed.

Lemma ensureReal_run u p db db' : ensureRealRelationUsers u p db = Ok ((), db') -> u <> p ->
  db = db' /\ exists a b, users db.(app) !! u = Some a /\ users db.(app) !! p = Some b.
Proof.
  intros Hrun Hne. rewrite real_users in Hrun by done. destruct (existsb _ _); [done|].
  destruct (users (app db) !! u) as [a|], (users (app db) !! p) as [b|]; try done.
  injection Hrun as <-. eauto.
Qed.

Lemma Bind_run u p db db' : Bind u p db = Ok ((), db') -> agents_ok db ->
  agents_ok db' /\ db' = linked_db u p db /\ parent_in (agent_relations db.(app)) u = None /\
  forall id, parent_in (agent_relations db'.(app)) id =
    if bool_decide (id = u) then Some p else parent_in (agent_relations db.(app)) id.
Proof.
  unfold Bind. intros Hrun Hok. apply tx_bind_Ok in Hrun as ([] & d & E & Hrun).
  apply reject_if_Ok in E as [Hg <-]. bool_to_prop.
  apply tx_bind_Ok in Hrun as ([] & d & E & Hrun).
  destruct (ensureRealRelationUsers u p db) as [[[] d0]|e] eqn:E2; [|done]. injection E as <-.
  apply ensureReal_run in E2 as (<- & a & b & Ha & Hb); [|done].
  apply bindTx_run; [done|done|by eapply (ag_plain _ Hok)|by eapply (ag_plain _ Hok)].
Qed.

Lemma user_of_public_Ok n db id db' : user_of_public n db = Ok (id, db') ->
  db = db' /\ exists u, users db.(app) !! id = Some u /\ u_public_id u = n.
Proof.
  unfold user_of_public, select_where. intros Hrun. rewrite gets_skip in Hrun.
  apply tx_bind_Ok in Hrun as ([k u] & d & E & Hrun). apply found_Ok in E as [E <-].
  apply tx_ret_Ok in Hrun as [<- <-]. apply find_row_Some in E as [Hu E]. apply Z.eqb_eq in E. eauto.
Qed.

Lemma AdminBind_run actor un pn db out db' : AdminBind actor un pn db = Ok (out, db') -> agents_ok db ->
  agents_ok db' /\ exists u p, parent_in (agent_relations db.(app)) u = None /\
  agent_relations db'.(app) = link (agent_relations db.(app)) u p /\ users db'.(app) = users db.(app) /\
  (exists a, users db.(app) !! u = Some a /\ u_public_id a = un) /\
  (exists b, users db.(app) !! p = Some b /\ u_public_id b = pn) /\
  forall id, parent_in (agent_relations db'.(app)) id =
    if bool_decide (id = u) then Some p else parent_in (agent_relations db.(app)) id.
Proof.
  unfold AdminBind. intros Hrun Hok. apply tx_bind_Ok in Hrun as ([] & d & E & Hrun).
  apply reject_if_Ok in E as [Hg <-]. bool_to_prop. rewrite gets_skip in Hrun.
  apply tx_bind_Ok in Hrun as ([] & d & E & Hrun). apply reject_if_Ok in E as [_ <-].
  apply tx_bind_Ok in Hrun as (u & d & E & Hrun). apply user_of_public_Ok in E as (<- & a & Ha & Han).
  apply tx_bind_Ok in Hrun as (p & d & E & Hrun). apply user_of_public_Ok in E as (<- & b & Hb & Hbn).
  apply tx_bind_Ok in Hrun as ([] & d & E & Hrun).
  apply ensureReal_run in E as (<- & _); [|intros ->; congruence].
  apply tx_bind_Ok in Hrun as ([] & d & E & Hrun).
  apply bindTx_run in E as (Hok' & -> & Hn & Hall); [|done|by eapply (ag_plain _ Hok)|by eapply (ag_plain _ Hok)].
  apply tx_bind_Ok in Hrun as (aid & d1 & E & Hrun). apply new_uuid_Ok in E as [<- <-].
  apply tx_bind_Ok in Hrun as ([] & d1 & E & Hrun). apply insert_audit_Ok in E as <-.
  apply tx_ret_Ok in Hrun as [_ <-]. split; [by destruct Hok'|]. exists u, p. eauto 10.
Qed.

End binding.

(** ** Commissions *)

Section commissions.
Context `{Uuids}.

(** A wallet gets a new available balance; other tables are written; then the
    difference is booked. *)
Lemma booked_insert t wid w after li db d1 d2 db' :
  books db.(money) -> wallets db.(money) !! wid = Some w ->
  update_wallet wid (fun _ => after) w_frozen (sql_now t) db = Ok ((), d1) -> money d2 = money d1 ->
  insert_ledger li (sql_now t) d2 = Ok ((), db') ->
  li_wallet_id li = wid -> li_balance_after li = after -> li_available_delta li = None -> li_frozen_delta li = 0 ->
  after = w_available w + li_amount li ->
  exists w' r, posted db db' wid w w' r /\ le_frozen_delta r = 0 /\ le_available_delta r = li_amount li /\
    le_business_type r = li_business_type li /\ le_business_id r = li_business_id li /\ money_only d2 db'.
Proof.
  intros Hb Hw E1 Hm E2 <- Ha Hnd Hnf Haft. apply update_wallet_Ok in E1 as [[Hno _]|(x & Hx & Hok & <-)]; [congruence|].
  assert (x = w) as -> by congruence. apply insert_ledger_Ok in E2 as (w2 & Hw2 & _ & <-).
  rewrite Hm in Hw2. cbn in Hw2. rewrite lookup_insert_eq in Hw2. injection Hw2 as <-.
  eexists _, (ledger_row_of _ (sql_now t) li). split; [|split; [|split; [|split; [|split]]]].
  - split; [exact Hw|exact Hok|done|done|cbn; rewrite Hm; reflexivity|..]; cbn; rewrite ?Hnd, ?Hnf; cbn; try done; lia.
  - done.
  - cbn. by rewrite Hnd.
  - done.
  - done.
  - apply money_only_post.
Qed.

Lemma booked_step t wid w amount after btype bid etype db d1 d2 eid db' :
  books db.(money) -> wallets db.(money) !! wid = Some w ->
  update_wallet wid (fun _ => after) w_frozen (sql_now t) db = Ok ((), d1) -> money d2 = money d1 ->
  insert_ledger (entry eid wid btype bid etype amount after) (sql_now t) d2 = Ok ((), db') ->
  after = w_available w + amount ->
  exists w' r, posted db db' wid w w' r /\ le_frozen_delta r = 0 /\ le_available_delta r = amount /\
    le_business_type r = btype /\ le_business_id r = bid /\ money_only d2 db'.
Proof. intros Hb Hw E1 Hm E2 Haft. by eapply (booked_insert t wid w after (entry eid wid btype bid etype amount after)). Qed.

(** A difference that is not negative after wrapping did not wrap. *)
Lemma debit_exact a x : 0 <= a <= int64_max -> in_int64 x -> x <= a -> 0 <= (a - x)%i64 ->
  (a - x)%i64 = a - x /\ (- x)%i64 = - x.
Proof.
  unfold in_int64, int64_min, int64_max. intros Ha Hx Hle Hn.
  assert (Hs : a - x <= 9223372036854775807).
  { destruct (decide (a - x <= 9223372036854775807)) as [|Hbig]; [done|]. exfalso. revert Hn. unfold wrap64.
    replace (a - x + 9223372036854775808) with (a - x - 9223372036854775808 + 1 * 18446744073709551616) by lia.
    rewrite Z.mod_add by lia. rewrite Z.mod_small by lia. lia. }
  split; apply wrap64_small; unfold in_int64, int64_min, int64_max; lia.
Qed.

(** What a reversal did. *)
Record reversed (id : string) (c : commission_row) (db db' : DB) : Prop := {
  rv_paid : ce_status c = "paid"%string;
  rv_books : books db'.(money);
  rv_quiet : quiet db db';
  rv_entry : commission_entries db'.(app) = <[id := set_commission_status "reversed" c]> (commission_entries db.(app));
  rv_wallet : exists wid w, wallets db.(money) !! wid = Some w /\ w_user_id w = ce_beneficiary_user_id c /\
     w_currency w = ce_currency c /\ ce_amount_minor c <= w_available w /\
     forall i, avail db'.(money) i = avail db.(money) i - (if bool_decide (wid = i) then ce_amount_minor c else 0)
}.

Lemma Reverse_run t id db c db' :
  books db.(money) -> commission_entries db.(app) !! id = Some c -> in_int64 (ce_amount_minor c) ->
  ReverseCommission t id db = Ok ((), db') -> reversed id c db db'.
Proof.
  intros Hb Hc Hin Hrun. unfold ReverseCommission, select_id in Hrun. rewrite gets_skip in Hrun.
  change (tbl db.(app)) with (commission_entries db.(app)) in Hrun. rewrite Hc in Hrun.
  rewrite (found_skip _ _ c) in Hrun by done.
  apply tx_bind_Ok in Hrun as ([] & d & E & Hrun). apply reject_if_Ok in E as [E <-].
  apply negb_false_iff, bool_decide_eq_true in E as Hpaid. cbv zeta in Hrun. unfold find_wallet in Hrun.
  rewrite gets_skip in Hrun. apply tx_bind_Ok in Hrun as ([wid w] & d & E1 & Hrun). apply found_Ok in E1 as [Hw <-].
  destruct (find_wallet_row _ _ _ _ _ Hw) as (Hrow & Hu & Hcur). destruct (bounded_lookup _ _ _ Hb Hrow) as [Ha _].
  apply tx_bind_Ok in Hrun as ([] & d & E1 & Hrun). apply reject_if_Ok in E1 as [Hge%Z.ltb_ge <-].
  apply tx_bind_Ok in Hrun as ([] & d1 & E1 & Hrun). apply tx_bind_Ok in Hrun as (n & d2 & E2 & Hrun).
  apply tx_bind_Ok in Hrun as (eid & d3 & E3 & Hrun). apply new_uuid_Ok in E3 as [<- <-].
  assert (Happ : app d1 = app db).
  { apply update_wallet_Ok in E1 as [[_ <-]|(x & _ & _ & <-)]; done. }
  apply update_row_Ok in E2 as [(E2 & _)|(c2 & Hc2 & _ & <-)]; cbn in *; rewrite Happ in *; [congruence|].
  assert (c2 = c) as -> by congruence.
  assert (Hneg : (w_available w - ce_amount_minor c)%i64 = w_available w - ce_amount_minor c /\
    (- ce_amount_minor c)%i64 = - ce_amount_minor c).
  { apply debit_exact; [done|done|done|]. apply update_wallet_Ok in E1 as [[Hno _]|(x & _ & Hok & _)]; [congruence|].
    apply wallet_ok_iff in Hok as [[H1 _] _]. exact H1. }
  destruct Hneg as [Hsub Hneg]. rewrite Hneg in Hrun.
  eapply (booked_step t wid w _ _ _ _ _ db d1) in Hrun as (w' & r & Hp & Hf & Hd & _ & _ & Hmo);
    [|exact Hb|exact Hrow|exact E1|reflexivity|rewrite Hsub; lia].
  assert (Hce : commission_entries db'.(app) = <[id := set_commission_status "reversed" c]> (commission_entries db.(app))).
  { destruct Hmo as (k & o & ->). cbn. by rewrite Happ. }
  split; [done|by eapply posted_books| |done|].
  - eapply posted_quiet; [exact Hp|done|..]; destruct Hmo as (k & o & ->); cbn; by rewrite Happ.
  - exists wid, w. do 4 (split; [done|]). intros i. rewrite (posted_avail _ _ _ _ _ _ i Hp), Hd.
    destruct (decide (wid = i)); [rewrite !bool_decide_true by done|rewrite !bool_decide_false by done]; lia.
Qed.

(** A commission is reversed once, exactly.  A successful reversal found a
    paid commission, took exactly its amount from the available balance of the
    beneficiary's wallet in its currency, which held it, booked that, and marked
    the commission; no other wallet moved, nothing was frozen, and a second
    reversal is refused. *)
Theorem ReverseCommission_once t id db c db' :
  books db.(money) -> commission_entries db.(app) !! id = Some c -> in_int64 (ce_amount_minor c) ->
  ReverseCommission t id db = Ok ((), db') ->
  reversed id c db db' /\ forall t2, ReverseCommission t2 id db' = Err ErrCommissionState.
Proof.
  intros Hb Hc Hin Hrun. pose proof (Reverse_run _ _ _ _ _ Hb Hc Hin Hrun) as Hr. split; [done|].
  intros t2. unfold ReverseCommission, select_id. rewrite gets_skip.
  change (tbl db'.(app)) with (commission_entries db'.(app)). rewrite (rv_entry _ _ _ _ Hr), lookup_insert_eq. reflexivity.
Qed.

Lemma commission_wallet_run now agent cur db wid z d :
  commission_wallet now agent cur db = Ok ((wid, z), d) -> books db.(money) ->
  books d.(money) /\ quiet db d /\ money_only db d /\ (forall i, avail d.(money) i = avail db.(money) i) /\
  exists w, wallets d.(money) !! wid = Some w /\ w_user_id w = agent /\ w_currency w = cur /\ w_available w = z.
Proof.
  unfold commission_wallet, find_wallet. intros Hrun Hb. rewrite gets_skip in Hrun.
  destruct (find_row _ _) as [[k w]|] eqn:Hw.
  - apply tx_ret_Ok in Hrun as [[= -> <-] <-]. apply find_wallet_row in Hw as (Hw & Hu & Hc).
    do 4 (split; [done|]). eauto.
  - apply tx_bind_Ok in Hrun as (id & d1 & E & Hrun). apply new_uuid_Ok in E as [<- <-].
    apply tx_bind_Ok in Hrun as (made & d1 & E & Hrun).
    destruct (insert_wallet_still _ _ _ _ _ _ _ E Hb) as (B1 & B2 & B3 & _ & B5).
    apply insert_wallet_Ok in E as [(-> & <- & x & Hx)|(-> & _ & Hid & <-)]; [cbn in Hx; congruence|].
    apply tx_bind_Ok in Hrun as ([] & d2 & E & Hrun). apply reject_if_Ok in E as [_ <-].
    apply tx_ret_Ok in Hrun as [[= <- <-] <-]. split; [done|].
    split; [etrans; [apply quiet_tick|done]|]. split; [etrans; [apply money_only_tick|done]|].
    split; [done|]. eexists. split; [apply lookup_insert_eq|done].
Qed.

Definition grant_valid (request agent cur : string) (amount : Z) (op : string) : bool :=
  negb (bool_decide (request = ""%string) || bool_decide (agent = ""%string) ||
        negb (bool_decide (cur ∈ grant_currencies)) || (amount <=? 0) || bool_decide (op = ""%string)).

Definition grant_key (request : string) (a : commission_adjustment_row) : bool :=
  bool_decide (cj_request_id a = request).

Lemma Grant_known t request agent cur amount remark op db id row : grant_valid request agent cur amount op = true ->
  find_row (fun _ => grant_key request) (commission_adjustments db.(app)) = Some (id, row) ->
  GrantCommission t request agent cur amount remark op db = Ok (id, db).
Proof.
  intros Hv Hf. unfold GrantCommission, select_where. rewrite reject_skip by (by apply negb_true_iff).
  rewrite gets_skip. unfold grant_key in Hf. change (tbl db.(app)) with (commission_adjustments db.(app)).
  rewrite Hf. reflexivity.
Qed.

(** What the first call did. *)
Record granted (request agent cur : string) (amount : Z) (id : string) (db db' : DB) : Prop := {
  gr_books : books db'.(money);
  gr_quiet : quiet db db';
  gr_new : find_row (fun _ => grant_key request) (commission_adjustments db.(app)) = None;
  gr_row : exists remark op, commission_adjustments db'.(app) =
    <[id := mk_commission_adjustment_row request agent cur amount remark op]> (commission_adjustments db.(app));
  gr_wallet : exists wid, owns db'.(money) wid agent cur /\
    forall i, avail db'.(money) i = avail db.(money) i + (if bool_decide (wid = i) then amount else 0)
}.

Lemma Grant_run t request agent cur amount remark op db id db' :
  books db.(money) -> amount <= int64_max ->
  GrantCommission t request agent cur amount remark op db = Ok (id, db') ->
  0 < amount /\
  ((exists row, find_row (fun _ => grant_key request) (commission_adjustments db.(app)) = Some (id, row)) /\ db' = db \/
   granted request agent cur amount id db db').
Proof.
  intros Hb Hmax Hrun. unfold GrantCommission, select_where in Hrun.
  apply tx_bind_Ok in Hrun as ([] & d & E & Hrun). apply reject_if_Ok in E as [E <-]. bool_to_prop.
  split; [done|]. rewrite gets_skip in Hrun. fold (grant_key request) in Hrun.
  change (tbl db.(app)) with (commission_adjustments db.(app)) in Hrun.
  destruct (find_row _ _) as [[k row]|] eqn:Hf.
  { apply tx_ret_Ok in Hrun as [-> <-]. left. split; [by exists row|done]. }
  right. apply tx_bind_Ok in Hrun as ([wid z] & d & E & Hrun).
  destruct (commission_wallet_run _ _ _ _ _ _ _ E Hb) as (B1 & B2 & B3 & B4 & w & Hw & Hu & Hc & <-). clear E.
  apply tx_bind_Ok in Hrun as (aid & d1 & E & Hrun). apply new_uuid_Ok in E as [<- <-]. cbv zeta in Hrun.
  apply tx_bind_Ok in Hrun as ([] & d1 & E1 & Hrun). apply tx_bind_Ok in Hrun as ([] & d2 & E2 & Hrun).
  apply insert_row_Ok in E2 as (Hfree & _ & <-).
  apply tx_bind_Ok in Hrun as (eid & d3 & E3 & Hrun). apply new_uuid_Ok in E3 as [<- <-].
  apply tx_bind_Ok in Hrun as ([] & d4 & E4 & Hrun). apply tx_ret_Ok in Hrun as [<- <-].
  destruct (bounded_lookup _ _ _ B1 Hw) as [Ha _].
  assert (Hsum : (w_available w + amount)%i64 = w_available w + amount).
  { apply wrap64_add_nonneg; [done|lia|].
    apply update_wallet_Ok in E1 as [[Hno _]|(x & _ & Hok & _)]; [cbn in Hno; congruence|].
    apply wallet_ok_iff in Hok as [[Hnn _] _]. exact Hnn. }
  assert (Happ : app d1 = app (tick d)) by (apply update_wallet_Ok in E1 as [[_ <-]|(x & _ & _ & <-)]; done).
  eapply (booked_step t wid w _ _ _ _ _ (tick d) d1) in E4 as (w' & r & Hp & Hfz & Hd & _ & _ & Hmo);
    [|exact B1|exact Hw|exact E1|reflexivity|rewrite Hsum; lia].
  destruct B3 as (k3 & o3 & B3). split.
  - eapply posted_books; [exact Hp|exact B1].
  - etrans; [exact B2|]. etrans; [apply quiet_tick|].
    eapply posted_quiet; [exact Hp|done|..]; destruct Hmo as (k & o & ->); cbn; by rewrite Happ.
  - exact Hf.
  - exists remark, op. destruct Hmo as (k & o & ->). cbn. rewrite Happ. cbn. by rewrite B3.
  - exists wid. split.
    + exists w'. rewrite (po_money _ _ _ _ _ _ Hp). cbn. rewrite lookup_insert_eq. split; [done|].
      rewrite (po_user _ _ _ _ _ _ Hp), (po_currency _ _ _ _ _ _ Hp). done.
    + intros i. rewrite (posted_avail _ _ _ _ _ _ i Hp), Hd. rewrite <- B4. done.
Qed.

(** A manual commission is paid once per request.  The first call credits
    exactly the amount to the agent's wallet - opened when there was none -, books
    it and records the request; every later call with that request, whatever else
    it says, returns the first identifier and changes nothing. *)
Theorem GrantCommission_once t request agent cur amount remark op db id db' :
  books db.(money) -> amount <= int64_max ->
  GrantCommission t request agent cur amount remark op db = Ok (id, db') ->
  0 < amount /\ (db' = db \/ granted request agent cur amount id db db') /\
  (exists row, commission_adjustments db'.(app) !! id = Some row /\ cj_request_id row = request) /\
  forall t2 agent2 cur2 amount2 remark2 op2, grant_valid request agent2 cur2 amount2 op2 = true ->
    GrantCommission t2 request agent2 cur2 amount2 remark2 op2 db' = Ok (id, db').
Proof.
  intros Hb Hmax Hrun. destruct (Grant_run _ _ _ _ _ _ _ _ _ _ Hb Hmax Hrun) as [Hpos Hor]. split; [done|].
  assert (Hf : exists row, find_row (fun _ => grant_key request) (commission_adjustments db'.(app)) = Some (id, row)).
  { destruct Hor as [[Hrow ->]|Hg]; [done|]. destruct (gr_row _ _ _ _ _ _ _ Hg) as (rm & o & ->).
    eexists. apply find_row_added; [by apply (gr_new _ _ _ _ _ _ _ Hg)|]. by apply bool_decide_eq_true. }
  split; [destruct Hor as [[_ ->]|Hg]; auto|]. destruct Hf as (row & Hf). split.
  - exists row. apply find_row_Some in Hf as [Hl Hk]. by apply bool_decide_eq_true in Hk.
  - intros t2 agent2 cur2 amount2 remark2 op2 Hv. by eapply Grant_known.
Qed.

End commissions.

(** ** Witnesses *)

Definition agent_example : DB := set_app
  (set_agent_relations {[ "bob" := mk_agent_relation_row (Some "carol") (Some ["carol"; "bob"]) ]}
  (set_users (<["carol" := mk_user_row "active" false "Carol" 10004 (Some 3) None (Some "carol") None 0]>
    (<["dave" := mk_user_row "active" false "Dave" 10005 (Some 4) None (Some "dave") None 0]> (users example_db.(app))))
  example_db.(app))) example_db.

Lemma agent_example_ok : agents_ok agent_example.
Proof.
  split.
  - assert (E : agent_relations agent_example.(app) =
      {[ "bob"%string := mk_agent_relation_row (Some "carol"%string) (Some ["carol"; "bob"]%string) ]}) by reflexivity.
    rewrite E. split.
    + intros id row p [<- <-]%lookup_singleton_Some [= <-]. exists ["carol"; "bob"]%string. split; [|reflexivity].
      by apply (chain_up _ _ "carol" ["carol"]%string), chain_root.
    + by intros id row [<- <-]%lookup_singleton_Some [=].
    + by intros id row [<- _]%lookup_singleton_Some.
    + by intros id row p [<- <-]%lookup_singleton_Some [= <-].
  - intros id u. change (users agent_example.(app)) with
      (<["carol" := mk_user_row "active" false "Carol" 10004 (Some 3) None (Some "carol") None 0]>
    (<["dave" := mk_user_row "active" false "Dave" 10005 (Some 4) None (Some "dave") None 0]> (users example_db.(app))))%string.
    intros [[-> _]|Hu]%lookup_insert_or; [done|]. apply lookup_insert_or in Hu as [[-> _]|Hu]; [done|].
    assert (Hin : id ∈ ["alice"; "bob"; "staff"]%string).
    { cbn in Hu. repeat (apply lookup_insert_or in Hu as [[-> _]|Hu]; [set_solver|]).
      done. }
    apply list_elem_of_In in Hin. cbn in Hin. destruct Hin as [<-|[<-|[<-|[]]]]; done.
Qed.

(** Carol, whose team is Bob, is bound to Dave; then Dave may not be bound to Bob. *)
Lemma Bind_exact_witness :
  (exists db', Bind "carol" "dave" agent_example = Ok ((), db') /\
     al_path <$> agent_relations db'.(app) !! "bob"%string = Some (Some ["dave"; "carol"; "bob"]%string)) /\
  Bind "carol" "bob" agent_example = Err ErrInvalidRelation.
Proof.
  split.
  - rewrite (Bind_exact "carol" "dave" agent_example ["dave"]%string agent_example_ok) by (by apply chain_root).
    eexists. split; [vm_compute; reflexivity|]. vm_compute. reflexivity.
  - rewrite (Bind_exact "carol" "bob" agent_example ["carol"; "bob"]%string agent_example_ok).
    + vm_compute. reflexivity.
    + apply (chain_up _ _ "carol" ["carol"]%string); [done|by apply chain_root].
Defined.

Definition granted_db : DB := run_or (GrantCommission noon "g-1" "alice" "POINTS" 500 "bonus" "staff") example_db.

Lemma granted_run : exists id, GrantCommission noon "g-1" "alice" "POINTS" 500 "bonus" "staff" example_db = Ok (id, granted_db).
Proof.
  destruct (run_or_Ok (GrantCommission noon "g-1" "alice" "POINTS" 500 "bonus" "staff") (fun _ => true) example_db)
    as (id & _ & E); [vm_compute; reflexivity|]. by exists id.
Qed.

Lemma granted_books : books granted_db.(money).
Proof.
  destruct granted_run as (id & Hrun). revert Hrun. generalize granted_db. intros g Hrun.
  assert (Hmax : 500 <= int64_max) by (vm_compute; discriminate).
  destruct (Grant_run _ _ _ _ _ _ _ example_db _ g books_empty Hmax Hrun) as [_ [[_ E]|Hg]];
    [rewrite E; apply books_empty|apply Hg].
Qed.

Lemma GrantCommission_once_witness : exists id,
  GrantCommission noon "g-1" "alice" "POINTS" 500 "bonus" "staff" example_db = Ok (id, granted_db) /\
  GrantCommission noon "g-1" "bob" "USDT" 900 "again" "staff" granted_db = Ok (id, granted_db).
Proof.
  destruct granted_run as (id & Hrun). exists id. split; [exact Hrun|].
  destruct (GrantCommission_once noon "g-1" "alice" "POINTS" 500 "bonus" "staff" example_db id granted_db
    books_empty ltac:(vm_compute; discriminate) Hrun) as (_ & _ & _ & Hagain).
  apply Hagain. vm_compute. reflexivity.
Defined.

Definition paid_commission : commission_row := mk_commission_row "bet-1" "alice" 300 "POINTS" "paid" None.

Definition commission_db : DB := put_row "c-1" paid_commission granted_db.

Lemma ReverseCommission_once_witness : exists db',
  ReverseCommission noon "c-1" commission_db = Ok ((), db') /\
  ReverseCommission noon "c-1" db' = Err ErrCommissionState.
Proof.
  assert (Hb : books commission_db.(money)).
  { unfold commission_db. rewrite money_put_row. exact granted_books. }
  destruct (run_or_Ok (ReverseCommission noon "c-1") (fun _ => true) commission_db) as ([] & _ & Hrun);
    [vm_compute; reflexivity|].
  exists (run_or (ReverseCommission noon "c-1") commission_db). split; [exact Hrun|].
  destruct (ReverseCommission_once noon "c-1" commission_db paid_commission
    (run_or (ReverseCommission noon "c-1") commission_db) Hb) as (_ & Hagain);
    [by apply lookup_insert_eq|split; vm_compute; discriminate|exact Hrun|apply Hagain].
Defined.
