(* ===== verification/IdentityProofs.v ===== *)
(** * Tokens and passwords

    An access token round-trips and is refused outside its lifetime, and
    whatever is accepted was signed with the secret; a password hash accepts
    the passwords with its Argon2id key and no others; the login guard. *)

From S2P Require Import Prelude GoStrings Base64 Json Schema Store Books Identity.

Lemma b64_free_of url k l : k = 46 \/ k = 36 -> free_of k (b64_encode url l) = true.
Proof.
  intros Hk. unfold free_of. rewrite b64_encode_digits. apply forallb_forall.
  intros c (n & <- & Hn)%in_map_iff. apply negb_true_iff, Z.eqb_neq.
  pose proof (b64_digits_range l) as Hr. rewrite List.Forall_forall in Hr. specialize (Hr n Hn).
  unfold b64_char. destruct Hk as [-> | ->], url; repeat case_match; bool_to_prop; rewrite code_byte_at; lia.
Qed.

Section tokens.
Context (hmac_sha256 : bytes -> bytes -> bytes).
Context (Marshal : json -> bytes) (Unmarshal : bytes -> raw).
Abbreviation Issue := (IssueAccessToken hmac_sha256 Marshal).
Abbreviation Verify := (VerifyAccessToken hmac_sha256 Unmarshal).

Lemma decode_part {T} (dec : json -> option T) j :
  Unmarshal (Marshal j) = Some j -> decodeTokenPart Unmarshal dec (encodeTokenPart Marshal j) = dec j.
Proof. intros Hj. unfold decodeTokenPart, encodeTokenPart. rewrite b64_roundtrip. cbn. by rewrite Hj. Qed.

Lemma dec_claims_json c : in_int64 (at_IssuedAt c) -> in_int64 (at_ExpiresAt c) ->
  dec_claims (claims_json c) = Some c.
Proof.
  destruct c as [sid sub roles iat exp]. cbn [at_IssuedAt at_ExpiresAt]. intros [Hi1 Hi2] [He1 He2].
  assert (Hroles : forall old, dec_strings old (roles_json roles) = Some roles).
  { intros old. destruct roles as [|r roles]; [done|]. unfold dec_strings, roles_json.
    induction (r :: roles) as [|x l IH]; [done|]. cbn in *. by rewrite IH. }
  unfold claims_json, dec_claims, dec_struct. cbn [at_SessionID at_Subject at_Roles at_IssuedAt at_ExpiresAt].
  assert (Hint : forall z old, int64_min <= z -> z <= int64_max -> dec_int64 old (JInt z) = Some z).
  { intros z old H1 H2. unfold dec_int64. by rewrite (proj2 (Z.leb_le _ _) H1), (proj2 (Z.leb_le _ _) H2). }
  destruct (bool_decide_reflect (sid = ""%string)) as [->|Hsid]; destruct (exp =? 0) eqn:E0; bool_to_prop; subst;
    cbn [Datatypes.app foldl fst snd];
    repeat first [ progress cbn [mbind option_bind dec_string] | rewrite Hroles | rewrite Hint by done
                 | match goal with |- context [is_key ?a ?b] =>
                     let v := eval vm_compute in (is_key a b) in change (is_key a b) with v end ]; reflexivity.
Qed.

Lemma token_parts hmac Marshal' secret subject roles issuedAt lifetime sid token :
  IssueAccessToken hmac Marshal' secret subject roles issuedAt lifetime sid = Ok token ->
  let c := mk_claims sid subject roles (unix issuedAt) (if 0 <? lifetime then unix (issuedAt + lifetime) else 0) in
  let h := encodeTokenPart Marshal' token_header in
  let b := encodeTokenPart Marshal' (claims_json c) in
  32 <= Z.of_nat (length secret) /\ subject <> ""%string /\ 0 <= lifetime /\ (lifetime = 0 -> sid <> ""%string) /\
  token = h ++ dot ++ b ++ dot ++ token_signature hmac secret (h ++ dot ++ b) /\
  split_all 46 token = [h; b; token_signature hmac secret (h ++ dot ++ b)].
Proof.
  unfold IssueAccessToken. intros Hrun. res_steps. subst token. rewrite <- !app_assoc. repeat split; try done.
  - intros Hz. destruct H0; bool_to_prop; lia || done.
  - unfold dot. cbn [Datatypes.app]. rewrite !split_all_sep by (done || by apply b64_free_of; left).
    by rewrite split_all_free by (by apply b64_free_of; left).
Qed.

Lemma verify_parts secret token now h b s :
  split_all 46 token = [h; b; s] -> 32 <= Z.of_nat (length secret) ->
  decodeTokenPart Unmarshal dec_kind h = Some (mk_kind "HS256" "JWT") ->
  Verify secret token now =
    if bool_decide (s = token_signature hmac_sha256 secret (h ++ dot ++ b)) then
      match decodeTokenPart Unmarshal dec_claims b with
      | Some c => if claims_valid now c then Ok c else Err ErrInvalidAccessToken
      | None => Err ErrInvalidAccessToken
      end
    else Err ErrInvalidAccessToken.
Proof.
  intros Hs Hlen Hh. unfold VerifyAccessToken. rewrite (proj2 (Z.ltb_ge _ _)) by done. cbn [fail_if]. rewrite Hs, Hh.
  cbn. case_bool_decide; [|done]. cbn. destruct (decodeTokenPart Unmarshal dec_claims b) as [c|]; [|done].
  cbn. by destruct (claims_valid now c).
Qed.

Lemma accepted_signed secret forged now c : Verify secret forged now = Ok c ->
  exists text, forged = text ++ dot ++ token_signature hmac_sha256 secret text.
Proof.
  unfold VerifyAccessToken. intros Hv. res_steps.
  destruct (split_all 46 forged) as [|h [|b [|s [|]]]] eqn:E; try discriminate. res_steps. subst s.
  apply split_all_three in E as (u & v & -> & Hu & Hv2). assert (u = byte_at 46) as -> by (by rewrite <- Hu, byte_at_code).
  assert (v = byte_at 46) as -> by (by rewrite <- Hv2, byte_at_code).
  exists (h ++ dot ++ b). by rewrite <- !app_assoc.
Qed.

(** C30: an issued access token verifies, exactly while it lives, to the claims
    it was issued with; and any token that verifies, issued or not, ends in
    the HMAC of the rest under the secret. *)
Theorem token_roundtrip secret subject roles issuedAt lifetime sid token :
  let c := mk_claims sid subject roles (unix issuedAt) (if 0 <? lifetime then unix (issuedAt + lifetime) else 0) in
  IssueAccessToken hmac_sha256 Marshal secret subject roles issuedAt lifetime sid = Ok token ->
  Unmarshal (Marshal token_header) = Some token_header ->
  Unmarshal (Marshal (claims_json c)) = Some (claims_json c) ->
  1000000000 <= issuedAt -> issuedAt + lifetime <= int64_max ->
  (forall now,
     VerifyAccessToken hmac_sha256 Unmarshal secret token now =
       if (unix issuedAt <=? unix now) && ((lifetime =? 0) || (unix now <? unix (issuedAt + lifetime)))
       then Ok c else Err ErrInvalidAccessToken) /\
  (forall forged now c',
     VerifyAccessToken hmac_sha256 Unmarshal secret forged now = Ok c' ->
     exists text, forged = text ++ dot ++ token_signature hmac_sha256 secret text).
Proof.
  intros c Hissue Hhead Hbody Hiat Hexp.
  destruct (token_parts _ _ _ _ _ _ _ _ _ Hissue) as (Hlen & Hsub & Hlife & Hsid & _ & Hsplit). fold c in Hsplit.
  assert (Hmax : 1 <= unix issuedAt <= int64_max /\ 1 <= unix (issuedAt + lifetime) <= int64_max).
  { unfold unix, int64_max in *. Z.to_euclidean_division_equations; lia. }
  split.
  - intros now. rewrite (verify_parts _ _ _ _ _ _ Hsplit Hlen) by (by rewrite decode_part).
    rewrite bool_decide_eq_true_2 by done. rewrite decode_part by done.
    rewrite dec_claims_json; [|unfold in_int64, int64_min; cbn; lia|
      unfold in_int64, int64_min; cbn; destruct (0 <? lifetime); lia].
    replace (claims_valid now c) with
      ((unix issuedAt <=? unix now) && ((lifetime =? 0) || (unix now <? unix (issuedAt + lifetime)))); [done|].
    unfold claims_valid, c. cbn [at_SessionID at_Subject at_Roles at_IssuedAt at_ExpiresAt].
    rewrite bool_decide_eq_false_2 by done. destruct (Z.ltb_spec 0 lifetime) as [Hl|Hl].
    + rewrite (proj2 (Z.ltb_lt 0 (unix (issuedAt + lifetime)))), (proj2 (Z.ltb_ge (unix (issuedAt + lifetime)) 0)),
        (proj2 (Z.eqb_neq (unix (issuedAt + lifetime)) 0)), (proj2 (Z.eqb_neq lifetime 0)) by lia.
      destruct (Z.leb_spec (unix issuedAt) (unix now)), (Z.ltb_spec (unix now) (unix issuedAt)),
        (Z.ltb_spec (unix now) (unix (issuedAt + lifetime))), (Z.leb_spec (unix (issuedAt + lifetime)) (unix now));
        lia || done.
    + assert (lifetime = 0) as -> by lia. cbn. rewrite bool_decide_eq_false_2 by (by apply Hsid). cbn.
      rewrite andb_true_r. by rewrite Z.leb_antisym.
  - intros forged now c'. apply accepted_signed.
Qed.

End tokens.

Definition example_secret : bytes := s2b "0123456789abcdef0123456789abcdef".
Definition example_claims : AccessTokenClaims := mk_claims "s" "u" ["player"]%string 1700000000 1700000900.
Definition example_marshal (j : json) : bytes := if bool_decide (j = token_header) then s2b "h" else s2b "c".
Definition example_unmarshal (b : bytes) : raw :=
  Some (if bool_decide (b = s2b "h") then token_header else claims_json example_claims).
Definition example_hmac (k m : bytes) : bytes := take 4 k ++ drop 5 m.
Definition example_token : bytes :=
  match IssueAccessToken example_hmac example_marshal example_secret "u" ["player"]%string 1700000000000000000 900000000000 "s"
  with Ok t => t | Err _ => [] end.

Lemma token_roundtrip_witness :
  VerifyAccessToken example_hmac example_unmarshal example_secret example_token 1700000899999999999 = Ok example_claims /\
  VerifyAccessToken example_hmac example_unmarshal example_secret example_token 1700000900000000000 = Err ErrInvalidAccessToken.
Proof.
  destruct (token_roundtrip example_hmac example_marshal example_unmarshal example_secret "u" ["player"]%string
    1700000000000000000 900000000000 "s" example_token) as [Hv _];
    [by vm_compute|by vm_compute|by vm_compute|lia|unfold int64_max; lia|].
  split; rewrite Hv; by vm_compute.
Defined.

(** ** Passwords *)

Section passwords.
Context (IDKey : bytes -> bytes -> Z -> Z -> Z -> Z -> bytes).

(** A password hash accepts exactly the passwords whose Argon2id key under
    the stored salt and the default parameters is the stored key: what
    [HashPassword] writes, [VerifyPassword] reads back. *)
Theorem password_exact salt password guess :
  length (IDKey (s2b password) salt argonTime argonMemory argonThreads argonKeyLen) = 32%nat ->
  VerifyPassword IDKey (HashPassword IDKey salt password) guess =
    bool_decide (IDKey (s2b guess) salt argonTime argonMemory argonThreads argonKeyLen =
                 IDKey (s2b password) salt argonTime argonMemory argonThreads argonKeyLen).
Proof.
  intros Hlen. unfold VerifyPassword, HashPassword. rewrite s2b_b2s.
  set (key := IDKey (s2b password) _ _ _ _ _) in *.
  change (s2b "$argon2id$v=19$m=65536,t=3,p=4$") with
    ([] ++ byte_at 36 :: s2b "argon2id" ++ byte_at 36 :: s2b "v=19" ++ byte_at 36 :: s2b "m=65536,t=3,p=4" ++ [byte_at 36]).
  change (s2b "$") with [byte_at 36].
  repeat (rewrite <- app_assoc; cbn [Datatypes.app]).
  replace (split_all 36 _) with ([[]; s2b "argon2id"; s2b "v=19"; s2b "m=65536,t=3,p=4"; b64_encode false salt;
                                  b64_encode false key]).
  - rewrite !bool_decide_eq_true_2 by done. cbn [andb].
    assert (scan_parameters (s2b "m=65536,t=3,p=4") = Some (65536, 3, 4)) as -> by (by vm_compute).
    rewrite !b64_roundtrip. by rewrite Hlen.
  - change (byte_at 36 :: s2b "argon2id" ++ ?x) with ([] ++ byte_at 36 :: s2b "argon2id" ++ x).
    rewrite !split_all_sep; try done; try (by apply b64_free_of; right).
    by rewrite split_all_free by (by apply b64_free_of; right).
Qed.

End passwords.

Definition example_key (p s : bytes) (_ _ _ n : Z) : bytes := take (Z.to_nat n) (p ++ s ++ replicate 32 (byte_at 0)).

Lemma password_exact_witness :
  VerifyPassword example_key (HashPassword example_key (s2b "0123456789abcdef") "secret") "secret" = true /\
  VerifyPassword example_key (HashPassword example_key (s2b "0123456789abcdef") "secret") "Secret" = false.
Proof.
  split; rewrite (password_exact example_key (s2b "0123456789abcdef") "secret"); by vm_compute.
Defined.
