(* ===== verification/AuthProofs.v ===== *)
(** * Authentication: proofs

    One active session per user and one session per token hash, over every
    call of the service; what a successful login opens; the lockout of the
    login guard; refresh tokens serve once. *)

From S2P Require Import Prelude GoStrings Base64 Json Schema Store Books Identity Auth Examples IdentityProofs.

(** ** Sessions *)

(** No two sessions share a token hash, and no two active ones a user. *)
Definition sessions_apart (db : DB) : Prop := forall i j s x,
  sessions db.(app) !! i = Some s -> sessions db.(app) !! j = Some x -> i <> j -> session_conflict s x = false.

Lemma session_conflict_sym s x : session_conflict s x = session_conflict x s.
Proof.
  unfold session_conflict. f_equal; [apply bool_decide_ext; by split|].
  rewrite (andb_comm (session_active s)). f_equal. apply bool_decide_ext; by split.
Qed.

Lemma conflict_weaker s s' x :
  se_token_hash s' = se_token_hash s -> se_user_id s' = se_user_id s -> (session_active s' = true -> session_active s = true) ->
  session_conflict s x = false -> session_conflict s' x = false.
Proof.
  unfold session_conflict. intros -> -> Ha [H1 H2]%orb_false_iff. apply orb_false_iff. split; [done|].
  destruct (session_active s'), (session_active s); try done. by specialize (Ha eq_refl).
Qed.

(** A table whose rows only lost activity, with one new row free of conflicts. *)
Lemma sessions_apart_put (m : gmap string session_row) id s :
  (forall i j s x, m !! i = Some s -> m !! j = Some x -> i <> j -> session_conflict s x = false) ->
  (forall j x, m !! j = Some x -> j <> id -> session_conflict s x = false) ->
  forall i j a b, <[id := s]> m !! i = Some a -> <[id := s]> m !! j = Some b -> i <> j -> session_conflict a b = false.
Proof.
  intros Hm Hs i j a b [[-> ->]|[Hi Ha]]%lookup_insert_Some [[-> ->]|[Hj Hb]]%lookup_insert_Some Hij; [done|by eauto| |by eauto].
  rewrite session_conflict_sym. eauto.
Qed.

Definition revoke_all (now : Z) (userID : string) (m : gmap string session_row) : gmap string session_row :=
  map_imap (fun _ s => Some (if bool_decide (se_user_id s = userID) && session_active s then revoke_session now s else s)) m.

Lemma revoke_all_row now userID m i s : revoke_all now userID m !! i = Some s ->
  exists s0, m !! i = Some s0 /\ se_token_hash s = se_token_hash s0 /\ se_user_id s = se_user_id s0 /\
    (session_active s = true -> session_active s0 = true /\ se_user_id s <> userID).
Proof.
  unfold revoke_all. rewrite map_lookup_imap. destruct (m !! i) as [s0|]; [|done]. cbn. intros [= <-]. exists s0.
  split; [done|]. destruct (bool_decide_reflect (se_user_id s0 = userID)) as [E|E]; cbn; [|by repeat split].
  destruct (session_active s0) eqn:Ea; cbn; [done|]. rewrite Ea. by repeat split.
Qed.

Section sessions.
Context `{Uuids} (is_uuid : string -> bool).

Definition new_session (s : session_row) (now : Z) (db : DB) : DB :=
  put_row (R := session_row) (drawn db) s
    (tick (set_app (set_sessions (revoke_all now (se_user_id s) (sessions db.(app))) db.(app)) db)).

Lemma CreateSession_Ok t userID hash audience expires db u db' :
  CreateSession t userID hash audience expires db = Ok (u, db') ->
  user_is_active userID db = true /\
  db' = new_session (mk_session_row userID hash audience expires None) (sql_now t) db /\
  sessions db.(app) !! drawn db = None /\
  (forall j x, sessions db.(app) !! j = Some x -> se_token_hash x <> hash).
Proof.
  unfold CreateSession. intros Hrun. apply tx_bind_Ok in Hrun as (b & d & Hact & Hrun). apply gets_Ok in Hact as [<- <-].
  apply tx_bind_Ok in Hrun as ([] & d & [Hact <-]%reject_if_Ok & Hrun). apply negb_false_iff in Hact.
  apply tx_bind_Ok in Hrun as ([] & d & <-%modify_Ok & Hrun).
  apply tx_bind_Ok in Hrun as (id & d & [<- <-]%new_uuid_Ok & Hrun).
  apply insert_row_Ok in Hrun as (Hfree & Hnone & <-). cbn in Hfree, Hnone. split; [done|]. split; [done|]. split.
  - rewrite map_lookup_imap in Hfree. unfold drawn in *. cbn in Hfree. by destruct (sessions (app db) !! _).
  - intros j x Hj Heq.
    assert (Hx : exists x', revoke_all (sql_now t) userID (sessions db.(app)) !! j = Some x' /\ se_token_hash x' = hash).
    { unfold revoke_all. rewrite map_lookup_imap, Hj. cbn. eexists. split; [done|]. by destruct (_ && _). }
    destruct Hx as (x' & Hx' & Hh). pose proof (find_row_None _ _ j x' Hnone Hx') as Hc.
    apply orb_false_iff in Hc as [Hc _]. by apply bool_decide_eq_false in Hc.
Qed.

(** What a session becomes when its user opens another one. *)
Definition superseded (now : Z) (userID : string) (s : session_row) : session_row :=
  if bool_decide (se_user_id s = userID) && session_active s then revoke_session now s else s.

Lemma superseded_apart now userID hash audience expires s : se_token_hash s <> hash ->
  session_conflict (mk_session_row userID hash audience expires None) (superseded now userID s) = false.
Proof.
  intros Hne. unfold session_conflict, superseded.
  destruct (bool_decide_reflect (se_user_id s = userID)) as [E|E], (session_active s) eqn:Ea; cbn;
    rewrite ?Ea, (bool_decide_eq_false_2 (se_token_hash s = hash)) by done; cbn; try done.
  by apply bool_decide_eq_false.
Qed.

(** A user can always open a session: the ones he has give way. *)
Lemma CreateSession_goes t userID hash audience expires db :
  user_is_active userID db = true -> sessions db.(app) !! drawn db = None ->
  (forall j x, sessions db.(app) !! j = Some x -> se_token_hash x <> hash) ->
  CreateSession t userID hash audience expires db =
    Ok ((), new_session (mk_session_row userID hash audience expires None) (sql_now t) db).
Proof.
  intros Hact Hfree Hhash. unfold CreateSession. rewrite gets_skip, Hact. cbn [negb]. rewrite reject_skip by done.
  tx_do tt; [by apply modify_Ok|]. tx_do (drawn db); [by apply new_uuid_Ok|].
  apply insert_row_Ok. split; [|split; [|done]].
  - cbn. by rewrite map_lookup_imap, Hfree.
  - destruct (find_row _ _) as [[j x]|] eqn:E; [|done]. exfalso.
    apply find_row_Some in E as [Hx Hc]. cbn in Hx. rewrite map_lookup_imap in Hx.
    destruct (sessions (app db) !! j) as [x0|] eqn:Hj; [|done]. cbn in Hx. injection Hx as <-.
    pose proof (superseded_apart (sql_now t) userID hash audience expires x0 (Hhash j x0 Hj)) as Ha.
    unfold superseded in Ha. congruence.
Qed.

Lemma CreateSession_apart t userID hash audience expires : tx_keeps sessions_apart (CreateSession t userID hash audience expires).
Proof.
  intros db u db' (_ & -> & _ & Hhash)%CreateSession_Ok HP. unfold sessions_apart. cbn. apply sessions_apart_put.
  - intros i j s x (s0 & Hs & E1 & E2 & E3)%revoke_all_row (x0 & Hx & F1 & F2 & F3)%revoke_all_row Hij.
    apply (conflict_weaker s0); [done|done|by intros Ha; apply E3|]. rewrite session_conflict_sym.
    apply (conflict_weaker x0); [done|done|by intros Ha; apply F3|]. rewrite session_conflict_sym. by apply (HP i j).
  - intros j x (x0 & Hx & F1 & F2 & F3)%revoke_all_row _. unfold session_conflict. cbn.
    rewrite bool_decide_eq_false_2 by (rewrite F1; by eapply Hhash). cbn.
    destruct (session_active x); [|done]. cbn. apply bool_decide_eq_false. by apply F3.
Qed.

Lemma RotateSession_Ok t old new audience expires db userID db' :
  RotateSession t old new audience expires db = Ok (userID, db') -> exists id s,
  sessions db.(app) !! id = Some s /\ se_token_hash s = old /\ session_alive (sql_now t) s = true /\
  se_audience s = audience /\ user_is_active userID db = true /\ userID = se_user_id s /\
  (forall j x, sessions db.(app) !! j = Some x -> j <> id -> se_token_hash x <> new) /\
  db' = put_row (R := session_row) id (renew_session new expires s) db.
Proof.
  unfold RotateSession. intros Hrun. apply tx_bind_Ok in Hrun as (o & d & Hfind & Hrun).
  apply tx_bind_Ok in Hfind as (? & ? & [<- <-]%gets_Ok & [<- <-]%gets_Ok).
  apply tx_bind_Ok in Hrun as ([id s] & d & [Hfind <-]%found_Ok & Hrun). apply find_row_Some in Hfind as [Hs Hp].
  apply tx_bind_Ok in Hrun as (o & d & [<- <-]%gets_Ok & Hrun).
  apply tx_bind_Ok in Hrun as ([] & d & [Hfree <-]%reject_if_Ok & Hrun).
  apply tx_bind_Ok in Hrun as (n & d & Hup & [<- <-]%tx_ret_Ok). bool_to_prop.
  exists id, s. repeat (split; [done|]). split.
  - intros j x Hj Hne Hh. apply Hfree.
    destruct (find_row _ _) as [kv|] eqn:E; [done|]. exfalso. pose proof (find_row_None _ _ j x E Hj) as Hc. cbn in Hc.
    by rewrite (bool_decide_eq_true_2 _ Hh), (bool_decide_eq_false_2 _ Hne) in Hc.
  - apply update_row_Ok in Hup as [(Hn & _)|(r & Hr & _ & <-)]; cbn in *; congruence.
Qed.

Lemma RotateSession_apart t old new audience expires : tx_keeps sessions_apart (RotateSession t old new audience expires).
Proof.
  intros db u db' (id & s & Hs & Hold & _ & _ & _ & _ & Hnew & ->)%RotateSession_Ok HP. unfold sessions_apart. cbn.
  apply sessions_apart_put; [done|]. intros j x Hj Hne. pose proof (HP id j s x Hs Hj (not_eq_sym Hne)) as Hc.
  unfold session_conflict in *. apply orb_false_iff in Hc as [_ Hc]. apply orb_false_iff. split; [|done].
  apply bool_decide_eq_false. by eapply Hnew.
Qed.

Lemma RevokeSession_Ok t hash db u db' : RevokeSession t hash db = Ok (u, db') -> exists id s,
  sessions db.(app) !! id = Some s /\ se_token_hash s = hash /\ session_active s = true /\
  db' = put_row (R := session_row) id (revoke_session (sql_now t) s) db.
Proof.
  unfold RevokeSession. intros Hrun. apply tx_bind_Ok in Hrun as (o & d & [<- <-]%gets_Ok & Hrun).
  apply tx_bind_Ok in Hrun as ([id s] & d & [Hfind <-]%found_Ok & Hrun). apply find_row_Some in Hfind as [Hs Hp].
  apply tx_bind_Ok in Hrun as (n & d & Hup & [_ <-]%tx_ret_Ok). bool_to_prop. exists id, s.
  repeat (split; [done|]). apply update_row_Ok in Hup as [(Hn & _)|(r & Hr & _ & <-)]; cbn in *; congruence.
Qed.

Lemma RevokeSession_apart t hash : tx_keeps sessions_apart (RevokeSession t hash).
Proof.
  intros db u db' (id & s & Hs & _ & _ & ->)%RevokeSession_Ok HP. unfold sessions_apart. cbn.
  apply sessions_apart_put; [done|]. intros j x Hj Hne. apply (conflict_weaker s); [done..|]. by eapply HP; [| |apply not_eq_sym].
Qed.

Lemma UpdatePasswordHash_apart userID hash : tx_keeps sessions_apart (UpdatePasswordHash userID hash).
Proof.
  unfold UpdatePasswordHash. intros db u db' Hrun HP.
  apply tx_bind_Ok in Hrun as (o & d & [<- <-]%gets_Ok & Hrun).
  apply tx_bind_Ok in Hrun as ([] & d & [_ <-]%reject_if_Ok & Hrun).
  apply tx_bind_Ok in Hrun as ([] & d & <-%modify_Ok & Hrun). apply modify_Ok in Hrun as <-.
  intros i j s x [Hs _]%map_lookup_filter_Some [Hx _]%map_lookup_filter_Some. by apply HP.
Qed.

End sessions.

(** ** One active session, over every call *)

Lemma same_sessions db db' : sessions db'.(app) = sessions db.(app) -> sessions_apart db -> sessions_apart db'.
Proof. unfold sessions_apart. by intros ->. Qed.

Section calls.
Context `{Uuids}.
Context (hmac_sha256 : bytes -> bytes -> bytes) (sha256_hex : bytes -> string).
Context (IDKey : bytes -> bytes -> Z -> Z -> Z -> Z -> bytes).
Context (Marshal : json -> bytes).
Abbreviation keep := (tx_keeps sessions_apart).

Ltac elsewhere := first
  [ apply tx_keeps_new_uuid | apply tx_keeps_modify | apply tx_keeps_insert_row | apply tx_keeps_insert_unless
  | apply tx_keeps_update_row ]; intros; by eapply same_sessions.

Lemma open_wallets_apart now userID cs : keep (open_wallets now userID cs).
Proof.
  induction cs as [|c cs IH]; cbn [open_wallets]; keeps; [elsewhere|].
  intros db b db' [(_ & <- & _)|(_ & _ & _ & <-)]%insert_wallet_Ok; [done|]. by apply same_sessions.
Qed.

Lemma taken_if_unique_keeps P m : tx_keeps P m -> tx_keeps P (taken_if_unique m).
Proof. intros Hm db u db' Hrun. apply (Hm db u). unfold taken_if_unique in Hrun. by destruct (m db) as [[[] d]|[]]. Qed.

Lemma insert_user_apart id name shown now : keep (insert_user id name shown now).
Proof.
  unfold insert_user. keeps; [|elsewhere]. intros db n db'. unfold next_public_id. case_match; [done|].
  intros [= _ <-]. by apply same_sessions.
Qed.

Lemma insert_role_apart userID role : keep (insert_role userID role).
Proof. intros db u db'. unfold insert_role. case_match; [done|]. intros [= _ <-]. by apply same_sessions. Qed.

Lemma service_rooms_apart now userID : keep (ensure_user_customer_service_rooms now userID).
Proof. unfold ensure_user_customer_service_rooms, insert_service_room, join_service_rooms. keeps; elsewhere. Qed.

#[local] Hint Resolve open_wallets_apart taken_if_unique_keeps insert_user_apart insert_role_apart service_rooms_apart
  CreateSession_apart RotateSession_apart RevokeSession_apart UpdatePasswordHash_apart : keeps.

Lemma RegisterPasswordUser_apart t name shown hash role code : keep (RegisterPasswordUser t name shown hash role code).
Proof.
  unfold RegisterPasswordUser, insert_identity, select_where. keeps; try elsewhere.
  apply taken_if_unique_keeps. elsewhere.
Qed.

Lemma RecordLoginFailure_apart name now m w l : keep (RecordLoginFailure name now m w l).
Proof. unfold RecordLoginFailure, select_id. keeps; elsewhere. Qed.

Lemma ClearLoginFailures_apart name : keep (ClearLoginFailures name).
Proof. unfold ClearLoginFailures. elsewhere. Qed.

Lemma UpdateSecondaryPasswordHash_apart userID hash : keep (UpdateSecondaryPasswordHash userID hash).
Proof. unfold UpdateSecondaryPasswordHash. keeps. elsewhere. Qed.

Lemma identity_reads (P : DB -> Prop) :
  (forall name, tx_keeps P (FindPasswordCredentials name)) /\ (forall userID, tx_keeps P (UserRoles userID)) /\
  (forall userID, tx_keeps P (PublicUserID userID)) /\ (forall userID, tx_keeps P (PasswordHashByUserID userID)) /\
  (forall userID, tx_keeps P (SecondaryPasswordHashByUserID userID)) /\
  (forall name now, tx_keeps P (LoginBlocked name now)) /\ (forall t h, tx_keeps P (SessionID t h)).
Proof.
  unfold FindPasswordCredentials, UserRoles, PublicUserID, PasswordHashByUserID, SecondaryPasswordHashByUserID,
    LoginBlocked, SessionID, live_session, select_where, select_id. repeat split; intros; keeps.
Qed.

Ltac read := match goal with |- tx_keeps ?P _ => solve [apply (identity_reads P)] end.

#[local] Hint Extern 1 (tx_keeps _ (FindPasswordCredentials _)) => read : keeps.
#[local] Hint Extern 1 (tx_keeps _ (UserRoles _)) => read : keeps.
#[local] Hint Extern 1 (tx_keeps _ (PublicUserID _)) => read : keeps.
#[local] Hint Extern 1 (tx_keeps _ (PasswordHashByUserID _)) => read : keeps.
#[local] Hint Extern 1 (tx_keeps _ (SecondaryPasswordHashByUserID _)) => read : keeps.
#[local] Hint Extern 1 (tx_keeps _ (LoginBlocked _ _)) => read : keeps.
#[local] Hint Extern 1 (tx_keeps _ (SessionID _ _)) => read : keeps.
#[local] Hint Resolve RegisterPasswordUser_apart RecordLoginFailure_apart ClearLoginFailures_apart
  UpdateSecondaryPasswordHash_apart : keeps.

Lemma attach_apart s t raw result audience :
  svc_keeps sessions_apart (attachRefreshToken hmac_sha256 sha256_hex Marshal s t raw result audience).
Proof. unfold attachRefreshToken, sessionAccessToken. keeps. Qed.

#[local] Hint Resolve attach_apart : keeps.

Lemma login_apart s t raw name password audience :
  svc_keeps sessions_apart (login hmac_sha256 sha256_hex IDKey Marshal s t raw name password audience).
Proof. unfold login, login_admitted, login_failed, recordLoginFailure, clear_failures, bare_login. keeps. Qed.

Lemma Register_apart s t raw salt name shown password code :
  svc_keeps sessions_apart (Register hmac_sha256 sha256_hex IDKey Marshal s t raw salt name shown password code).
Proof. unfold Register, bare_login. keeps. Qed.

Lemma refresh_apart s t raw token audience :
  svc_keeps sessions_apart (refresh hmac_sha256 sha256_hex Marshal s t raw token audience).
Proof. unfold refresh, sessionAccessToken. keeps. Qed.

Lemma Logout_apart s t token : svc_keeps sessions_apart (Logout sha256_hex s t token).
Proof. unfold Logout. keeps. Qed.

Lemma ChangePassword_apart salt userID old new : svc_keeps sessions_apart (ChangePassword IDKey salt userID old new).
Proof. unfold ChangePassword. keeps. Qed.

Lemma SetSecondaryPassword_apart salt userID new : svc_keeps sessions_apart (SetSecondaryPassword IDKey salt userID new).
Proof. unfold SetSecondaryPassword. keeps. Qed.

Lemma ChangeSecondaryPassword_apart salt userID old new :
  svc_keeps sessions_apart (ChangeSecondaryPassword IDKey salt userID old new).
Proof. unfold ChangeSecondaryPassword, VerifySecondaryPassword. keeps. Qed.

(** A call of the authentication service, successful or not. *)
Inductive auth_call (db db' : DB) : Prop :=
| as_login s t raw name password audience r :
    login hmac_sha256 sha256_hex IDKey Marshal s t raw name password audience db = (r, db') -> auth_call db db'
| as_register s t raw salt name shown password code r :
    Register hmac_sha256 sha256_hex IDKey Marshal s t raw salt name shown password code db = (r, db') -> auth_call db db'
| as_refresh s t raw token audience r :
    refresh hmac_sha256 sha256_hex Marshal s t raw token audience db = (r, db') -> auth_call db db'
| as_logout s t token r : Logout sha256_hex s t token db = (r, db') -> auth_call db db'
| as_password salt userID old new r : ChangePassword IDKey salt userID old new db = (r, db') -> auth_call db db'
| as_secondary salt userID new r : SetSecondaryPassword IDKey salt userID new db = (r, db') -> auth_call db db'
| as_new_secondary salt userID old new r :
    ChangeSecondaryPassword IDKey salt userID old new db = (r, db') -> auth_call db db'.

(** A call, or anything that leaves the sessions alone. *)
Definition auth_step (db db' : DB) : Prop := auth_call db db' \/ sessions db'.(app) = sessions db.(app).

Lemma auth_step_apart db db' : auth_step db db' -> sessions_apart db -> sessions_apart db'.
Proof.
  intros [Hcall|Hs]; [|by apply same_sessions].
  destruct Hcall; [eapply login_apart|eapply Register_apart|eapply refresh_apart|eapply Logout_apart|
    eapply ChangePassword_apart|eapply SetSecondaryPassword_apart|eapply ChangeSecondaryPassword_apart]; done.
Qed.

(** C13: whatever sequence of logins, registrations, refreshes, logouts and
    password changes runs, successful or not, a user never has two active
    sessions and no two sessions answer to the same refresh token; and an
    active user can open a session at any time, for a token and an identifier
    that are not in use: the session he has does not stand in the way but ends
    then, and the sessions of the others stay as they are. *)
Theorem one_active_session db db' :
  sessions db.(app) = ∅ -> rtc auth_step db db' ->
  (forall i j s x, sessions db'.(app) !! i = Some s -> sessions db'.(app) !! j = Some x -> i <> j ->
     se_token_hash s <> se_token_hash x /\
     (se_user_id s = se_user_id x -> se_revoked_at s <> None \/ se_revoked_at x <> None)) /\
  forall t userID hash audience expires,
    user_is_active userID db' = true -> sessions db'.(app) !! drawn db' = None ->
    (forall j x, sessions db'.(app) !! j = Some x -> se_token_hash x <> hash) ->
    exists db2, CreateSession t userID hash audience expires db' = Ok ((), db2) /\
      sessions db2.(app) !! drawn db' = Some (mk_session_row userID hash audience expires None) /\
      forall i s, sessions db'.(app) !! i = Some s ->
        sessions db2.(app) !! i = Some (superseded (sql_now t) userID s).
Proof.
  intros Hempty Hsteps. split; [intros i j s x Hs Hx Hij|].
  2: { intros t userID hash audience expires Hact Hfree Hhash. eexists.
       split; [by apply CreateSession_goes|]. cbn. split; [apply lookup_insert_eq|]. intros i s Hs.
       rewrite lookup_insert_ne by congruence. unfold revoke_all. by rewrite map_lookup_imap, Hs. }
  assert (Hap : sessions_apart db').
  { assert (Hdb : sessions_apart db) by (intros ????; by rewrite Hempty, lookup_empty).
    clear Hempty Hs Hx. induction Hsteps as [|a b c Hab _ IH]; [done|]. by apply IH, (auth_step_apart a). }
  pose proof (Hap i j s x Hs Hx Hij) as Hc. unfold session_conflict, session_active in Hc.
  apply orb_false_iff in Hc as [Hh Hu]. apply bool_decide_eq_false in Hh. split; [congruence|].
  intros Heq. apply andb_false_iff in Hu as [Hu|Hu]; [|by apply bool_decide_eq_false in Hu; congruence].
  apply andb_false_iff in Hu as [Hu|Hu]; apply bool_decide_eq_false in Hu; [by left|by right].
Qed.

End calls.

(** ** What a login opens *)

Section opened.
Context `{Uuids} (is_uuid : string -> bool).
Context (hmac_sha256 : bytes -> bytes -> bytes) (sha256_hex : bytes -> string).
Context (IDKey : bytes -> bytes -> Z -> Z -> Z -> Z -> bytes).
Context (Marshal : json -> bytes).
Abbreviation hash_of := (hashRefreshToken sha256_hex).

Lemma svc_lift_inv {A} (m : res A) db r db' : svc_lift m db = (r, db') -> r = m /\ db' = db.
Proof. by intros [= <- <-]. Qed.

Lemma svc_reject_go {A} b e (k : Svc A) db a db' : (svc_reject b e;; k) db = (Ok a, db') -> b = false /\ k db = (Ok a, db').
Proof. by destruct b. Qed.

Lemma svc_bind_Ok {A B} (m : Svc A) (f : A -> Svc B) db b db'' : (m ≫= f) db = (Ok b, db'') ->
  exists a db', m db = (Ok a, db') /\ f a db' = (Ok b, db'').
Proof. by intros [?|(? & _ & ?)]%svc_bind_inv. Qed.

Lemma atomically_Ok {A} (m : Tx A) db a db' : atomically m db = (Ok a, db') -> m db = Ok (a, db').
Proof. intros [(? & [= <-] & Hm)|(? & ? & _)]%atomically_cases; done. Qed.

(** The session a user has just been given is found by its hash alone. *)
Lemma SessionID_new t s db id d :
  (forall j x, sessions db.(app) !! j = Some x -> se_token_hash x <> se_token_hash s) ->
  SessionID t (se_token_hash s) (new_session s (sql_now t) db) = Ok (id, d) ->
  id = drawn db /\ d = new_session s (sql_now t) db /\ session_alive (sql_now t) s = true.
Proof.
  intros Hfresh Hrun. unfold SessionID in Hrun. apply tx_bind_Ok in Hrun as (o & d' & [<- <-]%gets_Ok & Hrun).
  apply tx_bind_Ok in Hrun as ([k x] & d' & [Hfind <-]%found_Ok & [<- <-]%tx_ret_Ok).
  apply find_row_Some in Hfind as [Hk Hp]. cbn in Hk. bool_to_prop.
  apply lookup_insert_Some in Hk as [[<- <-]|[_ (x0 & Hx & Hh & _)%revoke_all_row]]; [done|].
  exfalso. apply (Hfresh _ _ Hx). congruence.
Qed.

(** The state a successful [attachRefreshToken] leaves and the tokens it hands
    out, when sessions are wired. *)
Lemma attach_Ok s t raw res0 audience db r db' :
  sa_sessions s = true ->
  attachRefreshToken hmac_sha256 sha256_hex Marshal s t raw res0 audience db = (Ok r, db') ->
  let session := mk_session_row (au_UserID r) (hash_of (au_RefreshToken r)) audience (sessionExpiresAt s (go_now t)) None in
  au_UserID r = au_UserID res0 /\ au_Roles r = au_Roles res0 /\ au_PublicUserID r = au_PublicUserID res0 /\
  user_is_active (au_UserID r) db = true /\
  db' = new_session session (sql_now t) db /\ sessions db.(app) !! drawn db = None /\
  session_alive (sql_now t) session = true /\
  IssueAccessToken hmac_sha256 Marshal (sa_secret s) (au_UserID r) (au_Roles r) (go_now t) (accessLifetime s) (drawn db)
    = Ok (au_AccessToken r).
Proof.
  unfold attachRefreshToken, sessionAccessToken. intros Hs. rewrite Hs. cbn [negb]. intros [_ Hrun]%svc_reject_go.
  apply svc_bind_Ok in Hrun as (token & d & [Ht ->]%svc_lift_inv & Hrun).
  apply svc_bind_Ok in Hrun as ([] & d & Hc%atomically_Ok & Hrun).
  destruct (CreateSession_Ok _ _ _ _ _ _ _ _ Hc) as (Hact & -> & Hfree & Hfresh).
  apply svc_bind_Ok in Hrun as (access & d & Ha & Hrun). injection Hrun as <- <-.
  apply svc_bind_Ok in Ha as (sid & d' & Hsid%atomically_Ok & [Hi ->]%svc_lift_inv).
  destruct (SessionID_new t (mk_session_row (au_UserID res0) (hash_of token) audience (sessionExpiresAt s (go_now t)) None)
    db sid d' Hfresh Hsid) as (-> & -> & Halive). cbn. by repeat split.
Qed.

Definition roles_of (userID : string) (db : DB) : list string :=
  merge_sort str_le (map snd (List.filter (fun r => bool_decide (fst r = userID)) (user_roles db.(app)))).

(** The tables a login reads for the credentials, which the guard leaves
    alone. *)
Definition same_credentials (db db' : DB) : Prop :=
  auth_identities db'.(app) = auth_identities db.(app) /\ users db'.(app) = users db.(app) /\
  user_roles db'.(app) = user_roles db.(app) /\ sessions db'.(app) = sessions db.(app) /\
  uuid_count db'.(app) = uuid_count db.(app).

Lemma FindPasswordCredentials_Ok name db c db' : FindPasswordCredentials name db = Ok (c, db') ->
  db' = db /\ exists id a u, auth_identities db.(app) !! id = Some a /\ ai_provider a = "password"%string /\
    ai_subject a = name /\ ai_user_id a = pc_UserID c /\ ai_password_hash a = Some (pc_PasswordHash c) /\
    users db.(app) !! pc_UserID c = Some u /\ u_status u = pc_Status c.
Proof.
  unfold FindPasswordCredentials. intros Hrun. apply tx_bind_Ok in Hrun as (o & d & [<- <-]%gets_Ok & Hrun).
  apply tx_bind_Ok in Hrun as ([id a] & d & [Hfind <-]%found_Ok & Hrun). apply find_row_Some in Hfind as [Ha Hp].
  apply tx_bind_Ok in Hrun as (o & d & [<- <-]%gets_Ok & Hrun).
  apply tx_bind_Ok in Hrun as (u & d & [Hu <-]%found_Ok & Hrun).
  apply tx_bind_Ok in Hrun as (hash & d & [Hh <-]%found_Ok & Hrun). apply tx_ret_Ok in Hrun as [<- <-].
  split; [done|]. unfold password_of_subject in Hp. cbn in *. bool_to_prop. by exists id, a, u.
Qed.

Lemma login_admitted_Ok s t name db u db' : login_admitted s t name db = (Ok u, db') -> db' = db.
Proof.
  unfold login_admitted. destruct (sa_guard s) as [p|]; [|by intros [= _ <-]]. intros [_ Hrun]%svc_reject_go.
  apply svc_bind_Ok in Hrun as (b & d & Hb%atomically_Ok & Hrun). unfold LoginBlocked in Hb.
  apply tx_bind_Ok in Hb as (o & d' & [_ <-]%gets_Ok & [_ <-]%tx_ret_Ok). destruct b; [done|]. by injection Hrun as _ <-.
Qed.

Lemma clear_failures_Ok s name db u db' : clear_failures s name db = (Ok u, db') -> same_credentials db db'.
Proof.
  unfold clear_failures. destruct (sa_guard s); [|by intros [= _ <-]].
  intros Hrun%atomically_Ok. apply modify_Ok in Hrun as <-. by repeat split.
Qed.

Lemma revoke_all_other now userID m i s : se_user_id s <> userID -> revoke_all now userID m !! i = Some s <-> m !! i = Some s.
Proof.
  intros Hne. unfold revoke_all. rewrite map_lookup_imap. destruct (m !! i) as [s0|]; [|done]. cbn.
  destruct (bool_decide_reflect (se_user_id s0 = userID)) as [E|E]; cbn; [|done].
  split; intros [= <-]; [|done]. exfalso. apply Hne. by destruct (session_active s0).
Qed.

Lemma new_session_rows s now db :
  sessions db.(app) !! drawn db = None -> session_active s = true ->
  let m := sessions (new_session s now db).(app) in
  m !! drawn db = Some s /\
  (forall i s', m !! i = Some s' -> se_user_id s' = se_user_id s -> se_revoked_at s' = None -> i = drawn db /\ s' = s) /\
  (forall i s', se_user_id s' <> se_user_id s -> m !! i = Some s' <-> sessions db.(app) !! i = Some s').
Proof.
  intros Hfree Hact. cbn. split; [apply lookup_insert_eq|]. split.
  - intros i s' [[<- <-]|[_ (s0 & _ & _ & _ & Hn)%revoke_all_row]]%lookup_insert_Some Hu Hr; [done|].
    destruct Hn as [_ Hne]; [|done]. unfold session_active. by rewrite Hr.
  - intros i s' Hne. destruct (decide (i = drawn db)) as [->|Hi].
    + rewrite lookup_insert_eq, Hfree. split; [intros [= <-]|]; done.
    + rewrite lookup_insert_ne by done. by apply revoke_all_other.
Qed.

Lemma ValidateSession_new s t db claims :
  session_alive (sql_now t) s = true -> user_is_active (se_user_id s) db = true ->
  is_uuid (drawn db) = true -> is_uuid (se_user_id s) = true ->
  at_SessionID claims = drawn db -> at_Subject claims = se_user_id s ->
  ValidateSession is_uuid t claims (new_session s (sql_now t) db) = Ok ((), new_session s (sql_now t) db).
Proof.
  intros Ha Hu H1 H2 E1 E2. unfold ValidateSession. rewrite reject_skip by (by rewrite E1, E2, H1, H2).
  unfold select_id. rewrite gets_skip, gets_skip, E1, E2.
  assert (tbl (R := session_row) (app (new_session s (sql_now t) db)) !! drawn db = Some s) as -> by apply lookup_insert_eq.
  unfold reject_if. cbn [from_option]. rewrite bool_decide_eq_true_2, Ha by done.
  assert (user_is_active (se_user_id s) (new_session s (sql_now t) db) = user_is_active (se_user_id s) db) as -> by done.
  by rewrite Hu.
Qed.

Lemma login_Ok s t raw loginName password audience db r db' :
  sa_sessions s = true ->
  login hmac_sha256 sha256_hex IDKey Marshal s t raw loginName password audience db = (Ok r, db') ->
  exists c d, FindPasswordCredentials (TrimSpace loginName) db = Ok (c, db) /\
    VerifyPassword IDKey (pc_PasswordHash c) password = true /\ pc_Status c = "active"%string /\
    same_credentials db d /\ au_UserID r = pc_UserID c /\ au_Roles r = roles_of (pc_UserID c) d /\
    audienceAllowsRoles audience (au_Roles r) = true /\ PublicUserID (pc_UserID c) d = Ok (au_PublicUserID r, d) /\
    exists res0, au_UserID r = au_UserID res0 /\
      attachRefreshToken hmac_sha256 sha256_hex Marshal s t raw res0 audience d = (Ok r, db').
Proof.
  intros Hs Hrun. unfold login in Hrun. apply svc_reject_go in Hrun as [_ Hrun]. apply svc_reject_go in Hrun as [_ Hrun].
  apply svc_bind_Ok in Hrun as ([] & d & ->%login_admitted_Ok & Hrun).
  apply svc_bind_Ok in Hrun as (cr & d & Hc & Hrun). unfold try in Hc.
  destruct (atomically _ db) as [x d0] eqn:Ex. injection Hc as <- <-.
  assert (Hfail : forall n e d, login_failed s t n d <> (Ok e, db')).
  { intros n e d Hf. unfold login_failed in Hf. apply svc_bind_Ok in Hf as (b & d' & _ & Hf). done. }
  destruct x as [c|e]; [|case_bool_decide; [by apply Hfail in Hrun|done]].
  apply atomically_Ok in Ex. destruct (FindPasswordCredentials_Ok _ _ _ _ Ex) as [-> _].
  destruct (VerifyPassword _ _ _) eqn:Ev; cbn [negb] in Hrun; [|by apply Hfail in Hrun].
  apply svc_bind_Ok in Hrun as ([] & d & Hclear%clear_failures_Ok & Hrun). apply svc_reject_go in Hrun as [Hst Hrun].
  apply svc_bind_Ok in Hrun as (roles & d' & Hroles%atomically_Ok & Hrun). apply gets_Ok in Hroles as [<- <-].
  apply svc_reject_go in Hrun as [Haud Hrun].
  apply svc_bind_Ok in Hrun as (public & d' & Hpub%atomically_Ok & Hrun).
  assert (d' = d) as ->.
  { unfold PublicUserID in Hpub. apply tx_bind_Ok in Hpub as (o & d1 & [_ <-]%gets_Ok & Hpub).
    by apply tx_bind_Ok in Hpub as (u & d2 & [_ <-]%found_Ok & [_ <-]%tx_ret_Ok). }
  apply svc_bind_Ok in Hrun as (res0 & d' & [Hbare ->]%svc_lift_inv & Hrun).
  unfold bare_login in Hbare. symmetry in Hbare. apply res_bind_Ok in Hbare as (token & _ & [= <-]).
  destruct (attach_Ok _ _ _ _ _ _ _ _ Hs Hrun) as (E1 & E2 & E3 & _). cbn in E1, E2, E3.
  bool_to_prop. exists c, d. rewrite E1, E2, E3. repeat (split; [done|]). eexists. split; [|exact Hrun]. done.
Qed.

(** A successful login was made with the user's password, for an active
    account whose roles fit the door it came through; it leaves the user with
    exactly one active session, the new one, every other session of the table
    as it was; and the access token it returns names that session, which the
    server then accepts. *)
Theorem login_opens_session s t raw loginName password audience db r db' :
  sa_sessions s = true ->
  login hmac_sha256 sha256_hex IDKey Marshal s t raw loginName password audience db = (Ok r, db') ->
  let session := mk_session_row (au_UserID r) (hash_of (au_RefreshToken r)) audience (sessionExpiresAt s (go_now t)) None in
  (exists id a u hash, auth_identities db.(app) !! id = Some a /\ ai_provider a = "password"%string /\
     ai_subject a = TrimSpace loginName /\ ai_user_id a = au_UserID r /\ ai_password_hash a = Some hash /\
     VerifyPassword IDKey hash password = true /\ users db.(app) !! au_UserID r = Some u /\
     u_status u = "active"%string /\ u_public_id u = au_PublicUserID r) /\
  au_Roles r = roles_of (au_UserID r) db /\ audienceAllowsRoles audience (au_Roles r) = true /\
  (forall i s', sessions db'.(app) !! i = Some s' -> se_user_id s' = au_UserID r -> se_revoked_at s' = None ->
     i = drawn db /\ s' = session) /\
  sessions db'.(app) !! drawn db = Some session /\
  (forall i s', se_user_id s' <> au_UserID r -> sessions db'.(app) !! i = Some s' <-> sessions db.(app) !! i = Some s') /\
  IssueAccessToken hmac_sha256 Marshal (sa_secret s) (au_UserID r) (au_Roles r) (go_now t) (accessLifetime s) (drawn db)
    = Ok (au_AccessToken r) /\
  (is_uuid (drawn db) = true -> is_uuid (au_UserID r) = true -> forall claims,
     at_SessionID claims = drawn db -> at_Subject claims = au_UserID r ->
     ValidateSession is_uuid t claims db' = Ok ((), db')).
Proof.
  intros Hs Hrun session.
  destruct (login_Ok _ _ _ _ _ _ _ _ _ Hs Hrun) as (c & d & Hc & Hv & Hst & Hsame & Eu & Er & Haud & Hpub & res0 & _ & Ha).
  destruct (attach_Ok _ _ _ _ _ _ _ _ Hs Ha) as (_ & _ & _ & Hact & -> & Hfree & Halive & Hissue).
  destruct Hsame as (Eid & Eus & Ero & Ese & Eco).
  assert (Ed : drawn d = drawn db) by (unfold drawn; by rewrite Eco).
  destruct (new_session_rows session (sql_now t) d Hfree) as (Hrow & Hone & Hother); [done|].
  rewrite Ed in *. rewrite Ese in *.
  destruct (FindPasswordCredentials_Ok _ _ _ _ Hc) as (_ & id & a & u & Ha1 & Ha2 & Ha3 & Ha4 & Ha5 & Hu & Hust).
  split.
  { exists id, a, u, (pc_PasswordHash c). rewrite Eu. repeat (split; [done|]). split; [congruence|].
    unfold PublicUserID in Hpub. apply tx_bind_Ok in Hpub as (o & d1 & [<- <-]%gets_Ok & Hpub).
    apply tx_bind_Ok in Hpub as (u' & d2 & [Hu' <-]%found_Ok & [<- _]%tx_ret_Ok). cbn in Hu'. congruence. }
  split; [rewrite Er, Eu; unfold roles_of; by rewrite Ero|]. split; [done|]. split; [by apply Hone|]. split; [done|].
  split; [by apply Hother|]. split; [done|]. intros H1 H2 claims E1 E2.
  apply (ValidateSession_new session t d claims); by rewrite ?Ed.
Qed.

(** ** Refresh tokens *)

Lemma rotate_refused t db token new audience expires :
  (forall j x, sessions db.(app) !! j = Some x -> se_token_hash x <> token) ->
  RotateSession t token new audience expires db = Err ErrIdentityNotFound.
Proof.
  intros Hno. unfold RotateSession, mbind, Tx_bind, select_where, gets. cbn.
  destruct (find_row _ _) as [[id s]|] eqn:E; [|done]. exfalso.
  apply find_row_Some in E as [Hs Hp]. bool_to_prop. by eapply Hno.
Qed.

Lemma refresh_Ok s t raw token audience db r db' :
  refresh hmac_sha256 sha256_hex Marshal s t raw token audience db = (Ok r, db') ->
  RotateSession t (hash_of token) (hash_of (au_RefreshToken r)) audience (sessionExpiresAt s (go_now t)) db
    = Ok (au_UserID r, db') /\
  sa_sessions s = true /\ audienceAllowsRoles audience (au_Roles r) = true /\ au_Roles r = roles_of (au_UserID r) db'.
Proof.
  unfold refresh. intros [Hconf Hrun]%svc_reject_go. bool_to_prop.
  apply svc_bind_Ok in Hrun as (new & d & [Hnew ->]%svc_lift_inv & Hrun).
  apply svc_bind_Ok in Hrun as (userID & d & Hrot & Hrun). unfold or_error in Hrot.
  destruct (atomically _ db) as [[u|e] d0] eqn:E; [|done]. injection Hrot as -> ->. apply atomically_Ok in E.
  apply svc_bind_Ok in Hrun as (roles & d' & Hroles%atomically_Ok & Hrun). apply gets_Ok in Hroles as [<- <-].
  destruct (audienceAllowsRoles audience _) eqn:Ha; cbn [negb] in Hrun.
  - apply svc_bind_Ok in Hrun as (public & d' & Hpub%atomically_Ok & Hrun).
    apply svc_bind_Ok in Hrun as (access & d2 & Hacc & [= <- <-]). cbn.
    assert (d' = d) as ->.
    { unfold PublicUserID in Hpub. apply tx_bind_Ok in Hpub as (o & d1 & [_ <-]%gets_Ok & Hpub).
      by apply tx_bind_Ok in Hpub as (v & d3 & [_ <-]%found_Ok & [_ <-]%tx_ret_Ok). }
    unfold sessionAccessToken in Hacc. rewrite H0 in Hacc. apply svc_bind_Ok in Hacc as (sid & d' & Hsid%atomically_Ok & Hacc).
    apply svc_lift_inv in Hacc as [_ ->].
    assert (d' = d) as ->.
    { unfold SessionID in Hsid. apply tx_bind_Ok in Hsid as (o & d1 & [_ <-]%gets_Ok & Hsid).
      by apply tx_bind_Ok in Hsid as (v & d3 & [_ <-]%found_Ok & [_ <-]%tx_ret_Ok). }
    done.
  - by apply svc_bind_Ok in Hrun as (? & ? & _ & ?).
Qed.

(** A refresh token serves once: a successful refresh renews the one live
    session that answers to it, for the same user, through the same door and
    with roles that fit it, and puts a new token in its place; from then on the
    old token neither refreshes nor logs out. *)
Theorem refresh_token_serves_once s t raw token audience db r db' :
  sessions_apart db ->
  refresh hmac_sha256 sha256_hex Marshal s t raw token audience db = (Ok r, db') ->
  hash_of (au_RefreshToken r) <> hash_of token -> token <> ""%string ->
  (exists id old, sessions db.(app) !! id = Some old /\ se_token_hash old = hash_of token /\
     session_alive (sql_now t) old = true /\ se_audience old = audience /\ se_user_id old = au_UserID r /\
     user_is_active (au_UserID r) db = true /\ audienceAllowsRoles audience (au_Roles r) = true /\
     sessions db'.(app) = <[id := mk_session_row (au_UserID r) (hash_of (au_RefreshToken r)) audience
                                    (sessionExpiresAt s (go_now t)) None]> (sessions db.(app))) /\
  (forall t' raw' audience',
     refresh hmac_sha256 sha256_hex Marshal s t' (Ok raw') token audience' db' = (Err ErrInvalidRefreshToken, db')) /\
  (forall t', Logout sha256_hex s t' token db' = (Err ErrInvalidRefreshToken, db')).
Proof.
  intros Hap Hrun Hnew Hne. destruct (refresh_Ok _ _ _ _ _ _ _ _ Hrun) as (Hrot & Hs & Haud & _).
  destruct (RotateSession_Ok _ _ _ _ _ _ _ _ Hrot) as (id & old & Hold & Hh & Halive & Ha & Hact & Hu & _ & Edb).
  assert (Hgone : forall j x, sessions db'.(app) !! j = Some x -> se_token_hash x <> hash_of token).
  { intros j x. rewrite Edb. cbn. intros [[<- <-]|[Hj Hx]]%lookup_insert_Some; [done|]. intros Heq.
    pose proof (Hap _ _ _ _ Hold Hx Hj) as Hc. apply orb_false_iff in Hc as [Hc _].
    apply bool_decide_eq_false in Hc. congruence. }
  split; [|split].
  - exists id, old. repeat (split; [done|]). rewrite Edb. cbn. unfold renew_session. repeat f_equal; [done|done|].
    unfold session_alive, session_active in Halive. by bool_to_prop.
  - intros t' raw' audience'. unfold refresh in Hrun. apply svc_reject_go in Hrun as [Hconf _].
    unfold refresh. rewrite Hconf. unfold svc_reject, mbind, Svc_bind, mret, Svc_ret. cbn.
    unfold or_error, atomically. by rewrite rotate_refused.
  - intros t'. unfold Logout. rewrite Hs, bool_decide_eq_false_2 by done. unfold svc_reject, mbind, Svc_bind, mret, Svc_ret.
    cbn. unfold or_error, atomically, RevokeSession, mbind, Tx_bind, select_where, gets.
    destruct (find_row _ _) as [[k x]|] eqn:E; [|done]. apply find_row_Some in E as [Hk Hp]. bool_to_prop.
    by destruct (Hgone _ _ Hk).
Qed.

(** ** The login guard *)

(** No account of this name, or not its password. *)
Definition wrong (loginName password : string) (db : DB) : Prop :=
  match FindPasswordCredentials (TrimSpace loginName) db with
  | Ok (c, _) => VerifyPassword IDKey (pc_PasswordHash c) password = false
  | Err e => e = ErrIdentityNotFound
  end.

Definition guarded (loginName : string) (g : login_guard_row) (db : DB) : DB :=
  put_row (R := login_guard_row) (TrimSpace loginName) g db.

Lemma wrong_guarded name password g db : wrong name password (guarded name g db) <-> wrong name password db.
Proof.
  unfold wrong, FindPasswordCredentials, mbind, Tx_bind, select_where, select_id, gets, found. cbn.
  destruct (find_row _ _) as [[id a]|]; [|done]. cbn. unfold mret, Tx_ret, raise.
  destruct (users (app db) !! _); [|done]. by destruct (ai_password_hash a).
Qed.

(** The configuration of a guarded door. *)
Record guarded_service (s : AuthService) (p : LoginProtectionPolicy) (loginName : string) : Prop := {
  gs_ready : auth_ready s = true;
  gs_guard : sa_guard s = Some p;
  gs_policy : login_policy_Validate p = true;
  gs_failures : MaxFailures p <= int64_max;
  gs_name : str_len (TrimSpace loginName) <= 128
}.

Lemma svc_then {A B} (m : Svc A) (f : A -> Svc B) a db d : m db = (Ok a, d) -> (m ≫= f) db = f a d.
Proof. unfold mbind, Svc_bind. by intros ->. Qed.

Lemma svc_stop {A B} (m : Svc A) (f : A -> Svc B) e db d : m db = (Err e, d) -> (m ≫= f) db = (Err e, d).
Proof. unfold mbind, Svc_bind. by intros ->. Qed.

Lemma login_admitted_eq s p t loginName db : guarded_service s p loginName ->
  login_admitted s t (TrimSpace loginName) db =
    (if from_option (guard_locked (go_now t)) false (auth_login_guards db.(app) !! TrimSpace loginName)
     then Err ErrTooManyLoginAttempts else Ok (), db).
Proof.
  intros [_ H2 H3 _ _]. unfold login_admitted. rewrite H2, H3. cbn [negb]. rewrite (svc_then _ _ () db db) by done.
  rewrite (svc_then _ _ (from_option (guard_locked (go_now t)) false (auth_login_guards db.(app) !! TrimSpace loginName)) db db)
    by done.
  by destruct (from_option _ _ _).
Qed.

Lemma login_prefix s p loginName : guarded_service s p loginName ->
  negb (auth_ready s) = false /\ (128 <? str_len (TrimSpace loginName)) = false.
Proof. intros [H1 _ _ _ H5]. rewrite H1. split; [done|]. by apply Z.ltb_ge. Qed.

Lemma login_locked s p t raw loginName password audience db :
  guarded_service s p loginName ->
  from_option (guard_locked (go_now t)) false (auth_login_guards db.(app) !! TrimSpace loginName) = true ->
  login hmac_sha256 sha256_hex IDKey Marshal s t raw loginName password audience db = (Err ErrTooManyLoginAttempts, db).
Proof.
  intros Hs Hl. destruct (login_prefix _ _ _ Hs) as [H1 H2]. unfold login. rewrite H1, H2.
  rewrite (svc_then _ _ () db db), (svc_then _ _ () db db) by done. apply svc_stop. by rewrite (login_admitted_eq s p), Hl.
Qed.

Lemma login_failed_eq s p t loginName db g blocked :
  sa_guard s = Some p ->
  next_guard (go_now t) (MaxFailures p) (Window p) (Lockout p) (auth_login_guards db.(app) !! TrimSpace loginName) = (g, blocked) ->
  login_failed s t (TrimSpace loginName) db =
    (Err (if blocked : bool then ErrTooManyLoginAttempts else ErrInvalidCredentials), guarded loginName g db).
Proof.
  intros Hs Hg. unfold login_failed. rewrite (svc_then _ _ blocked db (guarded loginName g db)); [done|].
  unfold recordLoginFailure. rewrite Hs. unfold atomically, RecordLoginFailure, select_id. rewrite gets_skip.
  assert (tbl (R := login_guard_row) db.(app) = auth_login_guards db.(app)) as -> by done. by rewrite Hg.
Qed.

Lemma login_wrong s p t raw loginName password audience db g blocked :
  guarded_service s p loginName -> wrong loginName password db ->
  from_option (guard_locked (go_now t)) false (auth_login_guards db.(app) !! TrimSpace loginName) = false ->
  next_guard (go_now t) (MaxFailures p) (Window p) (Lockout p) (auth_login_guards db.(app) !! TrimSpace loginName) = (g, blocked) ->
  login hmac_sha256 sha256_hex IDKey Marshal s t raw loginName password audience db =
    (Err (if blocked : bool then ErrTooManyLoginAttempts else ErrInvalidCredentials), guarded loginName g db).
Proof.
  intros Hs Hw Hl Hg. destruct (login_prefix _ _ _ Hs) as [H1 H2]. unfold login. rewrite H1, H2.
  rewrite (svc_then _ _ () db db), (svc_then _ _ () db db) by done.
  rewrite (svc_then _ _ () db db) by (by rewrite (login_admitted_eq s p), Hl).
  pose proof (login_failed_eq s p t loginName db g blocked (gs_guard _ _ _ Hs) Hg) as Hfail.
  unfold wrong in Hw. destruct (FindPasswordCredentials _ db) as [[c d]|e] eqn:Ec.
  - destruct (FindPasswordCredentials_Ok _ _ _ _ Ec) as [-> _].
    rewrite (svc_then _ _ (Ok c) db db) by (unfold try, atomically; by rewrite Ec). by rewrite Hw.
  - rewrite (svc_then _ _ (Err e) db db) by (unfold try, atomically; by rewrite Ec).
    by rewrite (bool_decide_eq_true_2 _ Hw).
Qed.

(** Attempts one after another, each at its time with its password. *)
Fixpoint attempts (s : AuthService) (raw : res bytes) (loginName audience : string) (l : list (clock * string)) (db : DB)
    : list (res LoginResult) * DB :=
  match l with
  | [] => ([], db)
  | (t, password) :: rest =>
      let '(r, db1) := login hmac_sha256 sha256_hex IDKey Marshal s t raw loginName password audience db in
      let '(rs, db2) := attempts s raw loginName audience rest db1 in (r :: rs, db2)
  end.

Lemma next_guard_window p now start k u old :
  login_policy_Validate p = true -> MaxFailures p <= int64_max -> 0 <= k < MaxFailures p -> 0 <= now - start < Window p ->
  old = Some (mk_login_guard_row k start None u) \/ (old = None /\ k = 0 /\ now = start) ->
  next_guard now (MaxFailures p) (Window p) (Lockout p) old =
    (mk_login_guard_row (k + 1) start (if MaxFailures p <=? k + 1 then Some (now + Lockout p) else None) now,
     MaxFailures p <=? k + 1).
Proof.
  intros Hp Hmax Hk Hnow Hold. unfold login_policy_Validate in Hp. bool_to_prop.
  assert (Hs : (Window p <=? since now start) = false) by (apply Z.leb_gt; unfold since, int64_min, int64_max; lia).
  assert (Hw : wrap64 (k + 1) = k + 1) by (apply wrap64_small; unfold in_int64, int64_min in *; lia).
  unfold next_guard. destruct Hold as [->|(-> & -> & <-)]; cbn [default from_option id lg_locked_until lg_window_started_at
    lg_failed_attempts lg_updated_at]; rewrite Hs; cbn [orb]; rewrite Hw; by destruct (MaxFailures p <=? _).
Qed.

Lemma attempts_counted s p raw loginName audience l : guarded_service s p loginName -> forall k start u db,
  0 <= k -> k + Z.of_nat (length l) = MaxFailures p -> l <> [] ->
  Forall (fun x => wrong loginName x.2 db /\ 0 <= go_now x.1 - start < Window p) l ->
  (auth_login_guards db.(app) !! TrimSpace loginName = Some (mk_login_guard_row k start None u) \/
   (auth_login_guards db.(app) !! TrimSpace loginName = None /\ k = 0 /\ from_option (fun x => go_now x.1) 0 (head l) = start)) ->
  exists db', attempts s raw loginName audience l db =
    (replicate (length l - 1) (Err ErrInvalidCredentials) ++ [Err ErrTooManyLoginAttempts], db') /\
    exists n w v, auth_login_guards db'.(app) !! TrimSpace loginName =
      Some (mk_login_guard_row n w (Some (from_option (fun x => go_now x.1) 0 (last l) + Lockout p)) v).
Proof.
  intros Hs. induction l as [|[t pw] l IH]; intros k start u db Hk Hlen Hne Hall Hg; [done|].
  apply Forall_cons in Hall as [[Hw Ht] Hall]. cbn [fst snd length] in *.
  assert (Hnext : next_guard (go_now t) (MaxFailures p) (Window p) (Lockout p) (auth_login_guards db.(app) !! TrimSpace loginName) =
    (mk_login_guard_row (k + 1) start (if MaxFailures p <=? k + 1 then Some (go_now t + Lockout p) else None) (go_now t),
     MaxFailures p <=? k + 1)).
  { apply (next_guard_window p (go_now t) start k u); [apply Hs|apply Hs|lia|lia|].
    destruct Hg as [->|(-> & -> & <-)]; [by left|by right]. }
  assert (Hfree : from_option (guard_locked (go_now t)) false (auth_login_guards db.(app) !! TrimSpace loginName) = false).
  { destruct Hg as [->|(-> & _)]; done. }
  cbn [attempts]. rewrite (login_wrong s p t raw loginName pw audience db _ _ Hs Hw Hfree Hnext).
  destruct l as [|x l].
  - rewrite (proj2 (Z.leb_le _ _)) by (cbn in Hlen; lia). cbn [attempts length replicate Nat.sub Datatypes.app last from_option].
    eexists. split; [done|]. exists (k + 1), start, (go_now t). cbn. apply lookup_insert_eq.
  - cbn [length] in Hlen. rewrite (proj2 (Z.leb_gt _ _)) by lia.
    destruct (IH (k + 1) start (go_now t) (guarded loginName (mk_login_guard_row (k + 1) start None (go_now t)) db))
      as (db' & Hrun & Hlast); [lia|cbn [length]; lia|done| |left; apply lookup_insert_eq|].
    { eapply Forall_impl; [exact Hall|]. intros y [Hy1 Hy2]. by rewrite wrong_guarded. }
    exists db'. rewrite Hrun. split; [|exact Hlast]. cbn [length Nat.sub]. by rewrite Nat.sub_0_r.
Qed.

(** C29: as many failed attempts as the policy allows, all within its window,
    are answered one by one - the last one with the lockout - and from then
    until the lockout ends every attempt on that name is refused without
    looking at the password, the right one included. *)
Theorem login_locks_out s p raw loginName audience l start db :
  guarded_service s p loginName ->
  Z.of_nat (length l) = MaxFailures p ->
  auth_login_guards db.(app) !! TrimSpace loginName = None ->
  start = from_option (fun x => go_now x.1) 0 (head l) ->
  Forall (fun x => wrong loginName x.2 db /\ 0 <= go_now x.1 - start < Window p) l ->
  let '(answers, db') := attempts s raw loginName audience l db in
  answers = replicate (length l - 1) (Err ErrInvalidCredentials) ++ [Err ErrTooManyLoginAttempts] /\
  forall t raw' password audience',
    go_now t < from_option (fun x => go_now x.1) 0 (last l) + Lockout p ->
    login hmac_sha256 sha256_hex IDKey Marshal s t raw' loginName password audience' db' = (Err ErrTooManyLoginAttempts, db').
Proof.
  intros Hs Hlen Hnone Hstart Hall.
  assert (Hpos : 0 < MaxFailures p) by (pose proof (gs_policy _ _ _ Hs) as Hp; unfold login_policy_Validate in Hp; by bool_to_prop).
  destruct (attempts_counted s p raw loginName audience l Hs 0 start 0 db) as (db' & -> & n & w & v & Hg);
    [done|lia|by intros ->; cbn in Hlen; lia|done|by right|].
  split; [done|]. intros t raw' password audience' Ht. apply (login_locked s p); [done|]. rewrite Hg. cbn. by apply Z.ltb_lt.
Qed.

End opened.

Definition example_sha (b : bytes) : string := b2s (rev b).
Definition example_auth : AuthService :=
  mk_auth example_secret 900000000000 true 86400000000000 false true (Some (mk_login_policy 3 600000000000 900000000000)).
Definition example_users : DB :=
  set_app (set_auth_identities {[ "i1" := mk_identity_row "staff" "password" "staff"
                                   (Some (HashPassword example_key (s2b "0123456789abcdef") "secret")) ]} example_db.(app)) example_db.
Definition staff_login (t : clock) (raw password : string) : Svc LoginResult :=
  login example_hmac example_sha example_key example_marshal example_auth t (Ok (s2b raw)) " staff " password AudienceAdmin.

Lemma login_opens_session_witness : exists r db',
  staff_login noon "raw-1" "secret" example_users = (Ok r, db') /\ au_UserID r = "staff"%string /\
  ValidateSession (fun _ => true) noon (mk_claims (drawn example_users) "staff" [] 0 0) db' = Ok ((), db').
Proof.
  assert (E : match staff_login noon "raw-1" "secret" example_users with
              | (Ok r, _) => bool_decide (au_UserID r = "staff"%string) | _ => false end = true) by (by vm_compute).
  unfold staff_login in *. destruct (login _ _ _ _ _ _ _ _ _ _ example_users) as [[r|e] db'] eqn:Hrun; [|done].
  apply bool_decide_eq_true in E. exists r, db'. split; [done|]. split; [done|].
  destruct (login_opens_session (fun _ => true) example_hmac example_sha example_key example_marshal example_auth noon
    (Ok (s2b "raw-1")) " staff " "secret" AudienceAdmin example_users r db' eq_refl Hrun) as (_ & _ & _ & _ & _ & _ & _ & Hv).
  apply Hv; by rewrite ?E.
Defined.

(** Two logins and a change of password. *)
Lemma one_active_session_witness :
  let db1 := (staff_login noon "raw-1" "secret" example_users).2 in
  let db2 := (staff_login noon "raw-2" "secret" db1).2 in
  exists s x : session_row, sessions db2.(app) !! drawn example_users = Some s /\ sessions db2.(app) !! drawn db1 = Some x /\
    drawn example_users <> drawn db1 /\ se_user_id s = "staff"%string /\ se_user_id x = "staff"%string /\
    se_token_hash s <> se_token_hash x /\ (se_revoked_at s <> None \/ se_revoked_at x <> None).
Proof.
  intros db1 db2.
  assert (Es : se_user_id <$> sessions db2.(app) !! drawn example_users = Some "staff"%string) by (by vm_compute).
  assert (Ex : se_user_id <$> sessions db2.(app) !! drawn db1 = Some "staff"%string) by (by vm_compute).
  assert (Hne : drawn example_users <> drawn db1) by (by vm_compute).
  rewrite fmap_Some in Es. destruct Es as (s & Hs & Us). rewrite fmap_Some in Ex. destruct Ex as (x & Hx & Ux). exists s, x.
  split; [exact Hs|split; [exact Hx|split; [exact Hne|split; [exact (eq_sym Us)|split; [exact (eq_sym Ux)|]]]]].
  assert (Hsteps : rtc (auth_step example_hmac example_sha example_key example_marshal) example_users db2).
  { eapply rtc_l; [|apply rtc_once]; left; eapply as_login; unfold db2, db1, staff_login; apply surjective_pairing. }
  destruct (one_active_session example_hmac example_sha example_key example_marshal example_users db2 eq_refl Hsteps)
    as [Hapart _]. destruct (Hapart _ _ _ _ Hs Hx Hne) as [Hhash Hrev].
  split; [exact Hhash|]. apply Hrev. rewrite <- Us, <- Ux. reflexivity.
Defined.

Lemma login_locks_out_witness :
  let wrong3 := attempts example_hmac example_sha example_key example_marshal example_auth (Ok (s2b "raw-1")) " staff " AudienceAdmin
    [(noon, "a"); (noon, "b"); (noon, "c")]%string example_users in
  wrong3.1 = [Err ErrInvalidCredentials; Err ErrInvalidCredentials; Err ErrTooManyLoginAttempts] /\
  staff_login noon "raw-1" "secret" wrong3.2 = (Err ErrTooManyLoginAttempts, wrong3.2).
Proof.
  intros wrong3.
  assert (Hs : guarded_service example_auth (mk_login_policy 3 600000000000 900000000000) " staff ")
    by (split; (reflexivity || apply (bool_decide_unpack _); by vm_compute)).
  assert (Hall : Forall (fun x => wrong example_key " staff " x.2 example_users /\
    0 <= go_now x.1 - 1750000000000000000 < 600000000000) [(noon, "a"); (noon, "b"); (noon, "c")]%string).
  { repeat (apply Forall_cons; split); [split; [by vm_compute|cbn; lia]..|by apply Forall_nil]. }
  pose proof (login_locks_out example_hmac example_sha example_key example_marshal example_auth
    (mk_login_policy 3 600000000000 900000000000) (Ok (s2b "raw-1")) " staff " AudienceAdmin
    [(noon, "a"); (noon, "b"); (noon, "c")]%string 1750000000000000000 example_users Hs eq_refl) as H.
  assert (Hn : auth_login_guards (app example_users) !! TrimSpace " staff " = None) by (by vm_compute).
  specialize (H Hn eq_refl Hall). subst wrong3. unfold staff_login.
  assert (Ht : go_now noon < from_option (fun x => go_now x.1) 0 (last [(noon, "a"); (noon, "b"); (noon, "c")]%string) +
    Lockout (mk_login_policy 3 600000000000 900000000000)) by (by vm_compute).
  clear Hall Hs Hn.
  destruct (attempts _ _ _ _ _ _ _ _ _ example_users) as [answers db']. destruct H as [-> H]. cbn [fst snd].
  split; [reflexivity|exact (H noon (Ok (s2b "raw-1")) "secret"%string AudienceAdmin Ht)].
Defined.

Definition staff_refresh (raw : string) : Svc LoginResult :=
  refresh example_hmac example_sha example_marshal example_auth noon (Ok (s2b raw)) (b2s (b64_encode true (s2b "raw-1"))) AudienceAdmin.

Lemma refresh_token_serves_once_witness : exists r db',
  staff_refresh "raw-2" (staff_login noon "raw-1" "secret" example_users).2 = (Ok r, db') /\
  staff_refresh "raw-3" db' = (Err ErrInvalidRefreshToken, db').
Proof.
  assert (Hap : sessions_apart (staff_login noon "raw-1" "secret" example_users).2).
  { unfold staff_login. eapply login_apart; [apply surjective_pairing|]. intros i j s x Hs.
    assert (E : sessions (app example_users) = ∅) by reflexivity. by rewrite E, lookup_empty in Hs. }
  assert (E : match staff_refresh "raw-2" (staff_login noon "raw-1" "secret" example_users).2 with
              | (Ok r, _) => bool_decide (au_RefreshToken r = b2s (b64_encode true (s2b "raw-2"))) | _ => false end = true)
    by (by vm_compute).
  generalize dependent (staff_login noon "raw-1" "secret" example_users).2. intros db Hap E.
  unfold staff_refresh in *. destruct (refresh _ _ _ _ _ (Ok (s2b "raw-2")) _ _ db) as [[r|e] db'] eqn:Hrun; [|done].
  apply bool_decide_eq_true in E. exists r, db'. split; [reflexivity|].
  destruct (refresh_token_serves_once example_hmac example_sha example_marshal example_auth noon (Ok (s2b "raw-2"))
    (b2s (b64_encode true (s2b "raw-1"))) AudienceAdmin db r db' Hap Hrun) as (_ & H & _).
  - rewrite E. by vm_compute.
  - by vm_compute.
  - apply H.
Defined.
