(* ===== verification/AccessProofs.v ===== *)
(** * Access: what holds

    The routes are unambiguous; a request reaches the endpoint of a route only
    through every guard of that route; the back office answers to the staff
    alone, and the operations behind a password to those who gave it. *)

From S2P Require Import Prelude GoStrings Json Schema Store Books Examples Identity IdentityProofs Auth AuthProofs Operations AdminSecurity Access.

(** ** The routes *)

Definition names_of (p : pattern) : list string := map (fun s => match s with Lit x => x | Wild x => x end) (pt_path p).

(** A path the pattern fits and no literal elsewhere in the table. *)
Definition sample_path (p : pattern) : list string :=
  map (fun s => match s with Lit x => x | Wild x => ("{" ++ x ++ "}")%string end) (pt_path p).

Fixpoint fits (path : list segment) (segments : list string) : bool :=
  match path, segments with
  | [], [] => true
  | Lit s :: path, s' :: segments => bool_decide (s = s') && fits path segments
  | Wild _ :: path, s' :: segments => negb (bool_decide (s' = "/"%string)) && fits path segments
  | _, _ => false
  end.

(** A route serves a request of its method - or of HEAD, for GET - on a path it
    fits. *)
Definition serves_request (rt : route) (r : request) : bool :=
  (bool_decide (rq_method r = pt_method (rt_pattern rt)) ||
   bool_decide (rq_method r = "HEAD"%string) && bool_decide (pt_method (rt_pattern rt) = "GET"%string)) &&
  fits (pt_path (rt_pattern rt)) (rq_path r).

Lemma match_path_fits {A} (path : list string) : forall (bs : list (branch A)) b, match_path bs path = Some b ->
  exists b0, b0 ∈ bs /\ br_route b0 = br_route b /\ fits (br_rest b0) path = true.
Proof.
  induction path as [|s path IH]; intros bs b Hm; cbn [match_path] in Hm.
  - apply find_some in Hm as [Hin Hb]. apply bool_decide_eq_true in Hb. exists b. rewrite Hb.
    split; [by apply list_elem_of_In|done].
  - destruct (match_path (omap (literal_child s) bs) path) as [b1|] eqn:E.
    + injection Hm as ->. destruct (IH _ _ E) as (b1 & (b0 & Hin & Hc)%list_elem_of_omap & Hr & Hf).
      exists b0. unfold literal_child in Hc. destruct (br_rest b0) as [|[s'|n] rest] eqn:Eb; [done| |done].
      case_bool_decide as Hs; [|done]. injection Hc as <-. cbn in *. split; [done|split; [done|]].
      by rewrite bool_decide_true by done.
    + destruct (IH _ _ Hm) as (b1 & (b0 & Hin & Hc)%list_elem_of_omap & Hr & Hf).
      exists b0. unfold wild_child in Hc. destruct (br_rest b0) as [|[s'|n] rest] eqn:Eb; [done..|].
      case_bool_decide as Hs; [done|]. injection Hc as <-. cbn in *. split; [done|split; [done|]].
      by rewrite bool_decide_false by done.
Qed.

Lemma routes_for_route method b : b ∈ routes_for method ->
  br_route b ∈ all_routes /\ br_rest b = pt_path (rt_pattern (br_route b)) /\ pt_method (rt_pattern (br_route b)) = method.
Proof.
  unfold routes_for. intros (rt & -> & Hin)%list_elem_of_fmap. apply list_elem_of_In, filter_In in Hin as [Hin Hm].
  apply bool_decide_eq_true in Hm. split; [by apply list_elem_of_In|done].
Qed.

Lemma find_route_serves r b : find_route (rq_method r) (rq_path r) = Some b ->
  br_route b ∈ all_routes /\ serves_request (br_route b) r = true.
Proof.
  assert (Hone : forall method, match_path (routes_for method) (rq_path r) = Some b ->
    br_route b ∈ all_routes /\ pt_method (rt_pattern (br_route b)) = method /\
    fits (pt_path (rt_pattern (br_route b))) (rq_path r) = true).
  { intros method (b0 & Hin & Hr & Hf)%match_path_fits. apply routes_for_route in Hin as (H1 & H2 & H3).
    rewrite <- Hr, <- H2. done. }
  unfold find_route, serves_request. destruct (match_path (routes_for (rq_method r)) _) as [b1|] eqn:E.
  - intros [= ->]. destruct (Hone _ E) as (H1 & H2 & H3). split; [done|]. by rewrite H2, H3, bool_decide_true.
  - case_bool_decide as Hh; [|done]. intros E2. destruct (Hone _ E2) as (H1 & H2 & H3). split; [done|].
    rewrite H2, H3, Hh. reflexivity.
Qed.

(** *** The guards of a route *)

Record guards : Type := mk_guards {
  gd_session : bool;
  gd_roles : option (list string);
  gd_level : option string;
  gd_name : string
}.

(** Every handler of the table is one of these. *)
Definition guards_of (h : handler) : option guards :=
  match h with
  | Endpoint n => Some (mk_guards false None None n)
  | Protect (Endpoint n) => Some (mk_guards true None None n)
  | ProtectRoles (Endpoint n) roles => Some (mk_guards true (Some roles) None n)
  | ProtectRoles (FirstPassword (Endpoint n)) roles => Some (mk_guards true (Some roles) (Some "first"%string) n)
  | ProtectRoles (SecondPassword (Endpoint n)) roles => Some (mk_guards true (Some roles) (Some "second"%string) n)
  | _ => None
  end.

(** The back office, but for its own login. *)
Definition back_office (path : list segment) : bool :=
  match path with
  | Lit v :: Lit a :: rest =>
      bool_decide (v = "v1"%string) && bool_decide (a = "admin"%string) &&
      negb match rest with Lit x :: _ => bool_decide (x = "auth"%string) | _ => false end
  | _ => false
  end.

(** Every route is guarded; the back office asks for a staff role, for the
    administrator's or for either. *)
Definition route_guarded (rt : route) : bool :=
  match guards_of (rt_handler rt) with
  | None => false
  | Some g =>
      (negb (back_office (pt_path (rt_pattern rt))) ||
       match gd_roles g with
       | Some roles => bool_decide (roles ∈ [[RoleAdmin]; [RoleAdmin; RoleOperator]])
       | None => false
       end)
  end.

Lemma all_guarded : forallb route_guarded all_routes = true.
Proof. vm_compute. reflexivity. Qed.

Lemma guarded_route rt : rt ∈ all_routes -> exists g, guards_of (rt_handler rt) = Some g /\
  (back_office (pt_path (rt_pattern rt)) = true -> exists roles, gd_roles g = Some roles /\
    roles ∈ [[RoleAdmin]; [RoleAdmin; RoleOperator]]).
Proof.
  intros Hin. pose proof all_guarded as Hall. rewrite forallb_forall in Hall. specialize (Hall rt).
  rewrite <- list_elem_of_In in Hall. specialize (Hall Hin). unfold route_guarded in Hall.
  destruct (guards_of _) as [g|]; [|done]. exists g. split; [done|]. intros Hb. rewrite Hb in Hall. cbn [negb orb] in Hall.
  destruct (gd_roles g) as [roles|]; [|done]. exists roles. split; [done|]. by apply bool_decide_eq_true in Hall.
Qed.

(** The mux registers every pattern, and every route is the one found for some
    request. *)
Theorem routes_registered :
  registers [] (map rt_pattern all_routes) = true /\
  Forall (fun rt => exists b, find_route (pt_method (rt_pattern rt)) (sample_path (rt_pattern rt)) = Some b /\
    br_route b = rt) all_routes.
Proof.
  split; [vm_compute; reflexivity|].
  assert (E : forallb (fun rt => match find_route (pt_method (rt_pattern rt)) (sample_path (rt_pattern rt)) with
    | Some b => bool_decide (br_route b = rt) | None => false end) all_routes = true)
    by (vm_compute; reflexivity).
  apply Forall_forall. intros rt Hin%list_elem_of_In. rewrite forallb_forall in E. specialize (E rt Hin).
  destruct (find_route _ _) as [b|]; [|discriminate E]. exists b. split; [reflexivity|]. by apply bool_decide_eq_true in E.
Qed.

Lemma guards_session h g roles : guards_of h = Some g -> gd_roles g = Some roles -> gd_session g = true.
Proof.
  destruct h as [n|h|h|h|h rs]; cbn; [by intros [= <-]|done|done|destruct h; try done; by intros [= <-]|].
  destruct h as [n|h|h| |]; try done; [by intros [= <-]|..]; destruct h; try done; by intros [= <-].
Qed.

Lemma HasRole_staff c roles : roles ∈ [[RoleAdmin]; [RoleAdmin; RoleOperator]] -> claims_HasRole c roles = true ->
  claims_HasRole c [RoleAdmin; RoleOperator] = true.
Proof.
  intros Hin. assert (roles = [RoleAdmin] \/ roles = [RoleAdmin; RoleOperator]) as [->| ->] by set_solver; [|done].
  unfold claims_HasRole. cbn [existsb]. rewrite orb_false_r. intros ->. done.
Qed.

(** ** The guards *)

Section server.
Context `{Uuids} (is_uuid : string -> bool).
Context (hmac_sha256 : bytes -> bytes -> bytes) (Unmarshal : bytes -> raw).
Context (IDKey : bytes -> bytes -> Z -> Z -> Z -> Z -> bytes).
Context (convert : string -> bool -> json -> res json).

Abbreviation serve := (serve is_uuid hmac_sha256 Unmarshal IDKey convert).
Abbreviation serve_handler := (serve_handler is_uuid hmac_sha256 Unmarshal IDKey convert).
Abbreviation VerifyAccessToken := (VerifyAccessToken hmac_sha256 Unmarshal).
Abbreviation VerifyPassword := (VerifyPassword IDKey).

(** The request carries a token that verifies now and names a live session of
    its subject, who is active. *)
Definition authenticated (secret : bytes) (t : clock) (r : request) (c : AccessTokenClaims) (db : DB) : Prop :=
  exists token, bearer (rq_authorization r) = Some token /\
    VerifyAccessToken secret (s2b token) (go_now t) = Ok c /\
    exists s, sessions db.(app) !! at_SessionID c = Some s /\ se_user_id s = at_Subject c /\
      session_alive (sql_now t) s = true /\ user_is_active (at_Subject c) db = true.

(** The operation password of the level was given, by an active member of the
    staff. *)
Definition confirmed (level : string) (c : AccessTokenClaims) (db : DB) : Prop :=
  exists password row, admin_security_passwords db.(app) !! level = Some row /\
    VerifyPassword (sq_password_hash row) password = true /\ staff_member false (at_Subject c) db = true.

Lemma authenticator_verify_Some cfg t secret r db c :
  ac_sessions cfg = true -> authenticator_verify is_uuid hmac_sha256 Unmarshal cfg t secret r db = Some c ->
  authenticated secret t r c db.
Proof.
  intros Hs. unfold authenticator_verify. destruct (bearer _) as [token|] eqn:Eb; cbn [mbind option_bind]; [|done].
  destruct (VerifyAccessToken _ _ _) as [claims|] eqn:Ev; [|done]. rewrite Hs, andb_false_r.
  destruct (ValidateSession _ _ _ _) as [[u d]|] eqn:E; [|done]. intros [= <-]. exists token. split; [done|split; [done|]].
  unfold ValidateSession, select_id in E. apply tx_bind_Ok in E as ([] & d1 & E1 & E). apply reject_if_Ok in E1 as [_ <-].
  rewrite gets_skip, gets_skip in E. apply reject_if_Ok in E as [E _]. apply negb_false_iff, andb_prop in E as [E Hact].
  change (tbl (app db)) with (sessions (app db)) in E.
  destruct (sessions (app db) !! at_SessionID claims) as [s|] eqn:Es; cbn [from_option] in E; [|done].
  apply andb_prop in E as [Hu Ha]. apply bool_decide_eq_true in Hu. by exists s.
Qed.

(** *** The operation passwords *)

(** Nothing but the attempts changes. *)
Definition attempts_only (db db' : DB) : Prop :=
  exists m, db' = set_app (set_admin_security_attempts m db.(app)) db.

#[local] Instance attempts_only_preorder : PreOrder attempts_only.
Proof.
  split.
  - intros [m a]. exists (admin_security_attempts a). by destruct a.
  - intros d1 d2 d3 [m ->] [m' ->]. exists m'. reflexivity.
Qed.

Lemma put_attempt_Ok actor scope a db u db' : put_attempt actor scope a db = Ok (u, db') ->
  db' = set_app (set_admin_security_attempts (<[(actor, scope) := a]> (admin_security_attempts db.(app))) db.(app)) db.
Proof. by intros <-%modify_Ok. Qed.

Lemma attempt_guard_Ok t actor scope db n db' : guard t actor scope db = Ok (n, db') ->
  let a := attempt_of actor scope (sql_now t) db in
  attempts_only db db' /\ from_option (fun until => go_now t <? until) false (sa_blocked_until a) = false /\
  (fifteen_minutes <= since (go_now t) (sa_window_started_at a) /\ n = 0 /\
     admin_security_attempts db'.(app) !! (actor, scope) = Some (mk_attempt_row 0 (sql_now t) None) \/
   since (go_now t) (sa_window_started_at a) < fifteen_minutes /\ n = sa_failures a /\
     admin_security_attempts db'.(app) !! (actor, scope) = Some a).
Proof.
  unfold guard. rewrite gets_skip. intros Hrun. set (a := attempt_of _ _ _ _) in *. cbv zeta.
  apply tx_bind_Ok in Hrun as (u & d & E & Hrun). apply put_attempt_Ok in E.
  apply tx_bind_Ok in Hrun as ([] & d1 & E1 & Hrun). apply reject_if_Ok in E1 as [Hb <-].
  assert (Hd : attempts_only db d) by (by eexists). destruct (Z.leb_spec fifteen_minutes (since (go_now t) (sa_window_started_at a))).
  - apply tx_bind_Ok in Hrun as (u1 & d1 & E1 & Hrun). apply put_attempt_Ok in E1. apply tx_ret_Ok in Hrun as [<- <-].
    split; [etrans; [exact Hd|by eexists]|split; [done|left]]. split; [done|split; [done|]]. subst. apply lookup_insert_eq.
  - apply tx_ret_Ok in Hrun as [<- <-]. split; [done|split; [done|right]]. split; [lia|split; [done|]]. subst. apply lookup_insert_eq.
Qed.

Lemma authorized_Ok actor adminOnly db u db' : authorized is_uuid actor adminOnly db = Ok (u, db') ->
  db' = db /\ staff_member adminOnly actor db = true.
Proof.
  unfold authorized. intros Hrun. apply tx_bind_Ok in Hrun as ([] & d & E & Hrun). apply reject_if_Ok in E as [_ <-].
  apply tx_bind_Ok in Hrun as ([] & d & E & Hrun). apply reject_if_Ok in E as [_ <-].
  rewrite gets_skip in Hrun. apply reject_if_Ok in Hrun as [Hs <-]. by apply negb_false_iff in Hs.
Qed.

Lemma verify_tx_run t actor level password db answer db' :
  verify_tx is_uuid IDKey t actor level password db = Ok (answer, db') ->
  attempts_only db db' /\ staff_member false actor db = true /\
  exists row n, admin_security_passwords db.(app) !! level = Some row /\ sq_password_hash row <> ""%string /\
    (let a := attempt_of actor level (sql_now t) db in
     from_option (fun until => go_now t <? until) false (sa_blocked_until a) = false /\
     (fifteen_minutes <= since (go_now t) (sa_window_started_at a) /\ n = 0 \/
      since (go_now t) (sa_window_started_at a) < fifteen_minutes /\ n = sa_failures a)) /\
    (answer = None /\ VerifyPassword (sq_password_hash row) password = true \/
     answer = Some (if 5 <=? (n + 1)%i64 then security_ErrLocked else security_ErrIncorrect) /\
     VerifyPassword (sq_password_hash row) password = false).
Proof.
  unfold verify_tx. intros Hrun. apply tx_bind_Ok in Hrun as (u & d & E & Hrun). apply authorized_Ok in E as [-> Hst].
  apply tx_bind_Ok in Hrun as (n & d & E & Hrun). pose proof (attempt_guard_Ok _ _ _ _ _ _ E) as (Hd & Hb & Hn).
  unfold select_id in Hrun. rewrite gets_skip in Hrun. apply tx_bind_Ok in Hrun as (row & d1 & E1 & Hrun).
  apply found_Ok in E1 as [Hrow <-]. assert (Hrow' : admin_security_passwords db.(app) !! level = Some row)
    by (destruct Hd as [m ->]; exact Hrow).
  apply tx_bind_Ok in Hrun as ([] & d1 & E1 & Hrun). apply reject_if_Ok in E1 as [Hset <-].
  apply bool_decide_eq_false in Hset.
  destruct (VerifyPassword (sq_password_hash row) password) eqn:Ev; cbn [negb] in Hrun.
  - apply tx_bind_Ok in Hrun as (u1 & d1 & E1 & Hrun). apply tx_ret_Ok in Hrun as [<- <-]. apply modify_Ok in E1.
    split; [etrans; [exact Hd|subst; by eexists]|split; [done|]]. exists row, n. split; [done|split; [done|split; [|by left]]].
    split; [done|]. destruct Hn as [(H1 & H2 & _)|(H1 & H2 & _)]; auto.
  - apply tx_bind_Ok in Hrun as (e & d1 & E1 & Hrun). apply tx_ret_Ok in Hrun as [<- <-]. unfold failed in E1. cbv zeta in E1.
    apply tx_bind_Ok in E1 as (u1 & d2 & E2 & E1). apply tx_ret_Ok in E1 as [<- <-]. apply modify_Ok in E2.
    split; [etrans; [exact Hd|subst; by eexists]|split; [done|]]. exists row, n. split; [done|split; [done|split; [|by right]]].
    split; [done|]. destruct Hn as [(H1 & H2 & _)|(H1 & H2 & _)]; auto.
Qed.

Lemma Verify_confirms t c level password db u db' :
  Verify is_uuid IDKey t (at_Subject c) level password db = (Ok u, db') -> confirmed level c db /\ attempts_only db db'.
Proof.
  unfold Verify, svc_reject. destruct (_ || _); [done|]. unfold answering. intros Hrun.
  apply svc_bind_inv in Hrun as [([] & d & E & Hrun)|(e & E & _)]; [|done]. injection E as <-.
  apply svc_bind_inv in Hrun as [(answer & d & E & Hrun)|(e & E & Hrun)]; [|done].
  apply atomically_cases in E as [(a & [= <-] & E)|(e & [=] & _)].
  destruct answer as [e|]; [done|]. injection Hrun as <- <-.
  destruct (verify_tx_run _ _ _ _ _ _ _ E) as (Ha & Hst & row & n & Hrow & _ & _ & [[_ Hv]|[[=] _]]).
  split; [|done]. by exists password, row.
Qed.

(** *** Reaching an endpoint *)

Lemma levelPassword_Handled cfg t level (next : Handler) c r params db name claims ps body db' :
  levelPassword is_uuid IDKey cfg t level next (Some c) r params db = (Handled name claims ps body, db') ->
  exists d r', confirmed level c db /\ attempts_only db d /\ rq_authorization r' = rq_authorization r /\
    next (Some c) r' params d = (Handled name claims ps body, db').
Proof.
  unfold levelPassword, verifyAdminSecurity. cbn [subject_of from_option].
  destruct (decodeSecurity _) as [m|]; [|done]. destruct (v ← m !! _; dec_string "" v) as [password|]; [|done].
  case_bool_decide; [done|]. destruct (negb (ac_security cfg)); [done|].
  destruct (Verify _ _ _ _ _ _ _) as [[u|e] d] eqn:E; [|done]. intros Hrun.
  apply Verify_confirms in E as [Hc Ha]. exists d. eexists. split; [exact Hc|split; [exact Ha|split; [|exact Hrun]]]. done.
Qed.

Lemma requestAmounts_Handled (next : Handler) claims0 r params db name claims ps body db' :
  requestAmounts convert next claims0 r params db = (Handled name claims ps body, db') ->
  exists r', rq_authorization r' = rq_authorization r /\ next claims0 r' params db = (Handled name claims ps body, db').
Proof.
  unfold requestAmounts. destruct (amountInputRoute r); [|intros Hrun; exists r; split; [reflexivity|exact Hrun]].
  destruct (rq_body r ≫= _) as [j|]; [|done]. intros Hrun. eexists. split; [|exact Hrun]. reflexivity.
Qed.

Lemma endpoint_Handled n claims0 r params db name claims ps body db' :
  endpoint n claims0 r params db = (Handled name claims ps body, db') -> name = n /\ claims = claims0 /\ db' = db.
Proof. unfold endpoint. by intros [= <- <- _ _ <-]. Qed.

Lemma Authenticate_Handled cfg t (next : Handler) secret claims0 r params db name claims ps body db' :
  ac_sessions cfg = true ->
  Authenticate is_uuid hmac_sha256 Unmarshal cfg t next secret claims0 r params db = (Handled name claims ps body, db') ->
  exists c, authenticated secret t r c db /\ next (Some c) r params db = (Handled name claims ps body, db').
Proof.
  intros Hs. unfold Authenticate. destruct (authenticator_verify _ _ _ _ _ _ _ _) as [c|] eqn:E; [|done].
  intros Hrun. exists c. split; [by eapply authenticator_verify_Some|exact Hrun].
Qed.

Lemma RequireRoles_Handled cfg t (next : Handler) roles secret claims0 r params db name claims ps body db' :
  ac_sessions cfg = true ->
  RequireRoles is_uuid hmac_sha256 Unmarshal cfg t next roles secret claims0 r params db = (Handled name claims ps body, db') ->
  exists c, authenticated secret t r c db /\ claims_HasRole c roles = true /\
    next (Some c) r params db = (Handled name claims ps body, db').
Proof.
  intros Hs Hrun. unfold RequireRoles in Hrun. destruct (Authenticate_Handled _ _ _ _ _ _ _ _ _ _ _ _ _ Hs Hrun) as (c & Hc & Hrun1). exists c. split; [done|].
  cbv beta in Hrun1. unfold roles_of in Hrun1. cbn [default from_option] in Hrun1. unfold Datatypes.id in Hrun1.
  destruct (claims_HasRole c roles); [done|]. unfold answer in Hrun1. done.
Qed.

(** What was checked before the endpoint of a route was reached. *)
Record admitted (secret : bytes) (t : clock) (r : request) (g : guards) (claims : option AccessTokenClaims)
    (db db' : DB) : Prop := {
  am_open : gd_session g = false -> claims = None;
  am_session : gd_session g = true -> exists c, claims = Some c /\ authenticated secret t r c db;
  am_roles : forall roles, gd_roles g = Some roles -> exists c, claims = Some c /\ claims_HasRole c roles = true;
  am_level : forall level, gd_level g = Some level -> exists c, claims = Some c /\ confirmed level c db;
  am_effect : attempts_only db db' /\ (gd_level g = None -> db' = db)
}.

Lemma serve_handler_Handled cfg t secret h g r params db name claims ps body db' :
  ac_auth cfg = Some secret -> ac_sessions cfg = true -> guards_of h = Some g ->
  serve_handler cfg t h None r params db = (Handled name claims ps body, db') ->
  name = gd_name g /\ admitted secret t r g claims db db'.
Proof.
  intros Ha Hs Hg Hrun.
  assert (Hlevel : forall level n roles, ProtectRoles (Endpoint n) roles = ProtectRoles (Endpoint n) roles ->
    protectRoles is_uuid hmac_sha256 Unmarshal convert cfg t (levelPassword is_uuid IDKey cfg t level (endpoint n)) roles None r params db
      = (Handled name claims ps body, db') ->
    name = n /\ admitted secret t r (mk_guards true (Some roles) (Some level) n) claims db db').
  { intros level n roles _ Hr. unfold protectRoles in Hr. rewrite Ha in Hr.
    apply RequireRoles_Handled in Hr as (c & Hc & Hrole & Hr); [|done].
    apply requestAmounts_Handled in Hr as (r' & Er & Hr).
    apply levelPassword_Handled in Hr as (d & r2 & Hconf & Hd & _ & Hr). apply endpoint_Handled in Hr as (-> & -> & ->).
    split; [done|]. split; cbn; [done|by exists c|intros ? [= <-]; by exists c|intros ? [= <-]; by exists c|done]. }
  destruct h as [n|h|h|h|h roles]; cbn in Hg.
  - injection Hg as <-. apply endpoint_Handled in Hrun as (-> & -> & ->). split; [done|]. by split.
  - done.
  - done.
  - destruct h as [n| | | |]; try done. injection Hg as <-. cbn in Hrun. unfold protect in Hrun. rewrite Ha in Hrun.
    apply Authenticate_Handled in Hrun as (c & Hc & Hrun); [|done].
    apply requestAmounts_Handled in Hrun as (r' & _ & Hrun). apply endpoint_Handled in Hrun as (-> & -> & ->).
    split; [done|]. split; cbn; [done|by exists c|done|done|done].
  - destruct h as [n|h|h| |]; try done.
    + injection Hg as <-. cbn in Hrun. unfold protectRoles in Hrun. rewrite Ha in Hrun.
      apply RequireRoles_Handled in Hrun as (c & Hc & Hrole & Hrun); [|done].
      apply requestAmounts_Handled in Hrun as (r' & _ & Hrun). apply endpoint_Handled in Hrun as (-> & -> & ->).
      split; [done|]. split; cbn; [done|by exists c|intros ? [= <-]; by exists c|done|done].
    + destruct h; try done. injection Hg as <-. by eapply Hlevel.
    + destruct h; try done. injection Hg as <-. by eapply Hlevel.
Qed.

Lemma serve_run cfg t secret r db name claims ps body db' :
  ac_auth cfg = Some secret -> ac_sessions cfg = true ->
  serve cfg t r db = (Handled name claims ps body, db') ->
  exists rt g, rt ∈ all_routes /\ serves_request rt r = true /\ guards_of (rt_handler rt) = Some g /\ name = gd_name g /\
    admitted secret t r g claims db db' /\
    (back_office (pt_path (rt_pattern rt)) = true -> exists roles, gd_roles g = Some roles /\
       roles ∈ [[RoleAdmin]; [RoleAdmin; RoleOperator]]).
Proof.
  intros Ha Hs. unfold Access.serve. case_bool_decide; [by destruct (_ && _)|]. unfold serve_mux.
  destruct (find_route _ _) as [b|] eqn:E; [|done]. intros Hrun. apply find_route_serves in E as [Hin Hsr].
  destruct (guarded_route _ Hin) as (g & Hg & Hback). exists (br_route b), g.
  destruct (serve_handler_Handled _ _ _ _ _ _ _ _ _ _ _ _ _ Ha Hs Hg Hrun) as [Hn Had]. done.
Qed.

(** C17: Every request passes the guards of its route.  A request that reaches an
    endpoint was routed to the one route that serves it; unless the route is
    open, it carried an access token that verifies now and names a live session
    of its subject, who is active; on a route of the staff the claims hold one of
    its roles, which are the administrator's or the operator's for the whole back
    office but its login; and where the route asks for an operation password, the
    stored one was given by a member of the staff.  Nothing but the count of the
    attempts at such a password has changed by then. *)
Theorem guards_passed cfg t secret r db name claims ps body db' :
  ac_auth cfg = Some secret -> ac_sessions cfg = true ->
  serve cfg t r db = (Handled name claims ps body, db') ->
  exists rt g, rt ∈ all_routes /\ serves_request rt r = true /\ guards_of (rt_handler rt) = Some g /\ name = gd_name g /\
    (gd_session g = true -> exists c, claims = Some c /\ authenticated secret t r c db) /\
    (forall roles, gd_roles g = Some roles -> exists c, claims = Some c /\ claims_HasRole c roles = true) /\
    (back_office (pt_path (rt_pattern rt)) = true -> exists c, claims = Some c /\ authenticated secret t r c db /\
       claims_HasRole c [RoleAdmin; RoleOperator] = true) /\
    (forall level, gd_level g = Some level -> exists c, claims = Some c /\ confirmed level c db) /\
    attempts_only db db'.
Proof.
  intros Ha Hs Hrun. destruct (serve_run _ _ _ _ _ _ _ _ _ _ Ha Hs Hrun) as (rt & g & Hin & Hsr & Hg & Hn & Had & Hback).
  exists rt, g. split; [done|split; [done|split; [done|split; [done|]]]]. pose proof Had as [_ H1 H2 H3 [H4 _]].
  split; [exact H1|split; [exact H2|split; [|split; [exact H3|exact H4]]]].
  intros Hb. destruct (Hback Hb) as (roles & Hr & Hroles). destruct (H2 roles Hr) as (c & Hc & Hhas).
  destruct (H1 (guards_session _ _ _ Hg Hr)) as (c' & Hc' & Hauth). assert (c' = c) as -> by congruence.
  exists c. split; [done|split; [done|]]. by eapply HasRole_staff.
Qed.

End server.

(** ** A concrete request: the administrator deletes a user *)

Definition staffed_db : DB :=
  set_app (set_admin_security_passwords {[ "second"%string :=
    mk_security_password_row (HashPassword example_key (s2b "fedcba9876543210") "again") 1 None ]}
    example_users.(app)) example_users.

Definition signed_in : DB := (staff_login noon "raw-1" "secret" staffed_db).2.

Definition staff_claims : AccessTokenClaims :=
  mk_claims (drawn staffed_db) "staff" ["admin"]%string (unix (go_now noon)) (unix (go_now noon + 900000000000)).

Definition staff_unmarshal (b : bytes) : raw :=
  Some (if bool_decide (b = s2b "h") then token_header else claims_json staff_claims).

Definition staff_token : string :=
  match staff_login noon "raw-1" "secret" staffed_db with (Ok r, _) => b2s (au_AccessToken r) | _ => ""%string end.

Definition deletion (password : string) : request :=
  mk_request "DELETE" ["v1"; "admin"; "users"; "10001"]%string "" ("Bearer " ++ staff_token)
    (Some (JObj [("second_password", JStr password)]%string)).

Definition serve_example : access_config -> clock -> request -> DB -> outcome * DB :=
  serve (fun _ => true) example_hmac staff_unmarshal example_key (fun _ _ j => Ok j).

Definition example_access : access_config := mk_access (Some example_secret) true true [].

Lemma deletion_route rt g : rt ∈ all_routes -> guards_of (rt_handler rt) = Some g -> "deleteUser"%string = gd_name g ->
  gd_level g = Some "second"%string /\ gd_roles g = Some [RoleAdmin; RoleOperator].
Proof.
  intros Hin Hg Hn. assert (Hall : forallb (fun rt => match guards_of (rt_handler rt) with
    | Some g => negb (bool_decide ("deleteUser"%string = gd_name g)) ||
        bool_decide (gd_level g = Some "second"%string) && bool_decide (gd_roles g = Some [RoleAdmin; RoleOperator])
    | None => true end) all_routes = true) by (vm_compute; reflexivity).
  rewrite forallb_forall in Hall. specialize (Hall rt). rewrite <- list_elem_of_In in Hall. specialize (Hall Hin).
  rewrite Hg, (bool_decide_eq_true_2 _ Hn) in Hall. apply andb_prop in Hall as [H1 H2].
  by apply bool_decide_eq_true in H1, H2.
Qed.

Lemma guards_passed_witness :
  let '(out, db') := serve_example example_access noon (deletion "again") signed_in in
  out = Handled "deleteUser" (Some staff_claims) [("userID", "10001")]%string (Some (JObj [])) /\
  (exists c, Some staff_claims = Some c /\
     confirmed example_key "second" c signed_in) /\
  attempts_only signed_in db'.
Proof.
  assert (E : (serve_example example_access noon (deletion "again") signed_in).1 =
    Handled "deleteUser" (Some staff_claims) [("userID", "10001")]%string (Some (JObj []))) by (vm_compute; reflexivity).
  destruct (serve_example _ _ _ _) as [out db'] eqn:Hrun. cbn in E. subst out. split; [done|].
  destruct (guards_passed (fun _ => true) example_hmac staff_unmarshal example_key (fun _ _ j => Ok j) example_access noon
    example_secret (deletion "again") signed_in _ _ _ _ db' eq_refl eq_refl Hrun)
    as (rt & g & Hin & Hsr & Hg & Hn & _ & _ & _ & Hlevel & Ha).
  split; [|exact Ha]. apply Hlevel. by destruct (deletion_route rt g Hin Hg Hn).
Defined.
