(* ===== verification/RegisterProofs.v ===== *)
(** * Registration and the agent tree

    What registering a player creates, and that the relations of agents stay a
    forest whose stored paths are the chains of ancestors, over bindings,
    registrations and whatever leaves the relations alone. *)

From S2P Require Import Prelude GoStrings Json Schema Store Books Custody Wallet Chain Agent Identity AgentProofs AuthProofs Examples.

Section register.
Context `{Uuids}.

(** The tables a registration reads or writes, but for the sessions and the
    rooms of customer service. *)
Definition same_accounts (db d : DB) : Prop :=
  users d.(app) = users db.(app) /\ agent_relations d.(app) = agent_relations db.(app) /\
  auth_identities d.(app) = auth_identities db.(app) /\ user_roles d.(app) = user_roles db.(app) /\
  currencies d.(app) = currencies db.(app) /\ users_public_id_seq d.(app) = users_public_id_seq db.(app).

Definition aside (db d : DB) : Prop := same_accounts db d /\ money d = money db.

Lemma aside_refl db : aside db db.
Proof. by repeat split. Qed.

Lemma service_rooms_aside db0 now userID : tx_keeps (aside db0) (ensure_user_customer_service_rooms now userID).
Proof.
  unfold ensure_user_customer_service_rooms, insert_service_room, join_service_rooms. keeps;
    first [apply tx_keeps_new_uuid | apply tx_keeps_modify | apply tx_keeps_insert_unless]; intros d Hd; exact Hd.
Qed.

(** Wallets only appear, empty, and the ledger does not move. *)
Definition wallets_opened (userID : string) (opened : list string) (db d : DB) : Prop :=
  ledger d.(money) = ledger db.(money) /\
  (forall i w, wallets db.(money) !! i = Some w -> wallets d.(money) !! i = Some w) /\
  (forall i w, wallets d.(money) !! i = Some w -> wallets db.(money) !! i = Some w \/
     (w_user_id w = userID /\ w_currency w ∈ opened /\ w_available w = 0 /\ w_frozen w = 0)) /\
  (forall c, c ∈ opened -> exists i w, wallets d.(money) !! i = Some w /\ w_user_id w = userID /\ w_currency w = c /\
     w_available w = 0 /\ w_frozen w = 0).

Lemma open_wallets_Ok now userID cs : forall db u d, open_wallets now userID cs db = Ok (u, d) ->
  same_accounts db d /\ wallets_opened userID cs db d.
Proof.
  induction cs as [|c cs IH]; cbn [open_wallets]; intros db u d Hrun.
  - apply tx_ret_Ok in Hrun as [_ <-]. split; [by repeat split|]. split; [done|]. split; [done|]. split; [by left|].
    intros c Hc. by apply elem_of_nil in Hc.
  - apply tx_bind_Ok in Hrun as (id & d1 & [<- <-]%new_uuid_Ok & Hrun).
    apply tx_bind_Ok in Hrun as (b & d2 & Hw & Hrun). apply tx_bind_Ok in Hrun as ([] & d3 & [Hb <-]%reject_if_Ok & Hrun).
    apply negb_false_iff in Hb as ->.
    apply insert_wallet_Ok in Hw as [(Hx & _)|(_ & _ & Hfree & <-)]; [done|].
    destruct (IH _ _ _ Hrun) as (Hacc & Hled & Hold & Hnew & Hall). split; [exact Hacc|].
    cbn in *. split; [done|]. split; [|split].
    + intros i w Hi. apply Hold. rewrite lookup_insert_ne; [done|]. intros <-. by rewrite Hi in Hfree.
    + intros i w [Hi|(E1 & E2 & E3)]%Hnew; [|right; split; [done|split; [apply elem_of_cons; by right|done]]].
      apply lookup_insert_or in Hi as [[-> ->]|Hi]; [right|by left]. split; [done|]. split; [apply elem_of_cons; by left|done].
    + intros c' [->|Hc]%elem_of_cons; [|by apply Hall].
      eexists _, _. split; [apply Hold, lookup_insert_eq|done].
Qed.

(** What a successful registration leaves. *)
Record registered (loginName displayName passwordHash role : string) (code now : Z) (db : DB) (userID : string) (d : DB) : Prop := {
  rg_code : MinimumInvitationCode <= code;
  rg_user : users db.(app) !! userID = None /\
    users d.(app) = <[userID := mk_user_row "active" false displayName (users_public_id_seq db.(app)) None None
                                  (Some loginName) None now]> (users db.(app)) /\
    users_public_id_seq d.(app) = users_public_id_seq db.(app) + 1;
  rg_name : forall i u, users db.(app) !! i = Some u ->
    u_login_name u <> Some loginName /\ u_public_id u <> users_public_id_seq db.(app);
  rg_identity : exists i, auth_identities db.(app) !! i = None  /\
    auth_identities d.(app) = <[i := mk_identity_row userID "password" loginName (Some passwordHash)]> (auth_identities db.(app));
  rg_role : user_roles d.(app) = (userID, role) :: user_roles db.(app);
  rg_wallets : wallets_opened userID (opened_currencies db) db d;
  rg_inviter : exists parent u, users db.(app) !! parent = Some u /\ u_public_id u = code /\ is_Some (u_agent_level u)  /\
    agent_relations db.(app) !! userID = None  /\
    agent_relations d.(app) = <[userID := mk_agent_relation_row (Some parent)
      (Some (path_above (agent_relations db.(app)) parent ++ [agent_label userID]))]> (agent_relations db.(app))
}.

Lemma taken_if_unique_Ok m db u d : taken_if_unique m db = Ok (u, d) -> m db = Ok (tt, d).
Proof. unfold taken_if_unique. destruct (m db) as [[[] d0]|e]; [by intros [= _ <-]|by destruct e]. Qed.

Lemma insert_user_Ok id loginName displayName now db u d : insert_user id loginName displayName now db = Ok (u, d) ->
  users db.(app) !! id = None  /\
    find_row (fun _ u => bool_decide (u_login_name u = Some loginName) || (u_public_id u =? users_public_id_seq db.(app)))
    (users db.(app)) = None  /\
    d = put_row (R := user_row) id (mk_user_row "active" false displayName (users_public_id_seq db.(app)) None None (Some loginName) None now)
        (set_app (set_users_public_id_seq (users_public_id_seq db.(app) + 1) db.(app)) db).
Proof.
  unfold insert_user. intros Hrun. apply tx_bind_Ok in Hrun as (n & d1 & Hn & Hrun). unfold next_public_id in Hn.
  destruct (99999 <? _); [done|]. injection Hn as <- <-. apply insert_row_Ok in Hrun as (H1 & H2 & <-). done.
Qed.

Lemma Register_run t loginName displayName passwordHash role code db userID d :
  RegisterPasswordUser t loginName displayName passwordHash role code db = Ok (userID, d) ->
  registered loginName displayName passwordHash role code (sql_now t) db userID d  /\
    exists n, userID = uuid_at n.
Proof.
  unfold RegisterPasswordUser. intros Hrun. apply tx_bind_Ok in Hrun as ([] & d1 & [Hcode <-]%reject_if_Ok & Hrun).
  apply Z.ltb_ge in Hcode. apply tx_bind_Ok in Hrun as (o & d1 & [<- <-]%gets_Ok & Hrun).
  apply tx_bind_Ok in Hrun as ([parent inviter] & d1 & [Hinv <-]%found_Ok & Hrun). apply find_row_Some in Hinv as [Hpar Hinv].
  apply tx_bind_Ok in Hrun as (rels & d1 & [<- <-]%gets_Ok & Hrun).
  apply tx_bind_Ok in Hrun as (x & d1 & [_ <-]%new_uuid_Ok & Hrun).
  apply tx_bind_Ok in Hrun as (id & d1 & [Hid <-]%new_uuid_Ok & Hrun).
  apply tx_bind_Ok in Hrun as (u1 & d1 & (Hu1 & Hu2 & Ed1)%taken_if_unique_Ok%insert_user_Ok & Hrun).
  apply tx_bind_Ok in Hrun as (y & d2 & [_ Ed2]%new_uuid_Ok & Hrun).
  apply tx_bind_Ok in Hrun as (u3 & d3 & (Hi1 & _ & Ed3)%taken_if_unique_Ok%insert_row_Ok & Hrun).
  apply tx_bind_Ok in Hrun as (u4 & d4 & Hrole & Hrun). unfold insert_role in Hrole.
  destruct (existsb _ _) in Hrole; [done|]. injection Hrole as _ Ed4.
  apply tx_bind_Ok in Hrun as (u5 & d5 & Hrooms & Hrun).
  destruct (service_rooms_aside d4 (sql_now t) id d4 u5 d5 Hrooms (aside_refl d4)) as [(R1 & R2 & R3 & R4 & R5 & R6) R7].
  apply tx_bind_Ok in Hrun as (cs & d6 & [<- <-]%gets_Ok & Hrun).
  apply tx_bind_Ok in Hrun as (u7 & d7 & Hw & Hrun).
  apply open_wallets_Ok in Hw as ((W1 & W2 & W3 & W4 & W5 & W6) & Hw).
  apply tx_bind_Ok in Hrun as (u8 & d8 & (Hr1 & _ & Ed8)%insert_row_Ok & [<- <-]%tx_ret_Ok).
  subst d1 d2 d3 d4 d8. cbn in *. bool_to_prop. split; [|by eexists].
  assert (Hopen : opened_currencies d5 = opened_currencies db) by (unfold opened_currencies; by rewrite R5).
  rewrite Hopen in Hw. unfold wallets_opened in Hw. rewrite R7 in Hw. cbn in Hw.
  split; cbn.
  - done.
  - rewrite W1, R1, W6, R6. done.
  - intros i u Hu. pose proof (find_row_None _ _ _ _ Hu2 Hu) as Hc. cbn in Hc. by bool_to_prop.
  - exists y. rewrite W3, R3. done.
  - by rewrite W4, R4.
  - done.
  - exists parent, inviter. rewrite W2, R2 in *. done.
Qed.

(** ** The agent tree *)

(** The relations are a forest of users. *)
Record tree_ok (db : DB) : Prop := {
  tr_agents : agents_ok db;
  tr_child : forall id row, agent_relations db.(app) !! id = Some row -> is_Some (users db.(app) !! id);
  tr_parent : forall id p, parent_in (agent_relations db.(app)) id = Some p -> is_Some (users db.(app) !! p)
}.

Lemma chain_member rels id l x : chain rels id l -> x ∈ l -> x = id \/ exists k, parent_in rels k = Some x.
Proof.
  induction 1 as [id Hn|id p l Hp Hc IH]; intros Hx.
  - left. by apply list_elem_of_singleton in Hx.
  - apply elem_of_app in Hx as [Hx|Hx]; [|left; by apply list_elem_of_singleton in Hx].
    destruct (IH Hx) as [->|Hk]; right; eauto.
Qed.

(** Nobody stands below an identifier that is not yet a user. *)
Lemma fresh_unrelated db id p l : tree_ok db -> users db.(app) !! id = None -> is_Some (users db.(app) !! p) ->
  chain (agent_relations db.(app)) p l -> id ∉ l.
Proof.
  intros Hok Hid Hp Hc Hin. destruct (chain_member _ _ _ _ Hc Hin) as [->|(k & Hk)].
  - rewrite Hid in Hp. by destruct Hp.
  - apply (tr_parent _ Hok) in Hk. rewrite Hid in Hk. by destruct Hk.
Qed.

Lemma link_fresh db id p : tree_ok db -> plain_id id -> users db.(app) !! id = None ->
  link (agent_relations db.(app)) id p =
    <[id := mk_agent_relation_row (Some p) (Some (path_above (agent_relations db.(app)) p ++ [agent_label id]))]>
      (agent_relations db.(app)).
Proof.
  intros Hok Hpl Hid. unfold link. cbv zeta. f_equal. apply map_eq. intros k. rewrite map_lookup_imap.
  destruct (agent_relations (app db) !! k) as [row|] eqn:Hk; [|done]. cbn. f_equal.
  destruct (below_label (agent_label id) row) eqn:Hb; [exfalso|done].
  assert (Hf : forest (agent_relations db.(app))) by apply (tr_agents _ Hok).
  destruct (al_parent_user_id row) as [q|] eqn:Hq.
  - destruct (fo_path _ Hf k row q Hk Hq) as (l & Hc & Hpath).
    assert (Hin : id ∈ l).
    { unfold below_label in Hb. rewrite Hpath in Hb. pose proof (chain_plain _ _ _ Hf (fo_plain _ Hf _ _ Hk) Hc) as Hall.
      destruct l as [|x l]; [done|]. cbn in Hb. apply bool_decide_eq_true in Hb. apply Forall_cons in Hall as [Hx _].
      apply agent_label_inj in Hb as ->; [|done..]. apply elem_of_cons. by left. }
    revert Hin. eapply fresh_unrelated; [done|done| |exact Hc]. by eapply tr_child.
  - unfold below_label in Hb. by rewrite (fo_root _ Hf k row Hk Hq) in Hb.
Qed.

(** A user is bound who had no parent and is a user, or who has just become one. *)
Lemma linked_tree db d u p : tree_ok db -> agents_ok d -> (forall id x, users db.(app) !! id = Some x -> is_Some (users d.(app) !! id)) ->
  is_Some (users d.(app) !! u) -> is_Some (users d.(app) !! p) ->
  agent_relations d.(app) = link (agent_relations db.(app)) u p -> tree_ok d.
Proof.
  intros Hok Hag Hus Hu Hp Hl. split; [done| |].
  - intros id row. rewrite Hl. unfold link. cbv zeta. intros [[<- _]|[_ Hr]]%lookup_insert_Some; [done|].
    rewrite map_lookup_imap in Hr. destruct (agent_relations (app db) !! id) as [r0|] eqn:E; [|done].
    destruct (tr_child _ Hok _ _ E) as [x Hx]. by eapply Hus.
  - intros id q. rewrite Hl. destruct (decide (id = u)) as [->|Hne].
    + unfold parent_in, link. cbv zeta. rewrite lookup_insert_eq. cbn. by intros [= <-].
    + unfold parent_in, link. cbv zeta. rewrite lookup_insert_ne, map_lookup_imap by done.
      destruct (agent_relations (app db) !! id) as [r0|] eqn:E; [|done]. cbn. intros Hq.
      destruct (tr_parent _ Hok id q) as [x Hx]; [|by eapply Hus]. unfold parent_in. rewrite E. cbn.
      by destruct (below_label _ r0).
Qed.

Context (ids_plain : forall n, plain_id (uuid_at n)).

Lemma registered_tree name shown hash role code now db id d :
  registered name shown hash role code now db id d -> (exists n, id = uuid_at n) -> tree_ok db ->
  tree_ok d /\ forall k, parent_in (agent_relations d.(app)) k =
    if bool_decide (k = id) then parent_in (agent_relations d.(app)) id else parent_in (agent_relations db.(app)) k.
Proof.
  intros [_ (Hfree & Hus & _) _ _ _ _ (p & u & Hp & _ & _ & Hnr & Hrel)] (n & Hn) Hok.
  assert (Hpl : plain_id id) by (rewrite Hn; apply ids_plain).
  rewrite <- link_fresh in Hrel by done.
  assert (Hf : forest (agent_relations db.(app))) by apply (tr_agents _ Hok).
  destruct (forest_chain _ p Hf) as (l & Hc).
  assert (Hni : id ∉ l) by (eapply fresh_unrelated; [done|done|by eexists|done]).
  assert (Hpp : plain_id p) by (by eapply (ag_plain _ (tr_agents _ Hok))).
  assert (Hnone : parent_in (agent_relations db.(app)) id = None) by (unfold parent_in; by rewrite Hnr).
  assert (Hne : p <> id) by congruence.
  split.
  - eapply linked_tree; [done| | | | |exact Hrel].
    + split; [rewrite Hrel; by eapply link_forest|]. intros k x. rewrite Hus.
      intros [[<- _]|[_ Hk]]%lookup_insert_Some; [done|]. by eapply (ag_plain _ (tr_agents _ Hok)).
    + intros k x Hk. rewrite Hus. destruct (decide (k = id)) as [->|]; [by rewrite lookup_insert_eq|].
      rewrite lookup_insert_ne by done. by eexists.
    + rewrite Hus. by rewrite lookup_insert_eq.
    + rewrite Hus, lookup_insert_ne by done. by eexists.
  - intros k. rewrite Hrel, !link_parent. case_bool_decide; [|done]. by rewrite bool_decide_true.
Qed.

(** A committed transaction of the relations, or anything that leaves them
    alone and removes no user. *)
Inductive tree_step (db db' : DB) : Prop :=
| ts_bind u p : Bind u p db = Ok ((), db') -> tree_step db db'
| ts_admin actor un pn out : AdminBind actor un pn db = Ok (out, db') -> tree_step db db'
| ts_register t name shown hash role code id :
    RegisterPasswordUser t name shown hash role code db = Ok (id, db') -> tree_step db db'
| ts_elsewhere :
    agent_relations db'.(app) = agent_relations db.(app) ->
    (forall id u, users db.(app) !! id = Some u -> is_Some (users db'.(app) !! id)) ->
    (forall id u, users db'.(app) !! id = Some u -> is_Some (users db.(app) !! id) \/ exists n, id = uuid_at n) ->
    tree_step db db'.

Lemma tree_step_ok db db' : tree_step db db' -> tree_ok db ->
  tree_ok db' /\ forall id p, parent_in (agent_relations db.(app)) id = Some p -> parent_in (agent_relations db'.(app)) id = Some p.
Proof.
  intros Hstep Hok. pose proof (tr_agents _ Hok) as Hag.
  destruct Hstep as [u p Hrun|actor un pn out Hrun|t name shown hash role code id Hrun|Hrel Hold Hnew].
  - destruct (Bind_run _ _ _ _ Hrun Hag) as (Hag' & -> & Hn & Hall).
    unfold Bind in Hrun. apply tx_bind_Ok in Hrun as ([] & d & [Hg <-]%reject_if_Ok & Hrun). bool_to_prop.
    apply tx_bind_Ok in Hrun as ([] & d & E & _).
    destruct (ensureRealRelationUsers u p db) as [[[] d0]|e] eqn:E2; [|done].
    apply ensureReal_run in E2 as (_ & a & b & Ha & Hb); [|done]. split.
    + eapply linked_tree; [done|done|by eauto| | |done]; cbn; by eexists.
    + intros id q Hq. rewrite Hall. case_bool_decide; [congruence|done].
  - destruct (AdminBind_run _ _ _ _ _ _ Hrun Hag) as (Hag' & u & p & Hn & Hrel & Hus & (a & Ha & _) & (b & Hb & _) & Hall). split.
    + eapply linked_tree; [done|done| | | |exact Hrel]; rewrite Hus; eauto.
    + intros id q Hq. rewrite Hall. case_bool_decide; [congruence|done].
  - destruct (Register_run _ _ _ _ _ _ _ _ _ Hrun) as [Hreg Hid].
    destruct (registered_tree _ _ _ _ _ _ _ _ _ Hreg Hid Hok) as [Hok' Hall]. split; [done|].
    intros k q Hq. rewrite Hall. case_bool_decide as E; [|done]. exfalso. subst k.
    destruct (rg_inviter _ _ _ _ _ _ _ _ _ Hreg) as (p & u & _ & _ & _ & Hnr & _). unfold parent_in in Hq. by rewrite Hnr in Hq.
  - rewrite Hrel. split; [|done]. split.
    + split; [rewrite Hrel; apply Hag|]. intros id u Hu. destruct (Hnew _ _ Hu) as [[x Hx]|(n & ->)]; [|apply ids_plain].
      by eapply (ag_plain _ Hag).
    + intros id row. rewrite Hrel. intros [x Hx]%(tr_child _ Hok). eauto.
    + intros id p. rewrite Hrel. intros [x Hx]%(tr_parent _ Hok). eauto.
Qed.

Lemma tree_steps_ok db db' : rtc tree_step db db' -> tree_ok db ->
  tree_ok db' /\ forall id p, parent_in (agent_relations db.(app)) id = Some p -> parent_in (agent_relations db'.(app)) id = Some p.
Proof.
  induction 1 as [db|a b c Hab _ IH]; intros Hok; [done|].
  destruct (tree_step_ok _ _ Hab Hok) as [Hb Hp]. destruct (IH Hb) as [Hc Hp']. eauto.
Qed.

(** C14: the relations of agents are a forest, whatever sequence of bindings, of
    bindings by the staff and of registrations built them: following the
    parents of a user ends, meets nobody twice, and is exactly the materialised
    path that the rows store; parent and child are users; and a parent once
    given is never changed. *)
Theorem agent_tree db db' : agent_relations db.(app) = ∅ ->
  (forall id u, users db.(app) !! id = Some u -> plain_id id) -> rtc tree_step db db' ->
  (forall id row p, agent_relations db'.(app) !! id = Some row -> al_parent_user_id row = Some p ->
     is_Some (users db'.(app) !! id) /\ is_Some (users db'.(app) !! p) /\
     exists l, chain (agent_relations db'.(app)) id l /\ NoDup l /\ al_path row = Some (map agent_label l)) /\
  (forall db'' id p, rtc tree_step db' db'' -> parent_in (agent_relations db'.(app)) id = Some p ->
     parent_in (agent_relations db''.(app)) id = Some p).
Proof.
  intros Hempty Hplain Hsteps.
  assert (Hok : tree_ok db).
  { split; [split; [|done]|..].
    - rewrite Hempty. split; intros id row; by rewrite lookup_empty.
    - intros id row. by rewrite Hempty, lookup_empty.
    - intros id p. unfold parent_in. by rewrite Hempty, lookup_empty. }
  destruct (tree_steps_ok _ _ Hsteps Hok) as [Hok' _]. split.
  - intros id row p Hr Hp. split; [by eapply (tr_child _ Hok')|]. split.
    { apply (tr_parent _ Hok' id). unfold parent_in. by rewrite Hr. }
    destruct (fo_path _ (ag_forest _ (tr_agents _ Hok')) id row p Hr Hp) as (l & Hc & Hpath).
    exists l. split; [done|]. split; [by eapply chain_NoDup|done].
  - intros db'' id p Hs Hp. by apply (tree_steps_ok _ _ Hs Hok').
Qed.

(** A registration that succeeds has created, in one transaction, an active
    player with a fresh public number and a login name nobody had, the
    password's credentials, the role, one empty wallet for every currency opened
    on registration and no other, and the place under the inviter, who is the
    agent the invitation code names; no balance and no ledger entry moved. *)
Theorem RegisterPasswordUser_creates t name shown hash role code db userID d :
  RegisterPasswordUser t name shown hash role code db = Ok (userID, d) ->
  registered name shown hash role code (sql_now t) db userID d.
Proof. intros Hrun. by apply Register_run. Qed.

End register.

Definition agent_users : DB :=
  set_app (set_users_public_id_seq 20001 (set_agent_relations ∅ agent_example.(app))) agent_example.

Definition register_dora : Tx string := RegisterPasswordUser noon "dora" "Dora" "hash" "player" 10004.

Lemma numerals_plain n : plain_id (uuid_at n).
Proof.
  assert (Hd : forall fuel z, 0 <= z -> forallb is_digit (format_nat fuel z) = true).
  { induction fuel as [|fuel IH]; intros z Hz; [done|]. cbn [format_nat]. destruct (Z.ltb_spec z 10) as [Hs|Hs].
    - cbn. by rewrite digit_char_digit by lia.
    - pose proof (Z.mod_pos_bound z 10). rewrite forallb_app, IH by (apply Z.div_pos; lia). cbn.
      by rewrite digit_char_digit by lia. }
  assert (E : s2b (uuid_at n) = format_nat 20 (Z.of_nat n)).
  { unfold uuid_at, numeral_ids, FormatInt. rewrite s2b_b2s. unfold format_int.
    by rewrite (proj2 (Z.ltb_ge (Z.of_nat n) 0)) by lia. }
  unfold plain_id. rewrite E. specialize (Hd 20%nat (Z.of_nat n) ltac:(lia)). rewrite forallb_forall in *.
  intros c Hc. specialize (Hd c Hc). unfold is_digit in Hd. bool_to_prop. apply negb_true_iff, Z.eqb_neq. lia.
Qed.

Lemma RegisterPasswordUser_creates_witness : exists id d,
  register_dora agent_users = Ok (id, d) /\
  users d.(app) !! id = Some (mk_user_row "active" false "Dora" 20001 None None (Some "dora"%string) None (sql_now noon)).
Proof.
  assert (E : match register_dora agent_users with Ok _ => true | Err _ => false end = true) by (by vm_compute).
  assert (En : users_public_id_seq agent_users.(app) = 20001) by (by vm_compute).
  unfold register_dora in *. destruct (RegisterPasswordUser _ _ _ _ _ _ agent_users) as [[id d]|e] eqn:Hrun; [|done].
  exists id, d. split; [reflexivity|].
  destruct (RegisterPasswordUser_creates _ _ _ _ _ _ _ _ _ Hrun) as [_ (_ & Hus & _) _ _ _ _ _].
  rewrite Hus, lookup_insert_eq, En. reflexivity.
Defined.

(** Carol is bound to Dave, then Dora registers with Carol's code. *)
Lemma agent_tree_witness : exists d1 d2 id,
  Bind "carol" "dave" agent_users = Ok ((), d1) /\ register_dora d1 = Ok (id, d2) /\
  forall row p, agent_relations d2.(app) !! id = Some row -> al_parent_user_id row = Some p ->
    exists l, chain (agent_relations d2.(app)) id l /\ NoDup l /\ al_path row = Some (map agent_label l).
Proof.
  assert (E : match Bind "carol" "dave" agent_users with
              | Ok (_, d1) => match register_dora d1 with Ok _ => true | Err _ => false end | Err _ => false end = true)
    by (by vm_compute).
  assert (Hplain : forall id u, users agent_users.(app) !! id = Some u -> plain_id id) by apply agent_example_ok.
  assert (Hnone : agent_relations agent_users.(app) = ∅) by reflexivity.
  generalize dependent agent_users. intros db0 E Hplain Hnone. unfold register_dora in *.
  destruct (Bind "carol" "dave" db0) as [[[] d1]|e] eqn:H1; [|done].
  destruct (RegisterPasswordUser _ _ _ _ _ _ d1) as [[id d2]|e] eqn:H2; [|done].
  exists d1, d2, id. split; [reflexivity|split; [exact H2|]]. intros row p Hr Hp.
  destruct (agent_tree numerals_plain db0 d2 Hnone Hplain) as [H _].
  - eapply rtc_l; [by apply (ts_bind _ _ "carol" "dave")|]. apply rtc_once. by eapply ts_register.
  - by apply (H id row p).
Defined.
