(* ===== verification/StaffProofs.v ===== *)
(** * The staff: proofs

    What a role allows ends with the role: over every sequence of calls of the
    authentication service and of the control of users, a request with an
    access token reaches a route of the staff only while its user holds one of
    the roles of the route. *)

From S2P Require Import Prelude GoStrings Base64 Json Schema Store Books Identity Auth Operations AdminSecurity Staff Access Examples IdentityProofs AuthProofs AccessProofs RegisterProofs.

Lemma roles_of_others uid target roles db : target <> uid ->
  AuthProofs.roles_of uid (set_app (set_user_roles
    (map (pair target) roles ++ List.filter (fun r => negb (bool_decide (r.1 = target))) (user_roles db.(app))) db.(app)) db)
  = AuthProofs.roles_of uid db.
Proof.
  intros Hne. unfold AuthProofs.roles_of. cbn. rewrite List.filter_app. do 2 f_equal.
  replace (List.filter _ (map _ _)) with (@nil (string * string)).
  - cbn. induction (user_roles db.(app)) as [|[u r] l IH]; [done|]. cbn.
    destruct (bool_decide_reflect (u = target)) as [->|Ht]; cbn; [by rewrite bool_decide_eq_false_2|].
    case_bool_decide; by rewrite IH.
  - induction roles as [|r l IH]; [done|]. cbn. by rewrite bool_decide_eq_false_2.
Qed.

Section session.
Context `{Uuids} (fresh : forall m n, uuid_at m = uuid_at n -> m = n).
Context (sid uid : string) (roles : list string).

(** The session [sid] was opened for [uid]; as long as it exists, the roles of
    the user are [roles]. *)
Record holds (db : DB) : Prop := {
  hl_drawn : exists k, sid = uuid_at k /\ (k < uuid_count db.(app))%nat;
  hl_user : is_Some (users db.(app) !! uid);
  hl_roles : forall s, sessions db.(app) !! sid = Some s -> se_user_id s = uid /\ AuthProofs.roles_of uid db = roles
}.

Abbreviation keep := (tx_keeps holds).

Lemma holds_same db db' :
  sessions db'.(app) = sessions db.(app) -> user_roles db'.(app) = user_roles db.(app) ->
  (uuid_count db.(app) <= uuid_count db'.(app))%nat ->
  (forall id, is_Some (users db.(app) !! id) -> is_Some (users db'.(app) !! id)) -> holds db -> holds db'.
Proof.
  intros Hs Hr Hc Hu [(k & Hk & Hlt) Hu0 Hro]. split; [exists k; split; [done|lia]|by apply Hu|].
  intros s. rewrite Hs. unfold AuthProofs.roles_of. rewrite Hr. apply Hro.
Qed.

Lemma kept_user (m : gmap string user_row) id r i : is_Some (m !! i) -> is_Some (<[id := r]> m !! i).
Proof. intros Hi. apply lookup_insert_is_Some. destruct (decide (id = i)); [by left|by right]. Qed.

(** Anything that leaves the sessions and the roles alone and removes no user. *)
Ltac quiet := first
  [ apply tx_keeps_new_uuid | apply tx_keeps_modify | apply tx_keeps_insert_row | apply tx_keeps_insert_unless
  | apply tx_keeps_update_row ]; intros; eapply holds_same; try eassumption; cbn; auto using kept_user.

Lemma holds_sessions (m : gmap string session_row) db :
  (forall s, m !! sid = Some s -> exists s0, sessions db.(app) !! sid = Some s0 /\ se_user_id s = se_user_id s0) ->
  holds db -> holds (set_app (set_sessions m db.(app)) db).
Proof.
  intros Hm [Hk Hu Hr]. split; [done|done|]. cbn. intros s (s0 & Hs0 & ->)%Hm. by apply Hr.
Qed.

Lemma CreateSession_holds t userID hash audience expires : keep (CreateSession t userID hash audience expires).
Proof.
  intros db u db' (_ & -> & _ & _)%CreateSession_Ok Hh. destruct Hh as [(k & Hk & Hlt) Hu Hr].
  split; [exists k; split; [done|cbn; lia]|done|]. cbn. intros s [[E _]|[_ (s0 & Hs0 & _ & -> & _)%revoke_all_row]]%lookup_insert_Some.
  - exfalso. rewrite Hk in E. apply fresh in E. lia.
  - by apply Hr.
Qed.

Lemma renewed_holds id s s' db : sessions db.(app) !! id = Some s -> se_user_id s' = se_user_id s ->
  holds db -> holds (put_row (R := session_row) id s' db).
Proof.
  intros Hs Hu. apply (holds_sessions (<[id := s']> (sessions db.(app)))).
  intros x [[<- <-]|[_ Hx]]%lookup_insert_Some; [by exists s|by exists x].
Qed.

Lemma RotateSession_holds t old new audience expires : keep (RotateSession t old new audience expires).
Proof. intros db u db' (id & s & Hs & _ & _ & _ & _ & _ & _ & ->)%RotateSession_Ok. by eapply renewed_holds. Qed.

Lemma RevokeSession_holds t hash : keep (RevokeSession t hash).
Proof. intros db u db' (id & s & Hs & _ & _ & ->)%RevokeSession_Ok. by eapply renewed_holds. Qed.

Lemma UpdatePasswordHash_holds userID hash : keep (UpdatePasswordHash userID hash).
Proof.
  unfold UpdatePasswordHash, select_where, update_where. keeps; [quiet|]. apply tx_keeps_modify. intros db.
  apply holds_sessions. intros s [Hs _]%map_lookup_filter_Some. by exists s.
Qed.

Lemma end_sessions_holds target : keep (end_sessions target).
Proof.
  apply tx_keeps_modify. intros db. apply holds_sessions. cbn. intros s. rewrite map_lookup_imap.
  destruct (sessions (app db) !! sid) as [s0|]; [|done]. cbn. case_bool_decide; [done|]. intros [= ->]. by exists s.
Qed.

(** A change of roles ends the sessions in the same transaction. *)
Lemma replace_roles_holds {A} target roles' (k : Tx A) : keep k -> keep (replace_roles target roles';; end_sessions target;; k).
Proof.
  intros Hk db a db' Hrun Hh. apply tx_bind_Ok in Hrun as ([] & d1 & <-%modify_Ok & Hrun).
  apply tx_bind_Ok in Hrun as ([] & d2 & <-%modify_Ok & Hrun). apply (Hk _ _ _ Hrun). destruct Hh as [Hd Hu Hr].
  split; [done|done|]. cbn. intros s. rewrite map_lookup_imap. destruct (sessions (app db) !! sid) as [s0|]; [|done]. cbn.
  case_bool_decide as Ht; [done|]. intros [= ->]. destruct (Hr s eq_refl) as [Es Er]. split; [done|]. rewrite <- Er.
  by apply roles_of_others; congruence.
Qed.

Lemma insert_role_holds userID role : userID <> uid -> keep (insert_role userID role).
Proof.
  intros Hne db u db'. unfold insert_role. case_match; [done|]. intros [= _ <-] [Hd Hu Hr]. split; [done|done|].
  cbn. intros s Hs. destruct (Hr s Hs) as [Es Er]. split; [done|]. rewrite <- Er. unfold AuthProofs.roles_of. cbn.
  by rewrite bool_decide_eq_false_2.
Qed.

Lemma insert_user_holds id name shown now : keep (insert_user id name shown now).
Proof.
  unfold insert_user. keeps; [|quiet]. intros db n db'. unfold next_public_id. case_match; [done|].
  intros [= _ <-]. by apply holds_same.
Qed.

(** A user who is created is another one. *)
Lemma insert_user_then {A} id name shown now (k : Tx A) :
  (id <> uid -> keep k) -> keep (taken_if_unique (insert_user id name shown now);; k).
Proof.
  intros Hk db a db' Hrun Hh. apply tx_bind_Ok in Hrun as ([] & d & Hi%taken_if_unique_Ok & Hrun).
  assert (Hne : id <> uid).
  { apply insert_user_Ok in Hi as (Hn & _). intros ->. destruct (hl_user _ Hh) as [x Hx]. congruence. }
  apply (Hk Hne _ _ _ Hrun). by eapply insert_user_holds.
Qed.

Lemma open_wallets_holds now userID cs : keep (open_wallets now userID cs).
Proof.
  induction cs as [|c cs IH]; cbn [open_wallets]; keeps; [quiet|].
  intros db b db' [(_ & <- & _)|(_ & _ & _ & <-)]%insert_wallet_Ok; [done|]. by apply holds_same.
Qed.

Lemma service_rooms_holds now userID : keep (ensure_user_customer_service_rooms now userID).
Proof. unfold ensure_user_customer_service_rooms, insert_service_room, join_service_rooms. keeps; quiet. Qed.

Lemma update_user_holds id f : keep (update_user id f).
Proof. unfold update_user. keeps. quiet. Qed.

Lemma insert_audit_holds a : keep (insert_audit a).
Proof. unfold insert_audit. keeps; quiet. Qed.

Lemma lift_holds {A} (m : res A) : keep (lift m).
Proof. by intros db a db' [_ <-]%lift_Ok. Qed.

End session.

(** ** Every call *)

Section calls.
Context `{Uuids} (fresh : forall m n, uuid_at m = uuid_at n -> m = n) (is_uuid : string -> bool).
Context (hmac_sha256 : bytes -> bytes -> bytes) (sha256_hex : bytes -> string).
Context (IDKey : bytes -> bytes -> Z -> Z -> Z -> Z -> bytes).
Context (Marshal : json -> bytes) (Unmarshal : bytes -> raw).

Section kept.
Context (sid uid : string) (roles : list string).
Abbreviation keep := (tx_keeps (holds sid uid roles)).
Abbreviation svc_keep := (svc_keeps (holds sid uid roles)).

Ltac quiet := first
  [ apply tx_keeps_new_uuid | apply tx_keeps_modify | apply tx_keeps_insert_row | apply tx_keeps_insert_unless
  | apply tx_keeps_update_row ]; intros; eapply holds_same; try eassumption; cbn; auto using kept_user.

Ltac read := match goal with |- tx_keeps ?P _ => solve [apply (identity_reads P)] end.

#[local] Hint Extern 1 (tx_keeps _ (FindPasswordCredentials _)) => read : keeps.
#[local] Hint Extern 1 (tx_keeps _ (UserRoles _)) => read : keeps.
#[local] Hint Extern 1 (tx_keeps _ (PublicUserID _)) => read : keeps.
#[local] Hint Extern 1 (tx_keeps _ (PasswordHashByUserID _)) => read : keeps.
#[local] Hint Extern 1 (tx_keeps _ (SecondaryPasswordHashByUserID _)) => read : keeps.
#[local] Hint Extern 1 (tx_keeps _ (LoginBlocked _ _)) => read : keeps.
#[local] Hint Extern 1 (tx_keeps _ (SessionID _ _)) => read : keeps.
#[local] Hint Resolve CreateSession_holds RotateSession_holds RevokeSession_holds UpdatePasswordHash_holds
  end_sessions_holds insert_role_holds open_wallets_holds service_rooms_holds update_user_holds insert_audit_holds
  lift_holds : keeps.

Lemma RecordLoginFailure_holds name now m w l : keep (RecordLoginFailure name now m w l).
Proof. unfold RecordLoginFailure, select_id. keeps; quiet. Qed.

Lemma ClearLoginFailures_holds name : keep (ClearLoginFailures name).
Proof. unfold ClearLoginFailures. quiet. Qed.

Lemma UpdateSecondaryPasswordHash_holds userID hash : keep (UpdateSecondaryPasswordHash userID hash).
Proof. unfold UpdateSecondaryPasswordHash. keeps. quiet. Qed.

Lemma insert_identity_holds id userID name hash : keep (taken_if_unique (insert_identity id userID name hash)).
Proof. apply taken_if_unique_keeps. unfold insert_identity. quiet. Qed.

#[local] Hint Resolve RecordLoginFailure_holds ClearLoginFailures_holds UpdateSecondaryPasswordHash_holds
  insert_identity_holds : keeps.

(** Like [keeps], but past the creation of a user it is another one. *)
Ltac keeps_new :=
  repeat first
    [ apply insert_user_then; intros ?
    | solve [auto with keeps | quiet]
    | apply tx_keeps_bind; [|intros ?]
    | match goal with |- context [match ?x with _ => _ end] => destruct x end
    | progress cbn zeta beta iota ].

Lemma RegisterPasswordUser_holds t name shown hash role code : keep (RegisterPasswordUser t name shown hash role code).
Proof. unfold RegisterPasswordUser, select_where. keeps_new. Qed.

#[local] Hint Resolve RegisterPasswordUser_holds : keeps.

Lemma attach_holds s t raw result audience : svc_keep (attachRefreshToken hmac_sha256 sha256_hex Marshal s t raw result audience).
Proof. unfold attachRefreshToken, sessionAccessToken. keeps. Qed.

#[local] Hint Resolve attach_holds : keeps.

Lemma auth_call_holds db db' :
  auth_call hmac_sha256 sha256_hex IDKey Marshal db db' -> holds sid uid roles db -> holds sid uid roles db'.
Proof.
  assert (Hsvc : forall A (m : Svc A) r, m db = (r, db') -> svc_keep m -> holds sid uid roles db -> holds sid uid roles db')
    by (intros A m r Hr Hm; by eapply Hm).
  intros Hcall. destruct Hcall; match goal with E : _ = (_, db') |- _ => apply (Hsvc _ _ _ E); clear E end.
  - unfold login, login_admitted, login_failed, recordLoginFailure, clear_failures, bare_login. keeps.
  - unfold Register, bare_login. keeps.
  - unfold refresh, sessionAccessToken. keeps.
  - unfold Logout. keeps.
  - unfold ChangePassword. keeps.
  - unfold SetSecondaryPassword. keeps.
  - unfold ChangeSecondaryPassword, VerifySecondaryPassword. keeps.
Qed.

(** *** The control of users *)

Lemma SetUserRoles_holds actor userID requested : keep (SetUserRoles actor userID requested).
Proof.
  unfold SetUserRoles, public_user, select_where.
  repeat first [apply replace_roles_holds | solve [auto with keeps] | apply tx_keeps_bind; [|intros ?] | progress cbn zeta].
Qed.

Lemma SetUserStatus_holds actor userID status : keep (SetUserStatus actor userID status).
Proof. unfold SetUserStatus, public_user, select_where. keeps. Qed.

Lemma DeleteUser_holds userID : keep (DeleteUser userID).
Proof. unfold DeleteUser, public_user, select_where, delete_where. keeps. quiet. Qed.

Lemma SetAgentLevel_holds userID level : keep (SetAgentLevel userID level).
Proof.
  unfold SetAgentLevel, public_user, select_where. keeps.
  intros db b db'. unfold insert_ignore. destruct (insert_row _ _ _ db) as [[u d]|] eqn:E; intros [= _ <-]; [|done].
  apply insert_row_Ok in E as (_ & _ & <-). by apply holds_same.
Qed.

Lemma UpdateCurrentProfile_holds userID name avatar : keep (UpdateCurrentProfile userID name avatar).
Proof. unfold UpdateCurrentProfile. keeps. Qed.

Lemma controlUser_holds actor publicID adminOnly action fn detail :
  (forall target, keep (fn target)) -> keep (controlUser is_uuid actor publicID adminOnly action fn detail).
Proof. intros Hfn. unfold controlUser, public_user, select_where. keeps. quiet. Qed.

Lemma reset_password_holds kind hash target : keep (reset_password kind hash target).
Proof. unfold reset_password, update_where. keeps. quiet. Qed.

#[local] Hint Resolve controlUser_holds reset_password_holds : keeps.

Lemma ResetUserPassword_holds salt actor publicID kind password :
  keep (ResetUserPassword is_uuid IDKey salt actor publicID kind password).
Proof. unfold ResetUserPassword. auto 10 with keeps. Qed.

Lemma SetUserMuted_holds actor publicID muted : keep (SetUserMuted is_uuid actor publicID muted).
Proof. unfold SetUserMuted, mute. apply controlUser_holds. intros target. quiet. Qed.

Lemma ConvertUserToVirtual_holds actor publicID : keep (ConvertUserToVirtual is_uuid actor publicID).
Proof. unfold ConvertUserToVirtual, public_user, select_where. keeps. quiet. Qed.

Lemma CreatePlayerAccount_holds t salt i : keep (CreatePlayerAccount is_uuid IDKey t salt i).
Proof. unfold CreatePlayerAccount, createPasswordAccount, select_id. keeps_new. Qed.

Lemma upsert_balance_Ok id user cur n now db o db' : upsert_balance id user cur n now db = Ok (o, db') ->
  o = None /\ db' = db \/ exists wid w, o = Some wid /\ db' = put_wallet wid w db /\ wallet_ok w = true /\
    (find_row (is_wallet_of user cur) (wallets db.(money)) = None /\ wid = id /\ w = mk_wallet user cur n 0 0 now /\
       wallets db.(money) !! id = None \/
     exists v, find_row (is_wallet_of user cur) (wallets db.(money)) = Some (wid, v) /\ w = set_available n v).
Proof.
  unfold upsert_balance. destruct (negb _); [intros [= <- <-]; by left|].
  destruct (find_row _ _) as [[old v]|] eqn:Ef; (destruct (negb (wallet_ok _)) eqn:Hok; [done|]); apply negb_false_iff in Hok;
    (destruct (_ && _) eqn:Ep; [done|]); intros [= <- <-]; right; eexists _, _; (do 3 (split; [done|])).
  - right. by exists v.
  - left. rewrite bool_decide_true in Ep by done. cbn in Ep. case_bool_decide as Hn; [done|]. apply eq_None_not_Some in Hn. done.
Qed.

Lemma upsert_balance_holds id user cur n now : keep (upsert_balance id user cur n now).
Proof.
  intros d o d' [[_ ->]|(wid & w & _ & -> & _)]%upsert_balance_Ok; [done|].
  intros Hh. eapply holds_same; try eassumption; cbn; auto using kept_user.
Qed.

Lemma insert_ledger_holds li now : keep (insert_ledger li now).
Proof. intros d u d' (w & _ & _ & <-)%insert_ledger_Ok Hh. eapply holds_same; try eassumption; cbn; auto using kept_user. Qed.
#[local] Hint Resolve upsert_balance_holds insert_ledger_holds : keeps.

Lemma fund_wallets_holds now user l : keep (fund_wallets now user l).
Proof.
  induction l as [|[c n] l IH]; cbn [fund_wallets]; unfold fund_wallet; keeps; quiet.
Qed.

#[local] Hint Resolve fund_wallets_holds : keeps.

Lemma CreateVirtualAccount_holds t salt i : keep (CreateVirtualAccount is_uuid IDKey t salt i).
Proof. unfold CreateVirtualAccount, createPasswordAccount, select_id, insert_automation. keeps_new. Qed.

End kept.
(** A committed change of a user by the staff. *)
Inductive staff_call (db db' : DB) : Prop :=
| sc_roles actor userID requested x : SetUserRoles actor userID requested db = Ok (x, db') -> staff_call db db'
| sc_status actor userID status x : SetUserStatus actor userID status db = Ok (x, db') -> staff_call db db'
| sc_delete userID x : DeleteUser userID db = Ok (x, db') -> staff_call db db'
| sc_level userID level x : SetAgentLevel userID level db = Ok (x, db') -> staff_call db db'
| sc_profile userID name avatar x : UpdateCurrentProfile userID name avatar db = Ok (x, db') -> staff_call db db'
| sc_reset salt actor publicID kind password x :
    ResetUserPassword is_uuid IDKey salt actor publicID kind password db = Ok (x, db') -> staff_call db db'
| sc_muted actor publicID muted x : SetUserMuted is_uuid actor publicID muted db = Ok (x, db') -> staff_call db db'
| sc_virtual actor publicID x : ConvertUserToVirtual is_uuid actor publicID db = Ok (x, db') -> staff_call db db'
| sc_player t salt i x : CreatePlayerAccount is_uuid IDKey t salt i db = Ok (x, db') -> staff_call db db'
| sc_virtual_account t salt i x : CreateVirtualAccount is_uuid IDKey t salt i db = Ok (x, db') -> staff_call db db'.

(** The rest of the platform: it leaves the sessions and the roles alone,
    removes no user and draws identifiers. *)
Record elsewhere (db db' : DB) : Prop := {
  ew_sessions : sessions db'.(app) = sessions db.(app);
  ew_roles : user_roles db'.(app) = user_roles db.(app);
  ew_count : (uuid_count db.(app) <= uuid_count db'.(app))%nat;
  ew_users : forall id, is_Some (users db.(app) !! id) -> is_Some (users db'.(app) !! id)
}.

Inductive account_step (db db' : DB) : Prop :=
| ac_auth_call : auth_call hmac_sha256 sha256_hex IDKey Marshal db db' -> account_step db db'
| ac_staff_call : staff_call db db' -> account_step db db'
| ac_elsewhere : elsewhere db db' -> account_step db db'.

Lemma staff_call_holds sid uid roles db db' : staff_call db db' -> holds sid uid roles db -> holds sid uid roles db'.
Proof.
  assert (Htx : forall A (m : Tx A) x, m db = Ok (x, db') -> tx_keeps (holds sid uid roles) m ->
    holds sid uid roles db -> holds sid uid roles db') by (intros A m x Hr Hm; by eapply Hm).
  destruct 1; match goal with E : _ = Ok _ |- _ => apply (Htx _ _ _ E) end;
    auto using SetUserRoles_holds, SetUserStatus_holds, DeleteUser_holds, SetAgentLevel_holds, UpdateCurrentProfile_holds,
      ResetUserPassword_holds, SetUserMuted_holds, ConvertUserToVirtual_holds, CreatePlayerAccount_holds, CreateVirtualAccount_holds.
Qed.

Lemma account_steps_hold sid uid roles db db' : rtc account_step db db' -> holds sid uid roles db -> holds sid uid roles db'.
Proof.
  induction 1 as [|a b c [Hab|Hab|[H1 H2 H3 H4]] _ IH]; [done|..]; intros Hh; apply IH.
  - by eapply auth_call_holds.
  - by eapply staff_call_holds.
  - by apply (holds_same _ _ _ a).
Qed.

(** *** Issued tokens *)

Definition token_claims (s : AuthService) (t : clock) (r : LoginResult) (sid : string) : AccessTokenClaims :=
  mk_claims sid (au_UserID r) (au_Roles r) (unix (go_now t))
    (if 0 <? accessLifetime s then unix (go_now t + accessLifetime s) else 0).

(** The keys of the sessions were drawn. *)
Definition ids_drawn (db : DB) : Prop :=
  forall i, is_Some (sessions db.(app) !! i) -> exists k, i = uuid_at k /\ (k < uuid_count db.(app))%nat.

Abbreviation session_of t r db := (SessionID t (hashRefreshToken sha256_hex (au_RefreshToken r)) db).

(** What a token stands for when it is handed out. *)
Definition stands_for (s : AuthService) (t : clock) (r : LoginResult) (db : DB) : Prop := exists sid,
  session_of t r db = Ok (sid, db) /\ holds sid (au_UserID r) (au_Roles r) db /\
  IssueAccessToken hmac_sha256 Marshal (sa_secret s) (au_UserID r) (au_Roles r) (go_now t) (accessLifetime s) sid
    = Ok (au_AccessToken r).

Lemma SessionID_Ok t hash db sid d : SessionID t hash db = Ok (sid, d) ->
  d = db /\ exists x, sessions db.(app) !! sid = Some x /\ se_token_hash x = hash.
Proof.
  unfold SessionID. intros Hrun. apply tx_bind_Ok in Hrun as (o & d' & [<- <-]%gets_Ok & Hrun).
  apply tx_bind_Ok in Hrun as ([k x] & d' & [Hfind <-]%found_Ok & [<- <-]%tx_ret_Ok).
  apply find_row_Some in Hfind as [Hk Hp]. bool_to_prop. split; [done|]. by exists x.
Qed.

Lemma active_known userID db : user_is_active userID db = true -> is_Some (users db.(app) !! userID).
Proof. unfold user_is_active. by destruct (users (app db) !! userID). Qed.

Lemma sessionAccessToken_Ok s t userID roles hash db token db' : sa_sessions s = true ->
  sessionAccessToken hmac_sha256 Marshal s t userID roles hash db = (Ok token, db') ->
  exists sid, SessionID t hash db = Ok (sid, db) /\ db' = db /\
    IssueAccessToken hmac_sha256 Marshal (sa_secret s) userID roles (go_now t) (accessLifetime s) sid = Ok token.
Proof.
  unfold sessionAccessToken. intros -> Hrun. apply svc_bind_Ok in Hrun as (sid & d & Hsid%atomically_Ok & Hrun).
  apply svc_lift_inv in Hrun as [Hi ->]. destruct (SessionID_Ok _ _ _ _ _ Hsid) as [-> _]. by exists sid.
Qed.

Lemma attach_session s t raw res0 audience db r db' : sa_sessions s = true ->
  attachRefreshToken hmac_sha256 sha256_hex Marshal s t raw res0 audience db = (Ok r, db') ->
  session_of t r db' = Ok (drawn db, db').
Proof.
  unfold attachRefreshToken. intros Hs. rewrite Hs. cbn [negb]. intros [_ Hrun]%svc_reject_go.
  apply svc_bind_Ok in Hrun as (token & d & [_ ->]%svc_lift_inv & Hrun).
  apply svc_bind_Ok in Hrun as ([] & d & Hc%atomically_Ok & Hrun).
  destruct (CreateSession_Ok _ _ _ _ _ _ _ _ Hc) as (_ & -> & _ & Hfresh).
  apply svc_bind_Ok in Hrun as (access & d & Ha & Hrun). injection Hrun as <- <-.
  destruct (sessionAccessToken_Ok _ _ _ _ _ _ _ _ Hs Ha) as (sid & Hsid & -> & _). cbn.
  by destruct (SessionID_new t (mk_session_row (au_UserID res0) (hashRefreshToken sha256_hex token) audience
    (sessionExpiresAt s (go_now t)) None) db sid _ Hfresh Hsid) as (-> & _ & _).
Qed.

Lemma login_stands s t raw name password audience db r db' : sa_sessions s = true ->
  login hmac_sha256 sha256_hex IDKey Marshal s t raw name password audience db = (Ok r, db') -> stands_for s t r db'.
Proof.
  intros Hs Hrun. destruct (login_Ok _ _ _ _ _ _ _ _ _ _ _ _ _ Hs Hrun) as (c & d & _ & _ & _ & _ & Eu & Er & _ & _ & res0 & _ & Ha).
  pose proof (attach_session _ _ _ _ _ _ _ _ Hs Ha) as Hsid.
  destruct (attach_Ok _ _ _ _ _ _ _ _ _ _ _ Hs Ha) as (_ & _ & _ & Hact & Edb & _ & _ & Hi).
  exists (drawn d). split; [done|split; [|done]]. subst db'. split.
  - exists (uuid_count d.(app)). split; [done|cbn; lia].
  - by apply active_known in Hact.
  - cbn. intros x [[_ <-]|[Hne _]]%lookup_insert_Some; [|done]. split; [done|]. by rewrite Er, Eu.
Qed.

Lemma refresh_stands s t raw token audience db r db' : ids_drawn db ->
  refresh hmac_sha256 sha256_hex Marshal s t raw token audience db = (Ok r, db') -> stands_for s t r db'.
Proof.
  intros Hids Hrun. destruct (refresh_Ok _ _ _ _ _ _ _ _ _ _ _ Hrun) as (Hrot & Hs & _ & Er).
  destruct (RotateSession_Ok _ _ _ _ _ _ _ _ Hrot) as (id & x & Hx & _ & _ & _ & Hact & Eu & Hno & Edb).
  assert (Hsid : exists sid, session_of t r db' = Ok (sid, db') /\
    IssueAccessToken hmac_sha256 Marshal (sa_secret s) (au_UserID r) (au_Roles r) (go_now t) (accessLifetime s) sid
      = Ok (au_AccessToken r)).
  { unfold refresh in Hrun. apply svc_reject_go in Hrun as [_ Hrun].
    apply svc_bind_Ok in Hrun as (new & d & _ & Hrun). apply svc_bind_Ok in Hrun as (u & d1 & _ & Hrun).
    apply svc_bind_Ok in Hrun as (roles & d2 & _ & Hrun).
    destruct (negb _) in Hrun; [by apply svc_bind_Ok in Hrun as (? & ? & _ & ?)|].
    apply svc_bind_Ok in Hrun as (public & d3 & _ & Hrun). apply svc_bind_Ok in Hrun as (access & d4 & Ha & [= <- <-]).
    destruct (sessionAccessToken_Ok _ _ _ _ _ _ _ _ Hs Ha) as (sid & Hsid & -> & Hi). by exists sid. }
  destruct Hsid as (sid & Hsid & Hi). exists sid. split; [done|split; [|done]].
  destruct (SessionID_Ok _ _ _ _ _ Hsid) as [_ (y & Hy & Hh)]. subst db'.
  assert (Es : sid = id /\ y = renew_session (hashRefreshToken sha256_hex (au_RefreshToken r)) (sessionExpiresAt s (go_now t)) x).
  { cbn in Hy. apply lookup_insert_Some in Hy as [[<- <-]|[Hne Hy]]; [done|]. exfalso. by apply (Hno _ _ Hy (not_eq_sym Hne)). }
  destruct Es as [-> ->]. destruct (Hids id) as (k & Ek & Hk); [by exists x|]. split.
  - by exists k.
  - by apply active_known in Hact.
  - cbn. rewrite lookup_insert_eq. intros z [= <-]. by rewrite Er.
Qed.

(** *** Reading a token *)

Lemma dec_claims_inv c c' : dec_claims (claims_json c) = Some c' -> c' = c.
Proof.
  intros Hd. assert (Hr : in_int64 (at_IssuedAt c) /\ in_int64 (at_ExpiresAt c)).
  { destruct c as [sid sub roles iat exp]. unfold claims_json, dec_claims, dec_struct in Hd.
    cbn [at_SessionID at_Subject at_Roles at_IssuedAt at_ExpiresAt] in *.
    assert (Hint : forall z old n, dec_int64 old (JInt z) = Some n -> in_int64 z).
    { intros z old n. unfold dec_int64, in_int64. intros Hz. destruct (_ && _) eqn:E in Hz; [|done]. bool_to_prop. lia. }
    destruct (bool_decide (sid = ""%string)), (exp =? 0) eqn:E0; bool_to_prop; cbn [Datatypes.app foldl fst snd] in Hd;
    repeat match type of Hd with context [is_key ?a ?b] =>
      let v := eval vm_compute in (is_key a b) in change (is_key a b) with v in Hd end;
    cbn [mbind option_bind dec_string] in Hd;
    destruct (dec_strings _ _); cbn [mbind option_bind] in Hd; try discriminate;
    destruct (dec_int64 _ (JInt iat)) eqn:Ei; cbn [mbind option_bind] in Hd; try discriminate;
    try (destruct (dec_int64 _ (JInt exp)) eqn:Ee; cbn [mbind option_bind] in Hd; try discriminate);
    split; eauto; subst; unfold in_int64, int64_min, int64_max; lia. }
  destruct Hr as [Hi He]. rewrite (dec_claims_json c Hi He) in Hd. by injection Hd as ->.
Qed.

Lemma issued_claims s t r sid now c :
  IssueAccessToken hmac_sha256 Marshal (sa_secret s) (au_UserID r) (au_Roles r) (go_now t) (accessLifetime s) sid
    = Ok (au_AccessToken r) ->
  Unmarshal (Marshal token_header) = Some token_header ->
  Unmarshal (Marshal (claims_json (token_claims s t r sid))) = Some (claims_json (token_claims s t r sid)) ->
  VerifyAccessToken hmac_sha256 Unmarshal (sa_secret s) (au_AccessToken r) now = Ok c -> c = token_claims s t r sid.
Proof.
  intros Hi Hh Hb Hv. destruct (token_parts _ _ _ _ _ _ _ _ _ Hi) as (Hlen & _ & _ & _ & _ & Hsplit).
  rewrite (verify_parts _ _ _ _ _ _ _ _ Hsplit Hlen) in Hv by (by rewrite decode_part).
  rewrite bool_decide_eq_true_2 in Hv by done. rewrite decode_part in Hv by done.
  destruct (dec_claims _) as [c'|] eqn:Ed; [|done]. destruct (claims_valid now c'); [|done]. injection Hv as <-.
  by apply dec_claims_inv in Ed.
Qed.

Lemma substring_self x : String.substring 0 (String.length x) x = x.
Proof. induction x as [|c x IH]; cbn; [done|by rewrite IH]. Qed.

Lemma bearer_token x y : bearer ("Bearer " ++ x)%string = Some y -> y = x.
Proof.
  unfold bearer. destruct (HasPrefix _ _); [|done]. change (String.length ("Bearer " ++ x)) with (7 + String.length x)%nat.
  replace (7 + String.length x - 7)%nat with (String.length x) by lia.
  change (String.substring 7 (String.length x) ("Bearer " ++ x)%string) with (String.substring 0 (String.length x) x).
  rewrite substring_self. case_bool_decide; [done|]. congruence.
Qed.

Lemma roles_of_row uid role db : role ∈ AuthProofs.roles_of uid db -> (uid, role) ∈ user_roles db.(app).
Proof.
  unfold AuthProofs.roles_of. rewrite merge_sort_Permutation. intros ([u r] & -> & Hin)%list_elem_of_fmap.
  apply list_elem_of_In, filter_In in Hin as [Hin Hu]. apply bool_decide_eq_true in Hu. cbn in *. subst.
  by apply list_elem_of_In.
Qed.

Lemma HasRole_row c roles : claims_HasRole c roles = true -> exists role, role ∈ roles /\ role ∈ at_Roles c.
Proof.
  unfold claims_HasRole. intros (wanted & Hw & (owned & Ho & E%String.eqb_eq)%existsb_exists)%existsb_exists. subst.
  exists wanted. by rewrite !list_elem_of_In.
Qed.

(** C18: A role taken away is powerless at once.  Take an access token handed out
    by a login or a refresh, and let any calls of the authentication service, any
    changes of users by the staff and anything else that leaves sessions and
    roles alone come after it, one after the other.  When a request with that token then reaches an
    endpoint of a route that asks for a role, its user is active and holds one of
    the roles of the route at that moment, whatever the token says. *)
Theorem authority_current convert cfg s t raw name password refreshToken audience db r db1 db2 t2 req
    endpoint claims ps body db3 :
  sa_sessions s = true -> ids_drawn db ->
  login hmac_sha256 sha256_hex IDKey Marshal s t raw name password audience db = (Ok r, db1) \/
    refresh hmac_sha256 sha256_hex Marshal s t raw refreshToken audience db = (Ok r, db1) ->
  Unmarshal (Marshal token_header) = Some token_header ->
  (forall sid, session_of t r db1 = Ok (sid, db1) ->
     Unmarshal (Marshal (claims_json (token_claims s t r sid))) = Some (claims_json (token_claims s t r sid))) ->
  rtc account_step db1 db2 ->
  ac_auth cfg = Some (sa_secret s) -> ac_sessions cfg = true ->
  rq_authorization req = ("Bearer " ++ b2s (au_AccessToken r))%string ->
  serve is_uuid hmac_sha256 Unmarshal IDKey convert cfg t2 req db2 = (Handled endpoint claims ps body, db3) ->
  exists rt g, rt ∈ all_routes /\ serves_request rt req = true /\ guards_of (rt_handler rt) = Some g /\
    endpoint = gd_name g /\
    forall roles, gd_roles g = Some roles ->
      user_is_active (au_UserID r) db2 = true /\ exists role, role ∈ roles /\ (au_UserID r, role) ∈ user_roles db2.(app).
Proof.
  intros Hs Hids Hissue Hhead Hbody Hsteps Ha Hsess Hreq Hrun.
  assert (Hst : stands_for s t r db1) by (destruct Hissue; [by eapply login_stands|by eapply refresh_stands]).
  destruct Hst as (sid & Hsid & Hh & Hi). specialize (Hbody sid Hsid). apply (account_steps_hold _ _ _ _ _ Hsteps) in Hh.
  destruct (serve_run _ _ _ _ _ _ _ _ _ _ _ _ _ _ _ Ha Hsess Hrun) as (rt & g & Hin & Hsr & Hg & Hn & Had & _).
  exists rt, g. repeat (split; [done|]). intros roles Hr. destruct Had as [_ Hcs Hcr _ _].
  destruct (Hcs (guards_session _ _ _ Hg Hr)) as (c & Ec & token & Hb & Hv & x & Hx & Eu & _ & Hact).
  destruct (Hcr _ Hr) as (c' & Ec' & Hhas). assert (c' = c) as -> by congruence.
  rewrite Hreq in Hb. apply bearer_token in Hb as ->. rewrite s2b_b2s in Hv.
  pose proof (issued_claims _ _ _ _ _ _ Hi Hhead Hbody Hv) as ->. cbn in Hx, Eu, Hact.
  split; [done|]. destruct (hl_roles _ _ _ _ Hh _ Hx) as [_ Er].
  destruct (HasRole_row _ _ Hhas) as (role & H1 & H2). cbn in H2. exists role. split; [done|]. apply roles_of_row. by rewrite Er.
Qed.

End calls.

(** ** A concrete run

    An administrator logs in, sets the level of a player and deletes another. *)

Definition unary_ids : Uuids := fun n => b2s (repeat (byte_at 120) (S n)).

Lemma unary_fresh m n : unary_ids m = unary_ids n -> m = n.
Proof.
  unfold unary_ids. intros E. apply (f_equal s2b) in E. rewrite !s2b_b2s in E. apply (f_equal length) in E.
  rewrite !repeat_length in E. by injection E.
Qed.

Definition admin_login : Svc LoginResult :=
  login (H := unary_ids) example_hmac example_sha example_key example_marshal example_auth noon (Ok (s2b "raw-1")) " staff "
    "secret" AudienceAdmin.

Definition entered : DB := (admin_login staffed_db).2.
Definition levelled : DB := run_or (SetAgentLevel "10002" 3) entered.

Definition admin_claims : AccessTokenClaims :=
  mk_claims (@drawn unary_ids staffed_db) "staff" ["admin"]%string (unix (go_now noon)) (unix (go_now noon + 900000000000)).

Definition admin_unmarshal (b : bytes) : raw :=
  Some (if bool_decide (b = s2b "h") then token_header else claims_json admin_claims).

Definition admin_token : string :=
  match admin_login staffed_db with (Ok r, _) => b2s (au_AccessToken r) | _ => ""%string end.

Definition removal : request :=
  mk_request "DELETE" ["v1"; "admin"; "users"; "10001"]%string "" ("Bearer " ++ admin_token)
    (Some (JObj [("second_password", JStr "again")]%string)).

Definition serve_removal : DB -> outcome * DB :=
  serve (fun _ => true) example_hmac admin_unmarshal example_key (fun _ _ j => Ok j) example_access noon removal.

Definition sid_of (r : res (string * DB)) : string := match r with Ok (sid, _) => sid | Err _ => ""%string end.

Lemma authority_current_witness :
  (serve_removal levelled).1 =
    Handled "deleteUser" (Some admin_claims) [("userID", "10001")]%string (Some (JObj [])) /\
  user_is_active "staff" levelled = true /\
  exists role, role ∈ [RoleAdmin; RoleOperator] /\ ("staff"%string, role) ∈ user_roles levelled.(app).
Proof.
  assert (E : (serve_removal levelled).1 =
    Handled "deleteUser" (Some admin_claims) [("userID", "10001")]%string (Some (JObj []))) by (vm_compute; reflexivity).
  split; [exact E|].
  assert (Hlogin : match admin_login staffed_db with
    | (Ok r, d) => b2s (au_AccessToken r) = admin_token /\ au_UserID r = "staff"%string /\
        token_claims example_auth noon r (sid_of (SessionID noon (hashRefreshToken example_sha (au_RefreshToken r)) d)) = admin_claims
    | _ => False end) by (vm_compute; repeat split; reflexivity).
  assert (Hlevel : match SetAgentLevel "10002" 3 entered with Ok _ => true | Err _ => false end = true) by (vm_compute; reflexivity).
  destruct (SetAgentLevel "10002" 3 entered) as [[u d]|] eqn:Hset; [|discriminate Hlevel].
  assert (Hd : levelled = d) by (unfold levelled, run_or; by rewrite Hset).
  unfold entered in Hset. destruct (admin_login staffed_db) as [[r|e] d0] eqn:Hrun; [|destruct Hlogin].
  destruct Hlogin as (Htok & Hu & Hcl).
  destruct (serve_removal levelled) as [out db3] eqn:Hserve. cbn [fst] in E. subst out. rewrite Hd in *. cbn [snd] in Hset.
  destruct (authority_current (H := unary_ids) unary_fresh (fun _ => true) example_hmac example_sha example_key example_marshal
    admin_unmarshal (fun _ _ j => Ok j) example_access example_auth noon (Ok (s2b "raw-1")) " staff " "secret" "" AudienceAdmin
    staffed_db r d0 d noon removal "deleteUser" (Some admin_claims) [("userID", "10001")]%string (Some (JObj [])) db3 eq_refl) as (rt & g & Hin & Hsr & Hg & Hn & Hroles).
  - intros i [x Hx]. assert (En : sessions (app staffed_db) = ∅) by reflexivity. rewrite En in Hx. by rewrite lookup_empty in Hx.
  - left. exact Hrun.
  - reflexivity.
  - intros sid Hsid. rewrite Hsid in Hcl. cbn [sid_of] in Hcl. rewrite Hcl. reflexivity.
  - apply rtc_once, ac_staff_call. exact (sc_level _ _ _ _ "10002" 3 u Hset).
  - reflexivity.
  - reflexivity.
  - by rewrite Htok.
  - exact Hserve.
  - destruct (deletion_route rt g Hin Hg Hn) as [_ Hr]. specialize (Hroles _ Hr). rewrite Hu in Hroles. exact Hroles.
Defined.
