(* ===== verification/NewAccounts.v ===== *)
(** * New accounts and their money

    Whatever a new account writes leaves the books and what is frozen alone; the
    initial balances of a virtual one are booked, because the wallets of a user
    who has just been created are empty. *)

From S2P Require Import Prelude GoStrings Json Schema Store Books Custody Frames Identity AuthProofs Operations Staff StaffProofs.

(** The rows of a new account: what leaves money and requests alone keeps [P],
    and so does opening an empty wallet. *)
Section rows.
Context `{Uuids} (is_uuid : string -> bool) (P : DB -> Prop).

Record rows_keep : Prop := {
  rk_aside : forall d d', money d' = money d -> withdrawals d'.(app) = withdrawals d.(app) ->
    point_withdrawals d'.(app) = point_withdrawals d.(app) -> lulu_orders d'.(app) = lulu_orders d.(app) -> P d -> P d';
  rk_open : forall id u c now d, wallets d.(money) !! id = None -> find_row (is_wallet_of u c) (wallets d.(money)) = None ->
    P d -> P (put_wallet id (mk_wallet u c 0 0 0 now) d)
}.

Context (HP : rows_keep).

Lemma rows_uuid : tx_keeps P new_uuid.
Proof. apply tx_keeps_new_uuid. intros d. by apply HP. Qed.

Lemma rows_modify f : (forall d, money (f d) = money d /\ withdrawals (f d).(app) = withdrawals d.(app) /\
    point_withdrawals (f d).(app) = point_withdrawals d.(app) /\ lulu_orders (f d).(app) = lulu_orders d.(app)) ->
  tx_keeps P (modify f).
Proof. intros Hf. apply tx_keeps_modify. intros d. destruct (Hf d) as (? & ? & ? & ?). by apply HP. Qed.
#[local] Hint Resolve rows_uuid : keeps.

Lemma rows_public : tx_keeps P next_public_id.
Proof. intros d u d' Hrun. unfold next_public_id in Hrun. destruct (_ <? _); [done|]. injection Hrun as _ <-. by apply HP. Qed.
#[local] Hint Resolve rows_public : keeps.

Lemma rows_user id name shown now : tx_keeps P (insert_user id name shown now).
Proof. unfold insert_user. keeps. apply tx_keeps_insert_row. intros d. by apply HP. Qed.

Lemma rows_update_user id f : tx_keeps P (update_user id f).
Proof. unfold update_user. keeps. apply tx_keeps_update_row. intros d r. by apply HP. Qed.

Lemma rows_identity id user name hash : tx_keeps P (insert_identity id user name hash).
Proof. apply tx_keeps_insert_row. intros d. by apply HP. Qed.

Lemma rows_role user role : tx_keeps P (insert_role user role).
Proof. intros d u d' Hrun. unfold insert_role in Hrun. destruct (existsb _ _); [done|]. injection Hrun as _ <-. by apply HP. Qed.

Lemma rows_rooms now user : tx_keeps P (ensure_user_customer_service_rooms now user).
Proof.
  unfold ensure_user_customer_service_rooms, insert_service_room, join_service_rooms.
  keeps; first [apply tx_keeps_modify | apply tx_keeps_insert_unless]; intros d; by apply HP.
Qed.

Lemma rows_wallets now user l : tx_keeps P (open_wallets now user l).
Proof.
  induction l as [|c l IH]; cbn [open_wallets]; keeps.
  intros d b d' [(_ & <- & _)|(_ & Hnone & Hid & <-)]%insert_wallet_Ok; [done|].
  intros Hd. by apply (rk_open HP).
Qed.

Lemma rows_audit a : tx_keeps P (insert_audit a).
Proof. apply tx_keeps_modify. intros d. by apply HP. Qed.

Lemma rows_taken m : tx_keeps P m -> tx_keeps P (taken_if_unique m).
Proof. apply taken_if_unique_keeps. Qed.
End rows.

#[export] Hint Resolve rows_uuid rows_public rows_user rows_update_user rows_identity rows_role rows_rooms rows_wallets
  rows_audit rows_taken : keeps.

(** ** Accounts with money *)

Section accounts.
Context `{Uuids} (is_uuid : string -> bool) (IDKey : bytes -> bytes -> Z -> Z -> Z -> Z -> bytes).

Lemma rows_custody : rows_keep custody.
Proof. split; [intros; by eapply custody_app|intros; by apply custody_open]. Qed.

(** The wallets of the user hold nothing. *)
Definition unfunded (user : string) (d : DB) : Prop := forall wid w,
  wallets d.(money) !! wid = Some w -> w_user_id w = user -> w_available w = 0.

Lemma rows_unfunded user : rows_keep (fun d => custody d /\ unfunded user d).
Proof.
  split.
  - intros d d' Hm Hw Hp Hl [Hcu Hu]. split; [by eapply custody_app|]. intros wid w. rewrite Hm. apply Hu.
  - intros id u c now d Hid Hno [Hcu Hu]. split; [by apply custody_open|]. intros wid w. cbn.
    destruct (decide (wid = id)) as [->|Hne]; [rewrite lookup_insert_eq; by intros [= <-]|].
    rewrite lookup_insert_ne by done. apply Hu.
Qed.

(** FOREIGN KEY (user_id) REFERENCES users of the table of wallets. *)
Definition wallets_fk (db : DB) : Prop := forall wid w, wallets db.(money) !! wid = Some w -> is_Some (users db.(app) !! w_user_id w).

Lemma insert_user_fresh id name shown now d u d' : taken_if_unique (insert_user id name shown now) d = Ok (u, d') ->
  wallets_fk d -> unfunded id d'.
Proof.
  unfold taken_if_unique. intros Hrun Hfk. destruct (insert_user id name shown now d) as [[[] x]|e] eqn:E; [|by destruct e].
  injection Hrun as _ <-. unfold insert_user in E. apply tx_bind_Ok in E as (n & d1 & E1 & E). unfold next_public_id in E1. destruct (_ <? _); [done|].
  injection E1 as _ <-. apply insert_row_Ok in E as (Hid & _ & <-). intros wid w Hw Hu. cbn in Hw. apply Hfk in Hw.
  rewrite Hu in Hw. cbn in Hid. rewrite Hid in Hw. by destruct Hw.
Qed.

Lemma createPasswordAccount_new t actor avatar name shown hash virtual db id acc db' :
  createPasswordAccount is_uuid t actor avatar name shown hash virtual db = Ok ((id, acc), db') ->
  custody db -> wallets_fk db -> custody db' /\ unfunded id db'.
Proof.
  intros Hrun Hcu Hfk. unfold createPasswordAccount in Hrun. apply tx_bind_Ok in Hrun as ([] & d & E & Hrun).
  assert (d = db) as ->.
  { case_bool_decide; [by apply tx_ret_Ok in E as [_ <-]|]. apply tx_bind_Ok in E as ([] & d1 & [_ <-]%reject_if_Ok & E).
    rewrite gets_skip in E. by apply reject_if_Ok in E as [_ <-]. }
  clear E.
  apply tx_bind_Ok in Hrun as (x & d & E & Hrun). apply new_uuid_Ok in E as [<- <-].
  apply tx_bind_Ok in Hrun as ([] & d & E & Hrun).
  assert (Hd : custody d /\ unfunded (drawn db) d).
  { split; [|by eapply insert_user_fresh]. assert (Hk : tx_keeps custody (taken_if_unique (insert_user (drawn db) name shown (sql_now t)))).
    { apply taken_if_unique_keeps, rows_user, rows_custody. }
    apply (Hk _ _ _ E). by apply (custody_app db). }
  clear E. revert Hrun Hd. pose proof (rows_unfunded (drawn db)) as HP.
  match goal with |- ?m d = _ -> _ => assert (Hk : tx_keeps (fun d => custody d /\ unfunded (drawn db) d) m) end.
  { unfold select_id. keeps; eauto with keeps. }
  intros Hrun Hd. assert (id = drawn db) as ->.
  { repeat (apply tx_bind_Ok in Hrun as (? & ? & _ & Hrun)). by apply tx_ret_Ok in Hrun as [[= <- _] _]. }
  by apply (Hk _ _ _ Hrun).
Qed.

Lemma CreatePlayerAccount_custody t salt i db x db' :
  CreatePlayerAccount is_uuid IDKey t salt i db = Ok (x, db') -> custody db -> custody db'.
Proof.
  assert (Hk : tx_keeps custody (CreatePlayerAccount is_uuid IDKey t salt i)).
  { pose proof rows_custody as HP. unfold CreatePlayerAccount, createPasswordAccount, select_id. keeps; eauto with keeps. }
  apply Hk.
Qed.

(** *** The initial balances *)

(** The wallets of the user in these currencies hold nothing. *)
Definition unfunded_in (user : string) (l : list string) (d : DB) : Prop := forall wid w,
  wallets d.(money) !! wid = Some w -> w_user_id w = user -> w_currency w ∈ l -> w_available w = 0.

(** Opening a wallet with its balance is opening it empty and crediting it. *)
Lemma fund_wallet_keeps now user c n l d u d' : fund_wallet now user c n d = Ok (u, d') ->
  custody d -> unfunded_in user (c :: l) d -> c ∉ l -> custody d' /\ unfunded_in user l d'.
Proof.
  intros Hrun Hcu Hun Hnew. unfold fund_wallet in Hrun. apply tx_bind_Ok in Hrun as ([] & d0 & E & Hrun). apply reject_if_Ok in E as [_ <-].
  apply tx_bind_Ok in Hrun as (id & d0 & E & Hrun). apply new_uuid_Ok in E as [<- <-].
  apply tx_bind_Ok in Hrun as (o & d1 & E & Hrun). apply upsert_balance_Ok in E as [[-> ->]|(wid & w' & -> & -> & Hok & Hw)]; [done|].
  apply tx_bind_Ok in Hrun as (? & d1 & E & Hrun). apply found_Ok in E as [[= <-] <-].
  assert (exists w d0, custody d0 /\ wallets d0.(money) !! wid = Some w /\ w_available w = 0 /\ w_frozen w = w_frozen w' /\
    w_user_id w' = w_user_id w /\ w_currency w' = w_currency w /\ w_user_id w = user /\ w_currency w = c /\ w_available w' = n /\
    (forall i x, wallets d0.(money) !! i = Some x -> i <> wid -> wallets d.(money) !! i = Some x) /\
    money (put_wallet wid w' (tick d)) = mk_Money (<[wid := w']> (wallets d0.(money))) (ledger d0.(money)) /\
    app d0 = app (tick d)) as (w & d0 & Hcu0 & Hw0 & Ha & Hf & Hu & Hc & Hus & Hcs & Hn & Hold & Hm & Happ).
  { destruct Hw as [(Hno & -> & -> & Hid)|(v & Hv & ->)].
    - exists (mk_wallet user c 0 0 0 now), (put_wallet (drawn d) (mk_wallet user c 0 0 0 now) (tick d)).
      split; [apply custody_open; [by apply (custody_app d)|done..]|]. cbn. rewrite lookup_insert_eq, insert_insert_eq.
      split_and!; try done. intros i x Hx Hne. by rewrite lookup_insert_ne in Hx.
    - apply find_wallet_row in Hv as (Hv & Hvu & Hvc). exists v, (tick d). split; [by apply (custody_app d)|].
      split; [done|]. split; [apply (Hun wid v); [done|done|rewrite Hvc; by left]|]. by split_and!. }
  assert (Hun' : forall dd, wallets dd.(money) = <[wid := w']> (wallets d0.(money)) -> unfunded_in user l dd).
  { intros dd E i x Hx Hxu Hxl. rewrite E in Hx. destruct (decide (i = wid)) as [->|Hne].
    - rewrite lookup_insert_eq in Hx. injection Hx as <-. rewrite Hc, Hcs in Hxl. done.
    - rewrite lookup_insert_ne in Hx by done. apply (Hun i x); [by apply Hold|done|by right]. }
  destruct (0 <? n) eqn:Hpos.
  - apply tx_bind_Ok in Hrun as (e & d1 & E & Hrun). apply new_uuid_Ok in E as [<- <-].
    apply insert_ledger_Ok in Hrun as (x & Hx & _ & <-). cbn [li_wallet_id entry] in Hx.
    rewrite money_tick, Hm in Hx. cbn in Hx. rewrite lookup_insert_eq in Hx. injection Hx as <-.
    split; [|apply Hun'; rewrite money_post_ledger; cbn [wallets]; by rewrite money_tick, Hm].
    set (r := ledger_row_of w' now (entry (drawn (put_wallet wid w' (tick d))) wid "virtual_initial_balance" user "virtual_initial_balance" n n)).
    assert (Hpo : posted d0 (post_ledger (entry (drawn (put_wallet wid w' (tick d))) wid "virtual_initial_balance" user
      "virtual_initial_balance" n n) w' now (tick (put_wallet wid w' (tick d)))) wid w w' r).
    { split; [done..| | | | | | ]; cbn; try lia; try done. cbn in Hm. injection Hm as -> ->. done. }
    apply (custody_quiet d0); [done|eapply posted_books; [exact Hpo|apply Hcu0]|].
    eapply posted_quiet; [exact Hpo|done|..]; cbn; by rewrite Happ.
  - apply tx_ret_Ok in Hrun as [_ <-]. split; [|apply Hun'; by rewrite Hm].
    assert (n = 0) by (apply wallet_ok_iff in Hok; lia).
    apply (custody_quiet d0); [done|rewrite Hm; apply (books_touch _ _ w); [apply Hcu0|done..|lia|done]|].
    split; [cbn; by rewrite Happ..| |]; rewrite Hm; [intros i; by apply (frozen_update_same _ _ _ w)|by apply (keeps_owners_update _ _ _ w)].
Qed.

Lemma fund_wallets_keeps now user l d u d' : fund_wallets now user l d = Ok (u, d') ->
  custody d -> unfunded_in user (map fst l) d -> NoDup (map fst l) -> custody d'.
Proof.
  revert d u. induction l as [|[c n] l IH]; intros d u Hrun Hcu Hun Hnd; cbn [fund_wallets] in Hrun; [by apply tx_ret_Ok in Hrun as [_ <-]|].
  apply tx_bind_Ok in Hrun as (v & d1 & E & Hrun). cbn in Hnd. apply NoDup_cons in Hnd as [Hc Hnd].
  destruct (fund_wallet_keeps _ _ _ _ _ _ _ _ E Hcu Hun Hc) as [Hcu1 Hun1]. by eapply IH.
Qed.

Lemma CreateVirtualAccount_custody t salt i db x db' :
  CreateVirtualAccount is_uuid IDKey t salt i db = Ok (x, db') -> NoDup (map fst (vi_InitialBalances i)) ->
  custody db -> wallets_fk db -> custody db'.
Proof.
  intros Hrun Hnd Hcu Hfk. unfold CreateVirtualAccount in Hrun. cbv zeta in Hrun.
  apply tx_bind_Ok in Hrun as ([] & d & E & Hrun). apply reject_if_Ok in E as [_ <-].
  apply tx_bind_Ok in Hrun as (b & d & E & Hrun). apply lift_Ok in E as [_ <-].
  apply tx_bind_Ok in Hrun as ([id account] & d & E & Hrun).
  destruct (createPasswordAccount_new _ _ _ _ _ _ _ _ _ _ _ E Hcu Hfk) as [Hcu1 Hun].
  apply tx_bind_Ok in Hrun as (u & d1 & E1 & Hrun).
  assert (Hcu2 : custody d1) by (eapply fund_wallets_keeps; [exact E1|done|intros wid w Hw Hu _; by eapply Hun|done]).
  apply tx_bind_Ok in Hrun as (v & d2 & E2 & Hrun). apply tx_ret_Ok in Hrun as [_ <-].
  assert (Hk : tx_keeps custody (insert_automation id)).
  { unfold insert_automation. keeps. apply (rows_modify _ rows_custody). done. }
  by apply (Hk _ _ _ E2).
Qed.

End accounts.
