(* ===== verification/OutboxProofs.v ===== *)
(** * The outbox: proofs

    What the processor relies on, as a class of laws over an abstract view of an
    outbox - every event with its fate -, discharged by both implementations;
    what one run of the processor does; and that the queue empties. *)

From S2P Require Import Prelude GoStrings Json Schema Store Books Outbox Examples.

(** ** The contract *)

Inductive fate : Type :=
| Waiting (attempts : Z)
| Sent
| Dead.

Abbreviation view := (gmap string (Event * fate)).

Definition sent (x : Event * fate) : Event * fate := (x.1, Sent).

Definition failed (n : Z) (x : Event * fate) : Event * fate :=
  (x.1, match x.2 with Waiting k => if n <=? k + 1 then Dead else Waiting (k + 1) | f => f end).

Definition is_waiting (f : fate) : bool := match f with Waiting _ => true | _ => false end.

Definition waiting (v : view) : list Event := map (fun kv => kv.2.1) (List.filter (fun kv => is_waiting kv.2.2) (map_to_list v)).

(** The largest number of attempts the laws are stated for: the column is an
    INTEGER. *)
Definition attempts_max : Z := 2147483646.

(** What the laws ask of an identifier and of an event: the text of a UUID as
    the database writes it, and a time in whole microseconds. *)
Definition canonical `{UuidText} (id : string) : Prop := uuid_of id = Some id.

Definition event_ok `{UuidText} (e : Event) : Prop :=
  canonical (ev_ID e) /\ timestamptz (ev_OccurredAt e) = ev_OccurredAt e.

(** [late] is the answer to a failure of an event that is dead already. *)
Class OutboxLaws (S : Type) `{Outbox S, UuidText} (view_of : S -> view) (wf : S -> Prop) (late : bool) := {
  view_id s id x : wf s -> view_of s !! id = Some x -> ev_ID x.1 = id;
  view_uuid s id x : wf s -> view_of s !! id = Some x -> canonical id;
  view_attempts s id e k : wf s -> view_of s !! id = Some (e, Waiting k) -> 0 <= k;
  append_law e s : wf s -> event_ok e -> exists s', Append e s = (Ok (), s') /\ wf s' /\
    view_of s' = match view_of s !! ev_ID e with Some _ => view_of s | None => <[ev_ID e := (e, Waiting 0)]> (view_of s) end;
  pending_law limit s : wf s -> exists all, all ≡ₚ waiting (view_of s) /\ Sorted occurs_before all /\
    Pending limit s = first_of limit all;
  published_law id at_ s : wf s -> canonical id -> exists s',
    MarkPublished id at_ s = (if bool_decide (is_Some (view_of s !! id)) then Ok () else Err ErrEventNotFound, s') /\
    wf s' /\ view_of s' = alter sent id (view_of s);
  failure_law id at_ reason n s :
    wf s -> canonical id -> 0 < n <= attempts_max -> InPostgres.storable reason = true -> exists s',
    RecordFailure id at_ reason n s = (match view_of s !! id with
      | None => Err ErrEventNotFound
      | Some (_, Waiting k) => Ok (n <=? k + 1)
      | Some (_, Sent) => Ok false
      | Some (_, Dead) => Ok late
      end, s') /\ wf s' /\ view_of s' = alter (failed n) id (view_of s)
}.

Lemma waiting_In v e : e ∈ waiting v <-> exists id k, v !! id = Some (e, Waiting k).
Proof.
  unfold waiting. rewrite list_elem_of_In, in_map_iff. split.
  - intros ([id [e' f]] & <- & [Hin Hw]%List.filter_In). cbn in *. apply list_elem_of_In, elem_of_map_to_list in Hin.
    destruct f as [k| |]; [by exists id, k|done..].
  - intros (id & k & Hid). exists (id, (e, Waiting k)). split; [done|]. apply List.filter_In. split; [|done].
    by apply list_elem_of_In, elem_of_map_to_list.
Qed.

(** Events selected by their identifiers are all different. *)
Lemma events_NoDup {X} (g : string * X -> Event) (f : string * X -> bool) (m : gmap string X) :
  (forall id x, m !! id = Some x -> ev_ID (g (id, x)) = id) ->
  NoDup (map g (List.filter f (map_to_list m))).
Proof.
  intros Hid. apply (NoDup_fmap_1 ev_ID). change (NoDup (map ev_ID (map g (List.filter f (map_to_list m))))). rewrite map_map.
  assert (E : map (fun kv => ev_ID (g kv)) (List.filter f (map_to_list m)) = map fst (List.filter f (map_to_list m))).
  { apply map_ext_in. intros [id x] [Hin _]%List.filter_In. apply list_elem_of_In, elem_of_map_to_list in Hin.
    by rewrite (Hid id x). }
  rewrite E. apply filter_keys_NoDup, NoDup_fst_map_to_list.
Qed.

Lemma alter_none {X} (g : X -> X) (v : gmap string X) id : v !! id = None -> alter g id v = v.
Proof.
  intros Hn. apply map_eq. intros i. destruct (decide (i = id)) as [->|Hne]; [by rewrite lookup_alter_eq, Hn|by rewrite lookup_alter_ne].
Qed.

(** ** In memory *)

Section memory.
Context {HU : UuidText} (ranged : list Event -> list Event) (ranged_perm : forall l, ranged l ≡ₚ l).
#[local] Instance memory_outbox : Outbox MemoryOutbox := InMemory.outbox ranged.

Definition mem_fate (o : MemoryOutbox) (id : string) : fate :=
  if bool_decide (is_Some (mo_published o !! id)) then Sent
  else if bool_decide (is_Some (mo_dead o !! id)) then Dead
  else Waiting (default 0 (mo_attempts o !! id)).

Definition mem_view (o : MemoryOutbox) : view := map_imap (fun id e => Some (e, mem_fate o id)) (mo_events o).

Record mem_wf (o : MemoryOutbox) : Prop := {
  mw_uuid : forall id e, mo_events o !! id = Some e -> canonical id;
  mw_id : forall id e, mo_events o !! id = Some e -> ev_ID e = id;
  mw_fresh : forall id, mo_events o !! id = None ->
    mo_published o !! id = None /\ mo_dead o !! id = None /\ mo_attempts o !! id = None;
  mw_attempts : forall id n, mo_attempts o !! id = Some n -> mo_dead o !! id = None -> 0 <= n < attempts_max
}.

Lemma mem_view_lookup o id : mem_view o !! id = (fun e => (e, mem_fate o id)) <$> mo_events o !! id.
Proof. unfold mem_view. rewrite map_lookup_imap. by destruct (mo_events o !! id). Qed.

Lemma mem_view_change o o' id g :
  mo_events o' = mo_events o -> (forall i, i <> id -> mem_fate o' i = mem_fate o i) ->
  (forall e, mo_events o !! id = Some e -> (e, mem_fate o' id) = g (e, mem_fate o id)) ->
  mem_view o' = alter g id (mem_view o).
Proof.
  intros E Hother Hself. apply map_eq. intros i. destruct (decide (i = id)) as [->|Hne].
  - rewrite lookup_alter_eq, !mem_view_lookup, E. destruct (mo_events o !! id) as [e|] eqn:Ee; [|done]. cbn.
    f_equal. by apply Hself.
  - rewrite lookup_alter_ne, !mem_view_lookup, E by done. destruct (mo_events o !! i); [|done]. cbn. by rewrite Hother.
Qed.

#[export] Instance memory_outbox_laws : OutboxLaws MemoryOutbox mem_view mem_wf true.
Proof.
  split.
  - intros o id x Hwf. rewrite mem_view_lookup. destruct (mo_events o !! id) as [e|] eqn:E; [|done].
    intros [= <-]. by apply (mw_id _ Hwf).
  - intros o id x Hwf. rewrite mem_view_lookup. destruct (mo_events o !! id) as [e|] eqn:E; [|done].
    intros _. by apply (mw_uuid _ Hwf _ _ E).
  - intros o id e k Hwf. rewrite mem_view_lookup. destruct (mo_events o !! id) as [e0|]; [|done]. cbn. intros [= -> Hf].
    unfold mem_fate in Hf. repeat case_bool_decide; try done. injection Hf as <-.
    destruct (mo_attempts o !! id) as [z|] eqn:E; [|done]. cbn. apply (mw_attempts _ Hwf id); [done|].
    by apply eq_None_not_Some.
  - intros e o Hwf [Hcan _]. cbn. unfold InMemory.Append. rewrite mem_view_lookup.
    destruct (mo_events o !! ev_ID e) as [e0|] eqn:E; cbn; [by eexists|].
    destruct (mw_fresh _ Hwf _ E) as (H1 & H2 & H3). eexists. split; [done|]. split.
    + split; cbn.
      * intros id x [[<- <-]|[_ Hx]]%lookup_insert_Some; [done|by apply (mw_uuid _ Hwf id x)].
      * intros id x [[<- <-]|[_ Hx]]%lookup_insert_Some; [done|by apply (mw_id _ Hwf)].
      * intros id [Hid _]%lookup_insert_None. by apply (mw_fresh _ Hwf).
      * apply (mw_attempts _ Hwf).
    + apply map_eq. intros id. rewrite mem_view_lookup. cbn. destruct (decide (id = ev_ID e)) as [->|Hne].
      * rewrite !lookup_insert_eq. cbn. unfold mem_fate. cbn. by rewrite H1, H2, H3.
      * rewrite !lookup_insert_ne by done. by rewrite mem_view_lookup.
  - intros limit o Hwf. eexists. split; [|split; [|reflexivity]].
    + rewrite merge_sort_Permutation, ranged_perm. unfold waiting.
      apply NoDup_Permutation.
      * apply events_NoDup. apply (mw_id _ Hwf).
      * apply events_NoDup. intros id x. rewrite mem_view_lookup. destruct (mo_events o !! id) as [e|] eqn:E; [|done].
        intros [= <-]. by apply (mw_id _ Hwf).
      * intros e. change (map (fun kv => kv.2.1) (List.filter (fun kv => is_waiting kv.2.2) (map_to_list (mem_view o))))
          with (waiting (mem_view o)). rewrite waiting_In, list_elem_of_In, in_map_iff. split.
        -- intros ([id e'] & <- & [Hin Hp]%List.filter_In). apply list_elem_of_In, elem_of_map_to_list in Hin.
           unfold InMemory.is_pending in Hp. cbn in *. bool_to_prop. exists id. eexists. rewrite mem_view_lookup, Hin. cbn.
           unfold mem_fate. by rewrite !bool_decide_eq_false_2 by done.
        -- intros (id & k & Hid). rewrite mem_view_lookup in Hid. destruct (mo_events o !! id) as [e'|] eqn:E; [|done].
           injection Hid as -> Hf. exists (id, e). split; [done|]. apply List.filter_In. split.
           { by apply list_elem_of_In, elem_of_map_to_list. }
           unfold InMemory.is_pending, mem_fate in *. cbn. repeat case_bool_decide; done.
    + apply Sorted_merge_sort. intros x y. unfold occurs_before. lia.
  - intros id at_ o Hwf Hcan. cbn. unfold InMemory.MarkPublished. rewrite mem_view_lookup.
    destruct (mo_events o !! id) as [e|] eqn:E; cbn.
    + destruct (mo_published o !! id) as [p|] eqn:Ep; cbn; eexists; (split; [done|]).
      * split; [done|]. apply mem_view_change; [done..|]. intros x _. unfold sent, mem_fate. cbn. by rewrite Ep.
      * split; [split; cbn; [apply (mw_uuid _ Hwf)|apply (mw_id _ Hwf)| |apply (mw_attempts _ Hwf)]|].
        -- intros i Hi. rewrite lookup_insert_ne by congruence. by apply (mw_fresh _ Hwf).
        -- apply mem_view_change; [done|..].
           ++ intros i Hne. unfold mem_fate. cbn. by rewrite lookup_insert_ne.
           ++ intros x _. unfold sent, mem_fate. cbn. by rewrite lookup_insert_eq.
    + eexists. split; [done|]. split; [done|]. apply mem_view_change; [done|done|]. intros x Hx. congruence.
  - intros id at_ reason n o Hwf Hcan Hn _. cbn. unfold InMemory.RecordFailure. rewrite (proj2 (Z.leb_gt _ _)) by lia.
    rewrite mem_view_lookup. destruct (mo_events o !! id) as [e|] eqn:E; cbn.
    2:{ eexists. split; [done|]. split; [done|]. apply mem_view_change; [done|done|]. intros x Hx. congruence. }
    destruct (mo_published o !! id) as [p|] eqn:Ep; cbn.
    { assert (Hf : mem_fate o id = Sent) by (unfold mem_fate; by rewrite Ep). rewrite Hf. eexists. split; [done|].
      split; [done|]. apply mem_view_change; [done|done|]. intros x _. by rewrite Hf. }
    destruct (mo_dead o !! id) as [d|] eqn:Ed; cbn.
    { assert (Hf : mem_fate o id = Dead) by (unfold mem_fate; by rewrite Ep, Ed). rewrite Hf. eexists. split; [done|].
      split; [done|]. apply mem_view_change; [done|done|]. intros x _. by rewrite Hf. }
    assert (Hf : mem_fate o id = Waiting (default 0 (mo_attempts o !! id))) by (unfold mem_fate; by rewrite Ep, Ed).
    rewrite Hf. set (k := default 0 (mo_attempts o !! id)) in *.
    assert (Hk : 0 <= k < attempts_max).
    { unfold k. destruct (mo_attempts o !! id) as [z|] eqn:Ez; cbn; [by apply (mw_attempts _ Hwf _ _ Ez)|unfold attempts_max; lia]. }
    assert (Hw : wrap64 (k + 1) = k + 1) by (apply wrap64_small; unfold in_int64, int64_min, int64_max, attempts_max in *; lia).
    rewrite Hw. destruct (Z.leb_spec n (k + 1)) as [Hle|Hlt]; eexists; (split; [reflexivity|]); split.
    + split; cbn; [apply (mw_uuid _ Hwf)|apply (mw_id _ Hwf)|..].
      * intros i Hi. destruct (mw_fresh _ Hwf _ Hi) as (H1 & H2 & H3). rewrite !lookup_insert_ne by congruence. done.
      * intros i z [[<- <-]|[Hne Hz]]%lookup_insert_Some Hd; [by rewrite lookup_insert_eq in Hd|].
        rewrite lookup_insert_ne in Hd by done. by apply (mw_attempts _ Hwf i).
    + apply mem_view_change; [done|..].
      * intros i Hne. unfold mem_fate. cbn. by rewrite !lookup_insert_ne by done.
      * intros x _. unfold failed. cbn [fst snd]. rewrite Hf. unfold mem_fate. cbn. rewrite Ep, lookup_insert_eq. cbn.
        by rewrite (proj2 (Z.leb_le _ _) Hle).
    + split; cbn; [apply (mw_uuid _ Hwf)|apply (mw_id _ Hwf)|..].
      * intros i Hi. destruct (mw_fresh _ Hwf _ Hi) as (H1 & H2 & H3). rewrite lookup_insert_ne by congruence. done.
      * intros i z [[<- <-]|[Hne Hz]]%lookup_insert_Some Hd; [lia|by apply (mw_attempts _ Hwf i)].
    + apply mem_view_change; [done|..].
      * intros i Hne. unfold mem_fate. cbn. by rewrite lookup_insert_ne by done.
      * intros x _. unfold failed. cbn [fst snd]. rewrite Hf. unfold mem_fate. cbn. rewrite Ep, Ed, lookup_insert_eq. cbn.
        by rewrite (proj2 (Z.leb_gt _ _) Hlt).
Qed.

End memory.

(** ** In Postgres *)

Section postgres.
Context {HU : UuidText}.

Definition pg_fate (o : outbox_row) : fate :=
  match ob_published_at o, ob_failed_at o with
  | Some _, _ => Sent
  | None, Some _ => Dead
  | None, None => Waiting (ob_attempts o)
  end.

Definition pg_entry (o : outbox_row) : string * (Event * fate) := (ob_id o, (InPostgres.event_of o, pg_fate o)).

Definition pg_view (db : DB) : view := list_to_map (map pg_entry (outbox db.(app))).

Record pg_wf (db : DB) : Prop := {
  pw_uuid : forall o, o ∈ outbox db.(app) -> canonical (ob_id o);
  pw_unique : NoDup (map ob_id (outbox db.(app)));
  pw_attempts : forall o, o ∈ outbox db.(app) -> ob_published_at o = None ->
    0 <= ob_attempts o <= attempts_max /\ (ob_failed_at o = None -> ob_attempts o < attempts_max)
}.

Lemma pg_keys l : (map pg_entry l).*1 = map ob_id l.
Proof. induction l as [|o l IH]; [done|]. cbn. by rewrite IH. Qed.

Lemma pg_view_Some db id x : pg_wf db ->
  pg_view db !! id = Some x <-> exists o, o ∈ outbox db.(app) /\ pg_entry o = (id, x).
Proof.
  intros Hwf. unfold pg_view. rewrite <- elem_of_list_to_map by (rewrite pg_keys; apply Hwf).
  rewrite list_elem_of_In, in_map_iff. setoid_rewrite list_elem_of_In. split; intros (o & H1 & H2); by exists o.
Qed.

Lemma pg_known db id : pg_wf db -> InPostgres.known id db = bool_decide (is_Some (pg_view db !! id)).
Proof.
  intros Hwf. unfold InPostgres.known. apply Bool.eq_iff_eq_true. rewrite existsb_exists, bool_decide_eq_true. split.
  - intros (o & Hin & Hid). apply bool_decide_eq_true in Hid as <-. eexists. apply pg_view_Some; [done|].
    exists o. split; [by apply list_elem_of_In|done].
  - intros [x Hx]. apply pg_view_Some in Hx as (o & Hin & [= <- _]); [|done]. exists o.
    split; [by apply list_elem_of_In|by apply bool_decide_eq_true].
Qed.

Lemma pg_view_map (h : outbox_row -> outbox_row) id g l :
  (forall o, ob_id (h o) = ob_id o) -> (forall o, ob_id o <> id -> h o = o) ->
  (forall o, o ∈ l -> ob_id o = id -> (pg_entry (h o)).2 = g (pg_entry o).2) ->
  (list_to_map (map pg_entry (map h l)) : view) = alter g id (list_to_map (map pg_entry l)).
Proof.
  intros Hid Hother Hself. apply map_eq. intros i. induction l as [|o l IH]; cbn [map].
  { destruct (decide (i = id)) as [->|Hne]; [by rewrite lookup_alter_eq|by rewrite lookup_alter_ne]. }
  assert (Hl : forall o', o' ∈ l -> ob_id o' = id -> (pg_entry (h o')).2 = g (pg_entry o').2)
    by (intros o' Ho'; apply Hself, elem_of_cons; by right).
  rewrite (surjective_pairing (pg_entry (h o))), (surjective_pairing (pg_entry o)). cbn [fst]. rewrite !list_to_map_cons.
  change ((pg_entry (h o)).1) with (ob_id (h o)). change ((pg_entry o).1) with (ob_id o). rewrite Hid.
  specialize (IH Hl). destruct (decide (ob_id o = i)) as [<-|Hi].
  - rewrite lookup_insert_eq. destruct (decide (ob_id o = id)) as [E|E].
    + rewrite <- E, lookup_alter_eq, lookup_insert_eq. cbn. f_equal. apply Hself; [apply elem_of_cons; by left|done].
    + rewrite lookup_alter_ne, lookup_insert_eq by done. by rewrite Hother.
  - rewrite lookup_insert_ne, IH by done. destruct (decide (i = id)) as [->|Hne].
    + by rewrite !lookup_alter_eq, lookup_insert_ne.
    + by rewrite !lookup_alter_ne, lookup_insert_ne.
Qed.

Definition with_outbox (l : list outbox_row) (db : DB) : DB := set_app (set_outbox l db.(app)) db.

(** An UPDATE of the rows of one identifier that satisfy [P]. *)
Lemma update_outbox_run id P f db :
  (forall o, ob_id (f o) = ob_id o) ->
  (forall o, o ∈ outbox db.(app) -> P o = true -> ob_attempts (f o) <= InPostgres.int4_max) ->
  InPostgres.update_outbox id P f db =
    Ok (map f (List.filter (fun o => InPostgres.has_id id o && P o) (outbox db.(app))),
        with_outbox (map (fun o => if InPostgres.has_id id o && P o then f o else o) (outbox db.(app))) db).
Proof.
  intros Hid Hmax. unfold InPostgres.update_outbox. destruct (existsb _ _) eqn:E; [|done]. exfalso.
  apply existsb_exists in E as (o & [Hin Ho]%List.filter_In & Hlt). bool_to_prop.
  assert (ob_attempts (f o) <= InPostgres.int4_max); [|lia]. apply Hmax; [by apply list_elem_of_In|done].
Qed.

(** The rows of the identifier, at most one of which there is. *)
Lemma pg_row db id : pg_wf db ->
  match pg_view db !! id with
  | Some x => exists o, o ∈ outbox db.(app) /\ ob_id o = id /\ x = (InPostgres.event_of o, pg_fate o) /\
      forall P, List.filter (fun o => InPostgres.has_id id o && P o) (outbox db.(app)) = if P o : bool then [o] else []
  | None => forall P, List.filter (fun o => InPostgres.has_id id o && P o) (outbox db.(app)) = []
  end.
Proof.
  intros Hwf. destruct (pg_view db !! id) as [x|] eqn:E.
  - apply pg_view_Some in E as (o & Hin & [= Hid <-]); [|done]. exists o. split; [done|]. split; [done|]. split; [done|].
    intros P. pose proof (pw_unique _ Hwf) as Hnd. revert Hin Hnd. induction (outbox (app db)) as [|a l IH]; [by intros ?%elem_of_nil|].
    cbn. intros Hin [Hni Hnd]%NoDup_cons. apply elem_of_cons in Hin as [<-|Hin].
    + assert (Hrest : List.filter (fun o' => InPostgres.has_id id o' && P o') l = []).
      { clear IH. induction l as [|b l IHl]; [done|]. cbn.
        apply not_elem_of_cons in Hni as [Hb Hni]. apply NoDup_cons in Hnd as [_ Hnd].
        unfold InPostgres.has_id at 1. rewrite bool_decide_eq_false_2 by congruence. cbn. by apply IHl. }
      rewrite Hrest. unfold InPostgres.has_id. rewrite bool_decide_eq_true_2 by done. cbn. by destruct (P o).
    + rewrite IH by done. unfold InPostgres.has_id. rewrite bool_decide_eq_false_2; [done|]. intros Ha.
      apply Hni, list_elem_of_In, in_map_iff. exists o. split; [congruence|by apply list_elem_of_In].
  - intros P. destruct (List.filter _ _) as [|o l] eqn:Ef; [done|]. exfalso.
    assert (Hin : List.In o (List.filter (fun o => InPostgres.has_id id o && P o) (outbox db.(app)))) by (rewrite Ef; by left).
    apply List.filter_In in Hin as [Hin Ho]. bool_to_prop. apply bool_decide_eq_true in H.
    assert (pg_view db !! id = Some (InPostgres.event_of o, pg_fate o)); [|congruence]. apply pg_view_Some; [done|].
    exists o. split; [by apply list_elem_of_In|]. unfold pg_entry. by rewrite H.
Qed.

(** One row changes, under the same identifier and within the bounds. *)
Lemma pg_wf_map (h : outbox_row -> outbox_row) db : pg_wf db ->
  (forall o, ob_id (h o) = ob_id o) ->
  (forall o, o ∈ outbox db.(app) -> ob_published_at (h o) = None ->
     0 <= ob_attempts (h o) <= attempts_max /\ (ob_failed_at (h o) = None -> ob_attempts (h o) < attempts_max)) ->
  pg_wf (with_outbox (map h (outbox db.(app))) db).
Proof.
  intros Hwf Hid Hb. split; cbn.
  - intros o Ho. apply list_elem_of_In, in_map_iff in Ho as (o0 & <- & Hin). rewrite Hid.
    apply (pw_uuid _ Hwf). by apply list_elem_of_In.
  - rewrite map_map. rewrite (map_ext _ ob_id) by done. apply Hwf.
  - intros o Ho. apply list_elem_of_In, in_map_iff in Ho as (o0 & <- & Hin). apply Hb. by apply list_elem_of_In.
Qed.

Lemma pg_waiting db : pg_wf db ->
  map InPostgres.event_of (List.filter InPostgres.is_pending (outbox db.(app))) ≡ₚ waiting (pg_view db).
Proof.
  intros Hwf. apply NoDup_Permutation.
  - apply (NoDup_fmap_1 ev_ID). change (NoDup (map ev_ID (map InPostgres.event_of
      (List.filter InPostgres.is_pending (outbox db.(app)))))). rewrite map_map. cbn.
    pose proof (pw_unique _ Hwf) as Hnd. induction (outbox (app db)) as [|o l IH]; [constructor|].
    cbn in Hnd. apply NoDup_cons in Hnd as [Hni Hnd]. cbn. destruct (InPostgres.is_pending o); [|by apply IH].
    cbn. apply NoDup_cons. split; [|by apply IH]. intros Hin. apply Hni.
    apply list_elem_of_In in Hin. apply in_map_iff in Hin as (x & Hx & [Hin _]%List.filter_In).
    apply list_elem_of_In, in_map_iff. by exists x.
  - apply events_NoDup. intros id x Hx. by apply pg_view_Some in Hx as (o & _ & [= <- <-]).
  - intros e. change (map (fun kv => kv.2.1) (List.filter (fun kv => is_waiting kv.2.2) (map_to_list (pg_view db))))
      with (waiting (pg_view db)). rewrite waiting_In, list_elem_of_In, in_map_iff. split.
    + intros (o & <- & [Hin Hp]%List.filter_In). exists (ob_id o), (ob_attempts o). apply pg_view_Some; [done|]. exists o.
      split; [by apply list_elem_of_In|]. unfold pg_entry, pg_fate. unfold InPostgres.is_pending, InPostgres.unpublished in Hp.
      bool_to_prop. by destruct (ob_published_at o), (ob_failed_at o).
    + intros (id & k & Hid). apply pg_view_Some in Hid as (o & Hin & [= _ <- Hf]); [|done]. exists o. split; [done|].
      apply List.filter_In. split; [by apply list_elem_of_In|]. unfold pg_fate in Hf.
      unfold InPostgres.is_pending, InPostgres.unpublished. by destruct (ob_published_at o), (ob_failed_at o).
Qed.

Lemma outbox_order_total : Total InPostgres.outbox_order.
Proof.
  intros x y. unfold InPostgres.outbox_order. destruct (Z.ltb_spec (ob_occurred_at x) (ob_occurred_at y)); [by left|].
  destruct (Z.ltb_spec (ob_occurred_at y) (ob_occurred_at x)); [by right|].
  rewrite (proj2 (Z.eqb_eq (ob_occurred_at x) _)), (proj2 (Z.eqb_eq (ob_occurred_at y) _)) by lia. cbn.
  destruct (String.leb_total (ob_id x) (ob_id y)) as [E|E]; rewrite E; [by left|by right].
Qed.

Lemma pg_sorted l : Sorted occurs_before (map InPostgres.event_of (merge_sort InPostgres.outbox_order l)).
Proof.
  assert (Hs : Sorted InPostgres.outbox_order (merge_sort InPostgres.outbox_order l))
    by (apply Sorted_merge_sort, outbox_order_total).
  induction Hs as [|o l' Hs IH Hh]; [constructor|]. cbn. constructor; [done|]. destruct Hh as [|y l'' Hle]; [constructor|].
  constructor. unfold occurs_before. cbn. unfold InPostgres.outbox_order in Hle. apply orb_true_iff in Hle as [Hle|Hle]; bool_to_prop; lia.
Qed.

Lemma read_uuid_skip {A} id (k : string -> Tx A) db : canonical id -> (InPostgres.read_uuid id ≫= k) db = k id db.
Proof. intros Hid. unfold InPostgres.read_uuid. rewrite Hid. done. Qed.

#[local] Arguments InPostgres.known : simpl never.
#[local] Arguments InPostgres.read_uuid : simpl never.

#[export] Instance postgres_outbox_laws : OutboxLaws DB pg_view pg_wf false.
Proof.
  split.
  - intros db id x Hwf Hx. by apply pg_view_Some in Hx as (o & _ & [= <- <-]).
  - intros db id x Hwf Hx. apply pg_view_Some in Hx as (o & Hin & [= <- _]); [|done]. by apply (pw_uuid _ Hwf).
  - intros db id e k Hwf Hx. apply pg_view_Some in Hx as (o & Hin & [= _ _ Hf]); [|done]. unfold pg_fate in Hf.
    destruct (ob_published_at o) eqn:Ep, (ob_failed_at o); try done. injection Hf as <-. by apply (pw_attempts _ Hwf).
  - intros e db Hwf [Hcan Hms]. cbn. unfold atomically, InPostgres.Append.
    rewrite read_uuid_skip by done. unfold InPostgres.insert_event. rewrite pg_known by done.
    destruct (pg_view db !! ev_ID e) as [x|] eqn:E; cbn; [by eexists|]. eexists. split; [done|]. split.
    + split; cbn; [intros o [->|Ho]%elem_of_cons; [done|by apply (pw_uuid _ Hwf)]| |intros o [->|Ho]%elem_of_cons; [cbn; unfold attempts_max; lia|by apply (pw_attempts _ Hwf)]].
      apply NoDup_cons. split; [|apply Hwf]. intros Hin. apply list_elem_of_In, in_map_iff in Hin as (o & Ho & Hin).
      assert (pg_view db !! ev_ID e = Some (InPostgres.event_of o, pg_fate o)); [|congruence]. apply pg_view_Some; [done|].
      exists o. split; [by apply list_elem_of_In|]. unfold pg_entry. by rewrite Ho.
    + unfold pg_view. cbn. rewrite Hms. by destruct e.
  - intros limit db Hwf. eexists. split; [|split; [|reflexivity]]; [|apply pg_sorted].
    etrans; [|by apply pg_waiting]. apply Permutation_map, merge_sort_Permutation.
  - intros id at_ db Hwf Hcan. cbn. unfold atomically, InPostgres.MarkPublished.
    rewrite read_uuid_skip by done. unfold mbind, Tx_bind.
    rewrite update_outbox_run; [|done|].
    2:{ intros o Hin Hp. apply bool_decide_eq_true in Hp. destruct (pw_attempts _ Hwf o Hin Hp) as [Ha _].
        unfold InPostgres.int4_max, attempts_max in *. cbn. lia. }
    set (h := fun o => if InPostgres.has_id id o && InPostgres.unpublished o then InPostgres.set_published at_ o else o).
    assert (Hh : forall o, ob_id (h o) = ob_id o) by (intros o; unfold h; by destruct (_ && _)).
    assert (Hwf' : pg_wf (with_outbox (map h (outbox db.(app))) db)).
    { apply pg_wf_map; [done|done|]. intros o Hin. unfold h. destruct (_ && _); [done|]. by apply (pw_attempts _ Hwf). }
    assert (Hview : pg_view (with_outbox (map h (outbox db.(app))) db) = alter sent id (pg_view db)).
    { apply pg_view_map; [done|..]; intros o.
      - intros Hne. unfold h, InPostgres.has_id. by rewrite bool_decide_eq_false_2.
      - intros _ <-. unfold h, InPostgres.has_id. rewrite bool_decide_eq_true_2 by done. cbn [andb].
        unfold InPostgres.unpublished. destruct (ob_published_at o) eqn:Ep; cbn; [unfold sent, pg_fate; cbn; by rewrite Ep|done]. }
    pose proof (pg_row db id Hwf) as Hrow. destruct (pg_view db !! id) as [x|] eqn:E; cbn.
    + destruct Hrow as (o & Hin & Hid & -> & Hfil). rewrite Hfil. destruct (InPostgres.unpublished o); cbn.
      * eexists. split; [reflexivity|]. by split.
      * unfold gets. rewrite pg_known, Hview, lookup_alter_eq, E by done. cbn. eexists. split; [reflexivity|]. by split.
    + rewrite Hrow. cbn. unfold gets. rewrite pg_known, Hview, lookup_alter_eq, E by done. cbn. eexists.
      split; [reflexivity|]. split; [done|]. by rewrite alter_none.
  - intros id at_ reason n db Hwf Hcan Hn Hst. cbn. unfold atomically, InPostgres.RecordFailure.
    rewrite reject_skip by (apply Z.leb_gt; lia). rewrite read_uuid_skip by done.
    rewrite reject_skip by (apply Z.ltb_ge; unfold attempts_max, InPostgres.int4_max in *; lia). cbv zeta. rewrite reject_skip by (by rewrite Hst).
    set (text := if 1024 <? str_len reason then _ else _). clearbody text. unfold mbind at 1, Tx_bind at 1.
    rewrite update_outbox_run; [|done|].
    2:{ intros o Hin Hp. unfold InPostgres.is_pending, InPostgres.unpublished in Hp. bool_to_prop.
        destruct (pw_attempts _ Hwf o Hin) as [Ha _]; [done|]. unfold InPostgres.int4_max, attempts_max in *. cbn. lia. }
    set (f := InPostgres.set_failed text n at_).
    set (h := fun o => if InPostgres.has_id id o && InPostgres.is_pending o then f o else o).
    assert (Hh : forall o, ob_id (h o) = ob_id o) by (intros o; unfold h; by destruct (_ && _)).
    assert (Hwf' : pg_wf (with_outbox (map h (outbox db.(app))) db)).
    { apply pg_wf_map; [done|done|]. intros o Hin. unfold h. destruct (InPostgres.has_id id o); [cbn [andb]|by apply (pw_attempts _ Hwf)].
      destruct (InPostgres.is_pending o) eqn:Ep; [|by apply (pw_attempts _ Hwf)].
      unfold InPostgres.is_pending, InPostgres.unpublished in Ep. bool_to_prop. intros _.
      destruct (pw_attempts _ Hwf o Hin) as [Ha Hb]; [done|]. specialize (Hb ltac:(done)). cbn.
      destruct (Z.leb_spec n (ob_attempts o + 1)); [split; [lia|done]|split; [lia|intros _; lia]]. }
    assert (Hview : pg_view (with_outbox (map h (outbox db.(app))) db) = alter (failed n) id (pg_view db)).
    { apply pg_view_map; [done|..]; intros o.
      - intros Hne. unfold h, InPostgres.has_id. by rewrite bool_decide_eq_false_2.
      - intros _ <-. unfold h, InPostgres.has_id. rewrite bool_decide_eq_true_2 by done. cbn [andb].
        unfold InPostgres.is_pending, InPostgres.unpublished, failed, f.
        destruct (ob_published_at o) eqn:Ep, (ob_failed_at o) eqn:Ef; cbn; unfold pg_fate; cbn; rewrite Ep, ?Ef; try done.
        by destruct (n <=? ob_attempts o + 1). }
    pose proof (pg_row db id Hwf) as Hrow. destruct (pg_view db !! id) as [x|] eqn:E; cbn.
    + destruct Hrow as (o & Hin & Hid & -> & Hfil). rewrite Hfil. destruct (InPostgres.is_pending o) eqn:Ep; cbn.
      * eexists. split; [|by split]. unfold pg_fate.
        unfold InPostgres.is_pending, InPostgres.unpublished in Ep. bool_to_prop.
        destruct (ob_published_at o), (ob_failed_at o); try done. by destruct (n <=? ob_attempts o + 1).
      * unfold gets, mbind, Tx_bind. rewrite pg_known, Hview, lookup_alter_eq, E by done. cbn. eexists.
        split; [|by split]. unfold pg_fate.
        unfold InPostgres.is_pending, InPostgres.unpublished in Ep.
        by destruct (ob_published_at o), (ob_failed_at o).
    + rewrite Hrow. cbn. unfold gets, mbind, Tx_bind. rewrite pg_known, Hview, lookup_alter_eq, E by done. cbn. eexists.
      split; [reflexivity|]. split; [done|]. by rewrite alter_none.
Qed.

End postgres.

(** ** The processor *)

Section processor.
Context {S B : Type} `{HL : OutboxLaws S view_of wf late}.
Context (Publish : Event -> B -> option error * B) (Error : error -> string).
Context (texts : forall e, InPostgres.storable (Error e) = true).

(** The publisher accepts every event of the list, one after the other. *)
Fixpoint deliver (l : list Event) (b : B) : option B :=
  match l with
  | [] => Some b
  | e :: rest => match Publish e b with (None, b') => deliver rest b' | _ => None end
  end.

Definition sent_all (l : list Event) (v : view) : view := foldl (fun v e => alter sent (ev_ID e) v) v l.

Definition stands (s : S) (e : Event) : Prop := exists k, view_of s !! ev_ID e = Some (e, Waiting k).

Lemma batch_run now batch : forall k s b, wf s -> NoDup (map ev_ID batch) -> Forall (stands s) batch ->
  exists done rest b1, batch = done ++ rest /\ deliver done b = Some b1 /\
    let '((n, err), s', b') := publish_batch Publish Error now batch k s b in
    n = k + Z.of_nat (length done) /\ wf s' /\
    match err, rest with
    | None, [] => b' = b1 /\ view_of s' = sent_all done (view_of s)
    | Some er, e :: _ => Publish e b1 = (Some er, b') /\
        view_of s' = alter (failed maxAttempts) (ev_ID e) (sent_all done (view_of s))
    | _, _ => False
    end.
Proof.
  induction batch as [|e batch IH]; intros k s b Hwf Hnd Hall; cbn [publish_batch].
  { exists [], [], b. cbn. repeat (split; [done || lia|]). done. }
  cbn in Hnd. apply NoDup_cons in Hnd as [Hni Hnd]. apply Forall_cons in Hall as [[j Hj] Hall].
  destruct (Publish e b) as [[er|] b'] eqn:Hp.
  - exists [], (e :: batch), b. split; [done|]. split; [done|].
    destruct (failure_law (ev_ID e) now (Error er) maxAttempts s Hwf (view_uuid _ _ _ Hwf Hj)
      ltac:(unfold maxAttempts, attempts_max; lia) (texts er)) as (s' & Hr & Hwf' & Hv).
    rewrite Hr, Hj. cbn. split; [lia|]. split; [done|]. by split.
  - destruct (published_law (ev_ID e) now s Hwf (view_uuid _ _ _ Hwf Hj)) as (s' & Hs & Hwf' & Hv). rewrite Hs.
    rewrite bool_decide_eq_true_2 by (by rewrite Hj).
    destruct (IH (k + 1) s' b' Hwf' Hnd) as (done & rest & b1 & -> & Hd & Hrun).
    { apply Forall_forall. intros x Hx. rewrite Forall_forall in Hall. destruct (Hall x Hx) as [i Hi]. exists i.
      rewrite Hv, lookup_alter_ne; [done|]. intros Heq. apply Hni, list_elem_of_In, in_map_iff. exists x.
      split; [done|by apply list_elem_of_In]. }
    exists (e :: done), rest, b1. split; [done|]. split; [cbn; by rewrite Hp|].
    destruct (publish_batch _ _ _ _ _ _) as [[[n err] s''] b'']. rewrite Hv in Hrun. destruct Hrun as (Hn & Hw & Hrest).
    split; [cbn [length]; lia|]. split; [done|]. exact Hrest.
Qed.

Lemma first_of_split {A} limit (l : list A) : exists rest, l = first_of limit l ++ rest.
Proof.
  unfold first_of. destruct (0 <? limit); [|exists []; by rewrite app_nil_r].
  exists (drop (Z.to_nat limit) l). by rewrite take_drop.
Qed.

Lemma pending_stands limit s : wf s -> NoDup (map ev_ID (Pending limit s)) /\ Forall (stands s) (Pending limit s).
Proof.
  intros Hwf. destruct (pending_law limit s Hwf) as (all & Hperm & _ & ->).
  assert (Hall : Forall (stands s) all).
  { apply Forall_forall. intros e He. rewrite Hperm in He. apply waiting_In in He as (id & k & Hid). exists k.
    pose proof (view_id s id _ Hwf Hid) as E. cbn in E. by rewrite E. }
  assert (Hnd : NoDup (map ev_ID all)).
  { assert (Hp : map ev_ID all ≡ₚ map ev_ID (waiting (view_of s))) by (by apply Permutation_map).
    rewrite Hp. unfold waiting. rewrite map_map.
    assert (E : map (fun kv : string * (Event * fate) => ev_ID kv.2.1)
        (List.filter (fun kv => is_waiting kv.2.2) (map_to_list (view_of s)))
      = map fst (List.filter (fun kv => is_waiting kv.2.2) (map_to_list (view_of s)))).
    { apply map_ext_in. intros [id x] [Hin _]%List.filter_In. apply list_elem_of_In, elem_of_map_to_list in Hin.
      cbn. by apply (view_id s id x Hwf). }
    rewrite E. apply filter_keys_NoDup, NoDup_fst_map_to_list. }
  destruct (first_of_split limit all) as (rest & E). rewrite E in Hall, Hnd. apply Forall_app in Hall as [Hall _].
  rewrite map_app in Hnd. by apply NoDup_app in Hnd as [Hnd _].
Qed.

(** One run of the processor takes the oldest waiting events - as many as
    the limit allows, in the order of their time - and hands them to the
    publisher one by one; those it accepts are marked as sent and never handed
    out again; at the first it refuses the run stops with its error, that event
    has one more attempt or, at the fifth, is dead, and no other event is
    touched. *)
Theorem ProcessPending_exact now limit s b :
  wf s ->
  exists all, all ≡ₚ waiting (view_of s) /\ Sorted occurs_before all /\
  exists done rest b1, first_of limit all = done ++ rest /\ deliver done b = Some b1 /\
    let '((n, err), s', b') := ProcessPending Publish Error now limit s b in
    n = Z.of_nat (length done) /\ wf s' /\
    match err, rest with
    | None, [] => b' = b1 /\ view_of s' = sent_all done (view_of s)
    | Some er, e :: _ => Publish e b1 = (Some er, b') /\
        view_of s' = alter (failed maxAttempts) (ev_ID e) (sent_all done (view_of s))
    | _, _ => False
    end.
Proof.
  intros Hwf. destruct (pending_law limit s Hwf) as (all & Hperm & Hsort & Hp). exists all. split; [done|]. split; [done|].
  destruct (pending_stands limit s Hwf) as [Hnd Hall].
  destruct (batch_run now (Pending limit s) 0 s b Hwf Hnd Hall) as (done & rest & b1 & E & Hd & Hrun).
  exists done, rest, b1. rewrite <- Hp. split; [done|]. split; [done|]. exact Hrun.
Qed.

(** *** Emptying the queue *)

Section drains.
(** A publisher that refuses the same events every time. *)
Context (refuses : Event -> option error) (steady : forall e b, (Publish e b).1 = refuses e).

Definition settled_fate (e : Event) : fate := match refuses e with Some _ => Dead | None => Sent end.

(** The runs an event can still cost. *)
Definition cost (x : Event * fate) : Z :=
  match x.2 with
  | Waiting k => match refuses x.1 with Some _ => Z.max 1 (maxAttempts - k) | None => 1 end
  | _ => 0
  end.

Lemma cost_nonneg x : 0 <= cost x.
Proof. unfold cost. destruct x as [e [k| |]]; cbn; [|lia..]. destruct (refuses e); lia. Qed.

Lemma cost_alter g v id e k : v !! id = Some (e, Waiting k) ->
  sum_map cost (alter g id v) = sum_map cost v - cost (e, Waiting k) + cost (g (e, Waiting k)).
Proof.
  intros Hv. rewrite <- (sum_map_update cost v id (e, Waiting k) (g (e, Waiting k))) by done. f_equal.
  apply map_eq. intros i. destruct (decide (i = id)) as [->|Hne].
  - by rewrite lookup_alter_eq, lookup_insert_eq, Hv.
  - by rewrite lookup_alter_ne, lookup_insert_ne.
Qed.

(** Fates only move towards what the publisher says. *)
Definition advances (v v' : view) : Prop := forall id, match v !! id with
  | None => v' !! id = None
  | Some (e, Waiting k) => (exists k', v' !! id = Some (e, Waiting k')) \/ v' !! id = Some (e, settled_fate e)
  | Some x => v' !! id = Some x
  end.

#[local] Instance advances_preorder : PreOrder advances.
Proof.
  split.
  - intros v id. destruct (v !! id) as [[e [k| |]]|]; [left; by eexists|done..].
  - intros v1 v2 v3 H1 H2 id. specialize (H1 id). specialize (H2 id).
    destruct (v1 !! id) as [[e [k| |]]|].
    + destruct H1 as [[k' E]|E]; rewrite E in H2; [done|]. right. unfold settled_fate in *. by destruct (refuses e).
    + by rewrite H1 in H2.
    + by rewrite H1 in H2.
    + by rewrite H1 in H2.
Qed.

Lemma advances_alter g v id e k : v !! id = Some (e, Waiting k) ->
  (exists k', g (e, Waiting k) = (e, Waiting k')) \/ g (e, Waiting k) = (e, settled_fate e) -> advances v (alter g id v).
Proof.
  intros Hv Hg i. destruct (decide (i = id)) as [->|Hne].
  - rewrite Hv, lookup_alter_eq, Hv. cbn. destruct Hg as [[k' ->]| ->]; [left; by eexists|by right].
  - rewrite lookup_alter_ne by done. destruct (v !! i) as [[e' [k'| |]]|]; [left; by eexists|done..].
Qed.

(** Marking a stretch of waiting events that the publisher accepts. *)
Lemma sent_all_effect done_ : forall v, NoDup (map ev_ID done_) ->
  Forall (fun e => (exists k, v !! ev_ID e = Some (e, Waiting k)) /\ refuses e = None) done_ ->
  sum_map cost (sent_all done_ v) = sum_map cost v - Z.of_nat (length done_) /\ advances v (sent_all done_ v) /\
  forall id, id ∉ map ev_ID done_ -> sent_all done_ v !! id = v !! id.
Proof.
  induction done_ as [|e l IH]; intros v Hnd Hall; [cbn; split; [lia|done]|].
  cbn in Hnd. apply NoDup_cons in Hnd as [Hni Hnd]. apply Forall_cons in Hall as [[[k Hk] Hr] Hall].
  destruct (IH (alter sent (ev_ID e) v) Hnd) as (H1 & H2 & H3).
  { apply Forall_forall. intros x Hx. rewrite Forall_forall in Hall. destruct (Hall x Hx) as [[i Hi] Hrx]. split; [|done].
    exists i. rewrite lookup_alter_ne; [done|]. intros Heq. apply Hni, list_elem_of_In, in_map_iff. exists x.
    split; [done|by apply list_elem_of_In]. }
  cbn [sent_all foldl length]. fold (sent_all l (alter sent (ev_ID e) v)). split; [|split].
  - rewrite H1, (cost_alter _ _ _ e k) by done. unfold cost. cbn. rewrite Hr. lia.
  - etrans; [|exact H2]. apply (advances_alter _ _ _ e k); [done|]. right. unfold sent, settled_fate. by rewrite Hr.
  - intros id Hid. cbn in Hid. apply not_elem_of_cons in Hid as [Hne Hid]. by rewrite H3, lookup_alter_ne.
Qed.

Lemma deliver_accepted l : forall b b', deliver l b = Some b' -> Forall (fun e => refuses e = None) l.
Proof.
  induction l as [|e l IH]; intros b b' Hd; [constructor|]. cbn in Hd. destruct (Publish e b) as [[er|] b1] eqn:E; [done|].
  constructor; [|by eapply IH]. specialize (steady e b). by rewrite E in steady.
Qed.

Lemma cost_waiting v : (forall id e k, v !! id = Some (e, Waiting k) -> 0 <= k) ->
  sum_map cost v <= maxAttempts * Z.of_nat (length (waiting v)).
Proof.
  unfold waiting. rewrite length_map. unfold sum_map. rewrite map_fold_foldr. intros Hk.
  assert (Hl : forall x, List.In x (map_to_list v) -> match x.2.2 with Waiting k => 0 <= k | _ => True end).
  { intros [id [e f]] Hin. apply list_elem_of_In, elem_of_map_to_list in Hin. cbn. destruct f; [by eapply Hk|done..]. }
  revert Hl. induction (map_to_list v) as [|[id [e f]] l IH]; intros Hl; [cbn; lia|].
  cbn [foldr List.filter uncurry]. specialize (IH (fun x Hx => Hl x (or_intror Hx))).
  specialize (Hl _ (or_introl eq_refl)). cbn in Hl |- *. unfold cost at 1. cbn.
  destruct f as [k| |]; cbn [is_waiting length]; [|lia..]. unfold maxAttempts in *. destruct (refuses e); cbn [length]; lia.
Qed.

(** One run: the cost falls, unless nothing waits. *)
Lemma run_cheaper now limit s b : wf s ->
  let '(_, s', _) := ProcessPending Publish Error now limit s b in
  wf s' /\ advances (view_of s) (view_of s') /\
  (waiting (view_of s) = [] \/ sum_map cost (view_of s') <= sum_map cost (view_of s) - 1).
Proof.
  intros Hwf. destruct (pending_law limit s Hwf) as (all & Hperm & _ & Hp).
  destruct (pending_stands limit s Hwf) as [Hnd Hall].
  destruct (batch_run now (Pending limit s) 0 s b Hwf Hnd Hall) as (done_ & rest & b1 & E & Hd & Hrun).
  unfold ProcessPending. destruct (publish_batch _ _ _ _ _ _ _) as [[[n err] s'] b']. destruct Hrun as (_ & Hwf' & Hrun).
  split; [done|]. rewrite E in Hnd, Hall. rewrite map_app in Hnd. apply NoDup_app in Hnd as (Hnd & Hdis & _).
  apply Forall_app in Hall as [Hall Hrest].
  destruct (sent_all_effect done_ (view_of s) Hnd) as (Hcost & Hadv & Hsame).
  { apply Forall_forall. intros e He. split; [rewrite Forall_forall in Hall; by apply Hall|].
    pose proof (deliver_accepted _ _ _ Hd) as Hacc. rewrite Forall_forall in Hacc. by apply Hacc. }
  destruct err as [er|], rest as [|e rest]; try done.
  - destruct Hrun as [Hpub ->]. apply Forall_cons in Hrest as [[k Hk] _].
    assert (Hr : refuses e = Some er) by (specialize (steady e b1); by rewrite Hpub in steady).
    assert (Hk' : sent_all done_ (view_of s) !! ev_ID e = Some (e, Waiting k)).
    { rewrite Hsame; [done|]. intros Hin. apply (Hdis _ Hin). cbn. apply elem_of_cons. by left. }
    split; [etrans; [exact Hadv|]|right].
    + apply (advances_alter _ _ _ e k); [done|]. unfold failed, settled_fate. rewrite Hr. cbn.
      destruct (maxAttempts <=? k + 1); [by right|left; by eexists].
    + rewrite (cost_alter _ _ _ e k), Hcost by done. unfold cost, failed. cbn. rewrite Hr.
      destruct (Z.leb_spec maxAttempts (k + 1)); cbn; rewrite ?Hr; unfold maxAttempts in *; lia.
  - destruct Hrun as [_ ->]. split; [done|]. rewrite Hcost. destruct done_ as [|e l]; [left|right; cbn [length]; lia].
    rewrite app_nil_r, Hp in E. rewrite E in Hp. unfold first_of in E.
    assert (Hnil : all = []).
    { destruct (0 <? limit) eqn:Hl; [|done]. bool_to_prop. destruct all as [|x all]; [done|].
      destruct (Z.to_nat limit) eqn:Hz; [lia|]. done. }
    subst all. by apply Permutation_nil in Hperm.
Qed.

Fixpoint runs (n : nat) (now limit : Z) (s : S) (b : B) : S * B :=
  match n with
  | O => (s, b)
  | Datatypes.S n' => let '(_, s', b') := ProcessPending Publish Error now limit s b in runs n' now limit s' b'
  end.

Lemma runs_effect now limit n : forall s b, wf s -> sum_map cost (view_of s) <= Z.of_nat n ->
  let '(s', _) := runs n now limit s b in
  wf s' /\ advances (view_of s) (view_of s') /\ waiting (view_of s') = [].
Proof.
  assert (Hnone : forall v, sum_map cost v <= 0 -> waiting v = []).
  { intros v Hv. destruct (waiting v) as [|e l] eqn:E; [done|]. exfalso.
    assert (He : e ∈ waiting v) by (rewrite E; apply elem_of_cons; by left). apply waiting_In in He as (id & k & Hid).
    pose proof (sum_map_member cost v id _ (fun _ x _ => cost_nonneg x) Hid) as Hm. unfold cost in Hm at 1. cbn in Hm.
    destruct (refuses e); lia. }
  induction n as [|n IH]; intros s b Hwf Hcost; cbn [runs].
  - split; [done|]. split; [done|]. apply Hnone. lia.
  - pose proof (run_cheaper now limit s b Hwf) as Hrun. destruct (ProcessPending _ _ _ _ _ _) as [[r s1] b1].
    destruct Hrun as (Hwf1 & Hadv & Hless).
    assert (Hc : sum_map cost (view_of s1) <= Z.of_nat n).
    { destruct Hless as [Hw|Hless]; [|lia].
      assert (Hz : sum_map cost (view_of s1) <= 0); [|lia].
      transitivity (sum_map (fun _ : Event * fate => 0) (view_of s1)).
      - rewrite (sum_map_ext cost (fun _ => 0)); [done|]. intros id [e f] Hid. specialize (Hadv id).
        destruct (view_of s !! id) as [[e0 [k| |]]|] eqn:E.
        + exfalso. assert (Hin : e0 ∈ waiting (view_of s)) by (apply waiting_In; by exists id, k).
          rewrite Hw in Hin. by apply elem_of_nil in Hin.
        + rewrite Hadv in Hid. by injection Hid as <- <-.
        + rewrite Hadv in Hid. by injection Hid as <- <-.
        + congruence.
      - unfold sum_map. generalize (view_of s1). intros v. induction v as [|i x v Hi Hf IHv] using map_first_key_ind; [done|].
        rewrite map_fold_insert_L by (done || intros; lia). lia. }
    specialize (IH s1 b1 Hwf1 Hc). destruct (runs n now limit s1 b1) as [s' b']. destruct IH as (H1 & H2 & H3).
    split; [done|]. split; [by etrans|done].
Qed.

(** C24: the queue empties, provided that the table can store the text of every
    refusal: the first 1024 bytes of it are valid text (a text cut inside a
    character is not, and then its attempt is not counted:
    [long_reason_refused]).  Whatever events the publisher keeps refusing with
    such texts, five runs for every waiting event - of any limit - leave none
    waiting: each event the publisher accepts has been sent and each one it
    refuses is dead, so that no bad event holds up the others for ever. *)
Theorem outbox_drains now limit n s b : wf s ->
  maxAttempts * Z.of_nat (length (waiting (view_of s))) <= Z.of_nat n ->
  let '(s', _) := runs n now limit s b in
  waiting (view_of s') = [] /\
  forall id e f, view_of s !! id = Some (e, f) ->
    view_of s' !! id = Some (e, match f with
      | Waiting _ => match refuses e with Some _ => Dead | None => Sent end
      | f => f
      end).
Proof.
  intros Hwf Hn. pose proof (cost_waiting (view_of s) (fun id e k => view_attempts s id e k Hwf)) as Hc.
  pose proof (runs_effect now limit n s b Hwf ltac:(lia)) as Hrun. destruct (runs n now limit s b) as [s' b'].
  destruct Hrun as (_ & Hadv & Hw). split; [done|]. intros id e f Hid. specialize (Hadv id). rewrite Hid in Hadv.
  destruct f as [k| |]; [|done..]. destruct Hadv as [[k' E]|E]; [|done]. exfalso.
  assert (Hin : e ∈ waiting (view_of s')) by (apply waiting_In; by exists id, k'). rewrite Hw in Hin. by apply elem_of_nil in Hin.
Qed.

End drains.

End processor.

(** ** The two implementations agree *)

Inductive outbox_op : Type :=
| op_append (e : Event)
| op_published (id : string) (at_ : Z)
| op_failure (id : string) (at_ : Z) (reason : string) (n : Z).

(** What both can represent. *)
Definition op_ok `{UuidText} (op : outbox_op) : Prop :=
  match op with
  | op_append e => event_ok e
  | op_published id _ => canonical id
  | op_failure id _ reason n => canonical id /\ 0 < n <= attempts_max /\ InPostgres.storable reason = true
  end.

(** An answer; only a failure answers more than success. *)
Definition plain (r : res ()) : res bool := match r with Ok _ => Ok false | Err e => Err e end.

(** What a call means, to the view of an outbox. *)
Definition op_view (op : outbox_op) (v : view) : view :=
  match op with
  | op_append e => match v !! ev_ID e with Some _ => v | None => <[ev_ID e := (e, Waiting 0)]> v end
  | op_published id _ => alter sent id v
  | op_failure id _ _ n => alter (failed n) id v
  end.

(** A failure of an event that is dead already. *)
Definition is_late (op : outbox_op) (v : view) : bool :=
  match op with
  | op_failure id _ _ _ => match v !! id with Some (_, Dead) => true | _ => false end
  | _ => false
  end.

Fixpoint lates (ops : list outbox_op) (v : view) : list bool :=
  match ops with
  | [] => []
  | op :: rest => is_late op v :: lates rest (op_view op v)
  end.

Section agree.
Context {HU : UuidText}.

Definition run_op {S} `{Outbox S} (op : outbox_op) (s : S) : res bool * S :=
  match op with
  | op_append e => let '(r, s') := Append e s in (plain r, s')
  | op_published id at_ => let '(r, s') := MarkPublished id at_ s in (plain r, s')
  | op_failure id at_ reason n => RecordFailure id at_ reason n s
  end.

Fixpoint run_ops {S} `{Outbox S} (ops : list outbox_op) (s : S) : list (res bool) * S :=
  match ops with
  | [] => ([], s)
  | op :: rest => let '(r, s1) := run_op op s in let '(rs, s2) := run_ops rest s1 in (r :: rs, s2)
  end.

(** The answers of an outbox that holds [v], by the meaning of the calls. *)
Definition op_answer (late : bool) (op : outbox_op) (v : view) : res bool :=
  match op with
  | op_append _ => Ok false
  | op_published id _ => match v !! id with Some _ => Ok false | None => Err ErrEventNotFound end
  | op_failure id _ _ n =>
      match v !! id with
      | None => Err ErrEventNotFound
      | Some (_, Waiting k) => Ok (n <=? k + 1)
      | Some (_, Sent) => Ok false
      | Some (_, Dead) => Ok late
      end
  end.

Lemma run_op_view {S} `{HS : OutboxLaws S vs ws late} op (s : S) : op_ok op -> ws s ->
  exists s', run_op op s = (op_answer late op (vs s), s') /\ ws s' /\ vs s' = op_view op (vs s).
Proof.
  intros Hop Hs. destruct op as [e|id at_|id at_ reason n]; cbn [run_op op_answer op_view].
  - destruct (append_law e s Hs Hop) as (s' & -> & Hs' & E). by exists s'.
  - destruct (published_law id at_ s Hs Hop) as (s' & -> & Hs' & E). exists s'. split; [|done].
    by destruct (vs s !! id).
  - destruct Hop as (Hid & Hn & Hr). destruct (failure_law id at_ reason n s Hs Hid Hn Hr) as (s' & -> & Hs' & E). by exists s'.
Qed.

Fixpoint op_answers (late : bool) (ops : list outbox_op) (v : view) : list (res bool) :=
  match ops with
  | [] => []
  | op :: rest => op_answer late op v :: op_answers late rest (op_view op v)
  end.

Lemma run_ops_view {S} `{HS : OutboxLaws S vs ws late} ops (s : S) : Forall op_ok ops -> ws s ->
  exists s', run_ops ops s = (op_answers late ops (vs s), s') /\ ws s' /\ vs s' = foldl (fun v op => op_view op v) (vs s) ops.
Proof.
  intros Hops. revert s. induction Hops as [|op ops Hop _ IH]; intros s Hs; [by exists s|].
  cbn [run_ops op_answers foldl]. destruct (run_op_view op s Hop Hs) as (s1 & -> & Hs1 & E1).
  destruct (IH s1 Hs1) as (s2 & -> & Hs2 & E2). rewrite E1 in *. by exists s2.
Qed.

Lemma answers_differ_late ops : forall v,
  Forall3 (fun late r r' => if late : bool then r = Ok true /\ r' = Ok false else r = r')
    (lates ops v) (op_answers true ops v) (op_answers false ops v).
Proof.
  induction ops as [|op ops IH]; intros v; cbn; constructor; [|apply IH].
  destruct op as [e|id at_|id at_ reason n]; cbn; [done..|].
  by destruct (v !! id) as [[e [k| |]]|].
Qed.

Context (ranged : list Event -> list Event) (ranged_perm : forall l, ranged l ≡ₚ l).


End agree.

(** ** Witnesses *)

Definition example_event (id kind : string) (at_ : Z) : Event := mk_Event id kind "bet" "b-1" at_ JNull.

Definition example_row (id kind : string) (at_ : Z) : outbox_row := mk_outbox id "bet" "b-1" kind JNull at_ None 0 None None.

Definition queue_db : DB := with_outbox [example_row "e2" "bad" 20; example_row "e1" "game.bet.placed" 10; example_row "e3" "game.bet.settled" 30] example_db.

(** A broker that keeps what it accepts and refuses one kind of event. *)
Definition picky (e : Event) (b : list string) : option error * list string :=
  if bool_decide (ev_Type e = "bad"%string) then (Some (Sentinel "nats: no response"), b) else (None, b ++ [ev_ID e]).

Definition plain_text (_ : error) : string := "refused".

(** Every text is an identifier here. *)
#[local] Instance any_text : UuidText := Some.

Lemma queue_wf : pg_wf queue_db.
Proof.
  split.
  - done.
  - apply (bool_decide_unpack _). by vm_compute.
  - intros o Ho. cbn in Ho. repeat (apply elem_of_cons in Ho as [->|Ho]; [cbn; unfold attempts_max; lia|]).
    by apply elem_of_nil in Ho.
Qed.

Lemma plain_storable e : InPostgres.storable (plain_text e) = true.
Proof. by vm_compute. Qed.

Lemma ProcessPending_exact_witness : exists done rest b1,
  done ++ rest = [example_event "e1" "game.bet.placed" 10; example_event "e2" "bad" 20; example_event "e3" "game.bet.settled" 30] /\
  deliver picky done [] = Some b1 /\
  (let '((n, err), _, b') := ProcessPending picky plain_text 100 100 queue_db [] in
   n = Z.of_nat (length done) /\ err = Some (Sentinel "nats: no response") /\ b' = ["e1"]%string).
Proof.
  destruct (ProcessPending_exact picky plain_text plain_storable 100 100 queue_db [] queue_wf)
    as (all & Hperm & Hsort & done_ & rest & b1 & E & Hd & Hrun).
  assert (Hbatch : ProcessPending picky plain_text 100 100 queue_db [] =
    ((1, Some (Sentinel "nats: no response")), (ProcessPending picky plain_text 100 100 queue_db []).1.2, ["e1"%string]))
    by (vm_compute; reflexivity).
  rewrite Hbatch in *. destruct Hrun as (Hn & _ & Hrun).
  assert (Hall : all = [example_event "e1" "game.bet.placed" 10; example_event "e2" "bad" 20; example_event "e3" "game.bet.settled" 30]).
  { assert (Hp : all ≡ₚ [example_event "e1" "game.bet.placed" 10; example_event "e2" "bad" 20; example_event "e3" "game.bet.settled" 30]).
    { rewrite Hperm. apply (bool_decide_unpack _). by vm_compute. }
    apply (Sorted_unique_strong occurs_before); [|exact Hsort| |exact Hp].
    - intros x y Hx Hy. rewrite Hp in Hx. unfold occurs_before.
      repeat (apply elem_of_cons in Hx as [->|Hx]; [repeat (apply elem_of_cons in Hy as [->|Hy]; [cbn; done || lia|]);
        by apply elem_of_nil in Hy|]). by apply elem_of_nil in Hx.
    - repeat constructor; unfold occurs_before; cbn; lia. }
  subst all. exists done_, rest, b1. split; [done|]. split; [done|]. done.
Defined.

Lemma outbox_drains_witness :
  let '(s', b') := runs picky plain_text 15 100 1 queue_db [] in
  waiting (pg_view s') = [] /\ b' = ["e1"; "e3"]%string.
Proof.
  assert (steady : forall e b, (picky e b).1 = if bool_decide (ev_Type e = "bad"%string) then Some (Sentinel "nats: no response") else None)
    by (intros e b; unfold picky; by destruct (bool_decide _)).
  pose proof (outbox_drains picky plain_text plain_storable
    (fun e => if bool_decide (ev_Type e = "bad"%string) then Some (Sentinel "nats: no response") else None)
    steady 100 1 15 queue_db [] queue_wf) as H.
  assert (Hn : maxAttempts * Z.of_nat (length (waiting (pg_view queue_db))) <= Z.of_nat 15) by (apply (bool_decide_unpack _); by vm_compute).
  specialize (H Hn). assert (Hb : (runs picky plain_text 15 100 1 queue_db []).2 = ["e1"; "e3"]%string) by (vm_compute; reflexivity).
  destruct (runs picky plain_text 15 100 1 queue_db []) as [s' b']. cbn in Hb. split; [apply H|exact Hb].
Defined.

(** The second failure comes late. *)
Definition example_ops : list outbox_op :=
  [op_append (example_event "e1" "k" 10000); op_failure "e1" 20 "refused" 1; op_failure "e1" 30 "refused" 1].


(** A failure recorded for a dead event: memory answers that it is dead, the
    table that it is not. *)
Theorem dead_answers_differ :
  let e := example_event "e1" "k" 10 in
  let o := mk_MemoryOutbox {[ "e1"%string := e ]} ∅ {[ "e1"%string := 5 ]} {[ "e1"%string := 20 ]} in
  let db := with_outbox [mk_outbox "e1" "bet" "b-1" "k" JNull 10 None 5 (Some 20) (Some "refused"%string)] example_db in
  mem_view o = pg_view db /\
  (InMemory.RecordFailure "e1" 30 "refused" 5 o).1 = Ok true /\ (RecordFailure "e1" 30 "refused" 5 db).1 = Ok false.
Proof. split; [reflexivity|]. split; vm_compute; reflexivity. Qed.

(** A reason whose 1024th byte falls inside a character is refused by the
    database, so the failure is not counted. *)
Theorem long_reason_refused :
  let reason := b2s (replicate 1023 (byte_at 97) ++ s2b "é") in
  RecordFailure "e1" 30 reason 5 queue_db = (Err (RaisedException "invalid byte sequence for encoding UTF8"), queue_db).
Proof. vm_compute. reflexivity. Qed.
