(* ===== verification/LeaderboardProofs.v ===== *)
(** * Leaderboards: what holds

    A reward is paid once and exactly; a refreshed board ranks its players in
    the order of their net wins; what is frozen stays as it is - its unpaid
    rewards too; and the reward rules read back as they were written. *)

From S2P Require Import Prelude GoStrings Money Json Schema Store Books Custody Wallet Operations Settlement.
From S2P Require Import BetBooks Examples CreditProofs SettlementProofs Agent AgentProofs Leaderboard.

Section payment.
Context `{Uuids}.

(** ** Rewards *)

(** What paying a reward did. *)
Record paid (d : reward_due) (db db' : DB) : Prop := {
  pd_books : books db'.(money);
  pd_quiet : quiet db db';
  pd_amount : 0 < du_amount d;
  pd_free : find_row (distributed d) (leaderboard_reward_distributions db.(app)) = None;
  pd_row : exists did now, leaderboard_reward_distributions db'.(app) =
    <[did := mk_distribution_row (du_periodID d) (du_currency d) (du_user d) (du_rank d) (du_rewardCurrency d) (du_amount d)
               now (du_snapshot d)]> (leaderboard_reward_distributions db.(app)) /\
    exists r l, ledger db'.(money) = r :: l /\ le_business_type r = "leaderboard_reward"%string /\ le_business_id r = did /\
      le_available_delta r = du_amount d;
  pd_wallet : exists wid, owns db'.(money) wid (du_user d) (du_rewardCurrency d) /\
    forall i, avail db'.(money) i = avail db.(money) i + (if bool_decide (wid = i) then du_amount d else 0)
}.

Lemma pay_known any_typed t d db x : find_row (distributed d) (leaderboard_reward_distributions db.(app)) = Some x ->
  pay any_typed t d db = Ok ((), db).
Proof.
  intros Hf. unfold pay, select_where. rewrite gets_skip.
  change (tbl db.(app)) with (leaderboard_reward_distributions db.(app)). by rewrite Hf.
Qed.

Lemma pay_run any_typed t d db db' : books db.(money) -> du_amount d <= int64_max ->
  pay any_typed t d db = Ok ((), db') ->
  (exists x, find_row (distributed d) (leaderboard_reward_distributions db.(app)) = Some x) /\ db' = db \/ paid d db db'.
Proof.
  intros Hb Hmax Hrun. unfold pay, select_where in Hrun. rewrite gets_skip in Hrun.
  change (tbl db.(app)) with (leaderboard_reward_distributions db.(app)) in Hrun.
  destruct (find_row (distributed d) _) as [x|] eqn:Hf.
  { apply tx_ret_Ok in Hrun as [_ <-]. left. split; [by exists x|done]. }
  right. apply tx_bind_Ok in Hrun as (wid0 & d0 & E & Hrun). apply new_uuid_Ok in E as [<- <-].
  apply tx_bind_Ok in Hrun as (made & d1 & E & Hrun).
  destruct (insert_wallet_still _ _ _ _ _ _ _ E Hb) as (B1 & B2 & (k1 & o1 & B3) & _ & B5). clear E.
  unfold find_wallet, select_where in Hrun. rewrite gets_skip in Hrun.
  apply tx_bind_Ok in Hrun as ([wid w] & d2 & E & Hrun). apply found_Ok in E as [Hw <-].
  apply find_wallet_row in Hw as (Hw & Hu & Hc). cbn [fst snd] in Hrun. cbv zeta in Hrun.
  apply tx_bind_Ok in Hrun as ([] & d2 & E1 & Hrun).
  apply tx_bind_Ok in Hrun as (did & d3 & E & Hrun). apply new_uuid_Ok in E as [<- <-].
  apply tx_bind_Ok in Hrun as ([] & d3 & E2 & Hrun). unfold insert_distribution in E2.
  apply tx_bind_Ok in E2 as ([] & d4 & E & E2). apply reject_if_Ok in E as [Hchk <-]. bool_to_prop.
  apply insert_row_Ok in E2 as (_ & _ & <-).
  apply tx_bind_Ok in Hrun as (eid & d4 & E & Hrun). apply new_uuid_Ok in E as [<- <-].
  apply tx_bind_Ok in Hrun as ([] & d5 & E3 & Hrun).
  apply tx_bind_Ok in Hrun as (oid & d6 & E & Hrun). apply new_uuid_Ok in E as [<- <-].
  apply tx_bind_Ok in Hrun as ([] & d6 & E & Hrun). apply reject_if_Ok in E as [_ <-].
  apply insert_outbox_Ok in Hrun as <-.
  destruct (bounded_lookup _ _ _ B1 Hw) as [Ha _].
  assert (Hsum : (w_available w + du_amount d)%i64 = w_available w + du_amount d).
  { apply wrap64_add_nonneg; [done|lia|].
    apply update_wallet_Ok in E1 as [[Hno _]|(x & _ & Hok & _)]; [cbn in Hno; congruence|].
    apply wallet_ok_iff in Hok as [[Hnn _] _]. exact Hnn. }
  assert (Happ : app d2 = app d1) by (apply update_wallet_Ok in E1 as [[_ <-]|(x & _ & _ & <-)]; done).
  eapply (booked_insert t wid w _ _ d1 d2) in E3 as (w' & r & Hp & Hfz & Hd & Hbt & Hbi & (k & o & Hmo));
    [|exact B1|exact Hw|exact E1|reflexivity|reflexivity|reflexivity|reflexivity|reflexivity|exact Hsum].
  assert (Hq : quiet db d5).
  { etrans; [apply quiet_tick|]. etrans; [exact B2|].
    eapply posted_quiet; [exact Hp|done|..]; rewrite Hmo; cbn; by rewrite Happ. }
  split.
  - cbn. eapply posted_books; [exact Hp|exact B1].
  - etrans; [exact Hq|]. etrans; [apply quiet_tick|apply quiet_outbox].
  - lia.
  - exact Hf.
  - eexists _, _. split.
    + cbn. rewrite Hmo. cbn. rewrite Happ, B3. reflexivity.
    + exists r, (ledger d1.(money)). split; [cbn; by rewrite (po_money _ _ _ _ _ _ Hp)|].
      split; [exact Hbt|]. split; [exact Hbi|exact Hd].
  - exists wid. split.
    + exists w'. cbn. rewrite (po_money _ _ _ _ _ _ Hp). cbn. rewrite lookup_insert_eq. split; [done|].
      rewrite (po_user _ _ _ _ _ _ Hp), (po_currency _ _ _ _ _ _ Hp). done.
    + intros i. cbn. rewrite (posted_avail _ _ _ _ _ _ i Hp), Hd. rewrite B5. done.
Qed.

(** A reward is paid once and exactly.  Paying a player's reward for a
    board of a period credits the rule's amount to the wallet of the reward's
    currency - opened when there was none -, books it under the new distribution
    and nothing else; and from then on, whatever rank, amount or rule a later call
    names, that player has been paid for that board and nothing moves. *)
Theorem pay_once any_typed t d db db' :
  books db.(money) -> du_amount d <= int64_max -> pay any_typed t d db = Ok ((), db') ->
  (db' = db \/ paid d db db') /\
  forall any_typed2 t2 d2, du_periodID d2 = du_periodID d -> du_currency d2 = du_currency d -> du_user d2 = du_user d ->
    pay any_typed2 t2 d2 db' = Ok ((), db').
Proof.
  intros Hb Hmax Hrun. pose proof (pay_run _ _ _ _ _ Hb Hmax Hrun) as Hor. split; [naive_solver|].
  intros at2 t2 d2 Hi Hc Hu.
  assert (Hkey : forall k x, distributed d2 k x = distributed d k x) by (intros; unfold distributed; by rewrite Hi, Hc, Hu).
  destruct Hor as [[[[k x] Hx] ->]|Hp].
  - destruct (find_row (distributed d2) (leaderboard_reward_distributions db.(app))) as [y|] eqn:E; [by eapply pay_known|].
    exfalso. apply find_row_Some in Hx as [Hl Hk]. pose proof (find_row_None _ _ k x E Hl) as Hn. rewrite Hkey in Hn.
    by rewrite Hk in Hn.
  - destruct (find_row (distributed d2) (leaderboard_reward_distributions db'.(app))) as [y|] eqn:E; [by eapply pay_known|].
    exfalso. destruct (pd_row _ _ _ Hp) as (did & now & Hrow & _). rewrite Hrow in E.
    pose proof (find_row_None _ _ did _ E (lookup_insert_eq _ _ _)) as Hn. unfold distributed in Hn. cbn in Hn.
    rewrite Hi, Hc, Hu in Hn. by rewrite !bool_decide_true in Hn by done.
Qed.

(** Where the server gives an untyped parameter no type, no reward is paid. *)
Lemma never_paid t d db u db' : pay false t d db = Ok (u, db') -> db' = db.
Proof.
  intros Hrun. unfold pay, select_where in Hrun. rewrite gets_skip in Hrun.
  destruct (find_row _ _) as [x|]; [by apply tx_ret_Ok in Hrun as [_ <-]|]. exfalso.
  unfold find_wallet, insert_distribution in Hrun. cbn [negb] in Hrun. tx_steps; discriminate.
Qed.

End payment.

Section boards.
Context `{Uuids}.

(** ** The boards *)

Abbreviation entry_key := (string * string * string)%type.
Abbreviation entries db := (leaderboard_entries db.(app)).

Definition with_entries (m : gmap entry_key board_row) (db : DB) : DB := set_app (set_leaderboard_entries m db.(app)) db.

#[local] Instance board_before_total : Total board_before.
Proof. intros x y. unfold board_before. destruct (Z.lt_total (net_win x.2) (net_win y.2)) as [|[|]]; lia. Qed.

#[local] Instance board_before_trans : Transitive board_before.
Proof. intros x y z. unfold board_before. lia. Qed.

Lemma board_of_elem id c db k e : (k, e) ∈ board_of id c db <-> entries db !! k = Some e /\ k.1 = (id, c).
Proof.
  unfold board_of. rewrite list_elem_of_In, filter_In, <- list_elem_of_In, elem_of_map_to_list. cbn [fst snd].
  by rewrite bool_decide_eq_true.
Qed.

Lemma board_of_keys id c db : NoDup (map fst (board_of id c db)).
Proof. apply filter_keys_NoDup. apply NoDup_fst_map_to_list. Qed.

Lemma board_of_NoDup id c db : NoDup (board_of id c db).
Proof. apply (NoDup_fmap_1 fst). apply board_of_keys. Qed.

(** A board holds the ranks 1 to n, in the order of the board. *)
Definition ranked_board (id c : string) (db : DB) : Prop := exists l, l ≡ₚ board_of id c db /\
  StronglySorted board_before l /\ map (fun kv => lb_rank kv.2) l = map Some (seqZ 1 (Z.of_nat (length l))).

Lemma ranked_board_ext id c db db' : (forall k, k.1 = (id, c) -> entries db' !! k = entries db !! k) ->
  ranked_board id c db -> ranked_board id c db'.
Proof.
  intros He (l & Hp & Hl). exists l. split; [|done]. rewrite Hp.
  apply NoDup_Permutation; [apply board_of_NoDup..|]. intros [k e]. rewrite !board_of_elem.
  split; intros [Hk Hc]; (split; [|done]); [by rewrite He|by rewrite <- He].
Qed.

(** *** Numbering *)

Fixpoint numbered (r : Z) (l : list (entry_key * board_row)) : list (entry_key * board_row) :=
  match l with [] => [] | (k, e) :: rest => (k, set_rank r e) :: numbered (r + 1) rest end.

Lemma numbered_keys l : forall r, map fst (numbered r l) = map fst l.
Proof. induction l as [|[k e] l IH]; intros r; cbn; [done|]. by rewrite IH. Qed.

Lemma numbered_length l : forall r, length (numbered r l) = length l.
Proof. induction l as [|[k e] l IH]; intros r; cbn; [done|]. by rewrite IH. Qed.

Lemma numbered_elem l : forall r k e, (k, e) ∈ numbered r l -> exists e0 r0, (k, e0) ∈ l /\ e = set_rank r0 e0.
Proof.
  induction l as [|[k0 e0] l IH]; intros r k e; cbn; [by intros ?%elem_of_nil|].
  intros [[= -> ->]|Hin]%elem_of_cons; [exists e0, r; split; [set_solver|done]|].
  destruct (IH _ _ _ Hin) as (e1 & r1 & Hin1 & ->). exists e1, r1. split; [set_solver|done].
Qed.

Lemma numbered_ranks l : forall r, map (fun kv => lb_rank kv.2) (numbered r l) = map Some (seqZ r (Z.of_nat (length l))).
Proof.
  induction l as [|[k e] l IH]; intros r; [done|]. cbn [numbered map length].
  rewrite seqZ_cons by lia. cbn [map]. rewrite IH. do 3 f_equal; lia.
Qed.

Lemma numbered_sorted l : forall r, StronglySorted board_before l -> StronglySorted board_before (numbered r l).
Proof.
  induction l as [|[k e] l IH]; intros r Hs; cbn [numbered]; [constructor|]. inversion Hs as [|? ? Hs' Hall]; subst.
  constructor; [by apply IH|]. apply Forall_forall. intros [k' e'] Hin.
  apply numbered_elem in Hin as (e0 & r0 & Hin & ->). rewrite Forall_forall in Hall.
  by apply (Hall (k', e0)).
Qed.

Lemma number_from_entries l : forall r db, NoDup (map fst l) ->
  exists m, number_from r l db = with_entries m db /\
    forall k e, m !! k = Some e <-> (k, e) ∈ numbered r l \/ (k ∉ map fst l) /\ entries db !! k = Some e.
Proof.
  induction l as [|[k0 e0] l IH]; intros r db Hnd; cbn [number_from numbered map fst].
  { exists (entries db). split; [by destruct db as [m []]|]. intros k e. set_solver. }
  inversion Hnd as [|? ? Hni Hnd']; subst.
  destruct (IH (r + 1) (put_entry k0 (set_rank r e0) db) Hnd') as (m & -> & Hm). exists m. split; [done|].
  intros k e. rewrite Hm. cbn. destruct (decide (k = k0)) as [->|Hne].
  - rewrite lookup_insert_eq. split.
    + intros [Hin|[_ [= <-]]]; left; [by right|by left].
    + intros [[[= <-]|Hin]%elem_of_cons|[Hno _]]; [by right|by left|set_solver].
  - rewrite lookup_insert_ne by done. split; intros [Hin|[Hno Hk]]; [left; by right|right; set_solver|left|right; set_solver].
    apply elem_of_cons in Hin as [[= -> _]|Hin]; done.
Qed.

Lemma rank_board_ranked id c db : exists m, rank_board id c db = with_entries m db /\ ranked_board id c (with_entries m db) /\
  (forall k, k.1 <> (id, c) -> m !! k = entries db !! k) /\
  (forall k e, k.1 = (id, c) -> m !! k = Some e -> exists e0 r, entries db !! k = Some e0 /\ e = set_rank r e0) /\
  (forall k, is_Some (entries db !! k) -> is_Some (m !! k)).
Proof.
  unfold rank_board. set (l := merge_sort board_before (board_of id c db)).
  assert (Hp : l ≡ₚ board_of id c db) by apply merge_sort_Permutation.
  assert (Hnd : NoDup (map fst l)).
  { change (NoDup (l.*1)). rewrite Hp. apply board_of_keys. }
  assert (Hkey : forall k, k ∈ map fst l <-> k.1 = (id, c) /\ is_Some (entries db !! k)).
  { intros k. rewrite list_elem_of_In, in_map_iff. split.
    - intros ([k' e] & <- & Hin%list_elem_of_In). rewrite Hp in Hin. apply board_of_elem in Hin as [Hk Hc]. eauto.
    - intros [Hc [e He]]. exists (k, e). split; [done|]. apply list_elem_of_In. rewrite Hp. by apply board_of_elem. }
  destruct (number_from_entries l 1 db Hnd) as (m & -> & Hm). exists m. split; [done|].
  assert (Hnum : forall k e, (k, e) ∈ numbered 1 l -> k ∈ map fst l).
  { intros k e Hin. rewrite <- (numbered_keys l 1). change (k ∈ (numbered 1 l).*1). apply list_elem_of_fmap. by exists (k, e). }
  split; [|split; [|split]].
  - exists (numbered 1 l). split; [|split].
    + apply NoDup_Permutation; [apply (NoDup_fmap_1 fst); change (NoDup (map fst (numbered 1 l))); by rewrite numbered_keys
        |apply board_of_NoDup|].
      intros [k e]. rewrite board_of_elem. cbn [with_entries app set_app leaderboard_entries set_leaderboard_entries].
      rewrite Hm. split.
      * intros Hin. split; [by left|]. by apply Hnum, Hkey in Hin as [? _].
      * intros [[Hin|[Hno Hk]] Hc]; [done|]. exfalso. apply Hno, Hkey. eauto.
    + apply numbered_sorted, StronglySorted_merge_sort; apply _.
    + rewrite numbered_ranks. by rewrite numbered_length.
  - intros k Hk. apply option_eq. intros e. rewrite Hm. split.
    + intros [Hin|[_ He]]; [|done]. by apply Hnum, Hkey in Hin as [? _].
    + intros He. right. split; [|done]. intros [? _]%Hkey. done.
  - intros k e Hk He. apply Hm in He as [Hin|[Hno He]].
    + apply numbered_elem in Hin as (e0 & r & Hin & ->). rewrite Hp in Hin. apply board_of_elem in Hin as [Hin _]. eauto.
    + exfalso. apply Hno, Hkey. eauto.
  - intros k [e He]. destruct (decide (k ∈ map fst l)) as [Hin|Hno].
    + rewrite <- (numbered_keys l 1) in Hin. apply list_elem_of_In, in_map_iff in Hin as ([k' e'] & <- & Hin%list_elem_of_In).
      exists e'. apply Hm. by left.
    + exists e. apply Hm. by right.
Qed.

(** *** Filling and refreshing *)

Lemma insert_entries_Ok id p keys : forall db u db', insert_entries id p keys db = Ok (u, db') ->
  exists m, db' = with_entries m db /\
    (forall k, k.1.1 <> id \/ (k.1.2, k.2) ∉ keys -> m !! k = entries db !! k) /\
    (forall c user, (c, user) ∈ keys -> exists e, board_entry p db (c, user) = Ok e /\ m !! (id, c, user) = Some e).
Proof.
  induction keys as [|[c0 u0] keys IH]; intros db u db' Hrun; cbn [insert_entries] in Hrun.
  { apply tx_ret_Ok in Hrun as [_ <-]. exists (entries db). split; [by destruct db as [m []]|]. split; [done|].
    by intros c user ?%elem_of_nil. }
  rewrite gets_skip in Hrun. apply tx_bind_Ok in Hrun as (e & d & E & Hrun). apply lift_Ok in E as [E <-].
  apply tx_bind_Ok in Hrun as ([] & d & Em & Hrun). apply modify_Ok in Em as <-.
  apply IH in Hrun as (m & -> & Hold & Hnew). exists m. split; [done|]. cbn [fst snd] in Hold, Hnew. split.
  - intros k Hk. rewrite Hold; [|set_solver]. cbn. apply lookup_insert_ne. intros <-. cbn in Hk. set_solver.
  - intros c user Hin. destruct (decide ((c, user) ∈ keys)) as [Hk|Hk]; [by apply Hnew|].
    apply elem_of_cons in Hin as [[= -> ->]|Hin]; [|done]. exists e. split; [exact E|].
    rewrite Hold by (right; exact Hk). apply lookup_insert_eq.
Qed.

(** The state of the board of period [id] once its [done] currencies have been
    numbered; [db] is the database before the refresh, [p] the period. *)
Record board_so_far (id : string) (p : period_row) (db : DB) (numbered_in : list string) (db' : DB) : Prop := {
  bs_aside : exists m, db' = with_entries m db;
  bs_other : forall k, k.1.1 <> id -> entries db' !! k = entries db !! k;
  bs_rows : forall c user e, entries db' !! (id, c, user) = Some e ->
    (c, user) ∈ board_keys p db /\ exists e0 r, board_entry p db (c, user) = Ok e0 /\ e = set_rank r e0 \/
                                               board_entry p db (c, user) = Ok e /\ c ∉ numbered_in;
  bs_all : forall c user, (c, user) ∈ board_keys p db -> is_Some (entries db' !! (id, c, user));
  bs_ranked : forall c, c ∈ numbered_in -> ranked_board id c db'
}.

Lemma set_rank_again r r' e : set_rank r (set_rank r' e) = set_rank r e.
Proof. done. Qed.

Lemma board_number id p db l : forall before d, board_so_far id p db before d ->
  board_so_far id p db (before ++ l) (foldl (fun d c => rank_board id c d) d l).
Proof.
  induction l as [|c l IH]; intros before d Hs; cbn [foldl]; [by rewrite app_nil_r|].
  rewrite cons_middle, (assoc_L (++)). apply IH.
  destruct Hs as [(m0 & ->) Hother Hrows Hall Hranked].
  destruct (rank_board_ranked id c (with_entries m0 db)) as (m & -> & Hrk & Hne & Hsame & Hkeep). split.
  - by exists m.
  - intros k Hk. rewrite <- Hother by done. apply Hne. intros E. apply Hk. by rewrite E.
  - intros c' user e He. destruct (decide (c' = c)) as [->|Hc].
    + apply Hsame in He as (e0 & r & He0 & ->); [|done]. destruct (Hrows _ _ _ He0) as [Hin (e1 & r1 & Hor)].
      split; [done|]. destruct Hor as [[Hb ->]|[Hb _]]; eexists _, _; left; (split; [exact Hb|apply set_rank_again || done]).
    + cbn in He. rewrite Hne in He by (cbn; congruence). destruct (Hrows _ _ _ He) as [Hin (e1 & r1 & Hor)]. split; [done|].
      exists e1, r1. destruct Hor as [?|[? Hno]]; [by left|right]. split; [done|]. set_solver.
  - intros c' user Hin. apply Hkeep. by apply Hall.
  - intros c' [Hin|Hin%list_elem_of_singleton]%elem_of_app; [|by subst]. destruct (decide (c' = c)) as [->|Hc]; [done|].
    eapply ranked_board_ext, Hranked, Hin. intros k Hk. apply Hne. congruence.
Qed.

Lemma board_currencies_elem id c db : c ∈ board_currencies id db <-> exists user e, entries db !! (id, c, user) = Some e.
Proof.
  unfold board_currencies, group_keys. rewrite merge_sort_Permutation, elem_of_remove_dups, list_elem_of_In, in_map_iff.
  split.
  - intros ([[[i c'] user] e] & <- & [Hin Hi]%filter_In). apply list_elem_of_In, elem_of_map_to_list in Hin.
    apply bool_decide_eq_true in Hi. cbn in Hi. subst i. by exists user, e.
  - intros (user & e & He). exists ((id, c, user), e). split; [done|]. apply filter_In. split.
    + by apply list_elem_of_In, elem_of_map_to_list.
    + by apply bool_decide_eq_true.
Qed.

(** What a refresh of the period [p] did: only the board of the period and the
    time of its refresh have changed. *)
Record refreshed (now : Z) (id : string) (p : period_row) (db db' : DB) : Prop := {
  rf_aside : exists m, db' = put_row id (set_refreshed now p) (with_entries m db);
  rf_other : forall k, k.1.1 <> id -> entries db' !! k = entries db !! k;
  rf_rows : forall c user e, entries db' !! (id, c, user) = Some e ->
    (c, user) ∈ board_keys p db /\ exists e0 r, board_entry p db (c, user) = Ok e0 /\ e = set_rank r e0;
  rf_all : forall c user, (c, user) ∈ board_keys p db -> is_Some (entries db' !! (id, c, user));
  rf_ranked : forall c, ranked_board id c db'
}.

Lemma clear_entries_lookup id db k e : entries (clear_entries id db) !! k = Some e <-> entries db !! k = Some e /\ k.1.1 <> id.
Proof. cbn. by rewrite map_lookup_filter_Some. Qed.

Lemma board_filled id p db m :
  (forall k, k.1.1 <> id \/ (k.1.2, k.2) ∉ board_keys p db -> m !! k = entries (clear_entries id db) !! k) ->
  (forall c user, (c, user) ∈ board_keys p db -> exists e, board_entry p db (c, user) = Ok e /\ m !! (id, c, user) = Some e) ->
  board_so_far id p db [] (with_entries m db).
Proof.
  intros Hold Hnew. split.
  - by exists m.
  - intros k Hk. cbn. rewrite Hold by (by left). apply option_eq. intros e. rewrite clear_entries_lookup. naive_solver.
  - intros c user e He. cbn in He. destruct (decide ((c, user) ∈ board_keys p db)) as [Hin|Hno].
    + split; [done|]. destruct (Hnew _ _ Hin) as (e' & Hb & He'). assert (e' = e) as -> by congruence.
      exists e, 0. right. split; [done|by apply not_elem_of_nil].
    + exfalso. rewrite Hold in He by (by right). by apply clear_entries_lookup in He as [_ ?].
  - intros c user Hin. destruct (Hnew _ _ Hin) as (e & _ & He). by exists e.
  - by intros c ?%elem_of_nil.
Qed.

Lemma refreshPeriod_run t kind start db u db' id p :
  refreshPeriod t kind start db = Ok (u, db') ->
  find_row (period_of kind start) (leaderboard_periods db.(app)) = Some (id, p) -> pd_status p <> "frozen"%string ->
  refreshed (sql_now t) id p db db'.
Proof.
  intros Hrun Hf Hst. unfold refreshPeriod, select_where in Hrun. rewrite gets_skip in Hrun.
  change (tbl db.(app)) with (leaderboard_periods db.(app)) in Hrun. rewrite Hf in Hrun.
  rewrite (found_skip _ _ _ _ _ eq_refl) in Hrun. rewrite bool_decide_false in Hrun by done.
  apply tx_bind_Ok in Hrun as ([] & d & E & Hrun). apply modify_Ok in E as <-. rewrite gets_skip in Hrun.
  apply tx_bind_Ok in Hrun as ([] & d & E & Hrun). apply insert_entries_Ok in E as (m & -> & Hold & Hnew).
  apply tx_bind_Ok in Hrun as ([] & d & E & Hrun). apply modify_Ok in E as <-.
  apply tx_bind_Ok in Hrun as (n & d & E & Hrun). apply tx_ret_Ok in Hrun as [_ <-].
  pose proof (board_filled id p db m Hold Hnew) as Hs.
  change (with_entries m (clear_entries id db)) with (with_entries m db) in E.
  set (cs := board_currencies id (with_entries m db)) in E.
  apply (board_number id p db cs) in Hs. cbn [Datatypes.app] in Hs.
  set (d2 := foldl _ _ _) in Hs, E.
  apply find_row_Some in Hf as [Hp _]. destruct Hs as [(m2 & Hd2) Hother Hrows Hall Hranked].
  rewrite Hd2 in E. apply update_row_Ok in E as [(Hno & _ & _)|(r & Hr & _ & <-)].
  { change (leaderboard_periods db.(app) !! id = None) in Hno. cbn in Hp. congruence. }
  change (leaderboard_periods db.(app) !! id = Some r) in Hr. cbn in Hp. assert (r = p) as -> by congruence.
  assert (Hc : forall c user, is_Some (entries d2 !! (id, c, user)) -> c ∈ cs).
  { intros c user [e He]. destruct (Hrows _ _ _ He) as [Hin _]. apply board_currencies_elem.
    destruct (Hnew _ _ Hin) as (e' & _ & He'). by exists user, e'. }
  rewrite Hd2 in Hother, Hrows, Hall, Hranked, Hc. split.
  - by exists m2.
  - exact Hother.
  - intros c user e He. destruct (Hrows _ _ _ He) as [Hin (e0 & r & Hor)]. split; [done|]. exists e0, r.
    destruct Hor as [?|[_ Hno]]; [done|]. exfalso. apply Hno, (Hc c user). by exists e.
  - exact Hall.
  - intros c. destruct (decide (c ∈ cs)) as [Hin|Hno]; [exact (Hranked c Hin)|]. exists [].
    split; [|by split; [constructor|]]. apply Permutation_nil_l.
    destruct (board_of id c _) as [|[k e] l] eqn:El; [done|]. exfalso. apply Hno.
    assert (Hin : (k, e) ∈ board_of id c (put_row id (set_refreshed (sql_now t) p) (with_entries m2 db))) by (rewrite El; by left).
    apply board_of_elem in Hin as [Hk Hkc]. destruct k as [k user]. cbn in Hkc. subst k. apply (Hc c user). by exists e.
Qed.

Lemma board_entry_sums p db key e : board_entry p db key = Ok e ->
  lb_effective_stake_minor e = sum_Z (map bt_stake_minor (bets_of p db key)) /\
  lb_total_payout_minor e = Some (sum_Z (map bt_payout_minor (bets_of p db key))).
Proof.
  unfold board_entry, sum_scan. intros Hrun. apply res_bind_Ok in Hrun as (stake & E1 & Hrun).
  apply res_bind_Ok in Hrun as (payout & E2 & Hrun). apply res_bind_Ok in Hrun as (u & _ & Hrun).
  destruct (_ && _) in E1; [|done]. destruct (_ && _) in E2; [|done]. injection E1 as <-. injection E2 as <-.
  by injection Hrun as <-.
Qed.

Lemma board_keys_elem p db key : key ∈ board_keys p db <-> exists b, b ∈ bets_of p db key.
Proof.
  unfold board_keys. rewrite elem_of_remove_dups, list_elem_of_omap. unfold bets_of.
  split; [intros (b & H1 & H2)|intros (b & H1)]; exists b.
  - apply list_elem_of_In, filter_In. split; [by apply list_elem_of_In|by apply bool_decide_eq_true].
  - apply list_elem_of_In, filter_In in H1 as [H3 H4]. apply bool_decide_eq_true in H4.
    split; [by apply list_elem_of_In|done].
Qed.

Lemma counted_wins p db key : Forall (fun b => bt_stake_minor b < bt_payout_minor b) (bets_of p db key).
Proof.
  apply Forall_forall. intros b Hin%list_elem_of_In. apply filter_In in Hin as [Hin _]. apply filter_In in Hin as [_ Hc].
  unfold winning_bet in Hc. bool_to_prop. lia.
Qed.

Lemma sums_lt (l : list bet_row) : Forall (fun b => bt_stake_minor b < bt_payout_minor b) l -> l <> [] ->
  sum_Z (map bt_stake_minor l) < sum_Z (map bt_payout_minor l).
Proof.
  intros Hall Hne. destruct l as [|b l]; [done|]. apply Forall_cons in Hall as [Hb Hall]. cbn.
  enough (sum_Z (map bt_stake_minor l) <= sum_Z (map bt_payout_minor l)) by (unfold sum_Z in *; cbn in *; lia).
  clear Hb Hne. induction Hall as [|x l Hx Hl IH]; [done|]. unfold sum_Z in *. cbn in *. lia.
Qed.

(** C37: A refreshed board is right.  After a refresh of a running period its
    board of every currency holds exactly the players with a decided bet of the
    period in that currency that paid more than it staked; each player's stake and
    payout are the sums over those bets and his net win is positive; the ranks are
    1 to n, in the order of falling net win, then of the first bet, then of the
    player's number; and the boards of the other periods are as they were. *)
Theorem refresh_exact t kind start db u db' id p :
  refreshPeriod t kind start db = Ok (u, db') ->
  find_row (period_of kind start) (leaderboard_periods db.(app)) = Some (id, p) -> pd_status p <> "frozen"%string ->
  (forall c user, is_Some (entries db' !! (id, c, user)) <-> exists b, b ∈ bets_of p db (c, user)) /\
  (forall c user e, entries db' !! (id, c, user) = Some e ->
     lb_effective_stake_minor e = sum_Z (map bt_stake_minor (bets_of p db (c, user))) /\
     lb_total_payout_minor e = Some (sum_Z (map bt_payout_minor (bets_of p db (c, user)))) /\ 0 < net_win e) /\
  (forall c, ranked_board id c db') /\
  (forall k, k.1.1 <> id -> entries db' !! k = entries db !! k).
Proof.
  intros Hrun Hf Hst. destruct (refreshPeriod_run _ _ _ _ _ _ _ _ Hrun Hf Hst) as [_ Hother Hrows Hall Hranked].
  split; [|split; [|split; [exact Hranked|exact Hother]]].
  - intros c user. rewrite <- board_keys_elem. split; [|apply Hall]. intros [e He]. by apply Hrows in He as [? _].
  - intros c user e He. apply Hrows in He as [Hin (e0 & r & Hb & ->)]. apply board_entry_sums in Hb as [Hs Hp].
    split; [exact Hs|]. split; [exact Hp|]. unfold net_win. cbn [set_rank lb_total_payout_minor lb_effective_stake_minor].
    rewrite Hs, Hp. cbn [default from_option]. apply board_keys_elem in Hin as [b Hb].
    enough (sum_Z (map bt_stake_minor (bets_of p db (c, user))) < sum_Z (map bt_payout_minor (bets_of p db (c, user)))) by (cbn; lia).
    apply sums_lt; [apply counted_wins|]. intros E. rewrite E in Hb. by apply elem_of_nil in Hb.
Qed.

(** ** Frozen boards *)

Abbreviation periods db := (leaderboard_periods db.(app)).
Abbreviation dists db := (leaderboard_reward_distributions db.(app)).

Definition is_frozen (p : period_row) : Prop := pd_status p = "frozen"%string.

Definition same_period (p q : period_row) : Prop :=
  pd_period_type q = pd_period_type p /\ pd_starts_at q = pd_starts_at p /\ pd_ends_at q = pd_ends_at p.

(** UNIQUE(period_type, starts_at). *)
Definition one_period (db : DB) : Prop := forall i j p q, periods db !! i = Some p -> periods db !! j = Some q ->
  pd_period_type p = pd_period_type q -> pd_starts_at p = pd_starts_at q -> i = j.

(** No bet of the period waits for its result. *)
Definition settled (p : period_row) (db : DB) : Prop := forall k b, bets db.(app) !! k = Some b ->
  bet_in_period p b = true -> bt_status b <> "accepted"%string.

(** The period, its board and the rewards paid for it are as they were. *)
Record frozen_kept (id : string) (p : period_row) (db db' : DB) : Prop := {
  fk_period : periods db' !! id = Some p;
  fk_board : forall k, k.1.1 = id -> entries db' !! k = entries db !! k;
  fk_rewards : forall k x, di_period_id x = id -> dists db' !! k = Some x <-> dists db !! k = Some x
}.

(** What refreshing boards at [at_] may do. *)
Record advanced (at_ : Z) (db db' : DB) : Prop := {
  av_bets : bets db'.(app) = bets db.(app);
  av_one : one_period db';
  av_frozen : forall id p, periods db !! id = Some p -> is_frozen p -> frozen_kept id p db db';
  av_new : forall id q, periods db' !! id = Some q -> is_frozen q ->
    periods db !! id = Some q \/ pd_ends_at q <= at_ /\ settled q db
}.

Lemma advanced_refl at_ db : one_period db -> advanced at_ db db.
Proof. intros Ho. split; [done|done|by split|by left]. Qed.

Lemma advanced_trans at_ d1 d2 d3 : advanced at_ d1 d2 -> advanced at_ d2 d3 -> advanced at_ d1 d3.
Proof.
  intros [B1 O1 F1 N1] [B2 O2 F2 N2]. split; [congruence|done|..].
  - intros id p Hp Hf. destruct (F1 id p Hp Hf) as [K1 K2 K3]. destruct (F2 id p K1 Hf) as [K1' K2' K3'].
    split; [done|intros k Hk; by rewrite K2', K2|intros k x Hx; by rewrite K3', K3].
  - intros id q Hq Hf. destruct (N2 id q Hq Hf) as [Hq2|[He Hs]]; [by apply N1|]. right. split; [done|].
    unfold settled in *. by rewrite <- B1.
Qed.

(** Only the period [i], its board and its rewards may have changed. *)
Record around (i : string) (db db' : DB) : Prop := {
  ar_bets : bets db'.(app) = bets db.(app);
  ar_period : forall j, j <> i -> periods db' !! j = periods db !! j;
  ar_this : forall p, periods db !! i = Some p -> exists q, periods db' !! i = Some q /\ same_period p q;
  ar_board : forall k, k.1.1 <> i -> entries db' !! k = entries db !! k;
  ar_rewards : forall k x, di_period_id x <> i -> dists db' !! k = Some x <-> dists db !! k = Some x
}.

Lemma around_refl i db : around i db db.
Proof. split; try done. intros p Hp. by exists p. Qed.

Lemma around_trans i d1 d2 d3 : around i d1 d2 -> around i d2 d3 -> around i d1 d3.
Proof.
  intros [B1 P1 T1 E1 R1] [B2 P2 T2 E2 R2]. split.
  - congruence.
  - intros j Hj. by rewrite P2, P1.
  - intros p Hp. destruct (T1 p Hp) as (q & Hq & S1). destruct (T2 q Hq) as (q' & Hq' & S2). exists q'. split; [done|].
    unfold same_period in *. intuition congruence.
  - intros k Hk. by rewrite E2, E1.
  - intros k x Hx. by rewrite R2, R1.
Qed.

Lemma around_one i p db db' : periods db !! i = Some p -> around i db db' -> one_period db -> one_period db'.
Proof.
  intros Hp [_ Hother Hthis _ _] Ho.
  assert (Hold : forall j q, periods db' !! j = Some q -> exists q0, periods db !! j = Some q0 /\ same_period q0 q).
  { intros j q Hq. destruct (decide (j = i)) as [->|Hj].
    - destruct (Hthis p Hp) as (q' & Hq' & Hs). exists p. split; [done|]. congruence.
    - exists q. split; [|done]. by rewrite <- Hother. }
  intros j k q1 q2 H1 H2 Ht Hs. destruct (Hold _ _ H1) as (p1 & Hp1 & S1). destruct (Hold _ _ H2) as (p2 & Hp2 & S2).
  apply (Ho j k p1 p2 Hp1 Hp2); unfold same_period in *; intuition congruence.
Qed.

Lemma around_advanced at_ i p db db' : periods db !! i = Some p -> ~ is_frozen p -> one_period db -> around i db db' ->
  (forall q, periods db' !! i = Some q -> is_frozen q -> pd_ends_at q <= at_ /\ settled q db) -> advanced at_ db db'.
Proof.
  intros Hp Hnf Ho Har Hnew. pose proof (around_one _ _ _ _ Hp Har Ho) as Ho'. destruct Har as [Hb Hother Hthis He Hr].
  split; [done|done|..].
  - intros id q Hq Hf. assert (id <> i) by (intros ->; congruence). split.
    + by rewrite Hother.
    + intros k <-. by apply He.
    + intros k x <-. by apply Hr.
  - intros id q Hq Hf. destruct (decide (id = i)) as [->|Hid]; [right; by apply Hnew|left]. by rewrite <- Hother.
Qed.

Lemma found_period kind start db i p : one_period db -> periods db !! i = Some p -> pd_period_type p = kind ->
  pd_starts_at p = start -> find_row (period_of kind start) (periods db) = Some (i, p).
Proof.
  intros Ho Hp Hk Hs. destruct (find_row _ _) as [[j q]|] eqn:E.
  - apply find_row_Some in E as [Hq Hpo]. unfold period_of in Hpo. bool_to_prop.
    assert (j = i) as -> by (apply (Ho j i q p); [done|done|congruence|congruence]). congruence.
  - pose proof (find_row_None _ _ _ _ E Hp) as Hn. unfold period_of in Hn. rewrite bool_decide_true, Hs, Z.eqb_refl in Hn by done.
    done.
Qed.

Lemma refreshed_around now i p db db' : periods db !! i = Some p -> refreshed now i p db db' ->
  around i db db' /\ periods db' !! i = Some (set_refreshed now p).
Proof.
  intros Hp [(m & Hdb) Ho _ _ _]. split; [split|].
  - by rewrite Hdb.
  - intros j Hj. rewrite Hdb. cbn. by apply lookup_insert_ne.
  - intros p' Hp'. assert (p' = p) as -> by congruence. rewrite Hdb. cbn. rewrite lookup_insert_eq. by eexists.
  - exact Ho.
  - by rewrite Hdb.
  - rewrite Hdb. cbn. apply lookup_insert_eq.
Qed.

Lemma freeze_around now kind start i p db u db' : one_period db -> periods db !! i = Some p ->
  pd_period_type p = kind -> pd_starts_at p = start ->
  update_where (R := period_row) (is_running kind start) (set_frozen now) db = Ok (u, db') -> around i db db'.
Proof.
  intros Ho Hp Hk Hs Hrun. unfold update_where in Hrun. apply modify_Ok in Hrun as <-. split; try done.
  - intros j Hj. cbn. rewrite map_lookup_imap. destruct (periods db !! j) as [q|] eqn:Hq; [|done]. cbn.
    destruct (is_running kind start j q) eqn:Er; [|done]. exfalso. unfold is_running, period_of in Er. bool_to_prop.
    apply Hj, (Ho j i q p); [done|done|congruence|congruence].
  - intros p' Hp'. cbn. rewrite map_lookup_imap, Hp'. cbn. destruct (is_running _ _ _ _); by eexists.
Qed.

Lemma pay_around any_typed t d db u db' : pay any_typed t d db = Ok (u, db') -> around (du_periodID d) db db'.
Proof.
  intros Hrun. unfold pay, select_where in Hrun. rewrite gets_skip in Hrun.
  destruct (find_row _ _) as [x|]; [apply tx_ret_Ok in Hrun as [_ <-]; apply around_refl|].
  unfold find_wallet, insert_distribution in Hrun.
  assert (Hrow : exists k, bets db'.(app) = bets db.(app) /\ periods db' = periods db /\ entries db' = entries db /\
    dists db !! k = None /\ exists now, dists db' = <[k := mk_distribution_row (du_periodID d) (du_currency d) (du_user d)
      (du_rank d) (du_rewardCurrency d) (du_amount d) now (du_snapshot d)]> (dists db))
    by (tx_steps; eexists; do 3 (split; [reflexivity|]); (split; [eassumption|eexists; reflexivity])).
  destruct Hrow as (k & Hb & Hp & He & Hno & now & Hd). split; [done|by rewrite Hp|rewrite Hp; intros p Hi; by exists p|by rewrite He|].
  intros k' x Hx. rewrite Hd. destruct (decide (k' = k)) as [->|Hk].
  - rewrite lookup_insert_eq, Hno. split; [|done]. intros [= <-]. done.
  - by rewrite lookup_insert_ne.
Qed.

Lemma pay_all_around any_typed t i l : Forall (fun d => du_periodID d = i) l ->
  forall db r db', pay_all_due any_typed t l db = (r, db') -> around i db db'.
Proof.
  induction 1 as [|d l Hd _ IH]; intros db r db' Hrun; cbn [pay_all_due] in Hrun.
  { injection Hrun as _ <-. apply around_refl. }
  apply svc_bind_inv in Hrun as [(a & d1 & E & Hrun)|(e & E & _)];
    apply atomically_cases in E as [(b & Eb & E)|(e' & Eb & ->)]; try discriminate Eb; [|apply around_refl].
  - apply IH in Hrun. eapply around_trans; [|exact Hrun]. subst i. by eapply pay_around.
Qed.

Lemma due_period kind start db i p : find_row (period_of kind start) (periods db) = Some (i, p) ->
  Forall (fun d => du_periodID d = i) (rewards_due kind start db).
Proof.
  intros Hf. apply Forall_forall. intros d Hin%list_elem_of_In. unfold rewards_due in Hin. rewrite Hf in Hin.
  apply in_flat_map in Hin as (kv & _ & Hin). destruct (lb_rank kv.2) as [r|]; [|done].
  apply in_map_iff in Hin as (x & <- & _). done.
Qed.

Lemma payPeriod_around any_typed t kind start i p db r db' :
  find_row (period_of kind start) (periods db) = Some (i, p) -> payPeriod any_typed t kind start db = (r, db') -> around i db db'.
Proof.
  intros Hf Hrun. unfold payPeriod in Hrun. apply svc_bind_inv in Hrun as [(due & d & E & Hrun)|(e & [=] & _)].
  injection E as <- <-. eapply pay_all_around, Hrun. by eapply due_period.
Qed.

(** A period that has ended and is not frozen. *)
Definition waiting (kind : string) (at_ : Z) (db : DB) (start : Z) : Prop := exists i p, periods db !! i = Some p /\
  pd_period_type p = kind /\ pd_starts_at p = start /\ pd_ends_at p <= at_ /\ ~ is_frozen p.

Lemma pending_none kind start db i p : find_row (period_of kind start) (periods db) = Some (i, p) ->
  (0 <? pending_bets kind start db) = false -> settled p db.
Proof.
  intros Hf. unfold pending_bets. rewrite Hf. cbv beta iota. destruct (List.filter _ _) as [|b l] eqn:El; [|intros E%Z.ltb_ge; rewrite length_cons in E; lia].
  intros _ k b Hb Hin Hst. assert (H' : In b []); [|done]. rewrite <- El. apply filter_In. split.
  - apply in_map_iff. exists (k, b). split; [done|]. by apply list_elem_of_In, elem_of_map_to_list.
  - by rewrite bool_decide_true, Hin.
Qed.

Lemma freeze_step any_typed t kind start i p db r db' : one_period db -> periods db !! i = Some p ->
  pd_period_type p = kind -> pd_starts_at p = start -> ~ is_frozen p ->
  freeze_one any_typed t kind start db = (r, db') -> around i db db'.
Proof.
  intros Ho Hp Hk Hs Hnf Hrun. pose proof (found_period _ _ _ _ _ Ho Hp Hk Hs) as Hf. unfold freeze_one in Hrun.
  apply svc_bind_inv in Hrun as [(u & d1 & E & Hrun)|(e & E & _)]; apply atomically_cases in E as [(b & Eb & E)|(e' & Eb & ->)];
    try discriminate Eb; [|apply around_refl].
  destruct (refreshed_around _ _ _ _ _ Hp (refreshPeriod_run _ _ _ _ _ _ _ _ E Hf Hnf)) as [A1 Hp1].
  pose proof (around_one _ _ _ _ Hp A1 Ho) as Ho1. eapply around_trans; [exact A1|]. clear E.
  apply svc_bind_inv in Hrun as [(u' & d2 & E & Hrun)|(e & E & _)]; apply atomically_cases in E as [(b' & Eb' & E)|(e' & Eb' & ->)];
    try discriminate Eb'; [|apply around_refl].
  pose proof (freeze_around _ _ _ _ _ _ _ _ Ho1 Hp1 Hk Hs E) as A2. eapply around_trans; [exact A2|].
  destruct (ar_this _ _ _ A2 _ Hp1) as (q & Hq & Hkind & Hstart & _).
  eapply (payPeriod_around _ _ _ _ i q); [|exact Hrun].
  apply found_period; [by apply (around_one _ _ _ _ Hp1 A2)|exact Hq| |]; cbn in *; congruence.
Qed.

Lemma around_waiting kind at_ i p db db' s : around i db db' -> periods db !! i = Some p -> pd_starts_at p <> s ->
  waiting kind at_ db s -> waiting kind at_ db' s.
Proof.
  intros Har Hp Hs (j & q & Hq & Hk & Hst & Hrest). exists j, q. split; [|done].
  rewrite (ar_period _ _ _ Har); [done|]. intros ->. congruence.
Qed.

Lemma freeze_ended_advanced any_typed t kind at_ starts : NoDup starts -> forall db r db', one_period db ->
  Forall (waiting kind at_ db) starts -> freeze_ended any_typed t kind starts db = (r, db') -> advanced at_ db db'.
Proof.
  induction 1 as [|start starts Hni _ IH]; intros db r db' Ho Hall Hrun; cbn [freeze_ended] in Hrun.
  { injection Hrun as _ <-. by apply advanced_refl. }
  apply Forall_cons in Hall as [(i & p & Hp & Hk & Hs & He & Hnf) Hall].
  apply svc_bind_inv in Hrun as [(n & d & E & Hrun)|(e & [=] & _)].
  injection E as <- <-. pose proof (found_period _ _ _ _ _ Ho Hp Hk Hs) as Hf.
  destruct (0 <? pending_bets kind start db) eqn:Epend; [by eapply IH|].
  assert (Hstep : forall r d, freeze_one any_typed t kind start db = (r, d) -> around i db d /\ advanced at_ db d).
  { intros r' d Hd. pose proof (freeze_step _ _ _ _ _ _ _ _ _ Ho Hp Hk Hs Hnf Hd) as Har. split; [exact Har|].
    apply (around_advanced _ i p); [done|done|done|exact Har|]. intros q Hq _.
    destruct (ar_this _ _ _ Har p Hp) as (q' & Hq' & Hkind & Hstart & Hend). assert (q' = q) as -> by congruence.
    split; [lia|]. intros k b Hb Hin. apply (pending_none _ _ _ _ _ Hf Epend k b Hb).
    unfold bet_in_period in *. by rewrite <- Hstart, <- Hend. }
  apply svc_bind_inv in Hrun as [(u & d1 & E & Hrest)|(e & E & _)]; [|by apply (Hstep (Err e))].
  destruct (Hstep _ _ E) as [Har Hadv].
  eapply advanced_trans; [exact Hadv|].
  eapply IH; [apply Hadv| |exact Hrest]. apply Forall_forall. intros s Hin. rewrite Forall_forall in Hall.
  eapply around_waiting; [exact Har|exact Hp| |by apply Hall]. rewrite Hs. intros ->. by apply Hni.
Qed.

Lemma insert_period_advanced at_ t kind start end_ db u db' : one_period db ->
  insert_period t kind start end_ db = Ok (u, db') -> advanced at_ db db'.
Proof.
  intros Ho Hrun. unfold insert_period in Hrun. apply tx_bind_Ok in Hrun as (id & d & E & Hrun).
  apply new_uuid_Ok in E as [<- <-]. apply tx_bind_Ok in Hrun as (made & d & E & Hrun). apply tx_ret_Ok in Hrun as [_ <-].
  apply insert_unless_Ok in E as [(_ & <- & _)|(_ & Hfree & Hnone & <-)]; [destruct (advanced_refl at_ db Ho); by split|].
  change (periods db !! drawn db = None) in Hfree. change (find_row (fun _ => period_of kind start "") (periods db) = None) in Hnone.
  set (p := mk_period_row kind start end_ "running" (sql_now t) None).
  set (db' := put_row _ _ _).
  assert (Hp : periods db' = <[drawn db := p]> (periods db)) by reflexivity. split.
  - done.
  - assert (Hnew : forall j q, periods db !! j = Some q -> pd_period_type q = kind -> pd_starts_at q = start -> False).
    { intros j q Hq Hk Hs. pose proof (find_row_None _ _ _ _ Hnone Hq) as Hn. unfold period_of in Hn.
      by rewrite bool_decide_true, Hs, Z.eqb_refl in Hn. }
    intros i j q1 q2. rewrite Hp. intros [[-> Eq1]|H1]%lookup_insert_or [[-> Eq2]|H2]%lookup_insert_or Hk Hs; [done|..].
    + exfalso. apply (Hnew j q2 H2); [rewrite <- Hk|rewrite <- Hs]; by rewrite <- Eq1 || rewrite Eq1.
    + exfalso. apply (Hnew i q1 H1); [rewrite Hk|rewrite Hs]; by rewrite <- Eq2 || rewrite Eq2.
    + by apply (Ho i j q1 q2).
  - intros id q Hq Hf. split; [|done..]. rewrite Hp, lookup_insert_ne; [done|]. intros <-. congruence.
  - intros id q. rewrite Hp. intros [[-> ->]|Hq]%lookup_insert_or Hf; [discriminate Hf|by left].
Qed.

Lemma refreshPeriod_advanced at_ t kind start db u db' : one_period db ->
  refreshPeriod t kind start db = Ok (u, db') -> advanced at_ db db'.
Proof.
  intros Ho Hrun. destruct (find_row (period_of kind start) (periods db)) as [[i p]|] eqn:Hf.
  - destruct (decide (pd_status p = "frozen"%string)) as [Hz|Hz].
    + unfold refreshPeriod, select_where in Hrun. rewrite gets_skip in Hrun.
      change (tbl db.(app)) with (periods db) in Hrun. rewrite Hf in Hrun.
      rewrite (found_skip _ _ _ _ _ eq_refl) in Hrun. rewrite bool_decide_true in Hrun by done.
      apply tx_ret_Ok in Hrun as [_ <-]. by apply advanced_refl.
    + pose proof (refreshPeriod_run _ _ _ _ _ _ _ _ Hrun Hf Hz) as Hr. apply find_row_Some in Hf as [Hp _].
      destruct (refreshed_around _ _ _ _ _ Hp Hr) as [Har Hq].
      apply (around_advanced _ i p); [done|done|done|done|]. intros q Hq' Hfz. exfalso. apply Hz.
      assert (q = set_refreshed (sql_now t) p) as -> by congruence. done.
  - exfalso. unfold refreshPeriod, select_where in Hrun. rewrite gets_skip in Hrun.
    change (tbl db.(app)) with (periods db) in Hrun. by rewrite Hf in Hrun.
Qed.

Lemma ended_running_waiting kind at_ db : one_period db ->
  NoDup (ended_running kind at_ db) /\ Forall (waiting kind at_ db) (ended_running kind at_ db).
Proof.
  intros Ho. unfold ended_running. set (P := fun kv : string * period_row => _ && _ && _).
  assert (HP : forall kv, In kv (List.filter P (map_to_list (periods db))) ->
    periods db !! kv.1 = Some kv.2 /\ pd_period_type kv.2 = kind /\ pd_status kv.2 = "running"%string /\ pd_ends_at kv.2 <= at_).
  { intros [i p] [Hin Hc]%filter_In. apply list_elem_of_In, elem_of_map_to_list in Hin. unfold P in Hc. bool_to_prop. done. }
  split.
  - rewrite merge_sort_Permutation. change (NoDup ((fun kv => pd_starts_at kv.2) <$> List.filter P (map_to_list (periods db)))).
    apply NoDup_fmap_2_strong.
    + intros [i p] [j q] Hi%list_elem_of_In%HP Hj%list_elem_of_In%HP Hs. cbn in *.
      destruct Hi as (Hi & Hk & _). destruct Hj as (Hj & Hk' & _).
      assert (i = j) as -> by (apply (Ho i j p q); [done|done|congruence|done]). congruence.
    + apply (NoDup_fmap_1 fst). apply filter_keys_NoDup, NoDup_fst_map_to_list.
  - apply Forall_forall. intros s Hin. rewrite merge_sort_Permutation in Hin.
    apply list_elem_of_In, in_map_iff in Hin as ([i p] & <- & Hin%HP). cbn in Hin. destruct Hin as (Hi & Hk & Hst & He).
    exists i, p. do 4 (split; [done|]). unfold is_frozen. by rewrite Hst.
Qed.

Lemma refresh_kind_advanced any_typed t at_ kind db r db' : one_period db ->
  refresh_kind any_typed t at_ kind db = (r, db') -> advanced at_ db db'.
Proof.
  intros Ho Hrun. unfold refresh_kind in Hrun. destruct (periodBounds kind at_) as [start end_].
  apply svc_bind_inv in Hrun as [(u & d1 & E & Hrun)|(e & E & _)]; apply atomically_cases in E as [(b & Eb & E)|(e' & Eb & ->)];
    try discriminate Eb; [|by apply advanced_refl].
  pose proof (insert_period_advanced at_ _ _ _ _ _ _ _ Ho E) as A1. eapply advanced_trans; [exact A1|]. clear E.
  apply svc_bind_inv in Hrun as [(u' & d2 & E & Hrun)|(e & E & _)]; apply atomically_cases in E as [(b' & Eb' & E)|(e' & Eb' & ->)];
    try discriminate Eb'; [|by apply advanced_refl, A1].
  pose proof (refreshPeriod_advanced at_ _ _ _ _ _ _ (av_one _ _ _ A1) E) as A2. eapply advanced_trans; [exact A2|].
  apply svc_bind_inv in Hrun as [(starts & d3 & E3 & Hrun)|(e & [=] & _)]. injection E3 as <- <-.
  destruct (ended_running_waiting kind at_ d2 (av_one _ _ _ A2)) as [Hnd Hall].
  eapply freeze_ended_advanced; [exact Hnd|apply A2|exact Hall|exact Hrun].
Qed.

Lemma Refresh_advanced any_typed t at_ db r db' : one_period db -> Refresh any_typed t at_ db = (r, db') -> advanced at_ db db'.
Proof.
  intros Ho Hrun. unfold Refresh in Hrun. apply svc_bind_inv in Hrun as [(u & d & E & Hrun)|(e & E & _)];
    [|by eapply refresh_kind_advanced].
  pose proof (refresh_kind_advanced _ _ _ _ _ _ _ Ho E) as A1. eapply advanced_trans; [exact A1|].
  eapply refresh_kind_advanced, Hrun. apply A1.
Qed.

(** C23: Boards freeze when they are complete, and then for good.  Whatever a
    refresh does and wherever it stops, a period it freezes has ended and none of
    its bets still waits for a result; and a period that was frozen before keeps
    its status, its board and the rewards paid for it - so that a reward which was
    not paid in the refresh that froze its board is never paid. *)
Theorem frozen_boards_final any_typed t at_ db r db' : one_period db -> Refresh any_typed t at_ db = (r, db') ->
  one_period db' /\
  (forall id p, periods db !! id = Some p -> is_frozen p -> frozen_kept id p db db') /\
  (forall id q, periods db' !! id = Some q -> is_frozen q ->
     periods db !! id = Some q \/ pd_ends_at q <= at_ /\ settled q db').
Proof.
  intros Ho Hrun. destruct (Refresh_advanced _ _ _ _ _ _ Ho Hrun) as [Hb H1 Hf Hn]. split; [done|split; [done|]].
  intros id q Hq Hz. destruct (Hn id q Hq Hz) as [|[He Hs]]; [by left|right]. split; [done|]. unfold settled. by rewrite Hb.
Qed.

(** ** The reward rules *)

Abbreviation rules_of db := (leaderboard_reward_rules db.(app)).

Definition rules_in (kind currency : string) (m : gmap string reward_rule_row) : list reward_rule_row :=
  map snd (List.filter (fun kv => rule_set kind currency kv.2) (map_to_list m)).

(** How a rule is stored. *)
Definition rule_row (kind currency : string) (r : RewardRule) : reward_rule_row :=
  mk_reward_rule_row kind currency (rr_RankFrom r) (rr_RankTo r) (ToUpper (TrimSpace (rr_RewardCurrency r)))
    (rr_RewardMinor r) (rr_Enabled r).

Lemma filter_perm {A} (f : A -> bool) (l k : list A) : l ≡ₚ k -> List.filter f l ≡ₚ List.filter f k.
Proof.
  induction 1 as [|x l k _ IH|x y l|l k k' _ IH1 _ IH2]; cbn; [done|..].
  - destruct (f x); by rewrite IH.
  - destruct (f x), (f y); try done. apply perm_swap.
  - by rewrite IH1.
Qed.

Lemma rules_in_insert kind currency m id r : m !! id = None ->
  rules_in kind currency (<[id := r]> m) ≡ₚ (if rule_set kind currency r then [r] else []) ++ rules_in kind currency m.
Proof.
  intros Hno. unfold rules_in. pose proof (map_to_list_insert m id r Hno) as Hp.
  apply (filter_perm (fun kv => rule_set kind currency kv.2)) in Hp. cbn [List.filter snd] in Hp.
  apply (Permutation_map snd) in Hp. rewrite Hp. by destruct (rule_set kind currency r).
Qed.

Lemma insert_rules_Ok kind currency rules : forall db u db', insert_rules kind currency rules db = Ok (u, db') ->
  rules_in kind currency (rules_of db') ≡ₚ map (rule_row kind currency) rules ++ rules_in kind currency (rules_of db) /\
  leaderboard_reward_rule_versions db'.(app) = leaderboard_reward_rule_versions db.(app) /\
  forall i r, rule_set kind currency r = false -> rules_of db' !! i = Some r <-> rules_of db !! i = Some r.
Proof.
  assert (Hown : forall r, rule_set kind currency (rule_row kind currency r) = true).
  { intros r. unfold rule_set. cbn. by rewrite !bool_decide_true. }
  induction rules as [|r rules IH]; intros db u db' Hrun; cbn [insert_rules] in Hrun.
  { apply tx_ret_Ok in Hrun as [_ <-]. done. }
  apply tx_bind_Ok in Hrun as ([] & d & E & Hrun). unfold insert_rule in E. cbv zeta in E.
  apply tx_bind_Ok in E as ([] & d0 & E0 & E). apply reject_if_Ok in E0 as [_ <-]. rewrite gets_skip in E.
  apply tx_bind_Ok in E as ([] & d0 & E0 & E). apply reject_if_Ok in E0 as [_ <-].
  apply tx_bind_Ok in E as (id & d0 & E0 & E). apply new_uuid_Ok in E0 as [<- <-].
  apply insert_row_Ok in E as (Hfree & _ & <-). fold (rule_row kind currency r) in Hrun.
  change (rules_of db !! drawn db = None) in Hfree. apply IH in Hrun as (Hp & Hv & Hother).
  cbn in Hp, Hv, Hother. split; [|split; [done|]].
  - rewrite Hp, rules_in_insert, Hown by done. cbn [map Datatypes.app]. symmetry. apply Permutation_middle.
  - intros i r' Hr'. rewrite Hother by done. destruct (decide (i = drawn db)) as [->|Hi].
    + rewrite lookup_insert_eq, Hfree. split; [|done]. intros [= <-]. by rewrite Hown in Hr'.
    + by rewrite lookup_insert_ne.
Qed.

Lemma rules_in_elem kind currency m r : r ∈ rules_in kind currency m <-> rule_set kind currency r = true /\ exists i, m !! i = Some r.
Proof.
  unfold rules_in. rewrite list_elem_of_In, in_map_iff. split.
  - intros ([i r'] & <- & [Hin Hr]%filter_In). apply list_elem_of_In, elem_of_map_to_list in Hin. cbn in *. eauto.
  - intros (Hr & i & Hi). exists (i, r). split; [done|]. apply filter_In. split; [|done].
    by apply list_elem_of_In, elem_of_map_to_list.
Qed.

Lemma clear_rules_lookup kind currency db i r :
  rules_of (clear_rules kind currency db) !! i = Some r <-> rules_of db !! i = Some r /\ rule_set kind currency r = false.
Proof. cbn. by rewrite map_lookup_filter_Some. Qed.

Lemma clear_rules_none kind currency db : rules_in kind currency (rules_of (clear_rules kind currency db)) = [].
Proof.
  destruct (rules_in _ _ _) as [|r l] eqn:E; [done|]. exfalso.
  assert (Hin : r ∈ rules_in kind currency (rules_of (clear_rules kind currency db))) by (rewrite E; by left).
  apply rules_in_elem in Hin as (Hr & i & [_ Hi]%clear_rules_lookup). congruence.
Qed.

(** Valid ranges are in order and do not meet. *)
Lemma ranges_sorted rules : forall last, ranges_valid last rules = true ->
  Forall (fun r => last < rr_RankFrom r /\ rr_RankFrom r <= rr_RankTo r) rules /\
  StronglySorted (fun a b => rr_RankTo a < rr_RankFrom b) rules.
Proof.
  induction rules as [|r rules IH]; intros last Hv; cbn [ranges_valid] in Hv; [by split; constructor|].
  apply andb_prop in Hv as [Hr Hv]. bool_to_prop. destruct (IH _ Hv) as [Hall Hs]. split.
  - constructor; [lia|]. eapply Forall_impl; [exact Hall|]. intros x [? ?]. cbn in *. lia.
  - constructor; [done|]. eapply Forall_impl; [exact Hall|]. intros x [? ?]. done.
Qed.

Lemma bump_version_Ok kind currency given db v db' : bump_version kind currency given db = Ok (v, db') ->
  v = given + 1 /\ db' = set_version kind currency v db /\
  default 0 (leaderboard_reward_rule_versions db.(app) !! (kind, currency)) = given.
Proof.
  unfold bump_version. rewrite gets_skip. destruct (_ !! _) as [x|] eqn:E; intros Hrun.
  - apply tx_bind_Ok in Hrun as ([] & d & E1 & Hrun). apply reject_if_Ok in E1 as [Hx <-].
    apply tx_bind_Ok in Hrun as ([] & d & E1 & Hrun). apply reject_if_Ok in E1 as [_ <-].
    apply tx_bind_Ok in Hrun as ([] & d & E1 & Hrun). apply modify_Ok in E1 as <-.
    apply tx_ret_Ok in Hrun as [<- <-]. bool_to_prop. by subst.
  - apply tx_bind_Ok in Hrun as ([] & d & E1 & Hrun). apply reject_if_Ok in E1 as [Hx <-]. rewrite gets_skip in Hrun.
    apply tx_bind_Ok in Hrun as ([] & d & E1 & Hrun). apply reject_if_Ok in E1 as [_ <-].
    apply tx_bind_Ok in Hrun as ([] & d & E1 & Hrun). apply modify_Ok in E1 as <-.
    apply tx_ret_Ok in Hrun as [<- <-]. bool_to_prop. by subst.
Qed.

(** A rule as it is read back: its currency trimmed and in capitals. *)
Definition stored_rule (r : RewardRule) : RewardRule :=
  mk_RewardRule (rr_RankFrom r) (rr_RankTo r) (ToUpper (TrimSpace (rr_RewardCurrency r))) (rr_RewardMinor r) (rr_Enabled r).

Lemma sorted_rules (l k : list RewardRule) : l ≡ₚ map stored_rule k ->
  StronglySorted (fun a b => rr_RankTo a < rr_RankFrom b) k -> Forall (fun r => rr_RankFrom r <= rr_RankTo r) k ->
  merge_sort from_order l = map stored_rule k.
Proof.
  intros Hp Hs Hall. apply (StronglySorted_unique_strong from_order).
  - intros x y Hx Hy Hxy Hyx. rewrite merge_sort_Permutation, Hp in Hx.
    apply list_elem_of_In, in_map_iff in Hx as (a & <- & Ha). apply list_elem_of_In, in_map_iff in Hy as (b & <- & Hb).
    f_equal. unfold from_order in *. cbn in *. clear Hp l. induction Hs as [|z k Hs IH Hz]; [done|].
    apply Forall_cons in Hall as [Hzz Hall]. rewrite Forall_forall in Hz. destruct Ha as [->|Ha], Hb as [->|Hb]; [done|..].
    + apply list_elem_of_In, Hz in Hb. lia.
    + apply list_elem_of_In, Hz in Ha. lia.
    + by apply IH.
  - apply StronglySorted_merge_sort.
    + intros x y z. unfold from_order. lia.
    + intros x y. unfold from_order. lia.
  - clear Hp l. induction Hs as [|z k Hs IH Hz]; cbn; [constructor|]. apply Forall_cons in Hall as [Hzz Hall].
    constructor; [by apply IH|]. apply Forall_fmap. rewrite !Forall_forall in *. intros x Hx. unfold from_order. cbn.
    specialize (Hz x Hx). lia.
  - by rewrite merge_sort_Permutation.
Qed.

(** The reward rules read back as they were written.  When a set of rules is
    replaced, the given version was the current one and is followed by the next;
    reading the set returns that version and exactly the given rules, in order;
    the ranges of no two rules meet; the rules of the other boards stay; and a
    second writer with the same version is told of the conflict. *)
Theorem rules_roundtrip s db s' db' : ReplaceRules s db = Ok (s', db') ->
  rs_Version s' = rs_Version s + 1 /\
  GetRules (rs_PeriodType s') (rs_Currency s) db' =
    Ok (mk_RuleSet (rs_PeriodType s') (rs_Currency s') (rs_Version s') (map stored_rule (rs_Rules s)), db') /\
  StronglySorted (fun a b => rr_RankTo a < rr_RankFrom b) (rs_Rules s) /\
  (forall i r, rule_set (rs_PeriodType s') (rs_Currency s') r = false -> rules_of db' !! i = Some r <-> rules_of db !! i = Some r) /\
  ReplaceRules s db' = Err ErrRewardRuleConflict.
Proof.
  intros Hrun. unfold ReplaceRules in Hrun. cbv zeta in Hrun. apply tx_bind_Ok in Hrun as ([] & d & Ev & Hrun).
  apply lift_Ok in Ev as [Ev <-]. apply tx_bind_Ok in Hrun as (v & d & Eb & Hrun).
  apply bump_version_Ok in Eb as (-> & -> & Hcur). apply tx_bind_Ok in Hrun as ([] & d & Ec & Hrun). apply modify_Ok in Ec as <-.
  apply tx_bind_Ok in Hrun as ([] & d & Ei & Hrun). apply tx_ret_Ok in Hrun as [<- <-].
  apply insert_rules_Ok in Ei as (Hp & Hv & Hother). rewrite clear_rules_none, app_nil_r in Hp.
  cbn [rs_PeriodType rs_Currency rs_Version rs_Rules normalize_rules] in *.
  set (kind := ToLower (TrimSpace (rs_PeriodType s))) in *. set (cur := ToUpper (TrimSpace (rs_Currency s))) in *.
  assert (Hvalid : known_kind kind = true /\ cur <> ""%string /\ ranges_valid 0 (rs_Rules s) = true).
  { unfold validateRules in Ev. cbn [rs_PeriodType rs_Currency rs_Version rs_Rules normalize_rules] in Ev. fold kind cur in Ev.
    apply res_bind_Ok in Ev as ([] & E1 & E2). apply fail_if_Ok in E1. apply fail_if_Ok in E2. bool_to_prop. done. }
  destruct Hvalid as (Hk & Hc & Hr). destruct (ranges_sorted _ _ Hr) as [Hall Hs].
  assert (Hver : leaderboard_reward_rule_versions d.(app) !! (kind, cur) = Some (rs_Version s + 1)).
  { rewrite Hv. cbn. apply lookup_insert_eq. }
  split; [done|split; [|split; [exact Hs|split]]].
  - unfold GetRules. fold cur. cbv zeta. rewrite reject_skip by (by rewrite Hk, bool_decide_false).
    rewrite gets_skip. unfold select_all. rewrite gets_skip, Hver. unfold mret, Tx_ret. do 3 f_equal.
    apply sorted_rules; [|exact Hs|eapply Forall_impl; [exact Hall|by intros x [_ ?]]].
    change (tbl (app d)) with (rules_of d).
    apply (Permutation_map rule_of) in Hp. rewrite map_map in Hp. etrans; [|etrans; [exact Hp|]].
    + unfold rules_in. by rewrite map_map.
    + done.
  - intros i r Hri. rewrite Hother, clear_rules_lookup by done. cbn. tauto.
  - unfold ReplaceRules. cbv zeta. rewrite (lift_skip _ () _ _ Ev). unfold bump_version.
    cbn [rs_PeriodType rs_Currency rs_Version normalize_rules]. fold kind cur.
    unfold mbind at 1, Tx_bind at 1. rewrite gets_skip, Hver, reject_stop; [done|]. apply negb_true_iff, Z.eqb_neq. lia.
Qed.

End boards.

(** ** Witnesses *)

Definition example_due : reward_due := mk_due "alice" "USDT" 1 "POINTS" 500 "p1" JNull.

Lemma pay_once_witness : exists db',
  pay true noon example_due example_db = Ok ((), db') /\ paid example_due example_db db' /\
  pay true noon (mk_due "alice" "USDT" 2 "USDT" 900 "p1" JNull) db' = Ok ((), db').
Proof.
  destruct (run_or_Ok (pay true noon example_due) (fun _ => true) example_db) as ([] & _ & E); [vm_compute; reflexivity|].
  assert (Hmax : du_amount example_due <= int64_max) by (vm_compute; discriminate).
  destruct (pay_once true noon example_due example_db _ books_empty Hmax E) as [Hor Hagain].
  exists (run_or (pay true noon example_due) example_db). split; [exact E|]. split.
  - destruct Hor as [Heq|Hp]; [|exact Hp]. exfalso.
    assert (Hn : bool_decide (leaderboard_reward_distributions (run_or (pay true noon example_due) example_db).(app) = ∅) = false) by (vm_compute; reflexivity).
    rewrite Heq in Hn. vm_compute in Hn. discriminate Hn.
  - apply Hagain; reflexivity.
Defined.

(** Alice won two bets and Bob one, within the day of [noon], which is over. *)
Definition won_bet (user wallet : string) (stake payout at_ : Z) : bet_row :=
  mk_bet_row "req" "round-1" user wallet None None JNull stake "won" payout None None false None false 1 None at_ None None 0.

Definition day_start : Z := (periodBounds "daily" (sql_now noon)).1.

Definition board_db : DB := mk_DB
  (mk_Money {[ "wa" := mk_wallet "alice" "USDT" 900 0 1 0; "wb" := mk_wallet "bob" "USDT" 700 0 1 0 ]} [])
  (set_leaderboard_periods {[ "p1" := mk_period_row "daily" day_start (day_start + board_day_ns) "running" 0 None;
                              "p0" := mk_period_row "daily" (day_start - board_day_ns) day_start "frozen" 0 (Some day_start) ]}
  (set_leaderboard_reward_rules {[ "r1" := mk_reward_rule_row "daily" "USDT" 1 3 "POINTS" 500 true ]}
  (set_bets {[ "b1" := won_bet "alice" "wa" 100 150 (day_start + 10);
               "b2" := won_bet "alice" "wa" 100 120 (day_start + 30);
               "b3" := won_bet "bob" "wb" 100 180 (day_start + 20) ]} example_app))).

Lemma refresh_exact_witness : exists db',
  refreshPeriod noon "daily" day_start board_db = Ok ((), db') /\
  ranked_board "p1" "USDT" db' /\
  exists e, leaderboard_entries db'.(app) !! ("p1", "USDT", "alice")%string = Some e /\
    lb_effective_stake_minor e = 200 /\ lb_rank e = Some 2.
Proof.
  destruct (run_or_Ok (refreshPeriod noon "daily" day_start) (fun _ => true) board_db) as ([] & _ & E); [vm_compute; reflexivity|].
  assert (Hf : find_row (period_of "daily" day_start) (leaderboard_periods board_db.(app)) =
    Some ("p1"%string, mk_period_row "daily" day_start (day_start + board_day_ns) "running" 0 None)) by (vm_compute; reflexivity).
  assert (Hobs : (fun e => (lb_effective_stake_minor e, lb_rank e)) <$>
    (leaderboard_entries (run_or (refreshPeriod noon "daily" day_start) board_db).(app) !! ("p1", "USDT", "alice")%string) =
    Some (200, Some 2)) by (vm_compute; reflexivity).
  assert (Hst : pd_status (mk_period_row "daily" day_start (day_start + board_day_ns) "running" 0 None) <> "frozen"%string)
    by discriminate.
  exists (run_or (refreshPeriod noon "daily" day_start) board_db). split; [exact E|].
  generalize dependent (run_or (refreshPeriod noon "daily" day_start) board_db). intros db' E Hobs.
  split; [exact (proj1 (proj2 (proj2 (refresh_exact _ _ _ _ _ _ _ _ E Hf Hst))) "USDT"%string)|].
  destruct (_ !! _) as [e|]; [|discriminate Hobs]. exists e. injection Hobs as Hs Hr.
  split; [reflexivity|split; [exact Hs|exact Hr]].
Defined.

Lemma board_db_one : one_period board_db.
Proof.
  intros i j p q Hp Hq. cbn in Hp, Hq. intros _ Hs.
  apply lookup_insert_or in Hp as [[-> ->]|Hp]; apply lookup_insert_or in Hq as [[-> ->]|Hq]; [done|..];
    try (apply lookup_singleton_Some in Hp as [<- <-]); try (apply lookup_singleton_Some in Hq as [<- <-]); [..|done];
    exfalso; cbn in Hs; vm_compute in Hs; discriminate Hs.
Qed.

Definition next_noon : clock := mk_clock (go_now noon + board_day_ns) (sql_now noon + board_day_ns).

(** The day is frozen and its rewards are paid; the board of the day before is
    as it was. *)
Lemma frozen_boards_final_witness : exists r db',
  Refresh true next_noon (sql_now next_noon) board_db = (r, db') /\ one_period db' /\
  frozen_kept "p0" (mk_period_row "daily" (day_start - board_day_ns) day_start "frozen" 0 (Some day_start)) board_db db' /\
  exists q, leaderboard_periods db'.(app) !! "p1"%string = Some q /\ is_frozen q /\ settled q db'.
Proof.
  assert (Hobs : pd_status <$> leaderboard_periods (Refresh true next_noon (sql_now next_noon) board_db).2.(app) !! "p1"%string =
    Some "frozen"%string) by (vm_compute; reflexivity).
  assert (Hp0 : leaderboard_periods board_db.(app) !! "p0"%string =
    Some (mk_period_row "daily" (day_start - board_day_ns) day_start "frozen" 0 (Some day_start))) by (vm_compute; reflexivity).
  assert (Hp1 : leaderboard_periods board_db.(app) !! "p1"%string =
    Some (mk_period_row "daily" day_start (day_start + board_day_ns) "running" 0 None)) by (vm_compute; reflexivity).
  destruct (Refresh true next_noon (sql_now next_noon) board_db) as [r db'] eqn:E. cbn [snd] in Hobs.
  destruct (frozen_boards_final _ _ _ _ _ _ board_db_one E) as (H1 & Hkept & Hnew).
  exists r, db'. split; [reflexivity|split; [exact H1|split; [exact (Hkept _ _ Hp0 eq_refl)|]]].
  destruct (leaderboard_periods db'.(app) !! "p1"%string) as [q|] eqn:Hq; [|discriminate Hobs]. injection Hobs as Hz.
  exists q. split; [reflexivity|split; [exact Hz|]]. destruct (Hnew _ _ Hq Hz) as [Hold|[_ Hs]]; [|exact Hs]. exfalso.
  rewrite Hp1 in Hold. injection Hold as <-. discriminate Hz.
Defined.

(** With a server that gives an untyped parameter no type, the refresh that
    freezes the board stops at its first reward; later refreshes succeed and pay
    nothing. *)
Theorem rewards_lost :
  let (r, db1) := Refresh false next_noon (sql_now next_noon) board_db in
  let (r2, db2) := Refresh false next_noon (sql_now next_noon + 1) db1 in
  r = Err ErrIndeterminate /\ pd_status <$> leaderboard_periods db1.(app) !! "p1"%string = Some "frozen"%string /\
  r2 = Ok () /\ leaderboard_reward_distributions db2.(app) = ∅.
Proof. vm_compute. split; [reflexivity|split; [reflexivity|split; reflexivity]]. Qed.

Definition example_rules : RewardRuleSet := mk_RuleSet " daily" "usdt" 0
  [mk_RewardRule 1 1 "usdt" 500 true; mk_RewardRule 2 5 " points" 100 false].

Lemma rules_roundtrip_witness : exists s' db',
  ReplaceRules example_rules example_db = Ok (s', db') /\ rs_Version s' = 1 /\
  ReplaceRules example_rules db' = Err ErrRewardRuleConflict.
Proof.
  destruct (run_or_Ok (ReplaceRules example_rules) (fun _ => true) example_db) as (s' & _ & E); [vm_compute; reflexivity|].
  exists s', (run_or (ReplaceRules example_rules) example_db). split; [exact E|].
  destruct (rules_roundtrip _ _ _ _ E) as (Hv & _ & _ & _ & Hc). split; [exact Hv|exact Hc].
Defined.
