(* ===== verification/LuluDraw.v ===== *)
(** * The Lulu draw feed

    [platform/luludraw]: the messages of the upstream games and the draws they
    carry, the reading loop of a socket and its progress clock (client.go,
    progress.go); [platform/luluall/client.go], the history of the second
    collector; the acceptance of a draw by the inbox
    ([platform/natsjs/draw_inbox.go]).

    A decrypted message is the JSON it holds.  The layouts of [time.Parse] are
    arguments. *)

From S2P Require Import Prelude GoStrings Json.

(** [luludraw.Event]. *)
Record draw_event : Type := mk_draw_event {
  de_Game : string;
  de_Kind : string;
  de_ResultField : string;
  de_Round : string;
  de_CloseAt : option Z;
  de_Result : list string
}.

#[export] Instance draw_event_eq_dec : EqDecision draw_event.
Proof. solve_decision. Defined.

Definition draw_games : list string := ["lh"; "xdy"; "race"]%string.

Definition draw_validGame (game : string) : bool := bool_decide (game ∈ draw_games).

(** ** Reading a message *)

(** A [map[string]json.RawMessage]. *)
Abbreviation raw_map := (gmap string json).

Definition dec_raw_map (data : raw) : option raw_map := j ← data; dec_map Some ∅ j.

(** The first named field that is an integer, as a number or in a string. *)
Fixpoint rawInt (data : raw_map) (names : list string) : option Z :=
  match names with
  | [] => None
  | name :: rest =>
      match data !! name with
      | None => rawInt data rest
      | Some value =>
          match dec_int64 0 value with
          | Some number => Some number
          | None =>
              match text ← dec_string "" value; ParseInt text with
              | Some parsed => Some parsed
              | None => rawInt data rest
              end
          end
      end
  end.

Definition rawRound (data : raw_map) : string :=
  match rawInt data ["round_id"; "roundId"]%string with
  | Some value => if value <=? 0 then "" else FormatInt value
  | None => ""
  end.

Record envelope : Type := mk_envelope {
  env_Event : string;
  env_Data : raw
}.

Definition dec_envelope (text : raw) : option envelope :=
  j ← text; dec_struct (fun k v e =>
    if is_key "e" k then s ← dec_string (env_Event e) v; Some (mk_envelope s (env_Data e))
    else if is_key "d" k then Some (mk_envelope (env_Event e) (Some v))
    else Some e) (mk_envelope "" None) j.

Section messages.
(** [time.Parse] with RFC3339Nano, and [time.ParseInLocation] with the two
    other layouts in UTC+8. *)
Context (parse_rfc3339 parse_shanghai : string -> option Z).

Definition closeTime (now : Z) (data : raw_map) : option Z :=
  let written := end_ ← (value ← data !! "end_time"%string; dec_string "" value);
                 match parse_rfc3339 end_ with Some at_ => Some at_ | None => parse_shanghai end_ end in
  match written with
  | Some at_ => Some at_
  | None =>
      let ms := default 0 (rawInt data ["countdownEndTime"; "countdown_end_time"]%string) in
      let seconds := default 0 (rawInt data ["countdown"]%string) in
      if 0 <? ms then Some (ms * 1000000)
      else if 0 <? seconds then Some (now + (seconds * 1000000000)%i64)
      else None
  end.

(** A snapshot is the object inside; one that does not decode is left. *)
Definition snapshot (game event : string) (data : raw_map) : raw_map :=
  let inner := fun name => default data (dec_raw_map (data !! (name : string))) in
  if negb (bool_decide (event = "2001"%string)) then data
  else if bool_decide (game = "lh"%string) then inner "round"%string
  else if bool_decide (game = "xdy"%string) then inner "result"%string
  else if bool_decide (game = "race"%string) then inner "round"%string
  else data.

Definition in_range (lo hi n : Z) : bool := (lo <=? n) && (n <=? hi).

(** A number within bounds, as the result it stands for. *)
Definition drawn_of (lo hi : Z) (n : option Z) : list string :=
  match n with Some v => if in_range lo hi v then [FormatInt v] else [] | None => [] end.

Record race_rank : Type := mk_race_rank {
  rr_ItemID : Z;
  rr_Rank : Z
}.

Definition dec_race_rank : json -> option race_rank :=
  dec_struct (fun k v r =>
    if is_key "item_id" k then n ← dec_int64 (rr_ItemID r) v; Some (mk_race_rank n (rr_Rank r))
    else if is_key "rank" k then n ← dec_int64 (rr_Rank r) v; Some (mk_race_rank (rr_ItemID r) n)
    else Some r) (mk_race_rank 0 0).

(** A slice; null is the empty one. *)
Definition dec_list {T} (dec : json -> option T) (j : json) : option (list T) :=
  match j with JArr l => mapM dec l | JNull => Some [] | _ => None end.

Definition winner_of (ranks : list race_rank) : list string :=
  match List.find (fun r => (rr_Rank r =? 1) && in_range 1 6 (rr_ItemID r)) ranks with
  | Some r => [FormatInt (rr_ItemID r)]
  | None => []
  end.

(** The result field and the result of one message. *)
Definition message_result (game event round : string) (data : raw_map) : string * list string :=
  if bool_decide (round = ""%string) then (""%string, [])
  else if bool_decide (game = "lh"%string) then
    if bool_decide (event = "3005"%string)
    then (""%string, drawn_of 1 2 (rawInt data ["win_item_id"; "winItemId"; "winner_camp"]%string))
    else (""%string, [])
  else if bool_decide (game = "xdy"%string) then
    if bool_decide (event ∈ ["3001"; "3004"; "3005"]%string) then
      match drawn_of 1 8 (rawInt data ["failedRoomId"]%string) with
      | [] =>
          match data !! "killedRooms"%string with
          | Some value =>
              ("killedRooms"%string,
               map FormatInt (List.filter (in_range 1 8) (default [] (dec_list (dec_int64 0) value))))
          | None => (""%string, [])
          end
      | result => ("failedRoomId"%string, result)
      end
    else (""%string, [])
  else if bool_decide (game = "race"%string) then
    match if bool_decide (event = "3005"%string) then drawn_of 1 6 (rawInt data ["win_item_id"]%string) else [] with
    | [] =>
        if bool_decide (event ∈ ["3005"; "3006"]%string)
        then (""%string, winner_of (default [] (value ← data !! "race_rank_info"%string; dec_list dec_race_rank value)))
        else (""%string, [])
    | result => ("win_item_id"%string, result)
    end
  else (""%string, []).

Definition parseMessageWithRound (now : Z) (game : string) (text : raw) (fallbackRound : string) : option draw_event :=
  message ← dec_envelope text;
  data ← dec_raw_map (env_Data message);
  let event := env_Event message in
  let data := snapshot game event data in
  let round := if bool_decide (rawRound data = ""%string) then fallbackRound else rawRound data in
  let closeAt := if bool_decide (event ∈ ["2001"; "3001"; "3002"; "3006"]%string) && negb (bool_decide (round = ""%string))
    then closeTime now data else None in
  let '(field, result) := message_result game event round data in
  let parsed := mk_draw_event game event field round closeAt result in
  if negb (bool_decide (result = [])) then Some parsed
  else if bool_decide (is_Some closeAt) ||
          (bool_decide (event = "2001"%string) || bool_decide (game = "race"%string) && bool_decide (event = "3006"%string)) &&
          negb (bool_decide (round = ""%string))
  then Some parsed
  else None.

(** The rounds of a history message of [lh]. *)
Definition dec_rounds (data : raw) : option (list raw_map) :=
  j ← data; dec_struct (fun k v l => if is_key "rounds" k then dec_list (dec_map Some ∅) v else Some l) [] j.

Definition lh_history (row : raw_map) : option draw_event :=
  let round := rawRound row in
  match drawn_of 1 2 (rawInt row ["win_item_id"]%string) with
  | [] => None
  | result =>
      if bool_decide (round = ""%string) then None
      else Some (mk_draw_event "lh" "2011" "rounds[].win_item_id" round None result)
  end.

(** The list of a history message of [xdy]. *)
Definition dec_result_list (data : raw) : option (list json) :=
  j ← data; dec_struct (fun k v l =>
    if is_key "result" k
    then dec_struct (fun k' v' l' => if is_key "list" k' then dec_list Some v' else Some l') l v
    else Some l) [] j.

Definition xdy_room (room : json) : list string := drawn_of 1 8 (rawInt {[ "room"%string := room ]} ["room"]%string).

Definition xdy_history (item : json) : option draw_event :=
  row ← dec_raw_map (Some item);
  round ← rawInt row ["round"]%string;
  if round <? 1 then None
  else
    rooms ← (value ← row !! "fail"%string; dec_list Some value);
    match flat_map xdy_room rooms with
    | [] => None
    | result => Some (mk_draw_event "xdy" "2007" "result.list[].fail" (FormatInt round) None result)
    end.

Definition parseMessagesWithRound (now : Z) (game : string) (text : raw) (fallbackRound : string) : list draw_event :=
  let single := match parseMessageWithRound now game text fallbackRound with Some e => [e] | None => [] end in
  let event := env_Event <$> dec_envelope text in
  let data := message ← dec_envelope text; env_Data message in
  if bool_decide (game = "lh"%string) && bool_decide (event = Some "2011"%string)
  then omap lh_history (default [] (dec_rounds data))
  else if bool_decide (game = "xdy"%string) && bool_decide (event = Some "2007"%string)
  then omap xdy_history (default [] (dec_result_list data))
  else single.

(** ** The reading loop of a socket *)

(** [drawProgress]. *)
Record drawProgress : Type := mk_progress {
  dp_round : Z;
  dp_at : Z;
  dp_resultRound : Z;
  dp_resultAt : Z
}.

Definition newDrawProgress (now : Z) : drawProgress := mk_progress 0 now 0 now.

Definition carries_draw (e : draw_event) : bool :=
  bool_decide (is_Some (de_CloseAt e)) || negb (bool_decide (de_Result e = [])).

Definition observe (e : draw_event) (now : Z) (p : drawProgress) : drawProgress :=
  if negb (carries_draw e) then p
  else
    match ParseInt (de_Round e) with
    | None => p
    | Some round =>
        if round <=? 0 then p
        else
          let p := if dp_round p <? round then mk_progress round now (dp_resultRound p) (dp_resultAt p) else p in
          if negb (bool_decide (de_Result e = [])) && (dp_resultRound p <? round)
          then mk_progress (dp_round p) (dp_at p) round now else p
    end.

Definition stale (now timeout : Z) (p : drawProgress) : bool :=
  (timeout <=? now - dp_at p) || (timeout <=? now - dp_resultAt p).

(** What the loop of [runGame] remembers between two messages: the last round,
    and the round whose result is being asked for. *)
Record feed : Type := mk_feed {
  fd_lastRound : string;
  fd_chaseRound : string;
  fd_chasing : bool;
  fd_progress : drawProgress
}.

Definition round_number (round : string) : Z := default 0 (ParseInt round).

Definition feed_event (now : Z) (game : string) (f : feed) (e : draw_event) : feed :=
  let progress := observe e now (fd_progress f) in
  let tracked := negb (bool_decide (de_Round e = ""%string)) && negb (bool_decide (de_Kind e ∈ ["2007"; "2011"]%string)) in
  let f :=
    if tracked then
      let previous := fd_lastRound f in
      if bool_decide (de_Kind e = "2001"%string) && negb (bool_decide (previous = ""%string)) &&
         negb (bool_decide (previous = de_Round e)) && bool_decide (game ∈ ["xdy"; "lh"]%string)
      then mk_feed (de_Round e) (FormatInt (round_number (de_Round e) - 1)%i64) true progress
      else mk_feed (de_Round e) (fd_chaseRound f) (fd_chasing f) progress
    else mk_feed (fd_lastRound f) (fd_chaseRound f) (fd_chasing f) progress in
  if bool_decide (de_Round e = fd_chaseRound f) && negb (bool_decide (de_Result e = []))
  then mk_feed (fd_lastRound f) (fd_chaseRound f) false (fd_progress f) else f.

(** A new round of [lh]: its snapshot is asked for. *)
Definition announced_round (game : string) (text : raw) : option string :=
  message ← dec_envelope text;
  if bool_decide (game = "lh"%string) && bool_decide (env_Event message = "3002"%string) then
    data ← dec_raw_map (env_Data message);
    if bool_decide (rawRound data = ""%string) then None else Some (rawRound data)
  else None.

(** One decrypted message: the events handed on. *)
Definition feed_message (now : Z) (game : string) (f : feed) (text : raw) : feed * list draw_event :=
  let f := match announced_round game text with
           | Some round => mk_feed round (fd_chaseRound f) (fd_chasing f) (fd_progress f)
           | None => f
           end in
  let events := parseMessagesWithRound now game text (fd_lastRound f) in
  (foldl (feed_event now game) f events, events).

End messages.

(** ** The second collector *)

Definition luluall_ErrResponse : error := Sentinel "luluall.ErrResponse".

Record history_record : Type := mk_history_record {
  hr_RoundID : Z;
  hr_Winner : Z;
  hr_Items : list Z
}.

Definition remote_game (game : string) : option string :=
  if bool_decide (game = "lh"%string) then Some "cock"%string
  else if bool_decide (game = "xdy"%string) then Some "steal"%string
  else if bool_decide (game = "race"%string) then Some "race"%string
  else None.

(** The result of one record, in ascending order and without repetition. *)
Fixpoint strictly_within (lo max : Z) (l : list Z) : bool :=
  match l with [] => true | v :: rest => (lo <? v) && (v <=? max) && strictly_within v max rest end.

Definition record_result (game : string) (r : history_record) : res (list string) :=
  let values := if bool_decide (game = "xdy"%string) then hr_Items r else [hr_Winner r] in
  let max := if bool_decide (game = "lh"%string) then 2 else if bool_decide (game = "xdy"%string) then 8 else 6 in
  let count := if bool_decide (game = "xdy"%string) then 7%nat else 1%nat in
  fail_if (bool_decide (values = []) || (count <? length values)%nat) luluall_ErrResponse;;
  let sorted := merge_sort Z.le values in
  fail_if (negb (strictly_within 0 max sorted)) luluall_ErrResponse;;
  Ok (map FormatInt sorted).

(** The records in order: one round twice with the same result counts once,
    with another one the whole answer is refused. *)
Fixpoint collect_history (game : string) (seen : gmap Z (list string)) (l : list history_record) : res (list draw_event) :=
  match l with
  | [] => Ok []
  | r :: rest =>
      fail_if (hr_RoundID r <=? 0) luluall_ErrResponse;;
      result ← record_result game r;
      match seen !! hr_RoundID r with
      | Some previous =>
          fail_if (negb (bool_decide (previous = result))) luluall_ErrResponse;;
          collect_history game seen rest
      | None =>
          events ← collect_history game (<[hr_RoundID r := result]> seen) rest;
          Ok (mk_draw_event game "luluall_history" "items" (FormatInt (hr_RoundID r)) None result :: events)
      end
  end.

Definition round_order (x y : draw_event) : Prop := round_number (de_Round x) <= round_number (de_Round y).

#[export] Instance round_order_dec x y : Decision (round_order x y) := Z_le_dec _ _.

(** The decoded answer: [code], [data.game] and [data.history]. *)
Definition luluall_History (game : string) (code : option Z) (answered : string) (history : option (list history_record))
    : res (list draw_event) :=
  remote ← of_option (Sentinel "unsupported LuluAll game") (remote_game game);
  records ← of_option luluall_ErrResponse history;
  fail_if (negb (bool_decide (code = Some 0)) || negb (bool_decide (answered = remote)) || (500 <? length records)%nat)
    luluall_ErrResponse;;
  events ← collect_history game ∅ records;
  Ok (merge_sort round_order events).

(** ** The inbox *)

Definition ErrDrawMessage : error := Sentinel "invalid draw inbox event".

(** [Time.MarshalJSON] of a UTC time: the year must have four digits, that is,
    from year 0 up to the first of January 10000. *)
Definition year_0 : Z := -62167219200000000000.
Definition year_10000 : Z := 253402300800000000000.

Definition ErrYear : error := Sentinel "Time.MarshalJSON: year outside of range [0,9999]".

Definition json_time (at_ : Z) : bool := (year_0 <=? at_) && (at_ <? year_10000).

(** [json.Marshal] of an event: the time is all that can fail. *)
Definition marshal_event (e : draw_event) : res () := fail_if (negb (from_option json_time true (de_CloseAt e))) ErrYear.

(** [drawMessage]: an event without a draw is skipped; the event stands for
    the message it is encoded to. *)
Definition drawMessage (e : draw_event) : res (option draw_event) :=
  if negb (carries_draw e) then Ok None
  else
    match ParseInt (de_Round e) with
    | Some round =>
        if (round <=? 0) || negb (draw_validGame (de_Game e)) then Err ErrDrawMessage
        else marshal_event e;; Ok (Some e)
    | None => Err ErrDrawMessage
    end.

(** [consume]: a message is acknowledged only when it was applied. *)
Definition acknowledged (game : string) (message : option draw_event) (apply : draw_event -> res ()) : bool :=
  match message with
  | Some e => bool_decide (de_Game e = game) && match apply e with Ok _ => true | Err _ => false end
  | None => false
  end.
