(* ===== verification/ExternalDraw.v ===== *)
(** * Draws of the upstream games

    [application/externaldraw]: the draws that arrive from the feed and the
    rounds they open or record (service.go), the draw an administrator enters
    (manual.go), the draws taken from the second collector (backfill.go) and the
    history shown to players (history.go).  [uuid.Parse] is an argument. *)

From S2P Require Import Prelude GoStrings Json Game Schema Store Operations Scheduler LuluDraw.

Definition ErrInvalidEvent : error := Sentinel "externaldraw.ErrInvalidEvent".
Definition ErrManualConflict : error := Sentinel "externaldraw.ErrManualConflict".
Definition ErrManualNotFound : error := Sentinel "externaldraw.ErrManualNotFound".
Definition ErrUnknownGame : error := Sentinel "externaldraw.ErrUnknownGame".

Definition draw_source : string := "lulu_ws".

(** UNIQUE(source, game, external_round). *)
Definition draw_key (game : string) (sequence : Z) (x : external_draw_row) : bool :=
  bool_decide (ed_source x = draw_source) && bool_decide (ed_game x = game) && (ed_external_round x =? sequence).

Definition set_close_at (at_ : option Z) (x : external_draw_row) : external_draw_row :=
  mk_external_draw_row (ed_source x) (ed_game x) (ed_external_round x)
    match at_ with Some a => Some a | None => ed_close_at x end
    (ed_outcome x) (ed_status x) (ed_conflict_outcome x) (ed_result_received_at x).

Definition confirm_outcome (outcome : json) (conflict : option json) (now : Z) (x : external_draw_row) : external_draw_row :=
  mk_external_draw_row (ed_source x) (ed_game x) (ed_external_round x) (ed_close_at x)
    (Some outcome) "confirmed" conflict (Some now).

Definition set_conflict (outcome : json) (x : external_draw_row) : external_draw_row :=
  mk_external_draw_row (ed_source x) (ed_game x) (ed_external_round x) (ed_close_at x)
    (ed_outcome x) "conflict" (Some outcome) (ed_result_received_at x).

Definition strings_json (l : list string) : json := JArr (map JStr l).

(** A draw has the values of [saved], in any order: the values are counted and
    the result takes them one by one. *)
Definition count_value (counts : gmap string Z) (v : string) : gmap string Z :=
  <[v := default 0 (counts !! v) + 1]> counts.

Fixpoint take_values (counts : gmap string Z) (l : list string) : bool :=
  match l with
  | [] => true
  | v :: rest =>
      let n := default 0 (counts !! v) - 1 in
      if n <? 0 then false else take_values (<[v := n]> counts) rest
  end.

Definition sameDrawResult (saved : raw) (result : list string) : bool :=
  match saved ≫= dec_strings [] with
  | None => false
  | Some values =>
      negb (bool_decide (values = [])) && (length values =? length result)%nat &&
      take_values (foldl count_value ∅ values) result
  end.

(** ** Star Sea between eight and nine in the evening *)

Definition china_hour (t : Z) : Z := ((t + 8 * 3600000000000) / 3600000000000) mod 24.

Definition isStarSeaMultiKillWindow (now : Z) (e : draw_event) (closedAt : option Z) : bool :=
  bool_decide (de_Game e = "xdy"%string) &&
  let when := match closedAt with Some a => a | None => default now (de_CloseAt e) end in
  china_hour when =? 20.

(** A single room among the several already saved. *)
Definition isLowerPriorityStarSeaResult (saved : raw) (e : draw_event) : bool :=
  bool_decide (de_ResultField e = "failedRoomId"%string) &&
  match de_Result e with
  | [room] =>
      match saved ≫= dec_strings [] with
      | Some savedRooms => (2 <=? length savedRooms)%nat && bool_decide (room ∈ savedRooms)
      | None => false
      end
  | _ => false
  end.

(** Several rooms, the single saved one among them. *)
Definition isAuthoritativeStarSeaMultiKill (saved : raw) (e : draw_event) : bool :=
  bool_decide (de_ResultField e ∈ ["killedRooms"; "result.list[].fail"]%string) &&
  (2 <=? length (de_Result e))%nat &&
  match saved ≫= dec_strings [] with
  | Some [room] => bool_decide (room ∈ de_Result e)
  | _ => false
  end.

Section draws.
Context `{Uuids}.

Definition find_draw (game : string) (sequence : Z) : Tx (option (string * external_draw_row)) :=
  select_where (R := external_draw_row) (fun _ => draw_key game sequence).

Definition update_draw (id : string) (f : external_draw_row -> external_draw_row) : Tx () :=
  n ← update_row id f; mret ().

(** INSERT ... ON CONFLICT DO UPDATE SET close_at = COALESCE(new, old). *)
Definition upsert_draw (game : string) (sequence : Z) (closeAt : option Z) : Tx () :=
  known ← find_draw game sequence;
  match known with
  | Some (id, _) => update_draw id (set_close_at closeAt)
  | None =>
      id ← new_uuid;
      insert_row (draw_key game sequence) id (mk_external_draw_row draw_source game sequence closeAt None "pending" None None)
  end.

(** The game types that follow an upstream game. *)
Definition follows (game : string) (rules : json) : bool :=
  bool_decide (jtext "source" rules = Some draw_source) &&
  bool_decide (jfield "extras" rules ≫= jtext "external_game" = Some game).

Definition followers (game : string) : Tx (list string) :=
  gets (fun db => map fst (List.filter (fun kv => gt_enabled kv.2 && follows game (gt_rules kv.2))
    (map_to_list (game_types db.(app))))).

(** ON CONFLICT (game_type_id, sequence) DO NOTHING. *)
Definition insert_draw_round (row : round_row) : Tx () :=
  id ← new_uuid;
  made ← insert_unless (same_round_slot row) id row;
  mret ().

Fixpoint insert_draw_rounds (sequence : Z) (status : RoundStatus) (betClosesAt resultAt : Z) (games : list string) : Tx () :=
  match games with
  | [] => mret ()
  | game :: rest =>
      insert_draw_round (mk_round_row game sequence status betClosesAt resultAt None None 0);;
      insert_draw_rounds sequence status betClosesAt resultAt rest
  end.

Definition createRounds (t : clock) (closeBeforeSeconds : Z) (game : string) (sequence closeAt : Z) : Tx () :=
  let betClosesAt := closeAt - (closeBeforeSeconds * 1000000000)%i64 in
  if betClosesAt <=? go_now t then mret ()
  else
    games ← followers game;
    insert_draw_rounds sequence RoundOpen betClosesAt closeAt games.

Definition resultRoundClosedAt (now : Z) (closeAt : option Z) : option Z :=
  match closeAt with
  | None => Some now
  | Some a => if now <? a then None else Some a
  end.

Definition createResultRounds (t : clock) (game : string) (sequence : Z) (closeAt : option Z) : Tx () :=
  match resultRoundClosedAt (go_now t) closeAt with
  | None => mret ()
  | Some closedAt =>
      games ← followers game;
      insert_draw_rounds sequence RoundClosed closedAt closedAt games
  end.

(** ** Confirming a draw *)

Definition draw_target (game : string) (sequence : Z) : string :=
  (draw_source ++ ":" ++ game ++ ":" ++ FormatInt sequence)%string.

Definition audit_payload (e : draw_event) (sequence : Z) (saved : raw) : json :=
  JObj [("event_type", JStr (de_Kind e)); ("external_round", JInt sequence); ("game", JStr (de_Game e));
        ("incoming_outcome", strings_json (de_Result e)); ("result_field", JStr (de_ResultField e));
        ("saved_outcome", default JNull saved);
        ("transport", JStr (if bool_decide (de_Kind e = "luluall_history"%string) then "luluall_http" else "websocket"))]%string.

(** INSERT ... WHERE NOT EXISTS the same entry. *)
Definition auditDrawResult (action : string) (e : draw_event) (sequence : Z) (saved : raw) : Tx () :=
  let target := draw_target (de_Game e) sequence in
  let payload := audit_payload e sequence saved in
  known ← gets (fun db => existsb (fun a => bool_decide (au_action a = action) && bool_decide (au_target_id a = target) &&
                                          jsonb_eq (au_payload a) payload) (audit_logs db.(app)));
  id ← new_uuid;
  if known : bool then mret ()
  else insert_audit (mk_audit None action "external_draw_round" target None payload).

Definition confirmResult (t : clock) (e : draw_event) (sequence : Z) : Tx () :=
  let encoded := strings_json (de_Result e) in
  d ← find_draw (de_Game e) sequence;
  kv ← found ErrNoRows d;
  let '(id, row) := kv in
  let saved := Some (default JNull (ed_outcome row)) in
  if bool_decide (ed_status row ∈ ["confirmed"; "conflict"]%string) then
    if sameDrawResult saved (de_Result e) then mret ()
    else
      let window := isStarSeaMultiKillWindow (go_now t) e (ed_close_at row) in
      if window && isLowerPriorityStarSeaResult saved e
      then auditDrawResult "lulu_draw.result_ignored_lower_priority" e sequence saved
      else if window && isAuthoritativeStarSeaMultiKill saved e
      then
        update_draw id (confirm_outcome encoded None (sql_now t));;
        auditDrawResult "lulu_draw.result_multikill_override" e sequence saved
      else
        (if bool_decide (ed_status row = "confirmed"%string) then update_draw id (set_conflict encoded) else mret ());;
        auditDrawResult "lulu_draw.result_conflict" e sequence saved
  else
    update_draw id (fun x => confirm_outcome encoded (ed_conflict_outcome x) (sql_now t) x);;
    auditDrawResult "lulu_draw.result_confirmed" e sequence None.

Definition Handle (t : clock) (closeBeforeSeconds : Z) (e : draw_event) : Tx () :=
  let closeBeforeSeconds := Z.max 0 closeBeforeSeconds in
  round ← found ErrInvalidEvent (ParseInt (de_Round e));
  reject_if ((round <=? 0) || negb (draw_validGame (de_Game e))) ErrInvalidEvent;;
  if negb (carries_draw e) then mret ()
  else
    upsert_draw (de_Game e) round (de_CloseAt e);;
    match de_CloseAt e with
    | Some closeAt => createRounds t closeBeforeSeconds (de_Game e) round closeAt
    | None => mret ()
    end;;
    if bool_decide (de_Result e = []) then mret ()
    else
      confirmResult t e round;;
      createResultRounds t (de_Game e) round (de_CloseAt e).

(** ** manual.go *)

Record ManualInput : Type := mk_ManualInput {
  mi_Game : string;
  mi_Issue : string;
  mi_Result : list Z;
  mi_Reason : string
}.

Record ManualResult : Type := mk_ManualResult {
  mr_Game : string;
  mr_Issue : string;
  mr_Result : list Z;
  mr_Status : string;
  mr_AlreadyConfirmed : bool
}.

Definition sourceGame (game : string) : option string :=
  if bool_decide (game = "star_sea"%string) then Some "xdy"%string
  else if bool_decide (game = "angry_feather"%string) then Some "lh"%string
  else if bool_decide (game = "green_sprint"%string) then Some "race"%string
  else None.

(** Each number is within bounds and new. *)
Fixpoint manual_values (max : Z) (seen l : list Z) : bool :=
  match l with
  | [] => true
  | n :: rest => negb ((n <? 1) || (max <? n) || bool_decide (n ∈ seen)) && manual_values max (n :: seen) rest
  end.

Definition manual_bounds (game : string) : Z * nat :=
  if bool_decide (game = "race"%string) then (6, 1%nat) else if bool_decide (game = "lh"%string) then (2, 1%nat) else (8, 7%nat).

Definition validateManual (i : ManualInput) : res (string * Z * list string) :=
  game ← of_option ErrInvalidEvent (sourceGame (mi_Game i));
  issue ← of_option ErrInvalidEvent (ParseInt (mi_Issue i));
  fail_if ((issue <=? 0) || negb (bool_decide (FormatInt issue = mi_Issue i)) ||
           bool_decide (TrimSpace (mi_Reason i) = ""%string) || (1000 <? rune_len (mi_Reason i))) ErrInvalidEvent;;
  let '(max, count) := manual_bounds game in
  fail_if (bool_decide (mi_Result i = []) || (count <? length (mi_Result i))%nat) ErrInvalidEvent;;
  fail_if (negb (manual_values max [] (mi_Result i))) ErrInvalidEvent;;
  Ok (game, issue, map FormatInt (mi_Result i)).

(** A column that is NULL or the JSON null holds no result. *)
Definition no_outcome (x : external_draw_row) : bool :=
  match ed_outcome x with Some JNull | None => true | _ => false end.

(** The rounds of an upstream issue. *)
Definition draw_round (game : string) (issue : Z) (db : DB) (r : round_row) : bool :=
  (rd_sequence r =? issue) &&
  from_option (fun g => follows game (gt_rules g)) false (game_types db.(app) !! rd_game_type_id r).

Definition find_round (game : string) (issue : Z) : Tx (option (string * round_row)) :=
  gets (fun db => find_row (fun _ => draw_round game issue db) (rounds db.(app))).

Definition awaits_result (r : round_row) : bool := bool_decide (rd_status r ∈ [RoundClosed; RoundOpen]).

Section manual.
Context (is_uuid : string -> bool).

Definition manual_payload (game : string) (issue : Z) (result : list string) (status reason : string) : json :=
  JObj [("game", JStr game); ("incoming_outcome", strings_json result); ("previous_status", JStr status);
        ("reason", JStr (TrimSpace reason)); ("result_source", JStr "admin_manual"); ("round", JInt issue)]%string.

Definition ConfirmManual (t : clock) (actor : string) (i : ManualInput) : Tx ManualResult :=
  let out := mk_ManualResult (mi_Game i) (mi_Issue i) (mi_Result i) "confirmed" in
  v ← lift (validateManual i);
  let '(game, issue, result) := v in
  reject_if (negb (is_uuid actor)) ErrInvalidEvent;;
  d ← find_draw game issue;
  kv ← found ErrManualNotFound d;
  let '(id, row) := kv in
  if bool_decide (ed_status row = "confirmed"%string) && sameDrawResult (ed_outcome row) result then mret (out true)
  else
    reject_if (negb (bool_decide (ed_status row = "pending"%string)) || negb (no_outcome row)) ErrManualConflict;;
    r ← find_round game issue;
    round ← found ErrManualNotFound r;
    reject_if (negb (awaits_result round.2) || (go_now t <? rd_result_at round.2)) ErrManualConflict;;
    update_draw id (confirm_outcome (strings_json result) None (sql_now t));;
    auditID ← new_uuid;
    insert_audit (mk_audit (Some actor) "lulu_draw.result_manual_confirmed" "external_draw_round" (draw_target game issue) None
      (manual_payload game issue result (ed_status row) (mi_Reason i)));;
    mret (out false).

End manual.

(** ** backfill.go *)

Definition public_game (game : string) : string :=
  if bool_decide (game = "lh"%string) then "angry_feather"
  else if bool_decide (game = "xdy"%string) then "star_sea"
  else if bool_decide (game = "race"%string) then "green_sprint" else "".

Definition backfill_wait : Z := 30000000000.

Definition confirmBackfill (t : clock) (e : draw_event) : Tx () :=
  values ← found ErrInvalidEvent (mapM ParseInt (de_Result e));
  v ← lift (validateManual (mk_ManualInput (public_game (de_Game e)) (de_Round e) values "LuluAll history"));
  let '(game, issue, result) := v in
  d ← find_draw game issue;
  match d with
  | None => mret ()
  | Some (id, row) =>
      if negb (bool_decide (ed_status row = "pending"%string)) || negb (no_outcome row) then mret ()
      else
        r ← find_round game issue;
        match r with
        | None => mret ()
        | Some (_, round) =>
            if negb (awaits_result round) || (go_now t <? rd_result_at round + backfill_wait) then mret ()
            else
              update_draw id (fun x => confirm_outcome (strings_json result) (ed_conflict_outcome x) (sql_now t) x);;
              auditDrawResult "lulu_draw.result_backfilled"
                (mk_draw_event (de_Game e) "luluall_history" (de_ResultField e) (de_Round e) None result) issue None
        end
  end.

(** The failures of one game: its history, or its events one by one. *)
Fixpoint backfill_events (t : clock) (game : string) (events : list draw_event) : Svc (list error) :=
  match events with
  | [] => mret []
  | e :: rest =>
      r ← (if bool_decide (de_Game e = game) then try (atomically (confirmBackfill t e)) else mret (Err ErrInvalidEvent));
      failures ← backfill_events t game rest;
      mret (match r with Ok _ => failures | Err x => x :: failures end)
  end.

Fixpoint backfill_games (t : clock) (history : string -> res (list draw_event)) (games : list string) : Svc (list error) :=
  match games with
  | [] => mret []
  | game :: rest =>
      failures ← (match history game with Ok events => backfill_events t game events | Err x => mret [x] end);
      others ← backfill_games t history rest;
      mret (failures ++ others)
  end.

(** [enabled] is read from [lulu_config]. *)
Definition Backfill (t : clock) (enabled : bool) (history : string -> res (list draw_event)) : Svc (list error) :=
  if negb enabled then mret [] else backfill_games t history ["lh"; "xdy"; "race"]%string.

(** ** history.go *)

Record Record_ : Type := mk_Record {
  rc_Issue : string;
  rc_Room : list Z
}.

Definition latest_first (x y : external_draw_row) : Prop := ed_external_round y <= ed_external_round x.

#[export] Instance latest_first_dec x y : Decision (latest_first x y) := Z_le_dec _ _.

Definition room_number (v : string) : option Z := n ← ParseInt v; if n <? 1 then None else Some n.

(** A row whose outcome does not read as positive numbers is passed over. *)
Definition record_of (x : external_draw_row) : option Record_ :=
  values ← (j ← ed_outcome x; dec_strings [] j);
  rooms ← mapM room_number values;
  if bool_decide (rooms = []) then None else Some (mk_Record (FormatInt (ed_external_round x)) rooms).

Definition draw_History (game : string) (count : Z) : Tx (list Record_) :=
  source ← found ErrUnknownGame (sourceGame game);
  reject_if (count <? 1) ErrInvalidEvent;;
  rows ← select_all (R := external_draw_row) (fun _ x => bool_decide (ed_source x = draw_source) &&
    bool_decide (ed_game x = source) && bool_decide (ed_status x = "confirmed"%string));
  mret (omap record_of (take (Z.to_nat count) (merge_sort latest_first (map snd rows)))).

End draws.
