(* ===== verification/LuluDrawProofs.v ===== *)
(** * The Lulu draw feed: what holds

    Whatever a socket sends, the draws handed on are well-formed: the inbox and
    the service take them.  The history of the second collector is accepted by
    the check its draws must pass, every round once and in order. *)

From S2P Require Import Prelude GoStrings Json Schema Store Examples LuluDraw ExternalDraw.

(** ** The feed *)

Definition result_bound (game : string) : Z :=
  if bool_decide (game = "lh"%string) then 2 else if bool_decide (game = "xdy"%string) then 8 else 6.

(** A round is written as the number it is. *)
Definition written (round : string) (n : Z) : Prop := 0 < n <= int64_max /\ round = FormatInt n.

Definition canonical (round : string) : Prop := round = ""%string \/ exists n, written round n.

Definition drawn (game v : string) : Prop := exists n, v = FormatInt n /\ 1 <= n <= result_bound game.

Record sound_event (game : string) (e : draw_event) : Prop := {
  se_game : de_Game e = game;
  se_round : canonical (de_Round e);
  se_carries : carries_draw e = true -> de_Round e <> ""%string;
  se_result : Forall (drawn game) (de_Result e)
}.

Lemma ParseInt_range s n : ParseInt s = Some n -> in_int64 n.
Proof.
  unfold ParseInt, parse_int. destruct (parse_uint _); cbn [mbind option_bind]; [|done].
  destruct (_ && _) eqn:E; [|done]. intros [= <-]. bool_to_prop. done.
Qed.

Lemma dec_int64_range j n : dec_int64 0 j = Some n -> in_int64 n.
Proof.
  unfold dec_int64. destruct j; try done; [intros [= <-]; done|].
  destruct (_ && _) eqn:E; [|done]. intros [= <-]. bool_to_prop. done.
Qed.

Lemma rawInt_range data names n : rawInt data names = Some n -> in_int64 n.
Proof.
  induction names as [|name rest IH]; cbn [rawInt]; [done|]. destruct (data !! name) as [value|]; [|done].
  destruct (dec_int64 0 value) eqn:E; [intros [= <-]; by eapply dec_int64_range|].
  destruct (text ← _; ParseInt text) eqn:E2; [|done]. intros [= <-].
  destruct (dec_string "" value); cbn in E2; [by eapply ParseInt_range|done].
Qed.

Lemma rawRound_canonical data : canonical (rawRound data).
Proof.
  unfold rawRound. destruct (rawInt _ _) as [n|] eqn:E; [|by left]. apply rawInt_range in E as [_ E].
  destruct (Z.leb_spec n 0); [by left|]. right. by exists n.
Qed.

Lemma drawn_of_drawn game hi n : hi <= result_bound game -> Forall (drawn game) (drawn_of 1 hi n).
Proof.
  intros Hhi. unfold drawn_of, in_range. destruct n as [v|]; [|constructor].
  destruct (_ && _) eqn:E; [|constructor]. bool_to_prop. constructor; [|constructor]. exists v. split; [done|lia].
Qed.

Lemma FormatInt_drawn game hi l : hi <= result_bound game ->
  Forall (drawn game) (map FormatInt (List.filter (in_range 1 hi) l)).
Proof.
  intros Hhi. apply Forall_forall. intros v (n & -> & Hn)%list_elem_of_fmap.
  apply list_elem_of_In, filter_In in Hn as [_ Hn]. unfold in_range in Hn. bool_to_prop. exists n. split; [done|lia].
Qed.

Lemma winner_drawn game ranks : 6 <= result_bound game -> Forall (drawn game) (winner_of ranks).
Proof.
  intros Hhi. unfold winner_of. destruct (List.find _ _) as [r|] eqn:E; [|constructor].
  apply find_some in E as [_ E]. apply andb_prop in E as [_ E]. unfold in_range in E. bool_to_prop.
  constructor; [|constructor]. exists (rr_ItemID r). split; [done|lia].
Qed.

Lemma message_result_drawn game event round data : Forall (drawn game) (message_result game event round data).2.
Proof.
  unfold message_result. case_bool_decide; [constructor|].
  case_bool_decide as Hlh.
  { subst game. case_bool_decide; [|constructor]. by apply drawn_of_drawn. }
  case_bool_decide as Hxdy.
  { subst game. case_bool_decide; [|constructor].
    pose proof (drawn_of_drawn "xdy" 8 (rawInt data ["failedRoomId"%string]) ltac:(done)) as Hd.
    destruct (drawn_of _ _ _); [|exact Hd]. destruct (data !! _); [|constructor]. by apply FormatInt_drawn. }
  case_bool_decide as Hrace; [subst game|constructor].
  assert (Hd : Forall (drawn "race") (if bool_decide (event = "3005"%string)
    then drawn_of 1 6 (rawInt data ["win_item_id"%string]) else [])).
  { case_bool_decide; [by apply drawn_of_drawn|constructor]. }
  destruct (if bool_decide _ then _ else []); [|exact Hd]. case_bool_decide; [by apply winner_drawn|constructor].
Qed.

Lemma message_result_round game event data : (message_result game event "" data).2 = [].
Proof. reflexivity. Qed.

Section feed.
Context (parse_rfc3339 parse_shanghai : string -> option Z).

Abbreviation parse_message := (parseMessageWithRound parse_rfc3339 parse_shanghai).
Abbreviation parse_messages := (parseMessagesWithRound parse_rfc3339 parse_shanghai).
Abbreviation feed_one := (feed_message parse_rfc3339 parse_shanghai).

Lemma parse_message_sound now game text fallback e : canonical fallback ->
  parse_message now game text fallback = Some e -> sound_event game e.
Proof.
  intros Hfb Hp. unfold parseMessageWithRound in Hp.
  destruct (dec_envelope text) as [message|]; cbn [mbind option_bind] in Hp; [|done].
  destruct (dec_raw_map (env_Data message)) as [data0|]; cbn [mbind option_bind] in Hp; [|done].
  cbv zeta in Hp. set (data := snapshot _ _ _) in *.
  set (round := if bool_decide (rawRound data = ""%string) then fallback else rawRound data) in *.
  assert (Hround : canonical round) by (unfold round; destruct (bool_decide _); [done|apply rawRound_canonical]).
  set (closeAt := if _ && _ then _ else None) in *.
  assert (Hclose : is_Some closeAt -> round <> ""%string).
  { unfold closeAt. destruct (_ && _) eqn:E; [|by intros [x Hx]]. intros _. apply andb_prop in E as [_ E].
    by apply negb_true_iff, bool_decide_eq_false in E. }
  pose proof (message_result_drawn game (env_Event message) round data) as Hres.
  destruct (message_result game (env_Event message) round data) as [field result] eqn:Er. cbn [snd] in Hres.
  assert (Hne : result <> [] -> round <> ""%string).
  { intros Hn E. rewrite E in Er. apply (f_equal snd) in Er. rewrite message_result_round in Er. by subst. }
  assert (He : e = mk_draw_event game (env_Event message) field round closeAt result).
  { destruct (negb (bool_decide (result = []))); [by injection Hp as <-|]. destruct (bool_decide (is_Some closeAt) || _); [by injection Hp as <-|done]. }
  subst e. split; [done|exact Hround| |exact Hres]. cbn. unfold carries_draw. cbn. intros [Hc|Hr]%orb_prop.
  - apply Hclose. by apply bool_decide_eq_true in Hc.
  - apply Hne. by apply negb_true_iff, bool_decide_eq_false in Hr.
Qed.

Lemma lh_history_sound row e : lh_history row = Some e -> sound_event "lh" e.
Proof.
  unfold lh_history. pose proof (drawn_of_drawn "lh" 2 (rawInt row ["win_item_id"%string]) ltac:(done)) as Hd.
  destruct (drawn_of _ _ _) as [|v l]; [done|]. case_bool_decide as Hr; [done|]. intros [= <-].
  split; [done|apply rawRound_canonical|done|exact Hd].
Qed.

Lemma xdy_history_sound item e : xdy_history item = Some e -> sound_event "xdy" e.
Proof.
  unfold xdy_history. destruct (dec_raw_map _) as [row|]; cbn [mbind option_bind]; [|done].
  destruct (rawInt row _) as [n|] eqn:En; cbn [mbind option_bind]; [|done]. apply rawInt_range in En as [_ En].
  destruct (Z.ltb_spec n 1); [done|]. destruct (value ← row !! "fail"%string; dec_list Some value) as [rooms|]; cbn [mbind option_bind]; [|done].
  assert (Hd : Forall (drawn "xdy") (flat_map xdy_room rooms)).
  { induction rooms as [|r rooms IH]; cbn [flat_map]; [constructor|]. apply Forall_app. split; [by apply drawn_of_drawn|done]. }
  destruct (flat_map _ _) as [|v l]; [done|]. intros [= <-]. split; [done| | |exact Hd].
  - right. exists n. split; [lia|done].
  - intros _ E. cbn in E. pose proof (ParseInt_FormatInt n ltac:(lia)) as Hp. rewrite E in Hp. done.
Qed.

Lemma parse_messages_sound now game text fallback : canonical fallback ->
  Forall (sound_event game) (parse_messages now game text fallback).
Proof.
  intros Hfb. unfold parseMessagesWithRound. cbv zeta.
  destruct (bool_decide (game = "lh"%string) && _) eqn:Elh.
  { apply andb_prop in Elh as [->%bool_decide_eq_true _]. apply Forall_forall.
    intros e (row & _ & Hr)%list_elem_of_omap. by eapply lh_history_sound. }
  destruct (bool_decide (game = "xdy"%string) && _) eqn:Exdy.
  { apply andb_prop in Exdy as [->%bool_decide_eq_true _]. apply Forall_forall.
    intros e (row & _ & Hr)%list_elem_of_omap. by eapply xdy_history_sound. }
  destruct (parse_message now game text fallback) as [e|] eqn:E; [|constructor].
  constructor; [by eapply parse_message_sound|constructor].
Qed.

Lemma feed_event_canonical now game f e : canonical (fd_lastRound f) -> canonical (de_Round e) ->
  canonical (fd_lastRound (feed_event now game f e)).
Proof.
  intros Hf He. unfold feed_event. cbv zeta.
  repeat match goal with |- context [if ?b then _ else _] => destruct b end; assumption.
Qed.

Lemma feed_events_canonical now game l : Forall (sound_event game) l -> forall f, canonical (fd_lastRound f) ->
  canonical (fd_lastRound (foldl (feed_event now game) f l)).
Proof.
  induction 1 as [|e l He _ IH]; intros f Hf; cbn [foldl]; [done|]. apply IH, feed_event_canonical; [done|by destruct He].
Qed.

Lemma feed_message_sound now game f text : canonical (fd_lastRound f) ->
  canonical (fd_lastRound (feed_one now game f text).1) /\ Forall (sound_event game) (feed_one now game f text).2.
Proof.
  intros Hf. unfold feed_message. cbv zeta. cbn [fst snd].
  set (f' := match announced_round game text with Some _ => _ | None => f end).
  assert (Hf' : canonical (fd_lastRound f')).
  { unfold f'. destruct (announced_round game text) as [round|] eqn:E; [|done]. cbn. unfold announced_round in E.
    destruct (dec_envelope text) as [m|]; cbn [mbind option_bind] in E; [|done]. destruct (_ && _); [|done].
    destruct (dec_raw_map _) as [data|]; cbn [mbind option_bind] in E; [|done]. case_bool_decide; [done|].
    injection E as <-. apply rawRound_canonical. }
  pose proof (parse_messages_sound now game text (fd_lastRound f') Hf') as Hs. split; [|exact Hs].
  by apply feed_events_canonical.
Qed.

(** One connection: the messages in order of arrival. *)
Fixpoint feed_run (game : string) (f : feed) (messages : list (Z * raw)) : list draw_event :=
  match messages with
  | [] => []
  | (now, text) :: rest => let '(f', events) := feed_one now game f text in events ++ feed_run game f' rest
  end.

Lemma feed_run_sound game messages : forall f, canonical (fd_lastRound f) ->
  Forall (sound_event game) (feed_run game f messages).
Proof.
  induction messages as [|[now text] rest IH]; intros f Hf; cbn [feed_run]; [constructor|].
  destruct (feed_one now game f text) as [f' events] eqn:E. pose proof (feed_message_sound now game f text Hf) as [H1 H2].
  rewrite E in H1, H2. apply Forall_app. split; [done|by apply IH].
Qed.

(** C38: The draws of the feed are well-formed.  Whatever messages a connection of
    one of the games receives, in any order, every event handed on belongs to
    that game; one that carries a draw names its round in decimal, a positive
    64-bit number, so that the checks of the service pass, and the inbox takes
    it exactly when its closing time, if it has one, lies in the years 0 to 9999
    (the feed may name a later one, which has no JSON: the inbox then answers
    with the error of the encoder, and the connection tries it again); and every
    number of a result is one the game can draw. *)
Theorem feed_sound game start messages :
  draw_validGame game = true ->
  Forall (fun e => de_Game e = game /\
      (carries_draw e = true ->
         drawMessage e = (if from_option json_time true (de_CloseAt e) then Ok (Some e) else Err ErrYear) /\
         exists n, ParseInt (de_Round e) = Some n /\ 0 < n /\ de_Round e = FormatInt n) /\
      Forall (drawn game) (de_Result e))
    (feed_run game (mk_feed "" "" false (newDrawProgress start)) messages).
Proof.
  intros Hg. eapply Forall_impl; [apply feed_run_sound; by left|]. intros e [<- Hr Hc Hd]. split; [done|split; [|done]].
  intros Hcarry. destruct Hr as [E|(n & Hn & E)]; [by destruct (Hc Hcarry)|].
  assert (Hp : ParseInt (de_Round e) = Some n) by (rewrite E; apply ParseInt_FormatInt; lia).
  split; [|exists n; split; [done|split; [lia|done]]].
  unfold drawMessage. rewrite Hcarry, Hp, Hg. cbn [negb]. destruct (Z.leb_spec n 0); [lia|].
  unfold marshal_event. by destruct (from_option json_time true (de_CloseAt e)).
Qed.

End feed.

(** ** The history of the second collector *)

Lemma strictly_within_spec max l : forall lo, strictly_within lo max l = true ->
  StronglySorted Z.lt l /\ Forall (fun v => lo < v <= max) l.
Proof.
  induction l as [|v l IH]; intros lo Hw; cbn [strictly_within] in Hw; [by repeat constructor|].
  apply andb_prop in Hw as [Hv Hw]. bool_to_prop. destruct (IH _ Hw) as [Hs Hall]. split.
  - constructor; [done|]. eapply Forall_impl; [exact Hall|]. cbn. lia.
  - constructor; [lia|]. eapply Forall_impl; [exact Hall|]. cbn. lia.
Qed.

Lemma sorted_lt_NoDup l : StronglySorted Z.lt l -> NoDup l.
Proof.
  induction 1 as [|v l _ IH Hall]; constructor; [|done]. intros Hin.
  rewrite Forall_forall in Hall. specialize (Hall v Hin). lia.
Qed.

Definition result_count (game : string) : nat := if bool_decide (game = "xdy"%string) then 7%nat else 1%nat.

(** The values of a record. *)
Definition record_values (game : string) (r : history_record) : list Z :=
  if bool_decide (game = "xdy"%string) then hr_Items r else [hr_Winner r].

Lemma record_result_Ok game r result : record_result game r = Ok result -> exists l,
  l ≡ₚ record_values game r /\ result = map FormatInt l /\ StronglySorted Z.lt l /\
  Forall (fun v => 1 <= v <= result_bound game) l /\ l <> [] /\ (length l <= result_count game)%nat.
Proof.
  unfold record_result. cbv zeta. fold (record_values game r). fold (result_count game). fold (result_bound game).
  intros Hrun. apply res_bind_Ok in Hrun as ([] & E & Hrun). apply fail_if_Ok, orb_false_iff in E as [Hne Hlen].
  apply bool_decide_eq_false in Hne. apply Nat.ltb_ge in Hlen.
  apply res_bind_Ok in Hrun as ([] & E & Hrun). apply fail_if_Ok, negb_false_iff in E. injection Hrun as <-.
  apply strictly_within_spec in E as [Hs Hall]. exists (merge_sort Z.le (record_values game r)).
  pose proof (merge_sort_Permutation Z.le (record_values game r)) as Hp.
  split; [done|split; [done|split; [done|split; [|split]]]].
  - eapply Forall_impl; [exact Hall|]. cbn. lia.
  - intros E. rewrite E in Hp. by apply Permutation_nil in Hp.
  - by rewrite (Permutation_length Hp).
Qed.

(** What the history says of one round. *)
Definition history_event (game : string) (round : Z) (result : list string) : draw_event :=
  mk_draw_event game "luluall_history" "items" (FormatInt round) None result.

(** One event per round, with the result of every record of the round. *)
Lemma collect_history_spec game l : forall seen events, collect_history game seen l = Ok events ->
  Forall (fun r => 0 < hr_RoundID r /\ exists result, record_result game r = Ok result /\
    (seen !! hr_RoundID r = Some result \/
     seen !! hr_RoundID r = None /\ history_event game (hr_RoundID r) result ∈ events)) l /\
  exists found : list (Z * list string), events = map (fun f => history_event game f.1 f.2) found /\
    NoDup (map fst found) /\ Forall (fun f => seen !! f.1 = None /\
      exists r, r ∈ l /\ hr_RoundID r = f.1 /\ record_result game r = Ok f.2) found.
Proof.
  induction l as [|r l IH]; intros seen events Hrun; cbn [collect_history] in Hrun.
  { injection Hrun as <-. split; [constructor|]. exists []. by repeat constructor. }
  apply res_bind_Ok in Hrun as ([] & E & Hrun). apply fail_if_Ok in E. bool_to_prop.
  apply res_bind_Ok in Hrun as (result & Hres & Hrun). destruct (seen !! hr_RoundID r) as [previous|] eqn:Eseen.
  - apply res_bind_Ok in Hrun as ([] & Ep & Hrun). apply fail_if_Ok, negb_false_iff, bool_decide_eq_true in Ep. subst previous.
    destruct (IH _ _ Hrun) as (Hall & found & Hev & Hnd & Hf). split.
    + constructor; [|done]. split; [lia|]. exists result. by rewrite Eseen; split; [|left].
    + exists found. split; [done|split; [done|]]. eapply Forall_impl; [exact Hf|].
      intros f (Hn & r' & Hin & Hr'). split; [done|]. exists r'. split; [by right|done].
  - apply res_bind_Ok in Hrun as (rest & Hrest & Hrun). injection Hrun as <-.
    destruct (IH _ _ Hrest) as (Hall & found & -> & Hnd & Hf). split.
    + constructor.
      * split; [lia|]. exists result. split; [done|right]. split; [done|by left].
      * eapply Forall_impl; [exact Hall|]. intros r' (Hpos & res' & Hr' & Hor). split; [done|]. exists res'. split; [done|].
        destruct Hor as [Hs|[Hs Hin]].
        -- destruct (decide (hr_RoundID r' = hr_RoundID r)) as [Hid|Hid].
           ++ rewrite Hid, lookup_insert_eq in Hs. injection Hs as ->. rewrite Hid, Eseen. right. split; [done|by left].
           ++ rewrite lookup_insert_ne in Hs by done. by left.
        -- apply lookup_insert_None in Hs as [Hs _]. right. split; [done|by right].
    + exists ((hr_RoundID r, result) :: found). split; [done|split].
      * cbn [map fst]. constructor; [|done]. intros (f & E1 & Hin)%list_elem_of_fmap.
        rewrite Forall_forall in Hf. destruct (Hf f Hin) as [Hn _]. rewrite <- E1, lookup_insert_eq in Hn. done.
      * constructor; [split; [done|]; exists r; split; [by left|done]|]. eapply Forall_impl; [exact Hf|].
        intros f (Hn & r' & Hin & Hr'). apply lookup_insert_None in Hn as [Hn _]. split; [done|]. exists r'. split; [by right|done].
Qed.

Lemma mapM_ParseInt_FormatInt l : Forall (fun n => 0 <= n <= int64_max) l -> mapM ParseInt (map FormatInt l) = Some l.
Proof.
  induction 1 as [|n l Hn _ IH]; [done|]. cbn [map mapM]. rewrite ParseInt_FormatInt by done. cbn [mbind option_bind].
  by rewrite IH.
Qed.

Lemma manual_values_ok max l : NoDup l -> Forall (fun n => 1 <= n <= max) l ->
  forall seen, (forall n, n ∈ seen -> n ∉ l) -> manual_values max seen l = true.
Proof.
  induction 1 as [|n l Hn _ IH]; intros Hall seen Hseen; cbn [manual_values]; [done|].
  apply Forall_cons in Hall as [Hb Hall]. rewrite bool_decide_false by (intros Hin; apply (Hseen n Hin); by left).
  destruct (Z.ltb_spec n 1); [lia|]. destruct (Z.ltb_spec max n); [lia|]. cbn [orb negb andb]. apply IH; [done|].
  intros m [->|Hm]%elem_of_cons; [done|]. intros Hl. apply (Hseen m Hm). by right.
Qed.

Lemma bounds_of game : draw_validGame game = true ->
  sourceGame (public_game game) = Some game /\ manual_bounds game = (result_bound game, result_count game).
Proof.
  intros Hg%bool_decide_eq_true. unfold draw_games in Hg. repeat (apply elem_of_cons in Hg as [->|Hg]; [done|]).
  by apply elem_of_nil in Hg.
Qed.

(** The service takes such a draw. *)
Definition draw_taken (game : string) (e : draw_event) : Prop := exists values issue,
  mapM ParseInt (de_Result e) = Some values /\
  validateManual (mk_ManualInput (public_game game) (de_Round e) values "LuluAll history") = Ok (game, issue, de_Result e) /\
  de_Round e = FormatInt issue.

Lemma history_event_taken game n l : draw_validGame game = true -> 0 < n <= int64_max ->
  StronglySorted Z.lt l -> Forall (fun v => 1 <= v <= result_bound game) l -> l <> [] -> (length l <= result_count game)%nat ->
  draw_taken game (history_event game n (map FormatInt l)).
Proof.
  intros Hg Hn Hs Hall Hne Hlen. destruct (bounds_of _ Hg) as [Hsrc Hb].
  assert (Hbound : result_bound game <= 8) by (unfold result_bound; repeat case_bool_decide; lia).
  exists l, n. cbn [history_event de_Result de_Round]. split; [|split; [|done]].
  - apply mapM_ParseInt_FormatInt. eapply Forall_impl; [exact Hall|]. unfold int64_max. cbn. lia.
  - unfold validateManual. cbn [mi_Game mi_Issue mi_Reason mi_Result]. rewrite Hsrc. cbn [of_option mbind].
    rewrite ParseInt_FormatInt by lia.
    cbn [res_bind of_option mbind]. rewrite (bool_decide_true (FormatInt n = FormatInt n)) by done. destruct (Z.leb_spec n 0); [lia|].
    change (bool_decide (TrimSpace "LuluAll history" = ""%string)) with false.
    change (1000 <? rune_len "LuluAll history") with false. cbn [negb orb fail_if mbind res_bind].
    rewrite Hb. rewrite (bool_decide_false (l = [])) by done.
    replace (result_count game <? length l)%nat with false by (symmetry; by apply Nat.ltb_ge).
    rewrite manual_values_ok; [done|by apply sorted_lt_NoDup|done|]. by intros m ?%elem_of_nil.
Qed.

Lemma round_number_event game n result : 0 < n <= int64_max -> round_number (de_Round (history_event game n result)) = n.
Proof. intros Hn. unfold round_number. cbn. by rewrite ParseInt_FormatInt by lia. Qed.

#[local] Instance round_order_trans : Transitive round_order.
Proof. unfold round_order. intros x y z. lia. Qed.

#[local] Instance round_order_total : Total round_order.
Proof. unfold round_order. intros x y. lia. Qed.

(** Ordered and without repetition is strictly ordered. *)
Lemma strictly_ordered l : StronglySorted round_order l -> NoDup (map (fun e => round_number (de_Round e)) l) ->
  StronglySorted (fun x y => round_number (de_Round x) < round_number (de_Round y)) l.
Proof.
  induction 1 as [|e l _ IH Hall]; cbn [map]; intros Hnd; constructor; apply NoDup_cons in Hnd as [Hnot Hnd].
  - by apply IH.
  - rewrite Forall_forall in *. intros x Hx. specialize (Hall x Hx). unfold round_order in Hall.
    assert (round_number (de_Round e) <> round_number (de_Round x)); [|lia]. intros E. apply Hnot. rewrite E.
    apply (list_elem_of_fmap_2 (fun e => round_number (de_Round e))). exact Hx.
Qed.

(** The history of the second collector is read faithfully.  When the answer
    is taken, its events are in strictly ascending order of their rounds, each
    round once; every record is told, with its values in ascending order; nothing
    else is; and each event passes the check the service makes of it. *)
Theorem History_sound game code answered records events :
  draw_validGame game = true -> Forall (fun r => hr_RoundID r <= int64_max) records ->
  luluall_History game code answered (Some records) = Ok events ->
  StronglySorted (fun x y => round_number (de_Round x) < round_number (de_Round y)) events /\
  Forall (draw_taken game) events /\
  (forall r, r ∈ records -> exists l, l ≡ₚ record_values game r /\ StronglySorted Z.lt l /\
     history_event game (hr_RoundID r) (map FormatInt l) ∈ events) /\
  (forall e, e ∈ events -> exists r l, r ∈ records /\ l ≡ₚ record_values game r /\
     e = history_event game (hr_RoundID r) (map FormatInt l)).
Proof.
  intros Hg Hfit Hrun. unfold luluall_History in Hrun.
  apply res_bind_Ok in Hrun as (remote & _ & Hrun). cbn [of_option mbind res_bind] in Hrun.
  apply res_bind_Ok in Hrun as ([] & _ & Hrun). apply res_bind_Ok in Hrun as (told & Htold & Hrun). injection Hrun as <-.
  destruct (collect_history_spec _ _ _ _ Htold) as (Hall & found & Hev & Hnd & Hfound).
  assert (Hpos : forall f, f ∈ found -> 0 < f.1 <= int64_max /\ exists r l, r ∈ records /\ hr_RoundID r = f.1 /\
    l ≡ₚ record_values game r /\ f.2 = map FormatInt l /\ draw_taken game (history_event game f.1 f.2)).
  { intros f Hf. rewrite Forall_forall in Hfound. rewrite Forall_forall in Hall. rewrite Forall_forall in Hfit. destruct (Hfound f Hf) as (_ & r & Hr & <- & Hres).
    destruct (Hall r Hr) as [Hp _]. specialize (Hfit r Hr). split; [done|].
    destruct (record_result_Ok _ _ _ Hres) as (l & Hl & -> & Hs & Hb & Hne & Hlen). exists r, l.
    split; [done|split; [done|split; [done|split; [done|]]]]. by apply history_event_taken. }
  assert (Hnum : map (fun e => round_number (de_Round e)) told = map fst found).
  { rewrite Hev, map_map. apply map_ext_in. intros f Hf%list_elem_of_In. destruct (Hpos f Hf) as [Hp _].
    by apply round_number_event. }
  pose proof (merge_sort_Permutation round_order told) as Hperm. split; [|split; [|split]].
  - apply strictly_ordered; [apply StronglySorted_merge_sort; apply _|].
    rewrite (Permutation_map _ Hperm), Hnum. done.
  - rewrite Hperm, Hev. apply Forall_forall. intros e (f & -> & Hf)%list_elem_of_fmap.
    destruct (Hpos f Hf) as (_ & r & l & _ & _ & _ & _ & Ht). exact Ht.
  - intros r Hr. rewrite Forall_forall in Hall. destruct (Hall r Hr) as (_ & result & Hres & [Hs|[_ Hin]]).
    { by rewrite lookup_empty in Hs. }
    destruct (record_result_Ok _ _ _ Hres) as (l & Hl & -> & Hs & _). exists l. split; [done|split; [done|]]. by rewrite Hperm.
  - intros e. rewrite Hperm, Hev. intros (f & -> & Hf)%list_elem_of_fmap.
    destruct (Hpos f Hf) as (_ & r & l & Hr & Hid & Hl & Hres & _). exists r, l. by rewrite Hid, <- Hres.
Qed.

(** ** Witnesses *)

(** A snapshot names round 77 of the race; a ranking, which names no round,
    then tells its winner. *)
Definition race_messages : list (Z * raw) :=
  [ (1000, Some (JObj [("e", JStr "2001"); ("d", JObj [("round", JObj [("round_id", JStr "77"); ("countdown", JInt 9)])])]));
    (2000, Some (JObj [("e", JStr "3006"); ("d", JObj [("race_rank_info",
      JArr [JObj [("item_id", JInt 2); ("rank", JInt 2)]; JObj [("item_id", JInt 5); ("rank", JInt 1)]])])])) ]%string.

Lemma feed_sound_witness : let no_layout := fun _ : string => None in
  let events := feed_run no_layout no_layout "race" (mk_feed "" "" false (newDrawProgress 0)) race_messages in
  events = [mk_draw_event "race" "2001" "" "77" (Some 9000001000) []; mk_draw_event "race" "3006" "" "77" None ["5"%string]] /\
  Forall (fun e => drawMessage e = Ok (Some e)) events.
Proof.
  cbv zeta. split; [vm_compute; reflexivity|].
  pose proof (feed_sound (fun _ => None) (fun _ => None) "race" 0 race_messages eq_refl) as Hs.
  assert (Hc : Forall (fun e => carries_draw e = true /\ from_option json_time true (de_CloseAt e) = true)
    (feed_run (fun _ => None) (fun _ => None) "race" (mk_feed "" "" false (newDrawProgress 0)) race_messages))
    by (apply (bool_decide_unpack _); vm_compute; reflexivity).
  apply Forall_forall. intros e He. rewrite Forall_forall in Hs. rewrite Forall_forall in Hc.
  destruct (Hs e He) as (_ & Hcarry & _). destruct (Hc e He) as [Hd Ht].
  rewrite Ht in Hcarry. exact (proj1 (Hcarry Hd)).
Defined.

(** A far closing time in milliseconds: the draw is handed on, and the inbox
    cannot encode it. *)
Definition far_event : draw_event := mk_draw_event "race" "2001" "" "77" (Some 253402300800000000000) [].

Example far_close_refused :
  feed_run (fun _ => None) (fun _ => None) "race" (mk_feed "" "" false (newDrawProgress 0))
    [(1000, Some (JObj [("e", JStr "2001"); ("d", JObj [("round", JObj [("round_id", JStr "77");
       ("countdownEndTime", JInt 253402300800000)])])]))]%string = [far_event] /\ drawMessage far_event = Err ErrYear.
Proof. split; vm_compute; reflexivity. Qed.

Definition xdy_records : list history_record := [mk_history_record 9 0 [4; 2]; mk_history_record 8 0 [1]; mk_history_record 9 0 [2; 4]].

Lemma History_sound_witness : exists events,
  luluall_History "xdy" (Some 0) "steal" (Some xdy_records) = Ok events /\ length events = 2%nat /\
  Forall (draw_taken "xdy") events.
Proof.
  destruct (succeeds_Ok (fun l => bool_decide (length l = 2%nat)) (luluall_History "xdy" (Some 0) "steal" (Some xdy_records)))
    as (events & Hrun & Hlen); [vm_compute; reflexivity|].
  exists events. split; [exact Hrun|split; [exact (proj1 (bool_decide_eq_true _) Hlen)|]].
  refine (proj1 (proj2 (History_sound "xdy" (Some 0) "steal" xdy_records events eq_refl _ Hrun))).
  repeat (apply Forall_cons; split; [vm_compute; discriminate|]). apply Forall_nil. exact I.
Defined.
