(* ===== verification/ExternalDrawProofs.v ===== *)
(** * Draws of the upstream games: what holds

    A draw that is known does not change, whoever reports it again - but for the
    one exception of Star Sea; what the feed and the second collector report is
    well-formed; a manual result confirms exactly one missing draw. *)

From S2P Require Import Prelude GoStrings Json Game Schema Store Books Custody Examples Operations Scheduler LuluDraw ExternalDraw.

(** ** Comparing results *)

Lemma dec_strings_json old l : dec_strings old (strings_json l) = Some l.
Proof. unfold strings_json. cbn. induction l as [|s l IH]; [done|]. cbn in *. by rewrite IH. Qed.

Lemma strings_json_inj l k : strings_json l = strings_json k -> l = k.
Proof. intros E. apply (f_equal (dec_strings [])) in E. rewrite !dec_strings_json in E. by injection E. Qed.

Fixpoint occurrences (v : string) (l : list string) : Z :=
  match l with [] => 0 | x :: rest => (if String.eqb v x then 1 else 0) + occurrences v rest end.

Lemma occurrences_nonneg v l : 0 <= occurrences v l.
Proof. induction l as [|x l IH]; cbn [occurrences]; [done|]. destruct (String.eqb v x); lia. Qed.

Lemma counts_spec l : forall m v, default 0 (foldl count_value m l !! v) = default 0 (m !! v) + occurrences v l.
Proof.
  induction l as [|x l IH]; intros m v; cbn [foldl occurrences]; [lia|].
  rewrite IH. unfold count_value. destruct (String.eqb_spec v x) as [->|Hne].
  - rewrite lookup_insert_eq. cbn [default from_option id]. unfold id. lia.
  - rewrite lookup_insert_ne by done. lia.
Qed.

Lemma take_values_spec l : forall m, (forall v, 0 <= default 0 (m !! v)) ->
  take_values m l = true <-> forall v, occurrences v l <= default 0 (m !! v).
Proof.
  induction l as [|x l IH]; intros m Hm; cbn [take_values occurrences]; [done|].
  cbv zeta. destruct (Z.ltb_spec (default 0 (m !! x) - 1) 0) as [Hlt|Hge].
  - split; [done|]. intros Hall. specialize (Hall x). rewrite String.eqb_refl in Hall.
    pose proof (occurrences_nonneg x l). lia.
  - set (n := default 0 (m !! x) - 1) in *.
    assert (Hn : forall v, default 0 (<[x := n]> m !! v) = default 0 (m !! v) - (if String.eqb v x then 1 else 0)).
    { intros v. destruct (String.eqb_spec v x) as [->|Hne]; [by rewrite lookup_insert_eq|].
      rewrite lookup_insert_ne by done. lia. }
    rewrite IH.
    + split; intros Hall v; specialize (Hall v); rewrite ?Hn in *; lia.
    + intros v. rewrite Hn. specialize (Hm v). destruct (String.eqb_spec v x) as [->|Hne]; lia.
Qed.

Lemma occurrences_perm l k : l ≡ₚ k -> forall v, occurrences v l = occurrences v k.
Proof. intros Hp v. induction Hp; cbn [occurrences]; lia. Qed.

Lemma occurrences_in v l : v ∈ l <-> 0 < occurrences v l.
Proof.
  induction l as [|x l IH]; cbn [occurrences].
  - split; [by intros ?%elem_of_nil|lia].
  - rewrite elem_of_cons, IH. pose proof (occurrences_nonneg v l).
    destruct (String.eqb_spec v x) as [->|Hne]; intuition (done || lia).
Qed.

Lemma occurrences_app v l k : occurrences v (l ++ k) = occurrences v l + occurrences v k.
Proof. induction l as [|x l IH]; cbn [occurrences Datatypes.app]; lia. Qed.

Lemma perm_by_occurrences l : forall k, length l = length k -> (forall v, occurrences v k <= occurrences v l) -> l ≡ₚ k.
Proof.
  intros k. revert l. induction k as [|x k IH]; intros l Hlen Hall.
  { by destruct l. }
  assert (Hx : x ∈ l).
  { apply occurrences_in. specialize (Hall x). cbn [occurrences] in Hall. rewrite String.eqb_refl in Hall.
    pose proof (occurrences_nonneg x k). lia. }
  apply list_elem_of_split in Hx as (l1 & l2 & ->). rewrite <- Permutation_middle. constructor. apply IH.
  - rewrite length_app in *. cbn in *. lia.
  - intros v. specialize (Hall v). rewrite occurrences_app in *. cbn [occurrences] in Hall. lia.
Qed.

(** A draw is the same when its values are, in any order. *)
Lemma sameDrawResult_iff saved result : sameDrawResult saved result = true <->
  exists values, saved ≫= dec_strings [] = Some values /\ values <> [] /\ values ≡ₚ result.
Proof.
  unfold sameDrawResult. destruct (saved ≫= dec_strings []) as [values|]; [|naive_solver].
  rewrite !andb_true_iff, Nat.eqb_eq, negb_true_iff, bool_decide_eq_false.
  rewrite take_values_spec by (intros v; rewrite counts_spec, lookup_empty; pose proof (occurrences_nonneg v values); cbn [default]; lia).
  split.
  - intros [[Hne Hlen] Hall]. exists values. split; [done|split; [done|]]. apply perm_by_occurrences; [done|].
    intros v. specialize (Hall v). by rewrite counts_spec, lookup_empty in Hall.
  - intros (vs & [= <-] & Hne & Hp). split; [split; [done|by apply Permutation_length]|].
    intros v. rewrite counts_spec, lookup_empty, (occurrences_perm _ _ Hp v). done.
Qed.

(** ** The table of draws *)

Section draws.
Context `{Uuids}.

Abbreviation draws db := (external_draw_rounds db.(app)).

(** A draw is pending and empty, or has a result; in conflict, another result
    was reported as well. *)
Definition draw_shape (x : external_draw_row) : Prop :=
  ed_source x = draw_source /\ 0 < ed_external_round x /\ draw_validGame (ed_game x) = true /\
  (ed_status x = "pending"%string /\ ed_outcome x = None /\ ed_conflict_outcome x = None \/
   exists l, l <> [] /\ ed_outcome x = Some (strings_json l) /\
     (ed_status x = "confirmed"%string /\ ed_conflict_outcome x = None \/
      ed_status x = "conflict"%string /\
        exists k, ~ l ≡ₚ k /\ ed_conflict_outcome x = Some (strings_json k))).

Definition same_draw (x y : external_draw_row) : Prop :=
  ed_source y = ed_source x /\ ed_game y = ed_game x /\ ed_external_round y = ed_external_round x.

Record draws_ok (db : DB) : Prop := {
  dk_shape : forall i x, draws db !! i = Some x -> draw_shape x;
  dk_one : forall i j x y, draws db !! i = Some x -> draws db !! j = Some y -> same_draw x y -> i = j
}.

(** The exception of Star Sea: a single room becomes several that contain it. *)
Definition overridden (x y : external_draw_row) : Prop := ed_game x = "xdy"%string /\
  exists room rooms, ed_outcome x = Some (strings_json [room]) /\ ed_outcome y = Some (strings_json rooms) /\
    room ∈ rooms /\ (2 <= length rooms)%nat.

(** What may become of a draw. *)
Definition later_draw (x y : external_draw_row) : Prop := same_draw x y /\
  (ed_status x <> "pending"%string -> ed_status y <> "pending"%string /\ (ed_outcome y = ed_outcome x \/ overridden x y)).

#[local] Instance later_draw_preorder : PreOrder later_draw.
Proof.
  split.
  - intros x. split; [done|]. intros Hx. by split; [|left].
  - intros x y z [(S1 & S2 & S3) O1] [(T1 & T2 & T3) O2]. split; [unfold same_draw; intuition congruence|].
    intros Hx. destruct (O1 Hx) as [Hy Hxy]. destruct (O2 Hy) as [Hz Hyz]. split; [done|].
    destruct Hxy as [Exy|(G & r & rs & E1 & E2 & Hin & Hlen)], Hyz as [Eyz|(G' & r' & rs' & E1' & E2' & Hin' & Hlen')].
    + left. congruence.
    + right. split; [congruence|]. exists r', rs'. rewrite <- Exy. done.
    + right. split; [done|]. exists r, rs. rewrite Eyz. done.
    + exfalso. assert (rs = [r']) as -> by (apply strings_json_inj; congruence). cbn in Hlen. lia.
Qed.

(** Every draw is still there, later. *)
Definition draws_later (db db' : DB) : Prop := forall i x, draws db !! i = Some x ->
  exists y, draws db' !! i = Some y /\ later_draw x y.

#[local] Instance draws_later_preorder : PreOrder draws_later.
Proof.
  split; [intros db i x Hx; by exists x|]. intros d1 d2 d3 H1 H2 i x Hx.
  destruct (H1 i x Hx) as (y & Hy & Hxy). destruct (H2 i y Hy) as (z & Hz & Hyz). exists z. split; [done|by etrans].
Qed.

Lemma draws_later_same db db' : draws db' = draws db -> draws_later db db'.
Proof. intros E i x Hx. exists x. rewrite E. done. Qed.

Lemma draws_ok_same db db' : draws db' = draws db -> draws_ok db -> draws_ok db'.
Proof. intros E [Hs Ho]. split; by rewrite E. Qed.

(** A transaction after which the draws are well-formed and later. *)
Definition evolves {A} (m : Tx A) : Prop := forall db a db', m db = Ok (a, db') -> draws_ok db -> draws_ok db' /\ draws_later db db'.

Lemma evolves_bind {A B} (m : Tx A) (f : A -> Tx B) : evolves m -> (forall a, evolves (f a)) -> evolves (m ≫= f).
Proof.
  intros Hm Hf db b db' Hrun Hok. apply tx_bind_Ok in Hrun as (a & d & E & Hrun).
  destruct (Hm _ _ _ E Hok) as [Hok1 H1]. destruct (Hf a _ _ _ Hrun Hok1) as [Hok2 H2]. split; [done|by etrans].
Qed.

(** One that leaves them alone. *)
Lemma evolves_aside {A} (m : Tx A) : (forall D, tx_keeps (fun d => draws d = D) m) -> evolves m.
Proof.
  intros Hm db a db' Hrun Hok. pose proof (Hm (draws db) db a db' Hrun eq_refl) as E.
  split; [exact (draws_ok_same _ _ E Hok)|exact (draws_later_same _ _ E)].
Qed.

Lemma evolves_skip db : draws_ok db -> draws_ok db /\ draws_later db db.
Proof. intros Hok. split; [done|reflexivity]. Qed.

Lemma find_draw_Some game sequence db id x :
  find_row (fun _ => draw_key game sequence) (draws db) = Some (id, x) ->
  draws db !! id = Some x /\ ed_source x = draw_source /\ ed_game x = game /\ ed_external_round x = sequence.
Proof. intros [Hx Hk]%find_row_Some. unfold draw_key in Hk. bool_to_prop. done. Qed.

Lemma find_draw_unique game sequence db id x : draws_ok db -> draws db !! id = Some x -> draw_key game sequence x = true ->
  find_row (fun _ => draw_key game sequence) (draws db) = Some (id, x).
Proof.
  intros [_ Ho] Hx Hk. destruct (find_row _ _) as [[j y]|] eqn:E.
  - apply find_row_Some in E as [Hy Hk']. unfold draw_key in *. bool_to_prop.
    assert (j = id) as -> by (apply (Ho j id y x); [done|done|unfold same_draw; intuition congruence]). congruence.
  - pose proof (find_row_None _ _ _ _ E Hx). cbn in *. congruence.
Qed.

Lemma update_draw_Ok id f db u db' x : update_draw id f db = Ok (u, db') -> draws db !! id = Some x ->
  db' = put_row id (f x) db.
Proof.
  unfold update_draw. intros Hrun Hx. apply tx_bind_Ok in Hrun as (n & d & E & Hrun). apply tx_ret_Ok in Hrun as [_ <-].
  apply update_row_Ok in E as [(Hno & _)|(r & Hr & _ & <-)].
  - change (draws db !! id = None) in Hno. congruence.
  - change (draws db !! id = Some r) in Hr. congruence.
Qed.

(** Replacing one draw by a later one. *)
Lemma put_draw_evolves id x y db : draws db !! id = Some x -> draw_shape y -> later_draw x y -> draws_ok db ->
  draws_ok (put_row id y db) /\ draws_later db (put_row id y db).
Proof.
  intros Hx Hy Hl [Hs Ho]. assert (E : draws (put_row id y db) = <[id := y]> (draws db)) by reflexivity.
  assert (Hold : forall j z, draws (put_row id y db) !! j = Some z -> exists z0, draws db !! j = Some z0 /\ same_draw z0 z).
  { intros j z. rewrite E. intros Hz. destruct (decide (j = id)) as [->|Hj].
    - rewrite lookup_insert_eq in Hz. injection Hz as <-. exists x. split; [done|apply Hl].
    - rewrite lookup_insert_ne in Hz by done. by exists z. }
  split; [split|].
  - intros j z. rewrite E. intros [[_ ->]|Hz]%lookup_insert_or; [done|by eapply Hs].
  - intros i j z w Hz Hw Hzw. destruct (Hold _ _ Hz) as (z0 & Hz0 & S1). destruct (Hold _ _ Hw) as (w0 & Hw0 & S2).
    apply (Ho i j z0 w0 Hz0 Hw0). unfold same_draw in *. intuition congruence.
  - intros j z Hz. rewrite E. destruct (decide (j = id)) as [->|Hj].
    + assert (z = x) as -> by congruence. rewrite lookup_insert_eq. by exists y.
    + rewrite lookup_insert_ne by done. by exists z.
Qed.

(** A new draw. *)
Lemma new_draw_evolves id y db : draws db !! id = None -> draw_shape y ->
  (forall j z, draws db !! j = Some z -> ~ same_draw z y) -> draws_ok db ->
  draws_ok (put_row id y db) /\ draws_later db (put_row id y db).
Proof.
  intros Hno Hy Hnew [Hs Ho]. assert (E : draws (put_row id y db) = <[id := y]> (draws db)) by reflexivity. split; [split|].
  - intros j z. rewrite E. intros [[_ ->]|Hz]%lookup_insert_or; [done|by eapply Hs].
  - intros i j z w. rewrite E. intros [[-> ->]|Hz]%lookup_insert_or [[-> ->]|Hw]%lookup_insert_or Hzw; [done|..].
    + destruct (Hnew _ _ Hw). unfold same_draw in *. intuition congruence.
    + by destruct (Hnew _ _ Hz).
    + by apply (Ho i j z w).
  - intros j z Hz. exists z. split; [|done]. rewrite E, lookup_insert_ne; [done|]. intros <-. congruence.
Qed.
(** *** The operations *)

Lemma evolves_audit action e sequence saved : evolves (auditDrawResult action e sequence saved).
Proof.
  apply evolves_aside. intros D. unfold auditDrawResult. keeps.
  - apply tx_keeps_new_uuid. done.
  - intros d u d' Hrun%insert_audit_Ok. by subst.
Qed.

Lemma evolves_draw_rounds sequence status closes result games : evolves (insert_draw_rounds sequence status closes result games).
Proof.
  apply evolves_aside. intros D. induction games as [|g games IH]; cbn [insert_draw_rounds]; unfold insert_draw_round; keeps.
  - apply tx_keeps_new_uuid. done.
  - apply tx_keeps_insert_unless. done.
Qed.

Lemma evolves_createRounds t n game sequence closeAt : evolves (createRounds t n game sequence closeAt).
Proof.
  unfold createRounds. destruct (_ <=? _).
  - by apply evolves_aside; intros D; apply tx_keeps_ret.
  - apply evolves_bind; [apply evolves_aside; intros D; apply tx_keeps_gets|intros games; apply evolves_draw_rounds].
Qed.

Lemma evolves_createResultRounds t game sequence closeAt : evolves (createResultRounds t game sequence closeAt).
Proof.
  unfold createResultRounds. destruct (resultRoundClosedAt _ _).
  - apply evolves_bind; [apply evolves_aside; intros D; apply tx_keeps_gets|intros games; apply evolves_draw_rounds].
  - by apply evolves_aside; intros D; apply tx_keeps_ret.
Qed.

Lemma evolves_upsert game sequence closeAt : draw_validGame game = true -> 0 < sequence ->
  evolves (upsert_draw game sequence closeAt).
Proof.
  intros Hg Hs db u db' Hrun Hok. unfold upsert_draw, find_draw, select_where in Hrun. rewrite gets_skip in Hrun.
  change (tbl db.(app)) with (draws db) in Hrun. destruct (find_row _ _) as [[id x]|] eqn:Hf.
  - apply find_draw_Some in Hf as (Hx & _). rewrite (update_draw_Ok _ _ _ _ _ _ Hrun Hx).
    apply (put_draw_evolves id x); [done| | |done].
    + destruct (dk_shape _ Hok _ _ Hx) as (S1 & S2 & S3 & S4). by repeat split.
    + split; [done|]. intros Hst. split; [done|by left].
  - apply tx_bind_Ok in Hrun as (id & d & E & Hrun). apply new_uuid_Ok in E as [<- <-].
    apply insert_row_Ok in Hrun as (Hno & _ & <-).
    apply (new_draw_evolves (drawn db) _ (tick db)); [exact Hno| | |by eapply draws_ok_same, Hok].
    + split; [done|split; [done|split; [done|by left]]].
    + intros j z Hz (E1 & E2 & E3). pose proof (find_row_None _ _ _ _ Hf Hz) as Hn. unfold draw_key in Hn.
      cbn in E1, E2, E3. by rewrite <- E1, <- E2, <- E3, !bool_decide_true, Z.eqb_refl in Hn.
Qed.

Lemma confirmed_shape x l now conflict : draw_shape x -> l <> [] -> conflict = None ->
  draw_shape (confirm_outcome (strings_json l) conflict now x).
Proof. intros (S1 & S2 & S3 & _) Hl ->. repeat split; [done..|]. right. exists l. split; [done|split; [done|by left]]. Qed.

Lemma pending_shape x : draw_shape x -> ed_status x = "pending"%string -> ed_outcome x = None /\ ed_conflict_outcome x = None.
Proof. intros (_ & _ & _ & [(_ & ? & ?)|(l & _ & _ & [[E _]|[E _]])]); [done|congruence..]. Qed.

Lemma saved_shape x : draw_shape x -> ed_status x <> "pending"%string -> exists l, l <> [] /\ ed_outcome x = Some (strings_json l).
Proof. intros (_ & _ & _ & [(E & _)|(l & Hl & Ho & _)]) Hst; [done|by exists l]. Qed.

Lemma evolves_confirmResult t e sequence : de_Result e <> [] -> evolves (confirmResult t e sequence).
Proof.
  intros Hres db u db' Hrun Hok. unfold confirmResult, find_draw, select_where in Hrun. cbv zeta in Hrun. rewrite gets_skip in Hrun.
  change (tbl db.(app)) with (draws db) in Hrun.
  apply tx_bind_Ok in Hrun as ([id x] & d & E & Hrun). apply found_Ok in E as [Hf <-].
  apply find_draw_Some in Hf as (Hx & _ & Hg & _). pose proof (dk_shape _ Hok _ _ Hx) as Hshape.
  assert (Hupd : forall y action saved, draw_shape y -> later_draw x y -> forall d u1,
    update_draw id (fun _ => y) db = Ok (u1, d) -> auditDrawResult action e sequence saved d = Ok (u, db') ->
    draws_ok db' /\ draws_later db db').
  { intros y action saved Hy Hl d u1 E Ha. rewrite (update_draw_Ok _ _ _ _ _ _ E Hx) in Ha.
    destruct (put_draw_evolves id x y db Hx Hy Hl Hok) as [Hok1 H1].
    destruct (evolves_audit _ _ _ _ _ _ _ Ha Hok1) as [Hok2 H2]. split; [done|by etrans]. }
  assert (Hfun : forall f d u1, update_draw id f db = Ok (u1, d) -> update_draw id (fun _ => f x) db = Ok (u1, d)).
  { intros f d [] E. rewrite (update_draw_Ok _ _ _ _ _ _ E Hx). unfold update_draw, mbind, Tx_bind, update_row.
    change (tbl db.(app)) with (draws db). by rewrite Hx. }
  case_bool_decide as Hst.
  - assert (Hnp : ed_status x <> "pending"%string) by (intros E; rewrite E in Hst; set_solver).
    destruct (saved_shape _ Hshape Hnp) as (l & Hl & Hout). rewrite Hout in Hrun. cbn [default from_option] in Hrun. unfold Datatypes.id in Hrun.
    destruct (sameDrawResult _ _) eqn:Esame; [apply tx_ret_Ok in Hrun as [_ <-]; by apply evolves_skip|].
    assert (Hperm : ~ l ≡ₚ de_Result e).
    { intros Hp. assert (sameDrawResult (Some (strings_json l)) (de_Result e) = true); [|congruence].
      apply sameDrawResult_iff. exists l. split; [apply dec_strings_json|done]. }
    destruct (_ && isLowerPriorityStarSeaResult _ _); [by eapply evolves_audit|].
    destruct (_ && isAuthoritativeStarSeaMultiKill _ _) eqn:Eover.
    + apply tx_bind_Ok in Hrun as (u1 & d & E & Hrun). apply Hfun in E. eapply Hupd; [..|exact E|exact Hrun].
      * by apply confirmed_shape.
      * split; [done|]. intros _. split; [done|right]. apply andb_prop in Eover as [Hwin Hauth].
        unfold isStarSeaMultiKillWindow in Hwin. unfold isAuthoritativeStarSeaMultiKill in Hauth.
        apply andb_prop in Hwin as [Hxdy _]. apply bool_decide_eq_true in Hxdy.
        apply andb_prop in Hauth as [Hlen Hroom]. apply andb_prop in Hlen as [_ Hlen]. apply Nat.leb_le in Hlen.
        cbn [mbind option_bind] in Hroom. rewrite dec_strings_json in Hroom. destruct l as [|room [|]]; try discriminate Hroom.
        apply bool_decide_eq_true in Hroom. split; [congruence|]. exists room, (de_Result e). done.
    + apply tx_bind_Ok in Hrun as (u1 & d & E & Hrun). case_bool_decide as Hconf.
      * apply Hfun in E. eapply Hupd; [..|exact E|exact Hrun].
        -- destruct Hshape as (S1 & S2 & S3 & _). repeat split; [done..|]. right. exists l. split; [done|split; [done|]].
           right. split; [done|]. by exists (de_Result e).
        -- split; [done|]. intros _. split; [done|by left].
      * apply tx_ret_Ok in E as [_ <-]. by eapply evolves_audit.
  - apply tx_bind_Ok in Hrun as (u1 & d & E & Hrun). apply Hfun in E.
    assert (Hp : ed_status x = "pending"%string).
    { destruct Hshape as (_ & _ & _ & [[Hp _]|(l & _ & _ & [[Hc _]|[Hc _]])]); [done|exfalso..]; apply Hst; rewrite Hc; set_solver. }
    destruct (pending_shape _ Hshape Hp) as [_ Hnc]. eapply Hupd; [..|exact E|exact Hrun].
    + by apply confirmed_shape.
    + split; [done|]. intros Hn. by destruct (Hn Hp).
Qed.

Lemma evolves_pure {A} (m : Tx A) : (forall db a db', m db = Ok (a, db') -> db' = db) -> evolves m.
Proof. intros Hm db a db' Hrun Hok. rewrite (Hm _ _ _ Hrun). by apply evolves_skip. Qed.

Lemma evolves_Handle t n e : evolves (Handle t n e).
Proof.
  unfold Handle. cbv zeta. intros db u db' Hrun Hok.
  apply tx_bind_Ok in Hrun as (round & d & E & Hrun). apply found_Ok in E as [_ <-].
  apply tx_bind_Ok in Hrun as ([] & d & E & Hrun). apply reject_if_Ok in E as [Hr <-].
  apply orb_false_iff in Hr as [Hr Hg]. apply negb_false_iff in Hg. apply Z.leb_gt in Hr.
  destruct (negb (carries_draw e)); [apply tx_ret_Ok in Hrun as [_ <-]; by apply evolves_skip|].
  revert db u db' Hrun Hok. apply evolves_bind; [by apply evolves_upsert|intros _].
  apply evolves_bind; [|intros _].
  - destruct (de_CloseAt e); [apply evolves_createRounds|]. by apply evolves_aside; intros D; apply tx_keeps_ret.
  - case_bool_decide as Hres; [by apply evolves_aside; intros D; apply tx_keeps_ret|].
    apply evolves_bind; [by apply evolves_confirmResult|intros _; apply evolves_createResultRounds].
Qed.

(** *** Manual results *)

Lemma manual_values_range max l : forall seen, manual_values max seen l = true ->
  Forall (fun n => 1 <= n <= max) l /\ NoDup l /\ forall n, n ∈ seen -> n ∉ l.
Proof.
  induction l as [|n l IH]; intros seen Hv; cbn [manual_values] in Hv.
  { split; [constructor|split; [constructor|]]. by intros n _ ?%elem_of_nil. }
  apply andb_prop in Hv as [Hn Hv]. bool_to_prop. destruct (IH _ Hv) as (Hall & Hnd & Hseen). split; [|split].
  - constructor; [lia|done].
  - constructor; [apply Hseen; by left|done].
  - intros m Hm [->|Hl]%elem_of_cons; [done|]. apply (Hseen m); [by right|done].
Qed.

Lemma sourceGame_valid name game : sourceGame name = Some game -> draw_validGame game = true.
Proof. unfold sourceGame. repeat case_bool_decide; intros [= <-]; reflexivity. Qed.

(** What an accepted input says. *)
Lemma validateManual_Ok i game issue result : validateManual i = Ok (game, issue, result) ->
  sourceGame (mi_Game i) = Some game /\ draw_validGame game = true /\ 0 < issue /\ mi_Issue i = FormatInt issue /\
  result = map FormatInt (mi_Result i) /\ mi_Result i <> [] /\ NoDup (mi_Result i) /\
  Forall (fun n => 1 <= n <= (manual_bounds game).1) (mi_Result i) /\ (length (mi_Result i) <= (manual_bounds game).2)%nat.
Proof.
  unfold validateManual. intros Hrun.
  apply res_bind_Ok in Hrun as (g & Eg & Hrun). apply of_option_Ok in Eg.
  apply res_bind_Ok in Hrun as (n & En & Hrun). apply of_option_Ok in En.
  apply res_bind_Ok in Hrun as ([] & E & Hrun). apply fail_if_Ok in E.
  destruct (manual_bounds g) as [max count] eqn:Eb.
  apply res_bind_Ok in Hrun as ([] & E1 & Hrun). apply fail_if_Ok in E1.
  apply res_bind_Ok in Hrun as ([] & E2 & Hrun). apply fail_if_Ok in E2. injection Hrun as -> -> <-. rewrite Eb.
  apply negb_false_iff in E2. destruct (manual_values_range _ _ _ E2) as (Hall & Hnd & _).
  assert (Hlen : (length (mi_Result i) <= count)%nat) by (apply orb_false_iff in E1 as [_ E1%Nat.ltb_ge]; exact E1). bool_to_prop.
  assert (0 < issue) by (repeat match goal with H : _ || _ = false |- _ => apply orb_false_iff in H as [H ?] end; lia).
  split; [done|split; [by eapply sourceGame_valid|split; [done|split; [done|split; [done|split; [done|split; [done|split; [done|exact Hlen]]]]]]]].
Qed.

Lemma no_outcome_pending x : draw_shape x -> ed_status x = "pending"%string -> no_outcome x = true.
Proof. intros Hs Hp. destruct (pending_shape _ Hs Hp) as [E _]. unfold no_outcome. by rewrite E. Qed.

(** Confirming a draw that is pending. *)
Lemma confirm_evolves id x l now conflict db d u action e sequence : draws_ok db -> draws db !! id = Some x ->
  ed_status x = "pending"%string -> l <> [] -> conflict = None ->
  update_draw id (confirm_outcome (strings_json l) conflict now) db = Ok (u, d) ->
  draws_ok d /\ draws_later db d /\ (forall u' d', auditDrawResult action e sequence None d = Ok (u', d') ->
    draws_ok d' /\ draws_later db d').
Proof.
  intros Hok Hx Hp Hl Hc E. rewrite (update_draw_Ok _ _ _ _ _ _ E Hx).
  destruct (put_draw_evolves id x (confirm_outcome (strings_json l) conflict now x) db Hx) as [Hok1 H1].
  - apply confirmed_shape; [by eapply dk_shape|done|done].
  - split; [done|]. intros Hn. by destruct (Hn Hp).
  - done.
  - split; [done|split; [done|]]. intros u' d' Ha. destruct (evolves_audit _ _ _ _ _ _ _ Ha Hok1) as [Hok2 H2].
    split; [done|by etrans].
Qed.

Section manual.
Context (is_uuid : string -> bool).

(** What a new manual result did: exactly one pending draw, whose round waits
    for a result that is due, was confirmed, and the step was recorded. *)
Record manual_done (t : clock) (actor : string) (i : ManualInput) (db db' : DB) : Prop := {
  md_game : exists game issue id x rid r,
    sourceGame (mi_Game i) = Some game /\ mi_Issue i = FormatInt issue /\
    draws db !! id = Some x /\ ed_game x = game /\ ed_external_round x = issue /\ ed_status x = "pending"%string /\
    rounds db.(app) !! rid = Some r /\ rd_sequence r = issue /\ awaits_result r = true /\ rd_result_at r <= go_now t /\
    draws db' = <[id := confirm_outcome (strings_json (map FormatInt (mi_Result i))) None (sql_now t) x]> (draws db) /\
    exists a, audit_logs db'.(app) = a :: audit_logs db.(app) /\ au_actor a = Some actor;
  md_rounds : rounds db'.(app) = rounds db.(app);
  md_money : money db' = money db
}.

Lemma ConfirmManual_run t actor i db out db' : ConfirmManual is_uuid t actor i db = Ok (out, db') ->
  exists game issue result id x, validateManual i = Ok (game, issue, result) /\
    find_row (fun _ => draw_key game issue) (draws db) = Some (id, x) /\
    (db' = db /\ mr_AlreadyConfirmed out = true /\ ed_status x = "confirmed"%string /\ sameDrawResult (ed_outcome x) result = true \/
     manual_done t actor i db db' /\ mr_AlreadyConfirmed out = false /\ ed_status x = "pending"%string /\
       draws db' = <[id := confirm_outcome (strings_json result) None (sql_now t) x]> (draws db)).
Proof.
  intros Hrun. unfold ConfirmManual, find_draw, find_round, select_where in Hrun. cbv zeta in Hrun.
  apply tx_bind_Ok in Hrun as ([[game issue] result] & d & E & Hrun). apply lift_Ok in E as [Hv <-].
  apply tx_bind_Ok in Hrun as ([] & d & E & Hrun). apply reject_if_Ok in E as [_ <-]. rewrite gets_skip in Hrun.
  change (tbl db.(app)) with (draws db) in Hrun.
  apply tx_bind_Ok in Hrun as ([id x] & d & E & Hrun). apply found_Ok in E as [Hf <-].
  exists game, issue, result, id, x. split; [done|split; [done|]].
  destruct (find_draw_Some _ _ _ _ _ Hf) as (Hx & _ & Hg & Hi).
  destruct (validateManual_Ok _ _ _ _ Hv) as (Hsrc & _ & _ & Hiss & -> & _).
  destruct (_ && sameDrawResult _ _) eqn:Esame.
  { apply tx_ret_Ok in Hrun as [<- <-]. apply andb_prop in Esame as [Hst Hsame]. bool_to_prop. by left. }
  right. apply tx_bind_Ok in Hrun as ([] & d & E & Hrun). apply reject_if_Ok in E as [Hp <-].
  apply orb_false_iff in Hp as [Hp _]. apply negb_false_iff, bool_decide_eq_true in Hp. rewrite gets_skip in Hrun.
  apply tx_bind_Ok in Hrun as ([rid r] & d & E & Hrun). apply found_Ok in E as [Hr <-].
  apply find_row_Some in Hr as [Hr Hdr]. unfold draw_round in Hdr. apply andb_prop in Hdr as [Hseq _]. apply Z.eqb_eq in Hseq.
  apply tx_bind_Ok in Hrun as ([] & d & E & Hrun). apply reject_if_Ok in E as [Hw <-].
  apply orb_false_iff in Hw as [Hw Hdue]. apply negb_false_iff in Hw. apply Z.ltb_ge in Hdue.
  apply tx_bind_Ok in Hrun as ([] & d & E & Hrun). rewrite (update_draw_Ok _ _ _ _ _ _ E Hx) in Hrun.
  apply tx_bind_Ok in Hrun as (aid & d2 & E2 & Hrun). apply new_uuid_Ok in E2 as [<- <-].
  apply tx_bind_Ok in Hrun as ([] & d2 & E2 & Hrun). apply insert_audit_Ok in E2 as <-.
  apply tx_ret_Ok in Hrun as [<- <-]. split; [|done]. split; [|done|done].
  exists game, issue, id, x, rid, r. do 11 (split; [done|]). by eexists.
Qed.

Lemma evolves_ConfirmManual t actor i : evolves (ConfirmManual is_uuid t actor i).
Proof.
  intros db out db' Hrun Hok. destruct (ConfirmManual_run _ _ _ _ _ _ Hrun) as (game & issue & result & id & x & Hv & Hf & Hor).
  destruct Hor as [(-> & _)|(_ & _ & Hp & Hd)]; [by apply evolves_skip|].
  destruct (find_draw_Some _ _ _ _ _ Hf) as (Hx & _). destruct (validateManual_Ok _ _ _ _ Hv) as (_ & _ & _ & _ & Hres & Hne & _).
  destruct (put_draw_evolves id x (confirm_outcome (strings_json result) None (sql_now t) x) db Hx) as [Hok1 H1].
  - apply confirmed_shape; [by eapply dk_shape| |done]. subst. by destruct (mi_Result i).
  - split; [done|]. intros Hn. by destruct (Hn Hp).
  - done.
  - split; [eapply draws_ok_same, Hok1; exact Hd|]. intros j y Hy. destruct (H1 j y Hy) as (z & Hz & Hl). exists z.
    by rewrite Hd.
Qed.

End manual.

Lemma evolves_confirmBackfill t e : evolves (confirmBackfill t e).
Proof.
  intros db u db' Hrun Hok. unfold confirmBackfill, find_draw, find_round, select_where in Hrun. cbv zeta in Hrun.
  apply tx_bind_Ok in Hrun as (values & d & E & Hrun). apply found_Ok in E as [_ <-].
  apply tx_bind_Ok in Hrun as ([[game issue] result] & d & E & Hrun). apply lift_Ok in E as [Hv <-].
  destruct (validateManual_Ok _ _ _ _ Hv) as (_ & _ & _ & _ & Hres & Hne & _). cbn [mi_Result] in *.
  rewrite gets_skip in Hrun. change (tbl db.(app)) with (draws db) in Hrun.
  destruct (find_row _ (draws db)) as [[id x]|] eqn:Hf; [|apply tx_ret_Ok in Hrun as [_ <-]; by apply evolves_skip].
  destruct (find_draw_Some _ _ _ _ _ Hf) as (Hx & _).
  destruct (negb (bool_decide (ed_status x = "pending"%string)) || _) eqn:Ep;
    [apply tx_ret_Ok in Hrun as [_ <-]; by apply evolves_skip|].
  apply orb_false_iff in Ep as [Ep _]. apply negb_false_iff, bool_decide_eq_true in Ep. rewrite gets_skip in Hrun.
  destruct (find_row _ (rounds _)) as [[rid r]|]; [|apply tx_ret_Ok in Hrun as [_ <-]; by apply evolves_skip].
  destruct (_ || _); [apply tx_ret_Ok in Hrun as [_ <-]; by apply evolves_skip|].
  apply tx_bind_Ok in Hrun as ([] & d & E & Hrun).
  destruct (pending_shape x (dk_shape _ Hok _ _ Hx) Ep) as [_ Hnc].
  assert (E' : update_draw id (confirm_outcome (strings_json result) None (sql_now t)) db = Ok ((), d)).
  { pose proof (update_draw_Ok _ _ _ _ _ _ E Hx) as Hd. cbv beta in Hd. rewrite Hnc in Hd. subst d.
    unfold update_draw, mbind, Tx_bind, update_row. change (tbl db.(app)) with (draws db). by rewrite Hx. }
  assert (Hl : result <> []) by (rewrite Hres; intros E0; by apply map_eq_nil in E0).
  destruct (confirm_evolves _ _ _ _ _ _ _ _ "lulu_draw.result_backfilled"
    (mk_draw_event (de_Game e) "luluall_history" (de_ResultField e) (de_Round e) None result) issue Hok Hx Ep
    Hl eq_refl E') as (_ & _ & Ha).
  by eapply Ha.
Qed.

(** ** Draws are final *)

(** The transactions that write draws. *)
Inductive draw_step (db db' : DB) : Prop :=
| ds_handle t n e : Handle t n e db = Ok ((), db') -> draw_step db db'
| ds_manual is_uuid t actor i out : ConfirmManual is_uuid t actor i db = Ok (out, db') -> draw_step db db'
| ds_backfill t e : confirmBackfill t e db = Ok ((), db') -> draw_step db db'
| ds_elsewhere : draws db' = draws db -> draw_step db db'.

Lemma draw_step_evolves db db' : draw_step db db' -> draws_ok db -> draws_ok db' /\ draws_later db db'.
Proof.
  intros []; [by eapply evolves_Handle|by eapply evolves_ConfirmManual|by eapply evolves_confirmBackfill|].
  intros Hok. split; [by eapply draws_ok_same|by apply draws_later_same].
Qed.

(** C11: A draw is final.  Over any sequence of reported draws, manual results,
    draws taken from the second collector and other transactions, every draw
    stays the only one of its round and well-formed; and once it has a result it
    keeps it - but for the one exception of the game xdy, where a result of a
    single room may be replaced, once, by several rooms that contain it. *)
Theorem draws_final db db' : rtc draw_step db db' -> draws_ok db ->
  draws_ok db' /\ forall id x, draws db !! id = Some x -> exists y, draws db' !! id = Some y /\ same_draw x y /\
    (ed_status x <> "pending"%string -> ed_status y <> "pending"%string /\ (ed_outcome y = ed_outcome x \/ overridden x y)).
Proof.
  intros Hsteps Hok. assert (Hlater : draws_ok db' /\ draws_later db db'); [|exact Hlater].
  induction Hsteps as [|d1 d2 d3 Hstep _ IH]; [split; [done|reflexivity]|].
  destruct (draw_step_evolves _ _ Hstep Hok) as [Hok1 H1]. destruct (IH Hok1) as [Hok2 H2]. split; [done|by etrans].
Qed.

(** A manual result confirms one missing draw.  It succeeds without a change
    when the draw is already confirmed with the same values; otherwise the draw
    was pending, its round waited for a result that was due, and the draw is
    confirmed with exactly the given values - distinct, within the bounds of the
    game - and recorded under the administrator; no round and no wallet moves. *)
Theorem ConfirmManual_exact is_uuid t actor i db out db' :
  draws_ok db -> ConfirmManual is_uuid t actor i db = Ok (out, db') ->
  NoDup (mi_Result i) /\ mi_Result i <> [] /\
  (exists game, sourceGame (mi_Game i) = Some game /\ Forall (fun n => 1 <= n <= (manual_bounds game).1) (mi_Result i) /\
     (length (mi_Result i) <= (manual_bounds game).2)%nat) /\
  (db' = db /\ mr_AlreadyConfirmed out = true \/ manual_done t actor i db db' /\ mr_AlreadyConfirmed out = false) /\
  exists out2, ConfirmManual is_uuid t actor i db' = Ok (out2, db') /\ mr_AlreadyConfirmed out2 = true.
Proof.
  intros Hok Hrun. destruct (ConfirmManual_run _ _ _ _ _ _ _ Hrun) as (game & issue & result & id & x & Hv & Hf & Hor).
  destruct (validateManual_Ok _ _ _ _ Hv) as (Hg & _ & _ & _ & Hres & Hne & Hnd & Hall & Hlen).
  split; [done|split; [done|split; [by exists game|split; [tauto|]]]].
  assert (Huuid : is_uuid actor = true).
  { unfold ConfirmManual in Hrun. apply tx_bind_Ok in Hrun as ([[g2 i2] r2] & d & E & Hrun). apply lift_Ok in E as [_ <-].
    apply tx_bind_Ok in Hrun as ([] & d & E & Hrun). apply reject_if_Ok in E as [E _]. by apply negb_false_iff in E. }
  assert (Hagain : forall y, find_row (fun _ => draw_key game issue) (draws db') = Some (id, y) ->
    ed_status y = "confirmed"%string -> sameDrawResult (ed_outcome y) result = true ->
    exists out2, ConfirmManual is_uuid t actor i db' = Ok (out2, db') /\ mr_AlreadyConfirmed out2 = true).
  { intros y Hy Hst Hsame. exists (mk_ManualResult (mi_Game i) (mi_Issue i) (mi_Result i) "confirmed" true). split; [|done].
    unfold ConfirmManual, find_draw, select_where. cbv zeta. rewrite (lift_skip _ _ _ _ Hv).
    rewrite reject_skip by (by rewrite Huuid). rewrite gets_skip. change (tbl db'.(app)) with (draws db'). rewrite Hy.
    rewrite (found_skip _ _ _ _ _ eq_refl), bool_decide_true by done. by rewrite Hsame. }
  destruct Hor as [(-> & _ & Hst & Hsame)|(Hd & _ & Hp & Hdr)]; [by eapply Hagain|].
  eapply (Hagain (confirm_outcome (strings_json result) None (sql_now t) x)); [|done|].
  - destruct (evolves_ConfirmManual _ _ _ _ _ _ _ Hrun Hok) as [Hok' _]. apply find_draw_unique; [done| |].
    + rewrite Hdr. apply lookup_insert_eq.
    + apply find_row_Some in Hf as [_ Hk]. exact Hk.
  - apply sameDrawResult_iff. exists result. split; [apply dec_strings_json|]. split; [|done]. subst. by destruct (mi_Result i).
Qed.

End draws.

(** ** Witnesses *)

Definition race_rules : json :=
  JObj [("source", JStr draw_source); ("extras", JObj [("external_game", JStr "race")])]%string.

(** One game follows the race; its round 77 is closed and waits for its draw. *)
Definition draw_db : DB := mk_DB (mk_Money ∅ [])
  (set_game_types {[ "r" := mk_game_type_row "green_sprint" "Race" true race_rules None 0 None ]}
  (set_rounds {[ "r-77" := mk_round_row "r" 77 RoundClosed 0 1000 None None 0 ]}
  (set_external_draw_rounds {[ "d-77" := mk_external_draw_row draw_source "race" 77 (Some 1000) None "pending" None None ]}
   example_app))).

Definition manual_input : ManualInput := mk_ManualInput "green_sprint" "77" [3] "collector down".

(** The feed reports another winner, later. *)
Definition late_event : draw_event := mk_draw_event "race" "3005" "win_item_id" "77" None ["4"%string].

Definition confirmed_db : DB := run_or (ConfirmManual (fun _ => true) noon "staff" manual_input) draw_db.

Definition disputed_db : DB := run_or (Handle noon 5 late_event) confirmed_db.

Lemma draw_db_ok : draws_ok draw_db.
Proof.
  assert (E : forall i x, external_draw_rounds draw_db.(app) !! i = Some x -> i = "d-77"%string /\
    x = mk_external_draw_row draw_source "race" 77 (Some 1000) None "pending" None None).
  { intros i x Hx. change (({[ "d-77"%string := mk_external_draw_row draw_source "race" 77 (Some 1000) None "pending" None None ]}
      : gmap string external_draw_row) !! i = Some x) in Hx. apply lookup_singleton_Some in Hx as [<- <-]. done. }
  split.
  - intros i x Hx. destruct (E _ _ Hx) as [_ ->]. split; [reflexivity|split; [reflexivity|split; [reflexivity|]]].
    left. done.
  - intros i j x y Hx Hy _. destruct (E _ _ Hx) as [-> _]. destruct (E _ _ Hy) as [-> _]. reflexivity.
Qed.

Lemma confirmed_run : exists out, mr_AlreadyConfirmed out = false /\
  ConfirmManual (fun _ => true) noon "staff" manual_input draw_db = Ok (out, confirmed_db).
Proof.
  destruct (run_or_Ok (ConfirmManual (fun _ => true) noon "staff" manual_input)
    (fun out => negb (mr_AlreadyConfirmed out)) draw_db) as (out & Ho & Hrun); [vm_compute; reflexivity|].
  exists out. split; [by apply negb_true_iff|exact Hrun].
Qed.

Lemma disputed_run : Handle noon 5 late_event confirmed_db = Ok ((), disputed_db).
Proof.
  destruct (run_or_Ok (Handle noon 5 late_event) (fun _ => true) confirmed_db) as ([] & _ & Hrun); [vm_compute; reflexivity|].
  exact Hrun.
Qed.

(** The draw confirmed by hand keeps its result when the feed contradicts it. *)
Lemma draws_final_witness : exists y,
  external_draw_rounds disputed_db.(app) !! "d-77"%string = Some y /\
  ed_status y = "conflict"%string /\ ed_outcome y = Some (strings_json ["3"%string]).
Proof.
  assert (Hsteps : rtc draw_step confirmed_db disputed_db).
  { apply rtc_once. exact (ds_handle _ _ _ _ _ disputed_run). }
  assert (Hok : draws_ok confirmed_db).
  { destruct confirmed_run as (out & _ & Hrun).
    exact (proj1 (evolves_ConfirmManual _ _ _ _ _ _ _ Hrun draw_db_ok)). }
  destruct (draws_final _ _ Hsteps Hok) as [_ Hfinal].
  assert (Hx : external_draw_rounds confirmed_db.(app) !! "d-77"%string =
    Some (mk_external_draw_row draw_source "race" 77 (Some 1000) (Some (strings_json ["3"%string])) "confirmed" None
            (Some (sql_now noon)))) by (vm_compute; reflexivity).
  destruct (Hfinal _ _ Hx) as (y & Hy & _ & Hlater). exists y. split; [exact Hy|].
  destruct Hlater as [_ [Ho|(G & _)]]; [discriminate| |discriminate G].
  split; [|exact Ho].
  assert (Est : ed_status <$> external_draw_rounds disputed_db.(app) !! "d-77"%string = Some "conflict"%string)
    by (vm_compute; reflexivity).
  rewrite Hy in Est. injection Est as Est. exact Est.
Defined.

Lemma ConfirmManual_exact_witness : exists out,
  ConfirmManual (fun _ => true) noon "staff" manual_input draw_db = Ok (out, confirmed_db) /\
  manual_done noon "staff" manual_input draw_db confirmed_db.
Proof.
  destruct confirmed_run as (out & Ho & Hrun). exists out. split; [exact Hrun|].
  destruct (ConfirmManual_exact _ _ _ _ _ _ _ draw_db_ok Hrun) as (_ & _ & _ & Hor & _).
  destruct Hor as [[_ Ht]|[Hd _]]; [rewrite Ho in Ht; discriminate Ht|exact Hd].
Defined.
