(* ===== verification/Nginx.v ===== *)
(** * Nginx configurations

    [platform/domainops]: the names of domains (model.go), and the reading and
    writing of nginx configurations (nginx.go): the parser with the positions of
    the directives, the configuration of a managed domain, and taking a domain
    over from an existing file.

    The messages of the errors are left out: each check has one error of its
    own.  [net.ParseIP] of a text with a dot is the four decimal fields of an
    IPv4 address; a text with a colon is no domain in any case. *)

From S2P Require Import Prelude GoStrings Identity.

Definition ErrDomain : error := Sentinel "domainops: domain".
Definition ErrCertificatePair : error := Sentinel "domainops: certificate and key".
Definition ErrCertificatePath : error := Sentinel "domainops: certificate path".
Definition ErrNginx : error := Sentinel "domainops: nginx syntax".
Definition ErrImport : error := Sentinel "domainops: import".

(** ** Names *)

Definition label_char (c : Ascii.ascii) : bool := is_digit c || between 97 122 c || (code c =? 45).

Definition label_end (c : Ascii.ascii) : bool := is_digit c || between 97 122 c.

(** [^[a-z0-9](?:[a-z0-9-]{0,61}[a-z0-9])?$] *)
Definition labelRE (l : bytes) : bool :=
  (1 <=? Z.of_nat (length l)) && (Z.of_nat (length l) <=? 63) && forallb label_char l &&
  from_option label_end false (head l) && from_option label_end false (last l).

Definition ip_field (l : bytes) : bool :=
  (1 <=? Z.of_nat (length l)) && (Z.of_nat (length l) <=? 3) && forallb is_digit l && (value_of l <=? 255) &&
  negb ((2 <=? Z.of_nat (length l)) && bool_decide (head l = Some (byte_at 48))).

Definition is_ip (l : bytes) : bool :=
  let fields := split_all 46 l in (length fields =? 4)%nat && forallb ip_field fields.

Definition NormalizeDomain (input : string) : res string :=
  let s := ToLower input in
  fail_if ((253 <? str_len s) || negb (Contains s ".") || is_ip (s2b s)) ErrDomain;;
  fail_if (negb (forallb labelRE (split_all 46 (s2b s)))) ErrDomain;;
  Ok s.

Definition path_char (c : Ascii.ascii) : bool :=
  (code c =? 47) || (code c =? 46) || (code c =? 45) || (code c =? 95) || between 97 122 c || between 65 90 c || is_digit c.

(** An element [filepath.Clean] leaves as it is. *)
Definition clean_element (l : bytes) : bool :=
  negb (bool_decide (l = [])) && negb (bool_decide (l = s2b ".")) && negb (bool_decide (l = s2b "..")).

(** Absolute, clean, and of plain characters. *)
Definition safePath (p : string) : bool :=
  match s2b p with
  | c :: rest => (code c =? 47) && (bool_decide (rest = []) || forallb clean_element (split_all 47 rest)) &&
                 forallb path_char (s2b p)
  | [] => false
  end.

(** ** Domains *)

(** [dm_Origins]: a nil slice is [None]. *)
Record Domain : Type := mk_Domain {
  dm_Name : string;
  dm_Origins : option (list string);
  dm_CertPath : string;
  dm_KeyPath : string
}.

#[export] Instance Domain_eq_dec : EqDecision Domain.
Proof. solve_decision. Defined.

Definition nl : string := String (byte_at 10) "".
Definition dq : string := String (byte_at 34) "".

Definition lines (l : list string) : string := String.concat "" (map (fun s => s ++ nl)%string l).

Definition tls_lines (cert key : string) : string :=
  lines ["    listen 443 ssl;"; ("    ssl_certificate " ++ cert ++ ";"); ("    ssl_certificate_key " ++ key ++ ";");
         "    ssl_protocols TLSv1.2 TLSv1.3;"]%string.

Definition server_head : string := lines ["# Managed by domainctl. Do not edit manually."; "server {"; "    listen 80;"]%string.

Definition server_tail : string := lines
  [ "    client_max_body_size 10m;";
    "    location = /v1/ws {";
    "        proxy_pass http://127.0.0.1:8081;";
    "        proxy_http_version 1.1;";
    "        proxy_set_header Upgrade $http_upgrade;";
    ("        proxy_set_header Connection " ++ dq ++ "upgrade" ++ dq ++ ";");
    "        proxy_set_header Host $host;";
    "        proxy_set_header X-Real-IP $remote_addr;";
    "        proxy_set_header X-Forwarded-For $proxy_add_x_forwarded_for;";
    "        proxy_set_header X-Forwarded-Proto $scheme;";
    "        proxy_read_timeout 3600s;";
    "        proxy_send_timeout 3600s;";
    "    }";
    "    location / {";
    "        proxy_pass http://127.0.0.1:8080;";
    "        proxy_http_version 1.1;";
    "        proxy_set_header Host $host;";
    "        proxy_set_header X-Real-IP $remote_addr;";
    "        proxy_set_header X-Forwarded-For $proxy_add_x_forwarded_for;";
    "        proxy_set_header X-Forwarded-Proto $scheme;";
    "        proxy_read_timeout 60s;";
    "        proxy_send_timeout 60s;";
    "    }";
    "}" ]%string.

Definition RenderNginx (d : Domain) : res bytes :=
  n ← NormalizeDomain (dm_Name d);
  fail_if (negb (eqb (bool_decide (dm_CertPath d = ""%string)) (bool_decide (dm_KeyPath d = ""%string)))) ErrCertificatePair;;
  let tls := negb (bool_decide (dm_CertPath d = ""%string)) in
  fail_if (tls && (negb (safePath (dm_CertPath d)) || negb (safePath (dm_KeyPath d)))) ErrCertificatePath;;
  Ok (s2b (server_head ++ (if tls then tls_lines (dm_CertPath d) (dm_KeyPath d) else "") ++
           "    server_name " ++ n ++ ";" ++ nl ++ server_tail)%string).

(** ** The parser

    Positions count bytes from the start of the source. *)

Record token : Type := mk_token {
  tok_text : bytes;
  tok_start : nat;
  tok_end : nat
}.

(** [unicode.IsSpace] of a byte taken for a rune. *)
Definition byte_space (c : Ascii.ascii) : bool :=
  between 9 13 c || (code c =? 32) || (code c =? 133) || (code c =? 160).

Definition delimiter (c : Ascii.ascii) : bool := (code c =? 123) || (code c =? 125) || (code c =? 59).

Definition is_quote (c : Ascii.ascii) : bool := (code c =? 39) || (code c =? 34).

(** To the end of a comment; the newline stays. *)
Fixpoint skip_comment (i : nat) (src : bytes) : nat * bytes :=
  match src with
  | c :: rest => if code c =? 10 then (i, src) else skip_comment (S i) rest
  | [] => (i, [])
  end.

(** The text of a word, where it ends and what follows; [quote] is the open
    quote. *)
Fixpoint scan_word (quote : option Ascii.ascii) (i : nat) (src : bytes) : res (bytes * nat * bytes) :=
  match src with
  | [] => match quote with Some _ => Err ErrNginx | None => Ok ([], i, []) end
  | c :: rest =>
      if negb (bool_decide (is_Some quote)) && (byte_space c || delimiter c || (code c =? 35)) then Ok ([], i, src)
      else if code c =? 92 then
        match rest with
        | [] => Err ErrNginx
        | e :: rest => r ← scan_word quote (S (S i)) rest; Ok (e :: r.1.1, r.1.2, r.2)
        end
      else if is_quote c && bool_decide (quote = None) then scan_word (Some c) (S i) rest
      else if is_quote c && bool_decide (quote = Some c) then scan_word None (S i) rest
      else r ← scan_word quote (S i) rest; Ok (c :: r.1.1, r.1.2, r.2)
  end.

(** Every round takes at least one byte. *)
Fixpoint tokens (fuel : nat) (i : nat) (src : bytes) : res (list token) :=
  match fuel, src with
  | _, [] => Ok []
  | O, _ => Err ErrNginx
  | S fuel, c :: rest =>
      if byte_space c then tokens fuel (S i) rest
      else if code c =? 35 then let '(j, rest) := skip_comment i src in tokens fuel j rest
      else if delimiter c then ts ← tokens fuel (S i) rest; Ok (mk_token [c] i (S i) :: ts)
      else
        r ← scan_word None i src;
        ts ← tokens fuel r.1.2 r.2;
        Ok (mk_token r.1.1 i r.1.2 :: ts)
  end.

#[warnings="-register-all"]
Inductive directive : Type := mk_directive {
  dr_words : list bytes;
  dr_children : list directive;
  dr_start : nat;
  dr_end : nat
}.

Definition is_token (text : string) (t : token) : bool := bool_decide (tok_text t = s2b text).

(** Words up to a delimiter, which is compared by its text alone: a quoted
    delimiter is one too. *)
Fixpoint take_words (ts : list token) : list bytes * list token :=
  match ts with
  | t :: rest =>
      if is_token ";" t || is_token "{" t || is_token "}" t then ([], ts)
      else let '(ws, rest') := take_words rest in (tok_text t :: ws, rest')
  | [] => ([], [])
  end.

(** The directives, the end of the closing bracket and the tokens after it. *)
Fixpoint parse (fuel : nat) (nested : bool) (ts : list token) : res (list directive * nat * list token) :=
  match ts with
  | [] => if nested then Err ErrNginx else Ok ([], 0%nat, [])
  | t :: rest =>
      if is_token "}" t then if nested then Ok ([], tok_end t, rest) else Err ErrNginx
      else
        match fuel, take_words ts with
        | O, _ | _, ([], _) | _, (_, []) => Err ErrNginx
        | S fuel, (words, delim :: rest) =>
            if is_token "}" delim then Err ErrNginx
            else if is_token "{" delim then
              c ← parse fuel true rest;
              r ← parse fuel nested c.2;
              Ok (mk_directive words c.1.1 (tok_start t) c.1.2 :: r.1.1, r.1.2, r.2)
            else
              r ← parse fuel nested rest;
              Ok (mk_directive words [] (tok_start t) (tok_end delim) :: r.1.1, r.1.2, r.2)
        end
  end.

Definition parseNginx (src : bytes) : res (list directive) :=
  ts ← tokens (S (length src)) 0 src;
  r ← parse (S (length ts)) false ts;
  Ok r.1.1.

(** The directives in the order [walkDirectives] visits them. *)
Fixpoint walk (d : directive) : list directive := d :: concat (map walk (dr_children d)).

Definition walkDirectives (ds : list directive) : list directive := concat (map walk ds).

Definition word0 (d : directive) : bytes := default [] (head (dr_words d)).

Definition word_is (i : nat) (text : string) (d : directive) : bool := bool_decide (dr_words d !! i = Some (s2b text)).

Definition named (text : string) (d : directive) : bool := bool_decide (word0 d = s2b text).

Definition words_count (d : directive) : nat := length (dr_words d).

(** ** Taking a domain over *)

Definition server_words : list string :=
  [ "listen"; "server_name"; "ssl_certificate"; "ssl_certificate_key"; "ssl_protocols"; "ssl_session_cache";
    "ssl_session_timeout"; "client_max_body_size"; "location" ]%string.

Definition acme : string := "/.well-known/acme-challenge/".

Definition header_value (name : bytes) : option string :=
  if bool_decide (name = s2b "Host") then Some "$host"%string
  else if bool_decide (name = s2b "X-Real-IP") then Some "$remote_addr"%string
  else if bool_decide (name = s2b "X-Forwarded-For") then Some "$proxy_add_x_forwarded_for"%string
  else if bool_decide (name = s2b "X-Forwarded-Proto") then Some "$scheme"%string
  else if bool_decide (name = s2b "Upgrade") then Some "$http_upgrade"%string
  else if bool_decide (name = s2b "Connection") then Some "upgrade"%string
  else None.

Definition header_ok (d : directive) : bool :=
  match dr_words d with
  | [_; name; value] =>
      match header_value name with
      | Some want => bool_decide (value = s2b want) ||
          bool_decide (name = s2b "X-Forwarded-Proto") &&
          (bool_decide (value = s2b "http") || bool_decide (value = s2b "https"))
      | None => false
      end
  | _ => false
  end.

(** A directive of a location on [path] that the managed configuration has
    too. *)
Definition child_ok (path : bytes) (d : directive) : bool :=
  let ws := bool_decide (path = s2b "/v1/ws") in
  (if named "proxy_pass" d then true
   else if named "proxy_http_version" d then (words_count d =? 2)%nat && word_is 1 "1.1" d
   else if named "proxy_read_timeout" d || named "proxy_send_timeout" d then
     (words_count d =? 2)%nat && word_is 1 (if ws then "3600s" else "60s") d
   else if named "root" d || named "default_type" d then bool_decide (path = s2b acme)
   else if named "proxy_set_header" d then header_ok d
   else false) &&
  bool_decide (length (dr_children d) = 0%nat) &&
  (negb (named "proxy_pass" d) ||
   (words_count d =? 2)%nat && word_is 1 (if ws then "http://127.0.0.1:8081" else "http://127.0.0.1:8080") d).

Definition location_path (d : directive) : bytes := default [] (last (dr_words d)).

Definition location_ok (d : directive) : bool :=
  let path := location_path d in
  (bool_decide (path = s2b "/") || bool_decide (path = s2b "/v1/ws")) && forallb (child_ok path) (dr_children d).

(** The proxies of the API and of the sockets a location has. *)
Definition proxies (path : string) (d : directive) : bool :=
  named "location" d && bool_decide (location_path d = s2b path) && existsb (named "proxy_pass") (dr_children d).

Definition listen_ok (d : directive) : bool :=
  word_is 1 "80" d || word_is 1 "443" d || word_is 1 "[::]:80" d || word_is 1 "[::]:443" d.

(** One directive of the server, with the certificate found so far. *)
Definition import_directive (dom : Domain) (d : directive) : res Domain :=
  fail_if (negb (existsb (fun w => named w d) server_words)) ErrImport;;
  if named "listen" d then fail_if (negb (listen_ok d)) ErrImport;; Ok dom
  else if named "client_max_body_size" d then
    fail_if (negb ((words_count d =? 2)%nat && word_is 1 "10m" d)) ErrImport;; Ok dom
  else if named "ssl_certificate" d || named "ssl_certificate_key" d then
    match dr_words d with
    | [_; path] =>
        fail_if (negb (safePath (b2s path))) ErrImport;;
        if named "ssl_certificate" d then
          fail_if (negb (bool_decide (dm_CertPath dom = ""%string)) && negb (bool_decide (dm_CertPath dom = b2s path))) ErrImport;;
          Ok (mk_Domain (dm_Name dom) (dm_Origins dom) (b2s path) (dm_KeyPath dom))
        else Ok (mk_Domain (dm_Name dom) (dm_Origins dom) (dm_CertPath dom) (b2s path))
    | _ => Err ErrImport
    end
  else if named "location" d then fail_if (negb (location_ok d)) ErrImport;; Ok dom
  else Ok dom.

Fixpoint import_directives (dom : Domain) (ds : list directive) : res Domain :=
  match ds with
  | [] => Ok dom
  | d :: rest => dom ← import_directive dom d; import_directives dom rest
  end.

Record edit : Type := mk_edit {
  ed_start : nat;
  ed_end : nat;
  ed_text : bytes
}.

Definition server_names (server : directive) : list directive := List.filter (named "server_name") (dr_children server).

(** The last [server_name] that lists the name, and the other names of the
    server. *)
Definition import_target (name : bytes) (server : directive) : option directive :=
  last (List.filter (fun d => bool_decide (name ∈ tail (dr_words d))) (server_names server)).

Definition other_names (name : bytes) (server : directive) : list bytes :=
  List.filter (fun n => negb (bool_decide (n = name))) (concat (map (fun d => tail (dr_words d)) (server_names server))).

Definition join_words (ws : list bytes) : bytes := s2b (String.concat " " (map b2s ws)).

Fixpoint import_servers (name : bytes) (dom : Domain) (found : bool) (ds : list directive) : res (Domain * bool * list edit) :=
  match ds with
  | [] => Ok (dom, found, [])
  | server :: rest =>
      fail_if (negb (bool_decide (dr_words server = [s2b "server"]))) ErrImport;;
      match import_target name server with
      | None => import_servers name dom found rest
      | Some target =>
          dom ← import_directives dom (dr_children server);
          fail_if (negb (existsb (proxies "/") (dr_children server) && existsb (proxies "/v1/ws") (dr_children server))) ErrImport;;
          r ← import_servers name dom true rest;
          let e := match other_names name server with
            | [] => mk_edit (dr_start server) (dr_end server) []
            | names => mk_edit (dr_start target) (dr_end target) (s2b "server_name " ++ join_words names ++ s2b ";")
            end in
          Ok (r.1.1, r.1.2, e :: r.2)
      end
  end.

Definition apply_edit (out : bytes) (e : edit) : bytes := take (ed_start e) out ++ ed_text e ++ drop (ed_end e) out.

(** The later edit first. *)
Definition edit_after (x y : edit) : Prop := (ed_start y <= ed_start x)%nat.

#[export] Instance edit_after_dec x y : Decision (edit_after x y).
Proof. unfold edit_after. apply _. Defined.

Definition apply_edits (src : bytes) (edits : list edit) : bytes := fold_left apply_edit (merge_sort edit_after edits) src.

Definition ImportDomain (src : bytes) (name : string) : res (bytes * Domain) :=
  name ← NormalizeDomain name;
  ds ← parseNginx src;
  r ← import_servers (s2b name) (mk_Domain name (Some []) "" "") false ds;
  fail_if (negb r.1.2) ErrImport;;
  Ok (apply_edits src r.2, r.1.1).
