(* ===== verification/Domains.v ===== *)
(** * Managed domains

    [platform/domainops]: the domains a host serves and how a request changes
    them (model.go), and the engine that carries a change out (transaction.go,
    files.go): planning it from the files as they are, the journal, writing the
    files, and undoing them after a failure or a crash.

    The disk holds regular files; symbolic links, directories and the temporary
    files of [atomicWrite] and of the shadow check are left out.  The journal and
    the record of the last operation are kept as the values their JSON encodes.
    Every access to the disk and every command is an [op]; the argument [faults]
    says which of them fail, before or after they had their effect.  A run yields
    the worlds it passes through: a crash leaves one of them.

    Arguments: [url.Parse], [filepath.Match] and [filepath.Join], the text of
    JSON, SHA-256, the check of a certificate, and the group of the service. *)

From S2P Require Import Prelude GoStrings Identity Draws Nginx.

Definition ErrOrigin : error := Sentinel "domainops: origin".
Definition ErrState : error := Sentinel "domainops: state".
Definition ErrOperation : error := Sentinel "domainops: operation".
Definition ErrPending : error := Sentinel "domainops: pending transaction".
Definition ErrNotExist : error := Sentinel "os.ErrNotExist".
Definition ErrIO : error := Sentinel "input/output".
Definition ErrInclude : error := Sentinel "domainops: include".
Definition ErrConflict : error := Sentinel "domainops: conflict".
Definition ErrChanged : error := Sentinel "domainops: changed outside".
Definition ErrRollback : error := Sentinel "domainops: rollback".
Definition ErrCapability : error := Sentinel "domainops: capability".

(** ** model.go *)

Record Request : Type := mk_Request {
  dr_Operation : string;
  dr_Domain : string;
  dr_OldDomain : string;
  dr_Origins : list string;
  dr_CertPath : string;
  dr_KeyPath : string;
  dr_Source : string;
  dr_DryRun : bool
}.

Record State : Type := mk_State {
  st_Version : Z;
  st_Domains : gmap string Domain
}.

#[export] Instance State_eq_dec : EqDecision State.
Proof. solve_decision. Defined.

Definition sorted_set (l : list string) : list string := merge_sort str_le (remove_dups l).

Definition origins_of (d : Domain) : list string := default [] (dm_Origins d).

Definition ManagedOrigins (s : State) : list string :=
  sorted_set (concat (map (fun kv => origins_of kv.2) (map_to_list (st_Domains s)))).

(** A copy of a slice: an empty one is nil. *)
Definition copied (d : Domain) : Domain :=
  mk_Domain (dm_Name d) (match dm_Origins d with Some [] => None | o => o end) (dm_CertPath d) (dm_KeyPath d).

Definition new_domain (name : string) (origins : option (list string)) : Domain := mk_Domain name origins "" "".

Section model.
Context (url_Parse : string -> option url).

Definition JoinHostPort (host port : string) : string := (host ++ ":" ++ port)%string.

Definition NormalizeOrigin (input : string) : res string :=
  u ← of_option ErrOrigin (url_Parse input);
  fail_if (negb (bool_decide (url_Scheme u ∈ ["http"; "https"]%string)) || url_User u ||
           negb (bool_decide (url_Path u = ""%string)) || negb (bool_decide (url_RawQuery u = ""%string)) ||
           url_ForceQuery u || negb (bool_decide (url_Fragment u = ""%string)) || Contains input "#") ErrOrigin;;
  host ← NormalizeDomain (url_Hostname u);
  host ← (if negb (bool_decide (url_Port u = ""%string)) then
            n ← of_option ErrOrigin (ParseInt (url_Port u));
            fail_if ((n <? 1) || (65535 <? n)) ErrOrigin;;
            Ok (JoinHostPort host (url_Port u))
          else
            fail_if (bool_decide (last (s2b (url_Host u)) = Some (byte_at 58))) ErrOrigin;;
            Ok host);
  Ok (url_Scheme u ++ "://" ++ host)%string.

Fixpoint normalize_origins (l : list string) : res (list string) :=
  match l with
  | [] => Ok []
  | o :: rest => v ← NormalizeOrigin o; vs ← normalize_origins rest; Ok (v :: vs)
  end.

Definition with_request (r : Request) (d : Domain) : res Domain :=
  more ← normalize_origins (dr_Origins r);
  let origins := Some (sorted_set (origins_of d ++ more)) in
  if bool_decide (dr_CertPath r = ""%string) then Ok (mk_Domain (dm_Name d) origins (dm_CertPath d) (dm_KeyPath d))
  else Ok (mk_Domain (dm_Name d) origins (dr_CertPath r) (dr_KeyPath r)).

Definition NextState (s : State) (r : Request) : res State :=
  fail_if (negb (st_Version s =? 1)) ErrState;;
  name ← NormalizeDomain (dr_Domain r);
  fail_if (negb (eqb (bool_decide (dr_CertPath r = ""%string)) (bool_decide (dr_KeyPath r = ""%string)))) ErrCertificatePair;;
  let out := copied <$> st_Domains s in
  let d := out !! name in
  if bool_decide (dr_Operation r = "remove"%string) then
    fail_if (negb (bool_decide (is_Some d))) ErrOperation;;
    Ok (mk_State 1 (delete name out))
  else
    base ← (if bool_decide (dr_Operation r = "replace"%string) then
              old ← NormalizeDomain (dr_OldDomain r);
              fail_if (bool_decide (old = name)) ErrOperation;;
              previous ← of_option ErrOperation (out !! old);
              fail_if (bool_decide (is_Some d)) ErrOperation;;
              Ok (new_domain name (dm_Origins previous), delete old out)
            else if bool_decide (dr_Operation r = "certificate"%string) then
              d ← of_option ErrOperation d;
              fail_if (bool_decide (dr_CertPath r = ""%string)) ErrOperation;;
              Ok (d, out)
            else if bool_decide (dr_Operation r ∈ ["add"; "import"]%string) then
              Ok (default (new_domain name None) d, out)
            else Err ErrOperation);
    d ← with_request r base.1;
    Ok (mk_State 1 (<[name := d]> base.2)).

End model.

(** ** Paths *)

Definition nginxMain : string := "/www/server/nginx/conf/nginx.conf".
Definition vhostDir : string := "/www/server/panel/vhost/nginx".
Definition stateDir : string := "/etc/block-beast/domains".
Definition statePath : string := "/etc/block-beast/domains/state.json".
Definition originsPath : string := "/etc/block-beast/managed-origins.json".
Definition envPath : string := "/etc/block-beast/block-beast.env".
Definition capabilityPath : string := "/opt/block-beast/current/domain-management-v1".
Definition nginxBinary : string := "/www/server/nginx/sbin/nginx".
Definition supervisorBinary : string := "/www/server/panel/pyenv/bin/supervisorctl".

Definition host_config (n : string) : string := (vhostDir ++ "/block-beast-domain-" ++ n ++ ".conf")%string.

(** Everything before the last slash. *)
Definition Dir (p : string) : string :=
  match split_once 47 (rev (s2b p)) with
  | (_, Some []) => "/"
  | (_, Some dir) => b2s (rev dir)
  | (_, None) => "."
  end%string.

Definition has_suffix (s p : string) : bool :=
  (str_len p <=? str_len s) && bool_decide (String.substring (String.length s - String.length p) (String.length p) s = p).

(** ** The disk *)

Record file : Type := mk_file {
  fl_data : bytes;
  fl_mode : Z;
  fl_owner : Z * Z
}.

Record snapshot : Type := mk_snapshot {
  sn_Path : string;
  sn_file : option file
}.

#[export] Instance file_eq_dec : EqDecision file.
Proof. solve_decision. Defined.

#[export] Instance snapshot_eq_dec : EqDecision snapshot.
Proof. solve_decision. Defined.

(** A change of a path: new bytes, or its removal. *)
Abbreviation change := (option bytes).

Record journal : Type := mk_journal {
  jr_Expected : gmap string change;
  jr_Touched : list string;
  jr_Live : bool;
  jr_Phase : string;
  jr_Snapshots : list snapshot;
  jr_Restart : bool;
  jr_Old : State;
  jr_New : State
}.

Definition set_touched (l : list string) (j : journal) : journal :=
  mk_journal (jr_Expected j) l (jr_Live j) (jr_Phase j) (jr_Snapshots j) (jr_Restart j) (jr_Old j) (jr_New j).

Definition set_phase (live : bool) (phase : string) (j : journal) : journal :=
  mk_journal (jr_Expected j) (jr_Touched j) live phase (jr_Snapshots j) (jr_Restart j) (jr_Old j) (jr_New j).

(** [w_pending] and [w_last] are pending.json and last-operation.json; [w_mem]
    is the variable [j] of the process. *)
Record world : Type := mk_world {
  w_files : gmap string file;
  w_pending : option journal;
  w_last : option journal;
  w_mem : journal;
  w_ops : nat
}.

Definition set_files (f : gmap string file) (w : world) : world := mk_world f (w_pending w) (w_last w) (w_mem w) (w_ops w).
Definition set_pending (p : option journal) (w : world) : world := mk_world (w_files w) p (w_last w) (w_mem w) (w_ops w).
Definition set_last (j : journal) (w : world) : world := mk_world (w_files w) (w_pending w) (Some j) (w_mem w) (w_ops w).
Definition set_mem (j : journal) (w : world) : world := mk_world (w_files w) (w_pending w) (w_last w) j (w_ops w).
Definition next_op (w : world) : world := mk_world (w_files w) (w_pending w) (w_last w) (w_mem w) (S (w_ops w)).

Definition content_of (files : gmap string file) (p : string) : option bytes := fl_data <$> files !! p.

Definition content (w : world) : string -> option bytes := content_of (w_files w).

Inductive op : Type :=
| OLock
| ORead (what : string)
| OWrite (p : string)
| ORemove (p : string)
| OChown (p : string)
| OJournal
| OUnjournal
| OLast
| OStage
| OCommand (name : string) (args : list string)
| OProbe (d : Domain).

(** [refused]: it fails and nothing happened; [broken]: it fails after it
    happened. *)
Inductive fault : Type := fine | refused | broken.

(** ** Running *)

Definition Sys (A : Type) : Type := world -> list world * res A * world.

#[export] Instance Sys_ret : MRet Sys := fun A a w => ([], Ok a, w).

#[export] Instance Sys_bind : MBind Sys := fun A B f m w =>
  match m w with
  | (seen, Ok a, w') => let '(seen', r, w'') := f a w' in (seen ++ seen', r, w'')
  | (seen, Err e, w') => (seen, Err e, w')
  end.

Definition sys_fail {A} (e : error) : Sys A := fun w => ([], Err e, w).
Definition sys_lift {A} (m : res A) : Sys A := fun w => ([], m, w).
Definition sys_if (b : bool) (e : error) : Sys () := sys_lift (fail_if b e).
Definition sys_gets {A} (f : world -> A) : Sys A := fun w => ([], Ok (f w), w).
Definition sys_set (f : world -> world) : Sys () := fun w => ([], Ok tt, f w).

(** The outcome as a value. *)
Definition attempt {A} (m : Sys A) : Sys (res A) := fun w => let '(seen, r, w') := m w in (seen, Ok r, w').

Definition attempted (m : Sys ()) : Sys bool := r ← attempt m; mret (match r with Ok _ => true | Err _ => false end).

Section engine.
Context (root : string) (faults : nat -> op -> fault).
Context (url_Parse : string -> option url) (Match : string -> string -> option bool) (Join : string -> string -> string).
Context (MarshalState : State -> bytes) (UnmarshalState : bytes -> res State) (MarshalOrigins : list string -> bytes).
Context (sha256_hex16 : bytes -> string) (ValidateCertificate : string -> bytes -> bytes -> bool) (group : res Z).

(** One access; what it does may fail by itself. *)
Definition step {A} (o : op) (f : world -> res (A * world)) : Sys A := fun w =>
  let n := next_op w in
  match faults (w_ops w) o, f n with
  | refused, _ => ([n], Err ErrIO, n)
  | _, Err e => ([n], Err e, n)
  | broken, Ok (_, w') => ([w'], Err ErrIO, w')
  | fine, Ok (a, w') => ([w'], Ok a, w')
  end.

Definition act (o : op) (f : world -> world) : Sys () := step o (fun w => Ok (tt, f w)).

Definition reading {A} (what : string) (f : world -> res A) : Sys A := step (ORead what) (fun w => a ← f w; Ok (a, w)).

Definition epath (p : string) : string := if bool_decide (root = "/"%string) then p else (root ++ p)%string.

Definition configPath (n : string) : string := epath (host_config n).

(** *** files.go *)

Definition capture (p : string) : Sys snapshot := reading p (fun w => Ok (mk_snapshot p (w_files w !! p))).

Definition atomicWrite (p : string) (data : bytes) (mode : Z) : Sys () :=
  act (OWrite p) (fun w => set_files (<[p := mk_file data mode (0, 0)]> (w_files w)) w).

Definition remove (p : string) : Sys () := act (ORemove p) (fun w => set_files (delete p (w_files w)) w).

Definition with_owner (owner : Z * Z) (f : file) : file := mk_file (fl_data f) (fl_mode f) owner.
Definition with_mode (mode : Z) (f : file) : file := mk_file (fl_data f) mode (fl_owner f).

Definition chown (p : string) (owner : Z * Z) : Sys () :=
  act (OChown p) (fun w => set_files (alter (with_owner owner) p (w_files w)) w).

Definition chmod (p : string) (mode : Z) : Sys () :=
  act (OChown p) (fun w => set_files (alter (with_mode mode) p (w_files w)) w).

Definition restore (s : snapshot) : Sys () :=
  match sn_file s with
  | None => remove (sn_Path s)
  | Some f => atomicWrite (sn_Path s) (fl_data f) (fl_mode f);; chown (sn_Path s) (fl_owner f)
  end.

(** *** Commands *)

Definition run (name : string) (args : list string) : Sys () := act (OCommand name args) (fun w => w).

Definition reload : Sys () :=
  run nginxBinary ["-t"; "-c"; epath nginxMain]%string;;
  run nginxBinary ["-s"; "reload"; "-c"; epath nginxMain]%string.

Definition restart : Sys () := run supervisorBinary ["restart"; "block-beast-api"; "block-beast-realtime"]%string.

Definition Probe (d : Domain) : Sys () := act (OProbe d) (fun w => w).

(** *** The journal *)

Definition write_journal : Sys () := act OJournal (fun w => set_pending (Some (w_mem w)) w).
Definition remove_journal : Sys () :=
  step OUnjournal (fun w => match w_pending w with Some _ => Ok (tt, set_pending None w) | None => Err ErrNotExist end).

Definition same_content (x y : option file) : bool := bool_decide ((fl_data <$> x) = (fl_data <$> y)).

(** Nothing is written when the file is as it was; a file that is neither as it
    was nor as expected is left alone. *)
Definition rollback_one (j : journal) (s : snapshot) : Sys bool :=
  if negb (bool_decide (sn_Path s ∈ jr_Touched j)) then mret true
  else
    c ← attempt (capture (sn_Path s));
    match c with
    | Err _ => mret false
    | Ok current =>
        if same_content (sn_file current) (sn_file s) then mret true
        else
          match jr_Expected j !! sn_Path s with
          | None => mret false
          | Some expected =>
              if negb (bool_decide ((fl_data <$> sn_file current) = expected)) then mret false
              else attempted (restore s)
          end
    end.

(** Every element, whatever the others answer. *)
Fixpoint each {A} (f : A -> Sys bool) (l : list A) : Sys bool :=
  match l with
  | [] => mret true
  | x :: rest => b ← f x; c ← each f rest; mret (b && c)
  end.

Definition domains_of (s : State) : list Domain := map snd (map_to_list (st_Domains s)).

Definition rollback (j : journal) : Sys () :=
  ok ← each (rollback_one j) (jr_Snapshots j);
  ok ← (if ok && jr_Live j then
          b ← attempted reload;
          c ← (if jr_Restart j then attempted restart else mret true);
          mret (b && c)
        else mret ok);
  ok ← (if ok && jr_Live j then each (fun d => attempted (Probe d)) (domains_of (jr_Old j)) else mret ok);
  if negb ok then sys_fail ErrRollback else remove_journal.

(** What [Apply] does first, under the lock. *)
Definition recover : Sys () :=
  p ← reading "pending.json" (fun w => Ok (w_pending w));
  match p with
  | None => mret ()
  | Some pending => if bool_decide (jr_Phase pending = "committed"%string) then remove_journal else rollback pending
  end.

(** *** Planning: what is read *)

Definition data_of (files : gmap string file) (p : string) : res bytes :=
  f ← of_option ErrNotExist (files !! p); Ok (fl_data f).

Definition valid_entry (kv : string * Domain) : bool :=
  bool_decide (NormalizeDomain kv.1 = Ok kv.1) && bool_decide (dm_Name kv.2 = kv.1) &&
  match RenderNginx kv.2 with Ok _ => true | Err _ => false end.

Definition Load (files : gmap string file) : res State :=
  match files !! epath statePath with
  | None => Ok (mk_State 1 ∅)
  | Some f =>
      s ← UnmarshalState (fl_data f);
      fail_if (negb (st_Version s =? 1)) ErrState;;
      fail_if (negb (forallb valid_entry (map_to_list (st_Domains s)))) ErrState;;
      Ok s
  end.

Definition includes (ds : list directive) : list directive := List.filter (named "include") (walkDirectives ds).

Definition bytes_any (chars : list Z) (l : bytes) : bool := existsb (fun c => bool_decide (code c ∈ chars)) l.

Definition is_abs (l : bytes) : bool := from_option (fun c => code c =? 47) false (head l).

(** An include names files relative to the main configuration. *)
Definition include_pattern (w : bytes) : string :=
  if is_abs w then b2s w else Join (Dir nginxMain) (b2s w).

Definition Glob (files : gmap string file) (pattern : string) : res (list string) :=
  let names := merge_sort str_le (map fst (map_to_list files)) in
  if existsb (fun n => bool_decide (Match pattern n = None)) names then Err ErrInclude
  else Ok (List.filter (fun n => bool_decide (Match pattern n = Some true)) names).

Definition includeMatches (files : gmap string file) (d : directive) : res (list string) :=
  match dr_words d with
  | [_; w] =>
      fail_if (bytes_any [36; 10; 13] w) ErrInclude;;
      let p := include_pattern w in
      matches ← Glob files (epath p);
      fail_if (bool_decide (matches = []) && negb (bytes_any [42; 63; 91] (s2b p))) ErrInclude;;
      Ok matches
  | _ => Err ErrInclude
  end.

(** The active files, depth first; a path includes no path above it.  Every
    level opens another file, so that their number bounds the depth. *)
Fixpoint visit (fuel : nat) (files : gmap string file) (active : list string) (seen : gmap string bytes) (p : string)
    : res (gmap string bytes) :=
  match fuel with
  | O => Err ErrInclude
  | S fuel =>
      if bool_decide (p ∈ active) then Err ErrInclude
      else if bool_decide (is_Some (seen !! p)) then Ok seen
      else
        b ← data_of files p;
        ds ← parseNginx b;
        fold_left (fun acc d =>
          seen ← acc;
          matches ← includeMatches files d;
          fold_left (fun acc q => seen ← acc; visit fuel files (p :: active) seen q) matches (Ok seen))
          (includes ds) (Ok (<[p := b]> seen))
  end.

Definition configGraph (files : gmap string file) : res (gmap string bytes) :=
  visit (S (S (size files))) files [] ∅ (epath nginxMain).

Definition names_domain (domain : string) (d : directive) : bool :=
  named "server_name" d && existsb (fun n => EqualFold (b2s n) domain) (tail (dr_words d)).

(** The files in which the domain may be named already. *)
Definition may_name (s : State) (r : Request) (p : string) : bool :=
  bool_decide (p = configPath (dr_Domain r)) && bool_decide (is_Some (st_Domains s !! dr_Domain r)) ||
  bool_decide (dr_Operation r = "import"%string) && bool_decide (p = epath (dr_Source r)).

Definition conflicting (s : State) (r : Request) (pb : string * bytes) : bool :=
  match parseNginx pb.2 with
  | Err _ => true
  | Ok ds => existsb (names_domain (dr_Domain r)) (walkDirectives ds) && negb (may_name s r pb.1)
  end.

Definition as_rendered (files : gmap string file) (d : Domain) : bool :=
  bool_decide (RenderNginx d = data_of files (configPath (dm_Name d))) &&
  match RenderNginx d with Ok _ => true | Err _ => false end.

Definition checkConflicts (files : gmap string file) (graph : gmap string bytes) (s : State) (r : Request) : res () :=
  fail_if (existsb (conflicting s r) (map_to_list graph)) ErrConflict;;
  fail_if (negb (forallb (as_rendered files) (domains_of s))) ErrChanged.

(** The certificate goes under a name made of its digest. *)
Definition prepareCertificate (files : gmap string file) (r : Request) : res (Request * list (string * bytes)) :=
  if bool_decide (dr_CertPath r = ""%string) && bool_decide (dr_KeyPath r = ""%string) then Ok (r, [])
  else
    fail_if (bool_decide (dr_CertPath r = ""%string) || bool_decide (dr_KeyPath r = ""%string)) ErrCertificatePair;;
    cert ← data_of files (epath (dr_CertPath r));
    key ← data_of files (epath (dr_KeyPath r));
    fail_if ((1048576 <? Z.of_nat (length cert)) || (1048576 <? Z.of_nat (length key))) ErrCertificatePath;;
    fail_if (negb (ValidateCertificate (dr_Domain r) cert key)) ErrCertificatePath;;
    let base := (stateDir ++ "/certs/" ++ sha256_hex16 (cert ++ key))%string in
    let certPath := (base ++ "/fullchain.pem")%string in
    let keyPath := (base ++ "/privkey.pem")%string in
    Ok (mk_Request (dr_Operation r) (dr_Domain r) (dr_OldDomain r) (dr_Origins r) certPath keyPath (dr_Source r) (dr_DryRun r),
        [(epath certPath, cert); (epath keyPath, key)]).

Definition set_certificate (cert key : string) (r : Request) : Request :=
  mk_Request (dr_Operation r) (dr_Domain r) (dr_OldDomain r) (dr_Origins r) cert key (dr_Source r) (dr_DryRun r).

(** A slice without bytes is nil, and a nil change removes the file. *)
Definition slice_change (b : bytes) : change := match b with [] => None | _ => Some b end.

Definition import_source (graph : gmap string bytes) (r : Request) : res (Request * gmap string change) :=
  if bool_decide (dr_Operation r = "import"%string) then
    fail_if (negb (safePath (dr_Source r)) || negb (bool_decide (Dir (dr_Source r) = vhostDir))) ErrImport;;
    b ← of_option ErrImport (graph !! epath (dr_Source r));
    i ← ImportDomain b (dr_Domain r);
    Ok ((if bool_decide (dr_CertPath r = ""%string) then set_certificate (dm_CertPath i.2) (dm_KeyPath i.2) r else r),
        {[ epath (dr_Source r) := slice_change i.1 ]})
  else Ok (r, ∅).

Definition certificate_change (files : gmap string file) (changes : gmap string change) (pb : string * bytes) : gmap string change :=
  if bool_decide (content_of files pb.1 = Some pb.2) then changes else <[pb.1 := Some pb.2]> changes.

Record plan : Type := mk_plan {
  pl_Request : Request;
  pl_before : State;
  pl_after : State;
  pl_changes : gmap string change;
  pl_certs : list (string * bytes);
  pl_restart : bool;
  pl_graph : gmap string bytes
}.

Fixpoint render_domains (ds : list (string * Domain)) (changes : gmap string change) : res (gmap string change) :=
  match ds with
  | [] => Ok changes
  | (n, d) :: rest => b ← RenderNginx d; render_domains rest (<[configPath n := Some b]> changes)
  end.

(** The configurations of the domains that are no longer managed. *)
Definition drop_domains (before after : State) (changes : gmap string change) : gmap string change :=
  foldr (fun n acc => <[configPath n := None]> acc) changes
    (List.filter (fun n => bool_decide (st_Domains after !! n = None)) (map fst (map_to_list (st_Domains before)))).

Definition managed_line (line : bytes) : bool :=
  let trim := TrimSpace (b2s line) in
  HasPrefix trim "MANAGED_ORIGINS_FILE=" || HasPrefix trim "export MANAGED_ORIGINS_FILE=".

(** strings.Join(lines, "\n") *)
Fixpoint join_lines (l : list bytes) : bytes :=
  match l with
  | [] => []
  | [x] => x
  | x :: rest => x ++ byte_at 10 :: join_lines rest
  end.

Definition env_with_origins (env : bytes) : bytes :=
  join_lines (List.filter (fun l => negb (managed_line l)) (split_all 10 env) ++
              [s2b ("MANAGED_ORIGINS_FILE=" ++ originsPath); []]).

Definition origins_change (files : gmap string file) (after : State) (changes : gmap string change) : res (gmap string change) :=
  fail_if (negb (bool_decide (data_of files (epath capabilityPath) = Ok (s2b ("1" ++ nl))))) ErrCapability;;
  env ← data_of files (epath envPath);
  Ok (<[epath envPath := Some (env_with_origins env)]>
      (<[epath originsPath := Some (MarshalOrigins (ManagedOrigins after))]> changes)).

(** Nothing to do is no plan. *)
Definition plan_of (files : gmap string file) (r : Request) : res (option plan) :=
  before ← Load files;
  graph ← configGraph files;
  checkConflicts files graph before r;;
  i ← import_source graph r;
  c ← prepareCertificate files i.1;
  let '(r, certs) := c in
  let changes := fold_left (certificate_change files) certs i.2 in
  after ← NextState url_Parse before r;
  if bool_decide (before = after) && bool_decide (changes = ∅) then Ok None
  else
    changes ← render_domains (map_to_list (st_Domains after)) changes;
    let changes := drop_domains before after changes in
    let restarts := negb (bool_decide (ManagedOrigins before = ManagedOrigins after)) in
    changes ← (if restarts then origins_change files after changes else Ok changes);
    Ok (Some (mk_plan r before after (<[epath statePath := Some (MarshalState after)]> changes) certs restarts graph)).

(** The main configuration picks the new file up. *)
Definition selected (pl : plan) : bool :=
  existsb (fun pb =>
    match parseNginx pb.2 with
    | Err _ => false
    | Ok ds => existsb (fun d =>
        match dr_words d with
        | [_; w] => bool_decide (Match (include_pattern w) (host_config (dr_Domain (pl_Request pl))) = Some true)
        | _ => false
        end) (includes ds)
    end) (map_to_list (pl_graph pl)).

(** *** The shadow check *)

Section shadow.
Context (tmp : string).

Definition shadowed (pl : plan) : gmap string bytes :=
  foldr (fun pc acc =>
    if has_suffix pc.1 ".conf" then
      match pc.2 with Some b => <[pc.1 := b]> acc | None => delete pc.1 acc end
    else acc) (pl_graph pl) (map_to_list (pl_changes pl)).

Definition staged_name (i : nat) : string := (tmp ++ "/config-" ++ FormatInt (Z.of_nat i) ++ ".conf")%string.

Definition staged (paths : list string) (p : string) : string :=
  match list_find (fun q => q = p) paths with Some (i, _) => staged_name i | None => "" end.

Definition include_edit (paths : list string) (d : directive) : res edit :=
  match dr_words d with
  | [_; w] =>
      let pattern := epath (include_pattern w) in
      fail_if (existsb (fun p => bool_decide (Match pattern p = None)) paths) ErrInclude;;
      let chosen := List.filter (fun p => bool_decide (Match pattern p = Some true)) paths in
      Ok (mk_edit (dr_start d) (dr_end d)
            (join_lines (map (fun p => s2b ("include " ++ staged paths p ++ ";")%string) chosen)))
  | _ => Err ErrInclude
  end.

Definition shadow_file (paths : list string) (pb : string * bytes) : res (string * bytes) :=
  ds ← parseNginx pb.2;
  edits ← mapM (include_edit paths) (includes ds);
  Ok (staged paths pb.1, apply_edits pb.2 edits).

Definition shadowConfig (pl : plan) : res (list (string * bytes) * string) :=
  let files := shadowed pl in
  let paths := merge_sort str_le (map fst (map_to_list files)) in
  out ← mapM (fun p => shadow_file paths (p, default [] (files !! p))) paths;
  Ok (out, staged paths (epath nginxMain)).

(** *** Apply *)

Definition touch (p : string) : Sys () :=
  j ← sys_gets w_mem;
  if bool_decide (p ∈ jr_Touched j) then mret ()
  else
    sys_set (set_mem (set_touched (jr_Touched j ++ [p]) j));;
    write_journal.

Definition set_journal (live : bool) (phase : string) : Sys () :=
  j ← sys_gets w_mem;
  sys_set (set_mem (set_phase live phase j));;
  write_journal.

Fixpoint every {A} (f : A -> Sys ()) (l : list A) : Sys () :=
  match l with
  | [] => mret ()
  | x :: rest => f x;; every f rest
  end.

Fixpoint captures (keys : list string) : Sys (list snapshot) :=
  match keys with
  | [] => mret []
  | p :: rest => s ← capture p; l ← captures rest; mret (s :: l)
  end.

Definition unchanged (certs : list (string * bytes)) (s : snapshot) : Sys () :=
  if bool_decide (sn_Path s ∈ certs.*1) then mret ()
  else
    c ← attempt (capture (sn_Path s));
    sys_if (negb (bool_decide (c = Ok s))) ErrChanged.

(** The mode of a new file. *)
Definition mode_of (p : string) : Sys Z :=
  if bool_decide (p = epath envPath) then
    reading p (fun w => f ← of_option ErrNotExist (w_files w !! p); Ok (fl_mode f))
  else mret (if has_suffix p ".conf" then 420 else 384).

Definition keep_owner (p : string) (s : snapshot) : Sys () :=
  match sn_file s with
  | Some f => if bool_decide (sn_Path s = p) then chown p (fl_owner f) else mret ()
  | None => mret ()
  end.

Definition writeChange (p : string) (c : change) : Sys () :=
  touch p;;
  match c with
  | None => remove p
  | Some b =>
      mode ← mode_of p;
      atomicWrite p b mode;;
      j ← sys_gets w_mem;
      every (keep_owner p) (jr_Snapshots j);;
      if bool_decide (p = epath originsPath) && bool_decide (root = "/"%string) then
        gid ← sys_lift group;
        chown p (0, gid);;
        chmod p 416
      else mret ()
  end.

Definition change_of (pl : plan) (p : string) : change := default None (pl_changes pl !! p).

(** The state comes last, and the domain that is replaced after the new one
    answers. *)
Definition deferred (pl : plan) (p : string) : bool :=
  bool_decide (p = epath statePath) ||
  bool_decide (dr_Operation (pl_Request pl) = "replace"%string) && bool_decide (p = configPath (dr_OldDomain (pl_Request pl))).

Definition stage (pl : plan) : Sys () :=
  act OStage (fun w => w);;
  candidate ← sys_lift (shadowConfig pl);
  act OStage (fun w => w);;
  run nginxBinary ["-t"; "-c"; candidate.2]%string.

Definition apply_body (pl : plan) (keys : list string) : Sys () :=
  every (fun pb => touch pb.1;; atomicWrite pb.1 pb.2 384) (pl_certs pl);;
  stage pl;;
  snaps ← sys_gets (fun w => jr_Snapshots (w_mem w));
  every (unchanged (pl_certs pl)) snaps;;
  every (fun p => if deferred pl p then mret () else writeChange p (change_of pl p)) keys;;
  set_journal true "applied";;
  reload;;
  (if pl_restart pl then restart else mret ());;
  every Probe (domains_of (pl_after pl));;
  (if bool_decide (dr_Operation (pl_Request pl) = "replace"%string) then
     writeChange (configPath (dr_OldDomain (pl_Request pl))) None;; reload
   else mret ());;
  set_journal true "verified";;
  writeChange (epath statePath) (change_of pl (epath statePath));;
  set_journal true "committed";;
  act OLast (fun w => set_last (w_mem w) w);;
  remove_journal.

(** The deferred rollback, with the journal as the process has it. *)
Definition or_rollback (body : Sys ()) : Sys () :=
  r ← attempt body;
  match r with
  | Ok _ => mret ()
  | Err e =>
      j ← sys_gets w_mem;
      attempt (rollback j);;
      sys_fail e
  end.

Definition commit (pl : plan) : Sys () :=
  let keys := merge_sort str_le (map fst (map_to_list (pl_changes pl))) in
  snaps ← captures keys;
  sys_set (set_mem (mk_journal (pl_changes pl) [] false "prepared" snaps (pl_restart pl) (pl_before pl) (pl_after pl)));;
  write_journal;;
  or_rollback (apply_body pl keys).

Definition normalized (r : Request) : res Request :=
  domain ← NormalizeDomain (dr_Domain r);
  old ← (if bool_decide (dr_Operation r = "replace"%string) then NormalizeDomain (dr_OldDomain r) else Ok (dr_OldDomain r));
  Ok (mk_Request (dr_Operation r) domain old (dr_Origins r) (dr_CertPath r) (dr_KeyPath r) (dr_Source r) (dr_DryRun r)).

Definition Apply (r : Request) : Sys () :=
  r ← sys_lift (normalized r);
  (if dr_DryRun r then
     p ← reading "pending.json" (fun w => Ok (w_pending w));
     sys_if (bool_decide (is_Some p)) ErrPending
   else act OLock (fun w => w);; recover);;
  pl ← reading "plan" (fun w => plan_of (w_files w) r);
  match pl with
  | None => mret ()
  | Some pl =>
      if dr_DryRun r then mret ()
      else
        sys_if (negb (selected pl)) ErrInclude;;
        commit pl
  end.

End shadow.
End engine.
