(* ===== verification/DomainsJournal.v ===== *)
(** * Managed domains: the journal

    Runs of the engine, and what the journal makes of a change: from the files
    as they were, through files of both kinds, to the files as planned; rolling
    back from anywhere before the commit, and going forward to it. *)

From S2P Require Import Prelude GoStrings Identity Draws Nginx Domains.

(** ** Runs *)

(** From [P]: every world passed through satisfies [V]; a success leads to [Q],
    a failure to [E]. *)
Definition triple {A} (V : world -> Prop) (P : world -> Prop) (m : Sys A) (Q : A -> world -> Prop) (E : world -> Prop) : Prop :=
  forall w, P w -> let '(seen, r, w') := m w in
    Forall V seen /\ match r with Ok a => Q a w' | Err _ => E w' end.

Section triples.
Context (V : world -> Prop).

Lemma triple_ret {A} (a : A) P (Q : A -> world -> Prop) E : (forall w, P w -> Q a w) -> triple V P (mret a) Q E.
Proof. intros HQ w HP. split; [done|by apply HQ]. Qed.

Lemma triple_bind {A B} (m : Sys A) (f : A -> Sys B) P R Q E :
  triple V P m R E -> (forall a, triple V (R a) (f a) Q E) -> triple V P (m ≫= f) Q E.
Proof.
  intros Hm Hf w HP. unfold mbind, Sys_bind. specialize (Hm w HP). destruct (m w) as [[seen [a|e]] w']; [|done].
  destruct Hm as [Hs HR]. specialize (Hf a w' HR). destruct (f a w') as [[seen' r] w'']. destruct Hf as [Hs' Hr].
  split; [by apply Forall_app|done].
Qed.

Lemma triple_lift {A} (m : res A) P (Q : A -> world -> Prop) (E : world -> Prop) :
  (forall a w, m = Ok a -> P w -> Q a w) -> (forall e w, m = Err e -> P w -> E w) -> triple V P (sys_lift m) Q E.
Proof. intros HQ HE w HP. split; [done|]. destruct m as [a|e]; [by apply HQ|by eapply HE]. Qed.

Lemma triple_gets {A} (f : world -> A) P (Q : A -> world -> Prop) E : (forall w, P w -> Q (f w) w) -> triple V P (sys_gets f) Q E.
Proof. intros HQ w HP. split; [done|by apply HQ]. Qed.

Lemma triple_set (f : world -> world) P (Q : () -> world -> Prop) E : (forall w, P w -> Q tt (f w)) -> triple V P (sys_set f) Q E.
Proof. intros HQ w HP. split; [done|by apply HQ]. Qed.

Lemma triple_attempt {A} (m : Sys A) P Q E R E' :
  triple V P m Q E -> (forall a w, Q a w -> R (Ok a) w) -> (forall e w, E w -> R (Err e) w) -> triple V P (attempt m) R E'.
Proof.
  intros Hm HQ HE w HP. unfold attempt. specialize (Hm w HP). destruct (m w) as [[seen [a|e]] w'];
    destruct Hm as [Hs H]; split; auto.
Qed.

Lemma triple_weaken {A} (m : Sys A) P P' (Q Q' : A -> world -> Prop) (E E' : world -> Prop) :
  triple V P m Q E -> (forall w, P' w -> P w) -> (forall a w, Q a w -> Q' a w) -> (forall w, E w -> E' w) ->
  triple V P' m Q' E'.
Proof.
  intros Hm HP HQ HE w Hw. specialize (Hm w (HP w Hw)). destruct (m w) as [[seen [a|e]] w']; destruct Hm; split; auto.
Qed.

(** What does not depend on the world. *)
Lemma triple_pure {A} (phi : Prop) (m : Sys A) P Q E :
  (phi -> triple V P m Q E) -> triple V (fun w => P w /\ phi) m Q E.
Proof. intros H w [HP Hphi]. by apply H. Qed.

End triples.

Section accesses.
Context (V : world -> Prop) (faults : nat -> op -> fault).

Lemma triple_act o f (P : world -> Prop) (Q : () -> world -> Prop) (E : world -> Prop) :
  (forall w, P w -> P (next_op w)) -> (forall w, P w -> V w) -> (forall w, P w -> V (f w)) -> (forall w, P w -> Q tt (f w)) ->
  (forall w n, P w -> faults n o = refused -> E w) -> (forall w n, P w -> faults n o = broken -> E (f w)) ->
  triple V P (act faults o f) Q E.
Proof.
  intros Hn Hv Hvf HQ Hr Hb w HP. unfold act, step. apply Hn in HP. destruct (faults (w_ops w) o) eqn:E0.
  - split; [apply Forall_singleton; by apply Hvf|by apply HQ].
  - split; [apply Forall_singleton; by apply Hv|by eapply Hr].
  - split; [apply Forall_singleton; by apply Hvf|by eapply Hb].
Qed.

Lemma triple_reading {A} what (f : world -> res A) (P : world -> Prop) (Q : A -> world -> Prop) (E : world -> Prop) :
  (forall w, P w -> P (next_op w)) -> (forall w, P w -> V w) -> (forall w a, P w -> f w = Ok a -> Q a w) ->
  (forall w e, P w -> f w = Err e -> E w) -> (forall w n, P w -> faults n (ORead what) <> fine -> E w) ->
  triple V P (reading faults what f) Q E.
Proof.
  intros Hn Hv HQ HE Hf w HP. apply Hn in HP. unfold reading, step.
  destruct (faults (w_ops w) (ORead what)) eqn:E0; destruct (f (next_op w)) as [a|e] eqn:Ef;
    (split; [apply Forall_singleton; by apply Hv|]); eauto; apply (Hf _ (w_ops w) HP); by rewrite E0.
Qed.

End accesses.

(** Something went wrong outside the program. *)
Definition failing (faults : nat -> op -> fault) : Prop := exists n o, faults n o <> fine.

Lemma failing_by faults n o x : faults n o = x -> x <> fine -> failing faults.
Proof. intros <- H. by exists n, o. Qed.

(** A refused access left the world as it was. *)
Ltac refused := intros ? ? ? ?; split; [by eapply failing_by|done].

(** ** The states of a change *)

Section change.
Context (changes : gmap string change) (before : string -> option bytes) (snaps : list snapshot).
Context (snaps_before : forall s, s ∈ snaps -> fl_data <$> sn_file s = before (sn_Path s)).
Context (snaps_all : forall p, is_Some (changes !! p) -> p ∈ map sn_Path snaps).

Definition target (p : string) : option bytes := match changes !! p with Some c => c | None => before p end.

Definition going (j : journal) : Prop := jr_Snapshots j = snaps /\ jr_Expected j = changes.

(** Every file is as it was, or touched and as planned. *)
Definition half (touched : list string) (w : world) : Prop := forall p,
  content w p = before p \/ p ∈ touched /\ is_Some (changes !! p) /\ content w p = target p.

Definition undone (w : world) : Prop := w_pending w = None /\ forall p, content w p = before p.

Definition on_disk (touched : list string) (w : world) : Prop := exists j,
  w_pending w = Some j /\ going j /\ jr_Phase j <> "committed"%string /\ half (jr_Touched j) w /\ jr_Touched j ⊆ touched.

Definition midway (w : world) : Prop := exists touched, on_disk touched w.

Definition finished (w : world) : Prop :=
  (w_pending w = None \/ exists j, w_pending w = Some j /\ jr_Phase j = "committed"%string) /\ forall p, content w p = target p.

Definition safe (w : world) : Prop := undone w \/ midway w \/ finished w.

Lemma half_weaken t t' w : half t w -> t ⊆ t' -> half t' w.
Proof. intros Hh Ht p. destruct (Hh p) as [H|(H1 & H2 & H3)]; [by left|right]. split; [by apply Ht|done]. Qed.

Lemma on_disk_safe t w : on_disk t w -> safe w.
Proof. intros H. right. left. by exists t. Qed.

Lemma on_disk_same t w w' : w_pending w' = w_pending w -> (forall p, content w' p = content w p) -> on_disk t w -> on_disk t w'.
Proof.
  intros Hp Hc (j & H1 & H2 & H3 & H4 & H5). exists j. rewrite Hp. repeat (split; [done|]). split; [|done].
  intros p. rewrite Hc. apply H4.
Qed.

Lemma content_set p d m o w q : content (set_files (<[p := mk_file d m o]> (w_files w)) w) q = if decide (q = p) then Some d else content w q.
Proof.
  unfold content, content_of. cbn. destruct (decide (q = p)) as [->|Hq]; [by rewrite lookup_insert_eq|by rewrite lookup_insert_ne].
Qed.

Lemma content_delete p w q : content (set_files (delete p (w_files w)) w) q = if decide (q = p) then None else content w q.
Proof.
  unfold content, content_of. cbn. destruct (decide (q = p)) as [->|Hq]; [by rewrite lookup_delete_eq|by rewrite lookup_delete_ne].
Qed.

Lemma content_alter p f w q : (forall x, fl_data (f x) = fl_data x) ->
  content (set_files (alter f p (w_files w)) w) q = content w q.
Proof.
  intros Hf. unfold content, content_of. cbn. destruct (decide (p = q)) as [->|Hq]; [|by rewrite lookup_alter_ne].
  rewrite lookup_alter_eq. destruct (w_files w !! q); cbn; [by rewrite Hf|done].
Qed.

(** One file goes back, or on. *)
Lemma on_disk_change t w w' p v : w_pending w' = w_pending w ->
  (forall q, content w' q = if decide (q = p) then v else content w q) ->
  v = before p \/ (forall j, w_pending w = Some j -> p ∈ jr_Touched j) /\ is_Some (changes !! p) /\ v = target p ->
  on_disk t w -> on_disk t w'.
Proof.
  intros Hp Hc Hv (j & H1 & H2 & H3 & H4 & H5). exists j. rewrite Hp. repeat (split; [done|]). split; [|done].
  intros q. rewrite Hc. destruct (decide (q = p)) as [->|Hq]; [|apply H4].
  destruct Hv as [Hv|(Ht & Hs & Hv)]; [by left|right]. split; [by apply Ht|done].
Qed.

(** ** Rolling back *)

Section rollback.
Context (root : string) (faults : nat -> op -> fault).

Definition back (j : journal) (done : list string) (w : world) : Prop :=
  on_disk (jr_Touched j) w /\ forall q, q ∈ done -> content w q = before q.

Lemma back_safe j d w : back j d w -> safe w.
Proof. intros [H _]. by eapply on_disk_safe. Qed.

Lemma back_op j d w : back j d w -> back j d (next_op w).
Proof. intros [H Hd]. split; [by eapply on_disk_same|done]. Qed.

Lemma back_restored j d w w' p : w_pending w' = w_pending w ->
  (forall q, content w' q = if decide (q = p) then before p else content w q) -> back j d w -> back j (p :: d) w'.
Proof.
  intros Hp Hc [H Hd]. split.
  - apply (on_disk_change _ w w' p (before p)); auto.
  - intros q Hq. rewrite Hc. destruct (decide (q = p)) as [->|Hne]; [done|]. apply Hd. by apply elem_of_cons in Hq as [|].
Qed.

Lemma back_again j d w w' p : w_pending w' = w_pending w -> (forall q, content w' q = content w q) ->
  back j (p :: d) w -> back j (p :: d) w'.
Proof. intros Hp Hc [H Hd]. split; [by eapply on_disk_same|]. intros q Hq. rewrite Hc. by apply Hd. Qed.

Lemma back_weaken j d p w : back j (p :: d) w -> back j d w.
Proof. intros [H Hd]. split; [done|]. intros q Hq. apply Hd. by right. Qed.

Lemma restore_back j d s : s ∈ snaps ->
  triple safe (back j d) (restore faults s) (fun _ => back j (sn_Path s :: d)) (fun w => failing faults /\ back j d w).
Proof.
  intros Hs. pose proof (snaps_before s Hs) as Hb. unfold restore. destruct (sn_file s) as [f|]; cbn in Hb.
  - assert (Hw : forall w, back j d w -> back j (sn_Path s :: d)
      (set_files (<[sn_Path s := mk_file (fl_data f) (fl_mode f) (0, 0)]> (w_files w)) w)).
    { intros w. apply back_restored; [done|]. intros q. by rewrite content_set, Hb. }
    eapply triple_bind with (R := fun _ => back j (sn_Path s :: d)).
    + apply triple_act; [apply back_op|apply back_safe|by intros w H; eapply back_safe, Hw|by apply Hw|refused|].
      intros w n H Hf. split; [by eapply failing_by|]. eapply back_weaken. by apply Hw.
    + intros _.
      assert (Ho : forall w, back j (sn_Path s :: d) w -> back j (sn_Path s :: d)
        (set_files (alter (with_owner (fl_owner f)) (sn_Path s) (w_files w)) w)).
      { intros w. apply back_again; [done|]. intros q. by apply content_alter. }
      apply triple_act; [apply back_op|apply back_safe|by intros w H; eapply back_safe, Ho|by apply Ho| |].
      * intros w n H Hf. split; [by eapply failing_by|]. by eapply back_weaken.
      * intros w n H Hf. split; [by eapply failing_by|]. eapply back_weaken. by apply Ho.
  - assert (Hw : forall w, back j d w -> back j (sn_Path s :: d) (set_files (delete (sn_Path s) (w_files w)) w)).
    { intros w. apply back_restored; [done|]. intros q. by rewrite content_delete, <- Hb. }
    apply triple_act; [apply back_op|apply back_safe|by intros w H; eapply back_safe, Hw|by apply Hw|refused|].
    intros w n H Hf. split; [by eapply failing_by|]. eapply back_weaken. by apply Hw.
Qed.

(** A file that counts as restored is as it was. *)
Lemma untouched_before j d w p : back j d w -> p ∉ jr_Touched j -> content w p = before p.
Proof.
  intros [(jd & _ & _ & _ & Hh & Hsub) _] Hp. destruct (Hh p) as [H|(H & _)]; [done|]. destruct Hp. by apply Hsub.
Qed.

Lemma back_cons j d w p : content w p = before p -> back j d w -> back j (p :: d) w.
Proof. intros Hc [H Hd]. split; [done|]. intros q [->|Hq]%elem_of_cons; [done|by apply Hd]. Qed.

Definition after_one (j : journal) (d : list string) (s : snapshot) (b : bool) (w : world) : Prop :=
  if b then back j (sn_Path s :: d) w else failing faults /\ back j d w.

Lemma rollback_one_back j d s : going j -> s ∈ snaps ->
  triple safe (back j d) (rollback_one faults j s) (after_one j d s) (fun _ => False).
Proof.
  intros [_ Hexp] Hs. unfold rollback_one. case_bool_decide as Ht; cbn [negb].
  2: { apply triple_ret. intros w Hw. apply back_cons; [|done]. by eapply untouched_before. }
  eapply triple_bind with (R := fun r w => match r with
    | Ok cur => back j d w /\ (fl_data <$> sn_file cur) = content w (sn_Path s)
    | Err _ => failing faults /\ back j d w end).
  { eapply triple_attempt with (Q := fun cur w => back j d w /\ (fl_data <$> sn_file cur) = content w (sn_Path s))
      (E := fun w => failing faults /\ back j d w); [|done|done].
    apply triple_reading; [apply back_op|apply back_safe|by intros w a Hw [= <-]|done|].
    intros w n Hw Hf. split; [by exists n, (ORead (sn_Path s))|done]. }
  intros [cur|e]; [|by apply triple_ret].
  unfold same_content. case_bool_decide as Hsame.
  { apply triple_ret. intros w [Hw Hc]. apply back_cons; [|done]. rewrite <- Hc, Hsame. by apply snaps_before. }
  intros w0 [Hw Hc]. assert (Hplan : exists c : change, changes !! sn_Path s = Some c /\ (fl_data <$> sn_file cur) = c).
  { destruct Hw as [(jd & _ & _ & _ & Hh & _) _]. destruct (Hh (sn_Path s)) as [H|(_ & [c Hs'] & H)].
    - destruct Hsame. by rewrite Hc, H, snaps_before.
    - exists c. split; [done|]. rewrite Hc, H. unfold target. by rewrite Hs'. }
  destruct Hplan as (c & Hch & Hcur). rewrite Hexp, Hch, bool_decide_eq_true_2 by done. cbn [negb].
  revert w0 Hw Hc. enough (triple safe (back j d) (attempted (restore faults s)) (after_one j d s) (fun _ => False)) as Ht'.
  { intros w0 Hw _. by apply Ht'. }
  unfold attempted. eapply triple_bind with (R := fun r w => match r with
    | Ok _ => back j (sn_Path s :: d) w | Err _ => failing faults /\ back j d w end).
  - eapply triple_attempt; [by apply restore_back|done|done].
  - intros [a|e]; by apply triple_ret.
Qed.

(** Everything is as it was, and the journal is still there. *)
Definition restored (j : journal) (w : world) : Prop := on_disk (jr_Touched j) w /\ forall p, content w p = before p.

Lemma each_back j l : going j -> (forall s, s ∈ l -> s ∈ snaps) -> forall d,
  triple safe (back j d) (each (rollback_one faults j) l)
    (fun b w => if b then back j (map sn_Path l ++ d) w else failing faults /\ back j d w) (fun _ => False).
Proof.
  intros Hg. induction l as [|s l IH]; intros Hin d; cbn [each]; [by apply triple_ret|].
  assert (Hin' : forall x, x ∈ l -> x ∈ snaps) by (intros x Hx; apply Hin; by right).
  eapply triple_bind with (R := after_one j d s); [apply rollback_one_back; [done|apply Hin; by left]|]. intros [|]; cbn [after_one].
  - eapply triple_bind; [apply (IH Hin' (sn_Path s :: d))|].
    intros [|]; apply triple_ret; cbn.
    + intros w [H Hd]. split; [done|]. intros q Hq. apply Hd. rewrite elem_of_app, elem_of_cons.
      apply elem_of_cons in Hq as [Hq|Hq%elem_of_app]; tauto.
    + intros w [Hf Hw]. split; [done|]. by eapply back_weaken.
  - intros w [Hf Hw]. revert w Hw.
    eapply triple_bind; [apply (IH Hin' d)|].
    intros b. apply triple_ret. intros w Hw. cbn. split; [done|]. destruct b; [|by destruct Hw].
    destruct Hw as [H Hd]. split; [done|]. intros q Hq. apply Hd. apply elem_of_app. by right.
Qed.


Lemma restored_op j w : restored j w -> restored j (next_op w).
Proof. intros [H Hd]. split; [by eapply on_disk_same|done]. Qed.

Lemma restored_safe j w : restored j w -> safe w.
Proof. intros [H _]. by eapply on_disk_safe. Qed.

(** A command changes no file. *)
Lemma command_restored j o : triple safe (restored j) (act faults o (fun w => w)) (fun _ => restored j)
  (fun w => failing faults /\ restored j w).
Proof.
  apply triple_act; [apply restored_op|apply restored_safe|apply restored_safe|done|refused|].
  intros w n H Hf. split; [by eapply failing_by|done].
Qed.

Definition answered (j : journal) (b : bool) (w : world) : Prop := restored j w /\ (b = false -> failing faults).

Lemma attempted_restored j m : triple safe (restored j) m (fun _ => restored j) (fun w => failing faults /\ restored j w) ->
  triple safe (restored j) (attempted m) (answered j) (fun _ => False).
Proof.
  intros Hm. unfold attempted. eapply triple_bind with (R := fun r w => restored j w /\ (match r with Ok _ => True | Err _ => failing faults end)).
  - eapply triple_attempt; [exact Hm|done|]. by intros e w [Hf Hw].
  - intros [a|e]; apply triple_ret; intros w [Hw Hf]; by split.
Qed.

Lemma then_restored {A} j (m : Sys A) f : triple safe (restored j) m (fun _ => restored j) (fun w => failing faults /\ restored j w) ->
  triple safe (restored j) f (fun _ => restored j) (fun w => failing faults /\ restored j w) ->
  triple safe (restored j) (m;; f : Sys ()) (fun _ => restored j) (fun w => failing faults /\ restored j w).
Proof. intros Hm Hf. eapply triple_bind; [exact Hm|]. intros ?. exact Hf. Qed.

Lemma both_answered j (m f : Sys bool) : triple safe (restored j) m (answered j) (fun _ => False) ->
  triple safe (restored j) f (answered j) (fun _ => False) ->
  triple safe (restored j) (b ← m; c ← f; mret (b && c)) (answered j) (fun _ => False).
Proof.
  intros Hm Hf. eapply triple_bind; [exact Hm|]. intros b w [Hw Hb]. revert w Hw.
  eapply triple_bind; [exact Hf|]. intros c. apply triple_ret. intros w [Hw Hc]. split; [done|]. destruct b, c; auto.
Qed.

Lemma probes_restored j (l : list Domain) :
  triple safe (restored j) (each (fun d => attempted (Probe faults d)) l) (answered j) (fun _ => False).
Proof.
  induction l as [|d l IH]; cbn [each]; [apply triple_ret; intros w Hw; by split|]. apply both_answered; [|exact IH].
  apply attempted_restored, command_restored.
Qed.

Lemma remove_journal_restored j : triple safe (restored j) (remove_journal faults) (fun _ => undone)
  (fun w => failing faults /\ safe w).
Proof.
  intros w Hw%restored_op. unfold remove_journal, step. destruct Hw as [Hd Hc]. pose proof Hd as (jd & Hp & _).
  rewrite Hp. destruct (faults (w_ops w) OUnjournal) eqn:E.
  - split; [apply Forall_singleton; by left|done].
  - split; [apply Forall_singleton; by eapply on_disk_safe|]. split; [by eapply failing_by|by eapply on_disk_safe].
  - split; [apply Forall_singleton; by left|]. split; [by eapply failing_by|by left].
Qed.

Lemma all_restored j w : back j (map sn_Path snaps) w -> restored j w.
Proof.
  intros [H Hd]. split; [done|]. intros p. pose proof H as (jd & _ & _ & _ & Hh & _).
  destruct (Hh p) as [Hb|(_ & Hs & _)]; [done|]. by apply Hd, snaps_all.
Qed.

(** Rolling back leads to the files as they were, unless something fails; and
    whatever fails, and wherever it stops, it can be done again. *)
Lemma rollback_restores j : going j ->
  triple safe (on_disk (jr_Touched j)) (rollback root faults j) (fun _ => undone) (fun w => failing faults /\ safe w).
Proof.
  intros Hg. unfold rollback.
  eapply triple_bind with (R := fun (b : bool) w => if b then restored j w else failing faults /\ on_disk (jr_Touched j) w).
  { eapply triple_weaken; [apply (each_back j (jr_Snapshots j) Hg) with (d := [])| | |done].
    - destruct Hg as [-> _]. done.
    - intros w Hw. split; [done|]. by intros q Hq%elem_of_nil.
    - intros [|] w; [|by intros [Hf [H _]]]. rewrite app_nil_r. destruct Hg as [-> _]. apply all_restored. }
  intros [|]; cbn [andb].
  2: { eapply triple_bind with (R := fun (b : bool) w => b = false /\ failing faults /\ on_disk (jr_Touched j) w); [by apply triple_ret|].
       intros b. eapply triple_bind with (R := fun (b : bool) w => b = false /\ failing faults /\ on_disk (jr_Touched j) w).
       - intros w [-> Hw]. by split.
       - intros c w [-> [Hf Hw]]. split; [done|]. split; [done|]. by eapply on_disk_safe. }
  assert (Hend : forall b : bool, triple safe (answered j b) (if negb b then sys_fail ErrRollback else remove_journal faults)
    (fun _ => undone) (fun w => failing faults /\ safe w)).
  { intros [|]; cbn [negb].
    - eapply triple_weaken; [apply remove_journal_restored with (j := j)|by intros w [H _]|done|done].
    - intros w [Hw Hf]. split; [done|]. split; [by apply Hf|by eapply restored_safe]. }
  destruct (jr_Live j).
  - eapply triple_bind with (R := answered j).
    { eapply triple_weaken; [apply both_answered with (j := j)|done|done|done].
      - apply attempted_restored. unfold reload, run. by apply then_restored; apply command_restored.
      - destruct (jr_Restart j); [|apply triple_ret; intros w Hw; by split]. apply attempted_restored, command_restored. }
    intros b. destruct b; cbn [andb].
    + eapply triple_bind; [eapply triple_weaken; [apply probes_restored|by intros w [H _]|done|done]|]. apply Hend.
    + eapply triple_bind with (R := answered j); [by apply triple_ret|]. apply Hend.
  - eapply triple_bind with (R := answered j); [apply triple_ret; intros w Hw; by split|]. intros b.
    assert (b && false = false) as -> by apply andb_false_r.
    eapply triple_bind with (R := answered j); [by apply triple_ret|]. apply Hend.
Qed.

Lemma safe_op w : safe w -> safe (next_op w).
Proof.
  intros [[H1 H2]|[[t H]|[H1 H2]]]; [by left|right; left; exists t; by eapply on_disk_same|by right; right].
Qed.

Definition settled (w : world) : Prop :=
  w_pending w = None /\ ((forall p, content w p = before p) \/ forall p, content w p = target p).

Lemma remove_journal_finished : triple safe (fun w => finished w /\ w_pending w <> None) (remove_journal faults)
  (fun _ w => w_pending w = None /\ forall p, content w p = target p) (fun w => failing faults /\ safe w).
Proof.
  intros w [[Hp Hc] Hne]. unfold remove_journal, step. change (w_pending (next_op w)) with (w_pending w).
  assert (Hs : safe (next_op w)) by (right; right; by split).
  assert (Hs' : finished (set_pending None (next_op w))) by (split; [by left|done]).
  destruct (w_pending w) as [j|] eqn:Ej; [|done]. destruct (faults (w_ops w) OUnjournal) eqn:E.
  - split; [apply Forall_singleton; by right; right|done].
  - split; [by apply Forall_singleton|]. split; [by eapply failing_by|done].
  - split; [apply Forall_singleton; by right; right|]. split; [by eapply failing_by|by right; right].
Qed.

(** Recovering settles what a crash left, one way or the other; and it can be
    interrupted itself. *)
Lemma recover_settles : triple safe safe (recover root faults) (fun _ => settled) (fun w => failing faults /\ safe w).
Proof.
  unfold recover. eapply triple_bind with (R := fun p w => safe w /\ p = w_pending w).
  { apply triple_reading; [apply safe_op|done|by intros w a Hw [= <-]|done|]. intros w n Hw Hf. split; [by exists n, (ORead "pending.json")|done]. }
  intros [j|].
  2: { apply triple_ret. intros w [[[H1 H2]|[[t (j & H & _)]|[H1 H2]]] Hp]; [by split; [|left]|congruence|by split; [|right]]. }
  case_bool_decide as Hph.
  - eapply triple_weaken; [apply remove_journal_finished| |by intros _ w [H1 H2]; split; [|right]|done].
    intros w [[[H1 H2]|[[t (j' & H & _ & Hne & _)]|H]] Hp]; [congruence|congruence|]. split; [done|by rewrite <- Hp].
  - intros w [Hs Hp]. destruct Hs as [[H1 H2]|[[t Hd]|[[H|(j' & H & Hj')] H2]]]; [congruence| |congruence|congruence].
    destruct Hd as (j' & H & Hg & Hne & Hh & Hsub). assert (j' = j) as -> by congruence.
    assert (Hon : on_disk (jr_Touched j) w) by (by exists j).
    pose proof (rollback_restores j Hg w Hon) as Hr. destruct (rollback root faults j w) as [[seen [[]|e]] w'];
      destruct Hr as [Hseen Hr]; split; [done| |done|done]. destruct Hr as [H1 H2]. split; [done|by left].
Qed.

End rollback.
(** ** Going forward *)

Section forward.
Context (root : string) (faults : nat -> op -> fault) (group : res Z).

(** The journal on disk is the one in memory; [T] is noted in it, and [D] is
    done. *)
Definition moving (T D : string -> Prop) (w : world) : Prop :=
  w_pending w = Some (w_mem w) /\ going (w_mem w) /\ jr_Phase (w_mem w) <> "committed"%string /\
  half (jr_Touched (w_mem w)) w /\ (forall p, T p -> p ∈ jr_Touched (w_mem w)) /\ forall p, D p -> content w p = target p.

(** What [rollback] can undo with the journal in memory. *)
Definition stuck (w : world) : Prop := going (w_mem w) /\ on_disk (jr_Touched (w_mem w)) w.

Lemma moving_stuck T D w : moving T D w -> stuck w.
Proof. intros (H1 & H2 & H3 & H4 & _). split; [done|]. by exists (w_mem w). Qed.

Lemma stuck_safe w : stuck w -> safe w.
Proof. intros [_ H]. by eapply on_disk_safe. Qed.

Lemma moving_safe T D w : moving T D w -> safe w.
Proof. intros H. by eapply stuck_safe, moving_stuck. Qed.

Lemma moving_weaken (T T' D D' : string -> Prop) w : moving T D w -> (forall p, T' p -> T p) -> (forall p, D' p -> D p) -> moving T' D' w.
Proof. intros (H1 & H2 & H3 & H4 & H5 & H6) HT HD. repeat (split; [done|]). split; auto. Qed.

(** The journal and the contents are those of [w]. *)
Definition alike (w w' : world) : Prop :=
  w_pending w' = w_pending w /\ w_mem w' = w_mem w /\ forall p, content w' p = content w p.

Lemma moving_alike T D w w' : alike w w' -> moving T D w -> moving T D w'.
Proof.
  intros (Hp & Hm & Hc) (H1 & H2 & H3 & H4 & H5 & H6). unfold moving. rewrite Hp, Hm.
  repeat (split; [done|]). split; [intros p; rewrite Hc; apply H4|]. split; [done|]. intros p. rewrite Hc. apply H6.
Qed.

Lemma moving_op T D w : moving T D w -> moving T D (next_op w).
Proof. by apply moving_alike. Qed.

Lemma moving_change T D w w' p v : w_pending w' = w_pending w -> w_mem w' = w_mem w ->
  (forall q, content w' q = if decide (q = p) then v else content w q) -> T p -> v = target p ->
  moving T D w -> moving T (fun q => D q \/ q = p) w'.
Proof.
  intros Hp Hm Hc Ht Hv (H1 & H2 & H3 & H4 & H5 & H6). unfold moving. rewrite Hp, Hm. repeat (split; [done|]).
  split; [|split; [done|]].
  - intros q. rewrite Hc. destruct (decide (q = p)) as [->|Hq]; [|apply H4]. subst v. unfold target.
    destruct (changes !! p) eqn:E; [|by left]. right. rewrite ?E. split; [by apply H5|by split].
  - intros q [Hq|Hq]; rewrite Hc; destruct (decide (q = p)) as [->|Hne]; [done|by apply H6|done|done].
Qed.

(** An access that leaves the journal and the contents as they are. *)
Lemma quiet_moving T D o f : (forall w, alike w (f w)) ->
  triple safe (moving T D) (act faults o f) (fun _ => moving T D) stuck.
Proof.
  intros Hf. assert (Hk : forall w, moving T D w -> moving T D (f w)) by (intros w; by apply moving_alike).
  apply triple_act; [apply moving_op|apply moving_safe|by intros w H; eapply moving_safe, Hk|by apply Hk| |].
  - intros w n H _. by eapply moving_stuck.
  - intros w n H _. by eapply moving_stuck, Hk.
Qed.

Lemma command_moving T D o : triple safe (moving T D) (act faults o (fun w => w)) (fun _ => moving T D) stuck.
Proof. by apply quiet_moving. Qed.

Lemma reading_kept {A} T D what (f : world -> res A) :
  triple safe (moving T D) (reading faults what f) (fun _ => moving T D) (moving T D).
Proof. apply triple_reading; eauto using moving_op, moving_safe. Qed.

Lemma reading_moving {A} T D what (f : world -> res A) :
  triple safe (moving T D) (reading faults what f) (fun _ => moving T D) stuck.
Proof. eapply triple_weaken; [apply reading_kept|done|done|]. intros w. apply moving_stuck. Qed.

Lemma lift_moving {A} T D (m : res A) : triple safe (moving T D) (sys_lift m) (fun _ => moving T D) stuck.
Proof. apply triple_lift; eauto using moving_stuck. Qed.

Lemma ret_moving {A} T D (a : A) : triple safe (moving T D) (mret a) (fun _ => moving T D) stuck.
Proof. by apply triple_ret. Qed.

Lemma bind_moving {A B} T D T' D' Q (m : Sys A) (f : A -> Sys B) :
  triple safe (moving T D) m (fun _ => moving T' D') stuck ->
  (forall a, triple safe (moving T' D') (f a) (fun _ => Q) stuck) -> triple safe (moving T D) (m ≫= f) (fun _ => Q) stuck.
Proof. intros Hm Hf. by eapply triple_bind. Qed.

Lemma gets_moving {A} T D (f : world -> A) : triple safe (moving T D) (sys_gets f) (fun _ => moving T D) stuck.
Proof. by apply triple_gets. Qed.

Lemma every_moving {A} T (f : A -> Sys ()) (G : A -> string -> Prop) (l : list A) :
  (forall x D, x ∈ l -> triple safe (moving T D) (f x) (fun _ => moving T (fun q => D q \/ G x q)) stuck) ->
  forall D, triple safe (moving T D) (every f l) (fun _ => moving T (fun q => D q \/ exists x, x ∈ l /\ G x q)) stuck.
Proof.
  induction l as [|x l IH]; intros Hf D; cbn [every].
  - apply triple_ret. intros w Hw. eapply moving_weaken; [exact Hw|done|]. intros q [H|(x & H%elem_of_nil & _)]; done.
  - eapply bind_moving; [apply Hf; by left|]. intros _.
    eapply triple_weaken; [apply IH; intros y D' Hy; apply Hf; by right|done| |done].
    intros ? w Hw. eapply moving_weaken; [exact Hw|done|]. intros q [H|(y & Hy & H)]; [|apply elem_of_cons in Hy as [Hy|Hy]].
    + by left; left.
    + left; right. by rewrite Hy in H.
    + right. by exists y.
Qed.

Lemma every_quiet {A} T D (f : A -> Sys ()) (l : list A) :
  (forall x, x ∈ l -> triple safe (moving T D) (f x) (fun _ => moving T D) stuck) ->
  triple safe (moving T D) (every f l) (fun _ => moving T D) stuck.
Proof.
  induction l as [|x l IH]; intros Hf; cbn [every]; [by apply triple_ret|].
  eapply bind_moving; [apply Hf; by left|]. intros _. apply IH. intros y Hy. apply Hf. by right.
Qed.

(** *** The journal *)

(** The journal in memory is ahead of the one on disk. *)
Definition ahead (T D : string -> Prop) (w : world) : Prop :=
  stuck w /\ (forall p, T p -> p ∈ jr_Touched (w_mem w)) /\ forall p, D p -> content w p = target p.

Lemma ahead_moving T D w : ahead T D w -> jr_Phase (w_mem w) <> "committed"%string -> moving T D (set_pending (Some (w_mem w)) w).
Proof.
  intros [[H1 (jd & _ & _ & _ & H5 & H6)] [H7 H8]] Hph. repeat (split; [done|]). split; [|done].
  eapply half_weaken; [|exact H6]. exact H5.
Qed.

Lemma ahead_op T D w : ahead T D w -> ahead T D (next_op w).
Proof. intros [[H1 H2] H3]. split; [split; [done|by eapply on_disk_same]|done]. Qed.

Lemma write_journal_moving T D :
  triple safe (fun w => ahead T D w /\ jr_Phase (w_mem w) <> "committed"%string) (write_journal faults) (fun _ => moving T D) stuck.
Proof.
  apply triple_act.
  - intros w [H Hp]. split; [by apply ahead_op|done].
  - intros w [[H _] _]. by apply stuck_safe.
  - intros w [H Hp]. by eapply moving_safe, ahead_moving.
  - intros w [H Hp]. by apply ahead_moving.
  - intros w n [[H _] _] _. done.
  - intros w n [H Hp] _. by eapply moving_stuck, ahead_moving.
Qed.

Lemma moving_ahead T D w j : moving T D w -> jr_Snapshots j = jr_Snapshots (w_mem w) -> jr_Expected j = jr_Expected (w_mem w) ->
  jr_Touched (w_mem w) ⊆ jr_Touched j -> ahead T D (set_mem j w).
Proof.
  intros (H1 & [H2 H2'] & H3 & H4 & H5 & H6) Hs He Ht. split; [|split; [intros p Hp; by apply Ht, H5|done]].
  split; [split; cbn; congruence|]. exists (w_mem w). by repeat (split; [done|]).
Qed.

Lemma touch_moving T D p : triple safe (moving T D) (touch faults p) (fun _ => moving (fun q => T q \/ q = p) D) stuck.
Proof.
  unfold touch. eapply triple_bind with (R := fun j w => moving T D w /\ j = w_mem w); [by apply triple_gets|]. intros j.
  case_bool_decide as Hj.
  - apply triple_ret. intros w [(H1 & H2 & H3 & H4 & H5 & H6) ->]. repeat (split; [done|]). split; [|done].
    intros q [Hq|Hq]; [by apply H5|by subst].
  - eapply triple_bind; [|intros ?; apply write_journal_moving]. apply triple_set. intros w [H ->].
    pose proof H as (_ & _ & Hph & _). split; [|done].
    destruct (moving_ahead T D w (set_touched (jr_Touched (w_mem w) ++ [p]) (w_mem w)) H) as (Ha & Hb & Hc); [done|done|cbn; set_solver|].
    split; [done|]. split; [|done]. intros q [Hq|Hq]; [by apply Hb|subst q]. cbn. set_solver.
Qed.

Lemma set_journal_moving T D live phase : phase <> "committed"%string ->
  triple safe (moving T D) (set_journal faults live phase) (fun _ => moving T D) stuck.
Proof.
  intros Hph. unfold set_journal. eapply triple_bind with (R := fun j w => moving T D w /\ j = w_mem w); [by apply triple_gets|]. intros j.
  eapply triple_bind; [|intros ?; apply write_journal_moving]. apply triple_set. intros w [H ->]. split; [|done]. by eapply moving_ahead.
Qed.

(** *** Files *)

Lemma write_moving T D p b mode : T p -> target p = Some b ->
  triple safe (moving T D) (atomicWrite faults p b mode) (fun _ => moving T (fun q => D q \/ q = p)) stuck.
Proof.
  intros Ht Hb. assert (Hk : forall w, moving T D w -> moving T (fun q => D q \/ q = p) (set_files (<[p := mk_file b mode (0, 0)]> (w_files w)) w)).
  { intros w. apply moving_change with (v := Some b); [done|done| |done|done]. intros q. apply content_set. }
  apply triple_act; [apply moving_op|apply moving_safe|by intros w H; eapply moving_safe, Hk|by apply Hk| |].
  - intros w n H _. by eapply moving_stuck.
  - intros w n H _. by eapply moving_stuck, Hk.
Qed.

Lemma remove_moving T D p : T p -> target p = None ->
  triple safe (moving T D) (remove faults p) (fun _ => moving T (fun q => D q \/ q = p)) stuck.
Proof.
  intros Ht Hb. assert (Hk : forall w, moving T D w -> moving T (fun q => D q \/ q = p) (set_files (delete p (w_files w)) w)).
  { intros w. apply moving_change with (v := None); [done|done| |done|done]. intros q. apply content_delete. }
  apply triple_act; [apply moving_op|apply moving_safe|by intros w H; eapply moving_safe, Hk|by apply Hk| |].
  - intros w n H _. by eapply moving_stuck.
  - intros w n H _. by eapply moving_stuck, Hk.
Qed.

Lemma chown_moving T D p o : triple safe (moving T D) (chown faults p o) (fun _ => moving T D) stuck.
Proof. apply quiet_moving. intros w. split; [done|]. split; [done|]. intros q. by apply content_alter. Qed.

Lemma chmod_moving T D p m : triple safe (moving T D) (chmod faults p m) (fun _ => moving T D) stuck.
Proof. apply quiet_moving. intros w. split; [done|]. split; [done|]. intros q. by apply content_alter. Qed.

Lemma mode_of_moving T D p : triple safe (moving T D) (mode_of root faults p) (fun _ => moving T D) stuck.
Proof. unfold mode_of. case_bool_decide; [apply reading_moving|apply ret_moving]. Qed.

Lemma keep_owner_moving T D p s : triple safe (moving T D) (keep_owner faults p s) (fun _ => moving T D) stuck.
Proof. unfold keep_owner. destruct (sn_file s); [|apply ret_moving]. case_bool_decide; [apply chown_moving|apply ret_moving]. Qed.

(** A change of a path leaves it as planned. *)
Lemma writeChange_moving D p c : target p = c ->
  triple safe (moving (fun _ => False) D) (writeChange root faults group p c) (fun _ => moving (fun _ => False) (fun q => D q \/ q = p)) stuck.
Proof.
  intros Hc. set (T := fun q : string => False \/ q = p).
  assert (Hw : forall w, moving T (fun q => D q \/ q = p) w -> moving (fun _ => False) (fun q => D q \/ q = p) w).
  { intros w H. by eapply moving_weaken. }
  assert (HT : T p) by (unfold T; by right).
  unfold writeChange. eapply bind_moving; [apply touch_moving|]. intros _. fold T. destruct c as [b|].
  2: { eapply triple_weaken; [by apply (remove_moving T D)|done|by intros ?|done]. }
  eapply bind_moving; [apply mode_of_moving|]. intros mode.
  eapply bind_moving; [by apply (write_moving T D)|]. intros _.
  eapply bind_moving; [apply gets_moving|]. intros j.
  eapply bind_moving; [apply every_quiet; intros s _; apply keep_owner_moving|]. intros _.
  destruct (_ && _); [|eapply triple_weaken; [apply (ret_moving T)|done|by intros ?|done]].
  eapply bind_moving; [apply lift_moving|]. intros gid.
  eapply bind_moving; [apply chown_moving|]. intros _.
  eapply triple_weaken; [apply chmod_moving|done|by intros ?|done].
Qed.

Lemma unchanged_moving T D certs s : triple safe (moving T D) (unchanged faults certs s) (fun _ => moving T D) stuck.
Proof.
  unfold unchanged. case_bool_decide; [apply ret_moving|]. eapply bind_moving; [|intros c; apply lift_moving].
  eapply triple_attempt; [apply reading_kept|done|done].
Qed.

End forward.

(** ** A change, from the certificates to the commit *)

Definition none : string -> Prop := fun _ => False.

Section body.
Context (root : string) (faults : nat -> op -> fault) (Match : string -> string -> option bool) (Join : string -> string -> string).
Context (group : res Z) (tmp : string) (pl : plan) (keys : list string).
Context (journal_whole : forall n, faults n OJournal <> broken) (last_fine : forall n, faults n OLast = fine)
        (unjournal_fine : forall n, faults n OUnjournal = fine).
Context (changes_planned : pl_changes pl = changes) (keys_all : forall p, p ∈ keys <-> is_Some (changes !! p)).
Context (certs_planned : forall p b, (p, b) ∈ pl_certs pl -> target p = Some b).
Context (state_planned : is_Some (changes !! epath root statePath)).
Context (old_planned : dr_Operation (pl_Request pl) = "replace"%string ->
           changes !! configPath root (dr_OldDomain (pl_Request pl)) = Some None).

Lemma target_change p : is_Some (changes !! p) -> target p = change_of pl p.
Proof. intros [c H]. unfold target, change_of. rewrite changes_planned, H. done. Qed.

Lemma certs_moving D : triple safe (moving none D)
  (every (fun pb => touch faults pb.1;; atomicWrite faults pb.1 pb.2 384) (pl_certs pl)) (fun _ => moving none D) stuck.
Proof.
  apply every_quiet. intros [p b] Hin. cbn [fst snd]. eapply bind_moving; [apply touch_moving|]. intros _.
  eapply triple_weaken; [apply write_moving; [|by apply certs_planned]|done| |done]; [by right|].
  intros ? w Hw. eapply moving_weaken; [exact Hw|done|]. intros q Hq. by left.
Qed.

Lemma stage_moving D : triple safe (moving none D) (stage root faults Match Join tmp pl) (fun _ => moving none D) stuck.
Proof.
  unfold stage, run. eapply bind_moving; [apply command_moving|]. intros _. eapply bind_moving; [apply lift_moving|]. intros c.
  eapply bind_moving; [apply command_moving|]. intros _. apply command_moving.
Qed.

Lemma reload_moving D : triple safe (moving none D) (reload root faults) (fun _ => moving none D) stuck.
Proof. unfold reload, run. eapply bind_moving; [apply command_moving|]. intros _. apply command_moving. Qed.

(** Every change but the deferred ones. *)
Definition early (q : string) : Prop := exists x, x ∈ keys /\ q = x /\ deferred root pl x = false.

Lemma keys_moving : triple safe (moving none none)
  (every (fun p => if deferred root pl p then mret () else writeChange root faults group p (change_of pl p)) keys)
  (fun _ => moving none early) stuck.
Proof.
  eapply triple_weaken; [apply (every_moving none _ (fun x q => q = x /\ deferred root pl x = false) keys) with (D := none)|done| |done].
  - intros x D Hx. destruct (deferred root pl x) eqn:E.
    + apply triple_ret. intros w Hw. eapply moving_weaken; [exact Hw|done|]. intros q [H|[_ H]]; done.
    + eapply triple_weaken; [apply writeChange_moving; apply target_change; by apply keys_all|done| |done].
      intros ? w Hw. eapply moving_weaken; [exact Hw|done|]. intros q [H|[H _]]; [by left|by right].
  - intros ? w Hw. eapply moving_weaken; [exact Hw|done|]. intros q (x & Hx & H & Hd). right. by exists x.
Qed.

Definition late (q : string) : Prop := early q \/
  dr_Operation (pl_Request pl) = "replace"%string /\ q = configPath root (dr_OldDomain (pl_Request pl)).

Lemma replaced_moving : triple safe (moving none early)
  (if bool_decide (dr_Operation (pl_Request pl) = "replace"%string) then
     writeChange root faults group (configPath root (dr_OldDomain (pl_Request pl))) None;; reload root faults
   else mret ()) (fun _ => moving none late) stuck.
Proof.
  case_bool_decide as Hop.
  - eapply triple_bind; [apply writeChange_moving|intros ?; eapply triple_weaken; [apply reload_moving| | |done]].
    + unfold target. by rewrite old_planned.
    + intros w Hw. exact Hw.
    + intros ? w Hw. eapply moving_weaken; [exact Hw|done|]. intros q [H|[_ H]]; [by left|by right].
  - apply triple_ret. intros w Hw. eapply moving_weaken; [exact Hw|done|]. by intros q [H|[H _]].
Qed.

(** With the state every file is as planned. *)
Lemma all_done w : moving none (fun q => late q \/ q = epath root statePath) w -> forall p, content w p = target p.
Proof.
  intros (_ & _ & _ & Hh & _ & Hd) p. destruct (changes !! p) eqn:E.
  2: { destruct (Hh p) as [H|(_ & [c H] & _)]; [|by rewrite E in H]. unfold target. by rewrite E. }
  assert (Hk : p ∈ keys) by (apply keys_all; by rewrite E). apply Hd. destruct (deferred root pl p) eqn:Ed.
  - unfold deferred in Ed. apply orb_prop in Ed as [H%bool_decide_eq_true_1|H]; [by right|].
    apply andb_prop in H as [H1%bool_decide_eq_true_1 H2%bool_decide_eq_true_1]. left. right. by split.
  - left. left. by exists p.
Qed.

Definition complete (w : world) : Prop := w_pending w = None /\ forall p, content w p = target p.

Definition committed (w : world) : Prop :=
  (exists j, w_pending w = Some j /\ jr_Phase j = "committed"%string) /\ forall p, content w p = target p.

Lemma committed_safe w : committed w -> safe w.
Proof. intros [H1 H2]. right. right. split; [by right|done]. Qed.

(** The journal that says [committed] decides. *)
Lemma commit_point : triple safe (moving none (fun q => late q \/ q = epath root statePath)) (set_journal faults true "committed")
  (fun _ => committed) stuck.
Proof.
  unfold set_journal. eapply triple_bind with (R := fun j w => moving none (fun q => late q \/ q = epath root statePath) w /\ j = w_mem w); [by apply triple_gets|]. intros j.
  eapply triple_bind with (R := fun _ w => (stuck w /\ jr_Phase (w_mem w) = "committed"%string) /\ forall p, content w p = target p).
  { apply triple_set. intros w [H ->]. split; [|exact (all_done w H)]. split; [|done]. by eapply moving_ahead. }
  intros _. assert (Hc : forall w, (stuck w /\ jr_Phase (w_mem w) = "committed"%string) /\ (forall p, content w p = target p) ->
    committed (set_pending (Some (w_mem w)) w)).
  { intros w [[H1 H2] H3]. split; [by exists (w_mem w)|done]. }
  apply triple_act.
  - intros w [[[H1 H2] H3] H4]. split; [split; [split; [done|by eapply on_disk_same]|done]|done].
  - intros w [[H _] _]. by apply stuck_safe.
  - intros w H. by apply committed_safe, Hc.
  - exact Hc.
  - intros w n [[H _] _] _. done.
  - intros w n _ H. by destruct (journal_whole n).
Qed.

Lemma last_committed : triple safe committed (act faults OLast (fun w => set_last (w_mem w) w)) (fun _ => committed) stuck.
Proof.
  apply triple_act; [done|apply committed_safe|by intros w H; apply committed_safe|done| |]; intros w n _ H; by rewrite last_fine in H.
Qed.

Lemma remove_committed : triple safe committed (remove_journal faults) (fun _ => complete) stuck.
Proof.
  intros w [(j & Hj & Hp) Hc]. unfold remove_journal, step. change (w_pending (next_op w)) with (w_pending w). rewrite Hj, unjournal_fine.
  split; [apply Forall_singleton; right; right; split; [by left|done]|done].
Qed.

(** The body leads to the planned files, or to where [rollback] can start. *)
Lemma apply_body_moving : triple safe (moving none none) (apply_body root faults Match Join group tmp pl keys)
  (fun _ => complete) stuck.
Proof.
  unfold apply_body. eapply bind_moving; [apply certs_moving|]. intros _. eapply bind_moving; [apply stage_moving|]. intros _.
  eapply bind_moving; [apply gets_moving|]. intros snaps'.
  eapply bind_moving; [apply every_quiet; intros s _; apply unchanged_moving|]. intros _.
  eapply bind_moving; [apply keys_moving|]. intros _.
  eapply bind_moving; [by apply set_journal_moving|]. intros _.
  eapply bind_moving; [apply reload_moving|]. intros _.
  eapply bind_moving with (T' := none) (D' := early).
  { destruct (pl_restart pl); [apply command_moving|apply ret_moving]. }
  intros _. eapply bind_moving; [apply every_quiet; intros d _; apply command_moving|]. intros _.
  eapply bind_moving; [apply replaced_moving|]. intros _.
  eapply bind_moving; [by apply set_journal_moving|]. intros _.
  eapply bind_moving; [apply writeChange_moving; by apply target_change|]. intros _.
  eapply triple_bind; [apply commit_point|]. intros ?. eapply triple_bind; [apply last_committed|]. intros ?. apply remove_committed.
Qed.

(** A failed body is rolled back, unless that fails too. *)
Lemma or_rollback_moving : triple safe (moving none none) (or_rollback root faults (apply_body root faults Match Join group tmp pl keys))
  (fun _ => complete) safe.
Proof.
  unfold or_rollback. eapply triple_bind with (R := fun r w => match r with Ok _ => complete w | Err _ => stuck w end).
  { eapply triple_attempt; [apply apply_body_moving|done|done]. }
  intros [[]|e]; [by apply triple_ret|].
  eapply triple_bind with (R := fun j w => going j /\ on_disk (jr_Touched j) w); [by apply triple_gets|]. intros j w [Hg Hw].
  revert w Hw. eapply triple_bind with (R := fun _ w => safe w).
  { eapply triple_attempt; [by apply rollback_restores|intros ? w H; by left|by intros e' w [_ H]]. }
  intros r w Hw. by split.
Qed.

End body.

End change.
