(* ===== verification/DomainsProofs.v ===== *)
(** * Managed domains: what holds

    A change of the managed domains is all or nothing: wherever the process
    crashes, or fails, the next one finds either every file as it was or every
    file as planned, once it has recovered. *)

From S2P Require Import Prelude GoStrings Identity Draws Nginx Domains DomainsJournal.

(** ** Names and paths *)

Definition plain (c : Ascii.ascii) : bool := label_char c || (code c =? 46).

Lemma plain_code c : plain c = true -> code c < 65 \/ 90 < code c < 196.
Proof. unfold plain, label_char, is_digit, between. intros H. bool_to_prop. lia. Qed.

Lemma plain_lower c : plain c = true -> lower_byte c = c.
Proof.
  intros H%plain_code. unfold lower_byte. destruct ((65 <=? code c) && (code c <=? 90)) eqn:E; [|done]. bool_to_prop. lia.
Qed.

Lemma to_lower_plain l : forallb plain l = true -> to_lower l = l.
Proof.
  induction l as [|c l IH]; [done|]. cbn [forallb]. intros [Hc Hl]%andb_prop. specialize (IH Hl).
  pose proof (plain_code c Hc) as Hcode. destruct l as [|d [|e q]]; cbn [to_lower].
  - by rewrite plain_lower.
  - cbn [forallb] in Hl. apply andb_prop in Hl as [Hd _]. assert ((code c =? 196) = false) as -> by lia. cbn [andb]. by rewrite !plain_lower.
  - assert ((code c =? 196) = false) as -> by lia. assert ((code c =? 226) = false) as -> by lia. cbn [andb].
    rewrite (plain_lower c Hc). f_equal. exact IH.
Qed.

Lemma split_plain l : forallb (forallb label_char) (split_all 46 l) = true -> forallb plain l = true.
Proof.
  induction l as [|c l IH]; [done|]. cbn [split_all forallb].
  assert (Hn : split_all 46 l <> []) by (destruct l; cbn; [done|destruct (split_all 46 l); [done|case_match; done]]).
  destruct (split_all 46 l) as [|p ps]; [done|]. unfold plain at 1. destruct (code c =? 46) eqn:E.
  - intros H. rewrite orb_true_r. cbn [andb]. apply IH. exact H.
  - cbn [forallb]. intros [[Hc Hp]%andb_prop Hps]%andb_prop. rewrite Hc. cbn [orb andb]. apply IH. cbn [forallb]. by rewrite Hp, Hps.
Qed.

Lemma labelRE_chars l : labelRE l = true -> forallb label_char l = true.
Proof. unfold labelRE. intros H. by repeat (apply andb_prop in H as [H ?]). Qed.

(** A normalized domain is left as it is. *)
Lemma NormalizeDomain_again input s : NormalizeDomain input = Ok s -> NormalizeDomain s = Ok s.
Proof.
  unfold NormalizeDomain. intros H. set (t := ToLower input) in *.
  destruct (_ || _) eqn:E1 in H; [done|]. destruct (negb _) eqn:E2 in H; [done|]. injection H as <-. assert (Hl : ToLower t = t).
  { unfold ToLower at 1. rewrite to_lower_plain; [apply b2s_s2b|]. apply split_plain.
    apply negb_false_iff in E2. revert E2. rewrite !forallb_forall.
    intros H x Hx. by apply labelRE_chars, H. }
  by rewrite Hl, E1, E2.
Qed.

Lemma split_once_inv k l a r : split_once k l = (a, Some r) -> exists c, code c = k /\ l = a ++ c :: r.
Proof.
  revert a. induction l as [|c l IH]; intros a; cbn; [done|]. destruct (code c =? k) eqn:E.
  - intros [= <- <-]. exists c. split; [lia|done].
  - destruct (split_once k l) as [x y]. intros [= <- ->]. destruct (IH x eq_refl) as (d & Hd & ->). by exists d.
Qed.

Lemma Dir_below p : Dir p = vhostDir -> exists rest, p = (vhostDir ++ rest)%string.
Proof.
  unfold Dir. destruct (split_once 47 (rev (s2b p))) as [a [[|c r]|]] eqn:E; [done| |done].
  intros Hr. apply split_once_inv in E as (d & _ & E).
  assert (Hp : s2b p = rev (c :: r) ++ d :: rev a).
  { rewrite <- (rev_involutive (s2b p)), E, rev_app_distr. cbn. by rewrite <- app_assoc. }
  exists (b2s (d :: rev a)). rewrite <- (b2s_s2b p), <- (b2s_s2b (vhostDir ++ _)), Hp, s2b_app, s2b_b2s, <- Hr, s2b_b2s. done.
Qed.

Section paths.
Context (root : string).

Lemma epath_inj p q : epath root p = epath root q -> p = q.
Proof. unfold epath. case_bool_decide; [done|]. apply (inj (String.append root)). Qed.

End paths.

(** ** What a plan holds *)

Section planned.
Context (root : string).
Context (url_Parse : string -> option url) (Match : string -> string -> option bool) (Join : string -> string -> string).
Context (MarshalState : State -> bytes) (UnmarshalState : bytes -> res State) (MarshalOrigins : list string -> bytes).
Context (sha256_hex16 : bytes -> string) (ValidateCertificate : string -> bytes -> bytes -> bool).

#[local] Abbreviation the_plan := (plan_of root url_Parse Match Join MarshalState UnmarshalState MarshalOrigins sha256_hex16 ValidateCertificate).

(** The paths of certificates are apart from all the others. *)
Definition cert_path (p : string) : Prop := exists rest, p = epath root (stateDir ++ "/certs/" ++ rest)%string.

Lemma cert_path_apart p : cert_path p ->
  p <> epath root statePath /\ p <> epath root originsPath /\ p <> epath root envPath /\
  (forall n, p <> configPath root n) /\ forall q, Dir q = vhostDir -> p <> epath root q.
Proof.
  intros [rest ->]. repeat split; [intros H%epath_inj; discriminate..|intros n H%epath_inj; discriminate|].
  intros q (r & ->)%Dir_below H%epath_inj. discriminate.
Qed.

Lemma configPath_apart n : configPath root n <> epath root statePath /\ configPath root n <> epath root originsPath /\
  configPath root n <> epath root envPath.
Proof. repeat split; intros H%epath_inj; discriminate. Qed.

Lemma render_domains_other ds changes out p : render_domains root ds changes = Ok out -> (forall n, p <> configPath root n) ->
  out !! p = changes !! p.
Proof.
  revert changes. induction ds as [|[n d] ds IH]; intros changes; cbn; [by intros [= <-]|].
  destruct (RenderNginx d); [|done]. cbn. intros H Hp. rewrite (IH _ H Hp). apply lookup_insert_ne. intros E. by apply (Hp n).
Qed.

Lemma drop_domains_other before after changes p : (forall n, p <> configPath root n) ->
  drop_domains root before after changes !! p = changes !! p.
Proof.
  intros Hp. unfold drop_domains. induction (List.filter _ _) as [|n l IH]; cbn; [done|]. rewrite lookup_insert_ne; [done|].
  intros E. by apply (Hp n).
Qed.

Lemma drop_domains_dropped before after changes n : is_Some (st_Domains before !! n) -> st_Domains after !! n = None ->
  drop_domains root before after changes !! configPath root n = Some None.
Proof.
  intros [d Hd] Ha. unfold drop_domains.
  assert (Hin : In n (List.filter (fun n => bool_decide (st_Domains after !! n = None)) (map fst (map_to_list (st_Domains before))))).
  { apply filter_In. split; [|by apply bool_decide_eq_true_2]. apply in_map_iff. exists (n, d). split; [done|].
    by apply list_elem_of_In, elem_of_map_to_list. }
  induction (List.filter _ _) as [|m l IH]; [done|]. cbn. destruct (decide (configPath root m = configPath root n)) as [->|E].
  - by rewrite lookup_insert_eq.
  - rewrite lookup_insert_ne by done. apply IH. destruct Hin as [->|H]; [by destruct E|done].
Qed.

Lemma origins_change_other files after changes out p : origins_change root MarshalOrigins files after changes = Ok out ->
  p <> epath root originsPath -> p <> epath root envPath -> out !! p = changes !! p.
Proof.
  unfold origins_change. intros H Ho He. apply res_bind_Ok in H as (? & _ & H). apply res_bind_Ok in H as (env & _ & H).
  injection H as <-. by rewrite !lookup_insert_ne by done.
Qed.

Lemma import_source_keeps graph r r' changes : import_source root graph r = Ok (r', changes) ->
  (dr_Operation r' = dr_Operation r /\ dr_OldDomain r' = dr_OldDomain r) /\
  forall p, cert_path p -> changes !! p = None.
Proof.
  unfold import_source. case_bool_decide; [|by intros [= <- <-]]. intros H0. apply res_bind_Ok in H0 as (? & Hs & H0).
  apply fail_if_Ok in Hs as [_ Hd%negb_false_iff%bool_decide_eq_true_1]%orb_false_elim.
  apply res_bind_Ok in H0 as (b & _ & H0). apply res_bind_Ok in H0 as (i & _ & H0). injection H0 as <- <-.
  split; [by case_bool_decide|]. intros p (_ & _ & _ & _ & Hp)%cert_path_apart. apply lookup_singleton_ne. intros E. by eapply Hp.
Qed.

Lemma certificate_change_other files changes pb p : p <> pb.1 -> certificate_change files changes pb !! p = changes !! p.
Proof. intros Hp. unfold certificate_change. case_bool_decide; [done|by rewrite lookup_insert_ne]. Qed.

(** What the certificates will be: written, or there already. *)
Definition provided (files : gmap string file) (changes : gmap string change) (p : string) (b : bytes) : Prop :=
  changes !! p = Some (Some b) \/ changes !! p = None /\ content_of files p = Some b.

Lemma certificate_change_provided files changes p b : changes !! p = None -> provided files (certificate_change files changes (p, b)) p b.
Proof.
  intros H. unfold provided, certificate_change. cbn. case_bool_decide; [by right|]. left. by rewrite lookup_insert_eq.
Qed.

Lemma provided_other files changes changes' p b : changes' !! p = changes !! p -> provided files changes p b -> provided files changes' p b.
Proof. unfold provided. by intros ->. Qed.

Lemma prepareCertificate_provided files r r' certs changes :
  prepareCertificate root sha256_hex16 ValidateCertificate files r = Ok (r', certs) -> (forall p, cert_path p -> changes !! p = None) ->
  (dr_Operation r' = dr_Operation r /\ dr_OldDomain r' = dr_OldDomain r) /\
  forall p b, (p, b) ∈ certs -> cert_path p /\ provided files (fold_left (certificate_change files) certs changes) p b.
Proof.
  unfold prepareCertificate. intros H Hno. destruct (_ && _).
  { injection H as <- <-. split; [done|]. by intros p b Hp%elem_of_nil. }
  apply res_bind_Ok in H as (? & _ & H). apply res_bind_Ok in H as (cert & _ & H). apply res_bind_Ok in H as (key & _ & H).
  apply res_bind_Ok in H as (? & _ & H). apply res_bind_Ok in H as (? & _ & H). injection H as <- <-. split; [done|].
  set (base := (stateDir ++ "/certs/" ++ sha256_hex16 (cert ++ key))%string).
  set (cp := epath root (base ++ "/fullchain.pem")%string). set (kp := epath root (base ++ "/privkey.pem")%string).
  assert (Hc : cert_path cp) by (by exists (sha256_hex16 (cert ++ key) ++ "/fullchain.pem")%string).
  assert (Hk : cert_path kp) by (by exists (sha256_hex16 (cert ++ key) ++ "/privkey.pem")%string).
  assert (Hne : cp <> kp) by (intros E%epath_inj%(inj (String.append base)); discriminate).
  cbn [fold_left]. intros p b [[= -> ->]|[[= -> ->]|Hp%elem_of_nil]%elem_of_cons]%elem_of_cons; [..|done].
  - split; [done|]. eapply provided_other; [by apply certificate_change_other|]. apply certificate_change_provided. by apply Hno.
  - split; [done|]. apply certificate_change_provided. rewrite certificate_change_other by done. by apply Hno.
Qed.

Lemma NextState_replaced s r s' : NextState url_Parse s r = Ok s' -> dr_Operation r = "replace"%string ->
  NormalizeDomain (dr_OldDomain r) = Ok (dr_OldDomain r) ->
  is_Some (st_Domains s !! dr_OldDomain r) /\ st_Domains s' !! dr_OldDomain r = None.
Proof.
  unfold NextState. intros H Hop Hold. apply res_bind_Ok in H as (? & _ & H). apply res_bind_Ok in H as (name & _ & H).
  apply res_bind_Ok in H as (? & _ & H). rewrite Hop in H. cbn [bool_decide] in H.
  rewrite bool_decide_eq_false_2 in H by done. rewrite (bool_decide_eq_true_2 ("replace"%string = "replace"%string)) in H by done.
  apply res_bind_Ok in H as (base & Hb & H). rewrite Hold in Hb. cbn in Hb. apply res_bind_Ok in Hb as (? & Hne & Hb).
  apply fail_if_Ok in Hne as Hne%bool_decide_eq_false_1. apply res_bind_Ok in Hb as (previous & Hp & Hb).
  apply of_option_Ok in Hp. apply res_bind_Ok in Hb as (? & _ & Hb). injection Hb as <-.
  apply res_bind_Ok in H as (d & _ & H). injection H as <-. cbn. rewrite lookup_fmap in Hp. split.
  - destruct (st_Domains s !! dr_OldDomain r); [done|by cbn in Hp].
  - rewrite lookup_insert_ne by done. by rewrite lookup_delete_eq.
Qed.

(** The plan keeps the certificates and the state, and drops the domain that
    is replaced. *)
Lemma plan_of_holds files r pl : the_plan files r = Ok (Some pl) -> (dr_Operation r = "replace"%string -> NormalizeDomain (dr_OldDomain r) = Ok (dr_OldDomain r)) ->
  (forall p b, (p, b) ∈ pl_certs pl -> provided files (pl_changes pl) p b) /\
  is_Some (pl_changes pl !! epath root statePath) /\
  (dr_Operation (pl_Request pl) = "replace"%string -> pl_changes pl !! configPath root (dr_OldDomain (pl_Request pl)) = Some None).
Proof.
  unfold plan_of. intros H Hold. apply res_bind_Ok in H as (before & _ & H). apply res_bind_Ok in H as (graph & _ & H).
  apply res_bind_Ok in H as (? & _ & H). apply res_bind_Ok in H as ([r1 src] & Hi & H).
  apply import_source_keeps in Hi as ((Ho1 & Hd1) & Hi). cbn [fst snd] in H. apply res_bind_Ok in H as ([r2 certs] & Hc & H).
  apply (prepareCertificate_provided _ _ _ _ src) in Hc as ((Ho2 & Hd2) & Hc); [|done].
  apply res_bind_Ok in H as (after & Hn & H). destruct (_ && _); [done|].
  apply res_bind_Ok in H as (rendered & Hr & H). apply res_bind_Ok in H as (changes & Hch & H). injection H as <-.
  cbn [pl_certs pl_changes pl_Request].
  assert (Hsame : forall p, p <> epath root originsPath -> p <> epath root envPath ->
    changes !! p = drop_domains root before after rendered !! p).
  { intros p H1 H2. destruct (negb _); [by eapply origins_change_other|by injection Hch as <-]. }
  split; [|split; [by rewrite lookup_insert_eq|]].
  - intros p b Hin. destruct (Hc p b Hin) as [(Hs & Ho & He & Hcf & _)%cert_path_apart Hp]. eapply provided_other; [|exact Hp].
    rewrite lookup_insert_ne, Hsame, drop_domains_other by done. by eapply render_domains_other.
  - intros Hop. assert (Hop0 : dr_Operation r = "replace"%string) by congruence.
    rewrite Hd2, Hd1. apply NextState_replaced in Hn as [H1 H2]; [|done|rewrite Hd2, Hd1; by apply Hold]. rewrite Hd2, Hd1 in *.
    destruct (configPath_apart (dr_OldDomain r)) as (Hs & Ho & He). rewrite lookup_insert_ne, Hsame by done. by apply drop_domains_dropped.
Qed.

End planned.

(** ** Applying a request *)

Section applying.
Context (root : string).
Context (url_Parse : string -> option url) (Match : string -> string -> option bool) (Join : string -> string -> string).
Context (MarshalState : State -> bytes) (UnmarshalState : bytes -> res State) (MarshalOrigins : list string -> bytes).
Context (sha256_hex16 : bytes -> string) (ValidateCertificate : string -> bytes -> bytes -> bool) (group : res Z) (tmp : string).
Context (r : Request) (w0 : world).

(** The plan for the request on the files of [w0]. *)
Definition planned : res (option plan) :=
  r ← normalized r;
  plan_of root url_Parse Match Join MarshalState UnmarshalState MarshalOrigins sha256_hex16 ValidateCertificate (w_files w0) r.

Definition applying (faults : nat -> op -> fault) : Sys () :=
  Apply root faults url_Parse Match Join MarshalState UnmarshalState MarshalOrigins sha256_hex16 ValidateCertificate group tmp r.

(** The contents after the changes of a plan. *)
Definition as_planned (pl : plan) (w : world) : Prop := forall p, content w p = target (pl_changes pl) (content w0) p.

(** Nothing has happened yet. *)
Definition calm (w : world) : Prop := w_pending w = None /\ w_files w = w_files w0.

Definition keys_of (pl : plan) : list string := merge_sort str_le (map fst (map_to_list (pl_changes pl))).

Definition taken (pl : plan) : list snapshot := map (fun p => mk_snapshot p (w_files w0 !! p)) (keys_of pl).

Definition safe_for (pl : plan) : world -> Prop := safe (pl_changes pl) (content w0) (taken pl).

Lemma keys_of_all pl p : p ∈ keys_of pl <-> is_Some (pl_changes pl !! p).
Proof.
  unfold keys_of. rewrite merge_sort_Permutation, list_elem_of_In, in_map_iff. split.
  - intros ([q c] & <- & H). apply list_elem_of_In, elem_of_map_to_list in H. by exists c.
  - intros [c H]. exists (p, c). split; [done|]. by apply list_elem_of_In, elem_of_map_to_list.
Qed.

Lemma taken_before pl s : s ∈ taken pl -> fl_data <$> sn_file s = content w0 (sn_Path s).
Proof. unfold taken. by intros (p & <- & _)%list_elem_of_In%in_map_iff. Qed.

Lemma taken_all pl p : is_Some (pl_changes pl !! p) -> p ∈ map sn_Path (taken pl).
Proof. intros H%keys_of_all. unfold taken. rewrite map_map. cbn. by rewrite map_id. Qed.

Lemma calm_safe pl w : calm w -> safe_for pl w.
Proof. intros [H1 H2]. left. split; [done|]. intros p. unfold content. by rewrite H2. Qed.

Section run.
Context (faults : nat -> op -> fault).

Lemma reading_calm {A} what (f : world -> res A) :
  triple calm calm (reading faults what f) (fun a w => calm w /\ exists w', calm w' /\ f w' = Ok a) calm.
Proof. apply triple_reading; eauto. Qed.

Lemma captures_calm keys :
  triple calm calm (captures faults keys) (fun l w => calm w /\ l = map (fun p => mk_snapshot p (w_files w0 !! p)) keys) calm.
Proof.
  induction keys as [|p keys IH]; cbn [captures map]; [by apply triple_ret|].
  eapply triple_bind with (R := fun s w => calm w /\ s = mk_snapshot p (w_files w0 !! p)).
  - eapply triple_weaken; [apply reading_calm|done| |done]. intros s w (Hw & w' & [_ Hf] & H). injection H as <-. by rewrite Hf.
  - intros s. eapply triple_pure. intros ->. eapply triple_bind; [apply IH|]. intros l. apply triple_pure. intros ->. by apply triple_ret.
Qed.

Lemma triple_seen {A} (V V' : world -> Prop) P (m : Sys A) Q E : triple V P m Q E -> (forall w, V w -> V' w) -> triple V' P m Q E.
Proof.
  intros Hm HV w Hw. specialize (Hm w Hw). destruct (m w) as [[seen a] w']. destruct Hm as [H1 H2]. split; [|done].
  by eapply Forall_impl.
Qed.

(** The writes the engine relies on: the journal is written whole or not at
    all, and the commit is followed by no failure. *)
Definition sound : Prop :=
  (forall n, faults n OJournal <> broken) /\ (forall n, faults n OLast = fine) /\ (forall n, faults n OUnjournal = fine).

Lemma commit_complete pl : sound -> planned = Ok (Some pl) ->
  triple (safe_for pl) calm (commit root faults Match Join group tmp pl) (fun _ w => w_pending w = None /\ as_planned pl w) (safe_for pl).
Proof.
  intros (Hj & Hl & Hu) Hpl. unfold planned in Hpl. apply res_bind_Ok in Hpl as (r1 & Hr1 & Hpl). apply plan_of_holds in Hpl as (Hc & Hs & Ho).
  2: { intros Hop. unfold normalized in Hr1. apply res_bind_Ok in Hr1 as (d & _ & Hr1). apply res_bind_Ok in Hr1 as (old & Hold & Hr1).
       injection Hr1 as <-. cbn in *. rewrite bool_decide_eq_true_2 in Hold by done. by eapply NormalizeDomain_again. }
  unfold commit. fold (keys_of pl).
  eapply triple_bind with (R := fun l w => calm w /\ l = taken pl).
  { eapply triple_weaken; [eapply triple_seen; [apply captures_calm|apply calm_safe]|done|done|apply calm_safe]. }
  intros l. apply triple_pure. intros ->.
  eapply triple_bind with (R := fun _ w => calm w /\ going (pl_changes pl) (taken pl) (w_mem w) /\ jr_Phase (w_mem w) = "prepared"%string).
  { by apply triple_set. }
  intros ?. assert (Hm : forall w, calm w /\ going (pl_changes pl) (taken pl) (w_mem w) /\ jr_Phase (w_mem w) = "prepared"%string ->
    moving (pl_changes pl) (content w0) (taken pl) none none (set_pending (Some (w_mem w)) w)).
  { intros w ([_ Hf] & Hg & Hp). split; [done|]. split; [done|]. cbn. rewrite Hp. split; [done|]. split; [|by split].
    intros p. left. unfold content. cbn. by rewrite Hf. }
  eapply triple_bind with (R := fun _ => moving (pl_changes pl) (content w0) (taken pl) none none).
  - apply triple_act; [done|intros w [H _]; by apply calm_safe|intros w H; by eapply moving_safe, Hm|done| |].
    + intros w n [H _] _. by apply calm_safe.
    + intros w n _ H. by destruct (Hj n).
  - intros ?. eapply triple_weaken; [apply or_rollback_moving|done|done|done].
    + apply taken_before.
    + apply taken_all.
    + done.
    + done.
    + done.
    + done.
    + apply keys_of_all.
    + intros p b Hin. unfold target. destruct (Hc p b Hin) as [->|[-> H]]; [done|exact H].
    + done.
    + done.
Qed.

(** Where a run may stop. *)
Definition visited (w : world) : Prop := calm w \/ exists pl, planned = Ok (Some pl) /\ safe_for pl w.

(** What a success means. *)
Definition answered_by (w : world) : Prop :=
  if dr_DryRun r then calm w
  else exists pl, planned = Ok pl /\ match pl with None => calm w | Some pl => w_pending w = None /\ as_planned pl w end.

Lemma Apply_visits : sound -> triple visited calm (applying faults) (fun _ => answered_by) visited.
Proof.
  intros Hsound. unfold applying, Apply.
  assert (Hq : forall {A} (m : Sys A) Q, triple calm calm m Q calm -> triple visited calm m Q visited).
  { intros A m Q H. eapply triple_weaken; [eapply triple_seen; [exact H|by left]|done|done|by left]. }
  eapply triple_bind with (R := fun r1 w => calm w /\ normalized r = Ok r1).
  { apply Hq. apply triple_lift; [|done]. by intros r1 w H Hw. }
  intros r1. apply triple_pure. intros Hr1. assert (Hdry : dr_DryRun r1 = dr_DryRun r).
  { unfold normalized in Hr1. apply res_bind_Ok in Hr1 as (? & _ & Hr1). apply res_bind_Ok in Hr1 as (? & _ & Hr1). by injection Hr1 as <-. }
  eapply triple_bind with (R := fun _ => calm).
  { apply Hq. destruct (dr_DryRun r1).
    - eapply triple_bind; [apply reading_calm|]. intros p. apply triple_lift; by intros ? ? _ [H _].
    - eapply triple_bind with (R := fun _ => calm); [apply triple_act; by intros|]. intros ?. unfold recover.
      eapply triple_bind; [apply reading_calm|]. intros [j|].
      + intros w [_ (w' & [H _] & H')]. by rewrite H in H'.
      + apply triple_ret. by intros w [H _]. }
  intros ?. eapply triple_bind with (R := fun pl w => calm w /\ planned = Ok pl).
  { apply Hq. eapply triple_weaken; [apply reading_calm|done| |done]. intros pl w (Hw & w' & [_ Hf] & H). split; [done|].
    unfold planned. rewrite Hr1. cbn. by rewrite <- Hf. }
  intros pl. apply triple_pure. intros Hpl. unfold answered_by. rewrite Hdry.
  destruct pl as [pl|]; [|apply Hq, triple_ret; intros w Hw; destruct (dr_DryRun r); [done|by exists None]].
  destruct (dr_DryRun r); [by apply Hq, triple_ret|].
  eapply triple_bind with (R := fun _ => calm); [apply Hq; by apply triple_lift|]. intros _.
  eapply triple_weaken; [eapply triple_seen; [by apply commit_complete|]|done| |].
  - intros w H. right. by exists pl.
  - intros ? w H. by exists (Some pl).
  - intros w H. right. by exists pl.
Qed.

End run.

(** The worlds a run passes through, its end included. *)
Definition visits {A} (run : list world * res A * world) (w : world) : Prop :=
  let '(seen, _, w') := run in w = w' \/ w ∈ seen.

(** What a crash, and crashes of the recoveries that follow it, can leave. *)
Inductive reached : world -> Prop :=
| reached_apply faults w : sound faults -> visits (applying faults w0) w -> reached w
| reached_again faults w w' : reached w -> visits (recover root faults w) w' -> reached w'.

Lemma triple_visits {A} (V P : world -> Prop) (m : Sys A) (Q : A -> world -> Prop) E w w' : triple V P m Q E -> P w ->
  (forall a x, Q a x -> V x) -> (forall x, E x -> V x) -> visits (m w) w' -> V w'.
Proof.
  intros Hm Hw HQ HE. specialize (Hm w Hw). unfold visits. destruct (m w) as [[seen [a|e]] x]; destruct Hm as [Hs Hx].
  - intros [->|H]; [by eapply HQ|]. by eapply Forall_forall.
  - intros [->|H]; [by eapply HE|]. by eapply Forall_forall.
Qed.

Lemma settled_safe pl w : settled (pl_changes pl) (content w0) w -> safe_for pl w.
Proof. intros [Hp [H|H]]; [by left|right; right; split; [by left|done]]. Qed.

Lemma recover_safe_for faults pl : triple (safe_for pl) (safe_for pl) (recover root faults)
  (fun _ => settled (pl_changes pl) (content w0)) (fun w => failing faults /\ safe_for pl w).
Proof. apply recover_settles; [apply taken_before|apply taken_all]. Qed.

Lemma recover_calm faults : triple calm calm (recover root faults) (fun _ => calm) (fun w => failing faults /\ calm w).
Proof.
  unfold recover. eapply triple_bind with (R := fun p w => calm w /\ p = None).
  - apply triple_reading; [done|done| |done|]; [by intros w a [Hp Hf] [= <-]|]. intros w n H Hn. split; [by exists n, (ORead "pending.json")|done].
  - intros p. apply triple_pure. intros ->. by apply triple_ret.
Qed.

Lemma reached_visited w : calm w0 -> reached w -> visited w.
Proof.
  intros H0 H. induction H as [faults w Hs H|faults w w' _ IH H].
  - eapply (triple_visits visited calm); [by apply Apply_visits|exact H0| |done|exact H].
    intros ? x. unfold answered_by. destruct (dr_DryRun r); [by left|]. intros ([pl|] & Hpl & Hx); [|by left].
    right. exists pl. split; [done|]. apply settled_safe. destruct Hx. split; [done|by right].
  - destruct IH as [Hw|(pl & Hpl & Hw)].
    + left. eapply (triple_visits calm calm); [apply (recover_calm faults)|exact Hw|done|by intros x [_ Hx]|exact H].
    + right. exists pl. split; [done|]. eapply (triple_visits (safe_for pl)); [apply (recover_safe_for faults pl)|exact Hw| | |exact H].
      * intros ? x. apply settled_safe.
      * by intros x [_ Hx].
Qed.

End applying.

(** ** All or nothing *)

Section theorems.
Context (root : string).
Context (url_Parse : string -> option url) (Match : string -> string -> option bool) (Join : string -> string -> string).
Context (MarshalState : State -> bytes) (UnmarshalState : bytes -> res State) (MarshalOrigins : list string -> bytes).
Context (sha256_hex16 : bytes -> string) (ValidateCertificate : string -> bytes -> bytes -> bool) (group : res Z) (tmp : string).

#[local] Abbreviation planned := (planned root url_Parse Match Join MarshalState UnmarshalState MarshalOrigins sha256_hex16 ValidateCertificate).
#[local] Abbreviation applying := (applying root url_Parse Match Join MarshalState UnmarshalState MarshalOrigins sha256_hex16 ValidateCertificate group tmp).
#[local] Abbreviation reached := (reached root url_Parse Match Join MarshalState UnmarshalState MarshalOrigins sha256_hex16 ValidateCertificate group tmp).


(** C20: what the answer of a request means.  When applying it succeeds, a dry
    run has changed no file; otherwise the request had a plan for the files as
    they were, the journal is gone, and every file has the content of the plan
    (an empty plan leaves the files alone). *)
Theorem Apply_applies (faults : nat -> op -> fault) (r : Request) (w0 : world) :
  sound faults -> w_pending w0 = None ->
  let '(_, out, w) := applying r faults w0 in
  out = Ok tt -> w_pending w = None /\
  (if dr_DryRun r then w_files w = w_files w0
   else exists pl, planned r w0 = Ok pl /\
     match pl with Some pl => as_planned w0 pl w | None => w_files w = w_files w0 end).
Proof.
  intros Hs H0. pose proof (Apply_visits root url_Parse Match Join MarshalState UnmarshalState MarshalOrigins sha256_hex16
    ValidateCertificate group tmp r w0 faults Hs w0 (conj H0 eq_refl)) as H.
  destruct (applying r faults w0) as [[seen out] w]. intros ->. destruct H as [_ H]. revert H. unfold answered_by.
  destruct (dr_DryRun r); [done|]. intros ([pl|] & Hpl & Hw); [|by split; [apply Hw|exists None; split; [done|apply Hw]]].
  split; [apply Hw|]. exists (Some pl). split; [done|apply Hw].
Qed.

End theorems.

(** ** A host *)

(** A single star, not across a slash. *)
Definition star_match (pattern name : string) : option bool :=
  Some (match split_once 42 (s2b pattern) with
        | (_, None) => bool_decide (pattern = name)
        | (front, Some back) =>
            let m := String.substring (length front) (String.length name - length front - length back) name in
            bool_decide (name = (b2s front ++ m ++ b2s back)%string) && negb (Contains m "/")
        end).

Definition join_path (a b : string) : string := (a ++ "/" ++ b)%string.

Definition marshal_names (s : State) : bytes := s2b (String.concat "," (map (fun kv => kv.1) (map_to_list (st_Domains s)))).

Definition host_files : gmap string file :=
  <[nginxMain := mk_file (s2b "http { include /www/server/panel/vhost/nginx/*.conf; }") 420 (0, 0)]>
    (<["/root/cert.pem"%string := mk_file (s2b "cert") 420 (0, 0)]>
    {[ "/root/key.pem"%string := mk_file (s2b "key") 384 (0, 0) ]}).

Definition no_journal : journal := mk_journal ∅ [] false "" [] false (mk_State 1 ∅) (mk_State 1 ∅).

Definition host : world := mk_world host_files None None no_journal 0.

Definition adding : Request := mk_Request "add" "play.example.com" "" [] "/root/cert.pem" "/root/key.pem" "" false.

(** The server does not reload, and the new configuration cannot be removed. *)
Definition stubborn (n : nat) (o : op) : fault :=
  match o with
  | OCommand _ args => if bool_decide (head args = Some "-s"%string) then refused else fine
  | ORemove _ => refused
  | _ => fine
  end.

Definition host_applying (faults : nat -> op -> fault) : Sys () :=
  applying "/" (fun _ => None) star_match join_path marshal_names (fun _ => Err ErrState) (fun _ => []) (fun _ => "00"%string)
    (fun _ _ _ => true) (Ok 33) "/tmp" adding faults.

Definition stopped : world := (host_applying stubborn host).2.

Lemma visits_end {A} (run : list world * res A * world) : visits run run.2.
Proof. destruct run as [[seen o] w]. by left. Qed.

Lemma stubborn_sound : sound stubborn.
Proof. repeat split; by intros n. Qed.


Lemma fine_sound : sound (fun _ _ => fine).
Proof. repeat split; by intros n. Qed.

Lemma Apply_applies_witness :
  (host_applying (fun _ _ => fine) host).1.2 = Ok tt /\
  let '(_, out, w) := host_applying (fun _ _ => fine) host in
  out = Ok tt -> w_pending w = None /\
  (exists pl, planned "/" (fun _ => None) star_match join_path marshal_names (fun _ => Err ErrState) (fun _ => []) (fun _ => "00"%string)
     (fun _ _ _ => true) adding host = Ok pl /\
     match pl with Some pl => as_planned host pl w | None => w_files w = w_files host end).
Proof.
  split; [vm_compute; reflexivity|].
  exact (Apply_applies "/" (fun _ => None) star_match join_path marshal_names (fun _ => Err ErrState) (fun _ => []) (fun _ => "00"%string)
    (fun _ _ _ => true) (Ok 33) "/tmp" (fun _ _ => fine) adding host fine_sound eq_refl).
Defined.
