(* ===== verification/Robot.v ===== *)
(** * Robots

    [application/virtualbot]: the plans by which virtual players bet (plans.go)
    and the bets they make, one round at a time (service.go).

    [uuid.Parse] and the random source are arguments.  A plan that another
    transaction has locked is skipped ([SKIP LOCKED]), as if it were not due.
    Left out: [ListPlans], a listing. *)

From S2P Require Import Prelude GoStrings Json Game Schema Store Draws Betting.

Definition ErrInvalidPlan : error := Sentinel "virtualbot.ErrInvalidPlan".
Definition ErrPlanNotFound : error := Sentinel "virtualbot.ErrPlanNotFound".
Definition ErrPlanConflict : error := Sentinel "virtualbot.ErrPlanConflict".
Definition robot_ErrForbidden : error := Sentinel "virtualbot.ErrForbidden".
Definition ErrPlanJSON : error := Sentinel "json.Unmarshal of a plan".

(** ** plans.go *)

Record Selection : Type := mk_Selection {
  sl_PlayMode : string;
  sl_Pick : string
}.

#[export] Instance Selection_eq_dec : EqDecision Selection.
Proof. solve_decision. Defined.

Record PlanInput : Type := mk_PlanInput {
  pn_UserID : Z;
  pn_Enabled : bool;
  pn_GameType : string;
  pn_GameRoomID : string;
  pn_Currency : string;
  pn_MinStakeMinor : Z;
  pn_MaxStakeMinor : Z;
  pn_Selections : list Selection;
  pn_SkipMin : Z;
  pn_SkipMax : Z
}.

#[export] Instance PlanInput_eq_dec : EqDecision PlanInput.
Proof. solve_decision. Defined.

Record Plan : Type := mk_Plan {
  pn_Input : PlanInput;
  pn_ID : string;
  pn_LoginName : string;
  pn_DisplayName : string;
  pn_IsVirtual : bool;
  pn_UserStatus : string;
  pn_NextRoundSequence : option Z;
  pn_LastSeenSequence : option Z;
  pn_LastCheckedAt : option Z;
  pn_LastStatus : string;
  pn_LastError : string;
  pn_LastBetID : option string;
  pn_CreatedAt : Z;
  pn_UpdatedAt : Z
}.

Definition set_currency (c : string) (i : PlanInput) : PlanInput :=
  mk_PlanInput (pn_UserID i) (pn_Enabled i) (pn_GameType i) (pn_GameRoomID i) c (pn_MinStakeMinor i)
    (pn_MaxStakeMinor i) (pn_Selections i) (pn_SkipMin i) (pn_SkipMax i).

Definition hash_games : list string := ["hash_9"; "hash_13"; "hash_17"; "hash_19"; "hash_23"; "hash_29"]%string.

Definition one_digit_pick (pick : string) : bool :=
  match s2b pick with [c] => is_digit c | _ => false end.

Definition pick_ok (s : Selection) : bool :=
  if bool_decide (sl_PlayMode s = "road"%string) then bool_decide (sl_Pick s ∈ ["odd"; "even"; "big"; "small"]%string)
  else if bool_decide (sl_PlayMode s ∈ ["guess"; "dodge"]%string) then one_digit_pick (sl_Pick s)
  else false.

Definition validatePlan (is_uuid : string -> bool) (i : PlanInput) : res () :=
  fail_if (negb (is_uuid (pn_GameRoomID i))) ErrInvalidPlan;;
  fail_if ((pn_UserID i <? 10001) || bool_decide (pn_Currency i = ""%string) || (pn_MinStakeMinor i <=? 0) ||
           (pn_MaxStakeMinor i <? pn_MinStakeMinor i) || (int64_max / 100000 <? pn_MaxStakeMinor i)) ErrInvalidPlan;;
  fail_if ((pn_SkipMin i <? 1) || (pn_SkipMax i <? pn_SkipMin i) || (10000 <? pn_SkipMax i) ||
           bool_decide (pn_Selections i = []) || (24 <? Z.of_nat (length (pn_Selections i)))) ErrInvalidPlan;;
  fail_if (negb (bool_decide (pn_GameType i ∈ hash_games))) ErrInvalidPlan;;
  fail_if (negb (bool_decide (NoDup (pn_Selections i)))) ErrInvalidPlan;;
  fail_if (negb (forallb pick_ok (pn_Selections i))) ErrInvalidPlan.

(** The JSON of an input and of its selections. *)
Definition selection_json (s : Selection) : json :=
  JObj [("play_mode", JStr (sl_PlayMode s)); ("pick", JStr (sl_Pick s))]%string.

Definition selections_json (l : list Selection) : json := JArr (map selection_json l).

Definition plan_json (i : PlanInput) : json :=
  JObj [("user_id", JInt (pn_UserID i)); ("enabled", JBool (pn_Enabled i)); ("game_type", JStr (pn_GameType i));
        ("game_room_id", JStr (pn_GameRoomID i)); ("currency", JStr (pn_Currency i));
        ("min_stake_minor", JInt (pn_MinStakeMinor i)); ("max_stake_minor", JInt (pn_MaxStakeMinor i));
        ("selections", selections_json (pn_Selections i));
        ("skip_min", JInt (pn_SkipMin i)); ("skip_max", JInt (pn_SkipMax i))]%string.

Definition dec_selection (j : json) : option Selection :=
  dec_struct (fun k v s =>
    if is_key "play_mode" k then option_map (fun x => mk_Selection x (sl_Pick s)) (dec_string (sl_PlayMode s) v)
    else if is_key "pick" k then option_map (fun x => mk_Selection (sl_PlayMode s) x) (dec_string (sl_Pick s) v)
    else Some s) (mk_Selection "" "") j.

Definition dec_selections (old : list Selection) (j : json) : option (list Selection) :=
  match j with
  | JArr l => mapM dec_selection l
  | JNull => Some []
  | _ => None
  end.

Definition no_plan_input : PlanInput := mk_PlanInput 0 false "" "" "" 0 0 [] 0 0.

Definition dec_plan_input (j : json) : option PlanInput :=
  dec_struct (fun k v i =>
    let 'mk_PlanInput user enabled game room currency low high picks skip_min skip_max := i in
    if is_key "user_id" k then x ← dec_int64 user v; Some (mk_PlanInput x enabled game room currency low high picks skip_min skip_max)
    else if is_key "enabled" k then x ← dec_bool enabled v; Some (mk_PlanInput user x game room currency low high picks skip_min skip_max)
    else if is_key "game_type" k then x ← dec_string game v; Some (mk_PlanInput user enabled x room currency low high picks skip_min skip_max)
    else if is_key "game_room_id" k then x ← dec_string room v; Some (mk_PlanInput user enabled game x currency low high picks skip_min skip_max)
    else if is_key "currency" k then x ← dec_string currency v; Some (mk_PlanInput user enabled game room x low high picks skip_min skip_max)
    else if is_key "min_stake_minor" k then x ← dec_int64 low v; Some (mk_PlanInput user enabled game room currency x high picks skip_min skip_max)
    else if is_key "max_stake_minor" k then x ← dec_int64 high v; Some (mk_PlanInput user enabled game room currency low x picks skip_min skip_max)
    else if is_key "selections" k then x ← dec_selections picks v; Some (mk_PlanInput user enabled game room currency low high x skip_min skip_max)
    else if is_key "skip_min" k then x ← dec_int64 skip_min v; Some (mk_PlanInput user enabled game room currency low high picks x skip_max)
    else if is_key "skip_max" k then x ← dec_int64 skip_max v; Some (mk_PlanInput user enabled game room currency low high picks skip_min x)
    else Some i) no_plan_input j.

(** *** The rows *)

Definition set_schedule (next seen : option Z) (r : robot_plan_row) : robot_plan_row :=
  mk_robot_plan_row (rb_user_id r) (rb_operator_id r) (rb_request_id r) (rb_create_input r) (rb_enabled r) (rb_deleted r)
    (rb_game_type r) (rb_game_room_id r) (rb_currency r) (rb_min_stake_minor r) (rb_max_stake_minor r) (rb_selections r)
    (rb_skip_min r) (rb_skip_max r) next seen (rb_last_checked_at r) (rb_last_status r) (rb_last_error r)
    (rb_last_bet_id r) (rb_created_at r) (rb_updated_at r).

Definition set_checked (at_ : option Z) (status error_ : string) (r : robot_plan_row) : robot_plan_row :=
  mk_robot_plan_row (rb_user_id r) (rb_operator_id r) (rb_request_id r) (rb_create_input r) (rb_enabled r) (rb_deleted r)
    (rb_game_type r) (rb_game_room_id r) (rb_currency r) (rb_min_stake_minor r) (rb_max_stake_minor r) (rb_selections r)
    (rb_skip_min r) (rb_skip_max r) (rb_next_round_sequence r) (rb_last_seen_sequence r) at_ status error_
    (rb_last_bet_id r) (rb_created_at r) (rb_updated_at r).

Definition set_last_bet (bet : string) (r : robot_plan_row) : robot_plan_row :=
  mk_robot_plan_row (rb_user_id r) (rb_operator_id r) (rb_request_id r) (rb_create_input r) (rb_enabled r) (rb_deleted r)
    (rb_game_type r) (rb_game_room_id r) (rb_currency r) (rb_min_stake_minor r) (rb_max_stake_minor r) (rb_selections r)
    (rb_skip_min r) (rb_skip_max r) (rb_next_round_sequence r) (rb_last_seen_sequence r) (rb_last_checked_at r)
    (rb_last_status r) (rb_last_error r) (Some bet) (rb_created_at r) (rb_updated_at r).

Definition set_enabled (enabled deleted : bool) (now : Z) (r : robot_plan_row) : robot_plan_row :=
  mk_robot_plan_row (rb_user_id r) (rb_operator_id r) (rb_request_id r) (rb_create_input r) enabled deleted
    (rb_game_type r) (rb_game_room_id r) (rb_currency r) (rb_min_stake_minor r) (rb_max_stake_minor r) (rb_selections r)
    (rb_skip_min r) (rb_skip_max r) (rb_next_round_sequence r) (rb_last_seen_sequence r) (rb_last_checked_at r)
    (rb_last_status r) (rb_last_error r) (rb_last_bet_id r) (rb_created_at r) now.

Definition set_plan (i : PlanInput) (now : Z) (r : robot_plan_row) : robot_plan_row :=
  mk_robot_plan_row (rb_user_id r) (rb_operator_id r) (rb_request_id r) (rb_create_input r) (pn_Enabled i) (rb_deleted r)
    (pn_GameType i) (pn_GameRoomID i) (pn_Currency i) (pn_MinStakeMinor i) (pn_MaxStakeMinor i)
    (selections_json (pn_Selections i)) (pn_SkipMin i) (pn_SkipMax i) None None None "ready" ""
    (rb_last_bet_id r) (rb_created_at r) now.

Definition new_plan (user actor key : string) (i : PlanInput) (now : Z) : robot_plan_row :=
  mk_robot_plan_row user actor key (jsonb (plan_json i)) (pn_Enabled i) false (pn_GameType i) (pn_GameRoomID i)
    (pn_Currency i) (pn_MinStakeMinor i) (pn_MaxStakeMinor i) (selections_json (pn_Selections i)) (pn_SkipMin i)
    (pn_SkipMax i) None None None "ready" "" None now now.

(** The CHECKs of the table. *)
Definition plan_row_ok (r : robot_plan_row) : bool :=
  bool_decide (rb_game_type r ∈ hash_games) && (0 <? rb_min_stake_minor r) && (rb_min_stake_minor r <=? rb_max_stake_minor r) &&
  (rb_max_stake_minor r <=? int64_max) && match rb_selections r with JArr (_ :: _) => true | _ => false end &&
  (1 <=? rb_skip_min r) && (rb_skip_min r <=? rb_skip_max r) && (rb_skip_max r <=? 10000).

(** UNIQUE(operator_id, request_id) *)
Definition plan_key (actor key : string) (_ : string) (r : robot_plan_row) : bool :=
  bool_decide (rb_operator_id r = actor) && bool_decide (rb_request_id r = key).

(** [scanPlan]: a plan that satisfies [P], with its user. *)
Definition scanPlan (P : robot_plan_row -> user_row -> bool) (id : string) (db : DB) : res Plan :=
  r ← of_option ErrPlanNotFound (robot_plans db.(app) !! id);
  u ← of_option ErrPlanNotFound (users db.(app) !! rb_user_id r);
  fail_if (negb (P r u)) ErrPlanNotFound;;
  picks ← of_option ErrPlanJSON (dec_selections [] (rb_selections r));
  Ok (mk_Plan (mk_PlanInput (u_public_id u) (rb_enabled r) (rb_game_type r) (rb_game_room_id r) (rb_currency r)
                 (rb_min_stake_minor r) (rb_max_stake_minor r) picks (rb_skip_min r) (rb_skip_max r))
        id (default ""%string (u_login_name u)) (u_display_name u) (u_is_virtual u) (u_status u)
        (rb_next_round_sequence r) (rb_last_seen_sequence r) (rb_last_checked_at r) (rb_last_status r) (rb_last_error r)
        (rb_last_bet_id r) (rb_created_at r) (rb_updated_at r)).

Definition any_plan (_ : robot_plan_row) (_ : user_row) : bool := true.
Definition live_plan (r : robot_plan_row) (_ : user_row) : bool := negb (rb_deleted r).

Definition virtual_user (public : Z) (_ : string) (u : user_row) : bool := (u_public_id u =? public) && u_is_virtual u.

Definition max_stake_of (mode : string) (c : hash_config_row) : Z :=
  if bool_decide (mode = "guess"%string) then hc_guess_max_stake_minor c
  else if bool_decide (mode = "dodge"%string) then hc_dodge_max_stake_minor c
  else hc_road_max_stake_minor c.

(** A room that takes the pick for the whole range of stakes. *)
Definition pick_available (i : PlanInput) (db : DB) (s : Selection) : bool :=
  from_option (fun r => gr_enabled r && bool_decide (gr_game_kind r = "hash"%string)) false (game_rooms db.(app) !! pn_GameRoomID i) &&
  existsb (fun kv => bool_decide (gt_code kv.2 = pn_GameType i) && gt_enabled kv.2 &&
             bool_decide ((pn_GameRoomID i, kv.1) ∈ game_room_types db.(app))) (map_to_list (game_types db.(app))) &&
  from_option cur_enabled false (currencies db.(app) !! pn_Currency i) &&
  existsb (fun c => bool_decide (hc_room_id c = pn_GameRoomID i) && bool_decide (hc_currency c = pn_Currency i) &&
             (hc_min_stake_minor c <=? pn_MinStakeMinor i) && (pn_MaxStakeMinor i <=? max_stake_of (sl_PlayMode s) c))
    (hash_room_currency_configs db.(app)).

Section plans.
Context `{Uuids} (is_uuid : string -> bool).

Definition validatePlanDB (i : PlanInput) (db : DB) : res string :=
  validatePlan is_uuid i;;
  u ← of_option ErrInvalidPlan (find_row (virtual_user (pn_UserID i)) (users db.(app)));
  fail_if (negb (forallb (pick_available i db) (pn_Selections i))) ErrInvalidPlan;;
  Ok u.1.

Definition active_staff (actor : string) (db : DB) : bool :=
  from_option (fun u => bool_decide (u_status u = "active"%string)) false (users db.(app) !! actor) &&
  existsb (fun r => bool_decide ((actor, r) ∈ user_roles db.(app))) ["admin"; "operator"]%string.

Definition robot_authorize (actor : string) : Tx () :=
  ok ← gets (active_staff actor);
  reject_if (negb ok) robot_ErrForbidden.

Definition auditPlan (actor action id : string) : Tx () :=
  insert_audit (mk_audit (Some actor) action "robot_plan" id None (JObj [])).

Definition scan (P : robot_plan_row -> user_row -> bool) (id : string) : Tx Plan :=
  v ← gets (scanPlan P id);
  lift v.

Definition GetPlan (id : string) (db : DB) : res Plan :=
  fail_if (negb (is_uuid id)) ErrPlanNotFound;;
  scanPlan live_plan id db.

Definition upper_currency (i : PlanInput) : PlanInput := set_currency (ToUpper (TrimSpace (pn_Currency i))) i.

(** The answer to a repeated request. *)
Definition prior_plan (i : PlanInput) (id : string) (r : robot_plan_row) : Tx Plan :=
  prior ← found ErrPlanConflict (dec_plan_input (rb_create_input r));
  reject_if (negb (bool_decide (plan_json prior = plan_json i)) || rb_deleted r) ErrPlanConflict;;
  scan any_plan id.

Definition CreatePlan (t : clock) (actor key : string) (input : PlanInput) : Tx Plan :=
  let i := upper_currency input in
  reject_if ((str_len key =? 0) || (128 <? str_len key)) ErrInvalidPlan;;
  lift (validatePlan is_uuid i);;
  robot_authorize actor;;
  known ← select_where (R := robot_plan_row) (plan_key actor key);
  match known with
  | Some (id, r) => prior_plan i id r
  | None =>
      checked ← gets (validatePlanDB i);
      user ← lift checked;
      id ← new_uuid;
      let row := new_plan user actor key i (sql_now t) in
      reject_if (negb (plan_row_ok row)) (CheckViolation "robot_plans_check");;
      insert_row (plan_key actor key id) id row;;
      auditPlan actor "robot_plan.create" id;;
      scan any_plan id
  end.

Definition UpdatePlan (t : clock) (actor id : string) (input : PlanInput) : Tx Plan :=
  let i := upper_currency input in
  reject_if (negb (is_uuid id)) ErrPlanNotFound;;
  robot_authorize actor;;
  old ← scan live_plan id;
  reject_if (negb (pn_UserID i =? pn_UserID (pn_Input old))) ErrInvalidPlan;;
  checked ← gets (validatePlanDB i);
  lift checked;;
  update_row (R := robot_plan_row) id (set_plan i (sql_now t));;
  auditPlan actor "robot_plan.update" id;;
  scan any_plan id.

Definition switch (enabled : bool) (now : Z) (r : robot_plan_row) : robot_plan_row :=
  set_enabled enabled (rb_deleted r) now
    (set_checked None (if enabled then "ready" else "stopped") "" (set_schedule None None r)).

Definition SetPlanEnabled (t : clock) (actor id : string) (enabled : bool) : Tx Plan :=
  reject_if (negb (is_uuid id)) ErrPlanNotFound;;
  robot_authorize actor;;
  old ← scan live_plan id;
  (if enabled then checked ← gets (validatePlanDB (pn_Input old)); lift checked;; mret () else mret ());;
  (if negb (Bool.eqb (pn_Enabled (pn_Input old)) enabled) then
     update_row (R := robot_plan_row) id (switch enabled (sql_now t));;
     auditPlan actor "robot_plan.enabled" id
   else mret ());;
  scan any_plan id.

Definition drop_plan (now : Z) (r : robot_plan_row) : robot_plan_row :=
  set_enabled false true now (set_checked (rb_last_checked_at r) "deleted" (rb_last_error r) r).

Definition DeletePlan (t : clock) (actor id : string) : Tx () :=
  reject_if (negb (is_uuid id)) ErrPlanNotFound;;
  robot_authorize actor;;
  o ← select_id (R := robot_plan_row) id;
  match o with
  | Some r =>
      if rb_deleted r then mret ()
      else
        update_row (R := robot_plan_row) id (drop_plan (sql_now t));;
        auditPlan actor "robot_plan.delete" id
  | None => mret ()
  end.

(** ** service.go *)

(** [random n] is [rand.Int], below [n]. *)
Definition randomBetween (random : Z -> res Z) (low high : Z) : res Z :=
  fail_if ((low <? 0) || (high <? low) || (high - low =? int64_max)) ErrInvalidPlan;;
  n ← random (high - low + 1);
  Ok (low + n)%i64.

Definition checked_before (now : Z) (r : robot_plan_row) : bool :=
  from_option (fun c => c <? now - 1000000000) true (rb_last_checked_at r).

Definition due (now : Z) (r : robot_plan_row) (u : user_row) : bool :=
  rb_enabled r && negb (rb_deleted r) && u_is_virtual u && bool_decide (u_status u = "active"%string) &&
  checked_before now r.

(** An open round of the game, the earliest first. *)
Definition by_sequence (x y : string * round_row) : Prop := rd_sequence x.2 <= rd_sequence y.2.

#[export] Instance by_sequence_dec x y : Decision (by_sequence x y).
Proof. unfold by_sequence. apply _. Defined.

Definition bettable (now : Z) (game : string) (db : DB) (r : round_row) : bool :=
  from_option (fun g => bool_decide (gt_code g = game) && gt_enabled g) false (game_types db.(app) !! rd_game_type_id r) &&
  bool_decide (rd_status r = RoundOpen) && (now <? rd_bet_closes_at r).

Definition next_bettable (now : Z) (game : string) : Tx (option (string * round_row)) :=
  gets (fun db => head (merge_sort by_sequence
    (List.filter (fun kv => bettable now game db kv.2) (map_to_list (rounds db.(app)))))).

Definition finish (now : Z) (id status message : string) (n : Z) : Tx Z :=
  update_row (R := robot_plan_row) id (set_checked (Some now) status message);;
  mret n.

(** A nested transaction: a refusal takes back what it did. *)
Definition savepoint {A} (m : Tx (string + A)) : Tx (string + A) := fun db =>
  match m db with
  | Ok (inl message, _) => Ok (inl message, db)
  | r => r
  end.

(** What the plan shows for an error of its bet; other errors stop the run. *)
Definition bet_message (e : error) : option string :=
  if bool_decide (e = ErrBettingClosed) then Some "本期已封盘"
  else if bool_decide (e = ErrStakeOutsideLimits) then Some "投注金额超过房间限额"
  else if bool_decide (e = ErrHashRoomConflict) then Some "同一玩家本期已使用其他赔率房间"
  else if bool_decide (e = ErrAccountDisabled) || bool_decide (e = ErrBettingBanned) then Some "账号已禁用或禁止投注"
  else if bool_decide (e = ErrHashRoomRequired) then Some "房间或玩法不可用"
  else None.

Definition or_message {A} (m : Tx A) : Tx (string + A) := fun db =>
  match m db with
  | Ok (a, db') => Ok (inr a, db')
  | Err e => match bet_message e with Some message => Ok (inl message, db) | None => Err e end
  end.

Definition robot_request (id round user : string) (i : PlanInput) (pick : Selection) (amount : Z) : PlaceBetRequest :=
  mk_PlaceBetRequest id ("robot-" ++ id ++ "-" ++ round) round user (pn_Currency i) (pn_GameRoomID i) (sl_PlayMode pick)
    (Some (JObj [("pick", JStr (sl_Pick pick))])) amount.

(** A wallet of the currency, when there is none yet. *)
Definition robot_wallet (now : Z) (user currency : string) : Tx () :=
  enabled ← gets (fun db => from_option cur_enabled false (currencies db.(app) !! currency));
  if negb enabled then mret ()
  else
    walletID ← new_uuid;
    insert_wallet walletID user currency now;;
    mret ().

Definition robot_bet (t : clock) (stamp : Z) (id round : string) (i : PlanInput) (pick : Selection) (amount : Z)
    : Tx (string + PlacedBet) :=
  o ← gets (fun db => find_row (virtual_user (pn_UserID i)) (users db.(app)));
  user ← found ErrNoRows o;
  robot_wallet (sql_now t) user.1 (pn_Currency i);;
  checked ← gets (validatePlanDB i);
  match checked with
  | Err e => if bool_decide (e = ErrInvalidPlan) then mret (inl "房间、币种、玩法或金额配置已失效"%string) else raise e
  | Ok _ => or_message (PlaceRobotBetTx t stamp (robot_request id round user.1 i pick amount))
  end.

(** The turn of a plan has come: its round is the one it waited for. *)
Definition place_now (t : clock) (stamp : Z) (random : nat -> Z -> res Z) (id round : string) (i : PlanInput) : Tx Z :=
  index ← lift (randomBetween (random 1%nat) 0 (Z.of_nat (length (pn_Selections i)) - 1));
  pick ← found ErrInvalidPlan (pn_Selections i !! Z.to_nat index);
  amount ← lift (randomBetween (random 2%nat) (pn_MinStakeMinor i) (pn_MaxStakeMinor i));
  bet ← savepoint (robot_bet t stamp id round i pick amount);
  match bet with
  | inl message => finish (sql_now t) id "failed" message 0
  | inr placed =>
      update_row (R := robot_plan_row) id (set_last_bet (pl_BetID placed));;
      finish (sql_now t) id "placed" "" 1
  end.

(** The blocks between two rounds of the game. *)
Definition step_of (game : string) : Z := default 0 (ParseInt (TrimPrefix game "hash_")).

Definition run_round (t : clock) (stamp : Z) (random : nat -> Z -> res Z) (v : Plan) (round : string) (seq : Z) : Tx Z :=
  let id := pn_ID v in
  let i := pn_Input v in
  let now := sql_now t in
  let step := step_of (pn_GameType i) in
  if step <=? 0 then finish now id "failed" "游戏类型无效" 0
  else if from_option (fun next => seq <? next) false (pn_NextRoundSequence v) then finish now id "waiting_round" "" 0
  else
    skip ← lift (randomBetween (random 0%nat) (pn_SkipMin i) (pn_SkipMax i));
    if (int64_max - (step * skip)%i64)%i64 <? seq then finish now id "failed" "期号超出范围" 0
    else
      update_row (R := robot_plan_row) id (set_schedule (Some (seq + (step * skip)%i64)%i64) (Some seq));;
      if from_option (fun next => next <? seq) true (pn_NextRoundSequence v) then finish now id "scheduled" "" 0
      else place_now t stamp random id round i.

Definition runPlan (t : clock) (stamp : Z) (random : nat -> Z -> res Z) (id : string) : Tx Z :=
  scanned ← gets (scanPlan (due (sql_now t)) id);
  match scanned with
  | Err e => if bool_decide (e = ErrPlanNotFound) then mret 0 else raise e
  | Ok v =>
      round ← next_bettable (sql_now t) (pn_GameType (pn_Input v));
      match round with
      | None => finish (sql_now t) id "waiting_round" "暂无可投注轮次" 0
      | Some (round, row) => run_round t stamp random v round (rd_sequence row)
      end
  end.

(** [ORDER BY last_checked_at NULLS FIRST, id] *)
Definition checked_first (x y : string * robot_plan_row) : Prop :=
  match rb_last_checked_at x.2, rb_last_checked_at y.2 with
  | None, None => str_le x.1 y.1
  | None, Some _ => True
  | Some _, None => False
  | Some a, Some b => a < b \/ a = b /\ str_le x.1 y.1
  end.

#[export] Instance checked_first_dec x y : Decision (checked_first x y).
Proof. unfold checked_first. repeat case_match; apply _. Defined.

Definition due_plans (now : Z) (limit : nat) (db : DB) : list string :=
  take limit (map fst (merge_sort checked_first (List.filter (fun kv =>
    from_option (due now kv.2) false (users db.(app) !! rb_user_id kv.2)) (map_to_list (robot_plans db.(app)))))).

(** One transaction per plan; the first error ends the run. *)
Fixpoint run_plans (t : string -> clock) (stamp : string -> Z) (random : string -> nat -> Z -> res Z) (ids : list string)
    (count : Z) : Svc Z :=
  match ids with
  | [] => mret count
  | id :: rest =>
      n ← atomically (runPlan (t id) (stamp id) (random id) id);
      run_plans t stamp random rest (count + n)
  end.

Definition RunDue (now : Z) (t : string -> clock) (stamp : string -> Z) (random : string -> nat -> Z -> res Z) (limit : Z)
    : Svc Z :=
  let limit := if (limit <? 1) || (100 <? limit) then 50 else limit in
  ids ← (fun db => (Ok (due_plans now (Z.to_nat limit) db), db) : res (list string) * DB);
  run_plans t stamp random ids 0.

End plans.
