(* ===== verification/RobotProofs.v ===== *)
(** * Robots: what holds

    A run of a plan does one of four things, and the plan moves forward only: a
    bet is made in the round the plan waited for, by a virtual player, with a
    stake and a pick of the plan, and it moves no money. *)

From S2P Require Import Prelude GoStrings Json Game Schema Store Books Custody Draws BetBooks Frames.
From S2P Require Import Rebate Settlement Betting SettlementProofs Examples BettingProofs Robot.

(** ** The bet of a robot *)

Section bets.
Context `{Uuids}.

(** What a robot's bet leaves alone. *)
Record apart (db db' : DB) : Prop := {
  ap_money : money db' = money db;
  ap_plans : robot_plans db'.(app) = robot_plans db.(app);
  ap_rounds : rounds db'.(app) = rounds db.(app);
  ap_users : users db'.(app) = users db.(app)
}.

#[export] Instance apart_preorder : PreOrder apart.
Proof.
  split; [by split|]. intros d1 d2 d3 [] []. split; congruence.
Qed.

Lemma apart_by db (m : Tx ()) : tx_keeps (apart db) m -> forall db', m db = Ok ((), db') -> apart db db'.
Proof. intros Hm db' Hrun. by apply (Hm db () db' Hrun). Qed.

Lemma apart_tick db d : apart db d -> apart db (tick d).
Proof. intros []. by split. Qed.

Lemma apart_bet db d id (b : bet_row) : apart db d -> apart db (put_row id b d).
Proof. intros []. by split. Qed.

Lemma apart_placement db d id (p : placement_row) : apart db d -> apart db (put_row id p d).
Proof. intros []. by split. Qed.

Lemma apart_snapshot db d id (s : snapshot_row) : apart db d -> apart db (put_row id s d).
Proof. intros []. by split. Qed.

Lemma apart_outbox db d o : apart db d -> apart db (push_outbox o d).
Proof. intros []. by split. Qed.

Lemma keeps_outbox db id agg aid ty pl at_ : tx_keeps (apart db) (insert_outbox id agg aid ty pl at_).
Proof. intros d u d' <-%insert_outbox_Ok. apply apart_outbox. Qed.

#[local] Hint Resolve keeps_outbox : keeps.
#[local] Hint Extern 1 (tx_keeps (apart _) new_uuid) => apply tx_keeps_new_uuid; intros; by apply apart_tick : keeps.
#[local] Hint Extern 1 (tx_keeps (apart _) (update_row (R := bet_row) _ _)) => apply tx_keeps_update_row; intros; by apply apart_bet : keeps.
#[local] Hint Extern 1 (tx_keeps (apart _) (insert_row (R := bet_row) _ _ _)) => apply tx_keeps_insert_row; intros; by apply apart_bet : keeps.
#[local] Hint Extern 1 (tx_keeps (apart _) (insert_row (R := placement_row) _ _ _)) => apply tx_keeps_insert_row; intros; by apply apart_placement : keeps.
#[local] Hint Extern 1 (tx_keeps (apart _) (insert_row (R := snapshot_row) _ _ _)) => apply tx_keeps_insert_row; intros; by apply apart_snapshot : keeps.

Lemma SnapshotTx_apart db id : tx_keeps (apart db) (SnapshotTx id).
Proof. unfold SnapshotTx, select_id, select_where. keeps. Qed.
#[local] Hint Resolve SnapshotTx_apart : keeps.

Lemma write_order_apart db t stamp r wid sim terms id merged : tx_keeps (apart db) (write_order t stamp r wid sim terms id merged).
Proof. unfold write_order. keeps. Qed.
#[local] Hint Resolve write_order_apart : keeps.

(** A simulated bet moves no money at all. *)
Lemma take_bet_apart t stamp r terms db db' : take_bet t stamp r true terms db = Ok ((), db') -> apart db db'.
Proof.
  apply apart_by. unfold take_bet, find_wallet, select_where, announce_placed. cbn [negb]. keeps.
Qed.
(** What a robot's request leaves: its placement, old or new, on an order that
    is simulated. *)
Record robot_placed (r : PlaceBetRequest) (pid : string) (p : placement_row) (db db' : DB) : Prop := {
  rp_row : bet_placements db'.(app) = <[pid := p]> (bet_placements db.(app));
  rp_new : bet_placements db.(app) !! pid = None \/ bets db'.(app) = bets db.(app) /\ bet_placements db.(app) !! pid = Some p;
  rp_user : bp_user_id p = pr_AccountID r;
  rp_matches : placement_matches r p = true;
  rp_order : bet_placements db.(app) !! pid = None -> exists b, bt_is_simulated b = true /\
    bets db'.(app) = <[bp_bet_id p := b]> (bets db.(app))
}.

Lemma PlaceRobotBetTx_placed t stamp req db pb db' :
  PlaceRobotBetTx t stamp req db = Ok (pb, db') -> books db.(money) -> bets_ok db -> in_int64 (pr_StakeMinor req) ->
  apart db db' /\ exists pid p, robot_placed (normalize_bet req) pid p db db'.
Proof.
  intros Hrun Hb Hok Hin. unfold PlaceRobotBetTx in Hrun.
  destruct (placeBetTx_run _ _ _ _ _ _ _ Hrun) as (Hst & _ & [[Hf ->]|(_ & _ & u & terms & _ & Hacc & _ & Htake)]).
  - split; [done|]. destruct (findPlacement_row _ _ _ Hf) as (pid & p & Hp & [Hk _]%placement_key_iff & Hm & _).
    exists pid, p. split; [by rewrite insert_id|by right|done|done|congruence].
  - assert (Hv : u_is_virtual u = true).
    { unfold check_account in Hacc. apply guard_Ok in Hacc as [Hv _]. by destruct (u_is_virtual u). }
    rewrite Hv in Htake. split; [by eapply take_bet_apart|].
    assert (Hs : 0 < pr_StakeMinor (normalize_bet req) <= int64_max) by (unfold in_int64 in Hin; cbn in *; lia).
    destruct (take_bet_run _ _ _ _ _ _ _ _ Htake Hb Hs) as (wid & w & merged & id & b & Ht).
    destruct (taken_order _ _ _ _ _ _ _ _ _ _ _ _ Ht Hok Hs) as (_ & _ & Hsim & _).
    destruct (tk_placed _ _ _ _ _ _ _ _ _ _ _ _ Ht) as (pid & Hnew & _ & Hins).
    exists pid, (new_placement (normalize_bet req) id stamp). split; [done|by left|done|apply new_placement_matches|].
    intros _. exists b. split; [done|apply Ht].
Qed.

(** At most a wallet is opened, and it is empty. *)
Definition opened (m m' : Money) : Prop := m' = m \/ exists id user cur now,
  wallets m !! id = None /\ find_row (is_wallet_of user cur) (wallets m) = None /\
  m' = mk_Money (<[id := mk_wallet user cur 0 0 0 now]> (wallets m)) (ledger m).

Lemma opened_books m m' : opened m m' -> books m -> books m'.
Proof. intros [->|(id & user & cur & now & H1 & H2 & ->)]; [done|]. intros Hb. by apply books_open. Qed.

Lemma opened_bets_ok db db' : opened db.(money) db'.(money) -> bets db'.(app) = bets db.(app) -> bets_ok db -> bets_ok db'.
Proof.
  intros Ho Hb [H1 H2]. split; intros id b; rewrite Hb; [apply H1|]. intros Hi. pose proof (H2 id b Hi) as [w Hw].
  destruct Ho as [->|(id' & user & cur & now & Hnone & _ & ->)]; [by exists w|]. cbn. apply lookup_insert_is_Some.
  destruct (decide (id' = bt_wallet_id b)); [by left|right]. split; [done|by exists w].
Qed.

(** What opening that wallet leaves alone. *)
Record wallet_only (db db' : DB) : Prop := {
  wo_money : opened db.(money) db'.(money);
  wo_plans : robot_plans db'.(app) = robot_plans db.(app);
  wo_rounds : rounds db'.(app) = rounds db.(app);
  wo_users : users db'.(app) = users db.(app);
  wo_bets : bets db'.(app) = bets db.(app);
  wo_placements : bet_placements db'.(app) = bet_placements db.(app)
}.

Lemma robot_wallet_Ok now user cur db u db' : robot_wallet now user cur db = Ok (u, db') -> wallet_only db db'.
Proof.
  unfold robot_wallet. intros Hrun. rewrite gets_skip in Hrun. destruct (negb _).
  { apply tx_ret_Ok in Hrun as [_ <-]. split; try reflexivity. by left. }
  apply tx_bind_Ok in Hrun as (id & d & E & Hrun). apply new_uuid_Ok in E as [<- <-].
  apply tx_bind_Ok in Hrun as (b & d & E & Hrun). apply tx_ret_Ok in Hrun as [_ <-].
  apply insert_wallet_Ok in E as [(_ & <- & _)|(_ & Hno & Hid & <-)]; (split; try done); [by left|right].
  exists (drawn db), user, cur, now. split; [exact Hid|]. split; [exact Hno|reflexivity].
Qed.

Section robot.
Context (is_uuid : string -> bool).

Lemma savepoint_Ok {A} (m : Tx (string + A)) db x db' : savepoint m db = Ok (x, db') ->
  match x with inl _ => db' = db | inr _ => m db = Ok (x, db') end.
Proof. unfold savepoint. destruct (m db) as [[[e|a] d]|e]; [by intros [= <- <-]|by intros [= <- <-]|done]. Qed.

Lemma or_message_inr {A} (m : Tx A) db a db' : or_message m db = Ok (inr a, db') -> m db = Ok (a, db').
Proof. unfold or_message. destruct (m db) as [[x d]|e]; [by intros [= <- <-]|]. by destruct (bet_message e). Qed.

(** A bet that a robot makes. *)
Record robot_bets (id round : string) (i : PlanInput) (pick : Selection) (amount : Z) (user pid : string) (q : placement_row)
    (db db' : DB) : Prop := {
  rt_user : exists u, users db.(app) !! user = Some u /\ u_public_id u = pn_UserID i /\ u_is_virtual u = true;
  rt_valid : validatePlan is_uuid i = Ok ();
  rt_money : opened db.(money) db'.(money);
  rt_plans : robot_plans db'.(app) = robot_plans db.(app);
  rt_rounds : rounds db'.(app) = rounds db.(app);
  rt_placed : robot_placed (normalize_bet (robot_request id round user i pick amount)) pid q db db'
}.

Lemma robot_bet_Ok t stamp id round i pick amount db pb db' :
  robot_bet is_uuid t stamp id round i pick amount db = Ok (inr pb, db') -> books db.(money) -> bets_ok db -> in_int64 amount ->
  exists user pid q, robot_bets id round i pick amount user pid q db db'.
Proof.
  intros Hrun Hb Hok Hin. unfold robot_bet in Hrun. rewrite gets_skip in Hrun.
  apply tx_bind_Ok in Hrun as ([user u] & d & E & Hrun). apply found_Ok in E as [Hu <-]. cbn [fst] in Hrun.
  apply tx_bind_Ok in Hrun as (v & d & E & Hrun). apply robot_wallet_Ok in E as Hw. rewrite gets_skip in Hrun.
  destruct (validatePlanDB is_uuid i d) as [user'|e] eqn:Ev; [|case_bool_decide; [by apply tx_ret_Ok in Hrun as [? _]|done]].
  apply or_message_inr in Hrun. destruct Hw as [Hm Hp Hr Hus Hbt Hpl].
  destruct (PlaceRobotBetTx_placed _ _ _ _ _ _ Hrun) as ([A1 A2 A3 A4] & pid & q & [P1 P2 P3 P4 P5]);
    [by eapply opened_books|by eapply opened_bets_ok|done|].
  apply find_row_Some in Hu as [Hu Hv]. unfold virtual_user in Hv. apply andb_prop in Hv as [Hpub%Z.eqb_eq Hvirt].
  apply res_bind_Ok in Ev as ([] & Ev & _). exists user, pid, q.
  rewrite Hpl, Hbt in *. split; [by exists u|done|by rewrite A1|congruence|congruence|by split].
Qed.

(** ** A run *)

(** The turns the plan takes: the next one is a number of rounds ahead. *)
Definition ahead_of (seq skip : Z) (p : robot_plan_row) : robot_plan_row :=
  set_schedule (Some (seq + step_of (rb_game_type p) * skip)) (Some seq) p.

Record earliest (now : Z) (game round : string) (row : round_row) (db : DB) : Prop := {
  er_row : rounds db.(app) !! round = Some row;
  er_open : bettable now game db row = true;
  er_first : forall k r, rounds db.(app) !! k = Some r -> bettable now game db r = true -> rd_sequence row <= rd_sequence r
}.

(** The four outcomes of a run.  The plan is not due; or it only notes that it
    looked; or it takes a later turn, because it had none, has missed one, or
    its bet is refused; or the turn has come and the bet is made. *)
Inductive robot_run (now : Z) (id : string) (db db' : DB) : Z -> Prop :=
| run_not_due : db' = db -> robot_run now id db db' 0
| run_waits p status message :
    robot_plans db.(app) !! id = Some p -> db' = put_row id (set_checked (Some now) status message p) db ->
    robot_run now id db db' 0
| run_schedules p round row skip status message :
    robot_plans db.(app) !! id = Some p -> earliest now (rb_game_type p) round row db ->
    rb_skip_min p <= skip <= rb_skip_max p ->
    from_option (fun next => next <= rd_sequence row) True (rb_next_round_sequence p) ->
    db' = put_row id (set_checked (Some now) status message (ahead_of (rd_sequence row) skip p)) db ->
    robot_run now id db db' 0
| run_places p u round row skip picks pick amount i user pid q bet d :
    robot_plans db.(app) !! id = Some p -> users db.(app) !! rb_user_id p = Some u -> due now p u = true ->
    earliest now (rb_game_type p) round row db -> rb_skip_min p <= skip <= rb_skip_max p ->
    rb_next_round_sequence p = Some (rd_sequence row) ->
    dec_selections [] (rb_selections p) = Some picks -> pick ∈ picks -> rb_min_stake_minor p <= amount <= rb_max_stake_minor p ->
    i = mk_PlanInput (u_public_id u) (rb_enabled p) (rb_game_type p) (rb_game_room_id p) (rb_currency p)
          (rb_min_stake_minor p) (rb_max_stake_minor p) picks (rb_skip_min p) (rb_skip_max p) ->
    robot_bets id round i pick amount user pid q (put_row id (ahead_of (rd_sequence row) skip p) db) d ->
    db' = put_row id (set_checked (Some now) "placed" "" (set_last_bet bet (ahead_of (rd_sequence row) skip p))) d ->
    robot_run now id db db' 1.

(** The ranges of the columns a run reads. *)
Record robots_in_range (db : DB) : Prop := {
  rr_plans : forall id p, robot_plans db.(app) !! id = Some p -> plan_row_ok p = true;
  rr_rounds : forall id r, rounds db.(app) !! id = Some r -> in_int64 (rd_sequence r)
}.

(** [rand.Int]: below its bound. *)
Definition random_ok (random : nat -> Z -> res Z) : Prop := forall k n v, random k n = Ok v -> 0 <= v < n.

Lemma randomBetween_Ok random k low high v : random_ok random -> high <= int64_max ->
  randomBetween (random k) low high = Ok v -> low <= v <= high.
Proof.
  intros Hr Hh H0. unfold randomBetween in H0. apply guard_Ok in H0 as [Hg H0]. apply res_bind_Ok in H0 as (n & Hn & H0).
  injection H0 as <-. apply Hr in Hn. bool_to_prop. rewrite wrap64_small; [lia|]. unfold in_int64, int64_min. lia.
Qed.

Lemma plan_row_ok_facts p : plan_row_ok p = true ->
  0 < rb_min_stake_minor p /\ rb_max_stake_minor p <= int64_max /\ 1 <= rb_skip_min p /\ rb_skip_max p <= 10000 /\
  rb_game_type p ∈ hash_games.
Proof. unfold plan_row_ok. intros H0. bool_to_prop. repeat split; (lia || done). Qed.

Lemma step_of_hash game : game ∈ hash_games -> 9 <= step_of game <= 29.
Proof.
  unfold hash_games. rewrite !elem_of_cons, elem_of_nil. intros [->|[->|[->|[->|[->|[->|[]]]]]]]; vm_compute; split; discriminate.
Qed.

Lemma next_bettable_Ok now game db o db' : next_bettable now game db = Ok (o, db') -> db' = db /\
  match o with Some (round, row) => earliest now game round row db | None => True end.
Proof.
  intros [<- <-]%gets_Ok. split; [done|]. destruct (merge_sort _ _) as [|[round row] rest] eqn:E; cbn [head]; [done|].
  assert (Hs : StronglySorted by_sequence ((round, row) :: rest)).
  { rewrite <- E. apply StronglySorted_merge_sort.
    - intros x y z. unfold by_sequence. lia.
    - intros x y. unfold by_sequence. lia. }
  assert (Hin : forall k r, (k, r) ∈ (round, row) :: rest <-> rounds db.(app) !! k = Some r /\ bettable now game db r = true).
  { intros k r. rewrite <- E, merge_sort_Permutation, list_elem_of_In, List.filter_In, <- list_elem_of_In, elem_of_map_to_list. done. }
  destruct (proj1 (Hin round row)) as [H1 H2]; [by left|]. split; [done|done|]. intros k r Hk Hr.
  pose proof (proj2 (Hin k r) (conj Hk Hr)) as Hx. apply elem_of_cons in Hx as [[= -> ->]|Hx]; [done|].
  apply StronglySorted_inv in Hs as [_ Hall]. rewrite Forall_forall in Hall. by apply (Hall (k, r)).
Qed.

Lemma finish_Ok now id status message n db m db' : finish now id status message n db = Ok (m, db') ->
  m = n /\ forall p, robot_plans db.(app) !! id = Some p -> db' = put_row id (set_checked (Some now) status message p) db.
Proof.
  unfold finish. intros Hrun. apply tx_bind_Ok in Hrun as (k & d & E & Hrun). apply tx_ret_Ok in Hrun as [-> <-].
  split; [done|]. intros p Hp. apply update_row_Ok in E as [(Hno & _)|(r & Hr & _ & <-)];
    change (tbl (app db)) with (robot_plans (app db)) in *; congruence.
Qed.

Lemma scanPlan_Ok P id db v : scanPlan P id db = Ok v ->
  exists p u picks, robot_plans db.(app) !! id = Some p /\ users db.(app) !! rb_user_id p = Some u /\ P p u = true /\
    dec_selections [] (rb_selections p) = Some picks /\ pn_ID v = id /\ pn_NextRoundSequence v = rb_next_round_sequence p /\
    pn_Input v = mk_PlanInput (u_public_id u) (rb_enabled p) (rb_game_type p) (rb_game_room_id p) (rb_currency p)
          (rb_min_stake_minor p) (rb_max_stake_minor p) picks (rb_skip_min p) (rb_skip_max p).
Proof.
  unfold scanPlan. intros H0. apply res_bind_Ok in H0 as (p & Hp%of_option_Ok & H0). apply res_bind_Ok in H0 as (u & Hu%of_option_Ok & H0).
  apply guard_Ok in H0 as [HP%negb_false_iff H0]. apply res_bind_Ok in H0 as (picks & Hk%of_option_Ok & H0). injection H0 as <-.
  by exists p, u, picks.
Qed.

Lemma put_row_twice id (x y : robot_plan_row) db : put_row id x (put_row id y db) = put_row id x db.
Proof. unfold put_row. cbn. by rewrite insert_insert_eq. Qed.

(** The next turn is within range, and as far ahead as the plan says. *)
Lemma turn_exact p seq skip : plan_row_ok p = true -> in_int64 seq -> rb_skip_min p <= skip <= rb_skip_max p ->
  ((int64_max - (step_of (rb_game_type p) * skip)%i64)%i64 <? seq) = false ->
  (seq + (step_of (rb_game_type p) * skip)%i64)%i64 = seq + step_of (rb_game_type p) * skip.
Proof.
  intros (_ & _ & Hmin & Hmax & Hg)%plan_row_ok_facts Hseq Hskip Hle%Z.ltb_ge. apply step_of_hash in Hg.
  assert (Hp : 0 <= step_of (rb_game_type p) * skip <= 290000) by nia.
  rewrite (wrap64_small (step_of (rb_game_type p) * skip)) in Hle |- * by (unfold in_int64, int64_min, int64_max; lia).
  rewrite wrap64_small in Hle by (unfold in_int64, int64_min, int64_max; lia).
  apply wrap64_small. unfold in_int64 in *. unfold int64_min, int64_max in *. lia.
Qed.

(** The turn has come: the bet is made, or a later turn is taken. *)
Lemma place_now_run t stamp random id round p u row skip picks i db n db' : random_ok random ->
  robot_plans db.(app) !! id = Some p -> plan_row_ok p = true -> users db.(app) !! rb_user_id p = Some u ->
  due (sql_now t) p u = true -> earliest (sql_now t) (rb_game_type p) round row db -> rb_skip_min p <= skip <= rb_skip_max p ->
  rb_next_round_sequence p = Some (rd_sequence row) -> dec_selections [] (rb_selections p) = Some picks ->
  i = mk_PlanInput (u_public_id u) (rb_enabled p) (rb_game_type p) (rb_game_room_id p) (rb_currency p)
        (rb_min_stake_minor p) (rb_max_stake_minor p) picks (rb_skip_min p) (rb_skip_max p) ->
  books db.(money) -> bets_ok db ->
  place_now is_uuid t stamp random id round i (put_row id (ahead_of (rd_sequence row) skip p) db) = Ok (n, db') ->
  robot_run (sql_now t) id db db' n.
Proof.
  intros Hr Hp Hpok Hu Hdue Her Hskip Hnext Hpicks Hi Hb Hok Hrun. pose proof (plan_row_ok_facts _ Hpok) as (Hmin & Hmax & _).
  set (d0 := put_row id (ahead_of (rd_sequence row) skip p) db) in *.
  assert (Hd0 : robot_plans d0.(app) !! id = Some (ahead_of (rd_sequence row) skip p)) by (by cbn; rewrite lookup_insert_eq).
  unfold place_now in Hrun. apply tx_bind_Ok in Hrun as (index & d & E & Hrun). apply lift_Ok in E as [_ <-].
  apply tx_bind_Ok in Hrun as (pick & d & E & Hrun). apply found_Ok in E as [Hpick <-].
  apply tx_bind_Ok in Hrun as (amount & d & E & Hrun). apply lift_Ok in E as [Ham <-]. apply randomBetween_Ok in Ham; [|done|by subst i].
  apply tx_bind_Ok in Hrun as (bet & d & E & Hrun). apply savepoint_Ok in E. subst i. cbn in Ham, Hpick. destruct bet as [message|placed].
  - subst d. apply finish_Ok in Hrun as [-> Hrun]. rewrite (Hrun _ Hd0).
    eapply run_schedules; [exact Hp|exact Her|exact Hskip|rewrite Hnext; cbn; lia|]. unfold d0. apply put_row_twice.
  - assert (Hok0 : bets_ok d0) by (destruct Hok; by split). destruct (robot_bet_Ok _ _ _ _ _ _ _ _ _ _ E Hb Hok0) as (user & pid & q & Hq).
    { unfold in_int64. unfold int64_min. lia. }
    pose proof (rt_plans _ _ _ _ _ _ _ _ _ _ Hq) as Hpl.
    apply tx_bind_Ok in Hrun as (k & d1 & E1 & Hrun). apply update_row_Ok in E1 as [(Hno & _)|(r & Hrow & _ & <-)];
      change (tbl (app d)) with (robot_plans (app d)) in *; [congruence|]. assert (r = ahead_of (rd_sequence row) skip p) as -> by congruence.
    apply finish_Ok in Hrun as [-> Hrun]. specialize (Hrun (set_last_bet (pl_BetID placed) (ahead_of (rd_sequence row) skip p))).
    rewrite Hrun by (by cbn; rewrite lookup_insert_eq).
    eapply run_places with (pick := pick) (bet := pl_BetID placed); [exact Hp|exact Hu|exact Hdue|exact Her|exact Hskip|exact Hnext|exact Hpicks| |exact Ham|done|exact Hq|apply put_row_twice].
    by eapply list_elem_of_lookup_2.
Qed.

Lemma runPlan_run t stamp random id db n db' : random_ok random -> books db.(money) -> bets_ok db -> robots_in_range db ->
  runPlan is_uuid t stamp random id db = Ok (n, db') -> robot_run (sql_now t) id db db' n.
Proof.
  intros Hrand Hb Hok [Hplans Hrounds] Hrun. unfold runPlan in Hrun. rewrite gets_skip in Hrun.
  destruct (scanPlan _ id db) as [v|e] eqn:Ev; [|case_bool_decide; [apply tx_ret_Ok in Hrun as [? ?]; subst; by apply run_not_due|done]].
  apply scanPlan_Ok in Ev as (p & u & picks & Hp & Hu & Hdue & Hpicks & Hid & Hnext & Hin).
  pose proof (Hplans _ _ Hp) as Hpok. pose proof (plan_row_ok_facts _ Hpok) as (_ & _ & _ & Hskipmax & Hg).
  apply tx_bind_Ok in Hrun as (o & d & E & Hrun). apply next_bettable_Ok in E as [-> Her]. rewrite Hin in Her. cbn in Her, Hrun.
  assert (Hwait : forall status message m d, finish (sql_now t) id status message 0 db = Ok (m, d) -> robot_run (sql_now t) id db d m).
  { intros status message m d' Hf. apply finish_Ok in Hf as [-> Hf]. rewrite (Hf _ Hp). by eapply run_waits. }
  destruct o as [[round row]|]; [|by eapply Hwait]. unfold run_round in Hrun. rewrite Hin, Hid, Hnext in Hrun. cbn in Hrun.
  destruct (_ <=? 0); [by eapply Hwait|]. destruct (from_option _ false _) eqn:Elt in Hrun; [by eapply Hwait|].
  apply tx_bind_Ok in Hrun as (skip & d & E & Hrun). apply lift_Ok in E as [Hskip <-]. apply randomBetween_Ok in Hskip; [|done|cbn; unfold int64_max; lia].
  destruct (_ <? rd_sequence row) eqn:Ebig in Hrun; [by eapply Hwait|].
  assert (Hseq : in_int64 (rd_sequence row)) by (by eapply Hrounds, Her).
  rewrite (turn_exact p (rd_sequence row) skip Hpok Hseq Hskip Ebig) in Hrun.
  apply tx_bind_Ok in Hrun as (k & d & E & Hrun). apply update_row_Ok in E as [(Hno & _)|(r & Hr & _ & <-)];
    change (tbl (app db)) with (robot_plans (app db)) in *; [congruence|]. assert (r = p) as -> by congruence.
  fold (ahead_of (rd_sequence row) skip p) in Hrun. destruct (from_option _ true _) eqn:Elate in Hrun.
  - apply finish_Ok in Hrun as [-> Hrun]. rewrite (Hrun (ahead_of (rd_sequence row) skip p)) by (by cbn; rewrite lookup_insert_eq).
    eapply run_schedules; [exact Hp|exact Her|exact Hskip| |apply put_row_twice].
    destruct (rb_next_round_sequence p); [cbn in *; lia|done].
  - assert (Hn : rb_next_round_sequence p = Some (rd_sequence row)).
    { destruct (rb_next_round_sequence p) as [z|]; [|done]. cbn in Elt, Elate. f_equal. lia. }
    eapply (place_now_run t stamp random id round p u row skip picks); [..|exact Hrun]; first [eassumption|reflexivity].
Qed.

(** C21: a run of a plan does exactly one of four things ([robot_run]): nothing,
    when the plan is not due; it notes that it looked; it takes a later turn; or
    it bets, once, in the earliest open round of its game, which is the round it
    waited for, with a pick and a stake of the plan.  The books stay sound, and
    at most an empty wallet is opened. *)
Theorem runPlan_exact t stamp random id db n db' : random_ok random -> books db.(money) -> bets_ok db -> robots_in_range db ->
  runPlan is_uuid t stamp random id db = Ok (n, db') ->
  robot_run (sql_now t) id db db' n /\ opened db.(money) db'.(money) /\ books db'.(money).
Proof.
  intros Hr Hb Hok Hin Hrun. pose proof (runPlan_run _ _ _ _ _ _ _ Hr Hb Hok Hin Hrun) as H0. split; [done|].
  assert (Hm : opened db.(money) db'.(money)) by (destruct H0 as [->|? ? ? _ ->|? ? ? ? ? ? _ _ _ _ ->|? ? ? ? ? ? ? ? ? ? ? ? ? ? _ _ _ _ _ _ _ _ _ _ [] ->]; [by left..|done]).
  split; [done|by eapply opened_books].
Qed.

(** ** The turns of a plan *)

(** What a run does to the plan itself; [n] is the number of bets. *)
Record turn_taken (n : Z) (p p' : robot_plan_row) : Prop := {
  tt_game : rb_game_type p' = rb_game_type p;
  tt_skip : rb_skip_min p' = rb_skip_min p;
  tt_waits : n = 0 -> from_option (fun x => exists y, rb_next_round_sequence p' = Some y /\ x <= y) True (rb_next_round_sequence p);
  tt_bets : n <> 0 -> exists seq y, rb_next_round_sequence p = Some seq /\ rb_last_seen_sequence p' = Some seq /\
    rb_next_round_sequence p' = Some y /\ seq + step_of (rb_game_type p) * rb_skip_min p <= y
}.

Lemma ahead_of_taken p seq skip status message now : plan_row_ok p = true -> rb_skip_min p <= skip ->
  from_option (fun next => next <= seq) True (rb_next_round_sequence p) ->
  turn_taken 0 p (set_checked (Some now) status message (ahead_of seq skip p)).
Proof.
  intros (_ & _ & Hmin & _ & Hg)%plan_row_ok_facts Hs Hn. apply step_of_hash in Hg. split; [done|done| |done].
  intros _. destruct (rb_next_round_sequence p) as [x|]; [|done]. cbn in *. eexists. split; [done|]. nia.
Qed.

Lemma robot_run_turn now id db db' n p : robot_run now id db db' n -> robots_in_range db ->
  robot_plans db.(app) !! id = Some p -> exists p', robot_plans db'.(app) !! id = Some p' /\ turn_taken n p p'.
Proof.
  intros H0 [Hr _] Hp. assert (Hself : forall q, rb_next_round_sequence q = rb_next_round_sequence p ->
    rb_game_type q = rb_game_type p -> rb_skip_min q = rb_skip_min p -> turn_taken 0 p q).
  { intros q H1 H2 H3. split; [done|done| |done]. intros _. rewrite H1. destruct (rb_next_round_sequence p) as [x|]; [|done]. by exists x. }
  inversion H0 as [He|q status message Hq He|q round row skip status message Hq _ [Hs _] Hn He|
    q u round row skip picks pick amount i user pid pl bet d Hq _ _ _ [Hs _] Hn _ _ _ _ _ He]; subst;
    try (assert (q = p) as -> by congruence).
  - exists p. split; [done|by apply Hself].
  - eexists. split; [apply lookup_insert_eq|by apply Hself].
  - eexists. split; [apply lookup_insert_eq|]. apply ahead_of_taken; [by eapply Hr|done|done].
  - eexists. split; [apply lookup_insert_eq|]. split; [done|done|done|]. intros _. exists (rd_sequence row).
    eexists. split; [done|]. split; [done|]. split; [done|].
    apply Hr, plan_row_ok_facts in Hp as (_ & _ & _ & _ & Hg). apply step_of_hash in Hg. nia.
Qed.

(** The schedule of a plan: its game, its shortest pause and its next turn. *)
Definition schedule (id : string) (db : DB) : option (string * Z * option Z) :=
  (fun p => (rb_game_type p, rb_skip_min p, rb_next_round_sequence p)) <$> robot_plans db.(app) !! id.

(** The round a bet of the plan was made in. *)
Definition bet_turn (id : string) (n : Z) (db : DB) : list Z :=
  if n =? 0 then [] else option_list (p ← robot_plans db.(app) !! id; rb_last_seen_sequence p).

(** Runs of a plan, with whatever leaves its schedule alone in between; the
    bets' rounds, the latest first. *)
Inductive robot_history (id : string) (db0 : DB) : list Z -> DB -> Prop :=
| rh_start : robot_history id db0 [] db0
| rh_run log db t stamp random n db' :
    robot_history id db0 log db -> random_ok random -> books db.(money) -> bets_ok db -> robots_in_range db ->
    runPlan is_uuid t stamp random id db = Ok (n, db') -> robot_history id db0 (bet_turn id n db' ++ log) db'
| rh_other log db db' :
    robot_history id db0 log db -> schedule id db' = schedule id db -> robot_history id db0 log db'.

(** The rounds are [gap] blocks apart, and the next turn is too. *)
Inductive spaced (gap : Z) : option Z -> list Z -> Prop :=
| spaced_nil next : spaced gap next []
| spaced_cons y a log : a + gap <= y -> spaced gap (Some a) log -> spaced gap (Some y) (a :: log).

Lemma spaced_later gap x y log : spaced gap (Some x) log -> x <= y -> spaced gap (Some y) log.
Proof. inversion 1; subst; intros; constructor; [lia|done]. Qed.

Lemma spaced_below gap y log : spaced gap (Some y) log -> forall j b, log !! j = Some b -> b + gap * (Z.of_nat j + 1) <= y.
Proof.
  revert y. induction log as [|a log IH]; intros y Hs j b Hj; [done|]. inversion Hs as [|y' c log' Hle Hs']; subst.
  destruct j as [|j]; cbn in Hj; [injection Hj as <-; lia|]. specialize (IH _ Hs' j b Hj). lia.
Qed.

Lemma spaced_pairs gap next log i j a b : spaced gap next log -> (i < j)%nat -> log !! i = Some a -> log !! j = Some b ->
  b + gap * (Z.of_nat j - Z.of_nat i) <= a.
Proof.
  intros Hs. revert i j. induction Hs as [|y c log _ Hs IH]; intros i j Hij Hi Hj; [done|].
  destruct j as [|j]; [lia|]. destruct i as [|i]; cbn in Hi, Hj.
  - injection Hi as ->. pose proof (spaced_below _ _ _ Hs _ _ Hj). lia.
  - assert (Hlt : (i < j)%nat) by lia. pose proof (IH i j Hlt Hi Hj). lia.
Qed.

Lemma history_spaced id db0 log db p0 : robot_history id db0 log db -> robot_plans db0.(app) !! id = Some p0 ->
  exists p, robot_plans db.(app) !! id = Some p /\ rb_game_type p = rb_game_type p0 /\ rb_skip_min p = rb_skip_min p0 /\
    spaced (step_of (rb_game_type p0) * rb_skip_min p0) (rb_next_round_sequence p) log.
Proof.
  intros Hh H0. induction Hh as [|log db t stamp random n db' _ IH Hr Hb Hok Hin Hrun|log db db' _ IH Hs].
  - exists p0. repeat split; [done|]. constructor.
  - destruct IH as (p & Hp & Hg & Hk & Hs). pose proof (runPlan_run _ _ _ _ _ _ _ Hr Hb Hok Hin Hrun) as Hrr.
    destruct (robot_run_turn _ _ _ _ _ _ Hrr Hin Hp) as (p' & Hp' & [T1 T2 T3 T4]). exists p'.
    split; [done|]. split; [congruence|]. split; [congruence|]. unfold bet_turn. rewrite Hp'. destruct (n =? 0) eqn:En.
    + apply Z.eqb_eq in En. specialize (T3 En). cbn [Datatypes.app]. inversion Hs as [|y a log' H1 H2 E0]; subst; [constructor|].
      rewrite <- E0 in T3. cbn in T3. destruct T3 as (z & -> & Hz). apply (spaced_later _ y); [|done]. by constructor.
    + apply Z.eqb_neq in En. destruct (T4 En) as (seq & y & E1 & E2 & E3 & Hle). cbn. rewrite E2, E3. cbn.
      rewrite E1 in Hs. constructor; [congruence|done].
  - destruct IH as (p & Hp & Hg & Hk & Hsp). unfold schedule in Hs. rewrite Hp in Hs. cbn in Hs.
    destruct (robot_plans (app db') !! id) as [p'|] eqn:Hp'; [|done]. cbn in Hs. injection Hs as E1 E2 E3.
    exists p'. repeat split; congruence.
Qed.

(** C22: over any number of runs, and whatever happens in between that leaves
    the schedule of the plan alone, the rounds a robot bets in go forward only
    and are as far apart as its shortest pause says: no round is bet in twice. *)
Theorem robots_spaced id db0 log db p : robot_history id db0 log db -> robot_plans db0.(app) !! id = Some p ->
  plan_row_ok p = true -> forall i j a b, (i < j)%nat -> log !! i = Some a -> log !! j = Some b ->
  b + step_of (rb_game_type p) * rb_skip_min p * (Z.of_nat j - Z.of_nat i) <= a /\ b < a.
Proof.
  intros Hh Hp (_ & _ & Hmin & _ & Hg)%plan_row_ok_facts i j a b Hij Hi Hj. apply step_of_hash in Hg.
  destruct (history_spaced _ _ _ _ _ Hh Hp) as (q & _ & _ & _ & Hs).
  pose proof (spaced_pairs _ _ _ _ _ _ _ Hs Hij Hi Hj) as H0. split; [done|].
  assert (Hgap : 9 <= step_of (rb_game_type p) * rb_skip_min p) by nia. nia.
Qed.

End robot.
End bets.

(** ** Witnesses *)

Definition bot_plan (next : Z) : robot_plan_row :=
  mk_robot_plan_row "bot" "staff" "key" JNull true false "hash_9" "room-1" "USDT" 100000 400000
    (selections_json [mk_Selection "guess" "5"]) 1 3 (Some next) None None "ready" "" None 0 0.

(** A round of hash_9 is open, and the plan of a virtual player waits for it. *)
Definition robot_app (seq : Z) (a : App) : App :=
  (set_robot_plans {[ "plan" := bot_plan seq ]}
  (set_users (<["bot" := mk_user_row "active" true "Bot" 10042 None None None None 0]> (users a))
  (set_game_types {[ "hash" := mk_game_type_row "hash_9" "Hash" true hash_game_rules None 5 None ]}
  (set_rounds {[ "round-1" := mk_round_row "hash" seq RoundOpen 2000000000000000000 2000000005000000000 None None 1 ]} a))))%string.

Definition robot_db (seq : Z) : DB := set_app (robot_app seq betting_db.(app)) betting_db.

Definition first_choice (_ : nat) (n : Z) : res Z := if n <=? 0 then Err ErrInvalidPlan else Ok 0.

Definition any_id (s : string) : bool := negb (bool_decide (s = ""%string)).

Lemma first_choice_ok : random_ok first_choice.
Proof. intros k n v. unfold first_choice. destruct (n <=? 0) eqn:E; [done|]. intros [= <-]. lia. Qed.

Lemma robot_app_bets a seq : bets (robot_app seq a) = bets a.
Proof. reflexivity. Qed.

Lemma set_app_money a db : money (set_app a db) = money db.
Proof. reflexivity. Qed.

Lemma robot_money seq : money (robot_db seq) = money betting_db.
Proof. apply set_app_money. Qed.

Lemma robot_books seq : books (robot_db seq).(money).
Proof. rewrite robot_money. exact (cu_books _ betting_custody). Qed.

Lemma robot_bets_ok seq : bets_ok (robot_db seq).
Proof. apply (opened_bets_ok betting_db); [left; apply robot_money|apply robot_app_bets|apply betting_bets_ok]. Qed.

Lemma robot_ranges seq : in_int64 seq -> robots_in_range (robot_db seq).
Proof.
  intros Hs. split; intros i r Hr.
  - change (({[ "plan"%string := bot_plan seq ]} : gmap string robot_plan_row) !! i = Some r) in Hr.
    apply lookup_singleton_Some in Hr as [_ <-]. reflexivity.
  - change (({[ "round-1"%string := mk_round_row "hash" seq RoundOpen 2000000000000000000 2000000005000000000 None None 1 ]}
      : gmap string round_row) !! i = Some r) in Hr. apply lookup_singleton_Some in Hr as [_ <-]. exact Hs.
Qed.

(** The robot bets in round [seq], and then waits for a round of the next nine blocks. *)
Lemma robot_run_at seq : seq = 7 \/ seq = 16 -> exists db',
  runPlan any_id noon 7 first_choice "plan" (robot_db seq) = Ok (1, db') /\ bet_turn "plan" 1 db' = [seq] /\
  schedule "plan" db' = Some ("hash_9"%string, 1, Some (seq + 9)).
Proof.
  intros Hseq. destruct (succeeds_Ok (fun x => (x.1 =? 1) && bool_decide (bet_turn "plan" 1 x.2 = [seq]) &&
    bool_decide (schedule "plan" x.2 = Some ("hash_9"%string, 1, Some (seq + 9))))
    (runPlan any_id noon 7 first_choice "plan" (robot_db seq))) as ([n db'] & Hrun & Hok).
  { destruct Hseq as [-> | ->]; vm_compute; reflexivity. }
  apply andb_prop in Hok as [Hok H3]. apply andb_prop in Hok as [H1 H2]. apply Z.eqb_eq in H1. cbn [fst] in H1. subst n.
  exists db'. split; [exact Hrun|]. split; [exact (bool_decide_eq_true_1 _ H2)|exact (bool_decide_eq_true_1 _ H3)].
Qed.

Lemma runPlan_exact_witness : exists db', runPlan any_id noon 7 first_choice "plan" (robot_db 7) = Ok (1, db') /\
  robot_run any_id (sql_now noon) "plan" (robot_db 7) db' 1.
Proof.
  destruct (robot_run_at 7) as (db' & Hrun & _); [by left|]. exists db'. split; [exact Hrun|].
  assert (H0 : in_int64 7) by (unfold in_int64, int64_min, int64_max; lia).
  destruct (runPlan_exact any_id noon 7 first_choice "plan" (robot_db 7) 1 db' first_choice_ok (robot_books 7)
    (robot_bets_ok 7) (robot_ranges 7 H0) Hrun) as (Hrr & _). exact Hrr.
Defined.

Lemma robots_spaced_witness : exists db', robot_history any_id "plan" (robot_db 7) [16; 7] db' /\ 7 < 16.
Proof.
  destruct (robot_run_at 7) as (d & Hrun & Hturn & Hs); [by left|].
  destruct (robot_run_at 16) as (db' & Hrun' & Hturn' & _); [by right|].
  assert (H0 : in_int64 7) by (unfold in_int64, int64_min, int64_max; lia).
  assert (H1 : in_int64 16) by (unfold in_int64, int64_min, int64_max; lia).
  assert (Hh : robot_history any_id "plan" (robot_db 7) [16; 7] db').
  { assert (Hd : robot_history any_id "plan" (robot_db 7) (bet_turn "plan" 1 d ++ []) d).
    { exact (rh_run any_id _ _ _ _ noon 7 first_choice 1 d (rh_start any_id _ _) first_choice_ok (robot_books 7)
        (robot_bets_ok 7) (robot_ranges 7 H0) Hrun). }
    rewrite Hturn in Hd.
    assert (He : robot_history any_id "plan" (robot_db 7) [7] (robot_db 16)).
    { apply (rh_other any_id _ _ _ d); [exact Hd|]. rewrite Hs. vm_compute. reflexivity. }
    pose proof (rh_run any_id _ _ _ _ noon 7 first_choice 1 db' He first_choice_ok (robot_books 16)
        (robot_bets_ok 16) (robot_ranges 16 H1) Hrun') as Hf. rewrite Hturn' in Hf. exact Hf. }
  exists db'. split; [exact Hh|].
  assert (Hp : robot_plans (app (robot_db 7)) !! "plan"%string = Some (bot_plan 7)) by (vm_compute; reflexivity).
  assert (Hrow : plan_row_ok (bot_plan 7) = true) by (vm_compute; reflexivity).
  assert (Hij : (0 < 1)%nat) by lia.
  destruct (robots_spaced any_id "plan" (robot_db 7) [16; 7] db' (bot_plan 7) Hh Hp Hrow 0%nat 1%nat 16 7 Hij eq_refl eq_refl)
    as [_ Hlt]. exact Hlt.
Defined.
