(* ===== verification/System.v ===== *)
(** * The platform as one system

    Every transaction of the modelled services is a step of one relation on
    the database.  Each component's own theorems say what its transactions do;
    here they are composed: the frame of every transaction, and the invariants
    that hold in every reachable state. *)

From S2P Require Import Prelude GoStrings Json Game Schema Store Books Custody Wallet.
From S2P Require Import Rebate Draws Settlement BetBooks Frames Chain Examples RebateProofs ChainProofs Betting Operations Credit Spin Task.
From S2P Require Import SettlementProofs BettingProofs OperationsProofs CreditProofs SpinProofs TaskProofs RedPacket RedPacketProofs Lulu LuluProofs Agent Identity AgentProofs AuthProofs Leaderboard LeaderboardProofs Robot RobotProofs Staff StaffProofs NewAccounts.

(** ** The frame of every transaction *)

Section frames.
Context `{Uuids} (order still lulu : bool).

(** Deposits and withdrawals. *)

Lemma framed_CreditDeposit t input : framed order still lulu (CreditDeposit t input).
Proof. unfold CreditDeposit, ensureWallet, find_address. frames. Qed.

Lemma framed_with_wallet o : framed order still lulu (with_wallet o).
Proof. unfold with_wallet. frames. Qed.

Lemma framed_resolve_supported cur : framed order still lulu (resolve_supported cur).
Proof.
  unfold resolve_supported. intros db a db' Hrun. destruct (ResolveDecimals cur true db) as [[n d]|e] eqn:E.
  - injection Hrun as _ <-. revert db n d E. change (framed order still lulu (ResolveDecimals cur true)). unfold ResolveDecimals. frames.
  - by destruct (_ || _).
Qed.
#[local] Hint Resolve framed_with_wallet framed_resolve_supported : framed.

Lemma framed_RequestWithdrawal t policy input : framed order still lulu (RequestWithdrawal t policy input).
Proof.
  unfold RequestWithdrawal, findWithdrawalByRequestID, check_asset, find_asset, check_daily_limit, withdrawn_since, insert_withdrawal.
  frames.
Qed.

Lemma framed_ApproveWithdrawal t id reviewer : framed order still lulu (ApproveWithdrawal t id reviewer).
Proof. unfold ApproveWithdrawal, findWithdrawalForUpdate. frames. Qed.

Lemma framed_RejectWithdrawal t id reviewer reason : framed order still lulu (RejectWithdrawal t id reviewer reason).
Proof. unfold RejectWithdrawal, findWithdrawalForUpdate. frames. Qed.

Lemma framed_mark_broadcasted t id ref : framed order still lulu (mark_broadcasted t id ref).
Proof. unfold mark_broadcasted. frames. Qed.

Lemma framed_ApplyWithdrawalStatus t input : framed order still lulu (ApplyWithdrawalStatus t input).
Proof. unfold ApplyWithdrawalStatus, check_tx_hash, findWithdrawalForUpdate. frames. Qed.

(** Credits, the wheel and the tasks. *)

Lemma framed_walletIDOf user cur : framed order still lulu (walletIDOf user cur).
Proof. unfold walletIDOf. frames. Qed.

#[local] Hint Resolve framed_walletIDOf : framed.

Lemma framed_writeLedger now user cur btype bid delta after remark op :
  framed order still lulu (writeLedger now user cur btype bid delta after remark op).
Proof. unfold writeLedger. frames. Qed.

Lemma framed_addBalance now user cur delta : framed order still lulu (addBalance now user cur delta).
Proof. unfold addBalance. frames. Qed.

Lemma framed_deductBalance now user cur amount : framed order still lulu (deductBalance now user cur amount).
Proof. unfold deductBalance. frames. Qed.

#[local] Hint Resolve framed_writeLedger framed_addBalance framed_deductBalance : framed.

Lemma framed_RequestPointWithdrawal t user request amount remark :
  framed order still lulu (RequestPointWithdrawal t user request amount remark).
Proof. unfold RequestPointWithdrawal. frames. Qed.

Lemma framed_ReviewPointWithdrawal t id reviewer approved : framed order still lulu (ReviewPointWithdrawal t id reviewer approved).
Proof. unfold ReviewPointWithdrawal. frames. Qed.

Lemma framed_AdjustWallet t i : framed order still lulu (AdjustWallet t i).
Proof. unfold AdjustWallet, answer_adjustment, apply_adjustment. frames. Qed.

Lemma framed_ConsumeStamina t input : framed order still lulu (ConsumeStamina t input).
Proof. unfold ConsumeStamina. frames. Qed.

Lemma framed_shown_spin r : framed order still lulu (shown_spin r).
Proof. unfold shown_spin. intros db a db' Hrun. destruct (formatSpin r db); [|done]. by injection Hrun as _ <-. Qed.
#[local] Hint Resolve framed_shown_spin : framed.

Lemma framed_LuckySpin t random user spin request : framed order still lulu (LuckySpin t random user spin request).
Proof. unfold LuckySpin, draw_spin. frames. Qed.

Lemma framed_RewardCurrency now user cur btype bid amount remark :
  framed order still lulu (RewardCurrency now user cur btype bid amount remark).
Proof. unfold RewardCurrency. frames. Qed.
#[local] Hint Resolve framed_RewardCurrency : framed.

Lemma framed_pay_rewards now user claimID remark l : framed order still lulu (pay_rewards now user claimID remark l).
Proof. induction l as [|p l IH]; cbn [pay_rewards]; frames. Qed.
#[local] Hint Resolve framed_pay_rewards : framed.

Lemma framed_ClaimBetTask is_uuid t user id : framed order still lulu (ClaimBetTask is_uuid t user id).
Proof. unfold ClaimBetTask, pay_claim. frames. Qed.

Lemma framed_OnBetSettled user cur stake placed : framed order still lulu (OnBetSettled user cur stake placed).
Proof.
  intros db u db' Hrun. destruct u.
  exact (frame_untouched _ _ _ _ _ (hook_counts OnBetSettled user cur stake placed db tt db' eq_refl Hrun)).
Qed.

(** Commissions and registrations. *)

Lemma framed_ReverseCommission t id : framed order still lulu (ReverseCommission t id).
Proof. unfold ReverseCommission. frames. Qed.

Lemma framed_GrantCommission t request agent cur amount remark op :
  framed order still lulu (GrantCommission t request agent cur amount remark op).
Proof. unfold GrantCommission, commission_wallet. frames. Qed.

Lemma framed_pay any_typed t d : framed order still lulu (pay any_typed t d).
Proof. unfold pay, insert_distribution. frames. Qed.

Lemma framed_taken_if_unique m : framed order still lulu m -> framed order still lulu (taken_if_unique m).
Proof. intros Hm db u db' Hrun. apply (Hm db u). unfold taken_if_unique in Hrun. by destruct (m db) as [[[] d]|[]]. Qed.

Lemma framed_next_public_id : framed order still lulu next_public_id.
Proof. unfold next_public_id. intros db u db' Hrun. destruct (_ <? _); [done|]. injection Hrun as _ <-. by apply frame_same. Qed.

Lemma framed_insert_role user role : framed order still lulu (insert_role user role).
Proof. unfold insert_role. intros db u db' Hrun. destruct (existsb _ _); [done|]. injection Hrun as _ <-. by apply frame_same. Qed.

Lemma framed_open_wallets now user l : framed order still lulu (open_wallets now user l).
Proof. induction l as [|c l IH]; cbn [open_wallets]; frames. Qed.
#[local] Hint Resolve framed_taken_if_unique framed_next_public_id framed_insert_role framed_open_wallets : framed.

Lemma framed_service_rooms now user : framed order still lulu (ensure_user_customer_service_rooms now user).
Proof. unfold ensure_user_customer_service_rooms, insert_service_room, join_service_rooms. frames. Qed.
#[local] Hint Resolve framed_service_rooms : framed.

Lemma framed_RegisterPasswordUser t name shown hash role code :
  framed order still lulu (RegisterPasswordUser t name shown hash role code).
Proof. unfold RegisterPasswordUser, insert_user, insert_identity. frames; apply framed_taken_if_unique; frames. Qed.

Lemma framed_update_user id f : framed order still lulu (update_user id f).
Proof. unfold update_user. frames. Qed.
#[local] Hint Resolve framed_update_user : framed.

Lemma framed_createPasswordAccount is_uuid t actor avatar name shown hash virtual :
  framed order still lulu (createPasswordAccount is_uuid t actor avatar name shown hash virtual).
Proof. unfold createPasswordAccount, insert_user, insert_identity. frames; apply framed_taken_if_unique; frames. Qed.
#[local] Hint Resolve framed_createPasswordAccount : framed.

Lemma framed_CreatePlayerAccount is_uuid IDKey t salt i : framed order still lulu (CreatePlayerAccount is_uuid IDKey t salt i).
Proof. unfold CreatePlayerAccount. frames. Qed.

Lemma framed_upsert_balance id user cur n now : framed order still lulu (upsert_balance id user cur n now).
Proof.
  intros db o db' [[_ ->]|(wid & w & _ & -> & _ & [(_ & -> & -> & Hid)|(v & Hv & ->)])]%upsert_balance_Ok; [done|..].
  - split; [by apply keeps_owners_open|done..].
  - apply find_wallet_row in Hv as (Hv & _). by apply (frame_wallet _ _ _ _ v).
Qed.
#[local] Hint Resolve framed_upsert_balance : framed.

Lemma framed_fund_wallets now user l : framed order still lulu (fund_wallets now user l).
Proof. induction l as [|[c n] l IH]; cbn [fund_wallets]; unfold fund_wallet; frames. Qed.
#[local] Hint Resolve framed_fund_wallets : framed.

Lemma framed_CreateVirtualAccount is_uuid IDKey t salt i : framed order still lulu (CreateVirtualAccount is_uuid IDKey t salt i).
Proof. unfold CreateVirtualAccount, insert_automation. frames. Qed.

(** The calls of the wallet repository. *)
Lemma framed_mutate t a b n c bt et d : framed order still lulu (Postgres.mutate t a b n c bt et d).
Proof. unfold Postgres.mutate, Postgres.findEntry. frames. Qed.

(** Red packets. *)

Lemma framed_update_packet id f : framed order false lulu (update_packet id f).
Proof.
  unfold update_packet. intros db u db' Hrun. destruct (_ !! _); [|by injection Hrun as _ <-].
  destruct (_ <? 0); [done|]. injection Hrun as _ <-. by apply frame_same.
Qed.
#[local] Hint Resolve framed_update_packet : framed.

Lemma framed_roomAudience room user : framed order false lulu (roomAudience room user).
Proof. unfold roomAudience. frames. Qed.
#[local] Hint Resolve framed_roomAudience : framed.

Lemma framed_Create t ttl input : framed order false lulu (Create t ttl input).
Proof. unfold Create, requireRealAccount, findByRequest, currency_check, mapNotFound. frames. Qed.

Lemma framed_do_claim t random id user : framed order false lulu (do_claim t random id user).
Proof. unfold do_claim, requireRealAccount, findClaim, mapNotFound. frames. Qed.

(** The audience of a refund: the sender, when the room is closed to him. *)
Lemma framed_refund_audience room user :
  framed order false lulu (fun db => match roomAudience room user db with
    | Err e => if bool_decide (e = ErrRoomAccessDenied) then Ok ((false, [user]), db) else Err e
    | ok => ok
    end).
Proof.
  intros db a db' Hrun. destruct (roomAudience room user db) as [[x d]|e] eqn:E.
  - injection Hrun as _ <-. revert E. apply (framed_roomAudience room user).
  - destruct (bool_decide _); [by injection Hrun as _ <-|done].
Qed.
#[local] Hint Extern 1 (framed order false lulu (fun _ => _)) => apply framed_refund_audience : framed.

Lemma framed_refundOne t id : framed order false lulu (refundOne t id).
Proof. unfold refundOne, mapNotFound. frames. Qed.
End frames.

(** Lulu payments. *)

Section lulu.
Context `{Uuids} (order still : bool) (is_uuid : string -> bool).

#[local] Hint Extern 1 (framed order still false _) => progress unfold lulu_player, lulu_admin, lulu_audit : framed.

Lemma framed_lulu_balance t o typ da df actor : framed order still false (lulu_balance t o typ da df actor).
Proof. unfold lulu_balance. frames. Qed.

Lemma framed_claim_receipt rid id : framed order still false (claim_receipt rid id).
Proof. unfold claim_receipt. frames. Qed.

Lemma framed_confirm_order id rid : framed order still false (confirm_order id rid).
Proof. unfold confirm_order. frames. Qed.

Lemma framed_scan_order id : framed order still false (scan_order id).
Proof. unfold scan_order. frames. Qed.

Lemma framed_insert_order id row : framed order still false (insert_order id row).
Proof.
  intros db u db' Hrun. apply insert_order_Ok in Hrun as [_ ->]. by apply frame_same.
Qed.

Lemma framed_lulu_decimals c b : framed order still false (ResolveDecimals c b).
Proof. unfold ResolveDecimals. frames. Qed.

Lemma framed_lulu_player id : framed order still false (lulu_player is_uuid id).
Proof. unfold lulu_player. frames. Qed.

Lemma framed_lulu_admin id : framed order still false (lulu_admin is_uuid id).
Proof. unfold lulu_admin. frames. Qed.

#[local] Hint Resolve framed_lulu_balance framed_claim_receipt framed_confirm_order framed_scan_order
  framed_insert_order framed_lulu_decimals framed_lulu_player framed_lulu_admin : framed.

Lemma framed_match_receipt t o n : framed order still false (match_receipt t o n).
Proof. unfold match_receipt. frames. Qed.

Lemma framed_clear_route t wall receiver uid : framed order still false (clear_route t wall receiver uid).
Proof. unfold clear_route. frames. Qed.

#[local] Hint Resolve framed_match_receipt framed_clear_route : framed.

Lemma framed_lulu_tx db db' : lulu_tx is_uuid db db' -> frame order still false db db'.
Proof.
  assert (Hrun : forall A (m : Tx A) a, m db = Ok (a, db') -> framed order still false m -> frame order still false db db')
    by (intros A m a Hm Hf; by eapply Hf).
  intros []; (eapply Hrun; [eassumption|]).
  - unfold lulu_Create. frames.
  - unfold lulu_Review, review_money, lulu_audit. frames.
  - unfold lulu_List. frames.
  - unfold RecordReceipt. frames.
  - unfold begin_sending. frames.
  - unfold lulu_finish. frames.
  - unfold RecoverSending. frames.
  - unfold ExpireDeposits. frames.
Qed.
End lulu.

(** Bets and settlement. *)

Section bets.
Context `{Uuids} (order still lulu : bool).

Lemma framed_applyCommission now bet agent cur stake : framed order still lulu (applyCommission now bet agent cur stake).
Proof. unfold applyCommission, commission_wallet. frames. Qed.

Lemma framed_PayTx now bet cur a : framed order still lulu (PayTx now bet cur a).
Proof. unfold PayTx. frames. Qed.
#[local] Hint Resolve framed_applyCommission framed_PayTx : framed.

Lemma framed_pay_all now bet cur l : framed order still lulu (pay_all now bet cur l).
Proof. induction l as [|a l IH]; cbn [pay_all]; frames. Qed.
#[local] Hint Resolve framed_pay_all : framed.

Lemma framed_LoadTx id : framed order still lulu (LoadTx id).
Proof. unfold LoadTx. frames. Qed.
#[local] Hint Resolve framed_LoadTx : framed.

Lemma framed_loadLuluPlaysTx id : framed order still lulu (loadLuluPlaysTx id).
Proof. unfold loadLuluPlaysTx. intros db a db' Hrun. by apply lift_Ok in Hrun as [_ <-]. Qed.
#[local] Hint Resolve framed_loadLuluPlaysTx : framed.

Lemma framed_prepare_all rules plays outcome bs : framed order still lulu (prepare_all rules plays outcome bs).
Proof. induction bs as [|b bs IH]; cbn [prepare_all]; unfold prepare; frames. Qed.

Lemma framed_ensure_wallets now l : framed order still lulu (ensure_wallets now l).
Proof. induction l as [|[u c] l IH]; cbn [ensure_wallets]; frames. Qed.
#[local] Hint Resolve framed_prepare_all framed_ensure_wallets : framed.

#[local] Hint Extern 1 (framed order still lulu (update_bet _ _)) => apply framed_update_bet; intros; reflexivity : framed.

Lemma framed_refund_bet t b : framed order still lulu (refund_bet t b).
Proof. unfold refund_bet. frames. Qed.
#[local] Hint Resolve framed_refund_bet : framed.

Lemma framed_refund_bets t bs : framed order still lulu (refund_bets t bs).
Proof. induction bs as [|b bs IH]; cbn [refund_bets]; frames. Qed.

Lemma framed_update_round id f : framed order still lulu (update_round id f).
Proof. unfold update_round. frames. Qed.
#[local] Hint Resolve framed_refund_bets framed_update_round : framed.

Lemma framed_CancelRound t id : framed order still lulu (CancelRound t id).
Proof. unfold CancelRound. frames. Qed.

Section hook.
Context (hook : option (string -> string -> Z -> Z -> Tx ())) `{!TaskHook hook}.

Lemma framed_count_task p : framed order still lulu (count_task hook p).
Proof. intros db u db' Hrun. by eapply frame_untouched, count_task_Ok. Qed.
#[local] Hint Resolve framed_count_task : framed.

Lemma framed_settle_bet rules plays outcome settledAt p now result :
  framed order still lulu (settle_bet hook rules plays outcome settledAt p now result).
Proof. unfold settle_bet. frames. Qed.
#[local] Hint Resolve framed_settle_bet : framed.

Lemma framed_settle_bets t rules plays outcome ps : forall result, framed order still lulu (settle_bets hook t rules plays outcome ps result).
Proof. induction ps as [|p ps IH]; intros result; cbn [settle_bets]; unfold pay_agents; frames. Qed.
#[local] Hint Resolve framed_settle_bets : framed.

Lemma framed_publish_results roundID at_ rows users : framed order still lulu (publish_results roundID at_ rows users).
Proof. induction users as [|u us IH]; cbn [publish_results]; frames. Qed.
#[local] Hint Resolve framed_publish_results : framed.

Lemma framed_SettleRound t roundID outcome rules : framed order still lulu (SettleRound hook t roundID outcome rules).
Proof. unfold SettleRound, settle_open, settledResult. frames. Qed.
End hook.

Lemma framed_CancelBet t bet user : framed order still lulu (CancelBet t bet user).
Proof. unfold CancelBet, announce_cancelled. frames. Qed.

Lemma framed_VoidBet is_uuid t input : framed order still lulu (VoidBet is_uuid t input).
Proof. unfold VoidBet. frames. Qed.
End bets.

(** Placing a bet changes the stakes, and nothing of the packets. *)
Section placing.
Context `{Uuids} (still lulu : bool).

Lemma framed_SnapshotTx id : framed false still lulu (SnapshotTx id).
Proof. unfold SnapshotTx. frames. Qed.
#[local] Hint Resolve framed_SnapshotTx : framed.

Lemma framed_write_order t stamp r wid sim terms id merged : framed false still lulu (write_order t stamp r wid sim terms id merged).
Proof. unfold write_order. frames. Qed.
#[local] Hint Resolve framed_write_order : framed.

Lemma framed_placeBetTx t stamp r robot : framed false still lulu (placeBetTx t stamp r robot).
Proof. unfold placeBetTx, known_or, take_bet, announce_placed. frames. Qed.
End placing.

(** ** The invariants *)

Record platform_ok (db : DB) : Prop := {
  pf_custody : custody db;
  pf_bets : bets_ok db;
  pf_packets : packets_ok db;
  pf_orders : kinds_ok db
}.

(** Whatever keeps custody and leaves bets and packets alone. *)
Lemma frame_packets_ok o g db db' : frame o true g db db' -> packets_ok db -> packets_ok db'.
Proof.
  intros [Ho _ Hp _] [H1 H2 H3]. injection (Hp eq_refl) as Er Ec. split.
  - intros id p. rewrite Er. intros Hi. eapply packet_ok_frame; [by apply H1|done|by rewrite Ec..].
  - intros id c. rewrite Er, Ec. apply H2.
  - intros i j c d. rewrite Ec. apply H3.
Qed.

Lemma frame_kinds o b db db' : frame o b true db db' -> kinds_ok db -> kinds_ok db'.
Proof. intros [_ _ _ Hl] Hk id x. rewrite (Hl eq_refl). apply Hk. Qed.

Lemma framed_ok {A} (m : Tx A) db a db' :
  framed true true true m -> m db = Ok (a, db') -> custody db' -> platform_ok db -> platform_ok db'.
Proof.
  intros Hm Hrun Hcu [_ Hb Hp Hk]. specialize (Hm _ _ _ Hrun).
  split; [done|by eapply frame_bets_ok|by eapply frame_packets_ok|by eapply frame_kinds].
Qed.

(** Whatever leaves wallets, ledger, withdrawals, bets and packets alone. *)
Lemma aside_ok db db' : money db' = money db -> withdrawals db'.(app) = withdrawals db.(app) ->
  point_withdrawals db'.(app) = point_withdrawals db.(app) -> lulu_orders db'.(app) = lulu_orders db.(app) ->
  bets db'.(app) = bets db.(app) -> packets db' = packets db -> platform_ok db -> platform_ok db'.
Proof.
  intros Hm Hw Hq Hl Hb Hp [Hcu Hbo Hps Hk]. assert (Hfr : frame true true true db db') by (apply frame_same; auto).
  split; [|by eapply frame_bets_ok|by eapply frame_packets_ok|by eapply frame_kinds].
  apply (custody_quiet db); [done| |by apply quiet_app]. rewrite Hm. apply Hcu.
Qed.

Section steps.
Context `{Uuids}.

Lemma ConsumeStamina_custody t input db out db' :
  ConsumeStamina t input db = Ok (out, db') -> custody db -> custody db'.
Proof.
  intros Hrun Hcu. unfold ConsumeStamina in Hrun. cbv zeta in Hrun.
  apply tx_bind_Ok in Hrun as ([] & d & E & Hrun). apply reject_if_Ok in E as [Ha%Z.leb_gt <-].
  apply tx_bind_Ok in Hrun as ([] & d & E & Hrun). apply reject_if_Ok in E as [_ <-]. rewrite gets_skip in Hrun.
  destruct (findStaminaLedger _ _ _ db); [by apply tx_ret_Ok in Hrun as [_ <-]|].
  apply tx_bind_Ok in Hrun as (z & d & Ed & Hrun). apply tx_bind_Ok in Hrun as ([] & d' & El & Hrun).
  apply tx_ret_Ok in Hrun as [_ <-].
  eapply deduct_run in El as [Hrw _]; [|exact Ed|done|reflexivity| |lia|apply Hcu].
  - apply (custody_quiet db); [done|apply Hrw|apply Hrw].
  - split; apply (bool_decide_unpack _); vm_compute; done.
Qed.

(** One committed transaction of the platform: every service that writes a
    wallet or a ledger entry has its constructor.  The numeric premises are the
    range of the columns and of the inputs; [spins_ok] is a CHECK of the table
    of wheels, [wallets_fk] the foreign key of the wallets (migration 0001: an
    owner is a user), and the currencies of the initial balances of a virtual
    account are the keys of a Go map, so none comes twice.  [pf_elsewhere] is
    any transaction that leaves wallets, ledger, withdrawals, bets and packets
    alone: configuration, scheduling, roles, the first administrator (who has
    no wallet), queries. *)
Inductive platform_step (db db' : DB) : Prop :=
| pf_chain : chain_step db db' -> platform_step db db'
| pf_ask_points t user request amount remark p :
    amount <= int64_max -> RequestPointWithdrawal t user request amount remark db = Ok (p, db') -> platform_step db db'
| pf_review_points t id reviewer approved :
    ReviewPointWithdrawal t id reviewer approved db = Ok ((), db') -> platform_step db db'
| pf_adjust t i out : AdjustWallet t i db = Ok (out, db') -> platform_step db db'
| pf_consume t input out : ConsumeStamina t input db = Ok (out, db') -> platform_step db db'
| pf_spin t random user spin request v :
    spins_ok db -> LuckySpin t random user spin request db = Ok (v, db') -> platform_step db db'
| pf_claim_task is_uuid t user id out : ClaimBetTask is_uuid t user id db = Ok (out, db') -> platform_step db db'
| pf_packet : packet_step db db' -> platform_step db db'
| pf_lulu is_uuid : lulu_tx is_uuid db db' -> platform_step db db'
| pf_place t stamp req robot pb :
    in_int64 (pr_StakeMinor req) -> placeBetTx t stamp req robot db = Ok (pb, db') -> platform_step db db'
| pf_cancel t betID user pb : CancelBet t betID user db = Ok (pb, db') -> platform_step db db'
| pf_void is_uuid t input out : VoidBet is_uuid t input db = Ok (out, db') -> platform_step db db'
| pf_settle hook `{!TaskHook hook} t roundID outcome rules r :
    SettleRound hook t roundID outcome rules db = Ok (r, db') -> platform_step db db'
| pf_cancel_round t roundID n : CancelRound t roundID db = Ok (n, db') -> platform_step db db'
| pf_grant t request agent cur amount remark op id :
    amount <= int64_max -> GrantCommission t request agent cur amount remark op db = Ok (id, db') -> platform_step db db'
| pf_reverse t id c :
    commission_entries db.(app) !! id = Some c -> in_int64 (ce_amount_minor c) ->
    ReverseCommission t id db = Ok ((), db') -> platform_step db db'
| pf_reward any_typed t d :
    du_amount d <= int64_max -> pay any_typed t d db = Ok ((), db') -> platform_step db db'
| pf_register t name shown hash role code id :
    RegisterPasswordUser t name shown hash role code db = Ok (id, db') -> platform_step db db'
| pf_player is_uuid IDKey t salt i x : CreatePlayerAccount is_uuid IDKey t salt i db = Ok (x, db') -> platform_step db db'
| pf_virtual is_uuid IDKey t salt i x :
    NoDup (map fst (vi_InitialBalances i)) -> wallets_fk db ->
    CreateVirtualAccount is_uuid IDKey t salt i db = Ok (x, db') -> platform_step db db'
| pf_debit t a b n c e : n <= int64_max -> Postgres.DebitForBet t a b n c db = (Ok e, db') -> platform_step db db'
| pf_credit t a b n c e : n <= int64_max -> Postgres.CreditSettlement t a b n c db = (Ok e, db') -> platform_step db db'
| pf_robot is_uuid t stamp random id n : runPlan is_uuid t stamp random id db = Ok (n, db') -> platform_step db db'
| pf_elsewhere :
    money db' = money db -> withdrawals db'.(app) = withdrawals db.(app) ->
    point_withdrawals db'.(app) = point_withdrawals db.(app) ->
    lulu_orders db'.(app) = lulu_orders db.(app) -> bets db'.(app) = bets db.(app) ->
    packets db' = packets db -> platform_step db db'.

(** *** Custody of each transaction *)

Lemma chain_step_framed db db' : chain_step db db' -> frame true true true db db'.
Proof.
  intros [];
    [by eapply framed_CreditDeposit|by eapply framed_RequestWithdrawal|by eapply framed_ApproveWithdrawal
    |by eapply framed_RejectWithdrawal|by eapply framed_mark_broadcasted|by eapply framed_ApplyWithdrawalStatus].
Qed.

Lemma packet_step_framed db db' : packet_step db db' -> frame true false true db db'.
Proof. intros []; [by eapply framed_Create|by eapply framed_do_claim|by eapply framed_refundOne]. Qed.

Lemma LuckySpin_custody t random user spin request db v db' :
  LuckySpin t random user spin request db = Ok (v, db') -> custody db -> spins_ok db -> custody db'.
Proof.
  intros Hrun Hcu Hok. unfold LuckySpin in Hrun.
  apply tx_bind_Ok in Hrun as ([] & d & E & Hrun). apply reject_if_Ok in E as [_ <-]. rewrite gets_skip in Hrun.
  destruct (findSpin user request db) as [r|]; [by apply shown_spin_Ok in Hrun as (-> & _)|]. rewrite gets_skip in Hrun.
  apply tx_bind_Ok in Hrun as (config & d & E & Hrun). apply found_Ok in E as [Hc <-].
  apply tx_bind_Ok in Hrun as (prize & d & E & Hrun). apply found_Ok in E as [_ <-].
  by destruct (draw_spin_run _ _ _ _ _ _ _ _ Hrun (findSpinConfig_row _ _ _ _ Hok Hc) Hcu).
Qed.

Lemma placeBetTx_ok t stamp req robot db pb db' :
  placeBetTx t stamp req robot db = Ok (pb, db') -> in_int64 (pr_StakeMinor req) -> platform_ok db -> platform_ok db'.
Proof.
  intros Hrun Hin [Hcu Hok Hps Hk]. pose proof (framed_placeBetTx true true _ _ _ _ _ _ _ Hrun) as Hfr.
  destruct (placeBetTx_run _ _ _ _ _ _ _ Hrun) as (Hst & _ & [[_ ->]|(_ & _ & u & terms & _ & _ & _ & Htake)]); [done|].
  assert (Hs : 0 < pr_StakeMinor (normalize_bet req) <= int64_max) by (unfold in_int64 in Hin; cbn in *; lia).
  destruct (take_bet_run _ _ _ _ _ _ _ _ Htake (cu_books _ Hcu) Hs) as (wid & w & merged & id & b & Ht).
  split; [|by eapply taken_bets_ok|by eapply frame_packets_ok|by eapply frame_kinds].
  apply (custody_quiet db); [done|apply Ht|apply Ht].
Qed.

Lemma CancelBet_custody t betID user db pb db' :
  CancelBet t betID user db = Ok (pb, db') -> custody db -> bets_ok db -> custody db'.
Proof.
  intros Hrun Hcu Hok. destruct (bets (app db) !! betID) as [b|] eqn:Hb.
  - destruct (decide (bt_status b = "cancelled"%string)) as [Hc|Hc]; [|by eapply CancelBet_run].
    unfold CancelBet, select_id in Hrun. rewrite gets_skip in Hrun. change (tbl (app db)) with (bets (app db)) in Hrun.
    rewrite Hb in Hrun. cbn [mbind option_bind] in Hrun. case_bool_decide as Hu; [|discriminate Hrun].
    rewrite (found_skip _ _ _ _ _ eq_refl), Hc in Hrun. rewrite bool_decide_false in Hrun by done.
    rewrite bool_decide_true in Hrun by done. cbn [andb negb reject_if] in Hrun. tx_steps; done.
  - unfold CancelBet, select_id in Hrun. rewrite gets_skip in Hrun. change (tbl (app db)) with (bets (app db)) in Hrun.
    by rewrite Hb in Hrun.
Qed.

Lemma VoidBet_custody is_uuid t input db out db' :
  VoidBet is_uuid t input db = Ok (out, db') -> custody db -> bets_ok db -> custody db'.
Proof.
  intros Hrun Hcu Hok.
  destruct (find_row (void_key (vi_OperatorID (trimmed input)) (vi_RequestID (trimmed input))) (bet_voids db.(app)))
    as [[id v]|] eqn:E.
  - unfold VoidBet in Hrun. fold (trimmed input) in Hrun. cbv zeta in Hrun.
    apply tx_bind_Ok in Hrun as ([] & d & E1 & Hrun). apply reject_if_Ok in E1 as [_ <-].
    rewrite gets_skip in Hrun. apply tx_bind_Ok in Hrun as (admin & d & E1 & Hrun). apply lift_Ok in E1 as [_ <-].
    unfold select_where in Hrun. rewrite gets_skip in Hrun. change (tbl (app db)) with (bet_voids (app db)) in Hrun.
    rewrite E in Hrun. by tx_steps.
  - by destruct (VoidBet_run _ _ _ _ _ _ Hrun E Hcu Hok) as (_ & _ & _ & _ & _ & _ & _ & _ & _ & _ & _ & Hcu' & _).
Qed.

Lemma SettleRound_custody hook `{!TaskHook hook} t roundID outcome rules db r db' :
  SettleRound hook t roundID outcome rules db = Ok (r, db') -> custody db -> custody db'.
Proof.
  intros Hrun Hcu. destruct (SettleRound_found _ _ _ _ _ _ _ _ Hrun) as (round & Hround & Hsame).
  destruct (decide (rd_status round = RoundSettled)) as [Hst|Hst]; [by rewrite (Hsame Hst)|].
  destruct (SettleRound_run _ _ _ _ _ _ _ _ _ Hrun (cu_books _ Hcu) Hround Hst) as (_ & plays & _ & [Hb Hq _ _ _] & _).
  by apply (custody_quiet db).
Qed.

Lemma CancelRound_custody t roundID db n db' :
  CancelRound t roundID db = Ok (n, db') -> custody db -> bets_ok db -> custody db'.
Proof.
  intros Hrun Hcu Hok. destruct (CancelRound_found _ _ _ _ _ Hrun) as (round & Hround & Hsame).
  destruct (decide (rd_status round = RoundCancelled)) as [Hst|Hst]; [by rewrite (Hsame Hst)|].
  destruct (CancelRound_run _ _ _ _ _ _ Hrun Hok (cu_books _ Hcu) Hround Hst) as (_ & _ & Hb & Hq & _).
  by apply (custody_quiet db).
Qed.

Lemma GrantCommission_custody t request agent cur amount remark op db id db' :
  GrantCommission t request agent cur amount remark op db = Ok (id, db') -> amount <= int64_max -> custody db -> custody db'.
Proof.
  intros Hrun Hmax Hcu. destruct (Grant_run _ _ _ _ _ _ _ _ _ _ (cu_books _ Hcu) Hmax Hrun) as (_ & [[_ ->]|Hg]); [done|].
  apply (custody_quiet db); [done|apply Hg|apply Hg].
Qed.

Lemma custody_aside db db' : money db' = money db -> withdrawals db'.(app) = withdrawals db.(app) ->
  point_withdrawals db'.(app) = point_withdrawals db.(app) -> lulu_orders db'.(app) = lulu_orders db.(app) ->
  custody db -> custody db'.
Proof. intros Hm Hw Hp Hl Hcu. apply (custody_quiet db); [done|rewrite Hm; apply Hcu|by apply quiet_app]. Qed.

Lemma RegisterPasswordUser_custody t name shown hash role code :
  tx_keeps custody (RegisterPasswordUser t name shown hash role code).
Proof.
  assert (Hw : forall now user l, tx_keeps custody (open_wallets now user l)).
  { induction l as [|c l IH]; cbn [open_wallets]; keeps.
    - apply tx_keeps_new_uuid. intros d. by apply custody_aside.
    - intros d b d' [(_ & <- & _)|(_ & Hnone & Hid & <-)]%insert_wallet_Ok; [done|]. intros Hcu. by apply custody_open. }
  assert (Hrooms : forall now user, tx_keeps custody (ensure_user_customer_service_rooms now user)).
  { intros now user. unfold ensure_user_customer_service_rooms, insert_service_room, join_service_rooms.
    keeps; first [apply tx_keeps_new_uuid | apply tx_keeps_modify | apply tx_keeps_insert_unless];
      intros d; by apply custody_aside. }
  assert (Hrole : forall user role, tx_keeps custody (insert_role user role)).
  { intros user role' d u d' Hrun. unfold insert_role in Hrun. destruct (existsb _ _); [done|]. injection Hrun as _ <-.
    by apply custody_aside. }
  assert (Hpublic : tx_keeps custody next_public_id).
  { intros d u d' Hrun. unfold next_public_id in Hrun. destruct (_ <? _); [done|]. injection Hrun as _ <-.
    by apply custody_aside. }
  unfold RegisterPasswordUser, insert_user, insert_identity, select_where. keeps;
    try apply taken_if_unique_keeps; keeps;
    try first [apply tx_keeps_new_uuid | apply tx_keeps_insert_row]; intros d; by apply custody_aside.
Qed.

(** *** The wallet repository *)

Lemma mutate_custody t a b n c bt et d db e db' :
  (forall v, 0 <= v <= int64_max -> 0 < n -> 0 <= (v + d)%i64 -> (v + d)%i64 = v + d) ->
  Postgres.mutate t a b n c bt et d db = Ok (e, db') -> custody db -> custody db'.
Proof.
  intros Hd Hrun Hcu. destruct (mutate_inv _ _ _ _ _ _ _ _ _ _ _ Hrun) as (Hn & [[-> _]|(id & w & w' & Hr & Hnn & -> & Hok & Hm & _)]); [done|].
  apply find_wallet_row in Hr as (Hw & Hu & Hc). pose proof (Hd _ (proj1 (bounded_lookup _ _ _ (cu_books _ Hcu) Hw)) Hn Hnn) as Hx.
  set (P := fun x => withdrawals x.(app) = withdrawals db.(app) /\ point_withdrawals x.(app) = point_withdrawals db.(app) /\
    lulu_orders x.(app) = lulu_orders db.(app)).
  assert (Hk : tx_keeps P (Postgres.mutate t a b n c bt et d)).
  { unfold Postgres.mutate, Postgres.findEntry, find_wallet. keeps.
    - by intros x u x' [(_ & <-)|(v & _ & _ & <-)]%update_wallet_Ok.
    - by apply tx_keeps_new_uuid.
    - by intros x u x' (v & _ & _ & <-)%insert_ledger_Ok. }
  destruct (Hk _ _ _ Hrun) as (E1 & E2 & E3); [done|].
  assert (Hpo : posted db db' id w (wallet_after w (fun _ => (w_available w + d)%i64) w_frozen t)
    (ledger_row_of (wallet_after w (fun _ => (w_available w + d)%i64) w_frozen t) t
       (entry (drawn db) id bt b et d (w_available w + d)%i64))).
  { split; try done; cbn; lia. }
  apply (custody_quiet db); [done|eapply posted_books; [exact Hpo|apply Hcu]|by eapply posted_quiet].
Qed.

Lemma debit_wraps n v : n <= int64_max -> 0 <= v <= int64_max -> 0 < n -> (v + (- n)%i64)%i64 = v + (- n)%i64.
Proof. intros. rewrite debit_delta, exact_neg; lia. Qed.

Lemma credit_wraps n v : n <= int64_max -> 0 <= v <= int64_max -> 0 < n -> 0 <= (v + n)%i64 -> (v + n)%i64 = v + n.
Proof. intros. apply checked_add; lia. Qed.

(** *** A robot's turn *)

Lemma robot_wallet_ok now user cur : tx_keeps platform_ok (robot_wallet now user cur).
Proof.
  unfold robot_wallet. keeps; [apply tx_keeps_new_uuid; intros d; by apply aside_ok|].
  intros d b d' Hrun [Hcu Hbo Hps Hk].
  assert (Hfr : frame true true true d d') by (by apply (framed_new_wallet true true true) in Hrun).
  split; [|by eapply frame_bets_ok|by eapply frame_packets_ok|by eapply frame_kinds].
  apply insert_wallet_Ok in Hrun as [(_ & <- & _)|(_ & Hnone & Hid & <-)]; [done|by apply custody_open].
Qed.

#[local] Hint Resolve robot_wallet_ok : keeps.

Lemma or_message_keeps {A} (m : Tx A) : tx_keeps platform_ok m -> tx_keeps platform_ok (or_message m).
Proof.
  intros Hm d x d' Hrun. destruct x as [msg|a]; [|by apply or_message_inr in Hrun; apply (Hm _ _ _ Hrun)].
  unfold or_message in Hrun. destruct (m d) as [[y e]|e]; [done|]. destruct (bet_message e); [by injection Hrun as _ <-|done].
Qed.

Lemma robot_bet_ok is_uuid t stamp id round i pick amount : in_int64 amount ->
  tx_keeps platform_ok (robot_bet is_uuid t stamp id round i pick amount).
Proof.
  intros Hin. unfold robot_bet. assert (Hplace : forall user, tx_keeps platform_ok
    (PlaceRobotBetTx t stamp (robot_request id round user i pick amount))).
  { intros user d pb d' Hrun. by eapply placeBetTx_ok. }
  keeps; by apply or_message_keeps.
Qed.

Lemma finish_ok now id status message n : tx_keeps platform_ok (finish now id status message n).
Proof. unfold finish. keeps. apply tx_keeps_update_row. intros d r. by apply aside_ok. Qed.
#[local] Hint Resolve finish_ok : keeps.

Lemma randomBetween_in_int64 random low high v : randomBetween random low high = Ok v -> in_int64 v.
Proof.
  intros H0. unfold randomBetween in H0. apply guard_Ok in H0 as [_ H0]. apply res_bind_Ok in H0 as (n & _ & H0).
  injection H0 as <-. apply wrap64_range.
Qed.

Lemma place_now_ok is_uuid t stamp random id round i : tx_keeps platform_ok (place_now is_uuid t stamp random id round i).
Proof.
  intros db n db' Hrun Hok. unfold place_now in Hrun. apply tx_bind_Ok in Hrun as (index & d & E & Hrun). apply lift_Ok in E as [_ <-].
  apply tx_bind_Ok in Hrun as (pick & d & E & Hrun). apply found_Ok in E as [_ <-].
  apply tx_bind_Ok in Hrun as (amount & d & E & Hrun). apply lift_Ok in E as [Ham%randomBetween_in_int64 <-].
  apply tx_bind_Ok in Hrun as (bet & d & E & Hrun). apply savepoint_Ok in E.
  destruct bet as [message|placed]; [subst d; by apply (finish_ok _ _ _ _ _ _ _ _ Hrun)|].
  pose proof (robot_bet_ok _ _ _ _ _ _ _ _ Ham _ _ _ E Hok) as Hd. apply tx_bind_Ok in Hrun as (k & d1 & E1 & Hrun).
  assert (Hu : tx_keeps platform_ok (update_row (R := robot_plan_row) id (set_last_bet (pl_BetID placed)))).
  { apply tx_keeps_update_row. intros x r. by apply aside_ok. }
  exact (finish_ok _ _ _ _ _ _ _ _ Hrun (Hu _ _ _ E1 Hd)).
Qed.

#[local] Hint Resolve place_now_ok : keeps.

Lemma runPlan_ok is_uuid t stamp random id db n db' :
  runPlan is_uuid t stamp random id db = Ok (n, db') -> platform_ok db -> platform_ok db'.
Proof.
  assert (Hk : tx_keeps platform_ok (runPlan is_uuid t stamp random id)).
  { unfold runPlan, run_round, next_bettable. keeps. apply tx_keeps_update_row. intros d r'. by apply aside_ok. }
  apply Hk.
Qed.

Lemma platform_step_ok db db' : platform_step db db' -> platform_ok db -> platform_ok db'.
Proof.
  intros Hstep Hok. pose proof Hok as [Hcu Hbo Hps Hk]. destruct Hstep.
  - split; [by eapply event_custody, chain_step_event|by eapply frame_bets_ok, Hbo; apply chain_step_framed
           |by eapply frame_packets_ok, Hps; apply chain_step_framed|by eapply frame_kinds, Hk; apply chain_step_framed].
  - eapply framed_ok; [apply framed_RequestPointWithdrawal|eassumption| |done].
    by eapply point_event_custody, RequestPointWithdrawal_event.
  - eapply framed_ok; [apply framed_ReviewPointWithdrawal|eassumption| |done].
    by eapply point_event_custody, ReviewPointWithdrawal_event.
  - eapply framed_ok; [apply framed_AdjustWallet|eassumption|by eapply AdjustWallet_custody|done].
  - eapply framed_ok; [apply framed_ConsumeStamina|eassumption|by eapply ConsumeStamina_custody|done].
  - eapply framed_ok; [apply framed_LuckySpin|eassumption|by eapply LuckySpin_custody|done].
  - eapply framed_ok; [apply framed_ClaimBetTask|eassumption| |done].
    by match goal with E : ClaimBetTask _ _ _ _ _ = Ok _ |- _ =>
      destruct (ClaimBetTask_run _ _ _ _ _ _ _ E Hcu) as (? & ? & ? & ? & ? & ? & ? & ? & ? & ? & ? & ? & ? & ? & Hcu' & _) end.
  - match goal with E : packet_step _ _ |- _ => destruct (packet_step_event _ _ E Hcu Hps) as (Hev & Hcu' & _);
      pose proof (packet_step_framed _ _ E) as Hfr end.
    split; [done|by eapply frame_bets_ok|by eapply packet_event_packets|by eapply frame_kinds].
  - match goal with E : lulu_tx _ _ _ |- _ => destruct (tx_custody _ _ _ E Hcu Hk) as [Hcu' Hk'];
      pose proof (framed_lulu_tx true true _ _ _ E) as Hfr end.
    split; [done|by eapply frame_bets_ok|by eapply frame_packets_ok|done].
  - by eapply placeBetTx_ok.
  - eapply framed_ok; [apply framed_CancelBet|eassumption|by eapply CancelBet_custody|done].
  - eapply framed_ok; [apply framed_VoidBet|eassumption|by eapply VoidBet_custody|done].
  - eapply framed_ok; [by apply framed_SettleRound|eassumption|by eapply SettleRound_custody|done].
  - eapply framed_ok; [apply framed_CancelRound|eassumption|by eapply CancelRound_custody|done].
  - eapply framed_ok; [apply framed_GrantCommission|eassumption|by eapply GrantCommission_custody|done].
  - eapply framed_ok; [apply framed_ReverseCommission|eassumption| |done].
    match goal with E : ReverseCommission _ _ _ = Ok _, Hc : _ !! _ = Some _ |- _ =>
      pose proof (Reverse_run _ _ _ _ _ (cu_books _ Hcu) Hc ltac:(done) E) as Hr end.
    by apply (custody_quiet db); [|apply Hr|apply Hr].
  - eapply framed_ok; [apply framed_pay|eassumption| |done].
    match goal with E : pay _ _ _ _ = Ok _ |- _ =>
      destruct (pay_run _ _ _ _ _ (cu_books _ Hcu) ltac:(done) E) as [[_ ->]|Hp] end; [done|].
    by apply (custody_quiet db); [|apply Hp|apply Hp].
  - eapply framed_ok; [apply framed_RegisterPasswordUser|eassumption|by eapply RegisterPasswordUser_custody|done].
  - eapply framed_ok; [apply framed_CreatePlayerAccount|eassumption|by eapply CreatePlayerAccount_custody|done].
  - eapply framed_ok; [apply framed_CreateVirtualAccount|eassumption|by eapply CreateVirtualAccount_custody|done].
  - match goal with E : Postgres.DebitForBet _ _ _ _ _ _ = _ |- _ => apply run_Ok in E end.
    eapply framed_ok; [apply framed_mutate|eassumption|eapply mutate_custody; [|eassumption|done]|done].
    intros v Hv Hpos _. by apply debit_wraps.
  - match goal with E : Postgres.CreditSettlement _ _ _ _ _ _ = _ |- _ => apply run_Ok in E end.
    eapply framed_ok; [apply framed_mutate|eassumption|eapply mutate_custody; [|eassumption|done]|done].
    intros v Hv Hpos Hnn. by apply credit_wraps.
  - by eapply runPlan_ok.
  - by eapply aside_ok.
Qed.
End steps.

(** C1: The money of the platform is in custody.  Whatever the services do, in
    whatever order their transactions commit - deposits, withdrawals and their
    callbacks, points, adjustments, the wheel, task rewards, red packets, Lulu
    orders, manual commissions and their reversal, board rewards, registrations,
    players opened by the staff, virtual accounts with the balances they start
    with, robots, the calls of the wallet repository, bets and their
    cancellation, voiding, settlement (with the commissions and rebates it pays)
    and refund - every wallet stays within its range, its two balances are exactly what the ledger booked, and what is
    frozen is exactly what its open withdrawals asked for; every bet has
    a positive stake and a wallet, and every red packet adds up. *)
Theorem platform_custody `{Uuids} db db' :
  rtc platform_step db db' -> platform_ok db ->
  platform_ok db' /\
  forall id w, wallets db'.(money) !! id = Some w ->
    0 <= w_available w <= int64_max /\ 0 <= w_frozen w <= int64_max /\
    w_available w = booked le_available_delta db'.(money) id /\
    w_frozen w = booked le_frozen_delta db'.(money) id /\ w_frozen w = outstanding db' id.
Proof.
  intros Hsteps Hok. assert (Hok' : platform_ok db').
  { induction Hsteps as [|db d db' Hstep _ IH]; [done|]. by apply IH, (platform_step_ok db). }
  split; [done|]. intros id w Hw. destruct Hok' as [Hcu _ _ _]. destruct (cu_books _ Hcu) as [Hbd Hrec _ _].
  destruct (Hrec id) as [Ha Hf]. unfold avail, frozen in Ha, Hf. rewrite Hw in Ha, Hf. cbn in Ha, Hf.
  pose proof (cu_backed _ Hcu id) as Hout. unfold frozen in Hout. rewrite Hw in Hout. cbn in Hout.
  destruct (Hbd id w Hw) as [H1 H2]. split; [done|split; [done|split; [done|split; [done|congruence]]]].
Qed.

(** ** Witness *)

Lemma example_ok : platform_ok example_db.
Proof.
  split; [exact example_custody|..].
  - by split; intros id b [=].
  - split; [by intros ? ? [=]|by intros ? ? [=]|by intros ? ? ? ? [=]].
  - by intros id o [=].
Qed.

Definition run_result (m : Tx DepositResult) (db : DB) : DepositResult :=
  match m db with Ok (r, _) => r | Err _ => no_deposit end.

(** Alice deposits five USDT and asks to withdraw three. *)
Lemma platform_custody_witness : exists r db',
  RequestWithdrawal noon example_policy example_request funded_db = Ok (r, db') /\ platform_ok db' /\
  exists id w, wallets db'.(money) !! id = Some w /\ w_frozen w = 3000000 /\ outstanding db' id = 3000000.
Proof.
  destruct (succeeds_Ok (fun x => match find_row (is_wallet_of "alice" "USDT") (wallets x.2.(money)) with
      | Some (_, w) => w_frozen w =? 3000000 | None => false end)
    (RequestWithdrawal noon example_policy example_request funded_db)) as ([r db'] & Hrun & Hobs).
  { vm_compute. reflexivity. }
  exists r, db'. split; [exact Hrun|]. cbn [snd] in Hobs.
  destruct (find_row _ _) as [[id w]|] eqn:Hw; [|discriminate Hobs]. apply Z.eqb_eq in Hobs.
  destruct (platform_custody example_db db') as [Hok Hall]; [|exact example_ok|].
  - eapply rtc_l; [|eapply rtc_l; [|apply rtc_refl]].
    + apply pf_chain, (step_deposit _ funded_db noon example_deposit (run_result (CreditDeposit noon example_deposit) example_db)).
      * vm_compute. discriminate.
      * unfold run_result, funded_db, run_or.
        destruct (succeeds_Ok (fun _ => true) (CreditDeposit noon example_deposit example_db)) as ([x d] & Hd & _);
          [vm_compute; reflexivity|]. by rewrite Hd.
    + apply pf_chain. eapply step_request; [|exact Hrun]. vm_compute. discriminate.
  - split; [exact Hok|]. exists id, w. apply find_wallet_row in Hw as (Hw & _).
    split; [exact Hw|]. split; [exact Hobs|]. destruct (Hall id w Hw) as (_ & _ & _ & _ & Hout). congruence.
Defined.
